(* ===== verification/_CoqProject ===== *)
-Q . S2P
Prelude.v
GoLib.v
Regexp.v
ClassSpecs.v
Types.v
Labels.v
Samples.v
MachineSets.v
DeploymentUtil.v
Prog.v
NodeOps.v
RefManager.v
DeploymentSync.v
Rollout.v
RolloutProgress.v
Validation.v
ClassValidation.v
DeploymentController.v
Expectations.v
MachineSetController.v
MachineSetProgress.v
Driver.v
Freezing.v
StringSimilarity.v
MachineCodes.v
NodeTemplate.v
MachineClasses.v
MachineUtil.v
MachineDeletion.v
MachineController.v
MachineSafety.v
VolumeAttachments.v
DrainCore.v
Drain.v
InTreeMachine.v
InTreeFlows.v
InTreeClasses.v
Cloud.v
Threads.v
CloudAWS.v
CloudPacket.v
CloudAlicloud.v
CloudGCP.v
CloudOpenStack.v
CloudAzure.v
InTreeDrain.v
DrainFlow.v
Clouds.v
Events.v
