(* ===== verification/Prelude.v ===== *)
(** * machine-controller-manager: models and proofs

    The program (src/) keeps declaratively described groups of cloud machines in the wanted state.  A
    machine deployment owns machine sets, one per version of its machine template; a machine set owns
    machines; a machine has a VM at a cloud provider and a node in the target cluster.  The deployment
    controller rolls a new template out by growing a new machine set and shrinking the old ones; the machine
    set controller creates and deletes machine objects until their number is right; the machine controller
    creates, watches and takes down the VM of each machine; safety controllers look after all of them.  Each
    controller is a reconcile function that reads objects, computes, and writes objects back to an API
    server shared with everybody else.  There are two machine controllers: an older one for provider-specific
    classes, which calls the drivers of pkg/driver itself ("in-tree"), and a newer one for drivers that are
    processes of their own (pkg/util/provider).

    ** How programs are modelled

    Pure functions are Rocq functions.  A function that talks to the outside is a program [prog A]
    (Prog.v): a tree of requests (API server, informer caches, clock, work queues, goroutine scheduler,
    expectations, drivers) with a branch for every possible answer.  [exec p h o] says that with the answers
    in the history [h] the program makes exactly these calls and ends with outcome [o] (returned value,
    returned Go error, run-time panic, fuel used up).  Theorems quantify over all executions, so they hold
    whatever the API server answers: failures, conflicts, stale caches and foreign changes included.
    Assumptions on the environment are hypotheses on the history ([echoes]: an accepted update is stored as
    sent; [honest_clock]: time does not run backwards; [kind], [accepting]: writes are accepted).  [run]
    executes a program against a deterministic world; the witnesses use it.  Goroutines joined by a
    [WaitGroup] or a channel are [par] and [par_list]: the scheduler picks who goes on before every call.
    Properties that span many reconciliations are stated over sequences of them ([deletion_runs],
    [reconciliations], [nsteps]), each started from a state the previous ones may have left in the API
    server.  [inline] puts one program in the place of another's request (DrainFlow.v).

    A driver method is a [cloud] computation (Cloud.v): it changes the state of the cloud, which is opaque,
    through the calls of an SDK, and returns a value, an error or a panic.  Where a driver starts goroutines
    they are threads that share the cloud under an arbitrary schedule (Threads.v), with a rely-guarantee rule.

    [int32] and [int64] arithmetic wraps around ([wrap32], [wrap64]; notations [+32], [-32]); [int] of
    lengths and times (in nanoseconds) are unbounded.  A nil map is the empty map; pointers are options;
    [reflect.DeepEqual] and the semantic equality of the API are equality of the records.  Event recording,
    logging and metrics are left out.

    ** Files

    - Prelude.v: widths, sums, [sort.Sort] as a class ([GoSort]: any function that permutes its input and
      sorts it when the order is a strict weak one), errors, generic lemmas, tactics.
    - GoLib.v: what is used of strings, strconv, time, integer and intstr.  Regexp.v: regular expressions,
      matched with derivatives.  Labels.v: label selectors, owner references, pkg/util/labels.
    - Types.v: pkg/apis/machine/v1alpha1.  ClassSpecs.v: the provider-specific specifications of
      pkg/apis/machine/types.go.  Samples.v: small objects for the witnesses.
    - Prog.v: programs, executions, and the reasoning about them ([emits], [rets], [returns_when], [total],
      loop rules).
    - NodeOps.v: taints, annotations and conditions of nodes (pkg/util/taints, nodeops, annotations).

    Controller manager (pkg/controller):
    - MachineSets.v: orders, filters and counts of controller_utils.go and deployment_util.go.
    - DeploymentUtil.v: deployment_util.go (conditions, revisions, annotations, fenceposts, template
      comparison, new and old machine sets, proportions, progress).
    - RefManager.v: controller_ref_manager.go, one generic manager with two instances.
    - DeploymentSync.v: deployment_sync.go.  Rollout.v: deployment_rolling.go, deployment_recreate.go,
      deployment_progress.go.  RolloutProgress.v: sequences of reconciliations of a rolling update.
    - Validation.v and ClassValidation.v: pkg/apis/machine/validation (machines, sets and deployments; classes).
    - DeploymentController.v: deployment.go and deployment_rollback.go.
    - Expectations.v: the expectations of controller_utils.go, with the interface as a class, its laws, the
      counters as an instance and the UID-tracking wrapper proved against the laws.
    - MachineSetController.v: machineset.go, deployment_machineset_util.go, the machine part of
      machineset_util.go and [RealMachineControl].  MachineSetProgress.v: sequences of its reconciliations.
    - Driver.v: what the controllers see of pkg/driver.  Freezing.v: machine_safety.go (freezing of
      overshooting machine sets and their deployments, orphan VMs).

    Machine controller for out-of-tree drivers (pkg/util/provider):
    - StringSimilarity.v: pkg/util/strings.  MachineCodes.v: machinecodes (status codes carried in errors).
    - NodeTemplate.v: machineutils, and the labels, annotations and taints of a machine's template.
    - MachineClasses.v: machine classes and secrets, their finalizers and migration.
    - MachineUtil.v: statuses, timeouts, health and bootstrap tokens of machine_util.go.
    - MachineDeletion.v: the deletion flow.  MachineController.v: machine.go (creation, updates, reconcile) and
      the worker of controller.go.
    - MachineSafety.v: machine_safety.go (API outages, orphan VMs, unmanaged nodes).
    - VolumeAttachments.v, DrainCore.v, Drain.v: the drain package.  DrainCore.v has what this drain and the
      in-tree one share; the class [DrainSteps] has the parts in which they differ and [DrainStepsLaws] what is
      relied on, and Drain.v and InTreeDrain.v are its instances.

    In-tree machine controller and drivers (pkg/controller, pkg/driver):
    - InTreeMachine.v: machine.go, machine_util.go, machine_bootstrap_token.go; InTreeFlows.v: its theorems.
    - InTreeClasses.v: the six class controllers, written once, and secret.go.
    - Cloud.v: the interface of driver.go as the record [CloudDriver], the contract [TracksVMs] that the
      controllers rely on, the fake driver.  Threads.v: goroutines that call a cloud.
    - CloudAWS.v, CloudPacket.v, CloudAlicloud.v, CloudGCP.v, CloudOpenStack.v, CloudAzure.v: the drivers.
    - InTreeDrain.v: drain.go.  DrainFlow.v: the deletion flow with the drain put into it.
    - Clouds.v: the controllers on top of a driver that keeps [TracksVMs], and of one that does not.
    - Events.v: the handlers that controller.go registers with the informers.

    ** What the theorems show

    Rollouts: a rolling update keeps enough machines available, never shrinks below zero, and comes to an end
    whatever the health of the old machines is; proportional scaling distributes exactly the allowed total;
    Recreate waits for the old machines; clean-up removes only old empty machine sets.  Revisions: the new
    machine set is found correctly and its revision is the newest; rollback clears its request.  Ownership:
    patches are sent only under their guards, deletion is orderly, finalizers go last.  Machine sets:
    creations and deletions are only those the size calls for, the bookkeeping of slow start and expectations
    is exact, the status counts right, and the number of machines approaches the size with every
    reconciliation that is not disturbed.

    Machines: over any sequence of reconciliations no machine gets two VMs, and a machine is taken down in
    the order drain, VM, node, finalizer; in a cooperative world creation comes to an end, and deletion from
    wherever it stands; the health check refines a small state machine of phases.  Drain: only pods of the
    node that may be removed are touched, as many results are reported as there are pods, evictions come
    before deletions.  Safety: freezing on
    API outages refines its transition function, orphans and only orphans are collected, frozen machine sets
    do not grow.  Helpers: status codes survive their way through error texts, the similarity of descriptions
    is the Levenshtein distance, node templates converge.

    In-tree machines: a VM that was created is written down or asked to be deleted again; a machine is let go
    only after its VM and its node, and, with the drain put into the flow, only after its pods; the health
    check decides on the same status as that of the newer controller; the drain ends by the clock.  Classes:
    validation accepts exactly the
    classes that satisfy the rules of their provider; finalizers of classes and secrets come and go under
    their guards.  Drivers: a VM of a driver that keeps the contract is neither made twice nor collected; the
    AWS driver deletes only the instance asked for, and that of the class; a deletion by the Azure driver
    leaves nothing behind under any interleaving of its parallel deleters; the Packet driver breaks the
    contract, and the collector then deletes VMs in use.

    Loops end: the fuel of the retry loop on annotations is enough with an honest clock, slow start ends
    within its count, the waits for volumes end with the clock.  Several theorems pin down behaviour that
    differs from what the comments or the purpose of the code suggest (the theorems of kind error in the
    manifest, and its findings).

    ** Bounds and fuel

    [RetryOnConflict] has the source's four and five steps.  [cfg_poll_checks] stands for the checks that
    fit into a poll's timeout and is arbitrary.  [cfg_retry_rounds] is the fuel of loops the source does not
    bound by a count; thirteen rounds suffice for the annotation loop; the finalizer and machine status
    updates retry for as long as the API server refuses, so that fuel is a real limit there and theorems
    about them hold for every outcome, [OutOfFuel] included.  [slowStartBatch] gets as many rounds as calls.
    [triggerUpdationFlow] calls itself for as long as the update is refused, with fuel of the same kind.  The
    waits of the drains take fuel; [detach_loop_spec] says how much is enough, and the in-tree drain gets one
    round for every check that fits into its timeout; the wait for reattachments goes on for as long as
    unrelated attachments arrive, so that the theorem on the results asks for more fuel than there are.  The waits of the OpenStack driver have an arbitrary number of
    checks for a number of seconds; the retries of the Azure driver are those of its backoff.

    ** Parameters

    The hash of a template ([Hasher]), the conversion of out-of-range floats to [int32] ([FloatConv]), JSON
    ([Encoders]), the behaviour of [sort.Sort] on ties ([GoSort]) are classes; ranges over maps and regular
    expressions that come with an object are section variables; theorems hold for every instance.  So are, for
    classes and drivers, the metadata check of Kubernetes, base64, the parser of URLs and of key pairs.  Each
    SDK is a class of operations over an opaque cloud; the theorems on a driver assume documented laws of
    these operations (a class of its own), and a simulated cloud satisfies the laws in the witness.  A rolling
    deployment without its rolling update block is read as one with an empty block where the source
    defaults it.  A list of VMs that a driver returns next to an error counts as empty in Freezing.v.

    ** Not modelled

    Generated clients, listers, informers, deep copies, conversions and the OpenAPI description have no logic
    of this program's own, nor do metrics, the options and the start of the processes (flags, leader election,
    the construction of clients and queues).  Control objects and clients for tests are left out.  Where the
    source has textual copies (of the API server check, the drain's filters, the helpers of machine_util.go,
    the Internal variants of list helpers) one of them is modelled and used for both. *)
From stdpp Require Import base gmap strings list sorting.
From Stdlib Require Import ZArith Lia.
Open Scope Z_scope.

(** ** Machine-width integers *)

Definition min_int32 : Z := - 2 ^ 31.
Definition max_int32 : Z := 2 ^ 31 - 1.
Definition min_int64 : Z := - 2 ^ 63.
Definition max_int64 : Z := 2 ^ 63 - 1.

(** Conversion to [int32] and [int64]: two's complement wrap-around. *)
Definition wrap32 (z : Z) : Z := (z + 2 ^ 31) mod 2 ^ 32 - 2 ^ 31.
Definition wrap64 (z : Z) : Z := (z + 2 ^ 63) mod 2 ^ 64 - 2 ^ 63.

Definition is_int32 (z : Z) : Prop := min_int32 <= z <= max_int32.
Definition is_int64 (z : Z) : Prop := min_int64 <= z <= max_int64.

Declare Scope go_scope.
Delimit Scope go_scope with go.
(** [int32] and [int64] arithmetic of the source. *)
Notation "a +32 b" := (wrap32 (a + b)) (at level 50, left associativity) : go_scope.
Notation "a -32 b" := (wrap32 (a - b)) (at level 50, left associativity) : go_scope.
Notation "a *32 b" := (wrap32 (a * b)) (at level 40, left associativity) : go_scope.
Notation "a +64 b" := (wrap64 (a + b)) (at level 50, left associativity) : go_scope.
Open Scope go_scope.

#[export] Instance is_int32_dec z : Decision (is_int32 z).
Proof. unfold is_int32. apply _. Defined.
#[export] Instance is_int64_dec z : Decision (is_int64 z).
Proof. unfold is_int64. apply _. Defined.

Create HintDb mcm discriminated.
#[export] Hint Constants Opaque : mcm.
#[export] Hint Variables Opaque : mcm.

(** Unfold the width predicates and bounds, then decide. *)
Ltac width := unfold is_int32, is_int64, min_int32, max_int32, min_int64, max_int64 in *; lia.

Lemma wrap32_id z : is_int32 z -> wrap32 z = z.
Proof. intros H. unfold wrap32. rewrite Z.mod_small; width. Qed.

Lemma wrap64_id z : is_int64 z -> wrap64 z = z.
Proof. intros H. unfold wrap64. rewrite Z.mod_small; width. Qed.

Lemma wrap32_range z : is_int32 (wrap32 z).
Proof.
  unfold wrap32. pose proof (Z.mod_pos_bound (z + 2 ^ 31) (2 ^ 32) ltac:(lia)). width.
Qed.

Lemma wrap32_add_l a b : wrap32 (wrap32 a + b) = wrap32 (a + b).
Proof.
  unfold wrap32. f_equal.
  replace ((a + 2 ^ 31) mod 2 ^ 32 - 2 ^ 31 + b + 2 ^ 31)
    with ((a + 2 ^ 31) mod 2 ^ 32 + b) by lia.
  rewrite Zplus_mod_idemp_l. f_equal. lia.
Qed.

#[export] Hint Resolve wrap32_id wrap64_id wrap32_range : mcm.

(** Rewrites [wrap32 z] to [z] wherever the context bounds [z]. *)
Ltac unwrap := repeat (rewrite wrap32_id in * by width); repeat (rewrite wrap64_id in * by width).

(** ** Sums *)

(** The exact sum of [f] over a list. *)
Definition zsum {A} (f : A -> Z) (l : list A) : Z := foldr (fun x acc => f x + acc) 0 l.

#[global] Arguments zsum : simpl never.

(** The accumulator loop [total += f(x)] in [int32]. *)
Definition sum32 {A} (f : A -> Z) (l : list A) : Z := foldl (fun acc x => acc +32 f x) 0 l.

Lemma zsum_nil {A} (f : A -> Z) : zsum f [] = 0.
Proof. done. Qed.

Lemma zsum_cons {A} (f : A -> Z) x l : zsum f (x :: l) = f x + zsum f l.
Proof. done. Qed.

Lemma zsum_app {A} (f : A -> Z) l1 l2 : zsum f (l1 ++ l2) = zsum f l1 + zsum f l2.
Proof. induction l1 as [|x l1 IH]; [done|]. simpl. rewrite !zsum_cons, IH. lia. Qed.

Lemma zsum_nonneg {A} (f : A -> Z) l : Forall (fun x => 0 <= f x) l -> 0 <= zsum f l.
Proof. induction 1; rewrite ?zsum_nil, ?zsum_cons; lia. Qed.

Lemma zsum_perm {A} (f : A -> Z) l1 l2 : l1 ≡ₚ l2 -> zsum f l1 = zsum f l2.
Proof. induction 1; rewrite ?zsum_cons; lia. Qed.

#[export] Instance zsum_proper {A} (f : A -> Z) : Proper (Permutation ==> eq) (zsum f).
Proof. intros l1 l2. apply zsum_perm. Qed.

Lemma zsum_le_mono {A} (f g : A -> Z) l :
  Forall (fun x => f x <= g x) l -> zsum f l <= zsum g l.
Proof. induction 1; rewrite ?zsum_nil, ?zsum_cons; lia. Qed.

Lemma zsum_ext {A} (f g : A -> Z) l : Forall (fun x => f x = g x) l -> zsum f l = zsum g l.
Proof. induction 1; rewrite ?zsum_nil, ?zsum_cons; lia. Qed.

Lemma foldl_wrap32 {A} (f : A -> Z) l acc :
  foldl (fun a x => a +32 f x) (wrap32 acc) l = wrap32 (acc + zsum f l).
Proof.
  revert acc; induction l as [|x l IH]; intros acc; simpl.
  - by rewrite zsum_nil, Z.add_0_r.
  - rewrite wrap32_add_l, IH, zsum_cons. f_equal. lia.
Qed.

(** The loop computes the exact sum modulo 2^32. *)
Lemma sum32_wrap {A} (f : A -> Z) l : sum32 f l = wrap32 (zsum f l).
Proof. unfold sum32. rewrite <- (wrap32_id 0) by width. by rewrite foldl_wrap32. Qed.

Lemma sum32_exact {A} (f : A -> Z) l : is_int32 (zsum f l) -> sum32 f l = zsum f l.
Proof. intros H. rewrite sum32_wrap. by apply wrap32_id. Qed.

Lemma zsum_pos_Exists {A} (f : A -> Z) l : 0 < zsum f l -> Exists (fun x => 0 < f x) l.
Proof.
  induction l as [|x l IH]; [done|]. rewrite zsum_cons. intros Hs.
  destruct (Z.ltb_spec 0 (f x)); [by left|]. right. apply IH. lia.
Qed.

Lemma zsum_elem_le {A} (f : A -> Z) l x :
  Forall (fun y => 0 <= f y) l -> x ∈ l -> f x <= zsum f l.
Proof.
  intros HF; revert HF; induction l as [|y l IH]; intros HF Hx; [set_solver|].
  inversion HF; subst. rewrite zsum_cons. apply elem_of_cons in Hx as [->|Hx].
  - pose proof (zsum_nonneg f l ltac:(done)). lia.
  - specialize (IH ltac:(done) Hx). lia.
Qed.

(** ** sort.Sort *)

(** What [sort.Sort] needs of a [Less] method: a strict weak order. *)
Record strict_weak {A} (less : A -> A -> bool) : Prop := {
  sw_irrefl : forall x, less x x = false;
  sw_trans : forall x y z, less x y = true -> less y z = true -> less x z = true;
  sw_neg_trans : forall x y z, less x y = false -> less y z = false -> less x z = false }.

(** No later element is less than an earlier one. *)
Definition sorted_by {A} (less : A -> A -> bool) (l : list A) : Prop :=
  StronglySorted (fun x y => less y x = false) l.

(** [sort.Sort] is not stable and its result on ties is unspecified: the development is
    stated for every function with the documented behaviour. *)
Class GoSort : Type := {
  gosort : forall {A : Type}, (A -> A -> bool) -> list A -> list A;
  gosort_perm : forall {A : Type} (less : A -> A -> bool) l, gosort less l ≡ₚ l;
  gosort_sorted : forall {A : Type} (less : A -> A -> bool) l,
    strict_weak less -> sorted_by less (gosort less l) }.

(** [sort.Reverse]. *)
Definition reverse_less {A} (less : A -> A -> bool) : A -> A -> bool := fun x y => less y x.

Section insertion.
Context {A : Type} (less : A -> A -> bool).

Fixpoint insert_by (x : A) (l : list A) : list A :=
  match l with
  | [] => [x]
  | y :: l' => if less y x then y :: insert_by x l' else x :: y :: l'
  end.

Definition insertion_sort (l : list A) : list A := foldr insert_by [] l.

Lemma insert_by_perm x l : insert_by x l ≡ₚ x :: l.
Proof.
  induction l as [|y l IH]; simpl; [done|].
  destruct (less y x); [|done]. rewrite IH. constructor.
Qed.

Lemma insertion_sort_perm l : insertion_sort l ≡ₚ l.
Proof. induction l as [|x l IH]; simpl; [done|]. by rewrite insert_by_perm, IH. Qed.

Lemma insert_by_sorted (Hsw : strict_weak less) x l :
  sorted_by less l -> sorted_by less (insert_by x l).
Proof.
  unfold sorted_by. induction l as [|y l IH]; simpl; intros Hs.
  - repeat constructor.
  - apply StronglySorted_inv in Hs as [Hs HF].
    destruct (less y x) eqn:E.
    + constructor; [by apply IH|].
      rewrite (insert_by_perm x l). constructor; [|done].
      destruct (less x y) eqn:E2; [|done].
      pose proof (sw_trans _ Hsw _ _ _ E E2) as Hc.
      by rewrite (sw_irrefl _ Hsw) in Hc.
    + constructor; [by constructor|]. constructor; [done|].
      eapply Forall_impl; [exact HF|]. simpl. intros z Hz.
      by apply (sw_neg_trans _ Hsw z y x).
Qed.

Lemma insertion_sort_sorted (Hsw : strict_weak less) l : sorted_by less (insertion_sort l).
Proof.
  induction l as [|x l IH]; simpl; [constructor|]. by apply insert_by_sorted.
Qed.
End insertion.

(** Insertion sort is one implementation of the interface. *)
#[export] Instance insertion_GoSort : GoSort | 10 := {
  gosort := @insertion_sort;
  gosort_perm := @insertion_sort_perm;
  gosort_sorted := fun A less l Hsw => insertion_sort_sorted less Hsw l }.

(** ** Errors and results *)

(** The classes of errors the source tells apart ([errors.IsNotFound] and so on). *)
Inductive errKind := NotFound | AlreadyExists | Conflict | Invalid | TimeoutErr
  | PreconditionViolated | TooManyRequests | OtherErr.

Record error := mkErr { err_kind : errKind; err_msg : string }.

#[export] Instance errKind_eq_dec : EqDecision errKind.
Proof. solve_decision. Defined.
#[export] Instance error_eq_dec : EqDecision error.
Proof. solve_decision. Defined.

(** [fmt.Errorf] and [errors.New]: a new error, with no API reason. *)
Definition Errorf (s : string) : error := mkErr OtherErr s.

Definition IsNotFound (e : error) : bool := bool_decide (err_kind e = NotFound).
Definition IsAlreadyExists (e : error) : bool := bool_decide (err_kind e = AlreadyExists).
Definition IsConflict (e : error) : bool := bool_decide (err_kind e = Conflict).
Definition IsInvalid (e : error) : bool := bool_decide (err_kind e = Invalid).
Definition IsTooManyRequests (e : error) : bool := bool_decide (err_kind e = TooManyRequests).
Definition IsTimeout (e : error) : bool := bool_decide (err_kind e = TimeoutErr).

(** The pair [(value, err)] of a Go call, with exactly one of the two meaningful. *)
Inductive result (A : Type) := Ok (a : A) | Err (e : error).
Arguments Ok {A} a.
Arguments Err {A} e.

(** ** Generic list facts *)

Lemma sorted_by_app {A} (less : A -> A -> bool) l1 l2 x y :
  sorted_by less (l1 ++ l2) -> x ∈ l1 -> y ∈ l2 -> less y x = false.
Proof.
  unfold sorted_by. induction l1 as [|z l1 IH]; simpl; intros Hs Hx Hy; [set_solver|].
  apply StronglySorted_inv in Hs as [Hs HF].
  apply elem_of_cons in Hx as [->|Hx]; [|by apply IH].
  rewrite Forall_forall in HF. apply HF. set_solver.
Qed.

Lemma filter_ext_in {A} (P Q : A -> Prop) `{!forall x, Decision (P x), !forall x, Decision (Q x)} (l : list A) :
  (forall x, x ∈ l -> P x <-> Q x) -> filter P l = filter Q l.
Proof.
  induction l as [|x l IH]; intros Hpq; [done|]. rewrite !filter_cons, IH by (intros y Hy; apply Hpq; by right).
  assert (P x <-> Q x) by (apply Hpq; left). repeat case_decide; done || tauto.
Qed.

Lemma filter_all {A} (P : A -> Prop) `{!forall x, Decision (P x)} (l : list A) : (forall x, x ∈ l -> P x) -> filter P l = l.
Proof.
  induction l as [|x l IH]; intros Hp; [done|]. rewrite filter_cons_True by (apply Hp; left). f_equal. apply IH. intros y Hy. apply Hp. by right.
Qed.

Lemma filter_none {A} (P : A -> Prop) `{!forall x, Decision (P x)} (l : list A) : (forall x, x ∈ l -> ~ P x) -> filter P l = [].
Proof.
  induction l as [|x l IH]; intros Hn; [done|]. rewrite filter_cons_False by (apply Hn; left). apply IH. intros y Hy. apply Hn. by right.
Qed.

Lemma elem_of_concat {A} (x : A) ls : x ∈ concat ls <-> exists l, x ∈ l /\ l ∈ ls.
Proof. rewrite list_elem_of_In, in_concat. setoid_rewrite list_elem_of_In. naive_solver. Qed.

Lemma NoDup_fmap_inj_elem {A B} (f : A -> B) (l : list A) x y :
  NoDup (f <$> l) -> x ∈ l -> y ∈ l -> f x = f y -> x = y.
Proof.
  intros Hnd Hx Hy Hf. apply list_elem_of_lookup in Hx as [i Hi], Hy as [j Hj].
  assert (i = j) as ->; [|congruence].
  eapply (NoDup_lookup _ i j (f x) Hnd); rewrite list_lookup_fmap.
  - by rewrite Hi.
  - rewrite Hj. simpl. congruence.
Qed.

(** Case analysis on the scrutinee of the first match of the goal. *)
Ltac case_goal := match goal with |- context [match ?x with _ => _ end] => destruct x eqn:? end.
