(* ===== verification/GoLib.v ===== *)
(** * Go and Kubernetes library routines the controllers call

    [strconv], [strings], [sets.String] of the Go side, and from src/vendor the helpers of
    [k8s.io/utils/integer], [k8s.io/apimachinery/pkg/util/intstr] and
    [k8s.io/client-go/util/retry].  Strings are Rocq strings, [int] is [int64].

    [float64] appears twice ([GetValueFromIntOrPercent] and [RoundToInt32] of a quotient).  Both
    are given here in exact integer arithmetic: the quotient of two integers below 2^53 that is
    not itself an integer (half-integer) lies at least 1/100 (1/(2d)) away from the next one,
    which is far more than the rounding error of the two or three [float64] operations, so ceiling,
    floor and rounding agree with the [float64] code for all operands below 2^53 (percentages
    up to 2^22 of an [int32] count). *)
From stdpp Require Import base gmap strings list.
From Stdlib Require Import ZArith Lia Ascii String DecimalString DecimalZ DecimalPos Decimal.
From S2P Require Import Prelude.
Open Scope Z_scope.

(** ** strconv *)

(** Unsigned decimal digits, at least one. *)
Definition parse_digits (s : string) : option Z :=
  match s with
  | EmptyString => None
  | _ => Z.of_uint <$> NilEmpty.uint_of_string s
  end.

(** [strconv.ParseInt(s, 10, 64)]: an optional sign, digits, range check; [None] is the error. *)
Definition ParseInt (s : string) : option Z :=
  let signed :=
    match s with
    | String "-" r => Z.opp <$> parse_digits r
    | String "+" r => parse_digits r
    | _ => parse_digits s
    end in
  match signed with
  | Some z => if bool_decide (is_int64 z) then Some z else None
  | None => None
  end.

(** [strconv.Atoi] on a 64-bit platform. *)
Definition Atoi (s : string) : option Z := ParseInt s.

(** [strconv.FormatInt(z, 10)], and [fmt.Sprintf("%d", z)]. *)
Definition FormatInt (z : Z) : string :=
  match z with
  | Z0 => "0"
  | Zpos p => NilEmpty.string_of_uint (Pos.to_uint p)
  | Zneg p => String "-" (NilEmpty.string_of_uint (Pos.to_uint p))
  end.

(** ** strings *)

(** [strings.Split(s, sep)] for a one-byte separator: never the empty list. *)
Fixpoint split (sep : ascii) (s : string) : list string :=
  match s with
  | EmptyString => [EmptyString]
  | String c r =>
      if bool_decide (c = sep) then EmptyString :: split sep r
      else match split sep r with
           | [] => [String c EmptyString]
           | h :: t => String c h :: t
           end
  end.

(** [strings.Join(l, sep)] for a one-byte separator. *)
Fixpoint join (sep : ascii) (l : list string) : string :=
  match l with
  | [] => EmptyString
  | [x] => x
  | x :: l' => x +:+ String sep (join sep l')
  end.

(** [strings.HasPrefix]. *)
Fixpoint has_prefix (p s : string) : bool :=
  match p, s with
  | EmptyString, _ => true
  | String a p', String b s' => bool_decide (a = b) && has_prefix p' s'
  | String _ _, EmptyString => false
  end.

(** [strings.Contains(s, sub)]. *)
Fixpoint contains (s sub : string) : bool :=
  has_prefix sub s ||
  match s with
  | EmptyString => false
  | String _ s' => contains s' sub
  end.

(** [%q] of fmt on a string of printable characters without quotes. *)
Definition quoted (s : string) : string :=
  String (ascii_of_nat 34) (s +:+ String (ascii_of_nat 34) EmptyString).

(** [strings.Replace(s, c, "", -1)] for one byte [c]. *)
Fixpoint remove_byte (c : ascii) (s : string) : string :=
  match s with
  | EmptyString => EmptyString
  | String x r => if bool_decide (x = c) then remove_byte c r else String x (remove_byte c r)
  end.

(** Go's order on strings: lexicographic on bytes. *)
Definition string_ltb (a b : string) : bool :=
  match String.compare a b with Lt => true | _ => false end.

(** ** sets.String: a sorted duplicate-free listing is [List()] *)

Definition sets_NewString (l : list string) : gset string := list_to_set l.
Definition sets_List (s : gset string) : list string := insertion_sort string_ltb (elements s).

Lemma elem_of_sets_List x (s : gset string) : x ∈ sets_List s <-> x ∈ s.
Proof. unfold sets_List. rewrite insertion_sort_perm. apply elem_of_elements. Qed.

(** ** k8s.io/utils/integer *)

Definition IntMin (a b : Z) : Z := if b <? a then b else a.
Definition IntMax (a b : Z) : Z := if a <? b then b else a.
Definition Int32Min (a b : Z) : Z := if b <? a then b else a.
Definition Int32Max (a b : Z) : Z := if a <? b then b else a.

(** [RoundToInt32(float64(n) / float64(d))]: round half away from zero.  For [d = 0] or a value
    outside [int32] the conversion is implementation-dependent; [oob] is what it gives. *)
Definition RoundToInt32 (oob n d : Z) : Z :=
  if d =? 0 then oob
  else
    let m := (2 * Z.abs n + Z.abs d) / (2 * Z.abs d) in
    let r := Z.sgn n * Z.sgn d * m in
    if bool_decide (is_int32 r) then r else oob.

(** ** k8s.io/apimachinery/pkg/util/intstr *)

Inductive IntOrString := FromInt (v : Z) | FromString (s : string).

#[export] Instance IntOrString_eq_dec : EqDecision IntOrString.
Proof. solve_decision. Defined.

(** The value and whether it is a percentage. *)
Definition getIntOrPercentValue (v : IntOrString) : option (Z * bool) :=
  match v with
  | FromInt i => Some (i, false)
  | FromString s =>
      match Atoi (remove_byte "%" s) with
      | Some z => Some (z, true)
      | None => None
      end
  end.

(** [⌈a / 100⌉] and [⌊a / 100⌋]. *)
Definition ceil_div (a b : Z) : Z := - ((- a) / b).
Definition floor_div (a b : Z) : Z := a / b.

Definition GetValueFromIntOrPercent (v : option IntOrString) (total : Z) (roundUp : bool) : option Z :=
  match v with
  | None => None
  | Some v =>
      match getIntOrPercentValue v with
      | None => None
      | Some (value, false) => Some value
      | Some (value, true) =>
          Some (if roundUp then ceil_div (value * total) 100 else floor_div (value * total) 100)
      end
  end.

(** [strings.ReplaceAll(s, old, new)] for a non-empty [old]: [skip] bytes belong to the match just replaced. *)
Fixpoint replace_all (old new : string) (skip : nat) (s : string) : string :=
  match s with
  | EmptyString => EmptyString
  | String c r =>
      match skip with
      | S skip => replace_all old new skip r
      | O => if has_prefix old s then new +:+ replace_all old new (String.length old - 1) r
             else String c (replace_all old new 0 r)
      end
  end.
Definition ReplaceAll (s old new : string) : string := replace_all old new 0 s.

(** [hex.EncodeToString]. *)
Definition hex_digit (n : nat) : ascii :=
  match String.get n "0123456789abcdef" with Some c => c | None => "0"%char end.
Fixpoint hex_encode (s : string) : string :=
  match s with
  | EmptyString => EmptyString
  | String c r =>
      let n := nat_of_ascii c in
      String (hex_digit (n / 16)) (String (hex_digit (n mod 16)) (hex_encode r))
  end.

(** ** time.Duration, in nanoseconds *)

Definition Second : Z := 1000000000.
Definition Minute : Z := 60 * Second.

(** [fmtFrac]: the last [prec] decimal digits of [v] without trailing zeros, and the rest of [v]. *)
Fixpoint fmtFrac (prec : nat) (v : Z) (print : bool) (acc : string) : string * Z :=
  match prec with
  | O => (if print then String "." acc else acc, v)
  | S prec =>
      let digit := v mod 10 in
      let print := print || negb (digit =? 0) in
      fmtFrac prec (v / 10) print (if print then FormatInt digit +:+ acc else acc)
  end.

(** [Duration.String]. *)
Definition Duration_String (d : Z) : string :=
  let u := Z.abs d in
  let body :=
    if u <? Second then
      if u =? 0 then "0s"
      else
        let '(prec, unit_name) :=
          if u <? 1000 then (0%nat, "ns")
          else if u <? 1000000 then (3%nat, String (ascii_of_nat 194) (String (ascii_of_nat 181) "s"))
          else (6%nat, "ms") in
        let '(frac, v) := fmtFrac prec u false EmptyString in
        FormatInt v +:+ frac +:+ unit_name
    else
      let '(frac, v) := fmtFrac 9 u false EmptyString in
      let secs := FormatInt (v mod 60) +:+ frac +:+ "s" in
      let m := v / 60 in
      if m =? 0 then secs
      else
        let mins := FormatInt (m mod 60) +:+ "m" +:+ secs in
        let h := m / 60 in
        if h =? 0 then mins else FormatInt h +:+ "h" +:+ mins in
  if d <? 0 then String "-" body else body.

(** ** Lemmas *)

Lemma IntMin_le a b : IntMin a b <= a /\ IntMin a b <= b.
Proof. unfold IntMin. destruct (Z.ltb_spec b a); lia. Qed.

Lemma IntMin_spec a b : IntMin a b = Z.min a b.
Proof. unfold IntMin. destruct (Z.ltb_spec b a); lia. Qed.

Lemma Int32Min_spec a b : Int32Min a b = Z.min a b.
Proof. unfold Int32Min. destruct (Z.ltb_spec b a); lia. Qed.

Lemma Int32Max_spec a b : Int32Max a b = Z.max a b.
Proof. unfold Int32Max. destruct (Z.ltb_spec a b); lia. Qed.

Lemma string_of_uint_digit u c r :
  NilEmpty.string_of_uint u = String c r -> c <> "-"%char /\ c <> "+"%char.
Proof. destruct u; simpl; intros H; simplify_eq; done. Qed.

Lemma parse_digits_print p :
  parse_digits (NilEmpty.string_of_uint (Pos.to_uint p)) = Some (Zpos p).
Proof.
  unfold parse_digits.
  pose proof (DecimalPos.Unsigned.of_to p) as Hof.
  destruct (NilEmpty.string_of_uint (Pos.to_uint p)) as [|c r] eqn:E.
  - exfalso. destruct (Pos.to_uint p) eqn:Eu; simpl in E; try done.
  - rewrite <- E, NilEmpty.usu. simpl. f_equal. unfold Z.of_uint. by rewrite Hof.
Qed.

(** Printing then parsing an [int64] gives it back. *)
Lemma ParseInt_FormatInt z : is_int64 z -> ParseInt (FormatInt z) = Some z.
Proof.
  intros Hz. unfold ParseInt, FormatInt. destruct z as [|p|p].
  - done.
  - pose proof (parse_digits_print p) as Hp.
    destruct (NilEmpty.string_of_uint (Pos.to_uint p)) as [|c r] eqn:E; [done|].
    destruct (string_of_uint_digit _ _ _ E) as [H1 H2].
    assert (match c with "-"%char => Z.opp <$> parse_digits r | "+"%char => parse_digits r
            | _ => parse_digits (String c r) end = Some (Zpos p)) as ->.
    { repeat (case_match; try done). }
    by rewrite bool_decide_true.
  - rewrite parse_digits_print. simpl. by rewrite bool_decide_true.
Qed.

Lemma ParseInt_range s z : ParseInt s = Some z -> is_int64 z.
Proof.
  unfold ParseInt. cbv zeta. generalize (match s with
    | String "-" r => Z.opp <$> parse_digits r
    | String "+" r => parse_digits r
    | _ => parse_digits s end). intros [y|]; [|done].
  case_bool_decide; intros; by simplify_eq.
Qed.

Lemma FormatInt_inj a b : is_int64 a -> is_int64 b -> FormatInt a = FormatInt b -> a = b.
Proof.
  intros Ha Hb H. apply ParseInt_FormatInt in Ha, Hb. rewrite H in Ha. congruence.
Qed.

Lemma split_nonempty sep s : split sep s <> [].
Proof. destruct s as [|c s]; simpl; [done|]. case_bool_decide; [done|]. by destruct (split sep s). Qed.

(** [Join] undoes [Split]. *)
Lemma join_split sep s : join sep (split sep s) = s.
Proof.
  induction s as [|c s IH]; simpl; [done|].
  pose proof (split_nonempty sep s) as Hne.
  case_bool_decide; subst.
  - destruct (split sep s) as [|h t] eqn:E; [done|]. by rewrite <- IH.
  - destruct (split sep s) as [|h t] eqn:E; [done|].
    rewrite <- IH. destruct t; done.
Qed.

Lemma has_prefix_app p s : has_prefix p (p +:+ s) = true.
Proof. induction p as [|c p IH]; simpl; [by destruct s|]. by rewrite bool_decide_true, IH. Qed.

Lemma contains_app a sub b : contains (a +:+ sub +:+ b) sub = true.
Proof.
  induction a as [|c a IH].
  - assert (has_prefix sub (sub +:+ b) = true) as H by apply has_prefix_app.
    simpl. destruct (sub +:+ b); simpl; by rewrite H.
  - simpl. rewrite IH. apply orb_true_r.
Qed.

Lemma ceil_div_bounds a b : 0 < b -> a <= b * ceil_div a b < a + b.
Proof. intros Hb. unfold ceil_div. pose proof (Z.div_mod (- a) b ltac:(lia)).
  pose proof (Z.mod_pos_bound (- a) b Hb). lia. Qed.

Lemma floor_div_bounds a b : 0 < b -> a - b < b * floor_div a b <= a.
Proof. intros Hb. unfold floor_div. pose proof (Z.div_mod a b ltac:(lia)).
  pose proof (Z.mod_pos_bound a b Hb). lia. Qed.

(** ** Order of strings *)

Lemma string_compare_refl a : String.compare a a = Eq.
Proof.
  induction a as [|c a IH]; simpl; [done|].
  unfold Ascii.compare. by rewrite N.compare_refl.
Qed.

Lemma ascii_compare_refl c : Ascii.compare c c = Eq.
Proof. unfold Ascii.compare. apply N.compare_refl. Qed.

Lemma ascii_compare_trans_lt a b c :
  Ascii.compare a b = Lt -> Ascii.compare b c = Lt -> Ascii.compare a c = Lt.
Proof. unfold Ascii.compare. rewrite !N.compare_lt_iff. lia. Qed.

Lemma string_compare_lt_trans a b c :
  String.compare a b = Lt -> String.compare b c = Lt -> String.compare a c = Lt.
Proof.
  revert b c; induction a as [|x a IH]; intros [|y b] [|z c]; simpl; try done.
  destruct (Ascii.compare x y) eqn:E1; try done;
    destruct (Ascii.compare y z) eqn:E2; try done; intros H1 H2.
  - apply Ascii.compare_eq_iff in E1, E2. subst.
    rewrite ascii_compare_refl. by eapply IH.
  - apply Ascii.compare_eq_iff in E1. subst. by rewrite E2.
  - apply Ascii.compare_eq_iff in E2. subst. by rewrite E1.
  - by rewrite (ascii_compare_trans_lt _ _ _ E1 E2).
Qed.

Lemma string_ltb_trans a b c : string_ltb a b = true -> string_ltb b c = true -> string_ltb a c = true.
Proof.
  unfold string_ltb. destruct (String.compare a b) eqn:E1; try done.
  destruct (String.compare b c) eqn:E2; try done.
  by rewrite (string_compare_lt_trans _ _ _ E1 E2).
Qed.

Lemma string_ltb_irrefl a : string_ltb a a = false.
Proof. unfold string_ltb. by rewrite string_compare_refl. Qed.

(** Distinct strings are comparable: the order is total. *)
Lemma string_ltb_total a b : string_ltb a b = false -> string_ltb b a = false -> a = b.
Proof.
  unfold string_ltb. rewrite (String.compare_antisym b a).
  destruct (String.compare a b) eqn:E; simpl; try done.
  intros _ _. by apply String.compare_eq_iff.
Qed.

Lemma strict_weak_of_total {A} (less : A -> A -> bool) :
  (forall x, less x x = false) ->
  (forall x y z, less x y = true -> less y z = true -> less x z = true) ->
  (forall x y, less x y = false -> less y x = false -> x = y) -> strict_weak less.
Proof.
  intros Hi Ht Htot. split; [done..|]. intros x y z H1 H2.
  destruct (less x z) eqn:E; [|done].
  destruct (less y x) eqn:E2.
  - by rewrite (Ht y x z E2 E) in H2.
  - by rewrite (Htot x y H1 E2), H2 in E.
Qed.

Lemma string_ltb_strict_weak : strict_weak string_ltb.
Proof.
  apply strict_weak_of_total; eauto using string_ltb_irrefl, string_ltb_trans, string_ltb_total.
Qed.

#[export] Hint Resolve string_ltb_strict_weak : mcm.

(** ** Split after join *)

Fixpoint has_byte (c : ascii) (s : string) : bool :=
  match s with
  | EmptyString => false
  | String x r => bool_decide (x = c) || has_byte c r
  end.

Lemma split_no_byte sep s : has_byte sep s = false -> split sep s = [s].
Proof.
  induction s as [|c s IH]; simpl; [done|]. intros H. apply orb_false_iff in H as [H1 H2].
  by rewrite H1, IH.
Qed.

Lemma split_app_sep sep a b : has_byte sep a = false -> split sep (a +:+ String sep b) = a :: split sep b.
Proof.
  induction a as [|c a IH]; simpl; intros H.
  - by rewrite bool_decide_true.
  - apply orb_false_iff in H as [H1 H2]. by rewrite H1, IH.
Qed.

(** [Split] undoes [Join] on parts that do not contain the separator. *)
Lemma split_join sep l : l <> [] -> Forall (fun s => has_byte sep s = false) l -> split sep (join sep l) = l.
Proof.
  intros Hne HF. induction l as [|x l IH]; [done|]. inversion HF; subst.
  destruct l as [|y l]; [by apply split_no_byte|].
  change (join sep (x :: y :: l)) with (x +:+ String sep (join sep (y :: l))).
  rewrite split_app_sep by done. f_equal. by apply IH.
Qed.

Lemma has_byte_app c a b : has_byte c (a +:+ b) = has_byte c a || has_byte c b.
Proof. induction a as [|x a IH]; simpl; [done|]. by rewrite IH, orb_assoc. Qed.

Lemma has_byte_forallb c (p : ascii -> bool) s :
  p c = false -> forallb p (list_ascii_of_string s) = true -> has_byte c s = false.
Proof.
  intros Hp. induction s as [|x s IH]; simpl; [done|]. intros H. apply andb_true_iff in H as [H1 H2].
  rewrite IH by done. rewrite orb_false_r. apply bool_decide_eq_false. congruence.
Qed.
