(* ===== verification/Regexp.v ===== *)
(** * Regular expressions of Go's regexp package

    The constructs the source uses, matched against the whole of a string (every expression of the
    source is anchored at both ends).  Strings are bytes; outside of ASCII only [[^x]] is used, which
    accepts every byte of an encoded rune.  The matcher works with derivatives and is proved correct
    against the usual inductive definition. *)
From Stdlib Require Import Ascii String.
From stdpp Require Import base strings list.
From S2P Require Import Prelude GoLib.

Inductive regexp :=
  | Eps
  | Cls (p : ascii -> bool)
  | Seq (r s : regexp)
  | Alt (r s : regexp)
  | Star (r : regexp).

(** ** Notation of the library *)

Definition in_range (lo hi c : ascii) : bool :=
  (nat_of_ascii lo <=? nat_of_ascii c)%nat && (nat_of_ascii c <=? nat_of_ascii hi)%nat.
Definition is_char (a c : ascii) : bool := bool_decide (a = c).
Definition Char (a : ascii) : regexp := Cls (is_char a).
Fixpoint Lit (s : string) : regexp :=
  match s with EmptyString => Eps | String a s => Seq (Char a) (Lit s) end.
Definition Plus (r : regexp) : regexp := Seq r (Star r).
Definition Opt (r : regexp) : regexp := Alt r Eps.
Definition digit : ascii -> bool := in_range "0" "9".
Definition lower : ascii -> bool := in_range "a" "z".
Definition letter (c : ascii) : bool := lower c || in_range "A" "Z" c.

(** ** The language of an expression *)

Inductive matches : regexp -> string -> Prop :=
  | match_eps : matches Eps EmptyString
  | match_cls p a : p a = true -> matches (Cls p) (String a EmptyString)
  | match_seq r s u v : matches r u -> matches s v -> matches (Seq r s) (u +:+ v)
  | match_alt_l r s u : matches r u -> matches (Alt r s) u
  | match_alt_r r s u : matches s u -> matches (Alt r s) u
  | match_star_nil r : matches (Star r) EmptyString
  | match_star_cons r u v : matches r u -> matches (Star r) v -> matches (Star r) (u +:+ v).

(** ** Matching *)

Fixpoint nullable (r : regexp) : bool :=
  match r with
  | Eps | Star _ => true
  | Cls _ => false
  | Seq r s => nullable r && nullable s
  | Alt r s => nullable r || nullable s
  end.

Definition Void : regexp := Cls (fun _ => false).

Fixpoint derivative (a : ascii) (r : regexp) : regexp :=
  match r with
  | Eps => Void
  | Cls p => if p a then Eps else Void
  | Seq r s =>
      if nullable r then Alt (Seq (derivative a r) s) (derivative a s) else Seq (derivative a r) s
  | Alt r s => Alt (derivative a r) (derivative a s)
  | Star r => Seq (derivative a r) (Star r)
  end.

Fixpoint MatchString (r : regexp) (s : string) : bool :=
  match s with EmptyString => nullable r | String a s => MatchString (derivative a r) s end.

(** ** Correctness *)

Lemma str_app_nil_inv u v : u +:+ v = EmptyString -> u = EmptyString /\ v = EmptyString.
Proof. by destruct u. Qed.

Lemma nullable_matches r : nullable r = true <-> matches r EmptyString.
Proof.
  induction r as [|p|r IHr s IHs|r IHr s IHs|r IHr]; simpl.
  - split; [constructor|done].
  - split; [done|]. inversion 1.
  - rewrite andb_true_iff, IHr, IHs. split.
    + intros [Hr Hs]. by apply (match_seq r s EmptyString EmptyString).
    + inversion 1 as [| |? ? u v Hr Hs Ea E| | | |]; subst. by apply str_app_nil_inv in E as [-> ->].
  - rewrite orb_true_iff, IHr, IHs. split.
    + intros [?|?]; [by apply match_alt_l|by apply match_alt_r].
    + inversion 1; subst; auto.
  - split; [constructor|done].
Qed.

Lemma void_matches s : ~ matches Void s.
Proof. inversion 1; subst; done. Qed.

Lemma seq_matches r s w : matches (Seq r s) w <-> exists u v, w = u +:+ v /\ matches r u /\ matches s v.
Proof.
  split.
  - inversion 1; subst. eauto.
  - intros (u & v & -> & Hr & Hs). by constructor.
Qed.

(** A nonempty match of a star starts with a nonempty match of its body. *)
Lemma star_cons_inv r a w : matches (Star r) (String a w) ->
  exists u v, w = u +:+ v /\ matches r (String a u) /\ matches (Star r) v.
Proof.
  intros H. remember (Star r) as q eqn:Eq. remember (String a w) as x eqn:Ex.
  revert a w Ex. induction H as [| | | | |r'|r' u v Hr _ Hs IHs]; intros b w Ex; try done.
  injection Eq as ->. destruct u as [|c u].
  - by apply (IHs eq_refl).
  - injection Ex as -> <-. eauto.
Qed.

Lemma derivative_matches a r w : matches (derivative a r) w <-> matches r (String a w).
Proof.
  revert w; induction r as [|p|r IHr s IHs|r IHr s IHs|r IHr]; intros w; cbn [derivative].
  - split; [intros H; by apply void_matches in H|inversion 1].
  - destruct (p a) eqn:Ep; split.
    + inversion 1. by apply match_cls.
    + inversion 1; subst. constructor.
    + intros H; by apply void_matches in H.
    + inversion 1; congruence.
  - assert (Hs : matches (Seq (derivative a r) s) w <->
      exists u v, w = u +:+ v /\ matches r (String a u) /\ matches s v).
    { rewrite seq_matches. by setoid_rewrite IHr. }
    assert (Hc : matches (Seq r s) (String a w) <->
      (exists u v, w = u +:+ v /\ matches r (String a u) /\ matches s v) \/ (matches r EmptyString /\ matches s (String a w))).
    { rewrite seq_matches. split.
      - intros ([|c u] & v & E & Hr & Hv); [right; change (EmptyString +:+ v) with v in E; by rewrite E|]. injection E as -> ->. left. eauto.
      - intros [(u & v & -> & ? & ?)|[? ?]]; [by exists (String a u), v|by exists EmptyString, (String a w)]. }
    rewrite Hc. destruct (nullable r) eqn:En.
    + apply nullable_matches in En. split.
      * inversion 1; subst; [left; by apply Hs|]. right. split; [done|by apply IHs].
      * intros [H|[_ H]]; [apply match_alt_l; by apply Hs|apply match_alt_r; by apply IHs].
    + rewrite Hs. split; [auto|]. intros [?|[Hn _]]; [done|]. apply nullable_matches in Hn. congruence.
  - split.
    + inversion 1; subst; [apply match_alt_l; by apply IHr|apply match_alt_r; by apply IHs].
    + inversion 1; subst; [apply match_alt_l; by apply IHr|apply match_alt_r; by apply IHs].
  - rewrite seq_matches. split.
    + intros (u & v & -> & Hr & Hs). change (matches (Star r) (String a u +:+ v)). constructor; [by apply IHr|done].
    + intros (u & v & -> & Hr & Hs)%star_cons_inv. exists u, v. by rewrite IHr.
Qed.

(** The matcher decides the language of the expression. *)
Theorem MatchString_spec r s : MatchString r s = true <-> matches r s.
Proof.
  revert r; induction s as [|a s IH]; intros r; cbn [MatchString]; [apply nullable_matches|].
  by rewrite IH, derivative_matches.
Qed.

(** [[class]+] in one pass. *)
Lemma MatchString_plus_cls p s :
  matches (Plus (Cls p)) s <-> s <> EmptyString /\ Forall (fun a => p a = true) (list_ascii_of_string s).
Proof.
  unfold Plus. rewrite seq_matches. split.
  - intros (u & v & -> & Hu & Hv). inversion Hu as [|? a Ha| | | | |]; subst. simpl. split; [done|]. constructor; [done|].
    clear Ha Hu. change (EmptyString +:+ v) with v. remember (Star (Cls p)) as q eqn:Eq.
    induction Hv as [| | | | |r'|r' u v Hr _ Hs IHs]; try discriminate Eq; [constructor|]. injection Eq as ->. inversion Hr; subst. simpl. constructor; [done|by apply IHs].
  - intros [Hne HF]. destruct s as [|a s]; [done|]. simpl in HF. apply Forall_cons in HF as [Ha HF].
    exists (String a EmptyString), s. split; [done|]. split; [by constructor|]. clear Hne Ha.
    induction s as [|b s IH]; [constructor|]. simpl in HF. apply Forall_cons in HF as [Hb HF].
    change (String b s) with (String b EmptyString +:+ s). constructor; [by constructor|by apply IH].
Qed.

Example match_device : MatchString (Seq (Lit "/dev/sd") (Cls lower)) "/dev/sdb" = true /\
  MatchString (Seq (Lit "/dev/sd") (Cls lower)) "/dev/sdbb" = false.
Proof. split; reflexivity. Qed.
