(* ===== verification/ClassSpecs.v ===== *)
(** * The specifications of provider-specific machine classes (pkg/apis/machine/types.go)

    One record per Go struct with the fields in the source's order; the references to secrets, which all
    six have, are kept in the class itself (Types).  Integers are [Z] (the source's [int] is 64 bits
    wide), a pointer is an [option]. *)
From Stdlib Require Import ZArith.
From stdpp Require Import base gmap strings list.
From S2P Require Import Prelude.
Open Scope Z_scope.

(** ** OpenStack *)

Record OpenStackNetwork := mkOpenStackNetwork { osn_Id : string; osn_Name : string; osn_PodNetwork : bool }.

Record OpenStackMachineClassSpec := mkOpenStackSpec {
  os_ImageID : string; os_ImageName : string; os_Region : string; os_AvailabilityZone : string;
  os_FlavorName : string; os_KeyName : string; os_SecurityGroups : list string; os_Tags : gmap string string;
  os_NetworkID : string; os_Networks : list OpenStackNetwork; os_SubnetID : option string;
  os_PodNetworkCidr : string; os_RootDiskSize : Z; os_UseConfigDrive : option bool; os_ServerGroupID : option string }.

(** ** AWS *)

Record AWSEbsBlockDeviceSpec := mkAWSEbs {
  ebs_DeleteOnTermination : option bool; ebs_Encrypted : bool; ebs_Iops : Z; ebs_KmsKeyID : option string;
  ebs_SnapshotID : option string; ebs_VolumeSize : Z; ebs_VolumeType : string }.

Record AWSBlockDeviceMappingSpec := mkAWSBlockDevice {
  abd_DeviceName : string; abd_Ebs : AWSEbsBlockDeviceSpec; abd_NoDevice : string; abd_VirtualName : string }.

Record AWSIAMProfileSpec := mkAWSIAM { iam_ARN : string; iam_Name : string }.

Record AWSNetworkInterfaceSpec := mkAWSNetworkInterface {
  ani_AssociatePublicIPAddress : option bool; ani_DeleteOnTermination : option bool; ani_Description : option string;
  ani_SecurityGroupIDs : list string; ani_SubnetID : string }.

Record AWSMachineClassSpec := mkAWSSpec {
  aws_AMI : string; aws_Region : string; aws_BlockDevices : list AWSBlockDeviceMappingSpec; aws_EbsOptimized : bool;
  aws_IAM : AWSIAMProfileSpec; aws_MachineType : string; aws_KeyName : string; aws_Monitoring : bool;
  aws_NetworkInterfaces : list AWSNetworkInterfaceSpec; aws_Tags : gmap string string; aws_SpotPrice : option string }.

(** ** Azure *)

Record AzureHardwareProfile := mkAzureHardware { ahp_VMSize : string }.
Record AzureImageReference := mkAzureImage { air_ID : string; air_URN : option string }.
Record AzureManagedDiskParameters := mkAzureManagedDisk { amd_ID : string; amd_StorageAccountType : string }.
Record AzureOSDisk := mkAzureOSDisk {
  aod_Name : string; aod_Caching : string; aod_ManagedDisk : AzureManagedDiskParameters; aod_DiskSizeGB : Z;
  aod_CreateOption : string }.
Record AzureDataDisk := mkAzureDataDisk {
  add_Name : string; add_Lun : option Z; add_Caching : string; add_StorageAccountType : string; add_DiskSizeGB : Z }.
Record AzureStorageProfile := mkAzureStorage {
  asp_ImageReference : AzureImageReference; asp_OsDisk : AzureOSDisk; asp_DataDisks : list AzureDataDisk }.
Record AzureSSHPublicKey := mkAzureSSHPublicKey { apk_Path : string; apk_KeyData : string }.
Record AzureSSHConfiguration := mkAzureSSH { asc_PublicKeys : AzureSSHPublicKey }.
Record AzureLinuxConfiguration := mkAzureLinux {
  alc_DisablePasswordAuthentication : bool; alc_SSH : AzureSSHConfiguration }.
Record AzureOSProfile := mkAzureOSProfile {
  aop_ComputerName : string; aop_AdminUsername : string; aop_AdminPassword : string; aop_CustomData : string;
  aop_LinuxConfiguration : AzureLinuxConfiguration }.
Record AzureNetworkInterfaceReferenceProperties := mkAzureNICProperties { anp_Primary : bool }.
Record AzureNetworkInterfaceReference := mkAzureNIC {
  anr_ID : string; anr_Properties : option AzureNetworkInterfaceReferenceProperties }.
Record AzureNetworkProfile := mkAzureNetwork {
  anp_NetworkInterfaces : AzureNetworkInterfaceReference; anp_AcceleratedNetworking : option bool }.
Record AzureSubResource := mkAzureSubResource { asr_ID : string }.
Record AzureSubnetInfo := mkAzureSubnet { asi_VnetName : string; asi_VnetResourceGroup : option string; asi_SubnetName : string }.
Record AzureMachineSetConfig := mkAzureMachineSet { ams_ID : string; ams_Kind : string }.

Definition MachineSetKindAvailabilitySet := "availabilityset".
Definition MachineSetKindVMO := "vmo".

Record AzureVirtualMachineProperties := mkAzureProperties {
  azp_HardwareProfile : AzureHardwareProfile; azp_StorageProfile : AzureStorageProfile; azp_OsProfile : AzureOSProfile;
  azp_NetworkProfile : AzureNetworkProfile; azp_AvailabilitySet : option AzureSubResource; azp_IdentityID : option string;
  azp_Zone : option Z; azp_MachineSet : option AzureMachineSetConfig }.

Record AzureMachineClassSpec := mkAzureSpec {
  az_Location : string; az_Tags : gmap string string; az_Properties : AzureVirtualMachineProperties;
  az_ResourceGroup : string; az_SubnetInfo : AzureSubnetInfo }.

(** ** GCP: the pointers to disks, metadata and interfaces are dereferenced wherever they are looked at *)

Record GCPDisk := mkGCPDisk {
  gd_AutoDelete : option bool; gd_Boot : bool; gd_SizeGb : Z; gd_Type : string; gd_Interface : string; gd_Image : string;
  gd_Labels : gmap string string }.
Record GCPMetadata := mkGCPMetadata { gm_Key : string; gm_Value : option string }.
Record GCPNetworkInterface := mkGCPNetworkInterface {
  gn_DisableExternalIP : bool; gn_Network : string; gn_Subnetwork : string }.
Record GCPScheduling := mkGCPScheduling {
  gs_AutomaticRestart : bool; gs_OnHostMaintenance : string; gs_Preemptible : bool }.
Record GCPServiceAccount := mkGCPServiceAccount { ga_Email : string; ga_Scopes : list string }.

Record GCPMachineClassSpec := mkGCPSpec {
  gcp_CanIpForward : bool; gcp_DeletionProtection : bool; gcp_Description : option string;
  gcp_Disks : list (option GCPDisk); gcp_Labels : gmap string string; gcp_MachineType : string;
  gcp_Metadata : list (option GCPMetadata); gcp_NetworkInterfaces : list (option GCPNetworkInterface);
  gcp_Scheduling : GCPScheduling; gcp_ServiceAccounts : list GCPServiceAccount; gcp_Tags : list string;
  gcp_Region : string; gcp_Zone : string }.

(** ** Alicloud: validation tells a missing map of tags from an empty one *)

Record AlicloudSystemDisk := mkAlicloudSystemDisk { asd_Category : string; asd_Size : Z }.
Record AlicloudDataDisk := mkAlicloudDataDisk {
  adk_Name : string; adk_Category : string; adk_Description : string; adk_Encrypted : bool; adk_Size : Z;
  adk_DeleteWithInstance : option bool }.

Record AlicloudMachineClassSpec := mkAlicloudSpec {
  ali_ImageID : string; ali_InstanceType : string; ali_Region : string; ali_ZoneID : string; ali_SecurityGroupID : string;
  ali_VSwitchID : string; ali_PrivateIPAddress : string; ali_SystemDisk : option AlicloudSystemDisk;
  ali_DataDisks : list AlicloudDataDisk; ali_InstanceChargeType : string; ali_InternetChargeType : string;
  ali_InternetMaxBandwidthIn : option Z; ali_InternetMaxBandwidthOut : option Z; ali_SpotStrategy : string;
  ali_IoOptimized : string; ali_Tags : option (gmap string string); ali_KeyPairName : string }.

(** ** Packet *)

Record PacketMachineClassSpec := mkPacketSpec {
  pk_Facility : list string; pk_MachineType : string; pk_OS : string; pk_ProjectID : string; pk_BillingCycle : string;
  pk_Tags : list string; pk_SSHKeys : list string; pk_UserData : string }.

(** ** Any of them *)

Inductive ProviderSpec :=
  | AWSSpec (s : AWSMachineClassSpec)
  | AzureSpec (s : AzureMachineClassSpec)
  | GCPSpec (s : GCPMachineClassSpec)
  | OpenStackSpec (s : OpenStackMachineClassSpec)
  | AlicloudSpec (s : AlicloudMachineClassSpec)
  | PacketSpec (s : PacketMachineClassSpec).

Definition AlicloudMachineClassKind := "AlicloudMachineClass".
Definition AWSMachineClassKind := "AWSMachineClass".
Definition AzureMachineClassKind := "AzureMachineClass".
Definition GCPMachineClassKind := "GCPMachineClass".
Definition OpenStackMachineClassKind := "OpenStackMachineClass".
Definition PacketMachineClassKind := "PacketMachineClass".

Definition provider_kinds : list string :=
  [AlicloudMachineClassKind; AWSMachineClassKind; AzureMachineClassKind; GCPMachineClassKind; OpenStackMachineClassKind;
   PacketMachineClassKind].

Definition spec_kind (s : ProviderSpec) : string :=
  match s with
  | AWSSpec _ => AWSMachineClassKind
  | AzureSpec _ => AzureMachineClassKind
  | GCPSpec _ => GCPMachineClassKind
  | OpenStackSpec _ => OpenStackMachineClassKind
  | AlicloudSpec _ => AlicloudMachineClassKind
  | PacketSpec _ => PacketMachineClassKind
  end.

(** ** Decidable equality *)

#[export] Instance OpenStackNetwork_eq_dec : EqDecision OpenStackNetwork.
Proof. solve_decision. Defined.
#[export] Instance OpenStackMachineClassSpec_eq_dec : EqDecision OpenStackMachineClassSpec.
Proof. solve_decision. Defined.
#[export] Instance AWSEbsBlockDeviceSpec_eq_dec : EqDecision AWSEbsBlockDeviceSpec.
Proof. solve_decision. Defined.
#[export] Instance AWSBlockDeviceMappingSpec_eq_dec : EqDecision AWSBlockDeviceMappingSpec.
Proof. solve_decision. Defined.
#[export] Instance AWSIAMProfileSpec_eq_dec : EqDecision AWSIAMProfileSpec.
Proof. solve_decision. Defined.
#[export] Instance AWSNetworkInterfaceSpec_eq_dec : EqDecision AWSNetworkInterfaceSpec.
Proof. solve_decision. Defined.
#[export] Instance AWSMachineClassSpec_eq_dec : EqDecision AWSMachineClassSpec.
Proof. solve_decision. Defined.
#[export] Instance AzureHardwareProfile_eq_dec : EqDecision AzureHardwareProfile.
Proof. solve_decision. Defined.
#[export] Instance AzureImageReference_eq_dec : EqDecision AzureImageReference.
Proof. solve_decision. Defined.
#[export] Instance AzureManagedDiskParameters_eq_dec : EqDecision AzureManagedDiskParameters.
Proof. solve_decision. Defined.
#[export] Instance AzureOSDisk_eq_dec : EqDecision AzureOSDisk.
Proof. solve_decision. Defined.
#[export] Instance AzureDataDisk_eq_dec : EqDecision AzureDataDisk.
Proof. solve_decision. Defined.
#[export] Instance AzureStorageProfile_eq_dec : EqDecision AzureStorageProfile.
Proof. solve_decision. Defined.
#[export] Instance AzureSSHPublicKey_eq_dec : EqDecision AzureSSHPublicKey.
Proof. solve_decision. Defined.
#[export] Instance AzureSSHConfiguration_eq_dec : EqDecision AzureSSHConfiguration.
Proof. solve_decision. Defined.
#[export] Instance AzureLinuxConfiguration_eq_dec : EqDecision AzureLinuxConfiguration.
Proof. solve_decision. Defined.
#[export] Instance AzureOSProfile_eq_dec : EqDecision AzureOSProfile.
Proof. solve_decision. Defined.
#[export] Instance AzureNetworkInterfaceReferenceProperties_eq_dec : EqDecision AzureNetworkInterfaceReferenceProperties.
Proof. solve_decision. Defined.
#[export] Instance AzureNetworkInterfaceReference_eq_dec : EqDecision AzureNetworkInterfaceReference.
Proof. solve_decision. Defined.
#[export] Instance AzureNetworkProfile_eq_dec : EqDecision AzureNetworkProfile.
Proof. solve_decision. Defined.
#[export] Instance AzureSubResource_eq_dec : EqDecision AzureSubResource.
Proof. solve_decision. Defined.
#[export] Instance AzureSubnetInfo_eq_dec : EqDecision AzureSubnetInfo.
Proof. solve_decision. Defined.
#[export] Instance AzureMachineSetConfig_eq_dec : EqDecision AzureMachineSetConfig.
Proof. solve_decision. Defined.
#[export] Instance AzureVirtualMachineProperties_eq_dec : EqDecision AzureVirtualMachineProperties.
Proof. solve_decision. Defined.
#[export] Instance AzureMachineClassSpec_eq_dec : EqDecision AzureMachineClassSpec.
Proof. solve_decision. Defined.
#[export] Instance GCPDisk_eq_dec : EqDecision GCPDisk.
Proof. solve_decision. Defined.
#[export] Instance GCPMetadata_eq_dec : EqDecision GCPMetadata.
Proof. solve_decision. Defined.
#[export] Instance GCPNetworkInterface_eq_dec : EqDecision GCPNetworkInterface.
Proof. solve_decision. Defined.
#[export] Instance GCPScheduling_eq_dec : EqDecision GCPScheduling.
Proof. solve_decision. Defined.
#[export] Instance GCPServiceAccount_eq_dec : EqDecision GCPServiceAccount.
Proof. solve_decision. Defined.
#[export] Instance GCPMachineClassSpec_eq_dec : EqDecision GCPMachineClassSpec.
Proof. solve_decision. Defined.
#[export] Instance AlicloudSystemDisk_eq_dec : EqDecision AlicloudSystemDisk.
Proof. solve_decision. Defined.
#[export] Instance AlicloudDataDisk_eq_dec : EqDecision AlicloudDataDisk.
Proof. solve_decision. Defined.
#[export] Instance AlicloudMachineClassSpec_eq_dec : EqDecision AlicloudMachineClassSpec.
Proof. solve_decision. Defined.
#[export] Instance PacketMachineClassSpec_eq_dec : EqDecision PacketMachineClassSpec.
Proof. solve_decision. Defined.
#[export] Instance ProviderSpec_eq_dec : EqDecision ProviderSpec.
Proof. solve_decision. Defined.
