(* ===== verification/Types.v ===== *)
(** * The API objects (pkg/apis/machine/v1alpha1, and the parts of core/v1 and meta/v1 they use)

    One record per Go struct, with the fields the controllers read or write.  String-typed
    enumerations stay strings with named constants.  Times are nanoseconds ([Z]); a pointer is an
    [option].  A nil map and an empty map are the same [gmap]. *)
From stdpp Require Import base gmap strings list.
From Stdlib Require Import ZArith.
From S2P Require Import Prelude GoLib.
From S2P Require Export ClassSpecs.
Open Scope Z_scope.

Abbreviation strmap := (gmap string string).

(** [m[k]] of a Go [map[string]string]: the zero value when the key is absent. *)
Definition mget (m : strmap) (k : string) : string := default EmptyString (m !! k).

(** ** meta/v1 *)

Record OwnerReference := mkOwnerRef {
  or_APIVersion : string; or_Kind : string; or_Name : string; or_UID : string;
  or_Controller : option bool; or_BlockOwnerDeletion : option bool }.

Record ObjectMeta := mkMeta {
  Name : string; GenerateName : string; Namespace : string; UID : string;
  ResourceVersion : string; Generation : Z;
  CreationTimestamp : Z; DeletionTimestamp : option Z;
  Labels : strmap; Annotations : strmap;
  OwnerReferences : list OwnerReference; Finalizers : list string }.

Inductive SelectorOp := OpIn | OpNotIn | OpExists | OpDoesNotExist | OpInvalid (s : string).

Record LabelSelectorRequirement := mkSelReq {
  lsr_Key : string; lsr_Operator : SelectorOp; lsr_Values : list string }.

Record LabelSelector := mkSelector {
  MatchLabels : strmap; MatchExpressions : list LabelSelectorRequirement }.

(** ** core/v1 *)

Record Taint := mkTaint { t_Key : string; t_Value : string; t_Effect : string; t_TimeAdded : option Z }.

Record NodeSpec := mkNodeSpec {
  ns_PodCIDR : string; ns_ProviderID : string; ns_Unschedulable : bool; ns_Taints : list Taint }.

Record NodeCondition := mkNodeCond {
  nc_Type : string; nc_Status : string; nc_LastHeartbeatTime : Z; nc_LastTransitionTime : Z;
  nc_Reason : string; nc_Message : string }.

Record Node := mkNode { n_Meta : ObjectMeta; n_Spec : NodeSpec; n_Conditions : list NodeCondition }.

(** ** Machine *)

Record ClassSpec := mkClass { cl_APIGroup : string; cl_Kind : string; cl_Name : string }.

Record MachineConfiguration := mkConfig {
  MachineDrainTimeout : option Z; MachineHealthTimeout : option Z;
  MachineCreationTimeout : option Z; MaxEvictRetries : option Z; NodeConditions : option string }.

Record NodeTemplateSpec := mkNodeTemplate { nt_Meta : ObjectMeta; nt_Spec : NodeSpec }.

Record MachineSpec := mkMachineSpec {
  sp_Class : ClassSpec; sp_ProviderID : string;
  sp_NodeTemplateSpec : NodeTemplateSpec; sp_MachineConfiguration : option MachineConfiguration }.

Record LastOperation := mkLastOp {
  lo_Description : string; lo_LastUpdateTime : Z; lo_State : string; lo_Type : string }.

Record CurrentStatus := mkCurStatus {
  cs_Phase : string; cs_TimeoutActive : bool; cs_LastUpdateTime : Z }.

Record MachineStatus := mkMachineStatus {
  st_Node : string; st_Conditions : list NodeCondition;
  st_LastOperation : LastOperation; st_CurrentStatus : CurrentStatus; st_LastKnownState : string }.

Record Machine := mkMachine { m_Meta : ObjectMeta; m_Spec : MachineSpec; m_Status : MachineStatus }.

(** Phases *)
Definition MachinePending := "Pending".
Definition MachineAvailable := "Available".
Definition MachineRunning := "Running".
Definition MachineTerminating := "Terminating".
Definition MachineUnknown := "Unknown".
Definition MachineFailed := "Failed".
Definition MachineCrashLoopBackOff := "CrashLoopBackOff".

(** States and types of the last operation *)
Definition MachineStateProcessing := "Processing".
Definition MachineStateFailed := "Failed".
Definition MachineStateSuccessful := "Successful".
Definition MachineOperationCreate := "Create".
Definition MachineOperationUpdate := "Update".
Definition MachineOperationHealthCheck := "HealthCheck".
Definition MachineOperationDelete := "Delete".

(** Condition statuses *)
Definition ConditionTrue := "True".
Definition ConditionFalse := "False".
Definition ConditionUnknown := "Unknown".

(** ** MachineSet *)

Record MachineTemplateSpec := mkTemplate { tp_Meta : ObjectMeta; tp_Spec : MachineSpec }.

Record MachineSummary := mkSummary {
  sm_Name : string; sm_ProviderID : string; sm_LastOperation : LastOperation; sm_OwnerRef : string }.

Record MachineSetCondition := mkMSCond {
  sc_Type : string; sc_Status : string; sc_LastTransitionTime : Z; sc_Reason : string; sc_Message : string }.

Record MachineSetSpec := mkMSSpec {
  ms_Replicas : Z; ms_Selector : option LabelSelector; ms_MachineClass : ClassSpec;
  ms_Template : MachineTemplateSpec; ms_MinReadySeconds : Z }.

Record MachineSetStatus := mkMSStatus {
  mss_Replicas : Z; mss_FullyLabeledReplicas : Z; mss_ReadyReplicas : Z; mss_AvailableReplicas : Z;
  mss_ObservedGeneration : Z; mss_Conditions : list MachineSetCondition;
  mss_LastOperation : LastOperation; mss_FailedMachines : option (list MachineSummary) }.

Record MachineSet := mkMS { is_Meta : ObjectMeta; is_Spec : MachineSetSpec; is_Status : MachineSetStatus }.

Definition MachineSetReplicaFailure := "ReplicaFailure".
Definition MachineSetFrozen := "Frozen".

(** ** MachineDeployment *)

Record RollingUpdateMachineDeployment := mkRolling {
  MaxUnavailableField : option IntOrString; MaxSurgeField : option IntOrString }.

Record MachineDeploymentStrategy := mkStrategy {
  str_Type : string; str_RollingUpdate : option RollingUpdateMachineDeployment }.

Record MachineDeploymentCondition := mkMDCond {
  dc_Type : string; dc_Status : string; dc_LastUpdateTime : Z; dc_LastTransitionTime : Z;
  dc_Reason : string; dc_Message : string }.

Record MachineDeploymentSpec := mkMDSpec {
  md_Replicas : Z; md_Selector : option LabelSelector; md_Template : MachineTemplateSpec;
  md_Strategy : MachineDeploymentStrategy; md_MinReadySeconds : Z;
  md_RevisionHistoryLimit : option Z; md_Paused : bool; md_RollbackTo : option Z;
  md_ProgressDeadlineSeconds : option Z }.

Record MachineDeploymentStatus := mkMDStatus {
  mds_ObservedGeneration : Z; mds_Replicas : Z; mds_UpdatedReplicas : Z; mds_ReadyReplicas : Z;
  mds_AvailableReplicas : Z; mds_UnavailableReplicas : Z;
  mds_Conditions : list MachineDeploymentCondition; mds_CollisionCount : option Z;
  mds_FailedMachines : option (list MachineSummary) }.

Record MachineDeployment := mkMD {
  d_Meta : ObjectMeta; d_Spec : MachineDeploymentSpec; d_Status : MachineDeploymentStatus }.

Definition RecreateStrategyType := "Recreate".
Definition RollingUpdateStrategyType := "RollingUpdate".
Definition MachineDeploymentAvailable := "Available".
Definition MachineDeploymentProgressing := "Progressing".
Definition MachineDeploymentReplicaFailure := "ReplicaFailure".
Definition MachineDeploymentFrozen := "Frozen".
Definition DefaultMachineDeploymentUniqueLabelKey := "machine-template-hash".

(** ** MachineClass, Secret and the driver's messages (pkg/util/provider/driver/driver.go) *)

Record SecretReference := mkSecretRef { sr_Name : string; sr_Namespace : string }.

(** The data of a secret: byte strings by key. *)
Record Secret := mkSecret { sec_Meta : ObjectMeta; sec_Type : string; sec_Data : strmap }.

Record MachineClass := mkMachineClass {
  mc_Meta : ObjectMeta; mc_ProviderSpec : string; mc_SecretRef : option SecretReference;
  mc_CredentialsSecretRef : option SecretReference; mc_Provider : string }.

(** A provider-specific class ([AWSMachineClass] and the like): its metadata, the references to secrets
    and the rest of its specification, which also says of which kind it is. *)
Record ProviderClass := mkProviderClass {
  pc_Meta : ObjectMeta; pc_SecretRef : option SecretReference;
  pc_CredentialsSecretRef : option SecretReference; pc_Spec : ProviderSpec }.
Definition pc_Kind (c : ProviderClass) : string := spec_kind (pc_Spec c).

(** A driver of pkg/driver: the kind says which, the other fields are those that all six have. *)
Record InTreeDriver := mkInTreeDriver {
  dv_classKind : string; dv_machineClass : ProviderClass; dv_CredentialsData : strmap; dv_UserData : string;
  dv_MachineID : string; dv_MachineName : string }.

(** [CreateMachineRequest], [DeleteMachineRequest] and [GetMachineStatusRequest] have the same fields. *)
Record DriverRequest := mkDriverRequest {
  dr_Machine : Machine; dr_MachineClass : option MachineClass; dr_Secret : strmap }.

Record CreateMachineResponse := mkCreateResponse {
  cr_ProviderID : string; cr_NodeName : string; cr_LastKnownState : string }.
Record DeleteMachineResponse := mkDeleteResponse { der_LastKnownState : string }.
Record GetMachineStatusResponse := mkStatusResponse { gs_ProviderID : string; gs_NodeName : string }.

(** What the machine controller passes to the drain component. *)
Record DrainOptions := mkDrainOptions {
  do_Timeout : Z; do_MaxEvictRetries : Z; do_PvDetachTimeout : Z; do_PvReattachTimeout : Z;
  do_nodeName : string; do_ForceDeletePods : bool }.

(** What the controller of the machine controller manager passes to its own. *)
Record InTreeDrainOptions := mkInTreeDrainOptions {
  io_Timeout : Z; io_MaxEvictRetries : Z; io_PvDetachTimeout : Z; io_nodeName : string; io_ForceDeletePods : bool;
  io_Driver : InTreeDriver }.

(** ** Pods and volumes of the target cluster *)

(** A volume: whether it is an [emptyDir], and the claim it is backed by, if any. *)
Record Volume := mkVolume { vo_EmptyDir : bool; vo_ClaimName : option string }.

Record Pod := mkPod {
  po_Meta : ObjectMeta; po_Phase : string; po_NodeName : string; po_Volumes : list Volume;
  po_Priority : option Z; po_TerminationGracePeriodSeconds : option Z }.

(** The sources of a volume that a driver looks at. *)
Record PersistentVolumeSpec := mkPVSpec {
  pv_AWSElasticBlockStore : option string; pv_GCEPersistentDisk : option string; pv_AzureDisk : option string;
  pv_Cinder : option string; pv_FlexVolume : option (option strmap);
  (* driver and handle *)
  pv_CSI : option (string * string) }.

Record PodDisruptionBudget := mkPDB {
  pdb_Meta : ObjectMeta; pdb_ObservedGeneration : Z; pdb_ExpectedPods : Z; pdb_CurrentHealthy : Z;
  pdb_PodDisruptionsAllowed : Z }.

Record VolumeAttachment := mkVolumeAttachment {
  va_PersistentVolumeName : option string; va_NodeName : string; va_Attached : bool }.

(** What discovery says of an API group and of a resource. *)
Record APIGroup := mkAPIGroup { ag_Name : string; ag_GroupVersion : string }.
Record APIResource := mkAPIResource { ar_Name : string; ar_Kind : string }.

(** ** Decidable equality *)

#[export] Instance OwnerReference_eq_dec : EqDecision OwnerReference.
Proof. solve_decision. Defined.
#[export] Instance ObjectMeta_eq_dec : EqDecision ObjectMeta.
Proof. solve_decision. Defined.
#[export] Instance SelectorOp_eq_dec : EqDecision SelectorOp.
Proof. solve_decision. Defined.
#[export] Instance LabelSelectorRequirement_eq_dec : EqDecision LabelSelectorRequirement.
Proof. solve_decision. Defined.
#[export] Instance LabelSelector_eq_dec : EqDecision LabelSelector.
Proof. solve_decision. Defined.
#[export] Instance Taint_eq_dec : EqDecision Taint.
Proof. solve_decision. Defined.
#[export] Instance NodeSpec_eq_dec : EqDecision NodeSpec.
Proof. solve_decision. Defined.
#[export] Instance NodeCondition_eq_dec : EqDecision NodeCondition.
Proof. solve_decision. Defined.
#[export] Instance Node_eq_dec : EqDecision Node.
Proof. solve_decision. Defined.
#[export] Instance ClassSpec_eq_dec : EqDecision ClassSpec.
Proof. solve_decision. Defined.
#[export] Instance MachineConfiguration_eq_dec : EqDecision MachineConfiguration.
Proof. solve_decision. Defined.
#[export] Instance NodeTemplateSpec_eq_dec : EqDecision NodeTemplateSpec.
Proof. solve_decision. Defined.
#[export] Instance MachineSpec_eq_dec : EqDecision MachineSpec.
Proof. solve_decision. Defined.
#[export] Instance LastOperation_eq_dec : EqDecision LastOperation.
Proof. solve_decision. Defined.
#[export] Instance CurrentStatus_eq_dec : EqDecision CurrentStatus.
Proof. solve_decision. Defined.
#[export] Instance MachineStatus_eq_dec : EqDecision MachineStatus.
Proof. solve_decision. Defined.
#[export] Instance Machine_eq_dec : EqDecision Machine.
Proof. solve_decision. Defined.
#[export] Instance MachineTemplateSpec_eq_dec : EqDecision MachineTemplateSpec.
Proof. solve_decision. Defined.
#[export] Instance MachineSummary_eq_dec : EqDecision MachineSummary.
Proof. solve_decision. Defined.
#[export] Instance MachineSetCondition_eq_dec : EqDecision MachineSetCondition.
Proof. solve_decision. Defined.
#[export] Instance MachineSetSpec_eq_dec : EqDecision MachineSetSpec.
Proof. solve_decision. Defined.
#[export] Instance MachineSetStatus_eq_dec : EqDecision MachineSetStatus.
Proof. solve_decision. Defined.
#[export] Instance MachineSet_eq_dec : EqDecision MachineSet.
Proof. solve_decision. Defined.
#[export] Instance MachineDeploymentCondition_eq_dec : EqDecision MachineDeploymentCondition.
Proof. solve_decision. Defined.
#[export] Instance MachineDeploymentStatus_eq_dec : EqDecision MachineDeploymentStatus.
Proof. solve_decision. Defined.

#[export] Instance RollingUpdate_eq_dec : EqDecision RollingUpdateMachineDeployment.
Proof. solve_decision. Defined.
#[export] Instance MachineDeploymentStrategy_eq_dec : EqDecision MachineDeploymentStrategy.
Proof. solve_decision. Defined.
#[export] Instance MachineDeploymentSpec_eq_dec : EqDecision MachineDeploymentSpec.
Proof. solve_decision. Defined.
#[export] Instance MachineDeployment_eq_dec : EqDecision MachineDeployment.
Proof. solve_decision. Defined.
#[export] Instance SecretReference_eq_dec : EqDecision SecretReference.
Proof. solve_decision. Defined.
#[export] Instance Secret_eq_dec : EqDecision Secret.
Proof. solve_decision. Defined.
#[export] Instance MachineClass_eq_dec : EqDecision MachineClass.
Proof. solve_decision. Defined.
#[export] Instance ProviderClass_eq_dec : EqDecision ProviderClass.
Proof. solve_decision. Defined.
#[export] Instance InTreeDriver_eq_dec : EqDecision InTreeDriver.
Proof. solve_decision. Defined.
#[export] Instance InTreeDrainOptions_eq_dec : EqDecision InTreeDrainOptions.
Proof. solve_decision. Defined.
#[export] Instance DriverRequest_eq_dec : EqDecision DriverRequest.
Proof. solve_decision. Defined.
#[export] Instance Volume_eq_dec : EqDecision Volume.
Proof. solve_decision. Defined.
#[export] Instance Pod_eq_dec : EqDecision Pod.
Proof. solve_decision. Defined.
#[export] Instance DrainOptions_eq_dec : EqDecision DrainOptions.
Proof. solve_decision. Defined.

(** ** Zero values *)

Definition zero_time : Z := 0.
Definition zero_meta : ObjectMeta :=
  mkMeta "" "" "" "" "" 0 zero_time None ∅ ∅ [] [].
Definition zero_node_spec : NodeSpec := mkNodeSpec "" "" false [].
Definition zero_node_template : NodeTemplateSpec := mkNodeTemplate zero_meta zero_node_spec.
Definition zero_class : ClassSpec := mkClass "" "" "".
Definition zero_machine_spec : MachineSpec := mkMachineSpec zero_class "" zero_node_template None.
Definition zero_last_op : LastOperation := mkLastOp "" zero_time "" "".
Definition zero_cur_status : CurrentStatus := mkCurStatus "" false zero_time.
Definition zero_machine_status : MachineStatus := mkMachineStatus "" [] zero_last_op zero_cur_status "".
Definition zero_template : MachineTemplateSpec := mkTemplate zero_meta zero_machine_spec.
Definition zero_ms_status : MachineSetStatus := mkMSStatus 0 0 0 0 0 [] zero_last_op None.
Definition zero_summary : MachineSummary := mkSummary "" "" zero_last_op "".

(** ** Field assignments [x.f = v] *)

Definition set_Labels (v : strmap) (m : ObjectMeta) : ObjectMeta :=
  mkMeta (Name m) (GenerateName m) (Namespace m) (UID m) (ResourceVersion m) (Generation m)
    (CreationTimestamp m) (DeletionTimestamp m) v (Annotations m) (OwnerReferences m) (Finalizers m).
Definition set_Annotations (v : strmap) (m : ObjectMeta) : ObjectMeta :=
  mkMeta (Name m) (GenerateName m) (Namespace m) (UID m) (ResourceVersion m) (Generation m)
    (CreationTimestamp m) (DeletionTimestamp m) (Labels m) v (OwnerReferences m) (Finalizers m).
Definition set_OwnerReferences (v : list OwnerReference) (m : ObjectMeta) : ObjectMeta :=
  mkMeta (Name m) (GenerateName m) (Namespace m) (UID m) (ResourceVersion m) (Generation m)
    (CreationTimestamp m) (DeletionTimestamp m) (Labels m) (Annotations m) v (Finalizers m).
Definition set_Finalizers (v : list string) (m : ObjectMeta) : ObjectMeta :=
  mkMeta (Name m) (GenerateName m) (Namespace m) (UID m) (ResourceVersion m) (Generation m)
    (CreationTimestamp m) (DeletionTimestamp m) (Labels m) (Annotations m) (OwnerReferences m) v.

(** MachineSet *)
Definition is_set_Meta (f : ObjectMeta -> ObjectMeta) (ms : MachineSet) : MachineSet :=
  mkMS (f (is_Meta ms)) (is_Spec ms) (is_Status ms).
Definition is_set_Spec (f : MachineSetSpec -> MachineSetSpec) (ms : MachineSet) : MachineSet :=
  mkMS (is_Meta ms) (f (is_Spec ms)) (is_Status ms).
Definition is_set_Status (st : MachineSetStatus) (ms : MachineSet) : MachineSet :=
  mkMS (is_Meta ms) (is_Spec ms) st.
Definition set_Replicas (n : Z) (s : MachineSetSpec) : MachineSetSpec :=
  mkMSSpec n (ms_Selector s) (ms_MachineClass s) (ms_Template s) (ms_MinReadySeconds s).
Definition set_Template (t : MachineTemplateSpec) (s : MachineSetSpec) : MachineSetSpec :=
  mkMSSpec (ms_Replicas s) (ms_Selector s) (ms_MachineClass s) t (ms_MinReadySeconds s).
Definition set_Selector (x : option LabelSelector) (s : MachineSetSpec) : MachineSetSpec :=
  mkMSSpec (ms_Replicas s) x (ms_MachineClass s) (ms_Template s) (ms_MinReadySeconds s).
Definition set_MinReadySeconds (n : Z) (s : MachineSetSpec) : MachineSetSpec :=
  mkMSSpec (ms_Replicas s) (ms_Selector s) (ms_MachineClass s) (ms_Template s) n.

Definition tp_set_Meta (f : ObjectMeta -> ObjectMeta) (t : MachineTemplateSpec) : MachineTemplateSpec :=
  mkTemplate (f (tp_Meta t)) (tp_Spec t).
Definition tp_set_Spec (f : MachineSpec -> MachineSpec) (t : MachineTemplateSpec) : MachineTemplateSpec :=
  mkTemplate (tp_Meta t) (f (tp_Spec t)).
Definition sp_set_NodeTemplate (nt : NodeTemplateSpec) (s : MachineSpec) : MachineSpec :=
  mkMachineSpec (sp_Class s) (sp_ProviderID s) nt (sp_MachineConfiguration s).
Definition sp_set_Config (c : option MachineConfiguration) (s : MachineSpec) : MachineSpec :=
  mkMachineSpec (sp_Class s) (sp_ProviderID s) (sp_NodeTemplateSpec s) c.
Definition sp_set_Kind (k : string) (s : MachineSpec) : MachineSpec :=
  mkMachineSpec (mkClass (cl_APIGroup (sp_Class s)) k (cl_Name (sp_Class s)))
    (sp_ProviderID s) (sp_NodeTemplateSpec s) (sp_MachineConfiguration s).
Definition sp_set_ProviderID (p : string) (s : MachineSpec) : MachineSpec :=
  mkMachineSpec (sp_Class s) p (sp_NodeTemplateSpec s) (sp_MachineConfiguration s).

Definition is_set_Annotations (v : strmap) (ms : MachineSet) : MachineSet :=
  is_set_Meta (set_Annotations v) ms.
Definition is_set_template_spec (f : MachineSpec -> MachineSpec) (ms : MachineSet) : MachineSet :=
  is_set_Spec (fun s => set_Template (tp_set_Spec f (ms_Template s)) s) ms.

Definition mss_set_Conditions (c : list MachineSetCondition) (s : MachineSetStatus) : MachineSetStatus :=
  mkMSStatus (mss_Replicas s) (mss_FullyLabeledReplicas s) (mss_ReadyReplicas s)
    (mss_AvailableReplicas s) (mss_ObservedGeneration s) c (mss_LastOperation s) (mss_FailedMachines s).
Definition mss_set_ObservedGeneration (g : Z) (s : MachineSetStatus) : MachineSetStatus :=
  mkMSStatus (mss_Replicas s) (mss_FullyLabeledReplicas s) (mss_ReadyReplicas s)
    (mss_AvailableReplicas s) g (mss_Conditions s) (mss_LastOperation s) (mss_FailedMachines s).
Definition mss_set_FailedMachines (f : option (list MachineSummary)) (s : MachineSetStatus) : MachineSetStatus :=
  mkMSStatus (mss_Replicas s) (mss_FullyLabeledReplicas s) (mss_ReadyReplicas s)
    (mss_AvailableReplicas s) (mss_ObservedGeneration s) (mss_Conditions s) (mss_LastOperation s) f.

(** MachineDeployment *)
Definition d_set_Meta (f : ObjectMeta -> ObjectMeta) (d : MachineDeployment) : MachineDeployment :=
  mkMD (f (d_Meta d)) (d_Spec d) (d_Status d).
Definition d_set_Spec (f : MachineDeploymentSpec -> MachineDeploymentSpec) (d : MachineDeployment) : MachineDeployment :=
  mkMD (d_Meta d) (f (d_Spec d)) (d_Status d).
Definition d_set_Status (st : MachineDeploymentStatus) (d : MachineDeployment) : MachineDeployment :=
  mkMD (d_Meta d) (d_Spec d) st.
Definition md_set_Template (t : MachineTemplateSpec) (s : MachineDeploymentSpec) : MachineDeploymentSpec :=
  mkMDSpec (md_Replicas s) (md_Selector s) t (md_Strategy s) (md_MinReadySeconds s)
    (md_RevisionHistoryLimit s) (md_Paused s) (md_RollbackTo s) (md_ProgressDeadlineSeconds s).
Definition md_set_RollbackTo (r : option Z) (s : MachineDeploymentSpec) : MachineDeploymentSpec :=
  mkMDSpec (md_Replicas s) (md_Selector s) (md_Template s) (md_Strategy s) (md_MinReadySeconds s)
    (md_RevisionHistoryLimit s) (md_Paused s) r (md_ProgressDeadlineSeconds s).
Definition mds_set_Conditions (c : list MachineDeploymentCondition) (s : MachineDeploymentStatus) : MachineDeploymentStatus :=
  mkMDStatus (mds_ObservedGeneration s) (mds_Replicas s) (mds_UpdatedReplicas s) (mds_ReadyReplicas s)
    (mds_AvailableReplicas s) (mds_UnavailableReplicas s) c (mds_CollisionCount s) (mds_FailedMachines s).
Definition mds_set_CollisionCount (c : option Z) (s : MachineDeploymentStatus) : MachineDeploymentStatus :=
  mkMDStatus (mds_ObservedGeneration s) (mds_Replicas s) (mds_UpdatedReplicas s) (mds_ReadyReplicas s)
    (mds_AvailableReplicas s) (mds_UnavailableReplicas s) (mds_Conditions s) c (mds_FailedMachines s).
Definition mds_set_ObservedGeneration (g : Z) (s : MachineDeploymentStatus) : MachineDeploymentStatus :=
  mkMDStatus g (mds_Replicas s) (mds_UpdatedReplicas s) (mds_ReadyReplicas s)
    (mds_AvailableReplicas s) (mds_UnavailableReplicas s) (mds_Conditions s) (mds_CollisionCount s)
    (mds_FailedMachines s).
Definition dc_set_LastTransitionTime (t : Z) (c : MachineDeploymentCondition) : MachineDeploymentCondition :=
  mkMDCond (dc_Type c) (dc_Status c) (dc_LastUpdateTime c) t (dc_Reason c) (dc_Message c).

(** Machine *)
Definition m_set_Meta (f : ObjectMeta -> ObjectMeta) (m : Machine) : Machine :=
  mkMachine (f (m_Meta m)) (m_Spec m) (m_Status m).
Definition m_set_Spec (f : MachineSpec -> MachineSpec) (m : Machine) : Machine :=
  mkMachine (m_Meta m) (f (m_Spec m)) (m_Status m).
Definition m_set_Status (st : MachineStatus) (m : Machine) : Machine :=
  mkMachine (m_Meta m) (m_Spec m) st.

(** Shorthands for the selectors the code chains. *)
Definition is_Name (ms : MachineSet) : string := Name (is_Meta ms).
Definition is_UID (ms : MachineSet) : string := UID (is_Meta ms).
Definition is_Replicas (ms : MachineSet) : Z := ms_Replicas (is_Spec ms).
Definition is_Available (ms : MachineSet) : Z := mss_AvailableReplicas (is_Status ms).
Definition d_Name (d : MachineDeployment) : string := Name (d_Meta d).
Definition d_Replicas (d : MachineDeployment) : Z := md_Replicas (d_Spec d).
Definition m_Name (m : Machine) : string := Name (m_Meta m).
Definition m_Phase (m : Machine) : string := cs_Phase (st_CurrentStatus (m_Status m)).

(** [KeyFunc]: the key of an object in the work queues. *)
Definition KeyFunc (m : ObjectMeta) : string :=
  if bool_decide (Namespace m = EmptyString) then Name m else Namespace m +:+ "/" +:+ Name m.
