(* ===== verification/Labels.v ===== *)
(** * Labels, selectors and owner references

    pkg/util/labels/labels.go, and from src/vendor the label selectors of
    [k8s.io/apimachinery/pkg/labels], [metav1.LabelSelectorAsSelector] and
    [metav1.GetControllerOf].  A selector is the list of its requirements; the order of
    requirements, which the library keeps sorted by key, does not affect matching. *)
From Stdlib Require Import ZArith Ascii String.
From stdpp Require Import base gmap strings list.
From S2P Require Import Prelude GoLib Types.
Open Scope Z_scope.

(** ** Syntax of label keys and values (validation.IsQualifiedName, IsValidLabelValue) *)

Definition in_range (lo hi c : ascii) : bool :=
  (N_of_ascii lo <=? N_of_ascii c)%N && (N_of_ascii c <=? N_of_ascii hi)%N.
Definition is_lower (c : ascii) : bool := in_range "a" "z" c || in_range "0" "9" c.
Definition is_alnum (c : ascii) : bool := is_lower c || in_range "A" "Z" c.
Definition is_qname_char (c : ascii) : bool :=
  is_alnum c || bool_decide (c ∈ ["-"%char; "_"%char; "."%char]).
Definition is_dns_char (c : ascii) : bool := is_lower c || bool_decide (c = "-"%char).

(** Non-empty, [edge] characters at both ends, [inner] characters in between. *)
Definition edge_inner (edge inner : ascii -> bool) (s : string) : bool :=
  match list_ascii_of_string s with
  | [] => false
  | (c :: _) as l => edge c && default false (edge <$> last l) && forallb inner l
  end.

Definition slen (s : string) : Z := Z.of_nat (String.length s).

Definition IsDNS1123Subdomain (s : string) : bool :=
  (slen s <=? 253) && forallb (edge_inner is_lower is_dns_char) (split "." s).

Definition valid_name_part (s : string) : bool :=
  (slen s <=? 63) && edge_inner is_alnum is_qname_char s.

Definition IsQualifiedName (s : string) : bool :=
  match split "/" s with
  | [name] => valid_name_part name
  | [prefix; name] => IsDNS1123Subdomain prefix && valid_name_part name
  | _ => false
  end.

Definition IsValidLabelValue (s : string) : bool :=
  bool_decide (s = EmptyString) || valid_name_part s.

(** ** Selectors *)

Inductive Operator := OIn | ONotIn | OEquals | OExists | ODoesNotExist.

Record Requirement := mkReq { rq_key : string; rq_op : Operator; rq_values : list string }.

(** [labels.Nothing()] or a conjunction of requirements ([labels.Everything()] is the empty one). *)
Inductive Selector := NothingSelector | InternalSelector (reqs : list Requirement).

#[export] Instance Operator_eq_dec : EqDecision Operator.
Proof. solve_decision. Defined.
#[export] Instance Requirement_eq_dec : EqDecision Requirement.
Proof. solve_decision. Defined.
#[export] Instance Selector_eq_dec : EqDecision Selector.
Proof. solve_decision. Defined.

Definition Everything : Selector := InternalSelector [].

Definition NewRequirement (key : string) (op : Operator) (vals : list string) : option Requirement :=
  if negb (IsQualifiedName key) then None
  else
    let arity_ok :=
      match op with
      | OIn | ONotIn => negb (bool_decide (vals = []))
      | OEquals => bool_decide (length vals = 1%nat)
      | OExists | ODoesNotExist => bool_decide (vals = [])
      end in
    if arity_ok && forallb IsValidLabelValue vals then Some (mkReq key op vals) else None.

Definition req_matches (r : Requirement) (ls : strmap) : bool :=
  match rq_op r, ls !! rq_key r with
  | (OIn | OEquals), None => false
  | (OIn | OEquals), Some v => bool_decide (v ∈ rq_values r)
  | ONotIn, None => true
  | ONotIn, Some v => negb (bool_decide (v ∈ rq_values r))
  | OExists, o => bool_decide (is_Some o)
  | ODoesNotExist, o => negb (bool_decide (is_Some o))
  end.

Definition sel_Matches (s : Selector) (ls : strmap) : bool :=
  match s with
  | NothingSelector => false
  | InternalSelector reqs => forallb (fun r => req_matches r ls) reqs
  end.

Definition sel_Empty (s : Selector) : bool :=
  match s with NothingSelector => false | InternalSelector reqs => bool_decide (length reqs = 0%nat) end.

Definition convert_op (o : SelectorOp) : option Operator :=
  match o with
  | OpIn => Some OIn | OpNotIn => Some ONotIn | OpExists => Some OExists
  | OpDoesNotExist => Some ODoesNotExist | OpInvalid _ => None
  end.

Definition convert_expr (e : LabelSelectorRequirement) : option Requirement :=
  match convert_op (lsr_Operator e) with
  | None => None
  | Some op => NewRequirement (lsr_Key e) op (lsr_Values e)
  end.

Definition label_req (kv : string * string) : option Requirement :=
  NewRequirement kv.1 OEquals [kv.2].

(** [metav1.LabelSelectorAsSelector]; [None] is the error. *)
Definition LabelSelectorAsSelector (ps : option LabelSelector) : option Selector :=
  match ps with
  | None => Some NothingSelector
  | Some ps =>
      if bool_decide (MatchLabels ps = ∅ /\ MatchExpressions ps = []) then Some Everything
      else
        match mapM label_req (map_to_list (MatchLabels ps)), mapM convert_expr (MatchExpressions ps) with
        | Some r1, Some r2 => Some (InternalSelector (r1 ++ r2))
        | _, _ => None
        end
  end.

(** [labels.Set(m).AsSelectorPreValidated()]: equality with every label of [m]. *)
Definition AsSelectorPreValidated (m : strmap) : Selector :=
  InternalSelector ((fun kv => mkReq kv.1 OEquals [kv.2]) <$> map_to_list m).

(** ** Owner references *)

Definition GetControllerOf (m : ObjectMeta) : option OwnerReference :=
  head (filter (fun r => or_Controller r = Some true) (OwnerReferences m)).

Definition IsControlledBy (obj owner : ObjectMeta) : bool :=
  match GetControllerOf obj with
  | None => false
  | Some ref => bool_decide (or_UID ref = UID owner)
  end.

Definition GroupVersionString : string := "machine.sapcloud.io/v1alpha1".

Definition NewControllerRef (owner : ObjectMeta) (kind : string) : OwnerReference :=
  mkOwnerRef GroupVersionString kind (Name owner) (UID owner) (Some true) (Some true).

(** ** pkg/util/labels/labels.go *)

Definition CloneAndAddLabel (labels : strmap) (labelKey labelValue : string) : strmap :=
  if bool_decide (labelKey = EmptyString) then labels
  else <[labelKey := labelValue]> labels.

Definition CloneAndRemoveLabel (labels : strmap) (labelKey : string) : strmap :=
  if bool_decide (labelKey = EmptyString) then labels
  else delete labelKey labels.

Definition AddLabel (labels : strmap) (labelKey labelValue : string) : strmap :=
  if bool_decide (labelKey = EmptyString) then labels
  else <[labelKey := labelValue]> labels.

Definition CloneSelectorAndAddLabel (selector : LabelSelector) (labelKey labelValue : string) : LabelSelector :=
  if bool_decide (labelKey = EmptyString) then selector
  else mkSelector (<[labelKey := labelValue]> (MatchLabels selector)) (MatchExpressions selector).

Definition AddLabelToSelector (selector : LabelSelector) (labelKey labelValue : string) : LabelSelector :=
  if bool_decide (labelKey = EmptyString) then selector
  else mkSelector (<[labelKey := labelValue]> (MatchLabels selector)) (MatchExpressions selector).

Definition SelectorHasLabel (selector : LabelSelector) (labelKey : string) : bool :=
  0 <? slen (mget (MatchLabels selector) labelKey).

(** ** Lemmas *)

Lemma label_req_matches kv r ls :
  label_req kv = Some r -> req_matches r ls = bool_decide (ls !! kv.1 = Some kv.2).
Proof.
  unfold label_req, NewRequirement. destruct kv as [k v]; simpl. intros H.
  repeat (case_match; simplify_eq). unfold req_matches; simpl.
  destruct (ls !! k) as [v'|]; [|by rewrite bool_decide_false].
  apply bool_decide_ext. rewrite list_elem_of_singleton. naive_solver.
Qed.

Lemma forallb_mapM_matches (l : list (string * string)) reqs ls :
  mapM label_req l = Some reqs ->
  forallb (fun r => req_matches r ls) reqs = forallb (fun kv => bool_decide (ls !! kv.1 = Some kv.2)) l.
Proof.
  intros H. apply mapM_Some_1 in H.
  induction H as [|kv r l reqs Hr _ IH]; simpl; [done|].
  by rewrite (label_req_matches _ _ _ Hr), IH.
Qed.

Lemma forallb_map_subseteq (m ls : strmap) :
  forallb (fun kv => bool_decide (ls !! kv.1 = Some kv.2)) (map_to_list m) = true <-> m ⊆ ls.
Proof.
  rewrite forallb_forall, map_subseteq_spec. split.
  - intros H k v Hk. apply elem_of_map_to_list, list_elem_of_In in Hk.
    specialize (H _ Hk). by apply bool_decide_eq_true in H.
  - intros H [k v] Hk. apply list_elem_of_In, elem_of_map_to_list in Hk.
    apply bool_decide_eq_true. simpl. auto.
Qed.

(** A selector made of labels only matches exactly the supersets of its labels. *)
Lemma LabelSelector_labels_only (ml ls : strmap) sel :
  ml ≠ ∅ -> LabelSelectorAsSelector (Some (mkSelector ml [])) = Some sel ->
  sel_Matches sel ls = true <-> ml ⊆ ls.
Proof.
  intros Hne. unfold LabelSelectorAsSelector. simpl.
  rewrite bool_decide_false by (intros [? _]; done).
  destruct (mapM label_req (map_to_list ml)) as [reqs|] eqn:E; [|done].
  intros H. simplify_eq. rewrite app_nil_r. simpl.
  rewrite (forallb_mapM_matches _ _ _ E). apply forallb_map_subseteq.
Qed.

Lemma AsSelectorPreValidated_matches (m ls : strmap) :
  sel_Matches (AsSelectorPreValidated m) ls = true <-> m ⊆ ls.
Proof.
  rewrite <- forallb_map_subseteq. unfold AsSelectorPreValidated, sel_Matches.
  enough (forall l : list (string * string), forallb (fun r => req_matches r ls) ((fun kv => mkReq kv.1 OEquals [kv.2]) <$> l) =
     forallb (fun kv => bool_decide (ls !! kv.1 = Some kv.2)) l) as -> by done.
  induction l as [|[k v] l IH]; csimpl; [done|]. rewrite IH. f_equal.
  unfold req_matches; simpl. destruct (ls !! k) as [v'|]; [|by rewrite bool_decide_false].
  apply bool_decide_ext. rewrite list_elem_of_singleton. naive_solver.
Qed.

Lemma GetControllerOf_Some m r :
  GetControllerOf m = Some r -> r ∈ OwnerReferences m /\ or_Controller r = Some true.
Proof.
  unfold GetControllerOf. intros H. apply head_Some_elem_of in H.
  apply list_elem_of_filter in H as [? ?]. done.
Qed.

Lemma GetControllerOf_NewControllerRef m owner kind :
  OwnerReferences m = [NewControllerRef owner kind] ->
  GetControllerOf m = Some (NewControllerRef owner kind).
Proof. intros H. unfold GetControllerOf. rewrite H. done. Qed.

(** No character outside the alphabet of names and values occurs in a valid one. *)
Lemma valid_name_part_no_byte c s : is_qname_char c = false -> valid_name_part s = true -> has_byte c s = false.
Proof.
  intros Hc H. unfold valid_name_part, edge_inner in H. apply andb_true_iff in H as [_ H].
  apply (has_byte_forallb c is_qname_char s Hc).
  destruct (list_ascii_of_string s) as [|a l]; [done|]. by apply andb_prop in H as [_ H].
Qed.

Lemma has_byte_join c sep l : c <> sep -> Forall (fun s => has_byte c s = false) l -> has_byte c (join sep l) = false.
Proof.
  intros Hne. induction 1 as [|x l Hx HF IH]; [done|].
  destruct l as [|y l]; [done|].
  change (join sep (x :: y :: l)) with (x +:+ String sep (join sep (y :: l))).
  rewrite has_byte_app, Hx. simpl. rewrite bool_decide_false by congruence. done.
Qed.

Lemma dns_no_byte c s : c <> "."%char -> is_dns_char c = false -> IsDNS1123Subdomain s = true -> has_byte c s = false.
Proof.
  intros Hne Hc H. unfold IsDNS1123Subdomain in H. apply andb_true_iff in H as [_ H].
  rewrite <- (join_split "." s). apply has_byte_join; [done|].
  rewrite forallb_forall in H. apply Forall_forall. intros x Hx. apply list_elem_of_In in Hx.
  specialize (H x Hx). apply (has_byte_forallb c is_dns_char x Hc). unfold edge_inner in H.
  destruct (list_ascii_of_string x) as [|a l]; [done|]. by apply andb_prop in H as [_ H].
Qed.

Lemma IsQualifiedName_no_byte c s :
  c <> "."%char -> c <> "/"%char -> is_dns_char c = false -> is_qname_char c = false ->
  IsQualifiedName s = true -> has_byte c s = false.
Proof.
  intros H1 H2 Hd Hq H. unfold IsQualifiedName in H.
  rewrite <- (join_split "/" s). apply has_byte_join; [done|].
  destruct (split "/" s) as [|a [|b [|]]]; try done.
  - repeat constructor. by apply valid_name_part_no_byte.
  - apply andb_true_iff in H as [Ha Hb]. repeat constructor; [by apply dns_no_byte|].
    by apply valid_name_part_no_byte.
Qed.

Lemma IsValidLabelValue_no_byte c s : is_qname_char c = false -> IsValidLabelValue s = true -> has_byte c s = false.
Proof.
  intros Hc H. unfold IsValidLabelValue in H. apply orb_true_iff in H as [H|H].
  - apply bool_decide_eq_true in H. by subst.
  - by apply valid_name_part_no_byte.
Qed.
