(* ===== verification/Samples.v ===== *)
(** * Sample objects

    Small concrete machines, machine sets and deployments on which the definitions are evaluated. *)
From Stdlib Require Import ZArith.
From stdpp Require Import base gmap strings list.
From S2P Require Import Prelude GoLib Types.
Open Scope Z_scope.

Definition sample_meta (name uid : string) : ObjectMeta :=
  mkMeta name "" "shoot" uid "1" 1 1000 None {[ "app" := "db" ]} ∅ [] [].

Definition sample_template : MachineTemplateSpec :=
  mkTemplate (sample_meta "" "") (mkMachineSpec (mkClass "" "MachineClass" "small") "" zero_node_template None).

Definition sample_selector : LabelSelector := mkSelector {[ "app" := "db" ]} [].

(** A rolling deployment with absolute surge and unavailability. *)
Definition sample_md (replicas surge unavailable : Z) : MachineDeployment :=
  mkMD (sample_meta "md" "uid-md")
    (mkMDSpec replicas (Some sample_selector) sample_template
       (mkStrategy RollingUpdateStrategyType
          (Some (mkRolling (Some (FromInt unavailable)) (Some (FromInt surge)))))
       0 None false None (Some 600))
    (mkMDStatus 1 0 0 0 0 0 [] None None).

(** A machine set of the given size, all of it existing, [available] of it available. *)
Definition sample_ms (name : string) (replicas available : Z) : MachineSet :=
  mkMS (sample_meta name name)
    (mkMSSpec replicas (Some sample_selector) zero_class sample_template 0)
    (mkMSStatus replicas replicas available available 1 [] zero_last_op None).

Definition sample_machine (name phase : string) : Machine :=
  mkMachine (sample_meta name name) (tp_Spec sample_template)
    (mkMachineStatus name [] zero_last_op (mkCurStatus phase false 0) "").
