(* ===== verification/MachineSets.v ===== *)
(** * Collections of machines and machine sets

    The sort orders, filters and counters of pkg/controller/controller_utils.go and
    pkg/controller/deployment_util.go.  A Go slice of pointers whose elements may be nil is a
    [list (option MachineSet)]; [sort.Sort] is the interface [GoSort]. *)
From Stdlib Require Import ZArith Lia.
From stdpp Require Import base gmap strings list.
From S2P Require Import Prelude GoLib Types Labels.
Open Scope Z_scope.

(** ** Orders on machine sets *)

Definition MachineSetsByCreationTimestamp_Less (a b : MachineSet) : bool :=
  if CreationTimestamp (is_Meta a) =? CreationTimestamp (is_Meta b)
  then string_ltb (is_Name a) (is_Name b)
  else CreationTimestamp (is_Meta a) <? CreationTimestamp (is_Meta b).

Definition MachineSetsBySizeOlder_Less (a b : MachineSet) : bool :=
  if is_Replicas a =? is_Replicas b then MachineSetsByCreationTimestamp_Less a b
  else is_Replicas b <? is_Replicas a.

Definition MachineSetsBySizeNewer_Less (a b : MachineSet) : bool :=
  if is_Replicas a =? is_Replicas b then MachineSetsByCreationTimestamp_Less b a
  else is_Replicas b <? is_Replicas a.

(** ** Filters *)

Definition FilterMachineSets (filterFn : option MachineSet -> bool) (ISes : list (option MachineSet))
  : list (option MachineSet) := filter (fun o => filterFn o = true) ISes.

Definition activeFilter (o : option MachineSet) : bool :=
  match o with Some ms => 0 <? is_Replicas ms | None => false end.

(** [FilterMachineSets] with [activeFilter]; no element of the result is nil, so the pointers are
    dropped. *)
Definition FilterActiveMachineSets (machineSets : list (option MachineSet)) : list MachineSet :=
  omap id (FilterMachineSets activeFilter machineSets).

(** ** Replica counts: [int32] accumulators that skip nil *)

Definition opt_count (f : MachineSet -> Z) (o : option MachineSet) : Z := from_option f 0 o.

Definition GetReplicaCountForMachineSets (l : list (option MachineSet)) : Z :=
  sum32 (opt_count is_Replicas) l.
Definition GetActualReplicaCountForMachineSets (l : list (option MachineSet)) : Z :=
  sum32 (opt_count (fun ms => mss_Replicas (is_Status ms))) l.
Definition GetReadyReplicaCountForMachineSets (l : list (option MachineSet)) : Z :=
  sum32 (opt_count (fun ms => mss_ReadyReplicas (is_Status ms))) l.
Definition GetAvailableReplicaCountForMachineSets (l : list (option MachineSet)) : Z :=
  sum32 (opt_count is_Available) l.

(** ** Machines *)

Definition MachinePriority := "machinepriority.machine.sapcloud.io".

Definition IsMachineActive (p : Machine) : bool :=
  if bool_decide (m_Phase p = MachineFailed) then false
  else if bool_decide (m_Phase p = MachineTerminating) then false
  else true.

Definition IsMachineFailed (p : Machine) : bool := bool_decide (m_Phase p = MachineFailed).

Definition MachineKey (m : Machine) : string := m_Name m.

(** The priority annotation, 3 when absent, empty or not a number. *)
Definition machine_priority (m : Machine) : Z :=
  let v := mget (Annotations (m_Meta m)) MachinePriority in
  if bool_decide (v = EmptyString) then 3 else default 3 (Atoi v).

(** The phase map of [ActiveMachines.Less]; a missing phase reads as 0. *)
Definition phase_priority (phase : string) : Z :=
  if bool_decide (phase = MachineTerminating) then 0
  else if bool_decide (phase = MachineFailed) then 1
  else if bool_decide (phase = MachineCrashLoopBackOff) then 2
  else if bool_decide (phase = MachineUnknown) then 3
  else if bool_decide (phase = MachinePending) then 4
  else if bool_decide (phase = MachineAvailable) then 5
  else if bool_decide (phase = MachineRunning) then 6
  else 0.

Definition ActiveMachines_Less (a b : Machine) : bool :=
  if negb (machine_priority a =? machine_priority b) then machine_priority a <? machine_priority b
  else if negb (phase_priority (m_Phase a) =? phase_priority (m_Phase b))
  then phase_priority (m_Phase a) <? phase_priority (m_Phase b)
  else if negb (CreationTimestamp (m_Meta a) =? CreationTimestamp (m_Meta b))
  then CreationTimestamp (m_Meta a) <? CreationTimestamp (m_Meta b)
  else false.

(** ** Lexicographic orders are strict weak orders *)

Lemma strict_weak_of_key {A} (less : A -> A -> bool) (key : A -> Z) (next : A -> A -> bool) :
  strict_weak next ->
  (forall a b, less a b = if key a =? key b then next a b else key a <? key b) ->
  strict_weak less.
Proof.
  intros [Hi Ht Hn] Heq. split; setoid_rewrite Heq.
  - intros x. by rewrite Z.eqb_refl.
  - intros x y z. repeat case_goal; intros; try lia; eauto.
  - intros x y z. repeat case_goal; intros; try lia; eauto.
Qed.

Lemma strict_weak_const {A} : strict_weak (fun _ _ : A => false).
Proof. by split. Qed.

Lemma strict_weak_reverse {A} (less : A -> A -> bool) : strict_weak less -> strict_weak (reverse_less less).
Proof.
  intros [Hi Ht Hn]. unfold reverse_less. split; eauto.
Qed.

Lemma strict_weak_pull {A B} (f : A -> B) (less : B -> B -> bool) :
  strict_weak less -> strict_weak (fun x y => less (f x) (f y)).
Proof. intros [Hi Ht Hn]. split; eauto. Qed.

#[export] Hint Resolve strict_weak_const strict_weak_reverse : mcm.

Lemma ByCreationTimestamp_strict_weak : strict_weak MachineSetsByCreationTimestamp_Less.
Proof.
  apply (strict_weak_of_key _ (fun a => CreationTimestamp (is_Meta a))
           (fun a b => string_ltb (is_Name a) (is_Name b))); [|done].
  apply (strict_weak_pull is_Name), string_ltb_strict_weak.
Qed.

Lemma BySize_strict_weak next less :
  strict_weak next ->
  (forall a b, less a b = if is_Replicas a =? is_Replicas b then next a b
                          else is_Replicas b <? is_Replicas a) ->
  strict_weak less.
Proof.
  intros Hn Heq. apply (strict_weak_of_key _ (fun a => - is_Replicas a) next); [done|].
  intros a b. rewrite Heq. repeat case_goal; lia || done.
Qed.

Lemma BySizeOlder_strict_weak : strict_weak MachineSetsBySizeOlder_Less.
Proof. by apply (BySize_strict_weak _ _ ByCreationTimestamp_strict_weak). Qed.

Lemma BySizeNewer_strict_weak : strict_weak MachineSetsBySizeNewer_Less.
Proof.
  by apply (BySize_strict_weak _ _ (strict_weak_reverse _ ByCreationTimestamp_strict_weak)).
Qed.

Lemma negb_eqb_if {A} (x y : Z) (a b : A) : (if negb (x =? y) then a else b) = (if x =? y then b else a).
Proof. by destruct (x =? y). Qed.

Lemma ActiveMachines_strict_weak : strict_weak ActiveMachines_Less.
Proof.
  unfold ActiveMachines_Less.
  eapply (strict_weak_of_key _ machine_priority); [|intros a b; apply negb_eqb_if].
  eapply (strict_weak_of_key _ (fun m => phase_priority (m_Phase m)));
    [|intros a b; apply negb_eqb_if].
  eapply (strict_weak_of_key _ (fun m => CreationTimestamp (m_Meta m)));
    [|intros a b; apply negb_eqb_if].
  apply strict_weak_const.
Qed.

#[export] Hint Resolve ByCreationTimestamp_strict_weak BySizeOlder_strict_weak
  BySizeNewer_strict_weak ActiveMachines_strict_weak : mcm.

(** ** Counting *)

Lemma opt_count_Some_list f (l : list MachineSet) : zsum (opt_count f) (Some <$> l) = zsum f l.
Proof. induction l as [|x l IH]; csimpl; rewrite ?zsum_nil, ?zsum_cons; simpl; lia. Qed.

(** With non-negative sizes the active sets carry the whole count. *)
Lemma zsum_FilterActive (l : list (option MachineSet)) :
  Forall (fun o => 0 <= opt_count is_Replicas o) l ->
  zsum is_Replicas (FilterActiveMachineSets l) = zsum (opt_count is_Replicas) l.
Proof.
  unfold FilterActiveMachineSets, FilterMachineSets.
  induction 1 as [|o l Ho _ IH]; [done|]. rewrite filter_cons, zsum_cons.
  case_decide as Hd; csimpl.
  - destruct o as [ms|]; [|done]. simpl. rewrite zsum_cons, IH. done.
  - rewrite IH. destruct o as [ms|]; simpl in *; [|lia].
    apply not_true_is_false, Z.ltb_ge in Hd. lia.
Qed.

Lemma elem_of_FilterActive ms l :
  ms ∈ FilterActiveMachineSets l <-> Some ms ∈ l /\ 0 < is_Replicas ms.
Proof.
  unfold FilterActiveMachineSets, FilterMachineSets. rewrite list_elem_of_omap. split.
  - intros (o & Ho & He). apply list_elem_of_filter in Ho as [Hf Ho]. destruct o; simplify_eq/=.
    split; [done|]. by apply Z.ltb_lt.
  - intros [Hl Hp]. exists (Some ms). split; [|done]. apply list_elem_of_filter.
    split; [by apply Z.ltb_lt|done].
Qed.
