(* ===== verification/DeploymentUtil.v ===== *)
(** * The pure part of the machine deployment controller (pkg/controller/deployment_util.go)

    Conditions, revisions, annotations, fenceposts, proportions, template comparison and the
    decisions taken on them.  A function of the source that mutates its argument and returns a
    boolean becomes a function that returns the pair of the new object and the boolean.  An
    in-place [sort.Sort] of an argument is written where the callers go on with the sorted slice.

    A machine deployment of the RollingUpdate strategy always has its [RollingUpdate] block (the
    API defaulting and the validation fill it in); without it the source dereferences nil, and the
    definitions below read an empty block. *)
From Stdlib Require Import ZArith Lia Ascii.
From stdpp Require Import base gmap strings list sorting.
From S2P Require Import Prelude GoLib Types Labels MachineSets Samples.
Open Scope Z_scope.

(** ** Constants *)

Definition RevisionAnnotation := "deployment.kubernetes.io/revision".
Definition RevisionHistoryAnnotation := "deployment.kubernetes.io/revision-history".
Definition DesiredReplicasAnnotation := "deployment.kubernetes.io/desired-replicas".
Definition MaxReplicasAnnotation := "deployment.kubernetes.io/max-replicas".
Definition PreferNoScheduleKey := "deployment.machine.sapcloud.io/prefer-no-schedule".
Definition ClusterAutoscalerScaleDownDisabledAnnotationKey :=
  "cluster-autoscaler.kubernetes.io/scale-down-disabled".
Definition ClusterAutoscalerScaleDownDisabledAnnotationValue := "True".
Definition ClusterAutoscalerScaleDownDisabledAnnotationByMCMKey :=
  "cluster-autoscaler.kubernetes.io/scale-down-disabled-by-mcm".
Definition ClusterAutoscalerScaleDownDisabledAnnotationByMCMValue := "True".
Definition LastAppliedConfigAnnotation := "kubectl.kubernetes.io/last-applied-configuration".
Definition UnfreezeAnnotation := "safety.machine.sapcloud.io/unfreeze".

Definition MachineSetUpdatedReason := "MachineSetUpdated".
Definition FailedISCreateReason := "MachineSetCreateError".
Definition NewMachineSetReason := "NewMachineSetCreated".
Definition FoundNewISReason := "FoundNewMachineSet".
Definition NewISAvailableReason := "NewMachineSetAvailable".
Definition TimedOutReason := "ProgressDeadlineExceeded".
Definition PausedMachineDeployReason := "DeploymentPaused".
Definition ResumedMachineDeployReason := "DeploymentResumed".
Definition MinimumReplicasAvailable := "MinimumReplicasAvailable".
Definition MinimumReplicasUnavailable := "MinimumReplicasUnavailable".

(** ** Conditions *)

(** The two [metav1.Now()] calls are the arguments [t1] and [t2]. *)
Definition NewMachineDeploymentCondition (t1 t2 : Z) (condType status reason message : string)
  : MachineDeploymentCondition := mkMDCond condType status t1 t2 reason message.

Definition GetMachineDeploymentCondition (status : MachineDeploymentStatus) (condType : string)
  : option MachineDeploymentCondition :=
  head (filter (fun c => dc_Type c = condType) (mds_Conditions status)).

Definition filterOutDeploymentCondition (conditions : list MachineDeploymentCondition) (condType : string)
  : list MachineDeploymentCondition := filter (fun c => dc_Type c <> condType) conditions.

Definition SetMachineDeploymentCondition (status : MachineDeploymentStatus)
    (condition : MachineDeploymentCondition) : MachineDeploymentStatus :=
  let currentCond := GetMachineDeploymentCondition status (dc_Type condition) in
  let same_status := match currentCond with
    | Some c => bool_decide (dc_Status c = dc_Status condition) | None => false end in
  let same_reason := match currentCond with
    | Some c => bool_decide (dc_Reason c = dc_Reason condition) | None => false end in
  if same_status && same_reason then status
  else
    let condition :=
      match currentCond with
      | Some c => if same_status then dc_set_LastTransitionTime (dc_LastTransitionTime c) condition
                  else condition
      | None => condition
      end in
    mds_set_Conditions
      (filterOutDeploymentCondition (mds_Conditions status) (dc_Type condition) ++ [condition]) status.

Definition RemoveMachineDeploymentCondition (status : MachineDeploymentStatus) (condType : string)
  : MachineDeploymentStatus :=
  mds_set_Conditions (filterOutDeploymentCondition (mds_Conditions status) condType) status.

Definition MachineSetToMachineDeploymentCondition (c : MachineSetCondition) : MachineDeploymentCondition :=
  mkMDCond (sc_Type c) (sc_Status c) (sc_LastTransitionTime c) (sc_LastTransitionTime c)
    (sc_Reason c) (sc_Message c).

(** ** Revisions *)

Definition SetMachineDeploymentRevision (d : MachineDeployment) (revision : string)
  : MachineDeployment * bool :=
  let ann := Annotations (d_Meta d) in
  if bool_decide (mget ann RevisionAnnotation = revision) then (d, false)
  else (d_set_Meta (set_Annotations (<[RevisionAnnotation := revision]> ann)) d, true).

(** [None] is the parse error. *)
Definition Revision (m : ObjectMeta) : option Z :=
  match Annotations m !! RevisionAnnotation with
  | None => Some 0
  | Some v => ParseInt v
  end.

Definition max_step (mx : Z) (ms : MachineSet) : Z :=
  match Revision (is_Meta ms) with
  | None => mx
  | Some v => if mx <? v then v else mx
  end.

Definition MaxRevision (allISs : list MachineSet) : Z := foldl max_step 0 allISs.

Definition last_step (acc : Z * Z) (ms : MachineSet) : Z * Z :=
  let '(mx, sec) := acc in
  match Revision (is_Meta ms) with
  | None => acc
  | Some v => if mx <=? v then (v, mx) else if sec <? v then (mx, v) else acc
  end.

Definition LastRevision (allISs : list MachineSet) : Z := (foldl last_step (0, 0) allISs).2.

(** ** Strategy *)

Definition IsRollingUpdate (d : MachineDeployment) : bool :=
  bool_decide (str_Type (md_Strategy (d_Spec d)) = RollingUpdateStrategyType).

Definition rolling (d : MachineDeployment) : RollingUpdateMachineDeployment :=
  default (mkRolling None None) (str_RollingUpdate (md_Strategy (d_Spec d))).

(** Surge and unavailability, or the error of the two conversions. *)
Definition ResolveFenceposts (maxSurge maxUnavailable : option IntOrString) (desired : Z) : option (Z * Z) :=
  match GetValueFromIntOrPercent maxSurge desired true with
  | None => None
  | Some surge =>
      match GetValueFromIntOrPercent maxUnavailable desired false with
      | None => None
      | Some unavailable =>
          let unavailable := if (surge =? 0) && (unavailable =? 0) then 1 else unavailable in
          Some (wrap32 surge, wrap32 unavailable)
      end
  end.

(** The callers ignore the error and go on with the zero values. *)
Definition fenceposts (d : MachineDeployment) : Z * Z :=
  default (0, 0) (ResolveFenceposts (MaxSurgeField (rolling d)) (MaxUnavailableField (rolling d)) (d_Replicas d)).

Definition MaxUnavailable (d : MachineDeployment) : Z :=
  if negb (IsRollingUpdate d) || (d_Replicas d =? 0) then 0
  else
    let maxUnavailable := (fenceposts d).2 in
    if d_Replicas d <? maxUnavailable then d_Replicas d else maxUnavailable.

Definition MinAvailable (d : MachineDeployment) : Z :=
  if negb (IsRollingUpdate d) then 0 else d_Replicas d -32 MaxUnavailable d.

Definition MaxSurge (d : MachineDeployment) : Z :=
  if negb (IsRollingUpdate d) then 0 else (fenceposts d).1.

(** ** Replica annotations *)

Definition getIntFromAnnotation (ms : MachineSet) (annotationKey : string) : Z * bool :=
  match Annotations (is_Meta ms) !! annotationKey with
  | None => (0, false)
  | Some v => match Atoi v with None => (0, false) | Some i => (wrap32 i, true) end
  end.

Definition GetDesiredReplicasAnnotation (ms : MachineSet) : Z * bool :=
  getIntFromAnnotation ms DesiredReplicasAnnotation.
Definition getMaxReplicasAnnotation (ms : MachineSet) : Z * bool :=
  getIntFromAnnotation ms MaxReplicasAnnotation.

(** [if m[k] != v { m[k] = v; updated = true }] *)
Definition set_if_differs (k v : string) (mb : strmap * bool) : strmap * bool :=
  if bool_decide (mget mb.1 k = v) then mb else (<[k := v]> mb.1, true).

Definition SetReplicasAnnotations (ms : MachineSet) (desiredReplicas maxReplicas : Z) : MachineSet * bool :=
  let '(ann, updated) :=
    set_if_differs MaxReplicasAnnotation (FormatInt maxReplicas)
      (set_if_differs DesiredReplicasAnnotation (FormatInt desiredReplicas)
         (Annotations (is_Meta ms), false)) in
  (is_set_Annotations ann ms, updated).

(** ** Copying from the deployment to its machine set *)

Definition annotationsToSkip : gset string :=
  {[ LastAppliedConfigAnnotation; RevisionAnnotation; RevisionHistoryAnnotation;
     DesiredReplicasAnnotation; MaxReplicasAnnotation; PreferNoScheduleKey; UnfreezeAnnotation ]}.

Definition skipCopyAnnotation (key : string) : bool := bool_decide (key ∈ annotationsToSkip).

(** One iteration of the copying loop; the order of the iterations is Go's map order. *)
Definition copy_annotation (mb : strmap * bool) (kv : string * string) : strmap * bool :=
  if skipCopyAnnotation kv.1 then mb else set_if_differs kv.1 kv.2 mb.

Definition copyMachineDeploymentAnnotationsToMachineSet (d : MachineDeployment) (ms : MachineSet)
  : MachineSet * bool :=
  let '(ann, changed) :=
    foldl copy_annotation (Annotations (is_Meta ms), false) (map_to_list (Annotations (d_Meta d))) in
  (is_set_Annotations ann ms, changed).

Definition d_templateSpec (d : MachineDeployment) : MachineSpec := tp_Spec (md_Template (d_Spec d)).
Definition is_templateSpec (ms : MachineSet) : MachineSpec := tp_Spec (ms_Template (is_Spec ms)).

Definition copyMachineDeploymentNodeTemplatesToMachineSet (d : MachineDeployment) (ms : MachineSet)
  : MachineSet * bool :=
  if bool_decide (sp_NodeTemplateSpec (d_templateSpec d) = sp_NodeTemplateSpec (is_templateSpec ms))
  then (ms, false)
  else (is_set_template_spec (sp_set_NodeTemplate (sp_NodeTemplateSpec (d_templateSpec d))) ms, true).

Definition copyMachineDeploymentConfigToMachineSet (d : MachineDeployment) (ms : MachineSet)
  : MachineSet * bool :=
  if bool_decide (sp_MachineConfiguration (d_templateSpec d) = sp_MachineConfiguration (is_templateSpec ms))
  then (ms, false)
  else (is_set_template_spec (sp_set_Config (sp_MachineConfiguration (d_templateSpec d))) ms, true).

Definition copyMachineDeploymentClassKindToMachineSet (d : MachineDeployment) (ms : MachineSet)
  : MachineSet * bool :=
  if bool_decide (cl_Kind (sp_Class (d_templateSpec d)) = cl_Kind (sp_Class (is_templateSpec ms)))
  then (ms, false)
  else (is_set_template_spec (sp_set_Kind (cl_Kind (sp_Class (d_templateSpec d)))) ms, true).

(** [len(strings.Split(h, ",")[0]) == 0 ? old : strings.Join(append(...), ",")] *)
Definition append_history (history oldRevision : string) : string :=
  match split "," history with
  | EmptyString :: _ => oldRevision
  | oldRevisions => join "," (oldRevisions ++ [oldRevision])
  end.

(** The common part of [SetNewMachineSetAnnotations], [SetNewMachineSetNodeTemplate] and
    [SetNewMachineSetConfig] starts after the copy, whose outcome is [changed].  First the revision
    and the revision history; [None] is the early return on an unreadable revision. *)
Definition bump_annotations (ann : strmap) (changed : bool) (newRevision : string) : option (strmap * bool) :=
  let oldRevision := mget ann RevisionAnnotation in
  let ok := bool_decide (is_Some (ann !! RevisionAnnotation)) in
  let oldRevisionInt :=
    match ParseInt oldRevision with
    | Some v => Some v
    | None => if bool_decide (oldRevision = EmptyString) then Some 0 else None
    end in
  match oldRevisionInt, ParseInt newRevision with
  | Some oldRevisionInt, Some newRevisionInt =>
      let bump := oldRevisionInt <? newRevisionInt in
      let ann := if bump then <[RevisionAnnotation := newRevision]> ann else ann in
      let changed := changed || bump in
      let ann :=
        if ok && changed
        then <[RevisionHistoryAnnotation :=
                append_history (mget ann RevisionHistoryAnnotation) oldRevision]> ann
        else ann in
      Some (ann, changed)
  | _, _ => None
  end.

(** Then, for a machine set about to be created, the replica annotations. *)
Definition bump_revision (d : MachineDeployment) (newIS : MachineSet) (changed : bool)
    (newRevision : string) (exists_ : bool) : MachineSet * bool :=
  match bump_annotations (Annotations (is_Meta newIS)) changed newRevision with
  | None => (newIS, false)
  | Some (ann, changed) =>
      let newIS := is_set_Annotations ann newIS in
      if exists_ then (newIS, changed)
      else
        let '(newIS, upd) :=
          SetReplicasAnnotations newIS (d_Replicas d) (d_Replicas d +32 MaxSurge d) in
        (newIS, changed || upd)
  end.

Definition SetNewMachineSetAnnotations (d : MachineDeployment) (newIS : MachineSet)
    (newRevision : string) (exists_ : bool) : MachineSet * bool :=
  let '(newIS, changed) := copyMachineDeploymentAnnotationsToMachineSet d newIS in
  bump_revision d newIS changed newRevision exists_.

Definition SetNewMachineSetNodeTemplate (d : MachineDeployment) (newIS : MachineSet)
    (newRevision : string) (exists_ : bool) : MachineSet * bool :=
  let '(newIS, changed) := copyMachineDeploymentNodeTemplatesToMachineSet d newIS in
  bump_revision d newIS changed newRevision exists_.

Definition SetNewMachineSetConfig (d : MachineDeployment) (newIS : MachineSet)
    (newRevision : string) (exists_ : bool) : MachineSet * bool :=
  let '(newIS, changed) := copyMachineDeploymentConfigToMachineSet d newIS in
  bump_revision d newIS changed newRevision exists_.

Definition UpdateMachineSetClassKind (d : MachineDeployment) (newIS : MachineSet)
    (newRevision : string) (exists_ : bool) : MachineSet * bool :=
  copyMachineDeploymentClassKindToMachineSet d newIS.

Definition getSkippedAnnotations (annotations : strmap) : strmap :=
  filter (fun kv => skipCopyAnnotation kv.1 = true) annotations.

Definition SetMachineDeploymentAnnotationsTo (d : MachineDeployment) (rollbackToIS : MachineSet)
  : MachineDeployment :=
  let kept := getSkippedAnnotations (Annotations (d_Meta d)) in
  let copied := filter (fun kv => skipCopyAnnotation kv.1 = false) (Annotations (is_Meta rollbackToIS)) in
  d_set_Meta (set_Annotations (copied ∪ kept)) d.

(** ** Template comparison *)

(** [labels1[k] != v && k != hash] for some entry of [labels2]. *)
Definition labels_mismatch (labels1 labels2 : strmap) : bool :=
  existsb (fun kv => negb (bool_decide (mget labels1 kv.1 = kv.2)) &&
                     negb (bool_decide (kv.1 = DefaultMachineDeploymentUniqueLabelKey)))
    (map_to_list labels2).

(** The copy with labels, node template, configuration and class kind cleared. *)
Definition strip_template (t : MachineTemplateSpec) : MachineTemplateSpec :=
  tp_set_Spec (fun s => sp_set_Kind "" (sp_set_Config None (sp_set_NodeTemplate zero_node_template s)))
    (tp_set_Meta (set_Labels ∅) t).

Definition EqualIgnoreHash (template1 template2 : MachineTemplateSpec) : bool :=
  let l1 := Labels (tp_Meta template1) in
  let l2 := Labels (tp_Meta template2) in
  let '(labels1, labels2) := if (size l2 <? size l1)%nat then (l2, l1) else (l1, l2) in
  if labels_mismatch labels1 labels2 then false
  else bool_decide (strip_template template1 = strip_template template2).

Definition SetFromMachineSetTemplate (d : MachineDeployment) (template : MachineTemplateSpec)
  : MachineDeployment :=
  let labels := CloneAndRemoveLabel (Labels (tp_Meta template)) DefaultMachineDeploymentUniqueLabelKey in
  d_set_Spec (md_set_Template (tp_set_Meta (set_Labels labels) template)) d.

Section sorting.
Context `{GoSort}.

(** The slice as [FindNewMachineSet] leaves it. *)
Definition sort_by_creation (isList : list MachineSet) : list MachineSet :=
  gosort MachineSetsByCreationTimestamp_Less isList.

Definition FindNewMachineSet (d : MachineDeployment) (isList : list MachineSet) : option MachineSet :=
  head (filter (fun ms => EqualIgnoreHash (ms_Template (is_Spec ms)) (md_Template (d_Spec d)) = true)
          (sort_by_creation isList)).

(** The old machine sets with replicas, and all the old machine sets. *)
Definition FindOldMachineSets (d : MachineDeployment) (isList : list MachineSet)
  : list MachineSet * list MachineSet :=
  let newIS := FindNewMachineSet d isList in
  let allISs := filter (fun ms => match newIS with
                                  | Some n => bool_decide (is_UID ms <> is_UID n)
                                  | None => true end = true) (sort_by_creation isList) in
  (filter (fun ms => is_Replicas ms <> 0) allISs, allISs).

Definition FindActiveOrLatest (newIS : option MachineSet) (oldISs : list MachineSet) : option MachineSet :=
  if bool_decide (newIS = None /\ oldISs = []) then None
  else
    let oldISs := gosort (reverse_less MachineSetsByCreationTimestamp_Less) oldISs in
    match FilterActiveMachineSets ((Some <$> oldISs) ++ [newIS]) with
    | [] => match newIS with Some n => Some n | None => head oldISs end
    | [x] => Some x
    | _ => None
    end.
End sorting.

(** ** Proportional scaling *)

(** The value of [int32(math...)] on NaN, infinities and out-of-range values is left to the
    implementation by the Go specification. *)
Class FloatConv : Type := { float_oob : Z -> Z -> Z; float_oob_int32 : forall n d, is_int32 (float_oob n d) }.

(** amd64 gives the smallest [int32]. *)
#[export] Program Instance amd64_FloatConv : FloatConv | 10 := {| float_oob := fun _ _ => min_int32 |}.
Next Obligation. intros. width. Qed.

Section proportion.
Context `{FloatConv}.

Definition getMachineSetFraction (ms : MachineSet) (d : MachineDeployment) : Z :=
  if d_Replicas d =? 0 then wrap32 (- is_Replicas ms)
  else
    let deploymentReplicas := d_Replicas d +32 MaxSurge d in
    let annotatedReplicas :=
      match getMaxReplicasAnnotation ms with
      | (v, true) => v
      | (_, false) => mds_Replicas (d_Status d)
      end in
    let n := is_Replicas ms *32 deploymentReplicas in
    RoundToInt32 (float_oob n annotatedReplicas) n annotatedReplicas -32 is_Replicas ms.

Definition GetProportion (ms : option MachineSet) (d : MachineDeployment)
    (deploymentReplicasToAdd deploymentReplicasAdded : Z) : Z :=
  match ms with
  | None => 0
  | Some ms =>
      if (is_Replicas ms =? 0) || (deploymentReplicasToAdd =? 0)
         || (deploymentReplicasToAdd =? deploymentReplicasAdded) then 0
      else
        let isFraction := getMachineSetFraction ms d in
        let allowed := deploymentReplicasToAdd -32 deploymentReplicasAdded in
        if 0 <? deploymentReplicasToAdd then Int32Min isFraction allowed
        else Int32Max isFraction allowed
  end.
End proportion.

(** ** Progress *)

Definition MachineDeploymentComplete (d : MachineDeployment) (newStatus : MachineDeploymentStatus) : bool :=
  (mds_UpdatedReplicas newStatus =? d_Replicas d) && (mds_Replicas newStatus =? d_Replicas d) &&
  (mds_AvailableReplicas newStatus =? d_Replicas d) &&
  (Generation (d_Meta d) <=? mds_ObservedGeneration newStatus).

(** The function [MachineDeploymentProgressing] (the name is taken by the condition type). *)
Definition MachineDeploymentProgressing_ (d : MachineDeployment) (newStatus : MachineDeploymentStatus) : bool :=
  let oldStatus := d_Status d in
  let oldStatusOldReplicas := mds_Replicas oldStatus -32 mds_UpdatedReplicas oldStatus in
  let newStatusOldReplicas := mds_Replicas newStatus -32 mds_UpdatedReplicas newStatus in
  (mds_UpdatedReplicas oldStatus <? mds_UpdatedReplicas newStatus) ||
  (newStatusOldReplicas <? oldStatusOldReplicas) ||
  (mds_ReadyReplicas oldStatus <? mds_ReadyReplicas newStatus) ||
  (mds_AvailableReplicas oldStatus <? mds_AvailableReplicas newStatus).

Definition second : Z := 1000000000.

(** [now] is the value of [nowFn()]. *)
Definition MachineDeploymentTimedOut (now : Z) (d : MachineDeployment) (newStatus : MachineDeploymentStatus) : bool :=
  match md_ProgressDeadlineSeconds (d_Spec d) with
  | None => false
  | Some deadline =>
      match GetMachineDeploymentCondition newStatus MachineDeploymentProgressing with
      | None => false
      | Some condition =>
          if bool_decide (dc_Reason condition = NewISAvailableReason) then false
          else if bool_decide (dc_Reason condition = TimedOutReason) then true
          else dc_LastUpdateTime condition + deadline * second <? now
      end
  end.

(** ** Size of the new machine set *)

(** [None] is the error. *)
Definition NewISNewReplicas (d : MachineDeployment) (allISs : list (option MachineSet)) (newIS : MachineSet)
  : option Z :=
  let typ := str_Type (md_Strategy (d_Spec d)) in
  if bool_decide (typ = RollingUpdateStrategyType) then
    match GetValueFromIntOrPercent (MaxSurgeField (rolling d)) (d_Replicas d) true with
    | None => None
    | Some maxSurge =>
        let currentMachineCount := GetActualReplicaCountForMachineSets allISs in
        let maxTotalMachines := d_Replicas d +32 wrap32 maxSurge in
        if maxTotalMachines <=? currentMachineCount then Some (is_Replicas newIS)
        else
          let scaleUpCount := maxTotalMachines -32 currentMachineCount in
          let scaleUpCount := wrap32 (IntMin scaleUpCount (d_Replicas d -32 is_Replicas newIS)) in
          Some (is_Replicas newIS +32 scaleUpCount)
    end
  else if bool_decide (typ = RecreateStrategyType) then Some (d_Replicas d)
  else None.

Definition IsSaturated (d : MachineDeployment) (ms : option MachineSet) : bool :=
  match ms with
  | None => false
  | Some ms =>
      match Atoi (mget (Annotations (is_Meta ms)) DesiredReplicasAnnotation) with
      | None => false
      | Some desired =>
          (is_Replicas ms =? d_Replicas d) && (wrap32 desired =? d_Replicas d)
          && (is_Available ms =? d_Replicas d)
      end
  end.

(** ** Status comparison *)

(** The source compares the two [CollisionCount] pointers; [sameCollisionCount] says whether they are
    the same pointer. *)
Definition statusUpdateRequired (sameCollisionCount : bool) (old new : MachineDeploymentStatus) : bool :=
  let failed s := default [] (mds_FailedMachines s) in
  if (mds_AvailableReplicas old =? mds_AvailableReplicas new) && sameCollisionCount &&
     bool_decide (length (failed old) = length (failed new)) &&
     (mds_ObservedGeneration old =? mds_ObservedGeneration new) &&
     (mds_ReadyReplicas old =? mds_ReadyReplicas new) && (mds_Replicas old =? mds_Replicas new) &&
     (mds_UpdatedReplicas old =? mds_UpdatedReplicas new) &&
     bool_decide (mds_Conditions old = mds_Conditions new)
  then
    negb (forallb (fun newMachine =>
      existsb (fun oldMachine =>
        bool_decide (sm_Name oldMachine = sm_Name newMachine) &&
        bool_decide (lo_Description (sm_LastOperation oldMachine) = lo_Description (sm_LastOperation newMachine)))
        (failed old)) (failed new))
  else true.

(** ** Listing by owner *)

(** The filter of [ListMachineSets]: what the deployment controls, among the listed sets. *)
Definition owned_machine_sets (d : MachineDeployment) (all : list MachineSet) : list MachineSet :=
  filter (fun ms => IsControlledBy (is_Meta ms) (d_Meta d) = true) all.

(** The filter of [ListMachines]. *)
Definition owned_machines (isList : list MachineSet) (all : list Machine) : list Machine :=
  filter (fun m => match GetControllerOf (m_Meta m) with
                   | Some r => bool_decide (or_UID r ∈ is_UID <$> isList)
                   | None => false end = true) all.

(** [GetMachineDeploymentsForMachineSet], on the deployments of the lister. *)
Definition GetMachineDeploymentsForMachineSet (dList : list MachineDeployment) (ms : MachineSet)
  : result (list MachineDeployment) :=
  if bool_decide (Labels (is_Meta ms) = ∅) then Err (Errorf "no deployments found: no labels")
  else
    match mapM (fun d => LabelSelectorAsSelector (md_Selector (d_Spec d))) dList with
    | None => Err (Errorf "invalid label selector")
    | Some sels =>
        let l := (zip dList sels) in
        match fst <$> filter (fun ds => negb (sel_Empty ds.2) && sel_Matches ds.2 (Labels (is_Meta ms)) = true) l with
        | [] => Err (Errorf "could not find deployments")
        | l => Ok l
        end
    end.

(** ** Fenceposts *)

(** A machine deployment the API accepts: [int32] size, rolling strategy with its block, both
    fenceposts resolvable, non-negative and of [int32] size. *)
Record wf_rolling (d : MachineDeployment) : Prop := {
  wf_type : str_Type (md_Strategy (d_Spec d)) = RollingUpdateStrategyType;
  wf_replicas : 0 <= d_Replicas d <= max_int32;
  wf_surge : exists s, GetValueFromIntOrPercent (MaxSurgeField (rolling d)) (d_Replicas d) true = Some s
    /\ 0 <= s <= max_int32;
  wf_unavail : exists u, GetValueFromIntOrPercent (MaxUnavailableField (rolling d)) (d_Replicas d) false = Some u
    /\ 0 <= u <= max_int32 }.

Lemma ResolveFenceposts_spec ms mu desired s u :
  GetValueFromIntOrPercent ms desired true = Some s ->
  GetValueFromIntOrPercent mu desired false = Some u ->
  ResolveFenceposts ms mu desired =
    Some (wrap32 s, wrap32 (if (s =? 0) && (u =? 0) then 1 else u)).
Proof. intros Hs Hu. unfold ResolveFenceposts. by rewrite Hs, Hu. Qed.

Lemma wf_fenceposts d : wf_rolling d ->
  exists s u, fenceposts d = (s, u) /\ 0 <= s <= max_int32 /\ 0 <= u <= max_int32 /\ ~ (s = 0 /\ u = 0)
    /\ GetValueFromIntOrPercent (MaxSurgeField (rolling d)) (d_Replicas d) true = Some s.
Proof.
  intros [_ _ (s & Hs & Rs) (u & Hu & Ru)]. unfold fenceposts.
  rewrite (ResolveFenceposts_spec _ _ _ _ _ Hs Hu). simpl.
  exists s, (if (s =? 0) && (u =? 0) then 1 else u).
  destruct (Z.eqb_spec s 0), (Z.eqb_spec u 0); simpl; rewrite !wrap32_id by width;
    repeat split; try done; try (width || lia).
Qed.

Lemma wf_IsRollingUpdate d : wf_rolling d -> IsRollingUpdate d = true.
Proof. intros [H _ _ _]. unfold IsRollingUpdate. by apply bool_decide_eq_true. Qed.

Lemma MaxUnavailable_range d : wf_rolling d -> 0 <= MaxUnavailable d <= d_Replicas d.
Proof.
  intros Hwf. destruct (wf_fenceposts d Hwf) as (s & u & Hf & Hs & Hu & _).
  unfold MaxUnavailable. rewrite (wf_IsRollingUpdate d Hwf), Hf. simpl.
  pose proof (wf_replicas d Hwf). repeat case_goal; lia.
Qed.

Lemma MaxSurge_range d : wf_rolling d -> 0 <= MaxSurge d <= max_int32.
Proof.
  intros Hwf. destruct (wf_fenceposts d Hwf) as (s & u & Hf & Hs & _).
  unfold MaxSurge. rewrite (wf_IsRollingUpdate d Hwf), Hf. done.
Qed.

Lemma MinAvailable_eq d : wf_rolling d -> MinAvailable d = d_Replicas d - MaxUnavailable d.
Proof.
  intros Hwf. unfold MinAvailable. rewrite (wf_IsRollingUpdate d Hwf). simpl.
  pose proof (MaxUnavailable_range d Hwf). pose proof (wf_replicas d Hwf).
  apply wrap32_id. width.
Qed.

(** The rollout can always make a step: a deployment with replicas either may surge above its
    size or may go below it, and the two bounds of the rollout, [MinAvailable] and size plus
    [MaxSurge], enclose the size. *)
Theorem fenceposts_allow_progress d : wf_rolling d -> 0 < d_Replicas d ->
  (0 < MaxSurge d \/ 0 < MaxUnavailable d) /\
  0 <= MinAvailable d <= d_Replicas d /\ d_Replicas d <= d_Replicas d + MaxSurge d /\
  MinAvailable d + MaxUnavailable d = d_Replicas d.
Proof.
  intros Hwf Hpos.
  pose proof (MaxUnavailable_range d Hwf). pose proof (MaxSurge_range d Hwf).
  rewrite (MinAvailable_eq d Hwf). split; [|lia].
  destruct (wf_fenceposts d Hwf) as (s & u & Hf & Hs & Hu & Hz & _).
  unfold MaxSurge, MaxUnavailable in *. rewrite (wf_IsRollingUpdate d Hwf), Hf in *. simpl in *.
  destruct (Z.eqb_spec (d_Replicas d) 0); [lia|]. destruct (Z.ltb_spec (d_Replicas d) u); lia.
Qed.

(** ** Size of the new machine set *)

(** The size chosen for the new machine set of a rolling update is exactly "as many as the surge
    budget leaves room for, at most the desired size": the rollout never grows the machine
    deployment beyond size plus surge, and never gives the new set more than the desired size
    unless it already has more. *)
Theorem NewISNewReplicas_rolling d allISs newIS n : wf_rolling d ->
  0 <= is_Replicas newIS <= max_int32 ->
  Forall (fun o => 0 <= opt_count (fun ms => mss_Replicas (is_Status ms)) o) allISs ->
  zsum (opt_count (fun ms => mss_Replicas (is_Status ms))) allISs <= max_int32 ->
  d_Replicas d + MaxSurge d <= max_int32 ->
  NewISNewReplicas d allISs newIS = Some n ->
  let cur := zsum (opt_count (fun ms => mss_Replicas (is_Status ms))) allISs in
  n = (if d_Replicas d + MaxSurge d <=? cur then is_Replicas newIS
       else Z.min (is_Replicas newIS + (d_Replicas d + MaxSurge d - cur)) (d_Replicas d)) /\
  cur + (n - is_Replicas newIS) <= Z.max cur (d_Replicas d + MaxSurge d) /\
  n <= Z.max (is_Replicas newIS) (d_Replicas d) /\
  (is_Replicas newIS <= d_Replicas d -> is_Replicas newIS <= n).
Proof.
  intros Hwf Hn Hnn Hsum Hmax Hres cur.
  destruct (wf_fenceposts d Hwf) as (s & u & Hf & Hs & Hu & _ & Hg).
  assert (MaxSurge d = s) as Hms.
  { unfold MaxSurge. by rewrite (wf_IsRollingUpdate d Hwf), Hf. }
  rewrite Hms in *. pose proof (wf_replicas d Hwf) as Hd.
  pose proof (zsum_nonneg _ _ Hnn) as Hc0. fold cur in Hc0, Hsum.
  unfold NewISNewReplicas in Hres.
  rewrite bool_decide_true, Hg in Hres by apply Hwf.
  unfold GetActualReplicaCountForMachineSets in Hres.
  rewrite sum32_exact in Hres by (fold cur; width). fold cur in Hres.
  rewrite IntMin_spec in Hres.
  rewrite (wrap32_id s), (wrap32_id (d_Replicas d + s)), (wrap32_id (d_Replicas d - is_Replicas newIS)) in Hres by width.
  destruct (Z.leb_spec (d_Replicas d + s) cur) as [Hle|Hlt]; injection Hres as <-; [lia|].
  rewrite (wrap32_id (d_Replicas d + s - cur)) by width.
  rewrite (wrap32_id (Z.min _ _)) by width. rewrite wrap32_id by width. lia.
Qed.

(** ** Proportions *)

Lemma GetProportion_bound `{FloatConv} ms d toAdd added :
  is_int32 toAdd -> is_int32 added -> is_int32 (toAdd - added) ->
  (0 < toAdd -> added <= toAdd -> GetProportion ms d toAdd added <= toAdd - added) /\
  (toAdd < 0 -> toAdd <= added -> toAdd - added <= GetProportion ms d toAdd added) /\
  (toAdd = 0 -> GetProportion ms d toAdd added = 0).
Proof.
  intros Ht Ha Hd. unfold GetProportion. destruct ms as [ms|]; [|lia].
  rewrite Int32Min_spec, Int32Max_spec, (wrap32_id (toAdd - added)) by done.
  destruct (Z.eqb_spec (is_Replicas ms) 0), (Z.eqb_spec toAdd 0), (Z.eqb_spec toAdd added);
    simpl; try lia.
  destruct (Z.ltb_spec 0 toAdd); lia.
Qed.

(** ** Conditions *)

(** At most one condition of each type. *)
Definition conditions_unique (s : MachineDeploymentStatus) : Prop := NoDup (dc_Type <$> mds_Conditions s).

Lemma filterOut_types_sublist l ty :
  (dc_Type <$> filterOutDeploymentCondition l ty) `sublist_of` (dc_Type <$> l).
Proof. apply fmap_sublist, sublist_filter. Qed.

Lemma filterOut_not_elem l ty : ty ∉ dc_Type <$> filterOutDeploymentCondition l ty.
Proof.
  intros Hin. apply list_elem_of_fmap in Hin as (c & Hc & Hin).
  apply list_elem_of_filter in Hin as [Hne _]. congruence.
Qed.

Lemma GetCondition_app l ty c s :
  GetMachineDeploymentCondition (mds_set_Conditions (filterOutDeploymentCondition l (dc_Type c) ++ [c]) s) ty
  = if decide (ty = dc_Type c) then Some c else head (filter (fun c => dc_Type c = ty) l).
Proof.
  unfold GetMachineDeploymentCondition, filterOutDeploymentCondition. simpl. rewrite filter_app.
  case_decide as Ht.
  - subst. induction l as [|x l IH]; simpl.
    + by rewrite filter_cons_True.
    + destruct (decide (dc_Type x = dc_Type c)) as [E|E].
      * rewrite filter_cons_False by naive_solver. done.
      * rewrite filter_cons_True, filter_cons_False by done. done.
  - rewrite (filter_cons_False _ c) by naive_solver. rewrite filter_nil, app_nil_r.
    f_equal. rewrite list_filter_filter. apply list_filter_iff. intros x. naive_solver congruence.
Qed.

(** Setting a condition makes it the one of its type, with the status and the reason asked for;
    conditions of other types stay; there is still at most one of each type; and the transition
    time moves only when the status changes. *)
Theorem SetMachineDeploymentCondition_spec s c :
  let s' := SetMachineDeploymentCondition s c in
  (exists c', GetMachineDeploymentCondition s' (dc_Type c) = Some c' /\
     dc_Type c' = dc_Type c /\ dc_Status c' = dc_Status c /\ dc_Reason c' = dc_Reason c /\
     dc_LastTransitionTime c' =
       match GetMachineDeploymentCondition s (dc_Type c) with
       | Some old => if decide (dc_Status old = dc_Status c) then dc_LastTransitionTime old
                     else dc_LastTransitionTime c
       | None => dc_LastTransitionTime c
       end) /\
  (forall ty, ty <> dc_Type c -> GetMachineDeploymentCondition s' ty = GetMachineDeploymentCondition s ty) /\
  (conditions_unique s -> conditions_unique s').
Proof.
  intros s'. assert (Hcase : (s' = s /\ exists old, GetMachineDeploymentCondition s (dc_Type c) = Some old
       /\ dc_Type old = dc_Type c /\ dc_Status old = dc_Status c /\ dc_Reason old = dc_Reason c) \/
    exists c', s' = mds_set_Conditions (filterOutDeploymentCondition (mds_Conditions s) (dc_Type c') ++ [c']) s
      /\ dc_Type c' = dc_Type c /\ dc_Status c' = dc_Status c /\ dc_Reason c' = dc_Reason c
      /\ dc_LastTransitionTime c' =
       match GetMachineDeploymentCondition s (dc_Type c) with
       | Some old => if decide (dc_Status old = dc_Status c) then dc_LastTransitionTime old
                     else dc_LastTransitionTime c
       | None => dc_LastTransitionTime c
       end).
  { unfold s', SetMachineDeploymentCondition.
    destruct (GetMachineDeploymentCondition s (dc_Type c)) as [old|] eqn:E; [|right; by exists c].
    assert (dc_Type old = dc_Type c) as Hty.
    { apply head_Some_elem_of, list_elem_of_filter in E. by destruct E. }
    repeat case_bool_decide; simpl.
    - left. naive_solver.
    - right. exists (dc_set_LastTransitionTime (dc_LastTransitionTime old) c).
      by rewrite decide_True.
    - right. exists c. by rewrite decide_False.
    - right. exists c. by rewrite decide_False. }
  clearbody s'. destruct Hcase as [[-> (old & E & Hty & Hst & Hre)]|(c' & -> & Hty & Hst & Hre & Htr)].
  - rewrite E, decide_True by done. split; [|done]. exists old. done.
  - split; [|split].
    + exists c'. rewrite GetCondition_app, decide_True by done. naive_solver.
    + intros ty Hne. rewrite GetCondition_app, decide_False by congruence. done.
    + unfold conditions_unique. simpl. intros Hnd. rewrite fmap_app. apply NoDup_app.
      split; [eapply sublist_NoDup; [done|apply filterOut_types_sublist]|].
      split; [|apply NoDup_singleton].
      intros x Hx Hx'. apply list_elem_of_singleton in Hx' as ->. by apply filterOut_not_elem in Hx.
Qed.

Lemma RemoveMachineDeploymentCondition_spec s ty ty' :
  GetMachineDeploymentCondition (RemoveMachineDeploymentCondition s ty) ty' =
    if decide (ty' = ty) then None else GetMachineDeploymentCondition s ty'.
Proof.
  unfold GetMachineDeploymentCondition, RemoveMachineDeploymentCondition, filterOutDeploymentCondition.
  simpl. rewrite list_filter_filter. case_decide as E.
  - subst. induction (mds_Conditions s) as [|c l IH]; [done|].
    by rewrite filter_cons_False by naive_solver.
  - f_equal. apply list_filter_iff. naive_solver.
Qed.

(** ** Revisions *)

Definition revisions (l : list MachineSet) : list Z := omap (fun ms => Revision (is_Meta ms)) l.

Lemma MaxRevision_foldl l acc :
  foldl max_step acc l = foldl Z.max acc (revisions l).
Proof.
  revert acc; induction l as [|ms l IH]; intros acc; [done|]. csimpl. unfold max_step at 2.
  destruct (Revision (is_Meta ms)) as [v|]; [|apply IH]. simpl. rewrite <- IH. f_equal.
  destruct (Z.ltb_spec acc v); lia.
Qed.

Lemma foldl_max_spec l acc :
  acc <= foldl Z.max acc l /\ Forall (fun v => v <= foldl Z.max acc l) l /\
  (foldl Z.max acc l = acc \/ foldl Z.max acc l ∈ l).
Proof.
  revert acc; induction l as [|v l IH]; intros acc; simpl;
    [split; [lia|split; [constructor|by left]]|].
  destruct (IH (Z.max acc v)) as (H1 & H2 & H3). split; [lia|]. split.
  - constructor; [lia|done].
  - destruct H3 as [H3|H3]; [|set_solver]. rewrite H3.
    destruct (Z.max_spec acc v) as [[? ->]|[? ->]]; set_solver.
Qed.

Lemma MaxRevision_ge l v : v ∈ revisions l -> v <= MaxRevision l.
Proof.
  unfold MaxRevision. rewrite MaxRevision_foldl. intros Hv.
  destruct (foldl_max_spec (revisions l) 0) as (_ & H & _). rewrite Forall_forall in H. auto.
Qed.

Lemma MaxRevision_nonneg l : 0 <= MaxRevision l.
Proof. unfold MaxRevision. rewrite MaxRevision_foldl. by destruct (foldl_max_spec (revisions l) 0). Qed.

Lemma MaxRevision_attained l : MaxRevision l = 0 \/ MaxRevision l ∈ revisions l.
Proof. unfold MaxRevision. rewrite MaxRevision_foldl. by destruct (foldl_max_spec (revisions l) 0) as (_ & _ & ?). Qed.

(** The two largest of a list, given the two largest so far. *)
Definition top2 (acc : Z * Z) (v : Z) : Z * Z :=
  if acc.1 <=? v then (v, acc.1) else if acc.2 <? v then (acc.1, v) else acc.

Lemma LastRevision_foldl l acc : foldl last_step acc l = foldl top2 acc (revisions l).
Proof.
  revert acc; induction l as [|ms l IH]; intros [mx sec]; [done|]. csimpl.
  destruct (Revision (is_Meta ms)) as [v|]; [|apply IH]. simpl. rewrite <- IH. done.
Qed.

(** [acc] and [rest] together are [l], [acc] holds the largest two in order. *)
Definition is_top2 (acc : Z * Z) (rest l : list Z) : Prop :=
  acc.1 :: acc.2 :: rest ≡ₚ l /\ acc.2 <= acc.1 /\ Forall (fun v => v <= acc.2) rest.

Lemma top2_invariant l acc rest done_ :
  is_top2 acc rest done_ -> exists rest', is_top2 (foldl top2 acc l) rest' (l ++ done_).
Proof.
  revert acc rest done_; induction l as [|v l IH]; intros acc rest done_ (Hp & Ho & HF); simpl; [by exists rest|].
  assert (exists r, is_top2 (top2 acc v) r (v :: done_)) as [r Hr].
  { unfold top2. destruct acc as [a b]; simpl in *. destruct (Z.leb_spec a v), (Z.ltb_spec b v); simpl.
    - exists (b :: rest). split; [|split]; simpl; [by rewrite Hp|lia|].
      constructor; [lia|]. eapply Forall_impl; [exact HF|]. simpl; lia.
    - exists (b :: rest). split; [|split]; simpl; [by rewrite Hp|lia|].
      constructor; [lia|]. eapply Forall_impl; [exact HF|]. simpl; lia.
    - exists (b :: rest). split; [|split]; simpl; [|lia|].
      + rewrite (Permutation_swap v a). by rewrite Hp.
      + constructor; [lia|]. eapply Forall_impl; [exact HF|]. simpl; lia.
    - exists (v :: rest). split; [|split]; simpl; [|lia|by constructor].
      rewrite <- Hp. rewrite (Permutation_swap v b). by rewrite (Permutation_swap v a). }
  destruct (IH _ _ _ Hr) as [r' (Hp' & Ho' & HF')]. exists r'. split; [|done].
  rewrite Hp'. by rewrite Permutation_middle.
Qed.

(** [LastRevision] is the second largest revision (with 0 standing in when there are fewer than
    two, and unreadable revision annotations skipped), and [MaxRevision] is the largest: together
    with the other revisions they are a permutation of all of them and two zeros. *)
Theorem Last_MaxRevision_two_largest l : exists rest,
  MaxRevision l :: LastRevision l :: rest ≡ₚ revisions l ++ [0; 0] /\
  LastRevision l <= MaxRevision l /\ Forall (fun v => v <= LastRevision l) rest.
Proof.
  destruct (top2_invariant (revisions l) (0, 0) [] [0; 0]) as (rest & Hp & Ho & HF).
  { split; [done|]. split; [done|constructor]. }
  unfold LastRevision. rewrite LastRevision_foldl.
  destruct (foldl top2 (0, 0) (revisions l)) as [mx sec]; simpl in *.
  assert (MaxRevision l = mx) as ->; [|by exists rest].
  apply Z.le_antisymm.
  - destruct (MaxRevision_attained l) as [->|Hin].
    + assert (0 ∈ mx :: sec :: rest) as H0 by (rewrite Hp; set_solver).
      rewrite !elem_of_cons in H0. rewrite Forall_forall in HF.
      destruct H0 as [->|[->|H0]]; [lia|lia|]. apply HF in H0. lia.
    + assert (MaxRevision l ∈ mx :: sec :: rest) as H0 by (rewrite Hp; set_solver).
      rewrite !elem_of_cons in H0. rewrite Forall_forall in HF.
      destruct H0 as [->|[->|H0]]; [lia|lia|]. apply HF in H0. lia.
  - assert (mx ∈ revisions l ++ [0; 0]) as H0 by (rewrite <- Hp; set_solver).
    rewrite elem_of_app in H0. destruct H0 as [H0|H0]; [by apply MaxRevision_ge|].
    assert (mx = 0) as -> by set_solver. apply MaxRevision_nonneg.
Qed.

(** ** Annotations *)

Lemma mget_insert k k' v (m : strmap) : mget (<[k := v]> m) k' = if decide (k = k') then v else mget m k'.
Proof.
  unfold mget. case_decide as E; [subst; by rewrite lookup_insert_eq|by rewrite lookup_insert_ne].
Qed.

Lemma set_if_differs_get k v mb k' :
  mget (set_if_differs k v mb).1 k' = if decide (k = k') then v else mget mb.1 k'.
Proof.
  unfold set_if_differs. case_bool_decide as E; simpl; [|apply mget_insert].
  case_decide; congruence.
Qed.

Lemma set_if_differs_other k v mb k' : k <> k' -> (set_if_differs k v mb).1 !! k' = mb.1 !! k'.
Proof. intros H. unfold set_if_differs. case_bool_decide; simpl; [done|by rewrite lookup_insert_ne]. Qed.

Lemma set_if_differs_same k v mb : mget mb.1 k = v -> set_if_differs k v mb = mb.
Proof. intros H. unfold set_if_differs. by rewrite bool_decide_true. Qed.

Lemma FormatInt_nonempty z : FormatInt z <> EmptyString.
Proof.
  destruct z as [|p|p]; simpl; try done. intros H.
  pose proof (parse_digits_print p) as Hp. by rewrite H in Hp.
Qed.

Lemma mget_lookup (m : strmap) k v : v <> EmptyString -> mget m k = v -> m !! k = Some v.
Proof. unfold mget. intros Hne <-. destruct (m !! k); done. Qed.

Lemma getIntFromAnnotation_FormatInt ms k z : is_int32 z ->
  mget (Annotations (is_Meta ms)) k = FormatInt z -> getIntFromAnnotation ms k = (z, true).
Proof.
  intros Hz Hg. apply mget_lookup in Hg; [|apply FormatInt_nonempty].
  unfold getIntFromAnnotation, Atoi. rewrite Hg, ParseInt_FormatInt by width.
  by rewrite wrap32_id.
Qed.

(** The replica annotations round-trip: what [SetReplicasAnnotations] writes,
    [GetDesiredReplicasAnnotation] and [getMaxReplicasAnnotation] read back, and writing the same
    numbers again reports no change. *)
Theorem SetReplicasAnnotations_roundtrip ms desired mx : is_int32 desired -> is_int32 mx ->
  let '(ms', _) := SetReplicasAnnotations ms desired mx in
  GetDesiredReplicasAnnotation ms' = (desired, true) /\
  getMaxReplicasAnnotation ms' = (mx, true) /\
  SetReplicasAnnotations ms' desired mx = (ms', false).
Proof.
  intros Hd Hm. unfold SetReplicasAnnotations at 1.
  destruct (set_if_differs MaxReplicasAnnotation _ _) as [ann upd] eqn:E.
  assert (mget ann DesiredReplicasAnnotation = FormatInt desired) as H1.
  { change ann with (fst (ann, upd)). rewrite <- E, !set_if_differs_get. done. }
  assert (mget ann MaxReplicasAnnotation = FormatInt mx) as H2.
  { change ann with (fst (ann, upd)). rewrite <- E, !set_if_differs_get. done. }
  split; [by apply getIntFromAnnotation_FormatInt|].
  split; [by apply getIntFromAnnotation_FormatInt|].
  unfold SetReplicasAnnotations. by rewrite (set_if_differs_same DesiredReplicasAnnotation),
    (set_if_differs_same MaxReplicasAnnotation).
Qed.

(** The loop over the deployment's annotations, on any list of distinct keys. *)
Lemma copy_annotation_loop l mb k :
  NoDup l.*1 ->
  let r := foldl copy_annotation mb l in
  (k ∉ l.*1 \/ skipCopyAnnotation k = true -> r.1 !! k = mb.1 !! k) /\
  (forall v, (k, v) ∈ l -> skipCopyAnnotation k = false -> mget r.1 k = v).
Proof.
  revert mb; induction l as [|[k0 v0] l IH]; intros mb Hnd; csimpl.
  { split; [done|]. intros v Hin. by apply not_elem_of_nil in Hin. }
  apply NoDup_cons in Hnd as [Hk0 Hnd]. destruct (IH (copy_annotation mb (k0, v0)) Hnd) as [IH1 IH2].
  assert (forall k', k' <> k0 \/ skipCopyAnnotation k' = true -> (copy_annotation mb (k0, v0)).1 !! k' = mb.1 !! k') as Hstep.
  { intros k' Hk'. unfold copy_annotation. simpl. destruct (skipCopyAnnotation k0) eqn:Es; [done|].
    apply set_if_differs_other. intros ->. destruct Hk'; congruence. }
  split.
  - intros [Hk|Hk]; [apply not_elem_of_cons in Hk as [Hne Hk]|]; rewrite IH1 by auto; auto.
  - intros v Hin Hs. apply elem_of_cons in Hin as [Hin|Hin]; [|by apply IH2].
    simplify_eq. unfold mget. rewrite IH1 by auto.
    unfold copy_annotation. simpl. rewrite Hs. pose proof (set_if_differs_get k0 v0 mb k0) as Hg.
    rewrite decide_True in Hg by done. done.
Qed.

Lemma copyAnnotations_spec d ms k :
  let ms' := (copyMachineDeploymentAnnotationsToMachineSet d ms).1 in
  Annotations (is_Meta ms') !! k = Annotations (is_Meta ms) !! k \/
  (skipCopyAnnotation k = false /\ is_Some (Annotations (d_Meta d) !! k)).
Proof.
  unfold copyMachineDeploymentAnnotationsToMachineSet.
  destruct (foldl copy_annotation _ _) as [ann ch] eqn:E. simpl.
  destruct (copy_annotation_loop (map_to_list (Annotations (d_Meta d))) (Annotations (is_Meta ms), false) k)
    as [H _]; [apply NoDup_fst_map_to_list|]. rewrite E in H. simpl in H.
  destruct (skipCopyAnnotation k); [left; by apply H; right|].
  destruct (Annotations (d_Meta d) !! k) eqn:El; [right; by eauto|].
  left. apply H. left. intros Hin. apply list_elem_of_fmap in Hin as ([k' v'] & -> & Hin).
  apply elem_of_map_to_list in Hin. simpl in El. congruence.
Qed.

Lemma copyAnnotations_copied d ms k v :
  Annotations (d_Meta d) !! k = Some v -> skipCopyAnnotation k = false ->
  mget (Annotations (is_Meta (copyMachineDeploymentAnnotationsToMachineSet d ms).1)) k = v.
Proof.
  intros Hk Hs. unfold copyMachineDeploymentAnnotationsToMachineSet.
  destruct (foldl copy_annotation _ _) as [ann ch] eqn:E. simpl.
  destruct (copy_annotation_loop (map_to_list (Annotations (d_Meta d))) (Annotations (is_Meta ms), false) k)
    as [_ H]; [apply NoDup_fst_map_to_list|]. rewrite E in H. apply H; [|done].
  by apply elem_of_map_to_list.
Qed.

(** The revision a set carries, 0 when it has none. *)
Definition revision_of (ms : MachineSet) : Z :=
  default 0 (ParseInt (mget (Annotations (is_Meta ms)) RevisionAnnotation)).

Lemma SetReplicasAnnotations_other ms a b k :
  k <> DesiredReplicasAnnotation -> k <> MaxReplicasAnnotation ->
  Annotations (is_Meta (SetReplicasAnnotations ms a b).1) !! k = Annotations (is_Meta ms) !! k.
Proof.
  intros H1 H2. unfold SetReplicasAnnotations.
  destruct (set_if_differs MaxReplicasAnnotation _ _) as [ann upd] eqn:E. simpl.
  change ann with (fst (ann, upd)). rewrite <- E, !set_if_differs_other by done. done.
Qed.

Lemma bump_annotations_revision ann changed newRev n ann' b :
  ParseInt newRev = Some n -> bump_annotations ann changed newRev = Some (ann', b) ->
  let old := default 0 (ParseInt (mget ann RevisionAnnotation)) in
  default 0 (ParseInt (mget ann' RevisionAnnotation)) = Z.max old n /\
  (old < n -> b = true /\ mget ann' RevisionAnnotation = newRev /\
     (is_Some (ann !! RevisionAnnotation) ->
      ann' !! RevisionHistoryAnnotation =
        Some (append_history (mget ann RevisionHistoryAnnotation) (mget ann RevisionAnnotation)))).
Proof.
  intros Hn. unfold bump_annotations. rewrite Hn.
  set (o := mget ann RevisionAnnotation) in *.
  assert (match ParseInt o with Some v => Some v
     | None => if bool_decide (o = EmptyString) then Some 0 else None end = Some (default 0 (ParseInt o))
     \/ match ParseInt o with Some v => Some v
     | None => if bool_decide (o = EmptyString) then Some 0 else None end = None) as [->| ->]; [|simpl|done].
  { destruct (ParseInt o); [by left|]. case_bool_decide; auto. }
  set (old := default 0 (ParseInt o)). intros [= <- <-].
  assert (forall m : strmap, forall h, (if bool_decide (is_Some (ann !! RevisionAnnotation)) && (changed || (old <? n))
     then <[RevisionHistoryAnnotation := h]> m else m) !! RevisionAnnotation = m !! RevisionAnnotation) as Hh.
  { intros m h. destruct (_ && _); [by rewrite lookup_insert_ne|done]. }
  unfold mget. rewrite Hh. destruct (Z.ltb_spec old n) as [Hlt|Hge].
  - rewrite lookup_insert_eq. simpl. rewrite Hn. split; [simpl; lia|]. intros _.
    rewrite orb_true_r. split; [done|]. split; [done|]. intros Hs.
    rewrite bool_decide_true by done. simpl. by rewrite lookup_insert_eq, lookup_insert_ne.
  - split; [|lia]. fold (mget ann RevisionAnnotation). fold o old. lia.
Qed.

(** [SetNewMachineSetAnnotations] keeps revisions monotone: with readable revisions the set's
    revision becomes the larger of its own and the new one, and a set that is promoted from an
    older revision has that revision appended to its history. *)
Theorem SetNewMachineSetAnnotations_revision d ms newRev ex n :
  ParseInt newRev = Some n ->
  (mget (Annotations (is_Meta ms)) RevisionAnnotation = EmptyString \/
   is_Some (ParseInt (mget (Annotations (is_Meta ms)) RevisionAnnotation))) ->
  let '(ms', changed) := SetNewMachineSetAnnotations d ms newRev ex in
  revision_of ms' = Z.max (revision_of ms) n /\
  (revision_of ms < n -> changed = true /\
     (is_Some (Annotations (is_Meta ms) !! RevisionAnnotation) ->
      Annotations (is_Meta ms') !! RevisionHistoryAnnotation =
        Some (append_history (mget (Annotations (is_Meta ms)) RevisionHistoryAnnotation)
                (mget (Annotations (is_Meta ms)) RevisionAnnotation)))).
Proof.
  intros Hn Hold. unfold SetNewMachineSetAnnotations.
  assert (forall k, skipCopyAnnotation k = true ->
    Annotations (is_Meta (copyMachineDeploymentAnnotationsToMachineSet d ms).1) !! k = Annotations (is_Meta ms) !! k) as Hcp.
  { intros k Hk. destruct (copyAnnotations_spec d ms k) as [H|[H _]]; [done|congruence]. }
  destruct (copyMachineDeploymentAnnotationsToMachineSet d ms) as [ms1 ch]. simpl in Hcp.
  unfold bump_revision, revision_of, mget in *.
  rewrite <- (Hcp RevisionAnnotation), <- (Hcp RevisionHistoryAnnotation) in * by reflexivity.
  fold (mget (Annotations (is_Meta ms1)) RevisionAnnotation) in *.
  destruct (bump_annotations _ ch newRev) as [[ann b]|] eqn:Hb.
  - pose proof (bump_annotations_revision _ _ _ _ _ _ Hn Hb) as [H1 H2]. cbv zeta in *.
    destruct ex; simpl.
    + split; [done|]. intros Hlt. by destruct (H2 Hlt) as (-> & _ & ?).
    + assert (forall k, k <> DesiredReplicasAnnotation -> k <> MaxReplicasAnnotation ->
        Annotations (is_Meta (SetReplicasAnnotations (is_set_Annotations ann ms1) (d_Replicas d)
          (d_Replicas d +32 MaxSurge d)).1) !! k = ann !! k) as Ho
        by (intros; by rewrite SetReplicasAnnotations_other).
      destruct (SetReplicasAnnotations _ _ _) as [m' u]. simpl in Ho.
      rewrite !Ho by done. split; [done|]. intros Hlt. by destruct (H2 Hlt) as (-> & _ & ?).
  - exfalso. unfold bump_annotations in Hb. rewrite Hn in Hb.
    destruct (ParseInt (mget _ _)) eqn:E; [done|].
    destruct Hold as [Ho|[? Ho]]; [|congruence]. by rewrite Ho, bool_decide_true in Hb.
Qed.

(** ** Template comparison *)

Definition no_empty_values (m : strmap) : Prop := map_Forall (fun _ v => v <> EmptyString) m.

Lemma labels_mismatch_false l1 l2 : no_empty_values l2 ->
  labels_mismatch l1 l2 = false <-> delete DefaultMachineDeploymentUniqueLabelKey l2 ⊆ l1.
Proof.
  intros Hne. unfold labels_mismatch. rewrite <- not_true_iff_false, existsb_exists.
  rewrite map_subseteq_spec. split.
  - intros Hno k v Hk. apply lookup_delete_Some in Hk as [Hh Hk].
    destruct (decide (l1 !! k = Some v)) as [|Hn]; [done|]. exfalso. apply Hno. exists (k, v).
    split; [by apply list_elem_of_In, elem_of_map_to_list|]. simpl.
    rewrite andb_true_iff, !negb_true_iff, !bool_decide_eq_false. split; [|congruence].
    unfold mget. pose proof (Hne k v Hk). destruct (l1 !! k); naive_solver.
  - intros Hsub ([k v] & Hin & Hb). apply list_elem_of_In, elem_of_map_to_list in Hin. simpl in Hb.
    rewrite andb_true_iff, !negb_true_iff, !bool_decide_eq_false in Hb. destruct Hb as [Hb Hk].
    apply Hb. unfold mget. rewrite (Hsub k v); [done|]. by rewrite lookup_delete_ne by congruence.
Qed.

Lemma map_subseteq_size_eq (m1 m2 : strmap) : m1 ⊆ m2 -> (size m2 <= size m1)%nat -> m1 = m2.
Proof.
  intros Hs Hz. destruct (decide (m1 = m2)) as [|Hne]; [done|].
  assert (m1 ⊂ m2) as Hss by (split; [done|]; intros H; apply Hne; by apply (anti_symm (⊆))).
  apply map_subset_size in Hss. lia.
Qed.

Lemma size_delete_le (m : strmap) k : (size (delete k m) <= size m)%nat.
Proof. apply map_subseteq_size, delete_subseteq. Qed.

(** Comparing the template of a machine set with the template of the deployment ignores exactly the
    hash label: when the deployment's template does not carry that label (and no label is the
    empty string) the comparison holds iff the other labels are the same and the templates agree
    on everything but labels, node template, machine configuration and class kind. *)
Theorem EqualIgnoreHash_correct t1 t2 :
  no_empty_values (Labels (tp_Meta t1)) -> no_empty_values (Labels (tp_Meta t2)) ->
  Labels (tp_Meta t2) !! DefaultMachineDeploymentUniqueLabelKey = None ->
  EqualIgnoreHash t1 t2 = true <->
  delete DefaultMachineDeploymentUniqueLabelKey (Labels (tp_Meta t1)) = Labels (tp_Meta t2) /\
  strip_template t1 = strip_template t2.
Proof.
  intros H1 H2 Hh. unfold EqualIgnoreHash.
  set (l1 := Labels (tp_Meta t1)) in *. set (l2 := Labels (tp_Meta t2)) in *.
  set (h := DefaultMachineDeploymentUniqueLabelKey) in *.
  enough (forall (a b : strmap), (a, b) = (if (size l2 <? size l1)%nat then (l2, l1) else (l1, l2)) ->
    labels_mismatch a b = false <-> delete h l1 = l2) as Hlab.
  { destruct (if (size l2 <? size l1)%nat then (l2, l1) else (l1, l2)) as [a b].
    specialize (Hlab a b eq_refl). destruct (labels_mismatch a b).
    - split; [done|]. intros [Hc _]. by apply Hlab in Hc.
    - rewrite bool_decide_eq_true. assert (delete h l1 = l2) by by apply Hlab. tauto. }
  intros a b Hab. destruct (Nat.ltb_spec (size l2) (size l1)) as [Hlt|Hge]; simplify_eq.
  - rewrite labels_mismatch_false by done. fold h. split; [|by intros ->].
    intros Hs. apply map_subseteq_size_eq; [done|].
    destruct (l1 !! h) as [v|] eqn:E.
    + rewrite (map_size_delete_Some (M := gmap string)) by eauto. lia.
    + rewrite delete_id by done. lia.
  - rewrite labels_mismatch_false by done. fold h. rewrite (delete_id l2 h) by done. split.
    + intros Hs. apply map_subseteq_size_eq in Hs; [|done]. rewrite <- Hs. by apply delete_id.
    + intros <-. apply delete_subseteq.
Qed.

(** The comparison is not symmetric in general: on label maps of the same size a label of the first
    template that is missing from the second goes unnoticed when the second one carries the hash
    label instead. *)
Theorem EqualIgnoreHash_asymmetric : exists t1 t2,
  Labels (tp_Meta t1) !! "y" = Some "2" /\ Labels (tp_Meta t2) !! "y" = None /\
  EqualIgnoreHash t1 t2 = true /\ EqualIgnoreHash t2 t1 = false.
Proof.
  exists (mkTemplate (set_Labels {[ "x" := "1"; "y" := "2" ]} zero_meta) zero_machine_spec).
  exists (mkTemplate (set_Labels {[ "x" := "1"; DefaultMachineDeploymentUniqueLabelKey := "h" ]} zero_meta)
            zero_machine_spec).
  vm_compute. done.
Qed.

Section find_facts.
Context `{GoSort}.

Definition matches (d : MachineDeployment) (ms : MachineSet) : bool :=
  EqualIgnoreHash (ms_Template (is_Spec ms)) (md_Template (d_Spec d)).

Lemma sort_by_creation_elem l ms : ms ∈ sort_by_creation l <-> ms ∈ l.
Proof. unfold sort_by_creation. by rewrite gosort_perm. Qed.

Lemma sorted_head_filter (less : MachineSet -> MachineSet -> bool) (p : MachineSet -> bool) l x y :
  sorted_by less l -> head (filter (fun m => p m = true) l) = Some x ->
  y ∈ l -> p y = true -> y = x \/ less y x = false.
Proof.
  unfold sorted_by. induction l as [|z l IH]; intros Hs Hh Hy Hp; [set_solver|].
  apply StronglySorted_inv in Hs as [Hs HF]. rewrite filter_cons in Hh.
  case_decide as Hz; simpl in Hh; simplify_eq.
  - apply elem_of_cons in Hy as [->|Hy]; [by left|]. right. rewrite Forall_forall in HF. auto.
  - apply elem_of_cons in Hy as [->|Hy]; [done|]. eauto.
Qed.

(** The new machine set is a set whose template is the deployment's, and among those the oldest
    (creation time, then name); there is none only when no template matches. *)
Theorem FindNewMachineSet_spec d l :
  match FindNewMachineSet d l with
  | Some n => n ∈ l /\ matches d n = true /\
      forall ms, ms ∈ l -> matches d ms = true ->
        ms = n \/ MachineSetsByCreationTimestamp_Less ms n = false
  | None => forall ms, ms ∈ l -> matches d ms = false
  end.
Proof.
  destruct (FindNewMachineSet d l) as [n|] eqn:E; unfold FindNewMachineSet in E.
  - assert (n ∈ l /\ matches d n = true) as [Hn Hm].
    { apply head_Some_elem_of, list_elem_of_filter in E as [Hm Hn].
      rewrite sort_by_creation_elem in Hn. by split. }
    split; [done|]. split; [done|]. intros ms Hms Hmm.
    eapply sorted_head_filter; [|exact E|by rewrite sort_by_creation_elem|done].
    apply gosort_sorted, ByCreationTimestamp_strict_weak.
  - intros ms Hms. apply head_None in E. destruct (matches d ms) eqn:Em; [|done].
    assert (ms ∈ filter (fun ms => matches d ms = true) (sort_by_creation l)) as Hin.
    { apply list_elem_of_filter. split; [done|]. by rewrite sort_by_creation_elem. }
    unfold matches in Hin. rewrite E in Hin. by apply not_elem_of_nil in Hin.
Qed.

Lemma FindNew_elem d l n : FindNewMachineSet d l = Some n -> n ∈ l.
Proof.
  intros E. apply head_Some_elem_of, list_elem_of_filter in E as [_ Hn].
  by rewrite sort_by_creation_elem in Hn.
Qed.

Lemma elem_of_all_old d l ms :
  ms ∈ (FindOldMachineSets d l).2 <->
  ms ∈ l /\ forall n, FindNewMachineSet d l = Some n -> is_UID ms <> is_UID n.
Proof.
  unfold FindOldMachineSets. simpl. rewrite list_elem_of_filter, sort_by_creation_elem.
  destruct (FindNewMachineSet d l) as [n|].
  - rewrite bool_decide_eq_true. naive_solver.
  - naive_solver.
Qed.

(** The machine sets of a deployment (with distinct UIDs) are exactly the new one and the old ones:
    no set is lost or counted twice, and the first component of the old sets leaves out only
    sets of size 0, so that it carries the whole replica count. *)
Theorem FindOldMachineSets_partition d l :
  NoDup (is_UID <$> l) ->
  let '(required, allOld) := FindOldMachineSets d l in
  allOld ++ option_list (FindNewMachineSet d l) ≡ₚ l /\
  (forall ms, ms ∈ required <-> ms ∈ allOld /\ is_Replicas ms <> 0) /\
  zsum is_Replicas required = zsum is_Replicas allOld.
Proof.
  intros Hnd. destruct (FindOldMachineSets d l) as [required allOld] eqn:E.
  assert (allOld = (FindOldMachineSets d l).2) as Ha by by rewrite E.
  assert (required = filter (fun ms => is_Replicas ms <> 0) allOld) as Hr.
  { unfold FindOldMachineSets in E. by simplify_eq. }
  split; [|split].
  - apply NoDup_Permutation.
    + apply NoDup_app. split; [|split].
      * rewrite Ha. unfold FindOldMachineSets. simpl. apply NoDup_filter.
        unfold sort_by_creation. rewrite gosort_perm. by eapply NoDup_fmap_1.
      * intros ms Hms Hn. rewrite Ha, elem_of_all_old in Hms.
        destruct (FindNewMachineSet d l) as [n|]; simpl in Hn; [|by apply not_elem_of_nil in Hn].
        apply list_elem_of_singleton in Hn as ->. naive_solver.
      * destruct (FindNewMachineSet d l); simpl; [apply NoDup_singleton|apply NoDup_nil_2].
    + by eapply NoDup_fmap_1.
    + intros ms. rewrite elem_of_app, Ha, elem_of_all_old. split.
      * intros [[? _]|Hn]; [done|]. destruct (FindNewMachineSet d l) as [n|] eqn:En; simpl in Hn;
          [|by apply not_elem_of_nil in Hn].
        apply list_elem_of_singleton in Hn as ->. by eapply FindNew_elem.
      * intros Hms. destruct (FindNewMachineSet d l) as [n|] eqn:En; simpl; [|by left].
        destruct (decide (is_UID ms = is_UID n)) as [Hu|Hu]; [|left; naive_solver].
        right. apply list_elem_of_singleton. apply FindNew_elem in En.
        by eapply (NoDup_fmap_inj_elem is_UID l).
  - intros ms. rewrite Hr, list_elem_of_filter. tauto.
  - rewrite Hr. clear. induction allOld as [|x l IH]; [done|]. rewrite filter_cons, zsum_cons.
    case_decide; rewrite ?zsum_cons, IH; lia.
Qed.
End find_facts.

(** ** The hypotheses hold on sample objects *)

Lemma sample_wf_rolling n s u : 0 <= n <= max_int32 -> 0 <= s <= max_int32 -> 0 <= u <= max_int32 ->
  wf_rolling (sample_md n s u).
Proof. intros Hn Hs Hu. split; [done|done| |]; eexists; (split; [reflexivity|done]). Defined.

Lemma fenceposts_allow_progress_witness :
  (0 < MaxSurge (sample_md 3 1 0) \/ 0 < MaxUnavailable (sample_md 3 1 0)) /\
  0 <= MinAvailable (sample_md 3 1 0) <= 3 /\ 3 <= 3 + MaxSurge (sample_md 3 1 0) /\
  MinAvailable (sample_md 3 1 0) + MaxUnavailable (sample_md 3 1 0) = 3.
Proof.
  refine (fenceposts_allow_progress (sample_md 3 1 0) _ _); [apply sample_wf_rolling; width|].
  reflexivity.
Defined.

Lemma NewISNewReplicas_rolling_witness :
  NewISNewReplicas (sample_md 3 1 0) [Some (sample_ms "old" 3 3); Some (sample_ms "new" 0 0)] (sample_ms "new" 0 0)
    = Some 1 /\ 1 <= Z.max 0 3.
Proof.
  split; [reflexivity|].
  refine (proj1 (proj2 (proj2 (NewISNewReplicas_rolling (sample_md 3 1 0)
    [Some (sample_ms "old" 3 3); Some (sample_ms "new" 0 0)] (sample_ms "new" 0 0) 1 _ _ _ _ _ _)))).
  - apply sample_wf_rolling; width.
  - vm_compute; split; discriminate.
  - repeat constructor; discriminate.
  - vm_compute; discriminate.
  - vm_compute; discriminate.
  - reflexivity.
Defined.

Lemma SetReplicasAnnotations_roundtrip_witness :
  GetDesiredReplicasAnnotation (SetReplicasAnnotations (sample_ms "a" 3 3) 3 (-4)).1 = (3, true).
Proof.
  apply (SetReplicasAnnotations_roundtrip (sample_ms "a" 3 3) 3 (-4)); width.
Defined.

Lemma SetNewMachineSetAnnotations_revision_witness :
  revision_of (SetNewMachineSetAnnotations (sample_md 3 1 0) (sample_ms "a" 3 3) "7" true).1 = Z.max 0 7.
Proof.
  apply (SetNewMachineSetAnnotations_revision (sample_md 3 1 0) (sample_ms "a" 3 3) "7" true 7).
  - reflexivity.
  - left. reflexivity.
Defined.

Lemma EqualIgnoreHash_correct_witness :
  EqualIgnoreHash (tp_set_Meta (fun m => set_Labels (<[DefaultMachineDeploymentUniqueLabelKey := "77"]> (Labels m)) m)
      sample_template) sample_template = true.
Proof.
  refine (proj2 (EqualIgnoreHash_correct (tp_set_Meta (fun m => set_Labels
      (<[DefaultMachineDeploymentUniqueLabelKey := "77"]> (Labels m)) m) sample_template) sample_template _ _ _) _).
  - apply (bool_decide_unpack _). vm_compute. exact I.
  - apply (bool_decide_unpack _). vm_compute. exact I.
  - reflexivity.
  - split; reflexivity.
Defined.

Lemma FindOldMachineSets_partition_witness :
  (FindOldMachineSets (sample_md 3 1 0) [sample_ms "b" 0 0; sample_ms "a" 3 3]).2
    ++ option_list (FindNewMachineSet (sample_md 3 1 0) [sample_ms "b" 0 0; sample_ms "a" 3 3])
  ≡ₚ [sample_ms "b" 0 0; sample_ms "a" 3 3].
Proof.
  apply (FindOldMachineSets_partition (sample_md 3 1 0) [sample_ms "b" 0 0; sample_ms "a" 3 3]).
  apply (bool_decide_unpack _). vm_compute. exact I.
Defined.
