(* ===== verification/Prog.v ===== *)
(** * Programs that call the API server

    A controller function is a program: a finite tree whose nodes are calls to the outside (API
    server clients, listers, the clock, the work queue, the cloud provider's driver) and whose
    branches are the possible answers.  Nothing is assumed about an answer unless a theorem says
    so, so a theorem about [exec] holds whatever the API server does: failures, conflicts, stale
    listers and objects changed by others included.

    [Throw] is a returned Go error, which [bind] passes on as [if err != nil { return err }] does and
    [attempt] turns into a value; [Crash] is a run-time panic (nil dereference); [Starve] marks a loop
    that the source does not bound and whose fuel is used up.  Events emitted with the recorder, logging
    and metrics have no influence on the control flow and are left out. *)
From Stdlib Require Import ZArith Lia Eqdep_dec.
From stdpp Require Import base gmap strings list.
From S2P Require Import Prelude GoLib Types Labels.
Open Scope Z_scope.

(** ** Requests *)

(** The owner reference patches of controller_ref_manager.go: the reference to add or to delete, and
    the UID the patched object must have. *)
Inductive OwnerPatch :=
  | AddOwner (ref : OwnerReference) (uid : string)
  | DropOwner (ref : OwnerReference) (uid : string).

Inductive req :=
  (* clock and queue *)
  | Now
  | Sleep (d : Z)
  | EnqueueMDAfter (key : string) (after : Z)
  | EnqueueMDRateLimited (key : string)
  | EnqueueMachineSetAfter (key : string) (after : Z)
  | EnqueueMD (key : string)
  | EnqueueMachineSet (key : string)
  | ForgetMD (key : string)
  | NumRequeuesMD (key : string)
  (* which of two goroutines goes on *)
  | Schedule
  (* expectations of the machine set controller *)
  | SatisfiedExpectations (key : string)
  | DeleteExpectations (key : string)
  | ExpectCreations (key : string) (adds : Z)
  | ExpectDeletions (key : string) (deletedKeys : list string)
  | CreationObserved (key : string)
  | DeletionObserved (key deleteKey : string)
  (* a cached machine is changed in place *)
  | MutateCachedMachine (m : Machine)
  (* informer caches *)
  | ListerMachineSets
  | ListerMachines
  | ListerMachineDeployments
  | ListerGetMS (ns name : string)
  | ListerGetMachine (ns name : string)
  (* machine sets *)
  | GetMS (ns name : string)
  | ListMS (ns : string) (sel : Selector)
  | CreateMS (ms : MachineSet)
  | UpdateMS (ms : MachineSet)
  | UpdateStatusMS (ms : MachineSet)
  | DeleteMS (ns name : string)
  | PatchMS (ns name : string) (p : OwnerPatch)
  (* machine deployments *)
  | GetMD (ns name : string)
  | UpdateMD (d : MachineDeployment)
  | UpdateStatusMD (d : MachineDeployment)
  (* machines *)
  | GetMachine (ns name : string)
  | CreateMachine (m : Machine)
  | UpdateMachine (m : Machine)
  | UpdateStatusMachine (m : Machine)
  | DeleteMachineReq (ns name : string)
  | PatchMachine (ns name : string) (p : OwnerPatch)
  (* nodes of the target cluster *)
  | GetNode (name : string) (cached : bool)
  | UpdateNode (n : Node)
  | UpdateStatusNode (n : Node)
  | DeleteNode (name : string)
  | ListerGetNode (name : string)
  | ListerNodes
  (* queues of the machine controller *)
  | EnqueueMachine (key : string)
  | EnqueueMachineAfter (key : string) (after : Z)
  | EnqueueMachineClass (key : string)
  | EnqueueSafetyOrphanVMs (after : Z)
  | EnqueueSafetyAPIServer (after : Z)
  | EnqueueSafetyOvershooting (after : Z)
  (* what a worker does with the queue it serves *)
  | QueueNumRequeues (queue key : string)
  | QueueAddRateLimited (queue key : string)
  | QueueForget (queue key : string)
  | QueueDone (queue key : string)
  | QueueAdd (queue key : string)
  | QueueAddAfter (queue key : string) (after : Z)
  (* machine classes and secrets *)
  | ListerGetMachineClass (ns name : string)
  | ListerMachineClasses
  | ListerGetSecret (ns name : string)
  | GetTargetSecret (ns name : string)
  | CreateTargetSecret (s : Secret)
  | DeleteTargetSecret (ns name : string)
  | RandomInt (max : Z)
  | GetMachineClass (ns name : string)
  | CreateMachineClass (mc : MachineClass)
  | UpdateMachineClass (mc : MachineClass)
  | GetControlSecret (ns name : string)
  | UpdateControlSecret (s : Secret)
  | EnqueueMachineClassAfter (key : string) (after : Z)
  | EnqueueSecret (key : string)
  | EnqueueSecretAfter (key : string) (after : Z)
  (* migration of provider-specific classes *)
  | ListMD (ns : string)
  | GetProviderClass (kind ns name : string)
  | UpdateProviderClass (c : ProviderClass)
  | DeleteProviderClass (kind ns name : string)
  | ListerGetProviderClass (kind ns name : string)
  | GenerateMachineClass (c : ProviderClass) (mc : MachineClass) (classSpec : ClassSpec)
  | WaitForCacheSync
  (* the driver of the cloud provider *)
  | VMStatus (r : DriverRequest)
  | VMCreate (r : DriverRequest)
  | VMDelete (r : DriverRequest)
  | VMList (class : MachineClass) (secret : strmap)
  (* the drivers in the source tree *)
  | ListerProviderClasses (kind : string)
  | DriverGetVMs (d : InTreeDriver) (machineID : string)
  | DriverDelete (d : InTreeDriver) (machineID : string)
  | DriverCreate (d : InTreeDriver)
  (* pods, volumes and discovery of the target cluster *)
  | ListPods (nodeName : string)
  | GetPod (ns name : string)
  | DeletePod (ns name : string) (gracePeriodSeconds : Z)
  | EvictPod (ns name : string) (gracePeriodSeconds : option Z) (groupVersion : string)
  | GetNodeVolumesAttached (name : string)
  | ServerGroups
  | ServerResources (groupVersion : string)
  | ListerGetPVC (ns name : string)
  | ListerGetPV (name : string)
  | ListerGetPersistentVolume (name : string)
  | ListerPodDisruptionBudgets (p : Pod)
  | DriverGetVolumeIDs (specs : list string)
  (* channels for volume attachments *)
  | AddVolumeWorker
  | DeleteVolumeWorker (worker : nat)
  | SelectVolumeAttachment (worker : option nat) (deadline : Z)
  (* the drain component *)
  | RunDrain (o : DrainOptions)
  | RunInTreeDrain (o : InTreeDrainOptions).

#[export] Instance OwnerPatch_eq_dec : EqDecision OwnerPatch.
Proof. solve_decision. Defined.
#[export] Instance req_eq_dec : EqDecision req.
Proof. solve_decision. Defined.

(** What a successful call returns. *)
Definition answer (r : req) : Type :=
  match r with
  | Now => Z
  | Sleep _ | EnqueueMDAfter _ _ | EnqueueMDRateLimited _ | EnqueueMachineSetAfter _ _
  | EnqueueMD _ | EnqueueMachineSet _ | ForgetMD _ => unit
  | NumRequeuesMD _ => Z
  | Schedule | SatisfiedExpectations _ => bool
  | DeleteExpectations _ | ExpectCreations _ _ | ExpectDeletions _ _ | CreationObserved _ | DeletionObserved _ _
  | MutateCachedMachine _ => unit
  | ListerMachineSets | ListMS _ _ => list MachineSet
  | ListerMachines => list Machine
  | ListerMachineDeployments => list MachineDeployment
  | ListerGetMS _ _ | GetMS _ _ | CreateMS _ | UpdateMS _ | UpdateStatusMS _ => MachineSet
  | DeleteMS _ _ | PatchMS _ _ _ | PatchMachine _ _ _ | DeleteMachineReq _ _ => unit
  | GetMD _ _ | UpdateMD _ | UpdateStatusMD _ => MachineDeployment
  | ListerGetMachine _ _ | GetMachine _ _ | CreateMachine _ | UpdateMachine _ | UpdateStatusMachine _ => Machine
  | GetNode _ _ | UpdateNode _ | UpdateStatusNode _ | ListerGetNode _ => Node
  | ListerNodes => list Node
  | DeleteNode _ | EnqueueMachine _ | EnqueueMachineAfter _ _ | EnqueueMachineClass _
  | EnqueueSafetyOrphanVMs _ | EnqueueSafetyAPIServer _ | EnqueueSafetyOvershooting _ => unit
  | QueueNumRequeues _ _ => Z
  | QueueAddRateLimited _ _ | QueueForget _ _ | QueueDone _ _ | QueueAdd _ _ | QueueAddAfter _ _ _ => unit
  | ListerGetMachineClass _ _ => MachineClass
  | ListerMachineClasses => list MachineClass
  | ListerGetSecret _ _ | GetTargetSecret _ _ | CreateTargetSecret _ => Secret
  | DeleteTargetSecret _ _ => unit
  | RandomInt _ => Z
  | GetMachineClass _ _ | CreateMachineClass _ | UpdateMachineClass _ => MachineClass
  | GetControlSecret _ _ | UpdateControlSecret _ => Secret
  | EnqueueMachineClassAfter _ _ | EnqueueSecret _ | EnqueueSecretAfter _ _ => unit
  | ListMD _ => list MachineDeployment
  | GetProviderClass _ _ _ | UpdateProviderClass _ | ListerGetProviderClass _ _ _ => ProviderClass
  | DeleteProviderClass _ _ _ => unit
  (* the class the driver has filled in *)
  | GenerateMachineClass _ _ _ => MachineClass
  | WaitForCacheSync => bool
  (* a response may come with an error *)
  | VMStatus _ => option GetMachineStatusResponse
  | VMCreate _ => option CreateMachineResponse * option error
  | VMDelete _ => option DeleteMachineResponse * option error
  | VMList _ _ => option strmap
  | ListerProviderClasses _ => list ProviderClass
  | DriverGetVMs _ _ => strmap
  | DriverDelete _ _ => unit
  (* the ID of the VM and the name of its node *)
  | DriverCreate _ => string * string
  | ListPods _ => list Pod
  | GetPod _ _ => Pod
  | DeletePod _ _ _ | EvictPod _ _ _ _ => unit
  | GetNodeVolumesAttached _ => list string
  | ServerGroups => list APIGroup
  | ServerResources _ => list APIResource
  (* the name of the claim's volume *)
  | ListerGetPVC _ _ => string
  (* the specification of the volume, which is only passed on *)
  | ListerGetPV _ => string
  (* the same, as the drivers in the source tree look at it *)
  | ListerGetPersistentVolume _ => PersistentVolumeSpec
  | ListerPodDisruptionBudgets _ => list PodDisruptionBudget
  | DriverGetVolumeIDs _ => option (list string) * option error
  | AddVolumeWorker => nat
  | DeleteVolumeWorker _ => unit
  (* [None] when the deadline has passed *)
  | SelectVolumeAttachment _ _ => option VolumeAttachment
  | RunDrain _ | RunInTreeDrain _ => unit
  end.

(** A call with the answer it got. *)
Definition event : Type := { r : req & result (answer r) }.
Abbreviation history := (list event).
Abbreviation ev r x := (existT r x : event).

(** ** Programs *)

Inductive prog (A : Type) : Type :=
  | Ret (a : A)
  | Throw (e : error)
  | Crash
  | Starve
  | Call (r : req) (k : result (answer r) -> prog A).
Arguments Ret {A} a.
Arguments Throw {A} e.
Arguments Crash {A}.
Arguments Starve {A}.
Arguments Call {A} r k.

Inductive outcome (A : Type) := Return (a : A) | Raise (e : error) | Panic | OutOfFuel.
Arguments Return {A} a.
Arguments Raise {A} e.
Arguments Panic {A}.
Arguments OutOfFuel {A}.

Fixpoint bind {A B} (p : prog A) (f : A -> prog B) : prog B :=
  match p with
  | Ret a => f a
  | Throw e => Throw e
  | Crash => Crash
  | Starve => Starve
  | Call r k => Call r (fun x => bind (k x) f)
  end.

(** The error of a program as a value. *)
Fixpoint attempt {A} (p : prog A) : prog (result A) :=
  match p with
  | Ret a => Ret (Ok a)
  | Throw e => Ret (Err e)
  | Crash => Crash
  | Starve => Starve
  | Call r k => Call r (fun x => attempt (k x))
  end.

(** A call whose error is returned. *)
Definition call (r : req) : prog (answer r) :=
  Call r (fun x => match x with Ok a => Ret a | Err e => Throw e end).
(** A call whose error is looked at. *)
Definition call_try (r : req) : prog (result (answer r)) := Call r Ret.
(** A call whose result is ignored. *)
Definition call_ignore (r : req) : prog unit := Call r (fun _ => Ret tt).

Definition lift {A} (r : result A) : prog A :=
  match r with Ok a => Ret a | Err e => Throw e end.
Definition or_throw {A} (o : option A) (msg : string) : prog A :=
  match o with Some a => Ret a | None => Throw (Errorf msg) end.
(** Dereference of a pointer. *)
Definition deref {A} (o : option A) : prog A :=
  match o with Some a => Ret a | None => Crash end.

Declare Scope prog_scope.
Delimit Scope prog_scope with prog.
Notation "'let!' x := p 'in' q" := (bind p (fun x => q))
  (at level 10, x pattern, p at level 100, q at level 200) : prog_scope.
Notation "'do!' p 'in' q" := (bind p (fun _ => q))
  (at level 10, p at level 100, q at level 200) : prog_scope.
Open Scope prog_scope.

(** [for _, x := range l { body }], stopping at the first error. *)
Fixpoint for_each {A} (l : list A) (body : A -> prog unit) : prog unit :=
  match l with
  | [] => Ret tt
  | x :: l' => do! body x in for_each l' body
  end.

(** The same with a state carried from one iteration to the next. *)
Fixpoint for_fold {A S} (l : list A) (s : S) (body : S -> A -> prog S) : prog S :=
  match l with
  | [] => Ret s
  | x :: l' => let! s := body s x in for_fold l' s body
  end.

(** [retry.RetryOnConflict] with [n] steps; the source's backoffs have 4 and 5.  The function knows
    whether it is the first try. *)
Fixpoint retry_loop {A} (n : nat) (firstTry : bool) (fn : bool -> prog A) : prog A :=
  match n with
  | O => Starve
  | S n' =>
      let! x := attempt (fn firstTry) in
      match x with
      | Ok a => Ret a
      | Err e => if IsConflict e && negb (bool_decide (n' = O)) then retry_loop n' false fn else Throw e
      end
  end.

Definition RetryOnConflict {A} (n : nat) (fn : bool -> prog A) : prog A := retry_loop n true fn.

(** [wait.PollImmediate] with room for [n] checks before the timeout. *)
Fixpoint PollImmediate (n : nat) (condition : prog bool) : prog unit :=
  match n with
  | O => Throw (mkErr TimeoutErr "timed out waiting for the condition")
  | S n' => let! done := condition in if (done : bool) then Ret tt else PollImmediate n' condition
  end.

(** [time.Now()]: the clock has no error. *)
Definition now : prog Z := Call Now (fun x => Ret (match x with Ok t => t | Err _ => 0 end)).

(** [defer fin()]: [fin] runs when [p] has returned, with an error or not. *)
Definition defer {A} (fin : prog unit) (p : prog A) : prog A :=
  let! x := attempt p in
  do! fin in
  lift x.

(** Two goroutines and a [WaitGroup]: between any two calls the scheduler decides which one goes on. *)
Fixpoint par {A B} (p : prog A) : prog B -> prog (A * B) :=
  fix go (q : prog B) : prog (A * B) :=
    match p with
    | Ret a => let! b := q in Ret (a, b)
    | Throw e => Throw e
    | Crash => Crash
    | Starve => Starve
    | Call r k =>
        match q with
        | Ret b => let! a := p in Ret (a, b)
        | Throw e => Throw e
        | Crash => Crash
        | Starve => Starve
        | Call r' k' =>
            Call Schedule (fun x =>
              match x with
              | Ok true => Call r (fun y => par (k y) q)
              | _ => Call r' (fun y => go (k' y))
              end)
        end
    end.

(** One goroutine for every element. *)
Fixpoint par_list {A} (ps : list (prog A)) : prog (list A) :=
  match ps with
  | [] => Ret []
  | p :: ps => let! r := par p (par_list ps) in Ret (r.1 :: r.2)
  end.

Definition DefaultBackoff : nat := 4.
Definition UpdateAnnotationBackoff : nat := 5.

(** ** Executions *)

(** [exec p h o]: with the answers recorded in [h] the program makes exactly the calls of [h] and
    ends with [o]. *)
Fixpoint exec {A} (p : prog A) (h : history) (o : outcome A) : Prop :=
  match p with
  | Ret a => h = [] /\ o = Return a
  | Throw e => h = [] /\ o = Raise e
  | Crash => h = [] /\ o = Panic
  | Starve => h = [] /\ o = OutOfFuel
  | Call r k => exists x h', h = ev r x :: h' /\ exec (k x) h' o
  end.

(** A deterministic outside world: its state and its answers. *)
Section run.
Context {W : Type} (handle : forall r : req, W -> W * result (answer r)).

Fixpoint run {A} (p : prog A) (w : W) : W * history * outcome A :=
  match p with
  | Ret a => (w, [], Return a)
  | Throw e => (w, [], Raise e)
  | Crash => (w, [], Panic)
  | Starve => (w, [], OutOfFuel)
  | Call r k =>
      let '(w, x) := handle r w in
      let '(w, h, o) := run (k x) w in
      (w, ev r x :: h, o)
  end.

(** Running against a world is one of the executions. *)
Lemma run_exec {A} (p : prog A) w : exec p (run p w).1.2 (run p w).2.
Proof.
  revert w; induction p as [a|e| | |r k IH]; intros w; simpl; [done..|].
  destruct (handle r w) as [w' x]. specialize (IH x w').
  destruct (run (k x) w') as [[w2 h] o]. simpl in *. by exists x, h.
Qed.
End run.

(** ** Reasoning about executions *)

Definition is_fail {A} (o : outcome A) : Prop := match o with Return _ => False | _ => True end.

(** The outcome of [bind] when the first program does not return. *)
Definition recast {A B} (o : outcome A) : outcome B :=
  match o with
  | Return _ => Panic
  | Raise e => Raise e
  | Panic => Panic
  | OutOfFuel => OutOfFuel
  end.

Lemma exec_bind {A B} (p : prog A) (f : A -> prog B) h o :
  exec (bind p f) h o ->
  (exists h1 a h2, h = h1 ++ h2 /\ exec p h1 (Return a) /\ exec (f a) h2 o) \/
  (exists o', exec p h o' /\ is_fail o' /\ o = recast o').
Proof.
  revert h; induction p as [a|e| | |r k IH]; intros h; simpl.
  - intros H. left. by exists [], a, h.
  - intros [-> ->]. right. by exists (Raise e).
  - intros [-> ->]. right. by exists Panic.
  - intros [-> ->]. right. by exists OutOfFuel.
  - intros (x & h' & -> & Hx). destruct (IH x h' Hx) as [(h1 & a & h2 & -> & H1 & H2)|(o' & H1 & H2 & ->)].
    + left. exists (ev r x :: h1), a, h2. split; [done|]. split; [|done]. by exists x, h1.
    + right. exists o'. split; [|done]. by exists x, h'.
Qed.

Lemma exec_attempt {A} (p : prog A) h o :
  exec (attempt p) h o ->
  (exists a, exec p h (Return a) /\ o = Return (Ok a)) \/
  (exists e, exec p h (Raise e) /\ o = Return (Err e)) \/
  (exec p h Panic /\ o = Panic) \/ (exec p h OutOfFuel /\ o = OutOfFuel).
Proof.
  revert h; induction p as [a|e| | |r k IH]; intros h; simpl.
  - intros [-> ->]. left. by exists a.
  - intros [-> ->]. right. left. by exists e.
  - intros [-> ->]. by right; right; left.
  - intros [-> ->]. by right; right; right.
  - intros (x & h' & -> & Hx).
    destruct (IH x h' Hx) as [(a & H1 & ->)|[(e & H1 & ->)|[[H1 ->]|[H1 ->]]]].
    + left. exists a. split; [|done]. by exists x, h'.
    + right; left. exists e. split; [|done]. by exists x, h'.
    + right; right; left. split; [|done]. by exists x, h'.
    + right; right; right. split; [|done]. by exists x, h'.
Qed.

(** The answers of equal calls are equal. *)
Lemma event_inj r (x y : result (answer r)) : ev r x = ev r y -> x = y.
Proof. apply inj_pair2_eq_dec. intros; apply req_eq_dec. Qed.

Lemma exec_Call_inv {A} r (k : result (answer r) -> prog A) x h o : exec (Call r k) (ev r x :: h) o <-> exec (k x) h o.
Proof.
  split.
  - intros (y & h' & Heq & He). assert (Hh := f_equal (@tail _) Heq). simpl in Hh. subst h'.
    assert (Hx : ev r x = ev r y) by congruence. by rewrite (event_inj _ _ _ Hx).
  - intros He. by exists x, h.
Qed.

Lemma exec_bind_ret {A B} (p : prog A) (f : A -> prog B) h b : exec (bind p f) h (Return b) ->
  exists h1 a h2, h = h1 ++ h2 /\ exec p h1 (Return a) /\ exec (f a) h2 (Return b).
Proof. intros He. destruct (exec_bind _ _ _ _ He) as [?|(o' & _ & Hf & Ho)]; [done|by destruct o']. Qed.

Lemma exec_attempt_ret {A} (p : prog A) h x : exec (attempt p) h (Return x) ->
  match x with Ok a => exec p h (Return a) | Err e => exec p h (Raise e) end.
Proof. intros He. destruct (exec_attempt _ _ _ He) as [(?&?&[= ->])|[(?&?&[= ->])|[[_ ?]|[_ ?]]]]; done. Qed.

Lemma exec_call r h o : exec (call r) h o ->
  exists x, h = [ev r x] /\ o = match x with Ok a => Return a | Err e => Raise e end.
Proof. intros (x & h' & -> & Hx). exists x. destruct x; by destruct Hx as [-> ->]. Qed.

Lemma exec_call_try r h o : exec (call_try r) h o -> exists x, h = [ev r x] /\ o = Return x.
Proof. intros (x & h' & -> & -> & ->). by exists x. Qed.

Lemma exec_now h o : exec now h o -> exists x t, h = [ev Now x] /\ o = Return t.
Proof. intros (x & h' & -> & -> & ->). eauto. Qed.

(** *** What a program returns *)

Definition rets {A} (Q : A -> Prop) (p : prog A) : Prop := forall h a, exec p h (Return a) -> Q a.

Lemma rets_ret {A} (Q : A -> Prop) a : Q a -> rets Q (Ret a).
Proof. by intros HQ h b [_ [= ->]]. Qed.

Lemma rets_throw {A} (Q : A -> Prop) e : rets Q (Throw e).
Proof. by intros h b [_ ?]. Qed.

Lemma rets_crash {A} (Q : A -> Prop) : rets Q Crash.
Proof. by intros h b [_ ?]. Qed.

Lemma rets_Call {A} (Q : A -> Prop) r (k : result (answer r) -> prog A) : (forall x, rets Q (k x)) -> rets Q (Call r k).
Proof. intros Hk h a (x & h' & _ & Hx). by eapply Hk. Qed.

Lemma rets_bind {A B} (Q : B -> Prop) (Q' : A -> Prop) (p : prog A) (f : A -> prog B) :
  rets Q' p -> (forall a, Q' a -> rets Q (f a)) -> rets Q (bind p f).
Proof.
  intros Hp Hf h b He. apply exec_bind_ret in He as (h1 & a & h2 & _ & E1 & E2). eapply Hf; [by eapply Hp|done].
Qed.

Lemma rets_any {A} (p : prog A) : rets (fun _ => True) p.
Proof. done. Qed.

(** *** A program logic: [hoare p Q] says that every execution of [p] ends in [Q]. *)

Definition hoare {A} (p : prog A) (Q : history -> outcome A -> Prop) : Prop :=
  forall h o, exec p h o -> Q h o.

Lemma hoare_conseq {A} (p : prog A) (Q Q' : history -> outcome A -> Prop) :
  hoare p Q -> (forall h o, Q h o -> Q' h o) -> hoare p Q'.
Proof. intros H HQ h o He. auto. Qed.

Lemma hoare_ret {A} (a : A) Q : Q [] (Return a) -> hoare (Ret a) Q.
Proof. intros HQ h o [-> ->]. done. Qed.

Lemma hoare_throw {A} e (Q : history -> outcome A -> Prop) : Q [] (Raise e) -> hoare (Throw e) Q.
Proof. intros HQ h o [-> ->]. done. Qed.

Lemma hoare_bind {A B} (p : prog A) (f : A -> prog B) (Q1 : history -> outcome A -> Prop) Q :
  hoare p Q1 ->
  (forall h1 a, Q1 h1 (Return a) -> hoare (f a) (fun h2 o => Q (h1 ++ h2) o)) ->
  (forall h1 o', Q1 h1 o' -> is_fail o' -> Q h1 (recast o')) ->
  hoare (bind p f) Q.
Proof.
  intros H1 H2 H3 h o He. destruct (exec_bind _ _ _ _ He) as [(h1 & a & h2 & -> & E1 & E2)|(o' & E1 & E2 & ->)].
  - apply (H2 h1 a (H1 _ _ E1) h2 o E2).
  - apply H3; auto.
Qed.

Lemma hoare_call {A} r (k : result (answer r) -> prog A) Q :
  (forall x, hoare (k x) (fun h o => Q (ev r x :: h) o)) -> hoare (Call r k) Q.
Proof. intros H h o (x & h' & -> & Hx). apply (H x h' o Hx). Qed.

(** *** Histories in which every call satisfies [P], whatever the outcome. *)

Definition emits {A} (P : event -> Prop) (p : prog A) : Prop := forall h o, exec p h o -> Forall P h.

Lemma emits_ret {A} P (a : A) : emits P (Ret a).
Proof. intros h o [-> _]. constructor. Qed.

Lemma emits_throw {A} P e : emits P (Throw (A := A) e).
Proof. intros h o [-> _]. constructor. Qed.

Lemma emits_crash {A} P : emits P (Crash (A := A)).
Proof. intros h o [-> _]. constructor. Qed.

Lemma emits_starve {A} P : emits P (Starve (A := A)).
Proof. intros h o [-> _]. constructor. Qed.

Lemma emits_Call {A} P r (k : result (answer r) -> prog A) :
  (forall x, P (ev r x)) -> (forall x, emits P (k x)) -> emits P (Call r k).
Proof. intros HP Hk h o (x & h' & -> & Hx). constructor; [done|]. by eapply Hk. Qed.

Lemma emits_bind {A B} P (p : prog A) (f : A -> prog B) :
  emits P p -> (forall a, emits P (f a)) -> emits P (bind p f).
Proof.
  intros Hp Hf h o He. destruct (exec_bind _ _ _ _ He) as [(h1 & a & h2 & -> & E1 & E2)|(o' & E1 & _)].
  - apply Forall_app. split; [by eapply Hp|by eapply Hf].
  - by eapply Hp.
Qed.

(** The continuation may use what the first program returned with. *)
Lemma emits_bind_strong {A B} P (p : prog A) (f : A -> prog B) :
  emits P p -> (forall a h, exec p h (Return a) -> emits P (f a)) -> emits P (bind p f).
Proof.
  intros Hp Hf h o He. destruct (exec_bind _ _ _ _ He) as [(h1 & a & h2 & -> & E1 & E2)|(o' & E1 & _)].
  - apply Forall_app. split; [by eapply Hp|by eapply Hf].
  - by eapply Hp.
Qed.

Lemma emits_attempt {A} P (p : prog A) : emits P p -> emits P (attempt p).
Proof.
  intros Hp h o He.
  destruct (exec_attempt _ _ _ He) as [(a & E & _)|[(e & E & _)|[[E _]|[E _]]]]; by eapply Hp.
Qed.

Lemma emits_call P r : (forall x, P (ev r x)) -> emits P (call r).
Proof. intros HP. apply emits_Call; [done|]. intros []; auto using emits_ret, emits_throw. Qed.

Lemma emits_call_try P r : (forall x, P (ev r x)) -> emits P (call_try r).
Proof. intros HP. apply emits_Call; [done|]. intros x. apply emits_ret. Qed.

Lemma emits_call_ignore P r : (forall x, P (ev r x)) -> emits P (call_ignore r).
Proof. intros HP. apply emits_Call; [done|]. intros x. apply emits_ret. Qed.

Lemma emits_lift {A} P (r : result A) : emits P (lift r).
Proof. destruct r; [apply emits_ret|apply emits_throw]. Qed.

Lemma emits_or_throw {A} P (o : option A) msg : emits P (or_throw o msg).
Proof. destruct o; [apply emits_ret|apply emits_throw]. Qed.

Lemma emits_deref {A} P (o : option A) : emits P (deref o).
Proof. destruct o; [apply emits_ret|apply emits_crash]. Qed.

Lemma emits_for_each {A} P (l : list A) body :
  (forall x, x ∈ l -> emits P (body x)) -> emits P (for_each l body).
Proof.
  induction l as [|x l IH]; intros H; simpl; [apply emits_ret|].
  apply emits_bind; [apply H; left|]. intros _. apply IH. intros y Hy. apply H. by right.
Qed.

Lemma emits_for_fold {A S} P (l : list A) (s : S) body :
  (forall s x, x ∈ l -> emits P (body s x)) -> emits P (for_fold l s body).
Proof.
  revert s; induction l as [|x l IH]; intros s H; simpl; [apply emits_ret|].
  apply emits_bind; [apply H; left|]. intros s'. apply IH. intros s2 y Hy. apply H. by right.
Qed.

Lemma emits_retry {A} P n (fn : bool -> prog A) :
  (forall b, emits P (fn b)) -> emits P (RetryOnConflict n fn).
Proof.
  intros Hf. unfold RetryOnConflict. generalize true.
  induction n as [|n IH]; intros b; simpl; [apply emits_starve|].
  apply emits_bind; [by apply emits_attempt|]. intros [a|e]; [apply emits_ret|].
  destruct (IsConflict e && _); [done|apply emits_throw].
Qed.

(** A function that never fails with a conflict is tried once. *)
Lemma exec_retry_no_conflict {A} n (fn : bool -> prog A) h o :
  (0 < n)%nat ->
  (forall b h e, exec (fn b) h (Raise e) -> IsConflict e = false) ->
  exec (RetryOnConflict n fn) h o -> exec (fn true) h o.
Proof.
  intros Hn Hc He. destruct n as [|n]; [lia|]. unfold RetryOnConflict in He. simpl in He.
  destruct (exec_bind _ _ _ _ He) as [(h1 & x & h2 & -> & E1 & E2)|(o' & E1 & E2 & ->)];
    destruct (exec_attempt _ _ _ E1) as [(a & E & ?)|[(e & E & ?)|[[E ?]|[E ?]]]]; simplify_eq/=; try done.
  - destruct E2 as [-> ->]. by rewrite app_nil_r.
  - rewrite (Hc _ _ _ E) in E2. simpl in E2. destruct E2 as [-> ->]. by rewrite app_nil_r.
Qed.

Lemma emits_now (P : event -> Prop) : (forall x, P (ev Now x)) -> emits P now.
Proof. intros HP. apply emits_Call; [done|]. intros x. apply emits_ret. Qed.

Lemma emits_poll P n condition : emits P condition -> emits P (PollImmediate n condition).
Proof.
  intros Hc. induction n as [|n IH]; simpl; [apply emits_throw|].
  apply emits_bind; [done|]. intros []; [apply emits_ret|done].
Qed.

Lemma emits_defer {A} P fin (p : prog A) : emits P fin -> emits P p -> emits P (defer fin p).
Proof.
  intros Hf Hp. apply emits_bind; [by apply emits_attempt|]. intros x. apply emits_bind; [done|].
  intros _. apply emits_lift.
Qed.

Lemma emits_Call_inv {A} P r (k : result (answer r) -> prog A) x : emits P (Call r k) -> emits P (k x).
Proof. intros H h o He. specialize (H (ev r x :: h) o). apply Forall_cons_1 in H as [_ H]; [done|]. by exists x, h. Qed.

(** Every program has executions: calls can always fail. *)
Lemma exec_exists {A} (p : prog A) : exists h o, exec p h o.
Proof.
  induction p as [a|e| | |r k IH]; [by eexists [], _..|].
  destruct (IH (Err (Errorf EmptyString))) as (h & o & He). eexists (_ :: h), o. by eexists _, h.
Qed.

Lemma emits_Call_head {A} P r (k : result (answer r) -> prog A) x : emits P (Call r k) -> P (ev r x).
Proof.
  intros H. destruct (exec_exists (k x)) as (h & o & He). specialize (H (ev r x :: h) o).
  apply Forall_cons_1 in H as [H _]; [done|]. by exists x, h.
Qed.

Lemma par_Ret {A B} (a : A) (q : prog B) : par (Ret a) q = let! b := q in Ret (a, b).
Proof. by destruct q. Qed.

Lemma emits_par {A B} (P : event -> Prop) (p : prog A) (q : prog B) :
  (forall x, P (ev Schedule x)) -> emits P p -> emits P q -> emits P (par p q).
Proof.
  intros HS. revert q. induction p as [a|e| | |r k IH]; intros q Hp Hq.
  - rewrite par_Ret. apply emits_bind; [done|]. intros; apply emits_ret.
  - destruct q; apply emits_throw.
  - destruct q; apply emits_crash.
  - destruct q; apply emits_starve.
  - induction q as [b|e| | |r' k' IHq]; simpl.
    + apply emits_Call; [intros x; by eapply emits_Call_head|]. intros x.
      apply emits_bind; [by eapply emits_Call_inv|]. intros; apply emits_ret.
    + apply emits_throw.
    + apply emits_crash.
    + apply emits_starve.
    + apply emits_Call; [done|]. intros x.
      assert (Hr : emits P (Call r (fun y => par (k y) (Call r' k')))).
      { apply emits_Call; intros y; [by eapply emits_Call_head|]. apply IH; [by eapply emits_Call_inv|done]. }
      assert (Hl : emits P (Call r' (fun y => par (Call r k) (k' y)))).
      { apply emits_Call; intros y; [by eapply emits_Call_head|]. apply IHq. by eapply emits_Call_inv. }
      by destruct x as [[]|].
Qed.

Lemma emits_par_list {A} (P : event -> Prop) (ps : list (prog A)) :
  (forall x, P (ev Schedule x)) -> Forall (emits P) ps -> emits P (par_list ps).
Proof.
  intros HS. induction 1 as [|p ps Hp _ IH]; simpl; [apply emits_ret|].
  apply emits_bind; [by apply emits_par|]. intros; apply emits_ret.
Qed.

(** A concurrent execution is an interleaving of executions of its parts. *)
Definition is_pick (e : event) : Prop := projT1 e = Schedule.

Lemma exec_par {A B} (p : prog A) (q : prog B) h a b : exec (par p q) h (Return (a, b)) ->
  exists h1 h2 picks, exec p h1 (Return a) /\ exec q h2 (Return b) /\ Forall is_pick picks /\ h ≡ₚ h1 ++ h2 ++ picks.
Proof.
  assert (Hseq : forall (C D E : Type) (x : prog C) (f : C -> E) h e,
    exec (let! c := x in Ret (f c)) h (Return e) -> exists c, exec x h (Return c) /\ e = f c).
  { intros C D E x f h0 e He. destruct (exec_bind _ _ _ _ He) as [(h1 & c & h2 & -> & E1 & -> & [= ->])|(o' & _ & E2 & Ho)];
      [|by destruct o']. rewrite app_nil_r. eauto. }
  revert q h. induction p as [a'|e| | |r k IH]; intros q h He.
  - exists [], h, []. rewrite !app_nil_r. simpl.
    rewrite par_Ret in He. apply Hseq in He as (c & Hc & [= -> ->]); [|exact unit]. done.
  - destruct q; by destruct He.
  - destruct q; by destruct He.
  - destruct q; by destruct He.
  - revert h He. induction q as [b'|e| | |r' k' IHq]; intros h He; [|by destruct He..|].
    + exists h, [], []. rewrite !app_nil_r.
      change (exec (let! a := Call r k in Ret (a, b')) h (Return (a, b))) in He.
      apply Hseq in He as (c & Hc & [= -> ->]); [|exact unit]. done.
    + destruct He as (x & h' & -> & He).
      assert (Hcase : (exec (Call r (fun y => par (k y) (Call r' k'))) h' (Return (a, b))) \/
                      (exec (Call r' (fun y => par (Call r k) (k' y))) h' (Return (a, b)))).
      { destruct x as [[]|]; [by left|by right..]. }
      destruct Hcase as [(y & h2 & -> & E)|(y & h2 & -> & E)].
      * destruct (IH y _ _ E) as (h1 & h3 & pk & E1 & E2 & E3 & E4).
        exists (ev r y :: h1), h3, (ev Schedule x :: pk). split; [by exists y, h1|]. split; [done|].
        split; [by constructor|]. rewrite E4. simpl.
        rewrite (app_assoc h1 h3 (_ :: pk)), <- (Permutation_middle (h1 ++ h3) pk), <- app_assoc. apply perm_swap.
      * destruct (IHq y _ E) as (h1 & h3 & pk & E1 & E2 & E3 & E4).
        exists h1, (ev r' y :: h3), (ev Schedule x :: pk). split; [done|]. split; [by exists y, h3|].
        split; [by constructor|]. rewrite E4. simpl.
        rewrite <- (Permutation_middle h1), (app_assoc h1 h3 (_ :: pk)), <- (Permutation_middle (h1 ++ h3) pk), <- app_assoc.
        apply perm_swap.
Qed.

Lemma emits_weaken {A} (P P' : event -> Prop) (p : prog A) :
  (forall e, P e -> P' e) -> emits P p -> emits P' p.
Proof. intros HP Hp h o He. eapply Forall_impl; [by eapply Hp|done]. Qed.

(** Walks through a program; leaves the obligations about the calls it makes. *)
Ltac emits_step :=
  match goal with
  | |- emits _ (Ret _) => apply emits_ret
  | |- emits _ (Throw _) => apply emits_throw
  | |- emits _ Crash => apply emits_crash
  | |- emits _ Starve => apply emits_starve
  | |- emits _ (lift _) => apply emits_lift
  | |- emits _ (or_throw _ _) => apply emits_or_throw
  | |- emits _ (deref _) => apply emits_deref
  | |- emits _ (bind _ _) => apply emits_bind; [|intros ?]
  | |- emits _ (attempt _) => apply emits_attempt
  | |- emits _ (call ?r) => apply (emits_call _ r); intros ?
  | |- emits _ (call_try ?r) => apply (emits_call_try _ r); intros ?
  | |- emits _ (call_ignore _) => apply emits_call_ignore; intros ?
  | |- emits _ (Call _ _) => apply emits_Call; intros ?
  | |- emits _ now => apply emits_now; intros ?
  | |- emits _ (PollImmediate _ _) => apply emits_poll
  | |- emits _ (defer _ _) => apply emits_defer
  | |- emits _ (RetryOnConflict _ _) => apply emits_retry; intros ?
  | |- emits _ (for_each _ _) => apply emits_for_each; intros ? ?
  | |- emits _ (for_fold _ _ _) => apply emits_for_fold; intros ? ? ?
  | |- emits _ (let _ := _ in _) => cbv zeta
  | |- emits _ (match ?x with _ => _ end) => destruct x eqn:?
  end.
Ltac emits_all := repeat (emits_step; cbv beta).

(** ** Building executions *)

Lemma exec_ret_bind {A B} (p : prog A) (f : A -> prog B) h1 a h2 o :
  exec p h1 (Return a) -> exec (f a) h2 o -> exec (bind p f) (h1 ++ h2) o.
Proof.
  revert h1. induction p as [a'|e| | |r k IH]; intros h1; simpl; try by intros [_ ?].
  - by intros [-> [= ->]].
  - intros (x & h' & -> & He) Hf. exists x, (h' ++ h2). split; [done|by apply IH].
Qed.

Lemma exec_raise_bind {A B} (p : prog A) (f : A -> prog B) h e : exec p h (Raise e) -> exec (bind p f) h (Raise e).
Proof.
  revert h. induction p as [a'|e'| | |r k IH]; intros h; simpl; try by intros [_ ?].
  - by intros [-> [= ->]].
  - intros (x & h' & -> & He). exists x, h'. split; [done|by apply IH].
Qed.

Lemma exec_raise_attempt {A} (p : prog A) h e : exec p h (Raise e) -> exec (attempt p) h (Return (Err e)).
Proof.
  revert h. induction p as [a'|e'| | |r k IH]; intros h; simpl; try by intros [_ ?].
  - by intros [-> [= ->]].
  - intros (x & h' & -> & He). exists x, h'. split; [done|by apply IH].
Qed.

Lemma exec_return_attempt {A} (p : prog A) h a : exec p h (Return a) -> exec (attempt p) h (Return (Ok a)).
Proof.
  revert h. induction p as [a'|e'| | |r k IH]; intros h; simpl; try by intros [_ ?].
  - by intros [-> [= ->]].
  - intros (x & h' & -> & He). exists x, h'. split; [done|by apply IH].
Qed.

Lemma exec_for_each {A} (l : list A) body h : exec (for_each l body) h (Return tt) ->
  forall x, x ∈ l -> exists h1 h2 h3, h = h1 ++ h2 ++ h3 /\ exec (body x) h2 (Return tt).
Proof.
  revert h. induction l as [|y l IH]; intros h He x Hx; [by apply not_elem_of_nil in Hx|].
  apply exec_bind_ret in He as (h1 & [] & h2 & -> & E1 & E2). apply elem_of_cons in Hx as [->|Hx].
  - by exists [], h1, h2.
  - destruct (IH _ E2 _ Hx) as (h3 & h4 & h5 & -> & E). exists (h1 ++ h3), h4, h5. by rewrite <- !app_assoc.
Qed.

Lemma run_events {W A} (handle : forall r : req, W -> W * result (answer r)) (P : event -> Prop) (p : prog A) w :
  (forall r w, P (ev r (handle r w).2)) -> Forall P (run handle p w).1.2.
Proof.
  intros HP. revert w. induction p as [a|e| | |r k IH]; intros w; simpl; try constructor.
  specialize (HP r w). destruct (handle r w) as [w' x]. specialize (IH x w'). destruct (run handle (k x) w') as [[w2 h] o].
  by constructor.
Qed.

(** ** Clocks *)

(** The clock never goes back and sleeping takes at least the time asked for. *)
Fixpoint honest_clock (t : Z) (h : history) : Prop :=
  match h with
  | [] => True
  | existT Now x :: h => match x with Ok t' => t <= t' /\ honest_clock t' h | Err _ => False end
  | existT (Sleep d) _ :: h => honest_clock (t + d) h
  | _ :: h => honest_clock t h
  end.

(** ** Calls that change something outside *)

Definition is_read (r : req) : bool :=
  match r with
  | Now | Sleep _ | EnqueueMDAfter _ _ | EnqueueMDRateLimited _ | EnqueueMachineSetAfter _ _
  | EnqueueMD _ | EnqueueMachineSet _ | ForgetMD _ | NumRequeuesMD _ | Schedule
  | SatisfiedExpectations _ | DeleteExpectations _ | ExpectCreations _ _ | ExpectDeletions _ _
  | CreationObserved _ | DeletionObserved _ _ | MutateCachedMachine _ | ListMS _ _
  | ListerMachineSets | ListerMachines | ListerMachineDeployments | ListerGetMS _ _ | ListerGetMachine _ _
  | GetMS _ _ | GetMD _ _ | GetMachine _ _ | GetNode _ _
  | ListerGetNode _ | ListerNodes | EnqueueMachine _ | EnqueueMachineAfter _ _ | EnqueueMachineClass _
  | EnqueueSafetyOrphanVMs _ | EnqueueSafetyAPIServer _ | ListerGetMachineClass _ _ | ListerMachineClasses
  | ListerGetSecret _ _ | GetTargetSecret _ _ | RandomInt _ | WaitForCacheSync
  | GetMachineClass _ _ | GetControlSecret _ _ | EnqueueMachineClassAfter _ _ | EnqueueSecret _ | EnqueueSecretAfter _ _
  | ListMD _ | GetProviderClass _ _ _ | ListerGetProviderClass _ _ _ | QueueAdd _ _ | QueueAddAfter _ _ _ | GenerateMachineClass _ _ _
  | VMStatus _ | VMList _ _ | ListPods _ | GetPod _ _ | GetNodeVolumesAttached _ | ServerGroups | ServerResources _
  | ListerGetPVC _ _ | ListerGetPV _ | ListerGetPersistentVolume _ | ListerPodDisruptionBudgets _ | DriverGetVolumeIDs _
  | ListerProviderClasses _ | DriverGetVMs _ _ | AddVolumeWorker | DeleteVolumeWorker _ | SelectVolumeAttachment _ _ => true
  | _ => false
  end.

(** The writes of a history, in order. *)
Definition writes (h : history) : list req := filter (fun r => is_read r = false) (projT1 <$> h).

Lemma writes_app h1 h2 : writes (h1 ++ h2) = writes h1 ++ writes h2.
Proof. unfold writes. by rewrite fmap_app, filter_app. Qed.

Lemma writes_cons r x h : writes (ev r x :: h) = if is_read r then writes h else r :: writes h.
Proof.
  unfold writes. csimpl. rewrite filter_cons. simpl. by destruct (is_read r); case_decide.
Qed.

(** ** Loop invariants *)

Lemma exec_for_fold_inv {A S} (l : list A) (s : S) (body : S -> A -> prog S)
    (Inv : S -> history -> Prop) (Fin : history -> outcome S -> Prop) h0 h o :
  Inv s h0 ->
  (forall s x h1 h2 o, x ∈ l -> Inv s h1 -> exec (body s x) h2 o ->
     match o with Return s' => Inv s' (h1 ++ h2) | _ => Fin (h1 ++ h2) o end) ->
  exec (for_fold l s body) h o ->
  match o with Return s' => Inv s' (h0 ++ h) | _ => Fin (h0 ++ h) o end.
Proof.
  revert s h0 h; induction l as [|x l IH]; intros s h0 h Hi Hb He; simpl in He.
  - destruct He as [-> ->]. by rewrite app_nil_r.
  - destruct (exec_bind _ _ _ _ He) as [(h1 & s' & h2 & -> & E1 & E2)|(o' & E1 & E2 & ->)].
    + rewrite app_assoc. apply (IH s'); [|intros; apply (Hb s0 x0); [by right|done|done]|done].
      apply (Hb s x h0 h1 (Return s') ltac:(left) Hi E1).
    + pose proof (Hb s x h0 h o' ltac:(left) Hi E1) as Hf. by destruct o'.
Qed.

(** The reads of a history, in order. *)
Definition reads (h : history) : history := filter (fun e : event => is_read (projT1 e) = true) h.

Lemma reads_app h1 h2 : reads (h1 ++ h2) = reads h1 ++ reads h2.
Proof. apply filter_app. Qed.

Lemma reads_all h : Forall (fun e : event => is_read (projT1 e) = true) h -> reads h = h /\ writes h = [].
Proof.
  induction 1 as [|e h He _ [IH1 IH2]]; [done|]. unfold reads in *. destruct e as [r x]. simpl in He. split.
  - by rewrite filter_cons_True, IH1.
  - by rewrite writes_cons, He.
Qed.

Lemma reads_write r x h : is_read r = false -> reads (ev r x :: h) = reads h.
Proof. intros H. unfold reads. rewrite filter_cons_False; [done|]. simpl. congruence. Qed.

(** ** Programs that return when they are answered well *)

(** Whatever the answers are, provided each is one that [P] allows. *)
Definition returns_when {A} (P : event -> Prop) (p : prog A) : Prop :=
  forall h o, exec p h o -> Forall P h -> exists a, o = Return a.

Section returns_when.
Context (P : event -> Prop).

Lemma returns_ret {A} (a : A) : returns_when P (Ret a).
Proof. intros h o [_ ->] _. eauto. Qed.

Lemma returns_call {A} r (k : result (answer r) -> prog A) :
  (forall x, P (ev r x) -> returns_when P (k x)) <-> returns_when P (Call r k).
Proof.
  split.
  - intros Hk h o (x & h' & -> & Hx) HP. apply Forall_cons in HP as [Hx' HP]. by eapply Hk.
  - intros Hc x Hx h o He HP. apply (Hc (ev r x :: h)); [by exists x, h|by constructor].
Qed.

Lemma returns_bind {A B} (p : prog A) (f : A -> prog B) :
  returns_when P p -> (forall a, returns_when P (f a)) -> returns_when P (bind p f).
Proof.
  intros Hp Hf h o He HP. destruct (exec_bind _ _ _ _ He) as [(h1 & a & h2 & -> & _ & E2)|(o' & E1 & E2 & _)].
  - apply Forall_app in HP as [_ HP]. by eapply Hf.
  - apply Hp in E1 as [a ->]; done.
Qed.

Lemma returns_par {A B} (p : prog A) (q : prog B) : returns_when P p -> returns_when P q -> returns_when P (par p q).
Proof.
  assert (Hfail : forall (C D : Type) (p : prog C) (o : outcome C), returns_when P p -> exec p [] o -> is_fail o ->
    forall q : prog D, returns_when P q) by (intros C D p0 o Hp He Hf; destruct (Hp [] o He) as [a ->]; [constructor|done]).
  revert q. induction p as [a|e| | |r k IH]; intros q Hp Hq.
  - rewrite par_Ret. apply returns_bind; [done|]. intros; apply returns_ret.
  - by apply (Hfail _ _ _ (Raise e) Hp).
  - by apply (Hfail _ _ _ Panic Hp).
  - by apply (Hfail _ _ _ OutOfFuel Hp).
  - induction q as [b|e| | |r' k' IHq].
    + change (returns_when P (let! a := Call r k in Ret (a, b))). apply returns_bind; [done|]. intros; apply returns_ret.
    + by apply (Hfail _ _ _ (Raise e) Hq).
    + by apply (Hfail _ _ _ Panic Hq).
    + by apply (Hfail _ _ _ OutOfFuel Hq).
    + assert (Hl : returns_when P (Call r (fun y => par (k y) (Call r' k')))).
      { apply returns_call. intros y Hy. apply IH; [|done]. by apply (proj2 (returns_call r k) Hp). }
      assert (Hr : returns_when P (Call r' (fun y => par (Call r k) (k' y)))).
      { apply returns_call. intros y Hy. apply IHq. by apply (proj2 (returns_call r' k') Hq). }
      apply (returns_call Schedule). intros [[]|] _; done.
Qed.

Lemma returns_par_list {A} (ps : list (prog A)) : Forall (returns_when P) ps -> returns_when P (par_list ps).
Proof.
  induction 1 as [|p ps Hp _ IH]; simpl; [apply returns_ret|].
  apply returns_bind; [by apply returns_par|]. intros; apply returns_ret.
Qed.

Lemma returns_attempt {A} (p : prog A) :
  (forall h o, exec p h o -> Forall P h -> (exists a, o = Return a) \/ exists e, o = Raise e) -> returns_when P (attempt p).
Proof.
  intros Hp h o He HP. destruct (exec_attempt _ _ _ He) as [(a & _ & ->)|[(e & _ & ->)|[[E ->]|[E ->]]]]; eauto;
    by destruct (Hp _ _ E HP) as [[? ?]|[? ?]].
Qed.
End returns_when.

(** ** Programs that always return *)

(** The program never fails. *)
Definition total {A} (p : prog A) : Prop := forall h o, exec p h o -> exists a, o = Return a.

Lemma total_returns {A} (p : prog A) : total p <-> returns_when (fun _ => True) p.
Proof. split; intros Hp h o He; [by eauto|]. apply (Hp h o He). by apply Forall_forall. Qed.

Lemma returns_total {A} P (p : prog A) : total p -> returns_when P p.
Proof. intros Hp h o He _. by eapply Hp. Qed.

Lemma total_Ret {A} (a : A) : total (Ret a).
Proof. apply total_returns, returns_ret. Qed.

Lemma total_Call {A} r (k : result (answer r) -> prog A) : (forall x, total (k x)) <-> total (Call r k).
Proof.
  setoid_rewrite total_returns. rewrite <- returns_call. naive_solver.
Qed.

Lemma total_bind {A B} (p : prog A) (f : A -> prog B) : total p -> (forall a, total (f a)) -> total (bind p f).
Proof. rewrite !total_returns. setoid_rewrite total_returns. apply returns_bind. Qed.

Lemma total_par {A B} (p : prog A) (q : prog B) : total p -> total q -> total (par p q).
Proof. rewrite !total_returns. apply returns_par. Qed.

Lemma writes_perm h1 h2 : h1 ≡ₚ h2 -> writes h1 ≡ₚ writes h2.
Proof. intros Hp. unfold writes. by rewrite Hp. Qed.

Lemma writes_picks h : Forall is_pick h -> writes h = [].
Proof. induction 1 as [|[r x] h Hr _ IH]; [done|]. unfold is_pick in Hr. simpl in Hr. subst r. by rewrite writes_cons. Qed.

Lemma total_attempt {A} (p : prog A) :
  (forall h o, exec p h o -> (exists a, o = Return a) \/ exists e, o = Raise e) -> total (attempt p).
Proof. intros Hp. apply total_returns, returns_attempt. intros h o He _. exact (Hp h o He). Qed.

Lemma total_par_list {A} (ps : list (prog A)) : Forall total ps -> total (par_list ps).
Proof.
  intros HF. apply total_returns, returns_par_list. eapply Forall_impl; [exact HF|]. intros p. by rewrite total_returns.
Qed.

Lemma total_for_each {A} (l : list A) body : (forall x, total (body x)) -> total (for_each l body).
Proof. intros Hb. induction l as [|x l IH]; simpl; [apply total_Ret|]. by apply total_bind. Qed.

Ltac total_step :=
  match goal with
  | |- total (Ret _) => apply total_Ret
  | |- total now => apply (total_Call Now); intros ?
  | |- total (call_ignore ?r) => apply (total_Call r); intros ?
  | |- total (bind _ _) => apply total_bind; [|intros ?]
  | |- total (match ?x with _ => _ end) => destruct x
  end.
Ltac total_all := repeat (total_step; cbv beta).

(** Executions of several goroutines: one execution each, interleaved. *)
Lemma exec_par_list {A} (ps : list (prog A)) h l : exec (par_list ps) h (Return l) ->
  exists hs picks, Forall3 (fun p h a => exec p h (Return a)) ps hs l /\ Forall is_pick picks /\ h ≡ₚ concat hs ++ picks.
Proof.
  revert h l; induction ps as [|p ps IH]; intros h l He.
  - destruct He as [-> [= ->]]. exists [], []. by repeat constructor.
  - simpl in He. apply exec_bind_ret in He as (h1 & [a l'] & h2 & -> & E1 & -> & [= ->]).
    apply exec_par in E1 as (h3 & h4 & pk & E3 & E4 & Hp & Hh).
    destruct (IH _ _ E4) as (hs & pk' & F & Hp' & Hh'). exists (h3 :: hs), (pk' ++ pk).
    split; [by constructor|]. split; [by apply Forall_app|].
    rewrite app_nil_r, Hh, Hh'. simpl. by rewrite <- !app_assoc.
Qed.

(** A quantity of the calls adds up over the goroutines. *)
Lemma zsum_par_list {A} (f : event -> Z) (g : A -> Z) (ps : list (prog A)) h l :
  (forall e, is_pick e -> f e = 0) ->
  Forall (fun p => forall h a, exec p h (Return a) -> zsum f h = g a) ps ->
  exec (par_list ps) h (Return l) -> zsum f h = zsum g l /\ length l = length ps.
Proof.
  intros Hpick HF He. apply exec_par_list in He as (hs & pk & F & Hp & Hh). rewrite Hh, zsum_app.
  assert (zsum f pk = 0) as ->.
  { clear Hh. induction Hp as [|e pk He _ IH]; [done|]. by rewrite zsum_cons, IH, (Hpick _ He). }
  clear Hh Hp. induction F as [|p h0 a ps hs l E _ IH]; [done|].
  apply Forall_cons in HF as [Hp HF]. destruct (IH HF) as [IH1 IH2]. simpl. rewrite zsum_app, zsum_cons, (Hp _ _ E). lia.
Qed.
