(* ===== verification/NodeOps.v ===== *)
(** * Node annotations, taints and conditions

    pkg/util/annotations/annotations.go, pkg/util/taints/taints.go, pkg/util/nodeops/taints.go,
    pkg/util/nodeops/conditions.go and the node part of pkg/controller/controller_utils.go. *)
From Stdlib Require Import ZArith Lia Ascii String.
From stdpp Require Import base gmap strings list sorting.
From S2P Require Import Prelude GoLib Types Labels Prog Samples.
Open Scope Z_scope.

Definition n_set_Annotations (a : strmap) (n : Node) : Node :=
  mkNode (set_Annotations a (n_Meta n)) (n_Spec n) (n_Conditions n).
Definition n_set_Labels (a : strmap) (n : Node) : Node :=
  mkNode (set_Labels a (n_Meta n)) (n_Spec n) (n_Conditions n).
Definition n_set_Taints (t : list Taint) (n : Node) : Node :=
  mkNode (n_Meta n) (mkNodeSpec (ns_PodCIDR (n_Spec n)) (ns_ProviderID (n_Spec n)) (ns_Unschedulable (n_Spec n)) t)
    (n_Conditions n).
Definition n_set_Conditions (c : list NodeCondition) (n : Node) : Node := mkNode (n_Meta n) (n_Spec n) c.
Definition n_Taints (n : Node) : list Taint := ns_Taints (n_Spec n).
Definition n_Annotations (n : Node) : strmap := Annotations (n_Meta n).

(** ** Annotations *)

Definition add_annotation (mb : strmap * bool) (kv : string * string) : strmap * bool :=
  if bool_decide (mb.1 !! kv.1 = Some kv.2) then mb else (<[kv.1 := kv.2]> mb.1, true).

Definition AddOrUpdateAnnotation (node : Node) (annotations : strmap) : Node * bool :=
  let '(ann, updated) := foldl add_annotation (n_Annotations node, false) (map_to_list annotations) in
  (n_set_Annotations ann node, updated).

Definition DeleteAnnotation (nodeAnnotations annotations : strmap) : strmap * bool :=
  (filter (fun kv => annotations !! kv.1 = None) nodeAnnotations,
   existsb (fun kv => bool_decide (is_Some (annotations !! kv.1))) (map_to_list nodeAnnotations)).

Definition RemoveAnnotation (node : Node) (annotations : strmap) : Node * bool :=
  let '(ann, deleted) := DeleteAnnotation (n_Annotations node) annotations in
  (n_set_Annotations ann node, deleted).

(** ** Taints *)

Definition TaintEffectNoSchedule := "NoSchedule".
Definition TaintEffectPreferNoSchedule := "PreferNoSchedule".
Definition TaintEffectNoExecute := "NoExecute".

(** [Taint.MatchTaint] of core/v1: same key and effect. *)
Definition MatchTaint (t1 t2 : Taint) : bool :=
  bool_decide (t_Key t1 = t_Key t2) && bool_decide (t_Effect t1 = t_Effect t2).

Definition TaintExists (taints : list Taint) (taintToFind : Taint) : bool :=
  existsb (fun t => MatchTaint t taintToFind) taints.

Definition DeleteTaint (taints : list Taint) (taintToDelete : Taint) : list Taint * bool :=
  (filter (fun t => MatchTaint taintToDelete t = false) taints, existsb (MatchTaint taintToDelete) taints).

Definition DeleteTaintsByKey (taints : list Taint) (taintKey : string) : list Taint * bool :=
  (filter (fun t => t_Key t <> taintKey) taints, existsb (fun t => bool_decide (taintKey = t_Key t)) taints).

Definition RemoveTaint (node : Node) (taint : Taint) : Node * bool :=
  if bool_decide (n_Taints node = []) then (node, false)
  else if negb (TaintExists (n_Taints node) taint) then (node, false)
  else (n_set_Taints (DeleteTaint (n_Taints node) taint).1 node, true).

(** The loop of [AddOrUpdateTaint]; [None] is the early return on an equal taint. *)
Fixpoint add_taint_loop (taint : Taint) (nodeTaints acc : list Taint) (updated : bool) : option (list Taint * bool) :=
  match nodeTaints with
  | [] => Some (acc, updated)
  | t :: rest =>
      if MatchTaint taint t then
        if bool_decide (taint = t) then None
        else add_taint_loop taint rest (acc ++ [taint]) true
      else add_taint_loop taint rest (acc ++ [t]) updated
  end.

Definition AddOrUpdateTaint (node : Node) (taint : Taint) : Node * bool :=
  match add_taint_loop taint (n_Taints node) [] false with
  | None => (node, false)
  | Some (newTaints, updated) =>
      (n_set_Taints (if updated then newTaints else newTaints ++ [taint]) node, true)
  end.

Definition TaintSetDiff (t1 t2 : list Taint) : list Taint * list Taint :=
  (filter (fun t => TaintExists t2 t = false) t1, filter (fun t => TaintExists t1 t = false) t2).

Definition TaintSetFilter (taints : list Taint) (fn : Taint -> bool) : list Taint :=
  filter (fun t => fn t = true) taints.

(** Taint specifications on the command line: [key=value:effect].  The slice access of an index
    out of range is a panic. *)
Definition parseTaint (st : string) : outcome Taint :=
  match split "=" st with
  | [key; rest] =>
      if bool_decide (rest = EmptyString) || negb (IsQualifiedName key) then Raise (Errorf "invalid taint spec")
      else
        match split ":" rest with
        | value :: effect :: more =>
            if negb (bool_decide (more = [])) || negb (IsValidLabelValue value)
            then Raise (Errorf "invalid taint spec")
            else if bool_decide (effect ∈ [TaintEffectNoSchedule; TaintEffectPreferNoSchedule; TaintEffectNoExecute])
            then Return (mkTaint key value effect None)
            else Raise (Errorf "unsupported taint effect")
        | _ => Panic
        end
  | _ => Raise (Errorf "invalid taint spec")
  end.

(** [Var.Set] *)
Fixpoint parse_all (sts : list string) : outcome (list Taint) :=
  match sts with
  | [] => Return []
  | st :: rest =>
      match parseTaint st with
      | Return t => match parse_all rest with
                    | Return l => Return (t :: l)
                    | o => o
                    end
      | Raise e => Raise e
      | Panic => Panic
      | OutOfFuel => OutOfFuel
      end
  end.
Definition Var_Set (s : string) : outcome (list Taint) := parse_all (split "," s).

(** [Var.String] *)
Definition taint_string (t : Taint) : string :=
  t_Key t +:+ String "=" (t_Value t +:+ String ":" (t_Effect t)).
Definition Var_String (ts : list Taint) : string :=
  match ts with [] => "<nil>" | _ => join "," (taint_string <$> ts) end.

(** [ParseTaints]: taints to add, which no two share key and effect, and taints to remove, marked by a dash at
    the end; [seen] are the keys and effects of the taints so far. *)
Definition last_byte (s : string) : option ascii := String.get (String.length s - 1) s.

Definition taint_to_remove (taintSpec : string) : Taint :=
  let taintKey := String.substring 0 (String.length taintSpec - 1) taintSpec in
  match split ":" taintKey with
  | key :: effect :: _ => mkTaint key EmptyString effect None
  | _ => mkTaint taintKey EmptyString EmptyString None
  end.

Fixpoint parse_taints (seen : gset (string * string)) (spec : list string) : outcome (list Taint * list Taint) :=
  match spec with
  | [] => Return ([], [])
  | taintSpec :: rest =>
      if has_byte "=" taintSpec && has_byte ":" taintSpec then
        match parseTaint taintSpec with
        | Return newTaint =>
            if bool_decide ((t_Effect newTaint, t_Key newTaint) ∈ seen)
            then Raise (Errorf "duplicated taints with the same key and effect")
            else match parse_taints ({[ (t_Effect newTaint, t_Key newTaint) ]} ∪ seen) rest with
                 | Return (taints, toRemove) => Return (newTaint :: taints, toRemove)
                 | o => o
                 end
        | Raise e => Raise e
        | Panic => Panic
        | OutOfFuel => OutOfFuel
        end
      else if bool_decide (last_byte taintSpec = Some "-"%char) then
        match parse_taints seen rest with
        | Return (taints, toRemove) => Return (taints, taint_to_remove taintSpec :: toRemove)
        | o => o
        end
      else Raise (Errorf "unknown taint spec")
  end.
Definition ParseTaints (spec : list string) : outcome (list Taint * list Taint) := parse_taints ∅ spec.

(** [addTaints]: the old taints that no new taint overrides are appended. *)
Definition addTaints (oldTaints newTaints : list Taint) : list Taint * bool :=
  let r := foldl (fun acc o => if existsb (fun t => MatchTaint t o) acc then acc else acc ++ [o])
             newTaints oldTaints in
  (r, negb (bool_decide (length oldTaints = length r))).

Definition delete_step (acc : list Taint * nat * bool) (t : Taint) : list Taint * nat * bool :=
  let '(ts, errs, _) := acc in
  let '(ts, removed) :=
    if bool_decide (t_Effect t <> EmptyString) then DeleteTaint ts t else DeleteTaintsByKey ts (t_Key t) in
  (ts, if removed then errs else S errs, removed).

(** [deleteTaints]: what is left, the number of errors, and whether the last removal removed. *)
Definition deleteTaints (taintsToRemove newTaints : list Taint) : list Taint * nat * bool :=
  foldl delete_step (newTaints, O, false) taintsToRemove.

Definition ReorganizeTaints (node : Node) (overwrite : bool) (taintsToAdd taintsToRemove : list Taint)
  : string * list Taint * nat :=
  let '(newTaints, added) := addTaints (n_Taints node) taintsToAdd in
  let '(newTaints, errs, deleted) := deleteTaints taintsToRemove newTaints in
  if (added && deleted) || overwrite then ("modified", newTaints, errs)
  else if added then ("tainted", newTaints, errs)
  else ("untainted", newTaints, errs).

Definition CheckIfTaintsAlreadyExists (oldTaints taints : list Taint) : string :=
  join "," (taints ≫= fun t =>
    (fun _ => t_Key t) <$> filter (fun o => t_Key t = t_Key o /\ t_Effect t = t_Effect o) oldTaints).

(** ** Conditions *)

Definition set_transition (t : Z) (c : NodeCondition) : NodeCondition :=
  mkNodeCond (nc_Type c) (nc_Status c) (nc_LastHeartbeatTime c) t (nc_Reason c) (nc_Message c).

Definition clone_step (acc : list NodeCondition * NodeCondition) (x : NodeCondition)
  : list NodeCondition * NodeCondition :=
  let '(l, condition) := acc in
  if bool_decide (nc_Type x <> nc_Type condition) then (l ++ [x], condition)
  else if bool_decide (nc_Status x = nc_Status condition) && bool_decide (nc_Reason x = nc_Reason condition)
  then (l, set_transition (nc_LastTransitionTime x) condition)
  else (l, condition).

Definition CloneAndAddCondition (conditions : list NodeCondition) (condition : NodeCondition) : list NodeCondition :=
  if bool_decide (nc_Type condition = EmptyString \/ nc_Status condition = EmptyString) then conditions
  else let '(l, c) := foldl clone_step ([], condition) conditions in l ++ [c].

Definition AddOrUpdateCondition (node : Node) (condition : NodeCondition) : Node :=
  n_set_Conditions (CloneAndAddCondition (n_Conditions node) condition) node.

Definition getNodeCondition (node : Node) (conditionType : string) : option NodeCondition :=
  head (filter (fun c => nc_Type c = conditionType) (n_Conditions node)).

(** ** Updates of a node in the target cluster *)

Definition GetNodeCondition (nodeName conditionType : string) : prog (option NodeCondition) :=
  let! node := call (GetNode nodeName false) in
  Ret (getNodeCondition node conditionType).

(** The client's error is wrapped with [fmt.Errorf]: its API reason is lost. *)
Definition update_wrapped (r : req) : prog unit :=
  let! x := call_try r in
  match x with Ok _ => Ret tt | Err e => Throw (Errorf (err_msg e)) end.

Definition UpdateNodeTaints (oldNode newNode : Node) : prog unit :=
  update_wrapped (UpdateNode (n_set_Taints (n_Taints newNode) oldNode)).
Definition UpdateNodeAnnotations (oldNode newNode : Node) : prog unit :=
  update_wrapped (UpdateNode (n_set_Annotations (n_Annotations newNode) oldNode)).
Definition UpdateNodeConditions (oldNode newNode : Node) : prog unit :=
  update_wrapped (UpdateStatusNode (n_set_Conditions (n_Conditions newNode) oldNode)).

(** One change of a node after the other; the second component accumulates with "or". *)
Definition fold_taints (op : Node -> Taint -> Node * bool) (node : Node) (taints : list Taint) : Node * bool :=
  foldl (fun nb t => let '(n, ok) := op nb.1 t in (n, nb.2 || ok)) (node, false) taints.

Definition taint_update (op : Node -> Taint -> Node * bool) (nodeName : string) (taints : list Taint) : prog unit :=
  RetryOnConflict UpdateAnnotationBackoff (fun firstTry =>
    let! oldNode := call (GetNode nodeName firstTry) in
    let '(newNode, updated) := fold_taints op oldNode taints in
    if negb updated then Ret tt else UpdateNodeTaints oldNode newNode).

Definition AddOrUpdateTaintOnNode (nodeName : string) (taints : list Taint) : prog unit :=
  if bool_decide (taints = []) then Ret tt else taint_update AddOrUpdateTaint nodeName taints.

Definition RemoveTaintOffNode (nodeName : string) (node : option Node) (taints : list Taint) : prog unit :=
  if bool_decide (taints = []) then Ret tt
  else
    let matching := match node with
      | Some n => existsb (TaintExists (n_Taints n)) taints
      | None => true end in
    if negb matching then Ret tt else taint_update RemoveTaint nodeName taints.

Definition AddOrUpdateConditionsOnNode (nodeName : string) (condition : NodeCondition) : prog unit :=
  RetryOnConflict UpdateAnnotationBackoff (fun firstTry =>
    let! oldNode := call (GetNode nodeName firstTry) in
    UpdateNodeConditions oldNode (AddOrUpdateCondition oldNode condition)).

Definition annotation_update (op : Node -> strmap -> Node * bool) (nodeName : string) (annotations : strmap) : prog unit :=
  RetryOnConflict UpdateAnnotationBackoff (fun firstTry =>
    let! r := call_try (GetNode nodeName firstTry) in
    match r with
    | Err e => if IsNotFound e then Ret tt else Throw e
    | Ok oldNode =>
        let '(newNode, updated) := op oldNode annotations in
        if negb updated then Ret tt else UpdateNodeAnnotations oldNode newNode
    end).

(** The nil map is the empty one, for which the source returns without a call, as here a node
    with nothing to add: no update is made. *)
Definition AddOrUpdateAnnotationOnNode (nodeName : string) (annotations : strmap) : prog unit :=
  annotation_update AddOrUpdateAnnotation nodeName annotations.

Definition RemoveAnnotationsOffNode (nodeName : string) (annotations : strmap) : prog unit :=
  if bool_decide (nodeName = EmptyString) then Ret tt
  else annotation_update RemoveAnnotation nodeName annotations.

Definition GetAnnotationsFromNode (nodeName : string) : prog strmap :=
  if bool_decide (nodeName = EmptyString) then Ret ∅
  else
    let! r := call_try (GetNode nodeName false) in
    match r with
    | Ok node => Ret (n_Annotations node)
    | Err e => if IsNotFound e then Ret ∅ else Throw e
    end.

(** ** Taints of a node *)

Lemma MatchTaint_refl t : MatchTaint t t = true.
Proof. unfold MatchTaint. by rewrite !bool_decide_true. Qed.

Lemma MatchTaint_sym t1 t2 : MatchTaint t1 t2 = MatchTaint t2 t1.
Proof. unfold MatchTaint. f_equal; apply bool_decide_ext; split; congruence. Qed.

(** Every match replaced; appended when there is none. *)
Definition add_taint_spec (taint : Taint) (l : list Taint) : list Taint :=
  if existsb (MatchTaint taint) l then (fun t => if MatchTaint taint t then taint else t) <$> l
  else l ++ [taint].

Lemma add_taint_loop_spec taint l acc u :
  taint ∉ l ->
  add_taint_loop taint l acc u =
    Some (acc ++ ((fun t => if MatchTaint taint t then taint else t) <$> l), u || existsb (MatchTaint taint) l).
Proof.
  revert acc u; induction l as [|t l IH]; intros acc u Hn; csimpl.
  - by rewrite app_nil_r, orb_false_r.
  - apply not_elem_of_cons in Hn as [Hne Hn]. destruct (MatchTaint taint t) eqn:E.
    + rewrite bool_decide_false by done. rewrite IH by done. rewrite <- app_assoc. simpl.
      by rewrite orb_true_r.
    + rewrite IH by done. by rewrite <- app_assoc.
Qed.

Lemma add_taint_loop_found taint l acc u : taint ∈ l -> add_taint_loop taint l acc u = None.
Proof.
  revert acc u; induction l as [|t l IH]; intros acc u Hin; [by apply not_elem_of_nil in Hin|]. simpl.
  apply elem_of_cons in Hin as [<-|Hin].
  - rewrite MatchTaint_refl. by rewrite bool_decide_true.
  - destruct (MatchTaint taint t); [case_bool_decide; [done|]|]; auto.
Qed.

Lemma map_no_match taint (l : list Taint) : existsb (MatchTaint taint) l = false ->
  (fun t => if MatchTaint taint t then taint else t) <$> l = l.
Proof.
  induction l as [|t l IH]; csimpl; [done|]. intros H. apply orb_false_iff in H as [-> H]. by rewrite IH.
Qed.

Lemma AddOrUpdateTaint_eq node taint :
  AddOrUpdateTaint node taint =
    if bool_decide (taint ∈ n_Taints node) then (node, false)
    else (n_set_Taints (add_taint_spec taint (n_Taints node)) node, true).
Proof.
  unfold AddOrUpdateTaint, add_taint_spec. case_bool_decide as Hin.
  - by rewrite add_taint_loop_found.
  - rewrite add_taint_loop_spec by done. simpl.
    destruct (existsb (MatchTaint taint) (n_Taints node)) eqn:E; [done|]. by rewrite map_no_match.
Qed.

Lemma add_taint_spec_elem taint l : taint ∈ add_taint_spec taint l.
Proof.
  unfold add_taint_spec. destruct (existsb _ l) eqn:E.
  - apply existsb_exists in E as (t & Hin & Hm). apply list_elem_of_fmap. exists t.
    rewrite Hm. split; [done|]. by apply list_elem_of_In.
  - apply elem_of_app. right. by apply list_elem_of_singleton.
Qed.

Lemma filter_map_no_match taint (l : list Taint) :
  filter (fun t => MatchTaint taint t = false) ((fun t => if MatchTaint taint t then taint else t) <$> l) =
  filter (fun t => MatchTaint taint t = false) l.
Proof.
  induction l as [|t l IH]; csimpl; [done|]. rewrite !filter_cons.
  destruct (MatchTaint taint t) eqn:E.
  - rewrite decide_False by (by rewrite MatchTaint_refl). rewrite IH. by rewrite decide_False.
  - rewrite IH. by rewrite !decide_True.
Qed.

Lemma n_set_Taints_same node : n_set_Taints (n_Taints node) node = node.
Proof. destruct node as [m [a b c d] e]. done. Qed.

Lemma TaintExists_existsb l t : TaintExists l t = existsb (MatchTaint t) l.
Proof.
  unfold TaintExists. induction l as [|x l IH]; simpl; [done|]. by rewrite IH, MatchTaint_sym.
Qed.

Lemma n_Taints_set l node : n_Taints (n_set_Taints l node) = l.
Proof. done. Qed.

Lemma filter_no_match taint l : existsb (MatchTaint taint) l = false ->
  filter (fun t => MatchTaint taint t = false) l = l.
Proof.
  induction l as [|x l IH]; simpl; [done|]. intros H. apply orb_false_iff in H as [H1 H2].
  by rewrite filter_cons_True, IH.
Qed.

Lemma RemoveTaint_appended node taint : existsb (MatchTaint taint) (n_Taints node) = false ->
  RemoveTaint (n_set_Taints (n_Taints node ++ [taint]) node) taint = (node, true).
Proof.
  intros Hex. unfold RemoveTaint, DeleteTaint. rewrite n_Taints_set, TaintExists_existsb, existsb_app, Hex.
  rewrite bool_decide_false by (by destruct (n_Taints node)). simpl. rewrite MatchTaint_refl. simpl.
  rewrite filter_app, filter_no_match, filter_cons_False, filter_nil, app_nil_r by (done || by rewrite MatchTaint_refl).
  f_equal. destruct node as [m [? ? ? ?] ?]. done.
Qed.

(** [AddOrUpdateTaint] leaves the node with the taint, with the other taints in place and
    nothing else changed; a second application changes nothing; and on a node without a taint of
    that key and effect, [RemoveTaint] gives the node back. *)
Theorem AddOrUpdateTaint_spec node taint :
  let '(node', updated) := AddOrUpdateTaint node taint in
  taint ∈ n_Taints node' /\
  filter (fun t => MatchTaint taint t = false) (n_Taints node') =
    filter (fun t => MatchTaint taint t = false) (n_Taints node) /\
  n_set_Taints [] node' = n_set_Taints [] node /\
  AddOrUpdateTaint node' taint = (node', false) /\
  (updated = false -> node' = node) /\
  (TaintExists (n_Taints node) taint = false -> RemoveTaint node' taint = (node, true)).
Proof.
  rewrite AddOrUpdateTaint_eq. case_bool_decide as Hin.
  - split; [done|]. split; [done|]. split; [done|]. split; [|split; [done|]].
    + rewrite AddOrUpdateTaint_eq. by rewrite bool_decide_true.
    + intros Hex. exfalso. rewrite TaintExists_existsb in Hex.
      apply not_true_iff_false in Hex. apply Hex. apply existsb_exists. exists taint.
      split; [by apply list_elem_of_In|apply MatchTaint_refl].
  - split; [apply add_taint_spec_elem|]. split; [|split; [done|split; [|split; [done|]]]].
    + unfold n_Taints at 1. simpl. unfold add_taint_spec. destruct (existsb _ _) eqn:E.
      * apply filter_map_no_match.
      * rewrite filter_app, filter_cons_False by (by rewrite MatchTaint_refl). by rewrite app_nil_r.
    + rewrite AddOrUpdateTaint_eq. rewrite bool_decide_true; [done|]. apply add_taint_spec_elem.
    + rewrite TaintExists_existsb. intros Hex.
      assert (add_taint_spec taint (n_Taints node) = n_Taints node ++ [taint]) as ->
        by (unfold add_taint_spec; by rewrite Hex).
      by apply RemoveTaint_appended.
Qed.

(** ** Taints on the command line *)

Definition valid_taint (t : Taint) : Prop :=
  IsQualifiedName (t_Key t) = true /\ IsValidLabelValue (t_Value t) = true /\
  t_Effect t ∈ [TaintEffectNoSchedule; TaintEffectPreferNoSchedule; TaintEffectNoExecute] /\
  t_TimeAdded t = None.

Lemma effect_no_byte c e : c ∈ ["="%char; ":"%char; ","%char] ->
  e ∈ [TaintEffectNoSchedule; TaintEffectPreferNoSchedule; TaintEffectNoExecute] -> has_byte c e = false.
Proof.
  intros Hc He. rewrite !elem_of_cons, elem_of_nil in Hc. rewrite !elem_of_cons, elem_of_nil in He.
  destruct Hc as [->|[->|[->|[]]]]; destruct He as [->|[->|[->|[]]]]; reflexivity.
Qed.

Lemma sep_facts c : c ∈ ["="%char; ":"%char; ","%char] ->
  c <> "."%char /\ c <> "/"%char /\ is_dns_char c = false /\ is_qname_char c = false.
Proof.
  intros Hc. rewrite !elem_of_cons, elem_of_nil in Hc.
  destruct Hc as [->|[->|[->|[]]]]; vm_compute; repeat split; done.
Qed.

Lemma valid_taint_no_sep t c : valid_taint t -> c ∈ ["="%char; ":"%char; ","%char] ->
  has_byte c (t_Key t) = false /\ has_byte c (t_Value t) = false /\ has_byte c (t_Effect t) = false.
Proof.
  intros (Hk & Hv & He & _) Hc. destruct (sep_facts c Hc) as (H1 & H2 & H3 & H4).
  split; [by apply IsQualifiedName_no_byte|]. split; [by apply IsValidLabelValue_no_byte|].
  by apply effect_no_byte.
Qed.

Lemma parseTaint_taint_string t : valid_taint t -> parseTaint (taint_string t) = Return t.
Proof.
  intros Ht. pose proof Ht as (Hk & Hv & He & Hn). unfold parseTaint, taint_string.
  destruct (valid_taint_no_sep t "="%char Ht ltac:(set_solver)) as (E1 & E2 & E3).
  destruct (valid_taint_no_sep t ":"%char Ht ltac:(set_solver)) as (E4 & E5 & E6).
  rewrite split_app_sep by done. rewrite split_no_byte.
  2:{ rewrite has_byte_app. simpl. by rewrite E2, E3. }
  rewrite bool_decide_false by (by destruct (t_Value t)). rewrite Hk. simpl.
  rewrite split_app_sep, split_no_byte by done. rewrite Hv. simpl.
  rewrite bool_decide_true by done. destruct t; simpl in *. by subst.
Qed.

(** Printing a non-empty list of valid taints and parsing it back gives the list. *)
Theorem Var_Set_String_roundtrip ts : ts <> [] -> Forall valid_taint ts -> Var_Set (Var_String ts) = Return ts.
Proof.
  intros Hne HF. unfold Var_Set, Var_String. destruct ts as [|t0 ts0]; [done|].
  set (ts := t0 :: ts0) in *. rewrite split_join; [|done|].
  - clear Hne. induction HF as [|t l Ht _ IH]; csimpl; [done|].
    by rewrite parseTaint_taint_string, IH.
  - apply Forall_fmap. eapply Forall_impl; [exact HF|]. intros t Ht. simpl. unfold taint_string.
    destruct (valid_taint_no_sep t ","%char Ht ltac:(set_solver)) as (E1 & E2 & E3).
    rewrite has_byte_app, E1. simpl. rewrite has_byte_app, E2. simpl. done.
Qed.

(** Printed taints are read back as taints to add, provided no two share key and effect. *)
Theorem ParseTaints_taint_strings ts : Forall valid_taint ts -> NoDup ((fun t => (t_Effect t, t_Key t)) <$> ts) ->
  ParseTaints (taint_string <$> ts) = Return (ts, []).
Proof.
  intros HF Hnd. unfold ParseTaints.
  assert (Hseen : Forall (fun t => (t_Effect t, t_Key t) ∉ (∅ : gset (string * string))) ts) by (apply Forall_forall; set_solver).
  revert Hnd Hseen. generalize (∅ : gset (string * string)). induction HF as [|t l Ht _ IH]; intros seen Hnd Hseen; [done|].
  csimpl in *. apply NoDup_cons in Hnd as [Hn Hnd]. apply Forall_cons in Hseen as [Hs Hseen].
  assert (has_byte "=" (taint_string t) && has_byte ":" (taint_string t) = true) as ->.
  { unfold taint_string. rewrite !has_byte_app. simpl. rewrite !has_byte_app. simpl. by rewrite !orb_true_r. }
  rewrite parseTaint_taint_string by done. rewrite bool_decide_false by done. rewrite IH; [done..|].
  rewrite Forall_forall in *. intros t' Ht'. specialize (Hseen t' Ht'). rewrite not_elem_of_union, not_elem_of_singleton.
  split; [|done]. intros E. apply Hn. rewrite <- E. by apply (list_elem_of_fmap_2 (fun t => (t_Effect t, t_Key t))).
Qed.

(** A specification [key=value] without an effect makes the parser index past the end of the
    split, a run-time panic, where the length test that follows was meant to return an error. *)
Theorem parseTaint_panics_without_effect key value :
  IsQualifiedName key = true -> value <> EmptyString ->
  Forall (fun c => has_byte c value = false) ["="%char; ":"%char; ","%char] ->
  Var_Set (key +:+ String "=" value) = Panic.
Proof.
  intros Hq Hne HF. rewrite !Forall_cons in HF. destruct HF as (H1 & H2 & H3 & _).
  assert (forall c, c ∈ ["="%char; ":"%char; ","%char] -> has_byte c key = false) as Hk.
  { intros c Hc. destruct (sep_facts c Hc) as (? & ? & ? & ?). by apply IsQualifiedName_no_byte. }
  unfold Var_Set. rewrite split_no_byte.
  2:{ rewrite has_byte_app, Hk by set_solver. simpl. done. }
  simpl. unfold parseTaint. rewrite split_app_sep by (apply Hk; set_solver).
  rewrite (split_no_byte "=" value) by done. rewrite Hq, bool_decide_false by done. simpl.
  by rewrite split_no_byte.
Qed.

(** ** Updates *)

Lemma exec_update_wrapped r h o : exec (update_wrapped r) h o ->
  exists x, h = [ev r x] /\
    match x with Ok _ => o = Return tt | Err e => o = Raise (Errorf (err_msg e)) end.
Proof.
  intros (x & h' & -> & Hx). exists x. destruct x; simpl in Hx; by destruct Hx as [-> ->].
Qed.

(** One try of a node update: a read, then at most one write, whose failure is not a conflict. *)
Definition one_write {A} (p : prog A) : Prop := forall h o, exec p h o ->
  (length (writes h) <= 1)%nat /\ forall e, o = Raise e -> IsConflict e = true -> writes h = [].

Lemma one_write_retry {A} n (fn : bool -> prog A) : (forall b, one_write (fn b)) ->
  one_write (RetryOnConflict n fn).
Proof.
  intros Hf. unfold RetryOnConflict. generalize true. induction n as [|n IH]; intros b h o He; simpl in He.
  { destruct He as [-> ->]. split; [simpl; lia|done]. }
  destruct (exec_bind _ _ _ _ He) as [(h1 & x & h2 & -> & E1 & E2)|(o' & E1 & E2 & ->)];
    destruct (exec_attempt _ _ _ E1) as [(a & E & ?)|[(e & E & ?)|[[E ?]|[E ?]]]]; simplify_eq/=; try done;
    destruct (Hf b _ _ E) as [Hl Hc]; try (split; [done|done]).
  - destruct E2 as [-> ->]. rewrite app_nil_r. done.
  - destruct (IsConflict e) eqn:Ec; simpl in E2.
    + case_bool_decide; simpl in E2.
      * destruct E2 as [-> ->]. rewrite app_nil_r. split; [done|]. intros e' He' Hc'. simplify_eq. by eapply Hc.
      * rewrite writes_app, (Hc e eq_refl Ec). apply (IH false h2 o E2).
    + destruct E2 as [-> ->]. rewrite app_nil_r. split; [done|]. intros e' He' Hc'. simplify_eq. congruence.
Qed.

Lemma one_write_update r : is_read r = false -> one_write (update_wrapped r).
Proof.
  intros Hr h o He. apply exec_update_wrapped in He as (x & -> & Hx).
  rewrite writes_cons, Hr. split; [simpl; lia|]. intros e -> Hc. by destruct x; simplify_eq.
Qed.

Lemma one_write_after_get nodeName b {A} (k : result Node -> prog A) :
  (forall x, one_write (k x)) -> one_write (Call (GetNode nodeName b) k).
Proof.
  intros Hk h o (x & h' & -> & Hx). rewrite writes_cons. simpl. apply (Hk x h' o Hx).
Qed.

Lemma one_write_ret {A} (a : A) : one_write (Ret a).
Proof. intros h o [-> ->]. split; [simpl; lia|done]. Qed.

Lemma one_write_throw {A} e : one_write (Throw (A := A) e).
Proof. intros h o [-> ->]. split; [simpl; lia|done]. Qed.

Lemma one_write_taint_update op nodeName taints : one_write (taint_update op nodeName taints).
Proof.
  apply one_write_retry. intros b. simpl. apply one_write_after_get. intros [n|e]; simpl; [|apply one_write_throw].
  destruct (fold_taints op n taints) as [n' u]. destruct u; simpl; [|apply one_write_ret].
  by apply one_write_update.
Qed.

Lemma one_write_annotation_update op nodeName a : one_write (annotation_update op nodeName a).
Proof.
  apply one_write_retry. intros b. simpl. apply one_write_after_get. intros [n|e]; simpl.
  - destruct (op n a) as [n' u]. destruct u; simpl; [|apply one_write_ret]. by apply one_write_update.
  - destruct (IsNotFound e); [apply one_write_ret|apply one_write_throw].
Qed.

(** The node updates wrapped in [RetryOnConflict] never retry a write: the wrapper of the client's
    error hides the conflict, so whatever the API server answers at most one update is sent and a
    conflict on it is returned as an ordinary error. *)
Theorem node_updates_not_retried nodeName taints annotations condition h o :
  exec (AddOrUpdateTaintOnNode nodeName taints) h o \/
  exec (AddOrUpdateAnnotationOnNode nodeName annotations) h o \/
  exec (RemoveAnnotationsOffNode nodeName annotations) h o \/
  exec (AddOrUpdateConditionsOnNode nodeName condition) h o ->
  (length (writes h) <= 1)%nat /\
  forall e, o = Raise e -> IsConflict e = true -> writes h = [].
Proof.
  intros [He|[He|[He|He]]].
  - unfold AddOrUpdateTaintOnNode in He. case_bool_decide; [by apply one_write_ret in He|].
    by apply one_write_taint_update in He.
  - by apply one_write_annotation_update in He.
  - unfold RemoveAnnotationsOffNode in He. case_bool_decide; [by apply one_write_ret in He|].
    by apply one_write_annotation_update in He.
  - revert h o He. apply one_write_retry. intros b. simpl. apply one_write_after_get.
    intros [n|e]; simpl; [by apply one_write_update|apply one_write_throw].
Qed.

(** ** The hypotheses hold on sample objects *)

Definition sample_node : Node := mkNode (sample_meta "n1" "n1") zero_node_spec [].
Definition sample_taint : Taint := mkTaint "dedicated" "db" TaintEffectNoSchedule None.

(** A world in which the node exists and every write is answered with a conflict. *)
Definition conflicting (r : req) (w : unit) : unit * result (answer r) :=
  (w, match r return result (answer r) with
      | GetNode _ _ => Ok sample_node
      | _ => Err (mkErr Conflict "object was modified")
      end).

Lemma Var_Set_String_roundtrip_witness :
  Var_Set (Var_String [sample_taint]) = Return [sample_taint].
Proof.
  apply (Var_Set_String_roundtrip [sample_taint]); [discriminate|].
  repeat constructor; vm_compute; reflexivity || (left; fail) || constructor.
Defined.

Lemma ParseTaints_taint_strings_witness :
  ParseTaints (taint_string <$> [sample_taint]) = Return ([sample_taint], []).
Proof.
  apply ParseTaints_taint_strings.
  - repeat constructor.
  - apply NoDup_singleton.
Defined.

Example parse_removals : ParseTaints ["dedicated:NoSchedule-"; "old-"] =
  Return ([], [mkTaint "dedicated" "" "NoSchedule" None; mkTaint "old" "" "" None]).
Proof. vm_compute. reflexivity. Qed.

Lemma parseTaint_panics_without_effect_witness : Var_Set "dedicated=db" = Panic.
Proof.
  apply (parseTaint_panics_without_effect "dedicated" "db"); [reflexivity|discriminate|].
  repeat constructor.
Defined.

Lemma node_updates_not_retried_witness :
  (length (writes (run conflicting (AddOrUpdateTaintOnNode "n1" [sample_taint]) tt).1.2) <= 1)%nat.
Proof.
  refine (proj1 (node_updates_not_retried "n1" [sample_taint] ∅ (mkNodeCond "" "" 0 0 "" "")
    (run conflicting (AddOrUpdateTaintOnNode "n1" [sample_taint]) tt).1.2
    (run conflicting (AddOrUpdateTaintOnNode "n1" [sample_taint]) tt).2 _)).
  left. apply run_exec.
Defined.

Example node_update_conflict :
  (run conflicting (AddOrUpdateTaintOnNode "n1" [sample_taint]) tt).2 = Raise (Errorf "object was modified").
Proof. reflexivity. Qed.
