(* ===== verification/RefManager.v ===== *)
(** * Adoption and release of children (pkg/controller/controller_ref_manager.go)

    [MachineControllerRefManager] and [MachineSetControllerRefManager] are the same code over two
    object types; the sections are parametric in the object type, its metadata and the patch call.
    The state of the manager is the memo of its [sync.Once]. *)
From Stdlib Require Import ZArith Lia.
From stdpp Require Import base gmap strings list sorting.
From S2P Require Import Prelude GoLib Types Labels Prog Samples.
Open Scope Z_scope.

Section ref_manager.
Context {O : Type} (obj_meta : O -> ObjectMeta).
(** [PatchMachine] or [PatchMachineSet]. *)
Context (patch_req : string -> string -> OwnerPatch -> req).

Record RefManager := mkManager {
  rm_Controller : ObjectMeta;
  rm_match : O -> bool;
  rm_Kind : string;
  rm_CanAdoptFunc : prog unit }.

(** [canAdoptErr] once [canAdoptOnce] has fired. *)
Definition once_state : Type := option (result unit).

Definition CanAdopt (m : RefManager) (once : once_state) : prog (result unit) :=
  match once with
  | Some r => Ret r
  | None => attempt (rm_CanAdoptFunc m)
  end.

Definition patch (obj : O) (p : OwnerPatch) : prog (result unit) :=
  Call (patch_req (Namespace (obj_meta obj)) (Name (obj_meta obj)) p)
    (fun x => Ret (match x with Ok _ => Ok tt | Err e => Err e end)).

Definition controller_ref (m : RefManager) : OwnerReference := NewControllerRef (rm_Controller m) (rm_Kind m).

(** [AdoptMachine], [AdoptMachineSet] *)
Definition Adopt (m : RefManager) (once : once_state) (obj : O) : prog (once_state * result unit) :=
  let! r := CanAdopt m once in
  match r with
  | Err e => Ret (Some r, Err (Errorf "can't adopt"))
  | Ok _ =>
      let! x := patch obj (AddOwner (controller_ref m) (UID (obj_meta obj))) in
      Ret (Some r, x)
  end.

(** [ReleaseMachine], [ReleaseMachineSet] *)
Definition Release (m : RefManager) (obj : O) : prog (result unit) :=
  let! x := patch obj (DropOwner (controller_ref m) (UID (obj_meta obj))) in
  Ret (match x with
       | Err e => if IsNotFound e || IsInvalid e then Ok tt else Err e
       | Ok _ => Ok tt
       end).

Definition ClaimObject (m : RefManager) (once : once_state) (obj : O) : prog (once_state * result bool) :=
  match GetControllerOf (obj_meta obj) with
  | Some controllerRef =>
      if bool_decide (or_UID controllerRef <> UID (rm_Controller m)) then Ret (once, Ok false)
      else if rm_match m obj then Ret (once, Ok true)
      else if bool_decide (DeletionTimestamp (rm_Controller m) <> None) then Ret (once, Ok false)
      else
        let! x := Release m obj in
        match x with
        | Err e => if IsNotFound e then Ret (once, Ok false) else Ret (once, Err e)
        | Ok _ => Ret (once, Ok false)
        end
  | None =>
      if bool_decide (DeletionTimestamp (rm_Controller m) <> None) || negb (rm_match m obj)
      then Ret (once, Ok false)
      else if bool_decide (DeletionTimestamp (obj_meta obj) <> None) then Ret (once, Ok false)
      else
        let! r := Adopt m once obj in
        let '(once, x) := r in
        match x with
        | Err e => if IsNotFound e then Ret (once, Ok false) else Ret (once, Err e)
        | Ok _ => Ret (once, Ok true)
        end
  end.

Definition claim_step (m : RefManager) (acc : once_state * list O * list error) (obj : O)
  : prog (once_state * list O * list error) :=
  let '(once, claimed, errlist) := acc in
  let! r := ClaimObject m once obj in
  let '(once, x) := r in
  Ret (match x with
       | Err e => (once, claimed, errlist ++ [e])
       | Ok true => (once, claimed ++ [obj], errlist)
       | Ok false => (once, claimed, errlist)
       end).

(** [ClaimMachines], [ClaimMachineSets]; every caller drops the list when there is an error. *)
Definition ClaimObjects (m : RefManager) (objs : list O) : prog (list O) :=
  let! r := for_fold objs (None, [], []) (claim_step m) in
  let '(_, claimed, errlist) := r in
  if bool_decide (errlist = []) then Ret claimed else Throw (Errorf "aggregate").
End ref_manager.

Arguments mkManager {O} _ _ _ _.
Arguments rm_Controller {O} _.
Arguments rm_match {O} _ _.
Arguments rm_Kind {O} _.
Arguments rm_CanAdoptFunc {O} _.

(** [getObject] returns the fresh metadata of the controller. *)
Definition RecheckDeletionTimestamp (getObject : prog ObjectMeta) : prog unit :=
  let! x := attempt getObject in
  match x with
  | Err e => Throw (Errorf "can't recheck DeletionTimestamp")
  | Ok obj =>
      if bool_decide (DeletionTimestamp obj <> None) then Throw (Errorf "has just been deleted") else Ret tt
  end.

Definition machine_manager (controller : ObjectMeta) (selector : Selector) (kind : string) (canAdopt : prog unit)
  : RefManager (O := Machine) :=
  mkManager controller (fun m => sel_Matches selector (Labels (m_Meta m))) kind canAdopt.
Definition ClaimMachines (m : RefManager) (machines : list Machine) : prog (list Machine) :=
  ClaimObjects m_Meta PatchMachine m machines.

Definition machineset_manager (controller : ObjectMeta) (selector : Selector) (kind : string) (canAdopt : prog unit)
  : RefManager (O := MachineSet) :=
  mkManager controller (fun m => sel_Matches selector (Labels (is_Meta m))) kind canAdopt.
Definition ClaimMachineSets (m : RefManager) (sets : list MachineSet) : prog (list MachineSet) :=
  ClaimObjects is_Meta PatchMS m sets.

(** [claimMachines] of pkg/controller/machineset.go: claim with a live check of the machine set. *)
Definition fresh_machineset (ms : MachineSet) : prog ObjectMeta :=
  let! fresh := call (GetMS (Namespace (is_Meta ms)) (is_Name ms)) in
  if bool_decide (is_UID fresh <> is_UID ms) then Throw (Errorf "original MachineSet gone") else Ret (is_Meta fresh).

Definition claimMachines (ms : MachineSet) (selector : Selector) (machines : list Machine) : prog (list Machine) :=
  ClaimMachines (machine_manager (is_Meta ms) selector "MachineSet"
    (RecheckDeletionTimestamp (fresh_machineset ms))) machines.

(** A loop with what it has done so far. *)
Lemma exec_for_fold_prefix {A S} (l : list A) (s : S) (body : S -> A -> prog S)
    (Inv : list A -> S -> history -> Prop) (Fin : history -> outcome S -> Prop) h0 h o :
  Inv [] s h0 ->
  (forall done x todo s h1 h2 o, l = done ++ x :: todo -> Inv done s h1 -> exec (body s x) h2 o ->
     match o with Return s' => Inv (done ++ [x]) s' (h1 ++ h2) | _ => Fin (h1 ++ h2) o end) ->
  exec (for_fold l s body) h o ->
  match o with Return s' => Inv l s' (h0 ++ h) | _ => Fin (h0 ++ h) o end.
Proof.
  intros Hi Hb.
  assert (Hgen : forall todo done s h0 h, l = done ++ todo -> Inv done s h0 -> exec (for_fold todo s body) h o ->
    match o with Return s' => Inv l s' (h0 ++ h) | _ => Fin (h0 ++ h) o end); [|by apply (Hgen l [])].
  clear s h0 h Hi. induction todo as [|x todo IH]; intros done s h0 h Hl Hi He; simpl in He.
  - destruct He as [-> ->]. rewrite app_nil_r in *. by rewrite Hl.
  - destruct (exec_bind _ _ _ _ He) as [(h1 & s' & h2 & -> & E1 & E2)|(o' & E1 & E2 & ->)].
    + rewrite app_assoc. apply (IH (done ++ [x]) s'); [by rewrite <- app_assoc|exact (Hb _ _ _ _ _ _ _ Hl Hi E1)|done].
    + pose proof (Hb _ _ _ _ _ _ _ Hl Hi E1) as Hf. by destruct o'.
Qed.

(** ** What a claim may do *)

Section claim_facts.
Context {O : Type} (obj_meta : O -> ObjectMeta) (patch_req : string -> string -> OwnerPatch -> req).
Context (patch_is_write : forall ns n p, is_read (patch_req ns n p) = false).
Context (patch_says : forall ns n p ns' n' p', patch_req ns n p = patch_req ns' n' p' -> p = p').
Context (m : RefManager (O := O)).
(** The check before an adoption reads from the API server and changes nothing. *)
Context (canAdopt_reads : emits (fun e => is_read (projT1 e) = true) (rm_CanAdoptFunc m)).

Abbreviation patch_of obj p := (patch_req (Namespace (obj_meta obj)) (Name (obj_meta obj)) p).

Definition owned (obj : O) : Prop := exists r, GetControllerOf (obj_meta obj) = Some r /\ or_UID r = UID (rm_Controller m).
Definition may_adopt (obj : O) : Prop :=
  GetControllerOf (obj_meta obj) = None /\ rm_match m obj = true /\
  DeletionTimestamp (obj_meta obj) = None /\ DeletionTimestamp (rm_Controller m) = None.
Definition may_release (obj : O) : Prop :=
  owned obj /\ rm_match m obj = false /\ DeletionTimestamp (rm_Controller m) = None.

Abbreviation adopt_patch obj := (patch_of obj (AddOwner (controller_ref m) (UID (obj_meta obj)))).
Abbreviation release_patch obj := (patch_of obj (DropOwner (controller_ref m) (UID (obj_meta obj)))).

(** The patches a claim of [objs] may send. *)
Definition allowed_write (objs : list O) (r : req) : Prop :=
  exists obj, obj ∈ objs /\ ((may_adopt obj /\ r = adopt_patch obj) \/ (may_release obj /\ r = release_patch obj)).

(** An object that may be returned as claimed after the calls of [h]. *)
Definition claimed_ok (h : history) (obj : O) : Prop :=
  rm_match m obj = true /\ (owned obj \/ (may_adopt obj /\ exists x, existT (adopt_patch obj) (Ok x) ∈ h)).

(** What becomes of an object, if no error is reported: it is claimed if it is owned and matches; it is
    adopted and claimed if it may be, unless it is found to be gone; it is released if it may be. *)
Definition dealt_with (h : history) (claimed : Prop) (obj : O) : Prop :=
  (owned obj -> rm_match m obj = true -> claimed) /\
  (may_adopt obj -> claimed \/ exists e, existT (adopt_patch obj) (Err e) ∈ h /\ IsNotFound e = true) /\
  (may_release obj -> exists x, existT (release_patch obj) x ∈ h).

Definition is_adoption (e : event) : Prop := exists ns n ref uid, projT1 e = patch_req ns n (AddOwner ref uid).

(** Every adoption in [h], which follows [h0], comes after the whole of a check that allowed it: the reads
    before it are those of the check. *)
Definition checked_first (h0 h : history) : Prop :=
  forall h1 e h2, h = h1 ++ e :: h2 -> is_adoption e -> exec (rm_CanAdoptFunc m) (reads (h0 ++ h1)) (Return tt).

Lemma checked_first_app h0 h1 h2 : checked_first h0 h1 -> checked_first (h0 ++ h1) h2 -> checked_first h0 (h1 ++ h2).
Proof.
  intros H1 H2 g1 e g2 Heq Ha. apply app_eq_inv in Heq as [(k & -> & Hk)|(k & -> & Hk)].
  - destruct k as [|e' k]; [|injection Hk as <- _; by eapply H1]. rewrite app_nil_r in *.
    rewrite <- (app_nil_r (h0 ++ g1)). by apply (H2 [] e g2).
  - rewrite app_assoc. by apply (H2 k e g2).
Qed.

Lemma checked_first_none h0 h : Forall (fun e => ~ is_adoption e) h -> checked_first h0 h.
Proof. intros HF h1 e h2 -> Ha. apply Forall_app in HF as [_ HF]. by apply Forall_cons in HF as [? _]. Qed.

Lemma reads_no_adoption h : Forall (fun e : event => is_read (projT1 e) = true) h -> Forall (fun e => ~ is_adoption e) h.
Proof. intros HF. eapply Forall_impl; [exact HF|]. intros e He (ns & n & ref & uid & Hr). cbv beta in He. rewrite Hr, patch_is_write in He. done. Qed.

Lemma release_no_adoption obj x : ~ is_adoption (existT (release_patch obj) x).
Proof. intros (ns & n & ref & uid & Hr%patch_says). discriminate Hr. Qed.

Definition once_ok (once : once_state) (h : history) : Prop :=
  match once with
  | None => reads h = []
  | Some (Ok _) => exec (rm_CanAdoptFunc m) (reads h) (Return tt)
  | Some (Err e) => exec (rm_CanAdoptFunc m) (reads h) (Raise e)
  end.

Lemma exec_patch obj p h o : exec (patch obj_meta patch_req obj p) h o ->
  exists x, h = [existT (patch_of obj p) x] /\
    o = Return (match x with Ok _ => Ok tt | Err e => Err e end).
Proof. intros (x & h' & -> & -> & ->). by exists x. Qed.

Lemma exec_Release obj h o : exec (Release obj_meta patch_req m obj) h o ->
  exists x, h = [existT (release_patch obj) x] /\ exists r, o = Return r.
Proof.
  intros He. destruct (exec_bind _ _ _ _ He) as [(h1 & x & h2 & -> & E1 & -> & ->)|(o' & E1 & E2 & _)];
    apply exec_patch in E1 as (y & -> & ?); simplify_eq; [|done]. exists y. by eauto.
Qed.

Lemma exec_CanAdopt once h0 h o : once_ok once h0 -> exec (CanAdopt m once) h o ->
  Forall (fun e : event => is_read (projT1 e) = true) h /\
  match o with
  | Return r => once_ok (Some r) (h0 ++ h)
  | _ => exists o', exec (rm_CanAdoptFunc m) (reads (h0 ++ h)) o'
  end.
Proof.
  unfold CanAdopt. destruct once as [r|]; simpl; intros Hi He.
  - destruct He as [-> ->]. by rewrite !app_nil_r.
  - pose proof (emits_attempt _ _ canAdopt_reads _ _ He) as HF. pose proof (reads_all _ HF) as [Hr Hw].
    split; [done|]. rewrite reads_app, Hi, Hr. simpl.
    destruct (exec_attempt _ _ _ He) as [([] & E & ->)|[(e & E & ->)|[[E ->]|[E ->]]]]; eauto.
Qed.

(** What one step of the claim keeps: its writes are allowed, an adoption in it was checked. *)
Definition step_safe (objs : list O) (h0 h : history) : Prop :=
  Forall (allowed_write objs) (writes h) /\ checked_first h0 h.

Lemma step_safe_reads objs h0 h : Forall (fun e : event => is_read (projT1 e) = true) h -> step_safe objs h0 h.
Proof.
  intros HF. split; [|by apply checked_first_none, reads_no_adoption]. by destruct (reads_all _ HF) as [_ ->].
Qed.

Lemma exec_Adopt objs once obj h0 h o : obj ∈ objs -> may_adopt obj -> once_ok once h0 ->
  exec (Adopt obj_meta patch_req m once obj) h o ->
  step_safe objs h0 h /\
  match o with
  | Return (once', x) => once_ok once' (h0 ++ h) /\
      ((exists e, x = Err e /\ IsNotFound e = false) \/ exists y, existT (adopt_patch obj) y ∈ h /\
         x = match y with Ok _ => Ok tt | Err e => Err e end)
  | _ => exists o', exec (rm_CanAdoptFunc m) (reads (h0 ++ h)) o'
  end.
Proof.
  intros Hin Hma Hi He. unfold Adopt in He.
  destruct (exec_bind _ _ _ _ He) as [(g1 & r & g2 & -> & F1 & F2)|(o2 & F1 & F2 & ->)];
    destruct (exec_CanAdopt _ h0 _ _ Hi F1) as [HF Ho].
  2:{ split; [by apply step_safe_reads|]. by destruct o2. }
  pose proof (step_safe_reads objs h0 _ HF) as [_ Hsafe]. destruct (reads_all _ HF) as [_ Hw].
  destruct r as [u|e].
  - destruct (exec_bind _ _ _ _ F2) as [(k1 & y & k2 & -> & G1 & -> & ->)|(o3 & G1 & G2 & _)];
      apply exec_patch in G1 as (z & -> & ?); simplify_eq; [|done].
    rewrite app_nil_r. split; [split|split].
    + rewrite writes_app, Hw, writes_cons, patch_is_write. constructor; [|constructor]. exists obj. split; [done|]. by left.
    + apply checked_first_app; [done|]. intros h1 e h2 Heq _. destruct h1 as [|? h1]; [|by destruct h1].
      rewrite app_nil_r. exact Ho.
    + unfold once_ok in *. rewrite app_assoc, reads_app, reads_write, app_nil_r by done. done.
    + right. exists z. split; [apply elem_of_app; right; by apply list_elem_of_singleton|done].
  - destruct F2 as [-> ->]. rewrite app_nil_r. split; [by apply step_safe_reads|]. split; [done|]. left. by eexists.
Qed.

(** One object: the writes are allowed, the memo is kept, a claim is justified, and without an error the
    object is dealt with. *)
Lemma exec_ClaimObject objs once obj h0 h o : obj ∈ objs -> once_ok once h0 ->
  exec (ClaimObject obj_meta patch_req m once obj) h o ->
  step_safe objs h0 h /\
  match o with
  | Return (once', x) => once_ok once' (h0 ++ h) /\ (x = Ok true -> claimed_ok h obj) /\
      (forall b, x = Ok b -> dealt_with h (b = true) obj)
  | _ => exists o', exec (rm_CanAdoptFunc m) (reads (h0 ++ h)) o'
  end.
Proof.
  assert (Hnil : step_safe objs h0 []) by by apply step_safe_reads.
  intros Hin Hi He. unfold ClaimObject in He. unfold dealt_with, owned, may_release, may_adopt, owned.
  destruct (GetControllerOf (obj_meta obj)) as [r|] eqn:Ec.
  - case_bool_decide as Hu.
    { destruct He as [-> ->]. rewrite app_nil_r. split_and!; [done..|]. intros b [= <-]. naive_solver. }
    destruct (rm_match m obj) eqn:Em.
    { destruct He as [-> ->]. rewrite app_nil_r. split; [done|]. split; [done|]. split.
      - intros _. split; [done|]. left. by exists r.
      - intros b [= <-]. naive_solver. }
    case_bool_decide as Hd.
    { destruct He as [-> ->]. rewrite app_nil_r. split_and!; [done..|]. intros b [= <-]. naive_solver. }
    destruct (exec_bind _ _ _ _ He) as [(h1 & x & h2 & -> & E1 & E2)|(o' & E1 & E2 & _)];
      apply exec_Release in E1 as (z & -> & (y & Hy)); [|by subst].
    assert (h2 = [] /\ exists b, o = Return (once, b) /\ b <> Ok true) as [-> (b & -> & Hb)].
    { destruct x as [?|e]; [|destruct (IsNotFound e)]; destruct E2 as [-> ->]; eauto. }
    rewrite app_nil_r. split; [split|split_and!].
    + rewrite writes_cons, patch_is_write. constructor; [|constructor]. exists obj. split; [done|]. right. split; [|done].
      split_and!; [by exists r|done|done].
    + apply checked_first_none. repeat constructor. apply release_no_adoption.
    + unfold once_ok in *. rewrite reads_app, reads_write, app_nil_r by done. done.
    + done.
    + intros b' _. split_and!; [congruence|by intros [? _]|]. intros _. exists z. left.
  - destruct (bool_decide (DeletionTimestamp (rm_Controller m) <> None)) eqn:Hd.
    { simpl in He. apply bool_decide_eq_true in Hd. destruct He as [-> ->]. rewrite app_nil_r. split_and!; [done..|]. intros b [= <-]. naive_solver. }
    apply bool_decide_eq_false, dec_stable in Hd.
    destruct (rm_match m obj) eqn:Em.
    2:{ simpl in He. destruct He as [-> ->]. rewrite app_nil_r. split_and!; [done..|]. intros b [= <-]. naive_solver. }
    simpl in He. case_bool_decide as Hd2.
    { destruct He as [-> ->]. rewrite app_nil_r. split_and!; [done..|]. intros b [= <-]. naive_solver. }
    assert (may_adopt obj) as Hma by done.
    destruct (exec_bind _ _ _ _ He) as [(h1 & [once' x] & h2 & -> & E1 & E2)|(o' & E1 & E2 & ->)];
      destruct (exec_Adopt objs _ _ h0 _ _ Hin Hma Hi E1) as [Hw Ho]; [|split; [done|by destruct o']].
    assert (h2 = [] /\ o = Return (once', match x with Ok _ => Ok true | Err e => if IsNotFound e then Ok false else Err e end)) as [-> ->].
    { destruct x as [[]|e]; [|destruct (IsNotFound e)]; by destruct E2 as [-> ->]. }
    rewrite app_nil_r. destruct Ho as [Ho Hx]. split_and!; [done|done| |].
    + intros Hx2. split; [done|]. right. split; [done|]. destruct Hx as [(e & -> & Hn)|([a|e] & Hy & ->)]; [by rewrite Hn in Hx2|eauto|].
      by destruct (IsNotFound e).
    + intros b Hb. split_and!; [by intros [? [? _]]| |by intros [[? [? _]] _]]. intros _.
      destruct Hx as [(e & -> & Hn)|([a|e] & Hy & ->)]; [by rewrite Hn in Hb|left; by injection Hb as <-|].
      destruct (IsNotFound e) eqn:En; [|done]. right. eauto.
Qed.

Lemma claimed_ok_mono h h' obj : claimed_ok h obj -> h ⊆ h' -> claimed_ok h' obj.
Proof. intros [Hm [H|(H & x & Hx)]] Hs; (split; [done|]); [by left|]. right. split; [done|]. exists x. by apply Hs. Qed.

Lemma dealt_with_mono h h' (P Q : Prop) obj : dealt_with h P obj -> h ⊆ h' -> (P -> Q) -> dealt_with h' Q obj.
Proof. unfold dealt_with. intros (H1 & H2 & H3) Hs HPQ. split_and!; naive_solver. Qed.

(** The invariant of the loop after the objects of [done], and what holds when it ends in a panic of the check. *)
Definition claim_inv (objs done : list O) (s : once_state * list O * list error) (h : history) : Prop :=
  step_safe objs [] h /\ once_ok s.1.1 h /\ sublist s.1.2 done /\ Forall (claimed_ok h) s.1.2 /\
  (s.2 = [] -> Forall (fun obj => dealt_with h (obj ∈ s.1.2) obj) done).
Definition claim_fin (objs : list O) (h : history) : Prop :=
  step_safe objs [] h /\ exists o', exec (rm_CanAdoptFunc m) (reads h) o'.

Lemma step_safe_app objs h1 h2 : step_safe objs [] h1 -> step_safe objs h1 h2 -> step_safe objs [] (h1 ++ h2).
Proof.
  intros [W1 C1] [W2 C2]. split; [rewrite writes_app; by apply Forall_app|by apply checked_first_app].
Qed.

Lemma exec_claim_step objs done s obj h1 h2 o : obj ∈ objs -> claim_inv objs done s h1 ->
  exec (claim_step obj_meta patch_req m s obj) h2 o ->
  match o with Return s' => claim_inv objs (done ++ [obj]) s' (h1 ++ h2) | _ => claim_fin objs (h1 ++ h2) end.
Proof.
  destruct s as [[once claimed] errs]. intros Hin (I1 & I2 & I3 & I4 & I5) Hb. simpl in *.
  assert (Hl : h1 ⊆ h1 ++ h2) by (intros y Hy; apply elem_of_app; by left).
  assert (Hr : h2 ⊆ h1 ++ h2) by (intros y Hy; apply elem_of_app; by right).
  assert (I4' : Forall (claimed_ok (h1 ++ h2)) claimed) by (eapply Forall_impl; [exact I4|]; intros a Ha; by eapply claimed_ok_mono).
  destruct (exec_bind _ _ _ _ Hb) as [(g1 & [once' x] & g2 & -> & E1 & -> & ->)|(o3 & E1 & E2 & ->)];
    destruct (exec_ClaimObject objs once obj h1 _ _ Hin I2 E1) as [J1 J2].
  - rewrite app_nil_r in *. destruct J2 as (J2 & J3 & J4). pose proof (step_safe_app _ _ _ I1 J1) as Hs.
    destruct x as [[]|e]; (split_and!; [done|done| | |]); simpl.
    + by apply sublist_app.
    + apply Forall_app. split; [done|]. constructor; [|constructor]. by eapply claimed_ok_mono; [apply J3|].
    + intros He. apply Forall_app. split; [|apply Forall_singleton].
      * eapply Forall_impl; [by apply I5|]. intros a Ha. eapply dealt_with_mono; [exact Ha|done|set_solver].
      * eapply dealt_with_mono; [by apply J4|done|set_solver].
    + rewrite <- (app_nil_r claimed). apply sublist_app; [done|apply sublist_nil_l].
    + done.
    + intros He. apply Forall_app. split; [|apply Forall_singleton].
      * eapply Forall_impl; [by apply I5|]. intros a Ha. eapply dealt_with_mono; [exact Ha|done..].
      * eapply dealt_with_mono; [by apply J4|done..].
    + rewrite <- (app_nil_r claimed). apply sublist_app; [done|apply sublist_nil_l].
    + done.
    + intros He. by destruct errs.
  - assert (claim_fin objs (h1 ++ h2)); [|by destruct o3]. split; [by apply step_safe_app|]. by destruct o3.
Qed.

(** C28: claiming children is safe and exact whatever the API server answers.  A patch is sent only while the
    controller is not being deleted: to adopt an orphan that matches the selector and is not being deleted,
    or to release a child the controller owns and the selector no longer matches.  Before any adoption the
    live check of the deletion was run to its end and allowed it, and it is run at most once.  On success
    the claimed objects are, in their order, some of those given, and every one matches and was owned
    already or was adopted by a patch that succeeded; every object that is owned and matches is claimed; so is
    every orphan that may be adopted, unless its patch found it gone; and every child to be released was
    asked to be. *)
Theorem ClaimObjects_safe objs h o :
  exec (ClaimObjects obj_meta patch_req m objs) h o ->
  Forall (allowed_write objs) (writes h) /\
  (forall h1 e h2, h = h1 ++ e :: h2 -> is_adoption e -> exec (rm_CanAdoptFunc m) (reads h1) (Return tt)) /\
  (reads h = [] \/ exists o', exec (rm_CanAdoptFunc m) (reads h) o') /\
  (forall claimed, o = Return claimed -> sublist claimed objs /\ Forall (claimed_ok h) claimed /\
     Forall (fun obj => dealt_with h (obj ∈ claimed) obj) objs).
Proof.
  intros He. unfold ClaimObjects in He.
  assert (Hloop : forall h o, exec (for_fold objs (None, [], []) (claim_step obj_meta patch_req m)) h o ->
    match o with Return s => claim_inv objs objs s h | _ => claim_fin objs h end).
  { intros h' o' Hl. apply (exec_for_fold_prefix objs (None, [], []) (claim_step obj_meta patch_req m)
      (claim_inv objs) (fun h _ => claim_fin objs h) [] h' o'); [| |done].
    { split_and!; [by apply step_safe_reads|done..]. }
    intros done obj todo s h1 h2 o2 Ho Hi Hb. apply (exec_claim_step objs done s obj); [|done..]. rewrite Ho. set_solver. }
  destruct (exec_bind _ _ _ _ He) as [(h1 & [[once claimed] errs] & h2 & -> & E1 & E2)|(o' & E1 & E2 & ->)].
  - apply Hloop in E1 as ([I1 I2] & I3 & I4 & I5 & I6). simpl in *.
    assert (h2 = [] /\ ((o = Return claimed /\ errs = []) \/ exists e, o = Raise e)) as [-> Ho].
    { case_bool_decide; destruct E2 as [-> ->]; eauto. }
    rewrite app_nil_r. split_and!; [done|exact I2| |].
    + unfold once_ok in I3. destruct once as [[]|]; eauto.
    + intros c ->. destruct Ho as [[[= ->] Herr]|[? ?]]; [|done]. split_and!; auto.
  - apply Hloop in E1. assert (claim_fin objs h) as [[F1 F2] F3] by by destruct o'.
    split_and!; [done|exact F2|by right|by destruct o'].
Qed.
End claim_facts.

(** ** The hypotheses hold on sample objects *)

Definition sample_orphan : Machine := sample_machine "m1" MachineRunning.
Definition sample_manager : RefManager (O := Machine) :=
  machine_manager (sample_meta "ms" "uid-ms") (AsSelectorPreValidated {[ "app" := "db" ]}) "MachineSet"
    (RecheckDeletionTimestamp (let! ms := call (GetMS "shoot" "ms") in Ret (is_Meta ms))).

Lemma patch_machine_says ns n p ns' n' p' : PatchMachine ns n p = PatchMachine ns' n' p' -> p = p'.
Proof. by intros [= _ _ ->]. Qed.

(** A world in which the machine set exists and every patch succeeds. *)
Definition accepting (r : req) (w : unit) : unit * result (answer r) :=
  (w, match r return result (answer r) with
      | GetMS _ _ => Ok (sample_ms "ms" 1 1)
      | PatchMachine _ _ _ => Ok tt
      | _ => Err (Errorf "unexpected")
      end).

Lemma ClaimObjects_safe_witness :
  Forall (allowed_write m_Meta PatchMachine sample_manager [sample_orphan])
    (writes (run accepting (ClaimMachines sample_manager [sample_orphan]) tt).1.2).
Proof.
  refine (proj1 (ClaimObjects_safe m_Meta PatchMachine (fun _ _ _ => eq_refl) patch_machine_says sample_manager _ [sample_orphan]
    (run accepting (ClaimMachines sample_manager [sample_orphan]) tt).1.2
    (run accepting (ClaimMachines sample_manager [sample_orphan]) tt).2 _)).
  - unfold sample_manager, machine_manager, RecheckDeletionTimestamp. simpl. emits_all; reflexivity.
  - apply run_exec.
Defined.

Example sample_adoption :
  (run accepting (ClaimMachines sample_manager [sample_orphan]) tt).2 = Return [sample_orphan] /\
  length (writes (run accepting (ClaimMachines sample_manager [sample_orphan]) tt).1.2) = 1%nat.
Proof. split; vm_compute; reflexivity. Qed.
