(* ===== verification/DeploymentSync.v ===== *)
(** * Synchronisation of a machine deployment (pkg/controller/deployment_sync.go)

    Revision synchronisation and creation of the new machine set, proportional scaling, clean-up of old
    machine sets and the status computation; with [UpdateISWithRetries], [GetMachineSetHash],
    [UpdateMachineWithRetries] and the hash helpers they use.  A function that changes the deployment
    it is given returns the changed deployment. *)
From Stdlib Require Import ZArith Lia Ascii String.
From stdpp Require Import base gmap strings list sorting.
From S2P Require Import Prelude GoLib Types Labels MachineSets DeploymentUtil Prog Samples.
Open Scope Z_scope.

(** [ComputeHash]: FNV-1a over a reflective dump of the template and the collision count, the dump
    being the vendored spew package's. *)
Class Hasher : Type := { ComputeHash : MachineTemplateSpec -> option Z -> Z }.

(** Settings of the controller, and the number of checks a one-minute poll has room for. *)
Record Config := mkConfigDC {
  cfg_namespace : string;
  cfg_autoscalerScaleDownAnnotationDuringRollout : bool;
  cfg_poll_checks : nat;
  cfg_retry_rounds : nat }.

Definition zero_machineset : MachineSet :=
  mkMS zero_meta (mkMSSpec 0 None zero_class zero_template 0) zero_ms_status.
Definition zero_machine : Machine := mkMachine zero_meta zero_machine_spec zero_machine_status.

(** [rand.SafeEncodeString] *)
Definition alphanums : list ascii := list_ascii_of_string "bcdfghjklmnpqrstvwxz2456789".
Definition encode_byte (c : ascii) : ascii :=
  nth (N.to_nat (N_of_ascii c) mod length alphanums) alphanums "b"%char.
Fixpoint SafeEncodeString (s : string) : string :=
  match s with EmptyString => EmptyString | String c r => String (encode_byte c) (SafeEncodeString r) end.

(** ** Updates with retries *)

(** [UpdateISWithRetries]; [applyUpdate] gives [None] for ErrPreconditionViolated.  The result is the
    variable [is] (nil when the lister failed, an empty object when the update failed) and the
    error. *)
Fixpoint UpdateISWithRetries (n : nat) (ns name : string) (applyUpdate : MachineSet -> option MachineSet)
  : prog (option MachineSet * option error) :=
  match n with
  | O => Starve
  | S n' =>
      let again (is_ : option MachineSet) (e : error) :=
        if IsConflict e && negb (bool_decide (n' = O)) then UpdateISWithRetries n' ns name applyUpdate
        else Ret (is_, Some e) in
      let! g := call_try (ListerGetMS ns name) in
      match g with
      | Err e => again None e
      | Ok ms =>
          match applyUpdate ms with
          | None => Ret (Some ms, None)
          | Some ms' =>
              let! u := call_try (UpdateMS ms') in
              match u with
              | Ok r => Ret (Some r, None)
              | Err e => again (Some zero_machineset) e
              end
          end
      end
  end.

Fixpoint UpdateMachineWithRetries (n : nat) (ns name : string) (applyUpdate : Machine -> option Machine)
  : prog (option Machine * option error) :=
  match n with
  | O => Starve
  | S n' =>
      let again (m : option Machine) (e : error) :=
        if IsConflict e && negb (bool_decide (n' = O)) then UpdateMachineWithRetries n' ns name applyUpdate
        else Ret (m, Some e) in
      let! g := call_try (ListerGetMachine ns name) in
      match g with
      | Err e => again None e
      | Ok m =>
          match applyUpdate m with
          | None => Ret (Some m, None)
          | Some m' =>
              let! u := call_try (UpdateMachine m') in
              match u with
              | Ok r => Ret (Some r, None)
              | Err e => again (Some zero_machine) e
              end
          end
      end
  end.

(** ** Waiting for the machine set controller *)

Definition WaitForMachineSetUpdated (n : nat) (desiredGeneration : Z) (ns name : string) : prog unit :=
  PollImmediate n (
    let! ms := call (ListerGetMS ns name) in
    Ret (desiredGeneration <=? mss_ObservedGeneration (is_Status ms))).

Definition WaitForMachinesHashPopulated (n : nat) (desiredGeneration : Z) (ns name : string) : prog unit :=
  PollImmediate n (
    let! ms := call (ListerGetMS ns name) in
    Ret ((desiredGeneration <=? mss_ObservedGeneration (is_Status ms)) &&
         (mss_FullyLabeledReplicas (is_Status ms) =? is_Replicas ms))).

Definition hashKey := DefaultMachineDeploymentUniqueLabelKey.

Definition add_hash_to_machine (hash : string) (m : Machine) : option Machine :=
  if bool_decide (mget (Labels (m_Meta m)) hashKey = hash) then None
  else Some (m_set_Meta (set_Labels (AddLabel (Labels (m_Meta m)) hashKey hash)) m).

Definition LabelMachinesWithHash (machineList : list Machine) (hash : string) : prog unit :=
  for_each machineList (fun machine =>
    if negb (IsMachineActive machine) then Ret tt
    else if bool_decide (mget (Labels (m_Meta machine)) hashKey = hash) then Ret tt
    else
      let! r := UpdateMachineWithRetries DefaultBackoff (Namespace (m_Meta machine)) (m_Name machine)
                  (add_hash_to_machine hash) in
      match r.2 with Some e => Throw (Errorf "error in adding template hash label") | None => Ret tt end).

(** ** Status *)

Definition failed_of (o : option MachineSet) : list MachineSummary :=
  match o with Some ms => default [] (mss_FailedMachines (is_Status ms)) | None => [] end.

(** The two clock readings of the condition are [t1] and [t2]. *)
Definition calculateDeploymentStatus (t1 t2 : Z) (allISs : list (option MachineSet)) (newIS : option MachineSet)
    (d : MachineDeployment) : MachineDeploymentStatus :=
  let availableReplicas := GetAvailableReplicaCountForMachineSets allISs in
  let totalReplicas := GetReplicaCountForMachineSets allISs in
  let unavailableReplicas := totalReplicas -32 availableReplicas in
  let unavailableReplicas := if unavailableReplicas <? 0 then 0 else unavailableReplicas in
  let status := mkMDStatus (Generation (d_Meta d))
    (GetActualReplicaCountForMachineSets allISs) (GetActualReplicaCountForMachineSets [newIS])
    (GetReadyReplicaCountForMachineSets allISs) availableReplicas unavailableReplicas
    (mds_Conditions (d_Status d)) (mds_CollisionCount (d_Status d)) (Some (allISs ≫= failed_of)) in
  if d_Replicas d -32 MaxUnavailable d <=? availableReplicas
  then SetMachineDeploymentCondition status
         (NewMachineDeploymentCondition t1 t2 MachineDeploymentAvailable ConditionTrue
            MinimumReplicasAvailable "Deployment has minimum availability.")
  else SetMachineDeploymentCondition status
         (NewMachineDeploymentCondition t1 t2 MachineDeploymentAvailable ConditionFalse
            MinimumReplicasUnavailable "Deployment does not have minimum availability.").

Definition syncMachineDeploymentStatus (allISs : list (option MachineSet)) (newIS : option MachineSet)
    (d : MachineDeployment) : prog unit :=
  let! t1 := now in
  let! t2 := now in
  let newStatus := calculateDeploymentStatus t1 t2 allISs newIS d in
  if bool_decide (d_Status d = newStatus) then Ret tt
  else do! call (UpdateStatusMD (d_set_Status newStatus d)) in Ret tt.

(** ** Pausing *)

Definition has_reason (cond : option MachineDeploymentCondition) (reason : string) : bool :=
  match cond with Some c => bool_decide (dc_Reason c = reason) | None => false end.

Definition d_add_condition (d : MachineDeployment) (t1 t2 : Z) (status reason msg : string) : MachineDeployment :=
  d_set_Status (SetMachineDeploymentCondition (d_Status d)
    (NewMachineDeploymentCondition t1 t2 MachineDeploymentProgressing status reason msg)) d.

Definition checkPausedConditions (d : MachineDeployment) : prog MachineDeployment :=
  match md_ProgressDeadlineSeconds (d_Spec d) with
  | None => Ret d
  | Some _ =>
      let cond := GetMachineDeploymentCondition (d_Status d) MachineDeploymentProgressing in
      if has_reason cond TimedOutReason then Ret d
      else
        let pausedCondExists := has_reason cond PausedMachineDeployReason in
        let update reason msg :=
          let! t1 := now in
          let! t2 := now in
          let d := d_add_condition d t1 t2 ConditionUnknown reason msg in
          do! call (UpdateStatusMD d) in Ret d in
        if md_Paused (d_Spec d) && negb pausedCondExists
        then update PausedMachineDeployReason "Deployment is paused"
        else if negb (md_Paused (d_Spec d)) && pausedCondExists
        then update ResumedMachineDeployReason "Deployment is resumed"
        else Ret d
  end.

(** ** Scaling one machine set *)

(** Whether it was scaled, and the machine set as it is now. *)
Definition scaleMachineSet (ms : MachineSet) (newScale : Z) (d : MachineDeployment) : prog (bool * MachineSet) :=
  let sizeNeedsUpdate := negb (is_Replicas ms =? newScale) in
  let '(isCopy, annotationsNeedUpdate) :=
    SetReplicasAnnotations ms (d_Replicas d) (d_Replicas d +32 MaxSurge d) in
  if sizeNeedsUpdate || annotationsNeedUpdate then
    let! ms := call (UpdateMS (is_set_Spec (set_Replicas newScale) isCopy)) in
    Ret (sizeNeedsUpdate, ms)
  else Ret (false, ms).

Definition scaleMachineSetAndRecordEvent (ms : MachineSet) (newScale : Z) (d : MachineDeployment)
  : prog (bool * MachineSet) :=
  if is_Replicas ms =? newScale then Ret (false, ms) else scaleMachineSet ms newScale d.

Section sync.
Context `{GoSort} `{FloatConv} `{Hasher}.

Definition GetMachineSetHash (ms : MachineSet) (uniquifier : option Z) : string :=
  let t := ms_Template (is_Spec ms) in
  FormatInt (ComputeHash (tp_set_Meta (fun m => set_Labels (CloneAndRemoveLabel (Labels m) hashKey) m) t) uniquifier).

(** *** Hash labels *)

Definition set_template_hash (hash : string) (ms : MachineSet) : option MachineSet :=
  let t := ms_Template (is_Spec ms) in
  if bool_decide (mget (Labels (tp_Meta t)) hashKey = hash) then None
  else Some (is_set_Spec (set_Template
         (tp_set_Meta (fun m => set_Labels (AddLabel (Labels m) hashKey hash) m) t)) ms).

Definition set_selector_hash (hash : string) (sel : LabelSelector) (ms : MachineSet) : option MachineSet :=
  if bool_decide (mget (Labels (is_Meta ms)) hashKey = hash /\ mget (MatchLabels sel) hashKey = hash) then None
  else Some (is_set_Spec (set_Selector (Some (AddLabelToSelector sel hashKey hash)))
         (is_set_Meta (set_Labels (AddLabel (Labels (is_Meta ms)) hashKey hash)) ms)).

(** The selector of the machine set the lister returns is dereferenced. *)
Fixpoint update_selector (n : nat) (hash : string) (ns name : string) : prog (option MachineSet * option error) :=
  match n with
  | O => Starve
  | S n' =>
      let again (is_ : option MachineSet) (e : error) :=
        if IsConflict e && negb (bool_decide (n' = O)) then update_selector n' hash ns name
        else Ret (is_, Some e) in
      let! g := call_try (ListerGetMS ns name) in
      match g with
      | Err e => again None e
      | Ok ms =>
          let! sel := deref (ms_Selector (is_Spec ms)) in
          match set_selector_hash hash sel ms with
          | None => Ret (Some ms, None)
          | Some ms' =>
              let! u := call_try (UpdateMS ms') in
              match u with
              | Ok r => Ret (Some r, None)
              | Err e => again (Some zero_machineset) e
              end
          end
      end
  end.

Definition addHashKeyToISAndMachines (cfg : Config) (ms : MachineSet) (machineList : option (list Machine))
    (collisionCount : option Z) : prog MachineSet :=
  let! selector := deref (ms_Selector (is_Spec ms)) in
  if SelectorHasLabel selector hashKey then Ret ms
  else
    let hash := GetMachineSetHash ms collisionCount in
    let ns := Namespace (is_Meta ms) in
    let! r := UpdateISWithRetries DefaultBackoff ns (is_Name ms) (set_template_hash hash) in
    match r with
    | (_, Some e) => Throw (Errorf "error updating machine set machine template label with template hash")
    | (updatedIS, None) =>
        let! updatedIS := deref updatedIS in
        let gen := Generation (is_Meta updatedIS) in
        let uns := Namespace (is_Meta updatedIS) in
        do! (if mss_ObservedGeneration (is_Status updatedIS) <? gen then
               let! w := attempt (WaitForMachineSetUpdated (cfg_poll_checks cfg) gen uns (is_Name updatedIS)) in
               match w with Err _ => Throw (Errorf "error waiting for machine set to be observed") | Ok _ => Ret tt end
             else Ret tt) in
        let! machines := deref machineList in
        do! LabelMachinesWithHash machines hash in
        let! w := attempt (WaitForMachinesHashPopulated (cfg_poll_checks cfg) gen uns (is_Name updatedIS)) in
        match w with
        | Err _ => Throw (Errorf "error waiting for machineset controller to observe machines being labeled")
        | Ok _ =>
            let! r := update_selector DefaultBackoff hash ns (is_Name ms) in
            match r with
            | (updatedIS, Some e) =>
                (* the message reads the name of the object that could not be fetched *)
                do! deref updatedIS in
                Throw (Errorf "error updating MachineSet label and selector with template hash")
            | (updatedIS, None) => deref updatedIS
            end
        end
    end.

Definition isAndMachinesWithHashKeySynced (cfg : Config) (d : MachineDeployment) (isList : list MachineSet)
    (machineMap : gmap string (list Machine)) : prog (list MachineSet) :=
  for_fold isList [] (fun synced ms =>
    let! syncedIS := addHashKeyToISAndMachines cfg ms (machineMap !! is_UID ms) (mds_CollisionCount (d_Status d)) in
    Ret (synced ++ [syncedIS])).

(** *** The new machine set *)

(** The four copies onto the existing machine set, and whether one of them changed it. *)
Definition sync_existing (d : MachineDeployment) (ms : MachineSet) (newRevision : string) : MachineSet * bool :=
  let '(isCopy, annotationsUpdated) := SetNewMachineSetAnnotations d ms newRevision true in
  let minReadySecondsNeedsUpdate :=
    negb (ms_MinReadySeconds (is_Spec isCopy) =? md_MinReadySeconds (d_Spec d)) in
  let '(isCopy, nodeTemplateUpdated) := SetNewMachineSetNodeTemplate d isCopy newRevision true in
  let '(isCopy, machineConfigUpdated) := SetNewMachineSetConfig d isCopy newRevision true in
  let '(isCopy, classKindUpdated) := UpdateMachineSetClassKind d isCopy newRevision true in
  (isCopy, annotationsUpdated || minReadySecondsNeedsUpdate || nodeTemplateUpdated
           || machineConfigUpdated || classKindUpdated).

Definition use_existing (d : MachineDeployment) (existingNewIS : MachineSet) (newRevision : string)
  : prog (option MachineSet * MachineDeployment) :=
  let '(isCopy, changed) := sync_existing d existingNewIS newRevision in
  if changed then
    let! ms := call (UpdateMS (is_set_Spec (set_MinReadySeconds (md_MinReadySeconds (d_Spec d))) isCopy)) in
    Ret (Some ms, d)
  else
    let '(d, needsUpdate) :=
      SetMachineDeploymentRevision d (mget (Annotations (is_Meta isCopy)) RevisionAnnotation) in
    let cond := GetMachineDeploymentCondition (d_Status d) MachineDeploymentProgressing in
    let! dn :=
      (if bool_decide (md_ProgressDeadlineSeconds (d_Spec d) <> None) && bool_decide (cond = None) then
         let! t1 := now in
         let! t2 := now in
         Ret (d_add_condition d t1 t2 ConditionTrue FoundNewISReason
                ("Found new machine set " +:+ quoted (is_Name isCopy)), true)
       else Ret (d, needsUpdate)) in
    let '(d, needsUpdate) := dn in
    if needsUpdate then
      let! d' := call (UpdateMD d) in
      do! call (UpdateStatusMD (d_set_Status (d_Status d) d')) in
      Ret (Some isCopy, d)
    else Ret (Some isCopy, d).

(** The machine set [getNewMachineSet] sends to the API server. *)
Definition new_machine_set (d : MachineDeployment) (selector : LabelSelector) (replicas : Z) : MachineSet :=
  let template := md_Template (d_Spec d) in
  let hash := FormatInt (ComputeHash template (mds_CollisionCount (d_Status d))) in
  let template := tp_set_Meta (fun m => set_Labels (CloneAndAddLabel (Labels m) hashKey hash) m) template in
  let encoded := SafeEncodeString hash in
  let encoded := if (5 <? String.length encoded)%nat then String.substring 0 5 encoded else encoded in
  mkMS (mkMeta (d_Name d +:+ "-" +:+ encoded) "" (Namespace (d_Meta d)) "" "" 0 zero_time None
          (Labels (tp_Meta template)) ∅ [NewControllerRef (d_Meta d) "MachineDeployment"] [])
       (mkMSSpec replicas (Some (CloneSelectorAndAddLabel selector hashKey hash)) zero_class template
          (md_MinReadySeconds (d_Spec d)))
       zero_ms_status.

Definition bump_collision (d : MachineDeployment) : MachineDeployment :=
  d_set_Status (mds_set_CollisionCount
    (Some (default 0 (mds_CollisionCount (d_Status d)) +32 1)) (d_Status d)) d.

Definition finish_create (d : MachineDeployment) (createdIS : MachineSet) (newRevision : string)
    (alreadyExists : bool) : prog (option MachineSet * MachineDeployment) :=
  let '(d, needsUpdate) := SetMachineDeploymentRevision d newRevision in
  let! dn :=
    (if negb alreadyExists && bool_decide (md_ProgressDeadlineSeconds (d_Spec d) <> None) then
       let! t1 := now in
       let! t2 := now in
       Ret (d_add_condition d t1 t2 ConditionTrue NewMachineSetReason
              ("Created new machine set " +:+ quoted (is_Name createdIS)), true)
     else Ret (d, needsUpdate)) in
  let '(d, needsUpdate) := dn in
  if needsUpdate then do! call (UpdateStatusMD d) in Ret (Some createdIS, d)
  else Ret (Some createdIS, d).

Definition create_new (d : MachineDeployment) (oldISs : list MachineSet) (newRevision : string)
  : prog (option MachineSet * MachineDeployment) :=
  let! selector := deref (md_Selector (d_Spec d)) in
  let empty := new_machine_set d selector 0 in
  let! newReplicasCount := or_throw (NewISNewReplicas d ((Some <$> oldISs) ++ [Some empty]) empty)
                             "cannot compute the size of the new machine set" in
  let newIS := (SetNewMachineSetAnnotations d (new_machine_set d selector newReplicasCount) newRevision false).1 in
  let! created := call_try (CreateMS newIS) in
  match created with
  | Ok createdIS => finish_create d createdIS newRevision false
  | Err e =>
      if IsAlreadyExists e then
        let! ms := call (ListerGetMS (Namespace (is_Meta newIS)) (is_Name newIS)) in
        if EqualIgnoreHash (md_Template (d_Spec d)) (ms_Template (is_Spec ms))
        then finish_create d ms newRevision true
        else do! call_ignore (UpdateStatusMD (bump_collision d)) in Throw e
      else
        match md_ProgressDeadlineSeconds (d_Spec d) with
        | None => Throw e
        | Some _ =>
            let! t1 := now in
            let! t2 := now in
            do! call_ignore (UpdateStatusMD
              (d_add_condition d t1 t2 ConditionFalse FailedISCreateReason
                 ("Failed to create new machine set " +:+ quoted (is_Name newIS) +:+ ": " +:+ err_msg e))) in
            Throw e
        end
  end.

Definition getNewMachineSet (d : MachineDeployment) (isList oldISs : list MachineSet) (createIfNotExisted : bool)
  : prog (option MachineSet * MachineDeployment) :=
  let newRevision := FormatInt (MaxRevision oldISs +64 1) in
  match FindNewMachineSet d isList with
  | Some existingNewIS => use_existing d existingNewIS newRevision
  | None => if createIfNotExisted then create_new d oldISs newRevision else Ret (None, d)
  end.

(** The new machine set, the old ones and the deployment. *)
Definition getAllMachineSetsAndSyncRevision (cfg : Config) (d : MachineDeployment) (isList : list MachineSet)
    (machineMap : gmap string (list Machine)) (createIfNotExisted : bool)
  : prog (option MachineSet * list MachineSet * MachineDeployment) :=
  let! r := attempt (isAndMachinesWithHashKeySynced cfg d isList machineMap) in
  match r with
  | Err e => Throw (Errorf "error labeling machine sets and machine with machine-template-hash")
  | Ok isList =>
      let allOldISs := (FindOldMachineSets d isList).2 in
      let! r := getNewMachineSet d (sort_by_creation isList) allOldISs createIfNotExisted in
      let '(newIS, d) := r in
      Ret (newIS, allOldISs, d)
  end.

(** *** Proportional scaling *)

Definition allowed_size (d : MachineDeployment) : Z :=
  if 0 <? d_Replicas d then d_Replicas d +32 MaxSurge d else 0.

(** First loop: the estimated size of every machine set, and the sum of the proportions. *)
Definition estimate_step (d : MachineDeployment) (toAdd : Z) (acc : Z * gmap string Z) (ms : MachineSet)
  : Z * gmap string Z :=
  let '(added, nameToSize) := acc in
  if negb (toAdd =? 0) then
    let proportion := GetProportion (Some ms) d toAdd added in
    (added +32 proportion, <[is_Name ms := is_Replicas ms +32 proportion]> nameToSize)
  else (added, <[is_Name ms := is_Replicas ms]> nameToSize).

Definition estimate (d : MachineDeployment) (toAdd : Z) (allISs : list MachineSet) : Z * gmap string Z :=
  foldl (estimate_step d toAdd) (0, ∅) allISs.

(** The leftover goes to the first, largest machine set; its size never goes below 0. *)
Definition add_leftover (toAdd added : Z) (nameToSize : gmap string Z) (ms : MachineSet) : gmap string Z :=
  let leftover := toAdd -32 added in
  let n := default 0 (nameToSize !! is_Name ms) +32 leftover in
  <[is_Name ms := if n <? 0 then 0 else n]> nameToSize.

Definition final_sizes (d : MachineDeployment) (toAdd : Z) (allISs : list MachineSet) : gmap string Z :=
  let '(added, nameToSize) := estimate d toAdd allISs in
  match allISs with
  | ms :: _ => if negb (toAdd =? 0) then add_leftover toAdd added nameToSize ms else nameToSize
  | [] => nameToSize
  end.

Definition sort_for_scaling (toAdd : Z) (allISs : list MachineSet) : list MachineSet :=
  if 0 <? toAdd then gosort MachineSetsBySizeNewer_Less allISs
  else if toAdd <? 0 then gosort MachineSetsBySizeOlder_Less allISs
  else allISs.

Definition scale_proportionally (d : MachineDeployment) (newIS : option MachineSet) (oldISs : list MachineSet)
  : prog unit :=
  let allISs := FilterActiveMachineSets ((Some <$> oldISs) ++ [newIS]) in
  let toAdd := allowed_size d -32 GetReplicaCountForMachineSets (Some <$> allISs) in
  let allISs := sort_for_scaling toAdd allISs in
  let sizes := final_sizes d toAdd allISs in
  for_each allISs (fun ms =>
    do! scaleMachineSet ms (default 0 (sizes !! is_Name ms)) d in Ret tt).

(** The old machine sets as [FindActiveOrLatest] leaves them. *)
Definition sort_for_latest (oldISs : list MachineSet) : list MachineSet :=
  gosort (reverse_less MachineSetsByCreationTimestamp_Less) oldISs.

Definition scale (d : MachineDeployment) (newIS : option MachineSet) (oldISs : list MachineSet) : prog unit :=
  match FindActiveOrLatest newIS oldISs with
  | Some activeOrLatest =>
      if is_Replicas activeOrLatest =? d_Replicas d then Ret tt
      else do! scaleMachineSetAndRecordEvent activeOrLatest (d_Replicas d) d in Ret tt
  | None =>
      let oldISs := sort_for_latest oldISs in
      if IsSaturated d newIS then
        for_each (FilterActiveMachineSets (Some <$> oldISs)) (fun old =>
          do! scaleMachineSetAndRecordEvent old 0 d in Ret tt)
      else if IsRollingUpdate d then scale_proportionally d newIS oldISs
      else Ret tt
  end.

(** *** Clean-up *)

(** Never a machine set that has, or is about to have, machines. *)
Definition cleanable (ms : MachineSet) : bool :=
  (mss_Replicas (is_Status ms) =? 0) && (is_Replicas ms =? 0) &&
  (Generation (is_Meta ms) <=? mss_ObservedGeneration (is_Status ms)) &&
  bool_decide (DeletionTimestamp (is_Meta ms) = None).

Definition cleanupMachineDeployment (oldISs : list MachineSet) (d : MachineDeployment) : prog unit :=
  match md_RevisionHistoryLimit (d_Spec d) with
  | None => Ret tt
  | Some limit =>
      let cleanableISes := filter (fun ms => DeletionTimestamp (is_Meta ms) = None) oldISs in
      let diff := wrap32 (Z.of_nat (length cleanableISes)) -32 limit in
      if diff <=? 0 then Ret tt
      else
        let cleanableISes := sort_by_creation cleanableISes in
        do! for_each (take (Z.to_nat diff) cleanableISes) (fun ms =>
          if negb (cleanable ms) then Ret tt
          else
            let! r := call_try (DeleteMS (Namespace (is_Meta ms)) (is_Name ms)) in
            match r with
            | Err e => if IsNotFound e then Ret tt else Throw e
            | Ok _ => Ret tt
            end) in
        (* a negative limit runs past the end of the slice *)
        if Z.of_nat (length cleanableISes) <? diff then Crash else Ret tt
  end.

(** *** The three entry points *)

Definition syncStatusOnly (cfg : Config) (d : MachineDeployment) (isList : list MachineSet)
    (machineMap : gmap string (list Machine)) : prog unit :=
  let! r := getAllMachineSetsAndSyncRevision cfg d isList machineMap false in
  let '(newIS, oldISs, d) := r in
  syncMachineDeploymentStatus ((Some <$> oldISs) ++ [newIS]) newIS d.

Definition sync (cfg : Config) (d : MachineDeployment) (isList : list MachineSet)
    (machineMap : gmap string (list Machine)) : prog unit :=
  let! r := getAllMachineSetsAndSyncRevision cfg d isList machineMap false in
  let '(newIS, oldISs, d) := r in
  do! scale d newIS oldISs in
  let oldISs := sort_for_latest oldISs in
  do! (if md_Paused (d_Spec d) && bool_decide (md_RollbackTo (d_Spec d) = None)
       then cleanupMachineDeployment oldISs d else Ret tt) in
  syncMachineDeploymentStatus ((Some <$> oldISs) ++ [newIS]) newIS d.

(** Whether the size of the deployment differs from the one its active sets were scaled for. *)
Definition scaling_needed (d : MachineDeployment) (active : list MachineSet) : bool :=
  existsb (fun ms => match GetDesiredReplicasAnnotation ms with
                     | (desired, true) => negb (desired =? d_Replicas d)
                     | (_, false) => false
                     end) active.

Definition isScalingEvent (cfg : Config) (d : MachineDeployment) (isList : list MachineSet)
    (machineMap : gmap string (list Machine)) : prog (bool * MachineDeployment) :=
  let! r := getAllMachineSetsAndSyncRevision cfg d isList machineMap false in
  let '(newIS, oldISs, d) := r in
  Ret (scaling_needed d (FilterActiveMachineSets ((Some <$> oldISs) ++ [newIS])), d).
End sync.

(** ** Requested sizes *)

(** The size last asked for the machine set [name] by the writes [ws]. *)
Fixpoint requested (ws : list req) (name : string) (current : Z) : Z :=
  match ws with
  | [] => current
  | UpdateMS m :: ws' => requested ws' name (if bool_decide (is_Name m = name) then is_Replicas m else current)
  | _ :: ws' => requested ws' name current
  end.

(** [r] updates [ms] to size [n] and changes nothing else but the replica annotations. *)
Definition resizes (d : MachineDeployment) (ms : MachineSet) (n : Z) (r : req) : Prop :=
  r = UpdateMS (is_set_Spec (set_Replicas n) (SetReplicasAnnotations ms (d_Replicas d) (d_Replicas d +32 MaxSurge d)).1).

Lemma SetReplicasAnnotations_frame ms a b :
  is_Name (SetReplicasAnnotations ms a b).1 = is_Name ms /\ is_Spec (SetReplicasAnnotations ms a b).1 = is_Spec ms.
Proof. unfold SetReplicasAnnotations. by destruct (set_if_differs _ _ _). Qed.

Lemma resizes_requested d ms n r name cur : resizes d ms n r ->
  requested [r] name cur = if bool_decide (is_Name ms = name) then n else cur.
Proof.
  intros ->. simpl. destruct (SetReplicasAnnotations_frame ms (d_Replicas d) (d_Replicas d +32 MaxSurge d)) as [Hn _].
  unfold is_Name in *. simpl. rewrite Hn. done.
Qed.

Lemma requested_app ws1 ws2 name cur : requested (ws1 ++ ws2) name cur = requested ws2 name (requested ws1 name cur).
Proof. revert cur; induction ws1 as [|r ws1 IH]; intros cur; [done|]. destruct r; simpl; apply IH. Qed.

Lemma requested_other d ws (ns : list (MachineSet * Z)) name cur :
  Forall (fun r => exists p, p ∈ ns /\ resizes d p.1 p.2 r) ws ->
  (forall p, p ∈ ns -> is_Name p.1 <> name) -> requested ws name cur = cur.
Proof.
  intros HF Hne. induction HF as [|r ws (p & Hp & Hr) _ IH]; [done|].
  change (r :: ws) with ([r] ++ ws). rewrite requested_app, (resizes_requested _ _ _ _ _ _ Hr).
  rewrite bool_decide_false by by apply Hne. apply IH.
Qed.

(** One scaling step: at most one update, of this machine set to this size; when it returns the size
    asked for is the new one. *)
Lemma exec_scaleMachineSet ms n d h o : exec (scaleMachineSet ms n d) h o ->
  (writes h = [] \/ exists r, writes h = [r] /\ resizes d ms n r) /\
  (forall b ms', o = Return (b, ms') ->
     requested (writes h) (is_Name ms) (is_Replicas ms) = n /\
     b = negb (is_Replicas ms =? n) /\ (is_Replicas ms <> n -> exists r x, h = [ev (UpdateMS r) (Ok x)] /\ x = ms')).
Proof.
  unfold scaleMachineSet. destruct (SetReplicasAnnotations _ _ _) as [isCopy upd] eqn:Es.
  assert (Hr : resizes d ms n (UpdateMS (is_set_Spec (set_Replicas n) isCopy))) by (unfold resizes; by rewrite Es).
  pose proof (resizes_requested _ _ _ _ (is_Name ms) (is_Replicas ms) Hr) as Hq.
  rewrite bool_decide_true in Hq by done.
  destruct (negb (is_Replicas ms =? n) || upd) eqn:Eb; simpl; intros He.
  - destruct He as (x & h' & -> & He). destruct x as [x|e]; simpl in He; destruct He as [-> ->].
    all: rewrite writes_cons; simpl; split; [right; eauto|]; intros b ms' Hb; simplify_eq.
    split; [exact Hq|]. split; [done|]. eauto.
  - destruct He as [-> ->]. apply orb_false_iff in Eb as [Eb _]. apply negb_false_iff, Z.eqb_eq in Eb.
    split; [by left|]. intros b ms' Hb. simplify_eq. rewrite Z.eqb_refl. done.
Qed.

Lemma exec_scale_loop (size : MachineSet -> Z) d l h o : NoDup (is_Name <$> l) ->
  exec (for_each l (fun ms => do! scaleMachineSet ms (size ms) d in Ret tt)) h o ->
  Forall (fun r => exists p, p ∈ ((fun ms => (ms, size ms)) <$> l) /\ resizes d p.1 p.2 r) (writes h) /\
  (o = Return tt -> forall ms, ms ∈ l -> requested (writes h) (is_Name ms) (is_Replicas ms) = size ms).
Proof.
  revert h; induction l as [|x l IH]; intros h Hnd He; csimpl in He.
  { destruct He as [-> ->]. split; [constructor|]. intros _ ms Hms. by apply not_elem_of_nil in Hms. }
  csimpl in Hnd. apply NoDup_cons in Hnd as [Hx Hnd].
  assert (Hstep : forall h o, exec (do! scaleMachineSet x (size x) d in Ret tt) h o ->
    (writes h = [] \/ exists r, writes h = [r] /\ resizes d x (size x) r) /\
    (o = Return tt -> requested (writes h) (is_Name x) (is_Replicas x) = size x)).
  { intros h' o' E. destruct (exec_bind _ _ _ _ E) as [(h1 & [b ms'] & h2 & -> & E1 & -> & ->)|(o2 & E1 & E2 & ->)];
      apply exec_scaleMachineSet in E1 as [W1 W2].
    - rewrite app_nil_r. split; [done|]. intros _. by destruct (W2 b ms' eq_refl).
    - split; [done|]. by destruct o2. }
  assert (Hfst : forall h, (writes h = [] \/ exists r, writes h = [r] /\ resizes d x (size x) r) ->
    Forall (fun r => exists p, p ∈ ((fun ms => (ms, size ms)) <$> [x]) /\ resizes d p.1 p.2 r) (writes h)).
  { intros h' [->|(r & -> & Hr)]; repeat constructor. exists (x, size x). split; [by left|done]. }
  destruct (exec_bind _ _ _ _ He) as [(h1 & [] & h2 & -> & E1 & E2)|(o' & E1 & E2 & ->)];
    apply Hstep in E1 as [W1 W2]; pose proof (Hfst _ W1) as F1.
  - destruct (IH h2 Hnd E2) as [V1 V2]. rewrite writes_app. split.
    + apply Forall_app. split; (eapply Forall_impl; [eassumption|]); intros r (p & Hp & Hr); exists p; set_solver.
    + intros -> ms Hms. rewrite requested_app. apply elem_of_cons in Hms as [->|Hms].
      * rewrite W2 by done. apply (requested_other d _ _ _ _ V1).
        intros p Hp. apply list_elem_of_fmap in Hp as (y & -> & Hy). simpl. intros E. apply Hx.
        rewrite <- E. by apply list_elem_of_fmap_2.
      * rewrite (requested_other d _ _ _ _ F1); [by apply V2|].
        intros p Hp. apply list_elem_of_fmap in Hp as (y & -> & Hy). apply list_elem_of_singleton in Hy as ->.
        simpl. intros E. apply Hx. rewrite E. by apply list_elem_of_fmap_2.
  - split; [|by destruct o']. eapply Forall_impl; [exact F1|]. intros r (p & Hp & Hr). exists p. set_solver.
Qed.

(** ** Proportions add up *)

Section proportions.
Context `{GoSort} `{FloatConv} (d : MachineDeployment).

(** The proportions one after the other, in exact arithmetic. *)
Fixpoint proportions (toAdd added : Z) (l : list MachineSet) : list Z :=
  match l with
  | [] => []
  | ms :: l => let p := GetProportion (Some ms) d toAdd added in p :: proportions toAdd (added + p) l
  end.

Abbreviation total l := (zsum is_Replicas l).

(** Everything in [int32] range: no multiplication in the fraction overflows, and the machine set knows
    a positive size it was scaled for. *)
Definition scalable (ms : MachineSet) : Prop :=
  0 < is_Replicas ms /\ is_Replicas ms * (d_Replicas d + MaxSurge d) <= max_int32 /\
  match getMaxReplicasAnnotation ms with (v, true) => 0 < v | (_, false) => 0 < mds_Replicas (d_Status d) end.

Lemma round_nonneg oob n a : 0 <= n <= max_int32 -> 0 < a -> 0 <= RoundToInt32 oob n a <= max_int32.
Proof.
  intros Hn Ha. unfold RoundToInt32. destruct (Z.eqb_spec a 0); [lia|].
  rewrite (Z.abs_eq n), (Z.abs_eq a), (Z.sgn_pos a) by lia.
  set (q := (2 * n + a) / (2 * a)).
  assert (0 <= q <= n \/ n = 0 /\ q = 0).
  { subst q. destruct (Z.eq_dec n 0) as [->|Hn0].
    - right. split; [done|]. apply Z.div_small. lia.
    - left. split; [apply Z.div_pos; lia|]. enough ((2 * n + a) / (2 * a) < n + 1) by lia.
      apply Z.div_lt_upper_bound; nia. }
  assert (Z.sgn n * 1 * q = q) as ->.
  { destruct (Z.eq_dec n 0) as [->|]; [simpl; lia|]. rewrite Z.sgn_pos by lia. lia. }
  rewrite bool_decide_true by width. lia.
Qed.

Lemma fraction_bounds ms : wf_rolling d -> 0 < d_Replicas d -> d_Replicas d + MaxSurge d <= max_int32 ->
  scalable ms -> - is_Replicas ms <= getMachineSetFraction ms d <= max_int32.
Proof.
  intros Hwf Hd Hs (Hr & Hm & Ha). unfold getMachineSetFraction.
  pose proof (MaxSurge_range d Hwf). destruct (Z.eqb_spec (d_Replicas d) 0); [lia|].
  rewrite (wrap32_id (d_Replicas d + MaxSurge d)) by width.
  assert (is_Replicas ms <= max_int32) by nia.
  rewrite (wrap32_id (is_Replicas ms * _)) by (split; [unfold min_int32; nia|lia]).
  destruct (getMaxReplicasAnnotation ms) as [v []];
    match goal with |- context [RoundToInt32 ?o ?n ?a] =>
      pose proof (round_nonneg o n a ltac:(nia) ltac:(lia)) end;
    rewrite wrap32_id by width; lia.
Qed.

Lemma proportion_up ms toAdd added : wf_rolling d -> 0 < d_Replicas d ->
  d_Replicas d + MaxSurge d <= max_int32 -> scalable ms ->
  0 < toAdd <= max_int32 -> added <= toAdd -> - max_int32 <= toAdd - added <= max_int32 ->
  - is_Replicas ms <= GetProportion (Some ms) d toAdd added <= toAdd - added.
Proof.
  intros Hwf Hd Hs Hsc Ht Ha Hb. pose proof (fraction_bounds ms Hwf Hd Hs Hsc). destruct Hsc as (Hr & _ & _).
  unfold GetProportion. rewrite Int32Min_spec, (wrap32_id (toAdd - added)) by width.
  destruct (Z.eqb_spec (is_Replicas ms) 0), (Z.eqb_spec toAdd 0), (Z.eqb_spec toAdd added); simpl; try lia.
  destruct (Z.ltb_spec 0 toAdd); lia.
Qed.

Lemma proportions_up l toAdd added : wf_rolling d -> 0 < d_Replicas d ->
  d_Replicas d + MaxSurge d <= max_int32 -> Forall scalable l ->
  0 < toAdd <= max_int32 -> added <= toAdd -> total l + (toAdd - added) <= max_int32 ->
  Forall2 (fun ms p => 0 <= is_Replicas ms + p <= is_Replicas ms + (toAdd - added) + total l) l (proportions toAdd added l) /\
  - total l <= zsum id (proportions toAdd added l) <= toAdd - added.
Proof.
  intros Hwf Hd Hs HF Ht. revert added. induction HF as [|ms l Hms HF IH]; intros added Ha Hb; cbn [proportions].
  { rewrite !zsum_nil. split; [constructor|]. lia. }
  rewrite !zsum_cons in *. pose proof Hms as (Hr & _ & _).
  assert (0 <= total l) by (apply zsum_nonneg; eapply Forall_impl; [exact HF|]; intros x (Hx & _); lia).
  pose proof (proportion_up ms toAdd added Hwf Hd Hs Hms Ht Ha ltac:(lia)) as Hp.
  set (p := GetProportion (Some ms) d toAdd added) in *. change (id p) with p.
  destruct (IH (added + p) ltac:(lia) ltac:(lia)) as [I1 I2]. split; [|lia].
  constructor; [lia|]. eapply Forall2_impl; [exact I1|]. simpl. lia.
Qed.

(** The first loop computes [proportions], and the size of each set is its own plus its proportion. *)
Lemma estimate_spec l toAdd added (m : gmap string Z) : wf_rolling d -> 0 < d_Replicas d ->
  d_Replicas d + MaxSurge d <= max_int32 -> Forall scalable l ->
  0 < toAdd <= max_int32 -> - max_int32 + total l <= added <= toAdd -> total l + (toAdd - added) <= max_int32 ->
  NoDup (is_Name <$> l) ->
  exists m', foldl (estimate_step d toAdd) (added, m) l = (added + zsum id (proportions toAdd added l), m') /\
    (forall name, name ∉ is_Name <$> l -> m' !! name = m !! name) /\
    Forall2 (fun ms p => m' !! is_Name ms = Some (is_Replicas ms + p)) l (proportions toAdd added l).
Proof.
  intros Hwf Hd Hs HF Ht. revert added m. induction HF as [|ms l Hms HF IH]; intros added m Ha Hb Hnd.
  { exists m. split; [by rewrite Z.add_0_r|]. split; [done|constructor]. }
  csimpl in Hnd. apply NoDup_cons in Hnd as [Hx Hnd]. cbn [proportions foldl]. rewrite !zsum_cons in *.
  pose proof Hms as (Hr & _ & _).
  assert (0 <= total l) by (apply zsum_nonneg; eapply Forall_impl; [exact HF|]; intros x (Hx0 & _); lia).
  pose proof (proportion_up ms toAdd added Hwf Hd Hs Hms Ht ltac:(lia) ltac:(lia)) as Hp.
  unfold estimate_step at 2. destruct (Z.eqb_spec toAdd 0) as [|_]; [lia|]. cbn [negb].
  set (p := GetProportion (Some ms) d toAdd added) in *.
  rewrite (wrap32_id (added + p)), (wrap32_id (is_Replicas ms + p)) by width.
  destruct (IH (added + p) (<[is_Name ms := is_Replicas ms + p]> m) ltac:(lia) ltac:(lia) Hnd) as (m' & -> & M1 & M2).
  exists m'. split; [change (id p) with p; f_equal; lia|]. split.
  - intros name Hn. csimpl in Hn. apply not_elem_of_cons in Hn as [Hn1 Hn2].
    rewrite M1 by done. by rewrite lookup_insert_ne.
  - constructor; [|done]. rewrite M1 by done. by rewrite lookup_insert_eq.
Qed.

Definition size_of (sizes : gmap string Z) (ms : MachineSet) : Z := default 0 (sizes !! is_Name ms).

Lemma zsum_sizes l ps m : Forall2 (fun ms p => m !! is_Name ms = Some (is_Replicas ms + p)) l ps ->
  zsum (size_of m) l = total l + zsum id ps.
Proof.
  induction 1 as [|ms p l ps Hm _ IH]; [done|]. rewrite !zsum_cons, IH. unfold size_of. rewrite Hm. simpl. unfold id. lia.
Qed.

Lemma Forall2_sizes_nonneg l ps m toAdd : Forall2 (fun ms p => m !! is_Name ms = Some (is_Replicas ms + p)) l ps ->
  Forall2 (fun ms p => 0 <= is_Replicas ms + p <= is_Replicas ms + toAdd) l ps ->
  Forall (fun ms => 0 <= size_of m ms) l.
Proof.
  intros H1. induction H1 as [|ms p l ps Hm _ IH]; intros H2; inversion H2; subst; constructor; auto.
  unfold size_of. rewrite Hm. simpl. lia.
Qed.

(** Scaling up: the sizes add up to the old total plus what was to be added, and none is negative. *)
Lemma final_sizes_up l toAdd : wf_rolling d -> 0 < d_Replicas d ->
  d_Replicas d + MaxSurge d <= max_int32 -> Forall scalable l -> NoDup (is_Name <$> l) -> l <> [] ->
  0 < toAdd -> total l + toAdd <= max_int32 ->
  zsum (size_of (final_sizes d toAdd l)) l = total l + toAdd /\
  Forall (fun ms => 0 <= size_of (final_sizes d toAdd l) ms) l.
Proof.
  intros Hwf Hd Hs HF Hnd Hne Ht Hb.
  assert (0 <= total l) by (apply zsum_nonneg; eapply Forall_impl; [exact HF|]; intros x (Hx & _); lia).
  destruct (estimate_spec l toAdd 0 ∅ Hwf Hd Hs HF ltac:(lia) ltac:(lia) ltac:(lia) Hnd) as (m & Hm & _ & H2).
  destruct (proportions_up l toAdd 0 Hwf Hd Hs HF ltac:(lia) ltac:(lia) ltac:(lia)) as [P1 P2].
  unfold final_sizes, estimate. rewrite Hm. destruct l as [|ms l]; [done|].
  destruct (Z.eqb_spec toAdd 0); [lia|]. cbn [negb].
  cbn [proportions] in *. set (p := GetProportion (Some ms) d toAdd 0) in *.
  set (ps' := proportions toAdd (0 + p) l) in *. rewrite !zsum_cons in *.
  apply Forall2_cons in H2 as [Hms H2'], P1 as [Pms P1']. change (id p) with p in *.
  apply Forall_cons in HF as [Hsc HFl]. pose proof Hsc as (Hr & _ & _).
  assert (0 <= total l) by (apply zsum_nonneg; eapply Forall_impl; [exact HFl|]; intros x (Hx & _); lia).
  pose proof (proportion_up ms toAdd 0 Hwf Hd Hs Hsc ltac:(lia) ltac:(lia) ltac:(lia)) as Hp. fold p in Hp.
  destruct (proportions_up l toAdd (0 + p) Hwf Hd Hs HFl ltac:(lia) ltac:(lia) ltac:(lia)) as [_ Hz].
  fold ps' in Hz. unfold add_leftover. rewrite Hms. cbn [from_option].
  change (id (is_Replicas ms + p)) with (is_Replicas ms + p).
  csimpl in Hnd. apply NoDup_cons in Hnd as [Hx Hnd].
  rewrite (wrap32_id (toAdd - _)) by width. rewrite (wrap32_id (is_Replicas ms + p + _)) by width.
  destruct (Z.ltb_spec (is_Replicas ms + p + (toAdd - (0 + (p + zsum id ps')))) 0) as [|Hge]; [lia|].
  set (m' := <[is_Name ms := _]> m).
  assert (forall x, x ∈ l -> size_of m' x = size_of m x) as Hsame.
  { intros x Hin. unfold size_of, m'. rewrite lookup_insert_ne; [done|]. intros E. apply Hx. rewrite E.
    by apply list_elem_of_fmap_2. }
  assert (size_of m' ms = is_Replicas ms + p + (toAdd - (0 + (p + zsum id ps')))) as Hfirst.
  { unfold size_of, m'. by rewrite lookup_insert_eq. }
  split.
  - rewrite Hfirst.
    rewrite (zsum_ext (size_of m') (size_of m) l) by (apply Forall_forall; auto).
    rewrite (zsum_sizes l ps' m H2'). lia.
  - constructor; [lia|].
    assert (Forall (fun x => 0 <= size_of m x) l) as HFm.
    { eapply Forall2_sizes_nonneg with (toAdd := toAdd - 0 + (is_Replicas ms + total l)); [exact H2'|].
      eapply Forall2_impl; [exact P1'|]. simpl. lia. }
    rewrite Forall_forall in *. intros x Hin. rewrite Hsame by done. auto.
Qed.

(** C3: proportional scale-up conserves the total.  When the active machine sets of a rolling deployment
    together are smaller than size plus surge and the scaling succeeds, the sizes it has asked
    for add up to exactly size plus surge: rounding neither loses a replica nor adds one, and
    no set is given a negative size. *)
Theorem scale_up_conserves newIS oldISs h :
  let allISs := FilterActiveMachineSets ((Some <$> oldISs) ++ [newIS]) in
  wf_rolling d -> 0 < d_Replicas d -> NoDup (is_Name <$> allISs) -> Forall scalable allISs -> allISs <> [] ->
  total allISs < d_Replicas d + MaxSurge d <= max_int32 ->
  exec (scale_proportionally d newIS oldISs) h (Return tt) ->
  zsum (fun ms => requested (writes h) (is_Name ms) (is_Replicas ms)) allISs = d_Replicas d + MaxSurge d /\
  Forall (fun ms => 0 <= requested (writes h) (is_Name ms) (is_Replicas ms)) allISs.
Proof.
  intros allISs Hwf Hd Hnd HF Hne Htot He. unfold scale_proportionally in He. fold allISs in He.
  assert (0 <= total allISs) by (apply zsum_nonneg; eapply Forall_impl; [exact HF|]; intros x (Hx & _); lia).
  pose proof (MaxSurge_range d Hwf) as Hms.
  assert (GetReplicaCountForMachineSets (Some <$> allISs) = total allISs) as Hc.
  { unfold GetReplicaCountForMachineSets. rewrite sum32_exact; rewrite opt_count_Some_list; [done|width]. }
  assert (allowed_size d = d_Replicas d + MaxSurge d) as Ha.
  { unfold allowed_size. destruct (Z.ltb_spec 0 (d_Replicas d)); [|lia]. apply wrap32_id. width. }
  rewrite Hc, Ha in He. rewrite (wrap32_id (d_Replicas d + MaxSurge d - _)) in He by width.
  set (toAdd := d_Replicas d + MaxSurge d - total allISs) in *.
  set (l := sort_for_scaling toAdd allISs) in *.
  assert (l ≡ₚ allISs) as Hperm.
  { unfold l, sort_for_scaling. destruct (Z.ltb_spec 0 toAdd); [apply gosort_perm|lia]. }
  assert (NoDup (is_Name <$> l)) as Hnd' by by rewrite Hperm.
  destruct (exec_scale_loop (size_of (final_sizes d toAdd l)) d l h (Return tt) Hnd' He) as [_ Hreq].
  specialize (Hreq eq_refl).
  destruct (final_sizes_up l toAdd Hwf Hd) as [F1 F2]; try done.
  { lia. } { by rewrite Hperm. } { intros E. apply Hne. apply Permutation_nil. by rewrite <- E. } { lia. }
  { rewrite (zsum_perm _ _ _ Hperm). lia. }
  split.
  - rewrite <- (zsum_perm _ _ _ Hperm).
    rewrite (zsum_ext _ (size_of (final_sizes d toAdd l)) l) by (apply Forall_forall; auto).
    rewrite F1, (zsum_perm _ _ _ Hperm). lia.
  - rewrite <- Hperm at 1. rewrite Forall_forall in *. intros ms Hin. rewrite Hreq by done. auto.
Qed.
End proportions.

(** ** Clean-up of old machine sets *)

Lemma length_filter_le_all {A} (P : A -> Prop) `{forall x, Decision (P x)} (l : list A) :
  (length (filter P l) <= length l)%nat.
Proof. apply length_filter. Qed.

Definition delete_of (ms : MachineSet) : req := DeleteMS (Namespace (is_Meta ms)) (is_Name ms).

Section cleanup_facts.
Context `{GoSort}.

Definition cleanup_body (ms : MachineSet) : prog unit :=
  if negb (cleanable ms) then Ret tt
  else
    let! r := call_try (DeleteMS (Namespace (is_Meta ms)) (is_Name ms)) in
    match r with
    | Err e => if IsNotFound e then Ret tt else Throw e
    | Ok _ => Ret tt
    end.

Lemma exec_cleanup_body ms h o : exec (cleanup_body ms) h o ->
  (writes h = [] \/ writes h = [delete_of ms] /\ cleanable ms = true) /\ o <> Panic /\ o <> OutOfFuel.
Proof.
  unfold cleanup_body. destruct (cleanable ms); simpl; intros He.
  - destruct He as (x & h' & -> & He). rewrite writes_cons. simpl.
    destruct x as [?|e]; [|destruct (IsNotFound e)]; destruct He as [-> ->]; (split; [by right|done]).
  - destruct He as [-> ->]. split; [by left|done].
Qed.

Lemma exec_cleanup_loop l h o : exec (for_each l cleanup_body) h o ->
  Forall (fun r => exists ms, ms ∈ l /\ cleanable ms = true /\ r = delete_of ms) (writes h) /\
  (length (writes h) <= length l)%nat /\ o <> Panic /\ o <> OutOfFuel.
Proof.
  revert h; induction l as [|ms l IH]; intros h He; simpl in He.
  { destruct He as [-> ->]. split; [constructor|]. simpl. split; [lia|done]. }
  destruct (exec_bind _ _ _ _ He) as [(h1 & [] & h2 & -> & E1 & E2)|(o' & E1 & E2 & ->)];
    destruct (exec_cleanup_body _ _ _ E1) as (W & Hp & Hf).
  - destruct (IH h2 E2) as (I1 & I2 & I3 & I4). rewrite writes_app, length_app. split; [|split; [|done]].
    + apply Forall_app. split.
      * destruct W as [->|[-> Hc]]; repeat constructor. exists ms. split; [by left|done].
      * eapply Forall_impl; [exact I1|]. intros r (x & Hx & ?). exists x. split; [by right|done].
    + destruct W as [->|[-> _]]; simpl; lia.
  - split; [|split].
    + destruct W as [->|[-> Hc]]; repeat constructor. exists ms. split; [by left|done].
    + destruct W as [->|[-> _]]; simpl; lia.
    + by destruct o'.
Qed.

(** Clean-up only ever deletes old machine sets that are not being deleted, have no replicas, want
    none and whose emptiness has been observed; it keeps at least as many old machine sets as the
    revision history limit asks for; and with a limit that is not negative it does not run past
    the end of the list. *)
Theorem cleanup_safe oldISs d limit h o :
  md_RevisionHistoryLimit (d_Spec d) = Some limit -> 0 <= limit <= max_int32 ->
  Z.of_nat (length oldISs) <= max_int32 ->
  exec (cleanupMachineDeployment oldISs d) h o ->
  Forall (fun r => exists ms, ms ∈ oldISs /\ cleanable ms = true /\ r = delete_of ms) (writes h) /\
  (Z.of_nat (length (writes h)) <=
     Z.max 0 (Z.of_nat (length (filter (fun ms => DeletionTimestamp (is_Meta ms) = None) oldISs)) - limit)) /\
  o <> Panic.
Proof.
  intros Hl Hlim Hlen He. unfold cleanupMachineDeployment in He. rewrite Hl in He.
  set (alive := filter (fun ms => DeletionTimestamp (is_Meta ms) = None) oldISs) in *.
  assert (Z.of_nat (length alive) <= max_int32) by (pose proof (length_filter (fun ms => DeletionTimestamp (is_Meta ms) = None) oldISs); subst alive; lia).
  rewrite (wrap32_id (Z.of_nat (length alive))) in He by width.
  rewrite (wrap32_id (Z.of_nat (length alive) - limit)) in He by width.
  destruct (Z.leb_spec (Z.of_nat (length alive) - limit) 0).
  { destruct He as [-> ->]. split; [constructor|]. split; [simpl; lia|done]. }
  set (sorted := sort_by_creation alive) in *. fold cleanup_body in He.
  assert (length sorted = length alive) as Hsl by (unfold sorted, sort_by_creation; by rewrite gosort_perm).
  set (n := Z.to_nat (Z.of_nat (length alive) - limit)) in *.
  assert (Hb : forall h o, exec (for_each (take n sorted) cleanup_body) h o ->
    Forall (fun r => exists ms, ms ∈ oldISs /\ cleanable ms = true /\ r = delete_of ms) (writes h) /\
    (length (writes h) <= n)%nat /\ o <> Panic).
  { intros h' o' E. destruct (exec_cleanup_loop _ _ _ E) as (I1 & I2 & I3 & _). split; [|split; [|done]].
    - eapply Forall_impl; [exact I1|]. intros r (ms & Hms & ?). exists ms. split; [|done].
      apply elem_of_take in Hms as (i & Hi & _). apply list_elem_of_lookup_2 in Hi.
      unfold sorted in Hi. rewrite sort_by_creation_elem in Hi. by apply list_elem_of_filter in Hi as [_ Hi].
    - rewrite length_take in I2. lia. }
  destruct (exec_bind _ _ _ _ He) as [(h1 & [] & h2 & -> & E1 & E2)|(o' & E1 & E2 & ->)];
    destruct (Hb _ _ E1) as (W1 & W2 & W3).
  - destruct (Z.ltb_spec (Z.of_nat (length sorted)) (Z.of_nat (length alive) - limit)); [lia|].
    destruct E2 as [-> ->]. rewrite app_nil_r. split; [done|]. split; [lia|done].
  - split; [done|]. split; [lia|]. by destruct o'.
Qed.
End cleanup_facts.

(** ** Status *)

Definition counts_ok (l : list (option MachineSet)) : Prop :=
  Forall (fun o => 0 <= opt_count is_Replicas o /\ 0 <= opt_count (fun ms => mss_Replicas (is_Status ms)) o
    /\ 0 <= opt_count (fun ms => mss_ReadyReplicas (is_Status ms)) o /\ 0 <= opt_count is_Available o) l /\
  zsum (opt_count is_Replicas) l <= max_int32 /\ zsum (opt_count (fun ms => mss_Replicas (is_Status ms))) l <= max_int32 /\
  zsum (opt_count (fun ms => mss_ReadyReplicas (is_Status ms))) l <= max_int32 /\ zsum (opt_count is_Available) l <= max_int32.

Lemma sum32_count f l : Forall (fun o : option MachineSet => 0 <= opt_count f o) l ->
  zsum (opt_count f) l <= max_int32 -> sum32 (opt_count f) l = zsum (opt_count f) l.
Proof. intros HF Hm. apply sum32_exact. pose proof (zsum_nonneg _ _ HF). width. Qed.

Lemma SetCondition_counts s c :
  mds_ObservedGeneration (SetMachineDeploymentCondition s c) = mds_ObservedGeneration s /\
  mds_Replicas (SetMachineDeploymentCondition s c) = mds_Replicas s /\
  mds_UpdatedReplicas (SetMachineDeploymentCondition s c) = mds_UpdatedReplicas s /\
  mds_ReadyReplicas (SetMachineDeploymentCondition s c) = mds_ReadyReplicas s /\
  mds_AvailableReplicas (SetMachineDeploymentCondition s c) = mds_AvailableReplicas s /\
  mds_UnavailableReplicas (SetMachineDeploymentCondition s c) = mds_UnavailableReplicas s /\
  mds_CollisionCount (SetMachineDeploymentCondition s c) = mds_CollisionCount s.
Proof. unfold SetMachineDeploymentCondition. destruct (_ && _); done. Qed.

Lemma Forall_and_split {A} (P Q : A -> Prop) l : Forall (fun x => P x /\ Q x) l -> Forall P l /\ Forall Q l.
Proof. apply Forall_and. Qed.

(** The condition of the type just set has the status just set. *)
Lemma SetCondition_status s c : exists c',
  GetMachineDeploymentCondition (SetMachineDeploymentCondition s c) (dc_Type c) = Some c' /\
  dc_Status c' = dc_Status c /\ dc_Reason c' = dc_Reason c.
Proof.
  unfold SetMachineDeploymentCondition.
  destruct (GetMachineDeploymentCondition s (dc_Type c)) as [old|] eqn:E; simpl.
  - destruct (bool_decide (dc_Status old = dc_Status c) && bool_decide (dc_Reason old = dc_Reason c)) eqn:Eb.
    + apply andb_true_iff in Eb as [E1 E2]. apply bool_decide_eq_true in E1, E2. eauto.
    + case_bool_decide; rewrite GetCondition_app, decide_True by done; eauto.
  - rewrite GetCondition_app, decide_True by done. eauto.
Qed.

(** The status computed for a deployment reports the exact sums over its machine sets (with counts
    that fit an [int32]), as unavailable what is missing of the wanted replicas, and the Available
    condition is true exactly when the minimum availability of the rollout strategy is met. *)
Theorem calculateDeploymentStatus_spec t1 t2 allISs newIS d :
  counts_ok allISs -> counts_ok [newIS] -> is_int32 (d_Replicas d - MaxUnavailable d) ->
  let s := calculateDeploymentStatus t1 t2 allISs newIS d in
  mds_Replicas s = zsum (opt_count (fun ms => mss_Replicas (is_Status ms))) allISs /\
  mds_UpdatedReplicas s = opt_count (fun ms => mss_Replicas (is_Status ms)) newIS /\
  mds_ReadyReplicas s = zsum (opt_count (fun ms => mss_ReadyReplicas (is_Status ms))) allISs /\
  mds_AvailableReplicas s = zsum (opt_count is_Available) allISs /\
  mds_UnavailableReplicas s = Z.max 0 (zsum (opt_count is_Replicas) allISs - zsum (opt_count is_Available) allISs) /\
  mds_ObservedGeneration s = Generation (d_Meta d) /\
  exists c, GetMachineDeploymentCondition s MachineDeploymentAvailable = Some c /\
    (dc_Status c = ConditionTrue <-> d_Replicas d - MaxUnavailable d <= zsum (opt_count is_Available) allISs).
Proof.
  intros (HF & B1 & B2 & B3 & B4) (HFn & _ & N2 & _) Hmin.
  apply Forall_and_split in HF as [F1 HF]. apply Forall_and_split in HF as [F2 HF].
  apply Forall_and_split in HF as [F3 F4].
  apply Forall_and_split in HFn as [_ HFn]. apply Forall_and_split in HFn as [G2 _].
  unfold calculateDeploymentStatus, GetAvailableReplicaCountForMachineSets, GetReplicaCountForMachineSets,
    GetActualReplicaCountForMachineSets, GetReadyReplicaCountForMachineSets. cbv zeta.
  rewrite !sum32_count by done. rewrite (wrap32_id _ Hmin).
  pose proof (zsum_nonneg _ _ F1). pose proof (zsum_nonneg _ _ F4).
  rewrite (wrap32_id (zsum (opt_count is_Replicas) allISs - zsum (opt_count is_Available) allISs)) by width.
  assert (forall x, (if x <? 0 then 0 else x) = Z.max 0 x) as Hmax by (intros x; destruct (Z.ltb_spec x 0); lia).
  rewrite Hmax.
  destruct (Z.leb_spec (d_Replicas d - MaxUnavailable d) (zsum (opt_count is_Available) allISs)) as [Hle|Hgt];
    match goal with |- context [SetMachineDeploymentCondition ?s ?c] =>
      destruct (SetCondition_counts s c) as (-> & -> & -> & -> & -> & -> & _);
      destruct (SetCondition_status s c) as (c' & Hc & Hs & _) end;
    (split; [done|]); (split; [unfold zsum; simpl; lia|]); do 4 (split; [done|]); exists c'; (split; [exact Hc|]);
    rewrite Hs; simpl; split; intros; done || lia.
Qed.

(** ** Revisions *)

Definition readable_revision (ms : MachineSet) : Prop :=
  mget (Annotations (is_Meta ms)) RevisionAnnotation = EmptyString \/
  is_Some (ParseInt (mget (Annotations (is_Meta ms)) RevisionAnnotation)).

(** [ms'] has a readable revision, at least [n]. *)
Definition raised (n : Z) (ms' : MachineSet) : Prop := readable_revision ms' /\ n <= revision_of ms'.

Lemma revision_same ms ms' :
  Annotations (is_Meta ms) !! RevisionAnnotation = Annotations (is_Meta ms') !! RevisionAnnotation ->
  (readable_revision ms <-> readable_revision ms') /\ revision_of ms = revision_of ms'.
Proof. intros E. unfold readable_revision, revision_of, mget. by rewrite E. Qed.

Lemma bump_revision_raised d ms changed newRev ex n :
  ParseInt newRev = Some n -> readable_revision ms -> raised n (bump_revision d ms changed newRev ex).1.
Proof.
  intros Hn Hr. unfold bump_revision.
  destruct (bump_annotations _ changed newRev) as [[ann b]|] eqn:Hb.
  2:{ exfalso. unfold bump_annotations in Hb. rewrite Hn in Hb.
      destruct (ParseInt (mget _ _)) eqn:E; [done|].
      destruct Hr as [Ho|[? Ho]]; [|congruence]. by rewrite Ho, bool_decide_true in Hb. }
  destruct (bump_annotations_revision _ _ _ _ _ _ Hn Hb) as [H1 H2]. cbv zeta in *.
  assert (Hraised : raised n (is_set_Annotations ann ms)).
  { assert (Hmax : n <= revision_of (is_set_Annotations ann ms)) by (unfold revision_of; simpl; lia).
    split; [|done]. unfold readable_revision. simpl.
    unfold bump_annotations in Hb. rewrite Hn in Hb.
    destruct (ParseInt (mget ann RevisionAnnotation)) eqn:E; [by right|]. left.
    destruct Hr as [Ho|Ho].
    - destruct (Z.lt_ge_cases (default 0 (ParseInt (mget (Annotations (is_Meta ms)) RevisionAnnotation))) n) as [Hlt|Hge].
      + destruct (H2 Hlt) as (_ & E2 & _). rewrite E2 in E. congruence.
      + rewrite Ho in Hb, Hge. change (ParseInt "") with (@None Z) in Hb, Hge. cbn [default from_option] in Hge.
        rewrite bool_decide_true in Hb by done.
        destruct (Z.ltb_spec 0 n); [lia|]. injection Hb as <- <-.
        unfold mget in *. destruct (_ && _); [rewrite lookup_insert_ne by done|]; done.
    - exfalso. destruct Ho as [v Hv]. rewrite Hv in Hb, H1, H2. simpl in *.
      destruct (Z.ltb_spec v n) as [Hlt|Hge].
      + destruct (H2 Hlt) as (_ & E2 & _). rewrite E2 in E. congruence.
      + injection Hb as <- <-. unfold mget in *.
        destruct (_ && _); [rewrite lookup_insert_ne in E by done|]; congruence. }
  destruct ex; [done|].
  pose proof (SetReplicasAnnotations_other (is_set_Annotations ann ms) (d_Replicas d)
    (d_Replicas d +32 MaxSurge d) RevisionAnnotation ltac:(done) ltac:(done)) as Ho.
  destruct (SetReplicasAnnotations _ _ _) as [m' u]. simpl in *.
  destruct (revision_same m' (is_set_Annotations ann ms) Ho) as [E1 E2].
  destruct Hraised as [? ?]. split; [by apply E1|]. by rewrite E2.
Qed.

Lemma copy_annotations_revision d ms :
  Annotations (is_Meta (copyMachineDeploymentAnnotationsToMachineSet d ms).1) !! RevisionAnnotation =
  Annotations (is_Meta ms) !! RevisionAnnotation.
Proof.
  destruct (copyAnnotations_spec d ms RevisionAnnotation) as [E|[E _]]; [done|].
  by vm_compute in E.
Qed.

Lemma SetNewAnnotations_raised d ms newRev ex n : ParseInt newRev = Some n -> readable_revision ms ->
  raised n (SetNewMachineSetAnnotations d ms newRev ex).1.
Proof.
  intros Hn Hr. unfold SetNewMachineSetAnnotations. pose proof (copy_annotations_revision d ms) as Hc.
  destruct (copyMachineDeploymentAnnotationsToMachineSet d ms) as [ms1 ch]. simpl in Hc.
  apply bump_revision_raised; [done|]. by apply (revision_same ms1 ms Hc).
Qed.

Lemma sync_existing_raised d ms newRev n : ParseInt newRev = Some n -> readable_revision ms ->
  raised n (sync_existing d ms newRev).1.
Proof.
  intros Hn Hr. unfold sync_existing, UpdateMachineSetClassKind, SetNewMachineSetNodeTemplate, SetNewMachineSetConfig.
  pose proof (SetNewAnnotations_raised d ms newRev true n Hn Hr) as [R1 R1'].
  destruct (SetNewMachineSetAnnotations d ms newRev true) as [m1 u1]. simpl in *.
  assert (forall f ms c, readable_revision ms -> readable_revision (f ms) ->
    raised n (bump_revision d (f ms) c newRev true).1) as Hstep by (intros; by apply bump_revision_raised).
  assert (H2 : raised n (let '(m2, c2) := copyMachineDeploymentNodeTemplatesToMachineSet d m1 in
     bump_revision d m2 c2 newRev true).1).
  { unfold copyMachineDeploymentNodeTemplatesToMachineSet. case_bool_decide; by apply bump_revision_raised. }
  destruct (let '(m2, c2) := copyMachineDeploymentNodeTemplatesToMachineSet d m1 in
     bump_revision d m2 c2 newRev true) as [m2 u2]. simpl in H2. destruct H2 as [R2 _].
  assert (H3 : raised n (let '(m3, c3) := copyMachineDeploymentConfigToMachineSet d m2 in
     bump_revision d m3 c3 newRev true).1).
  { unfold copyMachineDeploymentConfigToMachineSet. case_bool_decide; by apply bump_revision_raised. }
  destruct (let '(m3, c3) := copyMachineDeploymentConfigToMachineSet d m2 in
     bump_revision d m3 c3 newRev true) as [m3 u3]. simpl in H3.
  unfold copyMachineDeploymentClassKindToMachineSet. case_bool_decide; done.
Qed.

(** The revision of a machine set that is written exceeds those of the given old ones. *)
Definition newest_revision (oldISs : list MachineSet) (e : event) : Prop :=
  match projT1 e with
  | UpdateMS ms | CreateMS ms => forall v, v ∈ revisions oldISs -> v < revision_of ms
  | _ => True
  end.

Section revision_facts.
Context `{GoSort} `{Hasher}.

(** C36: whatever machine set [getNewMachineSet] updates or creates, its revision is larger than the
    revision of every old machine set: the new machine set is always the one of the highest
    revision. *)
Theorem getNewMachineSet_newest_revision d isList oldISs create :
  MaxRevision oldISs < max_int64 -> Forall readable_revision isList ->
  emits (newest_revision oldISs) (getNewMachineSet d isList oldISs create).
Proof.
  intros Hmax HF. unfold getNewMachineSet. pose proof (MaxRevision_nonneg oldISs).
  rewrite wrap64_id by width. set (rev := FormatInt (MaxRevision oldISs + 1)).
  assert (ParseInt rev = Some (MaxRevision oldISs + 1)) as Hrev by (apply ParseInt_FormatInt; width).
  assert (forall ms, raised (MaxRevision oldISs + 1) ms -> forall v, v ∈ revisions oldISs -> v < revision_of ms) as Hok.
  { intros ms [_ Hr] v Hv. apply MaxRevision_ge in Hv. lia. }
  destruct (FindNewMachineSet d isList) as [ms|] eqn:Ef; [|destruct create; [|apply emits_ret]].
  - apply FindNew_elem in Ef. rewrite Forall_forall in HF.
    pose proof (sync_existing_raised d ms rev _ Hrev (HF _ Ef)) as Hraised.
    unfold use_existing. destruct (sync_existing d ms rev) as [isCopy ch]. simpl in Hraised.
    emits_all; try exact I; unfold newest_revision; cbn [projT1]; apply Hok; exact Hraised.
  - unfold create_new, finish_create. emits_all; try exact I.
    all: unfold newest_revision; cbn [projT1]; apply Hok, SetNewAnnotations_raised; [done|by left].
Qed.
End revision_facts.

(** ** Sample runs *)

#[export] Instance sample_hasher : Hasher | 100 := {| ComputeHash := fun _ c => 4711 + default 0 c |}.
Definition sample_config : Config := mkConfigDC "shoot" true 5 20.

(** Writes are accepted and echoed. *)
Definition echo (r : req) (w : unit) : unit * result (answer r) :=
  (w, match r return result (answer r) with
      | UpdateMS ms | CreateMS ms => Ok ms
      | UpdateMD d | UpdateStatusMD d => Ok d
      | DeleteMS _ _ => Ok tt
      | Now => Ok 5000
      | ListerGetMS _ name => Ok (sample_ms name 0 0)
      | _ => Err (mkErr NotFound "not found")
      end).

(** When the machine set disappears from the cache between the labelling of its machines and the
    update of its selector, the error path of [addHashKeyToISAndMachines] dereferences the nil
    machine set to build its message, and the worker panics instead of returning the error. *)
Theorem addHashKey_panics_when_set_vanishes : exists h,
  exec (addHashKeyToISAndMachines sample_config (sample_ms "a" 0 0) (Some []) None) h Panic /\
  Forall (fun e : event => match e with existT (ListerGetMS _ _) (Err e) => IsNotFound e = true | _ => True end) h.
Proof.
  set (world := fun (r : req) (n : nat) => (S n, match r return result (answer r) with
    | ListerGetMS _ name => if (n <? 3)%nat then Ok (sample_ms name 0 0) else Err (mkErr NotFound "gone")
    | UpdateMS ms => Ok ms
    | _ => Err (Errorf "unexpected") end)).
  set (p := addHashKeyToISAndMachines sample_config (sample_ms "a" 0 0) (Some []) None).
  exists (run world p 0%nat).1.2. split.
  - assert ((run world p 0%nat).2 = Panic) as E by (vm_compute; reflexivity).
    rewrite <- E. apply run_exec.
  - vm_compute. repeat constructor.
Qed.

(** The loop that estimates the proportions does not keep the sum of the replicas added so far below
    the number to add in absolute value, as its comment says: with a machine set that was scaled for
    a larger deployment the sum is -7 while a single replica is to be added (the leftover step
    makes up for it). *)
Theorem proportions_exceed_comment : exists d l toAdd,
  toAdd = allowed_size d - zsum is_Replicas l /\ toAdd = 1 /\ (estimate d toAdd l).1 = -7 /\
  zsum (size_of (final_sizes d toAdd l)) l = allowed_size d.
Proof.
  exists (d_set_Status (mkMDStatus 1 9 0 0 0 0 [] None None) (sample_md 10 0 1)),
    [(SetReplicasAnnotations (sample_ms "a" 8 8) 100 100).1; sample_ms "b" 1 1], 1.
  vm_compute. done.
Qed.

(** ** The hypotheses hold on sample objects *)

Definition sample_active : list MachineSet :=
  [(SetReplicasAnnotations (sample_ms "a" 4 4) 8 8).1; (SetReplicasAnnotations (sample_ms "b" 4 4) 8 8).1].

Definition sample_scale_run : history :=
  (run echo (scale_proportionally (sample_md 10 2 0) None sample_active) tt).1.2.

Lemma scale_up_conserves_witness :
  zsum (fun ms => requested (writes sample_scale_run) (is_Name ms) (is_Replicas ms))
    (FilterActiveMachineSets ((Some <$> sample_active) ++ [None])) = 12.
Proof.
  refine (proj1 (scale_up_conserves (sample_md 10 2 0) None sample_active sample_scale_run _ _ _ _ _ _ _)).
  - apply sample_wf_rolling; width.
  - reflexivity.
  - apply (bool_decide_unpack _). vm_compute. exact I.
  - repeat constructor; vm_compute; reflexivity || discriminate.
  - discriminate.
  - vm_compute. split; [reflexivity|discriminate].
  - assert ((run echo (scale_proportionally (sample_md 10 2 0) None sample_active) tt).2 = Return tt) as E
      by (vm_compute; reflexivity).
    rewrite <- E. apply run_exec.
Defined.

Definition sample_md_limit (limit : Z) : MachineDeployment :=
  d_set_Spec (fun s => mkMDSpec (md_Replicas s) (md_Selector s) (md_Template s) (md_Strategy s)
    (md_MinReadySeconds s) (Some limit) (md_Paused s) (md_RollbackTo s) (md_ProgressDeadlineSeconds s)) (sample_md 3 1 0).

Lemma cleanup_safe_witness :
  (run echo (cleanupMachineDeployment [sample_ms "a" 0 0; sample_ms "b" 0 0] (sample_md_limit 1)) tt).2 <> Panic.
Proof.
  refine (proj2 (proj2 (cleanup_safe [sample_ms "a" 0 0; sample_ms "b" 0 0] (sample_md_limit 1) 1
    (run echo (cleanupMachineDeployment [sample_ms "a" 0 0; sample_ms "b" 0 0] (sample_md_limit 1)) tt).1.2
    _ _ _ _ _))).
  - reflexivity.
  - width.
  - vm_compute. discriminate.
  - apply run_exec.
Defined.

Lemma calculateDeploymentStatus_spec_witness :
  mds_AvailableReplicas (calculateDeploymentStatus 1 2 [Some (sample_ms "a" 3 2)] None (sample_md 3 1 0)) = 2.
Proof.
  refine (proj1 (proj2 (proj2 (proj2 (calculateDeploymentStatus_spec 1 2 [Some (sample_ms "a" 3 2)] None
    (sample_md 3 1 0) _ _ _))))).
  - split; [repeat constructor; discriminate|]. vm_compute. repeat split; discriminate.
  - split; [repeat constructor; discriminate|]. vm_compute. repeat split; discriminate.
  - vm_compute. split; discriminate.
Defined.

Lemma getNewMachineSet_newest_revision_witness :
  emits (newest_revision [sample_ms "b" 1 1]) (getNewMachineSet (sample_md 3 1 0) [] [sample_ms "b" 1 1] true).
Proof.
  apply (getNewMachineSet_newest_revision (sample_md 3 1 0) [] [sample_ms "b" 1 1] true).
  - reflexivity.
  - constructor.
Defined.
