(* ===== verification/Rollout.v ===== *)
(** * Rolling out a machine deployment

    pkg/controller/deployment_progress.go, deployment_rolling.go and deployment_recreate.go. *)
From Stdlib Require Import ZArith Lia Ascii String.
From stdpp Require Import base gmap strings list sorting.
From S2P Require Import Prelude GoLib Types Labels MachineSets DeploymentUtil Prog Samples NodeOps RefManager DeploymentSync.
Open Scope Z_scope.

(** ** Progress *)

Definition replica_failures (ms : MachineSet) : list MachineDeploymentCondition :=
  MachineSetToMachineDeploymentCondition <$>
    filter (fun c => sc_Type c = MachineSetReplicaFailure) (mss_Conditions (is_Status ms)).

(** Failures of the new machine set before failures of the others. *)
Definition getReplicaFailures (allISs : list (option MachineSet)) (newIS : option MachineSet)
  : list MachineDeploymentCondition :=
  match from_option replica_failures [] newIS with
  | [] => allISs ≫= from_option replica_failures []
  | conditions => conditions
  end.

(** The delay until the next progress check: -1 for none, 0 for now; it is enqueued. *)
Definition requeueStuckMachineDeployment (d : MachineDeployment) (newStatus : MachineDeploymentStatus) : prog Z :=
  match md_ProgressDeadlineSeconds (d_Spec d),
        GetMachineDeploymentCondition (d_Status d) MachineDeploymentProgressing with
  | Some deadline, Some currentCond =>
      if MachineDeploymentComplete d newStatus || bool_decide (dc_Reason currentCond = TimedOutReason) then Ret (-1)
      else
        let! t := now in
        let after := dc_LastUpdateTime currentCond + deadline * second - t in
        if after <? second then do! call_ignore (EnqueueMDRateLimited (KeyFunc (d_Meta d))) in Ret 0
        else do! call_ignore (EnqueueMDAfter (KeyFunc (d_Meta d)) (after + second)) in Ret after
  | _, _ => Ret (-1)
  end.

Definition progress_message (d : MachineDeployment) (newIS : option MachineSet) (text : string) : string :=
  match newIS with
  | Some ms => "MachineSet " +:+ quoted (is_Name ms) +:+ text
  | None => "Machine Deployment " +:+ quoted (d_Name d) +:+ text
  end.

Definition progressing_condition (t1 t2 : Z) (status reason msg : string) : MachineDeploymentCondition :=
  NewMachineDeploymentCondition t1 t2 MachineDeploymentProgressing status reason msg.

(** The Progressing condition of a rollout that has not completed.  [t] is the clock of the deadline
    check, [t1] and [t2] those of the new condition. *)
Definition estimate_progress (t t1 t2 : Z) (d : MachineDeployment) (newIS : option MachineSet)
    (newStatus : MachineDeploymentStatus) : MachineDeploymentStatus :=
  let currentCond := GetMachineDeploymentCondition (d_Status d) MachineDeploymentProgressing in
  if MachineDeploymentComplete d newStatus then
    SetMachineDeploymentCondition newStatus (progressing_condition t1 t2 ConditionTrue NewISAvailableReason
      (progress_message d newIS " has successfully progressed."))
  else if MachineDeploymentProgressing_ d newStatus then
    let condition := progressing_condition t1 t2 ConditionTrue MachineSetUpdatedReason
      (progress_message d newIS " is progressing.") in
    match currentCond with
    | None => SetMachineDeploymentCondition newStatus condition
    | Some c =>
        let condition :=
          if bool_decide (dc_Status c = ConditionTrue)
          then dc_set_LastTransitionTime (dc_LastTransitionTime c) condition else condition in
        SetMachineDeploymentCondition
          (RemoveMachineDeploymentCondition newStatus MachineDeploymentProgressing) condition
    end
  else if MachineDeploymentTimedOut t d newStatus then
    SetMachineDeploymentCondition newStatus (progressing_condition t1 t2 ConditionFalse TimedOutReason
      (progress_message d newIS " has timed out progressing."))
  else newStatus.

(** The status [syncRolloutStatus] computes. *)
Definition rollout_status (t t1 t2 : Z) (allISs : list (option MachineSet)) (newIS : option MachineSet)
    (d : MachineDeployment) (calculated : MachineDeploymentStatus) : MachineDeploymentStatus :=
  let hasDeadline := bool_decide (md_ProgressDeadlineSeconds (d_Spec d) <> None) in
  let newStatus := if hasDeadline then calculated
    else RemoveMachineDeploymentCondition calculated MachineDeploymentProgressing in
  let currentCond := GetMachineDeploymentCondition (d_Status d) MachineDeploymentProgressing in
  let isCompleteDeployment :=
    (mds_Replicas newStatus =? mds_UpdatedReplicas newStatus) && has_reason currentCond NewISAvailableReason in
  let newStatus :=
    if hasDeadline && negb isCompleteDeployment then estimate_progress t t1 t2 d newIS newStatus else newStatus in
  match getReplicaFailures allISs newIS with
  | c :: _ => SetMachineDeploymentCondition newStatus c
  | [] => RemoveMachineDeploymentCondition newStatus MachineDeploymentReplicaFailure
  end.

Definition syncRolloutStatus (allISs : list (option MachineSet)) (newIS : option MachineSet)
    (d : MachineDeployment) : prog unit :=
  let! c1 := now in
  let! c2 := now in
  let! t := now in
  let! t1 := now in
  let! t2 := now in
  let newStatus := rollout_status t t1 t2 allISs newIS d (calculateDeploymentStatus c1 c2 allISs newIS d) in
  (* the collision count of the new status is the pointer of the old one *)
  if negb (statusUpdateRequired true (d_Status d) newStatus)
  then do! requeueStuckMachineDeployment d newStatus in Ret tt
  else do! call (UpdateStatusMD (d_set_Status newStatus d)) in Ret tt.

(** ** Nodes of the machine sets *)

Definition maxRetryDeadline : Z := 60 * second.
Definition conflictRetryInterval : Z := 5 * second.
Definition prefer_no_schedule : Taint := mkTaint PreferNoScheduleKey "True" TaintEffectPreferNoSchedule None.

Definition is_updateAnnotations (f : strmap -> strmap) (ms : MachineSet) : MachineSet :=
  is_set_Meta (fun m => set_Annotations (f (Annotations m)) m) ms.

(** Retry of a fetch and an update until the deadline.  [ns] and [name] are those of the variable
    [machineSet], which a failed fetch overwrites with an empty object; [keep] says that a failed
    update leaves the variable alone. *)
Fixpoint annotate_loop (rounds : nat) (keep : bool) (retryDeadline : Z) (ns name : string)
    (f : strmap -> strmap) : prog unit :=
  match rounds with
  | O => Starve
  | S rounds =>
      let! g := call_try (GetMS ns name) in
      match g with
      | Err e =>
          let! t := now in
          if t <? retryDeadline
          then do! call_ignore (Sleep conflictRetryInterval) in
               annotate_loop rounds keep retryDeadline EmptyString EmptyString f
          else Throw e
      | Ok ms =>
          let! u := call_try (UpdateMS (is_updateAnnotations f ms)) in
          match u with
          | Ok _ => Ret tt
          | Err e =>
              let! t := now in
              if t <? retryDeadline
              then do! call_ignore (Sleep conflictRetryInterval) in
                   (if keep then annotate_loop rounds keep retryDeadline (Namespace (is_Meta ms)) (is_Name ms) f
                    else annotate_loop rounds keep retryDeadline EmptyString EmptyString f)
              else Throw e
          end
      end
  end.

(** The machines of a machine set: listed, then claimed. *)
Definition machines_of (ms : MachineSet) : prog (list Machine) :=
  let! selector := or_throw (LabelSelectorAsSelector (ms_Selector (is_Spec ms))) "invalid selector" in
  let! machines := call ListerMachines in
  claimMachines ms selector machines.

Definition taintNodesBackingMachineSets (cfg : Config) (machineSets : list MachineSet) (taint : Taint) : prog unit :=
  for_each machineSets (fun machineSet =>
    if bool_decide (is_Some (Annotations (is_Meta machineSet) !! t_Key taint)) then Ret tt
    else
      let! filteredMachines := machines_of machineSet in
      do! for_each filteredMachines (fun machine =>
        if bool_decide (st_Node (m_Status machine) = EmptyString) then Ret tt
        else do! attempt (AddOrUpdateTaintOnNode (st_Node (m_Status machine)) [taint]) in Ret tt) in
      let! t := now in
      annotate_loop (cfg_retry_rounds cfg) true (t + maxRetryDeadline) (Namespace (is_Meta machineSet))
        (is_Name machineSet) (<[t_Key taint := "True"]>)).

(** The elements are dereferenced: a nil machine set panics. *)
Definition annotateNodesBackingMachineSets (machineSets : list (option MachineSet)) (annotations : strmap) : prog unit :=
  for_each machineSets (fun machineSet =>
    let! machineSet := deref machineSet in
    let! filteredMachines := machines_of machineSet in
    for_each filteredMachines (fun machine =>
      if bool_decide (st_Node (m_Status machine) = EmptyString) then Ret tt
      else do! attempt (AddOrUpdateAnnotationOnNode (st_Node (m_Status machine)) annotations) in Ret tt)).

Definition machineSetsScaledToZero (machineSets : list MachineSet) : bool :=
  forallb (fun ms =>
    negb (negb (is_Replicas ms =? 0) && negb (is_Available ms =? 0) &&
          negb (mss_FullyLabeledReplicas (is_Status ms) =? 0) && negb (mss_ReadyReplicas (is_Status ms) =? 0) &&
          negb (mss_Replicas (is_Status ms) =? 0))) machineSets.

Definition removeAutoscalerAnnotationsIfRequired (machineSets : list (option MachineSet)) (annotations : strmap) : prog unit :=
  for_each machineSets (fun machineSet =>
    let! machineSet := deref machineSet in
    let! filteredMachines := machines_of machineSet in
    for_each filteredMachines (fun machine =>
      let node := st_Node (m_Status machine) in
      if bool_decide (node = EmptyString) then Ret tt
      else
        let! nodeAnnotations := GetAnnotationsFromNode node in
        if bool_decide (is_Some (nodeAnnotations !! ClusterAutoscalerScaleDownDisabledAnnotationByMCMKey))
        then RemoveAnnotationsOffNode node annotations
        else Ret tt)).

Definition clusterAutoscalerScaleDownAnnotations : strmap :=
  {[ ClusterAutoscalerScaleDownDisabledAnnotationKey := ClusterAutoscalerScaleDownDisabledAnnotationValue;
     ClusterAutoscalerScaleDownDisabledAnnotationByMCMKey := ClusterAutoscalerScaleDownDisabledAnnotationByMCMValue ]}.

(** ** Rolling update *)

Definition reconcileNewMachineSet (allISs : list (option MachineSet)) (newIS : MachineSet) (d : MachineDeployment)
  : prog bool :=
  if is_Replicas newIS =? d_Replicas d then Ret false
  else if d_Replicas d <? is_Replicas newIS then
    let! r := scaleMachineSetAndRecordEvent newIS (d_Replicas d) d in Ret r.1
  else
    let! newReplicasCount := or_throw (NewISNewReplicas d allISs newIS) "cannot compute the new size" in
    let! r := scaleMachineSetAndRecordEvent newIS newReplicasCount d in Ret r.1.

(** The loop of [cleanupUnhealthyReplicas]: the machine sets as updated, and the replicas removed. *)
Fixpoint cleanup_loop (d : MachineDeployment) (maxCleanupCount totalScaledDown : Z) (oldISs : list MachineSet)
  : prog (list MachineSet * Z) :=
  match oldISs with
  | [] => Ret ([], totalScaledDown)
  | targetIS :: rest =>
      if maxCleanupCount <=? totalScaledDown then Ret (oldISs, totalScaledDown)
      else if (is_Replicas targetIS =? 0) || (is_Replicas targetIS =? is_Available targetIS) then
        let! r := cleanup_loop d maxCleanupCount totalScaledDown rest in Ret (targetIS :: r.1, r.2)
      else
        let scaledDownCount :=
          wrap32 (IntMin (maxCleanupCount -32 totalScaledDown) (is_Replicas targetIS -32 is_Available targetIS)) in
        let newReplicasCount := is_Replicas targetIS -32 scaledDownCount in
        if is_Replicas targetIS <? newReplicasCount then Throw (Errorf "got invalid request to scale down")
        else
          let! u := scaleMachineSetAndRecordEvent targetIS newReplicasCount d in
          let! r := cleanup_loop d maxCleanupCount (totalScaledDown +32 scaledDownCount) rest in
          Ret (u.2 :: r.1, r.2)
  end.

(** The loop of [scaleDownOldMachineSetsForRollingUpdate]. *)
Fixpoint scale_down_loop (d : MachineDeployment) (totalScaleDownCount totalScaledDown : Z) (oldISs : list MachineSet)
  : prog Z :=
  match oldISs with
  | [] => Ret totalScaledDown
  | targetIS :: rest =>
      if totalScaleDownCount <=? totalScaledDown then Ret totalScaledDown
      else if is_Replicas targetIS =? 0 then scale_down_loop d totalScaleDownCount totalScaledDown rest
      else
        let scaleDownCount := wrap32 (IntMin (is_Replicas targetIS) (totalScaleDownCount -32 totalScaledDown)) in
        let newReplicasCount := is_Replicas targetIS -32 scaleDownCount in
        if is_Replicas targetIS <? newReplicasCount then Throw (Errorf "got invalid request to scale down")
        else
          do! scaleMachineSetAndRecordEvent targetIS newReplicasCount d in
          scale_down_loop d totalScaleDownCount (totalScaledDown +32 scaleDownCount) rest
  end.

Section rollout.
Context `{GoSort} `{FloatConv} `{Hasher}.

Definition cleanupUnhealthyReplicas (oldISs : list MachineSet) (d : MachineDeployment) (maxCleanupCount : Z)
  : prog (list MachineSet * Z) :=
  cleanup_loop d maxCleanupCount 0 (sort_by_creation oldISs).

Definition scaleDownOldMachineSetsForRollingUpdate (allISs : list (option MachineSet)) (oldISs : list MachineSet)
    (d : MachineDeployment) : prog Z :=
  let minAvailable := d_Replicas d -32 MaxUnavailable d in
  let availableMachineCount := GetAvailableReplicaCountForMachineSets allISs in
  if availableMachineCount <=? minAvailable then Ret 0
  else scale_down_loop d (availableMachineCount -32 minAvailable) 0 (sort_by_creation oldISs).

(** The errors of the two steps are swallowed: the deployment is reconciled again later. *)
Definition reconcileOldMachineSets (allISs : list (option MachineSet)) (oldISs : list MachineSet)
    (newIS : MachineSet) (d : MachineDeployment) : prog bool :=
  let oldMachinesCount := GetReplicaCountForMachineSets (Some <$> oldISs) in
  if oldMachinesCount =? 0 then Ret false
  else
    let allMachinesCount := GetReplicaCountForMachineSets allISs in
    let minAvailable := d_Replicas d -32 MaxUnavailable d in
    let newISUnavailableMachineCount := is_Replicas newIS -32 is_Available newIS in
    let maxScaledDown := (allMachinesCount -32 minAvailable) -32 newISUnavailableMachineCount in
    if maxScaledDown <=? 0 then Ret false
    else
      let! c := attempt (cleanupUnhealthyReplicas oldISs d maxScaledDown) in
      match c with
      | Err _ => Ret false
      | Ok (oldISs, cleanupCount) =>
          let! s := attempt (scaleDownOldMachineSetsForRollingUpdate
                               ((Some <$> oldISs) ++ [Some newIS]) oldISs d) in
          match s with
          | Err _ => Ret false
          | Ok scaledDownCount => Ret (0 <? cleanupCount +32 scaledDownCount)
          end
      end.

(** Marks all nodes of the deployment while a rollout is going on. *)
Definition annotate_during_rollout (cfg : Config) (allISs : list (option MachineSet)) (oldISs : list MachineSet)
  : prog unit :=
  if cfg_autoscalerScaleDownAnnotationDuringRollout cfg && bool_decide (oldISs <> [])
     && negb (machineSetsScaledToZero oldISs)
  then annotateNodesBackingMachineSets allISs clusterAutoscalerScaleDownAnnotations
  else Ret tt.

(** When the deployment is complete: remove the marks, clean up. *)
Definition finish_rollout (cfg : Config) (allISs : list (option MachineSet)) (oldISs : list MachineSet)
    (d : MachineDeployment) : prog unit :=
  if MachineDeploymentComplete d (d_Status d) then
    do! (if cfg_autoscalerScaleDownAnnotationDuringRollout cfg
         then removeAutoscalerAnnotationsIfRequired allISs clusterAutoscalerScaleDownAnnotations
         else Ret tt) in
    cleanupMachineDeployment oldISs d
  else Ret tt.

(** Scale up, if we can; otherwise scale down, if we can. *)
Definition rolling_scale (allISs : list (option MachineSet)) (oldISs : list MachineSet) (newIS : MachineSet)
    (d : MachineDeployment) : prog bool :=
  let! scaledUp := reconcileNewMachineSet allISs newIS d in
  if (scaledUp : bool) then Ret true
  else reconcileOldMachineSets allISs (FilterActiveMachineSets (Some <$> oldISs)) newIS d.

Definition rolloutRolling (cfg : Config) (d : MachineDeployment) (isList : list MachineSet)
    (machineMap : gmap string (list Machine)) : prog unit :=
  let! r := getAllMachineSetsAndSyncRevision cfg d isList machineMap true in
  let '(newIS, oldISs, d) := r in
  let allISs := (Some <$> oldISs) ++ [newIS] in
  do! attempt (taintNodesBackingMachineSets cfg oldISs prefer_no_schedule) in
  do! annotate_during_rollout cfg allISs oldISs in
  let! new := deref newIS in
  let! scaled := rolling_scale allISs oldISs new d in
  if (scaled : bool) then syncRolloutStatus allISs newIS d
  else
    do! finish_rollout cfg allISs oldISs d in
    syncRolloutStatus allISs newIS d.

(** ** Recreate *)

Definition scaleDownOldMachineSetsForRecreate (oldISs : list MachineSet) (d : MachineDeployment) : prog bool :=
  for_fold oldISs false (fun scaled ms =>
    if is_Replicas ms =? 0 then Ret scaled
    else let! r := scaleMachineSetAndRecordEvent ms 0 d in Ret (scaled || r.1)).

Definition oldMachinesRunning (newIS : option MachineSet) (oldISs : list MachineSet)
    (machineMap : gmap string (list Machine)) : bool :=
  (0 <? GetActualReplicaCountForMachineSets (Some <$> oldISs)) ||
  existsb (fun kv => negb (match newIS with Some n => bool_decide (is_UID n = kv.1) | None => false end)
                     && negb (bool_decide (kv.2 = []))) (map_to_list machineMap).

Definition scaleUpNewMachineSetForRecreate (newIS : MachineSet) (d : MachineDeployment) : prog bool :=
  let! r := scaleMachineSetAndRecordEvent newIS (d_Replicas d) d in Ret r.1.

(** The part of [rolloutRecreate] after the revisions are synced. *)
Definition recreate_step (cfg : Config) (d : MachineDeployment) (newIS : option MachineSet) (oldISs : list MachineSet)
    (isList : list MachineSet) (machineMap : gmap string (list Machine)) : prog unit :=
  let allISs := (Some <$> oldISs) ++ [newIS] in
  do! annotate_during_rollout cfg allISs oldISs in
  let! scaledDown := scaleDownOldMachineSetsForRecreate (FilterActiveMachineSets (Some <$> oldISs)) d in
  if (scaledDown : bool) then syncRolloutStatus allISs newIS d
  else if oldMachinesRunning newIS oldISs machineMap then syncRolloutStatus allISs newIS d
  else
    let! r := (match newIS with
               | Some _ => Ret (newIS, oldISs, d)
               | None => getAllMachineSetsAndSyncRevision cfg d isList machineMap true
               end) in
    let '(newIS, oldISs, d) := r in
    let allISs := (Some <$> oldISs) ++ [newIS] in
    let! new := deref newIS in
    do! scaleUpNewMachineSetForRecreate new d in
    do! finish_rollout cfg allISs oldISs d in
    syncRolloutStatus allISs newIS d.

Definition rolloutRecreate (cfg : Config) (d : MachineDeployment) (isList : list MachineSet)
    (machineMap : gmap string (list Machine)) : prog unit :=
  let! r := getAllMachineSetsAndSyncRevision cfg d isList machineMap false in
  let '(newIS, oldISs, d) := r in
  recreate_step cfg d newIS oldISs isList machineMap.
End rollout.

(** ** Availability during a rolling update *)

Definition ok_counts (ms : MachineSet) : Prop := 0 <= is_Available ms <= is_Replicas ms.

(** The API server answers a successful update with the object as it was sent: same name, size and
    number of available machines. *)
Definition echoes (h : history) : Prop :=
  Forall (fun e : event => match e with
    | existT (UpdateMS ms) (Ok ms') =>
        is_Name ms' = is_Name ms /\ is_Replicas ms' = is_Replicas ms /\ is_Available ms' = is_Available ms
    | _ => True end) h.

Lemma exec_scaleRecord ms n d h o : exec (scaleMachineSetAndRecordEvent ms n d) h o ->
  (is_Replicas ms = n /\ h = [] /\ o = Return (false, ms)) \/
  (is_Replicas ms <> n /\ exists q x, resizes d ms n (UpdateMS q) /\ h = [ev (UpdateMS q) x] /\
     o = match x with Ok m => Return (true, m) | Err e => Raise e end).
Proof.
  unfold scaleMachineSetAndRecordEvent, scaleMachineSet.
  destruct (Z.eqb_spec (is_Replicas ms) n) as [Heq|Hne]; [intros [-> ->]; by left|].
  destruct (SetReplicasAnnotations _ _ _) as [isCopy upd] eqn:Es. simpl. intros (x & h' & -> & Hx).
  right. split; [done|]. exists (is_set_Spec (set_Replicas n) isCopy), x.
  split; [unfold resizes; by rewrite Es|]. destruct x; simpl in Hx; by destruct Hx as [-> ->].
Qed.

(** The object that is sent keeps name and status. *)
Lemma resizes_obj d ms n q : resizes d ms n (UpdateMS q) ->
  is_Name q = is_Name ms /\ is_Replicas q = n /\ is_Available q = is_Available ms.
Proof.
  intros Hr. unfold resizes in Hr. injection Hr as ->.
  unfold SetReplicasAnnotations. destruct (set_if_differs _ _ _) as [a b]. done.
Qed.

(** All writes concern machine sets of [l]. *)
Definition writes_on (d : MachineDeployment) (l : list MachineSet) (h : history) : Prop :=
  Forall (fun r => exists ms n, ms ∈ l /\ resizes d ms n r) (writes h).

Lemma requested_not_in d l h name cur : writes_on d l h -> name ∉ is_Name <$> l -> requested (writes h) name cur = cur.
Proof.
  unfold writes_on. intros HF Hn. induction HF as [|r ws (ms & n & Hin & Hr) _ IH]; [done|].
  change (r :: ws) with ([r] ++ ws). rewrite requested_app, (resizes_requested _ _ _ _ _ _ Hr).
  rewrite bool_decide_false; [done|]. intros <-. apply Hn. by apply list_elem_of_fmap_2.
Qed.

Lemma writes_on_cons d ms l h : writes_on d l h -> writes_on d (ms :: l) h.
Proof. intros H. eapply Forall_impl; [exact H|]. intros r (x & n & Hx & ?). exists x, n. split; [by right|done]. Qed.

Lemma writes_on_app d l h1 h2 : writes_on d l h1 -> writes_on d l h2 -> writes_on d l (h1 ++ h2).
Proof. intros. unfold writes_on. rewrite writes_app. by apply Forall_app. Qed.

Lemma writes_on_nil d l : writes_on d l [].
Proof. constructor. Qed.

Lemma writes_on_one d ms n q x l : resizes d ms n (UpdateMS q) -> writes_on d (ms :: l) [ev (UpdateMS q) x].
Proof. intros Hr. unfold writes_on. rewrite writes_cons. simpl. repeat constructor. exists ms, n. split; [by left|done]. Qed.

Lemma requested_one d ms n q x name cur : resizes d ms n (UpdateMS q) ->
  requested (writes [ev (UpdateMS q) x]) name cur = if bool_decide (is_Name ms = name) then n else cur.
Proof. intros Hr. rewrite writes_cons. simpl. apply (resizes_requested d ms n (UpdateMS q) name cur Hr). Qed.

(** One machine set and then the rest of the list: sizes asked for, seen from the whole list. *)
Lemma requested_split d ms l h1 h2 : is_Name ms ∉ is_Name <$> l ->
  writes_on d [ms] h1 -> writes_on d l h2 ->
  requested (writes (h1 ++ h2)) (is_Name ms) (is_Replicas ms) = requested (writes h1) (is_Name ms) (is_Replicas ms) /\
  forall x, x ∈ l -> requested (writes (h1 ++ h2)) (is_Name x) (is_Replicas x) = requested (writes h2) (is_Name x) (is_Replicas x).
Proof.
  intros Hn H1 H2. split; [|intros x Hx]; rewrite writes_app, requested_app.
  - by apply (requested_not_in d l).
  - f_equal. apply (requested_not_in d [ms]); [done|]. csimpl. intros Hin. apply list_elem_of_singleton in Hin.
    apply Hn. rewrite <- Hin. by apply list_elem_of_fmap_2.
Qed.

Definition cleanup_post (d : MachineDeployment) (l : list MachineSet) (h : history)
    (o : outcome (list MachineSet * Z)) : Prop :=
  writes_on d l h /\
  Forall (fun ms => is_Available ms <= requested (writes h) (is_Name ms) (is_Replicas ms) <= is_Replicas ms) l /\
  match o with
  | Return (l', _) => Forall2 (fun ms ms' => is_Name ms' = is_Name ms /\ is_Available ms' = is_Available ms /\
      is_Replicas ms' = requested (writes h) (is_Name ms) (is_Replicas ms)) l l'
  | Raise _ => True
  | _ => False
  end.

Lemma cleanup_post_nil d l tot : Forall ok_counts l -> cleanup_post d l [] (Return (l, tot)).
Proof.
  intros HF. split; [apply writes_on_nil|]. split.
  - eapply Forall_impl; [exact HF|]. intros ms [? ?]. simpl. lia.
  - apply Forall_Forall2_diag. apply Forall_forall. done.
Qed.

(** Puts the outcome for the head and the one for the tail together. *)
Lemma cleanup_post_cons d ms ms' l h1 h2 o :
  is_Name ms ∉ is_Name <$> l -> writes_on d [ms] h1 ->
  is_Available ms <= requested (writes h1) (is_Name ms) (is_Replicas ms) <= is_Replicas ms ->
  is_Name ms' = is_Name ms -> is_Available ms' = is_Available ms ->
  is_Replicas ms' = requested (writes h1) (is_Name ms) (is_Replicas ms) ->
  cleanup_post d l h2 o ->
  cleanup_post d (ms :: l) (h1 ++ h2)
    (match o with Return (l', t) => Return (ms' :: l', t) | Raise e => Raise e | Panic => Panic | OutOfFuel => OutOfFuel end).
Proof.
  intros Hn H1 Hb En Ea Er (W & F & P). destruct (requested_split d ms l h1 h2 Hn H1 W) as [S1 S2].
  split; [|split].
  - apply writes_on_app; [|by apply writes_on_cons].
    eapply Forall_impl; [exact H1|]. intros r (x & n & Hx & ?). exists x, n. split; [|done].
    apply list_elem_of_singleton in Hx as ->. by left.
  - constructor; [by rewrite S1|]. rewrite Forall_forall in *. intros x Hx. rewrite S2 by done. by apply F.
  - destruct o as [[l' t]|e| |]; try done. constructor; [by rewrite S1|].
    clear -P S2. induction P as [|x x' l l' Hx _ IH]; constructor.
    + rewrite S2 by by left. done.
    + apply IH. intros y Hy. apply S2. by right.
Qed.

(** Clean-up removes unhealthy replicas only: the size asked for is at least the available count. *)
Lemma exec_cleanup_loop_avail d mx total l h o :
  NoDup (is_Name <$> l) -> Forall ok_counts l -> Forall (fun ms => is_Replicas ms <= max_int32) l ->
  0 <= total <= max_int32 -> 0 <= mx <= max_int32 ->
  exec (cleanup_loop d mx total l) h o -> echoes h -> cleanup_post d l h o.
Proof.
  intros Hnd HF. revert total h o Hnd. induction HF as [|ms l Hms HF IH]; intros total h o Hnd HB Ht Hmx He Hecho.
  { destruct He as [-> ->]. by apply cleanup_post_nil. }
  simpl in He. csimpl in Hnd. apply NoDup_cons in Hnd as [Hn Hnd]. apply Forall_cons in HB as [Hb HB].
  unfold ok_counts in Hms.
  destruct (Z.leb_spec mx total) as [|Hlt].
  { destruct He as [-> ->]. apply cleanup_post_nil. by constructor. }
  destruct ((is_Replicas ms =? 0) || (is_Replicas ms =? is_Available ms)) eqn:Ez.
  - assert (Hone : writes_on d [ms] []) by apply writes_on_nil.
    destruct (exec_bind _ _ _ _ He) as [(h1 & [l' t] & h2 & -> & E1 & -> & ->)|(o' & E1 & E2 & ->)].
    + rewrite app_nil_r in *. pose proof (IH _ _ _ Hnd HB Ht Hmx E1 Hecho) as P.
      apply (cleanup_post_cons d ms ms l [] h1 (Return (l', t)) Hn Hone); simpl; lia || done.
    + pose proof (IH _ _ _ Hnd HB Ht Hmx E1 Hecho) as P.
      apply (cleanup_post_cons d ms ms l [] h o' Hn Hone) in P; simpl; try lia; try done.
      by destruct o'.
  - apply orb_false_iff in Ez as [E0 E1]. apply Z.eqb_neq in E0, E1.
    rewrite IntMin_spec in He.
    rewrite (wrap32_id (mx - total)), (wrap32_id (is_Replicas ms - is_Available ms)) in He by width.
    set (c := Z.min (mx - total) (is_Replicas ms - is_Available ms)) in *.
    rewrite (wrap32_id c), (wrap32_id (is_Replicas ms - c)) in He by (unfold c; width).
    destruct (Z.ltb_spec (is_Replicas ms) (is_Replicas ms - c)); [unfold c in *; lia|].
    destruct (exec_bind _ _ _ _ He) as [(h1 & [b u] & h2 & -> & F1 & F2)|(o' & F1 & F2 & ->)];
      apply exec_scaleRecord in F1 as [(Hx & -> & Ho)|(Hx & q & x & Hr & -> & Ho)]; try (unfold c in *; lia).
    + destruct x as [m|]; simplify_eq. apply Forall_cons in Hecho as [(Em1 & Em2 & Em3) Hecho].
      destruct (resizes_obj _ _ _ _ Hr) as (Q1 & Q2 & Q3).
      assert (Hone : writes_on d [ms] [ev (UpdateMS q) (Ok m)]) by (by eapply writes_on_one).
      assert (Hreq : requested (writes [ev (UpdateMS q) (Ok m)]) (is_Name ms) (is_Replicas ms) = is_Replicas ms - c).
      { rewrite (requested_one _ _ _ _ _ _ _ Hr). by rewrite bool_decide_true. }
      rewrite (wrap32_id (total + c)) in F2 by (unfold c; width).
      destruct (exec_bind _ _ _ _ F2) as [(h3 & [l' t] & h4 & -> & G1 & -> & ->)|(o' & G1 & G2 & ->)].
      * rewrite app_nil_r in *.
        assert (P : cleanup_post d l h3 (Return (l', t))) by (eapply (IH (total + c)); eauto; unfold c; lia).
        apply (cleanup_post_cons d ms m l _ h3 (Return (l', t)) Hn Hone); rewrite ?Hreq; try done; unfold c in *; lia || congruence.
      * assert (P : cleanup_post d l h2 o') by (eapply (IH (total + c)); eauto; unfold c; lia).
        apply (cleanup_post_cons d ms m l _ h2 o' Hn Hone) in P; [by destruct o'|..];
          rewrite ?Hreq; try done; unfold c in *; lia || congruence.
    + destruct x as [m|e]; [by subst|]. subst o'. split; [by eapply writes_on_one|]. split; [|done].
      constructor.
      * rewrite (requested_one _ _ _ _ _ _ _ Hr), bool_decide_true by done. unfold c; lia.
      * rewrite Forall_forall in *. intros y Hy. rewrite (requested_one _ _ _ _ _ _ _ Hr).
        rewrite bool_decide_false; [apply HF in Hy; unfold ok_counts in Hy; lia|].
        intros E. apply Hn. rewrite E. by apply list_elem_of_fmap_2.
Qed.

(** Sizes asked for by the scale-down loop: none below zero, none raised, and the sum of the
    reductions stays within what the loop was allowed to remove. *)
Definition scale_down_post (d : MachineDeployment) (l : list MachineSet) (budget : Z) (h : history) : Prop :=
  writes_on d l h /\
  Forall (fun ms => 0 <= requested (writes h) (is_Name ms) (is_Replicas ms) <= is_Replicas ms) l /\
  zsum (fun ms => is_Replicas ms - requested (writes h) (is_Name ms) (is_Replicas ms)) l <= budget.

Lemma scale_down_post_nil d l budget : Forall (fun ms => 0 <= is_Replicas ms) l -> 0 <= budget ->
  scale_down_post d l budget [].
Proof.
  intros HF Hb. split; [apply writes_on_nil|]. split.
  - eapply Forall_impl; [exact HF|]. simpl. lia.
  - rewrite (zsum_ext _ (fun _ => 0)) by (apply Forall_forall; simpl; lia).
    clear HF. induction l; rewrite ?zsum_nil, ?zsum_cons; lia.
Qed.

Lemma scale_down_post_cons d ms l c budget h1 h2 :
  is_Name ms ∉ is_Name <$> l -> writes_on d [ms] h1 ->
  requested (writes h1) (is_Name ms) (is_Replicas ms) = is_Replicas ms - c -> 0 <= c <= is_Replicas ms ->
  scale_down_post d l (budget - c) h2 -> scale_down_post d (ms :: l) budget (h1 ++ h2).
Proof.
  intros Hn H1 Hr Hc (W & F & S). destruct (requested_split d ms l h1 h2 Hn H1 W) as [S1 S2].
  split; [|split].
  - apply writes_on_app; [|by apply writes_on_cons].
    eapply Forall_impl; [exact H1|]. intros r (x & n & Hx & ?). exists x, n. split; [|done].
    apply list_elem_of_singleton in Hx as ->. by left.
  - constructor; [rewrite S1; lia|]. rewrite Forall_forall in *. intros x Hx. rewrite S2 by done. by apply F.
  - rewrite zsum_cons, S1, Hr.
    rewrite (zsum_ext _ (fun ms => is_Replicas ms - requested (writes h2) (is_Name ms) (is_Replicas ms))); [lia|].
    rewrite Forall_forall. intros x Hx. by rewrite S2.
Qed.


Lemma exec_scale_down_loop d count total l h o :
  NoDup (is_Name <$> l) -> Forall (fun ms => 0 <= is_Replicas ms <= max_int32) l ->
  0 <= total <= count -> count <= max_int32 ->
  exec (scale_down_loop d count total l) h o -> scale_down_post d l (count - total) h.
Proof.
  intros Hnd HF. revert total h Hnd. induction HF as [|ms l Hms HF IH]; intros total h Hnd Ht Hc He.
  { destruct He as [-> ->]. apply scale_down_post_nil; [done|lia]. }
  assert (HF' : Forall (fun ms => 0 <= is_Replicas ms) (ms :: l)).
  { constructor; [lia|]. eapply Forall_impl; [exact HF|]. simpl. lia. }
  simpl in He. csimpl in Hnd. apply NoDup_cons in Hnd as [Hn Hnd].
  destruct (Z.leb_spec count total) as [|Hlt].
  { destruct He as [-> ->]. apply scale_down_post_nil; [done|lia]. }
  destruct (Z.eqb_spec (is_Replicas ms) 0) as [E0|E0].
  { apply (scale_down_post_cons d ms l 0 _ [] h Hn (writes_on_nil _ _)); simpl; [lia..|].
    rewrite Z.sub_0_r. by apply IH. }
  rewrite IntMin_spec, (wrap32_id (count - total)) in He by width.
  set (c := Z.min (is_Replicas ms) (count - total)) in *.
  assert (Hc0 : 0 < c <= is_Replicas ms /\ c <= count - total) by (unfold c; lia).
  rewrite (wrap32_id c), (wrap32_id (is_Replicas ms - c)) in He by width.
  destruct (Z.ltb_spec (is_Replicas ms) (is_Replicas ms - c)); [lia|].
  destruct (exec_bind _ _ _ _ He) as [(h1 & u & h2 & -> & F1 & F2)|(o' & F1 & F2 & ->)];
    apply exec_scaleRecord in F1 as [(Hx & -> & Ho)|(Hx & q & x & Hr & -> & Ho)]; try lia.
  - rewrite (wrap32_id (total + c)) in F2 by width.
    apply (scale_down_post_cons d ms l c); [done|by eapply writes_on_one| |lia|].
    + rewrite (requested_one _ _ _ _ _ _ _ Hr). by rewrite bool_decide_true.
    + replace (count - total - c) with (count - (total + c)) by lia. by apply IH; [|lia..|].
  - rewrite <- (app_nil_r [_]). apply (scale_down_post_cons d ms l c); [done|by eapply writes_on_one| |lia|].
    + rewrite (requested_one _ _ _ _ _ _ _ Hr). by rewrite bool_decide_true.
    + apply scale_down_post_nil; [by apply Forall_cons in HF' as [_ ?]|lia].
Qed.

Section availability.
Context `{GoSort}.

(** Available machines once every machine set has the size last asked for. *)
Definition available_after (ws : list req) (newIS : MachineSet) (oldISs : list MachineSet) : Z :=
  is_Available newIS + zsum (fun ms => Z.min (is_Available ms) (requested ws (is_Name ms) (is_Replicas ms))) oldISs.

Definition available_now (newIS : MachineSet) (oldISs : list MachineSet) : Z :=
  is_Available newIS + zsum is_Available oldISs.

Lemma available_after_kept ws newIS oldISs :
  Forall (fun ms => is_Available ms <= requested ws (is_Name ms) (is_Replicas ms)) oldISs ->
  available_after ws newIS oldISs = available_now newIS oldISs.
Proof.
  intros HF. unfold available_after, available_now. f_equal. apply zsum_ext.
  eapply Forall_impl; [exact HF|]. simpl. lia.
Qed.

(** The clean-up phase, whatever its outcome, keeps what is available. *)
Lemma cleanup_keeps d mx newIS oldISs h o :
  NoDup (is_Name <$> oldISs) -> Forall ok_counts oldISs -> Forall (fun ms => is_Replicas ms <= max_int32) oldISs ->
  0 <= mx <= max_int32 -> echoes h ->
  exec (cleanupUnhealthyReplicas oldISs d mx) h o ->
  cleanup_post d (sort_by_creation oldISs) h o /\ available_after (writes h) newIS oldISs = available_now newIS oldISs.
Proof.
  intros Hnd Hok Hb Hmx Hecho He. unfold cleanupUnhealthyReplicas in He.
  assert (P : cleanup_post d (sort_by_creation oldISs) h o).
  { unfold sort_by_creation in *. eapply exec_cleanup_loop_avail; [..|exact He|done]; rewrite ?gosort_perm; width || done. }
  split; [done|]. apply available_after_kept. destruct P as (_ & F & _).
  unfold sort_by_creation in F. rewrite gosort_perm in F. eapply Forall_impl; [exact F|]. simpl. lia.
Qed.
End availability.

Section availability.
Context `{GoSort}.

(** The second phase removes at most the surplus over the minimum. *)
Lemma scale_down_keeps d newIS oldISs h o :
  wf_rolling d -> NoDup (is_Name <$> oldISs) -> Forall ok_counts oldISs ->
  Forall (fun ms => is_Replicas ms <= max_int32) oldISs ->
  0 <= is_Available newIS -> available_now newIS oldISs <= max_int32 ->
  exec (scaleDownOldMachineSetsForRollingUpdate ((Some <$> oldISs) ++ [Some newIS]) oldISs d) h o ->
  Forall (fun ms => 0 <= requested (writes h) (is_Name ms) (is_Replicas ms) <= is_Replicas ms) oldISs /\
  Z.min (available_now newIS oldISs) (MinAvailable d) <= available_after (writes h) newIS oldISs.
Proof.
  intros Hwf Hnd Hok Hb Hnew Hmax He. unfold scaleDownOldMachineSetsForRollingUpdate in He.
  pose proof (MaxUnavailable_range d Hwf) as Hu. pose proof (wf_replicas d Hwf) as Hr.
  assert (Hsum : 0 <= zsum is_Available oldISs)
    by (apply zsum_nonneg; eapply Forall_impl; [exact Hok|]; intros ms Hms; unfold ok_counts in Hms; simpl; lia).
  assert (Ha : GetAvailableReplicaCountForMachineSets ((Some <$> oldISs) ++ [Some newIS]) = available_now newIS oldISs).
  { unfold GetAvailableReplicaCountForMachineSets, available_now in *.
    assert (zsum (opt_count is_Available) ((Some <$> oldISs) ++ [Some newIS]) = is_Available newIS + zsum is_Available oldISs) as E.
    { rewrite zsum_app, opt_count_Some_list, zsum_cons, zsum_nil. simpl. lia. }
    rewrite sum32_exact; rewrite E; width || done. }
  rewrite Ha, (wrap32_id (d_Replicas d - _)) in He by width. rewrite (MinAvailable_eq d Hwf).
  unfold available_now in *.
  destruct (Z.leb_spec (is_Available newIS + zsum is_Available oldISs) (d_Replicas d - MaxUnavailable d)).
  { destruct He as [-> ->]. split.
    - eapply Forall_impl; [exact Hok|]. unfold ok_counts. simpl. lia.
    - rewrite available_after_kept; [unfold available_now; lia|]. eapply Forall_impl; [exact Hok|]. unfold ok_counts. simpl. lia. }
  rewrite wrap32_id in He by width. unfold sort_by_creation in He.
  eapply exec_scale_down_loop in He; [..|width|width].
  2:{ by rewrite gosort_perm. }
  2:{ rewrite gosort_perm. rewrite Forall_forall in *. intros ms Hms.
      pose proof (Hok ms Hms) as Ho. pose proof (Hb ms Hms). unfold ok_counts in Ho. lia. }
  destruct He as (_ & F & S). rewrite gosort_perm in F. rewrite gosort_perm in S. split; [done|].
  unfold available_after.
  assert (zsum is_Available oldISs - zsum (fun ms => is_Replicas ms - requested (writes h) (is_Name ms) (is_Replicas ms)) oldISs
    <= zsum (fun ms => Z.min (is_Available ms) (requested (writes h) (is_Name ms) (is_Replicas ms))) oldISs); [|lia].
  clear -F Hok. induction oldISs as [|x l IH]; [done|]. rewrite !zsum_cons.
  apply Forall_cons in F as [Fx F], Hok as [Ox Hok]. specialize (IH Hok F). unfold ok_counts in Ox. lia.
Qed.

Lemma zsum_Forall2 {A B} (f : A -> Z) (g : B -> Z) l l' : Forall2 (fun x y => f x = g y) l l' -> zsum f l = zsum g l'.
Proof. induction 1; rewrite ?zsum_nil, ?zsum_cons; lia. Qed.

(** Both phases: the second starts from the machine sets the first one returned. *)
Lemma two_phases d newIS oldISs old' tot h1 h2 o :
  wf_rolling d -> NoDup (is_Name <$> oldISs) -> Forall ok_counts oldISs ->
  Forall (fun ms => is_Replicas ms <= max_int32) oldISs ->
  0 <= is_Available newIS -> available_now newIS oldISs <= max_int32 ->
  cleanup_post d oldISs h1 (Return (old', tot)) ->
  exec (scaleDownOldMachineSetsForRollingUpdate ((Some <$> old') ++ [Some newIS]) old' d) h2 o ->
  Forall (fun ms => 0 <= requested (writes (h1 ++ h2)) (is_Name ms) (is_Replicas ms) <= is_Replicas ms) oldISs /\
  Z.min (available_now newIS oldISs) (MinAvailable d) <= available_after (writes (h1 ++ h2)) newIS oldISs.
Proof.
  intros Hwf Hnd Hok Hb Hnew Hmax (_ & F & P) He.
  assert (Hn : is_Name <$> old' = is_Name <$> oldISs).
  { clear -P. induction P as [|x y l l' (Hxy & _) _ IH]; [done|]. csimpl. by rewrite Hxy, IH. }
  assert (Hav : available_now newIS old' = available_now newIS oldISs).
  { unfold available_now. f_equal. symmetry. apply zsum_Forall2. eapply Forall2_impl; [exact P|]. naive_solver. }
  assert (Hold : Forall ok_counts old' /\ Forall (fun ms => is_Replicas ms <= max_int32) old').
  { clear -P F Hok Hb. induction P as [|x y l l' (_ & H2 & H3) _ IH]; [done|].
    apply Forall_cons in F as [Fx F], Hok as [Ox Hok], Hb as [Bx Hb]. destruct (IH Hok Hb F).
    unfold ok_counts in *. split; (constructor; [lia|done]). }
  destruct (scale_down_keeps d newIS old' h2 o Hwf ltac:(by rewrite Hn) (proj1 Hold) (proj2 Hold) Hnew ltac:(by rewrite Hav) He)
    as [G1 G2].
  assert (R : Forall2 (fun ms ms' => is_Available ms' = is_Available ms /\ is_Replicas ms' <= is_Replicas ms /\
     requested (writes (h1 ++ h2)) (is_Name ms) (is_Replicas ms) = requested (writes h2) (is_Name ms') (is_Replicas ms')) oldISs old').
  { clear -P F. induction P as [|x y l1 l2 (Q1 & Q2 & Q3) _ IH]; [by constructor|]. apply Forall_cons in F as [Fx F]. constructor; [|by apply IH].
    rewrite writes_app, requested_app, Q1, Q3. split; [done|]. split; [lia|done]. }
  split.
  - clear -R G1. induction R as [|x y l l' (Q1 & Q2 & Q3) _ IH]; [done|].
    apply Forall_cons in G1 as [Gx G1]. constructor; [lia|by apply IH].
  - rewrite Hav in G2. unfold available_after in *.
    erewrite (zsum_Forall2 _ (fun ms => Z.min (is_Available ms) (requested (writes h2) (is_Name ms) (is_Replicas ms))) oldISs old'); [done|].
    eapply Forall2_impl; [exact R|]. simpl. intros x y (E1 & _ & E2). by rewrite E1, E2.
Qed.

Lemma available_perm newIS l l' : l ≡ₚ l' -> available_now newIS l = available_now newIS l'.
Proof. intros Hp. unfold available_now. by rewrite Hp. Qed.

Lemma available_after_perm ws newIS l l' : l ≡ₚ l' -> available_after ws newIS l = available_after ws newIS l'.
Proof. intros Hp. unfold available_after. by rewrite Hp. Qed.

Lemma enough_kept d newIS oldISs ws : Forall ok_counts oldISs ->
  Forall (fun ms => is_Available ms <= requested ws (is_Name ms) (is_Replicas ms) <= is_Replicas ms) oldISs ->
  Forall (fun ms => 0 <= requested ws (is_Name ms) (is_Replicas ms) <= is_Replicas ms) oldISs /\
  Z.min (available_now newIS oldISs) (MinAvailable d) <= available_after ws newIS oldISs.
Proof.
  intros Hok F. split.
  - rewrite Forall_forall in *. intros ms Hms. pose proof (F ms Hms). pose proof (Hok ms Hms) as Ho.
    unfold ok_counts in Ho. lia.
  - rewrite available_after_kept; [lia|]. eapply Forall_impl; [exact F|]. simpl. lia.
Qed.

(** C1: a rolling update keeps enough machines available.  For every execution of
    [reconcileOldMachineSets], failing calls included, in which the API server stores what it is sent,
    the sizes asked for are between zero and the current ones, and with these sizes the deployment keeps
    as many available machines as it has now or the minimum [MinAvailable], whichever is less. *)
Theorem reconcileOldMachineSets_availability d allISs newIS oldISs h o :
  wf_rolling d -> NoDup (is_Name <$> oldISs) -> Forall ok_counts oldISs ->
  Forall (fun ms => is_Replicas ms <= max_int32) oldISs ->
  0 <= is_Available newIS -> available_now newIS oldISs <= max_int32 ->
  echoes h -> exec (reconcileOldMachineSets allISs oldISs newIS d) h o ->
  Forall (fun ms => 0 <= requested (writes h) (is_Name ms) (is_Replicas ms) <= is_Replicas ms) oldISs /\
  Z.min (available_now newIS oldISs) (MinAvailable d) <= available_after (writes h) newIS oldISs.
Proof.
  intros Hwf Hnd Hok Hb Hnew Hmax Hecho He.
  assert (Hnil : Forall (fun ms => is_Available ms <= requested [] (is_Name ms) (is_Replicas ms) <= is_Replicas ms) oldISs).
  { eapply Forall_impl; [exact Hok|]. unfold ok_counts. simpl. lia. }
  unfold reconcileOldMachineSets in He. destruct (_ =? 0); [destruct He as [-> ->]; by apply enough_kept|].
  set (mx := _ -32 (is_Replicas newIS -32 is_Available newIS)) in He.
  assert (Hmx : is_int32 mx) by apply wrap32_range.
  destruct (Z.leb_spec mx 0); [destruct He as [-> ->]; by apply enough_kept|].
  assert (Hfirst : forall h1 o1, exec (cleanupUnhealthyReplicas oldISs d mx) h1 o1 -> echoes h1 ->
    cleanup_post d (sort_by_creation oldISs) h1 o1 /\
    Forall (fun ms => is_Available ms <= requested (writes h1) (is_Name ms) (is_Replicas ms) <= is_Replicas ms) oldISs).
  { intros h1 o1 E1 Ec. destruct (cleanup_keeps d mx newIS oldISs h1 o1) as [P _]; try done; [width|].
    split; [done|]. destruct P as (_ & F & _). unfold sort_by_creation in F. by rewrite gosort_perm in F. }
  destruct (exec_bind _ _ _ _ He) as [(h1 & c & h2 & -> & E1 & E2)|(o' & E1 & E2 & ->)].
  2:{ destruct (exec_attempt _ _ _ E1) as [(?&E&?)|[(?&E&?)|[[E ?]|[E ?]]]]; (apply enough_kept; [done|by eapply Hfirst]). }
  apply Forall_app in Hecho as [Ec1 Ec2].
  destruct (exec_attempt _ _ _ E1) as [([old' tot]&E&?)|[(?&E&?)|[[E ?]|[E ?]]]]; simplify_eq.
  2:{ destruct E2 as [-> ->]. rewrite app_nil_r. apply enough_kept; [done|]. by eapply Hfirst. }
  destruct (Hfirst _ _ E Ec1) as [P _].
  assert (T : forall h3 o3, exec (scaleDownOldMachineSetsForRollingUpdate ((Some <$> old') ++ [Some newIS]) old' d) h3 o3 ->
    Forall (fun ms => 0 <= requested (writes (h1 ++ h3)) (is_Name ms) (is_Replicas ms) <= is_Replicas ms) oldISs /\
    Z.min (available_now newIS oldISs) (MinAvailable d) <= available_after (writes (h1 ++ h3)) newIS oldISs).
  { intros h3 o3 E3. unfold sort_by_creation in P.
    assert (Hp := gosort_perm MachineSetsByCreationTimestamp_Less oldISs).
    destruct (two_phases d newIS (gosort MachineSetsByCreationTimestamp_Less oldISs) old' tot h1 h3 o3 Hwf ltac:(by rewrite Hp) ltac:(by rewrite Hp) ltac:(by rewrite Hp)
      Hnew ltac:(by rewrite (available_perm newIS _ _ Hp)) P E3) as [T1 T2].
    rewrite Hp in T1. by rewrite (available_perm newIS _ _ Hp), (available_after_perm _ newIS _ _ Hp) in T2. }
  destruct (exec_bind _ _ _ _ E2) as [(h3 & s & h4 & -> & E3 & E4)|(o' & E3 & E4 & ->)].
  - assert (h4 = []) as -> by (destruct s; by destruct E4). rewrite app_nil_r.
    destruct (exec_attempt _ _ _ E3) as [(?&E'&?)|[(?&E'&?)|[[E' ?]|[E' ?]]]]; by eapply T.
  - destruct (exec_attempt _ _ _ E3) as [(?&E'&?)|[(?&E'&?)|[[E' ?]|[E' ?]]]]; by eapply T.
Qed.
End availability.

(** Two old machine sets, one with an unhealthy machine, and a new one that is partly up. *)
Definition sample_old : list MachineSet := [sample_ms "a" 2 1; sample_ms "b" 3 3].
Definition sample_rolling : prog bool :=
  reconcileOldMachineSets ((Some <$> sample_old) ++ [Some (sample_ms "n" 2 2)]) sample_old (sample_ms "n" 2 2)
    (sample_md 6 1 2).

Lemma reconcileOldMachineSets_availability_witness :
  available_after (writes (run echo sample_rolling tt).1.2) (sample_ms "n" 2 2) sample_old = 4 /\
  Z.min (available_now (sample_ms "n" 2 2) sample_old) (MinAvailable (sample_md 6 1 2)) <=
    available_after (writes (run echo sample_rolling tt).1.2) (sample_ms "n" 2 2) sample_old.
Proof.
  split; [vm_compute; reflexivity|].
  refine (proj2 (reconcileOldMachineSets_availability (sample_md 6 1 2) _ (sample_ms "n" 2 2) sample_old _ _
    _ _ _ _ _ _ _ (run_exec echo sample_rolling tt))).
  - apply sample_wf_rolling; width.
  - apply (bool_decide_unpack _). vm_compute. exact I.
  - repeat constructor; vm_compute; discriminate.
  - repeat constructor; vm_compute; discriminate.
  - vm_compute; discriminate.
  - vm_compute; discriminate.
  - repeat constructor.
Defined.

(** ** Recreate: old machines first *)

(** Calls that touch no machine set object, other than by a patch of its owner references. *)
Definition no_ms_write (e : event) : Prop :=
  match projT1 e with CreateMS _ | UpdateMS _ | UpdateStatusMS _ | DeleteMS _ _ => False | _ => True end.

Lemma claimMachines_no_ms_write ms sel l : emits no_ms_write (claimMachines ms sel l).
Proof.
  unfold claimMachines, ClaimMachines, ClaimObjects, claim_step, ClaimObject, Adopt, Release, CanAdopt, patch,
    machine_manager, RecheckDeletionTimestamp, fresh_machineset. simpl. emits_all; done.
Qed.

Lemma machines_of_no_ms_write ms : emits no_ms_write (machines_of ms).
Proof. unfold machines_of. emits_all; try done. apply claimMachines_no_ms_write. Qed.

Lemma annotate_nodes_no_ms_write l a : emits no_ms_write (annotateNodesBackingMachineSets l a).
Proof.
  unfold annotateNodesBackingMachineSets, AddOrUpdateAnnotationOnNode, annotation_update, UpdateNodeAnnotations, update_wrapped.
  emits_all; try done. apply machines_of_no_ms_write.
Qed.

Lemma syncRolloutStatus_no_ms_write l n d : emits no_ms_write (syncRolloutStatus l n d).
Proof. unfold syncRolloutStatus, requeueStuckMachineDeployment. emits_all; done. Qed.

#[export] Hint Resolve claimMachines_no_ms_write machines_of_no_ms_write annotate_nodes_no_ms_write
  syncRolloutStatus_no_ms_write : mcm.

(** While old machines exist nothing is created and machine sets are only scaled to zero. *)
Definition tears_down (d : MachineDeployment) (oldISs : list MachineSet) (e : event) : Prop :=
  no_ms_write e \/
  match projT1 e with
  | UpdateMS m => exists ms, ms ∈ oldISs /\ 0 < is_Replicas ms /\ resizes d ms 0 (UpdateMS m)
  | _ => False
  end.

Lemma no_ms_write_tears_down {A} d l (p : prog A) : emits no_ms_write p -> emits (tears_down d l) p.
Proof. apply emits_weaken. by left. Qed.

Lemma scaleDownForRecreate_tears_down d l :
  emits (tears_down d l) (scaleDownOldMachineSetsForRecreate (FilterActiveMachineSets (Some <$> l)) d).
Proof.
  unfold scaleDownOldMachineSetsForRecreate. apply emits_for_fold. intros scaled ms Hms.
  apply elem_of_FilterActive in Hms as [Hin Hpos]. apply list_elem_of_fmap in Hin as (ms' & [= <-] & Hin).
  emits_all. intros h o He. apply exec_scaleRecord in He as [(? & -> & _)|(? & q & x & Hr & -> & _)]; [constructor|].
  constructor; [|constructor]. right. simpl. eauto.
Qed.

(** Something was scaled if there was something to scale. *)
Lemma exec_scaleDownForRecreate d l s h b : Forall (fun ms => 0 < is_Replicas ms) l ->
  exec (for_fold l s (fun scaled ms =>
    if is_Replicas ms =? 0 then Ret scaled
    else let! r := scaleMachineSetAndRecordEvent ms 0 d in Ret (scaled || r.1))) h (Return b) ->
  b = s || negb (bool_decide (l = [])).
Proof.
  intros HF; revert s h; induction HF as [|ms l Hms HF IH]; intros s h He.
  { destruct He as [_ [= ->]]. by rewrite orb_false_r. }
  cbn [for_fold] in He. destruct (Z.eqb_spec (is_Replicas ms) 0); [lia|].
  destruct (exec_bind _ _ _ _ He) as [(h1 & s1 & h2 & -> & E1 & E2)|(o' & E1 & E2 & Ho)]; [|by destruct o'].
  apply IH in E2 as ->.
  destruct (exec_bind _ _ _ _ E1) as [(h3 & [c u] & h4 & -> & E3 & E4)|(o' & E3 & E4 & Ho)]; [|by destruct o'].
  apply exec_scaleRecord in E3 as [(? & -> & ?)|(? & q & x & Hr & -> & Ho)]; [lia|].
  destruct x; simplify_eq/=. destruct E4 as [-> [= ->]]. rewrite orb_true_r. done.
Qed.

Section recreate.
Context `{GoSort} `{FloatConv} `{Hasher}.

(** The Recreate strategy never runs old and new machines side by side on its own account.  As long
    as an old machine set still has replicas, or reports machines, or machines of another set than the
    new one exist, no execution of the step creates a machine set, deletes one or changes one other than
    to scale an old one down to zero. *)
Theorem recreate_waits_for_old_machines cfg d newIS oldISs isList machineMap :
  FilterActiveMachineSets (Some <$> oldISs) <> [] \/ oldMachinesRunning newIS oldISs machineMap = true ->
  emits (tears_down d oldISs) (recreate_step cfg d newIS oldISs isList machineMap).
Proof.
  intros Hold. unfold recreate_step. apply emits_bind.
  { unfold annotate_during_rollout. emits_all. apply no_ms_write_tears_down; auto with mcm. }
  intros _. apply emits_bind_strong; [apply scaleDownForRecreate_tears_down|]. intros scaled h He.
  apply exec_scaleDownForRecreate in He as ->.
  2:{ rewrite Forall_forall. intros ms Hms. by apply elem_of_FilterActive in Hms as [_ ?]. }
  simpl. case_bool_decide as Hb; simpl; [|apply no_ms_write_tears_down; auto with mcm].
  destruct Hold as [?| ->]; [done|]. apply no_ms_write_tears_down; auto with mcm.
Qed.

(** With [autoscalerScaleDownAnnotationDuringRollout] a Recreate rollout that has no new machine set
    yet, and whose old ones are up, never gets anywhere: the list of machine sets to annotate ends with
    the missing set, whose name is read.  No execution returns and none scales anything down. *)
Theorem recreate_panics_with_annotations cfg d oldISs isList machineMap h o :
  cfg_autoscalerScaleDownAnnotationDuringRollout cfg = true ->
  oldISs <> [] -> machineSetsScaledToZero oldISs = false ->
  exec (recreate_step cfg d None oldISs isList machineMap) h o ->
  is_fail o /\ Forall no_ms_write h.
Proof.
  intros Hc Hne Hz He. unfold recreate_step, annotate_during_rollout in He.
  rewrite Hc, Hz, bool_decide_true in He by done. simpl in He.
  assert (Hnever : forall l h u, ~ exec (annotateNodesBackingMachineSets ((Some <$> l) ++ [None])
    clusterAutoscalerScaleDownAnnotations) h (Return u)).
  { clear. intros l. induction l as [|ms l IH]; intros h u He.
    - destruct He as [_ [=]].
    - unfold annotateNodesBackingMachineSets in *. csimpl in He. cbn [for_each app] in He.
      destruct (exec_bind _ _ _ _ He) as [(h1 & [] & h2 & -> & _ & E2)|(o' & _ & E & Ho)]; [|by destruct o'].
      by eapply IH. }
  destruct (exec_bind _ _ _ _ He) as [(h1 & [] & h2 & -> & E1 & E2)|(o' & E1 & E2 & ->)].
  - by apply Hnever in E1.
  - split; [by destruct o'|]. by eapply annotate_nodes_no_ms_write.
Qed.
End recreate.

Lemma recreate_waits_for_old_machines_witness :
  emits (tears_down (sample_md 3 1 0) [sample_ms "a" 2 2])
    (recreate_step sample_config (sample_md 3 1 0) (Some (sample_ms "n" 0 0)) [sample_ms "a" 2 2] [] ∅).
Proof.
  apply (recreate_waits_for_old_machines sample_config (sample_md 3 1 0) (Some (sample_ms "n" 0 0)) [sample_ms "a" 2 2] [] ∅).
  left. vm_compute. discriminate.
Defined.

(** A machine set that is up has nodes: the run stops at the missing machine set. *)
Definition up : MachineSet := sample_ms "a" 2 2.
Definition listing (r : req) (w : unit) : unit * result (answer r) :=
  (w, match r return result (answer r) with
      | ListerMachines => Ok [sample_machine "m" MachineRunning]
      | GetMS _ name => Ok (sample_ms name 2 2)
      | PatchMachine _ _ _ => Ok tt
      | Now => Ok 5000
      | _ => Err (mkErr NotFound "not found")
      end).
Definition sample_recreate : prog unit := recreate_step sample_config (sample_md 3 1 0) None [up] [up] ∅.

Lemma recreate_panics_with_annotations_witness :
  (run listing sample_recreate tt).2 = Panic /\ is_fail (run listing sample_recreate tt).2.
Proof.
  split; [vm_compute; reflexivity|].
  refine (proj1 (recreate_panics_with_annotations sample_config (sample_md 3 1 0) [up] [up] ∅ _ _ _ _ _
    (run_exec listing sample_recreate tt))); vm_compute; done || discriminate.
Defined.

(** ** The retry loop on a machine set *)

(** What follows a failed fetch or a failed update. *)
Definition retry_after (retryDeadline : Z) (e : error) (again : prog unit) : prog unit :=
  let! t := now in
  if t <? retryDeadline then do! call_ignore (Sleep conflictRetryInterval) in again else Throw e.

Lemma exec_retry_after deadline e again h o : exec (retry_after deadline e again) h o ->
  exists x t, t = (match x with Ok t => t | Err _ => 0 end) /\
   ((deadline <= t /\ h = [ev Now x] /\ o = Raise e) \/
    (t < deadline /\ exists u h', h = ev Now x :: ev (Sleep conflictRetryInterval) u :: h' /\ exec again h' o)).
Proof.
  intros (x & h' & -> & He). exists x. eexists. split; [done|].
  change (exec (if (match x with Ok t => t | Err _ => 0 end) <? deadline
    then do! call_ignore (Sleep conflictRetryInterval) in again else Throw e) h' o) in He.
  destruct (Z.ltb_spec (match x with Ok t => t | Err _ => 0 end) deadline).
  - right. split; [done|]. destruct He as (u & h2 & -> & He). eauto.
  - left. by destruct He as [-> ->].
Qed.

Lemma annotate_loop_unfold rounds keep deadline ns name f h o :
  exec (annotate_loop (S rounds) keep deadline ns name f) h o ->
  exists g h', h = ev (GetMS ns name) g :: h' /\
   match g with
   | Err e => exec (retry_after deadline e (annotate_loop rounds keep deadline EmptyString EmptyString f)) h' o
   | Ok ms => exists u h2, h' = ev (UpdateMS (is_updateAnnotations f ms)) u :: h2 /\
       match u with
       | Ok _ => h2 = [] /\ o = Return tt
       | Err e => exec (retry_after deadline e (annotate_loop rounds keep deadline
                     (if keep then Namespace (is_Meta ms) else EmptyString) (if keep then is_Name ms else EmptyString) f)) h2 o
       end
   end.
Proof.
  intros (g & h' & -> & He). exists g, h'. split; [done|]. destruct g as [ms|e]; [|exact He].
  destruct He as (u & h2 & -> & He). exists u, h2. split; [done|]. destruct u; [exact He|]. by destruct keep.
Qed.

(** The loop ends.  With an honest clock thirteen rounds are enough to use up the sixty seconds of
    [maxRetryDeadline] at five seconds a round, whatever the API server answers: more fuel is never used. *)
Theorem annotate_loop_terminates rounds keep start deadline ns name f h o :
  deadline <= start + maxRetryDeadline -> (13 <= rounds)%nat -> honest_clock start h ->
  exec (annotate_loop rounds keep deadline ns name f) h o ->
  o <> OutOfFuel /\ (length h <= 4 * 13)%nat.
Proof.
  intros Hd Hr.
  cut (forall k rounds ns name t h, (1 <= k <= rounds)%nat -> deadline <= t + conflictRetryInterval * (Z.of_nat k - 1) ->
    honest_clock t h -> exec (annotate_loop rounds keep deadline ns name f) h o -> o <> OutOfFuel /\ (length h <= 4 * k)%nat).
  { intros Hcut Hh He. eapply (Hcut 13%nat); [| |exact Hh|exact He]; [lia|].
    unfold maxRetryDeadline, conflictRetryInterval, second in *. lia. }
  clear. intros k. induction k as [|k IH]; intros rounds ns name t h Hk Hb Hh He; [lia|].
  destruct rounds as [|rounds]; [lia|]. apply annotate_loop_unfold in He as (g & h' & -> & He).
  assert (Hretry : forall e ns name h, honest_clock t h ->
    exec (retry_after deadline e (annotate_loop rounds keep deadline ns name f)) h o ->
    o <> OutOfFuel /\ (length h <= 4 * k + 2)%nat).
  { intros e ns' name' h2 Hc E. apply exec_retry_after in E as (x & t' & -> & [(? & -> & ->)|(Hlt & u & h3 & -> & E)]).
    - split; [done|]. simpl. lia.
    - simpl in Hc. destruct x as [t'|]; [|done]. destruct Hc as [Hle Hc].
      assert (k <> 0%nat) by (intros ->; simpl in Hb; lia).
      destruct (IH rounds ns' name' (t' + conflictRetryInterval) h3) as [Ho Hl];
        [lia|unfold conflictRetryInterval, second in *; lia|done|done|].
      split; [done|]. simpl. lia. }
  destruct g as [ms|e]; simpl in Hh.
  - destruct He as (u & h2 & -> & He). simpl in Hh. destruct u as [m|e].
    + destruct He as [-> ->]. split; [done|]. simpl. lia.
    + destruct (Hretry _ _ _ _ Hh He). split; [done|]. simpl. lia.
  - destruct (Hretry _ _ _ _ Hh He). split; [done|]. simpl. lia.
Qed.

Definition failed_get (e : event) : bool :=
  match e with existT (GetMS _ _) (Err _) => true | _ => false end.

(** A failed fetch loses the machine set: the variable now holds the empty object of the failed
    call, and the retry that follows (after the clock is read and the pause is over) asks the API server
    for the machine set with the empty name. *)
Theorem annotate_loop_forgets_name rounds keep deadline ns name f h o h1 fetch clock pause next h2 :
  exec (annotate_loop rounds keep deadline ns name f) h o ->
  h = h1 ++ fetch :: clock :: pause :: next :: h2 -> failed_get fetch = true ->
  projT1 next = GetMS EmptyString EmptyString.
Proof.
  intros He Hh Hf. revert ns name h h1 He Hh. induction rounds as [|rounds IH]; intros ns name h h1 He Hh.
  { destruct He as [-> ->]. by destruct h1. }
  apply annotate_loop_unfold in He as (g & h' & -> & He).
  assert (Hretry : forall e0 ns0 name0 h3 h4,
    exec (retry_after deadline e0 (annotate_loop rounds keep deadline ns0 name0 f)) h3 o ->
    h3 = h4 ++ fetch :: clock :: pause :: next :: h2 -> projT1 next = GetMS EmptyString EmptyString).
  { intros e0 ns0 name0 h3 h4 E E3. apply exec_retry_after in E as (y & t' & _ & [(_ & -> & _)|(_ & v & h5 & -> & E)]).
    - destruct h4 as [|? [|]]; discriminate E3.
    - destruct h4 as [|? [|? h4]]; injection E3 as; subst; [done..|]. by eapply IH. }
  destruct h1 as [|ev0 h1]; injection Hh as <- Hh.
  - destruct g as [ms|e]; [done|]. apply exec_retry_after in He as (y & t' & _ & [(_ & -> & _)|(_ & v & h5 & -> & E)]).
    + discriminate Hh.
    + injection Hh as <- <- ->. destruct rounds as [|rounds]; [by destruct E|].
      apply annotate_loop_unfold in E as (g & h' & Heq & _). by injection Heq as -> _.
  - destruct g as [ms|e]; [|by eapply Hretry]. destruct He as (u & h3 & -> & He). destruct h1 as [|ev1 h1].
    + injection Hh as <-. done.
    + injection Hh as <- Hh. destruct u; [|by eapply Hretry]. destruct He as [-> _]. by destruct h1.
Qed.

(** The fetch fails once, with a clock that advances by two seconds a reading. *)
Definition flaky (r : req) (w : Z) : Z * result (answer r) :=
  match r return Z * result (answer r) with
  | GetMS _ name => (w, if w <? 4 * second then Err (mkErr OtherErr "timeout") else Ok (sample_ms name 1 1))
  | UpdateMS ms => (w, Ok ms)
  | Now => (w + 2 * second, Ok (w + 2 * second))
  | Sleep d => (w + d, Ok tt)
  | _ => (w, Err (mkErr NotFound "not found"))
  end.
Definition sample_annotate : prog unit := annotate_loop 13 true maxRetryDeadline "shoot" "a" (<["k" := "v"]>).

Lemma annotate_loop_terminates_witness :
  (run flaky sample_annotate 0).2 = Return tt /\ (run flaky sample_annotate 0).2 <> OutOfFuel.
Proof.
  split; [vm_compute; reflexivity|].
  refine (proj1 (annotate_loop_terminates 13 true 0 maxRetryDeadline "shoot" "a" (<["k" := "v"]>) _ _ _ _ _
    (run_exec flaky sample_annotate 0))).
  - reflexivity.
  - lia.
  - vm_compute. repeat split; discriminate.
Defined.

Lemma annotate_loop_forgets_name_witness :
  projT1 <$> (run flaky sample_annotate 0).1.2 !! 3%nat = Some (GetMS EmptyString EmptyString).
Proof.
  destruct (run flaky sample_annotate 0).1.2 as [|e0 [|e1 [|e2 [|e3 h2]]]] eqn:E; try (vm_compute in E; discriminate E).
  simpl. f_equal.
  refine (annotate_loop_forgets_name 13 true maxRetryDeadline "shoot" "a" (<["k" := "v"]>) _ _ [] e0 e1 e2 e3 h2
    (run_exec flaky sample_annotate 0) E _).
  vm_compute in E. injection E as <- _. reflexivity.
Defined.
