(* ===== verification/RolloutProgress.v ===== *)
(** * A rolling update comes to an end

    Rollout.v says what one reconciliation of a rolling update may do.  Here reconciliations follow each
    other, and between two of them the machine set controller brings the machine sets to the sizes asked for:
    new machines come up, old ones may be unhealthy.  Every reconciliation then makes a step towards the new
    template, and the rollout is complete after as many steps as there are machines to create and to remove. *)
From Stdlib Require Import ZArith Lia.
From stdpp Require Import base gmap strings list sorting relations.
From S2P Require Import Prelude GoLib Types Labels MachineSets DeploymentUtil Prog Samples DeploymentSync Rollout.
Open Scope Z_scope.

(** ** Accepted writes *)

(** Every update of a machine set is accepted and stored as it was sent. *)
Definition accepting (h : history) : Prop :=
  Forall (fun e : event => match e with
    | existT (UpdateMS ms) (Ok ms') =>
        is_Name ms' = is_Name ms /\ is_Replicas ms' = is_Replicas ms /\ is_Available ms' = is_Available ms
    | existT (UpdateMS _) (Err _) => False
    | _ => True end) h.

Lemma accepting_echoes h : accepting h -> echoes h.
Proof. intros H. eapply Forall_impl; [exact H|]. intros [r x]. destruct r; try done. by destruct x. Qed.

Lemma writes_on_head d ms l h : writes_on d [ms] h -> writes_on d (ms :: l) h.
Proof.
  intros H. eapply Forall_impl; [exact H|]. intros r (x & n & Hx & Hr). exists x, n. split; [|done].
  apply list_elem_of_singleton in Hx as ->. by left.
Qed.

(** The size of a machine set after the calls. *)
Abbreviation size_after h ms := (requested (writes h) (is_Name ms) (is_Replicas ms)).

(** Machines that the calls take away from the machine sets [l]. *)
Definition removed (h : history) (l : list MachineSet) : Z := zsum (fun ms => is_Replicas ms - size_after h ms) l.

Lemma removed_perm h l l' : l ≡ₚ l' -> removed h l = removed h l'.
Proof. intros Hp. unfold removed. by rewrite Hp. Qed.

Lemma removed_sum h l : zsum (fun ms => size_after h ms) l = zsum is_Replicas l - removed h l.
Proof. unfold removed. induction l as [|x l IH]; rewrite ?zsum_nil, ?zsum_cons; lia. Qed.

Lemma removed_nil l : removed [] l = 0.
Proof.
  unfold removed. change (writes []) with (@nil req). simpl.
  induction l as [|x l IH]; rewrite ?zsum_nil, ?zsum_cons; lia.
Qed.

Lemma removed_cons d ms l h1 h2 : is_Name ms ∉ is_Name <$> l -> writes_on d [ms] h1 -> writes_on d l h2 ->
  removed (h1 ++ h2) (ms :: l) = (is_Replicas ms - size_after h1 ms) + removed h2 l.
Proof.
  intros Hn H1 H2. destruct (requested_split d ms l h1 h2 Hn H1 H2) as [S1 S2].
  unfold removed. rewrite zsum_cons, S1. f_equal. apply zsum_ext, Forall_forall. intros x Hx. by rewrite S2.
Qed.

Lemma scale_accepted ms n d h o : exec (scaleMachineSetAndRecordEvent ms n d) h o -> accepting h ->
  exists m, o = Return (negb (is_Replicas ms =? n), m) /\ size_after h ms = n /\ writes_on d [ms] h /\
    (is_Replicas ms = n -> h = []).
Proof.
  intros He Ha. apply exec_scaleRecord in He as [(E & -> & ->)|(E & q & x & Hr & -> & ->)].
  - exists ms. rewrite (proj2 (Z.eqb_eq _ _) E). split_and!; [done|done|apply writes_on_nil|done].
  - apply Forall_cons in Ha as [Hx _]. destruct x as [m|]; [|done]. exists m.
    rewrite (proj2 (Z.eqb_neq _ _) E). split; [done|]. split; [|split; [by eapply writes_on_one|done]].
    rewrite (requested_one _ _ _ _ _ _ _ Hr). by rewrite bool_decide_true.
Qed.

Lemma accepting_app h1 h2 : accepting (h1 ++ h2) <-> accepting h1 /\ accepting h2.
Proof. apply Forall_app. Qed.

(** ** The two loops *)

(** The result of the clean-up counts what it removed, and with something to remove it removes something. *)
Lemma cleanup_accepted d mx total l h o :
  NoDup (is_Name <$> l) -> Forall ok_counts l -> Forall (fun ms => is_Replicas ms <= max_int32) l ->
  0 <= total <= max_int32 -> 0 <= mx <= max_int32 ->
  exec (cleanup_loop d mx total l) h o -> accepting h ->
  writes_on d l h /\ 0 <= removed h l /\
  (exists l', o = Return (l', total + removed h l)) /\
  (total < mx -> Exists (fun ms => is_Available ms <> is_Replicas ms) l -> 0 < removed h l).
Proof.
  intros Hnd HF. revert total h o Hnd. induction HF as [|ms l Hms HF IH]; intros total h o Hnd HB Ht Hmx He Ha.
  { destruct He as [-> ->]. rewrite removed_nil. split; [apply writes_on_nil|]. split; [done|]. split.
    - exists []. do 2 f_equal. lia.
    - intros _ Hex. by apply Exists_nil in Hex. }
  simpl in He. csimpl in Hnd. apply NoDup_cons in Hnd as [Hn Hnd]. apply Forall_cons in HB as [Hb HB].
  unfold ok_counts in Hms.
  destruct (Z.leb_spec mx total) as [|Hlt].
  { destruct He as [-> ->]. rewrite removed_nil. split; [apply writes_on_nil|]. split; [done|]. split; [|lia].
    exists (ms :: l). do 2 f_equal. lia. }
  destruct ((is_Replicas ms =? 0) || (is_Replicas ms =? is_Available ms)) eqn:Ez.
  - apply orb_true_iff in Ez. rewrite !Z.eqb_eq in Ez.
    destruct (exec_bind _ _ _ _ He) as [(h1 & r & h2 & -> & E1 & -> & ->)|(o' & E1 & E2 & ->)];
      [rewrite app_nil_r in *|]; destruct (IH _ _ _ Hnd HB Ht Hmx E1 Ha) as (W & R & (l' & Ho) & P); [|by subst].
    injection Ho as ->. pose proof (removed_cons d ms l [] h1 Hn (writes_on_nil _ _) W) as E. simpl in E.
    rewrite Z.sub_diag in E. rewrite E.
    split; [by apply writes_on_cons|]. split; [lia|]. split; [by eexists|].
    intros Hl Hex. apply Exists_cons in Hex as [Hx|Hex]; [lia|]. specialize (P Hl Hex). lia.
  - apply orb_false_iff in Ez as [E0 E1]. apply Z.eqb_neq in E0, E1.
    rewrite IntMin_spec in He.
    rewrite (wrap32_id (mx - total)), (wrap32_id (is_Replicas ms - is_Available ms)) in He by width.
    set (c := Z.min (mx - total) (is_Replicas ms - is_Available ms)) in *.
    assert (Hc : 0 < c <= is_Replicas ms /\ c <= mx - total) by (unfold c; lia).
    rewrite (wrap32_id c), (wrap32_id (is_Replicas ms - c)), (wrap32_id (total + c)) in He by width.
    destruct (Z.ltb_spec (is_Replicas ms) (is_Replicas ms - c)); [lia|].
    destruct (exec_bind _ _ _ _ He) as [(h1 & u & h2 & -> & F1 & F2)|(o' & F1 & F2 & ->)];
      [apply accepting_app in Ha as [Ha1 Ha2]|]; destruct (scale_accepted _ _ _ _ _ F1) as (m & Ho & S & W1 & _); try done;
      [|by subst].
    destruct (exec_bind _ _ _ _ F2) as [(h3 & r & h4 & -> & G1 & -> & ->)|(o' & G1 & G2 & ->)];
      [rewrite app_nil_r in *|]; destruct (IH (total + c) _ _ Hnd HB ltac:(lia) Hmx G1 Ha2) as (W & R & (l' & Ho') & _); [|by subst].
    injection Ho' as ->. rewrite (removed_cons d ms l h1 h3 Hn W1 W), S.
    split; [|split; [lia|split]].
    + apply writes_on_app; [|by apply writes_on_cons]. by apply (writes_on_head d ms l).
    + eexists. simpl. do 2 f_equal. lia.
    + lia.
Qed.

(** Likewise for the scale-down. *)
Lemma scale_down_accepted d count total l h o :
  NoDup (is_Name <$> l) -> Forall (fun ms => 0 <= is_Replicas ms <= max_int32) l ->
  0 <= total <= count -> count <= max_int32 ->
  exec (scale_down_loop d count total l) h o -> accepting h ->
  writes_on d l h /\ 0 <= removed h l /\ o = Return (total + removed h l) /\
  (total < count -> Exists (fun ms => 0 < is_Replicas ms) l -> 0 < removed h l).
Proof.
  intros Hnd HF. revert total h o Hnd. induction HF as [|ms l Hms HF IH]; intros total h o Hnd Ht Hc He Ha.
  { destruct He as [-> ->]. rewrite removed_nil, Z.add_0_r. split_and!; [apply writes_on_nil|done|done|].
    intros _ Hex. by apply Exists_nil in Hex. }
  simpl in He. csimpl in Hnd. apply NoDup_cons in Hnd as [Hn Hnd].
  destruct (Z.leb_spec count total) as [|Hlt].
  { destruct He as [-> ->]. rewrite removed_nil, Z.add_0_r. split_and!; [apply writes_on_nil|done|done|lia]. }
  destruct (Z.eqb_spec (is_Replicas ms) 0) as [E0|E0].
  { destruct (IH _ _ _ Hnd Ht Hc He Ha) as (W & R & -> & P).
    pose proof (removed_cons d ms l [] h Hn (writes_on_nil _ _) W) as E. simpl in E.
    rewrite Z.sub_diag in E. rewrite E. split_and!; [by apply writes_on_cons|lia|by rewrite Z.add_0_l|].
    intros Hl Hex. apply Exists_cons in Hex as [Hx|Hex]; [lia|]. specialize (P Hl Hex). lia. }
  rewrite IntMin_spec, (wrap32_id (count - total)) in He by width.
  set (c := Z.min (is_Replicas ms) (count - total)) in *.
  assert (Hc0 : 0 < c <= is_Replicas ms /\ c <= count - total) by (unfold c; lia).
  rewrite (wrap32_id c), (wrap32_id (is_Replicas ms - c)), (wrap32_id (total + c)) in He by width.
  destruct (Z.ltb_spec (is_Replicas ms) (is_Replicas ms - c)); [lia|].
  destruct (exec_bind _ _ _ _ He) as [(h1 & u & h2 & -> & F1 & F2)|(o' & F1 & F2 & ->)];
    [apply accepting_app in Ha as [Ha1 Ha2]|]; destruct (scale_accepted _ _ _ _ _ F1) as (m & Ho & S & W1 & _); try done;
    [|by subst].
  destruct (IH (total + c) _ _ Hnd ltac:(lia) Hc F2 Ha2) as (W & R & -> & _).
  rewrite (removed_cons d ms l h1 h2 Hn W1 W), S. split_and!; [|lia| |lia].
  - apply writes_on_app; [|by apply writes_on_cons]. by apply (writes_on_head d ms l).
  - f_equal. lia.
Qed.

(** ** One reconciliation *)

Lemma FilterActive_Some l : FilterActiveMachineSets (Some <$> l) = filter (fun ms => 0 < is_Replicas ms) l.
Proof.
  unfold FilterActiveMachineSets, FilterMachineSets. induction l as [|x l IH]; [done|]. csimpl.
  rewrite !filter_cons. simpl. repeat case_decide; csimpl; rewrite ?IH; try done;
    (rewrite Z.ltb_lt in * || rewrite Is_true_true, Z.ltb_lt in * ); done.
Qed.

Lemma zsum_filter {A} (f : A -> Z) (P : A -> Prop) `{!forall x, Decision (P x)} l :
  Forall (fun x => ~ P x -> f x = 0) l -> zsum f (filter P l) = zsum f l.
Proof.
  induction 1 as [|x l Hx _ IH]; [done|]. rewrite filter_cons, zsum_cons, <- IH. case_decide; [by rewrite zsum_cons|].
  by rewrite Hx.
Qed.

Lemma removed_two h1 h2 l l' :
  Forall2 (fun x y => is_Name y = is_Name x /\ is_Replicas y = size_after h1 x) l l' ->
  removed (h1 ++ h2) l = removed h1 l + removed h2 l'.
Proof.
  unfold removed. induction 1 as [|x y l l' [E1 E2] _ IH]; [done|]. rewrite !zsum_cons, IH, writes_app, requested_app, E1, E2.
  lia.
Qed.

Section one.
Context `{GoSort}.

(** What a pass over the old machine sets [l] comes to. *)
Record scaled_down (l : list MachineSet) (h : history) (o : outcome bool) : Prop := {
  down_outcome : o = Return (0 <? removed h l);
  down_sizes : Forall (fun ms => 0 <= size_after h ms <= is_Replicas ms) l;
  down_others name cur : name ∉ is_Name <$> l -> requested (writes h) name cur = cur }.

Lemma down_removed l h o : scaled_down l h o -> 0 <= removed h l <= zsum is_Replicas l.
Proof.
  intros [_ F _]. unfold removed. induction F as [|x l Hx _ IH]; rewrite ?zsum_nil, ?zsum_cons; lia.
Qed.

Lemma down_nothing l : Forall ok_counts l -> scaled_down l [] (Return false).
Proof.
  intros Hok. split; [by rewrite removed_nil| |done].
  eapply Forall_impl; [exact Hok|]. unfold ok_counts. simpl. lia.
Qed.

(** A call whose error is looked at, when it returns. *)
Lemma attempt_returns_bind {A B} (p : prog A) (k : result A -> prog B) h o (P : A -> history -> Prop) :
  (forall h1 o1, exec p h1 o1 -> accepting h1 -> exists a, o1 = Return a /\ P a h1) ->
  exec (bind (attempt p) k) h o -> accepting h ->
  exists a h1 h2, h = h1 ++ h2 /\ P a h1 /\ accepting h2 /\ exec (k (Ok a)) h2 o.
Proof.
  intros Hp He Ha. destruct (exec_bind _ _ _ _ He) as [(h1 & a & h2 & -> & E1 & E2)|(o' & E1 & E2 & _)].
  - apply accepting_app in Ha as [A1 A2].
    destruct (exec_attempt _ _ _ E1) as [(x&E&?)|[(x&E&?)|[[E ?]|[E ?]]]]; simplify_eq;
      destruct (Hp _ _ E A1) as (y & Ey & HP); simplify_eq. by exists y, h1, h2.
  - destruct (exec_attempt _ _ _ E1) as [(x&E&->)|[(x&E&->)|[[E _]|[E _]]]]; try done;
      destruct (Hp _ _ E Ha) as (y & Ey & HP); simplify_eq.
Qed.

Lemma names_kept h1 l l' :
  Forall2 (fun x y => is_Name y = is_Name x /\ is_Replicas y = size_after h1 x) l l' -> is_Name <$> l' = is_Name <$> l.
Proof. induction 1 as [|x y l l' [E _] _ IH]; [done|]. csimpl. by rewrite E, IH. Qed.

(** The clean-up, from machine sets in any order. *)
Lemma cleanup_pass d mx l h o :
  NoDup (is_Name <$> l) -> Forall ok_counts l -> zsum is_Replicas l <= max_int32 -> 0 < mx <= max_int32 ->
  exec (cleanupUnhealthyReplicas l d mx) h o -> accepting h ->
  exists r, o = Return r /\ r.2 = removed h l /\
    Forall (fun ms => is_Available ms <= size_after h ms <= is_Replicas ms) l /\
    Forall2 (fun x y => is_Name y = is_Name x /\ is_Replicas y = size_after h x) (sort_by_creation l) r.1 /\
    Forall ok_counts r.1 /\ zsum is_Available r.1 = zsum is_Available l /\
    (forall name cur, name ∉ is_Name <$> l -> requested (writes h) name cur = cur) /\
    (removed h l = 0 -> Forall (fun ms => is_Available ms = is_Replicas ms) l).
Proof.
  intros Hnd Hok Hsum Hmx He Ha. unfold cleanupUnhealthyReplicas, sort_by_creation in *.
  pose proof (gosort_perm MachineSetsByCreationTimestamp_Less l) as Hp.
  set (sl := gosort _ l) in *. clearbody sl. rewrite <- Hp in Hnd, Hok, Hsum.
  assert (HB : Forall (fun ms => is_Replicas ms <= max_int32) sl).
  { apply Forall_forall. intros ms Hin. assert (is_Replicas ms <= zsum is_Replicas sl); [|lia].
    apply zsum_elem_le; [|done]. eapply Forall_impl; [exact Hok|]. unfold ok_counts. simpl. lia. }
  destruct (cleanup_accepted d mx 0 sl h o) as (W & R & (l' & ->) & P); try done; [width..|].
  destruct (exec_cleanup_loop_avail d mx 0 sl h _ Hnd Hok HB ltac:(width) ltac:(lia) He (accepting_echoes _ Ha)) as (_ & F & F2).
  eexists. split; [done|]. rewrite (removed_perm h l sl) by done. simpl. split; [done|].
  split; [by rewrite <- Hp|]. split; [|split; [|split; [|split]]].
  - eapply Forall2_impl; [exact F2|]. naive_solver.
  - clear -F F2 Hok. induction F2 as [|x y l l' (E1 & E2 & E3) _ IH]; [done|].
    apply Forall_cons in F as [Fx F], Hok as [Ox Hok]. constructor; [|by apply IH]. unfold ok_counts in *. lia.
  - rewrite <- Hp. symmetry. apply zsum_Forall2. eapply Forall2_impl; [exact F2|]. naive_solver.
  - intros name cur. rewrite <- Hp. by apply (requested_not_in d).
  - intros E. rewrite <- Hp. apply Forall_forall. intros ms Hin. destruct (decide (is_Available ms = is_Replicas ms)); [done|].
    assert (0 < removed h sl); [|lia]. apply P; [lia|]. apply Exists_exists. by exists ms.
Qed.

(** The scale-down, from machine sets in any order. *)
Lemma scale_down_pass d newIS l h o :
  wf_rolling d -> NoDup (is_Name <$> l) -> Forall ok_counts l -> 0 <= is_Available newIS ->
  is_Available newIS + zsum is_Replicas l <= max_int32 ->
  exec (scaleDownOldMachineSetsForRollingUpdate ((Some <$> l) ++ [Some newIS]) l d) h o -> accepting h ->
  exists n, o = Return n /\ n = removed h l /\ scaled_down l h (Return (0 <? removed h l)) /\
  (MinAvailable d < available_now newIS l -> 0 < zsum is_Replicas l -> 0 < removed h l).
Proof.
  intros Hwf Hnd Hok Hnew Hsum He Ha. unfold scaleDownOldMachineSetsForRollingUpdate in He.
  pose proof (MaxUnavailable_range d Hwf) as Hu. pose proof (wf_replicas d Hwf) as Hr.
  rewrite (MinAvailable_eq d Hwf). unfold available_now.
  assert (Hav : 0 <= zsum is_Available l <= zsum is_Replicas l).
  { split; [apply zsum_nonneg|apply zsum_le_mono]; (eapply Forall_impl; [exact Hok|]; unfold ok_counts; simpl; lia). }
  assert (E : GetAvailableReplicaCountForMachineSets ((Some <$> l) ++ [Some newIS]) = is_Available newIS + zsum is_Available l).
  { unfold GetAvailableReplicaCountForMachineSets.
    assert (zsum (opt_count is_Available) ((Some <$> l) ++ [Some newIS]) = is_Available newIS + zsum is_Available l) as Ez.
    { rewrite zsum_app, opt_count_Some_list, zsum_cons, zsum_nil. simpl. lia. }
    rewrite sum32_exact; rewrite Ez; width || done. }
  rewrite E, (wrap32_id (d_Replicas d - _)) in He by width.
  destruct (Z.leb_spec (is_Available newIS + zsum is_Available l) (d_Replicas d - MaxUnavailable d)).
  { destruct He as [-> ->]. exists 0. rewrite removed_nil. split; [done|]. split; [done|]. split; [by apply down_nothing|lia]. }
  rewrite wrap32_id in He by width. unfold sort_by_creation in He.
  pose proof (gosort_perm MachineSetsByCreationTimestamp_Less l) as Hp. set (sl := gosort _ l) in *. clearbody sl.
  assert (HB : Forall (fun ms => 0 <= is_Replicas ms <= max_int32) sl).
  { rewrite Hp. apply Forall_forall. intros ms Hin. rewrite Forall_forall in Hok. pose proof (Hok ms Hin) as Hm.
    unfold ok_counts in Hm. assert (is_Replicas ms <= zsum is_Replicas l); [|lia]. apply zsum_elem_le; [|done].
    apply Forall_forall. intros x Hx. specialize (Hok x Hx). unfold ok_counts in Hok. lia. }
  set (c := is_Available newIS + zsum is_Available l - (d_Replicas d - MaxUnavailable d)) in *.
  assert (Hc : 0 < c <= max_int32) by (unfold c; width).
  destruct (scale_down_accepted d c 0 sl h o ltac:(by rewrite Hp) HB ltac:(lia) ltac:(lia) He Ha) as (W & R & -> & P).
  pose proof (exec_scale_down_loop d c 0 sl h _ ltac:(by rewrite Hp) HB ltac:(lia) ltac:(lia) He) as (_ & F & _).
  rewrite (removed_perm h sl l Hp) in *. eexists. split; [done|]. split; [done|].
  split; [split; [done|by rewrite <- Hp|]|].
  - intros name cur. rewrite <- Hp. by apply (requested_not_in d).
  - intros _ Hpos. apply P; [lia|]. apply zsum_pos_Exists. by rewrite Hp.
Qed.

(** One pass after the other. *)
Lemma scaled_down_two l sl l' h1 h2 : sl ≡ₚ l ->
  Forall (fun ms => is_Available ms <= size_after h1 ms <= is_Replicas ms) l ->
  Forall2 (fun x y => is_Name y = is_Name x /\ is_Replicas y = size_after h1 x) sl l' ->
  (forall name cur, name ∉ is_Name <$> l -> requested (writes h1) name cur = cur) ->
  scaled_down l' h2 (Return (0 <? removed h2 l')) ->
  removed (h1 ++ h2) l = removed h1 l + removed h2 l' /\ scaled_down l (h1 ++ h2) (Return (0 <? removed (h1 ++ h2) l)).
Proof.
  intros Hp F F2 O [_ S2 O2]. rewrite <- Hp in F.
  split; [rewrite <- !(removed_perm _ sl l Hp); by apply removed_two|].
  assert (En : is_Name <$> l' = is_Name <$> sl) by (by eapply names_kept).
  split; [done| |].
  - rewrite <- Hp. clear -F F2 S2. induction F2 as [|x y l1 l2 [E1 E2] _ IH]; [done|].
    apply Forall_cons in F as [Fx F], S2 as [Sx S2]. constructor; [|by apply IH].
    rewrite writes_app, requested_app. rewrite E1, E2 in Sx. lia.
  - intros name cur Hn. rewrite writes_app, requested_app, (O name cur Hn). apply O2. by rewrite En, Hp.
Qed.

Lemma reconcileOld_pass d allISs l newIS h o :
  wf_rolling d -> NoDup (is_Name <$> l) -> Forall ok_counts l ->
  0 <= is_Available newIS -> is_Available newIS = is_Replicas newIS ->
  is_Replicas newIS + zsum is_Replicas l <= max_int32 ->
  GetReplicaCountForMachineSets allISs = is_Replicas newIS + zsum is_Replicas l ->
  exec (reconcileOldMachineSets allISs l newIS d) h o -> accepting h ->
  scaled_down l h o /\
  (0 < zsum is_Replicas l -> MinAvailable d < is_Replicas newIS + zsum is_Replicas l -> 0 < removed h l).
Proof.
  intros Hwf Hnd Hok H0 Hnew Hsum Hall He Ha. unfold reconcileOldMachineSets in He.
  pose proof (MaxUnavailable_range d Hwf) as Hu. pose proof (wf_replicas d Hwf) as Hr.
  assert (Hz : 0 <= zsum is_Replicas l).
  { apply zsum_nonneg. eapply Forall_impl; [exact Hok|]. unfold ok_counts. simpl. lia. }
  rewrite Hall in He. rewrite (MinAvailable_eq d Hwf).
  unfold GetReplicaCountForMachineSets in He at 1. rewrite sum32_exact in He by (rewrite opt_count_Some_list; width).
  rewrite opt_count_Some_list in He.
  destruct (Z.eqb_spec (zsum is_Replicas l) 0) as [Ez|Ez].
  { destruct He as [-> ->]. split; [by apply down_nothing|lia]. }
  rewrite (wrap32_id (d_Replicas d - _)), Hnew, Z.sub_diag in He by width.
  rewrite (wrap32_id 0) in He by width.
  rewrite (wrap32_id (_ - (d_Replicas d - _))), Z.sub_0_r in He by width.
  set (mx := is_Replicas newIS + zsum is_Replicas l - (d_Replicas d - MaxUnavailable d)) in *.
  rewrite (wrap32_id mx) in He by (unfold mx; width).
  destruct (Z.leb_spec mx 0); [destruct He as [-> ->]; split; [by apply down_nothing|unfold mx in *; lia]|].
  assert (Hmx : 0 < mx <= max_int32) by (unfold mx in *; width).
  eapply attempt_returns_bind in He;
    [|intros h1 o1 E1 A1; exact (cleanup_pass d mx l h1 o1 Hnd Hok ltac:(lia) Hmx E1 A1)|done].
  destruct He as ([l' t] & h1 & h2 & -> & (Et & F & F2 & Hok' & Hav & O & P) & A2 & E2). simpl in Et, F2, Hok', Hav, E2.
  pose proof (gosort_perm MachineSetsByCreationTimestamp_Less l) as Hp. fold (sort_by_creation l) in Hp.
  set (sl := sort_by_creation l) in *. clearbody sl.
  assert (Hnames : is_Name <$> l' = is_Name <$> sl) by (by eapply names_kept).
  assert (Hs' : zsum is_Replicas l' = zsum is_Replicas l - removed h1 l).
  { rewrite <- removed_sum, <- Hp. symmetry. apply zsum_Forall2. eapply Forall2_impl; [exact F2|]. naive_solver. }
  assert (R1 : 0 <= removed h1 l).
  { apply zsum_nonneg. eapply Forall_impl; [exact F|]. simpl. lia. }
  eapply attempt_returns_bind in E2;
    [|intros h3 o3 E3 A3; refine (scale_down_pass d newIS l' h3 o3 Hwf _ Hok' H0 _ E3 A3); [by rewrite Hnames, Hp|lia]|done].
  destruct E2 as (r & h3 & h4 & -> & (-> & D & G) & _ & E4).
  simpl in E4. destruct E4 as [-> ->]. rewrite app_nil_r.
  destruct (scaled_down_two l sl l' h1 h3 Hp F F2 O D) as [R2 D2]. pose proof (down_removed _ _ _ D) as R3.
  rewrite (MinAvailable_eq d Hwf) in G. unfold available_now in G. rewrite Hav in G. subst t.
  rewrite wrap32_id, <- R2 by width. split; [exact D2|]. intros Hpos Hmin. rewrite R2.
  destruct (Z.eqb_spec (removed h1 l) 0) as [E0|]; [|lia].
  assert (zsum is_Available l = zsum is_Replicas l) by (apply zsum_ext, P, E0). assert (0 < removed h3 l'); [|lia]. apply G; lia.
Qed.
End one.

(** ** Reconciliation after reconciliation *)

(** The machine sets of a deployment: the one with its template, and those with older templates. *)
Record rollout := mkRollout { r_new : MachineSet; r_olds : list MachineSet }.

Definition r_all (s : rollout) : list (option MachineSet) := (Some <$> r_olds s) ++ [Some (r_new s)].
Definition r_total (s : rollout) : Z := is_Replicas (r_new s) + zsum is_Replicas (r_olds s).

(** The machine set controller has done its work: the machines there are are those asked for, and the new
    ones are available; old ones need not be. *)
Record settled (s : rollout) : Prop := {
  st_names : NoDup (is_Name <$> r_new s :: r_olds s);
  st_new : 0 <= is_Replicas (r_new s) /\ is_Available (r_new s) = is_Replicas (r_new s);
  st_olds : Forall ok_counts (r_olds s);
  st_actual : Forall (fun ms => mss_Replicas (is_Status ms) = is_Replicas ms) (r_new s :: r_olds s) }.

Definition resized (h : history) (x y : MachineSet) : Prop := is_Name y = is_Name x /\ is_Replicas y = size_after h x.

Definition complete (d : MachineDeployment) (s : rollout) : Prop :=
  is_Replicas (r_new s) = d_Replicas d /\ zsum is_Replicas (r_olds s) = 0.

(** Machines to create, or to remove from the new machine set, and machines to remove from the old ones. *)
Definition distance (d : MachineDeployment) (s : rollout) : Z :=
  Z.abs (d_Replicas d - is_Replicas (r_new s)) + zsum is_Replicas (r_olds s).

Lemma surge_or_unavailable d : wf_rolling d -> 0 < d_Replicas d -> 0 < MaxSurge d \/ 0 < MaxUnavailable d.
Proof.
  intros Hwf Hpos. destruct (wf_fenceposts d Hwf) as (s & u & Hf & Hs & Hu & Hz & _).
  unfold MaxSurge, MaxUnavailable. rewrite (wf_IsRollingUpdate d Hwf), Hf. simpl.
  destruct (Z.eqb_spec (d_Replicas d) 0); [lia|]. destruct (Z.ltb_spec (d_Replicas d) u); lia.
Qed.

Lemma run_echo_accepting {A} (p : prog A) : accepting (run echo p tt).1.2.
Proof. apply run_events. intros r w. by destruct r. Qed.

Section passes.
Context `{GoSort} (d : MachineDeployment).

(** One reconciliation, whose writes are accepted, and the time until the machine sets have settled. *)
Definition pass (s s' : rollout) : Prop :=
  settled s' /\ exists h o,
    exec (rolling_scale (r_all s) (r_olds s) (r_new s) d) h o /\ accepting h /\
    resized h (r_new s) (r_new s') /\ Forall2 (resized h) (r_olds s) (r_olds s').

Hypothesis (Hwf : wf_rolling d) (Hsurge : d_Replicas d + MaxSurge d <= max_int32).

Lemma settled_counts s (f : MachineSet -> Z) : zsum (opt_count f) (r_all s) = f (r_new s) + zsum f (r_olds s).
Proof. unfold r_all. rewrite zsum_app, opt_count_Some_list, zsum_cons, zsum_nil. simpl. lia. Qed.

Lemma settled_old_nonneg s : settled s -> 0 <= zsum is_Replicas (r_olds s).
Proof.
  intros Hs. apply zsum_nonneg. eapply Forall_impl; [exact (st_olds s Hs)|]. unfold ok_counts. simpl. lia.
Qed.

Lemma settled_total s : settled s ->
  zsum (opt_count (fun ms => mss_Replicas (is_Status ms))) (r_all s) = r_total s.
Proof.
  intros Hs. rewrite settled_counts. pose proof (st_actual s Hs) as Hact. apply Forall_cons in Hact as [-> Hact].
  unfold r_total. f_equal. by apply zsum_ext.
Qed.

(** What the first half does: nothing when the new machine set has its size or the surge is used up, and
    otherwise one write that brings the new machine set closer to its size and leaves the total in bounds. *)
Lemma new_pass s h o : settled s -> r_total s <= max_int32 ->
  exec (reconcileNewMachineSet (r_all s) (r_new s) d) h o -> accepting h ->
  writes_on d [r_new s] h /\
  ((o = Return false /\ h = [] /\
     (is_Replicas (r_new s) = d_Replicas d \/
      (is_Replicas (r_new s) < d_Replicas d /\ d_Replicas d + MaxSurge d <= r_total s))) \/
   (o = Return true /\ 0 <= size_after h (r_new s) /\
     Z.abs (d_Replicas d - size_after h (r_new s)) < Z.abs (d_Replicas d - is_Replicas (r_new s)) /\
     size_after h (r_new s) + zsum is_Replicas (r_olds s) <= Z.max (r_total s) (d_Replicas d + MaxSurge d))).
Proof.
  intros Hs Hb He Ha. unfold reconcileNewMachineSet in He. destruct (st_new s Hs) as [Hn _].
  pose proof (wf_replicas d Hwf). pose proof (settled_old_nonneg s Hs). pose proof (MaxSurge_range d Hwf).
  destruct (Z.eqb_spec (is_Replicas (r_new s)) (d_Replicas d)) as [E|E].
  { destruct He as [-> ->]. split; [apply writes_on_nil|]. left. auto. }
  assert (Hscale : forall n, exec (let! r := scaleMachineSetAndRecordEvent (r_new s) n d in Ret r.1) h o ->
    o = Return (negb (is_Replicas (r_new s) =? n)) /\ size_after h (r_new s) = n /\ writes_on d [r_new s] h /\
    (is_Replicas (r_new s) = n -> h = [])).
  { intros n En. destruct (exec_bind _ _ _ _ En) as [(h1 & r & h2 & -> & E1 & -> & ->)|(o' & E1 & E2 & ->)];
      [rewrite app_nil_r in *|]; destruct (scale_accepted _ _ _ _ _ E1 Ha) as (m & Ho & ?); simplify_eq; done. }
  destruct (Z.ltb_spec (d_Replicas d) (is_Replicas (r_new s))).
  { destruct (Hscale _ He) as (-> & S & W & _). split; [done|]. right. rewrite S. rewrite (proj2 (Z.eqb_neq _ _)) by lia.
    unfold r_total in *. split; [done|lia]. }
  destruct (NewISNewReplicas d (r_all s) (r_new s)) as [n|] eqn:En.
  2:{ exfalso. unfold NewISNewReplicas in En. rewrite bool_decide_true in En by apply Hwf.
      destruct (wf_surge d Hwf) as (x & Hx & _). rewrite Hx in En. by destruct (_ <=? _). }
  destruct (NewISNewReplicas_rolling d (r_all s) (r_new s) n Hwf) as (Hn1 & Hn2 & _); try done.
  { split; [done|]. unfold r_total in *. lia. }
  { unfold r_all. apply Forall_app. pose proof (st_actual s Hs) as Hact. apply Forall_cons in Hact as [Ea Hact].
    split; [|repeat constructor; simpl; rewrite Ea; lia]. apply Forall_fmap. pose proof (st_olds s Hs) as Hok.
    rewrite Forall_forall in *. intros x Hx. simpl. rewrite Hact by done. specialize (Hok x Hx). unfold ok_counts in Hok. lia. }
  { rewrite settled_total; done. }
  rewrite (settled_total s Hs) in Hn1, Hn2. simpl in He. destruct (Hscale _ He) as (-> & S & W & Hnil).
  split; [done|]. rewrite S. destruct (Z.leb_spec (d_Replicas d + MaxSurge d) (r_total s)) as [Hle|Hlt].
  - left. rewrite Hn1, Z.eqb_refl. split; [done|]. split; [apply Hnil; lia|]. right. lia.
  - right. rewrite (proj2 (Z.eqb_neq _ _)) by lia. unfold r_total in *. split; [done|lia].
Qed.

(** What the second half does: the new machine set is left alone, the old ones do not grow, and machines are
    removed when there are old ones and more than the minimum. *)
Lemma old_pass s h o : settled s -> r_total s <= max_int32 ->
  exec (reconcileOldMachineSets (r_all s) (FilterActiveMachineSets (Some <$> r_olds s)) (r_new s) d) h o -> accepting h ->
  size_after h (r_new s) = is_Replicas (r_new s) /\
  Forall (fun ms => 0 <= size_after h ms <= is_Replicas ms) (r_olds s) /\
  (0 < zsum is_Replicas (r_olds s) -> MinAvailable d < r_total s -> 0 < removed h (r_olds s)).
Proof.
  intros Hs Hb He Ha. rewrite FilterActive_Some in He. set (l := filter _ _) in He.
  pose proof (st_names s Hs) as Hnd. csimpl in Hnd. apply NoDup_cons in Hnd as [Hnew Hnd].
  assert (Hsub : (is_Name <$> l) `sublist_of` (is_Name <$> r_olds s)) by apply fmap_sublist, sublist_filter.
  pose proof (st_olds s Hs) as Hok. destruct (st_new s Hs) as [H0 Hav].
  assert (Hz : zsum is_Replicas l = zsum is_Replicas (r_olds s)).
  { apply zsum_filter. eapply Forall_impl; [exact Hok|]. unfold ok_counts. simpl. lia. }
  assert (Hdown : scaled_down l h o /\
    (0 < zsum is_Replicas l -> MinAvailable d < is_Replicas (r_new s) + zsum is_Replicas l -> 0 < removed h l)).
  { apply (reconcileOld_pass d (r_all s) l (r_new s) h o Hwf); rewrite ?Hav, ?Hz; try done.
    - by apply (sublist_NoDup _ _ Hnd).
    - apply Forall_forall. intros ms Hin. apply list_elem_of_filter in Hin as [_ Hin]. rewrite Forall_forall in Hok. by apply Hok.
    - unfold GetReplicaCountForMachineSets. rewrite sum32_exact; rewrite settled_counts; [done|].
      pose proof (settled_old_nonneg s Hs). unfold r_total in *. width. }
  destruct Hdown as [[_ F O] P]. rewrite Hz in P.
  assert (Hrest : forall ms, ms ∈ r_olds s -> ~ 0 < is_Replicas ms -> size_after h ms = is_Replicas ms).
  { intros ms Hin Hms. apply O. intros Hl. apply list_elem_of_fmap in Hl as (ms' & En & Hl).
    apply list_elem_of_filter in Hl as [Hpos Hl]. by rewrite (NoDup_fmap_inj_elem is_Name (r_olds s) ms ms') in Hms. }
  split; [apply O; intros Hin; apply Hnew; by eapply elem_of_sublist|]. split.
  - rewrite Forall_forall in *. intros ms Hin. destruct (decide (0 < is_Replicas ms)).
    + apply F. by apply list_elem_of_filter.
    + rewrite Hrest by done. specialize (Hok ms Hin). unfold ok_counts in Hok. lia.
  - intros Hpos Hmin. replace (removed h (r_olds s)) with (removed h l); [by apply P|].
    apply zsum_filter, Forall_forall. intros ms Hin Hms. rewrite Hrest by done. lia.
Qed.

Lemma resized_sum h l l' : Forall2 (resized h) l l' -> zsum is_Replicas l' = zsum is_Replicas l - removed h l.
Proof.
  intros F. rewrite <- removed_sum. symmetry. apply zsum_Forall2. eapply Forall2_impl; [exact F|]. by intros x y [_ ?].
Qed.

Lemma removed_nonneg h l : Forall (fun ms => 0 <= size_after h ms <= is_Replicas ms) l -> 0 <= removed h l.
Proof. intros F. apply zsum_nonneg. eapply Forall_impl; [exact F|]. simpl. lia. Qed.

(** More machines than the minimum: the new machine set has its size, or the surge is used up. *)
Lemma above_minimum s : settled s -> 0 < zsum is_Replicas (r_olds s) ->
  is_Replicas (r_new s) = d_Replicas d \/
    (is_Replicas (r_new s) < d_Replicas d /\ d_Replicas d + MaxSurge d <= r_total s) ->
  MinAvailable d < r_total s.
Proof.
  intros Hs Hpos Hor. rewrite (MinAvailable_eq d Hwf). pose proof (MaxUnavailable_range d Hwf). pose proof (MaxSurge_range d Hwf).
  destruct (st_new s Hs) as [Hnn _]. unfold r_total in *. destruct Hor as [E|[Hlt Hle]]; [lia|].
  destruct (surge_or_unavailable d Hwf ltac:(lia)); lia.
Qed.

(** The sizes after one reconciliation. *)
Lemma scale_step s h o : settled s -> r_total s <= max_int32 ->
  exec (rolling_scale (r_all s) (r_olds s) (r_new s) d) h o -> accepting h ->
  let n := size_after h (r_new s) in
  let old := zsum is_Replicas (r_olds s) - removed h (r_olds s) in
  Forall (fun ms => 0 <= size_after h ms <= is_Replicas ms) (r_olds s) /\ 0 <= n /\
  n + old <= Z.max (r_total s) (d_Replicas d + MaxSurge d) /\
  ((complete d s /\ n = d_Replicas d /\ old = 0) \/
   Z.abs (d_Replicas d - n) + old < distance d s).
Proof.
  intros Hs Hb He Ha n old. destruct (st_new s Hs) as [H0 _]. pose proof (settled_old_nonneg s Hs) as Hold.
  destruct (exec_bind _ _ _ _ He) as [(h1 & up & h2 & -> & E1 & E2)|(o' & E1 & Hf & _)].
  2:{ destruct (new_pass s h o' Hs Hb E1 Ha) as [_ [(-> & _)|(-> & _)]]; done. }
  apply accepting_app in Ha as [A1 A2]. destruct (new_pass s h1 _ Hs Hb E1 A1) as [W [(Ho & -> & Hor)|(Ho & Hn & Hd & Ht)]]; simplify_eq.
  - destruct (old_pass s h2 o Hs Hb E2 A2) as (Sn & F & P). simpl in n, old. unfold n. rewrite Sn.
    pose proof (removed_nonneg h2 _ F) as R. split; [done|]. split; [lia|]. unfold old, distance, r_total in *.
    split; [lia|]. destruct (Z.eqb_spec (zsum is_Replicas (r_olds s)) 0) as [Ez|Ez].
    + left. assert (is_Replicas (r_new s) = d_Replicas d) by (pose proof (MaxSurge_range d Hwf); lia).
      assert (removed h2 (r_olds s) <= zsum is_Replicas (r_olds s)); [|unfold complete; lia].
      apply zsum_le_mono. eapply Forall_impl; [exact F|]. simpl. lia.
    + right. assert (0 < removed h2 (r_olds s)); [|lia]. apply P; [lia|]. apply above_minimum; [done|lia|done].
  - destruct E2 as [-> ->]. unfold n, old. rewrite app_nil_r in *.
    pose proof (st_names s Hs) as Hnd. csimpl in Hnd. apply NoDup_cons in Hnd as [Hnew _].
    assert (Hkept : Forall (fun ms => size_after h1 ms = is_Replicas ms) (r_olds s)).
    { apply Forall_forall. intros ms Hin. apply (requested_not_in d [r_new s]); [done|]. csimpl. intros Hx.
      apply list_elem_of_singleton in Hx. apply Hnew. rewrite <- Hx. by apply list_elem_of_fmap_2. }
    assert (Hr : removed h1 (r_olds s) = 0).
    { unfold removed. rewrite (zsum_ext _ (fun _ => 0)) by (eapply Forall_impl; [exact Hkept|]; simpl; lia).
      clear. induction (r_olds s); rewrite ?zsum_nil, ?zsum_cons; lia. }
    rewrite Hr, Z.sub_0_r. split; [|unfold distance; lia].
    pose proof (st_olds s Hs) as Hok. rewrite Forall_forall in *. intros ms Hin. rewrite Hkept by done.
    specialize (Hok ms Hin). unfold ok_counts in Hok. lia.
Qed.

(** The bounds after one pass, and how much closer the rollout is to its end. *)
Lemma pass_closer s s' : settled s -> r_total s <= max_int32 -> pass s s' ->
  r_total s' <= Z.max (r_total s) (d_Replicas d + MaxSurge d) /\
  (complete d s /\ complete d s' \/ distance d s' < distance d s).
Proof.
  intros Hs Hb (Hs' & h & o & He & Ha & [_ En] & F).
  pose proof (scale_step s h o Hs Hb He Ha) as (_ & _ & Ht & Hor). simpl in *.
  unfold r_total, complete, distance in *. rewrite En, (resized_sum _ _ _ F). split; [lia|]. destruct Hor as [Hor|Hor]; [left|right]; lia.
Qed.

(** A reconciliation that is answered, and machine sets that come up, make a pass. *)
Definition settle (h : history) (ms : MachineSet) : MachineSet :=
  let n := size_after h ms in
  is_set_Status (mkMSStatus n n n n (mss_ObservedGeneration (is_Status ms)) [] (mss_LastOperation (is_Status ms)) None)
    (is_set_Spec (set_Replicas n) ms).

Lemma pass_exists s : settled s -> r_total s <= max_int32 -> exists s', pass s s'.
Proof.
  intros Hs Hb. set (p := rolling_scale (r_all s) (r_olds s) (r_new s) d).
  pose proof (run_exec echo p tt) as He. pose proof (run_echo_accepting p) as Ha. set (h := (run echo p tt).1.2) in *.
  destruct (scale_step s h _ Hs Hb He Ha) as (F & Hn & _).
  assert (Hr : forall l, Forall2 (resized h) l (settle h <$> l)).
  { intros l. apply Forall2_fmap_r, Forall_Forall2_diag, Forall_forall. by intros x _. }
  exists (mkRollout (settle h (r_new s)) (settle h <$> r_olds s)). split; [|by exists h, (run echo p tt).2].
  assert (En : forall l : list MachineSet, is_Name <$> (settle h <$> l) = is_Name <$> l).
  { intros l. rewrite <- list_fmap_compose. by apply list_fmap_ext. }
  split; simpl.
  - rewrite En. exact (st_names s Hs).
  - split; [exact Hn|done].
  - apply Forall_fmap. eapply Forall_impl; [exact F|]. intros ms Hms. split; [apply Hms|done].
  - constructor; [done|]. apply Forall_fmap, Forall_forall. done.
Qed.

(** Any number of passes. *)
Lemma passes_exist n s : settled s -> r_total s <= max_int32 -> exists s', nsteps pass n s s'.
Proof.
  revert s. induction n as [|n IH]; intros s Hs Hb; [exists s; constructor|].
  destruct (pass_exists s Hs Hb) as [s1 Hp]. destruct (pass_closer s s1 Hs Hb Hp) as [Ht _].
  destruct (IH s1 (proj1 Hp) ltac:(lia)) as [s' Hs']. exists s'. by econstructor.
Qed.

Lemma distance_nonneg s : settled s -> 0 <= distance d s.
Proof. intros Hs. pose proof (settled_old_nonneg s Hs). unfold distance. lia. Qed.

Lemma passes_complete n s s' : settled s -> r_total s <= max_int32 -> nsteps pass n s s' ->
  r_total s' <= Z.max (r_total s) (d_Replicas d + MaxSurge d) /\
  (complete d s \/ distance d s <= Z.of_nat n -> complete d s').
Proof.
  intros Hs Hb Hn. revert Hs Hb. induction Hn as [s|n s s1 s' Hp _ IH]; intros Hs Hb.
  - split; [lia|]. intros [Hc|Hd]; [done|]. pose proof (settled_old_nonneg s Hs). unfold distance, complete in *. lia.
  - destruct (pass_closer s s1 Hs Hb Hp) as [Ht Hor]. destruct (IH (proj1 Hp) ltac:(lia)) as [Ht' Hc]. split; [lia|].
    intros Hstart. apply Hc. destruct Hor as [[_ Hor]|Hor]; [by left|]. destruct Hstart as [Hstart|Hd]; [|right; lia].
    pose proof (distance_nonneg s1 (proj1 Hp)). unfold distance, complete in *. lia.
Qed.
End passes.

(** C2: a rolling update comes to an end.  Reconciliation after reconciliation, each followed by the time the
    machine set controller takes to bring the machine sets to the sizes asked for, and with old machines as
    unhealthy as they may be, the new machine set gets its size and the old ones become empty after at
    most as many reconciliations as there are machines to create and to remove.  The rollout never gets stuck,
    and there are never more machines than size plus surge, or than there were at the start. *)
Theorem rolling_update_completes `{GoSort} d s n :
  wf_rolling d -> d_Replicas d + MaxSurge d <= max_int32 -> settled s -> r_total s <= max_int32 ->
  (exists s', nsteps (pass d) n s s') /\
  forall s', nsteps (pass d) n s s' ->
    r_total s' <= Z.max (r_total s) (d_Replicas d + MaxSurge d) /\ (distance d s <= Z.of_nat n -> complete d s').
Proof.
  intros Hwf Hsurge Hs Hb. split; [by apply passes_exist|]. intros s' Hn.
  destruct (passes_complete d Hwf Hsurge n s s' Hs Hb Hn) as [Ht Hc]. split; [done|]. intros Hd. apply Hc. by right.
Qed.

(** Five machines to create and five to remove, two of the old ones unhealthy, with one machine of surge. *)
Definition sample_rollout : rollout := mkRollout (sample_ms "n" 0 0) [sample_ms "a" 3 1; sample_ms "b" 2 2].

Lemma rolling_update_completes_witness :
  exists s', nsteps (pass (sample_md 5 1 0)) 10 sample_rollout s' /\ complete (sample_md 5 1 0) s' /\ r_total s' <= 6.
Proof.
  destruct (rolling_update_completes (sample_md 5 1 0) sample_rollout 10) as [[s' Hn] Hall].
  - apply sample_wf_rolling; width.
  - vm_compute. discriminate.
  - split.
    + apply (bool_decide_unpack _). vm_compute. exact I.
    + split; [vm_compute; discriminate|reflexivity].
    + repeat constructor; vm_compute; discriminate.
    + repeat constructor.
  - vm_compute. discriminate.
  - exists s'. destruct (Hall s' Hn) as [Ht Hc]. split; [exact Hn|]. split; [apply Hc; vm_compute; discriminate|].
    revert Ht. vm_compute. exact (fun H => H).
Defined.
