(* ===== verification/Validation.v ===== *)
(** * Validation of machines, machine sets and machine deployments

    pkg/apis/machine/validation/machine.go, machineset.go and machinedeployment.go.  The objects are
    validated in the internal version of the API, which has the same fields.  [None] is the panic of a
    nil selector. *)
From Stdlib Require Import ZArith Lia String.
From stdpp Require Import base gmap strings list.
From S2P Require Import Prelude GoLib Types Labels Samples.
Open Scope Z_scope.

(** Errors of a field: the type, the path, the bad value as printed and the detail. *)
Inductive ErrorType := ErrorTypeRequired | ErrorTypeInvalid | ErrorTypeNotSupported | ErrorTypeForbidden | ErrorTypeTooMany.
Record FieldError := mkFieldError { fe_Type : ErrorType; fe_Field : string; fe_BadValue : string; fe_Detail : string }.
Definition Required (field detail : string) : FieldError := mkFieldError ErrorTypeRequired field EmptyString detail.

Definition validateClassReference (c : ClassSpec) (fldPath : string) : list FieldError :=
  (if bool_decide (cl_Kind c = EmptyString) then [Required (fldPath +:+ ".kind") "Kind is required"] else []) ++
  (if bool_decide (cl_Name c = EmptyString) then [Required (fldPath +:+ ".name") "Name is required"] else []).

Definition ValidateMachine (m : Machine) : list FieldError := validateClassReference (sp_Class (m_Spec m)) "spec.class".

(** The loop over the selector's labels stops at the first one the template does not have. *)
Definition validate_labels (sel : LabelSelector) (tmpl : MachineTemplateSpec) : list FieldError :=
  if forallb (fun kv => bool_decide (mget (Labels (tp_Meta tmpl)) kv.1 = kv.2)) (map_to_list (MatchLabels sel))
  then [] else [Required "spec.selector.matchLabels" "is not matching with spec.template.metadata.labels"].

Definition validate_replicas (n : Z) : list FieldError :=
  if n <? 0 then [Required "spec.replicas" "Replicas has to be a whole number"] else [].

Definition ValidateMachineSet (ms : MachineSet) : option (list FieldError) :=
  let spec := is_Spec ms in
  match ms_Selector spec with
  | None => None
  | Some sel => Some (validate_replicas (ms_Replicas spec) ++ validate_labels sel (ms_Template spec) ++
      validateClassReference (sp_Class (tp_Spec (ms_Template spec))) "spec.template.spec.class")
  end.

Definition validate_strategy (t : string) : list FieldError :=
  if negb (bool_decide (t = RollingUpdateStrategyType)) && negb (bool_decide (t = RecreateStrategyType))
  then [Required "spec.strategy.type" "Type can either be RollingUpdate or Recreate"] else [].

Definition ValidateMachineDeployment (d : MachineDeployment) : option (list FieldError) :=
  let spec := d_Spec d in
  match md_Selector spec with
  | None => None
  | Some sel => Some (validate_replicas (md_Replicas spec) ++ validate_strategy (str_Type (md_Strategy spec)) ++
      validate_labels sel (md_Template spec) ++
      validateClassReference (sp_Class (tp_Spec (md_Template spec))) "spec.template.spec.class")
  end.

(** ** What an accepted object is *)

(** The template satisfies the equality part of the selector and names a class. *)
Definition template_fits (sel : LabelSelector) (tmpl : MachineTemplateSpec) : Prop :=
  (forall k v, MatchLabels sel !! k = Some v -> v <> EmptyString -> Labels (tp_Meta tmpl) !! k = Some v) /\
  cl_Kind (sp_Class (tp_Spec tmpl)) <> EmptyString /\ cl_Name (sp_Class (tp_Spec tmpl)) <> EmptyString.

Lemma validateClassReference_nil c p :
  validateClassReference c p = [] <-> cl_Kind c <> EmptyString /\ cl_Name c <> EmptyString.
Proof. unfold validateClassReference. repeat case_bool_decide; simpl; split; naive_solver. Qed.

Lemma validate_labels_nil sel tmpl :
  validate_labels sel tmpl = [] <-> forall k v, MatchLabels sel !! k = Some v -> mget (Labels (tp_Meta tmpl)) k = v.
Proof.
  unfold validate_labels.
  assert (Hiff : forallb (fun kv => bool_decide (mget (Labels (tp_Meta tmpl)) kv.1 = kv.2)) (map_to_list (MatchLabels sel)) = true
    <-> forall k v, MatchLabels sel !! k = Some v -> mget (Labels (tp_Meta tmpl)) k = v).
  { rewrite forallb_forall. split.
    - intros H k v Hk. specialize (H (k, v)). simpl in H. apply bool_decide_eq_true in H; [done|].
      apply list_elem_of_In, elem_of_map_to_list. done.
    - intros H [k v] Hin. apply list_elem_of_In, elem_of_map_to_list in Hin. apply bool_decide_eq_true. by apply H. }
  destruct (forallb _ _); [by rewrite <- Hiff|]. split; [done|]. intros H. by apply Hiff in H.
Qed.

Lemma fits_of_labels sel tmpl : validate_labels sel tmpl = [] ->
  forall k v, MatchLabels sel !! k = Some v -> v <> EmptyString -> Labels (tp_Meta tmpl) !! k = Some v.
Proof.
  intros H k v Hk Hv. pose proof (proj1 (validate_labels_nil _ _) H k v Hk) as Hm. unfold mget in Hm.
  destruct (Labels (tp_Meta tmpl) !! k); simpl in *; congruence.
Qed.

(** An accepted machine deployment has a size of at least zero, one of the two strategies the
    controller dispatches on, and a template with a class reference and with every (non-empty) label its
    selector asks for, so that the machines made from the template are selected. *)
Theorem ValidateMachineDeployment_sound d : ValidateMachineDeployment d = Some [] ->
  exists sel, md_Selector (d_Spec d) = Some sel /\ 0 <= d_Replicas d /\
    (str_Type (md_Strategy (d_Spec d)) = RollingUpdateStrategyType \/ str_Type (md_Strategy (d_Spec d)) = RecreateStrategyType) /\
    template_fits sel (md_Template (d_Spec d)).
Proof.
  unfold ValidateMachineDeployment. destruct (md_Selector (d_Spec d)) as [sel|] eqn:Es; [|done].
  intros [= H]. apply app_nil in H as [H1 H]. apply app_nil in H as [H2 H]. apply app_nil in H as [H3 H4].
  exists sel. split; [done|]. split; [|split].
  - unfold validate_replicas in H1. unfold d_Replicas. destruct (Z.ltb_spec (md_Replicas (d_Spec d)) 0); [done|lia].
  - unfold validate_strategy in H2. repeat case_bool_decide; simpl in H2; auto. done.
  - split; [by apply fits_of_labels|by apply validateClassReference_nil in H4].
Qed.

(** Validation of an object without a selector (the field is optional) does not report an error: it
    dereferences the nil selector. *)
Lemma Validate_panics_without_selector d ms :
  (ValidateMachineDeployment d = None <-> md_Selector (d_Spec d) = None) /\
  (ValidateMachineSet ms = None <-> ms_Selector (is_Spec ms) = None).
Proof.
  unfold ValidateMachineDeployment, ValidateMachineSet. split.
  - by destruct (md_Selector (d_Spec d)).
  - by destruct (ms_Selector (is_Spec ms)).
Qed.

Lemma ValidateMachineDeployment_sound_witness :
  ValidateMachineDeployment (sample_md 3 1 0) = Some [] /\ 0 <= d_Replicas (sample_md 3 1 0).
Proof.
  split; [vm_compute; reflexivity|].
  destruct (ValidateMachineDeployment_sound (sample_md 3 1 0)) as (sel & _ & H & _); [vm_compute; reflexivity|done].
Defined.
