(* ===== verification/ClassValidation.v ===== *)
(** * Validation of provider-specific machine classes

    pkg/apis/machine/validation: one file per provider.  [None] is the panic of [validateSecretRef] on a
    missing reference, or of a nil element of a list of pointers.  The order in which a map is ranged over
    only shows in the order of the errors; that of [map_to_list] is taken. *)
From Stdlib Require Import ZArith Lia Ascii String.
From stdpp Require Import base gmap strings list.
From S2P Require Import Prelude GoLib Regexp Types Validation.
Open Scope Z_scope.

(** ** Paths and errors of the field package *)

Definition Child (fldPath name : string) : string :=
  if bool_decide (name = EmptyString) then fldPath +:+ "[]" else fldPath +:+ "." +:+ name.
Definition Index (fldPath : string) (i : nat) : string := fldPath +:+ "[" +:+ FormatInt (Z.of_nat i) +:+ "]".
Definition Invalid (field value detail : string) : FieldError := mkFieldError ErrorTypeInvalid field value detail.
Definition Forbidden (field detail : string) : FieldError := mkFieldError ErrorTypeForbidden field EmptyString detail.
Definition NotSupported (field value : string) (validValues : list string) : FieldError :=
  mkFieldError ErrorTypeNotSupported field value ("supported values: " +:+ String.concat ", " (map quoted validValues)).
Definition TooMany (field : string) (actual max : Z) : FieldError :=
  mkFieldError ErrorTypeTooMany field (FormatInt actual) ("must have at most " +:+ FormatInt max +:+ " items").
Definition MaxLenError (length : Z) : string := "must be no more than " +:+ FormatInt length +:+ " characters".
Definition InclusiveRangeError (lo hi : Z) : string :=
  "must be between " +:+ FormatInt lo +:+ " and " +:+ FormatInt hi +:+ ", inclusive".
Definition RegexError (msg fmt : string) (examples : list string) : string :=
  match examples with
  | [] => msg +:+ " (regex used for validation is '" +:+ fmt +:+ "')"
  | _ => msg +:+ " (e.g. " +:+ String.concat " or " (map (fun e => "'" +:+ e +:+ "', ") examples) +:+
         "regex used for validation is '" +:+ fmt +:+ "')"
  end.

Definition when (b : bool) (e : FieldError) : list FieldError := if b then [e] else [].
Definition is_empty (s : string) : bool := bool_decide (s = EmptyString).
(** [if "" == s { append(Required(path, detail)) }] *)
Definition require (s field detail : string) : list FieldError := when (is_empty s) (Required field detail).
(** [for i, x := range l], collecting errors. *)
Definition each {A} (l : list A) (f : nat -> A -> list FieldError) : list FieldError := concat (imap f l).

(** How often every key occurs. *)
Definition occurrences {K} `{Countable K} (l : list K) : gmap K Z :=
  foldl (fun m k => match m !! k with Some n => <[k := n + 1]> m | None => <[k := 1]> m end) ∅ l.
Definition duplicates {K} `{Countable K} (l : list K) (report : K -> Z -> FieldError) : list FieldError :=
  concat (map (fun kn => when (1 <? kn.2) (report kn.1 kn.2)) (map_to_list (occurrences l))).

(** ** Names, references and tags *)

Definition nameFmt := "[-a-z0-9]+".
Definition name_char (c : ascii) : bool := is_char "-" c || lower c || digit c.
Definition nameRegexp : regexp := Plus (Cls name_char).
Definition nameMaxLength : Z := 63.

Definition validateName (value : string) (prefix : bool) : list string :=
  (if nameMaxLength <? Z.of_nat (String.length value) then [MaxLenError nameMaxLength] else []) ++
  (if negb (MatchString nameRegexp value) then [RegexError nameFmt "name-40d-0983-1b89" []] else []).

Definition packetValidateName (value : string) (prefix : bool) : list string :=
  (if nameMaxLength <? Z.of_nat (String.length value) then [MaxLenError nameMaxLength] else []) ++
  (if negb (MatchString nameRegexp value) then [RegexError nameFmt "name-40d-0983-1b89" []] else []).

Definition validateSecretRef (reference : option SecretReference) (fldPath : string) : option (list FieldError) :=
  match reference with
  | None => None
  | Some reference => Some (require (sr_Name reference) (Child fldPath "name") "name is required" ++
      require (sr_Namespace reference) (Child fldPath "namespace") "namespace is required")
  end.

(** The loop over the keys, as written in the six copies and in the drivers: the last key of each sort. *)
Definition tag_step (cluster role : string) (acc : string * string) (key : string) : string * string :=
  if contains key cluster then (key, acc.2) else if contains key role then (acc.1, key) else acc.
Definition cluster_and_role (cluster role : string) (keys : list string) : string * string :=
  foldl (tag_step cluster role) (EmptyString, EmptyString) keys.

Definition validate_tags (cluster role : string) (keys : list string) (fldPath : string) : list FieldError :=
  let '(clusterName, nodeRole) := cluster_and_role cluster role keys in
  require clusterName (Child fldPath cluster) ("Tag required of the form " +:+ cluster +:+ "****") ++
  require nodeRole (Child fldPath role) ("Tag required of the form " +:+ role +:+ "****").

Definition tag_keys (tags : strmap) : list string := (map_to_list tags).*1.

(** ** AWS *)

Definition validateAWSClassSpecTags (tags : strmap) : string -> list FieldError :=
  validate_tags "kubernetes.io/cluster/" "kubernetes.io/role/" (tag_keys tags).

Definition validVolumeTypes : list string := ["gp2"; "io1"; "st1"; "sc1"; "standard"].
Definition dataDeviceNameFmt := "/dev/(sd[a-z]|xvd[a-c][a-z]?)".
Definition dataDeviceNameRegexp : regexp :=
  Seq (Lit "/dev/") (Alt (Seq (Lit "sd") (Cls lower)) (Seq (Lit "xvd") (Seq (Cls (in_range "a" "c")) (Opt (Cls lower))))).

Definition validate_disk (several : bool) (idxPath : string) (disk : AWSBlockDeviceMappingSpec) : list FieldError :=
  let name := abd_DeviceName disk in
  let ebs := abd_Ebs disk in
  when (negb (bool_decide (name = "/root")) && several && negb (MatchString dataDeviceNameRegexp name))
    (Invalid (Child idxPath "deviceName") name
      (RegexError ("Device name given: " +:+ name +:+ " does not match the expected pattern") dataDeviceNameFmt [])) ++
  when (negb (bool_decide (ebs_VolumeType ebs ∈ validVolumeTypes)))
    (Required (Child idxPath "ebs.volumeType") "Please mention a valid ebs volume type:  gp2, io1, st1, sc1, or standard.") ++
  when (ebs_VolumeSize ebs <=? 0) (Required (Child idxPath "ebs.volumeSize") "Please mention a valid ebs volume size") ++
  (if is_empty (ebs_VolumeType ebs) then [Required (Child idxPath "ebs.volumeType") "Please mention a valid ebs volume type"]
   else when (bool_decide (ebs_VolumeType ebs = "io1") && (ebs_Iops ebs <=? 0))
     (Required (Child idxPath "ebs.iops") "Please mention a valid ebs volume iops")).

Definition validateBlockDevices (blockDevices : list AWSBlockDeviceMappingSpec) (fldPath : string) : list FieldError :=
  let several := (1 <? length blockDevices)%nat in
  let rootPartitionCount := length (filter (fun d => abd_DeviceName d = "/root") blockDevices) in
  each blockDevices (fun i disk => validate_disk several (Index fldPath i) disk) ++
  (if (1 <? rootPartitionCount)%nat then [Required fldPath "Only one '/root' partition can be specified"]
   else when (bool_decide (rootPartitionCount = 0%nat) && several)
     (Required fldPath "Device name with '/root' partition must be specified")) ++
  duplicates (abd_DeviceName <$> blockDevices) (fun device number =>
    Required fldPath ("Device name '" +:+ device +:+ "' duplicated " +:+ FormatInt number +:+ " times, DeviceName must be uniq")).

Definition validate_interface (fldPath : string) (i : nat) (nic : AWSNetworkInterfaceSpec) : list FieldError :=
  require (ani_SubnetID nic) (Child fldPath "subnetID") "SubnetID is required" ++
  match ani_SecurityGroupIDs nic with
  | [] => [Required (Child fldPath "securityGroupIDs") "Mention at least one securityGroupID"]
  | ids => each ids (fun j id => require id (Child fldPath "securityGroupIDs")
      ("securityGroupIDs cannot be blank for networkInterface:" +:+ FormatInt (Z.of_nat i) +:+ " securityGroupID:" +:+
       FormatInt (Z.of_nat j)))
  end.

Definition validateNetworkInterfaces (networkInterfaces : list AWSNetworkInterfaceSpec) (fldPath : string) : list FieldError :=
  match networkInterfaces with
  | [] => [Required (Child fldPath EmptyString) "Mention at least one NetworkInterface"]
  | _ => each networkInterfaces (validate_interface fldPath)
  end.

Definition validateAWSMachineClassSpec (spec : AWSMachineClassSpec) (secretRef : option SecretReference) (fldPath : string) :
    option (list FieldError) :=
  secretErrs ← validateSecretRef secretRef "spec.secretRef";
  Some (
    require (aws_AMI spec) (Child fldPath "ami") "AMI is required" ++
    require (aws_Region spec) (Child fldPath "region") "Region is required" ++
    require (aws_MachineType spec) (Child fldPath "machineType") "MachineType is required" ++
    require (iam_Name (aws_IAM spec)) (Child fldPath "iam.name") "IAM Name is required" ++
    require (aws_KeyName spec) (Child fldPath "keyName") "KeyName is required" ++
    validateBlockDevices (aws_BlockDevices spec) "spec.blockDevices" ++
    validateNetworkInterfaces (aws_NetworkInterfaces spec) "spec.networkInterfaces" ++
    secretErrs ++
    validateAWSClassSpecTags (aws_Tags spec) "spec.tags").

(** ** Azure *)

Definition validateAzureClassSpecTags (tags : strmap) : string -> list FieldError :=
  validate_tags "kubernetes.io-cluster-" "kubernetes.io-role-" (tag_keys tags).

(** The URN when it is there and not empty. *)
Definition given_urn (imageRef : AzureImageReference) : option string :=
  match air_URN imageRef with Some urn => if is_empty urn then None else Some urn | None => None end.

Definition validate_image (imageRef : AzureImageReference) (fldPath : string) : list FieldError :=
  match given_urn imageRef, is_empty (air_ID imageRef) with
  | None, true | Some _, false =>
      [Required (Child fldPath "storageProfile.imageReference") "must specify either a image id or an urn"]
  | Some urn, true =>
      let splits := split ":" urn in
      if negb (bool_decide (length splits = 4%nat)) then
        [Required (Child fldPath "storageProfile.imageReference.urn") "Invalid urn format"]
      else concat (map (fun s => require s (Child fldPath "storageProfile.imageReference.urn") "Invalid urn format, empty field") splits)
  | None, false => []
  end.

Definition validate_data_disk (idxPath : string) (dataDisk : AzureDataDisk) : list FieldError :=
  match add_Lun dataDisk with
  | None => [Required (Child idxPath "lun") "DataDisk Lun is required"]
  | Some lun => when ((lun <? 0) || (63 <? lun)) (Invalid (Child idxPath "lun") (FormatInt lun) (InclusiveRangeError 0 63))
  end ++
  when (add_DiskSizeGB dataDisk <=? 0) (Required (Child idxPath "diskSizeGB") "DataDisk size must be positive") ++
  require (add_StorageAccountType dataDisk) (Child idxPath "storageAccountType") "DataDisk storage account type is required".

Definition validate_data_disks (dataDisks : list AzureDataDisk) (fldPath : string) : list FieldError :=
  let path := Child fldPath "storageProfile.dataDisks" in
  when (64 <? Z.of_nat (length dataDisks)) (TooMany path (Z.of_nat (length dataDisks)) 64) ++
  each dataDisks (fun i d => validate_data_disk (Index path i) d) ++
  duplicates (omap add_Lun dataDisks) (fun lun number =>
    Invalid path (FormatInt lun) ("Data Disk Lun '" +:+ FormatInt lun +:+ "' duplicated " +:+ FormatInt number +:+ " times, Lun must be unique")).

Definition is_given {A} (o : option A) : bool := match o with Some _ => true | None => false end.

(** Zone, machine set and availability set. *)
Definition validate_placement (properties : AzureVirtualMachineProperties) (fldPath : string) : list FieldError :=
  let zone := is_given (azp_Zone properties) in
  let machineSet := is_given (azp_MachineSet properties) in
  let availabilitySet := is_given (azp_AvailabilitySet properties) in
  let path := Child fldPath "zone|.machineSet|.availabilitySet" in
  when (negb zone && negb machineSet && negb availabilitySet)
    (Forbidden path "Machine need to be assigned to a zone, a MachineSet or an AvailabilitySet") ++
  when (zone && (machineSet || availabilitySet))
    (Forbidden path "Machine cannot be assigned to a zone, a MachineSet and an AvailabilitySet in parallel") ++
  (if zone then [] else
    when (machineSet && availabilitySet)
      (Forbidden (Child fldPath "machineSet|.availabilitySet") "Machine cannot be assigned a MachineSet and an AvailabilitySet in parallel") ++
    match azp_MachineSet properties with
    | Some ms => when (negb (bool_decide (ams_Kind ms = MachineSetKindVMO) || bool_decide (ams_Kind ms = MachineSetKindAvailabilitySet)))
        (Invalid (Child fldPath "machineSet") (ams_Kind ms)
          ("Invalid MachineSet kind. Use either '" +:+ MachineSetKindVMO +:+ "' or '" +:+ MachineSetKindAvailabilitySet +:+ "'"))
    | None => []
    end).

Definition validateAzureProperties (properties : AzureVirtualMachineProperties) (fldPath : string) : list FieldError :=
  let storage := azp_StorageProfile properties in
  require (ahp_VMSize (azp_HardwareProfile properties)) (Child fldPath "hardwareProfile.vmSize") "VMSize is required" ++
  validate_image (asp_ImageReference storage) fldPath ++
  when (aod_DiskSizeGB (asp_OsDisk storage) <=? 0)
    (Required (Child fldPath "storageProfile.osDisk.diskSizeGB") "OSDisk size must be positive") ++
  require (aod_CreateOption (asp_OsDisk storage)) (Child fldPath "storageProfile.osDisk.createOption") "OSDisk create option is required" ++
  validate_data_disks (asp_DataDisks storage) fldPath ++
  require (aop_AdminUsername (azp_OsProfile properties)) (Child fldPath "osProfile.adminUsername") "AdminUsername is required" ++
  validate_placement properties fldPath.

Definition validateAzureMachineClassSpec (spec : AzureMachineClassSpec) (secretRef : option SecretReference) (fldPath : string) :
    option (list FieldError) :=
  secretErrs ← validateSecretRef secretRef "spec.secretRef";
  Some (
    require (az_Location spec) (Child fldPath "location") "Location is required" ++
    require (az_ResourceGroup spec) (Child fldPath "resourceGroup") "ResourceGroup is required" ++
    require (asi_SubnetName (az_SubnetInfo spec)) (Child fldPath "subnetInfo.subnetName") "SubnetName is required" ++
    require (asi_VnetName (az_SubnetInfo spec)) (Child fldPath "subnetInfo.vnetName") "VNetName Name is required" ++
    validateAzureProperties (az_Properties spec) "spec.properties" ++
    secretErrs ++
    validateAzureClassSpecTags (az_Tags spec) "spec.tags").

(** ** GCP *)

Definition validateGCPClassSpecTags (tags : list string) : string -> list FieldError :=
  validate_tags "kubernetes-io-cluster-" "kubernetes-io-role-" tags.

Definition validate_gcp_disk (idxPath : string) (disk : GCPDisk) : list FieldError :=
  when (gd_SizeGb disk <? 20) (Invalid (Child idxPath "sizeGb") (FormatInt (gd_SizeGb disk)) "disk size must be at least 20 GB") ++
  when (negb (bool_decide (gd_Type disk ∈ ["pd-standard"; "pd-ssd"; "SCRATCH"])))
    (NotSupported (Child idxPath "type") (gd_Type disk) ["pd-standard"; "pd-ssd"; "SCRATCH"]) ++
  when (bool_decide (gd_Type disk = "SCRATCH") && negb (bool_decide (gd_Interface disk ∈ ["NVME"; "SCSI"])))
    (NotSupported (Child idxPath "interface") (gd_Interface disk) ["NVME"; "SCSI"]) ++
  when (gd_Boot disk && is_empty (gd_Image disk)) (Required (Child idxPath "image") "image is required for boot disk").

Definition validateGCPDisks (disks : list (option GCPDisk)) (fldPath : string) : option (list FieldError) :=
  disks ← mapM id disks;
  Some (match disks with [] => [Required fldPath "at least one disk is required"] | _ => [] end ++
        each disks (fun i d => validate_gcp_disk (Index fldPath i) d)).

Definition validateGCPNetworkInterfaces (interfaces : list (option GCPNetworkInterface)) (fldPath : string) : option (list FieldError) :=
  interfaces ← mapM id interfaces;
  Some (match interfaces with [] => [Required (Child fldPath "networkInterfaces") "at least one network interface is required"] | _ => [] end ++
        each interfaces (fun i nic => when (is_empty (gn_Network nic) && is_empty (gn_Subnetwork nic))
          (Required (Index fldPath i) "either network or subnetwork or both is required"))).

Definition validateGCPMetadata (metadata : list (option GCPMetadata)) (fldPath : string) : option (list FieldError) :=
  metadata ← mapM id metadata;
  Some (each metadata (fun i item => when (bool_decide (gm_Key item = "user-data"))
    (Forbidden (Child (Index fldPath i) "key") "user-data key is forbidden in metadata"))).

Definition validateGCPScheduling (scheduling : GCPScheduling) (fldPath : string) : list FieldError :=
  when (negb (bool_decide (gs_OnHostMaintenance scheduling = "MIGRATE")) && negb (bool_decide (gs_OnHostMaintenance scheduling = "TERMINATE")))
    (NotSupported (Child fldPath "onHostMaintenance") (gs_OnHostMaintenance scheduling) ["MIGRATE"; "TERMINATE"]).

(** [^[^@]+@(?:[a-zA-Z-0-9]+\.)+[a-zA-Z]{2,}$] *)
Definition emailRegexp : regexp :=
  Seq (Plus (Cls (fun c => negb (is_char "@" c))))
    (Seq (Char "@")
      (Seq (Plus (Seq (Plus (Cls (fun c => letter c || is_char "-" c || digit c))) (Char ".")))
        (Seq (Cls letter) (Plus (Cls letter))))).

Definition validateGCPServiceAccounts (serviceAccounts : list GCPServiceAccount) (fldPath : string) : list FieldError :=
  match serviceAccounts with [] => [Required fldPath "at least one service account is required"] | _ => [] end ++
  each serviceAccounts (fun i account => when (negb (MatchString emailRegexp (ga_Email account)))
    (Invalid (Child (Index fldPath i) "email") (ga_Email account) "email address is of invalid format")).

Definition validateGCPMachineClassSpec (spec : GCPMachineClassSpec) (secretRef : option SecretReference) (fldPath : string) :
    option (list FieldError) :=
  disks ← validateGCPDisks (gcp_Disks spec) (Child fldPath "disks");
  interfaces ← validateGCPNetworkInterfaces (gcp_NetworkInterfaces spec) (Child fldPath "networkInterfaces");
  metadata ← validateGCPMetadata (gcp_Metadata spec) (Child fldPath "networkInterfaces");
  secretErrs ← validateSecretRef secretRef (Child fldPath "secretRef");
  Some (disks ++
    require (gcp_MachineType spec) (Child fldPath "machineType") "machineType is required" ++
    require (gcp_Region spec) (Child fldPath "region") "region is required" ++
    require (gcp_Zone spec) (Child fldPath "zone") "zone is required" ++
    interfaces ++ metadata ++
    validateGCPScheduling (gcp_Scheduling spec) (Child fldPath "scheduling") ++
    secretErrs ++
    validateGCPServiceAccounts (gcp_ServiceAccounts spec) (Child fldPath "serviceAccounts") ++
    validateGCPClassSpecTags (gcp_Tags spec) "spec.tags").

(** ** OpenStack *)

Definition validateOSClassSpecTags (tags : strmap) : string -> list FieldError :=
  validate_tags "kubernetes.io-cluster-" "kubernetes.io-role-" (tag_keys tags).

Definition validate_network (podNetworkCidr fldPath : string) (network : OpenStackNetwork) : list FieldError :=
  when (is_empty (osn_Id network) && is_empty (osn_Name network))
    (Required fldPath ("at least on of network " +:+ quoted "id" +:+ " or " +:+ quoted "name" +:+ " is required")) ++
  when (negb (is_empty (osn_Id network)) && negb (is_empty (osn_Name network)))
    (Forbidden fldPath ("simultaneous use of network " +:+ quoted "id" +:+ " and " +:+ quoted "name" +:+ " is forbidden")) ++
  when (is_empty podNetworkCidr && osn_PodNetwork network)
    (Required (Child fldPath "podNetwork")
      (quoted "podNetwork" +:+ " switch should not be used in absence of " +:+ quoted "spec.podNetworkCidr")).

Definition validateOsNetworks (networks : list OpenStackNetwork) (podNetworkCidr fldPath : string) : list FieldError :=
  each networks (fun i network => validate_network podNetworkCidr (Index fldPath i) network).

Definition validateOpenStackMachineClassSpec (spec : OpenStackMachineClassSpec) (secretRef : option SecretReference) (fldPath : string) :
    option (list FieldError) :=
  secretErrs ← validateSecretRef secretRef "spec.secretRef";
  let networks := negb (bool_decide (os_Networks spec = [])) in
  Some (
    when (is_empty (os_ImageID spec) && is_empty (os_ImageName spec))
      (Required (Child fldPath "imageName") "ImageName is required if no ImageID is given") ++
    require (os_Region spec) (Child fldPath "region") "Region is required" ++
    require (os_FlavorName spec) (Child fldPath "flavorName") "Flavor is required" ++
    require (os_AvailabilityZone spec) (Child fldPath "availabilityZone") "AvailabilityZone Name is required" ++
    require (os_KeyName spec) (Child fldPath "keyName") "KeyName is required" ++
    when (negb (is_empty (os_NetworkID spec)) && networks)
      (Forbidden (Child fldPath "networks") (quoted "networks" +:+ " list should not be specified along with " +:+ quoted "spec.NetworkID")) ++
    when (is_empty (os_NetworkID spec) && negb networks)
      (Forbidden (Child fldPath "networks") ("both " +:+ quoted "networks" +:+ " and " +:+ quoted "networkID" +:+ " should not be empty")) ++
    require (os_PodNetworkCidr spec) (Child fldPath "podNetworkCidr") "PodNetworkCidr is required" ++
    when (os_RootDiskSize spec <? 0) (Required (Child fldPath "rootDiskSize") "RootDiskSize can not be negative") ++
    validateOsNetworks (os_Networks spec) (os_PodNetworkCidr spec) "spec.networks" ++
    secretErrs ++
    validateOSClassSpecTags (os_Tags spec) "spec.tags").

(** ** Alicloud *)

Definition validateAlicloudClassSpecTags (tags : option strmap) (fldPath : string) : list FieldError :=
  when (negb (is_given tags)) (Required (Child fldPath "tags") "Tags required for Alicloud machines") ++
  validate_tags "kubernetes.io/cluster/" "kubernetes.io/role/" (tag_keys (default ∅ tags)) fldPath.

Definition dataDiskNameFmt := "[a-zA-Z][a-zA-Z0-9\.\-_:]+".
Definition disk_char (c : ascii) : bool := letter c || digit c || is_char "." c || is_char "-" c || is_char "_" c || is_char ":" c.
Definition dataDiskNameRegexp : regexp := Seq (Cls letter) (Plus (Cls disk_char)).

(** What is wrong with the name of a disk, if anything. *)
Definition disk_name_error (idxPath name : string) : option FieldError :=
  if is_empty name then Some (Required (Child idxPath "name") "Data Disk name is required")
  else if negb (MatchString dataDiskNameRegexp name) then
    Some (Invalid (Child idxPath "name") name
      (RegexError ("Disk name given: " +:+ name +:+ " does not match the expected pattern") dataDiskNameFmt []))
  else if 64 <? Z.of_nat (String.length name) then
    Some (Invalid (Child idxPath "name") name "Data Disk Name length must be between 1 and 64")
  else None.

Definition validate_alicloud_disk (idxPath : string) (dataDisk : AlicloudDataDisk) : list FieldError :=
  option_list (disk_name_error idxPath (adk_Name dataDisk)) ++
  when ((adk_Size dataDisk <? 20) || (32768 <? adk_Size dataDisk))
    (Invalid (Child idxPath "size") (FormatInt (adk_Size dataDisk)) (InclusiveRangeError 20 32768)) ++
  require (adk_Category dataDisk) (Child idxPath "category") "Data Disk category is required".

Definition good_disk_name (name : string) : bool := negb (is_given (disk_name_error EmptyString name)).

Definition validate_alicloud_disks (dataDisks : list AlicloudDataDisk) (fldPath : string) : list FieldError :=
  let path := Child fldPath "dataDisks" in
  each dataDisks (fun i d => validate_alicloud_disk (Index path i) d) ++
  duplicates (filter (fun name => good_disk_name name = true) (adk_Name <$> dataDisks)) (fun name number =>
    Invalid path name ("Data Disk Name '" +:+ name +:+ "' duplicated " +:+ FormatInt number +:+ " times, Name must be unique")).

Definition validateAlicloudMachineClassSpec (spec : AlicloudMachineClassSpec) (secretRef : option SecretReference) (fldPath : string) :
    option (list FieldError) :=
  secretErrs ← validateSecretRef secretRef "spec.secretRef";
  Some (
    require (ali_ImageID spec) (Child fldPath "imageID") "ImageID is required" ++
    require (ali_Region spec) (Child fldPath "region") "Region is required" ++
    require (ali_ZoneID spec) (Child fldPath "zoneID") "ZoneID is required" ++
    require (ali_InstanceType spec) (Child fldPath "instanceType") "InstanceType is required" ++
    require (ali_VSwitchID spec) (Child fldPath "vSwitchID") "VSwitchID is required" ++
    require (ali_KeyPairName spec) (Child fldPath "keyPairName") "KeyPairName is required" ++
    validate_alicloud_disks (ali_DataDisks spec) fldPath ++
    secretErrs ++
    validateAlicloudClassSpecTags (ali_Tags spec) "spec.tags").

(** ** Packet *)

Definition validatePacketClassSpecTags (tags : list string) : string -> list FieldError :=
  validate_tags "kubernetes.io/cluster/" "kubernetes.io/role/" tags.

Definition validatePacketMachineClassSpec (spec : PacketMachineClassSpec) (secretRef : option SecretReference) (fldPath : string) :
    option (list FieldError) :=
  secretErrs ← validateSecretRef secretRef "spec.secretRef";
  Some (
    require (pk_OS spec) (Child fldPath "os") "OS is required" ++
    require (pk_MachineType spec) (Child fldPath "machineType") "Machine Type is required" ++
    require (pk_ProjectID spec) (Child fldPath "projectID") "Project ID is required" ++
    when (bool_decide (pk_Facility spec = [])) (Required (Child fldPath "facility") "At least one Facility specification is required") ++
    validatePacketClassSpecTags (pk_Tags spec) "spec.tags" ++
    secretErrs).

(** ** Any class *)

Section classes.
(** [ValidateObjectMeta] of k8s.io/apimachinery: the metadata, whether a namespace is needed, the check
    of names, the path. *)
Context (ValidateObjectMeta : ObjectMeta -> bool -> (string -> bool -> list string) -> string -> list FieldError).

Definition ValidateAWSMachineClass (c : ProviderClass) (spec : AWSMachineClassSpec) : option (list FieldError) :=
  specErrs ← validateAWSMachineClassSpec spec (pc_SecretRef c) "spec";
  Some (ValidateObjectMeta (pc_Meta c) true validateName "metadata" ++ specErrs).
Definition ValidateAzureMachineClass (c : ProviderClass) (spec : AzureMachineClassSpec) : option (list FieldError) :=
  validateAzureMachineClassSpec spec (pc_SecretRef c) "spec".
Definition ValidateGCPMachineClass (c : ProviderClass) (spec : GCPMachineClassSpec) : option (list FieldError) :=
  validateGCPMachineClassSpec spec (pc_SecretRef c) "spec".
Definition ValidateOpenStackMachineClass (c : ProviderClass) (spec : OpenStackMachineClassSpec) : option (list FieldError) :=
  validateOpenStackMachineClassSpec spec (pc_SecretRef c) "spec".
Definition ValidateAlicloudMachineClass (c : ProviderClass) (spec : AlicloudMachineClassSpec) : option (list FieldError) :=
  specErrs ← validateAlicloudMachineClassSpec spec (pc_SecretRef c) "spec";
  Some (ValidateObjectMeta (pc_Meta c) true validateName "metadata" ++ specErrs).
Definition ValidatePacketMachineClass (c : ProviderClass) (spec : PacketMachineClassSpec) : option (list FieldError) :=
  specErrs ← validatePacketMachineClassSpec spec (pc_SecretRef c) "spec";
  Some (ValidateObjectMeta (pc_Meta c) true packetValidateName "metadata" ++ specErrs).

(** The function the machine and the class controllers call for a class of each kind. *)
Definition ValidateProviderClass (c : ProviderClass) : option (list FieldError) :=
  match pc_Spec c with
  | AWSSpec s => ValidateAWSMachineClass c s
  | AzureSpec s => ValidateAzureMachineClass c s
  | GCPSpec s => ValidateGCPMachineClass c s
  | OpenStackSpec s => ValidateOpenStackMachineClass c s
  | AlicloudSpec s => ValidateAlicloudMachineClass c s
  | PacketSpec s => ValidatePacketMachineClass c s
  end.
End classes.

(** ** When nothing is reported *)

Lemma when_nil b e : when b e = [] <-> b = false.
Proof. by destruct b. Qed.

Lemma require_nil s f d : require s f d = [] <-> s <> EmptyString.
Proof. unfold require, is_empty. rewrite when_nil. apply bool_decide_eq_false. Qed.

Lemma is_empty_spec s : is_empty s = false <-> s <> EmptyString.
Proof. apply bool_decide_eq_false. Qed.

Lemma app_nil_iff {A} (l k : list A) : l ++ k = [] <-> l = [] /\ k = [].
Proof. destruct l; naive_solver. Qed.

Lemma concat_nil {A} (ls : list (list A)) : concat ls = [] <-> Forall (fun l => l = []) ls.
Proof.
  induction ls as [|l ls IH]; simpl; [by split|]. rewrite app_nil_iff, IH, Forall_cons. done.
Qed.

(** The index of an element only shows in the path. *)
Lemma each_nil {A} (l : list A) f (P : A -> Prop) :
  (forall i x, f i x = [] <-> P x) -> each l f = [] <-> Forall P l.
Proof.
  intros Hf. unfold each. rewrite concat_nil. revert f Hf. induction l as [|x l IH]; intros f Hf; simpl; [by split; constructor|].
  rewrite !Forall_cons, Hf, (IH (f ∘ S)); [done|]. intros i y. apply Hf.
Qed.

Lemma each_when {A} (l : list A) (b : A -> bool) (e : nat -> A -> FieldError) :
  each l (fun i x => when (b x) (e i x)) = [] <-> Forall (fun x => b x = false) l.
Proof. apply each_nil. intros i x. apply when_nil. Qed.

Lemma exists_snoc {A} (l : list A) x (Q : A -> Prop) :
  (exists y, y ∈ l ++ [x] /\ Q y) <-> Q x \/ exists y, y ∈ l /\ Q y.
Proof.
  setoid_rewrite elem_of_app. setoid_rewrite list_elem_of_singleton. split.
  - intros (y & [Hy| ->] & HQ); eauto.
  - intros [HQ|(y & Hy & HQ)]; eauto.
Qed.

Section occurrences.
Context {K : Type} `{Countable K}.

Lemma occurrences_snoc (l : list K) k :
  occurrences (l ++ [k]) = <[k := match occurrences l !! k with Some n => n + 1 | None => 1 end]> (occurrences l).
Proof. unfold occurrences. rewrite foldl_app. simpl. by destruct (_ !! k). Qed.

Lemma occurrences_lookup (l : list K) k :
  occurrences l !! k = if bool_decide (k ∈ l) then Some (Z.of_nat (length (filter (fun x => x = k) l))) else None.
Proof.
  induction l as [|x l IH] using rev_ind; [done|]. rewrite occurrences_snoc, filter_app, length_app.
  rewrite (bool_decide_ext (k ∈ l ++ [x]) (k ∈ l \/ k = x)) by set_solver.
  destruct (decide (x = k)) as [->|Hne].
  - rewrite lookup_insert_eq, IH, (bool_decide_true (_ \/ _)), filter_cons_True by auto. simpl.
    case_bool_decide as Hin; f_equal; [lia|].
    rewrite filter_none; [done|]. by intros y Hy ->.
  - rewrite lookup_insert_ne, IH, filter_cons_False by done. simpl. rewrite Nat.add_0_r.
    by rewrite (bool_decide_ext (k ∈ l \/ k = x) (k ∈ l)) by naive_solver.
Qed.

Lemma count_one_NoDup (l : list K) : (forall k, k ∈ l -> length (filter (fun x => x = k) l) = 1%nat) <-> NoDup l.
Proof.
  induction l as [|x l IH]; [split; [constructor|set_solver]|]. split.
  - intros Hc. assert (Hx : x ∉ l).
    { intros Hin. specialize (Hc x ltac:(left)). rewrite filter_cons_True in Hc by done. simpl in Hc.
      apply (elem_of_nil x). rewrite <- (nil_length_inv (filter (fun y => y = x) l)) by lia. by apply list_elem_of_filter. }
    constructor; [done|]. apply IH. intros k Hk. specialize (Hc k ltac:(by right)).
    rewrite filter_cons_False in Hc; [done|]. by intros ->.
  - intros [Hx Hl]%NoDup_cons k Hk. apply elem_of_cons in Hk as [->|Hk].
    + rewrite filter_cons_True by done. simpl. f_equal. rewrite filter_none; [done|]. by intros y Hy ->.
    + rewrite filter_cons_False by (by intros ->). by apply IH.
Qed.

(** Duplicates are reported unless there are none. *)
Lemma duplicates_nil (l : list K) report : duplicates l report = [] <-> NoDup l.
Proof.
  unfold duplicates. rewrite concat_nil, <- count_one_NoDup, Forall_map, list.Forall_forall. split.
  - intros Hd k Hk. specialize (Hd (k, Z.of_nat (length (filter (fun x => x = k) l)))). cbn in Hd. rewrite when_nil in Hd.
    assert (length (filter (fun x => x = k) l) <> 0%nat).
    { intros Hz%nil_length_inv. apply (elem_of_nil k). rewrite <- Hz. by apply list_elem_of_filter. }
    destruct (Z.ltb_spec 1 (Z.of_nat (length (filter (fun x => x = k) l)))); [|lia].
    assert (true = false); [|done]. apply Hd, elem_of_map_to_list. by rewrite occurrences_lookup, bool_decide_true.
  - intros Hc [k n] Hin%elem_of_map_to_list. rewrite occurrences_lookup in Hin. case_bool_decide as Hk; [|done].
    injection Hin as <-. cbn. rewrite (Hc k Hk). done.
Qed.
End occurrences.

Lemma contains_nonempty s sub : sub <> EmptyString -> contains s sub = true -> s <> EmptyString.
Proof. intros Hs Hc ->. by destruct sub. Qed.

(** The last key of a sort is there when any key of the sort is. *)
Lemma cluster_and_role_spec cluster role keys :
  cluster <> EmptyString -> role <> EmptyString ->
  let '(c, r) := cluster_and_role cluster role keys in
  (c <> EmptyString <-> exists k, k ∈ keys /\ contains k cluster = true) /\
  (r <> EmptyString <-> exists k, k ∈ keys /\ contains k cluster = false /\ contains k role = true).
Proof.
  intros Hc Hr. unfold cluster_and_role. induction keys as [|k keys IH] using rev_ind.
  { split; split; [done|intros (? & H & _)|done|intros (? & H & _)]; by apply elem_of_nil in H. }
  rewrite foldl_app. destruct (foldl _ _ keys) as [c r]. destruct IH as [IHc IHr]. simpl. unfold tag_step.
  destruct (contains k cluster) eqn:Ec; [|destruct (contains k role) eqn:Er]; cbn [fst snd];
    rewrite (exists_snoc _ _ (fun k => contains k cluster = true)),
      (exists_snoc _ _ (fun k => contains k cluster = false /\ contains k role = true)), Ec.
  - pose proof (contains_nonempty _ _ Hc Ec). rewrite IHr. intuition congruence.
  - pose proof (contains_nonempty _ _ Hr Er). rewrite IHc, Er. intuition congruence.
  - rewrite IHc, IHr, Er. intuition congruence.
Qed.

(** The tags by which the drivers find the VMs of a class. *)
Definition tagged (cluster role : string) (keys : list string) : Prop :=
  (exists k, k ∈ keys /\ contains k cluster = true) /\
  exists k, k ∈ keys /\ contains k cluster = false /\ contains k role = true.

Lemma validate_tags_nil cluster role keys p : cluster <> EmptyString -> role <> EmptyString ->
  validate_tags cluster role keys p = [] <-> tagged cluster role keys.
Proof.
  intros Hc Hr. pose proof (cluster_and_role_spec cluster role keys Hc Hr) as H. unfold validate_tags, tagged.
  destruct (cluster_and_role _ _ _) as [c r]. by rewrite app_nil_iff, !require_nil, (proj1 H), (proj2 H).
Qed.

(** ** What an accepted class is *)

Definition named_ref (ref : SecretReference) : Prop := sr_Name ref <> EmptyString /\ sr_Namespace ref <> EmptyString.

(** A device other than the root device has a name EC2 knows, if there are several. *)
Definition good_device (several : bool) (d : AWSBlockDeviceMappingSpec) : Prop :=
  (abd_DeviceName d = "/root" \/ several = false \/ matches dataDeviceNameRegexp (abd_DeviceName d)) /\
  ebs_VolumeType (abd_Ebs d) ∈ validVolumeTypes /\ 0 < ebs_VolumeSize (abd_Ebs d) /\
  (ebs_VolumeType (abd_Ebs d) = "io1" -> 0 < ebs_Iops (abd_Ebs d)).

Definition good_devices (l : list AWSBlockDeviceMappingSpec) : Prop :=
  let several := (1 <? length l)%nat in
  Forall (good_device several) l /\ NoDup (abd_DeviceName <$> l) /\ (several = true -> "/root" ∈ abd_DeviceName <$> l).

Definition good_interface (nic : AWSNetworkInterfaceSpec) : Prop :=
  ani_SubnetID nic <> EmptyString /\ ani_SecurityGroupIDs nic <> [] /\ Forall (fun s => s <> EmptyString) (ani_SecurityGroupIDs nic).

Definition aws_valid (s : AWSMachineClassSpec) : Prop :=
  aws_AMI s <> EmptyString /\ aws_Region s <> EmptyString /\ aws_MachineType s <> EmptyString /\
  iam_Name (aws_IAM s) <> EmptyString /\ aws_KeyName s <> EmptyString /\ good_devices (aws_BlockDevices s) /\
  aws_NetworkInterfaces s <> [] /\ Forall good_interface (aws_NetworkInterfaces s) /\
  tagged "kubernetes.io/cluster/" "kubernetes.io/role/" (tag_keys (aws_Tags s)).

Definition good_image (i : AzureImageReference) : Prop :=
  match given_urn i with
  | None => air_ID i <> EmptyString
  | Some urn => air_ID i = EmptyString /\ length (split ":" urn) = 4%nat /\ Forall (fun s => s <> EmptyString) (split ":" urn)
  end.

Definition good_data_disk (d : AzureDataDisk) : Prop :=
  (exists lun, add_Lun d = Some lun /\ 0 <= lun <= 63) /\ 0 < add_DiskSizeGB d /\ add_StorageAccountType d <> EmptyString.

(** Exactly one of a zone, a machine set of one of the two kinds, and an availability set. *)
Definition good_placement (p : AzureVirtualMachineProperties) : Prop :=
  match azp_Zone p, azp_MachineSet p, azp_AvailabilitySet p with
  | Some _, None, None | None, None, Some _ => True
  | None, Some ms, None => ams_Kind ms = MachineSetKindVMO \/ ams_Kind ms = MachineSetKindAvailabilitySet
  | _, _, _ => False
  end.

Definition azure_properties_valid (p : AzureVirtualMachineProperties) : Prop :=
  ahp_VMSize (azp_HardwareProfile p) <> EmptyString /\ good_image (asp_ImageReference (azp_StorageProfile p)) /\
  0 < aod_DiskSizeGB (asp_OsDisk (azp_StorageProfile p)) /\ aod_CreateOption (asp_OsDisk (azp_StorageProfile p)) <> EmptyString /\
  Forall good_data_disk (asp_DataDisks (azp_StorageProfile p)) /\ NoDup (omap add_Lun (asp_DataDisks (azp_StorageProfile p))) /\
  aop_AdminUsername (azp_OsProfile p) <> EmptyString /\ good_placement p.

Definition azure_valid (s : AzureMachineClassSpec) : Prop :=
  az_Location s <> EmptyString /\ az_ResourceGroup s <> EmptyString /\ asi_SubnetName (az_SubnetInfo s) <> EmptyString /\
  asi_VnetName (az_SubnetInfo s) <> EmptyString /\ azure_properties_valid (az_Properties s) /\
  tagged "kubernetes.io-cluster-" "kubernetes.io-role-" (tag_keys (az_Tags s)).

Definition good_gcp_disk (d : GCPDisk) : Prop :=
  20 <= gd_SizeGb d /\ gd_Type d ∈ ["pd-standard"; "pd-ssd"; "SCRATCH"] /\
  (gd_Type d = "SCRATCH" -> gd_Interface d ∈ ["NVME"; "SCSI"]) /\ (gd_Boot d = true -> gd_Image d <> EmptyString).

(** Every pointer of the list is there, and what it points to is as it should be. *)
Definition all_given {A} (P : A -> Prop) (l : list (option A)) : Prop := Forall (fun o => exists x, o = Some x /\ P x) l.

Definition gcp_valid (s : GCPMachineClassSpec) : Prop :=
  gcp_Disks s <> [] /\ all_given good_gcp_disk (gcp_Disks s) /\
  gcp_MachineType s <> EmptyString /\ gcp_Region s <> EmptyString /\ gcp_Zone s <> EmptyString /\
  gcp_NetworkInterfaces s <> [] /\
  all_given (fun n => gn_Network n <> EmptyString \/ gn_Subnetwork n <> EmptyString) (gcp_NetworkInterfaces s) /\
  all_given (fun m => gm_Key m <> "user-data") (gcp_Metadata s) /\
  (gs_OnHostMaintenance (gcp_Scheduling s) = "MIGRATE" \/ gs_OnHostMaintenance (gcp_Scheduling s) = "TERMINATE") /\
  gcp_ServiceAccounts s <> [] /\ Forall (fun a => matches emailRegexp (ga_Email a)) (gcp_ServiceAccounts s) /\
  tagged "kubernetes-io-cluster-" "kubernetes-io-role-" (gcp_Tags s).

(** Networks are given in one of two ways, and each by one of an ID and a name. *)
Definition openstack_valid (s : OpenStackMachineClassSpec) : Prop :=
  (os_ImageID s <> EmptyString \/ os_ImageName s <> EmptyString) /\ os_Region s <> EmptyString /\
  os_FlavorName s <> EmptyString /\ os_AvailabilityZone s <> EmptyString /\ os_KeyName s <> EmptyString /\
  (os_NetworkID s = EmptyString <-> os_Networks s <> []) /\ os_PodNetworkCidr s <> EmptyString /\ 0 <= os_RootDiskSize s /\
  Forall (fun n => osn_Id n = EmptyString <-> osn_Name n <> EmptyString) (os_Networks s) /\
  tagged "kubernetes.io-cluster-" "kubernetes.io-role-" (tag_keys (os_Tags s)).

Definition good_alicloud_disk (d : AlicloudDataDisk) : Prop :=
  matches dataDiskNameRegexp (adk_Name d) /\ (String.length (adk_Name d) <= 64)%nat /\
  20 <= adk_Size d <= 32768 /\ adk_Category d <> EmptyString.

Definition alicloud_valid (s : AlicloudMachineClassSpec) : Prop :=
  ali_ImageID s <> EmptyString /\ ali_Region s <> EmptyString /\ ali_ZoneID s <> EmptyString /\
  ali_InstanceType s <> EmptyString /\ ali_VSwitchID s <> EmptyString /\ ali_KeyPairName s <> EmptyString /\
  Forall good_alicloud_disk (ali_DataDisks s) /\ NoDup (adk_Name <$> ali_DataDisks s) /\
  exists tags, ali_Tags s = Some tags /\ tagged "kubernetes.io/cluster/" "kubernetes.io/role/" (tag_keys tags).

Definition packet_valid (s : PacketMachineClassSpec) : Prop :=
  pk_OS s <> EmptyString /\ pk_MachineType s <> EmptyString /\ pk_ProjectID s <> EmptyString /\ pk_Facility s <> [] /\
  tagged "kubernetes.io/cluster/" "kubernetes.io/role/" (pk_Tags s).

Definition spec_valid (s : ProviderSpec) : Prop :=
  match s with
  | AWSSpec s => aws_valid s
  | AzureSpec s => azure_valid s
  | GCPSpec s => gcp_valid s
  | OpenStackSpec s => openstack_valid s
  | AlicloudSpec s => alicloud_valid s
  | PacketSpec s => packet_valid s
  end.

Lemma validateSecretRef_nil ref p : validateSecretRef ref p = Some [] <-> exists r, ref = Some r /\ named_ref r.
Proof.
  destruct ref as [r|]; simpl; [|naive_solver]. unfold named_ref.
  rewrite (inj_iff Some), app_nil_iff, !require_nil. naive_solver.
Qed.

Lemma validate_disk_nil several p d : validate_disk several p d = [] <-> good_device several d.
Proof.
  unfold validate_disk, good_device. rewrite !app_nil_iff, !when_nil, <- MatchString_spec.
  rewrite negb_false_iff, bool_decide_eq_true, Z.leb_gt.
  assert (Hio : (if is_empty (ebs_VolumeType (abd_Ebs d)) then [Required (Child p "ebs.volumeType") "Please mention a valid ebs volume type"]
    else when (bool_decide (ebs_VolumeType (abd_Ebs d) = "io1") && (ebs_Iops (abd_Ebs d) <=? 0))
      (Required (Child p "ebs.iops") "Please mention a valid ebs volume iops")) = [] <->
    ebs_VolumeType (abd_Ebs d) <> EmptyString /\ (ebs_VolumeType (abd_Ebs d) = "io1" -> 0 < ebs_Iops (abd_Ebs d))).
  { unfold is_empty. case_bool_decide as He; [by split; [|intros [? _]]|].
    rewrite when_nil, andb_false_iff, Z.leb_gt, bool_decide_eq_false. destruct (decide (ebs_VolumeType (abd_Ebs d) = "io1")); tauto. }
  rewrite Hio, !andb_false_iff, !negb_false_iff, bool_decide_eq_true.
  split; [tauto|]. intros (H1 & H2 & H3 & H4). split_and!; try tauto. intros E. rewrite E in H2. by apply (bool_decide_pack _) in H2.
Qed.

Lemma root_count (l : list AWSBlockDeviceMappingSpec) :
  length (filter (fun d => abd_DeviceName d = "/root") l) = length (filter (fun n => n = "/root") (abd_DeviceName <$> l)).
Proof. induction l as [|d l IH]; [done|]. csimpl. rewrite !filter_cons. repeat case_decide; simpl; by rewrite ?IH. Qed.

Lemma validateBlockDevices_nil l p : validateBlockDevices l p = [] <-> good_devices l.
Proof.
  unfold validateBlockDevices, good_devices. rewrite !app_nil_iff, duplicates_nil.
  rewrite (each_nil _ _ (good_device (1 <? length l)%nat)) by (intros; apply validate_disk_nil).
  rewrite root_count. set (names := abd_DeviceName <$> l). set (several := (1 <? length l)%nat).
  assert (Hin : "/root" ∈ names <-> length (filter (fun n => n = "/root") names) <> 0%nat).
  { split.
    - intros Hin Hz%nil_length_inv. apply (elem_of_nil "/root"). rewrite <- Hz. by apply list_elem_of_filter.
    - intros Hz. destruct (filter _ names) as [|x k] eqn:E; [done|]. assert (x ∈ filter (fun n => n = "/root") names) as Hx by (rewrite E; left).
      by apply list_elem_of_filter in Hx as [-> ?]. }
  assert (Hone : NoDup names -> (1 <? length (filter (fun n => n = "/root") names))%nat = false).
  { intros Hnd. apply Nat.ltb_ge. destruct (decide ("/root" ∈ names)) as [Hr|Hr].
    - by rewrite (proj2 (count_one_NoDup names) Hnd _ Hr).
    - rewrite filter_none; [simpl; lia|]. by intros x Hx ->. }
  split.
  - intros (Hf & Hr & Hnd). split_and!; [done..|]. intros Hs. rewrite (Hone Hnd), when_nil, Hs, andb_true_r, bool_decide_eq_false in Hr.
    by apply Hin.
  - intros (Hf & Hnd & Hr). split_and!; [done| |done]. rewrite (Hone Hnd), when_nil. destruct several; [|by rewrite andb_false_r].
    rewrite andb_true_r, bool_decide_eq_false. by apply Hin, Hr.
Qed.

Lemma validateNetworkInterfaces_nil l p : validateNetworkInterfaces l p = [] <-> l <> [] /\ Forall good_interface l.
Proof.
  assert (Hi : forall i n, validate_interface p i n = [] <-> good_interface n).
  { intros i n. unfold validate_interface, good_interface. rewrite app_nil_iff, require_nil.
    destruct (ani_SecurityGroupIDs n) as [|g gs]; [naive_solver|].
    rewrite (each_nil _ _ (fun s => s <> EmptyString)) by (intros; apply require_nil). naive_solver. }
  destruct l as [|n l]; simpl; [naive_solver|]. fold (each (n :: l) (validate_interface p)).
  change (each (n :: l) (validate_interface p) = [] <-> n :: l <> [] /\ Forall good_interface (n :: l)).
  rewrite (each_nil _ _ good_interface) by done. naive_solver.
Qed.

Ltac no_report := rewrite ?app_nil_iff, ?require_nil, ?when_nil.

Lemma validateAWS_valid s ref p :
  validateAWSMachineClassSpec s ref p = Some [] <-> aws_valid s /\ exists r, ref = Some r /\ named_ref r.
Proof.
  unfold validateAWSMachineClassSpec, aws_valid, validateAWSClassSpecTags. rewrite <- (validateSecretRef_nil ref "spec.secretRef").
  destruct (validateSecretRef _ _) as [errs|]; simpl; [|naive_solver]. rewrite !(inj_iff Some). no_report.
  rewrite validateBlockDevices_nil, validateNetworkInterfaces_nil, validate_tags_nil by done. tauto.
Qed.

(** *** Azure *)

Lemma given_urn_nil i : given_urn i = None \/ exists urn, given_urn i = Some urn.
Proof. destruct (given_urn i); eauto. Qed.

Lemma validate_image_nil i p : validate_image i p = [] <-> good_image i.
Proof.
  unfold validate_image, good_image, is_empty. destruct (given_urn i) as [urn|]; case_bool_decide as Hid; try naive_solver.
  case_bool_decide as Hl; simpl; [|naive_solver].
  rewrite concat_nil, Forall_map. setoid_rewrite require_nil. naive_solver.
Qed.

Lemma validate_data_disk_nil p d : validate_data_disk p d = [] <-> good_data_disk d.
Proof.
  unfold validate_data_disk, good_data_disk. destruct (add_Lun d) as [lun|]; no_report; [|naive_solver].
  rewrite orb_false_iff, !Z.ltb_ge, Z.leb_gt. naive_solver.
Qed.

(** There are 64 logical unit numbers, so the check of the number of disks never adds anything. *)
Lemma luns_bound l : Forall good_data_disk l -> NoDup (omap add_Lun l) -> (length l <= 64)%nat.
Proof.
  intros HF Hnd. assert (Hlen : length l = length (omap add_Lun l)).
  { clear Hnd. induction HF as [|d l ((lun & Hlun & _) & _) _ IH]; [done|]. csimpl. rewrite Hlun. simpl. by rewrite IH. }
  rewrite Hlen. change 64%nat with (Z.to_nat 64). rewrite <- (length_seqZ 0 64). apply submseteq_length, NoDup_submseteq; [done|].
  intros lun (d & Hd & Hlun)%list_elem_of_omap. apply elem_of_seqZ.
  rewrite list.Forall_forall in HF. destruct (HF d Hd) as ((lun' & E & ?) & _). naive_solver lia.
Qed.

Lemma validate_data_disks_nil l p :
  validate_data_disks l p = [] <-> Forall good_data_disk l /\ NoDup (omap add_Lun l).
Proof.
  unfold validate_data_disks. no_report. rewrite duplicates_nil, Z.ltb_ge.
  rewrite (each_nil _ _ good_data_disk) by (intros; apply validate_data_disk_nil).
  split; [naive_solver|]. intros [HF Hnd]. pose proof (luns_bound l HF Hnd). split_and!; [lia|done..].
Qed.

Lemma validate_placement_nil q p : validate_placement q p = [] <-> good_placement q.
Proof.
  unfold validate_placement, good_placement.
  destruct (azp_Zone q), (azp_MachineSet q) as [ms|], (azp_AvailabilitySet q); simpl; try naive_solver.
  rewrite when_nil, negb_false_iff, orb_true_iff, !bool_decide_eq_true. done.
Qed.

Lemma validateAzureProperties_nil q p : validateAzureProperties q p = [] <-> azure_properties_valid q.
Proof.
  unfold validateAzureProperties, azure_properties_valid. cbv zeta. no_report.
  rewrite validate_image_nil, validate_data_disks_nil, validate_placement_nil, Z.leb_gt. tauto.
Qed.

Lemma validateAzure_valid s ref p :
  validateAzureMachineClassSpec s ref p = Some [] <-> azure_valid s /\ exists r, ref = Some r /\ named_ref r.
Proof.
  unfold validateAzureMachineClassSpec, azure_valid, validateAzureClassSpecTags. rewrite <- (validateSecretRef_nil ref "spec.secretRef").
  destruct (validateSecretRef _ _) as [errs|]; simpl; [|naive_solver]. rewrite !(inj_iff Some). no_report.
  rewrite validateAzureProperties_nil, validate_tags_nil by done. tauto.
Qed.

(** *** GCP *)

Lemma mapM_id_cons {A} (o : option A) l : mapM id (o :: l) = (x ← o; k ← mapM id l; Some (x :: k)).
Proof. done. Qed.

Lemma all_given_spec {A} (P : A -> Prop) (l : list (option A)) :
  all_given P l <-> exists k, mapM id l = Some k /\ Forall P k.
Proof.
  unfold all_given. induction l as [|o l IH]; [split; [exists []; by constructor|constructor]|].
  rewrite Forall_cons, IH, mapM_id_cons. split.
  - intros [(x & -> & Hx) (k & Hk & HF)]. exists (x :: k). simpl. rewrite Hk. split; [done|by constructor].
  - intros (k & Hk & HF). destruct o as [x|]; [|done]. simpl in Hk. destruct (mapM id l) as [k'|]; [|done]. simpl in Hk.
    injection Hk as <-. apply Forall_cons in HF as [Hx HF]. split; [by exists x|by exists k'].
Qed.

Lemma mapM_id_nil {A} (l : list (option A)) k : mapM id l = Some k -> k = [] <-> l = [].
Proof. intros H. apply mapM_Some, Forall2_length in H. split; intros ->; [by destruct l|by destruct k]. Qed.

Lemma validate_gcp_disk_nil p d : validate_gcp_disk p d = [] <-> good_gcp_disk d.
Proof.
  unfold validate_gcp_disk, good_gcp_disk. no_report.
  rewrite Z.ltb_ge, negb_false_iff, bool_decide_eq_true, !andb_false_iff, bool_decide_eq_false, negb_false_iff, bool_decide_eq_true, is_empty_spec.
  destruct (decide (gd_Type d = "SCRATCH")), (gd_Boot d); naive_solver.
Qed.

Lemma validateGCPDisks_nil l p : validateGCPDisks l p = Some [] <-> l <> [] /\ all_given good_gcp_disk l.
Proof.
  unfold validateGCPDisks. rewrite all_given_spec. destruct (mapM id l) as [k|] eqn:Ek; simpl; [|naive_solver].
  rewrite (inj_iff Some), <- (mapM_id_nil l k Ek). no_report.
  rewrite (each_nil _ _ good_gcp_disk) by (intros; apply validate_gcp_disk_nil). destruct k; naive_solver.
Qed.

Lemma validateGCPNetworkInterfaces_nil l p : validateGCPNetworkInterfaces l p = Some [] <->
  l <> [] /\ all_given (fun n => gn_Network n <> EmptyString \/ gn_Subnetwork n <> EmptyString) l.
Proof.
  unfold validateGCPNetworkInterfaces. rewrite all_given_spec. destruct (mapM id l) as [k|] eqn:Ek; simpl; [|naive_solver].
  rewrite (inj_iff Some), <- (mapM_id_nil l k Ek). no_report.
  rewrite (each_nil _ _ (fun n => gn_Network n <> EmptyString \/ gn_Subnetwork n <> EmptyString)).
  - destruct k; naive_solver.
  - intros i n. by rewrite when_nil, andb_false_iff, !is_empty_spec.
Qed.

Lemma validateGCPMetadata_nil l p : validateGCPMetadata l p = Some [] <-> all_given (fun m => gm_Key m <> "user-data") l.
Proof.
  unfold validateGCPMetadata. rewrite all_given_spec. destruct (mapM id l) as [k|] eqn:Ek; simpl; [|naive_solver].
  rewrite (inj_iff Some), (each_nil _ _ (fun m => gm_Key m <> "user-data")).
  - naive_solver.
  - intros i m. by rewrite when_nil, bool_decide_eq_false.
Qed.

Lemma validateGCPServiceAccounts_nil l p : validateGCPServiceAccounts l p = [] <->
  l <> [] /\ Forall (fun a => matches emailRegexp (ga_Email a)) l.
Proof.
  unfold validateGCPServiceAccounts. no_report. rewrite (each_nil _ _ (fun a => matches emailRegexp (ga_Email a))).
  - destruct l; naive_solver.
  - intros i a. by rewrite when_nil, negb_false_iff, MatchString_spec.
Qed.

Lemma validateGCP_valid s ref p :
  validateGCPMachineClassSpec s ref p = Some [] <-> gcp_valid s /\ exists r, ref = Some r /\ named_ref r.
Proof.
  unfold validateGCPMachineClassSpec, gcp_valid, validateGCPClassSpecTags.
  pose proof (validateSecretRef_nil ref (Child p "secretRef")) as Hs.
  pose proof (validateGCPDisks_nil (gcp_Disks s) (Child p "disks")) as Hd.
  pose proof (validateGCPNetworkInterfaces_nil (gcp_NetworkInterfaces s) (Child p "networkInterfaces")) as Hi.
  pose proof (validateGCPMetadata_nil (gcp_Metadata s) (Child p "networkInterfaces")) as Hm.
  assert (Hn : (None : option (list FieldError)) <> Some []) by done.
  destruct (validateGCPDisks _ _); simpl; [|tauto]. destruct (validateGCPNetworkInterfaces _ _); simpl; [|tauto].
  destruct (validateGCPMetadata _ _); simpl; [|tauto]. destruct (validateSecretRef _ _); simpl; [|tauto].
  rewrite (inj_iff Some) in Hs, Hd, Hi, Hm |- *.
  no_report. unfold validateGCPScheduling.
  rewrite validateGCPServiceAccounts_nil, validate_tags_nil, when_nil, andb_false_iff, !negb_false_iff, !bool_decide_eq_true by done.
  rewrite Hd, Hi, Hm, Hs. tauto.
Qed.

(** *** OpenStack *)

Lemma validate_network_nil c p n : c <> EmptyString ->
  validate_network c p n = [] <-> (osn_Id n = EmptyString <-> osn_Name n <> EmptyString).
Proof.
  intros Hc. unfold validate_network, is_empty. no_report. rewrite (bool_decide_false (c = EmptyString)) by done.
  do 2 case_bool_decide; simpl; naive_solver.
Qed.

Lemma validateOpenStack_valid s ref p :
  validateOpenStackMachineClassSpec s ref p = Some [] <-> openstack_valid s /\ exists r, ref = Some r /\ named_ref r.
Proof.
  unfold validateOpenStackMachineClassSpec, openstack_valid, validateOSClassSpecTags. rewrite <- (validateSecretRef_nil ref "spec.secretRef").
  destruct (validateSecretRef _ _) as [errs|]; simpl; [|naive_solver]. rewrite !(inj_iff Some). no_report.
  rewrite validate_tags_nil, Z.ltb_ge by done. unfold validateOsNetworks.
  destruct (decide (os_PodNetworkCidr s = EmptyString)) as [Hp|Hp]; [tauto|].
  rewrite (each_nil _ _ (fun n => osn_Id n = EmptyString <-> osn_Name n <> EmptyString)) by (intros; by apply validate_network_nil).
  rewrite andb_false_iff, !is_empty_spec. unfold is_empty. do 2 case_bool_decide; simpl; naive_solver.
Qed.

(** *** Alicloud *)

Lemma disk_name_error_none p n :
  disk_name_error p n = None <-> matches dataDiskNameRegexp n /\ (String.length n <= 64)%nat.
Proof.
  unfold disk_name_error, is_empty. rewrite <- MatchString_spec. case_bool_decide as He; [subst; naive_solver|].
  destruct (MatchString _ _); simpl; [|naive_solver].
  destruct (Z.ltb_spec 64 (Z.of_nat (String.length n))); split; naive_solver lia.
Qed.

Lemma good_disk_name_spec n : good_disk_name n = true <-> disk_name_error EmptyString n = None.
Proof. unfold good_disk_name. by destruct (disk_name_error _ _). Qed.

Lemma validate_alicloud_disk_nil p d : validate_alicloud_disk p d = [] <-> good_alicloud_disk d.
Proof.
  unfold validate_alicloud_disk, good_alicloud_disk. no_report. rewrite orb_false_iff, !Z.ltb_ge.
  assert (Ho : option_list (disk_name_error p (adk_Name d)) = [] <-> disk_name_error p (adk_Name d) = None)
    by (by destruct (disk_name_error _ _)).
  rewrite Ho, disk_name_error_none. tauto.
Qed.

Lemma validate_alicloud_disks_nil l p :
  validate_alicloud_disks l p = [] <-> Forall good_alicloud_disk l /\ NoDup (adk_Name <$> l).
Proof.
  unfold validate_alicloud_disks. no_report. rewrite duplicates_nil.
  rewrite (each_nil _ _ good_alicloud_disk) by (intros; apply validate_alicloud_disk_nil).
  assert (Hf : Forall good_alicloud_disk l -> filter (fun name => good_disk_name name = true) (adk_Name <$> l) = adk_Name <$> l).
  { induction 1 as [|d l (Hd1 & Hd2 & _) _ IH]; [done|]. csimpl. rewrite filter_cons_True, IH; [done|].
    by apply good_disk_name_spec, disk_name_error_none. }
  split; intros [H1 H2]; (split; [done|]); by rewrite Hf in *.
Qed.

Lemma validateAlicloud_valid s ref p :
  validateAlicloudMachineClassSpec s ref p = Some [] <-> alicloud_valid s /\ exists r, ref = Some r /\ named_ref r.
Proof.
  unfold validateAlicloudMachineClassSpec, alicloud_valid, validateAlicloudClassSpecTags. rewrite <- (validateSecretRef_nil ref "spec.secretRef").
  destruct (validateSecretRef _ _) as [errs|]; simpl; [|naive_solver]. rewrite !(inj_iff Some). no_report.
  rewrite validate_alicloud_disks_nil, validate_tags_nil by done.
  destruct (ali_Tags s) as [tags|]; simpl; [|naive_solver]. naive_solver.
Qed.

(** *** Packet *)

Lemma validatePacket_valid s ref p :
  validatePacketMachineClassSpec s ref p = Some [] <-> packet_valid s /\ exists r, ref = Some r /\ named_ref r.
Proof.
  unfold validatePacketMachineClassSpec, packet_valid, validatePacketClassSpecTags. rewrite <- (validateSecretRef_nil ref "spec.secretRef").
  destruct (validateSecretRef _ _) as [errs|]; simpl; [|naive_solver]. rewrite !(inj_iff Some). no_report.
  rewrite validate_tags_nil, bool_decide_eq_false by done. tauto.
Qed.

(** ** The theorems *)

Lemma validateName_nil v b :
  validateName v b = [] <-> (String.length v <= 63)%nat /\ v <> EmptyString /\ Forall (fun a => name_char a = true) (list_ascii_of_string v).
Proof.
  unfold validateName. rewrite app_nil_iff, <- MatchString_plus_cls, <- MatchString_spec. fold nameRegexp. unfold nameMaxLength.
  destruct (Z.ltb_spec 63 (Z.of_nat (String.length v))), (MatchString nameRegexp v); simpl; naive_solver lia.
Qed.

Section theorems.
Context (ValidateObjectMeta : ObjectMeta -> bool -> (string -> bool -> list string) -> string -> list FieldError).

(** The metadata is only looked at for three of the kinds. *)
Definition meta_errors (c : ProviderClass) : list FieldError :=
  match pc_Spec c with
  | AWSSpec _ | AlicloudSpec _ => ValidateObjectMeta (pc_Meta c) true validateName "metadata"
  | PacketSpec _ => ValidateObjectMeta (pc_Meta c) true packetValidateName "metadata"
  | _ => []
  end.

Lemma bind_app_nil (o : option (list FieldError)) m (P : Prop) : (o = Some [] <-> P) ->
  (errs ← o; Some (m ++ errs)) = Some [] <-> P /\ m = [].
Proof. intros Ho. rewrite <- Ho. destruct o as [errs|]; simpl; [|naive_solver]. rewrite !(inj_iff Some), app_nil_iff. tauto. Qed.

(** C31: a provider-specific class passes validation exactly when its specification is what the provider's
    rules say (required fields, disks and devices that are named once and well, one placement, one image,
    networks given in one way, tags by which its VMs can be found), it names a secret with a namespace, and,
    for AWS, Alicloud and Packet, its metadata is valid; the other three do not look at the metadata. *)
Theorem ValidateProviderClass_spec c :
  ValidateProviderClass ValidateObjectMeta c = Some [] <->
  spec_valid (pc_Spec c) /\ (exists r, pc_SecretRef c = Some r /\ named_ref r) /\ meta_errors c = [].
Proof.
  unfold ValidateProviderClass, meta_errors, spec_valid.
  destruct (pc_Spec c) as [s|s|s|s|s|s].
  - unfold ValidateAWSMachineClass. rewrite (bind_app_nil _ _ _ (validateAWS_valid s _ _)). tauto.
  - unfold ValidateAzureMachineClass. rewrite validateAzure_valid. tauto.
  - unfold ValidateGCPMachineClass. rewrite validateGCP_valid. tauto.
  - unfold ValidateOpenStackMachineClass. rewrite validateOpenStack_valid. tauto.
  - unfold ValidateAlicloudMachineClass. rewrite (bind_app_nil _ _ _ (validateAlicloud_valid s _ _)). tauto.
  - unfold ValidatePacketMachineClass. rewrite (bind_app_nil _ _ _ (validatePacket_valid s _ _)). tauto.
Qed.

(** A class without a [secretRef], which is an optional field and may be replaced by a
    [credentialsSecretRef], is not rejected: the reference is dereferenced. *)
Theorem validation_panics_without_secret c : pc_SecretRef c = None -> ValidateProviderClass ValidateObjectMeta c = None.
Proof.
  intros Hr. unfold ValidateProviderClass. destruct (pc_Spec c) as [s|s|s|s|s|s];
    unfold ValidateAWSMachineClass, ValidateAzureMachineClass, ValidateGCPMachineClass, ValidateOpenStackMachineClass,
      ValidateAlicloudMachineClass, ValidatePacketMachineClass; rewrite Hr; [done..| |done|done|done].
  unfold validateGCPMachineClassSpec. by destruct (validateGCPDisks _ _), (validateGCPNetworkInterfaces _ _), (validateGCPMetadata _ _).
Qed.
End theorems.

(** A name of one character is in the range the message names, and is refused by the pattern. *)
Example short_disk_name_refused : disk_name_error EmptyString "a" <> None /\ disk_name_error EmptyString "ab" = None.
Proof. split; [by vm_compute|reflexivity]. Qed.

(** ** Witnesses *)

Definition sample_aws : AWSMachineClassSpec :=
  mkAWSSpec "ami-1" "eu-west-1"
    [mkAWSBlockDevice "/root" (mkAWSEbs None true 0 None None 50 "gp2") "" "";
     mkAWSBlockDevice "/dev/sdb" (mkAWSEbs None true 100 None None 20 "io1") "" ""]
    false (mkAWSIAM "" "nodes") "m5.large" "key" false [mkAWSNetworkInterface None None None ["sg-1"] "subnet-1"]
    {[ "kubernetes.io/cluster/shoot" := "1"; "kubernetes.io/role/node" := "1" ]} None.

Definition sample_provider_class (ref : option SecretReference) : ProviderClass :=
  mkProviderClass (mkMeta "small" "" "shoot" "" "" 0 0 None ∅ ∅ [] []) ref None (AWSSpec sample_aws).

(** A check that names, generated or not, are non-empty and accepted. *)
Definition names_only (m : ObjectMeta) (ns : bool) (check : string -> bool -> list string) (path : string) : list FieldError :=
  require (Name m) (Child path "name") "name or generateName is required" ++
  map (Invalid (Child path "name") (Name m)) (check (Name m) false).

Lemma validation_panics_without_secret_witness : ValidateProviderClass names_only (sample_provider_class None) = None.
Proof. apply (validation_panics_without_secret names_only (sample_provider_class None)). reflexivity. Defined.

Example sample_class_valid : ValidateProviderClass names_only (sample_provider_class (Some (mkSecretRef "cred" "shoot"))) = Some [].
Proof. vm_compute. reflexivity. Qed.
Example second_root_refused :
  length <$> ValidateProviderClass names_only (mkProviderClass (pc_Meta (sample_provider_class None)) (Some (mkSecretRef "cred" "shoot")) None
    (AWSSpec (mkAWSSpec "ami-1" "eu-west-1"
      [mkAWSBlockDevice "/root" (mkAWSEbs None true 0 None None 50 "gp2") "" ""; mkAWSBlockDevice "/root" (mkAWSEbs None true 0 None None 50 "gp2") "" ""]
      false (mkAWSIAM "" "nodes") "m5.large" "key" false [mkAWSNetworkInterface None None None ["sg-1"] "subnet-1"]
      (aws_Tags sample_aws) None))) = Some 2%nat.
Proof. vm_compute. reflexivity. Qed.
