(* ===== verification/DeploymentController.v ===== *)
(** * The machine deployment controller

    pkg/controller/deployment.go and deployment_rollback.go: event handlers, rollback, the reconcile
    function of a machine deployment, deletion and finalizers. *)
From Stdlib Require Import ZArith Lia Ascii String.
From stdpp Require Import base gmap strings list sorting.
From S2P Require Import Prelude GoLib Types Labels MachineSets DeploymentUtil Prog Samples NodeOps RefManager.
From S2P Require Import DeploymentSync Rollout Validation.
Open Scope Z_scope.

Definition DeleteFinalizerName := "machine.sapcloud.io/machine-controller-manager".
Definition maxRetries : Z := 15.
Definition minute : Z := 60 * second.

(** ** Owners *)

Definition resolveDeploymentControllerRef (ns : string) (ref : OwnerReference) : prog (option MachineDeployment) :=
  if bool_decide (or_Kind ref <> "MachineDeployment") then Ret None
  else
    let! r := call_try (GetMD ns (or_Name ref)) in
    Ret (match r with
         | Err _ => None
         | Ok d => if bool_decide (UID (d_Meta d) <> or_UID ref) then None else Some d
         end).

Definition getMachineDeploymentForMachine (machine : Machine) : prog (option MachineDeployment) :=
  match GetControllerOf (m_Meta machine) with
  | None => Ret None
  | Some ref =>
      if bool_decide (or_Kind ref <> "MachineDeployment") then Ret None
      else
        let! r := call_try (GetMS (Namespace (m_Meta machine)) (or_Name ref)) in
        match r with
        | Err _ => Ret None
        | Ok ms =>
            if bool_decide (is_UID ms <> or_UID ref) then Ret None
            else match GetControllerOf (is_Meta ms) with
                 | None => Ret None
                 | Some ref => resolveDeploymentControllerRef (Namespace (is_Meta ms)) ref
                 end
        end
  end.

(** ** Event handlers *)

Definition enqueueMachineDeployment (d : MachineDeployment) : prog unit := call_ignore (EnqueueMD (KeyFunc (d_Meta d))).

Definition enqueue_owner (ns : string) (ref : OwnerReference) : prog unit :=
  let! d := resolveDeploymentControllerRef ns ref in
  match d with Some d => enqueueMachineDeployment d | None => Ret tt end.

Definition addMachineDeployment (d : MachineDeployment) : prog unit := enqueueMachineDeployment d.
Definition updateMachineDeployment (oldD curD : MachineDeployment) : prog unit := enqueueMachineDeployment curD.
Definition deleteMachineDeployment (d : MachineDeployment) : prog unit := enqueueMachineDeployment d.

(** Errors and the empty list are the same to the callers. *)
Definition getMachineDeploymentsForMachineSet (ms : MachineSet) : prog (list MachineDeployment) :=
  if bool_decide (Labels (is_Meta ms) = ∅) then Ret []
  else
    let! l := call_try ListerMachineDeployments in
    Ret (match l with
         | Err _ => []
         | Ok dList => match GetMachineDeploymentsForMachineSet dList ms with Ok ds => ds | Err _ => [] end
         end).

Definition deleteMachineSetToDeployment (ms : MachineSet) : prog unit :=
  match GetControllerOf (is_Meta ms) with
  | None => Ret tt
  | Some ref => enqueue_owner (Namespace (is_Meta ms)) ref
  end.

Definition addMachineSetToDeployment (ms : MachineSet) : prog unit :=
  if bool_decide (DeletionTimestamp (is_Meta ms) <> None) then deleteMachineSetToDeployment ms
  else match GetControllerOf (is_Meta ms) with
       | Some ref => enqueue_owner (Namespace (is_Meta ms)) ref
       | None => let! ds := getMachineDeploymentsForMachineSet ms in for_each ds enqueueMachineDeployment
       end.

Definition updateMachineSetToDeployment (old cur : MachineSet) : prog unit :=
  if bool_decide (ResourceVersion (is_Meta cur) = ResourceVersion (is_Meta old)) then Ret tt
  else
    let curRef := GetControllerOf (is_Meta cur) in
    let oldRef := GetControllerOf (is_Meta old) in
    let controllerRefChanged := negb (bool_decide (curRef = oldRef)) in
    do! (match oldRef with
         | Some ref => if controllerRefChanged then enqueue_owner (Namespace (is_Meta old)) ref else Ret tt
         | None => Ret tt
         end) in
    match curRef with
    | Some ref => enqueue_owner (Namespace (is_Meta cur)) ref
    | None =>
        let labelChanged := negb (bool_decide (Labels (is_Meta cur) = Labels (is_Meta old))) in
        if labelChanged || controllerRefChanged
        then let! ds := getMachineDeploymentsForMachineSet cur in for_each ds enqueueMachineDeployment
        else Ret tt
    end.

(** ** Machine sets and machines of a deployment *)

Definition ListMachineSets (d : MachineDeployment) : prog (list MachineSet) :=
  let! selector := or_throw (LabelSelectorAsSelector (md_Selector (d_Spec d))) "invalid selector" in
  let! all := call (ListMS (Namespace (d_Meta d)) selector) in
  Ret (owned_machine_sets d all).

(** The machine sets as the client lists them, sorted out: the old ones with machines, all old ones, the new one.
    [FindOldMachineSets] leaves its argument sorted. *)
Definition GetAllMachineSets `{GoSort} (d : MachineDeployment) : prog (list MachineSet * list MachineSet * option MachineSet) :=
  let! isList := ListMachineSets d in
  Ret (FindOldMachineSets d isList, FindNewMachineSet d (sort_by_creation isList)).
Definition GetOldMachineSets `{GoSort} (d : MachineDeployment) : prog (list MachineSet * list MachineSet) :=
  let! rsList := ListMachineSets d in Ret (FindOldMachineSets d rsList).
Definition GetNewMachineSet `{GoSort} (d : MachineDeployment) : prog (option MachineSet) :=
  let! rsList := ListMachineSets d in Ret (FindNewMachineSet d rsList).

(** There is room for [n] checks before the timeout. *)
Definition WaitForObservedMachineDeployment (n : nat) (getDeploymentFunc : prog MachineDeployment) (desiredGeneration : Z) : prog unit :=
  PollImmediate n (let! deployment := getDeploymentFunc in
                   Ret (desiredGeneration <=? mds_ObservedGeneration (d_Status deployment))).

Definition fresh_deployment (d : MachineDeployment) : prog ObjectMeta :=
  let! fresh := call (GetMD (Namespace (d_Meta d)) (d_Name d)) in
  if bool_decide (UID (d_Meta fresh) <> UID (d_Meta d)) then Throw (Errorf "original Machine Deployment is gone")
  else Ret (d_Meta fresh).

Definition getMachineSetsForMachineDeployment (d : MachineDeployment) : prog (list MachineSet) :=
  let! machineSets := call ListerMachineSets in
  let! selector := or_throw (LabelSelectorAsSelector (md_Selector (d_Spec d))) "invalid label selector" in
  ClaimMachineSets (machineset_manager (d_Meta d) selector "MachineDeployment"
    (RecheckDeletionTimestamp (fresh_deployment d))) machineSets.

(** Machines by the UID of their controller, for the controllers in the list. *)
Definition group_machines (machineSets : list MachineSet) (machines : list Machine) : gmap string (list Machine) :=
  foldl (fun machineMap machine =>
    match GetControllerOf (m_Meta machine) with
    | None => machineMap
    | Some ref =>
        match machineMap !! or_UID ref with
        | Some items => <[or_UID ref := items ++ [machine]]> machineMap
        | None => machineMap
        end
    end) (list_to_map ((fun ms => (is_UID ms, [])) <$> machineSets)) machines.

Definition getMachineMapForMachineDeployment (d : MachineDeployment) (machineSets : list MachineSet)
  : prog (gmap string (list Machine)) :=
  let! selector := or_throw (LabelSelectorAsSelector (md_Selector (d_Spec d))) "invalid selector" in
  let! machines := call ListerMachines in
  Ret (group_machines machineSets (filter (fun m => sel_Matches selector (Labels (m_Meta m)) = true) machines)).

(** Wakes a Recreate deployment up when its last machine is gone. *)
Definition deleteMachineToMachineDeployment (machine : Machine) : prog unit :=
  let! od := getMachineDeploymentForMachine machine in
  match od with
  | None => Ret tt
  | Some d =>
      if bool_decide (str_Type (md_Strategy (d_Spec d)) <> RecreateStrategyType) then Ret tt
      else
        let! x := attempt (
          let! machineSets := ListMachineSets d in
          let! machineMap := getMachineMapForMachineDeployment d machineSets in
          Ret (forallb (fun kv => bool_decide (kv.2 = [])) (map_to_list machineMap))) in
        match x with
        | Ok true => enqueueMachineDeployment d
        | _ => Ret tt
        end
  end.

Definition handleErr (err : option error) (name : string) : prog unit :=
  match err with
  | None => call_ignore (ForgetMD name)
  | Some _ =>
      let! n := call (NumRequeuesMD name) in
      if n <? maxRetries then call_ignore (EnqueueMDRateLimited name) else call_ignore (ForgetMD name)
  end.

(** ** Finalizers *)

(** Retries until an update goes through: the source has no bound. *)
Fixpoint updateMachineDeploymentFinalizers (rounds : nat) (ns name : string) (finalizers : list string) : prog unit :=
  match rounds with
  | O => Starve
  | S rounds =>
      let! g := call_try (GetMD ns name) in
      match g with
      | Err _ => Ret tt
      | Ok d =>
          let! u := call_try (UpdateMD (d_set_Meta (set_Finalizers finalizers) d)) in
          match u with
          | Ok _ => Ret tt
          | Err _ => updateMachineDeploymentFinalizers rounds (Namespace (d_Meta d)) (d_Name d) finalizers
          end
      end
  end.

Definition addMachineDeploymentFinalizers (cfg : Config) (d : MachineDeployment) : prog unit :=
  let finalizers := sets_NewString (Finalizers (d_Meta d)) in
  if bool_decide (DeleteFinalizerName ∈ finalizers) then Ret tt
  else updateMachineDeploymentFinalizers (cfg_retry_rounds cfg) (Namespace (d_Meta d)) (d_Name d)
         (sets_List ({[ DeleteFinalizerName ]} ∪ finalizers)).

Definition deleteMachineDeploymentFinalizers (cfg : Config) (d : MachineDeployment) : prog unit :=
  let finalizers := sets_NewString (Finalizers (d_Meta d)) in
  if bool_decide (DeleteFinalizerName ∈ finalizers)
  then updateMachineDeploymentFinalizers (cfg_retry_rounds cfg) (Namespace (d_Meta d)) (d_Name d)
         (sets_List (finalizers ∖ {[ DeleteFinalizerName ]}))
  else Ret tt.

(** One goroutine per machine set; the errors of the deletions are ignored. *)
Definition terminateMachineSets (machineSets : list MachineSet) : prog unit :=
  do! par_list ((fun ms =>
    if bool_decide (DeletionTimestamp (is_Meta ms) <> None) then Ret tt
    else call_ignore (DeleteMS (Namespace (is_Meta ms)) (is_Name ms))) <$> machineSets) in
  Ret tt.

(** ** Rollback *)

Definition updateMachineDeploymentAndClearRollbackTo (d : MachineDeployment) : prog unit :=
  do! call (UpdateMD (d_set_Spec (md_set_RollbackTo None) d)) in Ret tt.

Definition rollbackToTemplate (d : MachineDeployment) (ms : MachineSet) : prog bool :=
  if EqualIgnoreHash (md_Template (d_Spec d)) (ms_Template (is_Spec ms))
  then do! updateMachineDeploymentAndClearRollbackTo d in Ret false
  else
    let d := SetMachineDeploymentAnnotationsTo (SetFromMachineSetTemplate d (ms_Template (is_Spec ms))) ms in
    do! updateMachineDeploymentAndClearRollbackTo d in Ret true.

(** The node is read, the taint removed off it, and the node is read again. *)
Definition untaint_node (nodeName : string) (taint : Taint) : prog unit :=
  if bool_decide (nodeName = EmptyString) then Ret tt
  else
    let! node := call_try (GetNode nodeName false) in
    match node with
    | Err _ => Ret tt
    | Ok node =>
        do! attempt (RemoveTaintOffNode nodeName (Some node) [taint]) in
        call_ignore (GetNode nodeName false)
    end.

Definition removeTaintNodesBackingMachineSet (cfg : Config) (machineSet : MachineSet) (taint : Taint) : prog unit :=
  if bool_decide (Annotations (is_Meta machineSet) !! t_Key taint = None) then Ret tt
  else
    let! filteredMachines := machines_of machineSet in
    do! for_each filteredMachines (fun machine => untaint_node (st_Node (m_Status machine)) taint) in
    let! t := now in
    annotate_loop (cfg_retry_rounds cfg) false (t + maxRetryDeadline) (Namespace (is_Meta machineSet))
      (is_Name machineSet) (delete (t_Key taint)).

Section controller.
Context `{GoSort} `{FloatConv} `{Hasher}.

(** The first machine set with the revision is the target. *)
Definition find_revision (toRevision : Z) (allISs : list MachineSet) : option MachineSet :=
  head (filter (fun ms => bool_decide (Revision (is_Meta ms) = Some toRevision) = true) allISs).

Definition rollback (cfg : Config) (d : MachineDeployment) (isList : list MachineSet)
    (machineMap : gmap string (list Machine)) : prog unit :=
  let! r := getAllMachineSetsAndSyncRevision cfg d isList machineMap true in
  let '(newIS, allOldISs, d) := r in
  let! revision := deref (md_RollbackTo (d_Spec d)) in
  let! newIS := deref newIS in
  let allISs := allOldISs ++ [newIS] in
  let toRevision := if revision =? 0 then LastRevision allISs else revision in
  if toRevision =? 0 then updateMachineDeploymentAndClearRollbackTo d
  else match find_revision toRevision allISs with
       | None => updateMachineDeploymentAndClearRollbackTo d
       | Some ms =>
           do! attempt (removeTaintNodesBackingMachineSet cfg ms prefer_no_schedule) in
           do! rollbackToTemplate d ms in Ret tt
       end.

(** ** Reconcile *)

(** A deployment that is being deleted. *)
Definition delete_deployment (cfg : Config) (d : MachineDeployment) (machineSets : list MachineSet)
    (machineMap : gmap string (list Machine)) : prog unit :=
  if bool_decide (DeleteFinalizerName ∉ sets_NewString (Finalizers (d_Meta d))) then Ret tt
  else if bool_decide (machineSets = []) then deleteMachineDeploymentFinalizers cfg d
  else
    do! terminateMachineSets machineSets in
    syncStatusOnly cfg d machineSets machineMap.

(** A deployment that is not paused and has no rollback pending. *)
Definition rollout (cfg : Config) (d : MachineDeployment) (machineSets : list MachineSet)
    (machineMap : gmap string (list Machine)) : prog unit :=
  let! r := isScalingEvent cfg d machineSets machineMap in
  let '(scalingEvent, d) := r in
  if (scalingEvent : bool) then sync cfg d machineSets machineMap
  else if bool_decide (str_Type (md_Strategy (d_Spec d)) = RecreateStrategyType)
  then rolloutRecreate cfg d machineSets machineMap
  else if bool_decide (str_Type (md_Strategy (d_Spec d)) = RollingUpdateStrategyType)
  then rolloutRolling cfg d machineSets machineMap
  else Throw (Errorf "unexpected deployment strategy type").

(** A validated deployment. *)
Definition reconcile_valid (cfg : Config) (d : MachineDeployment) : prog unit :=
  do! (if bool_decide (DeletionTimestamp (d_Meta d) = None) then addMachineDeploymentFinalizers cfg d else Ret tt) in
  if bool_decide (md_Selector (d_Spec d) = Some (mkSelector ∅ [])) then
    if mds_ObservedGeneration (d_Status d) <? Generation (d_Meta d)
    then call_ignore (UpdateStatusMD (d_set_Status (mds_set_ObservedGeneration (Generation (d_Meta d)) (d_Status d)) d))
    else Ret tt
  else
    let! machineSets := getMachineSetsForMachineDeployment d in
    let! machineMap := getMachineMapForMachineDeployment d machineSets in
    if bool_decide (DeletionTimestamp (d_Meta d) <> None) then delete_deployment cfg d machineSets machineMap
    else
      let! d := checkPausedConditions d in
      if md_Paused (d_Spec d) then sync cfg d machineSets machineMap
      else if bool_decide (md_RollbackTo (d_Spec d) <> None) then rollback cfg d machineSets machineMap
      else rollout cfg d machineSets machineMap.

Definition reconcileClusterMachineDeployment (cfg : Config) (key : string) : prog unit :=
  let! name := or_throw (match split "/" key with [n] | [_; n] => Some n | _ => None end) "unexpected key format" in
  let! r := call_try (GetMD (cfg_namespace cfg) name) in
  match r with
  | Err e => if IsNotFound e then Ret tt else Throw e
  | Ok deployment =>
      let! errs := deref (ValidateMachineDeployment deployment) in
      match errs with
      | _ :: _ => Ret tt
      | [] => defer (call_ignore (EnqueueMDAfter (KeyFunc (d_Meta deployment)) (10 * minute))) (reconcile_valid cfg deployment)
      end
  end.
End controller.

(** ** What the deployment is after its machine sets were synced *)

Section facts.
Context `{GoSort} `{FloatConv} `{Hasher}.

Lemma rets_same_spec d (d' : MachineDeployment) (n : option MachineSet) :
  d_Spec d' = d_Spec d -> rets (fun r => d_Spec r.2 = d_Spec d) (Ret (n, d')).
Proof. intros E. by apply rets_ret. Qed.

Lemma use_existing_spec d ms rev : rets (fun r => d_Spec r.2 = d_Spec d) (use_existing d ms rev).
Proof.
  unfold use_existing. destruct (sync_existing d ms rev) as [isCopy []].
  { eapply rets_bind; [apply rets_any|]. intros u _. by apply rets_same_spec. }
  destruct (SetMachineDeploymentRevision _ _) as [d1 b1] eqn:E1.
  assert (S1 : d_Spec d1 = d_Spec d).
  { unfold SetMachineDeploymentRevision in E1. repeat case_match; simplify_eq; done. }
  eapply (rets_bind _ (fun dn : MachineDeployment * bool => d_Spec dn.1 = d_Spec d)).
  { case_match; [|by apply rets_ret]. eapply rets_bind; [apply rets_any|]. intros t1 _.
    eapply rets_bind; [apply rets_any|]. intros t2 _. by apply rets_ret. }
  intros [d2 b2] S2. simpl in S2. destruct b2; [|by apply rets_same_spec].
  eapply rets_bind; [apply rets_any|]. intros u _. eapply rets_bind; [apply rets_any|]. intros v _.
  by apply rets_same_spec.
Qed.

Lemma finish_create_spec d ms rev b :
  rets (fun r => d_Spec r.2 = d_Spec d /\ is_Some r.1) (finish_create d ms rev b).
Proof.
  unfold finish_create. destruct (SetMachineDeploymentRevision _ _) as [d1 b1] eqn:E1.
  assert (S1 : d_Spec d1 = d_Spec d).
  { unfold SetMachineDeploymentRevision in E1. repeat case_match; simplify_eq; done. }
  eapply (rets_bind _ (fun dn : MachineDeployment * bool => d_Spec dn.1 = d_Spec d)).
  { case_match; [|by apply rets_ret]. eapply rets_bind; [apply rets_any|]. intros t1 _.
    eapply rets_bind; [apply rets_any|]. intros t2 _. by apply rets_ret. }
  intros [d2 b2] S2. simpl in S2. destruct b2; [|by apply rets_ret].
  eapply rets_bind; [apply rets_any|]. intros u _. by apply rets_ret.
Qed.

Lemma create_new_spec d olds rev : rets (fun r => d_Spec r.2 = d_Spec d) (create_new d olds rev).
Proof.
  unfold create_new. eapply rets_bind; [apply rets_any|]. intros sel _.
  eapply rets_bind; [apply rets_any|]. intros n _. eapply rets_bind; [apply rets_any|]. intros [ms|e] _.
  { intros h r He. by apply finish_create_spec in He as [? _]. }
  destruct (IsAlreadyExists e).
  - eapply rets_bind; [apply rets_any|]. intros ms _. destruct (EqualIgnoreHash _ _).
    + intros h r He. by apply finish_create_spec in He as [? _].
    + eapply rets_bind; [apply rets_any|]. intros ? _. apply rets_throw.
  - destruct (md_ProgressDeadlineSeconds _); [|apply rets_throw].
    eapply rets_bind; [apply rets_any|]. intros t1 _. eapply rets_bind; [apply rets_any|]. intros t2 _.
    eapply rets_bind; [apply rets_any|]. intros ? _. apply rets_throw.
Qed.

(** The revision and the conditions may change, the specification does not. *)
Lemma getAll_spec cfg d isList mm create :
  rets (fun r => d_Spec r.2 = d_Spec d) (getAllMachineSetsAndSyncRevision cfg d isList mm create).
Proof.
  unfold getAllMachineSetsAndSyncRevision. eapply rets_bind; [apply rets_any|]. intros [l|e] _; [|apply rets_throw].
  cbv zeta. eapply (rets_bind _ (fun r : option MachineSet * MachineDeployment => d_Spec r.2 = d_Spec d)).
  { unfold getNewMachineSet. destruct (FindNewMachineSet _ _); [apply use_existing_spec|].
    destruct create; [apply create_new_spec|by apply rets_ret]. }
  intros [n d'] E. by apply rets_ret.
Qed.

(** ** Rollback *)

(** The revision a rollback asks for: the last one but the newest for 0. *)
Definition rollback_target (revision : Z) (allISs : list MachineSet) : Z :=
  if revision =? 0 then LastRevision allISs else revision.

(** [spec'] is [spec] with the template of [ms], without its hash label. *)
Definition took_template (spec spec' : MachineDeploymentSpec) (ms : MachineSet) : Prop :=
  EqualIgnoreHash (md_Template spec) (ms_Template (is_Spec ms)) = false /\
  spec' = md_set_RollbackTo None (md_set_Template (tp_set_Meta (fun m =>
    set_Labels (CloneAndRemoveLabel (Labels m) DefaultMachineDeploymentUniqueLabelKey) m) (ms_Template (is_Spec ms))) spec).

Lemma exec_clear d h u : exec (updateMachineDeploymentAndClearRollbackTo d) h (Return u) ->
  writes h = [UpdateMD (d_set_Spec (md_set_RollbackTo None) d)].
Proof.
  intros He. apply exec_bind_ret in He as (h1 & a & h2 & -> & E1 & -> & _).
  apply exec_call in E1 as (x & -> & _). by rewrite app_nil_r, writes_cons.
Qed.

Lemma exec_rollbackToTemplate d ms h b : exec (rollbackToTemplate d ms) h (Return b) ->
  exists d', writes h = [UpdateMD d'] /\
    ((b = false /\ d_Spec d' = md_set_RollbackTo None (d_Spec d)) \/ (b = true /\ took_template (d_Spec d) (d_Spec d') ms)).
Proof.
  unfold rollbackToTemplate. destruct (EqualIgnoreHash _ _) eqn:Eq; intros He;
    apply exec_bind_ret in He as (h1 & [] & h2 & -> & E1 & -> & [= ->]); apply exec_clear in E1;
    rewrite app_nil_r; eexists; (split; [exact E1|]).
  - by left.
  - right. split; [done|]. split; [done|]. done.
Qed.

(** A rollback that succeeds clears the rollback request with its last write, so that it is not
    repeated.  The specification it stores is the old one, or the old one with the template (less the
    hash label) of a machine set that has the requested revision and a different template. *)
Theorem rollback_clears cfg d isList mm revision h :
  md_RollbackTo (d_Spec d) = Some revision ->
  exec (rollback cfg d isList mm) h (Return tt) ->
  exists ws d', writes h = ws ++ [UpdateMD d'] /\ md_RollbackTo (d_Spec d') = None /\
    (d_Spec d' = md_set_RollbackTo None (d_Spec d) \/
     exists allISs ms, ms ∈ allISs /\ Revision (is_Meta ms) = Some (rollback_target revision allISs) /\
       rollback_target revision allISs <> 0 /\ took_template (d_Spec d) (d_Spec d') ms).
Proof.
  intros Hr He. unfold rollback in He.
  apply exec_bind_ret in He as (h1 & [[newIS olds] d1] & h2 & -> & E1 & E2).
  apply getAll_spec in E1. simpl in E1. rewrite E1, Hr in E2. simpl in E2. destruct newIS as [newIS|]; [|by destruct E2].
  simpl in E2. set (allISs := olds ++ [newIS]) in E2. change (if revision =? 0 then _ else _) with (rollback_target revision allISs) in E2.
  rewrite writes_app.
  destruct (Z.eqb_spec (rollback_target revision allISs) 0) as [|Hnz].
  { apply exec_clear in E2. eexists _, _. split; [by rewrite E2|]. split; [done|]. left. simpl. by rewrite E1. }
  destruct (find_revision _ allISs) as [ms|] eqn:Ef.
  2:{ apply exec_clear in E2. eexists _, _. split; [by rewrite E2|]. split; [done|]. left. simpl. by rewrite E1. }
  apply exec_bind_ret in E2 as (h3 & x & h4 & -> & _ & E2).
  apply exec_bind_ret in E2 as (h5 & b & h6 & -> & E2 & -> & _). rewrite app_nil_r, writes_app, app_assoc.
  apply exec_rollbackToTemplate in E2 as (d' & -> & Hd).
  exists (writes h1 ++ writes h3), d'. split; [done|].
  destruct Hd as [[_ Hd]|[_ Hd]]; rewrite E1 in Hd; (split; [|]).
  - by rewrite Hd.
  - by left.
  - destruct Hd as [_ ->]. done.
  - right. exists allISs, ms. unfold find_revision in Ef. apply head_Some_elem_of, list_elem_of_filter in Ef as [Eb Hin].
    by apply bool_decide_eq_true in Eb.
Qed.
End facts.

(** ** Grouping machines *)

Definition controlled_by_uid (uid : string) (m : Machine) : bool :=
  match GetControllerOf (m_Meta m) with Some ref => bool_decide (or_UID ref = uid) | None => false end.

(** The machine map has exactly the UIDs of the deployment's machine sets as keys, and under each of
    them, in the order of the lister, exactly the machines whose controller has that UID. *)
Theorem group_machines_spec machineSets machines uid :
  group_machines machineSets machines !! uid =
    if bool_decide (uid ∈ is_UID <$> machineSets)
    then Some (filter (fun m => controlled_by_uid uid m = true) machines) else None.
Proof.
  unfold group_machines. induction machines as [|m machines IH] using rev_ind.
  - simpl. rewrite filter_nil. induction machineSets as [|ms l IH]; [done|]. csimpl.
    destruct (decide (is_UID ms = uid)) as [<-|Hne].
    + rewrite lookup_insert_eq, bool_decide_true; [done|]. by left.
    + rewrite lookup_insert_ne, IH by done. apply (f_equal (fun b : bool => if b then Some [] else None)).
      apply bool_decide_ext. rewrite elem_of_cons. naive_solver.
  - rewrite foldl_app, filter_app. simpl.
    set (mm := foldl _ _ machines) in *.
    unfold controlled_by_uid in *. destruct (GetControllerOf (m_Meta m)) as [ref|] eqn:Ec.
    2:{ rewrite IH. case_bool_decide; [|done]. rewrite filter_cons_False by (rewrite Ec; done).
        by rewrite filter_nil, app_nil_r. }
    destruct (decide (or_UID ref = uid)) as [<-|Hne].
    + destruct (mm !! or_UID ref) as [items|] eqn:Em.
      * rewrite lookup_insert_eq. case_bool_decide; [|done]. simplify_eq.
        rewrite filter_cons_True by (rewrite Ec; by apply bool_decide_eq_true). by rewrite filter_nil.
      * rewrite Em. by case_bool_decide.
    + assert ((match mm !! or_UID ref with Some items => <[or_UID ref := items ++ [m]]> mm | None => mm end) !! uid = mm !! uid) as ->.
      { destruct (mm !! or_UID ref); [|done]. by rewrite lookup_insert_ne. }
      rewrite IH. case_bool_decide; [|done]. rewrite filter_cons_False by (rewrite Ec; by rewrite bool_decide_eq_true).
      by rewrite filter_nil, app_nil_r.
Qed.

(** ** Deleted machines do not wake the deployment up *)

(** When a machine that is controlled by a machine set is deleted, its machine deployment is not
    enqueued: the handler looks for a controller of kind MachineDeployment on the machine, and a machine's
    controller is a machine set.  It makes no call at all. *)
Theorem deleteMachine_never_enqueues machine ref h o :
  GetControllerOf (m_Meta machine) = Some ref -> or_Kind ref = "MachineSet" ->
  exec (deleteMachineToMachineDeployment machine) h o -> h = [] /\ o = Return tt.
Proof.
  intros Hc Hk. unfold deleteMachineToMachineDeployment, getMachineDeploymentForMachine.
  rewrite Hc, Hk. simpl. done.
Qed.

(** ** Deletion *)

Definition deletion_of (ms : MachineSet) : list req :=
  if bool_decide (DeletionTimestamp (is_Meta ms) = None) then [DeleteMS (Namespace (is_Meta ms)) (is_Name ms)] else [].

(** C38: terminating the machine sets of a deployment always completes, whatever the goroutines'
    interleaving and the answers to the deletions; exactly the machine sets that are not being deleted
    yet are deleted, each once. *)
Theorem terminateMachineSets_complete machineSets h o : exec (terminateMachineSets machineSets) h o ->
  o = Return tt /\ writes h ≡ₚ machineSets ≫= deletion_of.
Proof.
  intros He.
  set (body := fun ms => if bool_decide (DeletionTimestamp (is_Meta ms) <> None) then Ret tt
    else call_ignore (DeleteMS (Namespace (is_Meta ms)) (is_Name ms))).
  assert (Hbody : forall ms, total (body ms)).
  { intros ms. unfold body. case_match; [apply total_Ret|]. apply total_Call. intros; apply total_Ret. }
  assert (Hw : forall ms h u, exec (body ms) h (Return u) -> writes h = deletion_of ms).
  { intros ms h0 u. unfold body, deletion_of. destruct (DeletionTimestamp (is_Meta ms)); simpl.
    - by intros [-> _].
    - intros (x & h' & -> & -> & _). by rewrite writes_cons. }
  assert (Htot : forall l, total (par_list (body <$> l))).
  { intros l. induction l as [|ms l IH]; [apply total_Ret|]. apply total_bind; [by apply total_par|]. intros; apply total_Ret. }
  assert (Hall : forall l h u, exec (par_list (body <$> l)) h (Return u) -> writes h ≡ₚ l ≫= deletion_of).
  { intros l. induction l as [|ms l IH]; intros h0 u E; [by destruct E as [-> _]|].
    csimpl in E. cbn [par_list] in E. apply exec_bind_ret in E as (h1 & [a b] & h2 & -> & E1 & -> & _).
    rewrite app_nil_r. apply exec_par in E1 as (h3 & h4 & pk & E3 & E4 & Hp & Hh).
    rewrite (writes_perm _ _ Hh), !writes_app, (writes_picks _ Hp), app_nil_r, (Hw _ _ _ E3), (IH _ _ E4). done. }
  unfold terminateMachineSets in He. fold body in He.
  destruct (exec_bind _ _ _ _ He) as [(h1 & a & h2 & -> & E1 & -> & ->)|(o' & E1 & E2 & _)].
  - rewrite app_nil_r. split; [done|]. by eapply Hall.
  - apply Htot in E1 as [a ->]. done.
Qed.

(** ** The finalizer stays until the machine sets are gone *)

(** Hash labels are put on machine sets and machines. *)
Definition relabels (e : event) : Prop :=
  match projT1 e with UpdateMS _ | UpdateMachine _ => True | r => is_read r = true end.

Lemma UpdateISWithRetries_relabels n ns name f : emits relabels (UpdateISWithRetries n ns name f).
Proof. induction n as [|n IH]; simpl; emits_all; done. Qed.

Lemma UpdateMachineWithRetries_relabels n ns name f : emits relabels (UpdateMachineWithRetries n ns name f).
Proof. induction n as [|n IH]; simpl; emits_all; done. Qed.

Lemma update_selector_relabels n hash ns name : emits relabels (update_selector n hash ns name).
Proof. induction n as [|n IH]; simpl; emits_all; done. Qed.

Section deletion.
Context `{GoSort} `{FloatConv} `{Hasher}.

Lemma hash_sync_relabels cfg d isList mm : emits relabels (isAndMachinesWithHashKeySynced cfg d isList mm).
Proof.
  unfold isAndMachinesWithHashKeySynced, addHashKeyToISAndMachines, LabelMachinesWithHash,
    WaitForMachineSetUpdated, WaitForMachinesHashPopulated.
  emits_all; try done; auto using UpdateISWithRetries_relabels, UpdateMachineWithRetries_relabels, update_selector_relabels.
Qed.

(** Nothing is created; machine sets are deleted only if listed and not being deleted; the finalizer is
    taken off the deployment only when no machine set is left. *)
Definition orderly_deletion (machineSets : list MachineSet) (e : event) : Prop :=
  match projT1 e with
  | CreateMS _ | CreateMachine _ | DeleteMachineReq _ _ => False
  | DeleteMS ns name => exists ms, ms ∈ machineSets /\ DeletionTimestamp (is_Meta ms) = None /\
      ns = Namespace (is_Meta ms) /\ name = is_Name ms
  | UpdateMD d' => machineSets = [] \/ DeleteFinalizerName ∈ Finalizers (d_Meta d')
  | _ => True
  end.

Lemma relabels_orderly {A} l (p : prog A) : emits relabels p -> emits (orderly_deletion l) p.
Proof. apply emits_weaken. intros [r x]. unfold relabels, orderly_deletion. simpl. by destruct r. Qed.

Lemma use_existing_orderly l d ms rev : DeleteFinalizerName ∈ Finalizers (d_Meta d) ->
  emits (orderly_deletion l) (use_existing d ms rev).
Proof.
  intros Hf. unfold use_existing. destruct (sync_existing d ms rev) as [isCopy []]; [emits_all; done|].
  destruct (SetMachineDeploymentRevision _ _) as [d1 b1] eqn:E1.
  assert (S1 : Finalizers (d_Meta d1) = Finalizers (d_Meta d)).
  { unfold SetMachineDeploymentRevision in E1. repeat case_match; simplify_eq; done. }
  apply emits_bind_strong; [emits_all; done|]. intros [d2 b2] h E2.
  assert (S2 : Finalizers (d_Meta d2) = Finalizers (d_Meta d)).
  { case_match; [|by destruct E2 as [_ [= -> ->]]].
    apply exec_bind_ret in E2 as (? & t1 & ? & _ & _ & E2). apply exec_bind_ret in E2 as (? & t2 & ? & _ & _ & E2).
    by destruct E2 as [_ [= -> ->]]. }
  emits_all; try done. right. simpl. by rewrite S2.
Qed.

(** Deleting a machine deployment is orderly: for every execution, nothing is created, only its own
    machine sets that are not being deleted yet are deleted, and the finalizer that protects the
    deployment is taken off only when no machine set is left. *)
Theorem delete_deployment_orderly cfg d machineSets mm :
  emits (orderly_deletion machineSets) (delete_deployment cfg d machineSets mm).
Proof.
  unfold delete_deployment. case_bool_decide as Hfin; [apply emits_ret|].
  assert (Hf : DeleteFinalizerName ∈ Finalizers (d_Meta d)).
  { unfold sets_NewString in Hfin. by apply elem_of_list_to_set in Hfin. }
  case_bool_decide as Hnil.
  { subst. unfold deleteMachineDeploymentFinalizers. case_match; [|apply emits_ret].
    generalize (cfg_retry_rounds cfg) (Namespace (d_Meta d)) (d_Name d). intros n. induction n as [|n IH]; intros ns name;
      simpl; emits_all; try done. by left. }
  apply emits_bind.
  { unfold terminateMachineSets. apply emits_bind; [|intros; apply emits_ret].
    apply emits_par_list; [done|]. apply Forall_fmap, Forall_forall. intros ms Hms. simpl.
    case_bool_decide as Hd; [apply emits_ret|]. apply emits_call_ignore. intros x. simpl.
    by exists ms. }
  intros _. unfold syncStatusOnly, getAllMachineSetsAndSyncRevision, syncMachineDeploymentStatus, getNewMachineSet.
  emits_all; try done; auto using relabels_orderly, hash_sync_relabels, use_existing_orderly.
Qed.
End deletion.

(** ** Reconcile *)

Section reconcile.
Context `{GoSort} `{FloatConv} `{Hasher}.

(** The guards of the reconcile function.  A malformed key is an error; a deployment that is gone is
    no error; a fetch that fails is; a deployment without a selector makes the controller panic; an invalid
    one is left alone; in all these cases nothing but the fetch happens.  A valid one is, when the function
    returns with or without an error, enqueued again for ten minutes later as the last thing. *)
Theorem reconcile_guards cfg key h o :
  exec (reconcileClusterMachineDeployment cfg key) h o ->
  (h = [] /\ exists e, o = Raise e) \/
  exists name x h', h = ev (GetMD (cfg_namespace cfg) name) x :: h' /\
    match x with
    | Err e => h' = [] /\ o = if IsNotFound e then Return tt else Raise e
    | Ok d =>
        match ValidateMachineDeployment d with
        | None => h' = [] /\ o = Panic
        | Some (_ :: _) => h' = [] /\ o = Return tt
        | Some [] => (exists h1 o1, exec (reconcile_valid cfg d) h1 o1 /\
            ((o1 = o /\ (o = Panic \/ o = OutOfFuel) /\ h' = h1) \/
             (o1 = o /\ exists y, h' = h1 ++ [ev (EnqueueMDAfter (KeyFunc (d_Meta d)) (10 * minute)) y])))
        end
    end.
Proof.
  intros He. unfold reconcileClusterMachineDeployment in He.
  destruct (match split "/" key with [n] | [_; n] => Some n | _ => None end) as [name|].
  2:{ left. destruct He as [-> ->]. eauto. }
  right. destruct He as (x & h' & -> & He). exists name, x, h'. split; [done|]. cbn [bind] in He.
  destruct x as [d|e].
  2:{ destruct (IsNotFound e); exact He. }
  destruct (ValidateMachineDeployment d) as [[|er errs]|]; cbn [deref bind] in He; [|exact He..].
  destruct (exec_bind _ _ _ _ He) as [(h1 & r & h2 & -> & E1 & E2)|(o' & E1 & E2 & ->)].
  - destruct E2 as (y & h3 & -> & E2).
    assert (h3 = []) as -> by (destruct r; by destruct E2).
    exists h1, o. apply exec_attempt_ret in E1. destruct r as [[]|e]; destruct E2 as [_ ->]; eauto.
  - destruct (exec_attempt _ _ _ E1) as [(? & _ & ->)|[(? & _ & ->)|[[E ->]|[E ->]]]]; [done..| |]; eexists _, _; eauto 10.
Qed.
End reconcile.

(** ** Finalizer updates *)

Lemma update_finalizers_emits n ns name fs :
  emits (fun e => match projT1 e with UpdateMD d' => Finalizers (d_Meta d') = fs | r => is_read r = true end)
    (updateMachineDeploymentFinalizers n ns name fs).
Proof. revert ns name; induction n as [|n IH]; intros ns name; simpl; emits_all; done. Qed.

(** The finalizers written to the API server are those of the object the controller was called with
    plus (or minus) its own, whatever the object fetched just before the write has: a finalizer that
    another controller added in between is dropped, in spite of the fetch. *)
Theorem finalizers_from_stale_object cfg d :
  emits (fun e => match projT1 e with
    | UpdateMD d' => forall f, f ∈ Finalizers (d_Meta d') <-> f = DeleteFinalizerName \/ f ∈ Finalizers (d_Meta d)
    | r => is_read r = true end) (addMachineDeploymentFinalizers cfg d) /\
  emits (fun e => match projT1 e with
    | UpdateMD d' => forall f, f ∈ Finalizers (d_Meta d') <-> f <> DeleteFinalizerName /\ f ∈ Finalizers (d_Meta d)
    | r => is_read r = true end) (deleteMachineDeploymentFinalizers cfg d).
Proof.
  unfold addMachineDeploymentFinalizers, deleteMachineDeploymentFinalizers. split; case_match; try apply emits_ret;
    (eapply emits_weaken; [|apply update_finalizers_emits]); intros [r x]; simpl; destruct r; try done; intros -> f;
    rewrite elem_of_sets_List; unfold sets_NewString; set_solver.
Qed.

(** ** Sample runs *)

(** A machine set that has its hash label, with a revision. *)
Definition sample_hashed (name revision class : string) : MachineSet :=
  mkMS (set_Annotations {[ RevisionAnnotation := revision ]} (set_Labels {[ "app" := "db"; hashKey := name ]} (sample_meta name name)))
    (mkMSSpec 1 (Some (mkSelector {[ "app" := "db"; hashKey := name ]} [])) zero_class
       (mkTemplate (set_Labels {[ "app" := "db"; hashKey := name ]} (sample_meta "" ""))
          (mkMachineSpec (mkClass "" "MachineClass" class) "" zero_node_template None)) 0)
    zero_ms_status.

Definition sample_rollback_md : MachineDeployment := d_set_Spec (md_set_RollbackTo (Some 1)) (sample_md 3 1 0).
Definition sample_rollback : prog unit :=
  rollback sample_config sample_rollback_md [sample_hashed "a" "1" "large"; sample_hashed "b" "2" "small"] ∅.

(** The deployment takes the class of revision 1 over. *)
Lemma rollback_clears_witness :
  (run echo sample_rollback tt).2 = Return tt /\
  exists ws d', writes (run echo sample_rollback tt).1.2 = ws ++ [UpdateMD d'] /\ md_RollbackTo (d_Spec d') = None /\
    cl_Name (sp_Class (tp_Spec (md_Template (d_Spec d')))) = "large".
Proof.
  assert (E : (run echo sample_rollback tt).2 = Return tt) by (vm_compute; reflexivity). split; [done|].
  destruct (rollback_clears sample_config sample_rollback_md
    [sample_hashed "a" "1" "large"; sample_hashed "b" "2" "small"] ∅ 1 (run echo sample_rollback tt).1.2)
    as (ws & d' & Hw & Hn & _); [reflexivity|rewrite <- E; apply run_exec|].
  exists ws, d'. split; [done|]. split; [done|].
  assert (Hl : last (writes (run echo sample_rollback tt).1.2) = Some (UpdateMD d')) by (rewrite Hw; apply last_snoc).
  vm_compute in Hl. injection Hl as <-. reflexivity.
Defined.

Definition sample_child : Machine :=
  m_set_Meta (set_OwnerReferences [NewControllerRef (sample_meta "a" "a") "MachineSet"]) (sample_machine "m" MachineRunning).

Lemma deleteMachine_never_enqueues_witness :
  (run echo (deleteMachineToMachineDeployment sample_child) tt).1.2 = [].
Proof.
  refine (proj1 (deleteMachine_never_enqueues sample_child (NewControllerRef (sample_meta "a" "a") "MachineSet") _ _ _ _
    (run_exec echo (deleteMachineToMachineDeployment sample_child) tt))); vm_compute; reflexivity.
Defined.

Lemma terminateMachineSets_complete_witness :
  writes (run echo (terminateMachineSets [sample_ms "a" 1 1; sample_ms "b" 2 2]) tt).1.2 ≡ₚ
    [DeleteMS "shoot" "a"; DeleteMS "shoot" "b"].
Proof.
  exact (proj2 (terminateMachineSets_complete _ _ _
    (run_exec echo (terminateMachineSets [sample_ms "a" 1 1; sample_ms "b" 2 2]) tt))).
Defined.

Lemma reconcile_guards_witness :
  (run echo (reconcileClusterMachineDeployment sample_config "shoot/md") tt).2 = Return tt.
Proof.
  destruct (reconcile_guards sample_config "shoot/md" _ _
    (run_exec echo (reconcileClusterMachineDeployment sample_config "shoot/md") tt)) as [[H _]|(name & x & h' & H & Hx)].
  - vm_compute in H. discriminate H.
  - vm_compute. reflexivity.
Defined.
