(* ===== verification/Expectations.v ===== *)
(** * Expectations of the machine set controller

    pkg/controller/controller_utils.go, [ContExpectations] and [UIDTrackingContExpectations]: counters of
    the creations and deletions a controller still waits for before it looks at its machines again.  The
    wrapper that tracks UIDs is written against the interface of the counters, as in the source. *)
From Stdlib Require Import ZArith Lia String.
From stdpp Require Import base gmap strings list.
From S2P Require Import Prelude GoLib Types DeploymentUtil.
Open Scope Z_scope.

Definition ExpectationsTimeout : Z := 5 * 60 * second.

(** ** The counters *)

Record ControlleeExpectations := mkExp { exp_add : Z; exp_del : Z; exp_timestamp : Z }.

Definition exp_Add (add del : Z) (e : ControlleeExpectations) : ControlleeExpectations :=
  mkExp (exp_add e +64 add) (exp_del e +64 del) (exp_timestamp e).
Definition Fulfilled (e : ControlleeExpectations) : bool := (exp_add e <=? 0) && (exp_del e <=? 0).
Definition isExpired (now : Z) (e : ControlleeExpectations) : bool := ExpectationsTimeout <? now - exp_timestamp e.

(** The interface the wrapper relies on; [pending] is the pair of [GetExpectations]. *)
Class ExpectationsInterface (S : Type) := {
  ei_Satisfied : Z -> S -> string -> bool;
  ei_Delete : S -> string -> S;
  ei_Set : Z -> S -> string -> Z -> Z -> S;
  ei_Lower : S -> string -> Z -> Z -> S;
  ei_Raise : S -> string -> Z -> Z -> S;
  ei_pending : S -> string -> option ControlleeExpectations }.

(** A local store keyed by the controller. *)
Definition ContExpectations := gmap string ControlleeExpectations.

Definition SatisfiedExpectations (now : Z) (r : ContExpectations) (key : string) : bool :=
  match r !! key with
  | Some e => if Fulfilled e then true else if isExpired now e then true else false
  | None => true
  end.
Definition DeleteExpectations (r : ContExpectations) (key : string) : ContExpectations := delete key r.
Definition SetExpectations (now : Z) (r : ContExpectations) (key : string) (add del : Z) : ContExpectations :=
  <[key := mkExp add del now]> r.
Definition LowerExpectations (r : ContExpectations) (key : string) (add del : Z) : ContExpectations :=
  alter (exp_Add (- add) (- del)) key r.
Definition RaiseExpectations (r : ContExpectations) (key : string) (add del : Z) : ContExpectations :=
  alter (exp_Add add del) key r.

#[export] Instance ContExpectations_interface : ExpectationsInterface ContExpectations := {
  ei_Satisfied := SatisfiedExpectations;
  ei_Delete := DeleteExpectations;
  ei_Set := SetExpectations;
  ei_Lower := LowerExpectations;
  ei_Raise := RaiseExpectations;
  ei_pending := fun r key => r !! key }.

(** What the wrapper may rely on. *)
Class ExpectationsLaws (S : Type) `{ExpectationsInterface S} : Prop := {
  el_satisfied : forall now s k,
    ei_Satisfied now s k = match ei_pending s k with Some e => Fulfilled e || isExpired now e | None => true end;
  el_delete : forall s k k', ei_pending (ei_Delete s k) k' = if bool_decide (k = k') then None else ei_pending s k';
  el_set : forall now s k a d k',
    ei_pending (ei_Set now s k a d) k' = if bool_decide (k = k') then Some (mkExp a d now) else ei_pending s k';
  el_lower : forall s k a d k',
    ei_pending (ei_Lower s k a d) k' =
      if bool_decide (k = k') then exp_Add (- a) (- d) <$> ei_pending s k' else ei_pending s k' }.

#[export] Instance ContExpectations_laws : ExpectationsLaws ContExpectations.
Proof.
  split; simpl; intros.
  - unfold SatisfiedExpectations. destruct (s !! k); [|done]. by destruct (Fulfilled _), (isExpired _ _).
  - unfold DeleteExpectations. case_bool_decide; [subst; apply lookup_delete_eq|by apply lookup_delete_ne].
  - unfold SetExpectations. case_bool_decide; [subst; apply lookup_insert_eq|by apply lookup_insert_ne].
  - unfold LowerExpectations. case_bool_decide; [subst; apply lookup_alter_eq|by apply lookup_alter_ne].
Qed.

(** ** Tracking of UIDs *)

Section tracking.
Context {S : Type} `{ExpectationsLaws S}.

Record UIDTracking := mkTracking { ut_counters : S; ut_uids : gmap string (gset string) }.

Definition GetUIDs (u : UIDTracking) (key : string) : gset string := default ∅ (ut_uids u !! key).

Definition ut_Satisfied (now : Z) (u : UIDTracking) (key : string) : bool := ei_Satisfied now (ut_counters u) key.

Definition ut_ExpectCreations (now : Z) (u : UIDTracking) (key : string) (adds : Z) : UIDTracking :=
  mkTracking (ei_Set now (ut_counters u) key adds 0) (ut_uids u).

Definition ut_ExpectDeletions (now : Z) (u : UIDTracking) (key : string) (deletedKeys : list string) : UIDTracking :=
  let expectedUIDs := sets_NewString deletedKeys in
  mkTracking (ei_Set now (ut_counters u) key 0 (Z.of_nat (size expectedUIDs))) (<[key := expectedUIDs]> (ut_uids u)).

Definition ut_CreationObserved (u : UIDTracking) (key : string) : UIDTracking :=
  mkTracking (ei_Lower (ut_counters u) key 1 0) (ut_uids u).

Definition ut_DeletionObserved (u : UIDTracking) (key deleteKey : string) : UIDTracking :=
  let uids := GetUIDs u key in
  if bool_decide (deleteKey ∈ uids)
  then mkTracking (ei_Lower (ut_counters u) key 0 1) (<[key := uids ∖ {[ deleteKey ]}]> (ut_uids u))
  else u.

Definition ut_DeleteExpectations (u : UIDTracking) (key : string) : UIDTracking :=
  mkTracking (ei_Delete (ut_counters u) key) (delete key (ut_uids u)).

(** ** Traces of operations, of all controllers *)

Inductive operation :=
  | OpExpectCreations (now : Z) (key : string) (adds : Z)
  | OpExpectDeletions (now : Z) (key : string) (deletedKeys : list string)
  | OpCreationObserved (key : string)
  | OpDeletionObserved (key deleteKey : string)
  | OpDelete (key : string).

Definition step (u : UIDTracking) (op : operation) : UIDTracking :=
  match op with
  | OpExpectCreations now k n => ut_ExpectCreations now u k n
  | OpExpectDeletions now k ds => ut_ExpectDeletions now u k ds
  | OpCreationObserved k => ut_CreationObserved u k
  | OpDeletionObserved k d => ut_DeletionObserved u k d
  | OpDelete k => ut_DeleteExpectations u k
  end.

Definition steps (u : UIDTracking) (tr : list operation) : UIDTracking := foldl step u tr.

(** The operation is an observation, or concerns another controller. *)
Definition leaves (k : string) (op : operation) : Prop :=
  match op with
  | OpExpectCreations _ k' _ | OpExpectDeletions _ k' _ | OpDelete k' => k' <> k
  | OpCreationObserved _ | OpDeletionObserved _ _ => True
  end.

Definition creations (k : string) (tr : list operation) : Z :=
  zsum (fun op => match op with OpCreationObserved k' => if bool_decide (k' = k) then 1 else 0 | _ => 0 end) tr.
Definition deletions (k : string) (tr : list operation) : gset string :=
  list_to_set (omap (fun op => match op with OpDeletionObserved k' d => if decide (k' = k) then Some d else None | _ => None end) tr).

Lemma pending_other u op k : leaves k op ->
  (match op with OpCreationObserved k'' | OpDeletionObserved k'' _ => k'' <> k | _ => True end) ->
  ei_pending (ut_counters (step u op)) k = ei_pending (ut_counters u) k /\ GetUIDs (step u op) k = GetUIDs u k.
Proof.
  unfold GetUIDs. destruct op as [now k1 n|now k1 ds|k1|k1 d|k1]; simpl; intros Hl Ho; unfold GetUIDs.
  - rewrite el_set, bool_decide_false by done. done.
  - rewrite el_set, bool_decide_false, lookup_insert_ne by done. done.
  - rewrite el_lower, bool_decide_false by done. done.
  - unfold ut_DeletionObserved. case_bool_decide; [|done]. simpl. rewrite el_lower, bool_decide_false, lookup_insert_ne by done. done.
  - rewrite el_delete, bool_decide_false, lookup_delete_ne by done. done.
Qed.

Lemma creations_snoc k tr op : creations k (tr ++ [op]) =
  creations k tr + match op with OpCreationObserved k' => if bool_decide (k' = k) then 1 else 0 | _ => 0 end.
Proof. unfold creations. rewrite zsum_app, zsum_cons, zsum_nil. lia. Qed.

Lemma creations_range k tr : 0 <= creations k tr <= Z.of_nat (length tr).
Proof.
  unfold creations. induction tr as [|op tr IH]; rewrite ?zsum_nil, ?zsum_cons; simpl; [lia|].
  destruct op; repeat case_bool_decide; lia.
Qed.

Lemma deletions_snoc k tr op : deletions k (tr ++ [op]) =
  deletions k tr ∪ match op with OpDeletionObserved k' d => if decide (k' = k) then {[ d ]} else ∅ | _ => ∅ end.
Proof. unfold deletions. rewrite omap_app, list_to_set_app_L. destruct op; csimpl; repeat case_decide; set_solver. Qed.

(** How many of the tracked UIDs have been observed. *)
Definition seen (u : UIDTracking) (k : string) (tr : list operation) : Z :=
  Z.of_nat (size (GetUIDs u k ∩ deletions k tr)).

Lemma seen_snoc u k tr op : seen u k (tr ++ [op]) = seen u k tr +
  match op with
  | OpDeletionObserved k' d => if bool_decide (k' = k /\ d ∈ GetUIDs u k ∖ deletions k tr) then 1 else 0
  | _ => 0 end.
Proof.
  unfold seen. rewrite deletions_snoc. destruct op as [| | |k' d|]; rewrite ?union_empty_r_L; [lia..| |lia].
  case_decide; [subst k'|by rewrite union_empty_r_L, bool_decide_false by naive_solver; lia].
  case_bool_decide as Hin.
  - destruct Hin as [_ Hin]. replace (GetUIDs u k ∩ (deletions k tr ∪ {[d]})) with ({[d]} ∪ GetUIDs u k ∩ deletions k tr) by set_solver.
    rewrite size_union, size_singleton by set_solver. lia.
  - replace (GetUIDs u k ∩ (deletions k tr ∪ {[d]})) with (GetUIDs u k ∩ deletions k tr); [lia|].
    assert (d ∉ GetUIDs u k \/ d ∈ deletions k tr) by (destruct (decide (d ∈ GetUIDs u k)), (decide (d ∈ deletions k tr)); set_solver).
    set_solver.
Qed.

Lemma seen_range u k tr : 0 <= seen u k tr <= Z.of_nat (length tr).
Proof.
  induction tr as [|op tr IH] using rev_ind.
  - unfold seen, deletions. simpl. rewrite intersection_empty_r_L, size_empty. lia.
  - rewrite seen_snoc, length_app. simpl. destruct op; repeat case_bool_decide; lia.
Qed.

(** The counters after a trace: creations are counted one by one, deletions once per tracked UID. *)
Lemma steps_pending u k a d t tr :
  ei_pending (ut_counters u) k = Some (mkExp a d t) -> Forall (leaves k) tr ->
  Z.abs a < 2 ^ 62 -> Z.abs d < 2 ^ 62 -> Z.of_nat (length tr) < 2 ^ 62 ->
  ei_pending (ut_counters (steps u tr)) k = Some (mkExp (a - creations k tr) (d - seen u k tr) t) /\
  GetUIDs (steps u tr) k = GetUIDs u k ∖ deletions k tr.
Proof.
  intros Hp HF Ha Hd Hl. induction tr as [|op tr IH] using rev_ind.
  { unfold seen, deletions, creations. simpl. rewrite zsum_nil, intersection_empty_r_L, size_empty, difference_empty_L, !Z.sub_0_r. done. }
  apply Forall_app in HF as [HF Hop]. rewrite Forall_singleton in Hop. rewrite length_app in Hl. simpl in Hl.
  destruct IH as [IH1 IH2]; [done|lia|]. unfold steps in *. rewrite foldl_app. simpl.
  set (v := foldl step u tr) in *. pose proof (creations_range k tr) as Hc. pose proof (seen_range u k tr) as Hs.
  rewrite creations_snoc, seen_snoc, deletions_snoc.
  assert (Hother : (match op with OpCreationObserved k'' | OpDeletionObserved k'' _ => k'' <> k | _ => True end) ->
    ei_pending (ut_counters (step v op)) k = Some (mkExp (a - creations k tr) (d - seen u k tr) t) /\
    GetUIDs (step v op) k = GetUIDs u k ∖ deletions k tr).
  { intros Ho. destruct (pending_other v op k Hop Ho) as [-> ->]. done. }
  destruct op as [| |k1|k1 d1|]; rewrite ?Z.add_0_r, ?union_empty_r_L; try (by apply Hother).
  - case_bool_decide; [subst k1|rewrite Z.add_0_r; by apply Hother]. simpl. split; [|exact IH2].
    rewrite el_lower, bool_decide_true, IH1 by done. simpl. unfold exp_Add. simpl.
    rewrite !wrap64_id by width. do 2 f_equal; lia.
  - destruct (decide (k1 = k)) as [->|]; [|rewrite union_empty_r_L, bool_decide_false, Z.add_0_r by naive_solver; by apply Hother].
    simpl. unfold ut_DeletionObserved. rewrite IH2. case_bool_decide as Hin; simpl.
    + rewrite bool_decide_true by done. split.
      * rewrite el_lower, bool_decide_true, IH1 by done. simpl. unfold exp_Add. simpl.
        rewrite !wrap64_id by width. do 2 f_equal; lia.
      * unfold GetUIDs. simpl. rewrite lookup_insert_eq. simpl. set_solver.
    + rewrite bool_decide_false by naive_solver. rewrite Z.add_0_r. split; [done|]. rewrite IH2. set_solver.
Qed.

Lemma sets_NewString_size (l : list string) : (size (sets_NewString l) <= length l)%nat.
Proof.
  unfold sets_NewString. induction l as [|x l IH]; [done|]. rewrite list_to_set_cons.
  rewrite size_union_alt, size_singleton. etransitivity; [|apply le_n_S, IH]. simpl. apply le_n_S, subseteq_size. set_solver.
Qed.

(** Deletions are tracked by key.  After a controller has recorded that it deletes the machines
    [ds], and after any sequence of observations and of operations of other controllers, its
    expectations are satisfied exactly when every one of these machines has been observed as deleted
    (repeated and unrelated notifications do not count), or the timeout has passed. *)
Theorem deletions_tracked u k ds t tr now : Forall (leaves k) tr ->
  Z.of_nat (length ds) < 2 ^ 62 -> Z.of_nat (length tr) < 2 ^ 62 ->
  ut_Satisfied now (steps (ut_ExpectDeletions t u k ds) tr) k = true <->
  (forall x, x ∈ ds -> x ∈ deletions k tr) \/ ExpectationsTimeout < now - t.
Proof.
  intros HF Hd Hl. set (u0 := ut_ExpectDeletions t u k ds).
  assert (Hu : GetUIDs u0 k = sets_NewString ds) by (unfold GetUIDs; simpl; by rewrite lookup_insert_eq).
  assert (Hsz : (size (sets_NewString ds) <= length ds)%nat) by apply sets_NewString_size.
  destruct (steps_pending u0 k 0 (Z.of_nat (size (sets_NewString ds))) t tr) as [Hp _]; [|done|lia|lia|done|].
  { simpl. by rewrite el_set, bool_decide_true. }
  unfold ut_Satisfied. rewrite el_satisfied, Hp. unfold Fulfilled, isExpired. simpl.
  pose proof (creations_range k tr). unfold seen. rewrite Hu.
  rewrite orb_true_iff, andb_true_iff, Z.ltb_lt, !Z.leb_le.
  assert (Hiff : (size (sets_NewString ds) <= size (sets_NewString ds ∩ deletions k tr))%nat <-> forall x, x ∈ ds -> x ∈ deletions k tr).
  { split.
    - intros Hle x Hx. assert (sets_NewString ds ∩ deletions k tr = sets_NewString ds) as E.
      { apply leibniz_equiv, set_subseteq_size_equiv; [set_solver|lia]. }
      unfold sets_NewString in *. set_solver.
    - intros Hall. apply subseteq_size. unfold sets_NewString. set_solver. }
  rewrite <- Hiff. lia.
Qed.

(** Creations are counted.  After a controller has recorded that it creates [n] machines, its
    expectations are satisfied exactly when [n] creations have been observed or the timeout has passed,
    whatever deletions it was waiting for before. *)
Theorem creations_counted u k n t tr now : Forall (leaves k) tr -> 0 <= n < 2 ^ 62 ->
  Z.of_nat (length tr) < 2 ^ 62 ->
  ut_Satisfied now (steps (ut_ExpectCreations t u k n) tr) k = true <->
  n <= creations k tr \/ ExpectationsTimeout < now - t.
Proof.
  intros HF Hn Hl. destruct (steps_pending (ut_ExpectCreations t u k n) k n 0 t tr) as [Hp _]; [|done|lia|lia|done|].
  { simpl. by rewrite el_set, bool_decide_true. }
  unfold ut_Satisfied. rewrite el_satisfied, Hp. unfold Fulfilled, isExpired. simpl.
  pose proof (seen_range (ut_ExpectCreations t u k n) k tr).
  rewrite orb_true_iff, andb_true_iff, Z.ltb_lt, !Z.leb_le. lia.
Qed.
End tracking.

Definition no_expectations : UIDTracking (S := ContExpectations) := mkTracking ∅ ∅.

(** Two machines are to go; the same notification twice is not enough. *)
Definition sample_trace : list operation :=
  [OpDeletionObserved "ms" "a"; OpCreationObserved "other"; OpDeletionObserved "ms" "a"].

Lemma deletions_tracked_witness :
  ut_Satisfied 100 (steps (ut_ExpectDeletions 0 no_expectations "ms" ["a"; "b"]) sample_trace) "ms" = false /\
  ut_Satisfied 100 (steps (ut_ExpectDeletions 0 no_expectations "ms" ["a"; "b"])
    (sample_trace ++ [OpDeletionObserved "ms" "b"])) "ms" = true.
Proof.
  split; [vm_compute; reflexivity|].
  apply (deletions_tracked no_expectations "ms" ["a"; "b"] 0 (sample_trace ++ [OpDeletionObserved "ms" "b"]) 100).
  - repeat constructor.
  - vm_compute. reflexivity.
  - vm_compute. reflexivity.
  - left. intros x Hx. apply (bool_decide_unpack (x ∈ _)). repeat (apply elem_of_cons in Hx as [->|Hx]; [vm_compute; exact I|]).
    by apply not_elem_of_nil in Hx.
Defined.

Lemma creations_counted_witness :
  ut_Satisfied 100 (steps (ut_ExpectCreations 0 no_expectations "ms" 1) [OpCreationObserved "ms"]) "ms" = true.
Proof.
  apply (creations_counted no_expectations "ms" 1 0 [OpCreationObserved "ms"] 100).
  - repeat constructor.
  - lia.
  - vm_compute. reflexivity.
  - left. vm_compute. discriminate.
Defined.
