(* ===== verification/MachineSetController.v ===== *)
(** * The machine set controller

    pkg/controller/machineset.go, deployment_machineset_util.go, the machine part of machineset_util.go and
    [RealMachineControl] of controller_utils.go. *)
From Stdlib Require Import ZArith Lia Ascii String.
From stdpp Require Import base gmap strings list sorting.
From S2P Require Import Prelude GoLib Types Labels MachineSets DeploymentUtil Prog Samples NodeOps RefManager.
From S2P Require Import DeploymentSync Rollout Validation DeploymentController Expectations.
Open Scope Z_scope.

Definition BurstReplicas : Z := 100.
Definition statusUpdateRetries : nat := 1.
Definition SlowStartInitialBatchSize : Z := 1.

(** ** Event handlers *)

Definition resolveMachineSetControllerRef (ns : string) (ref : OwnerReference) : prog (option MachineSet) :=
  if bool_decide (or_Kind ref <> "MachineSet") then Ret None
  else
    let! r := call_try (ListerGetMS ns (or_Name ref)) in
    Ret (match r with
         | Err _ => None
         | Ok ms => if bool_decide (is_UID ms <> or_UID ref) then None else Some ms
         end).

(** The machine sets of the machine's namespace that select it; an invalid selector spoils all. *)
Definition matching_machine_sets (machine : Machine) (l : list MachineSet) : option (list MachineSet) :=
  let l := filter (fun ms => Namespace (is_Meta ms) = Namespace (m_Meta machine)) l in
  match mapM (fun ms => LabelSelectorAsSelector (ms_Selector (is_Spec ms))) l with
  | None => None
  | Some sels => Some (fst <$> filter (fun p => negb (sel_Empty p.2) && sel_Matches p.2 (Labels (m_Meta machine)) = true) (zip l sels))
  end.

Definition getMachineMachineSets (machine : Machine) : prog (list MachineSet) :=
  if bool_decide (Labels (m_Meta machine) = ∅) then Throw (Errorf "No MachineSets found for machine because it has no labels")
  else
    let! l := call ListerMachineSets in
    match matching_machine_sets machine l with
    | None => Throw (Errorf "Invalid selector")
    | Some [] => Throw (Errorf "No MachineSets found for machine doesn't have matching labels")
    | Some machineSets => Ret machineSets
    end.

Definition enqueueMachineSet (ms : MachineSet) : prog unit := call_ignore (EnqueueMachineSet (KeyFunc (is_Meta ms))).
Definition enqueueMachineSetAfter (ms : MachineSet) (after : Z) : prog unit :=
  call_ignore (EnqueueMachineSetAfter (KeyFunc (is_Meta ms)) after).

Definition machineSetUpdate (old cur : MachineSet) : prog unit := enqueueMachineSet cur.

Definition enqueue_matching (machine : Machine) : prog unit :=
  let! r := attempt (getMachineMachineSets machine) in
  match r with Err _ => Ret tt | Ok machineSets => for_each machineSets enqueueMachineSet end.

Definition deleteMachineToMachineSet (machine : Machine) : prog unit :=
  match GetControllerOf (m_Meta machine) with
  | None => Ret tt
  | Some ref =>
      let! o := resolveMachineSetControllerRef (Namespace (m_Meta machine)) ref in
      match o with
      | None => Ret tt
      | Some ms => do! call_ignore (DeletionObserved (KeyFunc (is_Meta ms)) (MachineKey machine)) in enqueueMachineSet ms
      end
  end.

Definition addMachineToMachineSet (machine : Machine) : prog unit :=
  if bool_decide (DeletionTimestamp (m_Meta machine) <> None) then deleteMachineToMachineSet machine
  else match GetControllerOf (m_Meta machine) with
       | Some ref =>
           let! o := resolveMachineSetControllerRef (Namespace (m_Meta machine)) ref in
           match o with
           | None => Ret tt
           | Some ms => do! call_ignore (CreationObserved (KeyFunc (is_Meta ms))) in enqueueMachineSet ms
           end
       | None => enqueue_matching machine
       end.

Definition enqueue_set_owner (ns : string) (ref : OwnerReference) : prog unit :=
  let! o := resolveMachineSetControllerRef ns ref in
  match o with Some ms => enqueueMachineSet ms | None => Ret tt end.

Definition updateMachineToMachineSet (old cur : Machine) : prog unit :=
  if bool_decide (ResourceVersion (m_Meta cur) = ResourceVersion (m_Meta old)) then Ret tt
  else
    let labelChanged := negb (bool_decide (Labels (m_Meta cur) = Labels (m_Meta old))) in
    if bool_decide (DeletionTimestamp (m_Meta cur) <> None) then
      do! deleteMachineToMachineSet cur in
      if labelChanged then deleteMachineToMachineSet old else Ret tt
    else
      let curRef := GetControllerOf (m_Meta cur) in
      let oldRef := GetControllerOf (m_Meta old) in
      let controllerRefChanged := negb (bool_decide (curRef = oldRef)) in
      do! (match oldRef with
           | Some ref => if controllerRefChanged then enqueue_set_owner (Namespace (m_Meta old)) ref else Ret tt
           | None => Ret tt
           end) in
      match curRef with
      | Some ref => enqueue_set_owner (Namespace (m_Meta cur)) ref
      | None => if labelChanged || controllerRefChanged then enqueue_matching cur else Ret tt
      end.

(** ** Creating machines *)

Definition validateControllerRef (ref : OwnerReference) : option error :=
  if bool_decide (or_APIVersion ref = EmptyString) then Some (Errorf "controllerRef has empty APIVersion")
  else if bool_decide (or_Kind ref = EmptyString) then Some (Errorf "controllerRef has empty Kind")
  else if bool_decide (or_Controller ref <> Some true) then Some (Errorf "controllerRef.Controller is not set to true")
  else if bool_decide (or_BlockOwnerDeletion ref <> Some true) then Some (Errorf "controllerRef.BlockOwnerDeletion is not set")
  else None.

(** The dash is used if the name stays a DNS subdomain; the check replaces the last two characters. *)
Definition maskTrailingDash (name : string) : string := String.substring 0 (String.length name - 2) name +:+ "a".
Definition getMachinesPrefix (controllerName : string) : string :=
  let prefix := controllerName +:+ "-" in
  if IsDNS1123Subdomain (maskTrailingDash prefix) then prefix else controllerName.

Definition GetMachineFromTemplate (template : MachineTemplateSpec) (parent : ObjectMeta) (ref : OwnerReference) : Machine :=
  mkMachine (mkMeta "" (getMachinesPrefix (Name parent)) "" "" "" 0 zero_time None
               (Labels (tp_Meta template)) (Annotations (tp_Meta template)) [ref] (Finalizers (tp_Meta template)))
    (tp_Spec template) zero_machine_status.

(** The API server puts the new machine into the namespace of the call. *)
Definition m_in_namespace (ns : string) (m : Machine) : Machine :=
  m_set_Meta (fun m => mkMeta (Name m) (GenerateName m) ns (UID m) (ResourceVersion m) (Generation m)
    (CreationTimestamp m) (DeletionTimestamp m) (Labels m) (Annotations m) (OwnerReferences m) (Finalizers m)) m.

Definition createMachines (ns : string) (template : MachineTemplateSpec) (parent : ObjectMeta) (ref : OwnerReference) : prog unit :=
  let machine := GetMachineFromTemplate template parent ref in
  if sel_Empty (AsSelectorPreValidated (Labels (m_Meta machine))) then Throw (Errorf "unable to create machines, no labels")
  else do! call (CreateMachine (m_in_namespace ns machine)) in Ret tt.

Definition CreateMachinesWithControllerRef (ns : string) (template : MachineTemplateSpec) (parent : ObjectMeta)
    (ref : OwnerReference) : prog unit :=
  match validateControllerRef ref with
  | Some e => Throw e
  | None => createMachines ns template parent ref
  end.

(** The error is wrapped. *)
Definition DeleteMachine (ns machineID : string) : prog unit :=
  let! r := call_try (DeleteMachineReq ns machineID) in
  match r with Ok _ => Ret tt | Err e => Throw (Errorf ("unable to delete machines: " +:+ err_msg e)) end.

(** What [slowStartBatch] calls: a timed out creation counts as done. *)
Definition create_one (ms : MachineSet) : prog unit :=
  let! r := attempt (CreateMachinesWithControllerRef (Namespace (is_Meta ms)) (ms_Template (is_Spec ms)) (is_Meta ms)
                       (NewControllerRef (is_Meta ms) "MachineSet")) in
  match r with
  | Ok _ => Ret tt
  | Err e => if IsTimeout e then Ret tt else Throw e
  end.

(** ** Slow start *)

Definition failures (l : list (result unit)) : list error :=
  omap (fun r => match r with Err e => Some e | Ok _ => None end) l.

(** The first error to arrive in the channel is one of them. *)
Fixpoint pick_error (e : error) (l : list error) : prog error :=
  match l with
  | [] => Ret e
  | e' :: l' => Call Schedule (fun x => match x with Ok true => Ret e | _ => pick_error e' l' end)
  end.

(** The loop: successes so far, calls left and the size of the next batch. *)
Fixpoint slow_start_loop (fuel : nat) (fn : prog unit) (remaining batchSize successes : Z) : prog (Z * option error) :=
  if batchSize <=? 0 then Ret (successes, None)
  else match fuel with
       | O => Starve
       | S fuel =>
           let! results := par_list (replicate (Z.to_nat batchSize) (attempt fn)) in
           let errs := failures results in
           let successes := successes + (batchSize - Z.of_nat (length errs)) in
           match errs with
           | e :: l => let! e := pick_error e l in Ret (successes, Some e)
           | [] =>
               let remaining := remaining - batchSize in
               slow_start_loop fuel fn remaining (IntMin (2 * batchSize) remaining) successes
           end
       end.

(** Every batch takes at least one call off: [count] rounds are enough. *)
Definition slowStartBatch (count initialBatchSize : Z) (fn : prog unit) : prog (Z * option error) :=
  slow_start_loop (Z.to_nat count) fn count (IntMin count initialBatchSize) 0.

(** ** Deleting machines *)

Definition thirty_minutes : Z := 30 * minute.

Definition lo_forget (lo : LastOperation) : LastOperation := mkLastOp "" zero_time (lo_State lo) (lo_Type lo).
Definition cs_forget (cs : CurrentStatus) : CurrentStatus := mkCurStatus (cs_Phase cs) (cs_TimeoutActive cs) zero_time.

(** Older than the tolerance, by the clock of the moment; the second time is only looked at if the
    first one is recent. *)
Definition either_old (t1 t2 : Z) : prog bool :=
  let! n1 := now in
  if t1 <? n1 - thirty_minutes then Ret true
  else let! n2 := now in Ret (t2 <? n2 - thirty_minutes).

Definition isMachineStatusEqual (s1 s2 : MachineStatus) : prog bool :=
  let! o := either_old (lo_LastUpdateTime (st_LastOperation s1)) (lo_LastUpdateTime (st_LastOperation s2)) in
  if (o : bool) then Ret false
  else
    let! o := either_old (cs_LastUpdateTime (st_CurrentStatus s1)) (cs_LastUpdateTime (st_CurrentStatus s2)) in
    if (o : bool) then Ret false
    else Ret (bool_decide (lo_forget (st_LastOperation s1) = lo_forget (st_LastOperation s2) /\
                           cs_forget (st_CurrentStatus s1) = cs_forget (st_CurrentStatus s2))).

(** Retries until an update goes through: the source has no bound. *)
Fixpoint updateMachineStatus (rounds : nat) (machine : Machine) (lastOperation : LastOperation)
    (currentStatus : CurrentStatus) : prog Machine :=
  match rounds with
  | O => Starve
  | S rounds =>
      let! latest := call (GetMachine (Namespace (m_Meta machine)) (m_Name machine)) in
      let s := m_Status latest in
      let clone := m_set_Status (mkMachineStatus (st_Node s) (st_Conditions s) lastOperation currentStatus
                                   (st_LastKnownState s)) latest in
      let! same := isMachineStatusEqual (m_Status clone) (m_Status machine) in
      if (same : bool) then Ret machine
      else
        let! u := call_try (UpdateStatusMachine clone) in
        match u with
        | Ok m => Ret m
        | Err _ => updateMachineStatus rounds machine lastOperation currentStatus
        end
  end.

(** The error sent to the channel, if any. *)
Definition prepareMachineForDeletion (cfg : Config) (targetMachine : Machine) (ms : MachineSet) : prog (option error) :=
  if bool_decide (DeletionTimestamp (m_Meta targetMachine) <> None) then Ret None
  else
    let! r := attempt (DeleteMachine (Namespace (m_Meta targetMachine)) (m_Name targetMachine)) in
    do! (match r with
         | Err _ => call_ignore (DeletionObserved (KeyFunc (is_Meta ms)) (MachineKey targetMachine))
         | Ok _ => Ret tt
         end) in
    let! t1 := now in
    let! t2 := now in
    do! attempt (updateMachineStatus (cfg_retry_rounds cfg) targetMachine
      (mkLastOp "Deleting machine from cloud provider" t1 "Processing" "Delete")
      (mkCurStatus MachineTerminating false t2)) in
    Ret (match r with Err e => Some e | Ok _ => None end).

(** One goroutine per machine; the callers ignore the result. *)
Definition terminateMachines (cfg : Config) (machines : list Machine) (ms : MachineSet) : prog (list (option error)) :=
  par_list ((fun m => prepareMachineForDeletion cfg m ms) <$> machines).

Definition getMachineKeys (machines : list Machine) : list string := MachineKey <$> machines.

(** ** Copying the template onto the machines *)

Definition copyMachineSetNodeTemplatesToMachines (ms : MachineSet) (machine : Machine) : option Machine :=
  let t := sp_NodeTemplateSpec (tp_Spec (ms_Template (is_Spec ms))) in
  if bool_decide (t = sp_NodeTemplateSpec (m_Spec machine)) then None
  else Some (m_set_Spec (sp_set_NodeTemplate t) machine).

Definition copyMachineSetConfigToMachines (ms : MachineSet) (machine : Machine) : option Machine :=
  let c := sp_MachineConfiguration (tp_Spec (ms_Template (is_Spec ms))) in
  if bool_decide (c = sp_MachineConfiguration (m_Spec machine)) then None
  else Some (m_set_Spec (sp_set_Config c) machine).

Definition copyMachineSetClassKindToMachines (ms : MachineSet) (machine : Machine) : option Machine :=
  let k := cl_Kind (sp_Class (tp_Spec (ms_Template (is_Spec ms)))) in
  if bool_decide (k = cl_Kind (sp_Class (m_Spec machine))) then None
  else Some (m_set_Spec (sp_set_Kind k) machine).

(** The copy is made on the machine in the cache; the update then sends whatever machine the cache has.
    The machines of the caller are those of the cache: the changed list is returned. *)
Definition sync_machines (copy : MachineSet -> Machine -> option Machine) (skip : Machine -> bool)
    (machineList : list Machine) (ms : MachineSet) : prog (list Machine) :=
  for_fold machineList [] (fun acc machine =>
    if skip machine then Ret (acc ++ [machine])
    else match copy ms machine with
         | None => Ret (acc ++ [machine])
         | Some machine =>
             do! call_ignore (MutateCachedMachine machine) in
             let! r := UpdateMachineWithRetries DefaultBackoff (Namespace (m_Meta machine)) (m_Name machine) Some in
             match r.2 with
             | Some e => Throw (Errorf ("error in updating machine: " +:+ err_msg e))
             | None => Ret (acc ++ [machine])
             end
         end).

Definition inactive (m : Machine) : bool := negb (IsMachineActive m).
Definition syncMachinesNodeTemplates := sync_machines copyMachineSetNodeTemplatesToMachines inactive.
Definition syncMachinesConfig := sync_machines copyMachineSetConfigToMachines inactive.
Definition syncMachinesClassKind := sync_machines copyMachineSetClassKindToMachines (fun _ => false).

(** ** Status *)

Definition isMachineAvailable (m : Machine) : bool :=
  bool_decide (m_Phase m = MachineAvailable) || bool_decide (m_Phase m = MachineRunning).
Definition isMachineReady (m : Machine) : bool := bool_decide (m_Phase m = MachineRunning).

Definition NewMachineSetCondition (t : Z) (condType status reason msg : string) : MachineSetCondition :=
  mkMSCond condType status t reason msg.
Definition GetCondition (status : MachineSetStatus) (condType : string) : option MachineSetCondition :=
  head (filter (fun c => sc_Type c = condType) (mss_Conditions status)).
Definition filterOutMachineSetCondition (l : list MachineSetCondition) (condType : string) : list MachineSetCondition :=
  filter (fun c => sc_Type c <> condType) l.
Definition SetCondition (status : MachineSetStatus) (c : MachineSetCondition) : MachineSetStatus :=
  match GetCondition status (sc_Type c) with
  | Some cur =>
      if bool_decide (sc_Status cur = sc_Status c /\ sc_Reason cur = sc_Reason c) then status
      else mss_set_Conditions (filterOutMachineSetCondition (mss_Conditions status) (sc_Type c) ++ [c]) status
  | None => mss_set_Conditions (filterOutMachineSetCondition (mss_Conditions status) (sc_Type c) ++ [c]) status
  end.
Definition RemoveCondition (status : MachineSetStatus) (condType : string) : MachineSetStatus :=
  mss_set_Conditions (filterOutMachineSetCondition (mss_Conditions status) condType) status.

(** The variable [machineSummary] outlives the iteration: a failed machine without a controller keeps
    the owner of the failed machine before it. *)
Definition summary_step (acc : MachineSummary * list MachineSummary) (m : Machine) : MachineSummary * list MachineSummary :=
  let '(summary, failed) := acc in
  if bool_decide (lo_State (st_LastOperation (m_Status m)) = MachineStateFailed) then
    let owner := match GetControllerOf (m_Meta m) with Some c => or_Name c | None => sm_OwnerRef summary end in
    let summary := mkSummary (m_Name m) (sp_ProviderID (m_Spec m)) (st_LastOperation (m_Status m)) owner in
    (summary, failed ++ [summary])
  else (summary, failed).

Definition failed_summaries (machines : list Machine) : list MachineSummary :=
  (foldl summary_step (zero_summary, []) machines).2.

Definition count_if (p : Machine -> bool) (l : list Machine) : Z := Z.of_nat (length (filter (fun m => p m = true) l)).

Definition failure_condition (t : Z) (ms : MachineSet) (filtered : Z) (e : error) : MachineSetCondition :=
  let diff := filtered - is_Replicas ms in
  NewMachineSetCondition t MachineSetReplicaFailure ConditionTrue
    (if diff <? 0 then "FailedCreate" else if 0 <? diff then "FailedDelete" else "") (err_msg e).

(** [t1] is the clock of the condition, [t2] that of the last operation. *)
Definition calculateMachineSetStatus (t1 t2 : Z) (ms : MachineSet) (filteredMachines : list Machine)
    (manageReplicasErr : option error) : MachineSetStatus :=
  let old := is_Status ms in
  let templateLabel := AsSelectorPreValidated (Labels (tp_Meta (ms_Template (is_Spec ms)))) in
  let fullyLabeled := count_if (fun m => sel_Matches templateLabel (Labels (m_Meta m))) filteredMachines in
  let available := count_if isMachineAvailable filteredMachines in
  let ready := count_if (fun m => isMachineAvailable m && isMachineReady m) filteredMachines in
  let failed := failed_summaries filteredMachines in
  let st :=
    if bool_decide (failed <> []) then mss_set_FailedMachines (Some failed) old
    else if wrap32 ready =? mss_Replicas old then mss_set_FailedMachines None old else old in
  let failureCond := GetCondition old MachineSetReplicaFailure in
  let st :=
    match manageReplicasErr, failureCond with
    | Some e, None => SetCondition st (failure_condition t1 ms (Z.of_nat (length filteredMachines)) e)
    | None, Some _ => RemoveCondition st MachineSetReplicaFailure
    | _, _ => st
    end in
  let lo := mss_LastOperation st in
  mkMSStatus (wrap32 (Z.of_nat (length filteredMachines))) (wrap32 fullyLabeled) (wrap32 ready) (wrap32 available)
    (mss_ObservedGeneration st) (mss_Conditions st) (mkLastOp (lo_Description lo) t2 (lo_State lo) (lo_Type lo))
    (mss_FailedMachines st).

(** One update and, if it fails, a fetch and another one. *)
Fixpoint status_update_loop (retries : nat) (ns : string) (ms : MachineSet) (newStatus : MachineSetStatus) : prog MachineSet :=
  let! u := call_try (UpdateStatusMS (is_set_Status newStatus ms)) in
  match u with
  | Ok updated => Ret updated
  | Err e =>
      match retries with
      | O => Throw e
      | S retries =>
          let! fresh := call (GetMS ns (is_Name ms)) in
          status_update_loop retries ns fresh newStatus
      end
  end.

Definition updateMachineSetStatus (ms : MachineSet) (newStatus : MachineSetStatus) : prog MachineSet :=
  let old := is_Status ms in
  if bool_decide (mss_Replicas old = mss_Replicas newStatus /\
       mss_FullyLabeledReplicas old = mss_FullyLabeledReplicas newStatus /\
       mss_ReadyReplicas old = mss_ReadyReplicas newStatus /\
       mss_AvailableReplicas old = mss_AvailableReplicas newStatus /\
       Generation (is_Meta ms) = mss_ObservedGeneration old /\
       mss_Conditions old = mss_Conditions newStatus /\ mss_FailedMachines old = mss_FailedMachines newStatus)
  then Ret ms
  else status_update_loop statusUpdateRetries (Namespace (is_Meta ms)) ms (mss_set_ObservedGeneration (Generation (is_Meta ms)) newStatus).

(** ** Finalizers *)

(** Retries until an update goes through: the source has no bound. *)
Fixpoint updateMachineSetFinalizers (rounds : nat) (ns name : string) (finalizers : list string) : prog unit :=
  match rounds with
  | O => Starve
  | S rounds =>
      let! g := call_try (GetMS ns name) in
      match g with
      | Err _ => Ret tt
      | Ok ms =>
          let! u := call_try (UpdateMS (is_set_Meta (set_Finalizers finalizers) ms)) in
          match u with
          | Ok _ => Ret tt
          | Err _ => updateMachineSetFinalizers rounds (Namespace (is_Meta ms)) (is_Name ms) finalizers
          end
      end
  end.

Definition addMachineSetFinalizers (cfg : Config) (ms : MachineSet) : prog unit :=
  let finalizers := sets_NewString (Finalizers (is_Meta ms)) in
  if bool_decide (DeleteFinalizerName ∈ finalizers) then Ret tt
  else updateMachineSetFinalizers (cfg_retry_rounds cfg) (Namespace (is_Meta ms)) (is_Name ms)
         (sets_List ({[ DeleteFinalizerName ]} ∪ finalizers)).

Definition deleteMachineSetFinalizers (cfg : Config) (ms : MachineSet) : prog unit :=
  let finalizers := sets_NewString (Finalizers (is_Meta ms)) in
  if bool_decide (DeleteFinalizerName ∈ finalizers)
  then updateMachineSetFinalizers (cfg_retry_rounds cfg) (Namespace (is_Meta ms)) (is_Name ms)
         (sets_List (finalizers ∖ {[ DeleteFinalizerName ]}))
  else Ret tt.

Section machineset.
Context `{GoSort}.

Definition getMachinesToDelete (filteredMachines : list Machine) (diff : Z) : list Machine :=
  take (Z.to_nat diff)
    (if diff <? Z.of_nat (length filteredMachines) then gosort ActiveMachines_Less filteredMachines else filteredMachines).

(** ** Replicas *)

Definition frozen (ms : MachineSet) : bool :=
  bool_decide (mget (Labels (is_Meta ms)) "freeze" = "True") && bool_decide (DeletionTimestamp (is_Meta ms) = None).

(** Too few machines. *)
Definition scale_up (ms : MachineSet) (diff : Z) : prog (option error) :=
  let key := KeyFunc (is_Meta ms) in
  do! call_ignore (ExpectCreations key diff) in
  let! r := slowStartBatch diff SlowStartInitialBatchSize (create_one ms) in
  let '(successfulCreations, err) := r in
  do! for_each (replicate (Z.to_nat (diff - successfulCreations)) tt) (fun _ => call_ignore (CreationObserved key)) in
  Ret err.

Definition manageReplicas (cfg : Config) (allMachines : list Machine) (ms : MachineSet) : prog (option error) :=
  let activeMachines := filter (fun m => IsMachineActive m = true) allMachines in
  let staleMachines := filter (fun m => IsMachineActive m = false /\ IsMachineFailed m = true) allMachines in
  do! terminateMachines cfg staleMachines ms in
  let diff := Z.of_nat (length activeMachines) - is_Replicas ms in
  if diff <? 0 then
    if frozen ms then Ret None
    else scale_up ms (if BurstReplicas <? - diff then BurstReplicas else - diff)
  else if 0 <? diff then
    let machinesToDelete := getMachinesToDelete activeMachines (if BurstReplicas <? diff then BurstReplicas else diff) in
    do! call_ignore (ExpectDeletions (KeyFunc (is_Meta ms)) (getMachineKeys machinesToDelete)) in
    do! terminateMachines cfg machinesToDelete ms in
    Ret None
  else Ret None.

(** ** Reconcile *)

(** A machine set that is being deleted. *)
Definition delete_machineset (cfg : Config) (machines : list Machine) (ms : MachineSet) : prog unit :=
  if bool_decide (machines = []) then deleteMachineSetFinalizers cfg ms
  else if bool_decide (DeleteFinalizerName ∈ sets_NewString (Finalizers (is_Meta ms)))
  then do! terminateMachines cfg machines ms in Ret tt
  else Ret tt.

(** The machines of the set, with the template copied onto them. *)
Definition claimed_and_synced (ms : MachineSet) (selector : Selector) : prog (list Machine) :=
  let! machines := call ListerMachines in
  let! machines := claimMachines ms selector machines in
  let! machines := syncMachinesNodeTemplates machines ms in
  let! machines := syncMachinesConfig machines ms in
  syncMachinesClassKind machines ms.

Definition reconcile_machines (cfg : Config) (machines : list Machine) (ms : MachineSet) : prog unit :=
  let! err := (if bool_decide (DeletionTimestamp (is_Meta ms) = None) then manageReplicas cfg machines ms
               else do! delete_machineset cfg machines ms in Ret None) in
  let! t1 := now in
  let! t2 := now in
  let! updated := updateMachineSetStatus ms (calculateMachineSetStatus t1 t2 ms machines err) in
  do! enqueueMachineSetAfter updated (10 * minute) in
  match err with Some e => Throw e | None => Ret tt end.

Definition reconcileClusterMachineSet (cfg : Config) (key : string) : prog unit :=
  let! name := or_throw (match split "/" key with [n] | [_; n] => Some n | _ => None end) "unexpected key format" in
  let! r := call_try (GetMS (cfg_namespace cfg) name) in
  match r with
  | Err e => if IsNotFound e then call_ignore (Prog.DeleteExpectations key) else Throw e
  | Ok ms =>
      let! errs := deref (ValidateMachineSet ms) in
      match errs with
      | _ :: _ => Ret tt
      | [] =>
          do! (if bool_decide (DeletionTimestamp (is_Meta ms) = None) then addMachineSetFinalizers cfg ms else Ret tt) in
          match LabelSelectorAsSelector (ms_Selector (is_Spec ms)) with
          | None => Ret tt
          | Some selector =>
              let! machines := claimed_and_synced ms selector in
              reconcile_machines cfg machines ms
          end
      end
  end.
End machineset.

(** ** Which machines go *)

(** The phases in the order in which machines in them are given up; a phase that is not listed comes
    first, with the first one. *)
Definition phases_given_up : list string :=
  [MachineTerminating; MachineFailed; MachineCrashLoopBackOff; MachineUnknown; MachinePending; MachineAvailable; MachineRunning].
Definition phase_rank (phase : string) : nat :=
  match list_find (fun q => q = phase) phases_given_up with Some (i, _) => i | None => 0 end.

(** The number of the annotation, and 3 without one or when it is no number. *)
Definition annotated_priority (m : Machine) : Z := default 3 (Annotations (m_Meta m) !! MachinePriority ≫= Atoi).

(** What counts: first the annotation, among equals the phase, among equals the age. *)
Definition given_up_no_later (goes stays : Machine) : Prop :=
  annotated_priority goes < annotated_priority stays \/
  (annotated_priority goes = annotated_priority stays /\
   ((phase_rank (m_Phase goes) < phase_rank (m_Phase stays))%nat \/
    (phase_rank (m_Phase goes) = phase_rank (m_Phase stays) /\ CreationTimestamp (m_Meta goes) <= CreationTimestamp (m_Meta stays)))).

Lemma machine_priority_annotated m : machine_priority m = annotated_priority m.
Proof.
  unfold machine_priority, annotated_priority, mget. destruct (Annotations (m_Meta m) !! MachinePriority) as [s|]; [|done]. simpl.
  case_bool_decide; [by subst|done].
Qed.

Lemma phase_priority_rank p : phase_priority p = Z.of_nat (phase_rank p).
Proof.
  unfold phase_priority, phase_rank, phases_given_up. repeat case_bool_decide; subst; try reflexivity.
  simpl. by repeat (rewrite decide_False by done; simpl).
Qed.

(** [ActiveMachines] compares as the specification does. *)
Lemma ActiveMachines_Less_spec a b : ActiveMachines_Less b a = false <-> given_up_no_later a b.
Proof.
  unfold ActiveMachines_Less, given_up_no_later. rewrite !machine_priority_annotated, !phase_priority_rank. repeat case_goal; lia.
Qed.

Section deletion_choice.
Context `{GoSort}.

(** C37: the machines chosen for deletion are as many as asked for, they come from the given machines,
    and none of them has a higher priority annotation than a machine that stays, nor, with the same
    priority, a healthier phase, nor, in the same phase, is younger. *)
Theorem getMachinesToDelete_spec l diff : 0 <= diff <= Z.of_nat (length l) ->
  Z.of_nat (length (getMachinesToDelete l diff)) = diff /\
  exists keep, getMachinesToDelete l diff ++ keep ≡ₚ l /\
    forall stays goes, stays ∈ keep -> goes ∈ getMachinesToDelete l diff -> given_up_no_later goes stays.
Proof.
  intros Hd. unfold getMachinesToDelete. destruct (Z.ltb_spec diff (Z.of_nat (length l))) as [Hlt|Hge].
  - set (s := gosort ActiveMachines_Less l). assert (Hp : s ≡ₚ l) by apply gosort_perm.
    split; [rewrite length_take, Hp; lia|]. exists (drop (Z.to_nat diff) s). rewrite take_drop. split; [done|].
    intros x y Hx Hy. apply ActiveMachines_Less_spec.
    eapply (sorted_by_app ActiveMachines_Less (take (Z.to_nat diff) s) (drop (Z.to_nat diff) s)); [|done..].
    rewrite take_drop. apply gosort_sorted, ActiveMachines_strict_weak.
  - rewrite take_ge by lia. split; [lia|]. exists []. rewrite app_nil_r. split; [done|]. intros x y Hx. by apply not_elem_of_nil in Hx.
Qed.
End deletion_choice.

(** ** Slow start *)

(** Counters over the calls of a history. *)
Definition creates (e : event) : Z := match projT1 e with CreateMachine _ => 1 | _ => 0 end.
Definition accepted (e : event) : Z :=
  match e with
  | existT (CreateMachine _) (Ok _) => 1
  | existT (CreateMachine _) (Err e) => if IsTimeout e then 1 else 0
  | _ => 0
  end.
Definition observed (key : string) (e : event) : Z :=
  match projT1 e with CreationObserved k => if bool_decide (k = key) then 1 else 0 | _ => 0 end.

Lemma exec_create_one ms h o : Labels (tp_Meta (ms_Template (is_Spec ms))) <> ∅ ->
  exec (create_one ms) h o ->
  exists m x, h = [ev (CreateMachine m) x] /\
    o = match x with Ok _ => Return tt | Err e => if IsTimeout e then Return tt else Raise e end.
Proof.
  intros Hl. unfold create_one, CreateMachinesWithControllerRef, createMachines.
  assert (validateControllerRef (NewControllerRef (is_Meta ms) "MachineSet") = None) as -> by (vm_compute; done).
  assert (sel_Empty (AsSelectorPreValidated (Labels (m_Meta (GetMachineFromTemplate (ms_Template (is_Spec ms)) (is_Meta ms)
    (NewControllerRef (is_Meta ms) "MachineSet"))))) = false) as ->.
  { simpl. rewrite length_fmap. apply bool_decide_eq_false. intros E. apply nil_length_inv, map_to_list_empty_iff in E. done. }
  intros He. destruct (exec_bind _ _ _ _ He) as [(h1 & r & h2 & -> & E1 & E2)|(o' & E1 & E2 & ->)].
  - destruct E1 as (x & h' & -> & E1). eexists _, x.
    destruct x as [m|e]; simpl in E1; destruct E1 as [-> [= ->]]; simpl in E2.
    + by destruct E2 as [-> ->].
    + destruct (IsTimeout e); by destruct E2 as [-> ->].
  - destruct E1 as (x & h' & -> & E1). destruct x as [m|e]; simpl in E1; by destruct E1 as [-> ->].
Qed.

Lemma failures_length l : Z.of_nat (length (failures l)) = zsum (fun r => match r with Err _ => 1 | Ok _ => 0 end) l.
Proof. induction l as [|[[]|e] l IH]; [done|..]; unfold failures in *; csimpl; rewrite zsum_cons; lia. Qed.

Lemma zsum_const {A} (c : Z) (l : list A) : zsum (fun _ => c) l = c * Z.of_nat (length l).
Proof. induction l as [|x l IH]; rewrite ?zsum_nil, ?zsum_cons; simpl; lia. Qed.

(** One batch: every goroutine makes one creation, and the failures are those the channel holds. *)
Lemma exec_batch ms n h l : Labels (tp_Meta (ms_Template (is_Spec ms))) <> ∅ ->
  exec (par_list (replicate n (attempt (create_one ms)))) h (Return l) ->
  zsum creates h = Z.of_nat n /\ zsum accepted h = Z.of_nat n - Z.of_nat (length (failures l)) /\
  forall key, zsum (observed key) h = 0.
Proof.
  intros Hl He.
  assert (Hone : forall h r, exec (attempt (create_one ms)) h (Return r) ->
    zsum creates h = 1 /\ zsum accepted h = (match r with Err _ => 0 | Ok _ => 1 end) /\ forall key, zsum (observed key) h = 0).
  { intros h0 r E. apply exec_attempt_ret in E.
    assert (exec (create_one ms) h0 (match r with Ok a => Return a | Err e => Raise e end)) as E' by (by destruct r).
    apply exec_create_one in E' as (m & x & -> & Hx); [|done]. rewrite !zsum_cons, !zsum_nil. simpl.
    split; [done|]. split; [|done]. destruct x as [?|e], r as [[]|e']; simplify_eq; try done; by destruct (IsTimeout e). }
  pose proof (failures_length l) as Hf.
  assert (Hsum : forall f g, (forall e, is_pick e -> f e = 0) ->
    (forall h a, exec (attempt (create_one ms)) h (Return a) -> zsum f h = g a) -> zsum f h = zsum g l /\ length l = n).
  { intros f g Hp Hg. rewrite <- (length_replicate n (attempt (create_one ms))) at 1.
    eapply zsum_par_list; [done| |exact He]. by apply Forall_replicate. }
  split; [|split].
  - destruct (Hsum creates (fun _ => 1)) as [-> Hlen].
    { intros e Hp. unfold creates. by rewrite Hp. }
    { intros h0 r E. by apply Hone in E as (? & _). }
    rewrite zsum_const, Hlen. lia.
  - destruct (Hsum accepted (fun r => match r with Err _ => 0 | Ok _ => 1 end)) as [-> Hlen].
    { intros [r x] Hp. unfold is_pick in Hp. simpl in Hp. by subst. }
    { intros h0 r E. by apply Hone in E as (_ & ? & _). }
    rewrite Hf, <- Hlen. clear. induction l as [|[[]|e] l IH]; rewrite ?zsum_cons; [done|simpl in *; lia..].
  - intros key. destruct (Hsum (observed key) (fun _ => 0)) as [-> Hlen].
    { intros e Hp. unfold observed. by rewrite Hp. }
    { intros h0 r E. by apply Hone in E as (_ & _ & ?). }
    rewrite zsum_const. lia.
Qed.

Lemma total_create_one ms : Labels (tp_Meta (ms_Template (is_Spec ms))) <> ∅ -> total (attempt (create_one ms)).
Proof.
  intros Hl. apply total_attempt. intros h o He. apply exec_create_one in He as (m & x & _ & ->); [|done].
  destruct x as [?|e]; [eauto|]. destruct (IsTimeout e); eauto.
Qed.

Lemma exec_pick_error e l h o : exec (pick_error e l) h o ->
  (exists e', o = Return e') /\ zsum creates h = 0 /\ zsum accepted h = 0 /\ forall key, zsum (observed key) h = 0.
Proof.
  revert e h; induction l as [|e' l IH]; intros e h He; simpl in He.
  - destruct He as [-> ->]. eauto.
  - destruct He as (x & h' & -> & He).
    assert (Hrest : (exists e', o = Return e') /\ zsum creates h' = 0 /\ zsum accepted h' = 0 /\ forall key, zsum (observed key) h' = 0).
    { destruct x as [[]|]; [destruct He as [-> ->]; eauto|by eapply IH..]. }
    destruct Hrest as (? & R1 & R2 & R3). rewrite !zsum_cons, R1, R2. split; [done|]. split; [done|]. split; [done|].
    intros key. by rewrite zsum_cons, R3.
Qed.

(** What the loop promises: it ends, counts right, and stops early only on an error. *)
Definition slow_start_post (remaining successes : Z) (h : history) (o : outcome (Z * option error)) : Prop :=
  exists err, o = Return (successes + zsum accepted h, err) /\ 0 <= zsum creates h <= remaining /\
    (forall key, zsum (observed key) h = 0) /\
    match err with
    | None => zsum creates h = remaining /\ zsum accepted h = remaining
    | Some _ => 0 <= zsum accepted h < zsum creates h
    end.

Lemma exec_slow_start_loop ms fuel remaining batch successes h o :
  Labels (tp_Meta (ms_Template (is_Spec ms))) <> ∅ ->
  0 <= batch <= remaining -> (batch = 0 -> remaining = 0) -> remaining <= Z.of_nat fuel ->
  exec (slow_start_loop fuel (create_one ms) remaining batch successes) h o -> slow_start_post remaining successes h o.
Proof.
  intros Hl. revert remaining batch successes h. induction fuel as [|fuel IH]; intros remaining batch successes h Hb Hz Hf He.
  - assert (batch = 0) as -> by lia. destruct He as [-> ->]. exists None. rewrite !zsum_nil, Z.add_0_r.
    rewrite Hz by done. repeat split; lia || done.
  - cbn [slow_start_loop] in He. destruct (Z.leb_spec batch 0).
    { assert (batch = 0) as -> by lia. destruct He as [-> ->]. exists None. rewrite !zsum_nil, Z.add_0_r.
      rewrite Hz by done. repeat split; lia || done. }
    destruct (exec_bind _ _ _ _ He) as [(h1 & l & h2 & -> & E1 & E2)|(o' & E1 & E2 & ->)].
    2:{ apply total_par_list in E1 as [a ->]; [done|]. apply Forall_replicate. by apply total_create_one. }
    apply exec_batch in E1 as (C1 & C2 & C3); [|done]. rewrite Z2Nat.id in C1, C2 by lia.
    unfold slow_start_post. rewrite !zsum_app.
    assert (Hacc : 0 <= zsum accepted h1).
    { apply zsum_nonneg, Forall_forall. intros [r x] _. destruct r; simpl; try done. destruct x; [done|]. by destruct (IsTimeout _). }
    destruct (failures l) as [|e es].
    + simpl in C2. rewrite Z.sub_0_r in C2, E2. rewrite IntMin_spec in E2.
      destruct (IH (remaining - batch) (Z.min (2 * batch) (remaining - batch)) (successes + batch) h2) as (err & -> & D1 & D2 & D3);
        [lia..|exact E2|].
      exists err. split; [do 2 f_equal; lia|]. split; [lia|].
      split; [intros key; by rewrite zsum_app, C3, D2|]. destruct err; lia.
    + destruct (exec_bind _ _ _ _ E2) as [(h3 & e' & h4 & -> & E3 & -> & ->)|(o' & E3 & E4 & ->)];
        apply exec_pick_error in E3 as ((e2 & Ho) & P1 & P2 & P3); [|by subst].
      rewrite app_nil_r. simpl length in *.
      exists (Some e'). split; [do 2 f_equal; lia|]. split; [lia|].
      split; [intros key; by rewrite zsum_app, C3, P3|]. lia.
Qed.

Lemma exec_scale_up ms diff h o :
  Labels (tp_Meta (ms_Template (is_Spec ms))) <> ∅ -> 0 < diff ->
  exec (scale_up ms diff) h o ->
  exists err x h', o = Return err /\ h = ev (ExpectCreations (KeyFunc (is_Meta ms)) diff) x :: h' /\
    zsum creates h <= diff /\ zsum (observed (KeyFunc (is_Meta ms))) h = diff - zsum accepted h /\
    match err with None => zsum accepted h = diff | Some _ => zsum accepted h < zsum creates h end.
Proof.
  intros Hl Hd He. destruct He as (x & h' & -> & He). cbn [bind] in He.
  destruct (exec_bind _ _ _ _ He) as [(h1 & [s err] & h2 & -> & E1 & E2)|(o' & E1 & E2 & ->)];
    unfold slowStartBatch in E1; apply exec_slow_start_loop in E1; try done;
    rewrite ?IntMin_spec; unfold SlowStartInitialBatchSize; try lia.
  2:{ destruct E1 as (err & -> & _). done. }
  destruct E1 as (err' & [= -> <-] & C1 & C2 & C3). set (key := KeyFunc (is_Meta ms)) in *.
  assert (Hobs : forall n h o, exec (for_each (replicate n tt) (fun _ => call_ignore (CreationObserved key))) h o ->
    o = Return tt /\ zsum (observed key) h = Z.of_nat n /\ zsum creates h = 0 /\ zsum accepted h = 0).
  { intros n. induction n as [|n IH]; intros h o' E; simpl in E; [by destruct E as [-> ->]|].
    destruct E as (y & h3 & -> & E). apply IH in E as (-> & F1 & F2 & F3). rewrite !zsum_cons, F1, F2, F3.
    assert (observed key (ev (CreationObserved key) y) = 1) as -> by (unfold observed; simpl; by rewrite bool_decide_true).
    split; [done|]. split; [lia|]. done. }
  destruct (exec_bind _ _ _ _ E2) as [(h3 & [] & h4 & -> & E3 & -> & ->)|(o' & E3 & E4 & ->)];
    apply Hobs in E3 as (Ho & F1 & F2 & F3); [|by subst].
  exists err, x. eexists. split; [done|]. split; [done|]. rewrite !zsum_cons, !zsum_app, !zsum_nil, C2, F1, F2, F3.
  change (creates _) with 0. change (observed key _) with 0. change (accepted _) with 0. destruct err; lia.
Qed.

(** C27: the bookkeeping of a scale-up.  Every execution returns.  It first records that [diff] creations
    are expected, makes at most [diff] creations, in batches that stop at the first error, and afterwards
    lowers the expectations by exactly as many as did not go through, so that the creations still
    expected are those the API server accepted (or may still carry out after a timeout).  Without an error
    all [diff] creations were accepted; with an error at least one was not. *)
Theorem scale_up_accounting ms diff h o :
  Labels (tp_Meta (ms_Template (is_Spec ms))) <> ∅ -> 0 < diff ->
  exec (scale_up ms diff) h o ->
  exists err x h', o = Return err /\ h = ev (ExpectCreations (KeyFunc (is_Meta ms)) diff) x :: h' /\
    zsum creates h <= diff /\ zsum (observed (KeyFunc (is_Meta ms))) h = diff - zsum accepted h /\
    match err with None => zsum accepted h = diff | Some _ => zsum accepted h < zsum creates h end.
Proof. apply exec_scale_up. Qed.

(** ** Replica management *)

Lemma updateMachineStatus_emits n m lo cs :
  emits (fun e => match projT1 e with UpdateStatusMachine m' => st_CurrentStatus (m_Status m') = cs | r => is_read r = true end)
    (updateMachineStatus n m lo cs).
Proof.
  induction n as [|n IH]; simpl; [apply emits_starve|]. unfold isMachineStatusEqual, either_old. emits_all; done.
Qed.

(** Deleting a machine: the machine itself and nothing else. *)
Definition deletes_only (m : Machine) (e : event) : Prop :=
  match projT1 e with
  | DeleteMachineReq ns name => DeletionTimestamp (m_Meta m) = None /\ ns = Namespace (m_Meta m) /\ name = m_Name m
  | UpdateStatusMachine m' => m_Phase m' = MachineTerminating
  | r => is_read r = true
  end.

Lemma prepare_deletes_only cfg m ms : emits (deletes_only m) (prepareMachineForDeletion cfg m ms).
Proof.
  unfold prepareMachineForDeletion, DeleteMachine. case_bool_decide as Hd; [apply emits_ret|].
  emits_all; try done.
  eapply emits_weaken; [|apply updateMachineStatus_emits]. intros [r x]. unfold deletes_only. simpl. destruct r; try done.
  unfold m_Phase. by intros ->.
Qed.

Lemma terminate_emits cfg machines ms (P : event -> Prop) : (forall x, P (ev Schedule x)) ->
  (forall m e, m ∈ machines -> deletes_only m e -> P e) -> emits P (terminateMachines cfg machines ms).
Proof.
  intros HS HP. unfold terminateMachines. apply emits_par_list; [done|]. apply Forall_fmap, Forall_forall.
  intros m Hm. eapply emits_weaken; [|apply prepare_deletes_only]. intros e. by apply HP.
Qed.

Lemma slow_start_emits fuel fn remaining batch s (P : event -> Prop) : (forall x, P (ev Schedule x)) -> emits P fn ->
  emits P (slow_start_loop fuel fn remaining batch s).
Proof.
  intros HS Hf. revert remaining batch s. induction fuel as [|fuel IH]; intros remaining batch s; simpl; [emits_all|].
  case_match; [apply emits_ret|]. apply emits_bind.
  { apply emits_par_list; [done|]. apply Forall_replicate. by apply emits_attempt. }
  intros l. destruct (failures l) as [|e es]; [done|]. apply emits_bind; [|intros; apply emits_ret].
  clear -HS. revert e; induction es as [|e' es IH]; intros e; simpl; [apply emits_ret|].
  apply emits_Call; [done|]. intros [[]|]; [apply emits_ret|done..].
Qed.

Section replicas.
Context `{GoSort}.

Definition active_count (l : list Machine) : Z := count_if IsMachineActive l.

(** Machines are created, from the template and owned by the set, only when there are too few active
    ones and the set is not frozen; machines are deleted only when they have failed, or when there are
    too many active ones and they were chosen. *)
Definition managed (all : list Machine) (ms : MachineSet) (e : event) : Prop :=
  match projT1 e with
  | CreateMachine m => active_count all < is_Replicas ms /\ frozen ms = false /\
      m_Spec m = tp_Spec (ms_Template (is_Spec ms)) /\ Labels (m_Meta m) = Labels (tp_Meta (ms_Template (is_Spec ms))) /\
      GetControllerOf (m_Meta m) = Some (NewControllerRef (is_Meta ms) "MachineSet")
  | DeleteMachineReq ns name => exists m, m ∈ all /\ DeletionTimestamp (m_Meta m) = None /\
      ns = Namespace (m_Meta m) /\ name = m_Name m /\
      (IsMachineFailed m = true \/ (IsMachineActive m = true /\ is_Replicas ms < active_count all /\
         m ∈ getMachinesToDelete (filter (fun m => IsMachineActive m = true) all)
               (Z.min BurstReplicas (active_count all - is_Replicas ms))))
  | UpdateStatusMachine m => m_Phase m = MachineTerminating
  | r => is_read r = true
  end.

Lemma create_one_managed all ms : active_count all < is_Replicas ms -> frozen ms = false ->
  emits (managed all ms) (create_one ms).
Proof.
  intros Ha Hf. unfold create_one, CreateMachinesWithControllerRef, createMachines. emits_all; try done.
Qed.

Lemma getMachinesToDelete_sub l n m : m ∈ getMachinesToDelete l n -> m ∈ l.
Proof.
  unfold getMachinesToDelete. intros Hm. apply elem_of_take in Hm as (i & Hm & _). apply list_elem_of_lookup_2 in Hm.
  case_match; [by rewrite gosort_perm in Hm|done].
Qed.

(** C4: a machine set only makes the changes its size calls for.  In every execution of
    [manageReplicas], whatever fails: creations happen only when there are fewer active machines than
    replicas and the set is not frozen, and make machines of the template that the set controls;
    deletions concern only its own machines that are not being deleted, and either have failed or are
    among the surplus chosen by [getMachinesToDelete]; so no execution both creates machines and deletes
    active ones. *)
Theorem manageReplicas_safe cfg all ms : emits (managed all ms) (manageReplicas cfg all ms).
Proof.
  unfold manageReplicas. apply emits_bind.
  { apply terminate_emits; [done|]. intros m [r x] Hm. unfold deletes_only, managed. simpl.
    apply list_elem_of_filter in Hm as [[_ Hfail] Hm]. destruct r; try done. naive_solver. }
  intros _. change (Z.of_nat (length (filter _ all))) with (active_count all).
  destruct (Z.ltb_spec (active_count all - is_Replicas ms) 0).
  { destruct (frozen ms) eqn:Hf; [apply emits_ret|]. unfold scale_up, slowStartBatch. emits_all; try done.
    apply slow_start_emits; [done|]. apply create_one_managed; [lia|done]. }
  destruct (Z.ltb_spec 0 (active_count all - is_Replicas ms)); [|apply emits_ret].
  emits_all; try done. apply terminate_emits; [done|]. intros m [r x] Hm. unfold deletes_only, managed. simpl.
  destruct r; try done. intros (Hd & -> & ->). exists m.
  pose proof (getMachinesToDelete_sub _ _ _ Hm) as Hin. apply list_elem_of_filter in Hin as [Hact Hin].
  split; [done|]. split; [done|]. split; [done|]. split; [done|]. right. split; [done|]. split; [lia|].
  replace (Z.min BurstReplicas (active_count all - is_Replicas ms)) with
    (if BurstReplicas <? active_count all - is_Replicas ms then BurstReplicas else active_count all - is_Replicas ms); [done|].
  destruct (Z.ltb_spec BurstReplicas (active_count all - is_Replicas ms)); lia.
Qed.
End replicas.

(** ** A deletion that fails *)

Definition refused (e : event) : bool := match e with existT (DeleteMachineReq _ _) (Err _) => true | _ => false end.

(** A machine whose deletion the API server refuses is nevertheless reported as terminating: all that
    is written after the refusal are statuses with that phase, in which the machine is neither active nor
    failed, so that the machine set neither counts it nor tries to delete it again, and replaces it.  The
    error is passed to the caller, which drops it. *)
Theorem failed_deletion_marked_terminating cfg m ms first h o :
  DeletionTimestamp (m_Meta m) = None -> refused first = true ->
  exec (prepareMachineForDeletion cfg m ms) (first :: h) o ->
  Forall (fun r => exists m', r = UpdateStatusMachine m' /\ IsMachineActive m' = false /\ IsMachineFailed m' = false) (writes h) /\
  o <> Return None.
Proof.
  intros Hd Hr He. unfold prepareMachineForDeletion in He. rewrite bool_decide_false in He by (rewrite Hd; naive_solver).
  destruct He as (x & h' & [= -> ->] & He). destruct x as [[]|e]; [done|]. cbn [bind attempt] in He.
  destruct He as (y & h2 & -> & He). cbn [bind] in He. destruct He as (t1 & h3 & -> & He). cbn [bind] in He.
  destruct He as (t2 & h4 & -> & He). cbn [bind] in He. rewrite !writes_cons. simpl.
  assert (Hst : forall r, r ∈ writes h4 ->
    exists m', r = UpdateStatusMachine m' /\ IsMachineActive m' = false /\ IsMachineFailed m' = false).
  { assert (Hem : emits (fun e => match projT1 e with UpdateStatusMachine m' => m_Phase m' = MachineTerminating | r => is_read r = true end)
      (do! attempt (updateMachineStatus (cfg_retry_rounds cfg) m
        (mkLastOp "Deleting machine from cloud provider" (match t1 with Ok t => t | Err _ => 0 end) "Processing" "Delete")
        (mkCurStatus MachineTerminating false (match t2 with Ok t => t | Err _ => 0 end))) in
       Ret (Some (Errorf ("unable to delete machines: " +:+ err_msg e))))).
    { apply emits_bind; [|intros; apply emits_ret]. apply emits_attempt.
      eapply emits_weaken; [|apply updateMachineStatus_emits]. intros [r z]. simpl. destruct r; try done.
      unfold m_Phase. by intros ->. }
    specialize (Hem h4 o He). rewrite Forall_forall in Hem. intros r Hin. unfold writes in Hin.
    apply list_elem_of_filter in Hin as [Hw Hin]. apply list_elem_of_fmap in Hin as ([r' z] & -> & Hin). simpl in *.
    specialize (Hem _ Hin). simpl in Hem. destruct r'; try done; eexists; split; [done|].
    unfold IsMachineActive, IsMachineFailed. by rewrite Hem. }
  split; [by apply Forall_forall|]. intros ->.
  apply exec_bind_ret in He as (? & ? & ? & _ & _ & _ & [=]).
Qed.

(** ** Status *)

(** The status of a machine set counts its machines: all of them, those with the labels of the
    template, those available and those running, with running ones among the available ones and all of
    them among the machines; the failed machines are listed when there are any. *)
Theorem calculateMachineSetStatus_spec t1 t2 ms machines err :
  Z.of_nat (length machines) <= max_int32 ->
  let st := calculateMachineSetStatus t1 t2 ms machines err in
  mss_Replicas st = Z.of_nat (length machines) /\
  mss_AvailableReplicas st = count_if isMachineAvailable machines /\
  mss_ReadyReplicas st = count_if isMachineReady machines /\
  0 <= mss_ReadyReplicas st <= mss_AvailableReplicas st /\ mss_AvailableReplicas st <= mss_Replicas st /\
  0 <= mss_FullyLabeledReplicas st <= mss_Replicas st /\
  (forall s, s ∈ failed_summaries machines -> exists l, mss_FailedMachines st = Some l /\ s ∈ l).
Proof.
  intros Hlen st.
  assert (Hc : forall p, 0 <= count_if p machines <= Z.of_nat (length machines)).
  { intros p. unfold count_if. pose proof (length_filter (fun m => p m = true) machines). lia. }
  assert (Hready : count_if (fun m => isMachineAvailable m && isMachineReady m) machines = count_if isMachineReady machines).
  { unfold count_if. do 2 f_equal. apply list_filter_iff. intros m. unfold isMachineAvailable, isMachineReady.
    repeat case_bool_decide; naive_solver. }
  assert (Hle : count_if isMachineReady machines <= count_if isMachineAvailable machines).
  { unfold count_if. clear. induction machines as [|m l IH]; [done|]. rewrite !filter_cons.
    unfold isMachineAvailable, isMachineReady in *. repeat case_decide; repeat case_bool_decide; simpl in *; try done; lia. }
  pose proof (Hc isMachineAvailable). pose proof (Hc isMachineReady).
  pose proof (Hc (fun m => sel_Matches (AsSelectorPreValidated (Labels (tp_Meta (ms_Template (is_Spec ms))))) (Labels (m_Meta m)))).
  subst st. unfold calculateMachineSetStatus. cbv zeta.
  cbn [mss_Replicas mss_AvailableReplicas mss_ReadyReplicas mss_FullyLabeledReplicas mss_FailedMachines].
  rewrite Hready, !wrap32_id by width. do 6 (split; [done || lia|]).
  intros s Hs. case_bool_decide as Hf; [|rewrite Hf in Hs; by apply not_elem_of_nil in Hs].
  exists (failed_summaries machines). split; [|done].
  destruct err, (GetCondition _ _); try done. unfold SetCondition. repeat case_match; done.
Qed.

(** A creation that failed can be reported as a failed deletion: the reason is derived from the
    number of all machines, terminating and failed ones included, while creations are decided by the
    active ones. *)
Theorem failed_create_reported_as_delete t1 t2 ms machines e :
  active_count machines < is_Replicas ms -> is_Replicas ms < Z.of_nat (length machines) ->
  GetCondition (is_Status ms) MachineSetReplicaFailure = None ->
  sc_Reason <$> GetCondition (calculateMachineSetStatus t1 t2 ms machines (Some e)) MachineSetReplicaFailure = Some "FailedDelete".
Proof.
  intros Ha Hl Hg. unfold calculateMachineSetStatus. rewrite Hg. cbn [mss_Conditions].
  set (st := if bool_decide _ then _ else _).
  assert (Hst : mss_Conditions st = mss_Conditions (is_Status ms)) by (unfold st; repeat case_match; done).
  assert (Hg' : GetCondition st MachineSetReplicaFailure = None) by (unfold GetCondition in *; by rewrite Hst).
  unfold SetCondition. simpl sc_Type. rewrite Hg'. unfold GetCondition. cbn [mss_Conditions mss_set_Conditions].
  rewrite filter_app. unfold filterOutMachineSetCondition, MachineSetReplicaFailure.
  assert (Hnil : filter (fun c => sc_Type c = "ReplicaFailure") (filter (fun c => sc_Type c <> "ReplicaFailure") (mss_Conditions st)) = []).
  { clear. induction (mss_Conditions st) as [|c l IH]; [done|]. rewrite filter_cons. case_decide; [|done].
    by rewrite filter_cons_False. }
  rewrite Hnil. simpl. unfold failure_condition. simpl.
  destruct (Z.ltb_spec (Z.of_nat (length machines) - is_Replicas ms) 0); [lia|].
  destruct (Z.ltb_spec 0 (Z.of_nat (length machines) - is_Replicas ms)); [done|lia].
Qed.

(** The status write is bounded and honest about the generation: at most two updates are tried, every
    one of them carries the computed status with the generation the controller acted on (not the one
    fetched in between), and nothing is written when nothing changed. *)
Theorem updateMachineSetStatus_spec ms st h o : exec (updateMachineSetStatus ms st) h o ->
  (length (writes h) <= 2)%nat /\
  Forall (fun r => exists m, r = UpdateStatusMS m /\
    is_Status m = mss_set_ObservedGeneration (Generation (is_Meta ms)) st) (writes h) /\
  (forall m, o = Return m -> writes h = [] -> h = [] /\ m = ms) /\ o <> Panic /\ o <> OutOfFuel.
Proof.
  unfold updateMachineSetStatus. case_bool_decide.
  { intros [-> ->]. split; [simpl; lia|]. split; [constructor|]. split; [|done]. intros m [= ->]. done. }
  set (st' := mss_set_ObservedGeneration _ st). unfold statusUpdateRetries. intros He.
  destruct He as (x & h' & -> & He). cbn [bind] in He. rewrite writes_cons. cbn [is_read].
  assert (Hone : forall m, exists m', UpdateStatusMS (is_set_Status st' m) = UpdateStatusMS m' /\ is_Status m' = st') by eauto.
  destruct x as [m1|e].
  { destruct He as [-> ->]. split; [simpl; lia|]. split; [repeat constructor; apply Hone|]. split; done. }
  destruct He as (g & h2 & -> & He). rewrite writes_cons. cbn [is_read]. destruct g as [fresh|e'].
  2:{ destruct He as [-> ->]. split; [simpl; lia|]. split; [repeat constructor; apply Hone|]. split; done. }
  cbn [bind] in He. destruct He as (y & h3 & -> & He). rewrite writes_cons. cbn [is_read].
  destruct y; destruct He as [-> ->]; (split; [simpl; lia|]; split; [repeat constructor; apply Hone|]; split; done).
Qed.

(** The summary of a failed machine without a controller names the controller of the failed machine
    listed before it: the summary variable is not reset between the machines. *)
Theorem summary_keeps_previous_owner m1 m2 c rest :
  lo_State (st_LastOperation (m_Status m1)) = MachineStateFailed ->
  lo_State (st_LastOperation (m_Status m2)) = MachineStateFailed ->
  GetControllerOf (m_Meta m1) = Some c -> GetControllerOf (m_Meta m2) = None ->
  exists s1 s2 l, failed_summaries (m1 :: m2 :: rest) = s1 :: s2 :: l /\ sm_Name s2 = m_Name m2 /\ sm_OwnerRef s2 = or_Name c.
Proof.
  intros E1 E2 C1 C2. unfold failed_summaries.
  set (a := mkSummary (m_Name m1) (sp_ProviderID (m_Spec m1)) (st_LastOperation (m_Status m1)) (or_Name c)).
  set (b := mkSummary (m_Name m2) (sp_ProviderID (m_Spec m2)) (st_LastOperation (m_Status m2)) (or_Name c)).
  assert (S1 : summary_step (zero_summary, []) m1 = (a, [a])).
  { unfold summary_step. by rewrite bool_decide_true, C1. }
  assert (S2 : summary_step (a, [a]) m2 = (b, [a; b])).
  { unfold summary_step. by rewrite bool_decide_true, C2. }
  cbn [foldl]. rewrite S1, S2.
  assert (Hpre : forall l acc, exists l', (foldl summary_step acc l).2 = acc.2 ++ l').
  { intros l. induction l as [|m l IH]; intros [s f]; [exists []; by rewrite app_nil_r|]. simpl. case_bool_decide.
    - destruct (IH (mkSummary (m_Name m) (sp_ProviderID (m_Spec m)) (st_LastOperation (m_Status m))
        (match GetControllerOf (m_Meta m) with Some c => or_Name c | None => sm_OwnerRef s end),
        f ++ [mkSummary (m_Name m) (sp_ProviderID (m_Spec m)) (st_LastOperation (m_Status m))
        (match GetControllerOf (m_Meta m) with Some c => or_Name c | None => sm_OwnerRef s end)])) as [l' ->].
      simpl. rewrite <- app_assoc. eauto.
    - apply IH. }
  destruct (Hpre rest (b, [a; b])) as [l' ->]. simpl. by exists a, b, l'.
Qed.

(** ** Deletion of a machine set *)

(** Deleting a machine set is orderly: nothing is created, only its own machines that are not being
    deleted are deleted, and its finalizer is taken off only when no machine is left. *)
Theorem delete_machineset_orderly cfg machines ms :
  emits (fun e => match projT1 e with
    | UpdateMS m => machines = [] /\ DeleteFinalizerName ∉ Finalizers (is_Meta m)
    | DeleteMachineReq ns name => exists m, m ∈ machines /\ DeletionTimestamp (m_Meta m) = None /\
        ns = Namespace (m_Meta m) /\ name = m_Name m
    | UpdateStatusMachine m => m_Phase m = MachineTerminating
    | r => is_read r = true end) (delete_machineset cfg machines ms).
Proof.
  unfold delete_machineset. case_bool_decide as Hnil.
  - unfold deleteMachineSetFinalizers. case_match; [|apply emits_ret].
    generalize (cfg_retry_rounds cfg) (Namespace (is_Meta ms)) (is_Name ms). intros n. induction n as [|n IH]; intros ns name;
      simpl; emits_all; try done. split; [done|]. simpl. rewrite elem_of_sets_List. set_solver.
  - case_match; [|apply emits_ret]. apply emits_bind; [|intros; apply emits_ret]. apply terminate_emits; [done|].
    intros m [r x] Hm. unfold deletes_only. simpl. destruct r; try done. naive_solver.
Qed.

(** ** Sample runs *)

Definition sample_machines : list Machine :=
  [sample_machine "a" MachineRunning; sample_machine "b" MachinePending; sample_machine "c" MachineRunning].

(** The pending machine goes first. *)
Lemma getMachinesToDelete_spec_witness :
  m_Name <$> getMachinesToDelete sample_machines 1 = ["b"] /\
  Z.of_nat (length (getMachinesToDelete sample_machines 1)) = 1.
Proof.
  split; [vm_compute; reflexivity|].
  refine (proj1 (getMachinesToDelete_spec sample_machines 1 _)). split; vm_compute; discriminate.
Defined.

(** Two creations are accepted, the third one is not. *)
Definition quota (r : req) (w : Z) : Z * result (answer r) :=
  match r return Z * result (answer r) with
  | CreateMachine m => if 0 <? w then (w - 1, Ok m) else (w, Err (mkErr OtherErr "quota exceeded"))
  | Now => (w, Ok 1000)
  | GetMachine _ name => (w, Ok (sample_machine name MachineRunning))
  | UpdateStatusMachine m => (w, Ok m)
  | UpdateStatusMS m => (w, Ok m)
  | _ => (w, Err (mkErr OtherErr "refused"))
  end.

Lemma scale_up_accounting_witness :
  zsum accepted (run quota (scale_up (sample_ms "a" 7 0) 7) 2).1.2 = 2 /\
  exists err x h', (run quota (scale_up (sample_ms "a" 7 0) 7) 2).2 = Return err /\
    (run quota (scale_up (sample_ms "a" 7 0) 7) 2).1.2 = ev (ExpectCreations "shoot/a" 7) x :: h'.
Proof.
  split; [vm_compute; reflexivity|].
  destruct (scale_up_accounting (sample_ms "a" 7 0) 7 _ _ ltac:(vm_compute; discriminate) ltac:(reflexivity)
    (run_exec quota (scale_up (sample_ms "a" 7 0) 7) 2)) as (err & x & h' & H1 & H2 & _).
  exists err, x, h'. by split.
Defined.

Lemma failed_deletion_marked_terminating_witness :
  (run quota (prepareMachineForDeletion sample_config (sample_machine "m" MachineRunning) (sample_ms "a" 1 1)) 0).2 <> Return None.
Proof.
  destruct (run quota (prepareMachineForDeletion sample_config (sample_machine "m" MachineRunning) (sample_ms "a" 1 1)) 0).1.2
    as [|first h] eqn:E; [vm_compute in E; discriminate E|].
  refine (proj2 (failed_deletion_marked_terminating sample_config (sample_machine "m" MachineRunning) (sample_ms "a" 1 1) first h _ _ _ _)).
  - reflexivity.
  - vm_compute in E. injection E as <- _. reflexivity.
  - rewrite <- E. apply run_exec.
Defined.

Lemma calculateMachineSetStatus_spec_witness :
  mss_ReadyReplicas (calculateMachineSetStatus 1 2 (sample_ms "a" 3 0) sample_machines None) = count_if isMachineReady sample_machines.
Proof.
  refine (proj1 (proj2 (proj2 (calculateMachineSetStatus_spec 1 2 (sample_ms "a" 3 0) sample_machines None _)))).
  vm_compute. discriminate.
Defined.

Lemma failed_create_reported_as_delete_witness :
  sc_Reason <$> GetCondition (calculateMachineSetStatus 1 2 (sample_ms "a" 1 0)
    [sample_machine "a" MachineTerminating; sample_machine "b" MachineTerminating] (Some (Errorf "quota exceeded")))
    MachineSetReplicaFailure = Some "FailedDelete".
Proof.
  apply failed_create_reported_as_delete; vm_compute; reflexivity.
Defined.

Lemma updateMachineSetStatus_spec_witness :
  (length (writes (run quota (updateMachineSetStatus (sample_ms "a" 1%Z 0%Z) zero_ms_status) 0%Z).1.2) <= 2)%nat.
Proof.
  exact (proj1 (updateMachineSetStatus_spec _ _ _ _ (run_exec quota (updateMachineSetStatus (sample_ms "a" 1 0) zero_ms_status) 0))).
Defined.

Definition sample_failed (name : string) (owners : list OwnerReference) : Machine :=
  mkMachine (set_OwnerReferences owners (sample_meta name name)) (tp_Spec sample_template)
    (mkMachineStatus name [] (mkLastOp "" 0 MachineStateFailed MachineOperationCreate) (mkCurStatus MachineFailed false 0) "").

Lemma summary_keeps_previous_owner_witness :
  exists s1 s2 l, failed_summaries [sample_failed "a" [NewControllerRef (sample_meta "ms" "ms") "MachineSet"]; sample_failed "b" []]
    = s1 :: s2 :: l /\ sm_Name s2 = "b" /\ sm_OwnerRef s2 = "ms".
Proof.
  apply (summary_keeps_previous_owner (sample_failed "a" [NewControllerRef (sample_meta "ms" "ms") "MachineSet"])
    (sample_failed "b" []) (NewControllerRef (sample_meta "ms" "ms") "MachineSet") []); vm_compute; reflexivity.
Defined.
