(* ===== verification/MachineSetProgress.v ===== *)
(** * A machine set gets its size

    MachineSetController.v says what one reconciliation of a machine set may do.  Here reconciliations follow
    each other in a world where nothing fails: calls are accepted, the machines that were created are there
    the next time, and those that were deleted are gone or on their way out.  The number of active machines
    then approaches the size of the machine set by [BurstReplicas] with every reconciliation. *)
From Stdlib Require Import ZArith Lia Ascii String.
From stdpp Require Import base gmap strings list sorting relations fin_sets.
From S2P Require Import Prelude GoLib Types Labels MachineSets DeploymentUtil Prog Samples DeploymentSync MachineSetController.
Open Scope Z_scope.

(** ** One reconciliation in which nothing fails *)

(** Creations, deletions and status updates of machines are accepted. *)
Definition kind (e : event) : Prop :=
  match e with
  | existT (CreateMachine _) (Err _) | existT (DeleteMachineReq _ _) (Err _) | existT (UpdateStatusMachine _) (Err _) => False
  | _ => True
  end.

Lemma total_isMachineStatusEqual s1 s2 : total (isMachineStatusEqual s1 s2).
Proof. unfold isMachineStatusEqual, either_old. total_all. Qed.

Lemma returns_status cfg m lo cs : (0 < cfg_retry_rounds cfg)%nat ->
  returns_when kind (attempt (updateMachineStatus (cfg_retry_rounds cfg) m lo cs)).
Proof.
  destruct (cfg_retry_rounds cfg) as [|n]; [lia|]. intros _. apply returns_attempt. intros h o He HP.
  cbn [updateMachineStatus] in He.
  destruct (exec_bind _ _ _ _ He) as [(h1 & latest & h2 & -> & _ & E2)|(o' & (x & h' & -> & E1) & Hf & ->)].
  2:{ destruct x; destruct E1 as [-> ->]; [done|eauto]. }
  apply Forall_app in HP as [_ HP]. cbv zeta in E2.
  destruct (exec_bind _ _ _ _ E2) as [(h3 & same & h4 & -> & _ & E4)|(o' & E1 & Hf & _)].
  2:{ apply total_isMachineStatusEqual in E1 as [a ->]. done. }
  destruct same; [destruct E4 as [-> ->]; eauto|]. destruct E4 as (y & h5 & -> & E4).
  apply Forall_app in HP as [_ HP]. apply Forall_cons in HP as [Hy _]. destruct y; [|done]. destruct E4 as [-> ->]. eauto.
Qed.

Lemma returns_prepare cfg m ms : (0 < cfg_retry_rounds cfg)%nat -> returns_when kind (prepareMachineForDeletion cfg m ms).
Proof.
  intros Hn. unfold prepareMachineForDeletion, DeleteMachine. case_bool_decide; [apply returns_ret|].
  apply returns_bind.
  { apply returns_attempt. intros h o (x & h' & -> & He) HP. destruct x; destruct He as [-> ->]; eauto. }
  intros r. apply returns_bind; [apply returns_total; destruct r; total_all|]. intros _.
  apply returns_bind; [apply returns_total; total_all|]. intros t1.
  apply returns_bind; [apply returns_total; total_all|]. intros t2.
  apply returns_bind; [by apply returns_status|]. intros; apply returns_ret.
Qed.

Lemma returns_terminate cfg l ms : (0 < cfg_retry_rounds cfg)%nat -> returns_when kind (terminateMachines cfg l ms).
Proof.
  intros Hn. apply returns_par_list. apply Forall_fmap, Forall_forall. intros m _. by apply returns_prepare.
Qed.

(** The deletion of a machine was accepted. *)
Definition deletes (m : Machine) (e : event) : bool :=
  match e with
  | existT (DeleteMachineReq ns name) (Ok _) => bool_decide (ns = Namespace (m_Meta m) /\ name = m_Name m)
  | _ => false
  end.
Definition deleted (h : history) (m : Machine) : bool := existsb (deletes m) h.

Definition machine_id (m : Machine) : string * string := (Namespace (m_Meta m), m_Name m).

Lemma deleted_app h1 h2 m : deleted (h1 ++ h2) m = deleted h1 m || deleted h2 m.
Proof. apply existsb_app. Qed.

Lemma deleted_true h m : deleted h m = true <-> exists ns name x, ev (DeleteMachineReq ns name) (Ok x) ∈ h /\ machine_id m = (ns, name).
Proof.
  unfold deleted. rewrite existsb_exists. split.
  - intros ([r x] & Hin & Hd). destruct r; try done. destruct x as [x|]; [|done]. simpl in Hd. apply bool_decide_eq_true in Hd as [-> ->].
    exists (Namespace (m_Meta m)), (m_Name m), x. split; [by apply list_elem_of_In|done].
  - intros (ns & name & x & Hin & Hid). exists (ev (DeleteMachineReq ns name) (Ok x)). split; [by apply list_elem_of_In|].
    injection Hid as <- <-. by apply bool_decide_eq_true.
Qed.

Lemma deleted_none P h m : (forall ns name x, ~ P (ev (DeleteMachineReq ns name) (Ok x))) -> Forall P h -> deleted h m = false.
Proof.
  intros HP HF. apply not_true_is_false. intros (ns & name & x & Hin & _)%deleted_true. rewrite Forall_forall in HF.
  by apply (HP ns name x), HF.
Qed.

(** What the goroutines of [terminateMachines] delete, and that they create nothing. *)
Lemma terminate_only cfg l ms h o m : exec (terminateMachines cfg l ms) h o ->
  zsum accepted h = 0 /\ (deleted h m = true -> exists m', m' ∈ l /\ machine_id m' = machine_id m).
Proof.
  intros He.
  assert (Hem : emits (fun e => accepted e = 0 /\ match projT1 e with DeleteMachineReq ns name => exists m', m' ∈ l /\ machine_id m' = (ns, name) | _ => True end)
    (terminateMachines cfg l ms)).
  { apply terminate_emits; [done|]. intros m' [r x] Hin. unfold deletes_only. simpl. destruct r; try done.
    intros (_ & -> & ->). split; [done|]. by exists m'. }
  specialize (Hem h o He). split.
  - rewrite (zsum_ext _ (fun _ => 0)) by (eapply Forall_impl; [exact Hem|]; naive_solver). rewrite zsum_const. lia.
  - intros (ns & name & x & Hin & ->)%deleted_true. rewrite Forall_forall in Hem. by destruct (Hem _ Hin) as [_ ?].
Qed.

Lemma terminate_all cfg l ms h r m : exec (terminateMachines cfg l ms) h (Return r) -> Forall kind h ->
  m ∈ l -> DeletionTimestamp (m_Meta m) = None -> deleted h m = true.
Proof.
  intros He HP Hin Hd. apply exec_par_list in He as (hs & pk & F & _ & Hh).
  assert (Hone : exists h1, h1 ∈ hs /\ deleted h1 m = true).
  { apply list_elem_of_lookup in Hin as [i Hi].
    destruct (Forall3_lookup_l _ _ _ _ i (prepareMachineForDeletion cfg m ms) F) as (h1 & a & H1 & _ & E).
    { by rewrite list_lookup_fmap, Hi. }
    exists h1. split; [by eapply list_elem_of_lookup_2|]. unfold prepareMachineForDeletion in E.
    rewrite bool_decide_false in E by (rewrite Hd; naive_solver). unfold DeleteMachine in E. cbn [bind attempt call_try] in E.
    destruct E as (x & h' & -> & _).
    assert (Hk : kind (ev (DeleteMachineReq (Namespace (m_Meta m)) (m_Name m)) x)).
    { rewrite Hh in HP. apply Forall_app in HP as [HP _]. rewrite Forall_concat in HP.
      rewrite Forall_forall in HP. specialize (HP _ (list_elem_of_lookup_2 _ _ _ H1)). by apply Forall_cons in HP as [? _]. }
    destruct x as [x|]; [|done]. apply deleted_true. do 3 eexists. split; [by left|done]. }
  destruct Hone as (h1 & H1 & (ns & name & x & Hx & Hid)%deleted_true). apply deleted_true. exists ns, name, x. split; [|done].
  rewrite Hh. apply elem_of_app. left. apply elem_of_concat. eauto.
Qed.

(** ** How many machines there are afterwards *)

Section progress.
Context `{GoSort} (cfg : Config) (ms : MachineSet).

(** The machines of the set: they have names of their own, and those that count are not being deleted. *)
Record pool (all : list Machine) : Prop := {
  pool_names : NoDup (machine_id <$> all);
  pool_active : Forall (fun m => IsMachineActive m = true -> DeletionTimestamp (m_Meta m) = None) all }.

Definition active (all : list Machine) : list Machine := filter (fun m => IsMachineActive m = true) all.
Definition survivors (h : history) (all : list Machine) : list Machine := filter (fun m => deleted h m = false) (active all).

(** One reconciliation, all of whose calls are accepted; afterwards the active machines are those that were not
    deleted and as many new ones as were created. *)
Definition ms_pass (all all' : list Machine) : Prop :=
  pool all' /\ exists h err, exec (manageReplicas cfg all ms) h (Return err) /\ Forall kind h /\
    exists made, active all' ≡ₚ survivors h all ++ made /\ Z.of_nat (length made) = zsum accepted h.

Lemma active_count_length all : active_count all = Z.of_nat (length (active all)).
Proof. done. Qed.

Lemma chosen_split l n : 0 <= n <= Z.of_nat (length l) ->
  exists keep, getMachinesToDelete l n ++ keep ≡ₚ l /\ Z.of_nat (length keep) = Z.of_nat (length l) - n.
Proof.
  intros Hn. unfold getMachinesToDelete. set (s := if n <? Z.of_nat (length l) then gosort ActiveMachines_Less l else l).
  assert (Hp : s ≡ₚ l) by (unfold s; case_match; [apply gosort_perm|done]).
  exists (drop (Z.to_nat n) s). rewrite take_drop. split; [done|]. rewrite length_drop, Hp. lia.
Qed.

(** The machines that stay when exactly those of [gone] are deleted. *)
Lemma survivors_split h l gone keep : NoDup (machine_id <$> l) -> gone ++ keep ≡ₚ l ->
  (forall m, m ∈ gone -> deleted h m = true) ->
  (forall m, m ∈ l -> deleted h m = true -> exists m', m' ∈ gone /\ machine_id m' = machine_id m) ->
  filter (fun m => deleted h m = false) l ≡ₚ keep.
Proof.
  intros Hnd Hp Hgone Honly. rewrite <- Hp, filter_app.
  rewrite (filter_none _ gone); [|intros m Hin; by rewrite Hgone].
  rewrite filter_all; [done|]. intros m Hin. apply not_true_is_false. intros Hd.
  destruct (Honly m) as (m' & Hm' & E); [rewrite <- Hp; apply elem_of_app; by right|done|].
  rewrite <- Hp, fmap_app in Hnd. apply NoDup_app in Hnd as (_ & Hdis & _). apply (Hdis (machine_id m')).
  - by apply list_elem_of_fmap_2.
  - rewrite E. by apply list_elem_of_fmap_2.
Qed.

Hypothesis (Hlabels : Labels (tp_Meta (ms_Template (is_Spec ms))) <> ∅) (Hfrozen : frozen ms = false)
  (Hrounds : (0 < cfg_retry_rounds cfg)%nat) (Hsize : 0 <= is_Replicas ms).

Lemma pool_ids all : pool all -> NoDup (machine_id <$> active all).
Proof. intros Hp. eapply sublist_NoDup; [apply (pool_names all Hp)|]. apply fmap_sublist, sublist_filter. Qed.

(** The machines that have failed are others than the active ones. *)
Lemma stale_not_active all m m' : pool all -> m ∈ active all ->
  m' ∈ filter (fun m => IsMachineActive m = false /\ IsMachineFailed m = true) all -> machine_id m' <> machine_id m.
Proof.
  intros Hp [Ha Hin]%list_elem_of_filter [[Hs _] Hin']%list_elem_of_filter E.
  rewrite (NoDup_fmap_inj_elem machine_id all m' m) in Hs; [congruence|apply Hp|done..].
Qed.

Lemma scale_up_deletes_nothing diff : emits (fun e => match projT1 e with DeleteMachineReq _ _ => False | _ => True end) (scale_up ms diff).
Proof.
  unfold scale_up, slowStartBatch. emits_all; try done. apply slow_start_emits; [done|].
  unfold create_one, CreateMachinesWithControllerRef, createMachines. emits_all; done.
Qed.

Lemma kind_accepts h : Forall kind h -> zsum accepted h = zsum creates h.
Proof.
  intros HP. apply zsum_ext. eapply Forall_impl; [exact HP|]. intros [r x]. destruct r; try done. by destruct x.
Qed.

Lemma scale_up_kind diff h o : 0 < diff -> exec (scale_up ms diff) h o -> Forall kind h ->
  o = Return None /\ zsum accepted h = diff /\ forall m, deleted h m = false.
Proof.
  intros Hd He HP. pose proof (scale_up_deletes_nothing diff h o He) as Hno.
  destruct (exec_scale_up ms diff h o Hlabels Hd He) as (err & x & h' & -> & _ & _ & _ & Hacc).
  rewrite (kind_accepts h HP) in Hacc |- *. destruct err as [e|]; [lia|]. split; [done|]. split; [done|].
  intros m. apply (deleted_none _ _ _ (fun ns name x H => H) Hno).
Qed.

Definition clear_surplus (all : list Machine) (n : Z) : prog (option error) :=
  do! call_ignore (ExpectDeletions (KeyFunc (is_Meta ms)) (getMachineKeys (getMachinesToDelete (active all) n))) in
  do! terminateMachines cfg (getMachinesToDelete (active all) n) ms in
  Ret None.

Lemma clear_surplus_step all n h o : pool all -> 0 <= n <= Z.of_nat (length (active all)) ->
  exec (clear_surplus all n) h o -> Forall kind h ->
  o = Return None /\ zsum accepted h = 0 /\
  Z.of_nat (length (filter (fun m => deleted h m = false) (active all))) = Z.of_nat (length (active all)) - n.
Proof.
  intros Hp Hn He HP. destruct He as (x & h' & -> & He). apply Forall_cons in HP as [_ HP]. cbn [bind] in He.
  destruct (exec_bind _ _ _ _ He) as [(h1 & r & h2 & -> & E1 & -> & ->)|(o' & E1 & Hf & _)].
  2:{ apply (returns_terminate _ _ _ Hrounds) in E1 as [? ->]; done. }
  rewrite app_nil_r in *. destruct (terminate_only cfg _ ms h1 _ (sample_machine "" "") E1) as [A1 _].
  destruct (chosen_split (active all) n Hn) as (keep & Hsplit & <-). split; [done|]. split; [by rewrite zsum_cons, A1|].
  rewrite (survivors_split _ (active all) (getMachinesToDelete (active all) n) keep); [done|by apply pool_ids|done|..].
  - intros m Hm. apply (terminate_all cfg _ ms h1 r m E1 HP Hm).
    pose proof (pool_active all Hp) as Hact. rewrite Forall_forall in Hact.
    assert (m ∈ active all) as [Ha Hin]%list_elem_of_filter by (rewrite <- Hsplit; apply elem_of_app; by left). by apply Hact.
  - intros m _ Hd. by apply (terminate_only cfg _ ms h1 _ m E1).
Qed.

(** Outcome and effect of one reconciliation. *)
Lemma manage_step all h o : pool all -> exec (manageReplicas cfg all ms) h o -> Forall kind h ->
  (exists err, o = Return err) /\
  Z.of_nat (length (survivors h all)) + zsum accepted h =
    active_count all + Z.max (- BurstReplicas) (Z.min BurstReplicas (is_Replicas ms - active_count all)).
Proof.
  intros Hp He HP. unfold manageReplicas in He. fold (active all) in He. rewrite <- active_count_length in He.
  destruct (exec_bind _ _ _ _ He) as [(h1 & r & h2 & -> & E1 & E2)|(o' & E1 & Hf & _)].
  2:{ apply (returns_terminate _ _ _ Hrounds) in E1 as [? ->]; done. }
  apply Forall_app in HP as [HP1 HP2].
  assert (Hstale : Forall (fun m => deleted h1 m = false) (active all)).
  { apply Forall_forall. intros m Hm. apply not_true_is_false. intros Hd.
    apply (terminate_only cfg _ ms h1 _ m E1) in Hd as (m' & Hm' & E). by apply (stale_not_active all m m'). }
  destruct (terminate_only cfg _ ms h1 _ (sample_machine "" "") E1) as [A1 _].
  assert (Hsur : survivors (h1 ++ h2) all = filter (fun m => deleted h2 m = false) (active all)).
  { unfold survivors. apply filter_ext_in. rewrite Forall_forall in Hstale. intros m Hm. by rewrite deleted_app, Hstale. }
  rewrite Hsur, zsum_app, A1, active_count_length. rewrite active_count_length in E2. unfold BurstReplicas in *. rewrite Hfrozen in E2.
  set (a := Z.of_nat (length (active all))) in *. cbv zeta in E2.
  destruct (Z.ltb_spec (a - is_Replicas ms) 0).
  { apply scale_up_kind in E2 as (-> & -> & Hd); [|case_match; lia|done]. split; [eauto|].
    rewrite filter_all; [|done]. fold a. destruct (Z.ltb_spec 100 (- (a - is_Replicas ms))); lia. }
  destruct (Z.ltb_spec 0 (a - is_Replicas ms)).
  2:{ destruct E2 as [-> ->]. split; [eauto|]. rewrite filter_all; [|done]. fold a. rewrite zsum_nil. lia. }
  apply clear_surplus_step in E2 as (-> & -> & ->); [|done|fold a; case_match; lia|done]. split; [eauto|].
  fold a. destruct (Z.ltb_spec 100 (a - is_Replicas ms)); lia.
Qed.

(** Another pass can always be made: the calls are answered well, and the new machines have new names. *)
Definition answered (r : req) (w : unit) : unit * result (answer r) :=
  (w, match r return result (answer r) with
      | CreateMachine m | UpdateStatusMachine m => Ok m
      | DeleteMachineReq _ _ => Ok tt
      | GetMachine _ name => Ok (sample_machine name MachineRunning)
      | _ => Err (mkErr NotFound "not found")
      end).

Definition new_machines (n : nat) (all : list Machine) : list Machine :=
  (fun name => sample_machine name MachinePending) <$> fresh_list n (list_to_set (m_Name <$> all) : gset string).

Lemma new_machines_pool n all l : pool all -> (forall m, m ∈ l -> m ∈ all) -> NoDup (machine_id <$> l) ->
  pool (l ++ new_machines n all).
Proof.
  intros Hp Hsub Hnd. set (X := list_to_set (m_Name <$> all) : gset string).
  assert (En : machine_id <$> new_machines n all = pair "shoot" <$> fresh_list n X).
  { unfold new_machines. rewrite <- list_fmap_compose. done. }
  split.
  - rewrite fmap_app, En. apply NoDup_app. split; [done|]. split.
    + intros id (m & -> & Hm)%list_elem_of_fmap (name & E & Hname)%list_elem_of_fmap. injection E as _ E.
      apply fresh_list_is_fresh in Hname. apply Hname. rewrite <- E. apply elem_of_list_to_set.
      by apply list_elem_of_fmap_2, Hsub.
    + apply NoDup_fmap_2; [intros ? ? [=]; done|]. apply NoDup_fresh_list.
  - pose proof (pool_active all Hp) as Ha. rewrite Forall_forall in Ha. apply Forall_app. split.
    + apply Forall_forall. intros m Hm. by apply Ha, Hsub.
    + apply Forall_fmap, Forall_forall. done.
Qed.

Lemma new_machines_active n all : active (new_machines n all) = new_machines n all.
Proof. apply filter_all. by intros m (name & -> & _)%list_elem_of_fmap. Qed.

Lemma ms_pass_exists all : pool all -> exists all', ms_pass all all'.
Proof.
  intros Hp. set (p := manageReplicas cfg all ms). pose proof (run_exec answered p tt) as He.
  assert (HP : Forall kind (run answered p tt).1.2) by (apply run_events; intros [] ?; done).
  set (h := (run answered p tt).1.2) in *. destruct (manage_step all h _ Hp He HP) as [[err Eo] _]. rewrite Eo in He.
  exists (survivors h all ++ new_machines (Z.to_nat (zsum accepted h)) all). split.
  - apply new_machines_pool; [done| |].
    + intros m [_ [_ Hm]%list_elem_of_filter]%list_elem_of_filter. done.
    + eapply sublist_NoDup; [by apply pool_ids|]. apply fmap_sublist, sublist_filter.
  - exists h, err. split; [done|]. split; [done|]. exists (new_machines (Z.to_nat (zsum accepted h)) all). split.
    + unfold active at 1. rewrite filter_app. fold (active (new_machines (Z.to_nat (zsum accepted h)) all)).
      rewrite new_machines_active, filter_all; [done|].
      intros m [_ [Hm _]%list_elem_of_filter]%list_elem_of_filter. done.
    + unfold new_machines. rewrite length_fmap, length_fresh_list, Z2Nat.id; [done|]. rewrite kind_accepts by done.
      apply zsum_nonneg, Forall_forall. intros [r x] _. by destruct r.
Qed.

(** How far the number of active machines is from the size of the set. *)
Definition off (all : list Machine) : Z := Z.abs (active_count all - is_Replicas ms).

Lemma ms_pass_closer all all' : pool all -> ms_pass all all' -> off all' = Z.max 0 (off all - BurstReplicas).
Proof.
  intros Hp (_ & h & err & He & HP & made & Hact & Hmade). destruct (manage_step all h _ Hp He HP) as [_ E].
  unfold off. rewrite (active_count_length all'), Hact, length_app. unfold BurstReplicas in *. lia.
Qed.

Lemma ms_passes n all : pool all ->
  (exists all', nsteps ms_pass n all all') /\
  forall all', nsteps ms_pass n all all' -> off all' = Z.max 0 (off all - BurstReplicas * Z.of_nat n).
Proof.
  intros Hp. split.
  - revert all Hp. induction n as [|n IH]; intros all Hp; [exists all; constructor|].
    destruct (ms_pass_exists all Hp) as [l1 H1]. destruct (IH l1 (proj1 H1)) as [l2 H2]. exists l2. by econstructor.
  - intros all' Hn. revert Hp. induction Hn as [l|n l l1 l2 H1 _ IH]; intros Hp; [unfold off, BurstReplicas; lia|].
    rewrite (IH (proj1 H1)), (ms_pass_closer l l1 Hp H1). unfold BurstReplicas. lia.
Qed.
End progress.

(** C5: a machine set gets its size.  In a world that accepts every call, reconciliation after reconciliation
    brings the number of active machines closer to the size of the set, by [BurstReplicas] at a time, without
    ever overshooting: after [n] reconciliations the two differ by exactly what is then left, so they are equal
    after as many as the difference takes, and stay so. *)
Theorem machine_set_gets_its_size `{GoSort} cfg ms all n :
  Labels (tp_Meta (ms_Template (is_Spec ms))) <> ∅ -> frozen ms = false -> (0 < cfg_retry_rounds cfg)%nat ->
  0 <= is_Replicas ms -> pool all ->
  (exists all', nsteps (ms_pass cfg ms) n all all') /\
  forall all', nsteps (ms_pass cfg ms) n all all' -> off ms all' = Z.max 0 (off ms all - BurstReplicas * Z.of_nat n).
Proof. intros. by apply ms_passes. Qed.

(** A set of 250 machines that starts with one that runs and one that has failed. *)
Lemma machine_set_gets_its_size_witness :
  exists all', nsteps (ms_pass sample_config (sample_ms "a" 250 0)) 3 [sample_machine "m" MachineRunning; sample_machine "f" MachineFailed] all' /\
    active_count all' = 250.
Proof.
  destruct (machine_set_gets_its_size sample_config (sample_ms "a" 250 0) [sample_machine "m" MachineRunning; sample_machine "f" MachineFailed] 3)
    as [[all' Hn] Hall].
  - vm_compute. discriminate.
  - reflexivity.
  - vm_compute. lia.
  - vm_compute. discriminate.
  - split.
    + apply (bool_decide_unpack _). vm_compute. exact I.
    + repeat constructor.
  - exists all'. split; [exact Hn|]. specialize (Hall all' Hn).
    assert (Hr : Z.max 0 (off (sample_ms "a" 250 0) [sample_machine "m" MachineRunning; sample_machine "f" MachineFailed] - BurstReplicas * Z.of_nat 3) = 0)
      by (vm_compute; reflexivity).
    rewrite Hr in Hall. unfold off in Hall. change (is_Replicas (sample_ms "a" 250 0)) with 250 in Hall. lia.
Defined.
