(* ===== verification/Driver.v ===== *)
(** * Drivers of clouds (pkg/driver/driver.go)

    What the six drivers have in common; the calls they make to their clouds are in files of their own,
    and the controllers call them through the requests [DriverCreate], [DriverDelete] and [DriverGetVMs]. *)
From Stdlib Require Import ZArith Ascii String.
From stdpp Require Import base gmap strings list.
From S2P Require Import Prelude GoLib Types Prog.
Open Scope Z_scope.

(** ** Construction *)

(** For another kind of class the driver is a fake. *)
Definition NewDriver (machineID : string) (secretData : strmap) (classKind : string) (machineClass : ProviderClass)
    (machineName : string) : InTreeDriver :=
  mkInTreeDriver classKind machineClass secretData (mget secretData "userData") machineID machineName.

Definition is_fake (d : InTreeDriver) : bool := negb (bool_decide (dv_classKind d ∈ provider_kinds)).

(** The same three methods in every driver, and in the fake one. *)
Definition GetExisting (d : InTreeDriver) : string := if is_fake d then EmptyString else dv_MachineID d.
Definition GetUserData (d : InTreeDriver) : string := if is_fake d then EmptyString else dv_UserData d.
Definition SetUserData (userData : string) (d : InTreeDriver) : InTreeDriver :=
  if is_fake d then d
  else mkInTreeDriver (dv_classKind d) (dv_machineClass d) (dv_CredentialsData d) userData (dv_MachineID d) (dv_MachineName d).

(** ** Credentials *)

(** [strings.TrimSpace], for the white space of ASCII. *)
Definition is_space (c : ascii) : bool :=
  bool_decide (c ∈ [" "; "009"; "010"; "011"; "012"; "013"]%char).
Fixpoint trim_left (s : string) : string :=
  match s with String c s' => if is_space c then trim_left s' else s | EmptyString => EmptyString end.
Definition rev_string (s : string) : string := string_of_list_ascii (rev (list_ascii_of_string s)).
Definition TrimSpace (s : string) : string := rev_string (trim_left (rev_string (trim_left s))).

Fixpoint ExtractCredentialsFromData (data : strmap) (keys : list string) : string :=
  match keys with
  | [] => EmptyString
  | key :: keys => match data !! key with Some val => TrimSpace val | None => ExtractCredentialsFromData data keys end
  end.

(** ** IDs of machines *)

(** [strings.Split(id, sep)[len-1]], in every driver and in the machine controller; a split is never empty. *)
Definition last_part (sep : ascii) (id : string) : string := List.last (split sep id) EmptyString.
Definition decodeMachineID (id : string) : string := last_part "/" id.

Lemma last_part_plain sep s : has_byte sep s = false -> last_part sep s = s.
Proof. intros Hs. unfold last_part. by rewrite split_no_byte. Qed.

Lemma split_app_cons sep p s : exists h t,
  split sep (p +:+ String sep s) = h :: t /\ t <> [] /\ List.last t EmptyString = List.last (split sep s) EmptyString.
Proof.
  induction p as [|c p (h & t & E & Ht & El)].
  - exists EmptyString, (split sep s). change (EmptyString +:+ String sep s) with (String sep s). cbn [split].
    rewrite bool_decide_true by done. split_and!; [done|apply split_nonempty|done].
  - change (String c p +:+ String sep s) with (String c (p +:+ String sep s)). cbn [split]. rewrite E. case_bool_decide.
    + exists EmptyString, (h :: t). split_and!; [done..|]. rewrite <- El. by destruct t.
    + by exists (String c h), t.
Qed.

(** Decoding forgets everything up to the last separator. *)
Lemma last_part_app sep p s : last_part sep (p +:+ String sep s) = last_part sep s.
Proof. unfold last_part. destruct (split_app_cons sep p s) as (h & t & -> & Ht & <-). by destruct t. Qed.

Lemma decode_encode sep p s : has_byte sep s = false -> last_part sep (p +:+ String sep s) = s.
Proof. intros Hs. rewrite last_part_app. by apply last_part_plain. Qed.
