(* ===== verification/Freezing.v ===== *)
(** * Safety controllers of the machine controller manager (pkg/controller/machine_safety.go)

    Machine sets with far more machines than they should have are frozen, together with their
    deployments, and unfrozen when the machines are fewer again or when an annotation asks for it.  VMs
    without a machine are collected, after a second look. *)
From Stdlib Require Import ZArith Lia Ascii String.
From stdpp Require Import base gmap strings list.
From S2P Require Import Prelude GoLib Types Labels MachineSets DeploymentUtil Prog Samples NodeOps RefManager.
From S2P Require Import DeploymentController MachineSetController Driver.
Open Scope Z_scope.

Definition OverShootingReplicaCount := "OverShootingReplicaCount".
Definition MachineDeploymentStateSync := "MachineDeploymentStateSync".
Definition UnfreezeAnnotation := "safety.machine.sapcloud.io/unfreeze".

(** The options these controllers read; [int32] and durations. *)
Record safety_options := mkSafety {
  sa_namespace : string; sa_SafetyUp : Z; sa_SafetyDown : Z; sa_OrphanVMsPeriod : Z; sa_OvershootingPeriod : Z }.

(** ** Freezing and unfreezing *)

Definition freeze_label (m : ObjectMeta) : bool := bool_decide (mget (Labels m) "freeze" = "True").
Definition put_freeze (m : ObjectMeta) : ObjectMeta := set_Labels (<["freeze" := "True"]> (Labels m)) m.
Definition drop_freeze (m : ObjectMeta) : ObjectMeta :=
  set_Annotations (delete UnfreezeAnnotation (Annotations m)) (set_Labels (delete "freeze" (Labels m)) m).

(** The latest version is fetched, its status is written, and then the labels of what that returned. *)
Definition freezeMachineDeployment (d : MachineDeployment) (reason message : string) : prog unit :=
  let! d := call (GetMD (Namespace (d_Meta d)) (d_Name d)) in
  let! t1 := now in
  let! t2 := now in
  let mdcond := NewMachineDeploymentCondition t1 t2 MachineDeploymentFrozen ConditionTrue reason message in
  let! d := call (UpdateStatusMD (d_set_Status (SetMachineDeploymentCondition (d_Status d) mdcond) d)) in
  do! call (UpdateMD (d_set_Meta put_freeze d)) in
  Ret tt.

Definition unfreezeMachineDeployment (d : MachineDeployment) : prog unit :=
  let! d := call (GetMD (Namespace (d_Meta d)) (d_Name d)) in
  let! d := call (UpdateStatusMD (d_set_Status (RemoveMachineDeploymentCondition (d_Status d) MachineDeploymentFrozen) d)) in
  do! call (UpdateMD (d_set_Meta drop_freeze d)) in
  Ret tt.

Definition freeze_machine_set (ms : MachineSet) (reason message : string) : prog MachineSet :=
  let! ms := call (GetMS (Namespace (is_Meta ms)) (is_Name ms)) in
  let! t := now in
  let mscond := NewMachineSetCondition t MachineSetFrozen ConditionTrue reason message in
  let! ms := call (UpdateStatusMS (is_set_Status (SetCondition (is_Status ms) mscond) ms)) in
  do! call (UpdateMS (is_set_Meta put_freeze ms)) in
  Ret ms.

Definition freezeMachineSetAndDeployment (ms : MachineSet) (reason message : string) : prog unit :=
  let! ms := freeze_machine_set ms reason message in
  let! machineDeployments := getMachineDeploymentsForMachineSet ms in
  match machineDeployments with
  | d :: _ => freezeMachineDeployment d reason message
  | [] => Ret tt
  end.

Definition unfreezeMachineSet (ms : MachineSet) : prog unit :=
  let! ms := call (GetMS (Namespace (is_Meta ms)) (is_Name ms)) in
  let! ms := call (UpdateStatusMS (is_set_Status (RemoveCondition (is_Status ms) MachineSetFrozen) ms)) in
  do! call (UpdateMS (is_set_Meta drop_freeze ms)) in
  Ret tt.

Definition unfreezeMachineSetAndDeployment (ms : MachineSet) : prog unit :=
  let! machineDeployments := getMachineDeploymentsForMachineSet ms in
  do! (match machineDeployments with d :: _ => unfreezeMachineDeployment d | [] => Ret tt end) in
  unfreezeMachineSet ms.

(** ** Overshooting *)

(** One for every owner reference with the name of the machine set. *)
Definition owned_count (ms : MachineSet) (m : Machine) : nat :=
  length (filter (fun r => or_Name r = is_Name ms) (OwnerReferences (m_Meta m))).
Definition fullyLabeledReplicas (ms : MachineSet) (machines : list Machine) : Z :=
  let templateLabel := AsSelectorPreValidated (Labels (tp_Meta (ms_Template (is_Spec ms)))) in
  wrap32 (Z.of_nat (sum_list (owned_count ms <$> filter (fun m => sel_Matches templateLabel (Labels (m_Meta m)) = true) machines))).

(** The higher and the lower threshold.  The section of the rolling update is dereferenced for any strategy. *)
Definition thresholds (o : safety_options) (ms : MachineSet) (machineDeployments : list MachineDeployment) : prog (Z * Z) :=
  match machineDeployments with
  | [] =>
      let higher := wrap32 (2 * is_Replicas ms + sa_SafetyUp o) in
      Ret (higher, wrap32 (higher - sa_SafetyDown o))
  | d :: _ =>
      let! rolling := deref (str_RollingUpdate (md_Strategy (d_Spec d))) in
      let! surge := or_throw (GetValueFromIntOrPercent (MaxSurgeField rolling) (d_Replicas d) true) "invalid value for IntOrString" in
      let higher := wrap32 (d_Replicas d + surge + sa_SafetyUp o) in
      Ret (higher, wrap32 (higher - sa_SafetyDown o))
  end.

Inductive verdict := Freeze | Unfreeze | LeaveAlone.

Definition judge (ms : MachineSet) (count higher lower : Z) : verdict :=
  if negb (freeze_label (is_Meta ms)) && (higher <=? count) then Freeze
  else if (count <=? lower) && (freeze_label (is_Meta ms) || bool_decide (is_Some (GetCondition (is_Status ms) MachineSetFrozen))) then Unfreeze
  else LeaveAlone.

Definition overshooting_message (ms : MachineSet) (count higher : Z) : string :=
  "The number of machines backing MachineSet: " +:+ is_Name ms +:+ " is " +:+ FormatInt count +:+ " >= " +:+ FormatInt higher +:+
  " which is the Max-ScaleUp-Limit".

(** The loop returns with the first machine set that is frozen or unfrozen. *)
Fixpoint check_machine_sets (o : safety_options) (machineSets : list MachineSet) : prog unit :=
  match machineSets with
  | [] => Ret tt
  | ms :: machineSets =>
      let! machines := call ListerMachines in
      let count := fullyLabeledReplicas ms machines in
      let! machineDeployments := getMachineDeploymentsForMachineSet ms in
      let! hl := thresholds o ms machineDeployments in
      let '(higher, lower) := hl in
      match judge ms count higher lower with
      | Freeze => freezeMachineSetAndDeployment ms OverShootingReplicaCount (overshooting_message ms count higher)
      | Unfreeze => unfreezeMachineSetAndDeployment ms
      | LeaveAlone => check_machine_sets o machineSets
      end
  end.

Definition checkAndFreezeORUnfreezeMachineSets (o : safety_options) : prog unit :=
  let! machineSets := call ListerMachineSets in
  check_machine_sets o machineSets.

(** ** Deployments follow their machine sets *)

Definition set_frozen (ms : MachineSet) : bool :=
  freeze_label (is_Meta ms) || bool_decide (is_Some (GetCondition (is_Status ms) MachineSetFrozen)).
Definition deployment_condition (d : MachineDeployment) : bool :=
  bool_decide (is_Some (GetMachineDeploymentCondition (d_Status d) MachineDeploymentFrozen)).
Definition inconsistent_message :=
  "MachineDeployment State was inconsistent, hence safety controller has fixed this and frozen it".

(** A deployment whose machine sets cannot be found counts as one without frozen machine sets. *)
Definition sync_deployment (d : MachineDeployment) : prog unit :=
  let! r := attempt (getMachineSetsForMachineDeployment d) in
  let has_frozen := match r with Ok machineSets => existsb set_frozen machineSets | Err _ => false end in
  if has_frozen then
    if negb (freeze_label (d_Meta d)) || negb (deployment_condition d)
    then freezeMachineDeployment d MachineDeploymentStateSync inconsistent_message else Ret tt
  else if freeze_label (d_Meta d) || deployment_condition d then unfreezeMachineDeployment d
  else Ret tt.

Definition syncMachineDeploymentFreezeState : prog unit :=
  let! machineDeployments := call ListerMachineDeployments in
  for_each machineDeployments sync_deployment.

(** ** Unfreezing on demand *)

Definition annotate_machine_set (ms : MachineSet) : prog unit :=
  let! ms := call (GetMS (Namespace (is_Meta ms)) (is_Name ms)) in
  do! call (UpdateMS (is_set_Meta (fun m => set_Annotations (<[UnfreezeAnnotation := "True"]> (Annotations m)) m) ms)) in
  Ret tt.

Definition unfreezeMachineDeploymentsWithUnfreezeAnnotation : prog unit :=
  let! machineDeployments := call ListerMachineDeployments in
  for_each machineDeployments (fun d =>
    if bool_decide (is_Some (Annotations (d_Meta d) !! UnfreezeAnnotation)) then
      do! unfreezeMachineDeployment d in
      let! r := attempt (getMachineSetsForMachineDeployment d) in
      match r with Ok machineSets => for_each machineSets annotate_machine_set | Err _ => Ret tt end
    else Ret tt).

Definition unfreezeMachineSetsWithUnfreezeAnnotation : prog unit :=
  let! machineSets := call ListerMachineSets in
  for_each machineSets (fun ms =>
    if bool_decide (is_Some (Annotations (is_Meta ms) !! UnfreezeAnnotation)) then unfreezeMachineSet ms else Ret tt).

(** Errors of the first three parts are logged; the last one is returned. *)
Definition reconcileClusterMachineSafetyOvershooting (o : safety_options) : prog unit :=
  defer (call_ignore (EnqueueSafetyOvershooting (sa_OvershootingPeriod o)))
    (do! attempt (checkAndFreezeORUnfreezeMachineSets o) in
     do! call_ignore WaitForCacheSync in
     do! attempt syncMachineDeploymentFreezeState in
     do! call_ignore WaitForCacheSync in
     do! attempt unfreezeMachineDeploymentsWithUnfreezeAnnotation in
     do! call_ignore WaitForCacheSync in
     unfreezeMachineSetsWithUnfreezeAnnotation).

(** ** Orphan VMs *)

(** Here a secret that does not exist is an error, and a class without references has no data at all. *)
Definition getSecretData (secretRefs : list (option SecretReference)) : prog (option strmap) :=
  for_fold secretRefs None (fun secretData secretRef =>
    match secretRef with
    | None => Ret secretData
    | Some ref =>
        let! secret := call (ListerGetSecret (sr_Namespace ref) (sr_Name ref)) in
        Ret (Some (sec_Data secret ∪ default ∅ secretData))
    end).

Section orphans.
Variable o : safety_options.
(** A range over the map takes its entries in any order. *)
Variable range : strmap -> list (string * string).

(** The map has the one VM to delete; a failure is logged. *)
Definition deleteOrphanVM (machineID machineName : string) (secretData : strmap) (kind : string) (machineClass : ProviderClass) : prog unit :=
  call_ignore (DriverDelete (NewDriver machineID secretData kind machineClass machineName) machineID).

(** The VM is looked up again, and so is its machine, before the VM is deleted.  On an error the client
    returns an empty object. *)
Definition recheck_machine (dvr : InTreeDriver) (machineID machineName : string) (vm : string * string) : prog unit :=
  if bool_decide (vm.1 = machineID) then
    let! r := call_try (GetMachine (sa_namespace o) machineName) in
    let providerID := match r with Ok machine => sp_ProviderID (m_Spec machine) | Err _ => EmptyString end in
    if (match r with Err err => IsNotFound err | Ok _ => false end) || negb (bool_decide (providerID = machineID)) then
      deleteOrphanVM machineID machineName (dv_CredentialsData dvr) (dv_classKind dvr) (dv_machineClass dvr)
    else Ret tt
  else Ret tt.

Definition recheck_vm (dvr : InTreeDriver) (machineID machineName : string) : prog unit :=
  let! result := call_try (DriverGetVMs dvr machineID) in
  for_each (range (match result with Ok vms => vms | Err _ => ∅ end)) (recheck_machine dvr machineID machineName).

Definition check_vm (dvr : InTreeDriver) (vm : string * string) : prog unit :=
  let '(machineID, machineName) := vm in
  let! r := call_try (ListerGetMachine (sa_namespace o) machineName) in
  match r with
  | Err err => if IsNotFound err then recheck_vm dvr machineID machineName else Ret tt
  | Ok machine =>
      if bool_decide (sp_ProviderID (m_Spec machine) = machineID) then Ret tt
      else if bool_decide (m_Phase machine = EmptyString) || bool_decide (m_Phase machine = MachineCrashLoopBackOff) then Ret tt
      else recheck_vm dvr machineID machineName
  end.

Definition checkMachineClass (class : ProviderClass) : prog unit :=
  let! s := attempt (getSecretData [pc_SecretRef class; pc_CredentialsSecretRef class]) in
  match s with
  | Ok (Some secretData) =>
      let dvr := NewDriver EmptyString secretData (pc_Kind class) class EmptyString in
      let! r := call_try (DriverGetVMs dvr EmptyString) in
      let listOfVMs := match r with Ok vms => vms | Err _ => ∅ end in
      let! synced :=
        (if (1 <? size listOfVMs)%nat then Call WaitForCacheSync (fun x => Ret (match x with Ok b => b | Err _ => false end))
         else Ret true) in
      if negb synced then Ret tt else for_each (range listOfVMs) (check_vm dvr)
  | _ => Ret tt
  end.

(** One function for every kind of class, all alike. *)
Definition check_kind (kind : string) : prog unit :=
  let! r := call_try (ListerProviderClasses kind) in
  match r with Err _ => Ret tt | Ok classes => for_each classes checkMachineClass end.

Definition checkVMObjects : prog unit :=
  for_each [AWSMachineClassKind; OpenStackMachineClassKind; AzureMachineClassKind; GCPMachineClassKind; AlicloudMachineClassKind;
    PacketMachineClassKind]
    check_kind.

Definition reconcileClusterMachineSafetyOrphanVMs : prog unit :=
  defer (call_ignore (EnqueueSafetyOrphanVMs (sa_OrphanVMsPeriod o))) checkVMObjects.
End orphans.

Definition enqueueMachineSafetyOvershootingKey : prog unit := call_ignore (EnqueueSafetyOvershooting 0).
Definition enqueueMachineSafetyOrphanVMsKey : prog unit := call_ignore (EnqueueSafetyOrphanVMs 0).
Definition addMachineToSafety (machine : Machine) : prog unit := enqueueMachineSafetyOvershootingKey.
Definition deleteMachineToSafety (machine : Machine) : prog unit := enqueueMachineSafetyOrphanVMsKey.

(** ** The verdict on a machine set *)

(** Calls that change nothing at the API server. *)
Definition unwritten (e : event) : Prop :=
  match projT1 e with UpdateMS _ | UpdateStatusMS _ | UpdateMD _ | UpdateStatusMD _ => False | _ => True end.

Lemma unwritten_deployments ms : emits unwritten (getMachineDeploymentsForMachineSet ms).
Proof. unfold getMachineDeploymentsForMachineSet. by emits_all. Qed.

Lemma silent_thresholds o ms ds h out : exec (thresholds o ms ds) h out -> h = [].
Proof.
  unfold thresholds. destruct ds as [|d ds]; [by intros [-> _]|]. destruct (str_RollingUpdate _); cbn [deref bind]; [|by intros [-> _]].
  destruct (GetValueFromIntOrPercent _ _ _); cbn [or_throw bind]; by intros [-> _].
Qed.

(** The thresholds of a machine set, as numbers. *)
Definition bounds_ok (o : safety_options) (ms : MachineSet) (ds : list MachineDeployment) (higher lower : Z) : Prop :=
  lower = wrap32 (higher - sa_SafetyDown o) /\
  match ds with
  | [] => higher = wrap32 (2 * is_Replicas ms + sa_SafetyUp o)
  | d :: _ => exists rolling surge, str_RollingUpdate (md_Strategy (d_Spec d)) = Some rolling /\
      GetValueFromIntOrPercent (MaxSurgeField rolling) (d_Replicas d) true = Some surge /\
      higher = wrap32 (d_Replicas d + surge + sa_SafetyUp o)
  end.

Lemma exec_thresholds o ms ds h higher lower : exec (thresholds o ms ds) h (Return (higher, lower)) -> bounds_ok o ms ds higher lower.
Proof.
  unfold thresholds, bounds_ok. destruct ds as [|d ds]; [by intros [_ [= -> ->]]|].
  destruct (str_RollingUpdate _) as [rolling|]; cbn [deref bind]; [|by intros [_ ?]].
  destruct (GetValueFromIntOrPercent _ _ _) as [surge|] eqn:E; cbn [or_throw bind]; [|by intros [_ ?]].
  intros [_ [= -> ->]]. split; [done|]. by exists rolling, surge.
Qed.

Lemma exec_thresholds_fail o ms ds h out : exec (thresholds o ms ds) h out -> is_fail out -> forall higher lower, ~ bounds_ok o ms ds higher lower.
Proof.
  unfold thresholds, bounds_ok. destruct ds as [|d ds]; [by intros [_ ->]|].
  destruct (str_RollingUpdate _) as [rolling|]; cbn [deref bind]; [|by intros _ _ ? ? (_ & ? & ? & ? & _)].
  destruct (GetValueFromIntOrPercent _ _ _) as [surge|] eqn:E; cbn [or_throw bind]; [by intros [_ ->]|].
  intros _ _ ? ? (_ & ? & ? & ? & ? & _). simplify_eq.
Qed.

Lemma total_deployments ms : total (getMachineDeploymentsForMachineSet ms).
Proof.
  unfold getMachineDeploymentsForMachineSet. case_bool_decide; [apply total_Ret|]. apply total_Call. intros x. apply total_Ret.
Qed.

(** The calls by which a machine set is looked at, and what they say: the number of the machines of the cache
    that carry the labels of its template and name it as an owner, and the two thresholds, from the
    deployment found for it if there is one. *)
Definition looked_at (o : safety_options) (ms : MachineSet) (h : history) (count higher lower : Z) : Prop :=
  exists machines hd ds, h = ev ListerMachines (Ok machines) :: hd /\ exec (getMachineDeploymentsForMachineSet ms) hd (Return ds) /\
    bounds_ok o ms ds higher lower /\ count = fullyLabeledReplicas ms machines.

(** There is no reason to freeze or to unfreeze it. *)
Definition left_alone (o : safety_options) (ms : MachineSet) (h : history) : Prop :=
  exists count higher lower, looked_at o ms h count higher lower /\
    (freeze_label (is_Meta ms) = true \/ count < higher) /\ (set_frozen ms = false \/ lower < count).

(** It cannot be looked at: the machines cannot be listed, or the deployment has no thresholds. *)
Definition not_looked_at (o : safety_options) (ms : MachineSet) (h : history) (out : outcome unit) : Prop :=
  (exists e, h = [ev ListerMachines (Err e)] /\ out = Raise e) \/
  exists machines hd ds, h = ev ListerMachines (Ok machines) :: hd /\ exec (getMachineDeploymentsForMachineSet ms) hd (Return ds) /\
    (forall higher lower, ~ bounds_ok o ms ds higher lower) /\ is_fail out.

(** It is frozen, because its machines are too many, or unfrozen, because they are few enough again. *)
Definition changed (o : safety_options) (ms : MachineSet) (h : history) (out : outcome unit) : Prop :=
  exists h1 h2 count higher lower, h = h1 ++ h2 /\ looked_at o ms h1 count higher lower /\
    ((freeze_label (is_Meta ms) = false /\ higher <= count /\
      exec (freezeMachineSetAndDeployment ms OverShootingReplicaCount (overshooting_message ms count higher)) h2 out) \/
     ((freeze_label (is_Meta ms) = true \/ count < higher) /\ set_frozen ms = true /\ count <= lower /\
      exec (unfreezeMachineSetAndDeployment ms) h2 out)).

Lemma looked_at_unwritten o ms h count higher lower : looked_at o ms h count higher lower -> Forall unwritten h.
Proof. intros (machines & hd & ds & -> & E & _). constructor; [done|]. by eapply unwritten_deployments. Qed.

(** The machine sets that are looked at are left alone, up to the first that is not. *)
Lemma check_machine_sets_spec o l h out : exec (check_machine_sets o l) h out ->
  exists before after hs h2, l = before ++ after /\ h = concat hs ++ h2 /\ Forall2 (left_alone o) before hs /\
  match after with
  | [] => h2 = [] /\ out = Return tt
  | ms :: _ => not_looked_at o ms h2 out \/ changed o ms h2 out
  end.
Proof.
  revert h. induction l as [|ms l IH]; intros h He; [destruct He as [-> ->]; by exists [], [], [], []|].
  destruct He as (y & h1 & -> & He). destruct y as [machines|err]; cbn [bind] in He.
  2: { destruct He as [-> ->]. exists [], (ms :: l), [], [ev ListerMachines (Err err)]. split_and!; [done..|]. left. left. by exists err. }
  apply exec_bind in He as [(h2 & ds & h3 & -> & E1 & He)|(o' & E1 & Hf & _)]; [|by destruct (total_deployments _ _ _ E1) as [? ->]].
  apply exec_bind in He as [(h4 & [hi lo] & h5 & -> & E2 & He)|(o' & E2 & Hf & ->)]; apply silent_thresholds in E2 as E2'; subst.
  2: { exists [], (ms :: l), [], (ev ListerMachines (Ok machines) :: h2). rewrite app_nil_r. split_and!; [done..|]. left. right.
       exists machines, h2, ds. split_and!; [done..|by eapply exec_thresholds_fail|by destruct o']. }
  apply exec_thresholds in E2. cbn [app] in *. set (hs := ev ListerMachines (Ok machines) :: h2). rewrite app_comm_cons. fold hs.
  assert (Hl : looked_at o ms hs (fullyLabeledReplicas ms machines) hi lo) by by exists machines, h2, ds.
  destruct (judge ms _ hi lo) eqn:Ej; unfold judge in Ej.
  - exists [], (ms :: l), [], (hs ++ h5). split_and!; [done..|]. right. exists hs, h5, (fullyLabeledReplicas ms machines), hi, lo.
    split_and!; [done..|]. left. destruct (negb _ && _) eqn:Ec; [|by case_match]. apply andb_true_iff in Ec as [Ec1 Ec2].
    split_and!; [by apply negb_true_iff|by apply Z.leb_le|done].
  - exists [], (ms :: l), [], (hs ++ h5). split_and!; [done..|]. right. exists hs, h5, (fullyLabeledReplicas ms machines), hi, lo.
    split_and!; [done..|]. right. destruct (negb _ && _) eqn:Ec; [done|]. destruct (_ && (_ || _)) eqn:Ed; [|done].
    apply andb_true_iff in Ed as [Ed1 Ed2]. split_and!; [|done|by apply Z.leb_le|done].
    apply andb_false_iff in Ec as [Ec|Ec]; [left; by apply negb_false_iff|right; by apply Z.leb_gt].
  - apply IH in He as (before & after & hss & h6 & -> & -> & HF & Ha). exists (ms :: before), after, (hs :: hss), h6.
    split_and!; [done|exact (app_assoc hs (concat hss) h6)| |done]. constructor; [|done]. exists (fullyLabeledReplicas ms machines), hi, lo. split; [done|].
    destruct (negb _ && _) eqn:Ec; [done|]. destruct (_ && (_ || _)) eqn:Ed; [done|]. split.
    + apply andb_false_iff in Ec as [Ec|Ec]; [left; by apply negb_false_iff|right; by apply Z.leb_gt].
    + apply andb_false_iff in Ed as [Ed|Ed]; [right; by apply Z.leb_gt|by left].
Qed.

(** C22: the overshooting check goes through the machine sets in the order of the cache and acts on the first
    one that needs it.  A machine set is frozen if it is not labelled frozen and its machines number at
    least its higher threshold, and unfrozen if it is frozen and they are down to the lower one; both
    thresholds come from the deployment found for it, or from its own size without one.  All machine sets
    before it were looked at and needed neither; nothing is written before; the check ends well without
    a change only when no machine set needs one; and it fails only when the machine sets or machines cannot
    be listed, or the deployment has no valid settings, or in what freezing or unfreezing does. *)
Theorem overshooting_verdict o h out : exec (checkAndFreezeORUnfreezeMachineSets o) h out ->
  exists x rest, h = ev ListerMachineSets x :: rest /\
  match x with
  | Err e => rest = [] /\ out = Raise e
  | Ok sets => exists before after hs h2, sets = before ++ after /\ rest = concat hs ++ h2 /\ Forall unwritten (concat hs) /\
      Forall2 (left_alone o) before hs /\
      match after with
      | [] => h2 = [] /\ out = Return tt
      | ms :: _ => not_looked_at o ms h2 out \/ changed o ms h2 out
      end
  end.
Proof.
  intros (x & rest & -> & He). exists x, rest. split; [done|]. destruct x as [sets|err]; cbn [bind] in He; [|by destruct He as [-> ->]].
  apply check_machine_sets_spec in He as (before & after & hs & h2 & -> & -> & HF & Ha). exists before, after, hs, h2.
  split_and!; [done..| |done|done]. clear Ha. induction HF as [|ms h1 before hs (count & hi & lo & Hl & _) _ IH]; [constructor|].
  apply Forall_app. split; [by eapply looked_at_unwritten|done].
Qed.

(** ** What freezing does *)

Lemma frozen_creates_nothing cfg all ms h out : MachineSetController.frozen ms = true -> exec (manageReplicas cfg all ms) h out ->
  forall m x, ev (CreateMachine m) x ∉ h.
Proof.
  intros Hf He.
  assert (HF : Forall (fun e : event => match projT1 e with CreateMachine _ => False | _ => True end) h).
  2: { intros m x Hin. rewrite Forall_forall in HF. by apply HF in Hin. }
  revert He. assert (Hem : emits (fun e : event => match projT1 e with CreateMachine _ => False | _ => True end) (manageReplicas cfg all ms)); [|by apply Hem].
  assert (Ht : forall l, emits (fun e : event => match projT1 e with CreateMachine _ => False | _ => True end) (terminateMachines cfg l ms)).
  { intros l. apply terminate_emits; [done|]. intros m [r x] _. unfold deletes_only. simpl. by destruct r. }
  unfold manageReplicas. rewrite Hf. emits_all; done || apply Ht.
Qed.

(** Freezing stops the growth of a machine set.  When the freeze has gone through, the object last
    written carries the label, and on that object (unless it is being deleted) the machine set controller
    creates no machine, whatever it finds. *)
Theorem freeze_stops_creation ms reason message h ms1 : exec (freeze_machine_set ms reason message) h (Return ms1) ->
  exists ms2 x, last h = Some (ev (UpdateMS ms2) (Ok x)) /\ freeze_label (is_Meta ms2) = true /\
    GetCondition (is_Status ms2) MachineSetFrozen = GetCondition (is_Status ms1) MachineSetFrozen /\
    (DeletionTimestamp (is_Meta ms2) = None -> forall cfg all h' out, exec (manageReplicas cfg all ms2) h' out ->
       forall m y, ev (CreateMachine m) y ∉ h').
Proof.
  intros (x & h1 & -> & He). destruct x as [fresh|e]; [|by destruct He]. destruct He as (t & h2 & -> & y & h3 & -> & He).
  destruct y as [written|e]; [|by destruct He]. destruct He as (z & h4 & -> & He). destruct z as [w|e]; [|by destruct He].
  destruct He as [-> [= ->]]. exists (is_set_Meta put_freeze written), w. split; [done|].
  assert (Hl : mget (Labels (is_Meta (is_set_Meta put_freeze written))) "freeze" = "True").
  { unfold mget. simpl. by rewrite lookup_insert_eq. }
  split_and!; [unfold freeze_label; by rewrite Hl|done|]. intros Hd cfg all h' out He. eapply frozen_creates_nothing; [|done].
  unfold MachineSetController.frozen. by rewrite Hl, Hd, !bool_decide_true.
Qed.

(** ** Deployments follow *)

Lemma exec_freeze_deployment d reason message h : exec (freezeMachineDeployment d reason message) h (Return tt) ->
  exists d' x, last h = Some (ev (UpdateMD d') (Ok x)) /\ freeze_label (d_Meta d') = true.
Proof.
  intros (x & h1 & -> & He). destruct x as [fresh|e]; [|by destruct He]. destruct He as (t & h2 & -> & t' & h3 & -> & y & h4 & -> & He).
  destruct y as [written|e]; [|by destruct He]. destruct He as (z & h5 & -> & He). destruct z as [w|e]; [|by destruct He].
  destruct He as [-> _]. exists (d_set_Meta put_freeze written), w. split; [done|]. unfold freeze_label, mget. simpl. by rewrite lookup_insert_eq.
Qed.

Lemma exec_unfreeze_deployment d h : exec (unfreezeMachineDeployment d) h (Return tt) ->
  exists d' x, last h = Some (ev (UpdateMD d') (Ok x)) /\ freeze_label (d_Meta d') = false.
Proof.
  intros (x & h1 & -> & He). destruct x as [fresh|e]; [|by destruct He]. destruct He as (y & h3 & -> & He).
  destruct y as [written|e]; [|by destruct He]. destruct He as (z & h4 & -> & He). destruct z as [w|e]; [|by destruct He].
  destruct He as [-> _]. exists (d_set_Meta drop_freeze written), w. split; [done|]. unfold freeze_label, mget. simpl.
  by rewrite lookup_delete_eq.
Qed.

(** A deployment follows its machine sets.  When it agrees with them nothing is written; otherwise
    the last write leaves its label as it should be.  Machine sets that could not be determined count as
    none, so that any error there unfreezes a frozen deployment. *)
Theorem sync_deployment_spec d h : exec (sync_deployment d) h (Return tt) ->
  exists h1 h2 r, h = h1 ++ h2 /\ exec (attempt (getMachineSetsForMachineDeployment d)) h1 (Return r) /\
    let should := match r with Ok machineSets => bool_decide (Exists (fun ms => set_frozen ms = true) machineSets) | Err _ => false end in
    if bool_decide (freeze_label (d_Meta d) = should /\ deployment_condition d = should) then h2 = []
    else exists d' x, last h2 = Some (ev (UpdateMD d') (Ok x)) /\ freeze_label (d_Meta d') = should.
Proof.
  intros (h1 & r & h2 & -> & E1 & He)%exec_bind_ret. exists h1, h2, r. split_and!; [done|done|].
  assert (Hs : (match r with Ok machineSets => existsb set_frozen machineSets | Err _ => false end) =
    match r with Ok machineSets => bool_decide (Exists (fun ms => set_frozen ms = true) machineSets) | Err _ => false end).
  { destruct r as [l|]; [|done]. apply eq_true_iff_eq. rewrite existsb_exists, bool_decide_eq_true, Exists_exists.
    by setoid_rewrite list_elem_of_In. }
  cbv zeta in He |- *. rewrite Hs in He. clear Hs. destruct (match r with Ok _ => _ | Err _ => _ end);
    destruct (freeze_label (d_Meta d)), (deployment_condition d); cbn [negb orb] in He;
    first [by destruct He as [-> _]|by apply exec_freeze_deployment in He|by apply exec_unfreeze_deployment in He].
Qed.

(** ** A deployment without rolling update settings *)

(** The overshooting check dereferences the rolling update settings whatever the strategy is: as soon
    as it reaches a machine set of a deployment without them, as a Recreate deployment may be, it panics. *)
Theorem recreate_panics_overshooting o ms sets machines h d ds : exec (getMachineDeploymentsForMachineSet ms) h (Return (d :: ds)) ->
  str_RollingUpdate (md_Strategy (d_Spec d)) = None ->
  exec (check_machine_sets o (ms :: sets)) (ev ListerMachines (Ok machines) :: h) Panic.
Proof.
  intros He Hr. cbn [check_machine_sets]. apply exec_Call_inv. cbn [bind]. rewrite <- (app_nil_r h). eapply exec_ret_bind; [exact He|].
  unfold thresholds. rewrite Hr. done.
Qed.

(** ** The second look at an orphan *)

Section second_look.
Variables (o : safety_options) (range : strmap -> list (string * string)).
Hypothesis range_perm : forall m, range m ≡ₚ map_to_list m.

(** What the live answer has to be for the deletion to go on. *)
Definition confirmed (id : string) (r : result Machine) : Prop :=
  match r with Ok m => sp_ProviderID (m_Spec m) <> id | Err e => IsNotFound e = true \/ id <> EmptyString end.

Definition spares (e : event) : Prop := match projT1 e with DriverDelete _ _ => False | _ => True end.

Definition confirms (id name : string) (h : history) : Prop :=
  exists x, ev (GetMachine (sa_namespace o) name) x ∈ h /\ confirmed id x.

Lemma exec_recheck_machine dvr id name vm h out : exec (recheck_machine o dvr id name vm) h out ->
  out = Return tt /\ (Forall spares h \/ vm.1 = id /\ confirms id name h) /\
  Forall (fun e => spares e \/ exists d, projT1 e = DriverDelete d id) h.
Proof.
  unfold recheck_machine. case_bool_decide as Hid; [|intros [-> ->]; split_and!; [done|by left|done]].
  intros (y & h2 & -> & E). cbn [bind call_try] in E. cbv zeta in E. destruct (_ || _) eqn:Ec.
  - destruct E as (z & h3 & -> & -> & ->). split; [done|]. split; [|by constructor; [left|constructor; [right; by eexists|]]].
    right. split; [done|]. exists y. split; [left|]. unfold confirmed. destruct y as [m|e]; cbn [orb] in Ec.
    + by apply negb_true_iff, bool_decide_eq_false in Ec.
    + apply orb_true_iff in Ec as [?|Ec]; [by left|right]. by apply negb_true_iff, bool_decide_eq_false in Ec.
  - destruct E as [-> ->]. split; [done|]. split; [left; by constructor|by constructor; [left|]].
Qed.

Lemma exec_recheck_loop dvr id name l h out : exec (for_each l (recheck_machine o dvr id name)) h out ->
  out = Return tt /\ (Forall spares h \/ id ∈ l.*1 /\ confirms id name h) /\
  Forall (fun e => spares e \/ exists d, projT1 e = DriverDelete d id) h.
Proof.
  revert h. induction l as [|vm l IH]; intros h He; [destruct He as [-> ->]; split_and!; [done|by left|done]|].
  cbn [for_each] in He. apply exec_bind in He as [(h1 & [] & h2 & -> & E1 & He)|(o' & E1 & Hf & _)];
    apply exec_recheck_machine in E1 as (Hr & E1 & F1); [|by subst].
  apply IH in He as (-> & E2 & F2). split; [done|]. split; [|by apply Forall_app]. cbn [fmap list_fmap].
  destruct E1 as [E1|[H1 (x & Hx & Hc)]].
  - destruct E2 as [E2|[H2 (x & Hx & Hc)]]; [left; by apply Forall_app|right]. split; [by right|]. exists x. split; [|done].
    apply elem_of_app. by right.
  - right. subst id. split; [left|]. exists x. split; [|done]. apply elem_of_app. by left.
Qed.

Lemma exec_recheck dvr id name h out : exec (recheck_vm o range dvr id name) h out ->
  out = Return tt /\ Forall (fun e => spares e \/ exists d, projT1 e = DriverDelete d id) h /\
  (Forall spares h \/ (exists vms, ev (DriverGetVMs dvr id) (Ok vms) ∈ h /\ is_Some (vms !! id)) /\ confirms id name h).
Proof.
  intros (x & h' & -> & He). cbn [bind call_try] in He. apply exec_recheck_loop in He as (-> & E & F).
  split_and!; [done|constructor; [by left|done]|]. destruct E as [E|[Hin (y & Hy & Hc)]]; [left; by constructor|right]. split.
  - destruct x as [vms|e]; cbn [answer] in *.
    + exists vms. split; [left|]. rewrite range_perm in Hin. apply list_elem_of_fmap in Hin as ([? v] & -> & Hv).
      exists v. by apply elem_of_map_to_list.
    + rewrite range_perm, map_to_list_empty in Hin. by apply not_elem_of_nil in Hin.
  - exists y. split; [by right|done].
Qed.

Lemma spares_no_driver_delete h d id x : Forall spares h -> ev (DriverDelete d id) x ∉ h.
Proof. intros HF Hin. rewrite Forall_forall in HF. by apply HF in Hin. Qed.

(** What has been established when the VM with the ID [id] and the name [name] is deleted. *)
Definition second_look (dvr : InTreeDriver) (id name : string) (h : history) : Prop :=
  exists r, ev (ListerGetMachine (sa_namespace o) name) r ∈ h /\
    match r with
    | Ok m => sp_ProviderID (m_Spec m) <> id /\ m_Phase m <> EmptyString /\ m_Phase m <> MachineCrashLoopBackOff
    | Err e => IsNotFound e = true
    end /\
    (exists vms', ev (DriverGetVMs dvr id) (Ok vms') ∈ h /\ is_Some (vms' !! id)) /\ confirms id name h.

Lemma second_look_mono dvr id name h h' : h ⊆ h' -> second_look dvr id name h -> second_look dvr id name h'.
Proof.
  intros Hs (r & H1 & H2 & (vms & H3 & H4) & y & H5 & H6). exists r. split_and!; [by apply Hs|done| |].
  - exists vms. split; [by apply Hs|done].
  - exists y. split; [by apply Hs|done].
Qed.

Lemma exec_recheck_deletes dvr id name h out d id' x : exec (recheck_vm o range dvr id name) h out -> ev (DriverDelete d id') x ∈ h ->
  id' = id /\ (exists vms, ev (DriverGetVMs dvr id) (Ok vms) ∈ h /\ is_Some (vms !! id)) /\ confirms id name h.
Proof.
  intros (_ & HF & Hs)%exec_recheck Hin. destruct Hs as [Hs|Hs]; [by eapply spares_no_driver_delete in Hs|]. split; [|done].
  rewrite Forall_forall in HF. destruct (HF _ Hin) as [[]|[d' [= <- <-]]]. done.
Qed.

Lemma exec_check_vm_deletes dvr id name h out d id' x : exec (check_vm o range dvr (id, name)) h out -> ev (DriverDelete d id') x ∈ h ->
  id' = id /\ second_look dvr id name h.
Proof.
  intros (r & h' & -> & He) [[=]%(f_equal (@projT1 _ _))|Hin]%elem_of_cons. cbn [bind call_try] in He.
  enough (match r with Ok m => sp_ProviderID (m_Spec m) <> id /\ m_Phase m <> EmptyString /\ m_Phase m <> MachineCrashLoopBackOff
               | Err e => IsNotFound e = true end /\ exec (recheck_vm o range dvr id name) h' out) as [Hr E].
  - destruct (exec_recheck_deletes _ _ _ _ _ _ _ _ E Hin) as (-> & (vms & Hv & Hs) & y & Hy & Hc). split; [done|]. exists r.
    split_and!; [left|done|exists vms; split; [by right|done]|exists y; split; [by right|done]].
  - destruct r as [m|e]; [|destruct (IsNotFound e); [done|]; destruct He as [-> _]; by apply not_elem_of_nil in Hin].
    repeat (case_bool_decide; cbn [orb] in He; [destruct He as [-> _]; by apply not_elem_of_nil in Hin|]). done.
Qed.

Lemma for_each_deletes dvr l h out d id x : exec (for_each l (check_vm o range dvr)) h out -> ev (DriverDelete d id) x ∈ h ->
  exists name, (id, name) ∈ l /\ second_look dvr id name h.
Proof.
  revert h. induction l as [|[id' name] l IH]; intros h He Hin; [destruct He as [-> _]; by apply not_elem_of_nil in Hin|].
  assert (Hfst : forall h1 o', exec (check_vm o range dvr (id', name)) h1 o' -> ev (DriverDelete d id) x ∈ h1 ->
    (id, name) ∈ (id', name) :: l /\ second_look dvr id name h1).
  { intros h1 o' E H1. destruct (exec_check_vm_deletes _ _ _ _ _ _ _ _ E H1) as [-> ?]. split; [left|done]. }
  cbn [for_each] in He. apply exec_bind in He as [(h1 & [] & h2 & -> & E1 & He)|(o' & E1 & _)].
  - apply elem_of_app in Hin as [Hin|Hin].
    + destruct (Hfst _ _ E1 Hin) as [H1 H2]. exists name. split; [done|]. eapply second_look_mono; [|done]. set_solver.
    + destruct (IH _ He Hin) as (name' & H1 & H2). exists name'. split; [by right|]. eapply second_look_mono; [|done]. set_solver.
  - destruct (Hfst _ _ E1 Hin) as [H1 H2]. by exists name.
Qed.

Lemma spares_getSecretData refs : emits spares (attempt (getSecretData refs)).
Proof. unfold getSecretData. by emits_all. Qed.

Lemma spares_sync n : emits spares (if (1 <? n)%nat then Call WaitForCacheSync (fun x => Ret (match x with Ok b => b | Err _ => false end))
  else Ret true).
Proof. by emits_all. Qed.

(** A VM is deleted as an orphan only after a second look.  The cache must have no machine of that
    name, or one with another provider ID that is neither new nor in CrashLoopBackOff; the driver must list
    the VM once more; and the API server, asked for the machine, must have answered: not found, a machine
    with another provider ID, or any error at all (the error is not looked at, and the empty object that
    comes with it has another ID). *)
Theorem orphan_second_look class h out d id x : exec (checkMachineClass o range class) h out -> ev (DriverDelete d id) x ∈ h ->
  exists dvr vms name, ev (DriverGetVMs dvr EmptyString) (Ok vms) ∈ h /\ vms !! id = Some name /\ second_look dvr id name h.
Proof.
  unfold checkMachineClass. intros He Hin.
  apply exec_bind in He as [(h1 & r & h2 & -> & E1 & He)|(o' & E1 & _)]; apply spares_getSecretData in E1;
    [|by eapply spares_no_driver_delete in E1].
  apply elem_of_app in Hin as [Hin|Hin]; [by eapply spares_no_driver_delete in E1|].
  assert (Hno : forall l : history, Forall spares l -> ev (DriverDelete d id) x ∉ l) by (intros l; apply spares_no_driver_delete).
  destruct r as [[secretData|]|err]; try (destruct He as [-> _]; by apply not_elem_of_nil in Hin).
  destruct He as (y & h3 & -> & He). cbn [bind call_try] in He. cbv zeta in He.
  apply elem_of_cons in Hin as [[=]%(f_equal (@projT1 _ _))|Hin].
  apply exec_bind in He as [(h4 & b & h5 & -> & E2 & He)|(o' & E2 & _)]; apply spares_sync in E2; [|by apply Hno in E2].
  apply elem_of_app in Hin as [Hin|Hin]; [by apply Hno in E2|].
  destruct b; cbn [negb] in He; [|destruct He as [-> _]; by apply not_elem_of_nil in Hin].
  destruct (for_each_deletes _ _ _ _ _ _ _ He Hin) as (name & Hr & Hs). rewrite range_perm in Hr. apply elem_of_map_to_list in Hr.
  destruct y as [vms|e]; [|exfalso; by eapply (lookup_empty_Some (M := gmap string))].
  eexists _, vms, name. split_and!; [apply elem_of_app; right; left|done|]. eapply second_look_mono; [|done]. set_solver.
Qed.
End second_look.

(** ** Worlds *)

Definition small_options : safety_options := mkSafety "shoot" 1 1 (30 * Minute) Minute.

(** A machine of the machine set ms1. *)
Definition owned_machine (name : string) : Machine :=
  m_set_Meta (fun m => mkMeta (Name m) (GenerateName m) (Namespace m) (UID m) (ResourceVersion m) (Generation m) (CreationTimestamp m)
    (DeletionTimestamp m) (Labels m) (Annotations m) [mkOwnerRef "" "MachineSet" "ms1" "ms1" (Some true) None] (Finalizers m))
    (sample_machine name MachineRunning).

(** One machine set with three machines, and its deployment [d]; writes succeed and return what is written. *)
Definition crowded_world (d : MachineDeployment) (r : req) (w : unit) : unit * result (answer r) :=
  (w, match r return result (answer r) with
      | Now => Ok 5000
      | ListerMachineSets => Ok [sample_ms "ms1" 1 1]
      | ListerMachines => Ok [owned_machine "m1"; owned_machine "m2"; owned_machine "m3"]
      | ListerMachineDeployments => Ok [d]
      | GetMS _ name => Ok (sample_ms name 1 1)
      | UpdateMS ms => Ok ms
      | UpdateStatusMS ms => Ok ms
      | GetMD _ _ => Ok d
      | UpdateMD d => Ok d
      | UpdateStatusMD d => Ok d
      | _ => Err (Errorf "unexpected")
      end).

(** Three machines where the limit is three: the set is frozen. *)
Abbreviation overshot := (run (crowded_world (sample_md 1 1 0)) (checkAndFreezeORUnfreezeMachineSets small_options) tt).

Lemma overshooting_verdict_witness : overshot.2 = Return tt /\ exists before after hs h2, [sample_ms "ms1" 1 1] = before ++ after /\
  tail overshot.1.2 = concat hs ++ h2 /\ Forall2 (left_alone small_options) before hs /\
  match after with
  | [] => h2 = [] /\ overshot.2 = Return tt
  | ms :: _ => not_looked_at small_options ms h2 overshot.2 \/ changed small_options ms h2 overshot.2
  end.
Proof.
  split; [vm_compute; reflexivity|].
  destruct (overshooting_verdict _ _ _ (run_exec (crowded_world (sample_md 1 1 0)) (checkAndFreezeORUnfreezeMachineSets small_options) tt))
    as (x & rest & Hh & Hx).
  assert (Hx' : overshot.1.2 = ev ListerMachineSets (Ok [sample_ms "ms1" 1 1]) :: tail overshot.1.2) by (vm_compute; reflexivity).
  rewrite Hh in Hx'. assert (Hr : rest = tail overshot.1.2) by (rewrite Hh; reflexivity).
  assert (Hxe : x = Ok [sample_ms "ms1" 1 1]) by (apply event_inj; congruence). subst x.
  destruct Hx as (before & after & hs & h2 & H1 & H2 & _ & H3 & H4). rewrite Hr in H2. exists before, after, hs, h2.
  split; [exact H1|]. split; [exact H2|]. split; [exact H3|exact H4].
Defined.

Example overshot_frozen : exists ms x, ev (UpdateMS ms) x ∈ overshot.1.2 /\ freeze_label (is_Meta ms) = true.
Proof. do 2 eexists. split; [vm_compute; do 6 right; left|reflexivity]. Qed.

Abbreviation freezing := (run (crowded_world (sample_md 1 1 0)) (freeze_machine_set (sample_ms "ms1" 1 1) "reason" "message") tt).

Lemma freeze_stops_creation_witness : exists ms2 x, last freezing.1.2 = Some (ev (UpdateMS ms2) (Ok x)) /\ freeze_label (is_Meta ms2) = true.
Proof.
  assert (Hr : exists ms1, freezing.2 = Return ms1) by (eexists; vm_compute; reflexivity). destruct Hr as [ms1 Hr].
  pose proof (run_exec (crowded_world (sample_md 1 1 0)) (freeze_machine_set (sample_ms "ms1" 1 1) "reason" "message") tt) as He.
  rewrite Hr in He. destruct (freeze_stops_creation _ _ _ _ _ He) as (ms2 & x & H1 & H2 & _). exists ms2, x. split; [exact H1|exact H2].
Defined.

(** A deployment with the label but without frozen machine sets. *)
Definition stale_md : MachineDeployment := d_set_Meta put_freeze (sample_md 1 1 0).
Abbreviation synced := (run (crowded_world stale_md) (sync_deployment stale_md) tt).

Lemma sync_deployment_spec_witness : exists h1 h2 r, synced.1.2 = h1 ++ h2 /\
  exec (attempt (getMachineSetsForMachineDeployment stale_md)) h1 (Return r).
Proof.
  assert (Hr : synced.2 = Return tt) by (vm_compute; reflexivity).
  pose proof (run_exec (crowded_world stale_md) (sync_deployment stale_md) tt) as He. rewrite Hr in He.
  destruct (sync_deployment_spec _ _ He) as (h1 & h2 & r & H1 & H2 & _). exists h1, h2, r. split; [exact H1|exact H2].
Defined.

Definition recreate_md : MachineDeployment :=
  let d := sample_md 1 1 0 in
  mkMD (d_Meta d) (mkMDSpec 1 (Some sample_selector) sample_template (mkStrategy RecreateStrategyType None) 0 None false None None) (d_Status d).

Lemma recreate_panics_overshooting_witness :
  exec (check_machine_sets small_options [sample_ms "ms1" 1 1])
    (ev ListerMachines (Ok [owned_machine "m1"]) :: [ev ListerMachineDeployments (Ok [recreate_md])]) Panic.
Proof.
  apply (recreate_panics_overshooting small_options (sample_ms "ms1" 1 1) [] [owned_machine "m1"] _ recreate_md []); [|reflexivity].
  do 2 eexists. split; [reflexivity|]. split; reflexivity.
Defined.

(** Two VMs: the one of machine m1, and one whose machine is gone. *)
Definition vms_world (r : req) (w : unit) : unit * result (answer r) :=
  (w, match r return result (answer r) with
      | ListerGetSecret _ _ => Ok (mkSecret (sample_meta "cred" "s") "Opaque" ∅)
      | DriverGetVMs _ _ => Ok {[ "i-1" := "m1"; "i-2" := "gone" ]}
      | WaitForCacheSync => Ok true
      | ListerGetMachine _ name | GetMachine _ name =>
          if bool_decide (name = "m1") then Ok (m_set_Spec (sp_set_ProviderID "i-1") (sample_machine "m1" MachineRunning))
          else Err (mkErr NotFound "not found")
      | DriverDelete _ _ => Ok tt
      | _ => Err (Errorf "unexpected")
      end).

Definition vms_class : ProviderClass :=
  mkProviderClass (sample_meta "small" "c1") (Some (mkSecretRef "cred" "shoot")) None
    (PacketSpec (mkPacketSpec [] "" "" "" "" [] [] "")).
Abbreviation looked := (run vms_world (checkMachineClass small_options map_to_list vms_class) tt).

Lemma orphan_second_look_witness : exists dvr vms name, ev (DriverGetVMs dvr EmptyString) (Ok vms) ∈ looked.1.2 /\ vms !! "i-2" = Some name /\
  second_look small_options dvr "i-2" name looked.1.2.
Proof.
  assert (Hin : exists d x, ev (DriverDelete d "i-2") x ∈ looked.1.2) by (do 2 eexists; vm_compute; do 7 right; left).
  destruct Hin as (d & x & Hin).
  exact (orphan_second_look small_options map_to_list (fun m => reflexivity _) vms_class _ _ d "i-2" x (run_exec vms_world _ tt) Hin).
Defined.
