(* ===== verification/StringSimilarity.v ===== *)
(** * String similarity (pkg/util/strings/strings.go)

    The Levenshtein distance by dynamic programming over one column, as the source computes it, its
    equivalence with the cheapest edit script, and the similarity ratio.  [len(s)] counts bytes. *)
From Stdlib Require Import ZArith Lia Ascii String QArith.
From stdpp Require Import base strings list.
From S2P Require Import Prelude GoLib.
Open Scope nat_scope.

Definition minimum (a b c : nat) : nat :=
  if a <? b then (if a <? c then a else c) else (if b <? c then b else c).

Definition incr (a b : ascii) : nat := if bool_decide (a = b) then 0 else 1.

(** The loop over [y] for one byte [b] of [str2]: [prev] is [column[y-1]] already replaced, the list
    holds [column[y..]] not yet replaced. *)
Fixpoint lev_inner (s1 : list ascii) (b : ascii) (prev lastkey : nat) (column : list nat) : list nat :=
  match s1, column with
  | a :: s1, oldkey :: column =>
      let v := minimum (oldkey + 1) (prev + 1) (lastkey + incr a b) in
      v :: lev_inner s1 b v oldkey column
  | _, _ => []
  end.

(** The loop over [x], counted from the bytes of [str2] already done. *)
Fixpoint lev_outer (s1 s2 : list ascii) (x : nat) (column : list nat) : list nat :=
  match s2 with
  | [] => column
  | b :: s2 => lev_outer s1 s2 (S x) (S x :: lev_inner s1 b (S x) x (tail column))
  end.

Definition Levenshtein (str1 str2 : string) : nat :=
  let s1 := list_ascii_of_string str1 in
  let s2 := list_ascii_of_string str2 in
  List.last (lev_outer s1 s2 0 (seq 0 (S (length s1)))) 0.

(** [1.0 - changes/avgLen]; two empty strings give a NaN, which is [None].  The exact quotient decides
    every comparison with 0.75 as [float64] does: it differs from 0.25 by at least 1/(4 len), far more
    than the rounding error. *)
Definition StringSimilarityRatio (str1 str2 : string) : option Q :=
  let len := String.length str1 + String.length str2 in
  if bool_decide (len = 0) then None
  else
    let avgLen := (inject_Z (Z.of_nat len) / 2)%Q in
    Some (1 - inject_Z (Z.of_nat (Levenshtein str1 str2)) / avgLen)%Q.

(** [ratio > t]: false for a NaN. *)
Definition ratio_above (t : Q) (ratio : option Q) : bool :=
  match ratio with Some r => negb (Qle_bool r t) | None => false end.

(** ** Edit scripts: the reference *)

(** A script turns the first list into the second by keeping, replacing, deleting and inserting bytes;
    its cost counts the last three. *)
Inductive script : list ascii -> list ascii -> nat -> Prop :=
  | script_nil : script [] [] 0
  | script_keep a b s t n : script s t n -> script (a :: s) (b :: t) (incr a b + n)
  | script_del a s t n : script s t n -> script (a :: s) t (S n)
  | script_ins b s t n : script s t n -> script s (b :: t) (S n).

(** The textbook recursion. *)
Fixpoint dist (s : list ascii) : list ascii -> nat :=
  match s with
  | [] => fun t => length t
  | a :: s' =>
      fix go (t : list ascii) : nat :=
        match t with
        | [] => length s
        | b :: t' => minimum (S (dist s' t)) (S (go t')) (dist s' t' + incr a b)
        end
  end.

Lemma minimum_min a b c : minimum a b c = Nat.min a (Nat.min b c).
Proof. unfold minimum. destruct (Nat.ltb_spec a b), (Nat.ltb_spec a c), (Nat.ltb_spec b c); lia. Qed.

Lemma dist_nil_r s : dist s [] = length s.
Proof. by destruct s. Qed.

Lemma dist_cons a s b t :
  dist (a :: s) (b :: t) = minimum (S (dist s (b :: t))) (S (dist (a :: s) t)) (dist s t + incr a b).
Proof. done. Qed.

Lemma dist_del a s t : dist (a :: s) t <= S (dist s t).
Proof. destruct t as [|b t]; [simpl; by rewrite dist_nil_r|]. rewrite dist_cons, minimum_min. lia. Qed.

Lemma dist_ins b s t : dist s (b :: t) <= S (dist s t).
Proof. destruct s as [|a s]; [done|]. rewrite dist_cons, minimum_min. lia. Qed.

Lemma dist_script s t : script s t (dist s t).
Proof.
  revert t; induction s as [|a s IHs]; intros t.
  - induction t as [|b t IHt]; [constructor|]. by apply (script_ins b).
  - induction t as [|b t IHt].
    + specialize (IHs []). rewrite dist_nil_r in IHs. by apply (script_del a).
    + rewrite dist_cons, minimum_min.
      destruct (Nat.min_spec (S (dist s (b :: t))) (Nat.min (S (dist (a :: s) t)) (dist s t + incr a b))) as [[_ ->]|[_ ->]];
        [by apply script_del|].
      destruct (Nat.min_spec (S (dist (a :: s) t)) (dist s t + incr a b)) as [[_ ->]|[_ ->]]; [by apply script_ins|].
      rewrite Nat.add_comm. by apply script_keep.
Qed.

Lemma dist_least s t n : script s t n -> dist s t <= n.
Proof.
  induction 1 as [|a b s t n _ IH|a s t n _ IH|b s t n _ IH]; [done|..].
  - rewrite dist_cons, minimum_min. lia.
  - pose proof (dist_del a s t). lia.
  - pose proof (dist_ins b s t). lia.
Qed.

Lemma script_app s t n s' t' n' : script s t n -> script s' t' n' -> script (s ++ s') (t ++ t') (n + n').
Proof.
  induction 1; intros Hs; simpl; [done|rewrite <- Nat.add_assoc; by constructor; auto|constructor; auto..].
Qed.

Lemma script_rev s t n : script s t n -> script (rev s) (rev t) n.
Proof.
  induction 1 as [|a b s t n _ IH|a s t n _ IH|b s t n _ IH]; simpl; [constructor|..].
  - rewrite Nat.add_comm. apply script_app; [done|]. rewrite <- (Nat.add_0_r (incr a b)). repeat constructor.
  - rewrite <- (app_nil_r (rev t)), <- Nat.add_1_r. apply script_app; [done|]. repeat constructor.
  - rewrite <- (app_nil_r (rev s)), <- Nat.add_1_r. apply script_app; [done|]. repeat constructor.
Qed.

Lemma dist_rev s t : dist (rev s) (rev t) = dist s t.
Proof.
  apply Nat.le_antisymm; apply dist_least.
  - apply script_rev, dist_script.
  - rewrite <- (rev_involutive s), <- (rev_involutive t) at 1. apply script_rev, dist_script.
Qed.

(** ** The column *)

(** Entry [y] of the column for the prefix [p] of [str1] and the suffix [s1] still to come. *)
Fixpoint column_from (p s1 t : list ascii) : list nat :=
  dist p t :: match s1 with [] => [] | a :: s1 => column_from (a :: p) s1 t end.

Lemma lev_inner_column p s1 b t :
  lev_inner s1 b (dist p (b :: t)) (dist p t) (tail (column_from p s1 t)) = tail (column_from p s1 (b :: t)).
Proof.
  revert p; induction s1 as [|a s1 IH]; intros p; [done|].
  cbn [column_from tail lev_inner].
  assert (Hsplit : column_from (a :: p) s1 t = dist (a :: p) t :: tail (column_from (a :: p) s1 t)) by by destruct s1.
  assert (Hsplit' : column_from (a :: p) s1 (b :: t) = dist (a :: p) (b :: t) :: tail (column_from (a :: p) s1 (b :: t)))
    by by destruct s1.
  rewrite Hsplit, Hsplit'.
  assert (minimum (dist (a :: p) t + 1) (dist p (b :: t) + 1) (dist p t + incr a b) = dist (a :: p) (b :: t)) as ->.
  { rewrite dist_cons, !minimum_min. lia. }
  f_equal. apply IH.
Qed.

Lemma column_initial p s1 : column_from p s1 [] = seq (length p) (S (length s1)).
Proof.
  revert p; induction s1 as [|a s1 IH]; intros p; simpl; rewrite dist_nil_r; [done|]. f_equal. by rewrite IH.
Qed.

Lemma lev_outer_column s1 s2 t : lev_outer s1 s2 (length t) (column_from [] s1 t) = column_from [] s1 (rev s2 ++ t).
Proof.
  revert t; induction s2 as [|b s2 IH]; intros t; [done|]. cbn [lev_outer rev]. rewrite <- app_assoc. simpl app.
  rewrite <- (IH (b :: t)). f_equal. pose proof (lev_inner_column [] s1 b t) as Hi. simpl dist in Hi. rewrite Hi. by destruct s1.
Qed.

Lemma column_last p s1 t : List.last (column_from p s1 t) 0 = dist (rev s1 ++ p) t.
Proof.
  revert p; induction s1 as [|a s1 IH]; intros p; [done|]. cbn [column_from rev]. rewrite <- app_assoc. simpl app.
  rewrite <- IH. by destruct s1.
Qed.

Lemma Levenshtein_dist str1 str2 : Levenshtein str1 str2 = dist (list_ascii_of_string str1) (list_ascii_of_string str2).
Proof.
  unfold Levenshtein. cbv zeta. rewrite <- (column_initial []). rewrite (lev_outer_column _ _ []), column_last, !app_nil_r.
  apply dist_rev.
Qed.

(** C39: [Levenshtein] returns the cost of a cheapest edit script: there is a script of that cost, and
    none is cheaper. *)
Theorem Levenshtein_cheapest str1 str2 :
  script (list_ascii_of_string str1) (list_ascii_of_string str2) (Levenshtein str1 str2) /\
  forall n, script (list_ascii_of_string str1) (list_ascii_of_string str2) n -> Levenshtein str1 str2 <= n.
Proof. rewrite Levenshtein_dist. split; [apply dist_script|apply dist_least]. Qed.

(** ** Bounds *)

Definition count (p : ascii -> bool) (s : list ascii) : nat := length (filter (fun c => p c = true) s).

Lemma count_cons p c s : count p (c :: s) = (if p c then 1 else 0) + count p s.
Proof. unfold count. rewrite filter_cons. by destruct (p c); case_decide. Qed.

Lemma count_app p s t : count p (s ++ t) = count p s + count p t.
Proof. unfold count. by rewrite filter_app, length_app. Qed.

(** Bytes of a kind that one list has more of than the other have to be deleted or replaced. *)
Lemma dist_count p s t : count p s <= dist s t + count p t /\ count p t <= dist s t + count p s.
Proof.
  induction (dist_script s t) as [|a b s t n _ IH|a s t n _ IH|b s t n _ IH]; [done|..]; rewrite ?count_cons.
  - unfold incr. case_bool_decide as Hab; [subst; lia|]. destruct (p a), (p b); lia.
  - destruct (p a); lia.
  - destruct (p b); lia.
Qed.

Lemma length_list_ascii s : length (list_ascii_of_string s) = String.length s.
Proof. induction s as [|c s IH]; simpl; [done|]. by rewrite IH. Qed.

Lemma ratio_above_075 str1 str2 :
  ratio_above (3 # 4) (StringSimilarityRatio str1 str2) = true <->
  8 * Levenshtein str1 str2 < String.length str1 + String.length str2.
Proof.
  unfold StringSimilarityRatio. set (len := String.length str1 + String.length str2).
  generalize (Levenshtein str1 str2) as d; intros d. case_bool_decide as Hl; [simpl; lia|].
  simpl. rewrite negb_true_iff.
  assert (Hq : (1 - inject_Z (Z.of_nat d) / (inject_Z (Z.of_nat len) / 2) <= 3 # 4)%Q <-> len <= 8 * d).
  { set (L := inject_Z (Z.of_nat len)). set (D := inject_Z (Z.of_nat d)).
    assert (HL : (0 < L)%Q) by (unfold L; rewrite <- (Zlt_Qlt 0); lia).
    assert (He : (1 - D / (L / 2) == 1 - (2 * D) / L)%Q) by (field; intros H0; rewrite H0 in HL; by apply Qlt_irrefl in HL).
    rewrite He. clear He.
    assert (Hm : (1 - (2 * D) / L <= 3 # 4)%Q <-> ((1 # 4) * L <= 2 * D)%Q).
    { split; intros H.
      - assert (H2 : ((1 # 4) <= 2 * D / L)%Q) by (apply (Qplus_le_l _ _ ((3 # 4) - 2 * D / L)); ring_simplify; ring_simplify in H; exact H).
        apply (Qmult_le_r _ _ L HL) in H2. unfold Qdiv in H2. rewrite <- Qmult_assoc, (Qmult_comm (/ L)), Qmult_inv_r, Qmult_1_r in H2; [done|].
        intros H0; rewrite H0 in HL; by apply Qlt_irrefl in HL.
      - assert (H2 : ((1 # 4) <= 2 * D / L)%Q).
        { apply (Qmult_le_r _ _ L HL). unfold Qdiv. rewrite <- Qmult_assoc, (Qmult_comm (/ L)), Qmult_inv_r, Qmult_1_r; [done|].
          intros H0; rewrite H0 in HL; by apply Qlt_irrefl in HL. }
        apply (Qplus_le_l _ _ (2 * D / L - (3 # 4))). ring_simplify. ring_simplify in H2. exact H2. }
    rewrite Hm. unfold L, D, Qle. simpl. lia. }
  split.
  - intros H. destruct (Nat.lt_ge_cases (8 * d) len) as [?|Hge]; [done|]. apply Hq, Qle_bool_iff in Hge. congruence.
  - intros H. apply not_true_is_false. intros Hb. apply Qle_bool_iff, Hq in Hb. lia.
Qed.

(** Strings whose bytes of one kind differ much in number are not similar. *)
Lemma not_similar_count p str1 str2 :
  String.length str1 + String.length str2 + 8 * count p (list_ascii_of_string str1) <= 8 * count p (list_ascii_of_string str2) \/
  String.length str1 + String.length str2 + 8 * count p (list_ascii_of_string str2) <= 8 * count p (list_ascii_of_string str1) ->
  ratio_above (3 # 4) (StringSimilarityRatio str1 str2) = false.
Proof.
  intros H. apply not_true_is_false. rewrite ratio_above_075, Levenshtein_dist.
  destruct (dist_count p (list_ascii_of_string str1) (list_ascii_of_string str2)). lia.
Qed.
