(* ===== verification/MachineCodes.v ===== *)
(** * Error codes of the driver (pkg/util/provider/machinecodes)

    The driver's errors carry a code in their text.  [FromError] finds it with a regular expression for
    a pair of square brackets with no bracket between them, which must match exactly twice. *)
From Stdlib Require Import ZArith Lia Ascii String.
From stdpp Require Import base gmap strings list.
From S2P Require Import Prelude GoLib.
Open Scope Z_scope.

(** ** codes *)

(** [type Code uint32]. *)
Abbreviation Code := Z.
Definition OK : Code := 0.
Definition Canceled : Code := 1.
Definition Unknown : Code := 2.
Definition InvalidArgument : Code := 3.
Definition DeadlineExceeded : Code := 4.
Definition CodeNotFound : Code := 5.
Definition CodeAlreadyExists : Code := 6.
Definition PermissionDenied : Code := 7.
Definition ResourceExhausted : Code := 8.
Definition FailedPrecondition : Code := 9.
Definition Aborted : Code := 10.
Definition OutOfRange : Code := 11.
Definition Unimplemented : Code := 12.
Definition Internal : Code := 13.
Definition Unavailable : Code := 14.
Definition DataLoss : Code := 15.
Definition Unauthenticated : Code := 16.

Definition code_names : list (string * Code) :=
  [("OK", OK); ("Canceled", Canceled); ("Unknown", Unknown); ("InvalidArgument", InvalidArgument);
   ("DeadlineExceeded", DeadlineExceeded); ("NotFound", CodeNotFound); ("AlreadyExists", CodeAlreadyExists);
   ("PermissionDenied", PermissionDenied); ("ResourceExhausted", ResourceExhausted);
   ("FailedPrecondition", FailedPrecondition); ("Aborted", Aborted); ("OutOfRange", OutOfRange);
   ("Unimplemented", Unimplemented); ("Internal", Internal); ("Unavailable", Unavailable);
   ("DataLoss", DataLoss); ("Unauthenticated", Unauthenticated)].

(** [Code.String]. *)
Definition code_String (c : Code) : string :=
  match list_find (fun e : string * Code => e.2 = c) code_names with
  | Some (_, e) => e.1
  | None => "Code(" +:+ FormatInt c +:+ ")"
  end.

Definition StringToCode (input : string) : Code :=
  match list_find (fun e : string * Code => e.1 = input) code_names with
  | Some (_, e) => e.2
  | None => Unknown
  end.

(** ** status *)

Record Status := mkStatus { status_code : Z; status_message : string }.

(** [int32(c)] and back. *)
Definition New (c : Code) (msg : string) : Status := mkStatus (wrap32 c) msg.
Definition status_Code (s : option Status) : Code :=
  match s with None => OK | Some s => status_code s mod 2 ^ 32 end.
Definition status_Error (s : Status) : string :=
  "machine codes error: code = [" +:+ code_String (status_Code (Some s)) +:+
  "] message = [" +:+ status_message s +:+ "]".
(** [status.Error(c, msg)] as an error value of the driver. *)
Definition Error (c : Code) (msg : string) : error := Errorf (status_Error (New c msg)).

(** [strings.Trim(s, c)] for one byte. *)
Fixpoint trim_left (c : ascii) (s : string) : string :=
  match s with
  | String x r => if bool_decide (x = c) then trim_left c r else s
  | EmptyString => EmptyString
  end.
Fixpoint trim_right (c : ascii) (s : string) : string :=
  match s with
  | EmptyString => EmptyString
  | String x r =>
      match trim_right c r with
      | EmptyString => if bool_decide (x = c) then EmptyString else String x EmptyString
      | r' => String x r'
      end
  end.
Definition Trim (c : ascii) (s : string) : string := trim_right c (trim_left c s).

(** What the expression matches after an opening bracket: up to the closing one. *)
Fixpoint group (s : string) : option string :=
  match s with
  | EmptyString => None
  | String c r =>
      if bool_decide (c = "]"%char) then Some "]"
      else if bool_decide (c = "["%char) then None
      else String c <$> group r
  end.

(** [re.FindAllString(input, -1)]: a match holds no opening bracket after its first byte, so that no
    other match starts inside it. *)
Fixpoint FindAllString (s : string) : list string :=
  match s with
  | EmptyString => []
  | String c r =>
      (if bool_decide (c = "["%char) then
         match group r with Some g => [String c g] | None => [] end
       else []) ++ FindAllString r
  end.

Definition findInString (input : string) : result (list string) :=
  let submatchall := FindAllString input in
  if negb (bool_decide (length submatchall = 2%nat)) then Err (Errorf "Unable to decode for machine code error")
  else Ok (map (fun element => Trim "]" (Trim "[" element)) submatchall).

(** The status of an error and whether it could be decoded. *)
Definition FromError (err : option error) : option Status * bool :=
  match err with
  | None => (None, true)
  | Some e =>
      match findInString (err_msg e) with
      | Ok (m0 :: m1 :: _) => (Some (New (StringToCode m0) m1), true)
      | _ => (Some (New Unknown (err_msg e)), false)
      end
  end.

(** What the controller looks at: the code, when the error can be decoded. *)
Definition error_code (e : error) : option Code :=
  match FromError (Some e) with
  | (s, true) => Some (status_Code s)
  | (_, false) => None
  end.

(** ** Lemmas *)

Definition no_brackets (s : string) : Prop := has_byte "[" s = false /\ has_byte "]" s = false.

Lemma str_app_cons c a b : String c a +:+ b = String c (a +:+ b).
Proof. done. Qed.

Lemma group_app s r : no_brackets s -> group (s +:+ String "]" r) = Some (s +:+ "]").
Proof.
  intros [H1 H2]. induction s as [|c s IH]; [done|].
  simpl in H1, H2. apply orb_false_iff in H1 as [H1 H1'], H2 as [H2 H2'].
  rewrite !str_app_cons. simpl. rewrite H1, H2, IH by done. done.
Qed.

Lemma FindAll_skip s r : has_byte "[" s = false -> FindAllString (s +:+ r) = FindAllString r.
Proof.
  induction s as [|c s IH]; [done|]. simpl. intros [H1 H2]%orb_false_iff. by rewrite H1, IH.
Qed.

Lemma FindAll_group s r : no_brackets s ->
  FindAllString ("[" +:+ s +:+ String "]" r) = ("[" +:+ s +:+ "]") :: FindAllString r.
Proof.
  intros Hs. change ("[" +:+ ?x) with (String "[" x). simpl. rewrite group_app by done. simpl. f_equal.
  rewrite FindAll_skip by apply Hs. done.
Qed.

Lemma trim_right_no_byte c s : has_byte c s = false -> trim_right c (s +:+ String c EmptyString) = s.
Proof.
  induction s as [|x s IH]; simpl; [by rewrite bool_decide_true|]. intros [H1 H2]%orb_false_iff.
  fold (s +:+ String c EmptyString). rewrite IH by done. destruct s; [by rewrite H1|done].
Qed.

Lemma trim_right_id c s : has_byte c s = false -> trim_right c s = s.
Proof.
  induction s as [|x s IH]; simpl; [done|]. intros [H1 H2]%orb_false_iff. rewrite IH by done.
  destruct s; [by rewrite H1|done].
Qed.

Lemma trim_left_id c s : has_byte c s = false -> trim_left c s = s.
Proof. destruct s; simpl; [done|]. by intros [-> _]%orb_false_iff. Qed.

(** The group without its brackets. *)
Lemma Trim_group s : no_brackets s -> Trim "]" (Trim "[" ("[" +:+ s +:+ "]")) = s.
Proof.
  intros [H1 H2]. unfold Trim.
  assert (Hb : has_byte "[" (s +:+ "]") = false) by by rewrite has_byte_app, H1.
  change ("[" +:+ ?x) with (String "[" x). cbn [trim_left]. rewrite bool_decide_true by done.
  rewrite (trim_left_id "["), (trim_right_id "[") by done.
  destruct s as [|c s]; [done|]. rewrite str_app_cons. cbn [trim_left].
  simpl in H2. apply orb_false_iff in H2 as [H2 H2']. rewrite H2, <- str_app_cons.
  apply trim_right_no_byte. simpl. by rewrite H2, H2'.
Qed.

Lemma str_app_assoc (a b c : string) : (a +:+ b) +:+ c = a +:+ (b +:+ c).
Proof. induction a as [|x a IH]; [done|]. rewrite !str_app_cons. by f_equal. Qed.

Lemma FindAll_status s : no_brackets (code_String (status_Code (Some s))) ->
  FindAllString (status_Error s) =
  ("[" +:+ code_String (status_Code (Some s)) +:+ "]") :: FindAllString ("[" +:+ status_message s +:+ "]").
Proof.
  intros Hc. unfold status_Error. generalize (code_String (status_Code (Some s))) as n, Hc. intros n Hn.
  change "machine codes error: code = [" with ("machine codes error: code = " +:+ "[").
  rewrite str_app_assoc, FindAll_skip by done.
  change ("] message = [" +:+ ?x) with (String "]" (" message = " +:+ "[" +:+ x)).
  rewrite FindAll_group by done. done.
Qed.

(** A code the package defines. *)
Definition known_code (c : Code) : Prop := c ∈ code_names.*2.

Lemma known_code_cases c : known_code c ->
  no_brackets (code_String c) /\ StringToCode (code_String c) = c /\ status_Code (Some (New c "")) = c /\ 0 <= c <= 16.
Proof.
  unfold known_code. intros H. repeat (apply elem_of_cons in H as [->|H]; [vm_compute; naive_solver|]). set_solver.
Qed.

Lemma status_Code_msg c m m' : status_Code (Some (New c m)) = status_Code (Some (New c m')).
Proof. done. Qed.

Lemma error_code_status c msg : known_code c ->
  error_code (Error c msg) =
    match FindAllString ("[" +:+ msg +:+ "]") with [_] => Some c | _ => None end.
Proof.
  intros (Hb & Hs & Hc & _)%known_code_cases. unfold error_code, FromError, findInString.
  cbn [err_msg Error Errorf].
  rewrite FindAll_status by (rewrite (status_Code_msg _ _ ""); by rewrite Hc).
  rewrite (status_Code_msg _ _ ""), Hc. cbn [status_message New].
  cbv zeta. destruct (FindAllString ("[" +:+ msg +:+ "]")) as [|m0 [|m1 ms]];
    [by rewrite bool_decide_false by done| |by rewrite bool_decide_false by done].
  simpl map. rewrite bool_decide_true by done. simpl negb. cbv iota beta.
  rewrite Trim_group, Hs by done. by rewrite (status_Code_msg _ _ ""), Hc.
Qed.

(** The error made by [status.Error] decodes to the same code and message, when the message has
    no brackets. *)
Theorem FromError_Error_roundtrip c msg : known_code c -> no_brackets msg ->
  FromError (Some (Error c msg)) = (Some (New c msg), true) /\ error_code (Error c msg) = Some c.
Proof.
  intros Hk Hm. pose proof (FindAll_group msg EmptyString Hm) as Hg. split.
  - destruct (known_code_cases _ Hk) as (Hb & Hs & Hc & _). unfold FromError, findInString. cbn [err_msg Error Errorf].
    rewrite FindAll_status by (rewrite (status_Code_msg _ _ ""); by rewrite Hc).
    rewrite (status_Code_msg _ _ ""), Hc. cbn [status_message New].
    change ("[" +:+ msg +:+ "]") with ("[" +:+ msg +:+ String "]" EmptyString). rewrite Hg. simpl map.
    rewrite bool_decide_true by done. simpl negb. cbv iota beta.
    by rewrite !Trim_group, Hs.
  - rewrite error_code_status by done. change ("[" +:+ msg +:+ "]") with ("[" +:+ msg +:+ String "]" EmptyString). by rewrite Hg.
Qed.

(** A message that quotes something in brackets loses the code: with two bracketed parts the error
    cannot be decoded at all, whatever its code is. *)
Theorem FromError_loses_bracketed_message c a x b y d :
  known_code c -> Forall no_brackets [a; x; b; y; d] ->
  error_code (Error c (a +:+ "[" +:+ x +:+ "]" +:+ b +:+ "[" +:+ y +:+ "]" +:+ d)) = None.
Proof.
  intros Hk HF. rewrite error_code_status by done. rewrite !Forall_cons in HF. destruct HF as (Ha & Hx & Hb & Hy & Hd & _).
  set (inner := a +:+ _). assert (Hi : FindAllString (inner +:+ "]") = [("[" +:+ x +:+ "]"); ("[" +:+ y +:+ "]")]).
  { unfold inner. rewrite str_app_assoc, FindAll_skip by apply Ha. rewrite ?str_app_assoc.
    change ("]" +:+ ?z) with (String "]" z). rewrite FindAll_group by done. rewrite ?str_app_assoc.
    rewrite FindAll_skip by apply Hb. rewrite ?str_app_assoc.
    change ("]" +:+ ?z) with (String "]" z). rewrite FindAll_group by done. rewrite FindAll_skip by apply Hd. done. }
  change ("[" +:+ inner +:+ "]") with (String "[" (inner +:+ "]")). simpl FindAllString. rewrite Hi.
  by destruct (group _).
Qed.

(** ** Witnesses *)

Lemma FromError_Error_roundtrip_witness :
  FromError (Some (Error CodeNotFound "machine not found")) = (Some (New CodeNotFound "machine not found"), true) /\
  error_code (Error CodeNotFound "machine not found") = Some CodeNotFound.
Proof. apply FromError_Error_roundtrip; [unfold known_code; vm_compute; set_solver|done]. Defined.

Lemma FromError_loses_bracketed_message_witness :
  error_code (Error CodeNotFound ("subnet " +:+ "[" +:+ "s1" +:+ "]" +:+ " or " +:+ "[" +:+ "s2" +:+ "]" +:+ " missing")) = None.
Proof. apply FromError_loses_bracketed_message; [unfold known_code; vm_compute; set_solver|by repeat constructor]. Defined.
