(* ===== verification/NodeTemplate.v ===== *)
(** * Node templates (machine_util.go: syncMachineNodeTemplates and its helpers)

    The labels, annotations and taints of a machine's node template are copied to its node; what the
    template no longer has is taken off the node, as far as the controller put it there.  The template
    last applied is kept in an annotation of the node, as JSON. *)
From Stdlib Require Import ZArith Lia String.
From stdpp Require Import base gmap strings list.
From S2P Require Import Prelude GoLib Types Labels Prog Samples NodeOps.
Open Scope Z_scope.

(** Printing and parsing of the Go library that the controller uses without looking inside: JSON of a
    node template, [%+v] of conditions, the RFC 3339 form of a time.  A range over a map of taints may
    take them in any order. *)
Class Encoders : Type := {
  json_Marshal : NodeTemplateSpec -> result string;
  json_Unmarshal : string -> result NodeTemplateSpec;
  show_conditions : list NodeCondition -> string;
  format_RFC3339 : Z -> string;
  map_range : gmap (string * string) Taint -> list Taint;
  map_range_perm : forall m, map_range m ≡ₚ (map_to_list m).*2 }.

(** ** machineutils/utils.go *)

Definition GetVMStatus := "Set machine status to termination. Now, getting VM Status".
Definition InitiateDrain := "Initiate node drain".
Definition InitiateVMDeletion := "Initiate VM deletion".
Definition InitiateNodeDeletion := "Initiate node object deletion".
Definition InitiateFinalizerRemoval := "Initiate machine object finalizer removal".
Definition LastAppliedALTAnnotation := "node.machine.sapcloud.io/last-applied-anno-labels-taints".
Definition MachinePriority := "machinepriority.machine.sapcloud.io".
Definition MachineClassKind := "MachineClass".
Definition MigratedMachineClass := "machine.sapcloud.io/migrated".
Definition NotManagedByMCM := "node.machine.sapcloud.io/not-managed-by-mcm".
Definition NodeUnhealthy := "Unhealthy".
Definition NodeScaledDown := "ScaleDown".
Definition NodeTerminationCondition := "Terminating".

Abbreviation RetryPeriod := Z.
Definition ShortRetry : RetryPeriod := 15 * Second.
Definition MediumRetry : RetryPeriod := 3 * Minute.
Definition LongRetry : RetryPeriod := 10 * Minute.

(** ** Labels and annotations *)

Definition m_Template (m : Machine) : NodeTemplateSpec := sp_NodeTemplateSpec (m_Spec m).
Definition n_Labels (n : Node) : strmap := Labels (n_Meta n).

Definition drop_applied (mMap : strmap) (acc : strmap * bool) (kv : string * string) : strmap * bool :=
  if bool_decide (mMap !! kv.1 = None) then (delete kv.1 acc.1, true) else acc.
Definition put_template (acc : strmap * bool) (kv : string * string) : strmap * bool :=
  if bool_decide (acc.1 !! kv.1 = Some kv.2) then acc else (<[kv.1 := kv.2]> acc.1, true).

(** Both loops; the result does not depend on the order of the ranges. *)
Definition sync_map (mMap lastApplied nMap : strmap) : strmap * bool :=
  let dropped := foldl (drop_applied mMap) (nMap, false) (map_to_list lastApplied) in
  foldl put_template dropped (map_to_list mMap).

Definition SyncMachineAnnotations (machine : Machine) (node : Node) (lastAppliedAnnotations : strmap) : Node * bool :=
  let '(annotations, toBeUpdated) :=
    sync_map (Annotations (nt_Meta (m_Template machine))) lastAppliedAnnotations (n_Annotations node) in
  (n_set_Annotations annotations node, toBeUpdated).

Definition SyncMachineLabels (machine : Machine) (node : Node) (lastAppliedLabels : strmap) : Node * bool :=
  let '(labels, toBeUpdated) :=
    sync_map (Labels (nt_Meta (m_Template machine))) lastAppliedLabels (n_Labels node) in
  (n_set_Labels labels node, toBeUpdated).

(** ** Taints *)

Definition taintKeyEffect (t : Taint) : string * string := (t_Key t, t_Effect t).

(** [*nV == *mV]: the time is a pointer, and the two taints come from different objects. *)
Definition taint_equal (nV mV : Taint) : bool :=
  bool_decide (t_Key nV = t_Key mV) && bool_decide (t_Value nV = t_Value mV) &&
  bool_decide (t_Effect nV = t_Effect mV) &&
  bool_decide (t_TimeAdded nV = None) && bool_decide (t_TimeAdded mV = None).

Definition taint_map (l : list Taint) : gmap (string * string) Taint :=
  foldl (fun m t => <[taintKeyEffect t := t]> m) ∅ l.

Definition drop_taint (mTaintsMap : gmap (string * string) Taint) (acc : gmap (string * string) Taint * bool) (t : Taint) :
    gmap (string * string) Taint * bool :=
  if bool_decide (mTaintsMap !! taintKeyEffect t = None) then (delete (taintKeyEffect t) acc.1, true) else acc.
Definition put_taint (acc : gmap (string * string) Taint * bool) (kv : string * string * Taint) :
    gmap (string * string) Taint * bool :=
  match acc.1 !! kv.1 with
  | Some nV => if taint_equal nV kv.2 then acc else (<[kv.1 := kv.2]> acc.1, true)
  | None => (<[kv.1 := kv.2]> acc.1, true)
  end.

Definition sync_taints (mTaints lastAppliedTaints nTaints : list Taint) : gmap (string * string) Taint * bool :=
  let mTaintsMap := taint_map mTaints in
  let dropped := foldl (drop_taint mTaintsMap) (taint_map nTaints, false) lastAppliedTaints in
  foldl put_taint dropped (map_to_list mTaintsMap).

Section sync.
Context `{!Encoders}.

Definition SyncMachineTaints (machine : Machine) (node : Node) (lastAppliedTaints : list Taint) : Node * bool :=
  let '(nTaintsMap, toBeUpdated) :=
    sync_taints (ns_Taints (nt_Spec (m_Template machine))) lastAppliedTaints (n_Taints node) in
  (if toBeUpdated then n_set_Taints (map_range nTaintsMap) node else node, toBeUpdated).

(** ** The node of a machine *)

(** An object read from the API server has no annotations exactly when its map is nil. *)
Definition syncMachineNodeTemplates (machine : Machine) : prog (RetryPeriod * option error) :=
  let! r := call_try (ListerGetNode (st_Node (m_Status machine))) in
  match r with
  | Err err => Ret (LongRetry, if IsNotFound err then None else Some err)
  | Ok node =>
      let initializedNodeAnnotation := bool_decide (n_Annotations node = ∅) in
      let lastAppliedALT :=
        match n_Annotations node !! LastAppliedALTAnnotation with
        | Some s => json_Unmarshal s
        | None => Ok zero_node_template
        end in
      match lastAppliedALT with
      | Err err => Ret (ShortRetry, Some err)
      | Ok lastAppliedALT =>
          let '(nodeCopy, annotationsChanged) :=
            SyncMachineAnnotations machine node (Annotations (nt_Meta lastAppliedALT)) in
          let '(nodeCopy, labelsChanged) := SyncMachineLabels machine nodeCopy (Labels (nt_Meta lastAppliedALT)) in
          let '(nodeCopy, taintsChanged) := SyncMachineTaints machine nodeCopy (ns_Taints (nt_Spec lastAppliedALT)) in
          if initializedNodeAnnotation || labelsChanged || annotationsChanged || taintsChanged then
            match json_Marshal (m_Template machine) with
            | Err err => Ret (ShortRetry, Some err)
            | Ok currentlyAppliedALTJSONByte =>
                let nodeCopy := n_set_Annotations
                  (<[LastAppliedALTAnnotation := currentlyAppliedALTJSONByte]> (n_Annotations nodeCopy)) nodeCopy in
                let! x := call_try (UpdateNode nodeCopy) in
                Ret (ShortRetry, Some (match x with
                  | Err err => err
                  | Ok _ => Errorf "Machine ALTs have been reconciled"
                  end))
            end
          else Ret (LongRetry, None)
      end
  end.
End sync.

(** ** Lemmas *)

Lemma n_set_Annotations_same n : n_set_Annotations (n_Annotations n) n = n.
Proof. by destruct n as [[] ? ?]. Qed.

Lemma n_set_Labels_same n : n_set_Labels (n_Labels n) n = n.
Proof. by destruct n as [[] ? ?]. Qed.

(** What the template leaves of a map: everything but the keys it had before and has no more. *)
Definition kept (mMap lastApplied : strmap) (k : string) : Prop := is_Some (mMap !! k) \/ lastApplied !! k = None.

#[export] Instance kept_dec mMap la k : Decision (kept mMap la k) | 0.
Proof. unfold kept. apply _. Defined.

Lemma drop_fold mMap (l : list (string * string)) n u :
  forall k, (foldl (drop_applied mMap) (n, u) l).1 !! k =
    (if decide (mMap !! k = None /\ k ∈ l.*1) then None else n !! k).
Proof.
  revert n u; induction l as [|[k0 v0] l IH]; intros n u k; csimpl.
  - rewrite decide_False; [done|]. intros [_ Hk]. set_solver.
  - unfold drop_applied at 2. simpl. case_bool_decide as H0.
    + rewrite IH. simpl. destruct (decide (k = k0)) as [->|Hne].
      * rewrite lookup_delete_eq. rewrite (decide_True (P := _ /\ k0 ∈ k0 :: _)); [by case_decide|]. split; [done|left].
      * rewrite lookup_delete_ne by done. repeat case_decide; set_solver.
    + rewrite IH. repeat case_decide; naive_solver set_solver.
Qed.

Lemma drop_flag mMap (l : list (string * string)) n u :
  (foldl (drop_applied mMap) (n, u) l).2 = u || existsb (fun kv => bool_decide (mMap !! kv.1 = None)) l.
Proof.
  revert n u; induction l as [|[k0 v0] l IH]; intros n u; simpl; [by rewrite orb_false_r|].
  unfold drop_applied at 2. simpl. case_bool_decide as H0; rewrite IH; [by destruct u|]. done.
Qed.

Lemma put_fold (l : list (string * string)) n u : NoDup l.*1 ->
  (forall k, (foldl put_template (n, u) l).1 !! k = list_to_map (M := strmap) l !! k ∪ n !! k) /\
  (foldl put_template (n, u) l).2 = u || negb (forallb (fun kv => bool_decide (n !! kv.1 = Some kv.2)) l).
Proof.
  revert n u; induction l as [|[k0 v0] l IH]; intros n u Hnd; csimpl.
  - split; [intros k; by rewrite lookup_empty, (left_id_L None _)|by rewrite orb_false_r].
  - apply NoDup_cons in Hnd as [Hk0 Hnd]. unfold put_template at 2 4. simpl. case_bool_decide as Hb.
    + destruct (IH n u Hnd) as [IH1 IH2]. split; [|by rewrite IH2].
      intros k. rewrite IH1. destruct (decide (k = k0)) as [->|Hne].
      * rewrite lookup_insert_eq, Hb, not_elem_of_list_to_map_1 by done. done.
      * by rewrite lookup_insert_ne.
    + destruct (IH (<[k0:=v0]> n) true Hnd) as [IH1 IH2]. split; [|rewrite IH2; simpl; by rewrite orb_true_r].
      intros k. rewrite IH1. destruct (decide (k = k0)) as [->|Hne].
      * rewrite !lookup_insert_eq, not_elem_of_list_to_map_1 by done. by destruct (n !! k0).
      * by rewrite !lookup_insert_ne.
Qed.

Lemma elem_of_map_keys (m : strmap) k : k ∈ (map_to_list m).*1 <-> is_Some (m !! k).
Proof.
  rewrite list_elem_of_fmap. split.
  - intros ([k' v] & -> & Hin). apply elem_of_map_to_list in Hin. by eexists.
  - intros [v Hv]. exists (k, v). by rewrite elem_of_map_to_list.
Qed.

Lemma forallb_put (m n : strmap) : forallb (fun kv => bool_decide (n !! kv.1 = Some kv.2)) (map_to_list m) = true <-> m ⊆ n.
Proof.
  rewrite forallb_forall, map_subseteq_spec. split.
  - intros H k v Hv. specialize (H (k, v)). rewrite bool_decide_eq_true in H. apply H, list_elem_of_In. by apply elem_of_map_to_list.
  - intros H [k v] Hin. apply list_elem_of_In, elem_of_map_to_list in Hin. rewrite bool_decide_eq_true. by apply H.
Qed.

Lemma existsb_drop (m l : strmap) : existsb (fun kv => bool_decide (m !! kv.1 = None)) (map_to_list l) = false <-> dom l ⊆ dom m.
Proof.
  rewrite <- not_true_iff_false, existsb_exists. split.
  - intros H k [v Hv]%elem_of_dom. destruct (m !! k) eqn:E; [by apply elem_of_dom|]. destruct H. exists (k, v).
    split; [by apply list_elem_of_In, elem_of_map_to_list|by apply bool_decide_eq_true].
  - intros H ([k v] & Hin & Hb). apply list_elem_of_In, elem_of_map_to_list in Hin. apply bool_decide_eq_true in Hb. simpl in Hb.
    apply not_elem_of_dom in Hb. apply Hb, H, elem_of_dom. by eexists.
Qed.

Lemma sync_map_lookup m la n k :
  (sync_map m la n).1 !! k = m !! k ∪ (if decide (kept m la k) then n !! k else None).
Proof.
  unfold sync_map, kept. destruct (foldl (drop_applied m) (n, false) (map_to_list la)) as [d u] eqn:E.
  destruct (put_fold (map_to_list m) d u (NoDup_fst_map_to_list m)) as [-> _]. rewrite list_to_map_to_list.
  f_equal. pose proof (drop_fold m (map_to_list la) n false k) as Hd. rewrite E in Hd. simpl in Hd. rewrite Hd.
  destruct (decide (m !! k = None /\ _)) as [[H1 H2]|H]; destruct (decide (is_Some (m !! k) \/ _)) as [H'|H']; try done.
  - apply elem_of_map_keys in H2. destruct H' as [[? ?]|H']; [congruence|]. rewrite H' in H2. by destruct H2.
  - destruct (m !! k) eqn:Em; [destruct H'; left; by eexists|]. destruct H. split; [done|]. apply elem_of_map_keys.
    destruct (la !! k) eqn:El; [by eexists|]. destruct H'. by right.
Qed.

Lemma sync_map_flag m la n : (sync_map m la n).2 = false <-> m ⊆ n /\ dom la ⊆ dom m.
Proof.
  unfold sync_map. destruct (foldl (drop_applied m) (n, false) (map_to_list la)) as [d u] eqn:E.
  destruct (put_fold (map_to_list m) d u (NoDup_fst_map_to_list m)) as [_ ->].
  pose proof (drop_flag m (map_to_list la) n false) as Hu. rewrite E in Hu. simpl in Hu. subst u.
  rewrite orb_false_iff, negb_false_iff, existsb_drop, forallb_put. rewrite (and_comm (m ⊆ n)).
  split; intros [H1 H2]; (split; [done|]).
  - etrans; [done|]. apply map_subseteq_spec. intros k v Hv. pose proof (drop_fold m (map_to_list la) n false k) as Hd.
    rewrite E in Hd. simpl in Hd. rewrite Hv in Hd. by case_decide.
  - apply map_subseteq_spec. intros k v Hv. pose proof (drop_fold m (map_to_list la) n false k) as Hd.
    rewrite E in Hd. simpl in Hd. rewrite Hd. rewrite decide_False; [by eapply lookup_weaken|]. intros [? _]. congruence.
Qed.

Lemma sync_map_unchanged m la n : (sync_map m la n).2 = false -> (sync_map m la n).1 = n.
Proof.
  intros [H1 H2]%sync_map_flag. apply map_eq. intros k. rewrite sync_map_lookup.
  destruct (m !! k) as [v|] eqn:E.
  - rewrite (lookup_weaken m n k v) by done. by case_decide.
  - rewrite (left_id_L None _). rewrite decide_True; [done|]. right. apply not_elem_of_dom. intros Hk. apply H2, elem_of_dom in Hk.
    rewrite E in Hk. by destruct Hk.
Qed.

(** A second synchronisation against the same template has nothing to do. *)
Lemma sync_map_again m la n : (sync_map m m (sync_map m la n).1).2 = false.
Proof.
  apply sync_map_flag. split; [|done]. apply map_subseteq_spec. intros k v Hv. rewrite sync_map_lookup, Hv. by destruct (decide (kept m la k)), (n !! k).
Qed.

(** *** Taints *)

Lemma taint_map_keys l k t : taint_map l !! k = Some t -> taintKeyEffect t = k /\ t ∈ l.
Proof.
  unfold taint_map. assert (Hgen : forall (m : gmap (string * string) Taint) k t,
    foldl (fun m t => <[taintKeyEffect t := t]> m) m l !! k = Some t -> m !! k = Some t \/ (taintKeyEffect t = k /\ t ∈ l)).
  { induction l as [|t0 l IH]; intros m k0 t1 H; simpl in *; [by left|]. apply IH in H as [H|[? ?]]; [|set_solver].
    apply lookup_insert_Some in H as [[? ->]|[_ H]]; [right; set_solver|by left]. }
  intros H. apply Hgen in H as [H|?]; [by rewrite lookup_empty in H|done].
Qed.

Lemma put_taint_fold (l : list (string * string * Taint)) n u : NoDup l.*1 ->
  (forall k, is_Some ((foldl put_taint (n, u) l).1 !! k) <-> k ∈ l.*1 \/ is_Some (n !! k)) /\
  (forall k t, (k, t) ∈ l -> t_TimeAdded t = None -> taintKeyEffect t = k ->
     (forall t', n !! k = Some t' -> taintKeyEffect t' = k) ->
     exists t', (foldl put_taint (n, u) l).1 !! k = Some t' /\ taint_equal t' t = true) /\
  (forall k, k ∉ l.*1 -> (foldl put_taint (n, u) l).1 !! k = n !! k) /\
  (u = false -> (forall k t, (k, t) ∈ l -> exists t', n !! k = Some t' /\ taint_equal t' t = true) ->
     foldl put_taint (n, u) l = (n, false)).
Proof.
  revert n u; induction l as [|[k0 t0] l IH]; intros n u Hnd; csimpl.
  - split_and!; [set_solver|set_solver|done|by intros ->].
  - apply NoDup_cons in Hnd as [Hk0 Hnd].
    assert (Hstep : exists n1 u1, put_taint (n, u) (k0, t0) = (n1, u1) /\
      (forall k, k <> k0 -> n1 !! k = n !! k) /\
      (exists t', n1 !! k0 = Some t' /\ (t' = t0 \/ (n !! k0 = Some t' /\ taint_equal t' t0 = true)))).
    { unfold put_taint. simpl. destruct (n !! k0) as [nV|] eqn:En; [destruct (taint_equal nV t0) eqn:Et|].
      - exists n, u. split_and!; [done|done|]. exists nV. by auto.
      - eexists _, _. split_and!; [done|intros k Hk; by rewrite lookup_insert_ne|]. exists t0. rewrite lookup_insert_eq. auto.
      - eexists _, _. split_and!; [done|intros k Hk; by rewrite lookup_insert_ne|]. exists t0. rewrite lookup_insert_eq. auto. }
    destruct Hstep as (n1 & u1 & Hs & Hne & (t1 & Ht1 & Ht1')). rewrite Hs.
    destruct (IH n1 u1 Hnd) as (IH1 & IH2 & IH3 & IH4). split_and!.
    + intros k. rewrite IH1. destruct (decide (k = k0)) as [->|Hk]; [|rewrite Hne by done; set_solver].
      rewrite Ht1. split; [left; left|by right].
    + intros k t [[= -> ->]|Hin]%elem_of_cons Hta Hkey Hn.
      * rewrite IH3 by done. exists t1. split; [done|]. destruct Ht1' as [->|[_ ?]]; [|done].
        unfold taint_equal. rewrite Hta. by rewrite !bool_decide_true.
      * assert (k <> k0) as Hk by (intros ->; apply Hk0, list_elem_of_fmap; by exists (k0, t)).
        apply IH2; [done..|]. by rewrite Hne.
    + intros k Hk. rewrite not_elem_of_cons in Hk. destruct Hk as [Hk1 Hk2]. by rewrite IH3, Hne.
    + intros -> Hall. destruct (Hall k0 t0) as (t' & Hn & He); [left|].
      unfold put_taint in Hs. simpl in Hs. rewrite Hn, He in Hs. injection Hs as <- <-. apply IH4; [done|]. intros; apply Hall. by right.
Qed.

Lemma drop_taint_fold m (l : list Taint) n u :
  (Forall (fun t => is_Some (m !! taintKeyEffect t)) l -> foldl (drop_taint m) (n, u) l = (n, u)) /\
  (forall k t, (foldl (drop_taint m) (n, u) l).1 !! k = Some t -> n !! k = Some t).
Proof.
  revert n u; induction l as [|t0 l IH]; intros n u; simpl; [done|]. unfold drop_taint at 2 4. simpl.
  destruct (IH n u) as [IH1 IH2]. case_bool_decide as H0.
  - split; [intros [[? ?] _]%Forall_cons; congruence|]. intros k t Ht. apply IH in Ht.
    by apply lookup_delete_Some in Ht as [_ ?].
  - split; [intros [_ ?]%Forall_cons; by apply IH1|done].
Qed.

(** A list with one taint for each key of the map, and nothing else, has that map. *)
Lemma taint_map_of_range (m : gmap (string * string) Taint) l :
  (forall k t, m !! k = Some t -> taintKeyEffect t = k) -> l ≡ₚ (map_to_list m).*2 -> taint_map l = m.
Proof.
  intros Hk Hp.
  assert (Hin : forall t, t ∈ l <-> m !! taintKeyEffect t = Some t).
  { intros t. rewrite Hp, list_elem_of_fmap. split.
    - intros ([k t'] & -> & Hin). apply elem_of_map_to_list in Hin. simpl. by rewrite (Hk _ _ Hin).
    - intros Ht. exists (taintKeyEffect t, t). by rewrite elem_of_map_to_list. }
  assert (Hdom : forall (l : list Taint) (m0 : gmap (string * string) Taint) t, t ∈ l ->
    is_Some (foldl (fun m t => <[taintKeyEffect t := t]> m) m0 l !! taintKeyEffect t)).
  { clear. intros l. induction l as [|t0 l IH]; intros m0 t Ht; [set_solver|]. simpl. apply elem_of_cons in Ht as [->|Ht]; [|auto].
    destruct (decide (taintKeyEffect t0 ∈ taintKeyEffect <$> l)) as [(t' & -> & Ht')%list_elem_of_fmap|Hn]; [auto|].
    assert (Hpres : forall (l : list Taint) (m : gmap (string * string) Taint) k, k ∉ taintKeyEffect <$> l ->
      foldl (fun m t => <[taintKeyEffect t := t]> m) m l !! k = m !! k).
    { clear. induction l as [|t1 l IH]; intros m k Hk; simpl; [done|]. csimpl in Hk. apply not_elem_of_cons in Hk as [? ?].
      rewrite IH by done. by rewrite lookup_insert_ne. }
    rewrite Hpres by done. rewrite lookup_insert_eq. by eexists. }
  apply map_eq. intros k. destruct (taint_map l !! k) as [t|] eqn:E.
  - apply taint_map_keys in E as [<- Ht]. by apply Hin in Ht.
  - destruct (m !! k) as [t|] eqn:Em; [|done]. pose proof (Hk _ _ Em) as <-. apply Hin in Em.
    destruct (Hdom l ∅ t Em) as [x Hx]. unfold taint_map in E. congruence.
Qed.

(** The key of an entry is that of its taint. *)
Definition keyed (m : gmap (string * string) Taint) : Prop := forall k t, m !! k = Some t -> taintKeyEffect t = k.

Lemma keyed_taint_map l : keyed (taint_map l).
Proof. intros k t H. by apply taint_map_keys in H as [? _]. Qed.

Lemma keyed_put (l : list (string * string * Taint)) n u : Forall (fun kv => taintKeyEffect kv.2 = kv.1) l -> keyed n ->
  keyed (foldl put_taint (n, u) l).1.
Proof.
  intros HF. revert n u; induction HF as [|[k0 t0] l H0 _ IH]; intros n u Hn; simpl; [done|].
  assert (Hi : keyed (<[k0 := t0]> n)) by (intros k t [[<- <-]|[_ ?]]%lookup_insert_Some; [done|by apply Hn]).
  unfold put_taint at 2. simpl. destruct (n !! k0); [destruct (taint_equal _ _)|]; by apply IH.
Qed.

Lemma put_taint_false (l : list (string * string * Taint)) n u : (foldl put_taint (n, u) l).2 = false ->
  u = false /\ foldl put_taint (n, u) l = (n, u).
Proof.
  revert n u; induction l as [|[k0 t0] l IH]; intros n u H; simpl in *; [done|].
  unfold put_taint at 2 in H. unfold put_taint at 2. simpl in *.
  destruct (n !! k0); [destruct (taint_equal _ _)|]; [by apply IH|by apply IH in H as [? _]..].
Qed.

Lemma drop_taint_false m (l : list Taint) n u : (foldl (drop_taint m) (n, u) l).2 = false ->
  u = false /\ foldl (drop_taint m) (n, u) l = (n, u).
Proof.
  revert n u; induction l as [|t0 l IH]; intros n u H; simpl in *; [done|].
  unfold drop_taint at 2 in H. unfold drop_taint at 2. simpl in *. case_bool_decide; [by apply IH in H as [? _]|by apply IH].
Qed.

(** All taints of the template are in the result, which is keyed; the flag tells whether anything changed. *)
Lemma sync_taints_facts mT la nT : Forall (fun t => t_TimeAdded t = None) mT ->
  let r := sync_taints mT la nT in
  keyed r.1 /\
  (forall k t, taint_map mT !! k = Some t -> exists t', r.1 !! k = Some t' /\ taint_equal t' t = true) /\
  (r.2 = false -> r.1 = taint_map nT).
Proof.
  intros HF. cbv zeta. unfold sync_taints.
  destruct (foldl (drop_taint (taint_map mT)) (taint_map nT, false) la) as [d u] eqn:E.
  assert (Hd : forall k t, d !! k = Some t -> taint_map nT !! k = Some t).
  { pose proof (drop_taint_fold (taint_map mT) la (taint_map nT) false) as [_ H]. by rewrite E in H. }
  assert (Hkd : keyed d) by (intros k t H; by apply Hd, keyed_taint_map in H).
  assert (HFk : Forall (fun kv : string * string * Taint => taintKeyEffect kv.2 = kv.1) (map_to_list (taint_map mT))).
  { apply Forall_forall. intros [k t] Hin. apply elem_of_map_to_list in Hin. exact (keyed_taint_map _ _ _ Hin). }
  destruct (put_taint_fold (map_to_list (taint_map mT)) d u (NoDup_fst_map_to_list _)) as (_ & H2 & _).
  split_and!.
  - by apply keyed_put.
  - intros k t Ht. pose proof (taint_map_keys _ _ _ Ht) as [Hk Hin]. apply H2; [by apply elem_of_map_to_list| |done|apply Hkd].
    rewrite Forall_forall in HF. by apply HF.
  - intros [-> ->]%put_taint_false. simpl. assert (E2 : (foldl (drop_taint (taint_map mT)) (taint_map nT, false) la).2 = false)
      by by rewrite E. apply drop_taint_false in E2 as [_ E2]. rewrite E2 in E. by injection E.
Qed.

(** Against the template itself a list with its taints needs no change. *)
Lemma sync_taints_done mT nT :
  (forall k t, taint_map mT !! k = Some t -> exists t', taint_map nT !! k = Some t' /\ taint_equal t' t = true) ->
  sync_taints mT mT nT = (taint_map nT, false).
Proof.
  intros H. unfold sync_taints.
  destruct (drop_taint_fold (taint_map mT) mT (taint_map nT) false) as [Hd _]. rewrite Hd.
  - apply put_taint_fold; [apply NoDup_fst_map_to_list|done|]. intros k t Hin. apply elem_of_map_to_list in Hin. eauto.
  - apply Forall_forall. intros t Ht.
    assert (Hgen : forall (l : list Taint) (m : gmap (string * string) Taint), t ∈ l \/ is_Some (m !! taintKeyEffect t) ->
      is_Some (foldl (fun m t => <[taintKeyEffect t := t]> m) m l !! taintKeyEffect t)).
    { clear. induction l as [|t0 l IH]; intros m Hin; simpl; [destruct Hin; [set_solver|done]|]. apply IH.
      destruct (decide (taintKeyEffect t0 = taintKeyEffect t)) as [He|He]; [right; rewrite He, lookup_insert_eq; by eexists|].
      destruct Hin as [[->|?]%elem_of_cons|?]; [done|by left|right; by rewrite lookup_insert_ne]. }
    apply Hgen. by left.
Qed.

Section theorems.
Context `{!Encoders}.

Lemma taints_again machine node la :
  Forall (fun t => t_TimeAdded t = None) (ns_Taints (nt_Spec (m_Template machine))) ->
  forall node', n_Taints node' = n_Taints (SyncMachineTaints machine node la).1 ->
  SyncMachineTaints machine node' (ns_Taints (nt_Spec (m_Template machine))) = (node', false).
Proof.
  intros HF node' Hn. destruct (sync_taints_facts _ la (n_Taints node) HF) as (Hk & Hin & Hf).
  unfold SyncMachineTaints in *. destruct (sync_taints _ la (n_Taints node)) as [m u]. simpl in *.
  rewrite sync_taints_done; [done|]. destruct u; simpl in Hn; rewrite Hn.
  - rewrite n_Taints_set, (taint_map_of_range m (map_range m)); [exact Hin|exact Hk|apply map_range_perm].
  - rewrite <- Hf by done. exact Hin.
Qed.

Lemma annotations_done machine node la :
  (sync_map (Annotations (nt_Meta (m_Template machine))) la (n_Annotations node)).2 = false ->
  SyncMachineAnnotations machine node la = (node, false).
Proof.
  intros Hf. pose proof (sync_map_unchanged _ _ _ Hf) as Hm. unfold SyncMachineAnnotations.
  destruct (sync_map _ _ _) as [a u]. simpl in *. subst. by rewrite n_set_Annotations_same.
Qed.

Lemma labels_done machine node la :
  (sync_map (Labels (nt_Meta (m_Template machine))) la (n_Labels node)).2 = false ->
  SyncMachineLabels machine node la = (node, false).
Proof.
  intros Hf. pose proof (sync_map_unchanged _ _ _ Hf) as Hm. unfold SyncMachineLabels.
  destruct (sync_map _ _ _) as [a u]. simpl in *. subst. by rewrite n_set_Labels_same.
Qed.

(** After a synchronisation the node's labels and annotations are those of the template, and the
    node's own where the template, now and when it was last applied, does not mention the key; a call
    that reports no change has changed nothing, and reports one when a key was missing, different or
    dropped from the template. *)
Theorem SyncMachine_maps_spec machine node la :
  let t := nt_Meta (m_Template machine) in
  let '(node1, labelsChanged) := SyncMachineLabels machine node la in
  let '(node2, annotationsChanged) := SyncMachineAnnotations machine node la in
  (forall k, n_Labels node1 !! k = Labels t !! k ∪ (if decide (kept (Labels t) la k) then n_Labels node !! k else None)) /\
  (labelsChanged = false <-> Labels t ⊆ n_Labels node /\ dom la ⊆ dom (Labels t)) /\
  (labelsChanged = false -> node1 = node) /\ n_Annotations node1 = n_Annotations node /\ n_Taints node1 = n_Taints node /\
  (forall k, n_Annotations node2 !! k =
     Annotations t !! k ∪ (if decide (kept (Annotations t) la k) then n_Annotations node !! k else None)) /\
  (annotationsChanged = false <-> Annotations t ⊆ n_Annotations node /\ dom la ⊆ dom (Annotations t)) /\
  (annotationsChanged = false -> node2 = node) /\ n_Labels node2 = n_Labels node /\ n_Taints node2 = n_Taints node.
Proof.
  cbv zeta. unfold SyncMachineLabels, SyncMachineAnnotations.
  pose proof (sync_map_lookup (Labels (nt_Meta (m_Template machine))) la (n_Labels node)) as L1.
  pose proof (sync_map_flag (Labels (nt_Meta (m_Template machine))) la (n_Labels node)) as L2.
  pose proof (sync_map_unchanged (Labels (nt_Meta (m_Template machine))) la (n_Labels node)) as L3.
  pose proof (sync_map_lookup (Annotations (nt_Meta (m_Template machine))) la (n_Annotations node)) as A1.
  pose proof (sync_map_flag (Annotations (nt_Meta (m_Template machine))) la (n_Annotations node)) as A2.
  pose proof (sync_map_unchanged (Annotations (nt_Meta (m_Template machine))) la (n_Annotations node)) as A3.
  destruct (sync_map (Labels _) la _) as [l ul], (sync_map (Annotations _) la _) as [a ua]. simpl in *.
  split_and!; [done|done|intros Hu; by rewrite (L3 Hu), n_set_Labels_same|done|done|done|done| |done|done].
  intros Hu; by rewrite (A3 Hu), n_set_Annotations_same.
Qed.

(** The node converges: once the node update has been stored, the next synchronisation of the same
    template finds nothing to do, provided no taint of the template carries a time, the template does not
    itself set the bookkeeping annotation, and JSON gives the template back. *)
Theorem syncMachineNodeTemplates_converges machine node node' node'' x o s :
  Forall (fun t => t_TimeAdded t = None) (ns_Taints (nt_Spec (m_Template machine))) ->
  Annotations (nt_Meta (m_Template machine)) !! LastAppliedALTAnnotation = None ->
  json_Marshal (m_Template machine) = Ok s -> json_Unmarshal s = Ok (m_Template machine) ->
  let name := st_Node (m_Status machine) in
  exec (syncMachineNodeTemplates machine) [ev (ListerGetNode name) (Ok node); ev (UpdateNode node') x] o ->
  n_Labels node'' = n_Labels node' -> n_Annotations node'' = n_Annotations node' -> n_Taints node'' = n_Taints node' ->
  exec (syncMachineNodeTemplates machine) [ev (ListerGetNode name) (Ok node'')] (Return (LongRetry, None)).
Proof.
  intros HT HA HM HU name He HL' HA' HT'.
  apply exec_Call_inv in He.
  remember (match n_Annotations node !! LastAppliedALTAnnotation with Some s => json_Unmarshal s | None => Ok zero_node_template end) as la.
  destruct la as [la|e]; simpl in He; [|by destruct He; subst].
  destruct (SyncMachineAnnotations machine node _) as [n1 ua] eqn:E1.
  destruct (SyncMachineLabels machine n1 _) as [n2 ul] eqn:E2.
  destruct (SyncMachineTaints machine n2 _) as [n3 ut] eqn:E3.
  destruct (_ || _) eqn:Eu; [|by destruct He; subst]. rewrite HM in He.
  destruct He as (r & h' & E & He). injection E as E _ _. subst node'.
  unfold SyncMachineAnnotations in E1. destruct (sync_map _ _ (n_Annotations node)) as [a1 ua1] eqn:Ea. injection E1 as <- <-.
  unfold SyncMachineLabels in E2. destruct (sync_map _ _ (n_Labels _)) as [l1 ul1] eqn:El. injection E2 as <- <-.
  assert (Hn3 : n_Labels n3 = l1 /\ n_Annotations n3 = a1).
  { unfold SyncMachineTaints in E3. destruct (sync_taints _ _ _) as [mt u]. injection E3 as <- <-. by destruct u. }
  destruct Hn3 as [Hl3 Ha3].
  assert (Ha : n_Annotations node'' = <[LastAppliedALTAnnotation := s]> a1) by (rewrite HA'; cbn; by rewrite Ha3).
  assert (Hl : n_Labels node'' = l1) by (rewrite HL'; cbn; exact Hl3).
  unfold syncMachineNodeTemplates. cbn [call_try bind]. apply exec_Call_inv. cbv beta zeta.
  rewrite Ha, lookup_insert_eq, HU.
  rewrite bool_decide_false by (intros H0; assert (H1 : (<[LastAppliedALTAnnotation := s]> a1) !! LastAppliedALTAnnotation = None)
    by (rewrite H0; apply lookup_empty); by rewrite lookup_insert_eq in H1).
  rewrite annotations_done.
  2: { apply sync_map_flag. split; [|done]. rewrite Ha. apply map_subseteq_spec. intros k v Hv.
       rewrite lookup_insert_ne by congruence.
       pose proof (sync_map_lookup (Annotations (nt_Meta (m_Template machine))) (Annotations (nt_Meta la)) (n_Annotations node) k) as Hk.
       rewrite Ea in Hk. simpl in Hk. rewrite Hk, Hv. by destruct (if decide _ then _ else _). }
  rewrite labels_done.
  2: { rewrite Hl. pose proof (sync_map_again (Labels (nt_Meta (m_Template machine))) (Labels (nt_Meta la))
         (n_Labels (n_set_Annotations a1 node))) as Hf. by rewrite El in Hf. }
  rewrite (taints_again machine (n_set_Labels l1 (n_set_Annotations a1 node)) (ns_Taints (nt_Spec la))); [done|done|].
  by rewrite HT', E3.
Qed.

Lemma put_taint_time (l : list (string * string * Taint)) n u k t :
  (k, t) ∈ l -> t_TimeAdded t <> None -> (foldl put_taint (n, u) l).2 = true.
Proof.
  intros Hin Ht. revert n u; induction l as [|[k0 t0] l IH]; intros n u; [set_solver|]. simpl.
  apply elem_of_cons in Hin as [[= <- <-]|Hin]; [|destruct (put_taint _ _); auto].
  destruct (foldl _ _ l) as [m b] eqn:E. simpl. destruct b; [done|]. exfalso.
  assert (Hf : (foldl put_taint (put_taint (n, u) (k, t)) l).2 = false) by by rewrite E.
  unfold put_taint at 2 in Hf. simpl in Hf. destruct (n !! k) as [nV|].
  - assert (taint_equal nV t = false) as Ht'.
    { unfold taint_equal. rewrite (bool_decide_false (t_TimeAdded t = None)) by done. apply andb_false_r. }
    rewrite Ht' in Hf. by apply put_taint_false in Hf as [? _].
  - by apply put_taint_false in Hf as [? _].
Qed.

(** Taints are compared with their time pointer: a template taint that carries a time differs from
    every taint a node can have, so that each synchronisation reports a change and rewrites the node. *)
Theorem taint_with_time_never_settles machine node la k t :
  taint_map (ns_Taints (nt_Spec (m_Template machine))) !! k = Some t -> t_TimeAdded t <> None ->
  (SyncMachineTaints machine node la).2 = true.
Proof.
  intros Hk Ht. unfold SyncMachineTaints, sync_taints. destruct (foldl (drop_taint _) _ _) as [d u].
  pose proof (put_taint_time (map_to_list (taint_map (ns_Taints (nt_Spec (m_Template machine))))) d u k t
    ltac:(by apply elem_of_map_to_list) Ht) as Hf. by destruct (foldl put_taint _ _).
Qed.
End theorems.

(** ** Witnesses *)

Definition sample_Encoders : Encoders := {|
  json_Marshal := fun t => Ok (default EmptyString (Labels (nt_Meta t) !! "zone"));
  json_Unmarshal := fun s => Ok (mkNodeTemplate (set_Labels {[ "zone" := s ]} zero_meta) zero_node_spec);
  show_conditions := fun _ => EmptyString;
  format_RFC3339 := fun _ => EmptyString;
  map_range := fun m => (map_to_list m).*2;
  map_range_perm := fun _ => reflexivity _ |}.
#[local] Existing Instance sample_Encoders.

Definition templated (t : NodeTemplateSpec) : Machine :=
  m_set_Spec (sp_set_NodeTemplate t) (sample_machine "m1" MachineRunning).
Definition zone_template : NodeTemplateSpec := mkNodeTemplate (set_Labels {[ "zone" := "a" ]} zero_meta) zero_node_spec.
Definition plain_node : Node := mkNode zero_meta zero_node_spec [].
Definition zone_node : Node :=
  mkNode (set_Annotations {[ LastAppliedALTAnnotation := "a" ]} (set_Labels {[ "zone" := "a" ]} zero_meta)) zero_node_spec [].

(** A lister with one bare node, and an API server that stores what it is sent. *)
Definition node_world (r : req) (w : unit) : unit * result (answer r) :=
  (w, match r return result (answer r) with ListerGetNode _ => Ok plain_node | UpdateNode n => Ok n | _ => Err (Errorf "down") end).

Lemma syncMachineNodeTemplates_converges_witness :
  exec (syncMachineNodeTemplates (templated zone_template)) [ev (ListerGetNode "m1") (Ok zone_node)] (Return (LongRetry, None)).
Proof.
  eapply (syncMachineNodeTemplates_converges (templated zone_template) plain_node zone_node zone_node (Ok zone_node)).
  1: by constructor. 1-3: vm_compute; reflexivity. 2-4: reflexivity.
  assert (Hr : run node_world (syncMachineNodeTemplates (templated zone_template)) tt =
    (tt, [ev (ListerGetNode "m1") (Ok plain_node); ev (UpdateNode zone_node) (Ok zone_node)],
     Return (ShortRetry, Some (Errorf "Machine ALTs have been reconciled")))) by (vm_compute; reflexivity).
  pose proof (run_exec node_world (syncMachineNodeTemplates (templated zone_template)) tt) as He. by rewrite Hr in He.
Defined.

Lemma taint_with_time_never_settles_witness :
  (SyncMachineTaints (templated (mkNodeTemplate zero_meta (mkNodeSpec "" "" false [mkTaint "k" "v" TaintEffectNoExecute (Some 5)])))
     plain_node []).2 = true.
Proof.
  apply (taint_with_time_never_settles _ _ _ ("k", TaintEffectNoExecute) (mkTaint "k" "v" TaintEffectNoExecute (Some 5)));
    [vm_compute; reflexivity|done].
Defined.
