(* ===== verification/MachineClasses.v ===== *)
(** * Machine classes and secrets (pkg/util/provider/machinecontroller: machineclass.go, secret.go,
      migrate_machineclass.go, and the class and secret part of machine_util.go)

    A machine class in use carries the finalizer of the machine controller, and so does a secret that a
    class refers to.  A machine whose class is provider-specific has its class migrated. *)
From Stdlib Require Import ZArith Lia Ascii String.
From stdpp Require Import base gmap strings list.
From S2P Require Import Prelude GoLib Types Labels Prog Samples MachineCodes NodeTemplate.
Open Scope Z_scope.

Definition MCMFinalizerName := "machine.sapcloud.io/machine-controller-manager".
Definition MCFinalizerName := "machine.sapcloud.io/machine-controller".

(** The options of options/types.go; durations in nanoseconds. *)
Record SafetyOptions := mkSafetyOptions {
  so_MachineCreationTimeout : Z; so_MachineHealthTimeout : Z; so_MachineDrainTimeout : Z; so_MaxEvictRetries : Z;
  so_PvDetachTimeout : Z; so_PvReattachTimeout : Z;
  so_APIServerStatusCheckTimeout : Z; so_OrphanVMsPeriod : Z; so_APIServerStatusCheckPeriod : Z;
  so_APIserverInactiveStartTime : Z; so_MachineControllerFrozen : bool }.

(** The part of the controller that its operations read. *)
Record controller := mkController {
  c_namespace : string; c_safetyOptions : SafetyOptions; c_nodeConditions : string;
  c_bootstrapTokenAuthExtraGroups : string }.

(** [cache.SplitMetaNamespaceKey]. *)
Definition SplitMetaNamespaceKey (key : string) : option (string * string) :=
  match split "/" key with
  | [name] => Some (EmptyString, name)
  | [namespace; name] => Some (namespace, name)
  | _ => None
  end.

Definition has_finalizer (f : string) (m : ObjectMeta) : bool := bool_decide (f ∈ sets_NewString (Finalizers m)).
Definition with_finalizer (f : string) (m : ObjectMeta) : list string := sets_List ({[ f ]} ∪ sets_NewString (Finalizers m)).
Definition without_finalizer (f : string) (m : ObjectMeta) : list string := sets_List (sets_NewString (Finalizers m) ∖ {[ f ]}).

Definition mc_set_Meta (m : ObjectMeta) (c : MachineClass) : MachineClass :=
  mkMachineClass m (mc_ProviderSpec c) (mc_SecretRef c) (mc_CredentialsSecretRef c) (mc_Provider c).
Definition sec_set_Meta (m : ObjectMeta) (s : Secret) : Secret := mkSecret m (sec_Type s) (sec_Data s).

(** ** Secrets of a class *)

Definition mergeDataMaps (maps : list strmap) : strmap := foldl (fun out m => m ∪ out) ∅ maps.

(** A secret that does not exist is no error. *)
Definition getSecret (ref : SecretReference) : prog (result (option Secret)) :=
  let! r := call_try (ListerGetSecret (sr_Namespace ref) (sr_Name ref)) in
  Ret (match r with
       | Ok s => Ok (Some s)
       | Err e => if IsNotFound e then Ok None else Err e
       end).

(** The log line of the error branch dereferences the secret that was not returned. *)
Definition getSecretData (secretRefs : list (option SecretReference)) : prog strmap :=
  for_fold secretRefs ∅ (fun secretData secretRef =>
    match secretRef with
    | None => Ret secretData
    | Some ref =>
        let! r := getSecret ref in
        match r with
        | Err _ => Crash
        | Ok (Some s) => Ret (mergeDataMaps [secretData; sec_Data s])
        | Ok None => Ret secretData
        end
    end).

(** ** Controller of machine classes *)

Definition machineToMachineClassAdd (machine : Machine) : prog unit :=
  if bool_decide (cl_Kind (sp_Class (m_Spec machine)) = MachineClassKind)
  then call_ignore (EnqueueMachineClass (cl_Name (sp_Class (m_Spec machine)))) else Ret tt.

Definition machineToMachineClassUpdate (oldMachine newMachine : Machine) : prog unit :=
  let oldClass := sp_Class (m_Spec oldMachine) in
  let newClass := sp_Class (m_Spec newMachine) in
  if bool_decide (cl_Kind oldClass = cl_Kind newClass) then
    if bool_decide (cl_Kind newClass = MachineClassKind) then call_ignore (EnqueueMachineClass (cl_Name newClass)) else Ret tt
  else
    do! (if bool_decide (cl_Kind oldClass = MachineClassKind) then call_ignore (EnqueueMachineClass (cl_Name oldClass)) else Ret tt) in
    if bool_decide (cl_Kind newClass = MachineClassKind) then call_ignore (EnqueueMachineClass (cl_Name newClass)) else Ret tt.

Definition machineToMachineClassDelete (machine : Machine) : prog unit := machineToMachineClassAdd machine.

Definition machineClassAdd (class : MachineClass) : prog unit := call_ignore (EnqueueMachineClass (KeyFunc (mc_Meta class))).
Definition machineClassUpdate (old new : MachineClass) : prog unit := machineClassAdd new.
Definition machineClassDelete (class : MachineClass) : prog unit := machineClassAdd class.

Definition refers_to (kind name : string) (class : ClassSpec) : bool :=
  bool_decide (cl_Kind class = kind) && bool_decide (cl_Name class = name).

Definition findMachinesForClass (kind name : string) : prog (list Machine) :=
  let! machines := call ListerMachines in
  Ret (filter (fun m => refers_to kind name (sp_Class (m_Spec m)) = true) machines).

(** The latest object with the finalizers computed from the cached one. *)
Definition updateMachineClassFinalizers (class : MachineClass) (finalizers : list string) : prog unit :=
  let! class := call (GetMachineClass (Namespace (mc_Meta class)) (Name (mc_Meta class))) in
  do! call (UpdateMachineClass (mc_set_Meta (set_Finalizers finalizers (mc_Meta class)) class)) in
  Ret tt.

Definition addMachineClassFinalizers (class : MachineClass) : prog unit :=
  updateMachineClassFinalizers class (with_finalizer MCMFinalizerName (mc_Meta class)).
Definition deleteMachineClassFinalizers (class : MachineClass) : prog unit :=
  updateMachineClassFinalizers class (without_finalizer MCMFinalizerName (mc_Meta class)).

Definition enqueueMachine (machine : Machine) : prog unit := call_ignore (EnqueueMachine (KeyFunc (m_Meta machine))).
Definition enqueueMachineAfter (machine : Machine) (after : Z) : prog unit :=
  call_ignore (EnqueueMachineAfter (KeyFunc (m_Meta machine)) after).

Definition reconcileClusterMachineClass (class : MachineClass) : prog unit :=
  let! machines := findMachinesForClass MachineClassKind (Name (mc_Meta class)) in
  if bool_decide (DeletionTimestamp (mc_Meta class) = None) && negb (bool_decide (machines = [])) then
    if negb (has_finalizer MCMFinalizerName (mc_Meta class)) then
      do! addMachineClassFinalizers class in
      for_each machines enqueueMachine
    else Ret tt
  else if negb (bool_decide (machines = [])) then
    do! for_each machines enqueueMachine in
    Throw (Errorf "Retry as machine objects are still referring the machineclass")
  else if has_finalizer MCMFinalizerName (mc_Meta class) then deleteMachineClassFinalizers class
  else Ret tt.

Definition enqueueMachineClassAfter (class : MachineClass) (after : Z) : prog unit :=
  call_ignore (EnqueueMachineClassAfter (KeyFunc (mc_Meta class)) after).

Definition reconcileClusterMachineClassKey (c : controller) (key : string) : prog unit :=
  let! nn := or_throw (SplitMetaNamespaceKey key) "unexpected key format" in
  let! r := call_try (ListerGetMachineClass (c_namespace c) nn.2) in
  match r with
  | Err e => if IsNotFound e then Ret tt else Throw e
  | Ok class =>
      let! x := attempt (reconcileClusterMachineClass class) in
      match x with
      | Err _ => enqueueMachineClassAfter class (10 * Second)
      | Ok _ => enqueueMachineClassAfter class (10 * Minute)
      end
  end.

(** ** Controller of secrets *)

Definition ref_named (name : string) (ref : option SecretReference) : bool :=
  match ref with Some r => bool_decide (sr_Name r = name) | None => false end.

Definition findMachineClassForSecret (name : string) : prog (list MachineClass) :=
  let! machineClasses := call ListerMachineClasses in
  Ret (filter (fun mc => ref_named name (mc_SecretRef mc) || ref_named name (mc_CredentialsSecretRef mc) = true) machineClasses).

Definition existsMachineClassForSecret (name : string) : prog bool :=
  let! machineClasses := findMachineClassForSecret name in
  Ret (negb (bool_decide (machineClasses = []))).

Definition updateSecretFinalizers (secret : Secret) (finalizers : list string) : prog unit :=
  let! secret := call (GetControlSecret (Namespace (sec_Meta secret)) (Name (sec_Meta secret))) in
  do! call (UpdateControlSecret (sec_set_Meta (set_Finalizers finalizers (sec_Meta secret)) secret)) in
  Ret tt.

Definition addSecretFinalizers (secret : Secret) : prog unit :=
  if negb (has_finalizer MCFinalizerName (sec_Meta secret))
  then updateSecretFinalizers secret (with_finalizer MCFinalizerName (sec_Meta secret)) else Ret tt.
Definition deleteSecretFinalizers (secret : Secret) : prog unit :=
  if has_finalizer MCFinalizerName (sec_Meta secret)
  then updateSecretFinalizers secret (without_finalizer MCFinalizerName (sec_Meta secret)) else Ret tt.

Definition enqueueSecretAfter (secret : Secret) (after : Z) : prog unit :=
  call_ignore (EnqueueSecretAfter (KeyFunc (sec_Meta secret)) after).

Definition reconcileClusterSecret (secret : Secret) : prog unit :=
  do! now in
  defer (enqueueSecretAfter secret (10 * Minute))
    (let! exists_class := existsMachineClassForSecret (Name (sec_Meta secret)) in
     if (exists_class : bool) then addSecretFinalizers secret
     else if negb (has_finalizer MCFinalizerName (sec_Meta secret)) then Ret tt
     else deleteSecretFinalizers secret).

Definition reconcileClusterSecretKey (c : controller) (key : string) : prog unit :=
  let! nn := or_throw (SplitMetaNamespaceKey key) "unexpected key format" in
  if negb (bool_decide (c_namespace c = nn.1)) then Ret tt
  else
    let! r := call_try (ListerGetSecret (c_namespace c) nn.2) in
    match r with
    | Err e => if IsNotFound e then Ret tt else Throw e
    | Ok secret => reconcileClusterSecret secret
    end.

Definition secretAdd (secret : Secret) : prog unit := call_ignore (EnqueueSecret (KeyFunc (sec_Meta secret))).
Definition secretDelete (secret : Secret) : prog unit := secretAdd secret.

Definition enqueue_ref (ref : option SecretReference) : prog unit :=
  match ref with
  | Some r => call_ignore (EnqueueSecret (sr_Namespace r +:+ "/" +:+ sr_Name r))
  | None => Ret tt
  end.
Definition enqueueSecretForReferences (secretRefs : list (option SecretReference)) : prog unit :=
  for_each secretRefs enqueue_ref.
Definition enqueueSecretForReferenceIfChanged (oldSecretRef newSecretRef : option SecretReference) : prog unit :=
  if bool_decide (oldSecretRef = newSecretRef) then Ret tt
  else do! enqueue_ref oldSecretRef in enqueue_ref newSecretRef.

Definition machineClassToSecretAdd (mc : MachineClass) : prog unit :=
  match mc_SecretRef mc with
  | None => Ret tt
  | Some _ => enqueueSecretForReferences [mc_SecretRef mc; mc_CredentialsSecretRef mc]
  end.
Definition machineClassToSecretUpdate (old new : MachineClass) : prog unit :=
  match mc_SecretRef old, mc_SecretRef new with
  | Some _, Some _ =>
      do! enqueueSecretForReferenceIfChanged (mc_SecretRef old) (mc_SecretRef new) in
      enqueueSecretForReferenceIfChanged (mc_CredentialsSecretRef old) (mc_CredentialsSecretRef new)
  | _, _ => Ret tt
  end.
Definition machineClassToSecretDelete (mc : MachineClass) : prog unit := machineClassToSecretAdd mc.

(** ** Migration of provider-specific classes *)

Definition MachineController := "machine-controller".
Definition already_migrated := "ProviderMachineClass not found. Found a MachineClass with matching name".

(** The four results of [ValidateMachineClass]: the class, the data of its secrets, the retry period
    and the error. *)
Abbreviation class_result := (option MachineClass * strmap * RetryPeriod * option error)%type.

Section migration.
Variable c : controller.

(** One case for every kind, with the client of that kind. *)
Definition getProviderSpecificMachineClass (classSpec : ClassSpec) : prog ProviderClass :=
  if negb (bool_decide (cl_Kind classSpec ∈ provider_kinds)) then Throw (Errorf "Machine class kind not found")
  else
    let! r := call_try (GetProviderClass (cl_Kind classSpec) (c_namespace c) (cl_Name classSpec)) in
    match r with
    | Ok machineClass => Ret machineClass
    | Err err =>
        if IsNotFound err then
          let! inner := call_try (ListerGetMachineClass (c_namespace c) (cl_Name classSpec)) in
          match inner with
          | Ok _ => Throw (Errorf already_migrated)
          | Err _ => Throw err
          end
        else Throw err
    end.

Definition zero_class_named (name : string) : MachineClass :=
  mkMachineClass (mkMeta name "" "" "" "" 0 zero_time None ∅ ∅ [] []) EmptyString None None EmptyString.

Definition createMachineClass (providerSpecificMachineClass : ProviderClass) (classSpec : ClassSpec) :
    prog (RetryPeriod * option error) :=
  let! r := call_try (ListerGetMachineClass (c_namespace c) (cl_Name classSpec)) in
  let! machineClass :=
    (match r with
     | Ok mc => Ret (Ok mc)
     | Err err => if IsNotFound err then call_try (CreateMachineClass (zero_class_named (cl_Name classSpec))) else Ret (Err err)
     end) in
  match machineClass with
  | Err err => Ret (ShortRetry, Some err)
  | Ok machineClass =>
      let! g := call_try (GenerateMachineClass providerSpecificMachineClass machineClass classSpec) in
      match g with
      | Err err =>
          match FromError (Some err) with
          | (Some machineErr, true) =>
              Ret (if bool_decide (status_Code (Some machineErr) = Unimplemented) then LongRetry else ShortRetry,
                   Some (Errorf (status_Error machineErr)))
          | _ => Ret (LongRetry, Some err)
          end
      | Ok cloneMachineClass =>
          let! u := call_try (UpdateMachineClass cloneMachineClass) in
          Ret (ShortRetry, match u with Err err => Some err | Ok _ => None end)
      end
  end.

Definition same_class (classSpec cl : ClassSpec) : bool :=
  bool_decide (cl_Name cl = cl_Name classSpec) && bool_decide (cl_Kind cl = cl_Kind classSpec).
Definition template_class (t : MachineTemplateSpec) : ClassSpec := sp_Class (tp_Spec t).

Definition updateClassReferences (classSpec : ClassSpec) : prog unit :=
  let! machineList := call ListerMachines in
  do! for_each (filter (fun m => Namespace (m_Meta m) = c_namespace c) machineList) (fun machine =>
    if same_class classSpec (sp_Class (m_Spec machine)) then
      do! call (UpdateMachine (m_set_Spec (sp_set_Kind MachineClassKind) machine)) in Ret tt
    else Ret tt) in
  let! machinesetList := call (ListMS (c_namespace c) Everything) in
  do! for_each machinesetList (fun machineset =>
    if same_class classSpec (template_class (ms_Template (is_Spec machineset))) then
      do! call (UpdateMS (is_set_template_spec (sp_set_Kind MachineClassKind) machineset)) in Ret tt
    else Ret tt) in
  let! machinedeploymentList := call (ListMD (c_namespace c)) in
  for_each machinedeploymentList (fun d =>
    if same_class classSpec (template_class (md_Template (d_Spec d))) then
      do! call (UpdateMD (d_set_Spec (fun s => md_set_Template (tp_set_Spec (sp_set_Kind MachineClassKind) (md_Template s)) s) d)) in Ret tt
    else Ret tt).

Definition migrated (kind : string) (m : ObjectMeta) : ObjectMeta :=
  let m := set_Annotations (<[MigratedMachineClass := MachineController +:+ "-" +:+ kind]> (Annotations m)) m in
  if has_finalizer MCMFinalizerName m then set_Finalizers (without_finalizer MCMFinalizerName m) m else m.

Definition addMigratedAnnotationForProviderMachineClass (classSpec : ClassSpec) : prog unit :=
  if negb (bool_decide (cl_Kind classSpec ∈ provider_kinds)) then Ret tt
  else
    let! pc := call (GetProviderClass (cl_Kind classSpec) (c_namespace c) (cl_Name classSpec)) in
    do! call (UpdateProviderClass (mkProviderClass (migrated (cl_Kind classSpec) (pc_Meta pc))
      (pc_SecretRef pc) (pc_CredentialsSecretRef pc) (pc_Spec pc))) in
    Ret tt.

Definition TryMachineClassMigration (classSpec : ClassSpec) : prog class_result :=
  let! p := attempt (getProviderSpecificMachineClass classSpec) in
  match p with
  | Err err =>
      if negb (bool_decide (err_msg err = already_migrated)) then Ret (None, ∅, ShortRetry, Some err)
      else
        let! u := attempt (updateClassReferences classSpec) in
        Ret (None, ∅, ShortRetry, match u with Err err => Some err | Ok _ => None end)
  | Ok providerSpecificMachineClass =>
      let! cr := createMachineClass providerSpecificMachineClass classSpec in
      match cr with
      | (retry, Some err) => Ret (None, ∅, retry, Some err)
      | (_, None) =>
          let! u := attempt (updateClassReferences classSpec) in
          match u with
          | Err err => Ret (None, ∅, ShortRetry, Some err)
          | Ok _ =>
              let! a := attempt (addMigratedAnnotationForProviderMachineClass classSpec) in
              Ret (None, ∅, ShortRetry, match a with Err err => Some err | Ok _ => None end)
          end
      end
  end.

Definition ValidateMachineClass (classSpec : ClassSpec) : prog class_result :=
  if negb (bool_decide (cl_Kind classSpec = MachineClassKind)) then TryMachineClassMigration classSpec
  else
    let! r := call_try (ListerGetMachineClass (c_namespace c) (cl_Name classSpec)) in
    match r with
    | Err err => Ret (None, ∅, LongRetry, Some err)
    | Ok machineClass =>
        let! secretData := getSecretData [mc_SecretRef machineClass; mc_CredentialsSecretRef machineClass] in
        if negb (has_finalizer MCMFinalizerName (mc_Meta machineClass)) then
          do! call_ignore (EnqueueMachineClass (Name (mc_Meta machineClass))) in
          Ret (None, ∅, ShortRetry, Some (Errorf ("The machine class " +:+ Name (mc_Meta machineClass) +:+
            " has no finalizers set. So not reconciling the machine.")))
        else Ret (Some machineClass, secretData, LongRetry, None)
    end.
End migration.

(** ** Lemmas *)

Lemma elem_of_sets_NewString f l : f ∈ sets_NewString l <-> f ∈ l.
Proof. apply elem_of_list_to_set. Qed.

Lemma elem_of_with f g m : g ∈ with_finalizer f m <-> g = f \/ g ∈ Finalizers m.
Proof. unfold with_finalizer. rewrite elem_of_sets_List. unfold sets_NewString. set_solver. Qed.

Lemma elem_of_without f g m : g ∈ without_finalizer f m <-> g <> f /\ g ∈ Finalizers m.
Proof. unfold without_finalizer. rewrite elem_of_sets_List. unfold sets_NewString. set_solver. Qed.

Lemma has_finalizer_elem f m : has_finalizer f m = true <-> f ∈ Finalizers m.
Proof. unfold has_finalizer. by rewrite bool_decide_eq_true, elem_of_sets_NewString. Qed.

(** What the writes of a class reconciliation may be, given the machines the cache lists. *)
Definition class_write_ok (class : MachineClass) (machines : list Machine) (r : req) : Prop :=
  let users := filter (fun m => refers_to MachineClassKind (Name (mc_Meta class)) (sp_Class (m_Spec m)) = true) machines in
  match r with
  | UpdateMachineClass mc =>
      (users <> [] -> DeletionTimestamp (mc_Meta class) = None /\ MCMFinalizerName ∈ Finalizers (mc_Meta mc)) /\
      (users = [] -> forall f, f ∈ Finalizers (mc_Meta mc) <-> f <> MCMFinalizerName /\ f ∈ Finalizers (mc_Meta class))
  | _ => False
  end.

Lemma writes_update_class class finalizers h o : exec (updateMachineClassFinalizers class finalizers) h o ->
  Forall (fun r => match r with UpdateMachineClass mc => Finalizers (mc_Meta mc) = finalizers | _ => False end) (writes h).
Proof.
  intros He. unfold updateMachineClassFinalizers in He.
  apply exec_bind in He as [(h1 & a & h2 & -> & E1 & E2)|(o' & E1 & _ & _)];
    apply exec_call in E1 as (x & -> & _); [|by rewrite writes_cons].
  cbn [app]. rewrite writes_cons. cbn [is_read].
  apply exec_bind in E2 as [(h3 & b & h4 & -> & E3 & [-> _])|(o' & E3 & _ & _)];
    apply exec_call in E3 as (y & -> & _); by repeat constructor.
Qed.

Lemma writes_enqueue_machines l h o : exec (for_each l enqueueMachine) h o -> writes h = [].
Proof.
  revert h o; induction l as [|m l IH]; intros h o He; [by destruct He as [-> _]|].
  destruct He as (x & h' & -> & He). rewrite writes_cons. by eapply IH.
Qed.

(** A machine class in use keeps its finalizer: the controller adds it when a machine refers to the
    class, takes it off only when the cache lists no such machine, and while a deleted class is still
    referred to it writes nothing and reports an error. *)
Theorem machine_class_finalizer_safe class h o : exec (reconcileClusterMachineClass class) h o ->
  match h with
  | existT ListerMachines (Ok machines) :: _ =>
      Forall (class_write_ok class machines) (writes h) /\
      (DeletionTimestamp (mc_Meta class) <> None ->
       filter (fun m => refers_to MachineClassKind (Name (mc_Meta class)) (sp_Class (m_Spec m)) = true) machines <> [] ->
       writes h = [] /\ exists e, o = Raise e)
  | _ => writes h = [] /\ exists e, o = Raise e
  end.
Proof.
  intros (x & h' & -> & He). destruct x as [machines|e]; [|destruct He as [-> ->]; rewrite writes_cons; eauto].
  rewrite !writes_cons. cbn [is_read]. cbn [bind findMachinesForClass] in He. unfold class_write_ok.
  set (users := filter _ machines) in *. destruct (decide (users = [])) as [Hu|Hu].
  - rewrite (bool_decide_true (users = [])) in He by done. rewrite andb_false_r in He. cbn [negb] in He. split; [|intros _ Hne; by destruct Hne].
    destruct (has_finalizer _ _) eqn:Ef; [|by destruct He as [-> _]].
    apply writes_update_class in He. eapply Forall_impl; [exact He|]. intros [] Hr; try done. split; [done|].
    intros _ f. rewrite Hr. apply elem_of_without.
  - rewrite (bool_decide_false (users = [])) in He by done. cbn [negb] in He. rewrite andb_true_r in He. case_bool_decide as Hd.
    + rewrite Hd. split; [|done]. destruct (has_finalizer _ _) eqn:Ef; cbn [negb] in He; [by destruct He as [-> _]|].
      apply exec_bind in He as [(h1 & a & h2 & -> & E1 & E2)|(o' & E1 & _ & _)].
      * rewrite writes_app, (writes_enqueue_machines _ _ _ E2), app_nil_r. apply writes_update_class in E1.
        eapply Forall_impl; [exact E1|]. intros [] Hr; try done. split; [|done]. intros _. split; [done|].
        rewrite Hr. apply elem_of_with. by left.
      * apply writes_update_class in E1. eapply Forall_impl; [exact E1|]. intros [] Hr; try done. split; [|done].
        intros _. split; [done|]. rewrite Hr. apply elem_of_with. by left.
    + assert (Hw : writes h' = [] /\ exists e, o = Raise e).
      { apply exec_bind in He as [(h1 & a & h2 & -> & E1 & [-> ->])|(o' & E1 & Hf & ->)].
        - rewrite app_nil_r. split; [by eapply writes_enqueue_machines|eauto].
        - exfalso. assert (Ht : total (for_each users enqueueMachine)).
          { apply total_for_each. intros m h0 o0 (y & h1 & _ & _ & ->). eauto. }
          destruct (Ht _ _ E1) as [a ->]. done. }
      destruct Hw as [-> Ho]. split; [done|by intros].
Qed.

(** *** Secrets *)

(** The data of a class's secrets is the union of the secrets the cache has, the later reference
    winning; a reference to a missing secret contributes nothing. *)
Theorem getSecretData_spec (refs : list SecretReference) (store : SecretReference -> option Secret) h o :
  exec (getSecretData (Some <$> refs)) h o ->
  Forall (fun e : event => match e with
    | existT (ListerGetSecret ns n) (Ok s) => store (mkSecretRef n ns) = Some s
    | existT (ListerGetSecret ns n) (Err e) => IsNotFound e = true /\ store (mkSecretRef n ns) = None
    | _ => True end) h ->
  o = Return (foldl (fun acc r => match store r with Some s => sec_Data s ∪ acc | None => acc end) ∅ refs).
Proof.
  unfold getSecretData. generalize (∅ : strmap) as acc. revert h; induction refs as [|r refs IH]; intros h acc He HF.
  - by destruct He as [_ ->].
  - cbn [fmap list_fmap for_fold bind getSecret call_try] in He. destruct He as (x & h' & -> & He).
    apply Forall_cons in HF as [Hx HF]. destruct r as [n ns]. simpl in Hx. cbn [bind] in He. simpl foldl.
    destruct x as [s|e].
    + rewrite Hx. eapply IH; [|exact HF]. revert He. unfold mergeDataMaps. simpl. by rewrite (right_id_L ∅ _ acc).
    + destruct Hx as [Hn ->]. rewrite Hn in He. by eapply IH.
Qed.

(** When the cache fails with anything else than "not found", the error branch of [getSecretData]
    dereferences the nil secret to log its name: the worker panics instead of returning the error. *)
Theorem getSecretData_panics_on_error c mc classSpec e :
  cl_Kind classSpec = MachineClassKind -> IsNotFound e = false ->
  forall ref, mc_SecretRef mc = Some ref ->
  exec (ValidateMachineClass c classSpec)
    [ev (ListerGetMachineClass (c_namespace c) (cl_Name classSpec)) (Ok mc);
     ev (ListerGetSecret (sr_Namespace ref) (sr_Name ref)) (Err e)] Panic.
Proof.
  intros Hk He ref Hr. unfold ValidateMachineClass. rewrite bool_decide_true by done. cbn [negb].
  apply exec_Call_inv. cbv beta. unfold getSecretData. rewrite Hr. cbn [for_fold bind getSecret call_try].
  apply exec_Call_inv. cbn [bind]. by rewrite He.
Qed.

(** *** Validation and migration *)

Lemma migration_no_class c classSpec : rets (fun r : class_result => r.1.1.1 = None /\ r.1.1.2 = ∅) (TryMachineClassMigration c classSpec).
Proof.
  eapply rets_bind; [apply rets_any|]. intros [p|e] _.
  - eapply rets_bind; [apply rets_any|]. intros [retry [err|]] _; [by apply rets_ret|].
    eapply rets_bind; [apply rets_any|]. intros [u|e] _; [|by apply rets_ret].
    eapply rets_bind; [apply rets_any|]. intros ? _. by apply rets_ret.
  - destruct (negb _); [by apply rets_ret|]. eapply rets_bind; [apply rets_any|]. intros ? _. by apply rets_ret.
Qed.

(** [ValidateMachineClass] returns a class only without an error, only for the generic kind, and
    only one with the finalizer; for a provider-specific kind a successful migration returns neither
    class nor error, and the caller goes on with a nil class. *)
Theorem ValidateMachineClass_spec c classSpec h cls data retry err :
  exec (ValidateMachineClass c classSpec) h (Return (cls, data, retry, err)) ->
  match cls with
  | Some mc => err = None /\ cl_Kind classSpec = MachineClassKind /\ MCMFinalizerName ∈ Finalizers (mc_Meta mc) /\
      exists h', h = ev (ListerGetMachineClass (c_namespace c) (cl_Name classSpec)) (Ok mc) :: h'
  | None => data = ∅ /\ (err = None -> cl_Kind classSpec <> MachineClassKind)
  end.
Proof.
  unfold ValidateMachineClass. case_bool_decide as Hk; cbn [negb]; intros He.
  - cbn [bind call_try] in He. destruct He as (x & h' & -> & He).
    destruct x as [mc|e]; [|by destruct He as [_ [= -> -> -> ->]]].
    apply exec_bind_ret in He as (h1 & sd & h2 & -> & _ & E2).
    destruct (has_finalizer _ _) eqn:Ef; cbn [negb] in E2.
    + destruct E2 as [-> [= -> -> -> ->]]. split_and!; [done|done|by apply has_finalizer_elem|eauto].
    + by destruct E2 as (y & h3 & _ & _ & [= -> -> -> ->]).
  - destruct (migration_no_class c classSpec _ _ He) as [Hn Hd]. simpl in *. by subst.
Qed.

(** When a machine moves from one class to another of the same kind, only the new class is enqueued:
    the comparison looks at the kinds, not at the names, so that the old class keeps its finalizer until
    the next periodic run. *)
Theorem class_change_not_noticed old new h o :
  cl_Kind (sp_Class (m_Spec old)) = MachineClassKind -> cl_Kind (sp_Class (m_Spec new)) = MachineClassKind ->
  exec (machineToMachineClassUpdate old new) h o ->
  projT1 <$> h = [EnqueueMachineClass (cl_Name (sp_Class (m_Spec new)))].
Proof.
  intros Ho Hn. unfold machineToMachineClassUpdate. rewrite Ho, Hn, !bool_decide_true by done.
  by intros (x & h' & -> & -> & _).
Qed.

(** ** Witnesses *)

Definition sample_options : SafetyOptions :=
  mkSafetyOptions (20 * Minute) (10 * Minute) (2 * 60 * Minute) 360 (2 * Minute) Minute Minute (30 * Minute) Minute 0 false.
Definition sample_controller : controller := mkController "shoot" sample_options "KernelDeadlock,ReadonlyFilesystem" "".

Definition sample_class (finalizers : list string) (ref : option SecretReference) : MachineClass :=
  mkMachineClass (mkMeta "small" "" "shoot" "c1" "1" 1 0 None ∅ ∅ [] finalizers) "{}" ref None "aws".
Definition sample_secret (name : string) (data : strmap) : Secret :=
  mkSecret (mkMeta name "" "shoot" "s" "1" 1 0 None ∅ ∅ [] []) "Opaque" data.

(** One class, one machine of that class and one secret. *)
Definition class_world (r : req) (w : unit) : unit * result (answer r) :=
  (w, match r return result (answer r) with
      | ListerMachines => Ok [sample_machine "m1" MachineRunning]
      | GetMachineClass _ _ => Ok (sample_class [] None)
      | UpdateMachineClass mc => Ok mc
      | ListerGetMachineClass _ _ => Ok (sample_class [MCMFinalizerName] (Some (mkSecretRef "cred" "shoot")))
      | ListerGetSecret _ _ => Ok (sample_secret "cred" {[ "userData" := "#cloud" ]})
      | _ => Err (Errorf "unexpected")
      end).

Lemma machine_class_finalizer_safe_witness :
  Forall (class_write_ok (sample_class [] None) [sample_machine "m1" MachineRunning])
    [UpdateMachineClass (sample_class [MCMFinalizerName] None)].
Proof.
  pose proof (machine_class_finalizer_safe (sample_class [] None) _ _
    (run_exec class_world (reconcileClusterMachineClass (sample_class [] None)) tt)) as H.
  assert (Hr : (run class_world (reconcileClusterMachineClass (sample_class [] None)) tt).1.2 =
    [ev ListerMachines (Ok [sample_machine "m1" MachineRunning]); ev (GetMachineClass "shoot" "small") (Ok (sample_class [] None));
     ev (UpdateMachineClass (sample_class [MCMFinalizerName] None)) (Ok (sample_class [MCMFinalizerName] None));
     ev (EnqueueMachine "shoot/m1") (Err (Errorf "unexpected"))]) by (vm_compute; reflexivity).
  rewrite Hr in H. apply H.
Defined.

Lemma getSecretData_spec_witness :
  (run class_world (getSecretData (Some <$> [mkSecretRef "cred" "shoot"])) tt).2 = Return {[ "userData" := "#cloud" ]}.
Proof.
  rewrite (getSecretData_spec [mkSecretRef "cred" "shoot"] (fun _ => Some (sample_secret "cred" {[ "userData" := "#cloud" ]}))
    _ _ (run_exec class_world (getSecretData (Some <$> [mkSecretRef "cred" "shoot"])) tt)); [vm_compute; reflexivity|].
  vm_compute. repeat constructor.
Defined.

Lemma getSecretData_panics_on_error_witness :
  exec (ValidateMachineClass sample_controller (mkClass "" MachineClassKind "small"))
    [ev (ListerGetMachineClass "shoot" "small") (Ok (sample_class [] (Some (mkSecretRef "cred" "shoot"))));
     ev (ListerGetSecret "shoot" "cred") (Err (Errorf "cache not ready"))] Panic.
Proof.
  apply (getSecretData_panics_on_error sample_controller (sample_class [] (Some (mkSecretRef "cred" "shoot")))
    (mkClass "" MachineClassKind "small") (Errorf "cache not ready") eq_refl eq_refl (mkSecretRef "cred" "shoot") eq_refl).
Defined.

Lemma ValidateMachineClass_spec_witness :
  MCMFinalizerName ∈ Finalizers (mc_Meta (sample_class [MCMFinalizerName] (Some (mkSecretRef "cred" "shoot")))).
Proof.
  set (p := ValidateMachineClass sample_controller (mkClass "" MachineClassKind "small")).
  assert (Hr : (run class_world p tt).2 = Return (Some (sample_class [MCMFinalizerName] (Some (mkSecretRef "cred" "shoot"))),
    {[ "userData" := "#cloud" ]}, LongRetry, None)) by (vm_compute; reflexivity).
  pose proof (run_exec class_world p tt) as He. rewrite Hr in He.
  apply (ValidateMachineClass_spec sample_controller (mkClass "" MachineClassKind "small")) in He. apply He.
Defined.

Lemma class_change_not_noticed_witness :
  let moved := m_set_Spec (fun s => mkMachineSpec (mkClass "" MachineClassKind "large") (sp_ProviderID s) (sp_NodeTemplateSpec s)
    (sp_MachineConfiguration s)) (sample_machine "m1" MachineRunning) in
  projT1 <$> (run class_world (machineToMachineClassUpdate (sample_machine "m1" MachineRunning) moved) tt).1.2 =
    [EnqueueMachineClass "large"].
Proof.
  intros moved. apply (class_change_not_noticed (sample_machine "m1" MachineRunning) moved _ _ eq_refl eq_refl
    (run_exec class_world (machineToMachineClassUpdate (sample_machine "m1" MachineRunning) moved) tt)).
Defined.
