(* ===== verification/MachineUtil.v ===== *)
(** * Operations on one machine (pkg/util/provider/machinecontroller/machine_util.go and
      machine_bootstrap_token.go)

    Effective timeouts, status updates and the test that suppresses them, the health state machine,
    finalizers and bootstrap tokens. *)
From Stdlib Require Import ZArith Lia Ascii String QArith.
From stdpp Require Import base gmap strings list.
From S2P Require Import Prelude GoLib Types Labels Prog Samples NodeOps StringSimilarity MachineCodes NodeTemplate MachineClasses.
Open Scope Z_scope.

(** ** Effective settings *)

Definition config_field {A} (field : MachineConfiguration -> option A) (machine : Machine) (global : A) : A :=
  match sp_MachineConfiguration (m_Spec machine) with
  | Some cfg => match field cfg with Some v => v | None => global end
  | None => global
  end.

Definition getEffectiveDrainTimeout (c : controller) (machine : Machine) : Z :=
  config_field MachineDrainTimeout machine (so_MachineDrainTimeout (c_safetyOptions c)).
Definition getEffectiveMaxEvictRetries (c : controller) (machine : Machine) : Z :=
  config_field MaxEvictRetries machine (so_MaxEvictRetries (c_safetyOptions c)).
Definition getEffectiveHealthTimeout (c : controller) (machine : Machine) : Z :=
  config_field MachineHealthTimeout machine (so_MachineHealthTimeout (c_safetyOptions c)).
Definition getEffectiveCreationTimeout (c : controller) (machine : Machine) : Z :=
  config_field MachineCreationTimeout machine (so_MachineCreationTimeout (c_safetyOptions c)).
Definition getEffectiveNodeConditions (c : controller) (machine : Machine) : string :=
  config_field NodeConditions machine (c_nodeConditions c).

(** [HasTimeOutOccurred] of pkg/util/time, and the same test written out elsewhere. *)
Definition HasTimeOutOccurred (timeStamp period : Z) : prog bool :=
  let! t := now in Ret (0 <? (t - period) - timeStamp).

(** ** Conditions *)

(** Only the statuses are compared, position by position. *)
Fixpoint statuses_differ (nodeConditions machineConditions : list NodeCondition) : bool :=
  match nodeConditions, machineConditions with
  | n :: ns, m :: ms => negb (bool_decide (nc_Status n = nc_Status m)) || statuses_differ ns ms
  | _, _ => false
  end.
Definition nodeConditionsHaveChanged (machineConditions nodeConditions : list NodeCondition) : bool :=
  negb (bool_decide (length machineConditions = length nodeConditions)) || statuses_differ nodeConditions machineConditions.

Definition NodeReady := "Ready".

(** A condition that makes the machine unhealthy. *)
Definition bad_condition (conditions : list string) (cond : NodeCondition) : bool :=
  (bool_decide (nc_Type cond = NodeReady) && negb (bool_decide (nc_Status cond = ConditionTrue))) ||
  existsb (fun c => bool_decide (nc_Type cond = c) && negb (bool_decide (nc_Status cond = ConditionFalse))) conditions.

Definition isHealthy (c : controller) (machine : Machine) : bool :=
  let conds := st_Conditions (m_Status machine) in
  if bool_decide (length conds = 0%nat) then false
  else negb (existsb (bad_condition (split "," (getEffectiveNodeConditions c machine))) conds).

(** ** Status updates *)

Definition st_set_LastOperation (lo : LastOperation) (s : MachineStatus) : MachineStatus :=
  mkMachineStatus (st_Node s) (st_Conditions s) lo (st_CurrentStatus s) (st_LastKnownState s).
Definition st_set_CurrentStatus (cs : CurrentStatus) (s : MachineStatus) : MachineStatus :=
  mkMachineStatus (st_Node s) (st_Conditions s) (st_LastOperation s) cs (st_LastKnownState s).
Definition st_set_LastKnownState (k : string) (s : MachineStatus) : MachineStatus :=
  mkMachineStatus (st_Node s) (st_Conditions s) (st_LastOperation s) (st_CurrentStatus s) k.
Definition st_set_Conditions (l : list NodeCondition) (s : MachineStatus) : MachineStatus :=
  mkMachineStatus (st_Node s) l (st_LastOperation s) (st_CurrentStatus s) (st_LastKnownState s).
Definition st_set_Node (n : string) (s : MachineStatus) : MachineStatus :=
  mkMachineStatus n (st_Conditions s) (st_LastOperation s) (st_CurrentStatus s) (st_LastKnownState s).

Definition tolerateTimeDiff : Z := 30 * Minute.

(** The comparison after the clock has been looked at: time stamps do not count, and neither do
    similar descriptions. *)
Definition similar_content (s1 s2 : MachineStatus) : bool :=
  let lo1 := st_LastOperation s1 in
  let lo2 := st_LastOperation s2 in
  (ratio_above (3 # 4) (StringSimilarityRatio (lo_Description lo1) (lo_Description lo2)) ||
   bool_decide (lo_Description lo1 = lo_Description lo2)) &&
  bool_decide (lo_State lo1 = lo_State lo2) && bool_decide (lo_Type lo1 = lo_Type lo2) &&
  bool_decide (cs_Phase (st_CurrentStatus s1) = cs_Phase (st_CurrentStatus s2)) &&
  bool_decide (cs_TimeoutActive (st_CurrentStatus s1) = cs_TimeoutActive (st_CurrentStatus s2)).

Definition isMachineStatusSimilar (s1 s2 : MachineStatus) : prog bool :=
  let! t1 := now in
  if lo_LastUpdateTime (st_LastOperation s1) <? t1 - tolerateTimeDiff then Ret false
  else
    let! t2 := now in
    if lo_LastUpdateTime (st_LastOperation s2) <? t2 - tolerateTimeDiff then Ret false
    else Ret (similar_content s1 s2).

Definition status_clone (machine : Machine) (lastOperation : LastOperation) (currentStatus : CurrentStatus)
    (lastKnownState : string) : Machine :=
  m_set_Status (st_set_LastKnownState lastKnownState
    (st_set_CurrentStatus currentStatus (st_set_LastOperation lastOperation (m_Status machine)))) machine.

(** The error of the update; every caller drops it. *)
Definition machineStatusUpdate (machine : Machine) (lastOperation : LastOperation) (currentStatus : CurrentStatus)
    (lastKnownState : string) : prog (option error) :=
  let clone := status_clone machine lastOperation currentStatus lastKnownState in
  let! similar := isMachineStatusSimilar (m_Status clone) (m_Status machine) in
  if (similar : bool) then Ret None
  else
    let! r := call_try (UpdateStatusMachine clone) in
    Ret (match r with Err err => Some err | Ok _ => None end).

Definition getCreateFailurePhase (c : controller) (machine : Machine) : prog string :=
  let! timedOut := HasTimeOutOccurred (CreationTimestamp (m_Meta machine)) (getEffectiveCreationTimeout c machine) in
  Ret (if (timedOut : bool) then MachineFailed else MachineCrashLoopBackOff).

(** The status a failed creation step writes. *)
Definition createFailureUpdate (c : controller) (machine : Machine) (err : error) (lastKnownState : string) : prog (option error) :=
  let! t1 := now in
  let! phase := getCreateFailurePhase c machine in
  let! t2 := now in
  machineStatusUpdate machine
    (mkLastOp ("Cloud provider message - " +:+ err_msg err) t1 MachineStateFailed MachineOperationCreate)
    (mkCurStatus phase false t2) lastKnownState.

Definition retryable (code : option Code) : bool :=
  match code with
  | Some code => bool_decide (code ∈ [Unknown; DeadlineExceeded; Aborted; Unavailable])
  | None => false
  end.

Definition machineCreateErrorHandler (c : controller) (machine : Machine) (createMachineResponse : option CreateMachineResponse)
    (err : error) : prog (RetryPeriod * option error) :=
  let retryRequired := if retryable (error_code err) then ShortRetry else MediumRetry in
  let lastKnownState := match createMachineResponse with Some r => cr_LastKnownState r | None => EmptyString end in
  do! createFailureUpdate c machine err lastKnownState in
  Ret (retryRequired, None).

(** ** Finalizers *)

Definition addMachineFinalizers (machine : Machine) : prog (RetryPeriod * option error) :=
  if negb (has_finalizer MCMFinalizerName (m_Meta machine)) then
    let clone := m_set_Meta (set_Finalizers (with_finalizer MCMFinalizerName (m_Meta machine))) machine in
    let! r := call_try (UpdateMachine clone) in
    Ret (ShortRetry, Some (match r with
      | Err err => err
      | Ok _ => Errorf "Machine creation in process. Machine finalizers are UPDATED"
      end))
  else Ret (ShortRetry, None).

Definition deleteMachineFinalizers (machine : Machine) : prog (RetryPeriod * option error) :=
  if has_finalizer MCMFinalizerName (m_Meta machine) then
    let clone := m_set_Meta (set_Finalizers (without_finalizer MCMFinalizerName (m_Meta machine))) machine in
    let! r := call_try (UpdateMachine clone) in
    Ret (match r with Err err => (ShortRetry, Some err) | Ok _ => (LongRetry, None) end)
  else Ret (LongRetry, None).

(** ** Bootstrap tokens (machine_bootstrap_token.go) *)

Definition placeholder := "<<BOOTSTRAP_TOKEN>>".
Definition NamespaceSystem := "kube-system".
Definition token_charset := "0123456789abcdefghijklmnopqrstuvwxyz".

(** [[]byte(machineName)[len(machineName)-5:]]: a panic for names of less than five bytes. *)
Definition getTokenIDAndSecretName (machineName : string) : option (string * string) :=
  let len := String.length machineName in
  if (len <? 5)%nat then None
  else
    let tokenID := substring 0 6 (hex_encode (substring (len - 5) 5 machineName)) in
    Some (tokenID, "bootstrap-token-" +:+ tokenID).

(** One random index per byte; an index outside the alphabet would be a panic. *)
Fixpoint generateRandomStringFromCharset (n : nat) (allowedCharacters : string) : prog string :=
  match n with
  | O => Ret EmptyString
  | S n =>
      let! randomCharacter := call (RandomInt (Z.of_nat (String.length allowedCharacters))) in
      let! ch := deref (if randomCharacter <? 0 then None else String.get (Z.to_nat randomCharacter) allowedCharacters) in
      let! rest := generateRandomStringFromCharset n allowedCharacters in
      Ret (String ch rest)
  end.

Section operations.
Context `{!Encoders} (c : controller).

Definition getBootstrapTokenOrCreateIfNotExist (machineName : string) : prog Secret :=
  let! ids := deref (getTokenIDAndSecretName machineName) in
  let '(tokenID, secretName) := ids in
  let! r := call_try (GetTargetSecret NamespaceSystem secretName) in
  match r with
  | Ok secret => Ret secret
  | Err err =>
      if IsNotFound err then
        let! bootstrapTokenSecretKey := generateRandomStringFromCharset 16 token_charset in
        let! t := now in
        let data : strmap := list_to_map
          [("description", "A bootstrap token generated by MachineControllManager.");
           ("token-id", tokenID);
           ("token-secret", bootstrapTokenSecretKey);
           ("expiration", format_RFC3339 (t + so_MachineCreationTimeout (c_safetyOptions c)));
           ("usage-bootstrap-authentication", "true");
           ("usage-bootstrap-signing", "true");
           ("auth-extra-groups", c_bootstrapTokenAuthExtraGroups c)] in
        call (CreateTargetSecret (mkSecret (mkMeta secretName EmptyString NamespaceSystem EmptyString EmptyString 0 zero_time
          None ∅ ∅ [] []) "bootstrap.kubernetes.io/token" data))
      else Throw err
  end.

(** The secret's data with the token put into the user data. *)
Definition addBootstrapTokenToUserData (machineName : string) (secret : strmap) : prog strmap :=
  match secret !! "userData" with
  | None => Throw (Errorf ("Userdata field not found in secret for machine " +:+ quoted machineName))
  | Some userDataS =>
      let! bootstrapTokenSecret := getBootstrapTokenOrCreateIfNotExist machineName in
      let token := mget (sec_Data bootstrapTokenSecret) "token-id" +:+ "." +:+ mget (sec_Data bootstrapTokenSecret) "token-secret" in
      Ret (<["userData" := ReplaceAll userDataS placeholder token]> secret)
  end.

Definition deleteBootstrapToken (machineName : string) : prog unit :=
  let! ids := deref (getTokenIDAndSecretName machineName) in
  let! r := call_try (DeleteTargetSecret NamespaceSystem ids.2) in
  match r with
  | Ok _ => Ret tt
  | Err err => if IsNotFound err then Ret tt else Throw err
  end.

(** ** Health *)

(** The new status and its operation, as in the four places that write them. *)
Definition health_status (clone : Machine) (description state type phase : string) (lo_first : bool) : prog Machine :=
  let! t1 := now in
  let! t2 := now in
  let '(tl, tc) := if lo_first then (t1, t2) else (t2, t1) in
  Ret (m_set_Status (st_set_CurrentStatus (mkCurStatus phase false tc)
    (st_set_LastOperation (mkLastOp description tl state type) (m_Status clone))) clone).

(** First part: what the node says.  The clone and whether it has to be stored; [None] when the node
    could not be fetched. *)
Definition observe_node (machine : Machine) : prog (option (Machine * bool) * option error) :=
  let! r := call_try (ListerGetNode (st_Node (m_Status machine))) in
  match r with
  | Ok node =>
      let changed := nodeConditionsHaveChanged (st_Conditions (m_Status machine)) (n_Conditions node) in
      let clone := if changed then m_set_Status (st_set_Conditions (n_Conditions node) (m_Status machine)) machine else machine in
      if negb (isHealthy c clone) && bool_decide (m_Phase clone = MachineRunning) then
        let! clone := health_status clone ("Machine " +:+ m_Name clone +:+ " is unhealthy - changing MachineState to Unknown")
          MachineStateProcessing MachineOperationHealthCheck MachineUnknown false in
        Ret (Some (clone, true), None)
      else if isHealthy c clone && negb (bool_decide (m_Phase clone = MachineRunning)) then
        if bool_decide (lo_Type (st_LastOperation (m_Status clone)) = MachineOperationCreate) &&
           negb (bool_decide (lo_State (st_LastOperation (m_Status clone)) = MachineStateSuccessful)) then
          do! attempt (deleteBootstrapToken (m_Name clone)) in
          let! clone := health_status clone ("Machine " +:+ m_Name clone +:+ " successfully joined the cluster")
            MachineStateSuccessful MachineOperationCreate MachineRunning true in
          Ret (Some (clone, true), None)
        else
          let! clone := health_status clone ("Machine " +:+ m_Name clone +:+ " successfully re-joined the cluster")
            MachineStateSuccessful MachineOperationHealthCheck MachineRunning true in
          Ret (Some (clone, true), None)
      else Ret (Some (clone, changed), None)
  | Err err =>
      if IsNotFound err then
        if negb (bool_decide (length (st_Conditions (m_Status machine)) = 0%nat)) && bool_decide (m_Phase machine = MachineRunning) then
          let! clone := health_status machine ("Node object went missing. Machine " +:+ m_Name machine +:+
              " is unhealthy - changing MachineState to Unknown")
            MachineStateProcessing MachineOperationHealthCheck MachineUnknown false in
          Ret (Some (clone, true), None)
        else Ret (Some (machine, false), None)
      else Ret (None, Some err)
  end.

(** Second part: a machine that is joining, or unhealthy, for too long. *)
Definition check_timeout (machine clone : Machine) : prog (Machine * bool) :=
  let checkCreationTimeout := bool_decide (m_Phase machine = MachinePending) in
  let timeOutDuration := if checkCreationTimeout then getEffectiveCreationTimeout c machine else getEffectiveHealthTimeout c machine in
  let! timedOut := HasTimeOutOccurred (cs_LastUpdateTime (st_CurrentStatus (m_Status machine))) timeOutDuration in
  if (timedOut : bool) then
    let description :=
      if checkCreationTimeout then
        "Machine " +:+ m_Name machine +:+ " failed to join the cluster in " +:+ Duration_String timeOutDuration +:+ " minutes."
      else
        "Machine " +:+ m_Name machine +:+ " is not healthy since " +:+ Duration_String timeOutDuration +:+
        " minutes. Changing status to failed. Node Conditions: " +:+ show_conditions (st_Conditions (m_Status machine)) in
    let! clone := health_status clone description MachineStateFailed (lo_Type (st_LastOperation (m_Status machine))) MachineFailed true in
    Ret (clone, true)
  else
    do! enqueueMachineAfter machine Minute in
    Ret (clone, false).

Definition reconcileMachineHealth (machine : Machine) : prog (RetryPeriod * option error) :=
  let! obs := observe_node machine in
  match obs with
  | (None, err) => Ret (ShortRetry, err)
  | (Some (clone, objectRequiresUpdate), _) =>
      let! cu :=
        (if negb objectRequiresUpdate &&
            (bool_decide (m_Phase machine = MachinePending) || bool_decide (m_Phase machine = MachineUnknown))
         then check_timeout machine clone else Ret (clone, objectRequiresUpdate)) in
      let '(clone, objectRequiresUpdate) := cu in
      if (objectRequiresUpdate : bool) then
        let! r := call_try (UpdateStatusMachine clone) in
        Ret (ShortRetry, Some (match r with
          | Err err => err
          | Ok _ => Errorf "Machine creation is successful. Machine State has been UPDATED"
          end))
      else Ret (LongRetry, None)
  end.
End operations.

(** ** The health state machine *)

(** What the cache says about the node: its conditions, or that there is no such node. *)
Definition observed (machine : Machine) (node : option (list NodeCondition)) : Machine :=
  match node with
  | Some conds =>
      if nodeConditionsHaveChanged (st_Conditions (m_Status machine)) conds
      then m_set_Status (st_set_Conditions conds (m_Status machine)) machine else machine
  | None => machine
  end.

(** The phase that follows from the node. *)
Definition observed_phase (c : controller) (machine : Machine) (node : option (list NodeCondition)) : string :=
  let m := observed machine node in
  match node with
  | Some _ =>
      if isHealthy c m then MachineRunning
      else if bool_decide (m_Phase machine = MachineRunning) then MachineUnknown else m_Phase machine
  | None =>
      if negb (bool_decide (length (st_Conditions (m_Status machine)) = 0%nat)) && bool_decide (m_Phase machine = MachineRunning)
      then MachineUnknown else m_Phase machine
  end.

(** Whether the node alone calls for an update. *)
Definition observed_change (c : controller) (machine : Machine) (node : option (list NodeCondition)) : bool :=
  match node with
  | Some conds => nodeConditionsHaveChanged (st_Conditions (m_Status machine)) conds
  | None => false
  end || negb (bool_decide (observed_phase c machine node = m_Phase machine)).

Definition waiting (machine : Machine) : bool :=
  bool_decide (m_Phase machine = MachinePending) || bool_decide (m_Phase machine = MachineUnknown).

(** The specification: the phase the machine gets, [late] being whether it has waited too long. *)
Definition next_phase (c : controller) (machine : Machine) (node : option (list NodeCondition)) (late : bool) : string :=
  if negb (observed_change c machine node) && waiting machine && late then MachineFailed
  else observed_phase c machine node.

(** The machine has been in its phase longer than the timeout of that phase. *)
Definition overdue (c : controller) (machine : Machine) (t : Z) : bool :=
  let timeout := if bool_decide (m_Phase machine = MachinePending) then getEffectiveCreationTimeout c machine
                 else getEffectiveHealthTimeout c machine in
  0 <? (t - timeout) - cs_LastUpdateTime (st_CurrentStatus (m_Status machine)).

(** The clock's answer. *)
Definition clock_answer (x : result (answer Now)) : Z := match x with Ok t => t | Err _ => 0 end.

Definition status_updates (h : history) : list Machine :=
  omap (fun r => match r with UpdateStatusMachine m => Some m | _ => None end) (projT1 <$> h).

Lemma status_updates_app h1 h2 : status_updates (h1 ++ h2) = status_updates h1 ++ status_updates h2.
Proof. unfold status_updates. by rewrite fmap_app, omap_app. Qed.

Lemma status_updates_none h :
  Forall (fun e : event => match projT1 e with UpdateStatusMachine _ => False | _ => True end) h -> status_updates h = [].
Proof. induction 1 as [|[r x] h Hr _ IH]; [done|]. unfold status_updates in *. csimpl. rewrite IH. by destruct r. Qed.

Section health.
Context `{!Encoders} (c : controller).

Abbreviation no_update := (fun e : event => match projT1 e with UpdateStatusMachine _ => False | _ => True end).

Lemma exec_health_status clone d s ty ph lf h r : exec (health_status clone d s ty ph lf) h (Return r) ->
  Forall no_update h /\ m_Meta r = m_Meta clone /\ m_Spec r = m_Spec clone /\ m_Phase r = ph /\
  st_Conditions (m_Status r) = st_Conditions (m_Status clone) /\ st_Node (m_Status r) = st_Node (m_Status clone).
Proof.
  intros (x & h1 & -> & y & h2 & -> & He). destruct lf; destruct He as [-> [= ->]]; (split_and!; [by repeat constructor|done..]).
Qed.

Lemma emits_deleteBootstrapToken name : emits no_update (deleteBootstrapToken name).
Proof. unfold deleteBootstrapToken. by emits_all. Qed.

(** What the first part of the health check hands on. *)
Lemma exec_observe_node machine h r : exec (observe_node c machine) h (Return r) ->
  Forall no_update h /\
  exists x h', h = ev (ListerGetNode (st_Node (m_Status machine))) x :: h' /\
  match x with
  | Err e => if IsNotFound e then True else r = (None, Some e)
  | Ok _ => True
  end /\
  forall node, (match x with Ok n => node = Some (n_Conditions n) | Err e => IsNotFound e = true /\ node = None end) ->
  exists clone, r = (Some (clone, observed_change c machine node), None) /\
    m_Meta clone = m_Meta machine /\ m_Spec clone = m_Spec machine /\
    m_Phase clone = observed_phase c machine node /\
    st_Conditions (m_Status clone) = st_Conditions (m_Status (observed machine node)) /\
    (observed_change c machine node = false -> clone = machine).
Proof.
  intros (x & h' & -> & He). cbn [bind] in He.
  assert (Hem : emits no_update (observe_node c machine)).
  { unfold observe_node, health_status. emits_all; try done. apply emits_deleteBootstrapToken. }
  split; [eapply Hem; by exists x, h'|]. exists x, h'. split; [done|]. destruct x as [node|e].
  - split; [done|]. intros _ ->. revert He. unfold observed_change, observed_phase.
    assert (Hp : m_Phase (observed machine (Some (n_Conditions node))) = m_Phase machine /\
      m_Meta (observed machine (Some (n_Conditions node))) = m_Meta machine /\
      m_Spec (observed machine (Some (n_Conditions node))) = m_Spec machine) by (unfold observed; by case_match).
    destruct Hp as (Hp & Hm & Hs).
    fold (observed machine (Some (n_Conditions node))). set (m1 := observed machine (Some (n_Conditions node))) in *.
    assert (H1 : nodeConditionsHaveChanged (st_Conditions (m_Status machine)) (n_Conditions node) = false -> m1 = machine)
      by (intros Hc; unfold m1, observed; by rewrite Hc).
    set (changed := nodeConditionsHaveChanged _ _) in *.
    change (if changed then m_set_Status (st_set_Conditions (n_Conditions node) (m_Status machine)) machine else machine) with m1.
    rewrite Hp. destruct (isHealthy c m1); cbn [negb andb]; case_bool_decide as Hr; cbn [negb andb].
    + intros [-> [= ->]]. exists m1. rewrite Hr, bool_decide_true, orb_false_r by done. split_and!; congruence || auto.
    + rewrite (bool_decide_false (MachineRunning = _)) by congruence. rewrite orb_true_r.
      destruct (_ && _); intros He.
      * apply exec_bind_ret in He as (h1 & a & h2 & -> & _ & He). apply exec_bind_ret in He as (h3 & cl & h4 & -> & E3 & [-> [= ->]]).
        apply exec_health_status in E3 as (_ & ? & ? & ? & ? & _). exists cl. split_and!; congruence.
      * apply exec_bind_ret in He as (h3 & cl & h4 & -> & E3 & [-> [= ->]]).
        apply exec_health_status in E3 as (_ & ? & ? & ? & ? & _). exists cl. split_and!; congruence.
    + intros He. apply exec_bind_ret in He as (h3 & cl & h4 & -> & E3 & [-> [= ->]]).
      apply exec_health_status in E3 as (_ & ? & ? & ? & ? & _). exists cl. rewrite Hr, bool_decide_false, orb_true_r by done.
      split_and!; congruence.
    + intros [-> [= ->]]. exists m1. rewrite bool_decide_true, orb_false_r by done. split_and!; congruence || auto.
  - destruct (IsNotFound e) eqn:En; [|destruct He as [-> [= ->]]; split; [done|by intros ? [? _]]]. split; [done|]. intros _ [_ ->].
    unfold observed_change, observed_phase, observed. cbn [orb]. destruct (_ && _) eqn:Eb.
    + apply andb_true_iff in Eb as [_ Hr]. apply bool_decide_eq_true in Hr.
      apply exec_bind_ret in He as (h3 & cl & h4 & -> & E3 & [-> [= ->]]).
      apply exec_health_status in E3 as (_ & ? & ? & ? & ? & _). exists cl. rewrite Hr, bool_decide_false by done. split_and!; first [done|congruence].
    + destruct He as [-> [= ->]]. exists machine. by rewrite bool_decide_true.
Qed.

Lemma exec_check_timeout machine clone h cl u : exec (check_timeout c machine clone) h (Return (cl, u)) ->
  Forall no_update h /\
  exists x h', h = ev Now x :: h' /\ u = overdue c machine (clock_answer x) /\
    if u then m_Meta cl = m_Meta clone /\ m_Spec cl = m_Spec clone /\ m_Phase cl = MachineFailed /\
              st_Conditions (m_Status cl) = st_Conditions (m_Status clone)
    else cl = clone.
Proof.
  intros He. split; [assert (Hem : emits no_update (check_timeout c machine clone)) by
    (unfold check_timeout, health_status, HasTimeOutOccurred, enqueueMachineAfter; by emits_all); by eapply Hem|].
  destruct He as (x & h' & -> & He). exists x, h'. split; [done|]. cbn [bind] in He.
  match type of He with exec (if ?b then _ else _) _ _ => change b with (overdue c machine (clock_answer x)) in He end.
  destruct (overdue _ _ _) eqn:Eo.
  - apply exec_bind_ret in He as (h1 & a & h2 & -> & E1 & [-> [= -> ->]]). apply exec_health_status in E1 as (_ & ? & ? & ? & ? & _).
    by split_and!.
  - destruct He as (y & h2 & -> & -> & [= -> ->]). done.
Qed.

(** C8: the health check is the state machine [next_phase]: it stores the machine at most once, exactly
    when the phase or the observed conditions change, with the phase the specification gives and nothing
    else of the object touched; a failure is declared only from Pending or Unknown, and only after the
    clock has shown that the machine was overdue. *)
Theorem reconcileMachineHealth_refines machine h r :
  exec (reconcileMachineHealth c machine) h (Return r) ->
  exists x h', h = ev (ListerGetNode (st_Node (m_Status machine))) x :: h' /\
  match x with
  | Err e => IsNotFound e = false -> status_updates h = [] /\ r = (ShortRetry, Some e)
  | _ => True
  end /\
  forall node, (match x with Ok n => node = Some (n_Conditions n) | Err e => IsNotFound e = true /\ node = None end) ->
  exists late, (late = true -> exists y, ev Now y ∈ h /\ overdue c machine (clock_answer y) = true) /\
    let p := next_phase c machine node late in
    if observed_change c machine node || negb (bool_decide (p = m_Phase machine)) then
      exists m', status_updates h = [m'] /\ m_Phase m' = p /\ m_Meta m' = m_Meta machine /\ m_Spec m' = m_Spec machine /\
        st_Conditions (m_Status m') = st_Conditions (m_Status (observed machine node)) /\ exists e, r = (ShortRetry, Some e)
    else status_updates h = [] /\ r = (LongRetry, None).
Proof.
  intros He. unfold reconcileMachineHealth in He. apply exec_bind_ret in He as (h1 & obs & h2 & -> & E1 & E2).
  apply exec_observe_node in E1 as (HF1 & x & h' & -> & Herr & Hobs). exists x, (h' ++ h2). split; [done|].
  apply status_updates_none in HF1. rewrite status_updates_app, HF1. split.
  - destruct x as [n|e]; [done|]. intros En. rewrite En in Herr. subst obs. by destruct E2 as [-> [= ->]].
  - intros node Hnode. destruct (Hobs node Hnode) as (clone & -> & Hm & Hs & Hph & Hc & Hsame). clear Hobs Herr.
    unfold next_phase. fold (waiting machine) in E2.
    apply exec_bind_ret in E2 as (h3 & [cl u] & h4 & -> & E3 & E4).
    assert (Hfin : forall m, u = true -> cl = m -> exists e, status_updates h4 = [m] /\ r = (ShortRetry, Some e)).
    { intros m -> ->. destruct E4 as (y & h5 & -> & -> & [= ->]). by eexists. }
    destruct (observed_change c machine node) eqn:Eoc; cbn [negb andb orb] in E3 |- *.
    + destruct E3 as [-> [= -> ->]]. exists false. split; [done|]. cbn [app]. destruct (Hfin clone) as (e & -> & ->); [done..|].
      exists clone. split_and!; try done. by eexists.
    + assert (observed_phase c machine node = m_Phase machine) as Hop.
      { unfold observed_change in Eoc. apply orb_false_iff in Eoc as [_ Eb].
        apply negb_false_iff, bool_decide_eq_true in Eb. done. }
      destruct (waiting machine) eqn:Ew; cbn [andb].
      * apply exec_check_timeout in E3 as (HF3 & y & h5 & -> & -> & Hcl). apply status_updates_none in HF3.
        exists (overdue c machine (clock_answer y)). split; [intros Ho; exists y; split; [set_solver|done]|].
        rewrite status_updates_app, HF3. cbn [app]. destruct (overdue _ _ _) eqn:Eo.
        -- destruct Hcl as (Hm' & Hs' & Hp' & Hc'). rewrite bool_decide_false.
           ++ cbn [negb]. destruct (Hfin cl) as (e & -> & ->); [done..|]. exists cl. split_and!; try congruence. by eexists.
           ++ unfold waiting in Ew. apply orb_true_iff in Ew as [Ew|Ew]; apply bool_decide_eq_true in Ew; by rewrite Ew.
        -- rewrite Hop, bool_decide_true by done. cbn [negb]. destruct E4 as [-> [= ->]]. done.
      * destruct E3 as [-> [= -> ->]]. exists false. split; [done|]. rewrite Hop, bool_decide_true by done. cbn [negb].
        by destruct E4 as [-> [= ->]].
Qed.
End health.

(** ** Status updates *)

Lemma exec_similar s1 s2 h o : exec (isMachineStatusSimilar s1 s2) h o ->
  exists b, o = Return b /\ status_updates h = [] /\ Forall (fun e => projT1 e = Now) h /\ (b = true -> similar_content s1 s2 = true).
Proof.
  intros (x & h1 & -> & He). cbn [bind] in He. case_match.
  - destruct He as [-> ->]. exists false. by repeat constructor.
  - destruct He as (y & h2 & -> & He). cbn [bind] in He. case_match; destruct He as [-> ->].
    + exists false. by repeat constructor.
    + eexists. split_and!; [done|done|by repeat constructor|done].
Qed.

(** A status update is sent as it was asked for, or left out when the operation, apart from time
    stamps, is similar to the stored one; it never fails, and nothing else is written. *)
Theorem machineStatusUpdate_spec machine lo cs lks h o : exec (machineStatusUpdate machine lo cs lks) h o ->
  exists r, o = Return r /\
  let clone := status_clone machine lo cs lks in
  (writes h = [] /\ r = None /\ similar_content (m_Status clone) (m_Status machine) = true) \/
  (writes h = [UpdateStatusMachine clone] /\
   match r with Some e => ev (UpdateStatusMachine clone) (Err e) ∈ h | None => exists m, ev (UpdateStatusMachine clone) (Ok m) ∈ h end).
Proof.
  intros He. unfold machineStatusUpdate in He. apply exec_bind in He as [(h1 & b & h2 & -> & E1 & E2)|(o' & E1 & Hf & _)].
  - apply exec_similar in E1 as (b' & [= <-] & _ & Hn & Hs).
    assert (Hw : writes h1 = []).
    { clear -Hn. induction Hn as [|[r x] h Hr _ IH]; [done|]. simpl in Hr. subst. by rewrite writes_cons. }
    destruct b.
    + destruct E2 as [-> ->]. exists None. split; [done|]. left. rewrite writes_app, Hw. auto.
    + destruct E2 as (x & h' & -> & -> & ->). eexists. split; [done|]. right. rewrite writes_app, Hw, writes_cons. split; [done|].
      destruct x; [eexists|]; apply elem_of_app; right; left.
  - by apply exec_similar in E1 as (b & -> & _).
Qed.

(** The last known state is not part of the comparison: a report that differs from the stored status
    only in it, within half an hour, is dropped, and the new state with it. *)
Theorem last_known_state_dropped machine lo cs lks t :
  similar_content (m_Status (status_clone machine lo cs lks)) (m_Status machine) = true ->
  t - tolerateTimeDiff <= lo_LastUpdateTime lo -> t - tolerateTimeDiff <= lo_LastUpdateTime (st_LastOperation (m_Status machine)) ->
  exec (machineStatusUpdate machine lo cs lks) [ev Now (Ok t); ev Now (Ok t)] (Return None).
Proof.
  intros Hs H1 H2. unfold machineStatusUpdate, isMachineStatusSimilar, now. cbn [bind].
  apply exec_Call_inv. cbn [bind]. rewrite (proj2 (Z.ltb_ge _ _)) by done. cbn [bind]. apply exec_Call_inv. cbn [bind].
  rewrite (proj2 (Z.ltb_ge _ _)) by done. cbn [bind]. by rewrite Hs.
Qed.

(** ** Bootstrap tokens *)

Lemma length_str_app a b : String.length (a +:+ b) = (String.length a + String.length b)%nat.
Proof. induction a as [|x a IH]; [done|]. rewrite str_app_cons. simpl. by rewrite IH. Qed.

Lemma substring_skip a b n : substring (String.length a) n (a +:+ b) = substring 0 n b.
Proof. induction a as [|x a IH]; [done|]. rewrite str_app_cons. simpl. exact IH. Qed.

Lemma substring_all s n : (String.length s <= n)%nat -> substring 0 n s = s.
Proof. revert n; induction s as [|x s IH]; intros [|n] Hn; simpl in *; try done; [lia|]. rewrite IH by lia. done. Qed.

(** A bootstrap token is named after three bytes of the machine's name, the fifth to the third from
    the end: all machines that agree in them share one token, and the first of them to join deletes the
    token of the others. *)
Theorem bootstrap_token_shared a b s t u :
  String.length s = 3%nat -> String.length t = 2%nat -> String.length u = 2%nat ->
  getTokenIDAndSecretName (a +:+ s +:+ t) = getTokenIDAndSecretName (b +:+ s +:+ u) /\
  getTokenIDAndSecretName (a +:+ s +:+ t) = Some (hex_encode s, "bootstrap-token-" +:+ hex_encode s).
Proof.
  intros Hs Ht Hu.
  assert (H : forall a t, String.length t = 2%nat ->
    getTokenIDAndSecretName (a +:+ s +:+ t) = Some (hex_encode s, "bootstrap-token-" +:+ hex_encode s)).
  { clear -Hs. intros a t Ht. unfold getTokenIDAndSecretName. rewrite !length_str_app, Hs, Ht.
    rewrite (proj2 (Nat.ltb_ge _ _)) by lia. replace (String.length a + (3 + 2) - 5)%nat with (String.length a) by lia.
    rewrite substring_skip, (substring_all (s +:+ t)) by (rewrite length_str_app; lia).
    destruct s as [|c1 [|c2 [|c3 [|]]]]; try done. by destruct t. }
  by rewrite !H.
Qed.

(** ** Witnesses *)

#[local] Existing Instance sample_Encoders.

Definition ready_condition (status : string) : NodeCondition := mkNodeCond NodeReady status 0 0 EmptyString EmptyString.
Definition pending_machine : Machine := sample_machine "machine-abcde" MachinePending.
(** A clock at one hour, no node, and an API server that stores what it is sent. *)
Definition lost_world (r : req) (w : unit) : unit * result (answer r) :=
  (w, match r return result (answer r) with
      | Now => Ok (60 * Minute)
      | ListerGetNode _ => Err (mkErr NotFound "node not found")
      | UpdateStatusMachine m => Ok m
      | _ => Err (Errorf "unexpected")
      end).

Lemma reconcileMachineHealth_refines_witness :
  (run lost_world (reconcileMachineHealth sample_controller pending_machine) tt).2 =
    Return (ShortRetry, Some (Errorf "Machine creation is successful. Machine State has been UPDATED")) /\
  exists late, next_phase sample_controller pending_machine None late = MachineFailed.
Proof.
  assert (Hr : (run lost_world (reconcileMachineHealth sample_controller pending_machine) tt).2 =
    Return (ShortRetry, Some (Errorf "Machine creation is successful. Machine State has been UPDATED"))) by (vm_compute; reflexivity).
  split; [done|]. pose proof (run_exec lost_world (reconcileMachineHealth sample_controller pending_machine) tt) as He. rewrite Hr in He.
  destruct (reconcileMachineHealth_refines _ _ _ _ He) as (x & h' & Hh & _ & H).
  assert (Hh2 : (run lost_world (reconcileMachineHealth sample_controller pending_machine) tt).1.2 =
    ev (ListerGetNode "machine-abcde") (Err (mkErr NotFound "node not found")) ::
      tail (run lost_world (reconcileMachineHealth sample_controller pending_machine) tt).1.2) by (vm_compute; reflexivity).
  rewrite Hh in Hh2. assert (Hx : ev (ListerGetNode (st_Node (m_Status pending_machine))) x =
    ev (ListerGetNode "machine-abcde") (Err (mkErr NotFound "node not found"))) by congruence.
  apply event_inj in Hx. subst x. destruct (H None) as (late & _ & Hl); [done|]. exists late. destruct late; [reflexivity|].
  vm_compute in Hl. by destruct Hl as [_ [=]].
Defined.

Lemma machineStatusUpdate_spec_witness :
  exists r, (run lost_world (machineStatusUpdate pending_machine (mkLastOp "VM failed" 1 MachineStateFailed MachineOperationCreate)
    (mkCurStatus MachineFailed false 1) "s") tt).2 = Return r.
Proof.
  destruct (machineStatusUpdate_spec pending_machine (mkLastOp "VM failed" 1 MachineStateFailed MachineOperationCreate)
    (mkCurStatus MachineFailed false 1) "s" _ _ (run_exec lost_world _ tt)) as (r & Hr & _). by exists r.
Defined.

Definition failed_machine : Machine :=
  m_set_Status (mkMachineStatus EmptyString [] (mkLastOp "Cloud provider message - quota" 10 MachineStateFailed MachineOperationCreate)
    (mkCurStatus MachineCrashLoopBackOff false 10) "vm-1") (sample_machine "machine-abcde" MachineCrashLoopBackOff).

Lemma last_known_state_dropped_witness :
  exec (machineStatusUpdate failed_machine (mkLastOp "Cloud provider message - quota" 20 MachineStateFailed MachineOperationCreate)
    (mkCurStatus MachineCrashLoopBackOff false 20) "vm-2") [ev Now (Ok 20); ev Now (Ok 20)] (Return None).
Proof. apply last_known_state_dropped; vm_compute; congruence. Defined.

Lemma bootstrap_token_shared_witness :
  getTokenIDAndSecretName ("shoot--worker-z1-6c9f" +:+ "xkp" +:+ "2q") = getTokenIDAndSecretName ("shoot--worker-z2-77d4" +:+ "xkp" +:+ "9m").
Proof. apply (bootstrap_token_shared "shoot--worker-z1-6c9f" "shoot--worker-z2-77d4" "xkp" "2q" "9m"); reflexivity. Defined.
