(* ===== verification/MachineDeletion.v ===== *)
(** * Deletion of a machine (machine.go: triggerDeletionFlow, and machine_util.go)

    One reconciliation does one step: the step to do is read from the description of the last operation,
    and the description of the next step is written back.  The VM is looked up, its node drained, the VM
    deleted, the node object deleted, and the finalizer of the machine removed. *)
From Stdlib Require Import ZArith Lia Ascii String QArith.
From stdpp Require Import base gmap strings list.
From S2P Require Import Prelude GoLib Types Labels Prog Samples NodeOps StringSimilarity MachineCodes NodeTemplate MachineClasses MachineUtil.
Open Scope Z_scope.

(** A driver call that may return a response together with an error. *)
Definition driver_answer {A} (x : result (option A * option error)) : option A * option error :=
  match x with Ok p => p | Err e => (None, Some e) end.

Definition deleteOperation (description : string) (t : Z) (state : string) : LastOperation :=
  mkLastOp description t state MachineOperationDelete.

(** The status update every step ends with: the current status, and with it the time from which the drain
    timeout counts, stays as it is. *)
Definition deletionUpdate (machine : Machine) (description state lastKnownState : string) : prog (option error) :=
  let! t := now in
  machineStatusUpdate machine (deleteOperation description t state) (st_CurrentStatus (m_Status machine)) lastKnownState.

Definition node_name (machine : Machine) : string := mget (Labels (m_Meta machine)) "node".

Definition setMachineTerminationStatus (machine : Machine) : prog (RetryPeriod * option error) :=
  let! t1 := now in
  let! t2 := now in
  let clone := m_set_Status (st_set_CurrentStatus (mkCurStatus MachineTerminating false t2)
    (st_set_LastOperation (deleteOperation GetVMStatus t1 MachineStateProcessing) (m_Status machine))) machine in
  let! r := call_try (UpdateStatusMachine clone) in
  Ret (ShortRetry, Some (match r with
    | Err err => err
    | Ok _ => Errorf "Machine deletion in process. Phase set to termination"
    end)).

(** ** Looking the VM up *)

(** The description, state, retry period and error that follow from the driver's answer. *)
Definition vm_status_outcome (x : result (option GetMachineStatusResponse)) : string * string * RetryPeriod * error :=
  match x with
  | Ok _ => (InitiateDrain, MachineStateProcessing, ShortRetry, Errorf "Machine deletion in process. VM with matching ID found")
  | Err err =>
      match error_code err with
      | None =>
          let description := "Error occurred with decoding machine error status while getting VM status, aborting without retry. " +:+
            err_msg err +:+ " " +:+ GetVMStatus in
          (description, MachineStateFailed, LongRetry, Errorf ("Machine deletion has failed. " +:+ description))
      | Some code =>
          if bool_decide (code = Unimplemented) then (InitiateDrain, MachineStateProcessing, ShortRetry, err)
          else if bool_decide (code = CodeNotFound) then
            ("VM was not found at provider. " +:+ InitiateNodeDeletion, MachineStateProcessing, ShortRetry, err)
          else if retryable (Some code) then
            ("Error occurred with decoding machine error status while getting VM status, aborting with retry. " +:+ GetVMStatus,
             MachineStateFailed, ShortRetry, err)
          else
            ("Error occurred with decoding machine error status while getting VM status, aborting without retry. machine code: " +:+
             err_msg err +:+ " " +:+ GetVMStatus, MachineStateFailed, MediumRetry, err)
      end
  end.

Definition getVMStatus (request : DriverRequest) : prog (RetryPeriod * option error) :=
  let machine := dr_Machine request in
  let! x := call_try (VMStatus request) in
  let '(description, state, retry, err) := vm_status_outcome x in
  do! deletionUpdate machine description state (st_LastKnownState (m_Status machine)) in
  Ret (retry, Some err).

(** ** Draining the node *)

Definition isValidNodeName (nodeName : string) : bool := negb (bool_decide (nodeName = EmptyString)).
Definition zero_condition : NodeCondition := mkNodeCond EmptyString EmptyString zero_time zero_time EmptyString EmptyString.
Definition isConditionEmpty (condition : NodeCondition) : bool := bool_decide (condition = zero_condition).
Definition ReadonlyFilesystem := "ReadonlyFilesystem".
Definition nodeNotReadyDuration : Z := 5 * Minute.
Definition PodEvictionRetryInterval : Z := 20 * Second.

(** The last condition of each of the two types. *)
Definition drain_conditions (conds : list NodeCondition) : NodeCondition * NodeCondition :=
  foldl (fun acc condition =>
    if bool_decide (nc_Type condition = NodeReady) then (condition, acc.2)
    else if bool_decide (nc_Type condition = ReadonlyFilesystem) then (acc.1, condition) else acc)
    (zero_condition, zero_condition) conds.

(** The condition has another status than the healthy one, and has had it for long. *)
Definition condition_stuck (condition : NodeCondition) (healthy : string) : prog bool :=
  if negb (isConditionEmpty condition) && negb (bool_decide (nc_Status condition = healthy)) then
    let! t := now in Ret (nodeNotReadyDuration <? t - nc_LastTransitionTime condition)
  else Ret false.

(** Why the drain is skipped, if it is. *)
Definition skip_reason (machine : Machine) : prog (option string) :=
  if negb (isValidNodeName (node_name machine)) then Ret (Some "Skipping drain as nodeName is not a valid one for machine.")
  else
    let '(nodeReadyCondition, readOnlyFileSystemCondition) := drain_conditions (st_Conditions (m_Status machine)) in
    let! notReady := condition_stuck nodeReadyCondition ConditionTrue in
    if (notReady : bool) then Ret (Some "Skipping drain as machine is NotReady for over 5minutes.")
    else
      let! readOnly := condition_stuck readOnlyFileSystemCondition ConditionFalse in
      if (readOnly : bool) then Ret (Some "Skipping drain as machine is in ReadonlyFilesystem for over 5minutes.")
      else Ret None.

Definition setTerminationReasonByPhase (phase : string) (t : NodeCondition) : NodeCondition :=
  let '(reason, message) :=
    if bool_decide (phase = MachineFailed) then (NodeUnhealthy, "Machine Controller is terminating failed machine")
    else (NodeScaledDown, "Machine Controller is scaling down machine") in
  mkNodeCond (nc_Type t) (nc_Status t) (nc_LastHeartbeatTime t) (nc_LastTransitionTime t) reason message.

Definition UpdateNodeTerminationCondition (machine : Machine) : prog unit :=
  if bool_decide (m_Phase machine = EmptyString) then Ret tt
  else
    let nodeName := node_name machine in
    let! t1 := now in
    let! t2 := now in
    let terminationCondition := mkNodeCond NodeTerminationCondition ConditionTrue t1 t2 EmptyString EmptyString in
    let! r := attempt (GetNodeCondition nodeName NodeTerminationCondition) in
    match r with
    | Err err => if IsNotFound err then Ret tt else Throw err
    | Ok cond =>
        let terminationCondition :=
          match cond with
          | Some cond =>
              if bool_decide (m_Phase machine = MachineTerminating) then
                mkNodeCond NodeTerminationCondition ConditionTrue t1 t2 (nc_Reason cond) (nc_Message cond)
              else setTerminationReasonByPhase (m_Phase machine) terminationCondition
          | None => setTerminationReasonByPhase (m_Phase machine) terminationCondition
          end in
        let! r := attempt (AddOrUpdateConditionsOnNode nodeName terminationCondition) in
        match r with
        | Err err => if IsNotFound err then Ret tt else Throw err
        | Ok _ => Ret tt
        end
    end.

Section deletion.
Variable c : controller.

(** [int32(math.Min(retries, timeout/interval))]: the quotient is exact enough for its integer part. *)
Definition max_evict_retries (machine : Machine) : Z :=
  Z.min (getEffectiveMaxEvictRetries c machine) (Z.quot (getEffectiveDrainTimeout c machine) PodEvictionRetryInterval).

(** The drain proper: error, description and state. *)
Definition call_drain (machine : Machine) (force : bool) : prog (option error * string * string) :=
  let! d := call_try (RunDrain (mkDrainOptions
    (if force then Minute else getEffectiveDrainTimeout c machine)
    (if force then 1 else max_evict_retries machine)
    (so_PvDetachTimeout (c_safetyOptions c)) (so_PvReattachTimeout (c_safetyOptions c))
    (node_name machine) force)) in
  Ret (match d with
    | Ok _ =>
        let description := "Drain successful. " +:+ InitiateVMDeletion in
        (Some (Errorf ("Machine deletion in process. " +:+ description)), description, MachineStateProcessing)
    | Err err =>
        if force then
          (Some err, "Drain failed due to - " +:+ err_msg err +:+
            ". However, since it's a force deletion shall continue deletion of VM. " +:+ InitiateVMDeletion, MachineStateProcessing)
        else
          (Some err, "Drain failed due to - " +:+ err_msg err +:+ ". Will retry in next sync. " +:+ InitiateDrain,
            MachineStateFailed)
    end).

Definition run_drain (machine : Machine) : prog (option error * string * string) :=
  let forceDeleteLabelPresent := bool_decide (mget (Labels (m_Meta machine)) "force-deletion" = "True") in
  let! deletionTimestamp := deref (DeletionTimestamp (m_Meta machine)) in
  let! timeOutOccurred := HasTimeOutOccurred deletionTimestamp (getEffectiveDrainTimeout c machine) in
  let force := forceDeleteLabelPresent || timeOutOccurred in
  let! u := attempt (UpdateNodeTerminationCondition machine) in
  match u, force with
  | Err err, false =>
      Ret (Some err, "Drain failed due to failure in update of node conditions - " +:+ err_msg err +:+
        ". Will retry in next sync. " +:+ InitiateDrain, MachineStateFailed)
  | _, _ => call_drain machine force
  end.

Definition drainNode (request : DriverRequest) : prog (RetryPeriod * option error) :=
  let machine := dr_Machine request in
  let! skip := skip_reason machine in
  let! r :=
    (match skip with
     | Some s => Ret (Some (Errorf (s +:+ " " +:+ InitiateVMDeletion)), s +:+ " " +:+ InitiateVMDeletion, MachineStateProcessing)
     | None => run_drain machine
     end) in
  let '(err, description, state) := r in
  do! deletionUpdate machine description state (st_LastKnownState (m_Status machine)) in
  Ret (ShortRetry, err).

(** ** Deleting the VM *)

Definition vm_delete_outcome (err : option error) : RetryPeriod * string * string * error :=
  match err with
  | None =>
      let description := "VM deletion was successful. " +:+ InitiateNodeDeletion in
      (ShortRetry, description, MachineStateProcessing, Errorf ("Machine deletion in process. " +:+ description))
  | Some err =>
      match error_code err with
      | Some code =>
          if retryable (Some code) then
            (ShortRetry, "VM deletion failed due to - " +:+ err_msg err +:+ ". However, will re-try in the next resync. " +:+
              InitiateVMDeletion, MachineStateFailed, err)
          else if bool_decide (code = CodeNotFound) then
            (ShortRetry, "VM not found. Continuing deletion flow. " +:+ InitiateNodeDeletion, MachineStateProcessing, err)
          else
            (LongRetry, "VM deletion failed due to - " +:+ err_msg err +:+ ". Aborting operation. " +:+ InitiateVMDeletion,
              MachineStateFailed, err)
      | None =>
          (LongRetry, "Error occurred while decoding machine error: " +:+ err_msg err +:+ ". " +:+ InitiateVMDeletion,
            MachineStateFailed, err)
      end
  end.

Definition deleteVM (request : DriverRequest) : prog (RetryPeriod * option error) :=
  let! x := call_try (VMDelete request) in
  let '(deleteMachineResponse, err) := driver_answer x in
  let '(retryRequired, description, state, err) := vm_delete_outcome err in
  let lastKnownState := match deleteMachineResponse with Some r => der_LastKnownState r | None => EmptyString end in
  do! deletionUpdate (dr_Machine request) description state lastKnownState in
  Ret (retryRequired, Some err).

(** ** Deleting the node object *)

Definition node_delete_outcome (nodeName : string) (r : result unit) : string * string * error :=
  match r with
  | Ok _ =>
      ("Deletion of Node Object " +:+ quoted nodeName +:+ " is successful. " +:+ InitiateFinalizerRemoval, MachineStateProcessing,
       Errorf "Machine deletion in process. Deletion of node object was succesful")
  | Err err =>
      if negb (IsNotFound err) then
        ("Deletion of Node Object " +:+ quoted nodeName +:+ " failed due to error: " +:+ err_msg err +:+ ". " +:+ InitiateNodeDeletion,
         MachineStateFailed, err)
      else
        ("No node object found for " +:+ quoted nodeName +:+ ", continuing deletion flow. " +:+ InitiateFinalizerRemoval,
         MachineStateProcessing, err)
  end.

Definition deleteNodeObject (machine : Machine) : prog (RetryPeriod * option error) :=
  let nodeName := node_name machine in
  let! r :=
    (if negb (bool_decide (nodeName = EmptyString)) then
       let! x := call_try (DeleteNode nodeName) in Ret (node_delete_outcome nodeName x)
     else Ret ("No node object found for machine, continuing deletion flow. " +:+ InitiateFinalizerRemoval, MachineStateProcessing,
       Errorf "Machine deletion in process. No node object found")) in
  let '(description, state, err) := r in
  do! deletionUpdate machine description state (st_LastKnownState (m_Status machine)) in
  Ret (ShortRetry, Some err).

(** ** The flow *)

Definition triggerDeletionFlow (request : DriverRequest) : prog (RetryPeriod * option error) :=
  let machine := dr_Machine request in
  let description := lo_Description (st_LastOperation (m_Status machine)) in
  if negb (has_finalizer MCMFinalizerName (m_Meta machine)) then
    Ret (LongRetry, Some (Errorf ("Machine " +:+ quoted (m_Name machine) +:+ " is missing finalizers. Deletion cannot proceed")))
  else if negb (bool_decide (m_Phase machine = MachineTerminating)) then setMachineTerminationStatus machine
  else if contains description GetVMStatus then getVMStatus request
  else if contains description InitiateDrain then drainNode request
  else if contains description InitiateVMDeletion then deleteVM request
  else if contains description InitiateNodeDeletion then deleteNodeObject machine
  else if contains description InitiateFinalizerRemoval then
    let! r := deleteMachineFinalizers machine in
    match r with
    | (_, Some err) => Ret (ShortRetry, Some err)
    | (_, None) => Ret (LongRetry, None)
    end
  else setMachineTerminationStatus machine.
End deletion.

(** ** The order of the steps *)

(** What has to have happened before a step, as found in the calls of earlier reconciliations. *)
Definition vm_gone (e : event) : Prop :=
  match e with
  | existT (VMStatus _) (Err err) => error_code err = Some CodeNotFound
  | existT (VMDelete _) x => match (driver_answer x).2 with None => True | Some err => error_code err = Some CodeNotFound end
  | _ => False
  end.
Definition node_deleted (e : event) : Prop :=
  match e with
  | existT (DeleteNode _) x => match x with Ok _ => True | Err err => IsNotFound err = true end
  | _ => False
  end.
Definition node_drained (e : event) : Prop :=
  match e with
  | existT (RunDrain o) x => match x with Ok _ => True | Err _ => do_ForceDeletePods o = true end
  | _ => False
  end.

(** A condition that has had a bad status for more than five minutes. *)
Definition stuck_at (t : Z) (machine : Machine) : Prop :=
  exists cond, cond ∈ st_Conditions (m_Status machine) /\ nodeNotReadyDuration < t - nc_LastTransitionTime cond /\
    ((nc_Type cond = NodeReady /\ nc_Status cond <> ConditionTrue) \/
     (nc_Type cond = ReadonlyFilesystem /\ nc_Status cond <> ConditionFalse)).

(** A reconciliation of the flow: the machine it was given and the calls it made. *)
Record run_of := mkRun { ro_machine : Machine; ro_calls : history }.

Definition did (P : event -> Prop) (runs : list run_of) : Prop := exists r e, r ∈ runs /\ e ∈ ro_calls r /\ P e.
Definition drain_done (runs : list run_of) : Prop :=
  did node_drained runs \/
  exists r, r ∈ runs /\ (node_name (ro_machine r) = EmptyString \/
    exists x, ev Now x ∈ ro_calls r /\ stuck_at (clock_answer x) (ro_machine r)).
Definition node_object_gone (runs : list run_of) : Prop :=
  did node_deleted runs \/ exists r, r ∈ runs /\ node_name (ro_machine r) = EmptyString.

(** Statuses the machine can have: one that no step of the flow has written yet, or one a reconciliation
    asked the API server to store, whether the request succeeded or not. *)
Definition flow_steps : list string := [GetVMStatus; InitiateDrain; InitiateVMDeletion; InitiateNodeDeletion; InitiateFinalizerRemoval].
Definition untouched (s : MachineStatus) : Prop :=
  cs_Phase (st_CurrentStatus s) <> MachineTerminating \/
  Forall (fun step => contains (lo_Description (st_LastOperation s)) step = false) flow_steps.
Definition possible (runs : list run_of) (s : MachineStatus) : Prop :=
  untouched s \/ exists r m, r ∈ runs /\ m ∈ status_updates (ro_calls r) /\ st_LastOperation s = st_LastOperation (m_Status m).

(** Any number of reconciliations, each on a machine the API server may have handed out: possibly an old
    version, with metadata and spec changed at will by others in between. *)
Inductive deletion_runs (c : controller) : list run_of -> Prop :=
  | no_runs : deletion_runs c []
  | one_more runs request h o :
      deletion_runs c runs -> possible runs (m_Status (dr_Machine request)) ->
      exec (triggerDeletionFlow c request) h o ->
      deletion_runs c (mkRun (dr_Machine request) h :: runs).

(** What a description promises: the first step it names, in the order of the switch. *)
Definition promise (runs : list run_of) (d : string) : Prop :=
  contains d GetVMStatus = false -> contains d InitiateDrain = false ->
  if contains d InitiateVMDeletion then drain_done runs \/ did vm_gone runs
  else if contains d InitiateNodeDeletion then did vm_gone runs
  else if contains d InitiateFinalizerRemoval then did vm_gone runs /\ node_object_gone runs
  else True.

Definition kept_promises (runs : list run_of) : Prop :=
  forall r m, r ∈ runs -> m ∈ status_updates (ro_calls r) -> promise runs (lo_Description (st_LastOperation (m_Status m))).

Lemma did_mono P r runs : did P runs -> did P (r :: runs).
Proof. intros (r' & e & ? & ?). exists r', e. split; [by right|done]. Qed.

Lemma drain_done_mono r runs : drain_done runs -> drain_done (r :: runs).
Proof. intros [H|(r' & ? & ?)]; [left; by apply did_mono|right; exists r'; split; [by right|done]]. Qed.

Lemma node_object_gone_mono r runs : node_object_gone runs -> node_object_gone (r :: runs).
Proof. intros [H|(r' & ? & ?)]; [left; by apply did_mono|right; exists r'; split; [by right|done]]. Qed.

Lemma promise_mono r runs d : promise runs d -> promise (r :: runs) d.
Proof.
  intros H H1 H2. specialize (H H1 H2). repeat case_match; try done.
  - destruct H; [left; by apply drain_done_mono|right; by apply did_mono].
  - by apply did_mono.
  - destruct H; split; [by apply did_mono|by apply node_object_gone_mono].
Qed.

Lemma str_app_nil_r s : s +:+ EmptyString = s.
Proof. induction s as [|x s IH]; [done|]. by rewrite str_app_cons, IH. Qed.

Lemma contains_suffix a d : contains (a +:+ d) d = true.
Proof. pose proof (contains_app a d EmptyString) as H. by rewrite str_app_nil_r in H. Qed.

Ltac suffix := rewrite <- ?str_app_assoc; apply contains_suffix.

(** *** The description each step writes *)

Lemma exec_deletionUpdate machine d s k h o : exec (deletionUpdate machine d s k) h o ->
  exists r, o = Return r /\ Forall (fun m => lo_Description (st_LastOperation (m_Status m)) = d) (status_updates h) /\
    Forall (fun e => match projT1 e with Now | UpdateStatusMachine _ => True | _ => False end) h.
Proof.
  intros (x & h' & -> & He). cbn [bind] in He. unfold machineStatusUpdate in He.
  apply exec_bind in He as [(h1 & b & h2 & -> & E1 & E2)|(o' & E1 & Hf & _)]; [|by apply exec_similar in E1 as (b & -> & _)].
  apply exec_similar in E1 as (b' & [= <-] & Hu & Hn & _).
  assert (HF : Forall (fun e => match projT1 e with Now | UpdateStatusMachine _ => True | _ => False end) h1).
  { eapply Forall_impl; [exact Hn|]. by intros e ->. }
  change (ev Now x :: ?l) with ([ev Now x] ++ l). rewrite !status_updates_app, Hu.
  destruct b; [|destruct E2 as (y & h3 & -> & E2)]; destruct E2 as [-> ->]; eexists; (split; [done|]).
  - split; [constructor|]. rewrite app_nil_r. by constructor.
  - split; [by repeat constructor|]. constructor; [done|]. apply Forall_app; split; [done|by repeat constructor].
Qed.

(** What a call of the flow needs to have happened before. *)
Definition call_allowed (runs : list run_of) (e : event) : Prop :=
  match projT1 e with
  | VMDelete _ => drain_done runs \/ did vm_gone runs
  | DeleteNode _ => did vm_gone runs
  | UpdateMachine _ => did vm_gone runs /\ node_object_gone runs
  | _ => True
  end.

(** The result of a step: all its calls allowed, all descriptions it writes justified by then. *)
Definition step_ok (runs : list run_of) (machine : Machine) (h : history) : Prop :=
  Forall (call_allowed runs) h /\
  Forall (fun m => promise (mkRun machine h :: runs) (lo_Description (st_LastOperation (m_Status m)))) (status_updates h).

Lemma step_ok_update runs machine h1 h2 d s k o :
  Forall (call_allowed runs) h1 -> status_updates h1 = [] ->
  promise (mkRun machine (h1 ++ h2) :: runs) d ->
  (exists f : option error -> prog (RetryPeriod * option error), exec (bind (deletionUpdate machine d s k) f) h2 o /\
     forall r, exists a, f r = Ret a) ->
  step_ok runs machine (h1 ++ h2).
Proof.
  intros H1 Hu Hp (f & He & Hf).
  assert (HE : Forall (fun m => lo_Description (st_LastOperation (m_Status m)) = d) (status_updates h2) /\
    Forall (fun e => match projT1 e with Now | UpdateStatusMachine _ => True | _ => False end) h2).
  { apply exec_bind in He as [(h3 & r & h4 & -> & E1 & E2)|(o' & E1 & _ & _)].
    - destruct (Hf r) as [a Ha]. rewrite Ha in E2. destruct E2 as [-> _]. rewrite app_nil_r.
      by apply exec_deletionUpdate in E1 as (? & _ & ? & ?).
    - by apply exec_deletionUpdate in E1 as (? & _ & ? & ?). }
  destruct HE as [Hd Hc]. split.
  - apply Forall_app. split; [done|]. eapply Forall_impl; [exact Hc|]. intros [[] x]; simpl; done.
  - rewrite status_updates_app, Hu. eapply Forall_impl; [exact Hd|]. by intros m ->.
Qed.

Lemma did_here (P : event -> Prop) machine h runs e : e ∈ h -> P e -> did P (mkRun machine h :: runs).
Proof. intros Hin HP. exists (mkRun machine h), e. split; [left|done]. Qed.

Lemma promise_early runs d : contains d GetVMStatus = true \/ contains d InitiateDrain = true -> promise runs d.
Proof. intros [H|H] H1 H2; congruence. Qed.

Lemma promise_vm runs d : contains d InitiateVMDeletion = true -> drain_done runs \/ did vm_gone runs -> promise runs d.
Proof. intros H Hd _ _. by rewrite H. Qed.

Lemma promise_node runs d : contains d InitiateNodeDeletion = true -> did vm_gone runs -> promise runs d.
Proof. intros H Hd _ _. rewrite H. case_match; [by right|done]. Qed.

Lemma promise_finalizer runs d : contains d InitiateFinalizerRemoval = true -> did vm_gone runs -> node_object_gone runs -> promise runs d.
Proof. intros H Hd Hn _ _. rewrite H. repeat case_match; auto. Qed.

Lemma step_setTermination runs machine h o : exec (setMachineTerminationStatus machine) h o -> step_ok runs machine h.
Proof.
  intros (x & h1 & -> & y & h2 & -> & z & h3 & -> & -> & _). split; [by repeat constructor|].
  unfold status_updates. csimpl. constructor; [|constructor]. apply promise_early. by left.
Qed.

Lemma vm_status_cases request x d s r e : vm_status_outcome x = (d, s, r, e) ->
  (contains d GetVMStatus = true \/ contains d InitiateDrain = true) \/
  (d = "VM was not found at provider. " +:+ InitiateNodeDeletion /\ vm_gone (ev (VMStatus request) x)).
Proof.
  unfold vm_status_outcome. destruct x as [?|err]; [intros [= <- _ _ _]; left; by right|]. simpl.
  destruct (error_code err) as [code|].
  - repeat case_bool_decide; try case_match; intros [= <- _ _ _]; subst; auto; left; left; suffix.
  - intros [= <- _ _ _]. left. left. suffix.
Qed.

Lemma step_getVMStatus runs request h o : exec (getVMStatus request) h o -> step_ok runs (dr_Machine request) h.
Proof.
  intros (x & h' & -> & He). cbn [bind] in He. destruct (vm_status_outcome x) as [[[d s] r] e] eqn:E.
  change (ev ?q x :: h') with ([ev q x] ++ h'). eapply step_ok_update; [by repeat constructor|done| |by eexists; split; [exact He|eauto]].
  apply (vm_status_cases request) in E as [Hd|[-> Hg]]; [by apply promise_early|].
  apply promise_node; [reflexivity|]. eapply did_here; [left|done].
Qed.

(** *** Draining *)

Lemma stuck_facts condition healthy h : exec (condition_stuck condition healthy) h (Return true) ->
  nc_Status condition <> healthy /\ isConditionEmpty condition = false /\
  exists x, ev Now x ∈ h /\ nodeNotReadyDuration < clock_answer x - nc_LastTransitionTime condition.
Proof.
  unfold condition_stuck. case_bool_decide as Hs; [rewrite andb_false_r; by intros [_ [=]]|]. rewrite andb_true_r.
  destruct (isConditionEmpty condition) eqn:Ee; [by intros [_ [=]]|]. cbn [negb].
  intros (x & h' & -> & -> & [= Hlt]). split; [done|]. split; [done|]. exists x. split; [left|]. by apply Z.ltb_lt.
Qed.

Lemma drain_conditions_type conds :
  (isConditionEmpty (drain_conditions conds).1 = false -> (drain_conditions conds).1 ∈ conds /\ nc_Type (drain_conditions conds).1 = NodeReady) /\
  (isConditionEmpty (drain_conditions conds).2 = false -> (drain_conditions conds).2 ∈ conds /\ nc_Type (drain_conditions conds).2 = ReadonlyFilesystem).
Proof.
  unfold drain_conditions.
  assert (Hgen : forall l acc, let r := foldl (fun acc condition =>
      if bool_decide (nc_Type condition = NodeReady) then (condition, acc.2)
      else if bool_decide (nc_Type condition = ReadonlyFilesystem) then (acc.1, condition) else acc) acc l in
    (r.1 = acc.1 \/ (r.1 ∈ l /\ nc_Type r.1 = NodeReady)) /\ (r.2 = acc.2 \/ (r.2 ∈ l /\ nc_Type r.2 = ReadonlyFilesystem))).
  { induction l as [|x l IH]; intros acc; simpl; [auto|].
    destruct (IH (if bool_decide (nc_Type x = NodeReady) then (x, acc.2)
      else if bool_decide (nc_Type x = ReadonlyFilesystem) then (acc.1, x) else acc)) as [H1 H2].
    split; [destruct H1 as [->|[? ?]]|destruct H2 as [->|[? ?]]]; [|right; split; [by right|done]| |right; split; [by right|done]];
      repeat case_bool_decide; simpl; auto; right; (split; [left|done]). }
  destruct (Hgen conds (zero_condition, zero_condition)) as [H1 H2]. simpl in *.
  assert (Hz : isConditionEmpty zero_condition = true) by (unfold isConditionEmpty; by rewrite bool_decide_true).
  split; intros He; [destruct H1 as [H1|H1]|destruct H2 as [H2|H2]]; try done; congruence.
Qed.

Lemma skip_reason_facts machine h o : exec (skip_reason machine) h o ->
  Forall (fun e => projT1 e = Now) h /\
  exists r, o = Return r /\
  (is_Some r -> node_name machine = EmptyString \/ exists x, ev Now x ∈ h /\ stuck_at (clock_answer x) machine).
Proof.
  assert (Hem : emits (fun e => projT1 e = Now) (skip_reason machine)) by (unfold skip_reason, condition_stuck; by emits_all).
  intros He. split; [by eapply Hem|]. revert He. unfold skip_reason, isValidNodeName.
  case_bool_decide as Hn; cbn [negb]; [intros [-> ->]; eauto|].
  pose proof (drain_conditions_type (st_Conditions (m_Status machine))) as [H1 H2].
  destruct (drain_conditions _) as [c1 c2]. simpl in *. intros He.
  assert (Ht : forall c hl, total (condition_stuck c hl)).
  { intros c hl. unfold condition_stuck. case_match; [|apply total_Ret]. intros h0 o0 (x & h1 & _ & _ & ->). eauto. }
  apply exec_bind in He as [(h1 & b1 & h2 & -> & E1 & He)|(o' & E1 & Hf & _)]; [|by apply Ht in E1 as [? ->]].
  destruct b1.
  { destruct He as [-> ->]. eexists. split; [done|]. intros _. right. apply stuck_facts in E1 as (Hs & Hc & x & Hx & Hlt).
    destruct (H1 Hc) as [Hin Hty]. exists x. split; [set_solver|]. exists c1. auto. }
  apply exec_bind in He as [(h3 & b2 & h4 & -> & E2 & He)|(o' & E2 & Hf & _)]; [|by apply Ht in E2 as [? ->]].
  destruct b2; destruct He as [-> ->]; [|eexists; split; [done|]; by intros [? ?]].
  eexists. split; [done|]. intros _. right. apply stuck_facts in E2 as (Hs & Hc & x & Hx & Hlt).
  destruct (H2 Hc) as [Hin Hty]. exists x. split; [set_solver|]. exists c2. auto.
Qed.

(** Calls of the drain step before its status update. *)
Definition quiet (e : event) : Prop :=
  match projT1 e with Now | GetNode _ _ | UpdateStatusNode _ | RunDrain _ => True | _ => False end.

Lemma quiet_allowed runs h : Forall quiet h -> Forall (call_allowed runs) h /\ status_updates h = [].
Proof.
  intros H. split; [eapply Forall_impl; [exact H|]; intros [[] ?]; simpl; done|].
  apply status_updates_none. eapply Forall_impl; [exact H|]. intros [[] ?]; simpl; done.
Qed.

Lemma emits_termination machine : emits quiet (UpdateNodeTerminationCondition machine).
Proof.
  unfold UpdateNodeTerminationCondition, GetNodeCondition, AddOrUpdateConditionsOnNode, UpdateNodeConditions, update_wrapped.
  by emits_all.
Qed.

Lemma emits_run_drain c machine : emits quiet (run_drain c machine).
Proof. unfold run_drain, call_drain, HasTimeOutOccurred. emits_all; try done; apply emits_termination. Qed.

Lemma call_drain_facts c machine force h err d s : exec (call_drain c machine force) h (Return (err, d, s)) ->
  contains d InitiateDrain = true \/ (contains d InitiateVMDeletion = true /\ exists e, e ∈ h /\ node_drained e).
Proof.
  intros (x & h' & -> & -> & [= Hx]). destruct x as [?|e]; [|destruct force]; injection Hx as _ -> _.
  - right. split; [suffix|]. eexists. split; [left|done].
  - right. split; [suffix|]. eexists. split; [left|done].
  - left. suffix.
Qed.

Lemma run_drain_facts c machine h err d s : exec (run_drain c machine) h (Return (err, d, s)) ->
  contains d InitiateDrain = true \/ (contains d InitiateVMDeletion = true /\ exists e, e ∈ h /\ node_drained e).
Proof.
  intros He. unfold run_drain in He. apply exec_bind_ret in He as (h1 & dt & h2 & -> & _ & He).
  apply exec_bind_ret in He as (h3 & late & h4 & -> & _ & He). apply exec_bind_ret in He as (h5 & u & h6 & -> & _ & He).
  assert (Hc : forall force, exec (call_drain c machine force) h6 (Return (err, d, s)) ->
    contains d InitiateDrain = true \/ (contains d InitiateVMDeletion = true /\ exists e, e ∈ h1 ++ h3 ++ h5 ++ h6 /\ node_drained e)).
  { intros force [?|(? & e & ? & ?)]%call_drain_facts; [by left|right]. split; [done|]. exists e. split; [|done].
    rewrite !elem_of_app. auto. }
  destruct u as [?|e]; [by eapply Hc|]. destruct (_ || _); [by eapply Hc|]. destruct He as [_ [= _ -> _]]. left. suffix.
Qed.

Lemma step_drainNode c runs request h o : exec (drainNode c request) h o -> step_ok runs (dr_Machine request) h.
Proof.
  intros He. unfold drainNode in He.
  apply exec_bind in He as [(h1 & skip & h2 & -> & E1 & He)|(o' & E1 & Hf & _)];
    apply skip_reason_facts in E1 as (Hn & r & Hr & Hsk); [|by subst o'].
  injection Hr as <-.
  assert (Hq1 : Forall quiet h1) by (eapply Forall_impl; [exact Hn|]; intros e He1; unfold quiet; by rewrite He1).
  apply exec_bind in He as [(h3 & [[err d] s] & h4 & -> & E2 & He)|(o' & E2 & Hf & _)].
  - assert (Hq : Forall quiet (h1 ++ h3)).
    { apply Forall_app. split; [done|]. destruct skip; [by destruct E2 as [-> _]|by eapply emits_run_drain]. }
    destruct (quiet_allowed runs _ Hq) as [Ha Hu].
    rewrite app_assoc. eapply step_ok_update; [exact Ha|exact Hu| |by eexists; split; [exact He|eauto]].
    destruct skip as [s0|].
    + destruct E2 as [-> [= _ -> _]]. apply promise_vm; [suffix|]. left. right. eexists. split; [left|]. cbn [ro_machine ro_calls].
      destruct Hsk as [?|(x & Hx & Hst)]; [by eexists|by left|]. right. exists x. split; [set_solver|done].
    + apply run_drain_facts in E2 as [Hd|(Hd & e & Hin & Hdr)]; [apply promise_early; by right|].
      apply promise_vm; [done|]. left. left. eapply did_here; [|exact Hdr]. set_solver.
  - destruct skip; [by destruct E2 as [_ ->]|]. apply emits_run_drain in E2.
    destruct (quiet_allowed runs (h1 ++ h2)) as [Ha Hu]; [by apply Forall_app|]. split; [done|]. by rewrite Hu.
Qed.

Lemma step_deleteVM runs request h o : drain_done runs \/ did vm_gone runs ->
  exec (deleteVM request) h o -> step_ok runs (dr_Machine request) h.
Proof.
  intros Hp (x & h' & -> & He). cbn [bind] in He. destruct (driver_answer x) as [resp err] eqn:Ed.
  destruct (vm_delete_outcome err) as [[[r d] s] e] eqn:E.
  change (ev ?q x :: h') with ([ev q x] ++ h').
  eapply step_ok_update; [by constructor; [exact Hp|constructor]|done| |by eexists; split; [exact He|eauto]].
  assert (Hp' : drain_done (mkRun (dr_Machine request) ([ev (VMDelete request) x] ++ h') :: runs) \/
    did vm_gone (mkRun (dr_Machine request) ([ev (VMDelete request) x] ++ h') :: runs))
    by (destruct Hp; [left; by apply drain_done_mono|right; by apply did_mono]).
  assert (Hg : match err with None => True | Some err => error_code err = Some CodeNotFound end ->
    did vm_gone (mkRun (dr_Machine request) ([ev (VMDelete request) x] ++ h') :: runs)).
  { intros He'. eapply did_here; [left|]. simpl. by rewrite Ed. }
  unfold vm_delete_outcome in E. destruct err as [err|]; [destruct (error_code err) as [code|] eqn:Ec|].
  - destruct (retryable (Some code)); [injection E as _ <- _ _; apply promise_vm; [suffix|done]|].
    case_bool_decide as Hc; injection E as _ <- _ _; [|apply promise_vm; [suffix|done]].
    apply promise_node; [reflexivity|]. apply Hg. by subst.
  - injection E as _ <- _ _. apply promise_vm; [suffix|done].
  - injection E as _ <- _ _. apply promise_node; [reflexivity|]. by apply Hg.
Qed.

Lemma step_deleteNodeObject runs machine h o : did vm_gone runs ->
  exec (deleteNodeObject machine) h o -> step_ok runs machine h.
Proof.
  intros Hp He. unfold deleteNodeObject in He. cbv zeta in He.
  case_bool_decide as Hn; cbn [negb bind] in He.
  - change h with ([] ++ h). eapply step_ok_update; [constructor|done| |by eexists; split; [exact He|eauto]].
    apply promise_finalizer; [reflexivity|by apply did_mono|]. right. eexists. by split; [left|].
  - destruct He as (x & h' & -> & He). cbn [bind] in He. destruct (node_delete_outcome (node_name machine) x) as [[d s] e] eqn:E.
    change (ev ?q x :: h') with ([ev q x] ++ h').
    eapply step_ok_update; [by constructor; [exact Hp|constructor]|done| |by eexists; split; [exact He|eauto]].
    assert (Hp' : did vm_gone (mkRun machine ([ev (DeleteNode (node_name machine)) x] ++ h') :: runs)) by by apply did_mono.
    assert (Hg : match x with Ok _ => True | Err err => IsNotFound err = true end ->
      node_object_gone (mkRun machine ([ev (DeleteNode (node_name machine)) x] ++ h') :: runs)).
    { intros Hx. left. eapply did_here; [left|done]. }
    unfold node_delete_outcome in E. destruct x as [?|err]; [|destruct (IsNotFound err) eqn:En]; cbn [negb] in E; injection E as <- _ _.
    + apply promise_finalizer; [suffix|done|by apply Hg].
    + apply promise_finalizer; [suffix|done|by apply Hg].
    + apply promise_node; [suffix|done].
Qed.

Lemma step_finalizer runs machine h o : did vm_gone runs -> node_object_gone runs ->
  exec (bind (deleteMachineFinalizers machine) (fun r => match r with
    | (_, Some err) => Ret (ShortRetry, Some err) | (_, None) => Ret (LongRetry, None) end)) h o -> step_ok runs machine h.
Proof.
  intros Hv Hn He. assert (Hem : Forall (fun e => match projT1 e with UpdateMachine _ => True | _ => False end) h).
  { unfold deleteMachineFinalizers in He. destruct (has_finalizer _ _); cbn [bind] in He; [|by destruct He as [-> _]].
    destruct He as (x & h' & -> & He). destruct x; destruct He as [-> _]; by repeat constructor. }
  split; [eapply Forall_impl; [exact Hem|]; intros [[] ?]; simpl; done|].
  rewrite status_updates_none; [constructor|]. eapply Forall_impl; [exact Hem|]. intros [[] ?]; simpl; done.
Qed.

(** One reconciliation, given that the description the machine comes with is justified. *)
Lemma step_flow c runs request h o :
  (m_Phase (dr_Machine request) = MachineTerminating ->
   promise runs (lo_Description (st_LastOperation (m_Status (dr_Machine request))))) ->
  exec (triggerDeletionFlow c request) h o -> step_ok runs (dr_Machine request) h.
Proof.
  unfold triggerDeletionFlow. cbv zeta. set (d := lo_Description _). intros Hp He.
  destruct (has_finalizer _ _); cbn [negb] in He; [|by destruct He as [-> _]; repeat constructor].
  case_bool_decide as Hph; cbn [negb] in He; [|by eapply step_setTermination]. specialize (Hp Hph). unfold promise in Hp.
  destruct (contains d GetVMStatus); [by eapply step_getVMStatus|].
  destruct (contains d InitiateDrain); [by eapply step_drainNode|]. specialize (Hp eq_refl eq_refl).
  destruct (contains d InitiateVMDeletion); [by eapply step_deleteVM|].
  destruct (contains d InitiateNodeDeletion); [by eapply step_deleteNodeObject|].
  destruct (contains d InitiateFinalizerRemoval); [destruct Hp; by eapply step_finalizer|by eapply step_setTermination].
Qed.

Lemma possible_promise runs s : kept_promises runs -> possible runs s -> cs_Phase (st_CurrentStatus s) = MachineTerminating ->
  promise runs (lo_Description (st_LastOperation s)).
Proof.
  intros Hk [[Hu|Hu]|(r & m & Hr & Hm & ->)] Hp; [done| |by eapply Hk].
  intros H1 H2. unfold flow_steps in Hu. rewrite !Forall_cons in Hu. destruct Hu as (_ & _ & -> & -> & -> & _). done.
Qed.

Lemma runs_keep_promises c runs : deletion_runs c runs -> kept_promises runs.
Proof.
  induction 1 as [|runs request h o _ IH Hp He]; intros r m Hr Hm; [set_solver|].
  apply elem_of_cons in Hr as [->|Hr]; [|apply promise_mono; by eapply IH].
  apply step_flow with (runs := runs) in He as [_ HF]; [|intros Ht; by apply possible_promise].
  rewrite Forall_forall in HF. by apply HF.
Qed.

(** C6: a machine is taken down in order.  However the reconciliations of its deletion are interleaved
    with failures, stale reads of earlier statuses and changes of its labels, the VM is deleted only after
    its node was drained, forcibly or with success, or a reason to skip the drain was seen (or the VM was
    already known to be gone); the node object only after the driver has reported the VM deleted or not
    found; and the machine's finalizer is removed only after both. *)
Theorem deletion_in_order c runs machine h : deletion_runs c (mkRun machine h :: runs) ->
  (forall request x, ev (VMDelete request) x ∈ h -> drain_done runs \/ did vm_gone runs) /\
  (forall name x, ev (DeleteNode name) x ∈ h -> did vm_gone runs) /\
  (forall m x, ev (UpdateMachine m) x ∈ h -> did vm_gone runs /\ node_object_gone runs).
Proof.
  intros Hr. inversion Hr as [|runs' request h' o Hrs Hp He]; subst.
  apply step_flow with (runs := runs) in He as [HF _]; [|intros Ht; by apply possible_promise, Ht; [by eapply runs_keep_promises|]].
  rewrite Forall_forall in HF. split_and!; intros ? x Hin; exact (HF _ Hin).
Qed.

(** ** The deletion comes to an end *)

(** Answers of a world in which things work: the API server takes writes, the driver finds, deletes or
    misses the VM (or cannot look it up), drains succeed or are forced. *)
Definition cooperative (e : event) : Prop :=
  match e with
  | existT (UpdateStatusMachine _) x => is_Some (match x with Ok m => Some m | Err _ => None end)
  | existT (UpdateMachine _) x => is_Some (match x with Ok m => Some m | Err _ => None end)
  | existT (VMStatus _) (Err err) => error_code err = Some Unimplemented \/ error_code err = Some CodeNotFound
  | existT (VMDelete _) _ => vm_gone e
  | existT (RunDrain _) _ => node_drained e
  | existT (DeleteNode _) _ => node_deleted e
  | existT (GetNode _ _) (Err err) => IsNotFound err = true
  | existT (UpdateStatusNode _) (Err err) => False
  | _ => True
  end.

(** The machine the API server holds after the calls: what was stored last. *)
Definition store_step (m : Machine) (e : event) : Machine :=
  match e with
  | existT (UpdateStatusMachine m') (Ok _) => m_set_Status (m_Status m') m
  | existT (UpdateMachine m') (Ok _) => m_set_Spec (fun _ => m_Spec m') (m_set_Meta (fun _ => m_Meta m') m)
  | _ => m
  end.
Definition stored (m : Machine) (h : history) : Machine := foldl store_step m h.

(** *** Descriptions of successive steps are never similar *)

Definition far (d1 d2 : string) : Prop := ratio_above (3 # 4) (StringSimilarityRatio d1 d2) = false.

Lemma far_neq d1 d2 : d1 <> EmptyString -> far d1 d2 -> d1 <> d2.
Proof.
  intros Hd Hf <-. apply not_true_iff_false in Hf. apply Hf, ratio_above_075. rewrite Levenshtein_dist.
  assert (Hs : forall s, dist s s = 0%nat).
  { intros s. apply Nat.le_0_r, dist_least. induction s as [|a s IH]; [constructor|].
    pose proof (script_keep a a s s 0 IH) as Hk. unfold incr in Hk. by rewrite bool_decide_true in Hk. }
  rewrite Hs. destruct d1; [done|simpl; lia].
Qed.

Lemma far_sym d1 d2 p :
  (String.length d1 + String.length d2 + 8 * count p (list_ascii_of_string d1) <= 8 * count p (list_ascii_of_string d2) \/
   String.length d1 + String.length d2 + 8 * count p (list_ascii_of_string d2) <= 8 * count p (list_ascii_of_string d1))%nat ->
  far d1 d2 /\ far d2 d1.
Proof. intros H. split; apply (not_similar_count p); lia. Qed.

Lemma list_ascii_app a b : list_ascii_of_string (a +:+ b) = list_ascii_of_string a ++ list_ascii_of_string b.
Proof. induction a as [|x a IH]; [done|]. rewrite str_app_cons. simpl. by rewrite IH. Qed.

(** A fixed text against a text with an arbitrary part [n] in the middle: long parts differ by their
    length, short ones by the bytes in [p]. *)
Lemma far_around s a b p n0 n :
  ((9 * String.length s <= 7 * (String.length a + String.length b + n0)) /\
   (String.length s + String.length a + String.length b + n0 + 8 * count p (list_ascii_of_string s)
     <= 8 * (count p (list_ascii_of_string a) + count p (list_ascii_of_string b)) \/ n0 = 0))%nat ->
  far s (a +:+ n +:+ b) /\ far (a +:+ n +:+ b) s.
Proof.
  intros [H1 H2]. set (t := a +:+ n +:+ b).
  assert (Ht : String.length t = (String.length a + (String.length n + String.length b))%nat) by (unfold t; by rewrite !length_str_app).
  destruct (decide (n0 <= String.length n)%nat) as [Hn|Hn].
  - apply (far_sym s t (fun _ => true)). left.
    assert (Hall : forall u, count (fun _ => true) (list_ascii_of_string u) = String.length u).
    { intros u. rewrite <- length_list_ascii. generalize (list_ascii_of_string u) as l. induction l as [|x l IH]; [done|].
      rewrite count_cons, IH. done. }
    rewrite !Hall. lia.
  - destruct H2 as [H2|H2]; [|lia]. apply (far_sym s t p). left. unfold t at 2. rewrite !list_ascii_app, !count_app. lia.
Qed.

(** The update differs from the stored status enough to be sent: in the state, or in the text. *)
Definition fresh (machine : Machine) (d s : string) : Prop :=
  far d (lo_Description (st_LastOperation (m_Status machine))) \/ s <> lo_State (st_LastOperation (m_Status machine)).

Lemma not_similar_content machine d t s k : d <> EmptyString -> fresh machine d s ->
  similar_content (m_Status (status_clone machine (deleteOperation d t s) (st_CurrentStatus (m_Status machine)) k)) (m_Status machine) = false.
Proof.
  intros Hd Hf. unfold similar_content. cbn [status_clone m_set_Status m_Status st_set_LastKnownState st_set_CurrentStatus
    st_set_LastOperation st_LastOperation deleteOperation lo_Description lo_State].
  destruct Hf as [Hf|Hf]; [|by rewrite (bool_decide_false (s = _)), andb_false_r].
  rewrite Hf. rewrite (bool_decide_false (d = _)) by by apply far_neq. done.
Qed.

(** The status after a step: the description and the state it wrote, the phase kept. *)
Definition wrote (machine m' : Machine) (d s : string) : Prop :=
  m_Meta m' = m_Meta machine /\ m_Phase m' = m_Phase machine /\ lo_Description (st_LastOperation (m_Status m')) = d /\
  lo_State (st_LastOperation (m_Status m')) = s.

Lemma coop_update machine d s k (f : option error -> prog (RetryPeriod * option error)) h0 h o :
  d <> EmptyString -> fresh machine d s ->
  stored machine h0 = machine -> (forall r, exists a, f r = Ret a) ->
  exec (bind (deletionUpdate machine d s k) f) h o -> Forall cooperative h ->
  wrote machine (stored machine (h0 ++ h)) d s.
Proof.
  intros Hd Hf H0 Hr (x & h' & -> & He) HF. cbn [bind] in He. unfold machineStatusUpdate in He.
  unfold stored in *. rewrite foldl_app, H0. simpl foldl. apply Forall_cons in HF as [_ HF].
  assert (Hs := not_similar_content machine d (clock_answer x) s k Hd Hf). unfold clock_answer in Hs.
  apply exec_bind in He as [(h1 & r & h2 & -> & E1 & E2)|(o' & E1 & Hfail & _)].
  - apply exec_bind in E1 as [(h3 & b & h4 & -> & E3 & E4)|(o' & E3 & _ & Ho)];
      [|apply exec_similar in E3 as (b & -> & _); discriminate Ho].
    apply exec_similar in E3 as (b' & [= <-] & _ & Hn & Hsim). destruct b; [discriminate (eq_trans (eq_sym (Hsim eq_refl)) Hs)|].
    destruct (Hr r) as [a Ha]. rewrite Ha in E2. destruct E2 as [-> _]. destruct E4 as (y & h5 & -> & -> & _). rewrite !Forall_app in HF. destruct HF as [[_ HF] _].
    apply Forall_cons in HF as [[m Hy] _]. destruct y as [m0|]; [|done].
    rewrite app_nil_r, foldl_app.
    assert (Hid : forall m, foldl store_step m h3 = m).
    { clear -Hn. induction Hn as [|[r x] h Hx _ IH]; intros m; [done|]. simpl in *. subst r. apply IH. }
    rewrite Hid. simpl. by split_and!.
  - apply exec_bind in E1 as [(h3 & b & h4 & -> & E3 & E4)|(o'' & E3 & Hf2 & _)];
      [|by apply exec_similar in E3 as (b & -> & _)].
    destruct b; [by destruct E4 as [_ ->]|by destruct E4 as (y & h5 & _ & _ & ->)].
Qed.

(** *** The six steps *)

(** The text names no step before the one it ends with. *)
Definition names_no (steps : list string) (d : string) : Prop := Forall (fun step => contains d step = false) steps.

Definition skip_texts : list string :=
  ["Skipping drain as nodeName is not a valid one for machine."; "Skipping drain as machine is NotReady for over 5minutes.";
   "Skipping drain as machine is in ReadonlyFilesystem for over 5minutes."].
Definition forced_text (e : error) : string :=
  "Drain failed due to - " +:+ err_msg e +:+ ". However, since it's a force deletion shall continue deletion of VM. " +:+ InitiateVMDeletion.
Definition drained_texts : list string :=
  ("Drain successful. " +:+ InitiateVMDeletion) :: map (fun s => s +:+ " " +:+ InitiateVMDeletion) skip_texts.
Definition vm_gone_texts : list string :=
  ["VM was not found at provider. " +:+ InitiateNodeDeletion; "VM not found. Continuing deletion flow. " +:+ InitiateNodeDeletion;
   "VM deletion was successful. " +:+ InitiateNodeDeletion].
Definition node_deleted_text (n : string) : string := "Deletion of Node Object " +:+ quoted n +:+ " is successful. " +:+ InitiateFinalizerRemoval.
Definition node_missing_text (n : string) : string :=
  "No node object found for " +:+ quoted n +:+ ", continuing deletion flow. " +:+ InitiateFinalizerRemoval.
Definition no_node_text : string := "No node object found for machine, continuing deletion flow. " +:+ InitiateFinalizerRemoval.

(** The descriptions after step [k]; step 5 for a machine whose node is [n]. *)
Definition after_step (n : string) (k : nat) (d : string) : Prop :=
  match k with
  | 1%nat => d = GetVMStatus
  | 2%nat => d = InitiateDrain
  | 3%nat => d ∈ drained_texts \/ exists e, d = forced_text e /\ names_no [GetVMStatus; InitiateDrain] d
  | 4%nat => d ∈ vm_gone_texts
  | 5%nat => d ∈ [node_deleted_text n; node_missing_text n; no_node_text]
  | _ => False
  end.

(** Node names and drain errors that do not themselves quote one of the step texts. *)
Definition plain_node_name (n : string) : Prop :=
  Forall (names_no [GetVMStatus; InitiateDrain; InitiateVMDeletion; InitiateNodeDeletion]) [node_deleted_text n; node_missing_text n].
Definition plain_drain (e : event) : Prop :=
  match e with
  | existT (RunDrain _) (Err err) => names_no [GetVMStatus; InitiateDrain] (forced_text err)
  | _ => True
  end.

Ltac split_elems :=
  repeat match goal with
  | H : _ ∈ _ :: _ |- _ => apply elem_of_cons in H as [->|H]
  | H : _ ∈ [] |- _ => by apply not_elem_of_nil in H
  end.

Ltac far_fixed := apply not_true_iff_false; rewrite ratio_above_075; vm_compute; lia.

Lemma far_12 : far InitiateDrain GetVMStatus.
Proof. vm_compute. reflexivity. Qed.

Lemma far_14 : far ("VM was not found at provider. " +:+ InitiateNodeDeletion) GetVMStatus.
Proof. vm_compute. reflexivity. Qed.

Lemma forced_around e : forced_text e = "Drain failed due to - " +:+ err_msg e +:+
  (". However, since it's a force deletion shall continue deletion of VM. " +:+ InitiateVMDeletion).
Proof. done. Qed.

Lemma far_23 n d : after_step n 3 d -> far d InitiateDrain.
Proof.
  intros [H|(e & -> & _)].
  - unfold drained_texts, skip_texts in H. simpl in H. split_elems; vm_compute; reflexivity.
  - rewrite forced_around. apply (far_around InitiateDrain _ _ (fun _ => true) 0). split; [vm_compute; lia|by right].
Qed.

Lemma far_34 n d d' : after_step n 3 d -> d' ∈ vm_gone_texts -> far d' d.
Proof.
  intros [H|(e & -> & _)] Hd'; unfold vm_gone_texts in Hd'.
  - unfold drained_texts, skip_texts in H. simpl in H. split_elems; vm_compute; reflexivity.
  - rewrite forced_around. split_elems; (apply (far_around _ _ _ (fun _ => true) 0); split; [vm_compute; lia|by right]).
Qed.

Definition differs_in : string := quoted "DNOabcefhijlmrsvz".
Definition in_class (a : ascii) : bool := has_byte a differs_in.

Lemma named_around n :
  node_deleted_text n = ("Deletion of Node Object " +:+ String (ascii_of_nat 34) EmptyString) +:+ n +:+
    (String (ascii_of_nat 34) " is successful. " +:+ InitiateFinalizerRemoval) /\
  node_missing_text n = ("No node object found for " +:+ String (ascii_of_nat 34) EmptyString) +:+ n +:+
    (String (ascii_of_nat 34) ", continuing deletion flow. " +:+ InitiateFinalizerRemoval).
Proof.
  unfold node_deleted_text, node_missing_text, quoted. rewrite !str_app_assoc. split; f_equal.
  - rewrite !str_app_cons. f_equal. change (EmptyString +:+ ?x) with x. rewrite !str_app_assoc. done.
  - rewrite !str_app_cons. f_equal. change (EmptyString +:+ ?x) with x. rewrite !str_app_assoc. done.
Qed.

Lemma far_45 n d d' : d ∈ vm_gone_texts -> after_step n 5 d' -> far d' d.
Proof.
  intros H H'. unfold vm_gone_texts in H. simpl in H'. destruct (named_around n) as [H1 H2].
  apply elem_of_cons in H' as [->|H']; [|apply elem_of_cons in H' as [->|H']].
  - rewrite H1. split_elems; (apply (far_around _ _ _ in_class 6); split; [vm_compute; lia|left; vm_compute; lia]).
  - rewrite H2. split_elems; (apply (far_around _ _ _ in_class 6); split; [vm_compute; lia|left; vm_compute; lia]).
  - split_elems; vm_compute; reflexivity.
Qed.

(** *** The node's termination condition *)

(** The program returns or fails with an error. *)
Definition clean {A} (p : prog A) : Prop := forall h o, exec p h o -> (exists a, o = Return a) \/ exists e, o = Raise e.

Lemma clean_bind {A B} (p : prog A) (f : A -> prog B) : clean p -> (forall a, clean (f a)) -> clean (bind p f).
Proof.
  intros Hp Hf h o [(h1 & a & h2 & _ & _ & E)|(o' & E & Hfail & ->)]%exec_bind; [by eapply Hf|].
  destruct (Hp _ _ E) as [[a ->]|[e ->]]; [done|]. right. by exists e.
Qed.

Lemma clean_ret {A} (a : A) : clean (Ret a).
Proof. intros h o [_ ->]. eauto. Qed.

Lemma clean_throw {A} e : clean (Throw (A := A) e).
Proof. intros h o [_ ->]. eauto. Qed.

Lemma clean_call r : clean (call r).
Proof. intros h o (x & -> & ->)%exec_call. destruct x; eauto. Qed.

Lemma clean_attempt {A} (p : prog A) : clean p -> clean (attempt p).
Proof.
  intros Hp h o He. destruct (exec_attempt _ _ _ He) as [(a & E & ->)|[(e & E & ->)|[[E ->]|[E ->]]]]; eauto;
    destruct (Hp _ _ E) as [[? ?]|[? ?]]; done.
Qed.

Lemma clean_retry {A} n (fn : bool -> prog A) : (forall b, clean (fn b)) -> clean (RetryOnConflict (S n) fn).
Proof.
  intros Hf. unfold RetryOnConflict. generalize true. induction n as [|n IH]; intros b;
    (apply clean_bind; [by apply clean_attempt|]; intros [a|e]; [apply clean_ret|]).
  - rewrite bool_decide_true, andb_false_r by done. apply clean_throw.
  - destruct (_ && _); [apply IH|apply clean_throw].
Qed.

(** A failure after retries is a failure of one of the tries. *)
Lemma exec_retry_raise {A} n (fn : bool -> prog A) h e : exec (RetryOnConflict n fn) h (Raise e) ->
  exists b h1 h2, h = h1 ++ h2 /\ exec (fn b) h2 (Raise e).
Proof.
  unfold RetryOnConflict. generalize true. revert h. induction n as [|n IH]; intros h b He; [by destruct He|].
  simpl in He. apply exec_bind in He as [(h1 & x & h2 & -> & E1 & E2)|(o' & E1 & Hf & Ho)].
  - apply exec_attempt_ret in E1. destruct x as [a|e']; [by destruct E2|]. destruct (_ && _).
    + apply IH in E2 as (b' & h3 & h4 & -> & E2). exists b', (h1 ++ h3), h4. by rewrite app_assoc.
    + destruct E2 as [-> [= ->]]. exists b, [], h1. by rewrite app_nil_r.
  - destruct (exec_attempt _ _ _ E1) as [(a & _ & ->)|[(e' & _ & ->)|[[_ ->]|[_ ->]]]]; done.
Qed.

Lemma clean_termination machine : clean (UpdateNodeTerminationCondition machine).
Proof.
  unfold UpdateNodeTerminationCondition. case_bool_decide; [apply clean_ret|].
  assert (Hnow : clean now) by (intros h o (x & h' & _ & _ & ->); eauto).
  do 2 (apply clean_bind; [done|]; intros ?). apply clean_bind.
  { apply clean_attempt. unfold GetNodeCondition. apply clean_bind; [apply clean_call|]. intros; apply clean_ret. }
  intros [cond|e]; [|destruct (IsNotFound e); [apply clean_ret|apply clean_throw]].
  apply clean_bind; [|intros [?|e]; [apply clean_ret|destruct (IsNotFound e); [apply clean_ret|apply clean_throw]]].
  apply clean_attempt. unfold AddOrUpdateConditionsOnNode. apply clean_retry. intros b.
  apply clean_bind; [apply clean_call|]. intros node. unfold UpdateNodeConditions, update_wrapped.
  intros h o (x & h' & -> & He). destruct x; destruct He as [-> ->]; eauto.
Qed.

Lemma coop_termination machine h o : exec (UpdateNodeTerminationCondition machine) h o -> Forall cooperative h -> o = Return tt.
Proof.
  intros He HF. destruct (clean_termination machine _ _ He) as [[[] ->]|[e ->]]; [done|]. exfalso. revert He.
  unfold UpdateNodeTerminationCondition. case_bool_decide; [by intros [_ ?]|].
  intros (x1 & h1 & -> & x2 & h2 & -> & He). cbn [bind] in He.
  rewrite !Forall_cons in HF. destruct HF as (_ & _ & HF).
  assert (Hnf : forall h e, exec (GetNodeCondition (node_name machine) NodeTerminationCondition) h (Raise e) ->
    Forall cooperative h -> IsNotFound e = true).
  { clear. intros h e (x & h' & -> & He) HF. apply Forall_cons in HF as [Hx _]. destruct x; [by destruct He|].
    by destruct He as [_ [= ->]]. }
  assert (Hnf2 : forall cond h e, exec (AddOrUpdateConditionsOnNode (node_name machine) cond) h (Raise e) ->
    Forall cooperative h -> IsNotFound e = true).
  { clear. intros cond h e He HF. unfold AddOrUpdateConditionsOnNode in He. apply exec_retry_raise in He as (b & h1 & h2 & -> & He).
    apply Forall_app in HF as [_ HF]. destruct He as (x & h' & -> & He). apply Forall_cons in HF as [Hx HF].
    destruct x as [nd|e']; [|by destruct He as [_ [= ->]]].
    destruct He as (y & h3 & -> & He). apply Forall_cons in HF as [Hy _]. destruct y; [by destruct He|done]. }
  apply exec_bind in He as [(h3 & r & h4 & -> & E1 & E2)|(o' & E1 & Hf & Ho)].
  - apply Forall_app in HF as [HF1 HF2]. apply exec_attempt_ret in E1. destruct r as [cond|e1].
    + apply exec_bind in E2 as [(h5 & r & h6 & -> & E3 & E4)|(o' & E3 & Hf & Ho)].
      * apply Forall_app in HF2 as [HF2 _]. apply exec_attempt_ret in E3. destruct r as [?|e2]; [by destruct E4|].
        rewrite (Hnf2 _ _ _ E3 HF2) in E4. by destruct E4.
      * destruct (exec_attempt _ _ _ E3) as [(? & _ & ->)|[(? & _ & ->)|[[_ ->]|[_ ->]]]]; done.
    + rewrite (Hnf _ _ E1 HF1) in E2. by destruct E2.
  - destruct (exec_attempt _ _ _ E1) as [(? & _ & ->)|[(? & _ & ->)|[[_ ->]|[_ ->]]]]; done.
Qed.

(** *** One cooperative reconciliation makes one step *)

Lemma stored_quiet m h : Forall (fun e => match projT1 e with UpdateStatusMachine _ | UpdateMachine _ => False | _ => True end) h ->
  stored m h = m.
Proof. unfold stored. induction 1 as [|[[] x] h Hx _ IH]; simpl in *; done. Qed.

Lemma quiet_stored m h : Forall quiet h -> stored m h = m.
Proof. intros H. apply stored_quiet. eapply Forall_impl; [exact H|]. intros [[] ?]; simpl; done. Qed.

(** The step the switch of the flow selects for a description; 0 when it names none. *)
Definition selects (d : string) : nat :=
  if contains d GetVMStatus then 1 else if contains d InitiateDrain then 2 else if contains d InitiateVMDeletion then 3
  else if contains d InitiateNodeDeletion then 4 else if contains d InitiateFinalizerRemoval then 5 else 0.

(** What the flow can have left: one of the texts of a step that went well, or a step that has failed. *)
Definition leaves (n d s : string) : Prop := (exists j, after_step n j d) \/ s <> MachineStateProcessing.
Definition left_behind (n : string) (lo : LastOperation) : Prop := leaves n (lo_Description lo) (lo_State lo).

(** The deletion of the machine stands at step [k]. *)
Definition at_step (k : nat) (m0 m : Machine) : Prop :=
  m_Meta m = m_Meta m0 /\ m_Phase m = MachineTerminating /\
  selects (lo_Description (st_LastOperation (m_Status m))) = k /\ left_behind (node_name m0) (st_LastOperation (m_Status m)).

(** Names of nodes: lower-case letters, digits, hyphens and dots (RFC 1123, which the API server enforces). *)
Definition dns_byte (a : ascii) : bool := has_byte a "abcdefghijklmnopqrstuvwxyz0123456789-.".
Definition dns_name (n : string) : Prop := forallb dns_byte (list_ascii_of_string n) = true.

(** A text found behind a part without its first byte is found without that part. *)
Lemma contains_skip x p a b : has_byte x a = false -> contains (a +:+ b) (String x p) = contains b (String x p).
Proof.
  induction a as [|y a IH]; [done|]. cbn [has_byte]. intros [Hy Ha]%orb_false_iff. rewrite str_app_cons.
  apply bool_decide_eq_false in Hy. cbn [contains has_prefix]. rewrite bool_decide_false by congruence. by apply IH.
Qed.

(** So no step text is found in the texts the flow makes from such a name. *)
Lemma dns_name_plain n : dns_name n -> plain_node_name n.
Proof.
  intros Hn. assert (HS : has_byte "S" n = false) by by apply (has_byte_forallb _ dns_byte).
  assert (HI : has_byte "I" n = false) by by apply (has_byte_forallb _ dns_byte).
  destruct (named_around n) as [H1 H2]. unfold plain_node_name, names_no. rewrite H1, H2.
  repeat (cbv beta; apply Forall_cons; split); cbv beta; try apply Forall_nil; try exact I;
    (let p := match goal with |- contains _ ?p = _ => p end in let q := eval vm_compute in p in change p with q;
     rewrite contains_skip by done; rewrite contains_skip by done; vm_compute; reflexivity).
Qed.

Lemma forced_selects e : names_no [GetVMStatus; InitiateDrain] (forced_text e) -> selects (forced_text e) = 3%nat.
Proof.
  unfold names_no. rewrite !Forall_cons. intros (H1 & H2 & _). unfold selects. rewrite H1, H2.
  replace (contains _ InitiateVMDeletion) with true by (symmetry; unfold forced_text; suffix). done.
Qed.

Lemma named_selects t : contains t GetVMStatus = false /\ contains t InitiateDrain = false /\ contains t InitiateVMDeletion = false /\
  contains t InitiateNodeDeletion = false -> contains t InitiateFinalizerRemoval = true -> selects t = 5%nat.
Proof. intros (H1 & H2 & H3 & H4) H5. unfold selects. by rewrite H1, H2, H3, H4, H5. Qed.

(** The texts of step [k] select the step [k]. *)
Lemma selects_after n k d : plain_node_name n -> after_step n k d -> selects d = k.
Proof.
  intros Hpl Ha. destruct k as [|[|[|[|[|[|k]]]]]]; [done|by rewrite Ha|by rewrite Ha| | | |done].
  - destruct Ha as [H|(e & -> & Hn)]; [|by apply forced_selects]. unfold drained_texts, skip_texts in H. simpl in H.
    split_elems; vm_compute; done.
  - simpl in Ha. unfold vm_gone_texts in Ha. split_elems; vm_compute; done.
  - simpl in Ha. unfold plain_node_name, names_no in Hpl. rewrite !Forall_cons in Hpl.
    destruct Hpl as ((? & ? & ? & ? & _) & (? & ? & ? & ? & _) & _). 
    split_elems; [..|vm_compute; done]; (eapply named_selects; [by split_and!|]); [unfold node_deleted_text|unfold node_missing_text]; suffix.
Qed.

(** Text and state a reconciliation may write. *)

Lemma vm_status_leaves n x d s r e : vm_status_outcome x = (d, s, r, e) -> leaves n d s.
Proof.
  unfold vm_status_outcome. destruct x as [?|err]; [intros [= <- _ _ _]; left; by exists 2%nat|].
  destruct (error_code err) as [code|]; [|intros [= _ <- _ _]; by right].
  case_bool_decide; [intros [= <- _ _ _]; left; by exists 2%nat|]. case_bool_decide; [intros [= <- _ _ _]; left; exists 4%nat; left|].
  destruct (retryable _); intros [= _ <- _ _]; by right.
Qed.

Lemma vm_delete_leaves n err r d s e : vm_delete_outcome err = (r, d, s, e) -> leaves n d s.
Proof.
  unfold vm_delete_outcome. destruct err as [err|]; [|intros [= _ <- _ _]; left; exists 4%nat; right; right; left].
  destruct (error_code err) as [code|]; [|intros [= _ _ <- _]; by right]. destruct (retryable _); [intros [= _ _ <- _]; by right|].
  case_bool_decide; intros [= _ <- <- _]; [left; exists 4%nat; right; left|by right].
Qed.

Lemma node_delete_leaves n x d s e : node_delete_outcome n x = (d, s, e) -> leaves n d s.
Proof.
  unfold node_delete_outcome. destruct x as [?|err]; [intros [= <- _ _]; left; exists 5%nat; left|].
  destruct (IsNotFound err); intros [= <- <- _]; [left; exists 5%nat; right; left|by right].
Qed.

Lemma skip_text machine h s : exec (skip_reason machine) h (Return (Some s)) -> s ∈ skip_texts.
Proof.
  unfold skip_reason. case_match; [intros [_ [= ->]]; left|]. destruct (drain_conditions _) as [c1 c2]. intros He.
  apply exec_bind_ret in He as (? & [] & ? & _ & _ & He); [destruct He as [_ [= ->]]; right; left|].
  apply exec_bind_ret in He as (? & [] & ? & _ & _ & He); destruct He as [_ [=]]; subst. right; right; left.
Qed.

Lemma skip_after n s : s ∈ skip_texts -> after_step n 3 (s +:+ " " +:+ InitiateVMDeletion).
Proof. intros Hs. left. right. by apply (list_elem_of_fmap_2 (fun s => s +:+ " " +:+ InitiateVMDeletion)). Qed.

Section steps.
Variables (c : controller) (m0 : Machine) (class : option MachineClass) (secret : strmap).
Hypothesis (Hfin : has_finalizer MCMFinalizerName (m_Meta m0) = true).
Hypothesis (Hdel : is_Some (DeletionTimestamp (m_Meta m0))).
Hypothesis (Hpl : plain_node_name (node_name m0)).

Abbreviation flow m := (triggerDeletionFlow c (mkDriverRequest m class secret)).
Abbreviation lastop m := (st_LastOperation (m_Status m)).

(** A step that went well, from anywhere, leaves the machine behind that step. *)
Lemma at_step_wrote m m' d s j : m_Meta m = m_Meta m0 -> m_Phase m = MachineTerminating -> wrote m m' d s ->
  after_step (node_name m0) j d -> at_step j m0 m'.
Proof.
  intros H1 H2 (H3 & H4 & H5 & _) Hj. split_and!; [congruence|congruence|rewrite H5; by eapply selects_after|].
  left. exists j. by rewrite H5.
Qed.

(** The step the flow takes. *)
Lemma flow_at k m : at_step k m0 m -> flow m = match k with
  | 1%nat => getVMStatus (mkDriverRequest m class secret)
  | 2%nat => drainNode c (mkDriverRequest m class secret)
  | 3%nat => deleteVM (mkDriverRequest m class secret)
  | 4%nat => deleteNodeObject m
  | 5%nat => let! r := deleteMachineFinalizers m in
      match r with (_, Some err) => Ret (ShortRetry, Some err) | (_, None) => Ret (LongRetry, None) end
  | _ => setMachineTerminationStatus m
  end.
Proof.
  intros (Hm & Hp & <- & _). unfold triggerDeletionFlow, selects. cbn [dr_Machine]. rewrite Hm, Hfin, bool_decide_true by done.
  cbn [negb]. repeat (case_match; [done|]). done.
Qed.

(** The text of a step that goes well is never taken for a repetition. *)
Lemma at_step_fresh k m d : at_step k m0 m ->
  (after_step (node_name m0) k (lo_Description (lastop m)) -> far d (lo_Description (lastop m))) -> fresh m d MachineStateProcessing.
Proof.
  intros (_ & _ & Hk & [[j Hj]|Hs]) Hf; [|right; congruence]. left. apply Hf. by rewrite <- Hk, (selects_after _ j _ Hpl Hj).
Qed.

Lemma coop_start m h o : m_Meta m = m_Meta m0 -> untouched (m_Status m) ->
  exec (flow m) h o -> Forall cooperative h -> at_step 1 m0 (stored m h).
Proof.
  intros Hm Hu He HF. assert (He' : exec (setMachineTerminationStatus m) h o).
  { unfold triggerDeletionFlow in He. cbn [dr_Machine] in He. rewrite Hm, Hfin in He. cbn [negb] in He.
    case_bool_decide as Hp; [|exact He]. destruct Hu as [Hu|Hu]; [done|]. unfold flow_steps in Hu. rewrite !Forall_cons in Hu.
    destruct Hu as (E1 & E2 & E3 & E4 & E5 & _). by rewrite E1, E2, E3, E4, E5 in He. }
  destruct He' as (x & h1 & -> & y & h2 & -> & z & h3 & -> & -> & _). rewrite !Forall_cons in HF. destruct HF as (_ & _ & [z' Hz] & _).
  destruct z; [|done]. split_and!; [done|done|done|]. left. by exists 1%nat.
Qed.

Lemma coop_vm_status m h o : at_step 1 m0 m -> exec (flow m) h o -> Forall cooperative h ->
  at_step 2 m0 (stored m h) \/ at_step 4 m0 (stored m h).
Proof.
  intros Ha He HF. rewrite (flow_at 1) in He by done. pose proof Ha as (Hm & Hp & _).
  destruct He as (x & h' & -> & He). cbn [bind dr_Machine] in He. apply Forall_cons in HF as [Hx HF].
  change (ev ?q x :: h') with ([ev q x] ++ h').
  destruct (vm_status_outcome x) as [[[d s] r] e] eqn:E.
  assert (Hcase : s = MachineStateProcessing /\ (d = InitiateDrain \/ d = "VM was not found at provider. " +:+ InitiateNodeDeletion)).
  { unfold vm_status_outcome in E. destruct x as [?|err]; [injection E; auto|]. simpl in Hx.
    destruct Hx as [Hx|Hx]; rewrite Hx in E; vm_compute in E; injection E as <- <- _ _; auto. }
  destruct Hcase as [-> Hcase].
  assert (Hw : wrote m (stored m ([ev (VMStatus (mkDriverRequest m class secret)) x] ++ h')) d MachineStateProcessing).
  { eapply coop_update; [|apply (at_step_fresh 1); [done|]|done| |exact He|done]; [destruct Hcase as [->| ->]; done| |by eexists].
    intros ->. destruct Hcase as [->| ->]; [apply far_12|apply far_14]. }
  destruct Hcase as [->| ->]; [left|right]; (eapply at_step_wrote; [done|done|done|]); [done|left].
Qed.

(** The drain goes well or is forced: either way the text of step 3 is written. *)
Lemma coop_run_drain m h r : m_Meta m = m_Meta m0 -> exec (run_drain c m) h r -> Forall cooperative h -> Forall plain_drain h ->
  Forall quiet h /\ exists err d, r = Return (err, d, MachineStateProcessing) /\ after_step (node_name m0) 3 d.
Proof.
  intros Hm He HF Hpd. split; [by eapply emits_run_drain|]. unfold run_drain in He. destruct Hdel as [t Ht].
  rewrite Hm, Ht in He. cbn [deref bind] in He. destruct He as (x & h3 & -> & He). cbn [bind] in He.
  apply Forall_cons in HF as [_ HF]. apply Forall_cons in Hpd as [_ Hpd]. set (force := _ || _) in He. clearbody force.
  apply exec_bind in He as [(h6 & u & h7 & -> & E3 & E4)|(o'' & E3 & Hf2 & _)].
  - apply exec_attempt_ret in E3. rewrite Forall_app in HF, Hpd. destruct HF as [HF6 HF7], Hpd as [_ Hpd].
    destruct u as [u|e]; [|by apply coop_termination in E3].
    destruct E4 as (y & h8 & -> & -> & ->). apply Forall_cons in HF7 as [HFy _]. apply Forall_cons in Hpd as [Hply _].
    destruct y as [y|e]; [do 2 eexists; split; [done|left; left]|]. simpl in HFy. subst force.
    do 2 eexists. split; [done|]. right. by exists e.
  - destruct (clean_attempt _ (clean_termination m) _ _ E3) as [[? ->]|[e ->]]; [done|].
    by destruct (exec_attempt _ _ _ E3) as [(? & _ & ?)|[(? & _ & ?)|[[_ ?]|[_ ?]]]].
Qed.

Lemma quiet_now h : Forall (fun e => projT1 e = Now) h -> Forall quiet h.
Proof. intros Hn. eapply Forall_impl; [exact Hn|]. intros e He. unfold quiet. by rewrite He. Qed.

Lemma step_3_text n d : after_step n 3 d -> d <> EmptyString.
Proof. intros [Hd|(e & -> & _)]; [|done]. unfold drained_texts in Hd. simpl in Hd. split_elems; done. Qed.

Lemma coop_drain m h o : at_step 2 m0 m -> exec (flow m) h o -> Forall cooperative h -> Forall plain_drain h ->
  at_step 3 m0 (stored m h).
Proof.
  intros Ha He HF Hpd. rewrite (flow_at 2) in He by done. pose proof Ha as (Hm & Hp & _). unfold drainNode in He. cbn [dr_Machine] in He.
  apply exec_bind in He as [(h1 & skip & h2 & -> & E1 & He)|(o' & E1 & Hf & _)];
    apply skip_reason_facts in E1 as E1'; destruct E1' as (Hn & r & Hr & _); [|by subst o'].
  apply Forall_app in HF as [_ HF]. apply Forall_app in Hpd as [_ Hpd]. apply quiet_now in Hn.
  assert (Hfinish : forall h3 h4 (err : option error) d, h2 = h3 ++ h4 -> Forall quiet h3 -> after_step (node_name m0) 3 d ->
    exec (do! deletionUpdate m d MachineStateProcessing (st_LastKnownState (m_Status m)) in Ret (ShortRetry, err)) h4 o ->
    at_step 3 m0 (stored m (h1 ++ h2))).
  { intros h3 h4 err d -> Hq3 Hd3 He4. apply Forall_app in HF as [_ HF]. rewrite app_assoc.
    eapply at_step_wrote; [done|done| |exact Hd3].
    eapply coop_update; [by eapply step_3_text|apply (at_step_fresh 2); [done|]|apply quiet_stored, Forall_app; done| |exact He4|done];
      [|by eexists]. intros ->. by eapply far_23. }
  destruct skip as [s0|]; [cbn [bind] in He; eapply (Hfinish [] h2); [done|constructor| |exact He]|].
  - by apply skip_after, (skip_text m h1).
  - apply exec_bind in He as [(h4 & [[err d] s] & h5 & -> & E2 & He)|(o' & E2 & Hf & _)].
    + rewrite !Forall_app in HF, Hpd. destruct HF as [HF4 HF5], Hpd as [Hpd _].
      destruct (coop_run_drain _ _ _ Hm E2 HF4 Hpd) as [Hq (err' & d' & [= <- <- ->] & Hd)]. by eapply (Hfinish h4 h5).
    + by destruct (coop_run_drain _ _ _ Hm E2 HF Hpd) as [_ (err' & d' & -> & _)].
Qed.

Lemma coop_delete_vm m h o : at_step 3 m0 m -> exec (flow m) h o -> Forall cooperative h -> at_step 4 m0 (stored m h).
Proof.
  intros Ha He HF. rewrite (flow_at 3) in He by done. pose proof Ha as (Hm & Hp & _).
  destruct He as (x & h' & -> & He). cbn [bind dr_Machine] in He. apply Forall_cons in HF as [Hx HF]. simpl in Hx.
  change (ev ?q x :: h') with ([ev q x] ++ h').
  destruct (driver_answer x) as [resp err]. destruct (vm_delete_outcome err) as [[[r d] s] e] eqn:E. simpl in Hx.
  assert (Hin : s = MachineStateProcessing /\ d ∈ vm_gone_texts).
  { unfold vm_delete_outcome in E. destruct err as [err|]; [rewrite Hx in E; vm_compute in E|]; injection E as _ <- <- _; (split; [done|]).
    - right; left.
    - right; right; left. }
  destruct Hin as [-> Hin]. eapply at_step_wrote; [done|done| |exact Hin].
  eapply coop_update; [|apply (at_step_fresh 3); [done|]|done| |exact He|done]; [|intros ?; by eapply far_34|by eexists].
  unfold vm_gone_texts in Hin; split_elems; done.
Qed.

Lemma coop_delete_node m h o : at_step 4 m0 m -> exec (flow m) h o -> Forall cooperative h -> at_step 5 m0 (stored m h).
Proof.
  intros Ha He HF. rewrite (flow_at 4) in He by done. pose proof Ha as (Hm & Hp & _).
  assert (Hname : node_name m = node_name m0) by (unfold node_name; by rewrite Hm).
  assert (Hfinish : forall h3 h4 d e, h = h3 ++ h4 -> stored m h3 = m -> after_step (node_name m0) 5 d -> Forall cooperative h4 ->
    exec (do! deletionUpdate m d MachineStateProcessing (st_LastKnownState (m_Status m)) in Ret (ShortRetry, Some e)) h4 o ->
    at_step 5 m0 (stored m h)).
  { intros h3 h4 d e -> Hq Hd5 HF4 He4. eapply at_step_wrote; [done|done| |exact Hd5].
    eapply coop_update; [|apply (at_step_fresh 4); [done|]|done| |exact He4|done]; [|intros ?; by eapply far_45|by eexists].
    simpl in Hd5; split_elems; done. }
  unfold deleteNodeObject in He. cbv zeta in He. rewrite Hname in He. case_bool_decide as Hn; cbn [negb bind] in He.
  - eapply (Hfinish [] h); [done|done| |done|exact He]. right; right; left.
  - destruct He as (x & h' & -> & He). cbn [bind] in He. apply Forall_cons in HF as [Hx HF]. simpl in Hx.
    destruct (node_delete_outcome (node_name m0) x) as [[d s] e] eqn:E.
    assert (Hin : s = MachineStateProcessing /\ after_step (node_name m0) 5 d).
    { unfold node_delete_outcome in E. destruct x as [?|err]; [injection E as <- <- _; split; [done|left]|].
      rewrite Hx in E. cbn [negb] in E. injection E as <- <- _. split; [done|right; left]. }
    destruct Hin as [-> Hin]. by eapply (Hfinish [_] h').
Qed.

Lemma coop_finalizer m h o : at_step 5 m0 m -> exec (flow m) h o -> Forall cooperative h ->
  has_finalizer MCMFinalizerName (m_Meta (stored m h)) = false.
Proof.
  intros Ha He HF. rewrite (flow_at 5) in He by done. pose proof Ha as (Hm & _).
  unfold deleteMachineFinalizers in He. rewrite Hm, Hfin in He. cbn [bind] in He. destruct He as (x & h' & -> & He).
  apply Forall_cons in HF as [[z Hx] _]. destruct x; [|done]. destruct He as [-> _]. simpl. unfold stored. simpl.
  apply not_true_iff_false. rewrite has_finalizer_elem. simpl. rewrite elem_of_without. naive_solver.
Qed.

(** Once the finalizer is gone nothing is written. *)
Lemma flow_done m h o : has_finalizer MCMFinalizerName (m_Meta m) = false -> exec (flow m) h o -> stored m h = m.
Proof. intros Hn He. unfold triggerDeletionFlow in He. cbn [dr_Machine] in He. rewrite Hn in He. by destruct He as [-> _]. Qed.

(** *** One reconciliation, whatever the answers *)

(** The update stores what was asked for, or nothing. *)
Lemma any_update machine d s k (f : option error -> prog (RetryPeriod * option error)) h0 h o :
  stored machine h0 = machine -> (forall r, exists a, f r = Ret a) ->
  exec (bind (deletionUpdate machine d s k) f) h o ->
  stored machine (h0 ++ h) = machine \/ wrote machine (stored machine (h0 ++ h)) d s.
Proof.
  intros H0 Hr (x & h' & -> & He). cbn [bind] in He. unfold machineStatusUpdate in He.
  unfold stored in *. rewrite foldl_app, H0. simpl foldl.
  apply exec_bind in He as [(h1 & r & h2 & -> & E1 & E2)|(o' & E1 & Hfail & _)].
  - destruct (Hr r) as [a Ha]. rewrite Ha in E2. destruct E2 as [-> _]. rewrite app_nil_r.
    apply exec_bind in E1 as [(h3 & b & h4 & -> & E3 & E4)|(o' & E3 & _ & Ho)];
      [|apply exec_similar in E3 as (b & -> & _); discriminate Ho].
    apply exec_similar in E3 as (b' & [= <-] & _ & Hn & _). rewrite foldl_app.
    pose proof (quiet_stored machine h3 (quiet_now _ Hn)) as Hid. unfold stored in Hid. rewrite Hid. destruct b; [left; by destruct E4 as [-> _]|].
    destruct E4 as (y & h5 & -> & -> & _). destruct y; [right; by split_and!|by left].
  - apply exec_bind in E1 as [(h3 & b & h4 & -> & E3 & E4)|(o'' & E3 & Hf2 & _)];
      [|by apply exec_similar in E3 as (b & -> & _)].
    destruct b; [by destruct E4 as [_ ->]|by destruct E4 as (y & h5 & _ & _ & ->)].
Qed.

(** A deletion that has not begun, or is somewhere on its way. *)
Definition under_way (m : Machine) : Prop :=
  m_Meta m = m_Meta m0 /\ (untouched (m_Status m) \/ left_behind (node_name m0) (lastop m)).

Lemma any_left m d s k (f : option error -> prog (RetryPeriod * option error)) h0 h o : under_way m -> stored m h0 = m ->
  leaves (node_name m0) d s -> (forall r, exists a, f r = Ret a) -> exec (bind (deletionUpdate m d s k) f) h o ->
  under_way (stored m (h0 ++ h)).
Proof.
  intros Hu H0 Hl Hf He. destruct (any_update m d s k f h0 h o H0 Hf He) as [->|(H1 & _ & H3 & H4)]; [done|].
  split; [rewrite H1; apply Hu|]. right. unfold left_behind. by rewrite H3, H4.
Qed.

Lemma any_start m h o : under_way m -> exec (setMachineTerminationStatus m) h o -> under_way (stored m h).
Proof.
  intros Hu (x & h1 & -> & y & h2 & -> & z & h3 & -> & -> & _). unfold stored. simpl. destruct z as [z|e]; [|done].
  split; [apply Hu|]. right. left. by exists 1%nat.
Qed.

Lemma any_run_drain m h err d s : exec (run_drain c m) h (Return (err, d, s)) -> Forall plain_drain h -> leaves (node_name m0) d s.
Proof.
  unfold run_drain. intros He Hpd. apply exec_bind_ret in He as (h1 & t & h2 & -> & _ & He).
  apply exec_bind_ret in He as (h3 & b & h4 & -> & _ & He). set (force := _ || _) in He. clearbody force.
  apply exec_bind_ret in He as (h5 & u & h6 & -> & _ & He). rewrite !Forall_app in Hpd. destruct Hpd as (_ & _ & _ & Hpd).
  assert (Hc : exec (call_drain c m force) h6 (Return (err, d, s)) -> leaves (node_name m0) d s).
  { intros (y & h8 & -> & -> & [= Hy]). apply Forall_cons in Hpd as [Hply _].
    destruct y as [y|e]; [injection Hy as _ -> ->; left; exists 3%nat; left; left|].
    destruct force; injection Hy as _ -> ->; [|by right]. left. exists 3%nat. right. by exists e. }
  destruct u, force; auto. destruct He as [-> [= _ _ ->]]. by right.
Qed.

Lemma any_drain m h o : under_way m -> exec (drainNode c (mkDriverRequest m class secret)) h o -> Forall plain_drain h ->
  under_way (stored m h).
Proof.
  intros Hu He Hpd. unfold drainNode in He. cbn [dr_Machine] in He.
  apply exec_bind in He as [(h1 & skip & h2 & -> & E1 & He)|(o' & E1 & _ & _)];
    apply skip_reason_facts in E1 as E1'; destruct E1' as (Hn & r & Hr & _); apply quiet_now in Hn;
    [|by rewrite quiet_stored].
  apply Forall_app in Hpd as [_ Hpd]. destruct skip as [s0|].
  - cbn [bind] in He. eapply any_left; [done|by apply quiet_stored| |by eexists|exact He].
    left. exists 3%nat. by apply skip_after, (skip_text m h1).
  - apply exec_bind in He as [(h4 & [[err d] s] & h5 & -> & E2 & He)|(o' & E2 & _ & _)];
      pose proof (emits_run_drain _ _ _ _ E2) as Hq.
    + apply Forall_app in Hpd as [Hpd _]. rewrite app_assoc.
      eapply any_left; [done|by apply quiet_stored, Forall_app|by eapply any_run_drain|by eexists|exact He].
    + by rewrite quiet_stored by by apply Forall_app.
Qed.

(** One step of the flow, with failures anywhere. *)
Lemma flow_any m h o : under_way m -> exec (flow m) h o -> Forall plain_drain h ->
  under_way (stored m h) \/ has_finalizer MCMFinalizerName (m_Meta (stored m h)) = false.
Proof.
  intros Hu He Hpd. pose proof Hu as [Hm _]. unfold triggerDeletionFlow in He. cbn [dr_Machine] in He. rewrite Hm, Hfin in He.
  cbn [negb] in He. case_match; [by left; eapply any_start|]. case_match.
  { destruct He as (x & h' & -> & He). cbn [bind dr_Machine] in He. left. destruct (vm_status_outcome x) as [[[d s] r] e] eqn:E.
    change (ev ?q x :: h') with ([ev q x] ++ h'). eapply any_left; [done|done|by eapply vm_status_leaves|by eexists|exact He]. }
  case_match; [by left; eapply any_drain|]. case_match.
  { destruct He as (x & h' & -> & He). cbn [bind dr_Machine] in He. left. destruct (driver_answer x) as [resp err].
    destruct (vm_delete_outcome err) as [[[r d] s] e] eqn:E.
    change (ev ?q x :: h') with ([ev q x] ++ h'). eapply any_left; [done|done|by eapply vm_delete_leaves|by eexists|exact He]. }
  case_match.
  { left. unfold deleteNodeObject in He. cbv zeta in He. assert (Hname : node_name m = node_name m0) by (unfold node_name; by rewrite Hm).
    rewrite Hname in He. case_bool_decide; cbn [negb bind] in He.
    - apply (any_left m _ _ _ _ [] h o Hu eq_refl) in He; [done| |by eexists]. left. exists 5%nat. right; right; left.
    - destruct He as (x & h' & -> & He). cbn [bind] in He. destruct (node_delete_outcome (node_name m0) x) as [[d s] e] eqn:E.
      change (ev ?q x :: h') with ([ev q x] ++ h'). eapply any_left; [done|done|by eapply node_delete_leaves|by eexists|exact He]. }
  case_match; [|by left; eapply any_start].
  unfold deleteMachineFinalizers in He. rewrite Hm, Hfin in He. cbn [bind] in He. destruct He as (x & h' & -> & He).
  destruct x as [x|e]; destruct He as [-> _]; unfold stored; simpl; [right|by left].
  apply not_true_iff_false. rewrite has_finalizer_elem. simpl. rewrite elem_of_without. naive_solver.
Qed.

(** How far the deletion is, at least. *)
Definition reached (k : nat) (m : Machine) : Prop :=
  has_finalizer MCMFinalizerName (m_Meta m) = false \/ (k = 0%nat /\ m_Meta m = m_Meta m0 /\ untouched (m_Status m)) \/
  (exists j, 1 <= j <= 5 /\ k <= j /\ at_step j m0 m)%nat.

Lemma under_way_reached m : under_way m -> reached 0 m.
Proof.
  intros [Hm Hl]. right. destruct (decide (m_Phase m = MachineTerminating)) as [Hp|Hp]; [|left; split_and!; [done|done|by left]].
  destruct (decide (selects (lo_Description (lastop m)) = 0%nat)) as [Hs|Hs].
  - left. split_and!; [done|done|]. right. revert Hs. unfold selects, flow_steps. repeat (case_match; [done|]). intros _.
    by repeat constructor.
  - destruct Hl as [[Hu|Hu]|Hl]; [done| |].
    + unfold flow_steps in Hu. rewrite !Forall_cons in Hu. destruct Hu as (E1 & E2 & E3 & E4 & E5 & _).
      unfold selects in Hs. by rewrite E1, E2, E3, E4, E5 in Hs.
    + right. exists (selects (lo_Description (lastop m))). split; [|by split; [lia|]]. split; [lia|].
      unfold selects. repeat case_match; lia.
Qed.

Lemma reached_step k m h o : reached k m -> exec (flow m) h o -> Forall cooperative h -> Forall plain_drain h -> reached (S k) (stored m h).
Proof.
  intros [Hd|[(-> & Hm & Hu)|(j & Hj & Hk & Ha)]] He HF Hpd.
  - left. by rewrite (flow_done _ _ _ Hd He).
  - right; right. exists 1%nat. split_and!; [lia..|]. by eapply coop_start.
  - destruct (decide (j = 5%nat)) as [->|H5]; [left; by eapply coop_finalizer|]. right; right.
    destruct (decide (j = 1%nat)) as [->|H1].
    { destruct (coop_vm_status _ _ _ Ha He HF); [exists 2%nat|exists 4%nat]; (split_and!; [lia..|done]). }
    exists (S j). split_and!; [lia..|].
    destruct (decide (j = 2%nat)) as [->|H2]; [by eapply coop_drain|].
    destruct (decide (j = 3%nat)) as [->|H3]; [by eapply coop_delete_vm|].
    assert (j = 4%nat) as -> by lia. by eapply coop_delete_node.
Qed.
End steps.

(** A reconciliation of the flow on what the API server holds: whatever is answered, as long as no drain
    error quotes the text of an earlier step; and one in a cooperative world. *)
Inductive any_run (c : controller) : Machine -> Machine -> Prop :=
  | one_any_run m class secret h o :
      exec (triggerDeletionFlow c (mkDriverRequest m class secret)) h o -> Forall plain_drain h -> any_run c m (stored m h).
Inductive plain_run (c : controller) : Machine -> Machine -> Prop :=
  | one_plain_run m class secret h o :
      exec (triggerDeletionFlow c (mkDriverRequest m class secret)) h o -> Forall cooperative h -> Forall plain_drain h ->
      plain_run c m (stored m h).

Lemma runs_under_way c m0 m1 m : has_finalizer MCMFinalizerName (m_Meta m0) = true -> rtc (any_run c) m1 m ->
  under_way m0 m1 \/ has_finalizer MCMFinalizerName (m_Meta m1) = false ->
  under_way m0 m \/ has_finalizer MCMFinalizerName (m_Meta m) = false.
Proof.
  intros Hfin Hr. induction Hr as [|m1 m2 m H1 _ IH]; [done|]. intros Hu. apply IH. destruct H1 as [m1 class secret h o He Hpd].
  destruct Hu as [Hu|Hd]; [by eapply (flow_any c m0 class secret)|]. right. by rewrite (flow_done c class secret m1 h o Hd He).
Qed.

(** C11: the deletion of a machine comes to an end, wherever it stands: take a machine with a deletion
    time and the finalizer whose deletion the flow has not begun, then any number of reconciliations of the
    flow in which anything may fail; from there, six reconciliations in a cooperative world remove the
    finalizer.  None of the status updates between the steps is mistaken for a repetition and left out.
    The name of the node is one the API server accepts, and no drain error quotes the text of one of the
    first two steps of the flow. *)
Theorem deletion_completes c m0 m1 m : has_finalizer MCMFinalizerName (m_Meta m0) = true -> is_Some (DeletionTimestamp (m_Meta m0)) ->
  untouched (m_Status m0) -> dns_name (node_name m0) ->
  rtc (any_run c) m0 m1 -> nsteps (plain_run c) 6 m1 m -> has_finalizer MCMFinalizerName (m_Meta m) = false.
Proof.
  intros Hfin Hdel Hu Hn Hr Hs. apply dns_name_plain in Hn.
  assert (H0 : reached m0 0 m1).
  { destruct (runs_under_way c m0 m0 m1 Hfin Hr) as [H|H]; [left; split; [done|by left]|by apply under_way_reached|by left]. }
  assert (Hgen : forall n k m1, nsteps (plain_run c) n m1 m -> reached m0 k m1 -> reached m0 (k + n) m).
  { clear -Hfin Hdel Hn. induction n as [|n IH]; intros k m1 Hs Hk; inversion Hs as [|? ? m2 ? H1]; subst; [by rewrite Nat.add_0_r|].
    replace (k + S n)%nat with (S k + n)%nat by lia. eapply IH; [done|]. destruct H1 as [m1 class secret h o He HF Hpd].
    by eapply (reached_step c m0 class secret). }
  destruct (Hgen 6%nat 0%nat m1 Hs H0) as [?|[(? & _)|(j & Hj & Hk & _)]]; [done|lia|lia].
Qed.

(** ** A deletion, step by step *)

(** A machine with a deletion time whose VM and node exist. *)
Definition doomed_machine : Machine :=
  m_set_Meta (fun _ => mkMeta "m1" "" "shoot" "m1" "1" 1 1000 (Some 2000) {[ "node" := "ip-10-250-7-1.internal" ]} ∅ []
    [MCMFinalizerName]) (sample_machine "m1" MachineRunning).

(** Everything asked for is done. *)
Definition deletion_world (r : req) (w : unit) : unit * result (answer r) :=
  (w, match r return result (answer r) with
      | Now => Ok 5000
      | UpdateStatusMachine m | UpdateMachine m => Ok m
      | VMStatus _ => Ok (Some (mkStatusResponse "aws:///i-1" "ip-10-250-7-1.internal"))
      | RunDrain _ => Ok tt
      | VMDelete _ => Ok (Some (mkDeleteResponse ""), None)
      | DeleteNode _ => Ok tt
      | UpdateStatusNode n => Ok n
      | _ => Err (mkErr NotFound "not found")
      end).

Definition doomed_request (m : Machine) : DriverRequest := mkDriverRequest m None ∅.
Definition doomed_history (m : Machine) : history :=
  (run deletion_world (triggerDeletionFlow sample_controller (doomed_request m)) tt).1.2.
Definition doomed_next (m : Machine) : Machine := stored m (doomed_history m).

Lemma doomed_runs runs m : deletion_runs sample_controller runs -> possible runs (m_Status m) ->
  deletion_runs sample_controller (mkRun m (doomed_history m) :: runs).
Proof. intros Hr Hp. apply (one_more _ _ (doomed_request m) _ _ Hr Hp (run_exec deletion_world _ tt)). Qed.


Lemma doomed_step m : plain_run sample_controller m (doomed_next m).
Proof.
  apply (one_plain_run _ m None ∅ (doomed_history m) _ (run_exec deletion_world _ tt)); apply run_events; intros [] []; simpl; eauto.
Qed.

(** Running, looked up, drained, VM deleted, node deleted: five reconciliations, each on what the one
    before has stored; the sixth removes the finalizer. *)
Definition doomed_at (k : nat) : Machine := Nat.iter k doomed_next doomed_machine.

Fixpoint doomed_run (k : nat) : list run_of :=
  match k with
  | O => []
  | S k => mkRun (doomed_at k) (doomed_history (doomed_at k)) :: doomed_run k
  end.

(** Up to the fifth, each reconciliation writes the status the next one finds. *)
Lemma doomed_writes k : (k < 5)%nat ->
  head (status_updates (doomed_history (doomed_at k))) = Some (m_set_Status (m_Status (doomed_at (S k))) (doomed_at k)).
Proof. intros Hk. do 5 (destruct k as [|k]; [vm_compute; reflexivity|]). lia. Qed.

Lemma doomed_run_ok k : (k <= 6)%nat -> deletion_runs sample_controller (doomed_run k).
Proof.
  induction k as [|k IH]; intros Hk; [constructor|]. apply doomed_runs; [apply IH; lia|].
  destruct k as [|k]; [left; left; discriminate|]. right.
  pose proof (doomed_writes k ltac:(lia)) as Hw.
  exists (mkRun (doomed_at k) (doomed_history (doomed_at k))), (m_set_Status (m_Status (doomed_at (S k))) (doomed_at k)).
  split_and!; [left| |done]. simpl. destruct (status_updates _) as [|m ms]; [done|]. injection Hw as ->. left.
Qed.

Lemma deletion_in_order_witness :
  (forall m x, ev (UpdateMachine m) x ∈ doomed_history (doomed_at 5) -> did vm_gone (doomed_run 5) /\ node_object_gone (doomed_run 5)) /\
  exists m x, ev (UpdateMachine m) x ∈ doomed_history (doomed_at 5).
Proof.
  split; [|do 2 eexists; vm_compute; left].
  apply (deletion_in_order sample_controller (doomed_run 5) (doomed_at 5)), (doomed_run_ok 6). lia.
Defined.

(** A reconciliation in which the VM cannot be looked up leaves a failed step behind. *)
Definition stuck_world (r : req) (w : unit) : unit * result (answer r) :=
  match r return unit * result (answer r) with
  | VMStatus _ => (w, Err (mkErr OtherErr "provider unavailable"))
  | r => deletion_world r w
  end.
Definition stuck_machine : Machine :=
  stored (doomed_at 1) (run stuck_world (triggerDeletionFlow sample_controller (doomed_request (doomed_at 1))) tt).1.2.
Definition stuck_at_step (k : nat) : Machine := Nat.iter k doomed_next stuck_machine.

Lemma stuck_run : any_run sample_controller (doomed_at 1) stuck_machine.
Proof.
  apply (one_any_run _ _ None ∅ _ _ (run_exec stuck_world _ tt)), run_events. intros [] []; simpl; eauto.
Qed.

Lemma plain_any c m m' : plain_run c m m' -> any_run c m m'.
Proof. intros [m1 class secret h o He _ Hp]. by eapply one_any_run. Qed.

Lemma deletion_completes_witness : lo_State (st_LastOperation (m_Status stuck_machine)) = MachineStateFailed /\
  has_finalizer MCMFinalizerName (m_Meta (stuck_at_step 6)) = false.
Proof.
  split; [vm_compute; reflexivity|].
  apply (deletion_completes sample_controller doomed_machine stuck_machine); [reflexivity|by exists 2000|by left|reflexivity| |].
  - apply rtc_l with (doomed_at 1); [apply plain_any, doomed_step|]. apply rtc_once, stuck_run.
  - do 5 (eapply nsteps_l; [apply doomed_step|]). apply nsteps_once, doomed_step.
Defined.
