(* ===== verification/MachineController.v ===== *)
(** * Reconciliation of a machine (pkg/util/provider/machinecontroller/machine.go)

    The creation flow, the reconciliation that dispatches on the state of a machine, the handlers of
    machine and node events, and the workers that serve the queues (controller.go). *)
From Stdlib Require Import ZArith Lia Ascii String.
From stdpp Require Import base gmap strings list.
From S2P Require Import Prelude GoLib Types Labels Prog Samples NodeOps Validation MachineCodes NodeTemplate MachineClasses MachineUtil MachineDeletion.
Open Scope Z_scope.

(** ** Handlers of machine events *)

Definition addMachine (machine : Machine) : prog unit := enqueueMachine machine.
Definition updateMachine (oldMachine newMachine : Machine) : prog unit := enqueueMachine newMachine.
Definition deleteMachine (machine : Machine) : prog unit := enqueueMachine machine.

(** ** The machine of a node *)

Definition errMultipleMachineMatch : error := Errorf "Multiple machines matching node".
Definition errNoMachineMatch : error := Errorf "No machines matching node found".

(** The error of the requirement is dropped and the requirement dereferenced; so is the error of the
    lister. *)
Definition getMachineFromNode (nodeName : string) : prog (result Machine) :=
  let! req := deref (NewRequirement "node" OEquals [nodeName]) in
  let! r := call_try ListerMachines in
  let machines := match r with
    | Ok l => filter (fun m => sel_Matches (InternalSelector [req]) (Labels (m_Meta m)) = true) l
    | Err _ => []
    end in
  Ret (match machines with
       | [] => Err errNoMachineMatch
       | [machine] => Ok machine
       | _ => Err errMultipleMachineMatch
       end).

Definition addNodeToMachine (node : Node) : prog unit :=
  if bool_decide (is_Some (n_Annotations node !! NotManagedByMCM)) then Ret tt
  else
    let! r := getMachineFromNode (KeyFunc (n_Meta node)) in
    match r with
    | Err _ => Ret tt
    | Ok machine =>
        if negb (bool_decide (m_Phase machine = MachineCrashLoopBackOff)) &&
           nodeConditionsHaveChanged (st_Conditions (m_Status machine)) (n_Conditions node)
        then enqueueMachine machine else Ret tt
    end.

Definition updateNodeToMachine (oldNode newNode : Node) : prog unit := addNodeToMachine newNode.

(** [key] is the key of the node or of the tombstone. *)
Definition deleteNodeToMachine (key : string) : prog unit :=
  let! r := getMachineFromNode key in
  match r with Err _ => Ret tt | Ok machine => enqueueMachine machine end.

Section reconcile.
Context `{!Encoders} (c : controller).

(** ** Creation *)

(** The first half of the flow: the name of the node and the ID of the VM, found or just created, or what
    the flow returns without them. *)
Definition locate_vm (request : DriverRequest) : prog ((RetryPeriod * option error) + (string * string)) :=
  let machine := dr_Machine request in
  let! r := call_try (VMStatus request) in
  match r with
  | Ok resp =>
      let! resp := deref resp in
      Ret (inr (gs_NodeName resp, gs_ProviderID resp))
  | Err err =>
      match error_code err with
      | None => Ret (inl (MediumRetry, Some err))
      | Some code =>
          if bool_decide (code ∈ [CodeNotFound; Unimplemented]) then
            match Labels (m_Meta machine) !! "node" with
            | None =>
                let! x := call_try (VMCreate request) in
                let '(resp, err) := driver_answer x in
                match err with
                | Some err =>
                    let! r := machineCreateErrorHandler c machine resp err in
                    Ret (inl r)
                | None =>
                    let! resp := deref resp in
                    Ret (inr (cr_NodeName resp, cr_ProviderID resp))
                end
            | Some nodeName => Ret (inr (nodeName, EmptyString))
            end
          else
            do! createFailureUpdate c machine err (st_LastKnownState (m_Status machine)) in
            Ret (inl (if retryable (Some code) then ShortRetry else MediumRetry, Some err))
      end
  end.

(** What the flow writes to the machine's labels, annotations and spec. *)
Definition created_clone (machine : Machine) (nodeName providerID : string) : Machine :=
  let annotations := Annotations (m_Meta machine) in
  m_set_Spec (sp_set_ProviderID providerID)
    (m_set_Meta (fun meta => set_Annotations
        (if bool_decide (mget annotations MachinePriority = EmptyString) then <[MachinePriority := "3"]> annotations else annotations)
        (set_Labels (<["node" := nodeName]> (Labels meta)) meta)) machine).

(** The second half of the flow. *)
Definition record_vm (machine : Machine) (nodeName providerID : string) : prog (RetryPeriod * option error) :=
  let machineNodeLabelPresent := bool_decide (is_Some (Labels (m_Meta machine) !! "node")) in
  let machinePriorityAnnotationPresent := bool_decide (is_Some (Annotations (m_Meta machine) !! MachinePriority)) in
  if negb machineNodeLabelPresent || negb machinePriorityAnnotationPresent ||
     bool_decide (sp_ProviderID (m_Spec machine) = EmptyString) then
    let! r := call_try (UpdateMachine (created_clone machine nodeName providerID)) in
    Ret (ShortRetry, Some (match r with
      | Err err => err
      | Ok _ => Errorf "Machine creation in process. Machine UPDATE successful"
      end))
  else if negb (bool_decide (st_Node (m_Status machine) = nodeName)) || bool_decide (m_Phase machine = EmptyString) then
    let! t1 := now in
    let! t2 := now in
    let clone := m_set_Status (st_set_CurrentStatus (mkCurStatus MachinePending true t2)
      (st_set_LastOperation (mkLastOp "Creating machine on cloud provider" t1 MachineStateProcessing MachineOperationCreate)
        (st_set_Node nodeName (m_Status machine)))) machine in
    let! r := call_try (UpdateStatusMachine clone) in
    Ret (ShortRetry, Some (match r with
      | Err err => err
      | Ok _ => Errorf "Machine creation in process. Machine/Status UPDATE successful"
      end))
  else Ret (LongRetry, None).

Definition triggerCreationFlow (request : DriverRequest) : prog (RetryPeriod * option error) :=
  let machine := dr_Machine request in
  let! s := attempt (addBootstrapTokenToUserData c (m_Name machine) (dr_Secret request)) in
  match s with
  | Err err => Ret (ShortRetry, Some err)
  | Ok secretCopy =>
      let! vm := locate_vm (mkDriverRequest machine (dr_MachineClass request) secretCopy) in
      match vm with
      | inl r => Ret r
      | inr (nodeName, providerID) => record_vm machine nodeName providerID
      end
  end.

(** The loop has no bound: every failure starts it again with the machine it was given.  No caller is
    left in the source. *)
Fixpoint triggerUpdationFlow (fuel : nat) (machine : Machine) (actualProviderID : string) : prog (RetryPeriod * option error) :=
  match fuel with
  | O => Starve
  | S fuel =>
      let! r := call_try (GetMachine (Namespace (m_Meta machine)) (m_Name machine)) in
      match r with
      | Err _ => triggerUpdationFlow fuel machine actualProviderID
      | Ok current =>
          let! r := call_try (UpdateMachine (m_set_Spec (sp_set_ProviderID actualProviderID) current)) in
          match r with
          | Err _ => triggerUpdationFlow fuel machine actualProviderID
          | Ok current =>
              let! t := now in
              let lastOperation := mkLastOp "Updated provider ID" t MachineStateSuccessful MachineOperationUpdate in
              let! r := call_try (UpdateStatusMachine (m_set_Status (st_set_LastOperation lastOperation (m_Status current)) current)) in
              match r with
              | Err _ => triggerUpdationFlow fuel machine actualProviderID
              | Ok _ => Ret (LongRetry, None)
              end
          end
      end
  end.

(** ** Reconciliation *)

(** [field.ErrorList.ToAggregate().Error()] for required fields. *)
Definition FieldError_Error (e : FieldError) : string := fe_Field e +:+ ": Required value: " +:+ fe_Detail e.
Definition aggregate_Error (l : list FieldError) : string :=
  match l with
  | [e] => FieldError_Error e
  | _ => "[" +:+ String.concat ", " (map FieldError_Error l) +:+ "]"
  end.

Definition reconcileClusterMachine (machine : Machine) : prog (RetryPeriod * option error) :=
  if so_MachineControllerFrozen (c_safetyOptions c) && bool_decide (DeletionTimestamp (m_Meta machine) = None) then
    Ret (LongRetry, Some (Errorf "Machine controller has frozen. Retrying reconcile after resync period"))
  else
    let validationerr := ValidateMachine machine in
    if negb (bool_decide (validationerr = [])) then
      Ret (LongRetry, Some (Errorf ("Validation of Machine failed " +:+ aggregate_Error validationerr)))
    else
      let! v := ValidateMachineClass c (sp_Class (m_Spec machine)) in
      let '(machineClass, secretData, retry, err) := v in
      match err with
      | Some err => Ret (retry, Some err)
      | None =>
          let request := mkDriverRequest machine machineClass secretData in
          if negb (bool_decide (DeletionTimestamp (m_Meta machine) = None)) then triggerDeletionFlow c request
          else
            let! f := addMachineFinalizers machine in
            match f with
            | (retry, Some err) => Ret (retry, Some err)
            | (_, None) =>
                let! early :=
                  (if bool_decide (st_Node (m_Status machine) = EmptyString) then Ret None
                   else
                     let! r := reconcileMachineHealth c machine in
                     match r with
                     | (retry, Some err) => Ret (Some (retry, Some err))
                     | (_, None) =>
                         let! r := syncMachineNodeTemplates machine in
                         match r with
                         | (retry, Some err) => Ret (Some (retry, Some err))
                         | (_, None) => Ret None
                         end
                     end) in
                match early with
                | Some r => Ret r
                | None =>
                    if bool_decide (sp_ProviderID (m_Spec machine) = EmptyString) || bool_decide (m_Phase machine = EmptyString) ||
                       bool_decide (st_Node (m_Status machine) = EmptyString)
                    then triggerCreationFlow request
                    else Ret (LongRetry, None)
                end
            end
      end.

(** The error of the reconciliation is logged and dropped; the machine comes back after the retry period. *)
Definition reconcileClusterMachineKey (key : string) : prog unit :=
  let! nn := or_throw (SplitMetaNamespaceKey key) "unexpected key format" in
  let! r := call_try (ListerGetMachine (c_namespace c) nn.2) in
  match r with
  | Err err => if IsNotFound err then Ret tt else Throw err
  | Ok machine =>
      let! r := reconcileClusterMachine machine in
      enqueueMachineAfter machine r.1
  end.
End reconcile.

(** ** Workers (controller.go: worker) *)

Definition maxRetries : Z := 15.

(** One item of a queue; [forgetAfterSuccess] is always set. *)
Definition worker (queue : string) (reconciler : string -> prog unit) (key : string) : prog unit :=
  defer (call_ignore (QueueDone queue key))
    (let! r := attempt (reconciler key) in
     match r with
     | Ok _ => call_ignore (QueueForget queue key)
     | Err _ =>
         let! n := Call (QueueNumRequeues queue key) (fun x => Ret (match x with Ok n => n | Err _ => 0 end)) in
         if n <? maxRetries then call_ignore (QueueAddRateLimited queue key) else call_ignore (QueueForget queue key)
     end).

(** ** What a reconciliation does to VMs and nodes *)

(** Calls that leave VMs and node objects alone. *)
Definition harmless (e : event) : Prop :=
  match projT1 e with VMCreate _ | VMDelete _ | RunDrain _ | DeleteNode _ => False | _ => True end.

Definition destructive (e : event) : Prop :=
  match projT1 e with VMDelete _ | RunDrain _ | DeleteNode _ => True | _ => False end.

(** The class of the driver call is one that is ready to be used, or none at all when the machine was of a
    provider-specific class. *)
Definition class_ready (m : Machine) (class : option MachineClass) : Prop :=
  match class with
  | Some mc => MCMFinalizerName ∈ Finalizers (mc_Meta mc) /\ cl_Kind (sp_Class (m_Spec m)) = MachineClassKind
  | None => cl_Kind (sp_Class (m_Spec m)) <> MachineClassKind
  end.

Section guards.
Context `{!Encoders} (c : controller).

Lemma ValidateMachineClass_facts m h class secret retry err :
  exec (ValidateMachineClass c (sp_Class (m_Spec m))) h (Return (class, secret, retry, err)) -> err = None -> class_ready m class.
Proof.
  unfold ValidateMachineClass. case_bool_decide as Hk; cbn [negb]; intros He ->.
  - destruct He as (x & h' & -> & He). cbn [bind] in He. destruct x as [mc|e]; [|by destruct He as [_ [=]]].
    apply exec_bind_ret in He as (h1 & sd & h2 & -> & _ & E2). destruct (has_finalizer _ _) eqn:Ef; cbn [negb] in E2.
    + destruct E2 as [-> [= -> -> ->]]. split; [by apply has_finalizer_elem|done].
    + by destruct E2 as (y & h3 & _ & _ & [=]).
  - by destruct (migration_no_class c _ _ _ He) as [[= ->] _].
Qed.

Lemma harmless_ValidateMachineClass cs : emits harmless (ValidateMachineClass c cs).
Proof.
  unfold ValidateMachineClass, TryMachineClassMigration, getSecretData, getSecret, createMachineClass, updateClassReferences,
    addMigratedAnnotationForProviderMachineClass, getProviderSpecificMachineClass.
  by emits_all.
Qed.

Lemma harmless_health machine : emits harmless (reconcileMachineHealth c machine).
Proof.
  unfold reconcileMachineHealth, observe_node, check_timeout, health_status, deleteBootstrapToken, HasTimeOutOccurred, enqueueMachineAfter.
  emits_all; done.
Qed.

Lemma harmless_sync machine : emits harmless (syncMachineNodeTemplates machine).
Proof. unfold syncMachineNodeTemplates. emits_all; done. Qed.

Lemma harmless_bootstrap name secret : emits harmless (addBootstrapTokenToUserData c name secret).
Proof.
  assert (Hg : forall n s, emits harmless (generateRandomStringFromCharset n s)).
  { intros n s. induction n as [|n IH]; simpl; emits_all; try done. }
  unfold addBootstrapTokenToUserData, getBootstrapTokenOrCreateIfNotExist. emits_all; try done.
Qed.

Lemma harmless_record machine n p : emits harmless (record_vm machine n p).
Proof. unfold record_vm. emits_all; done. Qed.

Lemma harmless_failure machine err k : emits harmless (createFailureUpdate c machine err k).
Proof. unfold createFailureUpdate, getCreateFailurePhase, HasTimeOutOccurred, machineStatusUpdate, isMachineStatusSimilar. emits_all; done. Qed.

(** The creation flow asks the driver for the VM before it asks for a new one. *)
Lemma locate_justified request h o : exec (locate_vm c request) h o ->
  Forall harmless h \/
  exists err h', h = ev (VMStatus request) (Err err) :: h' /\ Labels (m_Meta (dr_Machine request)) !! "node" = None /\
    (error_code err = Some CodeNotFound \/ error_code err = Some Unimplemented) /\
    exists x h'', h' = ev (VMCreate request) x :: h'' /\ Forall harmless h''.
Proof.
  intros (x & h' & -> & He). cbn [bind] in He. destruct x as [resp|err].
  - left. constructor; [done|]. destruct resp; cbn [deref bind] in He; by destruct He as [-> _].
  - destruct (error_code err) as [code|] eqn:Ec; [|destruct He as [-> _]; left; by repeat constructor].
    case_bool_decide as Hc.
    + destruct (Labels _ !! "node") eqn:El; [destruct He as [-> _]; left; by repeat constructor|].
      right. exists err, h'. split_and!; [done|done|set_solver|].
      destruct He as (x & h'' & -> & He). exists x, h''. split; [done|]. cbn [bind] in He.
      destruct (driver_answer x) as [resp [err'|]].
      * revert He. apply emits_bind; [|intros; apply emits_ret]. unfold machineCreateErrorHandler.
        apply emits_bind; [apply harmless_failure|intros; apply emits_ret].
      * destruct resp; cbn [deref bind] in He; destruct He as [-> _]; constructor.
    + left. constructor; [done|]. revert He. apply emits_bind; [apply harmless_failure|intros; apply emits_ret].
Qed.

Lemma creation_justified request h o : exec (triggerCreationFlow c request) h o ->
  Forall harmless h \/
  exists h1 h2 r err x, h = h1 ++ ev (VMStatus r) (Err err) :: ev (VMCreate r) x :: h2 /\
    Forall harmless h1 /\ Forall harmless h2 /\ dr_Machine r = dr_Machine request /\ dr_MachineClass r = dr_MachineClass request /\
    Labels (m_Meta (dr_Machine request)) !! "node" = None /\ (error_code err = Some CodeNotFound \/ error_code err = Some Unimplemented).
Proof.
  intros He. unfold triggerCreationFlow in He. cbv zeta in He.
  assert (Hb : emits harmless (attempt (addBootstrapTokenToUserData c (m_Name (dr_Machine request)) (dr_Secret request)))).
  { apply emits_attempt, harmless_bootstrap. }
  apply exec_bind in He as [(h1 & [secret|err] & h2 & -> & E1 & He)|(o' & E1 & _)]; [| |left; by eapply Hb].
  2: { destruct He as [-> _]. rewrite app_nil_r. left. by eapply Hb. }
  apply Hb in E1. clear Hb.
  apply exec_bind in He as [(h3 & vm & h4 & -> & E2 & He)|(o' & E2 & _)].
  - assert (H4 : Forall harmless h4).
    { destruct vm as [r|[n p]]; [destruct He as [-> _]; constructor|by eapply harmless_record]. }
    apply locate_justified in E2 as [H3|(err & h' & -> & Hl & Hc & x & h'' & -> & H'')].
    + left. by rewrite !Forall_app.
    + right. exists h1, (h'' ++ h4), (mkDriverRequest (dr_Machine request) (dr_MachineClass request) secret), err, x.
      split_and!; try done. by apply Forall_app.
  - apply locate_justified in E2 as [H3|(err & h' & -> & Hl & Hc & x & h'' & -> & H'')].
    + left. by rewrite Forall_app.
    + right. by exists h1, h'', (mkDriverRequest (dr_Machine request) (dr_MachineClass request) secret), err, x.
Qed.

Lemma creates_nothing_deletion request : emits (fun e => match projT1 e with VMCreate _ => False | _ => True end) (triggerDeletionFlow c request).
Proof.
  unfold triggerDeletionFlow, setMachineTerminationStatus, getVMStatus, drainNode, skip_reason, condition_stuck, run_drain, call_drain,
    UpdateNodeTerminationCondition, GetNodeCondition, AddOrUpdateConditionsOnNode, UpdateNodeConditions, update_wrapped,
    deleteVM, deleteNodeObject, deleteMachineFinalizers, deletionUpdate, HasTimeOutOccurred, machineStatusUpdate, isMachineStatusSimilar.
  by emits_all.
Qed.

Lemma deletion_needs_finalizer request h o : exec (triggerDeletionFlow c request) h o ->
  has_finalizer MCMFinalizerName (m_Meta (dr_Machine request)) = true \/ h = [].
Proof. unfold triggerDeletionFlow. cbv zeta. destruct (has_finalizer _ _); [by left|]. intros [-> _]. by right. Qed.

Lemma finalizers_first machine h a : exec (addMachineFinalizers machine) h (Return (a, None)) ->
  h = [] /\ has_finalizer MCMFinalizerName (m_Meta machine) = true.
Proof.
  unfold addMachineFinalizers. destruct (has_finalizer _ _); cbn [negb]; [by intros [-> _]|].
  by intros (x & h' & _ & _ & [=]).
Qed.

Lemma harmless_finalizers machine : emits harmless (addMachineFinalizers machine).
Proof. unfold addMachineFinalizers. by emits_all. Qed.

Lemma harmless_spared h r x : Forall harmless h -> ev (VMCreate r) x ∉ h.
Proof. rewrite Forall_forall. by intros HF Hin%HF. Qed.

(** The parts of a reconciliation: harmless calls, and at the end one of the two flows. *)
Lemma reconcile_parts m h o : exec (reconcileClusterMachine c m) h o ->
  Forall harmless h \/
  exists h1 h2 class secret o', h = h1 ++ h2 /\ Forall harmless h1 /\ class_ready m class /\
    ((DeletionTimestamp (m_Meta m) <> None /\ exec (triggerDeletionFlow c (mkDriverRequest m class secret)) h2 o') \/
     (DeletionTimestamp (m_Meta m) = None /\ so_MachineControllerFrozen (c_safetyOptions c) = false /\
      has_finalizer MCMFinalizerName (m_Meta m) = true /\ exec (triggerCreationFlow c (mkDriverRequest m class secret)) h2 o')).
Proof.
  unfold reconcileClusterMachine. cbv zeta. destruct (_ && _) eqn:Ef; [intros [-> _]; by left|].
  destruct (negb _) eqn:Ev; [intros [-> _]; by left|]. intros He.
  apply exec_bind in He as [(h1 & [[[class secret] retry] err] & h2 & -> & E1 & He)|(o' & E1 & _)];
    [|left; by eapply harmless_ValidateMachineClass].
  pose proof (harmless_ValidateMachineClass _ _ _ E1) as H1. pose proof (ValidateMachineClass_facts _ _ _ _ _ _ E1) as Hc.
  destruct err as [err|]; [destruct He as [-> _]; left; by rewrite app_nil_r|]. specialize (Hc eq_refl).
  case_bool_decide as Hd; cbn [negb] in He.
  2: { right. exists h1, h2, class, secret, o. split_and!; auto. }
  rewrite andb_true_r in Ef.
  apply exec_bind in He as [(h3 & [retry' err'] & h4 & -> & E2 & He)|(o' & E2 & _)].
  2: { left. apply Forall_app. split; [done|]. by eapply harmless_finalizers. }
  destruct err' as [err'|].
  { destruct He as [-> _]. left. rewrite app_nil_r. apply Forall_app. split; [done|]. by eapply harmless_finalizers. }
  apply finalizers_first in E2 as [-> Hfin]. cbn [app].
  match type of He with exec (bind ?p _) _ _ => assert (Hem : emits harmless p) end.
  { case_bool_decide; [apply emits_ret|]. emits_all; [apply harmless_health|apply harmless_sync]. }
  apply exec_bind in He as [(h5 & early & h6 & -> & E3 & He)|(o' & E3 & _)].
  2: { left. apply Forall_app. split; [done|]. by eapply Hem. }
  apply Hem in E3. destruct early as [r|].
  { destruct He as [-> _]. left. rewrite app_nil_r. by apply Forall_app. }
  destruct (_ || _).
  - right. exists (h1 ++ h5), h6, class, secret, o. rewrite <- app_assoc. split_and!; [done|by apply Forall_app|done|]. by right.
  - destruct He as [-> _]. left. rewrite app_nil_r. by apply Forall_app.
Qed.

(** C13: what a reconciliation may do to VMs.  A VM is created at most once, and only for a machine that
    is not being deleted, of an unfrozen controller, that already carries the finalizer (so that the VM
    cannot be lost with the machine) and has no node yet, right after the driver has answered that there
    is no such VM (or that it cannot tell), with a class that is ready to be used.  VMs are deleted, and
    nodes drained and deleted, only for a machine with a deletion time and the finalizer. *)
Theorem machine_reconcile_guards m h o : exec (reconcileClusterMachine c m) h o ->
  (forall r x, ev (VMCreate r) x ∈ h ->
     dr_Machine r = m /\ class_ready m (dr_MachineClass r) /\ DeletionTimestamp (m_Meta m) = None /\
     so_MachineControllerFrozen (c_safetyOptions c) = false /\ has_finalizer MCMFinalizerName (m_Meta m) = true /\
     Labels (m_Meta m) !! "node" = None /\
     exists h1 h2 err, h = h1 ++ ev (VMStatus r) (Err err) :: ev (VMCreate r) x :: h2 /\
       (error_code err = Some CodeNotFound \/ error_code err = Some Unimplemented) /\ Forall harmless h1 /\ Forall harmless h2) /\
  (forall e, e ∈ h -> destructive e -> DeletionTimestamp (m_Meta m) <> None /\ has_finalizer MCMFinalizerName (m_Meta m) = true).
Proof.
  intros He. apply reconcile_parts in He as [HF|(h1 & h2 & class & secret & o' & -> & H1 & Hc & [[Hd He]|(Hd & Hfr & Hfin & He)])].
  - split; [intros r x Hin; destruct (harmless_spared _ _ _ HF Hin)|]. intros [r x] Hin Hdes. rewrite Forall_forall in HF.
    specialize (HF _ Hin). by destruct r.
  - pose proof (creates_nothing_deletion _ _ _ He) as Hn. rewrite Forall_forall in Hn. apply deletion_needs_finalizer in He as Hf.
    split; [intros r x [Hin|Hin]%elem_of_app; [destruct (harmless_spared _ _ _ H1 Hin)|by apply Hn in Hin]|].
    intros [r x] [Hin|Hin]%elem_of_app Hdes; [rewrite Forall_forall in H1; specialize (H1 _ Hin); by destruct r|].
    split; [done|]. destruct Hf as [?| ->]; [done|by apply not_elem_of_nil in Hin].
  - apply creation_justified in He as [H2|(h3 & h4 & r & err & y & -> & H3 & H4 & Hr & Hcl & Hl & Hcode)]; cbn [dr_Machine dr_MachineClass] in *.
    + assert (HF : Forall harmless (h1 ++ h2)) by by apply Forall_app.
      split; [intros r x Hin; destruct (harmless_spared _ _ _ HF Hin)|]. intros [r x] Hin Hdes. rewrite Forall_forall in HF.
      specialize (HF _ Hin). by destruct r.
    + assert (HF : Forall harmless (h1 ++ h3)) by by apply Forall_app. rewrite app_assoc. split.
      * intros r' x [Hin|Hin]%elem_of_app; [destruct (harmless_spared _ _ _ HF Hin)|].
        apply elem_of_cons in Hin as [Hin|Hin]; [by apply (f_equal (@projT1 _ _)) in Hin|].
        apply elem_of_cons in Hin as [Hin|Hin]; [|destruct (harmless_spared _ _ _ H4 Hin)].
        assert (r' = r) as -> by by apply (f_equal (@projT1 _ _)) in Hin; injection Hin.
        apply event_inj in Hin as ->. rewrite Hcl, Hr. split_and!; try done. by exists (h1 ++ h3), h4, err.
      * intros [r' x] [Hin|Hin]%elem_of_app Hdes; [rewrite Forall_forall in HF; specialize (HF _ Hin); by destruct r'|].
        apply elem_of_cons in Hin as [Hin|Hin]; [apply (f_equal (@projT1 _ _)) in Hin; simpl in Hin; by subst r'|].
        apply elem_of_cons in Hin as [Hin|Hin]; [apply (f_equal (@projT1 _ _)) in Hin; simpl in Hin; by subst r'|].
        rewrite Forall_forall in H4; specialize (H4 _ Hin); by destruct r'.
Qed.

(** ** A VM is created once *)

(** The driver says that the VM of machine [n] is not there, or that it cannot tell; the driver has made the
    VM; the VM is asked to be deleted. *)
Definition vm_of (n : string) (r : DriverRequest) : Prop := m_Name (dr_Machine r) = n.
Definition status_denies (n : string) (e : event) : Prop :=
  match e with
  | existT (VMStatus r) (Err err) => vm_of n r /\ (error_code err = Some CodeNotFound \/ error_code err = Some Unimplemented)
  | _ => False
  end.
Definition vm_made (n : string) (e : event) : Prop :=
  match e with existT (VMCreate r) x => vm_of n r /\ (driver_answer x).2 = None | _ => False end.
Definition vm_unmade (n : string) (e : event) : Prop := match projT1 e with VMDelete r => vm_of n r | _ => False end.

(** A driver that does not deny a VM it has made, as long as nobody asks for its deletion. *)
Definition faithful_driver (h : history) : Prop :=
  forall n h1 e1 h2 e2 h3, h = h1 ++ e1 :: h2 ++ e2 :: h3 -> vm_made n e1 -> status_denies n e2 -> Exists (vm_unmade n) h2.

Lemma after_harmless (A B h1 h2 : history) s y e : A ++ s :: y :: B = h1 ++ e :: h2 -> Forall harmless A -> Forall harmless B ->
  harmless s -> ~ harmless e -> h1 = A ++ [s] /\ e = y.
Proof.
  intros Heq HA HB Hs He. rewrite (app_assoc A [s] (y :: B)) in Heq || (change (s :: y :: B) with ([s] ++ y :: B) in Heq; rewrite app_assoc in Heq).
  assert (HAs : Forall harmless (A ++ [s])) by (apply Forall_app; split; [done|by repeat constructor]).
  apply app_eq_inv in Heq as [(k & E1 & E2)|(k & E1 & E2)]; destruct k as [|z k].
  - rewrite app_nil_r in E1. by injection E2 as -> _.
  - injection E2 as <- _. rewrite E1, Forall_app, Forall_cons in HAs. tauto.
  - rewrite app_nil_r in E1. by injection E2 as -> _.
  - injection E2 as _ ->. rewrite Forall_app, Forall_cons in HB. tauto.
Qed.

Lemma create_preceded n m h o h1 e h2 : exec (reconcileClusterMachine c m) h o -> h = h1 ++ e :: h2 -> vm_made n e ->
  exists h0 s, h1 = h0 ++ [s] /\ status_denies n s.
Proof.
  intros He -> Hm. assert (Hh : ~ harmless e) by (destruct e as [[] ?]; simpl in *; naive_solver).
  apply reconcile_parts in He as [HF|(A & B & class & secret & o' & Heq & HA & Hc & [[Hd He]|(Hd & Hfr & Hfin & He)])].
  - rewrite Forall_app, Forall_cons in HF. tauto.
  - apply creates_nothing_deletion in He. exfalso.
    assert (Hn : Forall (fun e => match projT1 e with VMCreate _ => False | _ => True end) (A ++ B)).
    { apply Forall_app. split; [|done]. eapply Forall_impl; [exact HA|]. intros [[] ?]; simpl; done. }
    rewrite <- Heq, Forall_app, Forall_cons in Hn. destruct e as [[] ?]; simpl in *; tauto.
  - apply creation_justified in He as [H2|(h3 & h4 & r & err & y & -> & H3 & H4 & Hr & Hcl & Hl & Hcode)].
    + assert (HF : Forall harmless (A ++ B)) by by apply Forall_app. rewrite <- Heq, Forall_app, Forall_cons in HF. tauto.
    + rewrite app_assoc in Heq. symmetry in Heq. apply after_harmless in Heq as [-> ->]; [|by apply Forall_app|done|done|done].
      exists (A ++ h3), (ev (VMStatus r) (Err err)). split; [done|]. by destruct Hm.
Qed.

(** Reconciliations one after the other, of any versions of machines; their calls in order. *)
Inductive reconciliations : history -> Prop :=
  | not_yet : reconciliations []
  | then_one h m h' o : reconciliations h -> exec (reconcileClusterMachine c m) h' o -> reconciliations (h ++ h').

Lemma creates_preceded n h h1 e h2 : reconciliations h -> h = h1 ++ e :: h2 -> vm_made n e ->
  exists h0 s, h1 = h0 ++ [s] /\ status_denies n s.
Proof.
  intros Hr. revert h1 h2. induction Hr as [|h m h' o Hr IH He]; intros h1 h2 Heq Hm; [by destruct h1|].
  apply app_eq_inv in Heq as [(k & E1 & E2)|(k & E1 & E2)].
  - destruct k as [|z k].
    + rewrite app_nil_r in E1. destruct (create_preceded n _ _ _ [] e h2 He) as (h0 & s & Hn & _); [done|done|by destruct h0].
    + injection E2 as <- ->. by eapply IH.
  - destruct (create_preceded n _ _ _ k e h2 He E2 Hm) as (h0 & s & -> & Hs). exists (h ++ h0), s. by rewrite E1, app_assoc.
Qed.

(** C7: no machine gets two VMs.  However the reconciliations of a machine go (failed updates, statuses
    that were not stored, stale caches), the driver makes a second VM only after a VM deletion was asked
    for, provided that it never denies having made the first; a driver that does not implement
    GetMachineStatus is not of that kind. *)
Theorem vm_created_once n h h1 e1 h2 e2 h3 : reconciliations h -> faithful_driver h ->
  h = h1 ++ e1 :: h2 ++ e2 :: h3 -> vm_made n e1 -> vm_made n e2 -> Exists (vm_unmade n) h2.
Proof.
  intros Hr Hf -> H1 H2. destruct (creates_preceded n _ (h1 ++ e1 :: h2) e2 h3 Hr) as (h0 & s & Heq & Hs); [by rewrite <- app_assoc|done|].
  destruct h2 as [|z h2 _] using rev_ind.
  - apply app_inj_tail in Heq as [_ ->]. by destruct s as [[] ?].
  - rewrite app_comm_cons, app_assoc in Heq. apply app_inj_tail in Heq as [_ ->]. apply Exists_app. left.
    eapply (Hf n h1 e1 h2 s (e2 :: h3)); [by rewrite <- app_assoc|done|done].
Qed.

(** ** Creation comes to an end *)

(** Answers of a world in which writes succeed and the driver knows, or makes, the VM with the ID [p] and
    the node [n]. *)
Definition vm_answers (n p : string) (e : event) : Prop :=
  match e with
  | existT (UpdateStatusMachine _) x => is_Some (match x with Ok m => Some m | Err _ => None end)
  | existT (UpdateMachine _) x => is_Some (match x with Ok m => Some m | Err _ => None end)
  | existT (VMStatus _) (Ok resp) => resp = Some (mkStatusResponse p n)
  | existT (VMStatus _) (Err err) => error_code err = Some CodeNotFound \/ error_code err = Some Unimplemented
  | existT (VMCreate _) x => exists k, x = Ok (Some (mkCreateResponse p n k), None)
  | _ => True
  end.
Definition asks_driver (e : event) : Prop := match projT1 e with VMStatus _ => True | _ => False end.

(** A reconciliation in that world that got the bootstrap token and so went on to the driver. *)
Inductive creation_run (n p : string) : Machine -> Machine -> Prop :=
  | one_creation_run m class secret h o :
      exec (triggerCreationFlow c (mkDriverRequest m class secret)) h o -> Forall (vm_answers n p) h -> Exists asks_driver h ->
      creation_run n p m (stored m h).

Definition unasked (e : event) : Prop :=
  match projT1 e with VMStatus _ | UpdateStatusMachine _ | UpdateMachine _ => False | _ => True end.

Lemma unasked_bootstrap name secret : emits unasked (addBootstrapTokenToUserData c name secret).
Proof.
  assert (Hg : forall n s, emits unasked (generateRandomStringFromCharset n s)).
  { intros n s. induction n as [|n IH]; simpl; emits_all; try done. }
  unfold addBootstrapTokenToUserData, getBootstrapTokenOrCreateIfNotExist. emits_all; try done.
Qed.

Lemma unasked_asks h : Forall unasked h -> ~ Exists asks_driver h.
Proof. intros HF [e [Hin He]]%Exists_exists. rewrite Forall_forall in HF. specialize (HF _ Hin). by destruct e as [[] ?]. Qed.

Lemma unasked_stored m h1 h2 : Forall unasked h1 -> stored m (h1 ++ h2) = stored m h2.
Proof.
  intros HF. unfold stored. rewrite foldl_app. f_equal. apply stored_quiet. eapply Forall_impl; [exact HF|]. intros [[] ?]; simpl; done.
Qed.

(** Where the driver's answers lead: to the VM's node and ID, or to the node of the label and no ID. *)
Lemma locate_answers n p request h o : exec (locate_vm c request) h o -> Forall (vm_answers n p) h ->
  exists n' q, o = Return (inr (n', q)) /\ (forall m h2, stored m (h ++ h2) = stored m h2) /\
    (n' = n /\ q = p \/ Labels (m_Meta (dr_Machine request)) !! "node" = Some n' /\ q = EmptyString).
Proof.
  intros (x & h' & -> & He) HF. cbn [bind] in He. apply Forall_cons in HF as [Hx HF]. destruct x as [resp|err]; simpl in Hx.
  - subst resp. destruct He as [-> ->]. exists n, p. split_and!; auto.
  - assert (Hc : exists code, error_code err = Some code /\ bool_decide (code ∈ [CodeNotFound; Unimplemented]) = true).
    { destruct Hx as [-> | ->]; eexists; (split; [done|]); rewrite bool_decide_true; [done|set_solver|done|set_solver]. }
    destruct Hc as (code & Ec & Hb). rewrite Ec, Hb in He. destruct (Labels _ !! "node") as [n'|] eqn:El.
    + destruct He as [-> ->]. exists n', EmptyString. split_and!; auto.
    + destruct He as (x & h'' & -> & He). apply Forall_cons in HF as [[k ->] _]. destruct He as [-> ->].
      exists n, p. split_and!; auto.
Qed.

Lemma creation_run_record n p m m' : creation_run n p m m' ->
  exists n' q h o, (n' = n /\ q = p \/ Labels (m_Meta m) !! "node" = Some n' /\ q = EmptyString) /\
    exec (record_vm m n' q) h o /\ Forall (vm_answers n p) h /\ m' = stored m h.
Proof.
  intros Hr. destruct Hr as [m class secret h o He HF Hask]. unfold triggerCreationFlow in He. cbv zeta in He.
  assert (Hb : emits unasked (attempt (addBootstrapTokenToUserData c (m_Name (dr_Machine (mkDriverRequest m class secret))) secret))).
  { apply emits_attempt, unasked_bootstrap. }
  apply exec_bind in He as [(h1 & [secret'|err] & h2 & -> & E1 & He)|(o' & E1 & _)]; apply Hb in E1 as Hu.
  - apply Forall_app in HF as [_ HF].
    apply exec_bind in He as [(h3 & vm & h4 & -> & E2 & He)|(o' & E2 & Hf & _)].
    + apply Forall_app in HF as [HF3 HF4]. apply locate_answers with (n := n) (p := p) in E2 as (n' & q & [= ->] & Hs & Hq); [|done].
      exists n', q, h4, o. split_and!; try done. rewrite unasked_stored by done. apply Hs.
    + by apply locate_answers with (n := n) (p := p) in E2 as (n' & q & -> & _).
  - destruct He as [-> _]. rewrite app_nil_r in Hask. by apply unasked_asks in Hu.
  - by apply unasked_asks in Hu.
Qed.

(** The machine knows its node and VM. *)
Definition recorded (n p : string) (m : Machine) : Prop :=
  Labels (m_Meta m) !! "node" = Some n /\ is_Some (Annotations (m_Meta m) !! MachinePriority) /\ sp_ProviderID (m_Spec m) = p.

Lemma record_first n p m m' : Labels (m_Meta m) !! "node" = None -> creation_run n p m m' ->
  recorded n p m' /\ m_Status m' = m_Status m.
Proof.
  intros Hl (n' & q & h & o & Hq & He & HF & ->)%creation_run_record. destruct Hq as [[-> ->]|[Hq _]]; [|congruence].
  unfold record_vm in He. rewrite Hl in He. destruct He as (x & h' & -> & -> & _). apply Forall_cons in HF as [[y Hx] _].
  destruct x as [z|]; [|done]. clear Hx y. split; [|done]. unfold recorded. simpl. rewrite lookup_insert_eq. split_and!; [done| |done].
  case_bool_decide as Ha; [rewrite lookup_insert_eq; eauto|]. unfold mget in Ha. destruct (_ !! MachinePriority); [eauto|done].
Qed.

Lemma recorded_run n p m m' : recorded n p m -> p <> EmptyString -> creation_run n p m m' ->
  m' = m /\ st_Node (m_Status m) = n /\ m_Phase m <> EmptyString \/
  recorded n p m' /\ st_Node (m_Status m') = n /\ m_Phase m' = MachinePending.
Proof.
  intros (Hl & Ha & Hp) Hne (n' & q & h & o & Hq & He & HF & ->)%creation_run_record.
  assert (n' = n) as -> by (destruct Hq as [[-> _]|[Hq _]]; congruence). clear Hq. unfold record_vm in He.
  rewrite (bool_decide_true (is_Some (Labels _ !! _))), (bool_decide_true (is_Some (Annotations _ !! _))), (bool_decide_false (sp_ProviderID _ = _)) in He
    by (congruence || eauto). cbn [negb orb] in He.
  destruct (_ || _) eqn:Eb.
  - right. destruct He as (x1 & h1 & -> & x2 & h2 & -> & x & h' & -> & -> & _). rewrite !Forall_cons in HF.
    destruct HF as (_ & _ & [y Hx] & _). destruct x; [|done]. by split_and!.
  - left. destruct He as [-> _]. apply orb_false_iff in Eb as [E1 E2]. apply negb_false_iff, bool_decide_eq_true in E1.
    by apply bool_decide_eq_false in E2.
Qed.

(** C12: creation comes to an end.  In a world where writes succeed and the driver finds or makes the VM,
    whichever it answers at each time, two reconciliations of a new machine record the node and the ID of
    the VM and put the machine into the phase Pending; from then on the flow changes nothing. *)
Theorem creation_completes n p m0 m1 m2 m3 : Labels (m_Meta m0) !! "node" = None -> m_Phase m0 = EmptyString -> p <> EmptyString ->
  creation_run n p m0 m1 -> creation_run n p m1 m2 -> creation_run n p m2 m3 ->
  recorded n p m2 /\ st_Node (m_Status m2) = n /\ m_Phase m2 = MachinePending /\ m3 = m2.
Proof.
  intros Hl Hph Hp H1 H2 H3. apply record_first in H1 as [Hr1 Hs1]; [|done].
  assert (Hr2 : recorded n p m2 /\ st_Node (m_Status m2) = n /\ m_Phase m2 = MachinePending).
  { apply recorded_run in H2 as [(-> & _ & Hne)|?]; [|done..]. unfold m_Phase in Hne, Hph. by rewrite Hs1 in Hne. }
  destruct Hr2 as (Hr2 & Hn2 & Hp2). split_and!; [done..|]. apply creation_run_record in H3 as (n' & q & h & o & Hq & He & HF & ->).
  destruct Hr2 as (Hl2 & Ha2 & Hpid). assert (n' = n) as -> by (destruct Hq as [[-> _]|[Hq _]]; congruence).
  unfold record_vm in He. rewrite (bool_decide_true (is_Some (Labels _ !! _))), (bool_decide_true (is_Some (Annotations _ !! _))),
    (bool_decide_false (sp_ProviderID _ = _)), (bool_decide_true (st_Node _ = _)), (bool_decide_false (m_Phase _ = _)) in He
    by (rewrite ?Hp2; congruence || eauto). by destruct He as [-> _].
Qed.
End guards.

(** ** Nodes and their machines *)

(** A node event reaches the one machine whose label names the node; none or several are an error.
    A node name that is not a label value (node names may have up to 253 bytes, label values 63) is a nil
    dereference, because the error of the label requirement is dropped. *)
Theorem getMachineFromNode_spec nodeName h o : exec (getMachineFromNode nodeName) h o ->
  if IsValidLabelValue nodeName then
    exists x, h = [ev ListerMachines x] /\
      match filter (fun m => Labels (m_Meta m) !! "node" = Some nodeName) (match x with Ok l => l | Err _ => [] end) with
      | [] => o = Return (Err errNoMachineMatch)
      | [m] => o = Return (Ok m)
      | _ => o = Return (Err errMultipleMachineMatch)
      end
  else h = [] /\ o = Panic.
Proof.
  unfold getMachineFromNode, NewRequirement. change (IsQualifiedName "node") with true. cbn [negb length forallb].
  rewrite (bool_decide_true (1 = 1)%nat), andb_true_r by done. cbn [andb]. destruct (IsValidLabelValue nodeName); [|done].
  intros (x & h' & -> & He). exists x. cbn [bind] in He.
  assert (Hf : forall l : list Machine, filter (fun m => sel_Matches (InternalSelector [mkReq "node" OEquals [nodeName]]) (Labels (m_Meta m)) = true) l =
    filter (fun m => Labels (m_Meta m) !! "node" = Some nodeName) l).
  { intros l. apply list_filter_iff. intros m. simpl. rewrite andb_true_r. unfold req_matches. simpl.
    destruct (Labels (m_Meta m) !! "node"); [|done]. rewrite bool_decide_eq_true. set_solver. }
  destruct x as [l|err]; cbn [answer] in *; [rewrite Hf in He; destruct He as [-> ->]; by destruct (filter _ l) as [|m [|m' ms]]|].
  by destruct He as [-> ->].
Qed.

(** ** A world with one VM *)

(** A new machine with the finalizer. *)
Definition new_machine : Machine :=
  mkMachine (mkMeta "machine-1" "" "shoot" "u1" "1" 1 1000 None ∅ ∅ [] [MCMFinalizerName]) (tp_Spec sample_template)
    (mkMachineStatus "" [] zero_last_op (mkCurStatus "" false 0) "").

(** The same machine on its way out, after its node was drained. *)
Definition leaving_machine : Machine :=
  mkMachine (mkMeta "machine-1" "" "shoot" "u1" "1" 1 1000 (Some 2000) {[ "node" := "ip-10-250-7-1" ]} ∅ [] [MCMFinalizerName])
    (tp_Spec sample_template)
    (mkMachineStatus "ip-10-250-7-1" [] (mkLastOp InitiateVMDeletion 0 MachineStateProcessing MachineOperationDelete)
      (mkCurStatus MachineTerminating false 0) "").

(** The state is whether the VM exists. *)
Definition vm_world (r : req) (w : bool) : bool * result (answer r) :=
  (match r with VMCreate _ => true | VMDelete _ => false | _ => w end,
   match r return result (answer r) with
   | Now => Ok 5000
   | UpdateStatusMachine m | UpdateMachine m => Ok m
   | ListerGetMachineClass _ _ => Ok (sample_class [MCMFinalizerName] (Some (mkSecretRef "cred" "shoot")))
   | ListerGetSecret _ _ => Ok (sample_secret "cred" {[ "userData" := "#cloud" ]})
   | GetTargetSecret _ _ => Ok (sample_secret "bootstrap-token-68696e" {[ "token-id" := "68696e" ]})
   | VMStatus _ => if w then Ok (Some (mkStatusResponse "aws:///i-1" "ip-10-250-7-1")) else Err (Error CodeNotFound "machine not found")
   | VMCreate _ => Ok (Some (mkCreateResponse "aws:///i-1" "ip-10-250-7-1" ""), None)
   | VMDelete _ => Ok (Some (mkDeleteResponse ""), None)
   | ListerMachines => Ok [sample_machine "m1" MachineRunning; leaving_machine]
   | _ => Err (Errorf "unexpected")
   end).

#[local] Existing Instance sample_Encoders.

Abbreviation reconciled m w := (run vm_world (reconcileClusterMachine sample_controller m) w).

Lemma machine_reconcile_guards_witness : exists r x, ev (VMCreate r) x ∈ (reconciled new_machine false).1.2 /\
  has_finalizer MCMFinalizerName (m_Meta (dr_Machine r)) = true /\ class_ready new_machine (dr_MachineClass r).
Proof.
  destruct (machine_reconcile_guards sample_controller _ _ _ (run_exec vm_world (reconcileClusterMachine sample_controller new_machine) false)) as [Hg _].
  assert (Hin : exists r x, ev (VMCreate r) x ∈ (reconciled new_machine false).1.2).
  { do 2 eexists. vm_compute. do 4 right. left. }
  destruct Hin as (r & x & Hin). exists r, x. destruct (Hg r x Hin) as (-> & Hc & _ & _ & Hf & _). done.
Defined.

(** A check of [faithful_driver]. *)
Definition made_name (e : event) : option string :=
  match e with existT (VMCreate r) x => match (driver_answer x).2 with None => Some (m_Name (dr_Machine r)) | Some _ => None end | _ => None end.
Fixpoint guarded (n : string) (h : history) : bool :=
  match h with
  | [] => true
  | existT (VMDelete r) _ :: h => bool_decide (m_Name (dr_Machine r) = n) || guarded n h
  | existT (VMStatus r) (Err _) :: h => negb (bool_decide (m_Name (dr_Machine r) = n)) && guarded n h
  | _ :: h => guarded n h
  end.
Fixpoint faithful_check (h : history) : bool :=
  match h with [] => true | e :: h => match made_name e with Some n => guarded n h | None => true end && faithful_check h end.

Lemma guarded_sound n h : guarded n h = true -> forall h2 e2 h3, h = h2 ++ e2 :: h3 -> status_denies n e2 -> Exists (vm_unmade n) h2.
Proof.
  induction h as [|e h IH]; intros Hg h2 e2 h3 Heq Hd; [by destruct h2|]. destruct h2 as [|z h2]; injection Heq as -> ->.
  - destruct e2 as [[] [?|?]]; simpl in *; try done. destruct Hd as [Hv _]. unfold vm_of in Hv. by rewrite bool_decide_true in Hg.
  - assert (Hc : vm_unmade n z \/ guarded n (h2 ++ e2 :: h3) = true).
    { destruct z as [[] y]; simpl in Hg |- *; try by right.
      - right. destruct y; [done|]. by apply andb_true_iff in Hg as [_ ?].
      - apply orb_true_iff in Hg as [Hg%bool_decide_eq_true|?]; [by left|by right]. }
    destruct Hc as [?|Hc]; [by left|right]. by eapply IH.
Qed.

Lemma faithful_sound h : faithful_check h = true -> faithful_driver h.
Proof.
  intros Hc n h1. revert h Hc. induction h1 as [|z h1 IH]; intros h Hc e1 h2 e2 h3 -> Hm Hd; simpl in Hc; apply andb_true_iff in Hc as [H1 H2].
  - assert (Hn : made_name e1 = Some n).
    { destruct e1 as [[] ?]; simpl in *; try done. destruct Hm as [Hv ->]. by rewrite Hv. }
    rewrite Hn in H1. by eapply guarded_sound.
  - by eapply IH.
Qed.

Lemma three_reconciliations c m1 m2 m3 h1 h2 h3 o1 o2 o3 :
  exec (reconcileClusterMachine c m1) h1 o1 -> exec (reconcileClusterMachine c m2) h2 o2 -> exec (reconcileClusterMachine c m3) h3 o3 ->
  reconciliations c (h1 ++ h2 ++ h3).
Proof.
  intros H1 H2 H3. rewrite app_assoc. eapply then_one; [|exact H3]. eapply then_one; [|exact H2].
  change h1 with ([] ++ h1). eapply then_one; [constructor|exact H1].
Qed.

(** The VM is made, deleted and made again. *)
Lemma vm_created_once_witness :
  let h := (reconciled new_machine false).1.2 ++ (reconciled leaving_machine true).1.2 ++ (reconciled new_machine false).1.2 in
  exists h1 e1 h2 e2 h3, h = h1 ++ e1 :: h2 ++ e2 :: h3 /\ vm_made "machine-1" e1 /\ vm_made "machine-1" e2 /\ Exists (vm_unmade "machine-1") h2.
Proof.
  intros h.
  assert (Hh : exists h1 e1 h2 e2 h3, h = h1 ++ e1 :: h2 ++ e2 :: h3 /\ vm_made "machine-1" e1 /\ vm_made "machine-1" e2).
  { eexists (take 4 h), _, (take 12 (drop 5 h)), _, (drop 18 h). split; [vm_compute; reflexivity|]. done. }
  destruct Hh as (h1 & e1 & h2 & e2 & h3 & Heq & H1 & H2). exists h1, e1, h2, e2, h3. split_and!; [done..|].
  apply (vm_created_once sample_controller "machine-1" h h1 e1 h2 e2 h3); [|by apply faithful_sound; vm_compute|done..].
  eapply three_reconciliations; apply run_exec.
Defined.


Definition creation_request (m : Machine) : DriverRequest := mkDriverRequest m None {[ "userData" := "#cloud" ]}.
Abbreviation creation_history m w := (run vm_world (triggerCreationFlow sample_controller (creation_request m)) w).1.2.
Definition created_1 : Machine := stored new_machine (creation_history new_machine false).
Definition created_2 : Machine := stored created_1 (creation_history created_1 true).
Definition created_3 : Machine := stored created_2 (creation_history created_2 true).

Lemma creation_step m w : Exists asks_driver (creation_history m w) ->
  creation_run sample_controller "ip-10-250-7-1" "aws:///i-1" m (stored m (creation_history m w)).
Proof.
  apply (one_creation_run _ _ _ m None {[ "userData" := "#cloud" ]} _ _ (run_exec vm_world _ w)).
  apply run_events. intros [] []; simpl; eauto.
Qed.

Lemma creation_asks : Forall (fun mw => Exists asks_driver (creation_history mw.1 mw.2))
  [(new_machine, false); (created_1, true); (created_2, true)].
Proof.
  repeat (apply Forall_cons; split; [apply Exists_exists; eexists; split; [vm_compute; right; left|exact I]|]). apply Forall_nil. exact I.
Qed.

(** Three reconciliations of a new machine: the VM is made, then found twice. *)
Lemma creation_completes_witness : m_Phase created_2 = MachinePending /\ created_3 = created_2.
Proof.
  pose proof creation_asks as Ha. rewrite !Forall_cons in Ha. destruct Ha as (H1 & H2 & H3 & _).
  destruct (creation_completes sample_controller "ip-10-250-7-1" "aws:///i-1" new_machine created_1 created_2 created_3)
    as (_ & _ & Hp & Heq); [reflexivity|reflexivity|discriminate|exact (creation_step _ _ H1)|exact (creation_step _ _ H2)|
    exact (creation_step _ _ H3)|exact (conj Hp Heq)].
Defined.

(** A node with a name of 64 bytes. *)
Lemma getMachineFromNode_spec_witness :
  let name := "ip-10-250-7-1.a-long-name-of-a-region.compute.internal.example.o" in
  forall o, exec (getMachineFromNode name) [] o -> o = Panic.
Proof. intros name o He. apply getMachineFromNode_spec in He. vm_compute in He. by destruct He. Defined.
