(* ===== verification/MachineSafety.v ===== *)
(** * Safety controllers (pkg/util/provider/machinecontroller: machine_safety.go, machine_safety_util.go)

    One controller deletes VMs that no machine owns and marks nodes that no machine owns; the other one
    freezes the machine controller while an API server cannot be reached. *)
From Stdlib Require Import ZArith Lia Ascii String.
From stdpp Require Import base gmap strings list relations.
From S2P Require Import Prelude GoLib Types Labels Prog Samples NodeOps MachineCodes NodeTemplate MachineClasses MachineUtil MachineDeletion MachineController.
Open Scope Z_scope.

(** ** Changes of the controller *)

Definition so_set_freeze (frozen : bool) (start : Z) (o : SafetyOptions) : SafetyOptions :=
  mkSafetyOptions (so_MachineCreationTimeout o) (so_MachineHealthTimeout o) (so_MachineDrainTimeout o) (so_MaxEvictRetries o)
    (so_PvDetachTimeout o) (so_PvReattachTimeout o) (so_APIServerStatusCheckTimeout o) (so_OrphanVMsPeriod o)
    (so_APIServerStatusCheckPeriod o) start frozen.
Definition c_set_freeze (frozen : bool) (start : Z) (c : controller) : controller :=
  mkController (c_namespace c) (so_set_freeze frozen start (c_safetyOptions c)) (c_nodeConditions c) (c_bootstrapTokenAuthExtraGroups c).
Abbreviation frozen c := (so_MachineControllerFrozen (c_safetyOptions c)).
Abbreviation down_since c := (so_APIserverInactiveStartTime (c_safetyOptions c)).

(** ** Freezing *)

(** A dummy request that fails with anything but "not found". *)
Definition unreachable {A} (r : result A) : bool := match r with Ok _ => false | Err err => negb (IsNotFound err) end.

Definition isAPIServerUp (c : controller) : prog bool :=
  let! m := call_try (GetMachine (c_namespace c) "dummy_name") in
  if unreachable m then Ret false
  else
    let! n := call_try (GetNode "dummy_name" false) in
    Ret (negb (unreachable n)).

Definition reset_status (t1 t2 : Z) (machine : Machine) : Machine :=
  m_set_Status (st_set_LastOperation (mkLastOp "Machine Health Timeout was reset due to APIServer being unreachable" t2
      MachineStateSuccessful MachineOperationHealthCheck)
    (st_set_CurrentStatus (mkCurStatus MachineRunning false t1) (m_Status machine))) machine.

(** The body of the loop over the cached machines. *)
Definition reset_machine (c : controller) (machine : Machine) : prog unit :=
  do! (if bool_decide (m_Phase machine = MachineUnknown) then
         let! fresh := call (GetMachine (c_namespace c) (m_Name machine)) in
         let! t1 := now in
         let! t2 := now in
         do! call (UpdateStatusMachine (reset_status t1 t2 fresh)) in Ret tt
       else Ret tt) in
  enqueueMachineAfter machine (30 * Second).

(** The returned controller is the changed one; an error leaves it as it is. *)
Definition reconcileClusterMachineSafetyAPIServer (c : controller) : prog controller :=
  let statusCheckTimeout := so_APIServerStatusCheckTimeout (c_safetyOptions c) in
  let statusCheckPeriod := so_APIServerStatusCheckPeriod (c_safetyOptions c) in
  if frozen c then
    let! up := isAPIServerUp c in
    let! c' :=
      (if (up : bool) then
         let! machines := call ListerMachines in
         do! for_each machines (reset_machine c) in
         Ret (c_set_freeze false zero_time c)
       else Ret c) in
    do! call_ignore (EnqueueSafetyAPIServer statusCheckPeriod) in
    Ret c'
  else
    let! up := isAPIServerUp c in
    if (up : bool) then
      do! call_ignore (EnqueueSafetyAPIServer statusCheckPeriod) in
      Ret c
    else
      let! start := (if bool_decide (down_since c = zero_time) then now else Ret (down_since c)) in
      let! t := now in
      do! call_ignore (EnqueueSafetyAPIServer (Z.quot statusCheckTimeout 5)) in
      Ret (c_set_freeze (statusCheckTimeout <? t - start) start c).

(** ** Nodes without a machine *)

Definition updateNodeWithAnnotation (node : Node) (annotations : strmap) : prog (option error) :=
  let! r := call_try (UpdateNode (n_set_Annotations (annotations ∪ n_Annotations node) node)) in
  Ret (match r with Err err => Some err | Ok _ => None end).

Section orphans.
Variable c : controller.

Fixpoint annotate_nodes (nodes : list Node) : prog (RetryPeriod * option error) :=
  match nodes with
  | [] => Ret (LongRetry, None)
  | node :: nodes =>
      let! r := getMachineFromNode (Name (n_Meta node)) in
      match r with
      | Ok _ => annotate_nodes nodes
      | Err err =>
          if bool_decide (err = errNoMachineMatch) then
            let! t := now in
            if negb (CreationTimestamp (n_Meta node) <? t + so_MachineCreationTimeout (c_safetyOptions c) * -1) then annotate_nodes nodes
            else if bool_decide (is_Some (n_Annotations node !! NotManagedByMCM)) then annotate_nodes nodes
            else
              let! e := updateNodeWithAnnotation node {[ NotManagedByMCM := "1" ]} in
              match e with
              | Some err => Ret (MediumRetry, Some err)
              | None => annotate_nodes nodes
              end
          else annotate_nodes nodes
      end
  end.

Definition AnnotateNodesUnmanagedByMCM : prog (RetryPeriod * option error) :=
  let! r := call_try ListerNodes in
  match r with
  | Err err => Ret (LongRetry, Some err)
  | Ok nodes => annotate_nodes nodes
  end.

(** ** VMs without a machine *)

(** The machine made up for the request to delete a VM. *)
Definition dummy_machine (machineID machineName : string) : Machine :=
  mkMachine (mkMeta machineName "" "" "" "" 0 zero_time None ∅ ∅ [] []) (mkMachineSpec zero_class machineID zero_node_template None) zero_machine_status.

(** What the cache says about the machine makes its VM an orphan. *)
Definition orphan (machineID : string) (r : result Machine) : bool :=
  match r with
  | Err err => IsNotFound err
  | Ok machine =>
      negb (bool_decide (sp_ProviderID (m_Spec machine) = machineID)) &&
      negb (bool_decide (m_Phase machine = EmptyString) || bool_decide (m_Phase machine = MachineCrashLoopBackOff))
  end.

Definition check_vm (machineClass : MachineClass) (secretData : strmap) (vm : string * string) : prog unit :=
  let '(machineID, machineName) := vm in
  let! r := call_try (ListerGetMachine (c_namespace c) machineName) in
  if orphan machineID r
  then call_ignore (VMDelete (mkDriverRequest (dummy_machine machineID machineName) (Some machineClass) secretData))
  else Ret tt.

(** A range over the map takes its entries in any order. *)
Variable range : strmap -> list (string * string).

Definition checkMachineClass (machineClass : MachineClass) : prog (RetryPeriod * option error) :=
  let! s := attempt (getSecretData [mc_SecretRef machineClass; mc_CredentialsSecretRef machineClass]) in
  match s with
  | Err err => Ret (LongRetry, Some err)
  | Ok secretData =>
      let! r := call_try (VMList machineClass secretData) in
      match r with
      | Err err => Ret (LongRetry, Some err)
      | Ok resp =>
          let! machineList := deref resp in
          let! synced :=
            (if (1 <? size machineList)%nat then Call WaitForCacheSync (fun x => Ret (match x with Ok b => b | Err _ => false end))
             else Ret true) in
          (* the error that is returned with the retry period is the nil error of the call before *)
          if negb synced then Ret (ShortRetry, None)
          else
            do! for_each (range machineList) (check_vm machineClass secretData) in
            Ret (LongRetry, None)
      end
  end.

Fixpoint check_classes (classes : list MachineClass) : prog (RetryPeriod * option error) :=
  match classes with
  | [] => Ret (LongRetry, None)
  | machineClass :: classes =>
      let! r := checkMachineClass machineClass in
      match r with
      | (retry, Some err) => Ret (retry, Some err)
      | (_, None) => check_classes classes
      end
  end.

Definition checkMachineClasses : prog (RetryPeriod * option error) :=
  let! r := call_try ListerMachineClasses in
  match r with
  | Err err => Ret (LongRetry, Some err)
  | Ok classes => check_classes classes
  end.

(** An error only brings the next run forward. *)
Definition reconcileClusterMachineSafetyOrphanVMs : prog unit :=
  let again (r : RetryPeriod * option error) :=
    match r with (retryPeriod, Some _) => call_ignore (EnqueueSafetyOrphanVMs retryPeriod) | (_, None) => Ret tt end in
  defer (call_ignore (EnqueueSafetyOrphanVMs (so_OrphanVMsPeriod (c_safetyOptions c))))
    (let! r := checkMachineClasses in
     do! again r in
     let! r := AnnotateNodesUnmanagedByMCM in
     again r).

Definition enqueueMachineSafetyOrphanVMsKey : prog unit := call_ignore (EnqueueSafetyOrphanVMs 0).
Definition deleteMachineToSafety (machine : Machine) : prog unit := enqueueMachineSafetyOrphanVMsKey.
End orphans.

(** ** Freezing, as a state machine *)

(** Frozen or not, and the time the API servers were first found unreachable. *)
Record freeze_state := mkFreeze { fs_frozen : bool; fs_since : Z }.
Definition freeze_of (c : controller) : freeze_state := mkFreeze (frozen c) (down_since c).

(** The specification of one check: [up] is what the check finds, [t0] and [t] the times it reads. *)
Definition freeze_next (timeout : Z) (up : bool) (t0 t : Z) (s : freeze_state) : freeze_state :=
  match fs_frozen s, up with
  | true, true => mkFreeze false zero_time
  | true, false | false, true => s
  | false, false =>
      let since := if bool_decide (fs_since s = zero_time) then t0 else fs_since s in
      mkFreeze (timeout <? t - since) since
  end.

(** What a check finds, read off its first calls: the control API server is asked for a machine, and if
    that works the target one for a node; and the calls after these. *)
Definition probe (ns : string) (h : history) : option (bool * history) :=
  match h with
  | existT (GetMachine ns' "dummy_name") x :: h =>
      if negb (bool_decide (ns' = ns)) then None
      else if unreachable x then Some (false, h)
      else match h with existT (GetNode "dummy_name" false) y :: h => Some (negb (unreachable y), h) | _ => None end
  | _ => None
  end.
Definition safety_enqueues (h : history) : list Z :=
  omap (fun r => match r with EnqueueSafetyAPIServer after => Some after | _ => None end) (projT1 <$> h).

(** The machine controller's state but for freezing. *)
Definition same_but_freeze (c c' : controller) : Prop := c' = c_set_freeze (frozen c') (down_since c') c.

Lemma exec_isAPIServerUp c h up : exec (isAPIServerUp c) h (Return up) ->
  safety_enqueues h = [] /\ forall h', probe (c_namespace c) (h ++ h') = Some (up, h').
Proof.
  intros (x & h1 & -> & He). cbn [bind call_try] in He. cbn [probe app]. rewrite bool_decide_true by done. cbn [negb].
  destruct (unreachable x).
  - by destruct He as [-> [= ->]].
  - by destruct He as (y & h2 & -> & -> & [= ->]).
Qed.

Definition clock_answers (h : history) : list Z :=
  omap (fun e : event => match e with existT Now x => Some (clock_answer x) | _ => None end) h.

(** A check that finds the API servers up, and one that does not, at the time [t]. *)
Definition up_check (c c' : controller) : Prop :=
  exists h1 h2, exec (isAPIServerUp c) h1 (Return true) /\ exec (reconcileClusterMachineSafetyAPIServer c) (h1 ++ h2) (Return c').
Definition down_check (t : Z) (c c' : controller) : Prop :=
  exists h1 h2, exec (isAPIServerUp c) h1 (Return false) /\ exec (reconcileClusterMachineSafetyAPIServer c) (h1 ++ h2) (Return c') /\
    last (clock_answers h2) = Some t.

Lemma exec_resume c h c' :
  exec (let! machines := call ListerMachines in do! for_each machines (reset_machine c) in Ret (c_set_freeze false zero_time c)) h (Return c') ->
  exists ms h', h = ev ListerMachines (Ok ms) :: h' /\ exec (for_each ms (reset_machine c)) h' (Return tt) /\ c' = c_set_freeze false zero_time c.
Proof.
  intros (x & h' & -> & He). destruct x as [ms|e]; cbn [bind] in He; [|by destruct He].
  apply exec_bind_ret in He as (h1 & [] & h2 & -> & E1 & -> & [= ->]). exists ms, h1. by rewrite app_nil_r.
Qed.

(** When the next check is due. *)
Definition check_period (c : controller) (up : bool) : Z :=
  if frozen c || up then so_APIServerStatusCheckPeriod (c_safetyOptions c) else Z.quot (so_APIServerStatusCheckTimeout (c_safetyOptions c)) 5.

Lemma safety_enqueues_app h1 h2 : safety_enqueues (h1 ++ h2) = safety_enqueues h1 ++ safety_enqueues h2.
Proof. unfold safety_enqueues. by rewrite fmap_app, omap_app. Qed.

Lemma safety_enqueues_none h : Forall (fun e : event => match projT1 e with EnqueueSafetyAPIServer _ => False | _ => True end) h ->
  safety_enqueues h = [].
Proof. induction 1 as [|[r x] h Hr _ IH]; [done|]. unfold safety_enqueues in *. csimpl. rewrite IH. by destruct r. Qed.

Lemma check_parts c h c' : exec (reconcileClusterMachineSafetyAPIServer c) h (Return c') ->
  exists up h1 h2 t0 t, h = h1 ++ h2 /\ exec (isAPIServerUp c) h1 (Return up) /\
    freeze_of c' = freeze_next (so_APIServerStatusCheckTimeout (c_safetyOptions c)) up t0 t (freeze_of c) /\
    same_but_freeze c c' /\
    safety_enqueues h2 = [check_period c up] /\
    (up = true -> frozen c = true -> exists ms h3 h4, h2 = ev ListerMachines (Ok ms) :: h3 ++ h4 /\ exec (for_each ms (reset_machine c)) h3 (Return tt)) /\
    (up = false -> frozen c = false -> clock_answers h2 = if bool_decide (down_since c = zero_time) then [t0; t] else [t]).
Proof.
  unfold reconcileClusterMachineSafetyAPIServer. cbv zeta.
  assert (Hc : c = c_set_freeze (frozen c) (down_since c) c) by (by destruct c as [? [] ? ?]).
  assert (Hres : emits (fun e : event => match projT1 e with EnqueueSafetyAPIServer _ => False | _ => True end)
    (let! machines := call ListerMachines in do! for_each machines (reset_machine c) in Ret (c_set_freeze false zero_time c))).
  { unfold reset_machine, enqueueMachineAfter. by emits_all. }
  unfold check_period. destruct (frozen c) eqn:Ef; intros (h1 & up & h2 & -> & E1 & He)%exec_bind_ret; exists up, h1, h2; cbn [orb].
  - apply exec_bind_ret in He as (h3 & c1 & h4 & -> & E2 & (x & h5 & -> & -> & [= ->])). exists 0, 0. split_and!; [done|done| | | | |done].
    + unfold freeze_next, freeze_of. destruct up; cbn [fs_frozen]; rewrite Ef; [|by destruct E2 as [_ [= ->]]; rewrite Ef].
      by apply exec_resume in E2 as (ms & h' & -> & _ & ->).
    + unfold same_but_freeze. destruct up; [|by destruct E2 as [_ [= ->]]; rewrite Ef].
      by apply exec_resume in E2 as (ms & h' & -> & _ & ->).
    + rewrite safety_enqueues_app, safety_enqueues_none; [done|]. destruct up; [by eapply Hres|by destruct E2 as [-> _]].
    + intros -> _. apply exec_resume in E2 as (ms & h' & -> & E2 & _).
      by exists ms, h', [ev (EnqueueSafetyAPIServer (so_APIServerStatusCheckPeriod (c_safetyOptions c))) x].
  - destruct up.
    + destruct He as (x & h3 & -> & -> & [= ->]). exists 0, 0. split_and!; try done; [|by unfold same_but_freeze; rewrite Ef].
      unfold freeze_next, freeze_of. cbn [fs_frozen]. by rewrite Ef.
    + apply exec_bind_ret in He as (h3 & start & h4 & -> & E2 & (y & h5 & -> & z & h6 & -> & -> & [= ->])).
      unfold freeze_next, freeze_of, same_but_freeze. cbn [fs_frozen fs_since]. rewrite Ef.
      case_bool_decide as Hz.
      * destruct E2 as (x & h7 & -> & -> & [= ->]). exists (clock_answer x), (clock_answer y). by split_and!.
      * destruct E2 as [-> [= ->]]. exists 0, (clock_answer y). by split_and!.
Qed.

(** The check makes the calls of [isAPIServerUp] first. *)
Lemma exec_up_unique c h1 h2 h3 h4 b1 b2 : h1 ++ h2 = h3 ++ h4 -> exec (isAPIServerUp c) h1 (Return b1) -> exec (isAPIServerUp c) h3 (Return b2) ->
  b1 = b2 /\ h2 = h4.
Proof.
  assert (Hc : forall r (x y : result (answer r)) (h h' : history), ev r x :: h = ev r y :: h' -> x = y /\ h = h').
  { intros r x y h h' Heq. split; [apply event_inj; congruence|by apply (f_equal (@tail _)) in Heq]. }
  intros Heq (x & h5 & -> & E1) (y & h6 & -> & E2). rewrite <- !app_comm_cons in Heq. apply Hc in Heq as [<- Heq].
  cbn [bind call_try] in E1, E2. destruct (unreachable x).
  - destruct E1 as [-> [= ->]], E2 as [-> [= ->]]. done.
  - destruct E1 as (x' & h7 & -> & -> & [= ->]), E2 as (y' & h8 & -> & -> & [= ->]). by apply Hc in Heq as [<- Heq].
Qed.

(** C9: the freezing of the machine controller implements its specification.  Whether the API servers are
    up is what its first calls found: a dummy request to the control API server and, if that got an answer,
    one to the target API server, where an error other than "not found" means that it is down.  From this, the clock and the
    state before, the specification gives the next state; nothing else of the controller changes; and the
    next check is put into the queue, sooner while an outage is watched. *)
Theorem freeze_refines c h c' : exec (reconcileClusterMachineSafetyAPIServer c) h (Return c') ->
  exists up h2, probe (c_namespace c) h = Some (up, h2) /\
    (up = false -> frozen c = false -> length (clock_answers h2) = if bool_decide (down_since c = zero_time) then 2%nat else 1%nat) /\
    freeze_of c' = freeze_next (so_APIServerStatusCheckTimeout (c_safetyOptions c)) up
      (default 0 (head (clock_answers h2))) (default 0 (last (clock_answers h2))) (freeze_of c) /\
    same_but_freeze c c' /\ safety_enqueues h = [check_period c up].
Proof.
  intros (up & h1 & h2 & t0 & t & -> & E1 & Hf & Hs & Hq & _ & Hc)%check_parts. apply exec_isAPIServerUp in E1 as [E1 Hp].
  exists up, h2. rewrite safety_enqueues_app, E1, Hq. split_and!; [done| | |done|done].
  - intros H1 H2. rewrite (Hc H1 H2). by case_bool_decide.
  - rewrite Hf. unfold freeze_next, freeze_of. cbn [fs_frozen fs_since].
    destruct (frozen c) eqn:Ef; [by destruct up|]. destruct up; [done|]. rewrite (Hc eq_refl eq_refl). by case_bool_decide.
Qed.

Lemma up_check_unfrozen c c' : up_check c c' -> frozen c = false -> c' = c.
Proof.
  intros (h1 & h2 & E & (up & h3 & h4 & t0 & t & Heq & E1 & Hf & Hs & _)%check_parts) Hfr.
  destruct (exec_up_unique _ _ _ _ _ _ _ Heq E E1) as [<- _]. unfold freeze_next, freeze_of in Hf. cbn [fs_frozen] in Hf. rewrite Hfr in Hf.
  injection Hf as H1 H2. rewrite Hs, H1, H2, <- Hfr. by destruct c as [? [] ? ?].
Qed.

(** An outage that is over still counts.  Once a check has failed, however short the outage was, the
    start time stays; after any number of successful checks the next single failure freezes the
    controller, if it comes later than the timeout after that first one. *)
Theorem past_outage_freezes c c1 c2 n t : frozen c = false -> down_since c <> zero_time ->
  nsteps up_check n c c1 -> down_check t c1 c2 -> so_APIServerStatusCheckTimeout (c_safetyOptions c) < t - down_since c ->
  frozen c2 = true.
Proof.
  intros Hfr Hs Hn Hd Ht. assert (c1 = c) as ->.
  { clear Hd Ht Hs. induction Hn as [|n x y z Hu Hn IH]; [done|]. apply up_check_unfrozen in Hu as ->; auto. }
  destruct Hd as (h1 & h2 & E & (up & h3 & h4 & t0 & t' & Heq & E1 & Hf & _ & _ & _ & Hc)%check_parts & Hl).
  destruct (exec_up_unique _ _ _ _ _ _ _ Heq E E1) as [<- ->]. rewrite (Hc eq_refl Hfr), bool_decide_false in Hl by done. injection Hl as ->.
  unfold freeze_next, freeze_of in Hf. cbn [fs_frozen fs_since] in Hf. rewrite Hfr, bool_decide_false in Hf by done.
  injection Hf as -> _. by apply Z.ltb_lt.
Qed.

(** The machine controller is unfrozen only after every machine of the cache that is in the phase
    Unknown was reset to Running, and stored so, whatever the phase of the object just fetched is, and
    every machine was put back into the queue. *)
Theorem unfreeze_resets c h c' : exec (reconcileClusterMachineSafetyAPIServer c) h (Return c') -> frozen c = true -> frozen c' = false ->
  exists ms, ev ListerMachines (Ok ms) ∈ h /\ forall m, m ∈ ms ->
    (exists x, ev (EnqueueMachineAfter (KeyFunc (m_Meta m)) (30 * Second)) x ∈ h) /\
    (m_Phase m = MachineUnknown -> exists fresh t1 t2 stored,
       ev (GetMachine (c_namespace c) (m_Name m)) (Ok fresh) ∈ h /\
       ev (UpdateStatusMachine (reset_status t1 t2 fresh)) (Ok stored) ∈ h /\ m_Phase (reset_status t1 t2 fresh) = MachineRunning).
Proof.
  intros (up & h1 & h2 & t0 & t & -> & E1 & Hf & Hs & _ & Hup & _)%check_parts Hfr Hfr'.
  assert (up = true) as ->.
  { destruct up; [done|]. unfold freeze_next, freeze_of in Hf. cbn [fs_frozen] in Hf. rewrite Hfr in Hf. congruence. }
  destruct (Hup eq_refl Hfr) as (ms & h3 & h4 & -> & E2). exists ms. split; [set_solver|]. intros m Hm.
  destruct (exec_for_each _ _ _ E2 m Hm) as (h5 & h6 & h7 & -> & He).
  apply exec_bind_ret in He as (h8 & [] & h9 & -> & E3 & (x & h10 & -> & -> & _)). split.
  - exists x. set_solver.
  - intros Hph. rewrite bool_decide_true in E3 by done. destruct E3 as (y & h11 & -> & E3). destruct y as [fresh|e]; [|by destruct E3].
    destruct E3 as (z1 & h12 & -> & z2 & h13 & -> & z3 & h14 & -> & E3). destruct z3 as [st|e]; [|by destruct E3].
    exists fresh, (clock_answer z1), (clock_answer z2), st. split_and!; [set_solver|set_solver|done].
Qed.

(** Calls that put the check's key back into its queue. *)
Definition requeues_check (queue : string) (e : event) : Prop :=
  match projT1 e with
  | EnqueueSafetyAPIServer _ => True
  | QueueAddRateLimited q _ => q = queue
  | _ => False
  end.
Definition safety_worker (queue : string) (c : controller) : prog unit :=
  worker queue (fun _ => do! reconcileClusterMachineSafetyAPIServer c in Ret tt) "".

Lemma raise_requeues_nothing c h e : exec (reconcileClusterMachineSafetyAPIServer c) h (Raise e) ->
  Forall (fun e => forall q, ~ requeues_check q e) h.
Proof.
  unfold reconcileClusterMachineSafetyAPIServer. cbv zeta.
  assert (Hup : emits (fun e => forall q, ~ requeues_check q e) (isAPIServerUp c)) by (unfold isAPIServerUp; emits_all; intros ? []).
  assert (Hres : emits (fun e => forall q, ~ requeues_check q e)
    (let! machines := call ListerMachines in do! for_each machines (reset_machine c) in Ret (c_set_freeze false zero_time c))).
  { unfold reset_machine, enqueueMachineAfter. emits_all; intros ? []. }
  destruct (frozen c); intros [(h1 & up & h2 & -> & E1 & He)|(o' & E1 & _)]%exec_bind; try by eapply Hup.
  - apply exec_bind in He as [(h3 & c1 & h4 & -> & E2 & (x & h5 & _ & _ & [=]))|(o' & E2 & _)].
    apply Forall_app. split; [by eapply Hup|]. destruct up; [by eapply Hres|by destruct E2 as [-> _]; constructor].
  - destruct up; [by destruct He as (x & h3 & _ & _ & [=])|].
    apply exec_bind in He as [(h3 & start & h4 & -> & E2 & (y & h5 & _ & z & h6 & _ & _ & [=]))|(o' & E2 & Hf & _)].
    case_bool_decide; [by destruct E2 as (x & h3 & _ & _ & ->)|by destruct E2 as [_ ->]].
Qed.

(** The check can be lost for good.  When the reset of the machines keeps failing, the queue gives the
    key up after fifteen tries: the run ends well, nothing puts the key back, and nothing else ever
    does; the controller stays frozen, and a frozen controller reconciles no machine that is not being
    deleted. *)
Theorem safety_check_given_up queue c h e n : exec (reconcileClusterMachineSafetyAPIServer c) h (Raise e) -> maxRetries <= n ->
  frozen c = true /\
  exec (safety_worker queue c) (h ++ [ev (QueueNumRequeues queue "") (Ok n); ev (QueueForget queue "") (Ok tt); ev (QueueDone queue "") (Ok tt)])
    (Return tt) /\
  Forall (fun e => ~ requeues_check queue e)
    (h ++ [ev (QueueNumRequeues queue "") (Ok n); ev (QueueForget queue "") (Ok tt); ev (QueueDone queue "") (Ok tt)]).
Proof.
  intros He Hn. split; [|split].
  - destruct (frozen c) eqn:Ef; [done|]. exfalso. unfold reconcileClusterMachineSafetyAPIServer in He. rewrite Ef in He. cbv zeta in He.
    apply exec_bind in He as [(h1 & up & h2 & -> & E1 & He)|(o' & (x & h1 & -> & He) & Hf & Ho)].
    + destruct up; [by destruct He as (x & h3 & _ & _ & [=])|].
      apply exec_bind in He as [(h3 & start & h4 & -> & E2 & (y & h5 & _ & z & h6 & _ & _ & [=]))|(o' & E2 & Hf & _)].
      case_bool_decide; [by destruct E2 as (x & h3 & _ & _ & ->)|by destruct E2 as [_ ->]].
    + cbn [bind call_try] in He. destruct (unreachable x); [by destruct He as [_ ->]|by destruct He as (y & h2 & _ & _ & ->)].
  - unfold safety_worker, worker, defer.
    change (h ++ [?a; ?b; ?d]) with (h ++ [a; b] ++ [d]). rewrite app_assoc. eapply exec_ret_bind.
    + apply exec_return_attempt. eapply exec_ret_bind; [by apply exec_raise_attempt, exec_raise_bind|].
      apply exec_Call_inv. cbn [bind]. rewrite (proj2 (Z.ltb_ge n maxRetries)) by done. by apply exec_Call_inv.
    + by apply exec_Call_inv.
  - apply Forall_app. split; [|repeat constructor; by intros []].
    eapply Forall_impl; [by eapply raise_requeues_nothing|]. auto.
Qed.

(** ** The collection of orphan VMs *)

Section collection.
Variables (c : controller) (range : strmap -> list (string * string)).
Hypothesis range_perm : forall m, range m ≡ₚ map_to_list m.

(** The request that deletes the VM [id] of a machine called [name]. *)
Definition orphan_request (class : MachineClass) (secret : strmap) (id name : string) : DriverRequest :=
  mkDriverRequest (dummy_machine id name) (Some class) secret.

Definition spares_vms (e : event) : Prop := match projT1 e with VMDelete _ | VMList _ _ => False | _ => True end.

Lemma exec_check_vm class secret id name h o : exec (check_vm c class secret (id, name)) h o ->
  exists x h', h = ev (ListerGetMachine (c_namespace c) name) x :: h' /\
    if orphan id x then exists y, h' = [ev (VMDelete (orphan_request class secret id name)) y] else h' = [].
Proof.
  intros (x & h' & -> & He). exists x, h'. split; [done|]. cbn [bind call_try] in He. destruct (orphan id x).
  - destruct He as (y & h2 & -> & -> & _). by exists y.
  - by destruct He as [-> _].
Qed.

Lemma check_vm_returns class secret vm h o : exec (check_vm c class secret vm) h o -> o = Return tt.
Proof.
  destruct vm as [id name]. intros (x & h' & -> & He). cbn [bind call_try] in He. destruct (orphan id x); [by destruct He as (y & h2 & _ & _ & ->)|by destruct He as [_ ->]].
Qed.

Lemma for_each_returns class secret l h o : exec (for_each l (check_vm c class secret)) h o -> o = Return tt.
Proof.
  revert h. induction l as [|vm l IH]; intros h He; [by destruct He as [_ ->]|].
  apply exec_bind in He as [(h1 & [] & h2 & -> & _ & He)|(o' & He & Hf & _)]; [by eapply IH|]. by apply check_vm_returns in He as ->.
Qed.

(** Every deletion belongs to an entry of the list and to an answer of the cache. *)
Lemma for_each_orphans class secret l h : exec (for_each l (check_vm c class secret)) h (Return tt) ->
  forall e, e ∈ h -> spares_vms e \/
    exists id name x, (id, name) ∈ l /\ projT1 e = VMDelete (orphan_request class secret id name) /\
      ev (ListerGetMachine (c_namespace c) name) x ∈ h /\ orphan id x = true.
Proof.
  revert h. induction l as [|[id name] l IH]; intros h He e Hin.
  - destruct He as [-> _]. by apply not_elem_of_nil in Hin.
  - apply exec_bind_ret in He as (h1 & [] & h2 & -> & E1 & E2). apply elem_of_app in Hin as [Hin|Hin].
    + apply exec_check_vm in E1 as (x & h' & -> & Hx). apply elem_of_cons in Hin as [->|Hin]; [by left|].
      destruct (orphan id x) eqn:Eo; [|by subst h'; apply not_elem_of_nil in Hin]. destruct Hx as [y ->].
      apply list_elem_of_singleton in Hin as ->. right. exists id, name, x. split_and!; [left|done|left|done].
    + destruct (IH _ E2 _ Hin) as [?|(id' & name' & x & H1 & H2 & H3 & H4)]; [by left|right].
      exists id', name', x. split_and!; [by right|done|apply elem_of_app; by right|done].
Qed.

Lemma checkMachineClass_parts class h o : exec (checkMachineClass c range class) h o ->
  (Forall spares_vms h /\ o <> Return (LongRetry, None)) \/
  exists h1 secret x h2, h = h1 ++ ev (VMList class secret) x :: h2 /\ Forall spares_vms h1 /\
    ((Forall spares_vms h2 /\ o <> Return (LongRetry, None)) \/
     exists ml h3 h4, x = Ok (Some ml) /\ h2 = h3 ++ h4 /\ Forall spares_vms h3 /\
       exec (for_each (range ml) (check_vm c class secret)) h4 (Return tt)).
Proof.
  unfold checkMachineClass. intros He.
  assert (Hs : emits spares_vms (attempt (getSecretData [mc_SecretRef class; mc_CredentialsSecretRef class]))).
  { unfold getSecretData, getSecret. by emits_all. }
  apply exec_bind in He as [(h1 & [secret|err] & h2 & -> & E1 & He)|(o' & E1 & Hf & ->)]; apply Hs in E1.
  - destruct He as (x & h3 & -> & He). right. exists h1, secret, x, h3. split; [done|]. split; [done|]. cbn [bind call_try] in He.
    destruct x as [[ml|]|err]; cbn [deref bind] in He; [|by destruct He as [-> ->]; left|by destruct He as [-> ->]; left].
    apply exec_bind in He as [(h4 & synced & h5 & -> & E2 & He)|(o' & E2 & Hf & _)].
    + assert (H4 : Forall spares_vms h4).
      { destruct (_ <? _)%nat; [destruct E2 as (x & h6 & -> & -> & _); by repeat constructor|destruct E2 as [-> _]; constructor]. }
      destruct synced; cbn [negb] in He; [|destruct He as [-> ->]; left; rewrite app_nil_r; by split].
      apply exec_bind in He as [(h6 & [] & h7 & -> & E3 & (-> & _))|(o' & E3 & Hf & _)]; [|by apply for_each_returns in E3 as ->].
      right. exists ml, h4, h6. by rewrite app_nil_r.
    + exfalso. destruct (_ <? _)%nat; [by destruct E2 as (x & h6 & _ & _ & ->)|by destruct E2 as [_ ->]].
  - destruct He as [-> ->]. left. rewrite app_nil_r. split; [done|]. intros [=].
  - left. split; [done|]. by destruct o'.
Qed.

Lemma spares_no_delete (l : history) r x : Forall spares_vms l -> ev (VMDelete r) x ∉ l.
Proof. rewrite Forall_forall. by intros HF Hin%HF. Qed.

Lemma deleted_orphans class h o r x : exec (checkMachineClass c range class) h o -> ev (VMDelete r) x ∈ h ->
  exists secret ml id name y, ev (VMList class secret) (Ok (Some ml)) ∈ h /\ (id, name) ∈ range ml /\
    r = orphan_request class secret id name /\ ev (ListerGetMachine (c_namespace c) name) y ∈ h /\ orphan id y = true.
Proof.
  intros [[HF Ho]|(h1 & secret & y & h2 & -> & H1 & H2)]%checkMachineClass_parts Hin; [by apply spares_no_delete in Hin|].
  apply elem_of_app in Hin as [Hin|Hin]; [by apply spares_no_delete in Hin|].
  apply elem_of_cons in Hin as [Hin|Hin]; [by apply (f_equal (@projT1 _ _)) in Hin|].
  destruct H2 as [[H2 Ho]|(ml & h3 & h4 & -> & -> & H3 & E)]; [by apply spares_no_delete in Hin|].
  apply elem_of_app in Hin as [Hin|Hin]; [by apply spares_no_delete in Hin|].
  destruct (for_each_orphans _ _ _ _ E _ Hin) as [[]|(id & name & z & Hr & [= ->] & Hz & Ho)].
  exists secret, ml, id, name, z. split_and!; [apply elem_of_app; right; left|done|done| |done].
  apply elem_of_app. right. right. apply elem_of_app. by right.
Qed.

(** C10: only orphans are collected, and all of them.  The collector deletes a VM only when the driver has
    listed it and the cache, asked in the same run for the machine of that name, has none, or has one with
    another provider ID that is neither new nor in CrashLoopBackOff; and a run that goes through asks for
    every listed VM and deletes every orphan. *)
Theorem orphan_collection class h o : exec (checkMachineClass c range class) h o ->
  (forall r x, ev (VMDelete r) x ∈ h -> exists secret ml id name y,
     ev (VMList class secret) (Ok (Some ml)) ∈ h /\ ml !! id = Some name /\ r = orphan_request class secret id name /\
     ev (ListerGetMachine (c_namespace c) name) y ∈ h /\ orphan id y = true) /\
  (o = Return (LongRetry, None) -> exists secret ml,
     ev (VMList class secret) (Ok (Some ml)) ∈ h /\ forall id name, ml !! id = Some name ->
       exists y, ev (ListerGetMachine (c_namespace c) name) y ∈ h /\
         (orphan id y = true -> exists z, ev (VMDelete (orphan_request class secret id name)) z ∈ h)).
Proof.
  intros He. split.
  - intros r x Hin. destruct (deleted_orphans _ _ _ _ _ He Hin) as (secret & ml & id & name & y & H1 & H2 & H3).
    exists secret, ml, id, name, y. split; [done|]. split; [|done]. by rewrite range_perm, elem_of_map_to_list in H2.
  - intros ->. apply checkMachineClass_parts in He as [[_ Ho]|(h1 & secret & x & h2 & -> & H1 & [[H2 Ho]|(ml & h3 & h4 & -> & -> & H3 & E)])]; [done..|].
    assert (Hsub : forall e, e ∈ h4 -> e ∈ h1 ++ ev (VMList class secret) (Ok (Some ml)) :: h3 ++ h4).
    { intros e Hin. apply elem_of_app. right. right. apply elem_of_app. by right. }
    exists secret, ml. split; [apply elem_of_app; right; left|]. intros id name Hm.
    assert (Hin : (id, name) ∈ range ml) by (rewrite range_perm; by apply elem_of_map_to_list).
    destruct (exec_for_each _ _ _ E _ Hin) as (h5 & h6 & h7 & -> & (y & h' & -> & Hy)%exec_check_vm). exists y. split.
    + apply Hsub. apply elem_of_app. right. apply elem_of_app. left. left.
    + intros Ho. rewrite Ho in Hy. destruct Hy as [z ->]. exists z. apply Hsub. apply elem_of_app. right. apply elem_of_app. left. right. left.
Qed.

(** C35: a VM in creation is not collected.  While the creation flow goes on in a world where writes
    succeed, the VM with the ID [p] it finds or makes is deleted by no run of the collector whose cache
    holds any of the versions of the machine: the new one, the one with the ID recorded, the pending one. *)
Theorem new_vm_not_collected `{!Encoders} class h o n p m0 m1 m2 : exec (checkMachineClass c range class) h o ->
  Labels (m_Meta m0) !! "node" = None -> m_Phase m0 = EmptyString -> p <> EmptyString ->
  creation_run c n p m0 m1 -> creation_run c n p m1 m2 ->
  (forall x, ev (ListerGetMachine (c_namespace c) (m_Name m0)) x ∈ h -> exists m, x = Ok m /\ m ∈ [m0; m1; m2]) ->
  forall secret x, ev (VMDelete (orphan_request class secret p (m_Name m0))) x ∉ h.
Proof.
  intros He Hl Hph Hp H1 H2 Hc secret x Hin. apply record_first in H1 as [Hr1 Hs1]; [|done].
  assert (Hid : forall m, m ∈ [m0; m1; m2] -> orphan p (Ok m) = false).
  { intros m [->|[->|[->|[]%not_elem_of_nil]%elem_of_cons]%elem_of_cons]%elem_of_cons; unfold orphan.
    - rewrite (bool_decide_true (m_Phase m0 = _)) by done. by rewrite andb_false_r.
    - destruct Hr1 as (_ & _ & Hid). by rewrite bool_decide_true.
    - apply recorded_run in H2 as [(-> & _)|[(_ & _ & Hid) _]]; [|by rewrite bool_decide_true|done|done].
      destruct Hr1 as (_ & _ & Hid). by rewrite bool_decide_true. }
  destruct (deleted_orphans _ _ _ _ _ He Hin) as (s & ml & id & name & y & _ & _ & [= <- <- <-] & Hy & Ho).
  apply Hc in Hy as (m & -> & Hm). by rewrite Hid in Ho.
Qed.
End collection.

(** ** Nodes that are not managed *)

Lemma getMachineFromNode_call name h o : exec (getMachineFromNode name) h o -> Forall (fun e => match projT1 e with UpdateNode _ => False | _ => True end) h /\
  (o = Return (Err errNoMachineMatch) -> exists x, ev ListerMachines x ∈ h /\
     forall l m, x = Ok l -> m ∈ l -> Labels (m_Meta m) !! "node" <> Some name).
Proof.
  intros He. split.
  { revert He. unfold getMachineFromNode. eapply emits_bind; [apply emits_deref|intros; by emits_all]. }
  intros ->. unfold getMachineFromNode in He. unfold NewRequirement in He. change (IsQualifiedName "node") with true in He.
  cbn [negb length forallb] in He. destruct (_ && _) in He; [|by destruct He].
  destruct He as (x & h' & -> & He). exists x. split; [left|]. intros l m -> Hm Hl. cbn [bind call_try] in He. destruct He as [_ [= He]].
  assert (Hin : m ∈ filter (fun m => sel_Matches (InternalSelector [mkReq "node" OEquals [name]]) (Labels (m_Meta m)) = true) l).
  { apply list_elem_of_filter. split; [|done]. simpl. unfold req_matches. simpl. rewrite Hl. by rewrite bool_decide_true by set_solver. }
  cbn [answer] in *. destruct (filter _ l) as [|m1 [|m2 ms]]; [by apply not_elem_of_nil in Hin|done..].
Qed.

(** A node is marked as not managed only when the cache has no machine for it, it is not marked yet,
    and it is older than the creation timeout; only the mark is added to it. *)
Theorem annotate_only_unmanaged c h o : exec (AnnotateNodesUnmanagedByMCM c) h o ->
  forall n x, ev (UpdateNode n) x ∈ h -> exists nodes node t y,
    ev ListerNodes (Ok nodes) ∈ h /\ node ∈ nodes /\ n = n_set_Annotations (<[NotManagedByMCM := "1"]> (n_Annotations node)) node /\
    n_Annotations node !! NotManagedByMCM = None /\
    ev Now t ∈ h /\ CreationTimestamp (n_Meta node) < clock_answer t - so_MachineCreationTimeout (c_safetyOptions c) /\
    ev ListerMachines y ∈ h /\ forall l m, y = Ok l -> m ∈ l -> Labels (m_Meta m) !! "node" <> Some (Name (n_Meta node)).
Proof.
  intros (x0 & h0 & -> & He) n x Hin. apply elem_of_cons in Hin as [Hin|Hin]; [by apply (f_equal (@projT1 _ _)) in Hin|].
  cbn [bind call_try] in He. destruct x0 as [nodes|err]; [|destruct He as [-> _]; by apply not_elem_of_nil in Hin].
  enough (Hg : exists node t y, node ∈ nodes /\ n = n_set_Annotations (<[NotManagedByMCM := "1"]> (n_Annotations node)) node /\
    n_Annotations node !! NotManagedByMCM = None /\
    ev Now t ∈ h0 /\ CreationTimestamp (n_Meta node) < clock_answer t - so_MachineCreationTimeout (c_safetyOptions c) /\
    ev ListerMachines y ∈ h0 /\ forall l m, y = Ok l -> m ∈ l -> Labels (m_Meta m) !! "node" <> Some (Name (n_Meta node))).
  { destruct Hg as (node & t & y & H1 & H2 & H3 & H4 & H5 & H6 & H7). exists nodes, node, t, y. split_and!; [left|..]; try done; by right. }
  revert h0 o He Hin. induction nodes as [|node nodes IH]; intros h0 o He Hin; [destruct He as [-> _]; by apply not_elem_of_nil in Hin|].
  cbn [annotate_nodes] in He.
  apply exec_bind in He as [(h1 & r & h2 & -> & E1 & He)|(o' & E1 & _)]; apply getMachineFromNode_call in E1 as [Hn Hnone].
  2: { rewrite Forall_forall in Hn. by apply Hn in Hin. }
  apply elem_of_app in Hin as [Hin|Hin]; [rewrite Forall_forall in Hn; by apply Hn in Hin|].
  assert (Hrest : forall h3 o, exec (annotate_nodes c nodes) h3 o -> ev (UpdateNode n) x ∈ h3 -> (forall e, e ∈ h3 -> e ∈ h1 ++ h2) ->
    exists node' t y, node' ∈ node :: nodes /\ n = n_set_Annotations (<[NotManagedByMCM := "1"]> (n_Annotations node')) node' /\
    n_Annotations node' !! NotManagedByMCM = None /\
    ev Now t ∈ h1 ++ h2 /\ CreationTimestamp (n_Meta node') < clock_answer t - so_MachineCreationTimeout (c_safetyOptions c) /\
    ev ListerMachines y ∈ h1 ++ h2 /\ forall l m, y = Ok l -> m ∈ l -> Labels (m_Meta m) !! "node" <> Some (Name (n_Meta node'))).
  { intros h3 o3 E Hi Hsub. destruct (IH _ _ E Hi) as (node' & t & y & H1 & H2 & H3 & H4 & H5 & H6 & H7).
    exists node', t, y. split_and!; auto. by right. }
  assert (Htail : forall e, e ∈ h2 -> e ∈ h1 ++ h2) by (intros; apply elem_of_app; by right).
  destruct r as [m|err]; [by eapply Hrest|]. case_bool_decide as Herr; [|by eapply Hrest]. subst err.
  destruct He as (t & h3 & -> & He). apply elem_of_cons in Hin as [Hin|Hin]; [by apply (f_equal (@projT1 _ _)) in Hin|].
  assert (Htail3 : forall e, e ∈ h3 -> e ∈ h1 ++ ev Now t :: h3) by (intros; apply Htail; by right).
  cbn [bind] in He. destruct (_ <? _) eqn:Et; cbn [negb] in He; [|by eapply Hrest]. case_bool_decide as Ha; [by eapply Hrest|].
  destruct He as (y & h4 & -> & He). apply elem_of_cons in Hin as [Hin|Hin].
  - destruct (Hnone eq_refl) as (z & Hz & Hl). exists node, t, z.
    assert (n = n_set_Annotations ({[ NotManagedByMCM := "1" ]} ∪ n_Annotations node) node) as -> by (apply (f_equal (@projT1 _ _)) in Hin; simpl in Hin; by injection Hin).
    split_and!; [left|by rewrite insert_union_singleton_l|by apply eq_None_not_Some|apply elem_of_app; right; left| |apply elem_of_app; by left|done].
    apply Z.ltb_lt in Et. destruct t; cbn [clock_answer answer] in *; lia.
  - cbn [bind call_try] in He. destruct y as [?|e]; cbn [bind] in He.
    + eapply Hrest; [exact He|exact Hin|]. intros e He'. apply Htail3. by right.
    + destruct He as [-> _]. by apply not_elem_of_nil in Hin.
Qed.

(** ** Worlds *)

(** The API servers are up or not; the state is the time. *)
Definition safety_world (up : bool) (r : req) (w : Z) : Z * result (answer r) :=
  (w, match r return result (answer r) with
      | Now => Ok w
      | GetMachine _ name =>
          if bool_decide (name = "dummy_name") then Err (if up then mkErr NotFound "not found" else Errorf "timeout")
          else Ok (sample_machine name MachineUnknown)
      | GetNode _ _ => Err (mkErr NotFound "not found")
      | ListerMachines => Ok [sample_machine "m1" MachineUnknown; sample_machine "m2" MachineRunning]
      | UpdateStatusMachine m => Ok m
      | _ => Err (Errorf "unexpected")
      end).

Abbreviation checked up c t := (run (safety_world up) (reconcileClusterMachineSafetyAPIServer c) t).

Lemma freeze_refines_witness : exists up h2,
  probe (c_namespace sample_controller) (checked false sample_controller 5000).1.2 = Some (up, h2) /\
  mkFreeze false 5000 = freeze_next (so_APIServerStatusCheckTimeout (c_safetyOptions sample_controller)) up
    (default 0 (head (clock_answers h2))) (default 0 (last (clock_answers h2))) (freeze_of sample_controller).
Proof.
  assert (Hr : (checked false sample_controller 5000).2 = Return (c_set_freeze false 5000 sample_controller)) by (vm_compute; reflexivity).
  pose proof (run_exec (safety_world false) (reconcileClusterMachineSafetyAPIServer sample_controller) 5000) as He. rewrite Hr in He.
  destruct (freeze_refines _ _ _ He) as (up & h2 & Hp & _ & Hf & _). exists up, h2. split; [exact Hp|exact Hf].
Defined.

(** A check failed at the time 100, the next one went well, and a single one failed long after. *)
Definition once_down : controller := c_set_freeze false 100 sample_controller.
Definition refrozen : controller := c_set_freeze true 100 sample_controller.

Lemma once_down_up : up_check once_down once_down.
Proof.
  eexists (take 2 (checked true once_down 0).1.2), (drop 2 (checked true once_down 0).1.2). rewrite take_drop. split.
  - do 2 eexists; split; [vm_compute; reflexivity|]. do 2 eexists; split; [reflexivity|]. done.
  - apply (run_exec (safety_world true) (reconcileClusterMachineSafetyAPIServer once_down) 0).
Qed.

Lemma once_down_down : down_check (200 * Minute) once_down refrozen.
Proof.
  eexists (take 1 (checked false once_down (200 * Minute)).1.2), (drop 1 (checked false once_down (200 * Minute)).1.2).
  rewrite take_drop. split_and!.
  - do 2 eexists; split; [vm_compute; reflexivity|]. done.
  - apply (run_exec (safety_world false) (reconcileClusterMachineSafetyAPIServer once_down) (200 * Minute)).
  - vm_compute. reflexivity.
Qed.

Lemma past_outage_freezes_witness : frozen refrozen = true.
Proof.
  apply (past_outage_freezes once_down once_down refrozen 1 (200 * Minute)); [reflexivity|discriminate|apply nsteps_once, once_down_up|
    exact once_down_down|reflexivity].
Defined.

Lemma unfreeze_resets_witness : exists ms, ev ListerMachines (Ok ms) ∈ (checked true refrozen 5000).1.2 /\
  forall m, m ∈ ms -> exists x, ev (EnqueueMachineAfter (KeyFunc (m_Meta m)) (30 * Second)) x ∈ (checked true refrozen 5000).1.2.
Proof.
  assert (Hr : (checked true refrozen 5000).2 = Return (c_set_freeze false 0 sample_controller)) by (vm_compute; reflexivity).
  pose proof (run_exec (safety_world true) (reconcileClusterMachineSafetyAPIServer refrozen) 5000) as He. rewrite Hr in He.
  destruct (unfreeze_resets _ _ _ He eq_refl eq_refl) as (ms & H1 & H2). exists ms. split; [exact H1|]. intros m Hm. apply (H2 m Hm).
Defined.

(** The API servers answer, but the machine that has to be reset is gone. *)
Lemma safety_check_given_up_witness :
  let nf := mkErr NotFound "not found" in
  let h := [ev (GetMachine "shoot" "dummy_name") (Err nf); ev (GetNode "dummy_name" false) (Err nf);
            ev ListerMachines (Ok [sample_machine "m1" MachineUnknown]); ev (GetMachine "shoot" "m1") (Err nf)] in
  exec (safety_worker "machinesafetyapiserver" refrozen)
    (h ++ [ev (QueueNumRequeues "machinesafetyapiserver" "") (Ok 15); ev (QueueForget "machinesafetyapiserver" "") (Ok tt);
           ev (QueueDone "machinesafetyapiserver" "") (Ok tt)]) (Return tt).
Proof.
  intros nf h. apply (safety_check_given_up "machinesafetyapiserver" refrozen h nf 15); [|reflexivity].
  repeat (do 2 eexists; split; [reflexivity|]). done.
Defined.

(** A cloud with three VMs: the one of machine m1, a second one of the same name, and one without a machine. *)
Definition cloud_world (r : req) (w : unit) : unit * result (answer r) :=
  (w, match r return result (answer r) with
      | ListerGetSecret _ _ => Ok (sample_secret "cred" ∅)
      | VMList _ _ => Ok (Some {[ "i-1" := "m1"; "i-2" := "m1"; "i-3" := "gone" ]})
      | WaitForCacheSync => Ok true
      | ListerGetMachine _ name =>
          if bool_decide (name = "m1") then Ok (m_set_Spec (sp_set_ProviderID "i-1") (sample_machine "m1" MachineRunning))
          else Err (mkErr NotFound "not found")
      | ListerNodes => Ok [mkNode (mkMeta "stray" "" "" "n1" "1" 1 1000 None ∅ ∅ [] []) zero_node_spec []]
      | ListerMachines => Ok [sample_machine "m1" MachineRunning]
      | Now => Ok (100 * Minute)
      | UpdateNode n => Ok n
      | _ => Err (Errorf "unexpected")
      end).

Definition cloud_class : MachineClass := sample_class [MCMFinalizerName] (Some (mkSecretRef "cred" "shoot")).
Abbreviation collected := (run cloud_world (checkMachineClass sample_controller map_to_list cloud_class) tt).

Lemma orphan_collection_witness : exists secret ml,
  ev (VMList cloud_class secret) (Ok (Some ml)) ∈ collected.1.2 /\ forall id name, ml !! id = Some name ->
    exists y, ev (ListerGetMachine "shoot" name) y ∈ collected.1.2 /\
      (orphan id y = true -> exists z, ev (VMDelete (orphan_request cloud_class secret id name)) z ∈ collected.1.2).
Proof.
  apply (orphan_collection sample_controller map_to_list (fun m => reflexivity _) cloud_class _ _
    (run_exec cloud_world (checkMachineClass sample_controller map_to_list cloud_class) tt)). vm_compute. reflexivity.
Defined.

(** The collector meets the VM of the machine in creation, with the machine as it was before. *)
Definition early_world (r : req) (w : unit) : unit * result (answer r) :=
  (w, match r return result (answer r) with
      | ListerGetSecret _ _ => Ok (sample_secret "cred" ∅)
      | VMList _ _ => Ok (Some {[ "aws:///i-1" := "machine-1" ]})
      | ListerGetMachine _ name => Ok new_machine
      | _ => Err (Errorf "unexpected")
      end).
Abbreviation early := (run early_world (checkMachineClass sample_controller map_to_list cloud_class) tt).

Lemma early_answers : Forall (fun e : event => match e with existT (ListerGetMachine _ _) x => x = Ok new_machine | _ => True end) early.1.2.
Proof. apply run_events. by intros [] []. Qed.

#[local] Existing Instance sample_Encoders.

Lemma new_vm_not_collected_witness :
  ~ ev (VMDelete (orphan_request cloud_class ∅ "aws:///i-1" "machine-1")) (Ok (None, None)) ∈ early.1.2.
Proof.
  pose proof creation_asks as Ha. rewrite !Forall_cons in Ha. destruct Ha as (H1 & H2 & _).
  apply (new_vm_not_collected sample_controller map_to_list cloud_class early.1.2 early.2 "ip-10-250-7-1" "aws:///i-1" new_machine created_1 created_2
    (run_exec early_world _ tt)); [reflexivity|reflexivity|discriminate|exact (creation_step _ _ H1)|exact (creation_step _ _ H2)|].
  intros x Hin. pose proof early_answers as HF. rewrite Forall_forall in HF. apply HF in Hin. exists new_machine. split; [exact Hin|left].
Defined.

Abbreviation annotated := (run cloud_world (AnnotateNodesUnmanagedByMCM sample_controller) tt).

Lemma annotate_only_unmanaged_witness : exists n x, ev (UpdateNode n) x ∈ annotated.1.2 /\
  exists node, n = n_set_Annotations (<[NotManagedByMCM := "1"]> (n_Annotations node)) node.
Proof.
  assert (Hin : exists n x, ev (UpdateNode n) x ∈ annotated.1.2) by (do 2 eexists; vm_compute; do 3 right; left).
  destruct Hin as (n & x & Hin). exists n, x. split; [exact Hin|].
  destruct (annotate_only_unmanaged sample_controller _ _ (run_exec cloud_world (AnnotateNodesUnmanagedByMCM sample_controller) tt) n x Hin)
    as (_ & node & _ & _ & _ & _ & Heq & _).
  exists node. exact Heq.
Defined.
