(* ===== verification/VolumeAttachments.v ===== *)
(** * Volume attachments (pkg/util/provider/drain/volume_attachment.go)

    The handler passes the volume attachments seen by the informer on to every worker that waits for a
    reattachment.  A worker is a buffered channel; what does not fit into the buffer is dropped. *)
From Stdlib Require Import ZArith Lia String.
From stdpp Require Import base strings list.
From S2P Require Import Prelude Types.

(** ** The handler *)

(** A channel: the number of its creation and the values in its buffer. *)
Abbreviation channel := (nat * list VolumeAttachment)%type.

Record VolumeAttachmentHandler := mkHandler { workers : list channel; next_channel : nat }.

Definition NewVolumeAttachmentHandler : VolumeAttachmentHandler := mkHandler [] 0.

Definition chanSize : nat := 20.

(** A send that does not wait. *)
Definition offer (volumeAttachment : VolumeAttachment) (worker : channel) : channel :=
  if bool_decide (length worker.2 < chanSize)%nat then (worker.1, worker.2 ++ [volumeAttachment]) else worker.

(** [None] is a nil dereference: the name of the volume is read from the attachment for the log. *)
Definition dispatch (v : VolumeAttachmentHandler) (obj : option VolumeAttachment) : option VolumeAttachmentHandler :=
  if bool_decide (workers v = []) then Some v
  else
    volumeAttachment ← obj;
    _ ← va_PersistentVolumeName volumeAttachment;
    Some (mkHandler (offer volumeAttachment <$> workers v) (next_channel v)).

Definition AddVolumeAttachment (v : VolumeAttachmentHandler) (obj : option VolumeAttachment) := dispatch v obj.
Definition UpdateVolumeAttachment (v : VolumeAttachmentHandler) (oldObj newObj : option VolumeAttachment) := dispatch v newObj.

Definition AddWorker (v : VolumeAttachmentHandler) : VolumeAttachmentHandler * nat :=
  (mkHandler (workers v ++ [(next_channel v, [])]) (S (next_channel v)), next_channel v).

Definition DeleteWorker (v : VolumeAttachmentHandler) (desiredWorker : nat) : VolumeAttachmentHandler :=
  mkHandler (filter (fun w => w.1 <> desiredWorker) (workers v)) (next_channel v).

(** What the owner of a channel does with it: take the first value. *)
Definition take_first (c : nat) (worker : channel) : channel := if bool_decide (worker.1 = c) then (worker.1, tail worker.2) else worker.
Definition buffer (v : VolumeAttachmentHandler) (c : nat) : list VolumeAttachment :=
  match filter (fun w => w.1 = c) (workers v) with w :: _ => w.2 | [] => [] end.
Definition receive (v : VolumeAttachmentHandler) (c : nat) : option (VolumeAttachment * VolumeAttachmentHandler) :=
  va ← head (buffer v c); Some (va, mkHandler (take_first c <$> workers v) (next_channel v)).

(** ** Steps *)

Inductive action :=
  | Added (c : nat)
  | Deleted (c : nat)
  | Dispatched (va : VolumeAttachment)
  | Received (c : nat) (va : VolumeAttachment).

(** The lock makes every operation one step. *)
Inductive step : VolumeAttachmentHandler -> action -> VolumeAttachmentHandler -> Prop :=
  | step_add v v' c : AddWorker v = (v', c) -> step v (Added c) v'
  | step_delete v c : step v (Deleted c) (DeleteWorker v c)
  | step_dispatch v va v' : dispatch v (Some va) = Some v' -> step v (Dispatched va) v'
  | step_receive v c va v' : receive v c = Some (va, v') -> step v (Received c va) v'.

Inductive reached : list action -> VolumeAttachmentHandler -> Prop :=
  | reached_new : reached [] NewVolumeAttachmentHandler
  | reached_step tr v a v' : reached tr v -> step v a v' -> reached (tr ++ [a]) v'.

(** ** What a worker is due *)

(** Whether the worker has been added, and the attachments dispatched since then. *)
Definition offer_step (c : nat) (acc : bool * list VolumeAttachment) (a : action) : bool * list VolumeAttachment :=
  match a with
  | Added c' => if bool_decide (c' = c) then (true, []) else acc
  | Dispatched va => if acc.1 then (true, acc.2 ++ [va]) else acc
  | _ => acc
  end.
Definition added (c : nat) (tr : list action) : bool := (foldl (offer_step c) (false, []) tr).1.
Definition offered (c : nat) (tr : list action) : list VolumeAttachment := (foldl (offer_step c) (false, []) tr).2.

(** The attachments it has taken. *)
Definition taken (c : nat) (tr : list action) : list VolumeAttachment :=
  omap (fun a => match a with Received c' va => if bool_decide (c' = c) then Some va else None | _ => None end) tr.

(** At no time do more than twenty attachments wait for the worker. *)
Definition keeps_up (c : nat) (tr : list action) : Prop :=
  forall n, (n <= length tr)%nat -> (length (offered c (take n tr)) <= length (taken c (take n tr)) + chanSize)%nat.

Lemma added_snoc c tr a : added c (tr ++ [a]) = match a with Added c' => bool_decide (c' = c) || added c tr | _ => added c tr end.
Proof.
  unfold added. rewrite foldl_app. cbn [foldl]. destruct (foldl _ _ tr) as [b l]. destruct a; try done; simpl.
  - by case_bool_decide.
  - by destruct b.
Qed.

Lemma offered_snoc c tr a : offered c (tr ++ [a]) =
  match a with
  | Added c' => if bool_decide (c' = c) then [] else offered c tr
  | Dispatched va => if added c tr then offered c tr ++ [va] else offered c tr
  | _ => offered c tr
  end.
Proof.
  unfold offered, added. rewrite foldl_app. cbn [foldl]. destruct (foldl _ _ tr) as [b l]. destruct a; try done; simpl.
  - by case_bool_decide.
  - by destruct b.
Qed.

Lemma taken_snoc c tr a : taken c (tr ++ [a]) =
  taken c tr ++ match a with Received c' va => if bool_decide (c' = c) then [va] else [] | _ => [] end.
Proof. unfold taken. rewrite omap_app. f_equal. destruct a; try done. simpl. by case_bool_decide. Qed.

Lemma keeps_up_prefix c tr a : keeps_up c (tr ++ [a]) -> keeps_up c tr.
Proof. intros H n Hn. specialize (H n). rewrite take_app_le in H by done. apply H. rewrite length_app. lia. Qed.

Lemma keeps_up_now c tr : keeps_up c tr -> (length (offered c tr) <= length (taken c tr) + chanSize)%nat.
Proof. intros H. specialize (H (length tr) (le_n _)). by rewrite firstn_all in H. Qed.

(** ** The invariant *)

(** The state of one channel. *)
Definition channel_ok (tr : list action) (w : channel) : Prop :=
  added w.1 tr = true /\ (length w.2 <= chanSize)%nat /\ sublist (taken w.1 tr ++ w.2) (offered w.1 tr) /\
  (keeps_up w.1 tr -> taken w.1 tr ++ w.2 = offered w.1 tr).

Record handler_ok (tr : list action) (v : VolumeAttachmentHandler) : Prop := {
  ok_fresh : Forall (fun w : channel => (w.1 < next_channel v)%nat) (workers v);
  ok_distinct : NoDup (fst <$> workers v);
  ok_unused : forall c, (next_channel v <= c)%nat -> taken c tr = [];
  ok_channels : Forall (channel_ok tr) (workers v) }.

Lemma buffer_in v w : NoDup (fst <$> workers v) -> w ∈ workers v -> buffer v w.1 = w.2.
Proof.
  unfold buffer. generalize (workers v) as l. induction l as [|w' l IH]; intros Hnd Hin; [by apply not_elem_of_nil in Hin|].
  apply NoDup_cons in Hnd as [Hn Hnd]. apply elem_of_cons in Hin as [->|Hin]; [by rewrite filter_cons_True|].
  rewrite filter_cons_False; [by apply IH|]. intros Heq. apply Hn. rewrite Heq. by apply list_elem_of_fmap_2.
Qed.

Lemma buffer_some v c va : head (buffer v c) = Some va -> exists w, w ∈ workers v /\ w.1 = c.
Proof.
  unfold buffer. destruct (filter _ _) as [|w l] eqn:E; [done|]. intros _. exists w.
  assert (Hin : w ∈ filter (fun w : channel => w.1 = c) (workers v)) by (rewrite E; left). apply list_elem_of_filter in Hin. tauto.
Qed.

Lemma fmap_fst_same (f : channel -> channel) (l : list channel) : (forall w, (f w).1 = w.1) -> fst <$> (f <$> l) = fst <$> l.
Proof. intros Hf. induction l; [done|]. csimpl. by f_equal. Qed.

Lemma Forall_keep (P : channel -> Prop) (Q : channel -> Prop) `{!forall w, Decision (Q w)} l : Forall P l -> Forall P (filter Q l).
Proof. rewrite !Forall_forall. intros HP w [_ Hw]%list_elem_of_filter. by apply HP. Qed.

(** Channels are untouched by what happens to others. *)
Lemma channel_ok_other tr a w : channel_ok tr w ->
  match a with Added c | Received c _ => c <> w.1 | Deleted _ => True | Dispatched _ => False end -> channel_ok (tr ++ [a]) w.
Proof.
  intros (H0 & H1 & H2 & H3) Ha. unfold channel_ok. rewrite added_snoc, offered_snoc, taken_snoc.
  destruct a; try done; rewrite ?bool_decide_false by done; rewrite app_nil_r; split_and!; try done; intros Hk; by apply H3, (keeps_up_prefix _ _ _ Hk).
Qed.

Lemma channel_ok_offer tr va w : channel_ok tr w -> channel_ok (tr ++ [Dispatched va]) (offer va w).
Proof.
  intros (H0 & H1 & H2 & H3). unfold channel_ok, offer. case_bool_decide as Hl; simpl; rewrite added_snoc, offered_snoc, taken_snoc, H0, app_nil_r;
    (split; [done|]).
  - split_and!; [rewrite length_app; simpl; lia|rewrite app_assoc; by apply sublist_app|].
    intros Hk. by rewrite app_assoc, H3 by apply (keeps_up_prefix _ _ _ Hk).
  - split_and!; [done|by apply sublist_inserts_r|]. intros Hk. exfalso. pose proof (keeps_up_now _ _ Hk) as Hn.
    specialize (H3 (keeps_up_prefix _ _ _ Hk)). rewrite offered_snoc, taken_snoc, H0, app_nil_r, <- H3, !length_app in Hn. simpl in Hn. lia.
Qed.

Lemma channel_ok_take tr va c l : channel_ok tr (c, va :: l) -> channel_ok (tr ++ [Received c va]) (c, l).
Proof.
  intros (H0 & H1 & H2 & H3). unfold channel_ok in *. simpl in *. rewrite added_snoc, offered_snoc, taken_snoc, bool_decide_true by done.
  rewrite <- app_assoc. simpl. split_and!; [done|lia|done|]. intros Hk. by apply H3, (keeps_up_prefix _ _ _ Hk).
Qed.

Lemma handler_ok_step tr v a v' : handler_ok tr v -> step v a v' -> handler_ok (tr ++ [a]) v'.
Proof.
  intros [Hf Hd Hu Hc] Hs. destruct Hs as [v v' c [= <- <-]|v c|v va v' E|v c va v' E].
  - split; simpl.
    + apply Forall_app. split; [eapply Forall_impl; [exact Hf|simpl; lia]|repeat constructor].
    + rewrite fmap_app. apply NoDup_app. split_and!; [done| |apply NoDup_singleton].
      intros c Hin ->%list_elem_of_singleton. apply list_elem_of_fmap in Hin as (w & Hw & Hin). rewrite Forall_forall in Hf.
      apply Hf in Hin. simpl in Hw. lia.
    + intros c Hle. rewrite taken_snoc, Hu by lia. done.
    + apply Forall_app. split.
      * rewrite Forall_forall in Hf, Hc |- *. intros w Hw. apply channel_ok_other; [by apply Hc|]. apply Hf in Hw. lia.
      * apply Forall_singleton. unfold channel_ok. cbn [fst snd]. rewrite added_snoc, taken_snoc, offered_snoc, bool_decide_true, Hu by done.
        split_and!; [done|simpl; lia|done|done].
  - split; simpl.
    + by apply Forall_keep.
    + eapply sublist_NoDup; [exact Hd|]. apply fmap_sublist, sublist_filter.
    + intros c' Hle. rewrite taken_snoc, Hu by done. done.
    + apply Forall_keep. eapply Forall_impl; [exact Hc|]. intros w Hw. by apply channel_ok_other.
  - unfold dispatch in E. case_bool_decide as Hw; [injection E as <-|].
    { split; [done..| |]; [intros c Hle; by rewrite taken_snoc, Hu|by rewrite Hw]. }
    simpl in E. destruct (va_PersistentVolumeName va); [|done]. injection E as <-. split; simpl.
    + apply Forall_fmap. eapply Forall_impl; [exact Hf|]. intros w. unfold compose, offer. by case_bool_decide.
    + rewrite fmap_fst_same; [done|]. intros w. unfold offer. by case_bool_decide.
    + intros c Hle. by rewrite taken_snoc, Hu.
    + apply Forall_fmap. eapply Forall_impl; [exact Hc|]. intros w. apply channel_ok_offer.
  - unfold receive in E. destruct (head (buffer v c)) as [va'|] eqn:Eh; [|done]. injection E as -> <-.
    destruct (buffer_some _ _ _ Eh) as (w0 & Hin0 & Hw0). split; simpl.
    + apply Forall_fmap. eapply Forall_impl; [exact Hf|]. intros w. unfold compose, take_first. by case_bool_decide.
    + rewrite fmap_fst_same; [done|]. intros w. unfold take_first. by case_bool_decide.
    + intros c' Hle. rewrite taken_snoc, Hu by done. rewrite bool_decide_false; [done|]. intros <-. rewrite Forall_forall in Hf.
      apply Hf in Hin0. lia.
    + apply Forall_fmap. rewrite Forall_forall in Hc |- *. intros w Hw. unfold compose, take_first.
      case_bool_decide as Hwc; [|apply channel_ok_other; [by apply Hc|done]].
      rewrite <- Hwc, (buffer_in v w Hd Hw) in Eh. destruct w as [c' [|va'' l]]; [done|]. simpl in *. injection Eh as ->. subst c'.
      by apply channel_ok_take, Hc.
Qed.

(** C33: every worker gets what it is due.  In every reachable state the buffers hold at most twenty
    values; what a worker has taken and what its buffer holds are, in this order, among the attachments
    dispatched since it was added; and they are exactly these, none dropped, if there were never more than
    twenty of them that it had not taken, however many were dispatched before it was added. *)
Theorem attachments_delivered tr v c buf : reached tr v -> (c, buf) ∈ workers v ->
  added c tr = true /\ (length buf <= chanSize)%nat /\ sublist (taken c tr ++ buf) (offered c tr) /\
  (keeps_up c tr -> taken c tr ++ buf = offered c tr).
Proof.
  intros Hr Hin.
  assert (Hok : handler_ok tr v).
  { clear Hin. induction Hr as [|tr v a v' _ IH Hs]; [split; by repeat constructor|]. by eapply handler_ok_step. }
  destruct Hok as [_ _ _ Hc]. rewrite Forall_forall in Hc. apply (Hc _ Hin).
Qed.

(** ** A sample run *)

Definition sample_attachment (pv node : string) : VolumeAttachment := mkVolumeAttachment (Some pv) node true.

(** More attachments than a buffer holds are dispatched while nobody waits; then a worker is added, two
    attachments are dispatched, and it takes the first. *)
Definition early_trace : list action := replicate 25 (Dispatched (sample_attachment "pv-0" "n2")).
Definition sample_trace : list action :=
  early_trace ++ [Added 0; Dispatched (sample_attachment "pv-1" "n2"); Dispatched (sample_attachment "pv-2" "n2");
    Received 0 (sample_attachment "pv-1" "n2")].
Definition sample_state : VolumeAttachmentHandler := mkHandler [(0%nat, [sample_attachment "pv-2" "n2"])] 1.

Lemma early_reached n : reached (replicate n (Dispatched (sample_attachment "pv-0" "n2"))) NewVolumeAttachmentHandler.
Proof.
  induction n as [|n IH]; [constructor|]. rewrite replicate_S_end. by eapply reached_step; [exact IH|apply step_dispatch].
Qed.

Lemma sample_reached : reached sample_trace sample_state.
Proof.
  unfold sample_trace. change [Added 0; ?a; ?b; ?d] with (((([] ++ [Added 0]) ++ [a]) ++ [b]) ++ [d]). rewrite !app_assoc, app_nil_r.
  eapply reached_step; [eapply reached_step; [eapply reached_step; [eapply reached_step; [apply early_reached|apply step_add; reflexivity]|]|]|].
  - apply step_dispatch. reflexivity.
  - apply step_dispatch. reflexivity.
  - apply step_receive. reflexivity.
Qed.

Lemma sample_keeps_up : keeps_up 0 sample_trace.
Proof.
  intros n Hn. change (length sample_trace) with 29%nat in Hn.
  do 30 (destruct n as [|n]; [apply Nat.leb_le; vm_compute; reflexivity|]). lia.
Qed.

Lemma attachments_delivered_witness :
  taken 0 sample_trace ++ [sample_attachment "pv-2" "n2"] = [sample_attachment "pv-1" "n2"; sample_attachment "pv-2" "n2"].
Proof.
  assert (Hin : (0%nat, [sample_attachment "pv-2" "n2"]) ∈ workers sample_state) by left.
  exact (proj2 (proj2 (proj2 (attachments_delivered _ _ _ _ sample_reached Hin))) sample_keeps_up).
Defined.
