(* ===== verification/DrainCore.v ===== *)
(** * What the drains of a node have in common (pkg/util/provider/drain/drain.go)

    Before a VM is deleted its node is cordoned and its pods are evicted: pods without volumes all at once,
    pods with volumes one after the other by priority.  Every pod reports one result on a channel.  The
    drain of the provider library (Drain.v) and its older copy in pkg/controller (InTreeDrain.v) differ in
    what they do when a disruption budget refuses an eviction, in what they know of volumes and in how they
    wait for them; [DrainSteps] has these parts, [DrainStepsLaws] what is relied on. *)
From Stdlib Require Import ZArith Lia Ascii String.
From stdpp Require Import base gmap strings list sorting.
From S2P Require Import Prelude GoLib Types Labels Prog Samples MachineClasses MachineUtil MachineDeletion.
Open Scope Z_scope.

Definition EvictionKind := "Eviction".
Definition EvictionSubresource := "pods/eviction".
Definition DefaultMachineDrainTimeout : Z := 120 * Minute.
Definition PodsWithoutPVDrainGracePeriod : Z := 3 * Minute.
Definition Interval : Z := 5 * Second.
Definition GetPvDetailsRetryInterval : Z := 5 * Second.
Definition GetPvDetailsMaxRetries : nat := 3.
Definition VolumeDetachPollInterval : Z := 5 * Second.
Definition DefaultMaxEvictRetries : Z := Z.quot DefaultMachineDrainTimeout PodEvictionRetryInterval.

Definition daemonsetFatal := "DaemonSet-managed pods (use --ignore-daemonsets to ignore)".
Definition daemonsetWarning := "Ignoring DaemonSet-managed pods".
Definition localStorageFatal := "pods with local storage (use --delete-local-data to override)".
Definition localStorageWarning := "Deleting pods with local storage".
Definition unmanagedFatal :=
  "pods not managed by ReplicationController, ReplicaSet, Job, DaemonSet or StatefulSet (use --force to override)".
Definition unmanagedWarning := "Deleting pods not managed by ReplicationController, ReplicaSet, Job, DaemonSet or StatefulSet".

Definition MirrorPodAnnotationKey := "kubernetes.io/config.mirror".
Definition PodSucceeded := "Succeeded".
Definition PodFailed := "Failed".

Abbreviation po_Name p := (Name (po_Meta p)).
Abbreviation po_Namespace p := (Namespace (po_Meta p)).

(** The options of a drain; whether there is a handler of volume attachments instead of the handler. *)
Record Options := mkOptions {
  op_drain : DrainOptions; GracePeriodSeconds : Z; IgnorePodsWithoutControllers : bool; IgnoreDaemonsets : bool;
  DeleteLocalData : bool; volumeAttachmentHandler : bool }.

(** The options the machine controller drains with. *)
Definition node_drain (d : DrainOptions) (handler : bool) : Options := mkOptions d (-1) true true true handler.

(** ** Which pods *)

(** Whether the pod is to be removed, a warning and a fatal error. *)
Abbreviation filter_result := (bool * option string * option string)%type.

Definition mirrorPodFilter (pod : Pod) : filter_result :=
  if bool_decide (is_Some (Annotations (po_Meta pod) !! MirrorPodAnnotationKey)) then (false, None, None) else (true, None, None).

Definition hasLocalStorage (pod : Pod) : bool := existsb vo_EmptyDir (po_Volumes pod).

Section filters.
Variable o : Options.

Definition localStorageFilter (pod : Pod) : filter_result :=
  if negb (hasLocalStorage pod) then (true, None, None)
  else if negb (DeleteLocalData o) then (false, None, Some localStorageFatal)
  else (true, Some localStorageWarning, None).

Definition unreplicatedFilter (pod : Pod) : filter_result :=
  if bool_decide (po_Phase pod = PodSucceeded) || bool_decide (po_Phase pod = PodFailed) then (true, None, None)
  else
    match GetControllerOf (po_Meta pod) with
    | Some _ => (true, None, None)
    | None => if negb (IgnorePodsWithoutControllers o) then (false, None, Some unmanagedFatal) else (true, Some unmanagedWarning, None)
    end.

Definition daemonsetFilter (pod : Pod) : filter_result :=
  match GetControllerOf (po_Meta pod) with
  | Some ref =>
      if negb (bool_decide (or_Kind ref = "DaemonSet")) then (true, None, None)
      else if negb (IgnoreDaemonsets o) then (false, None, Some daemonsetFatal)
      else (false, Some daemonsetWarning, None)
  | None => (true, None, None)
  end.

Definition pod_filters : list (Pod -> filter_result) := [mirrorPodFilter; localStorageFilter; unreplicatedFilter; daemonsetFilter].

Definition pod_ok (pod : Pod) : bool := forallb (fun filt : Pod -> filter_result => (filt pod).1.1) pod_filters.
Definition pod_fatals (pod : Pod) : list string := omap (fun filt : Pod -> filter_result => (filt pod).2) pod_filters.
End filters.

(** [podStatuses]: the names of the pods by message. *)
Abbreviation podStatuses := (gmap string (list string)).

Definition add_status (name : string) (fs : podStatuses) (message : string) : podStatuses :=
  <[message := default [] (fs !! message) ++ [name]]> fs.
Definition add_statuses (o : Options) (fs : podStatuses) (pod : Pod) : podStatuses :=
  foldl (add_status (po_Name pod)) fs (pod_fatals o pod).

(** ** Volumes *)

Definition volIsPvc (vol : Volume) : bool := bool_decide (is_Some (vo_ClaimName vol)).

Definition filterPodsWithPv (pods : list Pod) : list Pod * list Pod :=
  foldl (fun r pod => if existsb volIsPvc (po_Volumes pod) then (r.1 ++ [pod], r.2) else (r.1, r.2 ++ [pod])) ([], []) pods.

Definition getTerminationGracePeriod (pod : Pod) : Z :=
  match po_TerminationGracePeriodSeconds pod with None => 0 | Some s => s * Second end.

Definition getGlobalTimeoutForPodsWithoutPV (pods : list Pod) : Z :=
  foldl (fun tgpsMax pod => if tgpsMax <? getTerminationGracePeriod pod then getTerminationGracePeriod pod else tgpsMax) 0 pods +
  PodsWithoutPVDrainGracePeriod.

Definition getPodKey (pod : Pod) : string := po_Namespace pod +:+ "/" +:+ po_Name pod.

(** The volumes seen so far, marked when seen twice, and whether any was. *)
Definition mark_shared (acc : gmap string bool * bool) (vol : string) : gmap string bool * bool :=
  match acc.1 !! vol with
  | None => (<[vol := false]> acc.1, acc.2)
  | Some _ => (<[vol := true]> acc.1, true)
  end.

(** ** The kind of eviction *)

(** The version of the policy group when pods have the eviction subresource, else the empty string. *)
Definition SupportEviction : prog string :=
  let! groups := call ServerGroups in
  match List.find (fun g => bool_decide (ag_Name g = "policy")) groups with
  | None => Ret EmptyString
  | Some group =>
      let! resources := call (ServerResources "v1") in
      Ret (if existsb (fun r => bool_decide (ar_Name r = EvictionSubresource /\ ar_Kind r = EvictionKind)) resources
           then ag_GroupVersion group else EmptyString)
  end.

(** ** Programs that raise no error *)

(** A goroutine has nobody to return an error to. *)
Fixpoint no_throw {A} (p : prog A) : Prop :=
  match p with
  | Throw _ => False
  | Call r k => forall x, no_throw (k x)
  | _ => True
  end.

Lemma no_throw_bind {A B} (p : prog A) (f : A -> prog B) : no_throw p -> (forall a, no_throw (f a)) -> no_throw (bind p f).
Proof. intros Hp Hf. induction p as [a|e| | |r k IH]; simpl in *; auto. Qed.

Lemma no_throw_for_fold {A S} (l : list A) (s : S) body : (forall s x, no_throw (body s x)) -> no_throw (for_fold l s body).
Proof. intros Hb. revert s. induction l as [|x l IH]; intros s; [done|]. apply no_throw_bind; [apply Hb|apply IH]. Qed.

Lemma no_throw_deref {A} (x : option A) : no_throw (deref x).
Proof. by destruct x. Qed.

Lemma no_throw_par {A B} (p : prog A) (q : prog B) : no_throw p -> no_throw q -> no_throw (par p q).
Proof.
  revert q. induction p as [a|e| | |r k IH]; intros q Hp Hq; [rewrite par_Ret; by apply no_throw_bind|done|by destruct q..|].
  induction q as [b|e| | |r' k' IHq]; try done.
  - change (no_throw (let! a := Call r k in Ret (a, b))). by apply no_throw_bind.
  - intros x. assert (Hr : no_throw (Call r (fun y => par (k y) (Call r' k')))) by (intros y; apply IH; [apply Hp|done]).
    assert (Hl : no_throw (Call r' (fun y => par (Call r k) (k' y)))) by (intros y; apply IHq, Hq). by destruct x as [[]|].
Qed.

Lemma no_throw_par_list {A} (ps : list (prog A)) : Forall no_throw ps -> no_throw (par_list ps).
Proof. induction 1 as [|p ps Hp _ IH]; [done|]. apply no_throw_bind; [by apply no_throw_par|done]. Qed.

Lemma no_throw_exec {A} (p : prog A) h e : no_throw p -> ~ exec p h (Raise e).
Proof.
  revert h. induction p as [a|e'| | |r k IH]; intros h Hp He; try by destruct He. destruct He as (x & h' & _ & He). by apply (IH x h').
Qed.

Ltac no_throw_step :=
  match goal with
  | |- no_throw (Ret _) => exact I
  | |- no_throw Starve => exact I
  | |- no_throw Crash => exact I
  | |- no_throw (bind _ _) => apply no_throw_bind; [|intros ?]
  | |- no_throw (for_fold _ _ _) => apply no_throw_for_fold; intros ? ?
  | |- no_throw (deref _) => apply no_throw_deref
  | |- no_throw (call_try _) => intros ?; exact I
  | |- no_throw (call_ignore _) => intros ?; exact I
  | |- no_throw now => intros ?; exact I
  | |- no_throw (Call _ _) => intros ?
  | |- no_throw (let _ := _ in _) => cbv zeta
  | |- no_throw (match ?x with _ => _ end) => destruct x
  end.
Ltac no_throw_all := repeat (no_throw_step; cbv beta).

(** ** Programs that end by the clock *)

(** Nobody sleeps backwards. *)
Definition patient (e : event) : Prop := match projT1 e with Sleep d => 0 <= d | _ => True end.

Lemma honest_clock_app t h1 h2 : Forall patient h1 -> honest_clock t (h1 ++ h2) ->
  honest_clock t h1 /\ exists t', t <= t' /\ honest_clock t' h2.
Proof.
  intros Hp. revert t. induction Hp as [|[r x] h1 Hr _ IH]; intros t Hc; [split; [done|by exists t]|].
  destruct r; simpl in Hc |- *; try by apply IH.
  - destruct x as [now'|]; [|done]. destruct Hc as [Ht [Hc (t' & Ht' & Hc')]%IH]. split; [done|]. exists t'. split; [lia|done].
  - unfold patient in Hr. simpl in Hr. apply IH in Hc as [Hc (t' & Ht' & Hc')]. split; [done|]. exists t'. split; [lia|done].
Qed.

(** What is asked of a whole history and holds of its parts. *)
Class Splits (P : history -> Prop) : Prop := splits h1 h2 : P (h1 ++ h2) -> P h1 /\ P h2.
#[export] Instance splits_anything : Splits (fun _ => True).
Proof. done. Qed.

(** Started at [t0] or later, with a history as in [P], the program does not run out of fuel. *)
Definition ends {A} (P : history -> Prop) (t0 : Z) (p : prog A) : Prop :=
  emits patient p /\ forall t h out, t0 <= t -> honest_clock t h -> P h -> exec p h out -> out <> OutOfFuel.

Section ends.
Context (P : history -> Prop) `{!Splits P} (t0 : Z).

Lemma ends_ret {A} (a : A) : ends P t0 (Ret a).
Proof. split; [apply emits_ret|]. by intros t h out _ _ _ [_ ->]. Qed.

Lemma ends_crash {A} : ends P t0 (Crash (A := A)).
Proof. split; [apply emits_crash|]. by intros t h out _ _ _ [_ ->]. Qed.

Lemma ends_bind {A B} (p : prog A) (f : A -> prog B) : ends P t0 p -> (forall a, ends P t0 (f a)) -> ends P t0 (bind p f).
Proof.
  intros [Hp1 Hp2] Hf. split; [apply emits_bind; [done|apply Hf]|]. intros t h out Ht Hc HP He.
  apply exec_bind in He as [(h1 & a & h2 & -> & E1 & E2)|(o' & E & Hfail & ->)].
  - apply honest_clock_app in Hc as [Hc (t' & Ht' & Hc')]; [|by eapply Hp1]. apply splits in HP as [_ HP].
    destruct (Hf a) as [_ Hfa]. apply (Hfa t' h2); [lia|done..].
  - specialize (Hp2 t h o' Ht Hc HP E). by destruct o'.
Qed.

Lemma ends_Call {A} r (k : result (answer r) -> A) : (forall x, patient (ev r x)) -> ends P t0 (Call r (fun x => Ret (k x))).
Proof.
  intros Hr. split; [intros h out (x & h' & -> & -> & _); by repeat constructor|]. by intros t h out _ _ _ (x & h' & _ & _ & ->).
Qed.

Lemma ends_call_try r : (forall x, patient (ev r x)) -> ends P t0 (call_try r).
Proof. apply ends_Call. Qed.

Lemma ends_call_ignore r : (forall x, patient (ev r x)) -> ends P t0 (call_ignore r).
Proof. apply ends_Call. Qed.

Lemma ends_now : ends P t0 now.
Proof. by apply ends_Call. Qed.

Lemma ends_deref {A} (x : option A) : ends P t0 (deref x).
Proof. destruct x; [apply ends_ret|apply ends_crash]. Qed.

Lemma ends_for_fold {A S} (l : list A) (s : S) body : (forall s x, ends P t0 (body s x)) -> ends P t0 (for_fold l s body).
Proof. intros Hb. revert s. induction l as [|x l IH]; intros s; [apply ends_ret|]. apply ends_bind; [apply Hb|apply IH]. Qed.
End ends.

Ltac ends_step :=
  match goal with
  | |- ends _ _ (Ret _) => apply ends_ret
  | |- ends _ _ Crash => apply ends_crash
  | |- ends _ _ (bind _ _) => refine (ends_bind _ _ _ _ _ _); [|intros ?]
  | |- ends _ _ (for_fold _ _ _) => refine (ends_for_fold _ _ _ _ _ _); intros ? ?
  | |- ends _ _ (deref _) => apply ends_deref
  | |- ends _ _ (call_try ?r) => apply (ends_call_try _ _ r); intros ?; done
  | |- ends _ _ (call_ignore _) => apply ends_call_ignore; intros ?; done
  | |- ends _ _ now => apply ends_now
  | |- ends _ _ (let _ := _ in _) => cbv zeta
  | |- ends _ _ (match ?x with _ => _ end) => destruct x eqn:?
  end.
Ltac ends_all := repeat (ends_step; cbv beta).

(** ** What is known of volumes *)

(** A cached object, asked for up to three times while the cache fails. *)
Fixpoint get_retrying {A} (tries : nat) (get : prog (result A)) : prog (option A) :=
  match tries with
  | O => Ret None
  | S tries =>
      let! r := get in
      match r with
      | Ok x => Ret (Some x)
      | Err err =>
          if IsNotFound err then Ret None
          else if bool_decide (tries = O) then Ret None
          else do! call_ignore (Sleep GetPvDetailsRetryInterval) in get_retrying tries get
      end
  end.

Definition getPVList (pod : Pod) : prog (list string) :=
  for_fold (po_Volumes pod) [] (fun pvs vol =>
    match vo_ClaimName vol with
    | None => Ret pvs
    | Some claim =>
        let! pv := get_retrying GetPvDetailsMaxRetries (call_try (ListerGetPVC (po_Namespace pod) claim)) in
        Ret (pvs ++ option_list pv)
    end).

Lemma no_throw_retrying {A} n (get : prog (result A)) : no_throw get -> no_throw (get_retrying n get).
Proof. intros Hg. induction n; cbn [get_retrying]; no_throw_all; done. Qed.

(** A context is its deadline. *)
Definition expired (deadline : Z) : prog bool := let! t := now in Ret (deadline <=? t).
Definition context_WithTimeout (parent timeout : Z) : prog Z := let! t := now in Ret (Z.min (t + timeout) parent).

Lemma ends_context {A} P `{!Splits P} t0 parent timeout (f : Z -> prog A) : (forall ctx, ctx <= parent -> ends P t0 (f ctx)) ->
  ends P t0 (bind (context_WithTimeout parent timeout) f).
Proof.
  intros Hf. unfold context_WithTimeout. assert (Hassoc : ends P t0 (let! t := now in f (Z.min (t + timeout) parent))).
  { ends_step; [apply ends_now|]. apply Hf. lia. }
  exact Hassoc.
Qed.

Section volumes.
Variable o : Options.
(** [regexp.MatchString(pattern, s)]; false when the pattern is invalid. *)
Variable regexp_MatchString : string -> string -> bool.
(** A range over a map, in any order. *)
Variable range_volumes : podStatuses -> list (string * list string).

Abbreviation nodeName := (do_nodeName (op_drain o)).

(** Volumes that more than one pod uses, or one pod more than once, are dropped. *)
Definition filterSharedPVs (pvMap : podStatuses) : podStatuses :=
  let '(sharedVol, sharedVolumesFound) := foldl mark_shared (∅, false) (concat (map snd (range_volumes pvMap))) in
  if negb sharedVolumesFound then pvMap
  else (fun vols => filter (fun vol => default false (sharedVol !! vol) = false) vols) <$> pvMap.

Fixpoint detach_loop (n : nat) (deadline : Z) (volumes : list string) : prog (option error) :=
  match n with
  | O => Starve
  | S n =>
      let! done := expired deadline in
      if (done : bool) then Ret (Some (Errorf "Timeout while waiting for PVs to detach from node"))
      else
        let! r := call_try (GetNodeVolumesAttached nodeName) in
        match r with
        | Err err => Ret (Some err)
        | Ok [] => Ret None
        | Ok attachedVols =>
            if existsb (fun volumeID => existsb (regexp_MatchString volumeID) attachedVols) volumes then
              do! call_ignore (Sleep VolumeDetachPollInterval) in detach_loop n deadline volumes
            else Ret None
        end
  end.

Lemma no_throw_detach n deadline volumes : no_throw (detach_loop n deadline volumes).
Proof. induction n; cbn [detach_loop]; unfold expired; no_throw_all; done. Qed.

(** The wait for the volumes ends with the clock, and a wait that succeeds has seen the node without
    them: no volume attached, or none that matches one of the pod's. *)
Lemma detach_loop_spec n deadline volumes t h out : honest_clock t h -> (0 < n)%nat ->
  deadline <= t + VolumeDetachPollInterval * (Z.of_nat n - 1) -> exec (detach_loop n deadline volumes) h out ->
  out <> OutOfFuel /\ (out = Return None -> exists attached, ev (GetNodeVolumesAttached nodeName) (Ok attached) ∈ h /\
     forall volumeID a, volumeID ∈ volumes -> a ∈ attached -> regexp_MatchString volumeID a = false).
Proof.
  revert t h. induction n as [|n IH]; intros t h Hc Hn Hd He; [lia|]. destruct He as (x & h1 & -> & He). cbn [bind] in He.
  destruct x as [now'|]; [|done]. destruct Hc as [Ht Hc]. destruct (Z.leb_spec deadline now') as [Hle|Hlt]; [destruct He as [_ ->]; done|].
  destruct He as (y & h2 & -> & He). cbn [bind call_try] in He. destruct y as [attached|err]; [|by destruct He as [_ ->]].
  assert (Hend : h2 = [] -> out = Return None -> forall P : list string -> Prop, P attached -> out <> OutOfFuel /\
    (out = Return None -> exists l, ev (GetNodeVolumesAttached nodeName) (Ok l) ∈ ev Now (Ok now') :: ev (GetNodeVolumesAttached nodeName) (Ok attached) :: h2 /\ P l)).
  { intros -> -> P HP. split; [done|]. intros _. exists attached. split; [right; left|done]. }
  destruct attached as [|a0 attached].
  { destruct He as [-> ->]. apply (Hend eq_refl eq_refl (fun l => forall v a, v ∈ volumes -> a ∈ l -> _)). by intros v a _ ?%not_elem_of_nil. }
  destruct (existsb _ volumes) eqn:Em.
  - destruct He as (z & h3 & -> & He). cbn [bind call_ignore] in He. assert (HV : VolumeDetachPollInterval = 5000000000) by done.
    destruct (IH (now' + VolumeDetachPollInterval) h3) as [H1 H2]; [done|rewrite HV in *; destruct n; lia|rewrite HV in *; lia|done|].
    split; [done|]. intros Ho. destruct (H2 Ho) as (l & Hl & HP). exists l. split; [by do 3 right|done].
  - destruct He as [-> ->]. apply (Hend eq_refl eq_refl (fun l => forall v a, v ∈ volumes -> a ∈ l -> _)). intros v a Hv Ha.
    apply not_true_iff_false. intros Hm. apply not_true_iff_false in Em. apply Em, existsb_exists. exists v. rewrite <- list_elem_of_In. split; [done|].
    apply existsb_exists. exists a. by rewrite <- list_elem_of_In.
Qed.

Lemma ends_retrying {A} P `{!Splits P} t0 n (get : prog (result A)) : ends P t0 get -> ends P t0 (get_retrying n get).
Proof. intros Hg. induction n; cbn [get_retrying]; ends_all; done. Qed.

Lemma ends_getPVList P `{!Splits P} t0 pod : ends P t0 (getPVList pod).
Proof. unfold getPVList. ends_all. apply ends_retrying; [done|]. by ends_all. Qed.

(** A wait that was given up by [deadline] ends when its fuel covers the time that is left at the start. *)
Lemma ends_detach P t0 n deadline volumes : (0 < n)%nat -> deadline <= t0 + VolumeDetachPollInterval * (Z.of_nat n - 1) ->
  ends P t0 (detach_loop n deadline volumes).
Proof.
  intros Hn Hd. split.
  - clear. induction n as [|n IH]; cbn [detach_loop]; unfold expired; emits_all; done.
  - intros t h out Ht Hc _ He. refine (proj1 (detach_loop_spec n deadline volumes t h out Hc Hn _ He)). lia.
Qed.

(** How often a volume is used. *)
Definition uses (vol : string) (vols : list string) : nat := length (filter (fun v => v = vol) vols).

Lemma uses_snoc vol vols v : uses vol (vols ++ [v]) = (uses vol vols + if bool_decide (v = vol) then 1 else 0)%nat.
Proof. unfold uses. rewrite filter_app, length_app. f_equal. rewrite filter_cons. by repeat case_decide; case_bool_decide. Qed.

Lemma mark_shared_spec vols :
  let r := foldl mark_shared (∅, false) vols in
  (forall vol, r.1 !! vol = match uses vol vols with O => None | 1%nat => Some false | _ => Some true end) /\
  (r.2 = false -> forall vol, (uses vol vols <= 1)%nat).
Proof.
  induction vols as [|v vols [IH1 IH2]] using rev_ind; [split; [intros; apply lookup_empty|intros; unfold uses; simpl; lia]|].
  rewrite foldl_app. simpl. unfold mark_shared at 1 3. pose proof (IH1 v) as Hv.
  destruct (_.1 !! v) as [b|] eqn:E; simpl; split.
  - intros vol. rewrite uses_snoc. case_bool_decide as Heq.
    + subst. rewrite lookup_insert_eq. destruct (uses vol vols) as [|[|k]]; [done|done|]. by rewrite Nat.add_comm.
    + rewrite lookup_insert_ne, IH1 by done. by rewrite Nat.add_0_r.
  - done.
  - intros vol. rewrite uses_snoc. case_bool_decide as Heq.
    + subst. rewrite lookup_insert_eq. by destruct (uses vol vols) as [|[|k]].
    + rewrite lookup_insert_ne, IH1 by done. by rewrite Nat.add_0_r.
  - intros Hr vol. rewrite uses_snoc. specialize (IH2 Hr vol). case_bool_decide as Heq; [|lia]. subst.
    destruct (uses vol vols) as [|[|k]]; [lia|done|done].
Qed.

(** Of the volumes of each pod exactly those are kept that no other pod uses and that the pod itself
    uses once; in the order they had, and whatever order the maps are walked in. *)
Lemma filterSharedPVs_spec pvMap key : (forall m, range_volumes m ≡ₚ map_to_list m) ->
  filterSharedPVs pvMap !! key =
  (fun vols => filter (fun vol => uses vol (concat (map snd (map_to_list pvMap))) = 1%nat) vols) <$> pvMap !! key.
Proof.
  intros Hrange. unfold filterSharedPVs. set (all := concat (map snd (range_volumes pvMap))).
  assert (Hall : all ≡ₚ concat (map snd (map_to_list pvMap))) by (unfold all; by rewrite Hrange).
  assert (Huse : forall vol, uses vol all = uses vol (concat (map snd (map_to_list pvMap)))) by (intros vol; unfold uses; by rewrite Hall).
  destruct (mark_shared_spec all) as [H1 H2]. destruct (foldl mark_shared (∅, false) all) as [sharedVol found]. simpl in *.
  assert (Hpos : forall vols vol, pvMap !! key = Some vols -> vol ∈ vols -> (0 < uses vol all)%nat).
  { intros vols vol Hk Hv. rewrite Huse. unfold uses. apply Nat.neq_0_lt_0. intros Hz%length_zero_iff_nil.
    assert (Hin : vol ∈ filter (fun v => v = vol) (concat (map snd (map_to_list pvMap)))); [|rewrite Hz in Hin; by apply not_elem_of_nil in Hin].
    apply list_elem_of_filter. split; [done|]. apply list_elem_of_In, in_concat. exists vols. split; [|by apply list_elem_of_In].
    apply in_map_iff. exists (key, vols). split; [done|]. apply list_elem_of_In. by apply elem_of_map_to_list. }
  destruct found; cbn [negb].
  - rewrite lookup_fmap. destruct (pvMap !! key) as [vols|] eqn:Hk; [|done]. simpl. f_equal. apply filter_ext_in. intros vol Hv. rewrite H1, <- Huse.
    specialize (Hpos _ _ eq_refl Hv). destruct (uses vol all) as [|[|k]]; simpl; split; done || lia.
  - destruct (pvMap !! key) as [vols|] eqn:Hk; [|done]. simpl. f_equal. transitivity (filter (fun _ : string => True) vols); [by rewrite filter_all|].
    apply filter_ext_in.
    intros vol Hv. rewrite <- Huse. specialize (Hpos _ _ eq_refl Hv). specialize (H2 eq_refl vol). lia.
Qed.
End volumes.

(** What became of a pod with volumes: it reports a result, it is tried again later, or the node is gone. *)
Inductive pv_outcome := Reported (result : option error) | TryAgain | NodeGone.

(** What an eviction that a disruption budget refuses reports, if it is not to be tried again; the volumes
    of pods, by pod; and the eviction or deletion of a pod with volumes. *)
Class DrainSteps (Info : Type) := {
  refusal : Pod -> prog (option error);
  accounting : list Pod -> prog (gmap string Info);
  evict_one : bool -> Z -> gmap string Info -> string -> Pod -> prog pv_outcome }.

(** ** What is relied on *)

(** Nothing outside is changed. *)
Definition harmless (e : event) : Prop := is_read (projT1 e) = true.

(** Nothing is changed but that one of the pods is evicted or deleted. *)
Definition on_pods (pods : list Pod) (e : event) : Prop :=
  match projT1 e with
  | EvictPod ns name _ _ | DeletePod ns name _ => exists pod, pod ∈ pods /\ ns = po_Namespace pod /\ name = po_Name pod
  | r => is_read r = true
  end.
Class DrainStepsLaws (Info : Type) `{!DrainSteps Info} : Prop := {
  refusal_harmless pod : emits harmless (refusal pod);
  refusal_no_throw pod : no_throw (refusal pod);
  refusal_ends pod h : ~ exec (refusal pod) h OutOfFuel;
  accounting_harmless pods : emits harmless (accounting pods);
  accounting_no_throw pods : no_throw (accounting pods);
  evict_one_on_pods pods attemptEvict mainContext infos gv pod : pod ∈ pods ->
    emits (on_pods pods) (evict_one attemptEvict mainContext infos gv pod);
  evict_one_no_throw attemptEvict mainContext infos gv pod : no_throw (evict_one attemptEvict mainContext infos gv pod) }.

Lemma harmless_on_pods pods e : harmless e -> on_pods pods e.
Proof. unfold harmless, on_pods. by destruct (projT1 e). Qed.

Section core.
Variable o : Options.
(** Ranges over maps, in any order, and the order in which the channel delivers the results. *)
Variable range_statuses : podStatuses -> list (string * list string).
Variable arrival : list (option error) -> list (option error).
(** How many checks of a poll fit into its timeout. *)
Variable poll_checks : Z -> Z -> nat.
Context `{!GoSort}.

Abbreviation nodeName := (do_nodeName (op_drain o)).

(** ** The pods of the node *)

Definition Message (ps : podStatuses) : string :=
  String.concat "; " (map (fun kp => kp.1 +:+ ": " +:+ String.concat ", " kp.2) (range_statuses ps)).

Definition getPodsForDeletion : prog (list Pod) :=
  let! podList := call (ListPods nodeName) in
  let fs := foldl (add_statuses o) ∅ podList in
  if negb (bool_decide (fs = ∅)) then Throw (Errorf (Message fs))
  else Ret (filter (fun pod => pod_ok o pod = true) podList).

Definition deletePod (pod : Pod) : prog (result unit) := call_try (DeletePod (po_Namespace pod) (po_Name pod) 0).

Definition evictPod (pod : Pod) (policyGroupVersion : string) : prog (result unit) :=
  call_try (EvictPod (po_Namespace pod) (po_Name pod)
    (if 0 <=? GracePeriodSeconds o then Some (GracePeriodSeconds o) else None) policyGroupVersion).

(** ** Pods without volumes *)

(** The pods that are still there.  On an error the client returns an empty pod, whose UID differs. *)
Fixpoint pending_pods (pods : list Pod) : prog (result (list Pod)) :=
  match pods with
  | [] => Ret (Ok [])
  | pod :: pods =>
      let! r := call_try (GetPod (po_Namespace pod) (po_Name pod)) in
      let uid := match r with Ok p => UID (po_Meta p) | Err _ => EmptyString end in
      if (match r with Err err => IsNotFound err | Ok _ => false end) || negb (bool_decide (uid = UID (po_Meta pod))) then pending_pods pods
      else
        match r with
        | Err err => Ret (Err err)
        | Ok _ =>
            let! rest := pending_pods pods in
            Ret (match rest with Ok l => Ok (pod :: l) | Err err => Err err end)
        end
  end.

(** [n] checks; the pods left after the last check without an error. *)
Fixpoint poll_deleted (n : nat) (pods : list Pod) : prog (list Pod * option error) :=
  match n with
  | O => Ret (pods, Some (mkErr TimeoutErr "timed out waiting for the condition"))
  | S n =>
      let! r := pending_pods pods in
      match r with
      | Err err => Ret (pods, Some err)
      | Ok [] => Ret ([], None)
      | Ok pendingPods => poll_deleted n pendingPods
      end
  end.

Definition waitForDelete (pods : list Pod) (interval timeout : Z) : prog (list Pod * option error) :=
  poll_deleted (poll_checks interval timeout) pods.

Definition failed_eviction (pod : Pod) (err : error) : error :=
  Errorf ("error when evicting pod " +:+ quoted (po_Name pod) +:+ ": " +:+ err_msg err +:+ " scheduled on node " +:+ po_NodeName pod).

(** [pods[i].Spec.Priority] is dereferenced in every comparison. *)
Definition priority_less (p q : Pod) : bool := default 0 (po_Priority q) <? default 0 (po_Priority p).
Definition sortPodsByPriority (pods : list Pod) : prog (list Pod) :=
  if bool_decide (1 < length pods)%nat && negb (forallb (fun p => bool_decide (is_Some (po_Priority p))) pods) then Crash
  else Ret (gosort priority_less pods).

(** ** The pods *)

Context {Info : Type} `{!DrainSteps Info}.

(** The attempts to evict or delete the pod: the result reported at once, or none when the pod is
    accepted for deletion.  After [retries] refused evictions the pod is deleted. *)
Fixpoint evict_attempts (retries : nat) (attemptEvict : bool) (pod : Pod) (policyGroupVersion : string) : prog (option (option error)) :=
  let attemptEvict := match retries with O => false | S _ => attemptEvict end in
  let! r := (if attemptEvict then evictPod pod policyGroupVersion else deletePod pod) in
  match r with
  | Ok _ => Ret None
  | Err err =>
      if IsNotFound err then Ret (Some None)
      else if attemptEvict && IsTooManyRequests err then
        let! pdbErr := refusal pod in
        match pdbErr with
        | Some pdbErr => Ret (Some (Some pdbErr))
        | None =>
            do! call_ignore (Sleep PodEvictionRetryInterval) in
            match retries with
            | O => Ret None (* not reached: nothing was evicted *)
            | S retries => evict_attempts retries attemptEvict pod policyGroupVersion
            end
        end
      else Ret (Some (Some (failed_eviction pod err)))
  end.

(** The result of one pod. *)
Definition evictPodWithoutPVInternal (attemptEvict : bool) (pod : Pod) (policyGroupVersion : string) : prog (option error) :=
  let! early := evict_attempts (Z.to_nat (do_MaxEvictRetries (op_drain o))) attemptEvict pod policyGroupVersion in
  match early with
  | Some result => Ret result
  | None =>
      if do_ForceDeletePods (op_drain o) then Ret None
      else
        let timeout := Z.min (getTerminationGracePeriod pod) (do_Timeout (op_drain o)) in
        let! r := waitForDelete [pod] Interval (timeout + 30 * Second) in
        Ret (match r with
             | (_, Some err) =>
                 Some (Errorf ("error when waiting for pod " +:+ quoted (po_Name pod) +:+ "/" +:+ po_NodeName pod +:+ " terminating: " +:+ err_msg err))
             | ([], None) => None
             | (_ :: _, None) =>
                 Some (Errorf ("timeout expired while waiting for pod " +:+ quoted (po_Name pod) +:+ " terminating scheduled on node " +:+
                   po_NodeName pod))
             end)
  end.

(** One goroutine for every pod. *)
Definition evictPodsWithoutPv (attemptEvict : bool) (pods : list Pod) (policyGroupVersion : string) : prog (list (option error)) :=
  par_list (map (fun pod => evictPodWithoutPVInternal attemptEvict pod policyGroupVersion) pods).


(** One pass over the pods: the results reported, the pods that remain, and whether the pass was cut
    short because the time is up or the node gone; the pod at hand then counts as done. *)
Fixpoint evictPodsWithPVInternal (attemptEvict : bool) (mainContext : Z) (podVolumeInfoMap : gmap string Info)
    (policyGroupVersion : string) (pods retryPods : list Pod) : prog (list (option error) * list Pod * bool) :=
  match pods with
  | [] => Ret ([], retryPods, false)
  | pod :: pods =>
      let! timeout := expired mainContext in
      if (timeout : bool) then Ret ([None], retryPods ++ pods, true)
      else
        let! r := evict_one attemptEvict mainContext podVolumeInfoMap policyGroupVersion pod in
        match r with
        | NodeGone => Ret ([None], retryPods ++ pods, true)
        | TryAgain => evictPodsWithPVInternal attemptEvict mainContext podVolumeInfoMap policyGroupVersion pods (retryPods ++ [pod])
        | Reported result =>
            let! rest := evictPodsWithPVInternal attemptEvict mainContext podVolumeInfoMap policyGroupVersion pods retryPods in
            Ret (result :: rest.1.1, rest.1.2, rest.2)
        end
  end.

Section passes.
Variables (mainContext : Z) (podVolumeInfoMap : gmap string Info) (policyGroupVersion : string).

Abbreviation pass attemptEvict pods := (evictPodsWithPVInternal attemptEvict mainContext podVolumeInfoMap policyGroupVersion pods []).

(** Up to [n] passes over what remains; without any pass nothing remains. *)
Fixpoint evict_passes (n : nat) (pods remainingPods : list Pod) : prog (list (option error) * list Pod * bool) :=
  match n with
  | O => Ret ([], remainingPods, false)
  | S n =>
      let! r := pass true pods in
      let '(results, remainingPods, fastTrack) := r in
      if fastTrack || bool_decide (remainingPods = []) then Ret (results, remainingPods, fastTrack)
      else
        do! call_ignore (Sleep PodEvictionRetryInterval) in
        let! r := evict_passes n remainingPods remainingPods in
        Ret (results ++ r.1.1, r.1.2, r.2)
  end.

(** Pods that remain after the evictions are deleted. *)
Definition evict_or_delete (attemptEvict : bool) (pods : list Pod) : prog (list (option error) * list Pod * bool) :=
  if attemptEvict then
    let! r := evict_passes (Z.to_nat (do_MaxEvictRetries (op_drain o))) pods [] in
    let '(results, remainingPods, fastTrack) := r in
    if negb fastTrack && negb (bool_decide (remainingPods = [])) then
      let! r := pass false remainingPods in
      Ret (results ++ r.1.1, r.1.2, fastTrack)
    else Ret (results, remainingPods, fastTrack)
  else
    let! r := pass false pods in
    Ret (r.1.1, r.1.2, false).
End passes.

Definition remaining_result (attemptEvict fastTrack : bool) (pod : Pod) : option error :=
  if fastTrack then None
  else
    let place := po_Namespace pod +:+ "/" +:+ po_Name pod +:+ " from node " +:+ quoted (po_NodeName pod) in
    Some (Errorf ((if attemptEvict then "Error evicting pod " else "Error deleting pod ") +:+ place)).

(** The results this goroutine sends. *)
Definition evictPodsWithPv (drainStartedOn : Z) (attemptEvict : bool) (pods : list Pod) (policyGroupVersion : string) : prog (list (option error)) :=
  let! pods := sortPodsByPriority pods in
  let! podVolumeInfoMap := accounting pods in
  let! r := evict_or_delete (drainStartedOn + do_Timeout (op_drain o)) podVolumeInfoMap policyGroupVersion attemptEvict pods in
  let '(results, remainingPods, fastTrack) := r in
  Ret (results ++ map (remaining_result attemptEvict fastTrack) remainingPods).

(** ** The drain *)

(** The texts without repetitions. *)
Fixpoint unique (seen msgs : list string) : list string :=
  match msgs with
  | [] => []
  | msg :: msgs => if bool_decide (msg ∈ seen) then unique seen msgs else msg :: unique (msg :: seen) msgs
  end.

Definition NewAggregate (errors : list error) : prog unit :=
  if bool_decide (errors = []) then Ret tt
  else
    match unique [] (map err_msg errors) with
    | [msg] => Throw (Errorf msg)
    | msgs => Throw (Errorf ("[" +:+ String.concat ", " msgs +:+ "]"))
    end.

(** One result is received for every pod.  With fewer results the receiver waits for ever; with more a
    sender would meet the closed channel. *)
Definition collect (numPods : nat) (results : list (option error)) : prog unit :=
  if bool_decide (length results < numPods)%nat then Starve
  else if bool_decide (numPods < length results)%nat then Crash
  else NewAggregate (omap id (arrival results)).

(** What the goroutines send. *)
Definition goroutines (drainStartedOn : Z) (attemptEvict : bool) (pods : list Pod) (policyGroupVersion : string) : prog (list (option error)) :=
  if do_ForceDeletePods (op_drain o) then evictPodsWithoutPv attemptEvict pods policyGroupVersion
  else
    let '(podsWithPv, podsWithoutPv) := filterPodsWithPv pods in
    let! r := par (evictPodsWithPv drainStartedOn attemptEvict podsWithPv policyGroupVersion)
                  (evictPodsWithoutPv attemptEvict podsWithoutPv policyGroupVersion) in
    Ret (r.1 ++ r.2).

Definition evictPods (drainStartedOn : Z) (attemptEvict : bool) (pods : list Pod) (policyGroupVersion : string) : prog unit :=
  let! results := goroutines drainStartedOn attemptEvict pods policyGroupVersion in
  collect (length pods) results.

Definition deleteOrEvictPods (drainStartedOn : Z) (pods : list Pod) : prog unit :=
  if bool_decide (pods = []) then Ret tt
  else
    let! policyGroupVersion := SupportEviction in
    let attemptEvict := negb (do_ForceDeletePods (op_drain o)) && negb (bool_decide (policyGroupVersion = EmptyString)) in
    evictPods drainStartedOn attemptEvict pods policyGroupVersion.

Definition deleteOrEvictPodsSimple (drainStartedOn : Z) : prog unit :=
  let! pods := getPodsForDeletion in
  let! r := attempt (deleteOrEvictPods drainStartedOn pods) in
  match r with
  | Ok _ => Ret tt
  | Err err => let! pendingPods := getPodsForDeletion in Throw err
  end.

(** A node that cannot be fetched, for whatever reason, is not cordoned. *)
Definition RunCordonOrUncordon (desired : bool) : prog unit :=
  let! r := call_try (GetNode nodeName false) in
  match r with
  | Err _ => Ret tt
  | Ok node =>
      if bool_decide (ns_Unschedulable (n_Spec node) = desired) then Ret tt
      else
        do! call (UpdateNode (mkNode (n_Meta node)
          (mkNodeSpec (ns_PodCIDR (n_Spec node)) (ns_ProviderID (n_Spec node)) desired (ns_Taints (n_Spec node))) (n_Conditions node))) in
        Ret tt
  end.

(** ** Every pod reports *)

Lemma pass_accounts attemptEvict mainContext infos gv pods retryPods h r :
  exec (evictPodsWithPVInternal attemptEvict mainContext infos gv pods retryPods) h (Return r) ->
  (length r.1.1 + length r.1.2 = length pods + length retryPods)%nat.
Proof.
  revert retryPods h r. induction pods as [|pod pods IH]; intros retryPods h r He; [by destruct He as [_ [= ->]]|].
  cbn [evictPodsWithPVInternal] in He. apply exec_bind_ret in He as (h1 & timeout & h2 & -> & _ & He).
  destruct timeout; [destruct He as [_ [= ->]]; simpl; rewrite length_app; lia|].
  apply exec_bind_ret in He as (h3 & out & h4 & -> & _ & He). destruct out as [result| |].
  - apply exec_bind_ret in He as (h5 & rest & h6 & -> & E & _ & [= ->]). apply IH in E. simpl. lia.
  - apply IH in He. rewrite length_app in He. simpl in *. lia.
  - destruct He as [_ [= ->]]. simpl. rewrite length_app. lia.
Qed.

Lemma passes_account mainContext infos gv n pods remainingPods h r : (0 < n)%nat ->
  exec (evict_passes mainContext infos gv n pods remainingPods) h (Return r) -> (length r.1.1 + length r.1.2 = length pods)%nat.
Proof.
  revert pods remainingPods h r. induction n as [|n IH]; intros pods remainingPods h r Hn He; [lia|].
  cbn [evict_passes] in He. apply exec_bind_ret in He as (h1 & [[results rem] ft] & h2 & -> & E & He). apply pass_accounts in E.
  simpl in E. destruct (_ || _) eqn:Ec; [destruct He as [_ [= ->]]; simpl; lia|].
  apply exec_bind_ret in He as (h3 & [] & h4 & -> & _ & He). apply exec_bind_ret in He as (h5 & r' & h6 & -> & E' & _ & [= ->]).
  simpl. rewrite length_app. destruct n as [|n].
  - destruct E' as [_ [= ->]]. simpl. lia.
  - apply IH in E'; [|lia]. lia.
Qed.

Lemma evict_or_delete_accounts mainContext infos gv attemptEvict pods h r :
  (attemptEvict = true -> 0 < do_MaxEvictRetries (op_drain o)) ->
  exec (evict_or_delete mainContext infos gv attemptEvict pods) h (Return r) -> (length r.1.1 + length r.1.2 = length pods)%nat.
Proof.
  intros Hn He. unfold evict_or_delete in He. destruct attemptEvict.
  - apply exec_bind_ret in He as (h1 & [[results rem] ft] & h2 & -> & E & He). apply passes_account in E; [|specialize (Hn eq_refl); lia].
    simpl in E. destruct (_ && _); [|by destruct He as [_ [= ->]]].
    apply exec_bind_ret in He as (h3 & r' & h4 & -> & E' & _ & [= ->]). apply pass_accounts in E'. simpl in *. rewrite length_app. lia.
  - apply exec_bind_ret in He as (h3 & r' & h4 & -> & E' & _ & [= ->]). apply pass_accounts in E'. simpl in *. lia.
Qed.

Lemma exec_sort pods h r : exec (sortPodsByPriority pods) h (Return r) -> r ≡ₚ pods.
Proof. unfold sortPodsByPriority. destruct (_ && _); [by intros [_ ?]|]. intros [_ [= ->]]. apply gosort_perm. Qed.

Lemma with_pv_accounts start attemptEvict pods gv h results : (attemptEvict = true -> 0 < do_MaxEvictRetries (op_drain o)) ->
  exec (evictPodsWithPv start attemptEvict pods gv) h (Return results) -> length results = length pods.
Proof.
  intros Hn He. apply exec_bind_ret in He as (h1 & sorted & h2 & -> & E1 & He). apply exec_sort in E1.
  apply exec_bind_ret in He as (h3 & infos & h4 & -> & _ & He).
  apply exec_bind_ret in He as (h5 & [[res rem] ft] & h6 & -> & E2 & _ & [= ->]). apply evict_or_delete_accounts in E2; [|done].
  rewrite length_app, length_map. simpl in E2. rewrite E2. by rewrite E1.
Qed.

Lemma without_pv_accounts attemptEvict pods gv h results :
  exec (evictPodsWithoutPv attemptEvict pods gv) h (Return results) -> length results = length pods.
Proof.
  intros (hs & picks & HF & _)%exec_par_list. apply Forall3_length_lr in HF. rewrite <- HF. apply length_map.
Qed.

Lemma filter_pods_split pods : forall a b,
  foldl (fun r pod => if existsb volIsPvc (po_Volumes pod) then (r.1 ++ [pod], r.2) else (r.1, r.2 ++ [pod])) (a, b) pods =
  (a ++ filter (fun pod => existsb volIsPvc (po_Volumes pod) = true) pods, b ++ filter (fun pod => existsb volIsPvc (po_Volumes pod) <> true) pods).
Proof.
  induction pods as [|pod pods IH]; intros a b; simpl; [by rewrite !app_nil_r|]. rewrite !filter_cons.
  destruct (existsb volIsPvc (po_Volumes pod)) eqn:E; rewrite IH; simpl; rewrite <- app_assoc; done.
Qed.

Lemma filterPodsWithPv_partition pods : (filterPodsWithPv pods).1 ++ (filterPodsWithPv pods).2 ≡ₚ pods.
Proof. unfold filterPodsWithPv. rewrite filter_pods_split. simpl. apply filter_app_complement. Qed.

Lemma goroutines_parts start attemptEvict pods gv h results : do_ForceDeletePods (op_drain o) = false ->
  exec (goroutines start attemptEvict pods gv) h (Return results) ->
  exists h1 h2 res1 res2, exec (evictPodsWithPv start attemptEvict (filterPodsWithPv pods).1 gv) h1 (Return res1) /\
    exec (evictPodsWithoutPv attemptEvict (filterPodsWithPv pods).2 gv) h2 (Return res2) /\ results = res1 ++ res2 /\ h1 ⊆ h /\ h2 ⊆ h.
Proof.
  intros Hf He. unfold goroutines in He. rewrite Hf in He. destruct (filterPodsWithPv pods) as [with_pv without_pv].
  apply exec_bind_ret in He as (h1 & [res1 res2] & h2 & -> & E & -> & [= ->]). rewrite app_nil_r.
  apply exec_par in E as (h3 & h4 & picks & E1 & E2 & _ & Hh). exists h3, h4, res1, res2.
  split_and!; [done..| |]; intros e Hin; rewrite Hh; set_solver.
Qed.

Lemma split_length pods : length pods = (length (filterPodsWithPv pods).1 + length (filterPodsWithPv pods).2)%nat.
Proof. rewrite <- length_app. apply Permutation_length. symmetry. apply filterPodsWithPv_partition. Qed.

Context `{!DrainStepsLaws Info}.

Lemma results_complete start attemptEvict pods gv h results :
  (attemptEvict = true -> do_ForceDeletePods (op_drain o) = false -> 0 < do_MaxEvictRetries (op_drain o)) ->
  exec (goroutines start attemptEvict pods gv) h (Return results) ->
  length results = length pods /\ collect (length pods) results = NewAggregate (omap id (arrival results)).
Proof.
  intros Hn He. enough (Hl : length results = length pods).
  { split; [done|]. unfold collect. rewrite Hl, !bool_decide_false by lia. done. }
  destruct (do_ForceDeletePods (op_drain o)) eqn:Hf.
  - unfold goroutines in He. rewrite Hf in He. by eapply without_pv_accounts.
  - apply goroutines_parts in He as (h1 & h2 & res1 & res2 & E1 & E2 & -> & _); [|done].
    apply with_pv_accounts in E1; [|auto]. apply without_pv_accounts in E2. rewrite length_app, E1, E2. symmetry. apply split_length.
Qed.
Lemma no_throw_pending pods : no_throw (pending_pods pods).
Proof. induction pods; cbn [pending_pods]; no_throw_all; done. Qed.

Lemma no_throw_without_pv attemptEvict pod gv : no_throw (evictPodWithoutPVInternal attemptEvict pod gv).
Proof.
  unfold evictPodWithoutPVInternal, waitForDelete.
  assert (Ha : forall n a, no_throw (evict_attempts n a pod gv)).
  { induction n; intros a; cbn [evict_attempts]; unfold evictPod, deletePod; no_throw_all; done || apply refusal_no_throw. }
  assert (Hp : forall n pods, no_throw (poll_deleted n pods)).
  { induction n; intros pods; cbn [poll_deleted]; no_throw_all; done || apply no_throw_pending. }
  no_throw_all; auto.
Qed.

Lemma no_throw_pass attemptEvict mainContext infos gv pods retryPods : no_throw (evictPodsWithPVInternal attemptEvict mainContext infos gv pods retryPods).
Proof.
  revert retryPods. induction pods; intros retryPods; cbn [evictPodsWithPVInternal]; unfold expired; no_throw_all;
    done || apply evict_one_no_throw || auto.
Qed.

Lemma no_throw_with_pv start attemptEvict pods gv : no_throw (evictPodsWithPv start attemptEvict pods gv).
Proof.
  unfold evictPodsWithPv, evict_or_delete, sortPodsByPriority.
  assert (Hp : forall infos n pods rem, no_throw (evict_passes (start + do_Timeout (op_drain o)) infos gv n pods rem)).
  { intros infos. induction n; intros l rem; cbn [evict_passes]; no_throw_all; done || apply no_throw_pass. }
  no_throw_all; apply accounting_no_throw || apply no_throw_pass || apply Hp.
Qed.

Lemma no_throw_goroutines start attemptEvict pods gv : no_throw (goroutines start attemptEvict pods gv).
Proof.
  unfold goroutines. assert (Hw : forall l, no_throw (evictPodsWithoutPv attemptEvict l gv)).
  { intros l. apply no_throw_par_list, Forall_map, Forall_true. intros pod. apply no_throw_without_pv. }
  destruct (do_ForceDeletePods _); [done|]. destruct (filterPodsWithPv pods). no_throw_all. apply no_throw_par; [apply no_throw_with_pv|done].
Qed.

(** With no eviction to try, pods with volumes report nothing: the drain of a node with such a pod
    never returns.  The machine controller asks for no eviction when the drain timeout is shorter than the
    interval between two. *)
Lemma hangs_without_retries start pods gv h out : do_MaxEvictRetries (op_drain o) <= 0 -> do_ForceDeletePods (op_drain o) = false ->
  (filterPodsWithPv pods).1 <> [] -> exec (evictPods start true pods gv) h out -> match out with Return _ | Raise _ => False | _ => True end.
Proof.
  intros Hn Hf Hp He. apply exec_bind in He as [(h1 & results & h2 & -> & E & He)|(o' & E & Hfail & ->)].
  - enough (Hl : (length results < length pods)%nat).
    { unfold collect in He. rewrite bool_decide_true in He by done. by destruct He as [_ ->]. }
    apply goroutines_parts in E as (h3 & h4 & res1 & res2 & E1 & E2 & -> & _); [|done]. apply without_pv_accounts in E2.
    rewrite split_length, length_app, E2. enough (res1 = []) as ->; [destruct ((filterPodsWithPv pods).1); simpl; [done|lia]|].
    apply exec_bind_ret in E1 as (h5 & sorted & h6 & -> & _ & E1). apply exec_bind_ret in E1 as (h7 & infos & h8 & -> & _ & E1).
    apply exec_bind_ret in E1 as (h9 & r & h10 & -> & E1 & E3). unfold evict_or_delete in E1.
    replace (Z.to_nat (do_MaxEvictRetries (op_drain o))) with O in E1 by lia. destruct E1 as [_ [= ->]]. by destruct E3 as [_ [= ->]].
  - destruct o' as [|e| |]; try done. by apply no_throw_exec in E; [|apply no_throw_goroutines].
Qed.

(** ** Which pods are touched *)

Lemma add_statuses_nonempty fs pod : (fs <> ∅ \/ pod_fatals o pod <> []) <-> add_statuses o fs pod <> ∅.
Proof.
  unfold add_statuses. revert fs. induction (pod_fatals o pod) as [|message l IH]; intros fs; simpl; [tauto|]. rewrite <- IH. split; intros _.
  - left. apply insert_non_empty.
  - by right.
Qed.

Lemma statuses_nonempty pods fs : foldl (add_statuses o) fs pods <> ∅ <-> fs <> ∅ \/ Exists (fun pod => pod_fatals o pod <> []) pods.
Proof.
  revert fs. induction pods as [|pod pods IH]; intros fs; simpl; [rewrite Exists_nil; tauto|].
  rewrite IH, Exists_cons, <- add_statuses_nonempty. tauto.
Qed.

(** The pods chosen are those that pass all filters, and one pod with a fatal verdict stops the drain. *)
Theorem getPodsForDeletion_spec h out : exec getPodsForDeletion h out -> exists x, h = [ev (ListPods nodeName) x] /\
  match x with
  | Err e => out = Raise e
  | Ok pods =>
      if bool_decide (Exists (fun pod => pod_fatals o pod <> []) pods) then exists message, out = Raise (Errorf message)
      else out = Return (filter (fun pod => pod_ok o pod = true) pods)
  end.
Proof.
  intros (x & h' & -> & He). exists x. destruct x as [pods|e]; [|by destruct He as [-> ->]]. cbn [bind] in He. cbv zeta in He.
  pose proof (statuses_nonempty pods ∅) as Hs. case_bool_decide as Hf; cbn [negb] in He; destruct He as [-> ->]; (split; [done|]).
  - rewrite bool_decide_false; [done|]. intros Hx. apply (proj2 Hs); [by right|done].
  - rewrite bool_decide_true; [by eexists|]. apply Hs in Hf as [?|?]; done.
Qed.

Lemma on_pods_evict pods pod gv : pod ∈ pods -> emits (on_pods pods) (evictPod pod gv).
Proof. intros Hp. unfold evictPod. emits_all. by exists pod. Qed.

Lemma on_pods_delete pods pod : pod ∈ pods -> emits (on_pods pods) (deletePod pod).
Proof. intros Hp. unfold deletePod. emits_all. by exists pod. Qed.

Lemma on_pods_pending all pods : emits (on_pods all) (pending_pods pods).
Proof. induction pods; cbn [pending_pods]; emits_all; done. Qed.

Lemma on_pods_without_pv pods attemptEvict pod gv : pod ∈ pods -> emits (on_pods pods) (evictPodWithoutPVInternal attemptEvict pod gv).
Proof.
  intros Hp. unfold evictPodWithoutPVInternal, waitForDelete.
  assert (Ha : forall n a, emits (on_pods pods) (evict_attempts n a pod gv)).
  { induction n; intros a; cbn [evict_attempts]; emits_all; done || by apply on_pods_evict || by apply on_pods_delete || (eapply emits_weaken; [apply harmless_on_pods|apply refusal_harmless]). }
  assert (Hd : forall n l, emits (on_pods pods) (poll_deleted n l)).
  { induction n; intros l; cbn [poll_deleted]; emits_all; done || apply on_pods_pending. }
  emits_all; auto.
Qed.

Lemma pass_remaining attemptEvict mainContext infos gv l retryPods h r :
  exec (evictPodsWithPVInternal attemptEvict mainContext infos gv l retryPods) h (Return r) -> r.1.2 ⊆ l ++ retryPods.
Proof.
  revert retryPods h r. induction l as [|pod l IH]; intros retryPods h r He; [by destruct He as [_ [= ->]]|].
  cbn [evictPodsWithPVInternal] in He. apply exec_bind_ret in He as (h1 & timeout & h2 & -> & _ & He).
  destruct timeout; [destruct He as [_ [= ->]]; simpl; set_solver|].
  apply exec_bind_ret in He as (h3 & out & h4 & -> & _ & He). destruct out as [result| |].
  - apply exec_bind_ret in He as (h5 & rest & h6 & -> & E & _ & [= ->]). apply IH in E. simpl. set_solver.
  - apply IH in He. set_solver.
  - destruct He as [_ [= ->]]. simpl. set_solver.
Qed.

Lemma on_pods_pass pods attemptEvict mainContext infos gv l retryPods : l ⊆ pods ->
  emits (on_pods pods) (evictPodsWithPVInternal attemptEvict mainContext infos gv l retryPods).
Proof.
  revert retryPods. induction l as [|pod l IH]; intros retryPods Hl; cbn [evictPodsWithPVInternal]; [apply emits_ret|].
  assert (Hp : pod ∈ pods) by set_solver. assert (Hl' : l ⊆ pods) by set_solver.
  unfold expired. emits_all; done || by apply evict_one_on_pods || auto.
Qed.

Lemma on_pods_with_pv pods start attemptEvict l gv : l ⊆ pods -> emits (on_pods pods) (evictPodsWithPv start attemptEvict l gv).
Proof.
  intros Hl. unfold evictPodsWithPv. apply emits_bind_strong.
  { unfold sortPodsByPriority. by emits_all. }
  intros l' h' Hs%exec_sort. assert (Hl' : l' ⊆ pods) by (intros x Hx; apply Hl; by rewrite <- Hs). clear Hs Hl l.
  apply emits_bind; [eapply emits_weaken; [apply harmless_on_pods|apply accounting_harmless]|]. intros infos. apply emits_bind; [|intros [[? ?] ?]; apply emits_ret].
  assert (Hpass : forall n l2 rem, l2 ⊆ pods -> rem ⊆ pods ->
    emits (on_pods pods) (evict_passes (start + do_Timeout (op_drain o)) infos gv n l2 rem) /\
    rets (fun r => r.1.2 ⊆ pods) (evict_passes (start + do_Timeout (op_drain o)) infos gv n l2 rem)).
  { induction n as [|n IH]; intros l2 rem H2 Hrem; cbn [evict_passes]; [split; [apply emits_ret|by apply rets_ret]|].
    assert (Hr : forall h r, exec (evictPodsWithPVInternal true (start + do_Timeout (op_drain o)) infos gv l2 []) h (Return r) -> r.1.2 ⊆ pods).
    { intros h r E. apply pass_remaining in E. set_solver. }
    split.
    - apply emits_bind_strong; [by apply on_pods_pass|]. intros [[res rem'] ft] h E%Hr. simpl in E. destruct (_ || _); [apply emits_ret|].
      apply emits_bind; [by emits_all|]. intros _. apply emits_bind; [by apply IH|]. intros; apply emits_ret.
    - apply rets_bind with (fun r => r.1.2 ⊆ pods); [exact Hr|]. intros [[res rem'] ft] E. simpl in E.
      destruct (_ || _); [by apply rets_ret|]. apply rets_bind with (fun _ => True); [done|]. intros _ _.
      apply rets_bind with (fun r => r.1.2 ⊆ pods); [by apply IH|]. intros r' ?. by apply rets_ret. }
  unfold evict_or_delete. destruct attemptEvict.
  - apply emits_bind_strong; [apply Hpass; [done|set_solver]|]. intros [[res rem] ft] h E.
    apply (proj2 (Hpass _ l' [] Hl' ltac:(set_solver))) in E. simpl in E. destruct (_ && _); [|apply emits_ret].
    apply emits_bind; [by apply on_pods_pass|]. intros; apply emits_ret.
  - apply emits_bind; [by apply on_pods_pass|]. intros; apply emits_ret.
Qed.

Lemma on_pods_drain pods start : emits (on_pods pods) (deleteOrEvictPods start pods).
Proof.
  assert (Hw : forall l gv a, l ⊆ pods -> emits (on_pods pods) (evictPodsWithoutPv a l gv)).
  { intros l gv a Hl. apply emits_par_list; [done|]. apply Forall_map, Forall_forall. intros pod Hp. apply on_pods_without_pv. auto. }
  unfold deleteOrEvictPods. case_bool_decide; [apply emits_ret|]. apply emits_bind; [unfold SupportEviction; by emits_all|].
  intros gv. cbv zeta. unfold evictPods, goroutines. apply emits_bind; [|intros; unfold collect, NewAggregate; by emits_all].
  destruct (do_ForceDeletePods _); [by apply Hw|]. pose proof (filterPodsWithPv_partition pods) as Hp. destruct (filterPodsWithPv pods) as [l1 l2].
  simpl in Hp. apply emits_bind; [|intros; apply emits_ret]. apply emits_par; [done| |].
  - apply on_pods_with_pv. intros x Hx. rewrite <- Hp. apply elem_of_app. by left.
  - apply Hw. intros x Hx. rewrite <- Hp. apply elem_of_app. by right.
Qed.

Lemma cordon_spec h r : exec (RunCordonOrUncordon true) h r -> exists x rest, h = ev (GetNode nodeName false) x :: rest /\
  match x with
  | Ok node =>
      if ns_Unschedulable (n_Spec node) then rest = [] /\ r = Return tt
      else exists node' y, rest = [ev (UpdateNode node') y] /\ ns_Unschedulable (n_Spec node') = true /\
        r = match y with Ok _ => Return tt | Err e => Raise e end
  | Err _ => rest = [] /\ r = Return tt
  end.
Proof.
  intros (x & h' & -> & He). exists x, h'. split; [done|]. destruct x as [node|e]; [|done]. cbn [bind call_try] in He.
  destruct (ns_Unschedulable (n_Spec node)); [by rewrite bool_decide_true in He|]. rewrite bool_decide_false in He by done.
  destruct He as (y & h2 & -> & He). exists (mkNode (n_Meta node) (mkNodeSpec (ns_PodCIDR (n_Spec node)) (ns_ProviderID (n_Spec node)) true (ns_Taints (n_Spec node))) (n_Conditions node)), y.
  destruct y; by destruct He as [-> ->].
Qed.

(** Nothing is changed but the node, and pods that were listed and passed the filters, which are evicted or
    deleted. *)
Definition on_chosen (h : history) (e : event) : Prop :=
  match projT1 e with
  | EvictPod ns name _ _ | DeletePod ns name _ => exists pods pod, ev (ListPods nodeName) (Ok pods) ∈ h /\
      pod ∈ pods /\ pod_ok o pod = true /\ ns = po_Namespace pod /\ name = po_Name pod
  | UpdateNode _ => True
  | r => is_read r = true
  end.

Lemma simple_on_chosen start h out : exec (deleteOrEvictPodsSimple start) h out -> forall e, e ∈ h -> on_chosen h e.
Proof.
  unfold on_chosen. intros E e Hin. apply exec_bind in E as [(h2 & pods & h3 & -> & E1 & E)|(o' & E1 & _)];
    apply getPodsForDeletion_spec in E1 as (x & -> & Hx); [|by apply list_elem_of_singleton in Hin as ->].
  apply elem_of_app in Hin as [->%list_elem_of_singleton|Hin]; [done|].
  destruct x as [all|err]; [|done]. case_bool_decide; [by destruct Hx|]. injection Hx as ->.
  set (chosen := filter (fun pod => pod_ok o pod = true) all) in *.
  assert (Hon : on_pods chosen e).
  { apply exec_bind in E as [(h4 & r & h5 & -> & E & E2)|(o' & E & _)]; pose proof (emits_attempt _ _ (on_pods_drain chosen _) _ _ E) as Ha;
      rewrite Forall_forall in Ha; [|by apply Ha]. apply elem_of_app in Hin as [Hin|Hin]; [by apply Ha|].
    destruct r as [[]|err]; [destruct E2 as [-> _]; by apply not_elem_of_nil in Hin|].
    apply exec_bind in E2 as [(h6 & r2 & h7 & -> & E3 & [-> _])|(o' & E3 & _)]; apply getPodsForDeletion_spec in E3 as (z & -> & _);
      rewrite ?app_nil_r in Hin; by apply list_elem_of_singleton in Hin as ->. }
  unfold on_pods in Hon. destruct (projT1 e); try done; destruct Hon as (pod & Hp & -> & ->); apply list_elem_of_filter in Hp as [Hok Hp];
    exists all, pod; split_and!; done || (apply elem_of_app; left; left).
Qed.

(** What a drain does after cordoning the node touches only chosen pods; then so does all of the drain, and
    before it the node was cordoned already, or was cordoned by an update that went through, or could not
    be fetched. *)
Lemma cordon_first (drain : Z -> prog unit) h out :
  (forall t h out, exec (drain t) h out -> forall e, e ∈ h -> on_chosen h e) ->
  exec (let! drainStartedOn := now in do! RunCordonOrUncordon true in drain drainStartedOn) h out ->
  exists t x rest, h = ev Now t :: ev (GetNode nodeName false) x :: rest /\
  (forall node, x = Ok node -> ns_Unschedulable (n_Spec node) = false -> exists node' y rest', rest = ev (UpdateNode node') y :: rest' /\
     ns_Unschedulable (n_Spec node') = true /\ forall e, y = Err e -> rest' = [] /\ out = Raise e) /\
  (forall e, e ∈ h -> on_chosen h e).
Proof.
  intros Hdrain (t & h0 & -> & He). cbn [bind] in He. cbv zeta in He. exists t.
  apply exec_bind in He as [(h1 & [] & h2 & -> & E1 & E)|(o' & E1 & Hfail & ->)]; apply cordon_spec in E1 as (x & rest & -> & Hx).
  - exists x, (rest ++ h2). split; [done|]. split.
    + intros node -> Hu. rewrite Hu in Hx. destruct Hx as (node' & y & -> & Hn & Hy). exists node', y, h2. split_and!; [done..|].
      by intros e ->.
    + assert (Hrest : Forall (fun e => match projT1 e with UpdateNode _ => True | r => is_read r = true end) rest).
      { destruct x as [node|]; [|by destruct Hx as [-> _]]. destruct (ns_Unschedulable _); [by destruct Hx as [-> _]|].
        destruct Hx as (node' & y & -> & _). by repeat constructor. }
      intros e [->|[->|[Hin|Hin]%elem_of_app]%elem_of_cons]%elem_of_cons; try done.
      * rewrite Forall_forall in Hrest. apply Hrest in Hin. unfold on_chosen. by destruct (projT1 e).
      * pose proof (Hdrain _ _ _ E e Hin) as Hc. unfold on_chosen in Hc |- *. destruct (projT1 e); try done; destruct Hc as (pods & pod & Hl & Hrst); exists pods, pod;
          (split; [|done]); right; right; apply elem_of_app; by right.
  - exists x, rest. split; [done|]. destruct x as [node|]; [|destruct Hx as [_ ->]; by destruct Hfail].
    destruct (ns_Unschedulable (n_Spec node)) eqn:Hu; [destruct Hx as [_ ->]; by destruct Hfail|].
    destruct Hx as (node' & y & -> & Hn & ->). split.
    + intros n [= ->] _. exists node', y, []. split_and!; [done..|]. by intros e ->.
    + intros e [->|[->|[->|[]%not_elem_of_nil]%elem_of_cons]%elem_of_cons]%elem_of_cons; done.
Qed.
(** ** Evictions before deletions *)

Definition is_evict (e : event) : bool := match projT1 e with EvictPod _ _ _ _ => true | _ => false end.
Definition is_delete (e : event) : bool := match projT1 e with DeletePod _ _ _ => true | _ => false end.
(** An eviction refused because of a disruption budget. *)
Definition refused (e : event) : bool :=
  match e with existT (EvictPod _ _ _ _) (Err err) => IsTooManyRequests err | _ => false end.
Definition occurs (f : event -> bool) (h : history) : nat := length (filter (fun e => f e = true) h).

Lemma occurs_app f h1 h2 : occurs f (h1 ++ h2) = (occurs f h1 + occurs f h2)%nat.
Proof. unfold occurs. by rewrite filter_app, length_app. Qed.
Lemma occurs_cons f e h : occurs f (e :: h) = ((if f e then 1 else 0) + occurs f h)%nat.
Proof. unfold occurs. rewrite filter_cons. by destruct (f e). Qed.
Lemma occurs_none (f : event -> bool) h : Forall (fun e => f e = false) h -> occurs f h = 0%nat.
Proof. induction 1 as [|e h He _ IH]; [done|]. by rewrite occurs_cons, He. Qed.

(** Neither evicts nor deletes. *)
Definition lenient (e : event) : Prop := is_evict e = false /\ is_delete e = false /\ refused e = false.

Lemma lenient_none h : Forall lenient h -> occurs is_evict h = 0%nat /\ occurs is_delete h = 0%nat /\ occurs refused h = 0%nat.
Proof. intros Hf. split_and!; apply occurs_none; (eapply Forall_impl; [exact Hf|]); by intros e (? & ? & ?). Qed.

Lemma harmless_lenient e : harmless e -> lenient e.
Proof. unfold harmless, lenient, is_evict, is_delete. destruct e as [[] x]; simpl; done. Qed.

Lemma evict_attempts_counts n pod gv h out : exec (evict_attempts n true pod gv) h out ->
  (occurs is_evict h <= n)%nat /\ (occurs is_delete h <= 1)%nat /\ ((0 < occurs is_delete h)%nat -> occurs refused h = n) /\ out <> OutOfFuel.
Proof.
  revert h. induction n as [|n IH]; intros h (x & h' & -> & He); cbn [bind call_try] in He; rewrite !occurs_cons; simpl.
  - assert (h' = [] /\ exists r, out = Return r) as [-> [r ->]]; [|done]. destruct x as [|err]; [destruct He; eauto|].
    destruct (IsNotFound err); destruct He; eauto.
  - destruct x as [|err]; [destruct He as [-> ->]; split_and!; unfold occurs; simpl; done || lia|].
    destruct (IsNotFound err); [destruct He as [-> ->]; split_and!; unfold occurs; simpl; done || lia|]. cbn [andb] in He.
    destruct (IsTooManyRequests err); [|destruct He as [-> ->]; split_and!; unfold occurs; simpl; done || lia].
    apply exec_bind in He as [(h1 & r & h2 & -> & E & He)|(o' & E & Hf & ->)];
      pose proof (emits_weaken _ _ _ harmless_lenient (refusal_harmless _) _ _ E) as (L1 & L2 & L3)%lenient_none; rewrite ?occurs_app, L1, L2, L3.
    + destruct r; [destruct He as [-> ->]; split_and!; unfold occurs; simpl; done || lia|]. destruct He as (y & h3 & -> & He).
      cbn [bind call_ignore] in He. apply IH in He as (H1 & H2 & H3 & H4). rewrite !occurs_cons. simpl. split_and!; done || lia.
    + split_and!; try lia. destruct o'; try done. by apply refusal_ends in E.
Qed.

Lemma poll_deleted_facts n pods h out : exec (poll_deleted n pods) h out -> Forall lenient h /\ exists r, out = Return r.
Proof.
  assert (Hp : forall l h out, exec (pending_pods l) h out -> Forall lenient h /\ exists r, out = Return r).
  { clear. induction l as [|pod l IH]; intros h out He; [destruct He as [-> ->]; eauto|]. destruct He as (x & h' & -> & He). cbn [bind call_try] in He.
    cbv zeta in He. destruct (_ || _); [apply IH in He as [H1 H2]; split; [by constructor|done]|].
    destruct x as [p|err]; [|destruct He as [-> ->]; split; [by constructor|eauto]].
    apply exec_bind in He as [(h1 & r & h2 & -> & E & -> & ->)|(o' & E & Hf & ->)]; apply IH in E as [H1 H2];
      [|by destruct H2 as [? ->]]. rewrite app_nil_r. split; [by constructor|eauto]. }
  revert pods h. induction n as [|n IH]; intros pods h He; [destruct He as [-> ->]; eauto|]. cbn [poll_deleted] in He.
  apply exec_bind in He as [(h1 & r & h2 & -> & E & He)|(o' & E & Hf & ->)]; apply Hp in E as [H1 H2]; [|by destruct H2 as [? ->]].
  destruct r as [[|p l]|err]; try (destruct He as [-> ->]; rewrite app_nil_r; eauto).
  apply IH in He as [H3 H4]. split; [by apply Forall_app|done].
Qed.

(** Eviction comes first: at most [MaxEvictRetries] evictions, at most one deletion, and that only after
    so many refusals. *)
Lemma evictions_bounded pod gv h out : exec (evictPodWithoutPVInternal true pod gv) h out ->
  let retries := Z.to_nat (do_MaxEvictRetries (op_drain o)) in
  (occurs is_evict h <= retries)%nat /\ (occurs is_delete h <= 1)%nat /\
  ((0 < occurs is_delete h)%nat -> occurs refused h = retries) /\ out <> OutOfFuel.
Proof.
  intros He. cbv zeta. unfold evictPodWithoutPVInternal, waitForDelete in He.
  apply exec_bind in He as [(h1 & early & h2 & -> & E & He)|(o' & E & Hf & ->)]; apply evict_attempts_counts in E as (H1 & H2 & H3 & H4).
  2: { split_and!; try done. by destruct o'. }
  assert (Forall lenient h2 /\ out <> OutOfFuel) as [(L1 & L2 & L3)%lenient_none Ho].
  { destruct early; [by destruct He as [-> ->]|]. destruct (do_ForceDeletePods _); [by destruct He as [-> ->]|]. cbv zeta in He.
    apply exec_bind in He as [(h3 & r & h4 & -> & E & -> & ->)|(o' & E & Hf & ->)]; apply poll_deleted_facts in E as [F [r' Hr]].
    - by rewrite app_nil_r.
    - by subst. }
  rewrite !occurs_app, L1, L2, L3. split_and!; try lia. done.
Qed.

(** The pods without volumes are done after a bounded number of calls; each reports a result. *)
Lemma without_pv_reports attemptEvict pod gv h out : exec (evictPodWithoutPVInternal attemptEvict pod gv) h out ->
  out = Panic \/ exists r, out = Return r.
Proof.
  intros He. assert (Hr : forall e, out <> Raise e) by (intros e ->; by apply no_throw_exec in He; [|apply no_throw_without_pv]).
  assert (Ho : out <> OutOfFuel).
  { destruct attemptEvict; [by apply evictions_bounded in He as (_ & _ & _ & Ho)|]. intros ->. revert He.
    unfold evictPodWithoutPVInternal, waitForDelete. intros [(h1 & early & h2 & -> & _ & He)|(o' & E & _ & Ho)]%exec_bind.
    - destruct early; [by destruct He|]. destruct (do_ForceDeletePods _); [by destruct He|]. cbv zeta in He.
      apply exec_bind in He as [(h3 & r & h4 & -> & _ & [_ ?])|(o' & E & _ & Ho)]; [done|].
      apply poll_deleted_facts in E as [_ [r' ->]]. done.
    - revert E. destruct (Z.to_nat _); cbn [evict_attempts andb]; unfold deletePod; intros (x & h' & -> & He);
        (destruct x as [u|err]; cbn [bind call_try] in He; [|destruct (IsNotFound err)]; destruct He as [_ ->]; discriminate Ho). }
  destruct out as [r|e| |]; [right; by exists r|by destruct (Hr e)|by left|done].
Qed.

(** *** The pods with volumes are done in time *)

Section ending.
Context (P : history -> Prop) `{!Splits P}.
Variable start : Z.
Hypothesis accounting_ends : forall pods, ends P start (accounting pods).
Hypothesis evict_one_ends : forall attemptEvict infos gv pod,
  ends P start (evict_one attemptEvict (start + do_Timeout (op_drain o)) infos gv pod).

Lemma pass_ends attemptEvict infos gv pods retryPods :
  ends P start (evictPodsWithPVInternal attemptEvict (start + do_Timeout (op_drain o)) infos gv pods retryPods).
Proof.
  revert retryPods. induction pods as [|pod pods IH]; intros retryPods; cbn [evictPodsWithPVInternal]; unfold expired; ends_all;
    apply evict_one_ends || apply IH.
Qed.

Lemma passes_end infos gv n pods remainingPods : ends P start (evict_passes (start + do_Timeout (op_drain o)) infos gv n pods remainingPods).
Proof.
  revert pods remainingPods. induction n as [|n IH]; intros pods remainingPods; cbn [evict_passes]; ends_all; apply pass_ends || apply IH.
Qed.

Lemma with_pv_ends attemptEvict pods gv : ends P start (evictPodsWithPv start attemptEvict pods gv).
Proof.
  unfold evictPodsWithPv, sortPodsByPriority, evict_or_delete. ends_all; apply accounting_ends || apply passes_end || apply pass_ends.
Qed.
End ending.

(** ** What a drain that succeeds has seen *)

(** The API server has said that the pod is gone: there is none of its name, or another one -- as which also
    counts the empty pod that the client returns with any other error. *)
Definition seen_gone (pod : Pod) (e : event) : Prop :=
  match e with
  | existT (EvictPod ns name _ _) (Err err) | existT (DeletePod ns name _) (Err err) =>
      ns = po_Namespace pod /\ name = po_Name pod /\ IsNotFound err = true
  | existT (GetPod ns name) x => ns = po_Namespace pod /\ name = po_Name pod /\
      match x with Ok p => UID (po_Meta p) <> UID (po_Meta pod) | Err err => IsNotFound err = true \/ UID (po_Meta pod) <> EmptyString end
  | _ => False
  end.

Lemma attempts_gone n attemptEvict pod gv h : exec (evict_attempts n attemptEvict pod gv) h (Return (Some None)) ->
  exists e, e ∈ h /\ seen_gone pod e.
Proof.
  assert (Hcall : forall (attempt : bool) h r, exec (if attempt then evictPod pod gv else deletePod pod) h (Return r) ->
    match r with Err err => IsNotFound err = true -> exists e, e ∈ h /\ seen_gone pod e | Ok _ => True end).
  { intros [] h' r (x & h2 & -> & He); destruct He as [-> [= ->]]; destruct x as [|err]; try done; intros Hn;
      eexists; (split; [left|done]). }
  revert attemptEvict h. induction n as [|n IH]; intros attemptEvict h He; cbn [evict_attempts] in He;
    apply exec_bind_ret in He as (h1 & r & h2 & -> & E1 & E2); [apply (Hcall false) in E1|apply (Hcall attemptEvict) in E1];
    destruct r as [[]|err]; try by destruct E2.
  - destruct (IsNotFound err) eqn:Hn; [|by destruct E2]. destruct (E1 eq_refl) as (e & He & Hg). exists e. split; [|done].
    apply elem_of_app. by left.
  - destruct (IsNotFound err) eqn:Hn.
    { destruct (E1 eq_refl) as (e & He & Hg). exists e. split; [|done]. apply elem_of_app. by left. }
    destruct (attemptEvict && IsTooManyRequests err); [|by destruct E2].
    apply exec_bind_ret in E2 as (h3 & pdbErr & h4 & -> & _ & E2). destruct pdbErr; [by destruct E2|].
    destruct E2 as (x & h5 & -> & E2). apply IH in E2 as (e & He & Hg). exists e. split; [set_solver|done].
Qed.

Lemma poll_gone n pod h : exec (poll_deleted n [pod]) h (Return ([], None)) -> exists e, e ∈ h /\ seen_gone pod e.
Proof.
  revert h. induction n as [|n IH]; intros h He; [by destruct He|]. cbn [poll_deleted pending_pods] in He.
  apply exec_bind_ret in He as (h1 & r & h2 & -> & E1 & E2). destruct E1 as (x & h3 & -> & E1). cbn [bind call_try] in E1. cbv zeta in E1.
  destruct (_ || _) eqn:Eg.
  - exists (ev (GetPod (po_Namespace pod) (po_Name pod)) x). split; [left|]. split_and!; [done..|].
    destruct x as [p|err]; simpl in Eg.
    + by apply negb_true_iff, bool_decide_eq_false in Eg.
    + apply orb_true_iff in Eg as [?|Eg]; [by left|right]. apply negb_true_iff, bool_decide_eq_false in Eg. done.
  - destruct x as [p|err]; [|by destruct E1 as [_ [= ->]]; destruct E2]. destruct E1 as [-> [= ->]]. apply IH in E2 as (e & He & Hg).
    exists e. split; [set_solver|done].
Qed.

Lemma without_pv_gone attemptEvict pod gv h : do_ForceDeletePods (op_drain o) = false ->
  exec (evictPodWithoutPVInternal attemptEvict pod gv) h (Return None) -> exists e, e ∈ h /\ seen_gone pod e.
Proof.
  intros Hf He. apply exec_bind_ret in He as (h1 & early & h2 & -> & E1 & E2). destruct early as [result|].
  - destruct E2 as [-> [= <-]]. rewrite app_nil_r. by eapply attempts_gone.
  - rewrite Hf in E2. apply exec_bind_ret in E2 as (h3 & r & h4 & -> & E & [-> Hr]). unfold waitForDelete in E.
    destruct r as [[|p l] [err|]]; try done. apply poll_gone in E as (e & He & Hg). exists e. split; [set_solver|done].
Qed.

Lemma aggregate_none errors h : exec (NewAggregate errors) h (Return tt) -> errors = [].
Proof. unfold NewAggregate. case_bool_decide; [done|]. destruct (unique _ _) as [|msg [|]]; by intros [_ ?]. Qed.

(** A drain that was not forced and succeeds has seen every pod without volumes, of those it had to remove, gone. *)
Lemma success_means_gone start h : (forall l, arrival l ≡ₚ l) -> do_ForceDeletePods (op_drain o) = false ->
  exec (deleteOrEvictPodsSimple start) h (Return tt) ->
  exists all, ev (ListPods nodeName) (Ok all) ∈ h /\
    forall pod, pod ∈ all -> pod_ok o pod = true -> existsb volIsPvc (po_Volumes pod) = false -> exists e, e ∈ h /\ seen_gone pod e.
Proof.
  intros Harr Hf He. apply exec_bind_ret in He as (h1 & pods & h2 & -> & E1 & E2).
  apply getPodsForDeletion_spec in E1 as (x & -> & Hx). destruct x as [all|err]; [|done].
  case_bool_decide; [by destruct Hx|]. injection Hx as Hx. exists all. split; [left|]. intros pod Hpod Hok Hvol.
  assert (Hch : pod ∈ pods) by (rewrite Hx; by apply list_elem_of_filter). clear Hx. apply exec_bind_ret in E2 as (h3 & r & h4 & -> & E & E3).
  destruct r as [[]|err]; [|by apply exec_bind_ret in E3 as (? & ? & ? & _ & _ & [_ ?])]. destruct E3 as [-> _]. rewrite app_nil_r.
  apply exec_attempt_ret in E.
  unfold deleteOrEvictPods in E. rewrite bool_decide_false in E by (by intros ->; apply not_elem_of_nil in Hch).
  apply exec_bind_ret in E as (h5 & gv & h6 & -> & _ & E). apply exec_bind_ret in E as (h7 & results & h8 & -> & E & Ec).
  apply goroutines_parts in E as (h9 & h10 & res1 & res2 & _ & E2 & -> & _ & Hsub); [|done].
  unfold collect in Ec. case_bool_decide; [by destruct Ec|]. case_bool_decide; [by destruct Ec|]. apply aggregate_none in Ec.
  assert (Hnone : forall x, x ∈ res2 -> x = None).
  { intros [err|] Hin; [|done]. assert (Hin' : err ∈ omap id (arrival (res1 ++ res2))).
    { apply list_elem_of_omap. exists (Some err). split; [|done]. rewrite Harr. set_solver. }
    rewrite Ec in Hin'. by apply not_elem_of_nil in Hin'. }
  assert (Hwithout : pod ∈ (filterPodsWithPv pods).2).
  { unfold filterPodsWithPv. rewrite filter_pods_split. simpl. apply list_elem_of_filter. by rewrite Hvol. }
  apply exec_par_list in E2 as (hs & picks & HF & _ & Hh). apply list_elem_of_lookup in Hwithout as [i Hi].
  destruct (Forall3_lookup_l _ _ _ _ i (evictPodWithoutPVInternal (negb (do_ForceDeletePods (op_drain o)) && negb (bool_decide (gv = EmptyString))) pod gv) HF)
    as (hp & r & Hhp & Hr & Ep).
  { rewrite (list_lookup_fmap _ (filterPodsWithPv pods).2). by rewrite Hi. }
  rewrite (Hnone r) in Ep by (by eapply list_elem_of_lookup_2). apply without_pv_gone in Ep as (e & He & Hg); [|done].
  exists e. split; [|done]. assert (Hine : e ∈ h10).
  { rewrite Hh. apply elem_of_app. left. apply list_elem_of_In, in_concat. exists hp. split; apply list_elem_of_In; [by eapply list_elem_of_lookup_2|done]. }
  apply Hsub in Hine. set_solver.
Qed.

(** ** Errors that count as success *)

(** An error of the API server counts as the pod being gone: the client returns an empty pod with
    every error, and its UID differs. *)
Lemma error_counts_as_deleted pod interval timeout err : UID (po_Meta pod) <> EmptyString -> (0 < poll_checks interval timeout)%nat ->
  exec (waitForDelete [pod] interval timeout) [ev (GetPod (po_Namespace pod) (po_Name pod)) (Err err)] (Return ([], None)).
Proof.
  intros Hu Hn. unfold waitForDelete. destruct (poll_checks interval timeout) as [|n]; [lia|]. cbn [poll_deleted pending_pods].
  apply exec_Call_inv. cbn [bind call_try]. cbv zeta. rewrite bool_decide_false by done. rewrite orb_true_r. done.
Qed.

(** An error of the driver panics, when it comes without a response. *)
(** Two pods with volumes, one of them without a priority, panic. *)
Lemma priority_panic p q l : po_Priority q = None -> exec (sortPodsByPriority (p :: q :: l)) [] Panic.
Proof. intros Hq. unfold sortPodsByPriority. simpl. rewrite Hq. by destruct (po_Priority p). Qed.

End core.

(** ** The options of the machine controller *)

(** Drained as the machine controller does it, every pod is removed that is neither a mirror pod nor
    managed by a DaemonSet, and no pod stops the drain. *)
Lemma node_drain_pods d handler pod : pod_fatals (node_drain d handler) pod = [] /\
  (pod_ok (node_drain d handler) pod = true <->
   Annotations (po_Meta pod) !! MirrorPodAnnotationKey = None /\
   forall ref, GetControllerOf (po_Meta pod) = Some ref -> or_Kind ref <> "DaemonSet").
Proof.
  unfold pod_fatals, pod_ok, pod_filters, mirrorPodFilter, localStorageFilter, unreplicatedFilter, daemonsetFilter. simpl.
  destruct (Annotations (po_Meta pod) !! MirrorPodAnnotationKey), (hasLocalStorage pod), (bool_decide (po_Phase pod = PodSucceeded)),
    (bool_decide (po_Phase pod = PodFailed)), (GetControllerOf (po_Meta pod)) as [ref|]; simpl; try case_bool_decide; simpl; naive_solver.
Qed.

(** ** The machine controller's limit *)

(** A drain timeout shorter than the interval between two evictions leaves no eviction to try. *)
Lemma short_timeout_no_retries c machine : 0 <= getEffectiveDrainTimeout c machine < PodEvictionRetryInterval -> max_evict_retries c machine <= 0.
Proof. intros Ht. unfold max_evict_retries. rewrite (Z.quot_small _ _ Ht). lia. Qed.

(** ** Worlds *)

Definition small_drain (retries : Z) (force : bool) : Options :=
  node_drain (mkDrainOptions (10 * Minute) retries (2 * Minute) (90 * Second) "n1" force) false.

Definition sample_pod (name : string) (volumes : list Volume) : Pod :=
  mkPod (mkMeta name "" "shop" name "1" 1 0 None ∅ ∅ [mkOwnerRef "" "ReplicaSet" "web" "rs" (Some true) None] []) "Running" "n1" volumes (Some 0) (Some 30).
Definition mirror_pod : Pod :=
  mkPod (mkMeta "proxy" "" "shop" "proxy" "1" 1 0 None ∅ {[ MirrorPodAnnotationKey := "x" ]} [] []) "Running" "n1" [] (Some 0) None.
Definition plain_pod := sample_pod "web" [].
Definition pv_pod := sample_pod "db" [mkVolume false (Some "data")].

(** Pods are gone once evicted, but the disruption budget may refuse evictions; no volume is attached.
    The state is the time; sleeping takes time. *)
Definition node_world (refuse : bool) (r : req) (w : Z) : Z * result (answer r) :=
  (match r with Sleep d => w + d | _ => w end,
   match r return result (answer r) with
   | Now => Ok w
   | Sleep _ => Ok tt
   | Schedule => Ok true
   | GetNode _ _ => Ok (mkNode (sample_meta "n1" "n1") (mkNodeSpec "" "" false []) [])
   | UpdateNode n => Ok n
   | ListPods _ => Ok [plain_pod; pv_pod; mirror_pod]
   | ServerGroups => Ok [mkAPIGroup "policy" "policy/v1beta1"]
   | ServerResources _ => Ok [mkAPIResource EvictionSubresource EvictionKind]
   | EvictPod _ _ _ _ => if refuse then Err (mkErr TooManyRequests "disruption budget") else Ok tt
   | DeletePod _ _ _ => Ok tt
   | GetPod _ _ => Err (mkErr NotFound "not found")
   | ListerGetPVC _ _ => Ok "pv-1"
   | ListerGetPV _ => Ok "disk-1"
   | DriverGetVolumeIDs l => Ok (Some l, None)
   | GetNodeVolumesAttached _ => Ok []
   | SelectVolumeAttachment _ _ => Ok None
   | _ => Err (Errorf "unexpected")
   end).

Definition same_order (l : list (option error)) := l.
Definition ten_checks (interval timeout : Z) : nat := 10.

Abbreviation sample_detach := (detach_loop (small_drain 3 false) String.eqb 5 (20 * Second) ["disk-1"]).

Lemma detach_loop_spec_witness : (run (node_world false) sample_detach 0).2 <> OutOfFuel.
Proof.
  refine (proj1 (detach_loop_spec (small_drain 3 false) String.eqb 5 (20 * Second) ["disk-1"] 0 _ _ _ _ _ (run_exec (node_world false) sample_detach 0))).
  - vm_compute. repeat split; discriminate.
  - lia.
  - reflexivity.
Defined.

Lemma error_counts_as_deleted_witness :
  exec (waitForDelete ten_checks [plain_pod] Interval Minute) [ev (GetPod "shop" "web") (Err (Errorf "connection refused"))] (Return ([], None)).
Proof. apply (error_counts_as_deleted ten_checks plain_pod Interval Minute (Errorf "connection refused")); [discriminate|unfold ten_checks; lia]. Defined.

Lemma filterSharedPVs_spec_witness :
  filterSharedPVs map_to_list {[ "a" := ["pv-1"; "pv-2"]; "b" := ["pv-2"] ]} !! "a" = Some ["pv-1"].
Proof.
  rewrite (filterSharedPVs_spec map_to_list {[ "a" := ["pv-1"; "pv-2"]; "b" := ["pv-2"] ]} "a" (fun m => reflexivity _)). vm_compute. reflexivity.
Defined.
