(* ===== verification/Drain.v ===== *)
(** * Draining a node (pkg/util/provider/drain/drain.go)

    The drain of the provider library: misconfigured disruption budgets end the attempts to evict, and a pod
    with volumes waits for its volumes to be detached and attached elsewhere.  The rest is in DrainCore.v. *)
From Stdlib Require Import ZArith Lia Ascii String.
From stdpp Require Import base gmap strings list sorting.
From S2P Require Import Prelude GoLib Types Labels Prog Samples MachineClasses MachineUtil MachineDeletion DrainCore.
Open Scope Z_scope.

Definition reattachTimeoutErr := "Timeout occurred while waiting for PV to reattach to a different node".
Record PodVolumeInfo := mkPodVolumes { persistantVolumeList : list string; volumeList : list string }.

(** ** Disruption budgets *)

Definition isMisconfiguredPdb (pdb : PodDisruptionBudget) : bool :=
  if negb (bool_decide (Generation (pdb_Meta pdb) = pdb_ObservedGeneration pdb)) then false
  else (0 <? pdb_ExpectedPods pdb) && (pdb_ExpectedPods pdb <=? pdb_CurrentHealthy pdb) && bool_decide (pdb_PodDisruptionsAllowed pdb = 0).

Definition getPdbForPod (pod : Pod) : prog (option PodDisruptionBudget) :=
  let! r := call_try (ListerPodDisruptionBudgets pod) in
  match r with
  | Err _ => Ret None
  | Ok pdbs => let! pdb := deref (head pdbs) in Ret (Some pdb)
  end.

Definition misconfigured (pod : Pod) : prog (option error) :=
  let! pdb := getPdbForPod pod in
  match pdb with
  | Some pdb =>
      if isMisconfiguredPdb pdb then
        Ret (Some (Errorf ("error while evicting pod " +:+ quoted (po_Name pod) +:+ ": pod disruption budget " +:+
          Namespace (pdb_Meta pdb) +:+ "/" +:+ Name (pdb_Meta pdb) +:+ " is misconfigured and requires zero voluntary evictions")))
      else Ret None
  | None => Ret None
  end.

Section drain.
Variable o : Options.
Variable regexp_MatchString : string -> string -> bool.
Variable range_statuses : podStatuses -> list (string * list string).
Variable range_volumes : podStatuses -> list (string * list string).
Variable arrival : list (option error) -> list (option error).
Variable poll_checks : Z -> Z -> nat.
(** Fuel of the loops that end by the clock or by events. *)
Variable fuel : nat.
Context `{!GoSort}.

Abbreviation nodeName := (do_nodeName (op_drain o)).
Abbreviation filterSharedPVs := (filterSharedPVs range_volumes).
Abbreviation detach_loop := (detach_loop o regexp_MatchString).
Abbreviation evictPod := (evictPod o).

(** ** Accounting of volumes *)

(** The response is read whatever the error is. *)
Definition getVolIDsFromDriver (pvNames : list string) : prog (list string * option error) :=
  let! pvSpecs := for_fold pvNames [] (fun pvSpecs pvName =>
    let! pv := get_retrying GetPvDetailsMaxRetries (call_try (ListerGetPV pvName)) in
    Ret (pvSpecs ++ option_list pv)) in
  let! r := call_try (DriverGetVolumeIDs pvSpecs) in
  let '(response, err) := match r with Ok x => x | Err err => (None, Some err) end in
  let! volumeIDs := deref response in
  Ret (volumeIDs, err).

Definition doAccountingOfPvs (pods : list Pod) : prog (gmap string PodVolumeInfo) :=
  let! pvMap := for_fold pods ∅ (fun pvMap pod =>
    let! podPVs := getPVList pod in
    Ret (<[getPodKey pod := podPVs]> pvMap)) in
  for_fold (range_volumes (filterSharedPVs pvMap)) ∅ (fun infos kv =>
    let! r := getVolIDsFromDriver kv.2 in
    match r.2 with
    | Some _ => Ret infos
    | None => Ret (<[kv.1 := mkPodVolumes kv.2 r.1]> infos)
    end).

(** ** Pods with volumes *)

Definition waitForDetach (deadline : Z) (info : PodVolumeInfo) : prog (option error) :=
  if bool_decide (volumeList info = []) || bool_decide (nodeName = EmptyString) then Ret None
  else detach_loop fuel deadline (volumeList info).

Definition isDesiredReattachment (va : VolumeAttachment) (previousNodeName : string) : bool :=
  va_Attached va && negb (bool_decide (va_NodeName va = previousNodeName)).

(** Without a handler the channel is nil and nothing but the deadline comes. *)
Fixpoint reattach_loop (n : nat) (deadline : Z) (worker : option nat) (waiting : gset string) : prog (option error) :=
  match n with
  | O => Starve
  | S n =>
      let! r := call_try (SelectVolumeAttachment worker deadline) in
      let event : option VolumeAttachment := match r with Ok event => event | Err _ => None end in
      match worker, event with
      | Some _, Some incomingEvent =>
          let! persistantVolumeName := deref (va_PersistentVolumeName incomingEvent) in
          let waiting :=
            if bool_decide (persistantVolumeName ∈ waiting) && isDesiredReattachment incomingEvent nodeName
            then waiting ∖ {[ persistantVolumeName ]} else waiting in
          if bool_decide (waiting = ∅) then Ret None else reattach_loop n deadline worker waiting
      | _, _ => Ret (Some (Errorf reattachTimeoutErr))
      end
  end.

Definition waitForReattach (deadline : Z) (info : PodVolumeInfo) (worker : option nat) : prog (option error) :=
  if bool_decide (persistantVolumeList info = []) || bool_decide (nodeName = EmptyString) then Ret None
  else reattach_loop fuel deadline worker (match worker with Some _ => list_to_set (persistantVolumeList info) | None => ∅ end).

Definition checkAndDeleteWorker (worker : option nat) : prog unit :=
  match worker with Some w => call_ignore (DeleteVolumeWorker w) | None => Ret tt end.

(** The wait for the volumes of a pod that is accepted for deletion. *)
Definition wait_for_volumes (mainContext : Z) (info : PodVolumeInfo) (pod : Pod) (worker : option nat) : prog pv_outcome :=
  let! ctx := context_WithTimeout mainContext (getTerminationGracePeriod pod + do_PvDetachTimeout (op_drain o)) in
  let! err := waitForDetach ctx info in
  match err with
  | Some err =>
      if IsNotFound err then do! checkAndDeleteWorker worker in Ret NodeGone
      else do! checkAndDeleteWorker worker in Ret (Reported (Some err))
  | None =>
      let! ctx := context_WithTimeout mainContext (do_PvReattachTimeout (op_drain o)) in
      let! err := waitForReattach ctx info worker in
      do! checkAndDeleteWorker worker in
      Ret (Reported (match err with
                     | Some err => if bool_decide (err_msg err = reattachTimeoutErr) then None else Some err
                     | None => None
                     end))
  end.

Definition evict_pod_with_pv (attemptEvict : bool) (mainContext : Z) (podVolumeInfoMap : gmap string PodVolumeInfo)
    (policyGroupVersion : string) (pod : Pod) : prog pv_outcome :=
  let! worker :=
    (if volumeAttachmentHandler o then Call AddVolumeWorker (fun x => Ret (Some (match x with Ok w => w | Err _ => 0%nat end)))
     else Ret None) in
  let! r := (if attemptEvict then evictPod pod policyGroupVersion else deletePod pod) in
  match r with
  | Ok _ => wait_for_volumes mainContext (default (mkPodVolumes [] []) (podVolumeInfoMap !! getPodKey pod)) pod worker
  | Err err =>
      if attemptEvict && IsTooManyRequests err then
        let! pdbErr := misconfigured pod in
        do! checkAndDeleteWorker worker in
        Ret (match pdbErr with Some pdbErr => Reported (Some pdbErr) | None => TryAgain end)
      else
        do! checkAndDeleteWorker worker in
        Ret (if IsNotFound err then Reported None else TryAgain)
  end.
#[local] Instance provider_steps : DrainSteps PodVolumeInfo := {|
  refusal := misconfigured; accounting := doAccountingOfPvs; evict_one := evict_pod_with_pv |}.

(** The parts of the core, as they are in this drain. *)
Definition goroutines := DrainCore.goroutines o poll_checks.
Definition evictPodWithoutPVInternal := DrainCore.evictPodWithoutPVInternal o poll_checks.

Definition RunDrain : prog unit :=
  let! drainStartedOn := now in
  do! RunCordonOrUncordon o true in
  deleteOrEvictPodsSimple o range_statuses arrival poll_checks drainStartedOn.

(** ** What the core relies on *)

Lemma no_throw_misconfigured pod : no_throw (misconfigured pod).
Proof. unfold misconfigured, getPdbForPod. no_throw_all. Qed.

Lemma no_throw_accounting pods : no_throw (doAccountingOfPvs pods).
Proof. unfold doAccountingOfPvs, getPVList, getVolIDsFromDriver. no_throw_all; apply no_throw_retrying; no_throw_all. Qed.

Lemma no_throw_reattach n deadline worker waiting : no_throw (reattach_loop n deadline worker waiting).
Proof. revert waiting. induction n; intros waiting; cbn [reattach_loop]; no_throw_all; done || apply IHn. Qed.

Lemma no_throw_one attemptEvict mainContext infos gv pod : no_throw (evict_pod_with_pv attemptEvict mainContext infos gv pod).
Proof.
  unfold evict_pod_with_pv, wait_for_volumes, waitForDetach, waitForReattach, context_WithTimeout, checkAndDeleteWorker, evictPod, deletePod.
  no_throw_all; done || apply no_throw_misconfigured || apply no_throw_detach || apply no_throw_reattach.
Qed.

Lemma misconfigured_no_starve pod h : ~ exec (misconfigured pod) h OutOfFuel.
Proof.
  unfold misconfigured, getPdbForPod. intros (x & h' & -> & He). destruct x as [pdbs|err]; cbn [bind] in He; [|by destruct He].
  destruct pdbs; cbn [head deref bind] in He; [by destruct He|]. by destruct (isMisconfiguredPdb _); destruct He.
Qed.

Lemma misconfigured_harmless pod : emits harmless (misconfigured pod).
Proof. unfold misconfigured, getPdbForPod. by emits_all. Qed.

Lemma retrying_harmless {A} n (get : prog (result A)) : emits harmless get -> emits harmless (get_retrying n get).
Proof. intros Hg. induction n; cbn [get_retrying]; emits_all; done. Qed.

Lemma accounting_of_pvs_harmless l : emits harmless (doAccountingOfPvs l).
Proof. unfold doAccountingOfPvs, getPVList, getVolIDsFromDriver. emits_all; try done; apply retrying_harmless; by emits_all. Qed.

Lemma volumes_harmless mainContext info pod worker : emits harmless (wait_for_volumes mainContext info pod worker).
Proof.
  assert (Hd : forall n d l, emits harmless (detach_loop n d l)).
  { induction n; intros; cbn [detach_loop]; unfold expired; emits_all; done. }
  assert (Hr : forall n d w l, emits harmless (reattach_loop n d w l)).
  { induction n; intros; cbn [reattach_loop]; emits_all; done. }
  unfold wait_for_volumes, waitForDetach, waitForReattach, context_WithTimeout, checkAndDeleteWorker. emits_all; done || apply Hd || apply Hr.
Qed.

Lemma on_pods_one pods attemptEvict mainContext infos gv pod : pod ∈ pods -> emits (on_pods pods) (evict_pod_with_pv attemptEvict mainContext infos gv pod).
Proof.
  intros Hp. unfold evict_pod_with_pv, checkAndDeleteWorker.
  emits_all; done || by apply on_pods_evict || by apply on_pods_delete ||
    (eapply emits_weaken; [apply harmless_on_pods|apply misconfigured_harmless || apply volumes_harmless]).
Qed.

#[local] Instance provider_steps_laws : DrainStepsLaws PodVolumeInfo.
Proof.
  split; [apply misconfigured_harmless|apply no_throw_misconfigured|apply misconfigured_no_starve|apply accounting_of_pvs_harmless|
    apply no_throw_accounting|apply on_pods_one|apply no_throw_one].
Qed.

(** ** The drain *)

(** *** The goroutine of the pods with volumes comes to its end *)

(** Attachments handed to the goroutine, or the end of its waiting for one. *)
Definition is_select (e : event) : bool := match projT1 e with SelectVolumeAttachment _ _ => true | _ => false end.
Definition few_attachments (h : history) : Prop := (occurs is_select h < fuel)%nat.

#[local] Instance few_splits : Splits few_attachments.
Proof. intros h1 h2. unfold few_attachments. rewrite occurs_app. lia. Qed.

(** Every round of the loop takes an attachment. *)
Lemma reattach_rounds n deadline worker waiting h : exec (reattach_loop n deadline worker waiting) h OutOfFuel ->
  (n <= occurs is_select h)%nat.
Proof.
  revert waiting h. induction n as [|n IH]; intros waiting h He; [lia|]. destruct He as (x & h' & -> & He). cbn [bind] in He.
  rewrite occurs_cons. cbn [is_select projT1]. enough (n <= occurs is_select h')%nat by lia.
  destruct worker as [w|]; [|by destruct He]. destruct x as [[va|]|]; [|by destruct He..].
  destruct (va_PersistentVolumeName va) as [pv|]; [|by destruct He]. cbn [deref bind] in He. cbv zeta in He.
  case_bool_decide; [by destruct He|]. by apply IH in He.
Qed.

Lemma reattach_ends t0 deadline worker waiting : ends few_attachments t0 (reattach_loop fuel deadline worker waiting).
Proof.
  split.
  - generalize fuel as n. intros n. revert waiting. induction n as [|n IH]; intros waiting; cbn [reattach_loop]; emits_all; done || apply IH.
  - intros t h out _ _ HP He ->. apply reattach_rounds in He. unfold few_attachments in HP. lia.
Qed.

Lemma misconfigured_ends P `{!Splits P} t0 pod : ends P t0 (misconfigured pod).
Proof. unfold misconfigured, getPdbForPod. by ends_all. Qed.

Lemma accounting_of_pvs_ends P `{!Splits P} t0 pods : ends P t0 (doAccountingOfPvs pods).
Proof.
  unfold doAccountingOfPvs, getPVList, getVolIDsFromDriver. ends_all; apply ends_retrying; try done; by ends_all.
Qed.

Lemma worker_ends P `{!Splits P} t0 worker : ends P t0 (checkAndDeleteWorker worker).
Proof. unfold checkAndDeleteWorker. by ends_all. Qed.

Lemma one_with_pv_ends start attemptEvict infos gv pod : (0 < fuel)%nat ->
  do_Timeout (op_drain o) <= VolumeDetachPollInterval * (Z.of_nat fuel - 1) ->
  ends few_attachments start (evict_pod_with_pv attemptEvict (start + do_Timeout (op_drain o)) infos gv pod).
Proof.
  intros Hf Ht. unfold evict_pod_with_pv, wait_for_volumes, waitForDetach, waitForReattach, evictPod, deletePod.
  ends_step; [destruct (volumeAttachmentHandler o); [by apply ends_Call|apply ends_ret]|]. ends_step; [by ends_all|].
  match goal with r : result unit |- _ => destruct r as [[]|err] end; [|by ends_all; refine (misconfigured_ends _ _ _) || refine (worker_ends _ _ _)].
  apply ends_context; [apply _|]. intros ctx Hctx. ends_step.
  { destruct (_ || _); [apply ends_ret|]. apply ends_detach; [done|lia]. }
  match goal with r : option error |- _ => destruct r as [err|] end; [by ends_all; refine (worker_ends _ _ _)|].
  apply ends_context; [apply _|]. intros ctx' _. ends_step; [|ends_all; refine (worker_ends _ _ _)].
  destruct (_ || _); [apply ends_ret|apply reattach_ends].
Qed.

(** C23: the receiver of the results gets one for each pod and does not wait for ever.  Where evictions are
    tried and not forced, at least one has to be tried for each pod.  Then the goroutine of a pod without
    volumes ends after a bounded number of calls, whatever they answer, with one result; the goroutine that
    takes all pods with volumes, when the drain timeout has passed on its clock and no more attachments come in
    than [fuel], at the latest, with as many results as it has pods; and when all have returned, the number of
    results is the number of pods, so that the receiver returns with the errors among them and no sender is
    left behind.  A goroutine that does not return panics: on a driver that answers with nothing, say. *)
Theorem drain_results_complete start attemptEvict pods gv :
  (attemptEvict = true -> do_ForceDeletePods (op_drain o) = false -> 0 < do_MaxEvictRetries (op_drain o)) ->
  (forall pod h out, exec (evictPodWithoutPVInternal attemptEvict pod gv) h out -> out = Panic \/ exists r, out = Return r) /\
  (forall h out, do_ForceDeletePods (op_drain o) = false ->
    do_Timeout (op_drain o) <= VolumeDetachPollInterval * (Z.of_nat fuel - 1) -> honest_clock start h -> few_attachments h ->
    exec (evictPodsWithPv o start attemptEvict (filterPodsWithPv pods).1 gv) h out ->
    out = Panic \/ exists results, out = Return results /\ length results = length (filterPodsWithPv pods).1) /\
  (forall h results, exec (goroutines start attemptEvict pods gv) h (Return results) ->
    length results = length pods /\ collect arrival (length pods) results = NewAggregate (omap id (arrival results))).
Proof.
  intros Hn. split_and!.
  - intros pod h out He. by eapply (without_pv_reports o poll_checks).
  - intros h out Hf Ht Hc Hs He. assert (Hfuel : (0 < fuel)%nat) by (unfold few_attachments in Hs; lia).
    assert (Ho : out <> OutOfFuel).
    { refine (proj2 (with_pv_ends o few_attachments start (accounting_of_pvs_ends _ start) _ attemptEvict _ gv) start h out _ Hc Hs He); [|lia].
      intros. by apply one_with_pv_ends. }
    destruct out as [results|e| |]; [|exfalso; revert He; apply no_throw_exec, no_throw_with_pv; apply _|by left|done].
    right. exists results. split; [done|]. eapply with_pv_accounts; [|exact He]. auto.
  - intros h results. by apply results_complete.
Qed.

(** With no eviction to try, pods with volumes report nothing: the drain of a node with such a pod
    never returns.  The machine controller asks for no eviction when the drain timeout is shorter than the
    interval between two. *)
Theorem drain_hangs_without_retries start pods gv h out : do_MaxEvictRetries (op_drain o) <= 0 -> do_ForceDeletePods (op_drain o) = false ->
  (filterPodsWithPv pods).1 <> [] -> exec (evictPods o arrival poll_checks start true pods gv) h out -> match out with Return _ | Raise _ => False | _ => True end.
Proof. intros Hn Hf Hp He. apply (hangs_without_retries _ _ _ _ _ _ _ _ Hn Hf Hp He). Qed.

(** C24: a drain cordons first and touches only pods of the node that passed the filters.  Nothing is
    evicted unless the node was cordoned before, or was cordoned by an update that went through, or could
    not be fetched. *)
Theorem drain_touches_its_pods h out : exec RunDrain h out ->
  exists t x rest, h = ev Now t :: ev (GetNode nodeName false) x :: rest /\
  (forall node, x = Ok node -> ns_Unschedulable (n_Spec node) = false -> exists node' y rest', rest = ev (UpdateNode node') y :: rest' /\
     ns_Unschedulable (n_Spec node') = true /\ forall e, y = Err e -> rest' = [] /\ out = Raise e) /\
  (forall e, e ∈ h -> on_chosen o h e).
Proof. intros He. refine (cordon_first _ _ _ _ _ He). intros t h' out'. apply simple_on_chosen; apply _. Qed.

(** C34: eviction comes first.  For a pod without volumes at most [MaxEvictRetries] evictions are tried;
    it is deleted by force at most once, and only after that many evictions were all refused because of a
    disruption budget; and the attempts end, whatever the API server answers. *)
Theorem eviction_before_deletion pod gv h out : exec (evictPodWithoutPVInternal true pod gv) h out ->
  let retries := Z.to_nat (do_MaxEvictRetries (op_drain o)) in
  (occurs is_evict h <= retries)%nat /\ (occurs is_delete h <= 1)%nat /\
  ((0 < occurs is_delete h)%nat -> occurs refused h = retries) /\ out <> OutOfFuel.
Proof. apply evictions_bounded, _. Qed.

(** An error of the driver panics, when it comes without a response. *)
Lemma volume_ids_panic err : exec (getVolIDsFromDriver []) [ev (DriverGetVolumeIDs []) (Ok (None, Some err))] Panic.
Proof. unfold getVolIDsFromDriver. cbn [for_fold bind]. by apply exec_Call_inv. Qed.
End drain.

(** ** A small node *)

Abbreviation sample_steps retries := (provider_steps (small_drain retries false) String.eqb map_to_list 50).

Abbreviation long_steps := (provider_steps (small_drain 3 false) String.eqb map_to_list 121).
Abbreviation sample_with_pv :=
  (evictPodsWithPv (DrainSteps0 := long_steps) (small_drain 3 false) 0 true [pv_pod] "policy/v1beta1").
Abbreviation sample_goroutines pods :=
  (DrainCore.goroutines (DrainSteps0 := long_steps) (small_drain 3 false) ten_checks 0 true pods "policy/v1beta1").
Abbreviation sample_pv_run := (run (node_world true) sample_with_pv 0).
Abbreviation sample_all_run := (run (node_world true) (sample_goroutines [plain_pod; pv_pod]) 0).

Lemma drain_results_complete_witness :
  (sample_pv_run.2 = Panic \/ exists results, sample_pv_run.2 = Return results /\ length results = 1%nat) /\
  exists results, sample_all_run.2 = Return results /\ length results = 2%nat.
Proof.
  destruct (drain_results_complete (small_drain 3 false) String.eqb map_to_list same_order ten_checks 121 0 true [plain_pod; pv_pod]
    "policy/v1beta1" (fun _ _ => eq_refl)) as (_ & H2 & H3). split.
  - apply (H2 sample_pv_run.1.2 sample_pv_run.2); [reflexivity|by vm_compute|vm_compute; repeat split; discriminate|vm_compute; lia|].
    apply (run_exec (node_world true) sample_with_pv 0).
  - assert (Hr : exists results, sample_all_run.2 = Return results) by (eexists; vm_compute; reflexivity). destruct Hr as [results Hr].
    pose proof (run_exec (node_world true) (sample_goroutines [plain_pod; pv_pod]) 0) as He. rewrite Hr in He.
    exists results. split; [exact Hr|]. exact (proj1 (H3 _ _ He)).
Defined.

Abbreviation sample_evict retries pods :=
  (evictPods (DrainSteps0 := sample_steps retries) (small_drain retries false) same_order ten_checks 0 true pods "policy/v1beta1").

Lemma drain_hangs_without_retries_witness :
  match (run (node_world false) (sample_evict 0 [plain_pod; pv_pod]) 0).2 with Return _ | Raise _ => False | _ => True end.
Proof.
  apply (drain_hangs_without_retries (small_drain 0 false) String.eqb map_to_list same_order ten_checks 50 0 [plain_pod; pv_pod] "policy/v1beta1"
    _ _ ltac:(reflexivity) eq_refl ltac:(discriminate) (run_exec (node_world false) (sample_evict 0 [plain_pod; pv_pod]) 0)).
Defined.

Abbreviation sample_drain := (RunDrain (small_drain 3 false) String.eqb map_to_list map_to_list same_order ten_checks 50).

Abbreviation sample_drain_history := ((run (node_world false) sample_drain 0).1.2).

Lemma drain_touches_its_pods_witness : occurs is_evict sample_drain_history = 2%nat /\ forall e, e ∈ sample_drain_history -> on_chosen (small_drain 3 false) sample_drain_history e.
Proof.
  split; [vm_compute; reflexivity|].
  destruct (drain_touches_its_pods (small_drain 3 false) String.eqb map_to_list map_to_list same_order ten_checks 50 _ _
    (run_exec (node_world false) sample_drain 0)) as (t & x & rest & _ & _ & Hc). exact Hc.
Defined.

Abbreviation sample_one retries := (DrainCore.evictPodWithoutPVInternal (DrainSteps0 := sample_steps retries) (small_drain retries false) ten_checks true plain_pod "policy/v1beta1").

Abbreviation sample_one_history := ((run (node_world true) (sample_one 3) 0).1.2).

Lemma eviction_before_deletion_witness :
  (occurs is_delete sample_one_history <= 1)%nat /\
  ((0 < occurs is_delete sample_one_history)%nat -> occurs refused sample_one_history = 3%nat).
Proof.
  destruct (eviction_before_deletion (small_drain 3 false) String.eqb map_to_list ten_checks 50 plain_pod "policy/v1beta1" _ _ (run_exec (node_world true) (sample_one 3) 0))
    as (_ & H2 & H3 & _).
  split; [exact H2|exact H3].
Defined.
