(* ===== verification/InTreeMachine.v ===== *)
(** * The machine controller of the machine controller manager (pkg/controller/machine.go,
      machine_util.go and machine_bootstrap_token.go)

    The older of the two machine controllers, for machines of provider-specific classes; it calls the
    drivers of pkg/driver directly.  Helpers that are textual copies of those of the newer one (effective
    timeouts, [isHealthy], [nodeConditionsHaveChanged], the node template maps, bootstrap tokens) are
    taken from MachineUtil and NodeTemplate. *)
From Stdlib Require Import ZArith Lia Ascii String.
From stdpp Require Import base gmap strings list.
From S2P Require Import Prelude GoLib Types Labels Prog Samples NodeOps Validation ClassValidation Driver.
From S2P Require Import NodeTemplate MachineClasses MachineUtil MachineDeletion MachineController MachineSetController Freezing.
Open Scope Z_scope.

Definition MachineEnqueueRetryPeriod : Z := 2 * Minute.
Definition DeleteFinalizerName := MCMFinalizerName.
Definition InTreeTerminationCondition := "Termination".
(** What the source compares the driver's answer with. *)
Definition fake_id := "fake".

(** The object a client returns with an error. *)
Definition zero_machine : Machine := mkMachine zero_meta zero_machine_spec zero_machine_status.

(** ** The queue *)

Definition enqueueMachine (machine : Machine) : prog unit :=
  if bool_decide (cl_Kind (sp_Class (m_Spec machine)) ∈ provider_kinds) then call_ignore (EnqueueMachine (KeyFunc (m_Meta machine)))
  else Ret tt.
Definition enqueueMachineAfter (machine : Machine) (after : Z) : prog unit :=
  if bool_decide (cl_Kind (sp_Class (m_Spec machine)) ∈ provider_kinds) then
    call_ignore (EnqueueMachineAfter (KeyFunc (m_Meta machine)) after)
  else Ret tt.

Definition addMachine (machine : Machine) : prog unit := enqueueMachine machine.
Definition updateMachine (oldMachine newMachine : Machine) : prog unit := enqueueMachine newMachine.
Definition deleteMachine (machine : Machine) : prog unit := enqueueMachine machine.

(** ** The machine of a node *)

(** No machine is no error. *)
Definition getMachineFromNode (nodeName : string) : prog (result (option Machine)) :=
  let! req := deref (NewRequirement "node" OEquals [nodeName]) in
  let! r := call_try ListerMachines in
  let machines := match r with
    | Ok l => filter (fun m => sel_Matches (InternalSelector [req]) (Labels (m_Meta m)) = true) l
    | Err _ => []
    end in
  Ret (match machines with
       | [] => Ok None
       | [machine] => Ok (Some machine)
       | _ => Err (Errorf "Multiple machines matching node")
       end).

Definition addNodeToMachine (node : Node) : prog unit :=
  let! r := getMachineFromNode (KeyFunc (n_Meta node)) in
  match r with
  | Ok (Some machine) =>
      if negb (bool_decide (m_Phase machine = MachineCrashLoopBackOff)) &&
         nodeConditionsHaveChanged (st_Conditions (m_Status machine)) (n_Conditions node)
      then enqueueMachine machine else Ret tt
  | _ => Ret tt
  end.
Definition updateNodeToMachine (oldNode newNode : Node) : prog unit := addNodeToMachine newNode.
Definition deleteNodeToMachine (key : string) : prog unit :=
  let! r := getMachineFromNode key in
  match r with Ok (Some machine) => enqueueMachine machine | _ => Ret tt end.

(** ** Finalizers *)

(** The list was computed from an older version of the machine; an update that fails is tried again
    without end. *)
Fixpoint updateMachineFinalizers (rounds : nat) (ns name : string) (finalizers : list string) : prog unit :=
  match rounds with
  | O => Starve
  | S rounds =>
      let! r := call_try (GetMachine ns name) in
      match r with
      | Err _ => Ret tt
      | Ok machine =>
          let! u := call_try (UpdateMachine (m_set_Meta (set_Finalizers finalizers) machine)) in
          match u with
          | Ok _ => Ret tt
          | Err _ => updateMachineFinalizers rounds (Namespace (m_Meta machine)) (m_Name machine) finalizers
          end
      end
  end.

Definition addMachineFinalizers (rounds : nat) (machine : Machine) : prog unit :=
  if has_finalizer DeleteFinalizerName (m_Meta machine) then Ret tt
  else updateMachineFinalizers rounds (Namespace (m_Meta machine)) (m_Name machine) (with_finalizer DeleteFinalizerName (m_Meta machine)).
Definition deleteMachineFinalizers (rounds : nat) (machine : Machine) : prog unit :=
  if has_finalizer DeleteFinalizerName (m_Meta machine) then
    updateMachineFinalizers rounds (Namespace (m_Meta machine)) (m_Name machine) (without_finalizer DeleteFinalizerName (m_Meta machine))
  else Ret tt.

(** ** Conditions of nodes *)

Definition UpdateNodeTerminationCondition (machine : Machine) : prog unit :=
  if bool_decide (m_Phase machine = EmptyString) then Ret tt
  else
    let nodeName := st_Node (m_Status machine) in
    let! t1 := now in
    let! t2 := now in
    let terminationCondition := mkNodeCond InTreeTerminationCondition ConditionTrue t1 t2 EmptyString EmptyString in
    let! r := attempt (GetNodeCondition nodeName InTreeTerminationCondition) in
    match r with
    | Err err => if IsNotFound err then Ret tt else Throw err
    | Ok cond =>
        let terminationCondition :=
          match cond with
          | Some cond =>
              if bool_decide (m_Phase machine = MachineTerminating) then
                mkNodeCond InTreeTerminationCondition ConditionTrue t1 t2 (nc_Reason cond) (nc_Message cond)
              else setTerminationReasonByPhase (m_Phase machine) terminationCondition
          | None => setTerminationReasonByPhase (m_Phase machine) terminationCondition
          end in
        let! r := attempt (AddOrUpdateConditionsOnNode nodeName terminationCondition) in
        match r with
        | Err err => if IsNotFound err then Ret tt else Throw err
        | Ok _ => Ret tt
        end
    end.

Section operations.
Context `{!Encoders} (c : controller).

(** ** Node templates *)

(** The lister's error is dropped; the update's is returned, and success is no reason to stop. *)
Definition syncMachineNodeTemplates (machine : Machine) : prog unit :=
  let! r := call_try (ListerGetNode (st_Node (m_Status machine))) in
  match r with
  | Err _ => Ret tt
  | Ok node =>
      let initializedNodeAnnotation := bool_decide (n_Annotations node = ∅) in
      let! lastAppliedALT := lift (match n_Annotations node !! LastAppliedALTAnnotation with
        | Some s => json_Unmarshal s
        | None => Ok zero_node_template
        end) in
      let '(nodeCopy, annotationsChanged) := SyncMachineAnnotations machine node (Annotations (nt_Meta lastAppliedALT)) in
      let '(nodeCopy, labelsChanged) := SyncMachineLabels machine nodeCopy (Labels (nt_Meta lastAppliedALT)) in
      let '(nodeCopy, taintsChanged) := SyncMachineTaints machine nodeCopy (ns_Taints (nt_Spec lastAppliedALT)) in
      if initializedNodeAnnotation || labelsChanged || annotationsChanged || taintsChanged then
        let! currentlyAppliedALTJSONByte := lift (json_Marshal (m_Template machine)) in
        let nodeCopy := n_set_Annotations
          (<[LastAppliedALTAnnotation := currentlyAppliedALTJSONByte]> (n_Annotations nodeCopy)) nodeCopy in
        do! call (UpdateNode nodeCopy) in
        Ret tt
      else Ret tt
  end.

(** ** Health *)

(** A new status with both of its times. *)
Definition status_of (clone : Machine) (description state type phase : string) (timeoutActive lo_first : bool) : prog Machine :=
  let! t1 := now in
  let! t2 := now in
  let '(tl, tc) := if lo_first then (t1, t2) else (t2, t1) in
  Ret (m_set_Status (st_set_CurrentStatus (mkCurStatus phase timeoutActive tc)
    (st_set_LastOperation (mkLastOp description tl state type) (m_Status clone))) clone).

(** The status that follows from the conditions in the clone, if it is another one. *)
Definition health_update (clone : Machine) : prog (option Machine) :=
  if bool_decide (m_Phase clone = MachineTerminating) then Ret None
  else if negb (isHealthy c clone) && bool_decide (m_Phase clone = MachineRunning) then
    let! clone := status_of clone ("Machine " +:+ m_Name clone +:+ " is unhealthy - changing MachineState to Unknown")
      MachineStateProcessing MachineOperationHealthCheck MachineUnknown true false in
    Ret (Some clone)
  else if isHealthy c clone && negb (bool_decide (m_Phase clone = MachineRunning)) then
    if bool_decide (lo_Type (st_LastOperation (m_Status clone)) = MachineOperationCreate) &&
       negb (bool_decide (lo_State (st_LastOperation (m_Status clone)) = MachineStateSuccessful)) then
      do! attempt (deleteBootstrapToken (m_Name clone)) in
      let! clone := status_of clone ("Machine " +:+ m_Name clone +:+ " successfully joined the cluster")
        MachineStateSuccessful MachineOperationCreate MachineRunning false true in
      Ret (Some clone)
    else
      let! clone := status_of clone ("Machine " +:+ m_Name clone +:+ " successfully re-joined the cluster")
        MachineStateSuccessful MachineOperationHealthCheck MachineRunning false true in
      Ret (Some clone)
  else Ret None.

(** What is stored of the conditions of the node and of what follows from them. *)
Definition observed_update (machine : Machine) (conditions : list NodeCondition) : prog (option Machine) :=
  let changed := nodeConditionsHaveChanged (st_Conditions (m_Status machine)) conditions in
  let clone := if changed then m_set_Status (st_set_Conditions conditions (m_Status machine)) machine else machine in
  let! u := health_update clone in
  Ret (match u with Some clone => Some clone | None => if changed then Some clone else None end).

(** A failed update starts the function again with the machine that was fetched.  The machine comes with
    the error, as in the source. *)
Fixpoint updateMachineConditions (rounds : nat) (ns name : string) (conditions : list NodeCondition) : prog (Machine * option error) :=
  match rounds with
  | O => Starve
  | S rounds =>
      let! r := call_try (GetMachine ns name) in
      match r with
      | Err err => Ret (zero_machine, Some err)
      | Ok machine =>
          let! u := observed_update machine conditions in
          match u with
          | None => Ret ((machine, None) : Machine * option error)
          | Some clone =>
              let! r := call_try (UpdateStatusMachine clone) in
              match r with
              | Ok clone => Ret ((clone, None) : Machine * option error)
              | Err _ => updateMachineConditions rounds (Namespace (m_Meta machine)) (m_Name machine) conditions
              end
          end
      end
  end.

(** The first node in the list with the ID of the machine; adopting it writes the status. *)
Definition adopts (machine : Machine) (node : Node) : bool :=
  let nID := decodeMachineID (ns_ProviderID (n_Spec node)) in
  negb (bool_decide (nID = EmptyString)) && bool_decide (nID = decodeMachineID (sp_ProviderID (m_Spec machine))).

Definition adopt_node (machine : Machine) : prog string :=
  let! nodeList := call ListerNodes in
  match head (filter (fun node => adopts machine node = true) nodeList) with
  | None => Ret EmptyString
  | Some node =>
      do! call (UpdateStatusMachine (m_set_Status (st_set_Node (Name (n_Meta node)) (m_Status machine)) machine)) in
      Ret (Name (n_Meta node))
  end.

(** A running machine whose node is gone. *)
Definition node_missing (rounds : nat) (machine : Machine) : prog (Machine * option error) :=
  if negb (bool_decide (length (st_Conditions (m_Status machine)) = 0%nat)) && bool_decide (m_Phase machine = MachineRunning) then
    let! t1 := now in
    let! t2 := now in
    let msg := "Node object went missing. Machine " +:+ m_Name machine +:+ " is unhealthy - changing MachineState to Unknown" in
    let! r := attempt (updateMachineStatus rounds machine
      (mkLastOp msg t2 MachineStateProcessing MachineOperationHealthCheck) (mkCurStatus MachineUnknown true t1)) in
    Ret (match r with Ok clone => (clone, None) | Err err => (machine, Some err) end : Machine * option error)
  else Ret (machine, None).

(** The label that says which node a machine has. *)
Definition label_node (machine : Machine) : prog (Machine * option error) :=
  if bool_decide (mget (Labels (m_Meta machine)) "node" = EmptyString) then
    let! r := call_try (UpdateMachine
      (m_set_Meta (fun meta => set_Labels (<["node" := st_Node (m_Status machine)]> (Labels meta)) meta) machine)) in
    Ret (match r with Ok machine => (machine, None) | Err err => (zero_machine, Some err) end : Machine * option error)
  else Ret (machine, None).

Definition updateMachineState (rounds : nat) (machine : Machine) : prog (Machine * option error) :=
  let! n := (if bool_decide (st_Node (m_Status machine) = EmptyString) then attempt (adopt_node machine)
             else Ret (Ok (st_Node (m_Status machine)))) in
  match n with
  | Err err => Ret (machine, Some err)
  | Ok nodeName =>
      if bool_decide (nodeName = EmptyString) then Ret (machine, None)
      else
        let! r := call_try (ListerGetNode nodeName) in
        match r with
        | Err err => if IsNotFound err then node_missing rounds machine else Ret (machine, Some err)
        | Ok node =>
            let! u := updateMachineConditions rounds (Namespace (m_Meta machine)) (m_Name machine) (n_Conditions node) in
            match u with
            | (machine, Some err) => Ret (machine, Some err)
            | (machine, None) => label_node machine
            end
        end
  end.

Definition checkMachineTimeout (rounds : nat) (machine : Machine) : prog unit :=
  if bool_decide (m_Phase machine = MachineRunning) then Ret tt
  else
    let checkCreationTimeout := bool_decide (m_Phase machine = MachinePending) in
    let timeOutDuration := if checkCreationTimeout then getEffectiveCreationTimeout c machine else getEffectiveHealthTimeout c machine in
    let! timedOut := HasTimeOutOccurred (cs_LastUpdateTime (st_CurrentStatus (m_Status machine))) timeOutDuration in
    if (timedOut : bool) then
      let description :=
        if checkCreationTimeout then
          "Machine " +:+ m_Name machine +:+ " failed to join the cluster in " +:+ Duration_String timeOutDuration +:+ " minutes."
        else
          "Machine " +:+ m_Name machine +:+ " is not healthy since " +:+ Duration_String timeOutDuration +:+
          " minutes. Changing status to failed. Node Conditions: " +:+ show_conditions (st_Conditions (m_Status machine)) in
      let! t1 := now in
      let! t2 := now in
      do! attempt (updateMachineStatus rounds machine
        (mkLastOp description t1 MachineStateFailed (lo_Type (st_LastOperation (m_Status machine)))) (mkCurStatus MachineFailed false t2)) in
      Ret tt
    else enqueueMachineAfter machine Minute.

(** ** The class *)

Section class.
Context (ValidateObjectMeta : ObjectMeta -> bool -> (string -> bool -> list string) -> string -> list FieldError).

(** The six cases are alike.  A class that fails validation, and a kind of another controller, are no
    error but come without data. *)
Definition validateMachineClass (classSpec : ClassSpec) : prog (option ProviderClass * option strmap * option error) :=
  if bool_decide (cl_Kind classSpec ∈ provider_kinds) then
    let! r := call_try (ListerGetProviderClass (cl_Kind classSpec) (c_namespace c) (cl_Name classSpec)) in
    match r with
    | Err err => Ret (None, None, Some err)
    | Ok class =>
        let! validationerr := deref (ValidateProviderClass ValidateObjectMeta class) in
        if negb (bool_decide (validationerr = [])) then Ret (Some class, None, None)
        else
          let! s := attempt (Freezing.getSecretData [pc_SecretRef class; pc_CredentialsSecretRef class]) in
          match s with
          | Err err => Ret (Some class, None, Some err)
          | Ok secretData => Ret (Some class, secretData, None)
          end
    end
  else Ret (None, None, None).
End class.
End operations.

(** ** Creation, update and deletion *)

Section flows.
Context `{!Encoders} (c : controller).
(** A range over a map takes its entries in any order. *)
Variable range : strmap -> list (string * string).

Definition addBootstrapTokenToUserData (machineName : string) (driver : InTreeDriver) : prog InTreeDriver :=
  let userData := GetUserData driver in
  let! bootstrapTokenSecret := getBootstrapTokenOrCreateIfNotExist c machineName in
  let token := mget (sec_Data bootstrapTokenSecret) "token-id" +:+ "." +:+ mget (sec_Data bootstrapTokenSecret) "token-secret" in
  Ret (SetUserData (ReplaceAll userData placeholder token) driver).

(** The status that reports a failed step; errors of the update are dropped. *)
Definition report_failure (rounds : nat) (machine : Machine) (description type phase : string) : prog unit :=
  let! t1 := now in
  let! t2 := now in
  do! attempt (updateMachineStatus rounds machine (mkLastOp description t1 MachineStateFailed type) (mkCurStatus phase false t2)) in
  Ret tt.

Definition create_failed (rounds : nat) (machine : Machine) (err : error) : prog unit :=
  do! report_failure rounds machine ("Cloud provider message - " +:+ err_msg err) MachineOperationCreate MachineCrashLoopBackOff in
  do! attempt (deleteBootstrapToken (m_Name machine)) in
  Throw err.

(** The last VM of the range with the name of the machine. *)
Definition listed_vm (machineName : string) (vms : strmap) : string :=
  foldl (fun actualProviderID vm => if bool_decide (vm.2 = machineName) then vm.1 else actualProviderID) EmptyString (range vms).

(** The status of a machine that has its VM. *)
Definition created_status (clone : Machine) (nodeName : string) (t1 t2 : Z) : Machine :=
  m_set_Status (st_set_CurrentStatus (mkCurStatus MachinePending true t2)
    (st_set_LastOperation (mkLastOp "Creating machine on cloud provider" t1 MachineStateProcessing MachineOperationCreate)
      (st_set_Node nodeName (m_Status clone)))) clone.

(** The loop that writes down the ID of the VM; it only ends when both updates went through or the
    machine is gone, in which case so is the VM. *)
Fixpoint record_created (rounds : nat) (machine : Machine) (driver : InTreeDriver) (actualProviderID nodeName : string) : prog unit :=
  match rounds with
  | O => Starve
  | S rounds =>
      let! r := call_try (GetMachine (Namespace (m_Meta machine)) (m_Name machine)) in
      match r with
      | Err err =>
          if IsNotFound err then
            do! call_ignore (DriverDelete driver actualProviderID) in
            Throw (Errorf "Couldn't find machine object, hence deleted orphan VM")
          else record_created rounds machine driver actualProviderID nodeName
      | Ok current =>
          let! t1 := now in
          let! t2 := now in
          let! u := call_try (UpdateMachine (created_clone current nodeName actualProviderID)) in
          match u with
          | Err _ => record_created rounds machine driver actualProviderID nodeName
          | Ok current =>
              let! u := call_try (UpdateStatusMachine (created_status current nodeName t1 t2)) in
              match u with
              | Err _ => record_created rounds machine driver actualProviderID nodeName
              | Ok _ => Ret tt
              end
          end
      end
  end.

Definition machineCreate (rounds : nat) (machine : Machine) (driver : InTreeDriver) : prog unit :=
  let! b := attempt (addBootstrapTokenToUserData (m_Name machine) driver) in
  match b with
  | Err err =>
      do! report_failure rounds machine ("MCM message - " +:+ err_msg err) MachineOperationCreate MachineFailed in
      Throw err
  | Ok driver =>
      let! l := call_try (DriverGetVMs driver EmptyString) in
      match l with
      | Err err => create_failed rounds machine err
      | Ok vms =>
          let actualProviderID := listed_vm (m_Name machine) vms in
          if bool_decide (actualProviderID = EmptyString) then
            let! r := call_try (DriverCreate driver) in
            match r with
            | Err err => create_failed rounds machine err
            | Ok (actualProviderID, nodeName) => record_created rounds machine driver actualProviderID nodeName
            end
          else record_created rounds machine driver actualProviderID EmptyString
      end
  end.

Fixpoint machineUpdate (rounds : nat) (ns name actualProviderID : string) : prog unit :=
  match rounds with
  | O => Starve
  | S rounds =>
      let! machine := call (GetMachine ns name) in
      let! u := call_try (UpdateMachine (m_set_Spec (sp_set_ProviderID actualProviderID) machine)) in
      match u with
      | Err _ => machineUpdate rounds ns name actualProviderID
      | Ok machine =>
          let! t := now in
          let lastOperation := mkLastOp "Updated provider ID" t MachineStateSuccessful MachineOperationUpdate in
          let! u := call_try (UpdateStatusMachine (m_set_Status (st_set_LastOperation lastOperation (m_Status machine)) machine)) in
          match u with
          | Err _ => machineUpdate rounds ns name actualProviderID
          | Ok _ => Ret tt
          end
      end
  end.

(** The first step of a deletion; [None] when the machine is gone already. *)
Definition terminate (rounds : nat) (machine : Machine) : prog (option Machine) :=
  if bool_decide (m_Phase machine = MachineTerminating) then Ret (Some machine)
  else
    let! t1 := now in
    let! t2 := now in
    do! attempt (deleteBootstrapToken (m_Name machine)) in
    let! r := attempt (updateMachineStatus rounds machine
      (mkLastOp "Deleting machine from cloud provider" t1 MachineStateProcessing MachineOperationDelete)
      (mkCurStatus MachineTerminating false t2)) in
    match r with
    | Ok machine => Ret (Some machine)
    | Err err => if IsNotFound err then Ret None else Throw err
    end.

Definition drain_options (machine : Machine) (driver : InTreeDriver) (nodeName : string) (force : bool) : InTreeDrainOptions :=
  mkInTreeDrainOptions
    (if force then Minute else getEffectiveDrainTimeout c machine)
    (if force then 1 else max_evict_retries c machine)
    (so_PvDetachTimeout (c_safetyOptions c)) nodeName force driver.

(** The drain, and the report of a drain that was not forced and failed. *)
Definition drain_node (rounds : nat) (machine : Machine) (options : InTreeDrainOptions) : prog unit :=
  let! d := call_try (RunInTreeDrain options) in
  match d with
  | Ok _ => Ret tt
  | Err err =>
      if io_ForceDeletePods options then Ret tt
      else
        let! t := now in
        do! attempt (updateMachineStatus rounds machine
          (mkLastOp ("Drain failed - " +:+ err_msg err) t MachineStateFailed MachineOperationDelete) (st_CurrentStatus (m_Status machine))) in
        Throw err
  end.

(** Every VM with the name of the machine is deleted; the error is that of the last one. *)
Definition delete_listed (driver : InTreeDriver) (machineName : string) (vms : strmap) : prog (option error) :=
  for_fold (range vms) None (fun err vm =>
    if bool_decide (vm.2 = machineName) then
      let! r := call_try (DriverDelete driver vm.1) in
      Ret (match r with Ok _ => None | Err err => Some err end)
    else Ret err).

Definition delete_vm (rounds : nat) (machine : Machine) (driver : InTreeDriver) (nodeName : string) (options : InTreeDrainOptions) :
    prog (option error) :=
  let machineID := GetExisting driver in
  if negb (bool_decide (machineID = EmptyString)) && negb (bool_decide (nodeName = EmptyString)) then
    let! u := attempt (UpdateNodeTerminationCondition machine) in
    do! (match u with
         | Ok _ => Ret tt
         | Err err => if io_ForceDeletePods options then Ret tt else Throw err
         end) in
    do! drain_node rounds machine options in
    let! r := call_try (DriverDelete driver machineID) in
    Ret (match r with Ok _ => None | Err err => Some err end)
  else
    let! l := call_try (DriverGetVMs driver EmptyString) in
    match l with
    | Err err => Ret (Some err)
    | Ok vms => delete_listed driver (m_Name machine) vms
    end.

Definition delete_node (rounds : nat) (machine : Machine) (nodeName : string) : prog unit :=
  if bool_decide (nodeName = EmptyString) then Ret tt
  else
    let! r := call_try (DeleteNode nodeName) in
    match r with
    | Ok _ => Ret tt
    | Err err =>
        if IsNotFound err then Ret tt
        else
          let! t := now in
          do! attempt (updateMachineStatus rounds machine
            (mkLastOp ("Deletion of Node Object " +:+ quoted nodeName +:+ " failed due to error: " +:+ err_msg err) t
              MachineStateFailed MachineOperationDelete) (st_CurrentStatus (m_Status machine))) in
          Throw err
    end.

Definition machineDelete (rounds : nat) (machine : Machine) (driver : InTreeDriver) : prog unit :=
  let nodeName := st_Node (m_Status machine) in
  if negb (has_finalizer DeleteFinalizerName (m_Meta machine)) then Ret tt
  else
    let forceDeleteLabelPresent := bool_decide (mget (Labels (m_Meta machine)) "force-deletion" = "True") in
    let timeOutDuration := getEffectiveDrainTimeout c machine in
    let original := machine in
    let! m := terminate rounds machine in
    match m with
    | None => Ret tt
    | Some machine =>
        let! deletionTimestamp := deref (DeletionTimestamp (m_Meta machine)) in
        let! timeOutOccurred := HasTimeOutOccurred deletionTimestamp timeOutDuration in
        let force := forceDeleteLabelPresent || timeOutOccurred in
        let! e := delete_vm rounds machine driver nodeName (drain_options original driver nodeName force) in
        match e with
        | Some err =>
            do! report_failure rounds machine ("Cloud provider message - " +:+ err_msg err) MachineOperationDelete MachineTerminating in
            Throw err
        | None =>
            do! delete_node rounds machine nodeName in
            do! deleteMachineFinalizers rounds machine in
            let! r := call_try (DeleteMachineReq (Namespace (m_Meta machine)) (m_Name machine)) in
            match r with
            | Ok _ => Ret tt
            | Err err => if IsNotFound err then Ret tt else Throw err
            end
        end
    end.

(** ** Reconciliation *)

Context (ValidateObjectMeta : ObjectMeta -> bool -> (string -> bool -> list string) -> string -> list FieldError).

(** True in every case. *)
Definition shouldReconcileMachine (machine : Machine) : bool :=
  if negb (bool_decide (DeletionTimestamp (m_Meta machine) = None)) then true
  else if bool_decide (sp_ProviderID (m_Spec machine) = EmptyString) then true
  else true.

(** What is done with a machine whose state is up to date. *)
Definition dispatch (rounds : nat) (machine : Machine) (driver : InTreeDriver) (actualProviderID : string) : prog (option error) :=
  if negb (bool_decide (DeletionTimestamp (m_Meta machine) = None)) then
    let! r := attempt (machineDelete rounds machine driver) in
    match r with
    | Err _ => do! enqueueMachineAfter machine MachineEnqueueRetryPeriod in Ret None
    | Ok _ => Ret None
    end
  else if cs_TimeoutActive (st_CurrentStatus (m_Status machine)) then
    do! checkMachineTimeout c rounds machine in Ret None
  else
    do! addMachineFinalizers rounds machine in
    if bool_decide (m_Phase machine = MachineFailed) then Ret None
    else if bool_decide (actualProviderID = EmptyString) then
      let! r := attempt (machineCreate rounds machine driver) in
      match r with
      | Err _ => do! enqueueMachineAfter machine MachineEnqueueRetryPeriod in Ret None
      | Ok _ => Ret None
      end
    else if negb (bool_decide (actualProviderID = sp_ProviderID (m_Spec machine))) then
      let! r := attempt (machineUpdate rounds (Namespace (m_Meta machine)) (m_Name machine) actualProviderID) in
      Ret (match r with Err err => Some err | Ok _ => None end)
    else Ret None.

(** The node of the machine, and then what has to be done with it. *)
Definition sync_and_dispatch (rounds : nat) (machine : Machine) (driver : InTreeDriver) (actualProviderID : string) : prog (option error) :=
  let! n := call_try (ListerGetNode (st_Node (m_Status machine))) in
  let! s := (match n with Ok _ => attempt (syncMachineNodeTemplates machine) | Err _ => Ret (Ok tt) end) in
  match s with
  | Err err => Ret (Some err)
  | Ok _ => dispatch rounds machine driver actualProviderID
  end.

(** The error of the reconciliation and the machine that the deferred function puts back into the queue:
    the variable is assigned twice, and is nil after an unsuccessful read from the lister. *)
Definition reconcile_body (rounds : nat) (machine : Machine) : prog (option Machine * option error) :=
  if so_MachineControllerFrozen (c_safetyOptions c) && bool_decide (DeletionTimestamp (m_Meta machine) = None) then
    Ret (Some machine, Some (Errorf "Machine controller has frozen. Retrying reconcile after 10 minutes"))
  else if negb (shouldReconcileMachine machine) then Ret (Some machine, None)
  else if negb (bool_decide (ValidateMachine machine = [])) then Ret (Some machine, None)
  else
    let! v := validateMachineClass c ValidateObjectMeta (sp_Class (m_Spec machine)) in
    match v with
    | (Some MachineClass, Some secretData, None) =>
        let driver := NewDriver (sp_ProviderID (m_Spec machine)) secretData (cl_Kind (sp_Class (m_Spec machine))) MachineClass (m_Name machine) in
        let actualProviderID := GetExisting driver in
        if bool_decide (actualProviderID = fake_id) then Ret (Some machine, None)
        else
          let! r := call_try (ListerGetMachine (Namespace (m_Meta machine)) (m_Name machine)) in
          match r with
          | Err err => Ret (None, if IsNotFound err then None else Some err)
          | Ok machine =>
              let! s := updateMachineState c rounds machine in
              match s with
              | (machine, Some err) => Ret (Some machine, Some err)
              | (machine, None) =>
                  let! e := sync_and_dispatch rounds machine driver actualProviderID in
                  Ret (Some machine, e)
              end
          end
    | _ =>
        do! enqueueMachineAfter machine MachineEnqueueRetryPeriod in
        Ret (Some machine, None)
    end.

Definition reconcileClusterMachine (rounds : nat) (machine : Machine) : prog unit :=
  let! r := reconcile_body rounds machine in
  let! machine := deref r.1 in
  do! enqueueMachineAfter machine (10 * Minute) in
  match r.2 with Some err => Throw err | None => Ret tt end.

Definition reconcileClusterMachineKey (rounds : nat) (key : string) : prog unit :=
  let! nn := or_throw (SplitMetaNamespaceKey key) "unexpected key format" in
  let! r := call_try (ListerGetMachine (c_namespace c) nn.2) in
  match r with
  | Err err => if IsNotFound err then Ret tt else Throw err
  | Ok machine => reconcileClusterMachine rounds machine
  end.
End flows.
