(* ===== verification/InTreeFlows.v ===== *)
(** * What the flows of the in-tree machine controller do

    Theorems about InTreeMachine: a VM that was created is written down or asked to be deleted again, a VM is
    created only when none is listed, a machine is let go only after its VM and its node, and the health
    check agrees with that of the newer machine controller. *)
From Stdlib Require Import ZArith Lia Ascii String.
From stdpp Require Import base gmap strings list.
From S2P Require Import Prelude GoLib Types Labels Prog Samples NodeOps Validation ClassValidation Driver.
From S2P Require Import NodeTemplate MachineClasses MachineUtil MachineDeletion MachineController MachineSetController Freezing.
From S2P Require Import InTreeMachine.
Open Scope Z_scope.

(** ** Calls that leave VMs, nodes and the machine itself alone *)

Definition no_vm (e : event) : Prop := match projT1 e with DriverCreate _ | DriverDelete _ _ => False | _ => True end.
Definition holds_on (e : event) : Prop :=
  match projT1 e with DeleteNode _ | DeleteMachineReq _ _ | UpdateMachine _ => False | _ => True end.
Definition keeps (e : event) : Prop := no_vm e /\ holds_on e.

Lemma keeps_status rounds machine lo cs : emits keeps (updateMachineStatus rounds machine lo cs).
Proof.
  induction rounds as [|n IH]; simpl; [apply emits_starve|]. unfold isMachineStatusEqual, either_old.
  emits_all; try done.
Qed.

(** Nothing but the machine itself is changed. *)
Definition on_machine (e : event) : Prop := no_vm e /\ match projT1 e with DeleteNode _ => False | _ => True end.

Lemma on_machine_finalizers rounds ns name l : emits on_machine (updateMachineFinalizers rounds ns name l).
Proof. revert ns name; induction rounds as [|n IH]; intros ns name; simpl; [apply emits_starve|]. emits_all; done || apply IH. Qed.

Lemma keeps_random n s : emits keeps (generateRandomStringFromCharset n s).
Proof. induction n as [|n IH]; simpl; emits_all; done. Qed.

Section emits.
Context `{!Encoders} (c : controller).

Lemma keeps_report rounds m d t p : emits keeps (report_failure rounds m d t p).
Proof. unfold report_failure. emits_all; try done. apply keeps_status. Qed.

Lemma keeps_token name : emits keeps (deleteBootstrapToken name).
Proof. unfold deleteBootstrapToken. emits_all; done. Qed.

Lemma keeps_bootstrap name d : emits keeps (addBootstrapTokenToUserData c name d).
Proof.
  unfold addBootstrapTokenToUserData, getBootstrapTokenOrCreateIfNotExist. emits_all; try done. apply keeps_random.
Qed.

Lemma keeps_create_failed rounds m err : emits keeps (create_failed rounds m err).
Proof. unfold create_failed. emits_all; [apply keeps_report|apply keeps_token]. Qed.

(** ** The VM that is adopted *)

Variable range : strmap -> list (string * string).
Hypothesis range_ok : forall m, range m ≡ₚ map_to_list m.

Lemma range_lookup m k v : (k, v) ∈ range m <-> m !! k = Some v.
Proof. rewrite (range_ok m). apply elem_of_map_to_list. Qed.

(** The loop finds a VM with the name if there is one. *)
Lemma listed_vm_spec name vms :
  (exists id, vms !! id = Some name) -> vms !! listed_vm range name vms = Some name.
Proof.
  unfold listed_vm. setoid_rewrite <- range_lookup. generalize (range vms) as l.
  induction l as [|[k v] l IH] using rev_ind; intros [id Hid]; [by apply elem_of_nil in Hid|].
  rewrite foldl_app. simpl. case_bool_decide as Hv; simpl in Hv.
  - subst v. apply elem_of_app. right. by apply list_elem_of_singleton.
  - apply elem_of_app. left. apply IH. exists id. apply elem_of_app in Hid as [Hid|Hid]; [done|].
    apply list_elem_of_singleton in Hid. by injection Hid as -> ->.
Qed.

Lemma listed_vm_none name vms : vms !! EmptyString <> Some name -> listed_vm range name vms = EmptyString ->
  forall id, vms !! id <> Some name.
Proof. intros Hn Hl id Hid. apply Hn. rewrite <- Hl. apply listed_vm_spec. eauto. Qed.

Lemma listed_vm_some name vms : listed_vm range name vms <> EmptyString -> vms !! listed_vm range name vms = Some name.
Proof.
  unfold listed_vm. setoid_rewrite <- range_lookup. generalize (range vms) as l.
  induction l as [|[k v] l IH] using rev_ind; [done|].
  rewrite foldl_app. simpl. case_bool_decide as Hv; simpl in Hv; intros Hne; apply elem_of_app.
  - subst v. right. by apply list_elem_of_singleton.
  - left. by apply IH.
Qed.

(** ** Writing the VM down *)

(** One object in two versions. *)
Definition same_object (m m' : Machine) : Prop :=
  m_Name m = m_Name m' /\ Namespace (m_Meta m) = Namespace (m_Meta m') /\ UID (m_Meta m) = UID (m_Meta m').

(** The last five calls: the machine is fetched and both updates of what was fetched go through, with the ID
    and the node. *)
Definition written_down (machine : Machine) (id node : string) (h : history) : Prop :=
  exists h0 current t1 t2 m m' s s',
    h = h0 ++ [ev (GetMachine (Namespace (m_Meta machine)) (m_Name machine)) (Ok current); ev Now t1; ev Now t2;
               ev (UpdateMachine m) (Ok m'); ev (UpdateStatusMachine s) (Ok s')] /\ Forall no_vm h0 /\
    same_object m current /\ sp_ProviderID (m_Spec m) = id /\ Labels (m_Meta m) !! "node" = Some node /\
    same_object s m' /\ st_Node (m_Status s) = node /\ m_Phase s = MachinePending.

(** The last two calls: there is no machine any more, and the VM is deleted, with whatever answer. *)
Definition deleted_again (machine : Machine) (d : InTreeDriver) (id : string) (h : history) : Prop :=
  exists h0 e x, h = h0 ++ [ev (GetMachine (Namespace (m_Meta machine)) (m_Name machine)) (Err e); ev (DriverDelete d id) x] /\
    IsNotFound e = true /\ Forall no_vm h0.

(** A flow that has neither has not come to an end. *)
Definition vm_settled (machine : Machine) (d : InTreeDriver) (id node : string) (h : history) (o : outcome unit) : Prop :=
  match o with
  | Return _ => written_down machine id node h
  | Raise _ => deleted_again machine d id h
  | Panic => False
  | OutOfFuel => Forall no_vm h
  end.

Lemma vm_settled_app machine d id node h1 h2 o : Forall no_vm h1 -> vm_settled machine d id node h2 o -> vm_settled machine d id node (h1 ++ h2) o.
Proof.
  intros HF. destruct o; simpl.
  - intros (h0 & cur & t1 & t2 & m & m' & s & s' & -> & HF0 & Hw). exists (h1 ++ h0), cur, t1, t2, m, m', s, s'.
    rewrite <- app_assoc. split; [done|]. split; [by apply Forall_app|done].
  - intros (h0 & e' & x & -> & He & HF0). exists (h1 ++ h0), e', x. rewrite <- app_assoc. split_and!; [done|done|by apply Forall_app].
  - done.
  - intros Hw. by apply Forall_app.
Qed.

Definition no_create (e : event) : Prop := match projT1 e with DriverCreate _ => False | _ => True end.

Lemma record_created_settles rounds machine d id node h o :
  exec (record_created rounds machine d id node) h o -> vm_settled machine d id node h o.
Proof.
  revert h; induction rounds as [|n IH]; intros h He; [by destruct He as [-> ->]; constructor|].
  assert (Hcons : forall l h, Forall no_vm l -> exec (record_created n machine d id node) h o -> vm_settled machine d id node (l ++ h) o)
    by (intros l h' Hl Hx; apply vm_settled_app; [done|by apply IH]).
  cbn [record_created] in He. destruct He as (x & h1 & -> & He). cbn [bind] in He. destruct x as [current|err].
  - destruct He as (x1 & h2 & -> & x2 & h3 & -> & u & h4 & -> & He). cbn [bind] in He. destruct u as [m'|e].
    + destruct He as (v & h5 & -> & He). cbn [bind] in He. destruct v as [s'|e].
      * destruct He as [-> ->]. simpl. eexists [], current, x1, x2, _, m', _, s'. split; [reflexivity|]. split; [constructor|].
        split_and!; try done. unfold created_clone. simpl. apply lookup_insert_eq.
      * apply (Hcons [_; _; _; _; _]); [by repeat constructor|done].
    + apply (Hcons [_; _; _; _]); [by repeat constructor|done].
  - case_match.
    + destruct He as (x & h2 & -> & -> & ->). simpl. exists [], err, x. by split_and!.
    + apply (Hcons [_]); [by repeat constructor|done].
Qed.

Lemma record_created_no_create rounds machine d id node : emits no_create (record_created rounds machine d id node).
Proof. induction rounds as [|n IH]; simpl; [apply emits_starve|]. emits_all; done. Qed.

Lemma keeps_no_create {A} (p : prog A) : emits keeps p -> emits no_create p.
Proof. apply emits_weaken. intros [r x] [Hk _]. by destruct r. Qed.

Lemma create_failed_fails rounds machine err h : ~ exec (create_failed rounds machine err) h (Return tt).
Proof. intros (? & ? & ? & _ & _ & (? & ? & ? & _ & _ & [_ [=]])%exec_bind_ret)%exec_bind_ret. Qed.

(** C14: creation asks for at most one VM, and only after the driver has listed none with the name of the
    machine, unless it lists one with the empty ID.  Of the VM it gets, or of the one it adopts, the flow keeps track: it returns well only after it
    has fetched the machine and stored ID and node in it, in both updates; it fails only after it has found
    the machine gone, and then the last thing it does is to ask for the deletion of the VM, the answer to
    which is not looked at; it does not panic in between, and otherwise goes on.  A flow that returns well has
    got or adopted a VM. *)
Theorem machineCreate_keeps_track rounds machine driver h o :
  exec (machineCreate c range rounds machine driver) h o ->
  (Forall no_vm h /\ o <> Return tt) \/
  exists h1 userData vms h2, let d := SetUserData userData driver in
    h = h1 ++ ev (DriverGetVMs d EmptyString) (Ok vms) :: h2 /\ Forall no_vm h1 /\
    ((exists id, vms !! id = Some (m_Name machine) /\ Forall no_create h2 /\ vm_settled machine d id EmptyString h2 o) \/
     ((vms !! EmptyString <> Some (m_Name machine) -> forall id, vms !! id <> Some (m_Name machine)) /\
      exists x h3, h2 = ev (DriverCreate d) x :: h3 /\ Forall no_create h3 /\
        match x with
        | Ok (id, node) => vm_settled machine d id node h3 o
        | Err _ => Forall no_vm h3 /\ o <> Return tt
        end)).
Proof.
  assert (Hk : forall A (p : prog A), emits keeps p -> emits no_vm p) by (intros A p; apply emits_weaken; by intros ? [? ?]).
  intros He. unfold machineCreate in He.
  assert (Hb : emits no_vm (attempt (addBootstrapTokenToUserData c (m_Name machine) driver))).
  { apply emits_attempt, Hk, keeps_bootstrap. }
  destruct (exec_bind _ _ _ _ He) as [(h1 & b & h2 & -> & E1 & E2)|(o' & E1 & Hf & ->)]; [|left; split; [by eapply Hb|by destruct o']].
  pose proof (Hb _ _ E1) as HF1. destruct b as [d|err].
  - assert (Hd : exists u, d = SetUserData u driver).
    { apply exec_attempt_ret in E1. unfold addBootstrapTokenToUserData in E1. apply exec_bind_ret in E1 as (h3 & s & h4 & _ & _ & _ & [= ->]).
      by eexists. }
    destruct Hd as [u ->]. destruct E2 as (l & h3 & -> & E2). cbn [bind] in E2. destruct l as [vms|err].
    + right. exists h1, u, vms, h3. split_and!; [done..|]. case_bool_decide as Hl.
      * right. split; [by intros Hn; apply listed_vm_none|]. destruct E2 as (x & h4 & -> & E2). cbn [bind] in E2.
        exists x, h4. split; [done|]. destruct x as [[id node]|err].
        -- split; [by eapply record_created_no_create|by eapply record_created_settles].
        -- split; [eapply (keeps_no_create _ (keeps_create_failed rounds machine err)); exact E2|].
           split; [eapply (Hk _ _ (keeps_create_failed rounds machine err)); exact E2|]. intros ->. by apply create_failed_fails in E2.
      * left. exists (listed_vm range (m_Name machine) vms). split; [by apply listed_vm_some|].
        split; [by eapply record_created_no_create|by eapply record_created_settles].
    + left. split; [|intros ->; by apply create_failed_fails in E2]. apply Forall_app. split; [done|]. constructor; [done|].
      eapply (Hk _ _ (keeps_create_failed rounds machine err)); exact E2.
  - left. split; [|by intros ->; apply exec_bind_ret in E2 as (? & ? & ? & _ & _ & [_ ?])]. apply Forall_app. split; [done|].
    eapply (emits_bind no_vm (report_failure rounds machine _ _ _)); [apply Hk, keeps_report|intros; apply emits_throw|exact E2].
Qed.

(** ** Letting a machine go *)

Lemma keeps_terminate rounds m : emits keeps (terminate rounds m).
Proof. unfold terminate. emits_all; first [done|apply keeps_token|apply keeps_status]. Qed.

Lemma keeps_condition m : emits keeps (UpdateNodeTerminationCondition m).
Proof.
  unfold UpdateNodeTerminationCondition, GetNodeCondition, AddOrUpdateConditionsOnNode, UpdateNodeConditions, update_wrapped.
  emits_all; done.
Qed.

(** One deletion per VM, with its answer. *)
Definition deletions (d : InTreeDriver) (vms : list (string * string)) (xs : list (result unit)) : history :=
  zip_with (fun (vm : string * string) (x : result unit) => ev (DriverDelete d vm.1) x) vms xs.

(** Every VM of the list with the name, in the order of the range, and the error of the last call. *)
Lemma delete_listed_spec d name vms h o : exec (delete_listed range d name vms) h o ->
  exists xs, h = deletions d (filter (fun vm => vm.2 = name) (range vms)) xs /\
    length xs = length (filter (fun vm => vm.2 = name) (range vms)) /\
    o = Return (match last xs with Some (Err e) => Some e | _ => None end).
Proof.
  unfold delete_listed. generalize (range vms) as l.
  assert (Hfold : forall l s h o, exec (for_fold l s (fun err vm => if bool_decide (vm.2 = name) then
      let! r := call_try (DriverDelete d vm.1) in Ret (match r with Ok _ => None | Err err => Some err end) else Ret err)) h o ->
    exists xs, h = deletions d (filter (fun vm => vm.2 = name) l) xs /\
      length xs = length (filter (fun vm => vm.2 = name) l) /\
      o = Return (match last xs with Some (Err e) => Some e | Some (Ok _) => None | None => s end)).
  { clear. induction l as [|vm l IH]; intros s h o He.
    - destruct He as [-> ->]. by exists [].
    - cbn [for_fold] in He. rewrite filter_cons. case_bool_decide as Hv.
      + rewrite decide_True by done. destruct He as (x & h1 & -> & He). cbn [bind] in He.
        apply IH in He as (xs & -> & Hl & ->). exists (x :: xs). split_and!; [done|simpl; congruence|].
        rewrite last_cons. destruct (last xs) as [[]|]; [done..|]. by destruct x.
      + rewrite decide_False by done. by apply IH in He. }
  intros l He. destruct (Hfold _ _ _ _ He) as (xs & ? & ? & ->). exists xs. split_and!; [done..|]. by destruct (last xs) as [[]|].
Qed.

(** How the VM of a machine goes: after the drain asked for, which succeeded or is forced, if the ID and the
    node are known; otherwise with every listed VM of that name, the last deletion having succeeded. *)
Definition vm_gone_by (d : InTreeDriver) (name : string) (options : InTreeDrainOptions) (h : history) : Prop :=
  if negb (bool_decide (GetExisting d = EmptyString)) && negb (bool_decide (io_nodeName options = EmptyString)) then
    exists h1 x, h = h1 ++ [ev (RunInTreeDrain options) x; ev (DriverDelete d (GetExisting d)) (Ok tt)] /\ Forall keeps h1 /\
      ((exists y, x = Ok y) \/ io_ForceDeletePods options = true)
  else
    exists vms xs, h = ev (DriverGetVMs d EmptyString) (Ok vms) ::
        deletions d (filter (fun vm => vm.2 = name) (range vms)) xs /\
      length xs = length (filter (fun vm => vm.2 = name) (range vms)) /\ forall e, last xs <> Some (Err e).

Lemma delete_vm_spec rounds m d opts h o : exec (delete_vm range rounds m d (io_nodeName opts) opts) h o ->
  Forall holds_on h /\ (o = Return None -> vm_gone_by d (m_Name m) opts h).
Proof.
  intros He. unfold delete_vm, vm_gone_by in *. destruct (_ && _).
  - destruct (exec_bind _ _ _ _ He) as [(h1 & u & h2 & -> & E1 & E2)|(o' & E1 & _ & Ho)].
    2:{ split; [|intros ->; by destruct o']. eapply (emits_attempt holds_on); [|exact E1].
        eapply emits_weaken; [|apply keeps_condition]. by intros ? [_ ?]. }
    assert (Hk1 : Forall keeps h1) by (eapply (emits_attempt keeps); [apply keeps_condition|exact E1]).
    assert (Hh1 : Forall holds_on h1) by (eapply Forall_impl; [exact Hk1|by intros ? [_ ?]]).
    assert (E3 : o <> Return None /\ h2 = [] \/
      exec (do! drain_node rounds m opts in let! r := call_try (DriverDelete d (GetExisting d)) in
        Ret (match r with Ok _ => None | Err err => Some err end)) h2 o).
    { destruct u as [u|e]; [by right|]. destruct (io_ForceDeletePods opts); [by right|]. left. by destruct E2 as [-> ->]. }
    clear E2. destruct E3 as [[Ho ->]|E2]; [by rewrite app_nil_r|].
    assert (Hdr : forall h2 o', exec (drain_node rounds m opts) h2 o' -> Forall holds_on h2 /\
      (o' = Return tt -> exists x, h2 = [ev (RunInTreeDrain opts) x] /\ ((exists y, x = Ok y) \/ io_ForceDeletePods opts = true))).
    { clear. intros h o (x & h1 & -> & He). cbn [bind] in He. destruct x as [[]|e].
      - destruct He as [-> ->]. split; [by repeat constructor|]. intros _. eexists. split; [done|]. eauto.
      - destruct (io_ForceDeletePods opts).
        + destruct He as [-> ->]. split; [by repeat constructor|]. intros _. eauto.
        + destruct He as (t & h2 & -> & He). cbn [bind] in He. split.
          * constructor; [done|]. constructor; [done|].
            assert (Hs : emits holds_on (attempt (updateMachineStatus rounds m (mkLastOp ("Drain failed - " +:+ err_msg e)
              (match t with Ok t => t | Err _ => 0 end) MachineStateFailed MachineOperationDelete) (st_CurrentStatus (m_Status m))))).
            { apply emits_attempt. eapply emits_weaken; [|apply keeps_status]. by intros ? [_ ?]. }
            destruct (exec_bind _ _ _ _ He) as [(h3 & ? & h4 & -> & E3 & [-> _])|(o' & E3 & _)]; [rewrite app_nil_r|]; by eapply Hs.
          * intros ->. by destruct (exec_bind_ret _ _ _ _ He) as (? & ? & ? & _ & _ & [_ ?]). }
    destruct (exec_bind _ _ _ _ E2) as [(h3 & [] & h4 & -> & E3 & (x & h5 & -> & -> & ->))|(o' & E3 & _ & ->)].
    + destruct (Hdr _ _ E3) as [HF Hx]. split.
      * apply Forall_app. split; [done|]. apply Forall_app. split; [done|]. by repeat constructor.
      * destruct (Hx eq_refl) as (y & -> & Hy). intros [= Hr]. destruct x as [[]|e]; [|done].
        exists h1, y. by split_and!.
    + destruct (Hdr _ _ E3) as [HF _]. split; [by apply Forall_app|]. by destruct o'.
  - destruct He as (x & h1 & -> & He). cbn [bind] in He. destruct x as [vms|err].
    + apply delete_listed_spec in He as (xs & -> & Hl & ->). split.
      * constructor; [done|]. clear. revert xs. induction (filter _ _) as [|vm l IH]; intros [|x xs]; constructor; [done|apply IH].
      * intros [= Hr]. exists vms, xs. split_and!; [done..|]. intros e Hx. by rewrite Hx in Hr.
    + destruct He as [-> ->]. split; [by repeat constructor|done].
Qed.

(** The node object is gone, if the machine had a node. *)
Definition node_gone_by (nodeName : string) (h : history) : Prop :=
  (nodeName = EmptyString /\ h = []) \/
  exists x, h = [ev (DeleteNode nodeName) x] /\ match x with Ok _ => True | Err err => IsNotFound err = true end.

Lemma delete_node_spec rounds m node h o : exec (delete_node rounds m node) h o ->
  Forall (fun e => match projT1 e with DeleteMachineReq _ _ | UpdateMachine _ => False | _ => True end) h /\
  (o = Return tt -> node_gone_by node h).
Proof.
  unfold delete_node, node_gone_by. case_bool_decide as Hn; [intros [-> ->]; split; [done|]; by left|].
  intros (x & h1 & -> & He). cbn [bind] in He. destruct x as [u|err].
  - destruct He as [-> ->]. split; [by repeat constructor|]. intros _. right. by eexists.
  - destruct (IsNotFound err) eqn:Ee.
    + destruct He as [-> ->]. split; [by repeat constructor|]. intros _. right. by eexists.
    + destruct He as (t & h2 & -> & He). cbn [bind] in He. split.
      * constructor; [done|]. constructor; [done|]. revert He. apply emits_bind; [|intros; apply emits_throw].
        apply emits_attempt. eapply emits_weaken; [|apply keeps_status]. intros [r y] [_ Hh]. by destruct r.
      * intros ->. by destruct (exec_bind_ret _ _ _ _ He) as (? & ? & ? & _ & _ & [_ ?]).
Qed.

(** Whether the machine object is changed other than in its status, or deleted. *)
Definition lets_go (e : event) : Prop := match projT1 e with DeleteMachineReq _ _ | UpdateMachine _ => True | _ => False end.

(** The API server answers a request for a machine with that machine. *)
Definition names_kept (h : history) : Prop := forall e, e ∈ h ->
  match e with
  | existT (GetMachine _ name) (Ok m) => m_Name m = name
  | existT (UpdateStatusMachine m) (Ok m') => m_Name m' = m_Name m
  | _ => True
  end.

Lemma updateMachineStatus_name rounds machine lo cs h m : exec (updateMachineStatus rounds machine lo cs) h (Return m) ->
  names_kept h -> m_Name m = m_Name machine.
Proof.
  revert h. induction rounds as [|n IH]; intros h He Hk; [by destruct He|]. cbn [updateMachineStatus] in He.
  destruct He as (x & h1 & -> & He). destruct x as [latest|e]; [|by destruct He]. cbn [bind] in He.
  apply exec_bind_ret in He as (h2 & same & h3 & -> & _ & He). destruct same; [by destruct He as [_ [= ->]]|].
  destruct He as (u & h4 & -> & He). cbn [bind] in He. destruct u as [m'|e].
  - destruct He as [-> [= ->]]. pose proof (Hk _ (list_elem_of_here _ _)) as Hg. simpl in Hg. rewrite <- Hg.
    refine (Hk (ev (UpdateStatusMachine _) (Ok m')) _). right. apply elem_of_app. right. left.
  - apply (IH h4); [done|]. intros e' He'. apply Hk. right. apply elem_of_app. right. by right.
Qed.

Lemma terminate_name rounds machine h m : exec (terminate rounds machine) h (Return (Some m)) -> names_kept h -> m_Name m = m_Name machine.
Proof.
  unfold terminate. case_bool_decide; [by intros [_ [= ->]]|].
  intros (t1 & h1 & -> & t2 & h2 & -> & He) Hk. cbn [bind] in He. apply exec_bind_ret in He as (h3 & u & h4 & -> & _ & He).
  apply exec_bind_ret in He as (h5 & r & h6 & -> & E & He).
  apply exec_attempt_ret in E. destruct r as [m'|e]; [|by case_match; destruct He]. destruct He as [_ [= ->]].
  eapply updateMachineStatus_name; [exact E|]. intros e He. apply Hk. do 2 right. apply elem_of_app. right. apply elem_of_app. by left.
Qed.

(** Whether a deletion is forced, by the label or since the drain timeout is over. *)
Definition forced (machine : Machine) (deletionTimestamp : Z) (t : result (answer Now)) : bool :=
  bool_decide (mget (Labels (m_Meta machine)) "force-deletion" = "True") ||
  (0 <? (clock_answer t - getEffectiveDrainTimeout c machine) - deletionTimestamp).

(** The machine object was asked to be deleted, which succeeded or found none. *)
Definition let_go (m : Machine) (h : history) : Prop :=
  exists h0 x, h = h0 ++ [ev (DeleteMachineReq (Namespace (m_Meta m)) (m_Name m)) x] /\
    match x with Ok _ => True | Err err => IsNotFound err = true end.

(** The stages of a deletion. *)
Lemma machineDelete_stages rounds machine driver h o :
  exec (machineDelete c range rounds machine driver) h o ->
  (Forall (fun e => ~ lets_go e) h /\
    (o = Return tt -> has_finalizer DeleteFinalizerName (m_Meta machine) = false \/ exec (terminate rounds machine) h (Return None))) \/
  exists m ts t ht hv hn hf, h = ht ++ ev Now t :: hv ++ hn ++ hf /\ has_finalizer DeleteFinalizerName (m_Meta machine) = true /\
    exec (terminate rounds machine) ht (Return (Some m)) /\ DeletionTimestamp (m_Meta m) = Some ts /\
    vm_gone_by driver (m_Name m) (drain_options c machine driver (st_Node (m_Status machine)) (forced machine ts t)) hv /\
    node_gone_by (st_Node (m_Status machine)) hn /\ Forall on_machine hf /\ (o = Return tt -> let_go m hf).
Proof.
  assert (Hnl : forall e, holds_on e -> ~ lets_go e) by (intros [r x]; unfold holds_on, lets_go; simpl; destruct r; tauto).
  assert (Hkl : forall e, keeps e -> ~ lets_go e) by (intros e [_ ?]; auto).
  intros He. unfold machineDelete in He. destruct (has_finalizer _ _) eqn:Hf; [|left; destruct He as [-> _]; auto].
  cbn [negb] in He. cbv zeta in He.
  destruct (exec_bind _ _ _ _ He) as [(ht & m & h1 & -> & E0 & E1)|(o' & E1 & Hfail & ->)];
    [|left; split; [eapply Forall_impl; [by eapply keeps_terminate|done]|by destruct o']].
  assert (H0 : Forall (fun e => ~ lets_go e) ht) by (eapply Forall_impl; [by eapply keeps_terminate|done]).
  destruct m as [m|]; [|left; destruct E1 as [-> ->]; rewrite app_nil_r; auto].
  destruct (DeletionTimestamp (m_Meta m)) as [ts|] eqn:Ets; [|left; destruct E1 as [-> ->]; by rewrite app_nil_r].
  cbn [deref bind] in E1. destruct E1 as (t & h2 & -> & E1). cbn [bind] in E1. fold (clock_answer t) in E1.
  change (bool_decide _ || _) with (forced machine ts t) in E1.
  set (options := drain_options _ _ _ _ _) in E1. change (st_Node (m_Status machine)) with (io_nodeName options) in E1 at 1.
  destruct (exec_bind _ _ _ _ E1) as [(hv & e & h3 & -> & Ev & E2)|(o' & Ev & Hfail & ->)].
  2:{ left. split; [|by destruct o']. apply Forall_app. split; [done|]. constructor; [by intros []|].
      apply delete_vm_spec in Ev as [HF _]. eapply Forall_impl; [exact HF|done]. }
  apply delete_vm_spec in Ev as [HFv Hgone].
  assert (HFv' : Forall (fun e => ~ lets_go e) hv) by (eapply Forall_impl; [exact HFv|done]).
  destruct e as [err|].
  { left. split; [|by intros ->; apply exec_bind_ret in E2 as (? & ? & ? & _ & _ & [_ ?])].
    rewrite Forall_app, Forall_cons, Forall_app. split_and!; [done|by intros []|done|].
    eapply Forall_impl; [|exact Hkl]. revert E2. apply emits_bind; [apply keeps_report|intros; apply emits_throw]. }
  destruct (exec_bind _ _ _ _ E2) as [(hn & [] & h4 & -> & En & E3)|(o' & En & Hfail & ->)].
  2:{ left. split; [|by destruct o']. rewrite Forall_app, Forall_cons, Forall_app. split_and!; [done|by intros []|done|].
      apply delete_node_spec in En as [HF _]. eapply Forall_impl; [exact HF|]. intros [r x]; unfold lets_go; simpl; destruct r; tauto. }
  right. exists m, ts, t, ht, hv, hn, h4. split_and!; [done..|by apply Hgone|by apply delete_node_spec in En as [_ Hn]; apply Hn| |].
  2:{ intros ->. apply exec_bind_ret in E3 as (h5 & [] & h6 & -> & _ & (x & h7 & -> & E3)). cbn [bind] in E3. exists h5, x.
      destruct x as [u|err]; [by destruct E3 as [-> _]|]. destruct (IsNotFound err) eqn:Ee; [|by destruct E3]. by destruct E3 as [-> _]. }
  revert E3. apply emits_bind.
  - unfold deleteMachineFinalizers. case_match; [apply on_machine_finalizers|apply emits_ret].
  - intros _. emits_all; done.
Qed.

(** C15: a deletion goes through its stages in order.  If the machine object is let go, its finalizer taken off
    or the object deleted, then before that its VM was asked to be deleted and then its node.  With the ID
    of the VM and the node known, the VM was deleted with success, after the drain of the node, which
    succeeded or was forced by the label or the timeout; otherwise the driver listed the VMs, every one
    with the name of the machine was asked to be deleted, and the last of these calls succeeded.  The
    deletion of the node succeeded or found none.  Nothing of the machine but its status is changed before; and
    a flow that returns well has ended by deleting the machine object, or finding it gone, unless the machine
    has no finalizer or was gone when it was to be marked as terminating. *)
Theorem machineDelete_order rounds machine driver h o :
  names_kept h -> exec (machineDelete c range rounds machine driver) h o ->
  (Forall (fun e => ~ lets_go e) h /\
    (o = Return tt -> has_finalizer DeleteFinalizerName (m_Meta machine) = false \/ exec (terminate rounds machine) h (Return None))) \/
  exists m ts t ht hv hn hf, h = ht ++ ev Now t :: hv ++ hn ++ hf /\ has_finalizer DeleteFinalizerName (m_Meta machine) = true /\
    Forall keeps ht /\ exec (terminate rounds machine) ht (Return (Some m)) /\ DeletionTimestamp (m_Meta m) = Some ts /\
    vm_gone_by driver (m_Name machine) (drain_options c machine driver (st_Node (m_Status machine)) (forced machine ts t)) hv /\
    node_gone_by (st_Node (m_Status machine)) hn /\ Forall on_machine hf /\ (o = Return tt -> let_go m hf).
Proof.
  intros Hk [Hl|(m & ts & t & ht & hv & hn & hf & -> & Hf & Et & Hts & Hv & Hn & Ho & Hg)]%machineDelete_stages; [by left|right].
  exists m, ts, t, ht, hv, hn, hf. split_and!; [done|done|by eapply keeps_terminate|done|done| |done|done|done].
  erewrite <- terminate_name; [exact Hv|exact Et|]. intros e He. apply Hk. apply elem_of_app. by left.
Qed.

(** The error of a VM that could not be deleted is overwritten by the success of the next VM with the same
    name: the deletion goes on as if both were gone. *)
Theorem failed_vm_deletion_forgotten d name vms id1 id2 err :
  range vms = [(id1, name); (id2, name)] ->
  exec (delete_listed range d name vms) [ev (DriverDelete d id1) (Err err); ev (DriverDelete d id2) (Ok tt)] (Return None).
Proof.
  intros Hr. unfold delete_listed. rewrite Hr. cbn [for_fold snd fst]. rewrite bool_decide_true by done. cbn [bind call_try].
  do 2 eexists. split; [done|]. cbn [bind]. do 2 eexists. split; [done|]. done.
Qed.
End emits.

(** ** The health check of the newer controller *)

Section health.
Context `{!Encoders} (c : controller).

(** The status with another flag; the flag for the timeout of a machine that has become unknown, which only
    this controller sets. *)
Definition set_timeout (active : bool) (m : Machine) : Machine :=
  m_set_Status (st_set_CurrentStatus (mkCurStatus (m_Phase m) active (cs_LastUpdateTime (st_CurrentStatus (m_Status m)))) (m_Status m)) m.
Definition with_timeout (machine clone : Machine) : Machine :=
  if bool_decide (m_Phase machine = MachineRunning /\ m_Phase clone = MachineUnknown) then set_timeout true clone else clone.

Lemma health_status_flag m d s t p lf h r : exec (health_status m d s t p lf) h (Return r) -> m_Phase r = p /\ set_timeout false r = r.
Proof. intros (x & h1 & -> & y & h2 & -> & He). destruct lf; by destruct He as [-> [= ->]]. Qed.

Lemma exec_status_of m d s t p b lf h r : exec (status_of m d s t p b lf) h (Return r) <->
  exists r', exec (health_status m d s t p lf) h (Return r') /\ r = set_timeout b r' /\ m_Phase r' = p /\ set_timeout false r' = r'.
Proof.
  split.
  - intros (x & h1 & -> & y & h2 & -> & He). destruct lf; destruct He as [-> [= ->]]; eexists;
      (split; [by do 2 eexists; split; [done|]; do 2 eexists; split; [done|]|done]).
  - intros (r' & (x & h1 & -> & y & h2 & -> & He) & -> & _). destruct lf; destruct He as [-> [= ->]];
      by do 2 eexists; split; [done|]; do 2 eexists; split; [done|].
Qed.

Lemma exec_bind_iff {A B} (p : prog A) (f : A -> prog B) h b : exec (bind p f) h (Return b) <->
  exists h1 a h2, h = h1 ++ h2 /\ exec p h1 (Return a) /\ exec (f a) h2 (Return b).
Proof. split; [apply exec_bind_ret|]. intros (h1 & a & h2 & -> & E1 & E2). by eapply exec_ret_bind. Qed.

Lemma with_timeout_running m r : m_Phase m <> MachineRunning \/ m_Phase r <> MachineUnknown -> with_timeout m r = r.
Proof. intros Hne. unfold with_timeout. rewrite bool_decide_false; [done|]. tauto. Qed.

(** C32: what the two machine controllers make of a node that was fetched, timeouts aside, is the same for a
    machine that is not terminating: from the same clock and the same answers they make the same further
    calls, the one has a status to store exactly when the other does, and it is the same status in every field,
    times and last operation included, but for the flag that starts the health timeout, which this
    controller sets when a running machine becomes unknown. *)
Theorem observed_update_agrees machine node h u : m_Phase machine <> MachineTerminating ->
  exec (observed_update c machine (n_Conditions node)) h (Return u) <->
  exists clone stored, exec (observe_node c machine) (ev (ListerGetNode (st_Node (m_Status machine))) (Ok node) :: h)
      (Return (Some (clone, stored), None)) /\
    u = if stored then Some (with_timeout machine clone) else None.
Proof.
  intros Ht. unfold observed_update, observe_node, health_update. cbn [bind call_try]. setoid_rewrite exec_Call_inv. cbn [bind]. cbv zeta.
  set (changed := nodeConditionsHaveChanged _ _).
  set (m1 := if changed then m_set_Status (st_set_Conditions (n_Conditions node) (m_Status machine)) machine else machine).
  assert (Hp : m_Phase m1 = m_Phase machine) by (unfold m1; by destruct changed). rewrite Hp, (bool_decide_false _ Ht).
  assert (Hnone : forall h, (exec (let! u := Ret (None : option Machine) in Ret (match u with Some clone => Some clone | None => if changed then Some m1 else None end)) h (Return u) <->
    exists clone stored, exec (Ret (Some (m1, changed), None : option error)) h (Return (Some (clone, stored), None)) /\
      u = if stored then Some (with_timeout machine clone) else None)).
  { intros h0. assert (Hw : with_timeout machine m1 = m1).
    { apply with_timeout_running. rewrite Hp. destruct (decide (m_Phase machine = MachineRunning)) as [->|]; [by right|by left]. }
    split.
    - intros [-> [= ->]]. exists m1, changed. by rewrite Hw.
    - intros (clone & stored & [-> [= -> ->]] & ->). by rewrite Hw. }
  assert (Hone : forall d s t p b lf (h : history), p <> MachineUnknown /\ b = false \/ m_Phase machine = MachineRunning /\ p = MachineUnknown /\ b = true ->
    (exec (let! u := (let! clone := status_of m1 d s t p b lf in Ret (Some clone)) in
       Ret (match u with Some clone => Some clone | None => if changed then Some m1 else None end)) h (Return u) <->
     exists clone stored, exec (let! clone := health_status m1 d s t p lf in Ret (Some (clone, true), None : option error)) h (Return (Some (clone, stored), None)) /\
       u = if stored then Some (with_timeout machine clone) else None)).
  { intros d s t p b lf h0 Hb. assert (Hw : forall r, m_Phase r = p -> set_timeout false r = r -> with_timeout machine r = set_timeout b r).
    { intros r Hr Hf. destruct Hb as [[Hpu ->]|(Hm & -> & ->)]; [rewrite with_timeout_running; [done|right; congruence]|].
      unfold with_timeout. by rewrite bool_decide_true. }
    split.
    - intros (h1 & v & h2 & -> & (h3 & r & h4 & -> & (r' & E & -> & Hr & Hf)%exec_status_of & [-> [= ->]])%exec_bind_ret & [-> [= ->]])%exec_bind_ret.
      exists r', true. rewrite (Hw _ Hr Hf), !app_nil_r. split; [|done]. rewrite <- (app_nil_r h3). by eapply exec_ret_bind; [exact E|].
    - intros (clone & stored & (h1 & r' & h2 & -> & E & [-> [= -> ->]])%exec_bind_ret & ->). rewrite app_nil_r.
      assert (Hr : m_Phase r' = p /\ set_timeout false r' = r').
      { by apply (health_status_flag m1 d s t p lf h1). }
      rewrite (Hw r') by apply Hr. rewrite <- (app_nil_r h1). apply (exec_ret_bind _ _ _ (Some (set_timeout b r'))); [|done].
      rewrite <- (app_nil_r h1). apply (exec_ret_bind _ _ _ (set_timeout b r')); [|done]. apply exec_status_of. by exists r'. }
  destruct (isHealthy c m1); cbn [negb andb]; (case_bool_decide as Hr; cbn [negb andb]).
  - apply Hnone.
  - destruct (_ && _).
    + set (status := health_status _ _ _ _ _ _). set (status' := status_of _ _ _ _ _ _ _).
      assert (Hs : forall h, (exec (let! u := (let! clone := status' in Ret (Some clone)) in
          Ret (match u with Some clone => Some clone | None => if changed then Some m1 else None end)) h (Return u) <->
        exists clone stored, exec (let! clone := status in Ret (Some (clone, true), None : option error)) h (Return (Some (clone, stored), None)) /\
          u = if stored then Some (with_timeout machine clone) else None)) by (intros h0; apply Hone; by left).
      split.
      * intros (h1 & v & h2 & -> & (h3 & a & h4 & -> & E1 & E2)%exec_bind_ret & E3)%exec_bind_ret.
        destruct (proj1 (Hs (h4 ++ h2))) as (clone & stored & E4 & ->); [by eapply exec_ret_bind|].
        exists clone, stored. split; [|done]. rewrite <- app_assoc. by eapply exec_ret_bind.
      * intros (clone & stored & (h1 & a & h2 & -> & E1 & E2)%exec_bind_ret & Hu).
        destruct (exec_bind_ret _ _ _ _ (proj2 (Hs h2) ltac:(eauto))) as (h3 & v & h4 & -> & E3 & E4).
        rewrite app_assoc. eapply exec_ret_bind; [|exact E4]. by eapply exec_ret_bind.
    + apply Hone. by left.
  - apply Hone. auto.
  - apply Hnone.
Qed.
End health.

(** ** The reconciliation *)

Section reconcile.
Context `{!Encoders} (c : controller).
Variable range : strmap -> list (string * string).
Context (ValidateObjectMeta : ObjectMeta -> bool -> (string -> bool -> list string) -> string -> list FieldError).

Lemma keeps_vm {A} (p : prog A) : emits keeps p -> emits no_vm p.
Proof. apply emits_weaken. by intros ? [? ?]. Qed.
Lemma on_machine_vm {A} (p : prog A) : emits on_machine p -> emits no_vm p.
Proof. apply emits_weaken. by intros ? [? ?]. Qed.

Lemma no_vm_enqueue m t : emits no_vm (enqueueMachineAfter m t).
Proof. unfold enqueueMachineAfter. emits_all; done. Qed.

Lemma no_vm_class cs : emits no_vm (validateMachineClass c ValidateObjectMeta cs).
Proof. unfold validateMachineClass, Freezing.getSecretData. emits_all; done. Qed.

Lemma no_vm_conditions rounds ns name conds : emits no_vm (updateMachineConditions c rounds ns name conds).
Proof.
  revert ns name; induction rounds as [|n IH]; intros ns name; simpl; [apply emits_starve|].
  unfold observed_update, health_update, status_of. emits_all; first [done|apply IH|apply keeps_vm, keeps_token].
Qed.

Lemma no_vm_state rounds m : emits no_vm (updateMachineState c rounds m).
Proof.
  unfold updateMachineState, adopt_node, node_missing, label_node.
  emits_all; first [done|apply no_vm_conditions|apply keeps_vm, keeps_status].
Qed.

Lemma no_vm_sync m : emits no_vm (syncMachineNodeTemplates m).
Proof. unfold syncMachineNodeTemplates. emits_all; done. Qed.

Lemma no_vm_timeout rounds m : emits no_vm (checkMachineTimeout c rounds m).
Proof. unfold checkMachineTimeout, HasTimeOutOccurred. emits_all; first [done|apply keeps_vm, keeps_status|apply no_vm_enqueue]. Qed.

Lemma no_create_delete rounds m d : emits no_create (machineDelete c range rounds m d).
Proof.
  assert (Hk : forall A (p : prog A), emits keeps p -> emits no_create p) by (intros; by apply keeps_no_create).
  unfold machineDelete, delete_vm, drain_node, delete_listed, delete_node, deleteMachineFinalizers, HasTimeOutOccurred.
  emits_all; first [done|apply Hk, keeps_terminate|apply Hk, keeps_condition|apply Hk, keeps_status|apply Hk, keeps_report|idtac].
  eapply emits_weaken; [|apply on_machine_finalizers]. intros [r x] [Hr _]. by destruct r.
Qed.

(** What may be done to VMs, and for which machine. *)
Definition deleting (m : Machine) : bool := negb (bool_decide (DeletionTimestamp (m_Meta m) = None)).
Definition may_create (m : Machine) : Prop :=
  deleting m = false /\ cs_TimeoutActive (st_CurrentStatus (m_Status m)) = false /\ m_Phase m <> MachineFailed.

Lemma no_vm_add rounds m : emits no_vm (addMachineFinalizers rounds m).
Proof. unfold addMachineFinalizers. emits_all. apply on_machine_vm, on_machine_finalizers. Qed.

Lemma no_vm_update rounds ns name id : emits no_vm (machineUpdate rounds ns name id).
Proof. induction rounds as [|n IH]; simpl; [apply emits_starve|]. emits_all; done || apply IH. Qed.

Lemma dispatch_guards rounds m d id h o : exec (dispatch c range rounds m d id) h o ->
  Forall no_vm h \/ (deleting m = true /\ Forall no_create h) \/ (may_create m /\ id = EmptyString).
Proof.
  intros He. unfold dispatch in He. fold (deleting m) in He. destruct (deleting m) eqn:Ed.
  - right. left. split; [done|]. revert He. apply emits_bind; [apply emits_attempt, no_create_delete|].
    intros r. unfold enqueueMachineAfter. emits_all; done.
  - destruct (cs_TimeoutActive _) eqn:Et.
    + left. revert He. apply emits_bind; [apply no_vm_timeout|intros; apply emits_ret].
    + destruct (exec_bind _ _ _ _ He) as [(h1 & u & h2 & -> & E1 & E2)|(o' & E1 & _)]; [|left; by eapply no_vm_add].
      apply no_vm_add in E1. case_bool_decide as Hf; [|case_bool_decide as Hid].
      * left. destruct E2 as [-> _]. by rewrite app_nil_r.
      * by right; right.
      * left. apply Forall_app. split; [done|]. destruct (bool_decide (id = _)); [by destruct E2 as [-> _]|].
        revert E2. apply emits_bind; [apply emits_attempt, no_vm_update|intros; apply emits_ret].
Qed.

Definition dispatched (m : Machine) (id : string) (h : history) : Prop :=
  exists h1 h2, h = h1 ++ h2 /\ Forall no_vm h1 /\
    ((deleting m = true /\ Forall no_create h2) \/ (may_create m /\ id = EmptyString)).

Lemma sync_guards rounds m d id h o : exec (sync_and_dispatch c range rounds m d id) h o -> Forall no_vm h \/ dispatched m id h.
Proof.
  intros (n & h1 & -> & He). cbn [bind] in He.
  assert (Hs : emits no_vm (match n with Ok _ => attempt (syncMachineNodeTemplates m) | Err _ => Ret (Ok tt) end)).
  { destruct n; [apply emits_attempt, no_vm_sync|apply emits_ret]. }
  destruct (exec_bind _ _ _ _ He) as [(h2 & s & h3 & -> & E2 & E3)|(o' & E2 & _)]; [|left; constructor; [done|by eapply Hs]].
  apply Hs in E2. destruct s as [u|err]; [|left; destruct E3 as [-> _]; rewrite app_nil_r; by constructor].
  apply dispatch_guards in E3 as [HF|Hd]; [left; constructor; [done|by apply Forall_app]|].
  right. exists (ev (ListerGetNode (st_Node (m_Status m))) n :: h2), h3. split_and!; [done|by constructor|done].
Qed.

(** The class was found, it is valid, and its secrets were read. *)
Definition class_ready (cs : ClassSpec) (h : history) (class : ProviderClass) (secret : strmap) : Prop :=
  exists hs, h = ev (ListerGetProviderClass (cl_Kind cs) (c_namespace c) (cl_Name cs)) (Ok class) :: hs /\
    ValidateProviderClass ValidateObjectMeta class = Some [] /\
    exec (Freezing.getSecretData [pc_SecretRef class; pc_CredentialsSecretRef class]) hs (Return (Some secret)).

Lemma exec_validate_class cs h class secret : exec (validateMachineClass c ValidateObjectMeta cs) h (Return (Some class, Some secret, None)) ->
  class_ready cs h class secret.
Proof.
  unfold validateMachineClass. case_bool_decide; [|by intros [_ ?]]. intros (x & hs & -> & He). cbn [bind] in He.
  destruct x as [class'|e]; [|by destruct He]. destruct (ValidateProviderClass _ class') as [errs|] eqn:Ev; cbn [deref bind] in He; [|by destruct He].
  case_bool_decide as Hn; cbn [negb] in He; [|by destruct He]. subst errs.
  apply exec_bind_ret in He as (h1 & s & h2 & -> & E1 & E2). apply exec_attempt_ret in E1. destruct s as [sd|e]; [|by destruct E2].
  destruct E2 as [-> [= <- <-]]. exists h1. by rewrite app_nil_r.
Qed.

(** What is known when a VM has been touched: the guards were passed; the machine was read again and its state
    brought up to date; and the machine [m] that this gave decides. *)
Definition guarded (rounds : nat) (machine : Machine) (h : history) : Prop :=
  so_MachineControllerFrozen (c_safetyOptions c) && negb (deleting machine) = false /\ ValidateMachine machine = [] /\
  exists h0 m0 h1 h2 h3 class secret m,
    h = h0 ++ ev (ListerGetMachine (Namespace (m_Meta machine)) (m_Name machine)) (Ok m0) :: h1 ++ h2 ++ h3 /\
    Forall no_vm (h0 ++ h1 ++ h2) /\ class_ready (sp_Class (m_Spec machine)) h0 class secret /\
    exec (updateMachineState c rounds m0) h1 (Return (m, None)) /\
    if deleting m then Forall no_create h3 else may_create m /\ sp_ProviderID (m_Spec machine) = EmptyString.

Lemma body_guards rounds machine h o : cl_Kind (sp_Class (m_Spec machine)) ∈ provider_kinds ->
  exec (reconcile_body c range ValidateObjectMeta rounds machine) h o -> Forall no_vm h \/ guarded rounds machine h.
Proof.
  intros Hk He. unfold reconcile_body in He. unfold guarded.
  replace (bool_decide (DeletionTimestamp (m_Meta machine) = None)) with (negb (deleting machine)) in He
    by (unfold deleting; by rewrite negb_involutive).
  destruct (_ && _) eqn:Ef; [left; by destruct He as [-> _]|].
  destruct (shouldReconcileMachine machine); cbn [negb] in He; [|left; by destruct He as [-> _]].
  case_bool_decide as Hv; cbn [negb] in He; [|left; by destruct He as [-> _]].
  destruct (exec_bind _ _ _ _ He) as [(h0 & v & h1 & -> & E0 & E1)|(o' & E0 & _)]; [|left; by eapply no_vm_class].
  pose proof (no_vm_class _ _ _ E0) as HF0.
  assert (Hleft : Forall no_vm h1 -> Forall no_vm (h0 ++ h1)) by (intros; by apply Forall_app).
  assert (Hen : exec (do! enqueueMachineAfter machine MachineEnqueueRetryPeriod in Ret (Some machine, None)) h1 o -> Forall no_vm h1).
  { apply (emits_bind no_vm); [apply no_vm_enqueue|intros; apply emits_ret]. }
  destruct v as [[[class|] [secret|]] [err|]]; try (left; by auto). clear Hen.
  destruct (bool_decide (_ = fake_id)); [left; apply Hleft; by destruct E1 as [-> _]|].
  assert (Hid : GetExisting (NewDriver (sp_ProviderID (m_Spec machine)) secret (cl_Kind (sp_Class (m_Spec machine))) class (m_Name machine)) =
    sp_ProviderID (m_Spec machine)).
  { unfold GetExisting, is_fake. simpl. by rewrite bool_decide_true. }
  destruct E1 as (x & h2 & -> & E1). cbn [bind] in E1.
  destruct x as [m0|err]; [|left; apply Hleft; destruct E1 as [-> _]; by repeat constructor].
  destruct (exec_bind _ _ _ _ E1) as [(h3 & [m1 err] & h4 & -> & E3 & E4)|(o' & E3 & _)];
    [|left; apply Hleft; constructor; [done|by eapply no_vm_state]].
  assert (HF3 := E3). apply no_vm_state in HF3. destruct err as [err|]; [left; apply Hleft; destruct E4 as [-> _]; rewrite app_nil_r; by constructor|].
  rewrite Hid in E4. clear He Hid.
  assert (E5 : exists o', exec (sync_and_dispatch c range rounds m1
    (NewDriver (sp_ProviderID (m_Spec machine)) secret (cl_Kind (sp_Class (m_Spec machine))) class (m_Name machine))
    (sp_ProviderID (m_Spec machine))) h4 o').
  { destruct (exec_bind _ _ _ _ E4) as [(h5 & e & h6 & -> & E5 & [-> _])|(o' & E5 & _)]; [rewrite app_nil_r|]; by eexists. }
  destruct E5 as [o' E5].
  apply sync_guards in E5 as [HF|(h7 & h8 & -> & HF & Hd)]; [left; apply Hleft; constructor; [done|by apply Forall_app]|].
  right. split_and!; [done..|]. exists h0, m0, h3, h7, h8, class, secret, m1.
  split_and!; [done|by rewrite !Forall_app|by apply exec_validate_class|done|].
  destruct Hd as [[-> Hn]|[Hm ->]]; [done|]. destruct Hm as (Hm & Hm2). by rewrite Hm.
Qed.

Lemma no_vm_tail (r : option Machine * option error) : emits no_vm (let! machine := deref r.1 in
  do! enqueueMachineAfter machine (10 * Minute) in match r.2 with Some err => Throw err | None => Ret tt end).
Proof. emits_all. apply no_vm_enqueue. Qed.

(** C16: VMs are only touched for a machine that passes validation, whose class was found, passes validation and
    has its secret, and when the controller is not frozen, unless the machine is being deleted.  Then the
    version of the machine decides that the second reading and the update of its state gave: for one with a
    deletion time nothing is created; for one without, a VM is touched only if it waits for no timeout, has
    not failed, and the machine had no ID when it was taken from the queue. *)
Theorem in_tree_reconcile_guards rounds machine h o : cl_Kind (sp_Class (m_Spec machine)) ∈ provider_kinds ->
  exec (reconcileClusterMachine c range ValidateObjectMeta rounds machine) h o -> Forall no_vm h \/ guarded rounds machine h.
Proof.
  intros Hk He. unfold reconcileClusterMachine in He.
  destruct (exec_bind _ _ _ _ He) as [(hb & r & ht & -> & Eb & Et)|(o' & Eb & _ & _)]; [|by eapply body_guards].
  apply no_vm_tail in Et.
  destruct (body_guards _ _ _ _ Hk Eb) as [HF|(Hf & Hv & h0 & m0 & h1 & h2 & h3 & class & secret & m & -> & HF & Ec & Em & Hd)].
  - left. by apply Forall_app.
  - right. split_and!; [done..|]. exists h0, m0, h1, h2, (h3 ++ ht), class, secret, m.
    split_and!; [by rewrite <- !app_assoc, <- app_comm_cons, <- !app_assoc|done|done|done|].
    destruct (deleting m); [|done]. apply Forall_app. split; [done|].
    eapply Forall_impl; [exact Et|]. intros [r' x] Hx. by destruct r'.
Qed.

(** A machine that is gone from the cache when it is read for the second time brings the controller down:
    the deferred function reads the name of the nil machine. *)
Theorem vanished_machine_panics rounds machine h class secret e :
  so_MachineControllerFrozen (c_safetyOptions c) && negb (deleting machine) = false ->
  ValidateMachine machine = [] -> cl_Kind (sp_Class (m_Spec machine)) ∈ provider_kinds -> sp_ProviderID (m_Spec machine) <> fake_id ->
  exec (validateMachineClass c ValidateObjectMeta (sp_Class (m_Spec machine))) h (Return (Some class, Some secret, None)) ->
  exec (reconcileClusterMachine c range ValidateObjectMeta rounds machine)
    (h ++ [ev (ListerGetMachine (Namespace (m_Meta machine)) (m_Name machine)) (Err e)]) Panic.
Proof.
  intros Hf Hv Hk Hid He. unfold reconcileClusterMachine.
  rewrite <- (app_nil_r (h ++ _)). apply (exec_ret_bind _ _ _ (None, if IsNotFound e then None else Some e)); [|by split].
  unfold reconcile_body.
  replace (bool_decide (DeletionTimestamp (m_Meta machine) = None)) with (negb (deleting machine))
    by (unfold deleting; by rewrite negb_involutive).
  rewrite Hf. replace (shouldReconcileMachine machine) with true by (unfold shouldReconcileMachine; by repeat case_match).
  rewrite Hv, (bool_decide_true ([] = [])) by done. cbn [negb]. eapply exec_ret_bind; [exact He|]. cbv beta iota.
  assert (HG : GetExisting (NewDriver (sp_ProviderID (m_Spec machine)) secret (cl_Kind (sp_Class (m_Spec machine))) class (m_Name machine)) =
    sp_ProviderID (m_Spec machine)) by (unfold GetExisting, is_fake; simpl; by rewrite bool_decide_true).
  rewrite HG, bool_decide_false by done. do 2 eexists. split; [done|]. by split.
Qed.
End reconcile.

(** ** Witnesses *)

#[local] Existing Instance sample_Encoders.

Definition cloud_class : ProviderClass := sample_provider_class (Some (mkSecretRef "cred" "shoot")).
Definition cloud_machine (finalizers : list string) (deleted : option Z) (providerID node : string) (phase : string) : Machine :=
  mkMachine (mkMeta "machine-abcde" "" "shoot" "" "" 0 0 deleted ∅ ∅ [] finalizers)
    (mkMachineSpec (mkClass "" AWSMachineClassKind "small") providerID zero_node_template None)
    (mkMachineStatus node [] zero_last_op (mkCurStatus phase false 0) "").
Definition cloud_driver (id : string) : InTreeDriver := NewDriver id {[ "userData" := "x" ]} AWSMachineClassKind cloud_class "machine-abcde".

(** A cloud with one VM of another machine, and an API server that stores what it is sent. *)
Definition cloud_world (m : Machine) (r : req) (w : unit) : unit * result (answer r) :=
  (w, match r return result (answer r) with
      | Now => Ok (60 * Minute)
      | GetTargetSecret _ name => Ok (mkSecret zero_meta "" {[ "token-id" := "abc123"; "token-secret" := "s" ]})
      | ListerGetSecret _ _ => Ok (mkSecret zero_meta "" {[ "userData" := "boot <<BOOTSTRAP_TOKEN>>" ]})
      | ListerGetProviderClass _ _ _ => Ok cloud_class
      | DriverGetVMs _ _ => Ok {[ "aws:///eu/i-1" := "machine-other" ]}
      | DriverCreate _ => Ok ("aws:///eu/i-2", "ip-10-0-0-2")
      | GetMachine _ _ | ListerGetMachine _ _ => Ok m
      | ListerNodes => Ok []
      | UpdateMachine m | UpdateStatusMachine m => Ok m
      | DriverDelete _ _ | RunInTreeDrain _ | DeleteNode _ | DeleteMachineReq _ _ | DeleteTargetSecret _ _ => Ok tt
      | EnqueueMachineAfter _ _ => Ok tt
      | _ => Err (mkErr NotFound "not found")
      end).

Abbreviation new_machine := (cloud_machine [DeleteFinalizerName] None "" "" "").
Abbreviation creation := (run (cloud_world new_machine) (machineCreate sample_controller map_to_list 3 new_machine (cloud_driver "")) tt).


Definition touches (e : event) : bool := match projT1 e with DriverCreate _ | DriverDelete _ _ => true | _ => false end.
Lemma touched h : existsb touches h = true -> ~ Forall no_vm h.
Proof.
  induction h as [|[r x] h IH]; [done|]. intros Ht [Hr HF]%Forall_cons. simpl in Ht. apply orb_true_iff in Ht as [Ht|Ht]; [|by apply IH].
  unfold touches in Ht. simpl in Ht. by destruct r.
Qed.
Definition frees (e : event) : bool := match projT1 e with DeleteMachineReq _ _ | UpdateMachine _ => true | _ => false end.
Lemma freed h : existsb frees h = true -> ~ Forall (fun e => ~ lets_go e) h.
Proof.
  induction h as [|[r x] h IH]; [done|]. intros Ht [Hr HF]%Forall_cons. simpl in Ht. apply orb_true_iff in Ht as [Ht|Ht]; [|by apply IH].
  unfold frees in Ht. simpl in Ht. apply Hr. by destruct r.
Qed.

Lemma machineCreate_keeps_track_witness : creation.2 = Return tt /\
  exists h1 userData vms h2, creation.1.2 = h1 ++ ev (DriverGetVMs (SetUserData userData (cloud_driver "")) EmptyString) (Ok vms) :: h2.
Proof.
  assert (Ho : creation.2 = Return tt) by (vm_compute; reflexivity). split; [exact Ho|].
  destruct (machineCreate_keeps_track sample_controller map_to_list (fun m => reflexivity _) 3 new_machine (cloud_driver "") _ _
    (run_exec (cloud_world new_machine) _ tt)) as [[_ Hn]|(h1 & d & vms & h2 & Hh & _)].
  - exfalso. exact (Hn Ho).
  - by exists h1, d, vms, h2.
Defined.

Abbreviation dying_machine := (cloud_machine [DeleteFinalizerName] (Some 1000) "aws:///eu/i-2" "ip-10-0-0-2" MachineTerminating).
Abbreviation deletion := (run (cloud_world dying_machine)
  (machineDelete sample_controller map_to_list 3 dying_machine (cloud_driver "aws:///eu/i-2")) tt).

Lemma cloud_names rounds : names_kept (run (cloud_world dying_machine)
  (machineDelete sample_controller map_to_list rounds dying_machine (cloud_driver "aws:///eu/i-2")) tt).1.2 <->
  Forall (fun e : event => match e with existT (GetMachine _ name) (Ok m) => m_Name m = name | existT (UpdateStatusMachine m) (Ok m') => m_Name m' = m_Name m | _ => True end)
    (run (cloud_world dying_machine) (machineDelete sample_controller map_to_list rounds dying_machine (cloud_driver "aws:///eu/i-2")) tt).1.2.
Proof. unfold names_kept. by rewrite Forall_forall. Qed.

Lemma machineDelete_order_witness : deletion.2 = Return tt /\
  exists ts t hv, vm_gone_by map_to_list (cloud_driver "aws:///eu/i-2") "machine-abcde"
    (drain_options sample_controller dying_machine (cloud_driver "aws:///eu/i-2") "ip-10-0-0-2" (forced sample_controller dying_machine ts t)) hv.
Proof.
  assert (Ho : deletion.2 = Return tt) by (vm_compute; reflexivity). split; [exact Ho|].
  destruct (machineDelete_order sample_controller map_to_list 3 dying_machine (cloud_driver "aws:///eu/i-2") _ _
    (proj2 (cloud_names 3) ltac:(vm_compute; repeat constructor)) (run_exec (cloud_world dying_machine) _ tt))
    as [[HF _]|(m & ts & t & ht & hv & hn & hf & _ & _ & _ & _ & _ & Hv & _)].
  - exfalso. revert HF. apply freed. vm_compute. reflexivity.
  - exists ts, t, hv. exact Hv.
Defined.

Abbreviation reconciled m := (run (cloud_world m) (reconcileClusterMachine sample_controller map_to_list names_only 3 m) tt).

Lemma in_tree_reconcile_guards_witness : (reconciled new_machine).2 = Return tt /\ guarded sample_controller names_only 3 new_machine (reconciled new_machine).1.2.
Proof.
  split; [vm_compute; reflexivity|].
  destruct (in_tree_reconcile_guards sample_controller map_to_list names_only 3 new_machine _ _ ltac:(apply (bool_decide_unpack _); vm_compute; exact I)
    (run_exec (cloud_world new_machine) _ tt)) as [HF|Hg]; [|exact Hg].
  exfalso. revert HF. apply touched. vm_compute. reflexivity.
Defined.

Lemma vanished_machine_panics_witness : exists h,
  exec (reconcileClusterMachine sample_controller map_to_list names_only 3 new_machine)
    (h ++ [ev (ListerGetMachine "shoot" "machine-abcde") (Err (mkErr NotFound "not found"))]) Panic.
Proof.
  eexists. eapply (vanished_machine_panics sample_controller map_to_list names_only 3 new_machine).
  - reflexivity.
  - reflexivity.
  - apply (bool_decide_unpack _); vm_compute; exact I.
  - discriminate.
  - pose proof (run_exec (cloud_world new_machine) (validateMachineClass sample_controller names_only (sp_Class (m_Spec new_machine))) tt) as He.
    assert (Hr : (run (cloud_world new_machine) (validateMachineClass sample_controller names_only (sp_Class (m_Spec new_machine))) tt).2 =
      Return (Some cloud_class, Some {[ "userData" := "boot <<BOOTSTRAP_TOKEN>>" ]}, None)) by (vm_compute; reflexivity).
    rewrite Hr in He. exact He.
Defined.

Lemma failed_vm_deletion_forgotten_witness :
  exec (delete_listed (fun _ => [("i-1", "m"); ("i-2", "m")]) (cloud_driver "") "m" ∅)
    [ev (DriverDelete (cloud_driver "") "i-1") (Err (Errorf "timeout")); ev (DriverDelete (cloud_driver "") "i-2") (Ok tt)] (Return None).
Proof. apply (failed_vm_deletion_forgotten (fun _ => [("i-1", "m"); ("i-2", "m")])). reflexivity. Defined.

(** A node that is ready. *)
Definition joined_node : Node := mkNode (sample_meta "n1" "n1") (mkNodeSpec "" "" false []) [ready_condition ConditionTrue].

Lemma observed_update_agrees_witness : exists m' clone stored,
  (run (cloud_world new_machine) (observed_update sample_controller new_machine [ready_condition ConditionTrue]) tt).2 = Return (Some m') /\
  exec (observe_node sample_controller new_machine)
    (ev (ListerGetNode "") (Ok joined_node) :: (run (cloud_world new_machine) (observed_update sample_controller new_machine [ready_condition ConditionTrue]) tt).1.2)
    (Return (Some (clone, stored), None)) /\ Some m' = if stored then Some (with_timeout new_machine clone) else None.
Proof.
  pose proof (run_exec (cloud_world new_machine) (observed_update sample_controller new_machine [ready_condition ConditionTrue]) tt) as He.
  destruct (run _ _ tt).2 as [[m'|]|e| |] eqn:Hr; [|exfalso; by vm_compute in Hr..].
  destruct (proj1 (observed_update_agrees sample_controller new_machine joined_node _ (Some m') ltac:(discriminate)) He) as (clone & stored & E & Hu).
  exists m', clone, stored. split; [reflexivity|]. split; [exact E|exact Hu].
Defined.
