(* ===== verification/InTreeClasses.v ===== *)
(** * Provider-specific machine classes and their secrets (pkg/controller: awsmachineclass.go and its
      five siblings, machineclass_util.go, secret.go, secret_util.go)

    The six files are copies of each other up to the kind; the operations are written once with the kind
    as a parameter, and one [ClassController] stands for each file.  The queue of a class controller is
    named by its kind.  One copy differs: that of Packet puts a class that has to be tried again into the
    queue of OpenStack. *)
From Stdlib Require Import ZArith Lia Ascii String.
From stdpp Require Import base gmap strings list.
From S2P Require Import Prelude GoLib Types Labels Prog Samples Validation ClassValidation Driver.
From S2P Require Import NodeTemplate MachineClasses MachineUtil InTreeMachine.
Open Scope Z_scope.

(** ** Finding the users of a class (machineclass_util.go) *)

Definition findMachineDeploymentsForClass (kind name : string) : prog (list MachineDeployment) :=
  let! machineDeployments := call ListerMachineDeployments in
  Ret (filter (fun d => refers_to kind name (template_class (md_Template (d_Spec d))) = true) machineDeployments).

Definition findMachineSetsForClass (kind name : string) : prog (list MachineSet) :=
  let! machineSets := call ListerMachineSets in
  Ret (filter (fun ms => refers_to kind name (template_class (ms_Template (is_Spec ms))) = true) machineSets).

Definition pc_set_Meta (m : ObjectMeta) (class : ProviderClass) : ProviderClass :=
  mkProviderClass m (pc_SecretRef class) (pc_CredentialsSecretRef class) (pc_Spec class).

Section class_controller.
Variable c : controller.
(** The command line flag of the same name. *)
Variable deleteMigratedMachineClass : bool.
(** Machines, sets and deployments of this kind concern this controller; [after_queue] gets the retries. *)
Variables kind after_queue : string.
Context (ValidateObjectMeta : ObjectMeta -> bool -> (string -> bool -> list string) -> string -> list FieldError).

(** ** Events *)

Definition enqueue_class (class : ClassSpec) : prog unit :=
  if bool_decide (cl_Kind class = kind) then call_ignore (QueueAdd kind (cl_Name class)) else Ret tt.

Definition machineDeploymentToMachineClassDelete (machineDeployment : MachineDeployment) : prog unit :=
  enqueue_class (template_class (md_Template (d_Spec machineDeployment))).
Definition machineSetToMachineClassDelete (machineSet : MachineSet) : prog unit :=
  enqueue_class (template_class (ms_Template (is_Spec machineSet))).
Definition machineToClassAdd (machine : Machine) : prog unit := enqueue_class (sp_Class (m_Spec machine)).

(** Of two classes of the same kind only the new one is put into the queue. *)
Definition machineToClassUpdate (oldMachine newMachine : Machine) : prog unit :=
  let oldClass := sp_Class (m_Spec oldMachine) in
  let newClass := sp_Class (m_Spec newMachine) in
  if bool_decide (cl_Kind oldClass = cl_Kind newClass) then enqueue_class newClass
  else do! enqueue_class oldClass in enqueue_class newClass.
Definition machineToClassDelete (machine : Machine) : prog unit := machineToClassAdd machine.

Definition classAdd (class : ProviderClass) : prog unit := call_ignore (QueueAdd kind (KeyFunc (pc_Meta class))).
Definition classUpdate (old new : ProviderClass) : prog unit := classAdd new.
Definition classDelete (class : ProviderClass) : prog unit := classAdd class.
Definition enqueueClassAfter (class : ProviderClass) (after : Z) : prog unit :=
  call_ignore (QueueAddAfter after_queue (KeyFunc (pc_Meta class)) after).

(** ** Finalizers *)

(** The latest object with the finalizers computed from the cached one. *)
Definition updateClassFinalizers (class : ProviderClass) (finalizers : list string) : prog unit :=
  let! class := call (GetProviderClass kind (Namespace (pc_Meta class)) (Name (pc_Meta class))) in
  do! call (UpdateProviderClass (pc_set_Meta (set_Finalizers finalizers (pc_Meta class)) class)) in
  Ret tt.

Definition addClassFinalizers (class : ProviderClass) : prog unit :=
  if has_finalizer DeleteFinalizerName (pc_Meta class) then Ret tt
  else updateClassFinalizers class (with_finalizer DeleteFinalizerName (pc_Meta class)).
Definition deleteClassFinalizers (class : ProviderClass) : prog unit :=
  if has_finalizer DeleteFinalizerName (pc_Meta class)
  then updateClassFinalizers class (without_finalizer DeleteFinalizerName (pc_Meta class)) else Ret tt.

(** ** Reconciliation *)

Definition reconcileClusterClass (class : ProviderClass) : prog unit :=
  let! validationerr := deref (ValidateProviderClass ValidateObjectMeta class) in
  if negb (bool_decide (validationerr = [])) then Ret tt
  else
    let live := bool_decide (DeletionTimestamp (pc_Meta class) = None) in
    do! (if live then addClassFinalizers class else Ret tt) in
    let! machines := findMachinesForClass kind (Name (pc_Meta class)) in
    if live then
      if deleteMigratedMachineClass && bool_decide (is_Some (Annotations (pc_Meta class) !! MigratedMachineClass)) &&
         bool_decide (machines = []) then
        do! call (DeleteProviderClass kind (Namespace (pc_Meta class)) (Name (pc_Meta class))) in
        Throw (Errorf "Retry deletion as deletion timestamp is now set")
      else Ret tt
    else if negb (bool_decide (machines = [])) then
      do! for_each machines addMachine in
      Throw (Errorf "Retry as machine objects are still referring the machineclass")
    else deleteClassFinalizers class.

Definition reconcileClusterClassKey (key : string) : prog unit :=
  let! nn := or_throw (SplitMetaNamespaceKey key) "unexpected key format" in
  let! r := call_try (ListerGetProviderClass kind (c_namespace c) nn.2) in
  match r with
  | Err err => if IsNotFound err then Ret tt else Throw err
  | Ok class =>
      let! x := attempt (reconcileClusterClass class) in
      match x with
      | Err _ => enqueueClassAfter class (10 * Second)
      | Ok _ => enqueueClassAfter class (10 * Minute)
      end
  end.

(** What a file of the six consists of. *)
Record ClassController := mkClassController {
  cc_machineDeploymentDelete : MachineDeployment -> prog unit;
  cc_machineSetDelete : MachineSet -> prog unit;
  cc_machineAdd : Machine -> prog unit;
  cc_machineUpdate : Machine -> Machine -> prog unit;
  cc_machineDelete : Machine -> prog unit;
  cc_classAdd : ProviderClass -> prog unit;
  cc_classUpdate : ProviderClass -> ProviderClass -> prog unit;
  cc_classDelete : ProviderClass -> prog unit;
  cc_reconcileKey : string -> prog unit }.

Definition class_controller : ClassController :=
  mkClassController machineDeploymentToMachineClassDelete machineSetToMachineClassDelete machineToClassAdd
    machineToClassUpdate machineToClassDelete classAdd classUpdate classDelete reconcileClusterClassKey.
End class_controller.

(** ** The six files *)

Definition awsMachineClassController c flag := class_controller c flag AWSMachineClassKind AWSMachineClassKind.
Definition azureMachineClassController c flag := class_controller c flag AzureMachineClassKind AzureMachineClassKind.
Definition gcpMachineClassController c flag := class_controller c flag GCPMachineClassKind GCPMachineClassKind.
Definition openStackMachineClassController c flag := class_controller c flag OpenStackMachineClassKind OpenStackMachineClassKind.
Definition alicloudMachineClassController c flag := class_controller c flag AlicloudMachineClassKind AlicloudMachineClassKind.
Definition packetMachineClassController c flag := class_controller c flag PacketMachineClassKind OpenStackMachineClassKind.

(** ** Secrets (secret.go, secret_util.go) *)

Definition class_uses_secret (name : string) (class : ProviderClass) : bool :=
  ref_named name (pc_SecretRef class) || ref_named name (pc_CredentialsSecretRef class).

Definition findClassForSecret (kind name : string) : prog (list ProviderClass) :=
  let! machineClasses := call (ListerProviderClasses kind) in
  Ret (filter (fun class => class_uses_secret name class = true) machineClasses).

Definition existsMachineClassForSecret (name : string) : prog bool :=
  let! openStackMachineClasses := findClassForSecret OpenStackMachineClassKind name in
  let! gcpMachineClasses := findClassForSecret GCPMachineClassKind name in
  let! azureMachineClasses := findClassForSecret AzureMachineClassKind name in
  let! awsMachineClasses := findClassForSecret AWSMachineClassKind name in
  let! alicloudMachineClasses := findClassForSecret AlicloudMachineClassKind name in
  let! packetMachineClasses := findClassForSecret PacketMachineClassKind name in
  Ret (negb (bool_decide (openStackMachineClasses = []) && bool_decide (gcpMachineClasses = []) &&
    bool_decide (azureMachineClasses = []) && bool_decide (packetMachineClasses = []) &&
    bool_decide (alicloudMachineClasses = []) && bool_decide (awsMachineClasses = []))).

Definition addSecretFinalizers (secret : Secret) : prog unit :=
  if has_finalizer DeleteFinalizerName (sec_Meta secret) then Ret tt
  else updateSecretFinalizers secret (with_finalizer DeleteFinalizerName (sec_Meta secret)).
Definition deleteSecretFinalizers (secret : Secret) : prog unit :=
  if has_finalizer DeleteFinalizerName (sec_Meta secret)
  then updateSecretFinalizers secret (without_finalizer DeleteFinalizerName (sec_Meta secret)) else Ret tt.

Definition reconcileClusterSecret (secret : Secret) : prog unit :=
  do! now in
  defer (enqueueSecretAfter secret (10 * Minute))
    (let! exists_class := existsMachineClassForSecret (Name (sec_Meta secret)) in
     if (exists_class : bool) then addSecretFinalizers secret
     else if negb (has_finalizer DeleteFinalizerName (sec_Meta secret)) then Ret tt
     else deleteSecretFinalizers secret).

Definition reconcileClusterSecretKey (c : controller) (key : string) : prog unit :=
  let! nn := or_throw (SplitMetaNamespaceKey key) "unexpected key format" in
  if negb (bool_decide (c_namespace c = nn.1)) then Ret tt
  else
    let! r := call_try (ListerGetSecret (c_namespace c) nn.2) in
    match r with
    | Err e => if IsNotFound e then Ret tt else Throw e
    | Ok secret => reconcileClusterSecret secret
    end.

(** The six handlers of each event are alike. *)
Definition classToSecretAdd (class : ProviderClass) : prog unit :=
  enqueueSecretForReferences [pc_SecretRef class; pc_CredentialsSecretRef class].
Definition classToSecretUpdate (old new : ProviderClass) : prog unit :=
  do! enqueueSecretForReferenceIfChanged (pc_SecretRef old) (pc_SecretRef new) in
  enqueueSecretForReferenceIfChanged (pc_CredentialsSecretRef old) (pc_CredentialsSecretRef new).
Definition classToSecretDelete (class : ProviderClass) : prog unit := classToSecretAdd class.

(** ** Theorems *)

Section theorems.
Context (ValidateObjectMeta : ObjectMeta -> bool -> (string -> bool -> list string) -> string -> list FieldError).

Definition users (kind : string) (class : ProviderClass) (machines : list Machine) : list Machine :=
  filter (fun m => refers_to kind (Name (pc_Meta class)) (sp_Class (m_Spec m)) = true) machines.

(** The cache was asked and lists no machine of the class. *)
Definition unused (kind : string) (class : ProviderClass) (h : history) : Prop :=
  exists machines, ev ListerMachines (Ok machines) ∈ h /\ users kind class machines = [].

(** What may be written about a class. *)
Definition provider_write_ok (flag : bool) (kind : string) (class : ProviderClass) (h : history) (r : req) : Prop :=
  match r with
  | UpdateProviderClass c' =>
      (DeletionTimestamp (pc_Meta class) = None /\ DeleteFinalizerName ∈ Finalizers (pc_Meta c') /\
        forall f, f ∈ Finalizers (pc_Meta class) -> f ∈ Finalizers (pc_Meta c')) \/
      (DeletionTimestamp (pc_Meta class) <> None /\ unused kind class h /\
        forall f, f ∈ Finalizers (pc_Meta c') <-> f <> DeleteFinalizerName /\ f ∈ Finalizers (pc_Meta class))
  | DeleteProviderClass k ns n =>
      k = kind /\ ns = Namespace (pc_Meta class) /\ n = Name (pc_Meta class) /\ flag = true /\
      DeletionTimestamp (pc_Meta class) = None /\ is_Some (Annotations (pc_Meta class) !! MigratedMachineClass) /\ unused kind class h
  | _ => False
  end.

Lemma writes_updateClassFinalizers kind class finalizers h o : exec (updateClassFinalizers kind class finalizers) h o ->
  Forall (fun r => match r with UpdateProviderClass c' => Finalizers (pc_Meta c') = finalizers | _ => False end) (writes h).
Proof.
  intros (x & h' & -> & He). rewrite writes_cons. cbn [is_read]. destruct x as [c'|e]; [|by destruct He as [-> _]].
  destruct He as (y & h2 & -> & He). rewrite writes_cons. cbn [is_read].
  assert (h2 = []) as -> by (destruct y; by destruct He). by repeat constructor.
Qed.

Lemma writes_addMachines l h o : exec (for_each l addMachine) h o -> writes h = [] /\ o = Return tt.
Proof.
  revert h o; induction l as [|m l IH]; intros h o He; [by destruct He as [-> ->]|].
  cbn [for_each] in He. unfold addMachine, InTreeMachine.enqueueMachine in He. destruct (bool_decide _); [|by apply IH].
  destruct He as (x & h' & -> & He). rewrite writes_cons. by eapply IH.
Qed.

Lemma provider_write_ok_incl flag kind class h h' r :
  (forall e, e ∈ h -> e ∈ h') -> provider_write_ok flag kind class h r -> provider_write_ok flag kind class h' r.
Proof. intros Hi. unfold provider_write_ok, unused. destruct r; try done; naive_solver. Qed.

(** The part of a reconciliation that starts with looking for the machines of the class. *)
Lemma after_finalizer_writes flag kind class h o :
  exec (let! machines := findMachinesForClass kind (Name (pc_Meta class)) in
    if bool_decide (DeletionTimestamp (pc_Meta class) = None) then
      if flag && bool_decide (is_Some (Annotations (pc_Meta class) !! MigratedMachineClass)) && bool_decide (machines = []) then
        do! call (DeleteProviderClass kind (Namespace (pc_Meta class)) (Name (pc_Meta class))) in
        Throw (Errorf "Retry deletion as deletion timestamp is now set")
      else Ret tt
    else if negb (bool_decide (machines = [])) then
      do! for_each machines addMachine in Throw (Errorf "Retry as machine objects are still referring the machineclass")
    else deleteClassFinalizers kind class) h o ->
  Forall (provider_write_ok flag kind class h) (writes h) /\
  (DeletionTimestamp (pc_Meta class) <> None ->
   forall machines, ev ListerMachines (Ok machines) ∈ h -> users kind class machines <> [] -> writes h = [] /\ exists e, o = Raise e).
Proof.
  intros (x & h' & -> & He). rewrite writes_cons. cbn [is_read]. destruct x as [machines|e].
  2: { destruct He as [-> ->]. split; [constructor|eauto]. }
  cbn [bind] in He. fold (users kind class machines) in He.
  assert (Hun : users kind class machines = [] -> unused kind class (ev ListerMachines (Ok machines) :: h'))
    by (intros Hu; exists machines; split; [left|done]).
  case_bool_decide as Hd; cbn [negb] in He.
  - split; [|done]. destruct (flag && _ && _) eqn:Ef; [|by destruct He as [-> _]].
    rewrite !andb_true_iff, !bool_decide_eq_true in Ef. destruct Ef as [[-> Ha] Hu].
    destruct He as (y & h2 & -> & He). rewrite writes_cons. cbn [is_read].
    assert (h2 = []) as -> by (destruct y; by destruct He as [-> _]). constructor; [|constructor].
    unfold provider_write_ok. split_and!; auto.
  - destruct (decide (users kind class machines = [])) as [Hu|Hu].
    + rewrite (bool_decide_true _ Hu) in He. cbn [negb] in He. unfold deleteClassFinalizers in He. split.
      * destruct (has_finalizer _ _); [|by destruct He as [-> _]]. apply writes_updateClassFinalizers in He.
        eapply Forall_impl; [exact He|]. intros [] Hr; try done. right. split_and!; auto. intros f. rewrite Hr. apply elem_of_without.
      * intros _ ms Hin Hne. exfalso. apply elem_of_cons in Hin as [Hin|Hin].
        -- apply event_inj in Hin. naive_solver.
        -- destruct (has_finalizer _ _); [|destruct He as [-> _]; by apply elem_of_nil in Hin].
           destruct He as (y & h2 & -> & He). apply elem_of_cons in Hin as [Hin|Hin]; [done|].
           destruct y; [|destruct He as [-> _]; by apply elem_of_nil in Hin].
           destruct He as (z & h3 & -> & He). apply elem_of_cons in Hin as [Hin|Hin]; [done|].
           destruct z; destruct He as [-> _]; by apply elem_of_nil in Hin.
    + rewrite (bool_decide_false _ Hu) in He. cbn [negb] in He.
      assert (writes h' = [] /\ exists e, o = Raise e) as [-> Ho].
      { apply exec_bind in He as [(h1 & a & h2 & -> & E1 & [-> ->])|(o' & E1 & Hf & ->)]; apply writes_addMachines in E1 as [E1 E2].
        - rewrite app_nil_r. eauto.
        - by subst o'. }
      split; [constructor|eauto].
Qed.

(** C29: a class gets the finalizer while it is not deleted, keeping all others, and loses it only when it is
    deleted and the cache lists no machine of it; a migrated class is deleted only on request and when
    unused.  While a deleted class is in use nothing is written and an error makes the controller try again.
    A class that fails validation is left alone altogether, with success, and one that panics the
    validation panics the controller. *)
Theorem provider_class_finalizer_safe flag kind class h o :
  exec (reconcileClusterClass flag kind ValidateObjectMeta class) h o ->
  match ValidateProviderClass ValidateObjectMeta class with
  | None => h = [] /\ o = Panic
  | Some (_ :: _) => h = [] /\ o = Return tt
  | Some [] =>
      Forall (provider_write_ok flag kind class h) (writes h) /\
      (DeletionTimestamp (pc_Meta class) <> None ->
       forall machines, ev ListerMachines (Ok machines) ∈ h -> users kind class machines <> [] -> writes h = [] /\ exists e, o = Raise e)
  end.
Proof.
  unfold reconcileClusterClass. destruct (ValidateProviderClass _ _) as [[|e l]|]; intros He; [|done|done].
  cbn [deref bind] in He. rewrite (bool_decide_true ([] = [])) in He by done. cbn [negb] in He.
  case_bool_decide as Hd.
  - assert (Ha : forall h o, exec (addClassFinalizers kind class) h o -> Forall (provider_write_ok flag kind class h) (writes h)).
    { intros h1 o1. unfold addClassFinalizers. destruct (has_finalizer _ _); [by intros [-> _]|].
      intros Hw%writes_updateClassFinalizers. eapply Forall_impl; [exact Hw|]. intros [] Hr; try done. left. split; [done|].
      rewrite Hr. split; [|intros f Hf]; apply elem_of_with; auto. }
    split; [|done]. apply exec_bind in He as [(h1 & a & h2 & -> & E1 & E2)|(o' & E1 & _ & _)]; [|by eapply Ha].
    rewrite writes_app. apply Forall_app. split.
    + eapply Forall_impl; [eapply Ha, E1|]. intros r. apply provider_write_ok_incl. intros e He. apply elem_of_app. by left.
    + pose proof (after_finalizer_writes flag kind class h2 o) as Hw. rewrite (bool_decide_true (DeletionTimestamp _ = None)) in Hw by done.
      eapply Forall_impl; [apply Hw; exact E2|]. intros r. apply provider_write_ok_incl. intros e He. apply elem_of_app. by right.
  - pose proof (after_finalizer_writes flag kind class h o) as Hw.
    rewrite (bool_decide_false (DeletionTimestamp _ = None)) in Hw by done. by apply Hw.
Qed.

(** Where the controllers of the six kinds put a class they look at again. *)
Definition retry_queue (kind : string) : string :=
  if bool_decide (kind = PacketMachineClassKind) then OpenStackMachineClassKind else kind.
Definition controller_of (c : controller) (flag : bool) (kind : string) : ClassController :=
  class_controller c flag kind (retry_queue kind) ValidateObjectMeta.

Lemma controllers_of c flag :
  awsMachineClassController c flag ValidateObjectMeta = controller_of c flag AWSMachineClassKind /\
  azureMachineClassController c flag ValidateObjectMeta = controller_of c flag AzureMachineClassKind /\
  gcpMachineClassController c flag ValidateObjectMeta = controller_of c flag GCPMachineClassKind /\
  openStackMachineClassController c flag ValidateObjectMeta = controller_of c flag OpenStackMachineClassKind /\
  alicloudMachineClassController c flag ValidateObjectMeta = controller_of c flag AlicloudMachineClassKind /\
  packetMachineClassController c flag ValidateObjectMeta = controller_of c flag PacketMachineClassKind.
Proof. done. Qed.

Definition queues (e : event) : Prop :=
  match projT1 e with QueueAdd _ _ | QueueAddAfter _ _ _ => False | _ => True end.

Lemma reconcileClusterClass_queues flag kind class : emits queues (reconcileClusterClass flag kind ValidateObjectMeta class).
Proof.
  unfold reconcileClusterClass, addClassFinalizers, deleteClassFinalizers, updateClassFinalizers, findMachinesForClass,
    addMachine, InTreeMachine.enqueueMachine. emits_all; done.
Qed.

(** Programs that end with a value or an error. *)
Definition concludes {A} (p : prog A) : Prop := forall h o, exec p h o -> o <> Panic /\ o <> OutOfFuel.

Lemma concludes_ret {A} (a : A) : concludes (Ret a).
Proof. by intros h o [_ ->]. Qed.
Lemma concludes_throw {A} e : concludes (Throw (A := A) e).
Proof. by intros h o [_ ->]. Qed.
Lemma concludes_Call {A} r (k : result (answer r) -> prog A) : (forall x, concludes (k x)) -> concludes (Call r k).
Proof. intros Hk h o (x & h' & _ & He). by eapply Hk. Qed.
Lemma concludes_call r : concludes (call r).
Proof. apply concludes_Call. intros []; [apply concludes_ret|apply concludes_throw]. Qed.
Lemma concludes_bind {A B} (p : prog A) (f : A -> prog B) : concludes p -> (forall a, concludes (f a)) -> concludes (bind p f).
Proof.
  intros Hp Hf h o He. apply exec_bind in He as [(h1 & a & h2 & _ & _ & E2)|(o' & E1 & Hfail & ->)]; [by eapply Hf|].
  destruct (Hp _ _ E1). by destruct o'.
Qed.
Lemma concludes_for_each {A} (l : list A) body : (forall x, concludes (body x)) -> concludes (for_each l body).
Proof. intros Hb. induction l; [apply concludes_ret|]. by apply concludes_bind. Qed.

Lemma concludes_updateClassFinalizers kind class l : concludes (updateClassFinalizers kind class l).
Proof. do 2 (apply concludes_bind; [apply concludes_call|]; intros ?). apply concludes_ret. Qed.

Lemma reconcileClusterClass_ends flag kind class errs : ValidateProviderClass ValidateObjectMeta class = Some errs ->
  concludes (reconcileClusterClass flag kind ValidateObjectMeta class).
Proof.
  intros Hv. unfold reconcileClusterClass. rewrite Hv. cbn [deref bind]. destruct (negb _); [apply concludes_ret|].
  apply concludes_bind.
  { unfold addClassFinalizers. repeat case_match; apply concludes_ret || apply concludes_updateClassFinalizers. }
  intros _. apply concludes_bind; [apply concludes_bind; [apply concludes_call|]; intros; apply concludes_ret|]. intros machines.
  destruct (bool_decide _).
  - destruct (_ && _); [|apply concludes_ret]. apply concludes_bind; [apply concludes_call|]. intros; apply concludes_throw.
  - destruct (negb _).
    + apply concludes_bind; [|intros; apply concludes_throw]. apply concludes_for_each. intros m. unfold addMachine, InTreeMachine.enqueueMachine.
      destruct (bool_decide _); [apply concludes_Call; intros|]; apply concludes_ret.
    + unfold deleteClassFinalizers. destruct (has_finalizer _ _); [apply concludes_updateClassFinalizers|apply concludes_ret].
Qed.

(** Reconciling a class the cache has ends, unless its validation panics, by putting the class into a
    queue once, after ten seconds when something went wrong and after ten minutes when nothing did, and
    the key is never left to the rate limiter.  The queue is that of the kind for five kinds, and that of
    OpenStack for a Packet class, whose controller therefore never tries again by itself. *)
Theorem class_put_back c flag kind key nn class h o :
  SplitMetaNamespaceKey key = Some nn ->
  exec (cc_reconcileKey (controller_of c flag kind) key)
    (ev (ListerGetProviderClass kind (c_namespace c) nn.2) (Ok class) :: h) o ->
  (o = Panic /\ ValidateProviderClass ValidateObjectMeta class = None) \/
  exists h1 after x, h = h1 ++ [ev (QueueAddAfter (retry_queue kind) (KeyFunc (pc_Meta class)) after) x] /\
    o = Return tt /\ Forall queues h1 /\
    ((after = 10 * Minute /\ exec (reconcileClusterClass flag kind ValidateObjectMeta class) h1 (Return tt)) \/
     (after = 10 * Second /\ exists e, exec (reconcileClusterClass flag kind ValidateObjectMeta class) h1 (Raise e))).
Proof.
  intros Hk He. cbn [cc_reconcileKey controller_of class_controller] in He. unfold reconcileClusterClassKey in He.
  rewrite Hk in He. cbn [or_throw bind call_try] in He. apply exec_Call_inv in He. cbv beta in He. cbn [bind] in He.
  assert (Hx : forall h1 x h2 after, exec (enqueueClassAfter (retry_queue kind) class after) h2 o ->
    exec (reconcileClusterClass flag kind ValidateObjectMeta class) h1 x ->
    exists y, h1 ++ h2 = h1 ++ [ev (QueueAddAfter (retry_queue kind) (KeyFunc (pc_Meta class)) after) y] /\ o = Return tt /\ Forall queues h1).
  { intros h1 x h2 after (y & h' & -> & -> & ->) E1. exists y. split_and!; [done|done|]. by eapply reconcileClusterClass_queues. }
  apply exec_bind in He as [(h1 & x & h2 & -> & E1 & E2)|(o' & E1 & Hf & ->)].
  - right. apply exec_attempt_ret in E1. destruct x as [[]|e];
      destruct (Hx _ _ _ _ E2 E1) as (y & -> & Ho & Hq); eexists _, _, y; split_and!; eauto.
  - left. destruct (ValidateProviderClass ValidateObjectMeta class) as [errs|] eqn:Hv.
    + exfalso. pose proof (reconcileClusterClass_ends flag kind class errs Hv) as Hends.
      apply exec_attempt in E1 as [(a & _ & ->)|[(e & _ & ->)|[[E1 ->]|[E1 ->]]]]; [done..| |]; by destruct (Hends _ _ E1).
    + unfold reconcileClusterClass in E1. rewrite Hv in E1. destruct E1 as [_ ->]. done.
Qed.
End theorems.

(** *** Secrets *)

(** What the cache said about the classes of a kind. *)
Definition listed_for_secret (kind name : string) (used : list ProviderClass) (h : history) : Prop :=
  exists classes, ev (ListerProviderClasses kind) (Ok classes) ∈ h /\
    used = filter (fun class => class_uses_secret name class = true) classes.

Lemma findClassForSecret_inv {A} kind name (f : list ProviderClass -> prog A) h a :
  exec (bind (findClassForSecret kind name) f) h (Return a) ->
  exists used e h', h = e :: h' /\ writes [e] = [] /\ exec (f used) h' (Return a) /\ listed_for_secret kind name used h.
Proof.
  intros He. apply exec_bind_ret in He as (h1 & used & h2 & -> & E1 & E2). destruct E1 as (x & h' & -> & E1).
  destruct x as [classes|e]; [|by destruct E1]. destruct E1 as [-> [= ->]]. cbn [app].
  eexists _, _, _. split; [done|]. split; [by rewrite writes_cons|]. split; [exact E2|]. exists classes. split; [left|done].
Qed.

Lemma listed_for_secret_app kind name used h1 h2 : listed_for_secret kind name used h2 -> listed_for_secret kind name used (h1 ++ h2).
Proof. intros (classes & Hin & ->). exists classes. split; [|done]. apply elem_of_app. by right. Qed.

Definition secret_used (name : string) (h : history) : Prop :=
  exists kind used, listed_for_secret kind name used h /\ used <> [].
Definition secret_unused (name : string) (h : history) : Prop :=
  forall kind, kind ∈ provider_kinds -> listed_for_secret kind name [] h.

Lemma existsMachineClassForSecret_spec name h b : exec (existsMachineClassForSecret name) h (Return b) ->
  writes h = [] /\ if b then secret_used name h else secret_unused name h.
Proof.
  unfold existsMachineClassForSecret. intros He.
  apply findClassForSecret_inv in He as (u1 & e1 & h1 & -> & W1 & He & L1).
  apply findClassForSecret_inv in He as (u2 & e2 & h2 & -> & W2 & He & L2%(listed_for_secret_app _ _ _ [e1])).
  apply findClassForSecret_inv in He as (u3 & e3 & h3 & -> & W3 & He & L3%(listed_for_secret_app _ _ _ [e1; e2])).
  apply findClassForSecret_inv in He as (u4 & e4 & h4 & -> & W4 & He & L4%(listed_for_secret_app _ _ _ [e1; e2; e3])).
  apply findClassForSecret_inv in He as (u5 & e5 & h5 & -> & W5 & He & L5%(listed_for_secret_app _ _ _ [e1; e2; e3; e4])).
  apply findClassForSecret_inv in He as (u6 & e6 & h6 & -> & W6 & He & L6%(listed_for_secret_app _ _ _ [e1; e2; e3; e4; e5])).
  destruct He as [-> [= ->]]. cbn [app] in *. split.
  { change [e1; e2; e3; e4; e5; e6] with ([e1] ++ [e2] ++ [e3] ++ [e4] ++ [e5] ++ [e6]). by rewrite !writes_app, W1, W2, W3, W4, W5, W6. }
  destruct (negb _) eqn:Hn.
  - rewrite negb_true_iff, !andb_false_iff, !bool_decide_eq_false in Hn.
    destruct Hn as [[[[[Hn|Hn]|Hn]|Hn]|Hn]|Hn]; do 2 eexists; split; try exact Hn; eassumption.
  - rewrite negb_false_iff, !andb_true_iff, !bool_decide_eq_true in Hn. destruct Hn as [[[[[-> ->] ->] ->] ->] ->].
    intros kind Hk. unfold provider_kinds in Hk.
    repeat (apply elem_of_cons in Hk as [->|Hk]; [assumption|]). by apply elem_of_nil in Hk.
Qed.

Definition secret_write_ok (secret : Secret) (h : history) (r : req) : Prop :=
  match r with
  | UpdateControlSecret s' =>
      (secret_used (Name (sec_Meta secret)) h /\ DeleteFinalizerName ∈ Finalizers (sec_Meta s') /\
        forall f, f ∈ Finalizers (sec_Meta secret) -> f ∈ Finalizers (sec_Meta s')) \/
      (secret_unused (Name (sec_Meta secret)) h /\
        forall f, f ∈ Finalizers (sec_Meta s') <-> f <> DeleteFinalizerName /\ f ∈ Finalizers (sec_Meta secret))
  | _ => False
  end.

Lemma writes_updateSecretFinalizers secret l h o : exec (updateSecretFinalizers secret l) h o ->
  Forall (fun r => match r with UpdateControlSecret s' => Finalizers (sec_Meta s') = l | _ => False end) (writes h) /\
  o <> Panic /\ o <> OutOfFuel.
Proof.
  intros (x & h' & -> & He). rewrite writes_cons. cbn [is_read]. destruct x as [c'|e]; [|by destruct He as [-> ->]].
  destruct He as (y & h2 & -> & He). rewrite writes_cons. cbn [is_read].
  assert (h2 = [] /\ o <> Panic /\ o <> OutOfFuel) as [-> ?] by (destruct y; by destruct He as [-> ->]). split; [|done]. by repeat constructor.
Qed.

Lemma existsMachineClassForSecret_ends name : concludes (existsMachineClassForSecret name).
Proof.
  do 6 (apply concludes_bind; [apply concludes_bind; [apply concludes_call|intros; apply concludes_ret]|]; intros ?). apply concludes_ret.
Qed.

(** What happens between the start and the deferred function. *)
Lemma sync_secret_writes secret h o :
  exec (let! exists_class := existsMachineClassForSecret (Name (sec_Meta secret)) in
     if (exists_class : bool) then addSecretFinalizers secret
     else if negb (has_finalizer DeleteFinalizerName (sec_Meta secret)) then Ret tt
     else deleteSecretFinalizers secret) h o ->
  Forall (secret_write_ok secret h) (writes h) /\ o <> Panic /\ o <> OutOfFuel.
Proof.
  intros He. apply exec_bind in He as [(h1 & b & h2 & -> & E1 & E2)|(o' & E1 & Hf & ->)].
  2: { destruct (existsMachineClassForSecret_ends _ _ _ E1). destruct o' as [|e| |]; try done.
       split; [|done]. assert (Hr : emits (fun e => is_read (projT1 e) = true) (existsMachineClassForSecret (Name (sec_Meta secret)))).
       { unfold existsMachineClassForSecret, findClassForSecret. emits_all; done. }
       apply Hr in E1. destruct (reads_all h) as [_ ->]; [done|constructor]. }
  apply existsMachineClassForSecret_spec in E1 as [W Hb]. rewrite writes_app, W. cbn [app].
  assert (Hmono : forall kind used, listed_for_secret kind (Name (sec_Meta secret)) used h1 ->
    listed_for_secret kind (Name (sec_Meta secret)) used (h1 ++ h2)).
  { intros kind used (classes & Hin & Hu). exists classes. split; [|done]. apply elem_of_app. by left. }
  destruct b.
  - assert (Hu : secret_used (Name (sec_Meta secret)) (h1 ++ h2)) by (destruct Hb as (k & u & ? & ?); exists k, u; auto).
    unfold addSecretFinalizers in E2. destruct (has_finalizer _ _); [by destruct E2 as [-> ->]|].
    apply writes_updateSecretFinalizers in E2 as [E2 Ho]. split; [|done]. eapply Forall_impl; [exact E2|]. intros [] Hr; try done.
    left. split; [done|]. rewrite Hr. split; [|intros f Hf]; apply elem_of_with; auto.
  - assert (Hu : secret_unused (Name (sec_Meta secret)) (h1 ++ h2)) by (intros k Hk; auto).
    unfold deleteSecretFinalizers in E2. destruct (has_finalizer _ _); cbn [negb] in E2; [|by destruct E2 as [-> ->]].
    apply writes_updateSecretFinalizers in E2 as [E2 Ho]. split; [|done]. eapply Forall_impl; [exact E2|]. intros [] Hr; try done.
    right. split; [done|]. intros f. rewrite Hr. apply elem_of_without.
Qed.

(** C30: the finalizer of a secret is added only while the cache lists a class that names the secret and taken
    off only when the caches of all six kinds were read and list none; an error of a cache changes
    nothing.  However it ends, the secret is put back into its queue for ten minutes later. *)
Theorem secret_finalizer_safe secret h o : exec (reconcileClusterSecret secret) h o ->
  Forall (secret_write_ok secret h) (writes h) /\ o <> Panic /\ o <> OutOfFuel /\
  exists h1 x, h = h1 ++ [ev (EnqueueSecretAfter (KeyFunc (sec_Meta secret)) (10 * Minute)) x].
Proof.
  intros (t & h' & -> & He). rewrite writes_cons. cbn [is_read]. cbn [bind] in He. unfold defer in He.
  apply exec_bind in He as [(h1 & x & h2 & -> & E1 & E2)|(o' & E1 & Hf & ->)].
  - destruct E2 as (y & h3 & -> & E2). cbn [bind] in E2.
    assert (h3 = [] /\ o <> Panic /\ o <> OutOfFuel) as (-> & ? & ?) by (destruct x; by destruct E2 as [-> ->]).
    split_and!; [|done|done|by exists (ev Now t :: h1), y].
    rewrite writes_app. cbn [writes]. rewrite app_nil_r.
    assert (Hw : Forall (secret_write_ok secret h1) (writes h1)) by (apply exec_attempt_ret in E1; destruct x; by eapply sync_secret_writes).
    assert (Hin : forall k u, listed_for_secret k (Name (sec_Meta secret)) u h1 ->
      listed_for_secret k (Name (sec_Meta secret)) u (ev Now t :: h1 ++ [ev (EnqueueSecretAfter (KeyFunc (sec_Meta secret)) (10 * Minute)) y])).
    { intros k u (cl & Hi & Hu). exists cl. split; [|done]. right. apply elem_of_app. by left. }
    eapply Forall_impl; [exact Hw|]. unfold secret_write_ok, secret_used, secret_unused. intros []; try done.
    intros [[(k & u & Hl & Hu) Hr]|[Hu Hr]]; [left|right]; (split; [|done]); [by eauto|]. intros k Hk. auto.
  - exfalso. apply exec_attempt in E1 as [(a & E & ->)|[(e & E & ->)|[[E ->]|[E ->]]]]; try done;
      by destruct (sync_secret_writes _ _ _ E) as (_ & ? & ?).
Qed.

(** ** Witnesses *)

Definition sample_packet : PacketMachineClassSpec :=
  mkPacketSpec ["ewr1"] "c1.small" "flat" "p1" "hourly" ["kubernetes.io/cluster/shoot=1"; "kubernetes.io/role/node=1"] ["key"] "".
Definition packet_class (finalizers : list string) (deleted : option Z) : ProviderClass :=
  mkProviderClass (mkMeta "small" "" "shoot" "" "" 0 0 deleted ∅ ∅ [] finalizers) (Some (mkSecretRef "cred" "shoot")) None (PacketSpec sample_packet).

(** One Packet class, no machine, and a working API server. *)
Definition packet_world (class : ProviderClass) (r : req) (w : unit) : unit * result (answer r) :=
  (w, match r return result (answer r) with
      | ListerGetProviderClass _ _ _ | GetProviderClass _ _ _ => Ok class
      | ListerMachines => Ok []
      | UpdateProviderClass c' => Ok c'
      | ListerProviderClasses kind => Ok (if bool_decide (kind = PacketMachineClassKind) then [class] else [])
      | GetControlSecret _ _ => Ok (sample_secret "cred" ∅)
      | UpdateControlSecret s => Ok s
      | Now => Ok 0
      | _ => Err (Errorf "no answer")
      end).

Lemma provider_class_finalizer_safe_witness :
  let class := packet_class [DeleteFinalizerName] (Some 5) in
  let h := (run (packet_world class) (reconcileClusterClass false PacketMachineClassKind names_only class) tt).1.2 in
  writes h = [UpdateProviderClass (packet_class [] (Some 5))] /\
  Forall (provider_write_ok false PacketMachineClassKind class h) (writes h).
Proof.
  intros class h. split; [vm_compute; reflexivity|].
  pose proof (provider_class_finalizer_safe names_only false PacketMachineClassKind class _ _
    (run_exec (packet_world class) (reconcileClusterClass false PacketMachineClassKind names_only class) tt)) as H.
  assert (Hv : ValidateProviderClass names_only class = Some []) by (vm_compute; reflexivity).
  rewrite Hv in H. apply H.
Defined.

Lemma class_put_back_witness :
  exists h1 x, (run (packet_world (packet_class [] None))
      (cc_reconcileKey (packetMachineClassController sample_controller false names_only) "shoot/small") tt).1.2 =
    ev (ListerGetProviderClass PacketMachineClassKind "shoot" "small") (Ok (packet_class [] None)) ::
    h1 ++ [ev (QueueAddAfter OpenStackMachineClassKind "shoot/small" (10 * Minute)) x].
Proof.
  set (class := packet_class [] None).
  set (p := cc_reconcileKey (packetMachineClassController sample_controller false names_only) "shoot/small").
  pose proof (run_exec (packet_world class) p tt) as He.
  destruct (run (packet_world class) p tt) as [[w h] o] eqn:Hr. cbn [fst snd] in He |- *.
  assert (Hh : h = ev (ListerGetProviderClass PacketMachineClassKind "shoot" "small") (Ok class) :: tail h /\ o = Return tt).
  { vm_compute in Hr. injection Hr as _ <- <-. done. }
  destruct Hh as [Hh ->]. rewrite Hh in He.
  destruct (class_put_back names_only sample_controller false PacketMachineClassKind "shoot/small" ("shoot", "small") class
    (tail h) (Return tt) eq_refl He) as [[? _]|(h1 & after & x & Ht & _ & _ & Ha)]; [done|].
  rewrite Hh, Ht. exists h1. destruct Ha as [[-> _]|[-> _]]; [by exists x|]. exfalso.
  apply (f_equal last) in Ht. rewrite last_snoc in Ht. vm_compute in Hr. injection Hr as _ <-. discriminate Ht.
Defined.

Lemma secret_finalizer_safe_witness :
  let h := (run (packet_world (packet_class [] None)) (reconcileClusterSecret (sample_secret "cred" ∅)) tt).1.2 in
  length (writes h) = 1%nat /\ Forall (secret_write_ok (sample_secret "cred" ∅) h) (writes h).
Proof.
  intros h. split; [vm_compute; reflexivity|].
  apply (secret_finalizer_safe (sample_secret "cred" ∅) _ _
    (run_exec (packet_world (packet_class [] None)) (reconcileClusterSecret (sample_secret "cred" ∅)) tt)).
Defined.
