(* ===== verification/Cloud.v ===== *)
(** * Calling a cloud (pkg/driver/driver.go)

    The drivers call the SDK of their cloud.  A call changes the state [W] of the cloud, which is opaque,
    and returns a value or an error; what a call does is a parameter, one class of operations for every
    SDK.  A driver method is a [cloud] computation, whose outcomes are those of programs: a value, an
    error or a panic.  The interface of driver.go is the record [CloudDriver], and [TracksVMs] is what the
    controllers rely on. *)
From Stdlib Require Import ZArith Lia Ascii String.
From stdpp Require Import base gmap strings list.
From S2P Require Import Prelude GoLib Regexp Types Prog Validation ClassValidation Driver.
Open Scope Z_scope.

(** ** Computations *)

Definition cloud (W A : Type) : Type := W -> W * outcome A.
(** A call of an SDK with its own type of errors. *)
Definition sdk (W E A : Type) : Type := W -> W * (A + E).

#[export] Instance cloud_ret {W} : MRet (cloud W) := fun _ a w => (w, Return a).
#[export] Instance cloud_bind {W} : MBind (cloud W) := fun _ _ f m w =>
  let '(w, o) := m w in
  match o with
  | Return a => f a w
  | Raise e => (w, Raise e)
  | Panic => (w, Panic)
  | OutOfFuel => (w, OutOfFuel)
  end.

Definition cthrow {W A} (e : error) : cloud W A := fun w => (w, Raise e).
(** [*p], or an index into a slice. *)
Definition cderef {W A} (o : option A) : cloud W A := fun w => (w, match o with Some a => Return a | None => Panic end).
Definition ccrash {W A} : cloud W A := fun w => (w, Panic).
(** [x, err := p()]. *)
Definition ctry {W E A} (p : sdk W E A) : cloud W (A + E) := fun w => let '(w, x) := p w in (w, Return x).
(** The same, returning on an error. *)
Definition cget {W E A} (wrap : E -> error) (p : sdk W E A) : cloud W A :=
  x ← ctry p; match x with inl a => mret a | inr e => cthrow (wrap e) end.
(** The error of a method as a value. *)
Definition cattempt {W A} (p : cloud W A) : cloud W (result A) := fun w =>
  let '(w, o) := p w in
  (w, match o with Return a => Return (Ok a) | Raise e => Return (Err e) | Panic => Panic | OutOfFuel => OutOfFuel end).

(** [for _, x := range l { body }]. *)
Fixpoint cfold {W A S} (l : list A) (s : S) (body : S -> A -> cloud W S) : cloud W S :=
  match l with
  | [] => mret s
  | x :: l => s ← body s x; cfold l s body
  end.

(** A condition is checked until it holds, at most [n] times before the timeout. *)
Fixpoint cpoll {W} (n : nat) (timeout : string) (condition : cloud W bool) : cloud W unit :=
  match n with
  | O => cthrow (mkErr TimeoutErr timeout)
  | S n => done ← condition; if (done : bool) then mret tt else cpoll n timeout condition
  end.

(** ** Volumes *)

Definition csi_name (driverName : string) (spec : PersistentVolumeSpec) : list string :=
  match pv_CSI spec with
  | Some (driver, handle) =>
      if bool_decide (driver = driverName) && negb (bool_decide (handle = EmptyString)) then [handle] else []
  | None => []
  end.

(** ** The interface *)

(** [GetVMs] returns what it has collected along with an error. *)
Record CloudDriver (W : Type) := mkCloudDriver {
  drv_Create : cloud W (string * string);
  drv_Delete : string -> cloud W unit;
  drv_GetVMs : string -> cloud W (strmap * option error);
  drv_GetVolNames : list PersistentVolumeSpec -> list string * option error }.
Arguments drv_Create {W}.
Arguments drv_Delete {W}.
Arguments drv_GetVMs {W}.
Arguments drv_GetVolNames {W}.

(** What the controllers rely on: the ID that [Create] returns, which becomes the provider ID of the
    machine, is the key under which [GetVMs] lists the VM from then on, with the name of the machine.  Every
    reconciliation makes a new driver, so that two drivers for the same class are compared; the second
    finds the VM as long as there is [room] in its answer.  No VM is listed without an ID. *)
Class TracksVMs {W} (D D' : CloudDriver W) (name : string) (room : W -> Prop) : Prop := {
  tracks_create w w' id node : drv_Create D w = (w', Return (id, node)) ->
    id <> EmptyString /\
    forall w'' vms, room w' -> drv_GetVMs D' EmptyString w' = (w'', Return (vms, None)) ->
      vms !! id = Some name /\ vms !! EmptyString = None }.

(** [strings.ToLower] for ASCII letters. *)
Definition ToLower (s : string) : string :=
  string_of_list_ascii (map (fun c => if in_range "A" "Z" c then ascii_of_nat (nat_of_ascii c + 32) else c) (list_ascii_of_string s)).

(** ** Lemmas *)

Lemma cbind_return {W A B} (m : cloud W A) (f : A -> cloud W B) w w' b : mbind f m w = (w', Return b) ->
  exists w1 a, m w = (w1, Return a) /\ f a w1 = (w', Return b).
Proof. unfold mbind, cloud_bind. destruct (m w) as [w1 [a|e| |]] eqn:E; intros Hf; [eauto|done..]. Qed.

Lemma cget_return {W E A} (wrap : E -> error) (p : sdk W E A) w w' a : cget wrap p w = (w', Return a) -> p w = (w', inl a).
Proof.
  intros (w1 & x & Hp & Hx)%cbind_return. unfold ctry in Hp. destruct (p w) as [w2 y].
  injection Hp as -> ->. destruct x; [by injection Hx as -> ->|done].
Qed.

Lemma ctry_return {W E A} (p : sdk W E A) w w' x : ctry p w = (w', Return x) -> p w = (w', x).
Proof. unfold ctry. destruct (p w). by intros [= -> ->]. Qed.

Lemma cret_return {W A} (a b : A) (w w' : W) : (mret a : cloud W A) w = (w', Return b) -> w = w' /\ a = b.
Proof. by intros [= -> ->]. Qed.

Lemma cderef_return {W A} (o : option A) (w w' : W) a : cderef o w = (w', Return a) -> w = w' /\ o = Some a.
Proof. destruct o; by intros [= -> ->]. Qed.

(** A loop keeps what its body keeps. *)
Lemma cfold_inv {W A S} (I : W -> S -> Prop) (l : list A) (body : S -> A -> cloud W S) s w w' s' :
  (forall w s x w1 s1, x ∈ l -> I w s -> body s x w = (w1, Return s1) -> I w1 s1) ->
  I w s -> cfold l s body w = (w', Return s') -> I w' s'.
Proof.
  intros Hb. revert s w. induction l as [|x l IH]; intros s w HI He.
  - by apply cret_return in He as [-> ->].
  - apply cbind_return in He as (w1 & s1 & E1 & E2). eapply IH; [| |exact E2].
    + intros. eapply Hb; [by right|done..].
    + eapply Hb; [by left|done..].
Qed.

(** ** Maps collected by a loop *)

Definition collect (l : list (string * string)) : strmap := foldl (fun m kv => <[kv.1 := kv.2]> m) ∅ l.

Lemma collect_snoc l kv : collect (l ++ [kv]) = <[kv.1 := kv.2]> (collect l).
Proof. unfold collect. by rewrite foldl_app. Qed.

Lemma collect_elem l k v : collect l !! k = Some v -> (k, v) ∈ l.
Proof.
  induction l as [|[k' v'] l IH] using rev_ind; [done|]. rewrite collect_snoc, lookup_insert_Some.
  intros [[<- <-]|[_ Hl]]; apply elem_of_app; [right; by apply list_elem_of_singleton|left; by apply IH].
Qed.

Lemma collect_lookup l k v : (k, v) ∈ l -> (forall v', (k, v') ∈ l -> v' = v) -> collect l !! k = Some v.
Proof.
  induction l as [|[k' v'] l IH] using rev_ind; intros Hin Hu; [by apply elem_of_nil in Hin|]. rewrite collect_snoc.
  destruct (decide (k' = k)) as [->|Hk].
  - rewrite lookup_insert_eq. f_equal. apply Hu. apply elem_of_app. right. by apply list_elem_of_singleton.
  - rewrite lookup_insert_ne by done. apply IH.
    + apply elem_of_app in Hin as [|Hin]; [done|]. apply list_elem_of_singleton in Hin. congruence.
    + intros w Hw. apply Hu. apply elem_of_app. by left.
Qed.

Lemma collect_none l k : (forall v, (k, v) ∉ l) -> collect l !! k = None.
Proof. intros Hn. apply eq_None_not_Some. intros [v Hv%collect_elem]. by eapply Hn. Qed.

Lemma collect_empty l : collect l = ∅ <-> l = [].
Proof.
  split; [|by intros ->]. destruct l as [|[k v] l _] using rev_ind; [done|]. rewrite collect_snoc. intros He.
  by apply insert_non_empty in He.
Qed.

(** ** The tags of a class *)

(** The keys the loop over the tags finds are keys of the tags, and it finds one of a sort if there is one. *)
Lemma cluster_and_role_elem cluster role keys :
  let '(c, r) := cluster_and_role cluster role keys in
  (c = EmptyString \/ c ∈ keys /\ contains c cluster = true) /\ (r = EmptyString \/ r ∈ keys /\ contains r role = true /\ contains r cluster = false).
Proof.
  unfold cluster_and_role.
  assert (H : forall l acc, (acc.1 = EmptyString \/ acc.1 ∈ keys /\ contains acc.1 cluster = true) ->
    (acc.2 = EmptyString \/ acc.2 ∈ keys /\ contains acc.2 role = true /\ contains acc.2 cluster = false) -> (forall k, k ∈ l -> k ∈ keys) ->
    let '(c, r) := foldl (tag_step cluster role) acc l in
    (c = EmptyString \/ c ∈ keys /\ contains c cluster = true) /\ (r = EmptyString \/ r ∈ keys /\ contains r role = true /\ contains r cluster = false)).
  { induction l as [|k l IH]; intros [a b] Ha Hb Hl; simpl; [done|]. apply IH.
    - unfold tag_step. destruct (contains k cluster) eqn:E1; [right; split; [apply Hl; left|done]|]. by destruct (contains k role).
    - unfold tag_step. destruct (contains k cluster) eqn:E1; [done|].
      destruct (contains k role) eqn:E2; [right; split; [apply Hl; left|done]|done].
    - intros k' Hk. apply Hl. by right. }
  apply (H keys); [by left..|auto].
Qed.

Lemma tagged_found cluster role keys : cluster <> EmptyString -> role <> EmptyString -> tagged cluster role keys ->
  exists c r, cluster_and_role cluster role keys = (c, r) /\ c <> EmptyString /\ r <> EmptyString /\
    c ∈ keys /\ contains c cluster = true /\ r ∈ keys /\ contains r role = true /\ contains r cluster = false.
Proof.
  intros Hc Hr [T1 T2]. pose proof (cluster_and_role_spec cluster role keys Hc Hr) as Hs.
  pose proof (cluster_and_role_elem cluster role keys) as He. destruct (cluster_and_role _ _ _) as [c r].
  destruct Hs as [S1 S2]. apply S1 in T1. apply S2 in T2. exists c, r.
  destruct He as [[?|[? ?]] [?|(? & ? & ?)]]; [done..|]. by split_and!.
Qed.

Lemma tagged_perm cluster role l l' : l ≡ₚ l' -> tagged cluster role l -> tagged cluster role l'.
Proof. intros Hp [(k & Hk & ?) (k' & Hk' & ?)]. split; [exists k|exists k']; by rewrite <- Hp. Qed.

(** ** What a computation leaves as it is, whatever its outcome *)

Definition preserves {W A} (R : W -> W -> Prop) (m : cloud W A) : Prop := forall w, R w (m w).1.

Section preserves.
Context {W : Type} (R : W -> W -> Prop) `{!PreOrder R}.

Lemma preserves_ret {A} (a : A) : preserves R (mret a : cloud W A).
Proof. intros w. reflexivity. Qed.
Lemma preserves_throw {A} e : preserves R (cthrow (A := A) e).
Proof. intros w. reflexivity. Qed.
Lemma preserves_crash {A} : preserves R (ccrash (A := A)).
Proof. intros w. reflexivity. Qed.
Lemma preserves_deref {A} (o : option A) : preserves R (cderef o).
Proof. intros w. destruct o; reflexivity. Qed.
Lemma preserves_bind {A B} (m : cloud W A) (f : A -> cloud W B) :
  preserves R m -> (forall a, preserves R (f a)) -> preserves R (mbind f m).
Proof.
  intros Hm Hf w. unfold mbind, cloud_bind. specialize (Hm w). destruct (m w) as [w1 [a|e| |]]; [|exact Hm..].
  etransitivity; [exact Hm|apply Hf].
Qed.
Lemma preserves_try {E A} (p : sdk W E A) : (forall w, R w (p w).1) -> preserves R (ctry p).
Proof. intros Hp w. unfold ctry. specialize (Hp w). by destruct (p w). Qed.
Lemma preserves_get {E A} (wrap : E -> error) (p : sdk W E A) : (forall w, R w (p w).1) -> preserves R (cget wrap p).
Proof. intros Hp. apply preserves_bind; [by apply preserves_try|]. intros []; [apply preserves_ret|apply preserves_throw]. Qed.
Lemma preserves_attempt {A} (m : cloud W A) : preserves R m -> preserves R (cattempt m).
Proof. intros Hm w. unfold cattempt. specialize (Hm w). destruct (m w). exact Hm. Qed.
Lemma preserves_fold {A S} (l : list A) (s : S) (body : S -> A -> cloud W S) :
  (forall s x, preserves R (body s x)) -> preserves R (cfold l s body).
Proof. intros Hb. revert s. induction l; intros s; [apply preserves_ret|]. by apply preserves_bind. Qed.
Lemma preserves_poll n timeout (condition : cloud W bool) : preserves R condition -> preserves R (cpoll n timeout condition).
Proof.
  intros Hc. induction n; [apply preserves_throw|]. apply preserves_bind; [done|]. intros []; [apply preserves_ret|done].
Qed.
End preserves.

Ltac preserves_step :=
  match goal with
  | |- preserves _ (mret _) => apply preserves_ret; try typeclasses eauto
  | |- preserves _ (cthrow _) => apply preserves_throw; try typeclasses eauto
  | |- preserves _ ccrash => apply preserves_crash; try typeclasses eauto
  | |- preserves _ (cderef _) => apply preserves_deref; try typeclasses eauto
  | |- preserves _ (mbind _ _) => apply preserves_bind; [try typeclasses eauto| |intros ?]
  | |- preserves _ (ctry _) => apply preserves_try; [try typeclasses eauto..]
  | |- preserves _ (cget _ _) => apply preserves_get; [try typeclasses eauto..]
  | |- preserves _ (cattempt _) => apply preserves_attempt
  | |- preserves _ (cfold _ _ _) => apply preserves_fold; [try typeclasses eauto|intros ? ?]
  | |- preserves _ (cpoll _ _ _) => apply preserves_poll; [try typeclasses eauto|]
  | |- preserves _ (match ?x with _ => _ end) => destruct x eqn:?
  end.
Ltac preserves_all := repeat (preserves_step; cbv beta).

(** ** Names and IDs *)

Lemma app_inj_l p a b : p +:+ a = p +:+ b -> a = b.
Proof. induction p as [|c p IH]; [done|]. intros [= H]. by apply IH. Qed.

Lemma contains_self s t : contains (s +:+ t) s = true.
Proof. apply (contains_app EmptyString). Qed.
Lemma contains_refl s : contains s s = true.
Proof.
  assert (E : s +:+ EmptyString = s) by (induction s as [|c s IH]; [done|]; change (String c (s +:+ EmptyString) = String c s); by rewrite IH).
  rewrite <- E at 1. apply contains_self.
Qed.

Definition plain_id (id : string) : Prop := id <> EmptyString /\ has_byte "/" id = false.

Fixpoint unary (n : nat) : string := match n with O => EmptyString | S n => String "i" (unary n) end.
(** Longer than every ID there is. *)
Definition fresh_id {A} (w : gmap string A) : string := unary (S (max_list (String.length <$> (map_to_list w).*1))).

Lemma unary_plain n : has_byte "/" (unary n) = false.
Proof. by induction n. Qed.
Lemma unary_length n : String.length (unary n) = n.
Proof. by induction n as [|n IH]; [|simpl; rewrite IH]. Qed.
Lemma fresh_id_fresh {A} (w : gmap string A) : w !! fresh_id w = None.
Proof.
  apply eq_None_not_Some. intros [vm Hvm]. pose proof (unary_length (S (max_list (String.length <$> (map_to_list w).*1)))) as Hl.
  fold (fresh_id w) in Hl. apply elem_of_map_to_list, (list_elem_of_fmap_2 fst), (list_elem_of_fmap_2 String.length) in Hvm.
  apply max_list_elem_of_le in Hvm. cbn [fst] in Hvm. lia.
Qed.
Lemma fresh_id_plain {A} (w : gmap string A) : plain_id (fresh_id w).
Proof. split; [done|apply unary_plain]. Qed.

(** A wait that returns without an error has seen the condition hold. *)
Lemma cpoll_return {W} n timeout (condition : cloud W bool) w w' : cpoll n timeout condition w = (w', Return tt) ->
  exists w1, condition w1 = (w', Return true).
Proof.
  revert w. induction n as [|n IH]; intros w He; [done|]. cbn [cpoll] in He. apply cbind_return in He as (w1 & [] & E & He).
  - apply cret_return in He as [<- _]. eauto.
  - by eapply IH.
Qed.

(** The class has one tag of each sort. *)
Definition unique_tags (cluster role : string) (keys : list string) (c r : string) : Prop :=
  forall k, k ∈ keys -> (contains k cluster = true -> k = c) /\ (contains k cluster = false -> contains k role = true -> k = r).

(** Then the order in which they are taken does not matter. *)
Lemma unique_found cluster role keys c r : cluster <> EmptyString -> role <> EmptyString ->
  tagged cluster role keys -> unique_tags cluster role keys c r -> cluster_and_role cluster role keys = (c, r).
Proof.
  intros Hc Hr Ht Hu. destruct (tagged_found _ _ _ Hc Hr Ht) as (c' & r' & -> & _ & _ & H1 & H2 & H3 & H4 & H5).
  f_equal; [by apply (Hu c' H1)|by apply (Hu r' H3)].
Qed.

(** ** The fake driver *)

(** The driver of a class of no known kind; its VMs are in a variable that all of them share. *)
Section fake.

Definition fake_Create : cloud strmap (string * string) := fun fakeVMs =>
  (<["fake" := "fake_ip"]> fakeVMs, Return ("fake", "fake_ip")).
Definition fake_Delete (machineID : string) : cloud strmap unit := fun fakeVMs => (delete machineID fakeVMs, Return tt).
Definition fake_GetVMs (machineID : string) : cloud strmap (strmap * option error) := fun fakeVMs =>
  (fakeVMs, Return (fakeVMs, None)).
Definition fake_GetVolNames (specs : list PersistentVolumeSpec) : list string * option error := ([], None).

Definition FakeDriver : CloudDriver strmap := mkCloudDriver strmap fake_Create fake_Delete fake_GetVMs fake_GetVolNames.

(** It lists what it has created under the name it returned, until that is deleted. *)
Lemma fake_lists vms : let '(w, o) := drv_Create FakeDriver vms in
  exists id node, o = Return (id, node) /\ (drv_GetVMs FakeDriver EmptyString w).2 = Return (w, None) /\ w !! id = Some node /\
  (drv_Delete FakeDriver id w).1 !! id = None.
Proof. exists "fake", "fake_ip". split_and!; [done..|apply lookup_insert_eq|apply lookup_delete_eq]. Qed.
End fake.
