(* ===== verification/Threads.v ===== *)
(** * Goroutines that call a cloud

    A thread makes calls one after the other, each of them at once; threads that run in parallel share the
    cloud, and a schedule says which of them makes the next call.  What a thread guarantees for every call
    it makes, relying on the others to do the same, holds of all of them under every schedule. *)
From Stdlib Require Import ZArith Lia.
From stdpp Require Import base list.
From S2P Require Import Prelude GoLib Prog Cloud.

(** ** Threads *)

(** A thread ends with a value or an error of type [E], panics, or makes a call: its effect, and the rest
    of the thread, by the state it meets. *)
Inductive thread (W E A : Type) :=
  | TDone (r : A + E)
  | TPanic
  | TStep (act : W -> W) (next : W -> thread W E A).
Arguments TDone {W E A}.
Arguments TPanic {W E A}.
Arguments TStep {W E A}.

#[export] Instance thread_ret {W E} : MRet (thread W E) := fun _ a => TDone (inl a).
#[export] Instance thread_bind {W E} : MBind (thread W E) := fun A B k =>
  fix bind (t : thread W E A) : thread W E B :=
    match t with
    | TDone (inl a) => k a
    | TDone (inr e) => TDone (inr e)
    | TPanic => TPanic
    | TStep act next => TStep act (fun w => bind (next w))
    end.

Definition tthrow {W E A} (e : E) : thread W E A := TDone (inr e).
Definition tderef {W E A} (o : option A) : thread W E A := match o with Some a => mret a | None => TPanic end.
(** A call of the SDK, ending with its error, or with the error as a value. *)
Definition tget {W E A} (p : sdk W E A) : thread W E A := TStep (fun w => (p w).1) (fun w => TDone (p w).2).
Fixpoint tattempt {W E A} (t : thread W E A) : thread W E (A + E) :=
  match t with
  | TDone r => TDone (inl r)
  | TPanic => TPanic
  | TStep act next => TStep act (fun w => tattempt (next w))
  end.
Definition ttry {W E A} (p : sdk W E A) : thread W E (A + E) := tattempt (tget p).

(** [for _, x := range l { body }]. *)
Fixpoint tfor {W E A S} (l : list A) (s : S) (body : S -> A -> thread W E S) : thread W E S :=
  match l with
  | [] => mret s
  | x :: l => s ← body s x; tfor l s body
  end.

(** A thread on its own. *)
Fixpoint trun {W E A} (t : thread W E A) (w : W) : W * option (A + E) :=
  match t with
  | TDone r => (w, Some r)
  | TPanic => (w, None)
  | TStep act next => trun (next w) (act w)
  end.

(** ** Parallel threads *)

Section parallel.
Context {W E A : Type}.
Implicit Types (t : thread W E A) (ts : list (thread W E A)) (w : W).

Definition panics t : bool := match t with TPanic => true | _ => false end.

(** The [i]-th thread makes its next call, if it has one. *)
Definition step_nth (i : nat) ts w : list (thread W E A) * W :=
  match ts !! i with
  | Some (TStep act next) => (<[i := next w]> ts, act w)
  | _ => (ts, w)
  end.

(** A panic of one thread ends the process. *)
Fixpoint interleave (schedule : list nat) ts w : list (thread W E A) * W :=
  match schedule with
  | [] => (ts, w)
  | i :: schedule => if existsb panics ts then (ts, w) else let '(ts, w) := step_nth i ts w in interleave schedule ts w
  end.

(** The rest of the threads, one after the other. *)
Fixpoint finish ts w : W * option (list (A + E)) :=
  match ts with
  | [] => (w, Some [])
  | t :: ts =>
      match trun t w with
      | (w, None) => (w, None)
      | (w, Some r) => let '(w, rs) := finish ts w in (w, cons r <$> rs)
      end
  end.

(** Every interleaving is that of some schedule; calls that a schedule leaves over come after it. *)
Definition run_threads (schedule : list nat) ts w : W * option (list (A + E)) :=
  let '(ts, w) := interleave schedule ts w in
  if existsb panics ts then (w, None) else finish ts w.
End parallel.

(** ** Rely and guarantee *)

Section rely.
Context {W E : Type} (R : W -> W -> Prop) `{!PreOrder R}.

(** Started in the state [w], each call of the thread stays within [R] as long as the others do, and
    when the thread ends, its result and the state are as [Q] says. *)
Definition rg {A} (Q : A + E -> W -> Prop) : thread W E A -> W -> Prop :=
  fix rg t w :=
    match t with
    | TDone r => Q r w
    | TPanic => True
    | TStep act next => forall w', R w w' -> R w' (act w') /\ rg (next w') (act w')
    end.
Abbreviation rg_all Qs ts w := (Forall2 (fun Q t => rg Q t w) Qs ts).

Definition stable {A} (Q : A + E -> W -> Prop) : Prop := forall r w w', Q r w -> R w w' -> Q r w'.

Lemma rg_stable {A} (Q : A + E -> W -> Prop) t w w' : stable Q -> rg Q t w -> R w w' -> rg Q t w'.
Proof.
  intros HQ. destruct t as [r| |act next]; simpl; [by eauto|done|]. intros Hr Hw w2 Hw2. apply Hr. by etransitivity.
Qed.

Lemma rg_bind {A B} (Q : A + E -> W -> Prop) (P : B + E -> W -> Prop) t k w :
  rg Q t w -> (forall a w, Q (inl a) w -> rg P (k a) w) -> (forall e w, Q (inr e) w -> P (inr e) w) -> rg P (mbind k t) w.
Proof.
  intros Ht Hk He. revert w Ht. induction t as [[a|e]| |act next IH]; intros w Ht; simpl in *; [by apply Hk|by apply He|done|].
  intros w' Hw. destruct (Ht w' Hw) as [H1 H2]. split; [done|]. by apply IH.
Qed.

Lemma rg_attempt {A} (Q : A + E -> W -> Prop) t w : rg Q t w -> rg (fun r => match r with inl x => Q x | inr _ => fun _ => False end) (tattempt t) w.
Proof. revert w. induction t as [r| |act next IH]; intros w Ht; simpl in *; [done|done|]. intros w' Hw. destruct (Ht w' Hw). auto. Qed.

Lemma rg_mono {A} (Q P : A + E -> W -> Prop) t w : (forall r w, Q r w -> P r w) -> rg Q t w -> rg P t w.
Proof.
  intros HQ. revert w. induction t as [r| |act next IH]; intros w Ht; simpl in *; [by apply HQ|done|].
  intros w' Hw. destruct (Ht w' Hw). auto.
Qed.

(** A thread on its own. *)
Lemma rg_run {A} (Q : A + E -> W -> Prop) t w : rg Q t w ->
  R w (trun t w).1 /\ forall r, (trun t w).2 = Some r -> Q r (trun t w).1.
Proof.
  revert w. induction t as [r| |act next IH]; intros w Ht; simpl in *.
  - split; [reflexivity|]. by intros r' [= <-].
  - split; [reflexivity|done].
  - destruct (Ht w) as [H1 H2]; [reflexivity|]. destruct (IH w _ H2) as [H3 H4]. split; [|done]. by etransitivity.
Qed.

Section all.
Context {A : Type}.
Implicit Types (Qs : list (A + E -> W -> Prop)) (ts : list (thread W E A)).

Lemma rg_all_stable Qs ts w w' : Forall stable Qs -> rg_all Qs ts w -> R w w' -> rg_all Qs ts w'.
Proof.
  intros Hst HF HR. induction HF as [|Q t Qs ts Ht HF IH]; [constructor|].
  apply Forall_cons in Hst as [H1 H2]. constructor; [by eapply rg_stable|by apply IH].
Qed.

Lemma rg_interleave Qs schedule ts w : Forall stable Qs -> rg_all Qs ts w ->
  let '(ts', w') := interleave schedule ts w in R w w' /\ rg_all Qs ts' w'.
Proof.
  intros Hst. revert ts w. induction schedule as [|i schedule IH]; intros ts w Hts; [by split|]. cbn [interleave].
  destruct (existsb panics ts); [by split|]. unfold step_nth.
  destruct (ts !! i) as [[r| |act next]|] eqn:Hi; try by apply IH.
  destruct (Forall2_lookup_r _ _ _ _ _ Hts Hi) as (Q & HQ & Ht). destruct (Ht w) as [H1 H2]; [reflexivity|].
  assert (Hn : rg_all Qs (<[i := next w]> ts) (act w)).
  { rewrite <- (list_insert_id Qs i Q HQ). apply Forall2_insert; [by apply (rg_all_stable _ _ w)|exact H2]. }
  specialize (IH _ _ Hn). destruct (interleave schedule _ _) as [ts' w']. destruct IH as [H3 H4]. split; [by etransitivity|done].
Qed.

Lemma rg_finish Qs ts w : Forall stable Qs -> rg_all Qs ts w ->
  R w (finish ts w).1 /\ forall l, (finish ts w).2 = Some l -> Forall2 (fun Q r => Q r (finish ts w).1) Qs l.
Proof.
  revert ts w. induction Qs as [|Q Qs IH]; intros ts w Hst Hts.
  - apply Forall2_nil_inv_l in Hts as ->. split; [done|]. intros l [= <-]. constructor.
  - apply Forall2_cons_inv_l in Hts as (t & ts' & Ht & Hts & ->). apply Forall_cons in Hst as [HQ Hst]. cbn [finish].
    destruct (rg_run Q t w Ht) as [H1 H2]. destruct (trun t w) as [w2 [r|]]; cbn [fst snd] in *; [|done].
    destruct (IH ts' w2 Hst (rg_all_stable _ _ _ _ Hst Hts H1)) as [H3 H4]. destruct (finish ts' w2) as [w3 rs]. cbn [fst snd] in *.
    split; [by etransitivity|]. intros l Hl. destruct rs as [l'|]; [|done]. injection Hl as <-. constructor; [|by apply H4].
    eapply HQ; [by apply H2|done].
Qed.

(** All of them, under every schedule. *)
Lemma rg_threads Qs schedule ts w : Forall stable Qs -> rg_all Qs ts w ->
  R w (run_threads schedule ts w).1 /\
  forall l, (run_threads schedule ts w).2 = Some l -> Forall2 (fun Q r => Q r (run_threads schedule ts w).1) Qs l.
Proof.
  intros Hst Hts. unfold run_threads. pose proof (rg_interleave Qs schedule ts w Hst Hts) as Hi.
  destruct (interleave schedule ts w) as [ts' w1]. destruct Hi as [H1 Hts']. destruct (existsb panics ts'); [done|].
  destruct (rg_finish Qs ts' w1 Hst Hts') as [H2 H3]. split; [by etransitivity|done].
Qed.
End all.

(** A call that stays within [R] whatever it returns. *)
Lemma rg_get {A} (p : sdk W E A) (Q : A + E -> W -> Prop) w :
  (forall w', R w w' -> R w' (p w').1 /\ Q (p w').2 (p w').1) -> rg Q (tget p) w.
Proof. intros Hp w' Hw. destruct (Hp w' Hw). done. Qed.

Lemma rg_try {A} (p : sdk W E A) (Q : A + E -> W -> Prop) w :
  (forall w', R w w' -> R w' (p w').1 /\ Q (p w').2 (p w').1) ->
  rg (fun r => match r with inl x => Q x | inr _ => fun _ => False end) (ttry p) w.
Proof. intros Hp. by apply rg_attempt, rg_get. Qed.
End rely.

Abbreviation rg_all R Qs ts w := (Forall2 (fun Q t => rg R Q t w) Qs ts).
