(* ===== verification/CloudAWS.v ===== *)
(** * The driver for AWS (pkg/driver/driver_aws.go) *)
From Stdlib Require Import ZArith Lia Ascii String.
From stdpp Require Import base gmap strings list.
From S2P Require Import Prelude GoLib Regexp ClassSpecs Types Prog Validation ClassValidation Driver Cloud.
Open Scope Z_scope.

(** ** The SDK *)

Definition awsEBSDriverName := "ebs.csi.aws.com".
Definition resourceTypeInstance := "instance".
Definition resourceTypeVolume := "volume".
Definition AWSAccessKeyID := "providerAccessKeyId".
Definition AWSSecretAccessKey := "providerSecretAccessKey".
Definition AWSAlternativeAccessKeyID := "accessKeyID".
Definition AWSAlternativeSecretAccessKey := "secretAccessKey".

(** The region and the static credentials. *)
Record AWSConfig := mkAWSConfig { cfg_Region : string; cfg_Credentials : option (string * string) }.

Abbreviation ec2_tags := (list (string * string)).

Record TagSpecification := mkTagSpec { ts_ResourceType : string; ts_Tags : ec2_tags }.

Record EbsBlockDevice := mkEbsDevice {
  eb_DeleteOnTermination : option bool; eb_Encrypted : bool; eb_Iops : option Z; eb_SnapshotId : option string;
  eb_VolumeSize : Z; eb_VolumeType : string }.

Record InstanceNetworkInterfaceSpecification := mkNetIf {
  ni_Groups : list string; ni_DeviceIndex : Z; ni_AssociatePublicIpAddress : option bool;
  ni_DeleteOnTermination : option bool; ni_Description : option string; ni_SubnetId : string }.

Record RunInstancesInput := mkRunInstances {
  ri_ImageId : string; ri_InstanceType : string; ri_MinCount : Z; ri_MaxCount : Z; ri_UserData : string;
  ri_KeyName : string; ri_NetworkInterfaces : list InstanceNetworkInterfaceSpecification; ri_IamInstanceProfileName : string;
  (* device name and disk *)
  ri_BlockDeviceMappings : list (string * EbsBlockDevice); ri_TagSpecifications : list TagSpecification;
  (* one-time spot instance, with the highest price *)
  ri_SpotMaxPrice : option (option string) }.

Record EC2Instance := mkEC2Instance {
  ei_InstanceId : option string; ei_PrivateDnsName : option string; ei_Tags : list (option string * option string) }.

(** Name and values. *)
Abbreviation ec2_filter := (string * list string)%type.

Inductive aws_error := AwsErr (code msg : string) | OtherAwsErr (msg : string).
Definition aws_err (e : aws_error) : error := Errorf (match e with AwsErr code msg => code +:+ ": " +:+ msg | OtherAwsErr msg => msg end).

(** The operations of the EC2 client.  [NewSession] may fail; images come with their root device. *)
Class EC2 (W : Type) := {
  NewSession : AWSConfig -> sdk W error unit;
  DescribeImages : AWSConfig -> list string -> sdk W error (list (option string));
  RunInstances : AWSConfig -> RunInstancesInput -> sdk W error (list EC2Instance);
  (* instance, and the devices that are to be deleted with it *)
  ModifyInstanceAttribute : AWSConfig -> string -> list string -> sdk W error unit;
  (* instances and dry run; the states the instances go to *)
  TerminateInstances : AWSConfig -> list string -> bool -> sdk W aws_error (list (option string));
  DescribeInstances : AWSConfig -> list ec2_filter -> sdk W error (list (list EC2Instance)) }.

(** ** The driver *)

(** [base64.StdEncoding.EncodeToString] and [url.Parse] (scheme and path), of the standard library, and
    the order in which a range takes the entries of a map. *)
Section driver.
Context {W : Type} `{!EC2 W}.
Variable base64 : string -> string.
Variable url_Parse : string -> result (string * string).
Variable range : strmap -> list (string * string).
Variables (spec : AWSMachineClassSpec) (CredentialsData : strmap) (UserData MachineName : string).

Definition createSVC : cloud W AWSConfig :=
  let accessKeyID := ExtractCredentialsFromData CredentialsData [AWSAccessKeyID; AWSAlternativeAccessKeyID] in
  let secretAccessKey := ExtractCredentialsFromData CredentialsData [AWSSecretAccessKey; AWSAlternativeSecretAccessKey] in
  let config := mkAWSConfig (aws_Region spec)
    (if negb (is_empty accessKeyID) && negb (is_empty secretAccessKey) then Some (accessKeyID, secretAccessKey) else None) in
  _ ← cget id (NewSession config);
  mret config.

Definition encodeMachineID (region machineID : string) : string := "aws:///" +:+ region +:+ "/" +:+ machineID.

(** The tags of the class but for "Name", which is the name of the machine. *)
Definition generateTags (tags : strmap) (resourceType : string) : TagSpecification :=
  mkTagSpec resourceType (filter (fun kv => kv.1 <> "Name") (range tags) ++ [("Name", MachineName)]).

(** The device of a disk: the root device of the image for "/root" and for a single disk. *)
Definition device_name (blockDevices : list AWSBlockDeviceMappingSpec) (rootDeviceName : option string)
    (disk : AWSBlockDeviceMappingSpec) : cloud W string :=
  if bool_decide (abd_DeviceName disk = "/root") || bool_decide (length blockDevices = 1%nat) then cderef rootDeviceName
  else mret (abd_DeviceName disk).

Definition generateBlockDevices (blockDevices : list AWSBlockDeviceMappingSpec) (rootDeviceName : option string) :
    cloud W (list (string * EbsBlockDevice)) :=
  cfold blockDevices [] (fun blkDeviceMappings disk =>
    deviceName ← device_name blockDevices rootDeviceName disk;
    let ebs := abd_Ebs disk in
    mret (blkDeviceMappings ++ [(deviceName, mkEbsDevice (ebs_DeleteOnTermination ebs) (ebs_Encrypted ebs)
      (if bool_decide (ebs_VolumeType ebs = "io1") then Some (ebs_Iops ebs) else None) (ebs_SnapshotID ebs)
      (ebs_VolumeSize ebs) (ebs_VolumeType ebs))])).

(** The devices of the disks that do not say whether they are deleted with the instance. *)
Definition checkBlockDevices (rootDeviceName : option string) : cloud W (list string) :=
  cfold (aws_BlockDevices spec) [] (fun instanceBlkDeviceMappings disk =>
    deviceName ← device_name (aws_BlockDevices spec) rootDeviceName disk;
    mret (match ebs_DeleteOnTermination (abd_Ebs disk) with
          | None => instanceBlkDeviceMappings ++ [deviceName]
          | Some _ => instanceBlkDeviceMappings
          end)).

Definition network_interface (i : nat) (netIf : AWSNetworkInterfaceSpec) : InstanceNetworkInterfaceSpecification :=
  mkNetIf (ani_SecurityGroupIDs netIf) (Z.of_nat i) (ani_AssociatePublicIPAddress netIf)
    (match ani_DeleteOnTermination netIf with None => Some true | d => d end) (ani_Description netIf) (ani_SubnetID netIf).

Definition instance_input (blkDeviceMappings : list (string * EbsBlockDevice)) : RunInstancesInput :=
  mkRunInstances (aws_AMI spec) (aws_MachineType spec) 1 1 (base64 UserData) (aws_KeyName spec)
    (imap network_interface (aws_NetworkInterfaces spec)) (iam_Name (aws_IAM spec)) blkDeviceMappings
    [generateTags (aws_Tags spec) resourceTypeInstance; generateTags (aws_Tags spec) resourceTypeVolume]
    (match aws_SpotPrice spec with
     | Some price => Some (if is_empty price then None else Some price)
     | None => None
     end).

Definition Create : cloud W (string * string) :=
  svc ← createSVC;
  output ← cget id (DescribeImages svc [aws_AMI spec]);
  match output with
  | [] => cthrow (Errorf ("Image " +:+ aws_AMI spec +:+ " not found"))
  | rootDeviceName :: _ =>
      blkDeviceMappings ← generateBlockDevices (aws_BlockDevices spec) rootDeviceName;
      runResult ← cget id (RunInstances svc (instance_input blkDeviceMappings));
      instance ← cderef (head runResult);
      instanceId ← cderef (ei_InstanceId instance);
      privateDnsName ← cderef (ei_PrivateDnsName instance);
      mret (encodeMachineID (aws_Region spec) instanceId, privateDnsName)
  end.

(** The value of the first tag with the key "Name". *)
Fixpoint machine_name (tags : list (option string * option string)) : cloud W string :=
  match tags with
  | [] => mret EmptyString
  | (key, value) :: tags =>
      key ← cderef key;
      if bool_decide (key = "Name") then cderef value else machine_name tags
  end.

Definition filters (clusterName nodeRole machineID : string) : list ec2_filter :=
  [("tag-key", [clusterName]); ("tag-key", [nodeRole]); ("instance-state-name", ["pending"; "running"; "stopping"; "stopped"])] ++
  (if is_empty machineID then [] else [("instance-id", [decodeMachineID machineID])]).

Definition GetVMs (machineID : string) : cloud W (strmap * option error) :=
  let '(clusterName, nodeRole) := cluster_and_role "kubernetes.io/cluster/" "kubernetes.io/role/" (range (aws_Tags spec)).*1 in
  if is_empty clusterName || is_empty nodeRole then mret (∅, None)
  else
    s ← cattempt createSVC;
    match s with
    | Err err => mret (∅, Some err)
    | Ok svc =>
        r ← ctry (DescribeInstances svc (filters clusterName nodeRole machineID));
        match r with
        | inr err => mret (∅, Some err)
        | inl reservations =>
            listOfVMs ← cfold (concat reservations) ∅ (fun listOfVMs instance =>
              machineName ← machine_name (ei_Tags instance);
              instanceId ← cderef (ei_InstanceId instance);
              mret (<[encodeMachineID (aws_Region spec) instanceId := machineName]> listOfVMs));
            mret (listOfVMs, None)
        end
    end.

(** The disks without an explicit choice are made to go with the instance; what fails here is logged. *)
Definition default_deletion (svc : AWSConfig) (instanceID : string) (images : list (option string)) : cloud W unit :=
  match images with
  | [] => mret tt
  | rootDeviceName :: _ =>
      instanceBlkDeviceMappings ← checkBlockDevices rootDeviceName;
      match instanceBlkDeviceMappings with
      | [] => mret tt
      | _ => _ ← ctry (ModifyInstanceAttribute svc instanceID instanceBlkDeviceMappings); mret tt
      end
  end.

(** A dry run tells with an error that the instance could be terminated.  Without an error the message
    of the missing error is asked for; an instance that goes to another state than the two expected ones
    is reported with the error of the dry run, because the variable is declared anew. *)
Definition terminate (svc : AWSConfig) (instanceID : string) : cloud W unit :=
  r ← ctry (TerminateInstances svc [instanceID] true);
  match r with
  | inl _ => ccrash
  | inr err =>
      if match err with AwsErr code _ => bool_decide (code = "DryRunOperation") | OtherAwsErr _ => false end then
        output ← cget aws_err (TerminateInstances svc [instanceID] false);
        vmState ← cderef (head output);
        name ← cderef vmState;
        if bool_decide (name = "shutting-down") || bool_decide (name = "terminated") then mret tt
        else cthrow (aws_err err)
      else cthrow (aws_err err)
  end.

Definition Delete (machineID : string) : cloud W unit :=
  result ← GetVMs machineID;
  match result with
  | (_, Some err) => cthrow err
  | (vms, None) =>
      if bool_decide (vms = ∅) then mret tt
      else
        let instanceID := decodeMachineID machineID in
        svc ← createSVC;
        describeImageOutput ← cget id (DescribeImages svc [aws_AMI spec]);
        _ ← default_deletion svc instanceID describeImageOutput;
        terminate svc instanceID
  end.

(** *** Volumes *)

Fixpoint trim_slashes (s : string) : string :=
  match s with String c s' => if bool_decide (c = "/"%char) then trim_slashes s' else s | EmptyString => EmptyString end.
(** [strings.Trim(s, "/")]. *)
Definition TrimSlash (s : string) : string := rev_string (trim_slashes (rev_string (trim_slashes s))).

Definition awsVolumeRegMatch : regexp := Seq (Lit "vol-") (Star (Cls (fun c => negb (is_char "/" c)))).

Definition kubernetesVolumeIDToEBSVolumeID (kubernetesID : string) : result string :=
  if negb (has_prefix "aws://" kubernetesID) then Ok kubernetesID
  else
    match url_Parse kubernetesID with
    | Err err => Err (Errorf ("invalid disk name (" +:+ kubernetesID +:+ "): " +:+ err_msg err))
    | Ok (scheme, path) =>
        if negb (bool_decide (scheme = "aws")) then Err (Errorf ("invalid scheme for AWS volume (" +:+ kubernetesID +:+ ")"))
        else
          let awsID := TrimSlash path in
          if negb (MatchString awsVolumeRegMatch awsID) then Err (Errorf ("invalid format for AWS volume (" +:+ kubernetesID +:+ ")"))
          else Ok awsID
    end.

Definition vol_name (v : PersistentVolumeSpec) : list string :=
  match pv_AWSElasticBlockStore v with
  | Some volumeID => match kubernetesVolumeIDToEBSVolumeID volumeID with Ok name => [name] | Err _ => [] end
  | None => csi_name awsEBSDriverName v
  end.

Definition GetVolNames (specs : list PersistentVolumeSpec) : list string * option error := (concat (map vol_name specs), None).

Definition aws_driver : CloudDriver W := mkCloudDriver W Create Delete GetVMs GetVolNames.
End driver.

(** ** What is assumed of EC2 *)

Record EC2VM := mkEC2VM { vm_tags : ec2_tags; vm_state : string }.

Definition some_tags (l : ec2_tags) : list (option string * option string) := map (fun kv => (Some kv.1, Some kv.2)) l.

(** The filters the driver uses. *)
Definition ec2_matches (id : string) (vm : EC2VM) (f : ec2_filter) : Prop :=
  (f.1 = "tag-key" -> Exists (fun key => key ∈ (vm_tags vm).*1) f.2) /\
  (f.1 = "instance-state-name" -> vm_state vm ∈ f.2) /\
  (f.1 = "instance-id" -> id ∈ f.2).

Definition instance_tags (i : RunInstancesInput) : ec2_tags :=
  concat (map ts_Tags (filter (fun t => ts_ResourceType t = resourceTypeInstance) (ri_TagSpecifications i))).

(** Instances by ID, of which no ID has a slash.  A request for one instance makes one, with the tags
    asked for and a new ID; descriptions are those of the instances that match all filters; nothing but the
    termination of an instance, which is no dry run, changes one. *)
Class EC2Laws (W : Type) `{!EC2 W} (view : W -> gmap string EC2VM) : Prop := {
  ids_plain w id : is_Some (view w !! id) -> id <> EmptyString /\ has_byte "/" id = false;
  run_law cfg i w w' insts : RunInstances cfg i w = (w', inl insts) -> exists id dns tags,
    insts = [mkEC2Instance (Some id) (Some dns) tags] /\ view w !! id = None /\
    view w' = <[id := mkEC2VM (instance_tags i) "pending"]> (view w);
  describe_law cfg fs w w' rs : DescribeInstances cfg fs w = (w', inl rs) ->
    view w' = view w /\
    Forall (fun x => exists id vm, ei_InstanceId x = Some id /\ view w !! id = Some vm /\ ei_Tags x = some_tags (vm_tags vm) /\
      Forall (ec2_matches id vm) fs) (concat rs) /\
    forall id vm, view w !! id = Some vm -> Forall (ec2_matches id vm) fs -> exists x, x ∈ concat rs /\ ei_InstanceId x = Some id;
  describe_same cfg fs w : view (DescribeInstances cfg fs w).1 = view w;
  session_law cfg w : view (NewSession cfg w).1 = view w;
  images_law cfg ids w : view (DescribeImages cfg ids w).1 = view w;
  modify_law cfg id devices w : view (ModifyInstanceAttribute cfg id devices w).1 = view w;
  dry_run_law cfg ids w : view (TerminateInstances cfg ids true w).1 = view w;
  terminate_law cfg ids w id : id ∉ ids -> view (TerminateInstances cfg ids false w).1 !! id = view w !! id }.

Section laws.
Context {W : Type} `{!EC2 W} (view : W -> gmap string EC2VM) `{!EC2Laws W view}.
Variable base64 : string -> string.
Variable url_Parse : string -> result (string * string).
Variable range : strmap -> list (string * string).
Hypothesis range_ok : forall m, range m ≡ₚ map_to_list m.
Variables (spec : AWSMachineClassSpec) (CredentialsData : strmap) (UserData MachineName : string).

(** The first "Name", or nothing. *)
Definition first_name (tags : ec2_tags) : string :=
  match list_find (fun kv => kv.1 = "Name") tags with Some (_, kv) => kv.2 | None => EmptyString end.

Lemma machine_name_spec tags (w : W) : machine_name (some_tags tags) w = (w, Return (first_name tags)).
Proof.
  unfold first_name. induction tags as [|[k v] tags IH]; [done|].
  cbn [some_tags map machine_name fst snd]. unfold mbind, cloud_bind, cderef. cbn [list_find fst].
  case_bool_decide as Hk.
  - by rewrite (decide_True (P := k = "Name")) by done.
  - rewrite (decide_False (P := k = "Name")) by done. fold (some_tags tags). rewrite IH. by destruct (list_find _ tags) as [[? ?]|].
Qed.

Lemma ec2_id_decodes region id : has_byte "/" id = false -> decodeMachineID (encodeMachineID region id) = id.
Proof.
  intros Hs. unfold encodeMachineID, decodeMachineID.
  change ("aws:///" +:+ region +:+ "/" +:+ id) with ("aws://" +:+ String "/" (region +:+ String "/" id)).
  by rewrite !last_part_app, last_part_plain.
Qed.

(** The entry of an instance. *)
Definition entry (x : EC2Instance) : string * string :=
  (encodeMachineID (aws_Region spec) (default EmptyString (ei_InstanceId x)),
   first_name (map (fun kv => (default EmptyString kv.1, default EmptyString kv.2)) (ei_Tags x))).

Lemma entry_spec x id tags : ei_InstanceId x = Some id -> ei_Tags x = some_tags tags ->
  entry x = (encodeMachineID (aws_Region spec) id, first_name tags).
Proof.
  intros Hi Ht. unfold entry, some_tags in *. rewrite Hi, Ht, map_map. f_equal. f_equal.
  rewrite <- (map_id tags) at 2. apply map_ext. by intros [].
Qed.

Lemma listing_loop l p (w : W) :
  Forall (fun x => exists id tags, ei_InstanceId x = Some id /\ ei_Tags x = some_tags tags) l ->
  cfold l (collect p) (fun listOfVMs instance =>
    machineName ← machine_name (ei_Tags instance);
    instanceId ← cderef (ei_InstanceId instance);
    mret (<[encodeMachineID (aws_Region spec) instanceId := machineName]> listOfVMs)) w = (w, Return (collect (p ++ map entry l))).
Proof.
  revert p. induction l as [|x l IH]; intros p HF; [by rewrite app_nil_r|].
  apply Forall_cons in HF as [(id & tags & Hi & Ht) HF]. cbn [cfold map]. rewrite (entry_spec _ _ _ Hi Ht).
  unfold mbind at 1, cloud_bind at 1. unfold mbind at 1, cloud_bind at 1. rewrite Ht, machine_name_spec, Hi.
  change ((_, _) :: map entry l) with ([(encodeMachineID (aws_Region spec) id, first_name tags)] ++ map entry l).
  rewrite app_assoc. rewrite <- (IH _ HF), collect_snoc. done.
Qed.

Lemma createSVC_view w w' cfg : createSVC spec CredentialsData w = (w', Return cfg) -> view w' = view w.
Proof.
  intros (w1 & [] & E & [-> _]%cret_return)%cbind_return. apply cget_return in E.
  match type of E with NewSession ?cfg _ = _ => pose proof (session_law (view := view) cfg w) as Hs end. by rewrite E in Hs.
Qed.

(** What a listing returns: the instances with both tags, in the states asked for. *)
Lemma GetVMs_spec machineID w w' vms : aws_valid spec ->
  GetVMs range spec CredentialsData machineID w = (w', Return (vms, None)) ->
  exists c r, c ∈ (range (aws_Tags spec)).*1 /\ contains c "kubernetes.io/cluster/" = true /\
    r ∈ (range (aws_Tags spec)).*1 /\ contains r "kubernetes.io/role/" = true /\
    view w' = view w /\
    (forall id vm, view w !! id = Some vm -> Forall (ec2_matches id vm) (filters c r machineID) ->
      vms !! encodeMachineID (aws_Region spec) id = Some (first_name (vm_tags vm))) /\
    (forall key name, vms !! key = Some name -> exists id vm, key = encodeMachineID (aws_Region spec) id /\
      view w !! id = Some vm /\ Forall (ec2_matches id vm) (filters c r machineID) /\ name = first_name (vm_tags vm)).
Proof.
  intros Hv He. assert (Ht : tagged "kubernetes.io/cluster/" "kubernetes.io/role/" (range (aws_Tags spec)).*1).
  { eapply tagged_perm; [|apply Hv]. unfold tag_keys. by rewrite (range_ok (aws_Tags spec)). }
  apply tagged_found in Ht as (c & r & Hcr & Hc0 & Hr0 & Hc & Hcc & Hr & Hrr & _); [|done..].
  exists c, r. do 4 (split; [done|]). unfold GetVMs in He. rewrite Hcr in He.
  unfold is_empty in He. rewrite (bool_decide_false (c = _)), (bool_decide_false (r = _)) in He by done. cbn [orb] in He.
  apply cbind_return in He as (w1 & s & E1 & He). unfold cattempt in E1.
  destruct (createSVC spec CredentialsData w) as [w2 o1] eqn:Es.
  destruct o1 as [svc|e| |]; [|by injection E1 as <- <-|done..].
  injection E1 as <- <-. apply createSVC_view in Es.
  apply cbind_return in He as (w3 & x & E2%ctry_return & He). destruct x as [reservations|err]; [|by apply cret_return in He as [_ [= _ ?]]].
  apply cbind_return in He as (w4 & listOfVMs & E3 & [-> [= ->]]%cret_return).
  apply describe_law in E2 as (Hview & HF & Hall). rewrite Es in Hview, HF, Hall.
  change (∅ : strmap) with (collect []) in E3. rewrite listing_loop in E3.
  2: { eapply Forall_impl; [exact HF|]. intros x (id & vm & ? & _ & ? & _). eauto. }
  injection E3 as <- <-. cbn [app]. rewrite Forall_forall in HF. split_and!; [done| |].
  - intros id vm Hid Hm. destruct (Hall id vm Hid Hm) as (x & Hx & Hxi). apply collect_lookup.
    + destruct (HF x Hx) as (id' & vm' & Hi & Hvm & Htags & _). assert (id' = id) as -> by congruence.
      assert (vm' = vm) as -> by congruence. rewrite <- (entry_spec x id _ Hi Htags). by apply list_elem_of_fmap_2.
    + intros name Hn. apply list_elem_of_fmap in Hn as (y & Hy & Hyl). destruct (HF y Hyl) as (id' & vm' & Hi & Hvm & Htags & _).
      rewrite (entry_spec y id' _ Hi Htags) in Hy. apply pair_equal_spec in Hy as [Hid' ->].
      assert (id = id') as <-; [|congruence].
      apply (f_equal decodeMachineID) in Hid'. by rewrite !ec2_id_decodes in Hid' by (apply (ids_plain w); eauto).
  - intros key name Hk. apply collect_elem, list_elem_of_fmap in Hk as (x & Hx & Hxl).
    destruct (HF x Hxl) as (id & vm & Hi & Hvm & Htags & Hm). rewrite (entry_spec x id _ Hi Htags) in Hx. apply pair_equal_spec in Hx as [-> ->].
    exists id, vm. done.
Qed.

Lemma tags_of_input bd :
  instance_tags (instance_input base64 range spec UserData MachineName bd) =
    filter (fun kv => kv.1 <> "Name") (range (aws_Tags spec)) ++ [("Name", MachineName)].
Proof. unfold instance_tags. unfold instance_input. cbn [ri_TagSpecifications]. rewrite filter_cons_True, filter_cons_False by done.
  rewrite filter_nil. cbn [map concat]. by rewrite app_nil_r. Qed.

Lemma first_name_last l name : first_name (filter (fun kv => kv.1 <> "Name") l ++ [("Name", name)]) = name.
Proof.
  unfold first_name. rewrite list_find_app_r.
  - cbn [list_find fst]. by rewrite (decide_True (P := "Name" = "Name")) by done.
  - apply list_find_None, Forall_forall. intros kv Hkv%list_elem_of_filter. naive_solver.
Qed.

(** The tag is on the instance, because it is not the one the driver leaves out. *)
Lemma tag_on_instance key sub : key ∈ (range (aws_Tags spec)).*1 -> contains key sub = true -> contains "Name" sub = false ->
  key ∈ (filter (fun kv => kv.1 <> "Name") (range (aws_Tags spec)) ++ [("Name", MachineName)]).*1.
Proof.
  intros ([k v] & -> & Hin)%list_elem_of_fmap Hc Hn. rewrite fmap_app. apply elem_of_app. left.
  apply list_elem_of_fmap. exists (k, v). split; [done|]. apply list_elem_of_filter. split; [|done]. cbn [fst] in *. intros ->. congruence.
Qed.

Lemma ec2_created w w' id node : Create base64 range spec CredentialsData UserData MachineName w = (w', Return (id, node)) ->
  exists w1 rid, view w1 !! rid = None /\ id = encodeMachineID (aws_Region spec) rid /\
    view w' = <[rid := mkEC2VM (filter (fun kv => kv.1 <> "Name") (range (aws_Tags spec)) ++ [("Name", MachineName)]) "pending"]> (view w1).
Proof.
  intros (w1 & svc & _ & He)%cbind_return. apply cbind_return in He as (w2 & output & _ & He).
  destruct output as [|root images]; [done|]. apply cbind_return in He as (w3 & bd & _ & He).
  apply cbind_return in He as (w4 & insts & E%cget_return & He). apply run_law in E as (rid & dns & tags & -> & Hnone & Hview).
  rewrite tags_of_input in Hview. exists w3, rid. split; [done|].
  apply cbind_return in He as (w5 & inst & [<- [= <-]]%cderef_return & He).
  apply cbind_return in He as (w6 & rid' & [<- [= <-]]%cderef_return & He).
  apply cbind_return in He as (w7 & dns' & [<- [= <-]]%cderef_return & He). apply cret_return in He as [<- Hid].
  apply pair_equal_spec in Hid as [<- _]. done.
Qed.

End laws.

Section tracks.
Context {W : Type} `{!EC2 W} (view : W -> gmap string EC2VM) `{!EC2Laws W view}.
Variable base64 : string -> string.
Variable url_Parse : string -> result (string * string).
Variables range range' : strmap -> list (string * string).
Hypothesis range_ok : forall m, range m ≡ₚ map_to_list m.
Hypothesis range'_ok : forall m, range' m ≡ₚ map_to_list m.
Variables (spec : AWSMachineClassSpec) (CredentialsData CredentialsData' : strmap) (UserData UserData' MachineName name' : string).

(** The AWS driver keeps track of its VMs when the class is a valid one. *)
#[export] Instance aws_tracks (Hv : aws_valid spec) :
  TracksVMs (aws_driver base64 url_Parse range spec CredentialsData UserData MachineName)
    (aws_driver base64 url_Parse range' spec CredentialsData' UserData' name') MachineName (fun _ => True).
Proof.
  assert (Hr : (range' (aws_Tags spec)).*1 ≡ₚ (range (aws_Tags spec)).*1) by (by rewrite (range_ok _), (range'_ok _)).
  constructor. intros w w' id node (w1 & rid & _ & -> & Hview)%(ec2_created view). split; [done|].
  intros w'' vms _ (c & r & Hc & Hcc & Hrr & Hrc & _ & Hall & Hkeys)%(GetVMs_spec view range' range'_ok); [|done].
  split. 2: { apply eq_None_not_Some. intros [name (? & ? & ? & _)%Hkeys]. done. }
  rewrite Hr in Hc, Hrr.
  rewrite (Hall rid (mkEC2VM (filter (fun kv => kv.1 <> "Name") (range (aws_Tags spec)) ++ [("Name", MachineName)]) "pending")).
  - cbn [vm_tags]. by rewrite first_name_last.
  - by rewrite Hview, lookup_insert_eq.
  - unfold filters. cbn [is_empty]. rewrite app_nil_r. repeat constructor; cbn [fst snd]; intros; try done.
    + by eapply tag_on_instance.
    + by eapply tag_on_instance.
Qed.
End tracks.

Section deletion.
Context {W : Type} `{!EC2 W} (view : W -> gmap string EC2VM) `{!EC2Laws W view}.
Variable range : strmap -> list (string * string).
Hypothesis range_ok : forall m, range m ≡ₚ map_to_list m.
Variables (spec : AWSMachineClassSpec) (CredentialsData : strmap).

(** *** Deletion *)

Definition same_view (w w' : W) : Prop := view w' = view w.
#[local] Instance same_view_preorder : PreOrder same_view.
Proof. split; [by intros w|]. unfold same_view. by intros w1 w2 w3 -> ->. Qed.

(** All instances but one are as they were. *)
Definition same_but (id : string) (w w' : W) : Prop := forall id', id' <> id -> view w' !! id' = view w !! id'.
#[local] Instance same_but_preorder id : PreOrder (same_but id).
Proof. split; [by intros w id'|]. intros w1 w2 w3 H1 H2 id' Hid. by rewrite H2, H1. Qed.

Lemma same_view_but {A} id (m : cloud W A) : preserves same_view m -> preserves (same_but id) m.
Proof. intros Hm w id' _. by rewrite (Hm w). Qed.

Lemma createSVC_same : preserves same_view (createSVC spec CredentialsData).
Proof. unfold createSVC. preserves_all. intros w. apply session_law. Qed.

Lemma machine_name_same tags : preserves same_view (machine_name (W := W) tags).
Proof. induction tags as [|[k v] tags IH]; cbn [machine_name]; preserves_all; apply IH. Qed.

Lemma GetVMs_same machineID : preserves same_view (GetVMs range spec CredentialsData machineID).
Proof.
  unfold GetVMs. preserves_all; try apply createSVC_same; try apply machine_name_same.
  intros w. apply describe_same.
Qed.

(** The part of a deletion after the listing. *)
Definition delete_listed_vm (machineID : string) : cloud W unit :=
  let instanceID := decodeMachineID machineID in
  svc ← createSVC spec CredentialsData;
  describeImageOutput ← cget id (DescribeImages svc [aws_AMI spec]);
  _ ← default_deletion spec svc instanceID describeImageOutput;
  terminate svc instanceID.

Lemma delete_listed_vm_same machineID : preserves (same_but (decodeMachineID machineID)) (delete_listed_vm machineID).
Proof.
  unfold delete_listed_vm. apply preserves_bind; [typeclasses eauto|apply same_view_but, createSVC_same|]. intros svc.
  apply preserves_bind; [typeclasses eauto| |].
  { apply same_view_but, preserves_get; [typeclasses eauto|]. intros w. apply images_law. }
  intros images. apply preserves_bind; [typeclasses eauto| |].
  - apply same_view_but. unfold default_deletion, checkBlockDevices, device_name. preserves_all. intros w. apply modify_law.
  - intros _. unfold terminate. preserves_all.
    + intros w id _. by rewrite dry_run_law.
    + intros w id Hid. apply terminate_law. by intros ->%list_elem_of_singleton.
Qed.

(** C19: a deletion changes nothing but the instance with the ID, and that one only when it carries two of the
    tags of the class, one for the cluster and one for the role, and is in one of the four states asked for.
    Nothing is changed by a deletion that fails before it has listed the VM. *)
Theorem aws_delete_guarded machineID w : aws_valid spec -> machineID <> EmptyString ->
  view (Delete range spec CredentialsData machineID w).1 = view w \/
  (same_but (decodeMachineID machineID) w (Delete range spec CredentialsData machineID w).1 /\
   exists vm c r, view w !! decodeMachineID machineID = Some vm /\
     c ∈ tag_keys (aws_Tags spec) /\ c ∈ (vm_tags vm).*1 /\ contains c "kubernetes.io/cluster/" = true /\
     r ∈ tag_keys (aws_Tags spec) /\ r ∈ (vm_tags vm).*1 /\ contains r "kubernetes.io/role/" = true /\
     vm_state vm ∈ ["pending"; "running"; "stopping"; "stopped"]).
Proof.
  intros Hv Hm. destruct (GetVMs range spec CredentialsData machineID w) as [w1 o1] eqn:Eg.
  assert (Hs : view w1 = view w) by (pose proof (GetVMs_same machineID w) as Hs; by rewrite Eg in Hs).
  assert (HD : (Delete range spec CredentialsData machineID w).1 =
    match o1 with
    | Return (vms, None) => if bool_decide (vms = ∅) then w1 else (delete_listed_vm machineID w1).1
    | _ => w1
    end).
  { unfold Delete. unfold mbind at 1, cloud_bind at 1. rewrite Eg. destruct o1 as [[vms [err|]]|e| |]; try done. by case_bool_decide. }
  rewrite HD. destruct o1 as [[vms [err|]]|e| |]; try (by left).
  case_bool_decide as Hne; [by left|]. right. split.
  { intros id' Hid. rewrite (delete_listed_vm_same machineID w1 id' Hid). by rewrite Hs. }
  apply (GetVMs_spec view range range_ok) in Eg as (c & r & Hc & Hcc & Hr & Hrr & _ & _ & Hin); [|done].
  rewrite (range_ok _) in Hc, Hr. apply map_choose in Hne as (key & name & Hk). destruct (Hin key name Hk) as (id & vm & _ & Hvm & HF & _).
  unfold filters in HF. unfold is_empty in HF. rewrite (bool_decide_false (machineID = _)) in HF by done.
  rewrite Forall_app, !Forall_cons in HF. destruct HF as ((F1 & F2 & F3 & _) & F4 & _).
  destruct F1 as (F1 & _), F2 as (F2 & _), F3 as (_ & F3 & _), F4 as (_ & _ & F4). cbn [fst snd] in *.
  specialize (F4 eq_refl) as ->%list_elem_of_singleton.
  specialize (F1 eq_refl) as [K1|K1%Exists_nil]%Exists_cons; [|done]. specialize (F2 eq_refl) as [K2|K2%Exists_nil]%Exists_cons; [|done]. exists vm, c, r. split_and!; auto.
Qed.
End deletion.

(** ** A simulated EC2, for which the laws hold *)

Definition ec2_view (w : gmap string EC2VM) : gmap string EC2VM := filter (fun kv => plain_id kv.1) w.

#[export] Instance ec2_matches_dec id vm f : Decision (ec2_matches id vm f).
Proof. unfold ec2_matches. apply _. Defined.

Definition describe (w : gmap string EC2VM) (fs : list ec2_filter) : list EC2Instance :=
  map (fun kv => mkEC2Instance (Some kv.1) (Some ("ip-" +:+ kv.1)) (some_tags (vm_tags kv.2)))
    (filter (fun kv => Forall (ec2_matches kv.1 kv.2) fs) (map_to_list (ec2_view w))).

#[export] Instance simulated_ec2 : EC2 (gmap string EC2VM) := {|
  NewSession _ w := (w, inl tt);
  DescribeImages _ ids w := (w, inl (map (fun _ => Some "/dev/xvda") ids));
  RunInstances _ i w :=
    let id := fresh_id w in
    (<[id := mkEC2VM (instance_tags i) "pending"]> w,
     inl [mkEC2Instance (Some id) (Some ("ip-" +:+ id)) (some_tags (instance_tags i))]);
  ModifyInstanceAttribute _ _ _ w := (w, inl tt);
  TerminateInstances _ ids dry w :=
    if dry then (w, inr (AwsErr "DryRunOperation" "Request would have succeeded"))
    else (foldl (fun w id => alter (fun vm => mkEC2VM (vm_tags vm) "shutting-down") id w) w ids, inl (map (fun _ => Some "shutting-down") ids));
  DescribeInstances _ fs w := (w, inl [describe w fs]) |}.

#[export] Instance simulated_ec2_laws : EC2Laws (gmap string EC2VM) ec2_view.
Proof.
  split.
  - intros w id [vm Hvm]. by apply map_lookup_filter_Some in Hvm as [_ ?].
  - intros cfg i w w' insts [= <- <-]. eexists _, _, _. split; [done|]. split.
    + apply map_lookup_filter_None. left. apply fresh_id_fresh.
    + unfold ec2_view. rewrite map_filter_insert_True; [done|]. apply fresh_id_plain.
  - intros cfg fs w w' rs [= <- <-]. split; [done|]. unfold concat. rewrite app_nil_r. split.
    + apply Forall_forall. intros x ([id vm] & -> & [HF Hin]%list_elem_of_filter)%list_elem_of_fmap.
      apply elem_of_map_to_list in Hin. exists id, vm. done.
    + intros id vm Hid HF. eexists. split; [apply list_elem_of_fmap; exists (id, vm); split; [done|]|done].
      apply list_elem_of_filter. split; [done|]. by apply elem_of_map_to_list.
  - done.
  - done.
  - done.
  - done.
  - done.
  - intros cfg ids w id Hid. unfold TerminateInstances, simulated_ec2. cbn [fst]. unfold ec2_view. rewrite !map_lookup_filter.
    assert (Hl : foldl (fun w id => alter (fun vm => mkEC2VM (vm_tags vm) "shutting-down") id w) w ids !! id = w !! id).
    { revert w. induction ids as [|i ids IH]; intros w; [done|]. apply not_elem_of_cons in Hid as [Hne Hid]. cbn [foldl].
      rewrite IH by done. by rewrite lookup_alter_ne. }
    by rewrite Hl.
Qed.

(** ** Witnesses *)

Lemma sample_aws_valid : aws_valid sample_aws.
Proof. apply (validateAWS_valid sample_aws (Some (mkSecretRef "cred" "shoot")) "spec"). vm_compute. reflexivity. Qed.

Abbreviation two_vms := ({[ "i1" := mkEC2VM [("kubernetes.io/cluster/shoot", "1"); ("kubernetes.io/role/node", "1"); ("Name", "m1")] "running";
  "i2" := mkEC2VM [("Name", "other")] "running" ]} : gmap string EC2VM).
Abbreviation after_deletion := (Delete map_to_list sample_aws ∅ "aws:///eu-west-1/i1" two_vms).

Lemma aws_delete_guarded_witness : ec2_view two_vms !! "i1" <> ec2_view after_deletion.1 !! "i1" /\
  ec2_view after_deletion.1 !! "i2" = ec2_view two_vms !! "i2" /\ exists vm, ec2_view two_vms !! "i1" = Some vm.
Proof.
  assert (Hne : ec2_view two_vms !! "i1" <> ec2_view after_deletion.1 !! "i1").
  { intros H. apply (f_equal (fmap vm_state)) in H. vm_compute in H. discriminate. }
  split; [exact Hne|].
  destruct (aws_delete_guarded ec2_view map_to_list (fun m => reflexivity _) sample_aws ∅ "aws:///eu-west-1/i1" two_vms
    sample_aws_valid ltac:(discriminate)) as [He|(Hs & vm & c & r & Hvm & _)].
  - exfalso. apply Hne. by rewrite He.
  - split; [by apply Hs|]. exists vm. exact Hvm.
Defined.
