(* ===== verification/CloudPacket.v ===== *)
(** * The driver for Packet (pkg/driver/driver_packet.go) *)
From Stdlib Require Import ZArith Lia Ascii String.
From stdpp Require Import base gmap strings list.
From S2P Require Import Prelude GoLib Regexp ClassSpecs Types Prog Validation ClassValidation Driver Cloud.
Open Scope Z_scope.

(** ** The SDK *)

Definition PacketAPIKey := "apiToken".

Record DeviceCreateRequest := mkDeviceCreate {
  dc_Hostname : string; dc_UserData : string; dc_Plan : string; dc_ProjectID : string; dc_BillingCycle : string;
  dc_Facility : list string; dc_OS : string; dc_ProjectSSHKeys : list string; dc_Tags : list string }.

(** The facility is a pointer to a structure with an ID. *)
Record Device := mkDevice { de_ID : string; de_Hostname : string; de_Tags : list string; de_FacilityID : option string }.

(** The device service of a client, which is given by its token; [Delete] returns a response with a
    status code, or none, next to its error. *)
Class Packngo (W : Type) := {
  Devices_Create : string -> DeviceCreateRequest -> sdk W error Device;
  Devices_Delete : string -> string -> sdk W (option Z * error) unit;
  Devices_List : string -> string -> sdk W error (list Device);
  Devices_Get : string -> string -> sdk W error Device }.

(** ** The driver *)

Section driver.
Context {W : Type} `{!Packngo W}.
Variables (spec : PacketMachineClassSpec) (CredentialsData : strmap) (UserData MachineName : string).

(** The token of the client, if there is one. *)
Definition createSVC : option string :=
  let token := TrimSpace (mget CredentialsData PacketAPIKey) in
  if is_empty token then None else Some token.

Definition with_svc {A} (f : string -> cloud W A) : cloud W A :=
  match createSVC with None => cthrow (Errorf "nil Packet service returned") | Some svc => f svc end.

Definition encodeMachineID (facility machineID : string) : string := "packet:///" +:+ facility +:+ "/" +:+ machineID.

Definition Create : cloud W (string * string) :=
  with_svc (fun svc =>
    device ← cget id (Devices_Create svc (mkDeviceCreate MachineName UserData (pk_MachineType spec) (pk_ProjectID spec)
      (pk_BillingCycle spec) (pk_Facility spec) (pk_OS spec) (pk_SSHKeys spec) (pk_Tags spec)));
    facility ← cderef (de_FacilityID device);
    mret (encodeMachineID facility (de_ID device), de_Hostname device)).

(** The status of the response is looked at without a check that there is one. *)
Definition Delete (machineID : string) : cloud W unit :=
  with_svc (fun svc =>
    r ← ctry (Devices_Delete svc (decodeMachineID machineID));
    match r with
    | inl _ => mret tt
    | inr (resp, err) =>
        statusCode ← cderef resp;
        if bool_decide (statusCode = 404) then mret tt else cthrow err
    end).

(** [switch tag { case clusterName: ... case nodeRole: ... }] over the tags of a device. *)
Definition has_tags (clusterName nodeRole : string) (tags : list string) : bool :=
  let '(matchedCluster, matchedRole) :=
    foldl (fun '(mc, mr) tag =>
      if bool_decide (tag = clusterName) then (true, mr) else if bool_decide (tag = nodeRole) then (mc, true) else (mc, mr))
      (false, false) tags in
  matchedCluster && matchedRole.

(** The keys of the map are the bare IDs of the devices. *)
Definition GetVMs (machineID : string) : cloud W (strmap * option error) :=
  let '(clusterName, nodeRole) := cluster_and_role "kubernetes.io/cluster/" "kubernetes.io/role/" (pk_Tags spec) in
  if is_empty clusterName || is_empty nodeRole then mret (∅, None)
  else
    match createSVC with
    | None => mret (∅, Some (Errorf "nil Packet service returned"))
    | Some svc =>
        if is_empty machineID then
          r ← ctry (Devices_List svc (pk_ProjectID spec));
          mret (match r with
                | inr err => (∅, Some err)
                | inl devices =>
                    (collect (map (fun d => (de_ID d, de_Hostname d)) (filter (fun d => has_tags clusterName nodeRole (de_Tags d) = true) devices)), None)
                end)
        else
          let machineID := decodeMachineID machineID in
          r ← ctry (Devices_Get svc machineID);
          mret (match r with
                | inr err => (∅, Some err)
                | inl device => ({[ machineID := de_Hostname device ]}, None)
                end)
    end.

Definition GetVolNames (specs : list PersistentVolumeSpec) : list string * option error :=
  ([], Some (Errorf "Not implemented yet")).

Definition packet_driver : CloudDriver W := mkCloudDriver W Create Delete GetVMs GetVolNames.
End driver.

(** ** What is assumed of Packet *)

(** Devices by ID, of which no ID has a slash.  A new device has a new ID and what was asked for; a list
    is the list of all devices of the project. *)
Class PacketLaws (W : Type) `{!Packngo W} (view : W -> gmap string Device) : Prop := {
  ids_plain w id d : view w !! id = Some d -> id <> EmptyString /\ has_byte "/" id = false /\ de_ID d = id;
  create_law svc r w w' d : Devices_Create svc r w = (w', inl d) ->
    view w !! de_ID d = None /\ view w' = <[de_ID d := d]> (view w) /\ de_Hostname d = dc_Hostname r /\ de_Tags d = dc_Tags r;
  list_law svc p w w' ds : Devices_List svc p w = (w', inl ds) ->
    view w' = view w /\ forall d, d ∈ ds <-> view w !! de_ID d = Some d;
  get_law svc id w w' d : Devices_Get svc id w = (w', inl d) -> view w' = view w /\ view w !! id = Some d }.

Lemma has_tags_spec c r l : c <> r -> has_tags c r l = true <-> c ∈ l /\ r ∈ l.
Proof.
  intros Hne. unfold has_tags.
  assert (H : foldl (fun '(mc, mr) tag => if bool_decide (tag = c) then (true, mr) else if bool_decide (tag = r) then (mc, true) else (mc, mr))
      (false, false) l = (bool_decide (c ∈ l), bool_decide (r ∈ l))).
  { induction l as [|x l IH] using rev_ind; [done|]. rewrite foldl_app, IH. simpl.
    assert (forall y, bool_decide (y ∈ l ++ [x]) = bool_decide (y ∈ l) || bool_decide (x = y)) as Ha
      by (intros y; repeat case_bool_decide; set_solver).
    rewrite !Ha. repeat case_bool_decide; naive_solver. }
  rewrite H, andb_true_iff, !bool_decide_eq_true. done.
Qed.

Section laws.
Context {W : Type} `{!Packngo W} (view : W -> gmap string Device) `{!PacketLaws W view}.
Variables (spec : PacketMachineClassSpec) (CredentialsData : strmap) (UserData MachineName : string).

(** The VM that was created is listed, but not under the ID that [Create] returned; asked for by that ID
    or by the bare one the driver answers with the bare one. *)
Lemma Create_untracked w w' id node : packet_valid spec ->
  Create spec CredentialsData UserData MachineName w = (w', Return (id, node)) ->
  exists rid, rid <> id /\ decodeMachineID id = rid /\ decodeMachineID rid = rid /\
    (forall w'' vms, GetVMs spec CredentialsData EmptyString w' = (w'', Return (vms, None)) ->
      vms !! id = None /\ vms !! rid = Some MachineName) /\
    (forall w'' vms, GetVMs spec CredentialsData rid w' = (w'', Return (vms, None)) -> vms = {[ rid := MachineName ]}).
Proof.
  intros Hv. unfold Create, with_svc, GetVMs. destruct (createSVC CredentialsData) as [svc|]; [|done].
  intros (w1 & d & E%cget_return & He)%cbind_return. apply create_law in E as (Hnone & Hview & Hhost & Htags). cbn in Hhost, Htags.
  apply cbind_return in He as (w2 & fac & [<- _]%cderef_return & He). apply cret_return in He as [<- Hid].
  apply pair_equal_spec in Hid as [<- _].
  assert (Hd : view w1 !! de_ID d = Some d) by (by rewrite Hview, lookup_insert_eq).
  destruct (ids_plain w1 _ _ Hd) as (Hne & Hpl & _). set (id := encodeMachineID fac (de_ID d)).
  assert (Hslash : has_byte "/" id = true) by done.
  assert (Hdec : decodeMachineID id = de_ID d).
  { unfold id, encodeMachineID, decodeMachineID.
    change ("packet:///" +:+ fac +:+ "/" +:+ de_ID d) with ("packet://" +:+ String "/" (fac +:+ String "/" (de_ID d))).
    by rewrite !last_part_app, last_part_plain. }
  exists (de_ID d). split; [congruence|]. split; [done|]. split; [by apply last_part_plain|].
  destruct Hv as (_ & _ & _ & _ & Ht). apply tagged_found in Ht as (c & r & -> & Hc0 & Hr0 & Hc & Hcc & Hr & _ & Hrc); [|done..].
  unfold is_empty. rewrite (bool_decide_false (c = _)), (bool_decide_false (r = _)), (bool_decide_false (de_ID d = _)) by done. cbn [orb].
  rewrite (bool_decide_true (EmptyString = EmptyString)) by done.
  split; intros w'' vms (w2 & x & E%ctry_return & He)%cbind_return; apply cret_return in He as [-> He]; destruct x as [ds|err]; try done;
    apply pair_equal_spec in He as [<- _].
  - apply list_law in E as [_ Hl]. split.
    + apply eq_None_not_Some. intros [name (d' & Hd' & [_ Hin]%list_elem_of_filter)%collect_elem%list_elem_of_fmap].
      apply Hl, ids_plain in Hin as (_ & Hp & _). apply pair_equal_spec in Hd' as [Hd' _]. congruence.
    + apply collect_lookup.
      * apply list_elem_of_fmap. exists d. split; [by rewrite Hhost|]. apply list_elem_of_filter. split; [|by apply Hl].
        apply has_tags_spec; [congruence|by rewrite Htags].
      * intros name (d' & Hd' & [_ Hin]%list_elem_of_filter)%list_elem_of_fmap. apply pair_equal_spec in Hd' as [Hid' ->].
        apply Hl in Hin. rewrite <- Hid', Hd in Hin. injection Hin as <-. by rewrite Hhost.
  - apply get_law in E as [_ Hg]. rewrite (last_part_plain "/" (de_ID d) Hpl : decodeMachineID (de_ID d) = de_ID d) in *.
    rewrite Hd in Hg. injection Hg as <-. by rewrite Hhost.
Qed.
End laws.

(** ** A simulated Packet, for which the laws hold *)

Definition packet_view (w : gmap string Device) : gmap string Device := filter (fun kv => plain_id kv.1 /\ de_ID kv.2 = kv.1) w.

#[export] Instance simulated_packet : Packngo (gmap string Device) := {|
  Devices_Create _ r w :=
    let id := fresh_id w in
    let d := mkDevice id (dc_Hostname r) (dc_Tags r) (head (dc_Facility r)) in
    (<[id := d]> w, inl d);
  Devices_Delete _ id w := match w !! id with Some _ => (delete id w, inl tt) | None => (w, inr (Some 404, Errorf "Not found")) end;
  Devices_List _ _ w := (w, inl (map_to_list (packet_view w)).*2);
  Devices_Get _ id w := (w, match packet_view w !! id with Some d => inl d | None => inr (Errorf "Not found") end) |}.

#[export] Instance simulated_packet_laws : PacketLaws (gmap string Device) packet_view.
Proof.
  assert (Hp : forall w id d, packet_view w !! id = Some d -> id <> EmptyString /\ has_byte "/" id = false /\ de_ID d = id).
  { intros w id d Hd. apply map_lookup_filter_Some in Hd as [_ [[? ?] ?]]. done. }
  split; [exact Hp| | |].
  - intros svc r w w' d [= <- <-]. cbn [de_ID de_Hostname de_Tags]. split.
    + apply map_lookup_filter_None. left. apply fresh_id_fresh.
    + unfold packet_view. rewrite map_filter_insert_True; [done|]. split; [apply fresh_id_plain|done].
  - intros svc p w w' ds [= <- <-]. split; [done|]. intros d. rewrite list_elem_of_fmap. split.
    + intros ([id d'] & -> & Hin%elem_of_map_to_list). cbn [snd]. by destruct (Hp _ _ _ Hin) as (_ & _ & ->).
    + intros Hd. exists (de_ID d, d). split; [done|]. by apply elem_of_map_to_list.
  - intros svc id w w' d. cbn [Devices_Get simulated_packet]. destruct (packet_view w !! id) eqn:E; [|done]. by intros [= <- <-].
Qed.
