(* ===== verification/CloudAlicloud.v ===== *)
(** * The driver for Alicloud (pkg/driver/driver_alicloud.go) *)
From Stdlib Require Import ZArith Lia Ascii String.
From stdpp Require Import base gmap strings list.
From S2P Require Import Prelude GoLib Regexp ClassSpecs Types Prog Validation ClassValidation Driver Cloud.
Open Scope Z_scope.

(** ** The SDK *)

Definition alicloudDriverName := "diskplugin.csi.alibabacloud.com".
Definition AlicloudAccessKeyID := "alicloudAccessKeyID".
Definition AlicloudAccessKeySecret := "alicloudAccessKeySecret".
Definition AlicloudAlternativeAccessKeyID := "accessKeyID".
Definition AlicloudAlternativeAccessKeySecret := "accessKeySecret".

Record RunInstancesDataDisk := mkDataDisk {
  dd_Category : string; dd_Encrypted : string; dd_DiskName : string; dd_Description : string; dd_Size : string;
  dd_DeleteWithInstance : string }.

Record RunInstancesRequest := mkRunRequest {
  rr_ImageId : string; rr_InstanceType : string; rr_RegionId : string; rr_ZoneId : string; rr_SecurityGroupId : string;
  rr_VSwitchId : string; rr_PrivateIpAddress : string; rr_InstanceChargeType : string; rr_InternetChargeType : string;
  rr_SpotStrategy : string; rr_IoOptimized : string; rr_KeyPairName : string; rr_InternetMaxBandwidthIn : option Z;
  rr_InternetMaxBandwidthOut : option Z; rr_DataDisk : option (list RunInstancesDataDisk);
  (* category and size *)
  rr_SystemDisk : option (string * string); rr_Tag : list (string * string); rr_InstanceName : string;
  rr_ClientToken : string; rr_UserData : string }.

(** A list of IDs as JSON, or tags. *)
Record DescribeInstancesRequest := mkDescribe { dr_InstanceIds : string; dr_Tag : list (string * string) }.

Record Instance := mkInstance { in_InstanceId : string; in_InstanceName : string; in_Status : string }.

(** Region, key and secret. *)
Abbreviation ecs_client := (string * string * string)%type.

Class ECS (W : Type) := {
  NewClientWithAccessKey : ecs_client -> sdk W error unit;
  GetUUIDV4 : sdk W error string;
  RunInstances : ecs_client -> RunInstancesRequest -> sdk W error (list string);
  DeleteInstance : ecs_client -> string -> bool -> sdk W error unit;
  DescribeInstances : ecs_client -> DescribeInstancesRequest -> sdk W error (list Instance) }.

(** ** The driver *)

Definition FormatBool (b : bool) : string := if b then "true" else "false".

(** [strings.Replace(s, "-", "Z", 1)]. *)
Fixpoint replace_dash (s : string) : string :=
  match s with
  | EmptyString => EmptyString
  | String c s' => if bool_decide (c = "-"%char) then String "Z" s' else String c (replace_dash s')
  end.

Section driver.
Context {W : Type} `{!ECS W}.
Variable base64 : string -> string.
Variable range : strmap -> list (string * string).
Variables (spec : AlicloudMachineClassSpec) (CredentialsData : strmap) (UserData MachineName : string).

Definition tags_of : strmap := default ∅ (ali_Tags spec).

Definition getEcsClient : cloud W ecs_client :=
  let accessKeyID := ExtractCredentialsFromData CredentialsData [AlicloudAccessKeyID; AlicloudAlternativeAccessKeyID] in
  let accessKeySecret := ExtractCredentialsFromData CredentialsData [AlicloudAccessKeySecret; AlicloudAlternativeAccessKeySecret] in
  let region := ali_Region spec in
  if negb (is_empty accessKeyID) && negb (is_empty accessKeySecret) && negb (is_empty region) then
    _ ← cget id (NewClientWithAccessKey (region, accessKeyID, accessKeySecret));
    mret (region, accessKeyID, accessKeySecret)
  else cthrow (Errorf "alicloudAccessKeyID or alicloudAccessKeySecret can't be empty").

Definition encodeMachineID (region machineID : string) : string := region +:+ "." +:+ machineID.
Definition decodeMachineID (id : string) : string := last_part "." id.

(** The name of the node follows from the ID of the instance. *)
Definition idToName (instanceID : string) : string := replace_dash instanceID +:+ "Z".

Definition data_disk_request (disk : AlicloudDataDisk) : RunInstancesDataDisk :=
  mkDataDisk (adk_Category disk) (FormatBool (adk_Encrypted disk)) (MachineName +:+ "-" +:+ adk_Name disk +:+ "-data-disk")
    (adk_Description disk) (FormatInt (adk_Size disk))
    (if bool_decide (adk_Category disk = "DiskEphemeralSSD") then EmptyString
     else FormatBool (default true (adk_DeleteWithInstance disk))).

Definition generateDataDiskRequests (disks : list AlicloudDataDisk) : list RunInstancesDataDisk := map data_disk_request disks.

(** The first two places are for the cluster and the role; a later tag of the same sort takes the place
    of an earlier one. *)
Definition toInstanceTags (tags : strmap) : result (list (string * string)) :=
  let '(cluster, role, others) :=
    foldl (fun '(cluster, role, others) kv =>
      if contains kv.1 "kubernetes.io/cluster/" then (Some kv, role, others)
      else if contains kv.1 "kubernetes.io/role/" then (cluster, Some kv, others)
      else (cluster, role, others ++ [kv])) (None, None, []) (range tags) in
  match cluster, role with
  | Some cluster, Some role => Ok (cluster :: role :: others)
  | _, _ => Err (Errorf "Tags should at least contains 2 keys, which are prefixed with kubernetes.io/cluster and kubernetes.io/role")
  end.

Definition Create : cloud W (string * string) :=
  client ← getEcsClient;
  match toInstanceTags tags_of with
  | Err err => cthrow err
  | Ok tags =>
      token ← cget id GetUUIDV4;
      instances ← cget id (RunInstances client (mkRunRequest (ali_ImageID spec) (ali_InstanceType spec) (ali_Region spec)
        (ali_ZoneID spec) (ali_SecurityGroupID spec) (ali_VSwitchID spec) (ali_PrivateIPAddress spec)
        (ali_InstanceChargeType spec) (ali_InternetChargeType spec) (ali_SpotStrategy spec) (ali_IoOptimized spec)
        (ali_KeyPairName spec) (ali_InternetMaxBandwidthIn spec) (ali_InternetMaxBandwidthOut spec)
        (match ali_DataDisks spec with [] => None | disks => Some (generateDataDiskRequests disks) end)
        (match ali_SystemDisk spec with Some disk => Some (asd_Category disk, FormatInt (asd_Size disk)) | None => None end)
        tags MachineName token (base64 UserData)));
      instanceID ← cderef (head instances);
      mret (encodeMachineID (ali_Region spec) instanceID, ToLower (idToName instanceID))
  end.

(** The last tag of each sort with its value. *)
Definition search_tags (tags : list (string * string)) : option (string * string) * option (string * string) :=
  foldl (fun '(cluster, role) kv =>
    if contains kv.1 "kubernetes.io/cluster/" then (Some kv, role)
    else if contains kv.1 "kubernetes.io/role/" then (cluster, Some kv) else (cluster, role)) (None, None) tags.

Definition getVMDetails (machineID : string) : cloud W (list Instance) :=
  client ← getEcsClient;
  request ← (if negb (is_empty machineID) then mret (mkDescribe ("[" +:+ quoted (decodeMachineID machineID) +:+ "]") [])
    else match search_tags (range tags_of) with
         | (Some cluster, Some role) => mret (mkDescribe EmptyString [cluster; role])
         | _ => cthrow (Errorf "Can't find VMs with none of machineID/Tag[kubernetes.io/cluster/*]/Tag[kubernetes.io/role/*]")
         end);
  cget id (DescribeInstances client request).

Definition GetVMs (machineID : string) : cloud W (strmap * option error) :=
  r ← cattempt (getVMDetails machineID);
  mret (match r with
        | Err err => (∅, Some err)
        | Ok instances => (collect (map (fun i => (encodeMachineID (ali_Region spec) (in_InstanceId i), in_InstanceName i)) instances), None)
        end).

Definition deleteInstance (client : ecs_client) (machineID : string) : cloud W unit := cget id (DeleteInstance client machineID true).

Definition Delete (machineID : string) : cloud W unit :=
  result ← getVMDetails machineID;
  match result with
  | [] => mret tt
  | first :: _ =>
      if negb (bool_decide (in_Status first = "Running")) && negb (bool_decide (in_Status first = "Stopped")) then
        cthrow (Errorf "ec2 instance not in running/stopped state")
      else
        client ← getEcsClient;
        deleteInstance client (decodeMachineID machineID)
  end.

Definition vol_name (v : PersistentVolumeSpec) : list string :=
  match pv_FlexVolume v with
  | Some (Some options) => match options !! "volumeId" with Some name => [name] | None => [] end
  | _ => csi_name alicloudDriverName v
  end.
Definition GetVolNames (specs : list PersistentVolumeSpec) : list string * option error := (concat (map vol_name specs), None).

Definition alicloud_driver : CloudDriver W := mkCloudDriver W Create Delete GetVMs GetVolNames.
End driver.

(** ** What is assumed of Alicloud *)

Record ECSVM := mkECSVM { ev_name : string; ev_status : string; ev_tags : list (string * string) }.

Definition ecs_matches (tags : list (string * string)) (vm : ECSVM) : Prop := Forall (fun kv => kv ∈ ev_tags vm) tags.
Definition matching (v : gmap string ECSVM) (tags : list (string * string)) : list (string * ECSVM) :=
  filter (fun kv => ecs_matches tags kv.2) (map_to_list v).

(** What is documented as the default size of a page; the driver asks for one page. *)
Definition PageSize : nat := 10.

(** Instances by ID, of which no ID has a dot. *)
Class ECSLaws (W : Type) `{!ECS W} (view : W -> gmap string ECSVM) : Prop := {
  ids_plain w id : is_Some (view w !! id) -> has_byte "." id = false;
  run_law c r w w' ids : RunInstances c r w = (w', inl ids) -> exists id, ids = [id] /\ view w !! id = None /\
    view w' = <[id := mkECSVM (rr_InstanceName r) "Pending" (rr_Tag r)]> (view w);
  describe_law c tags w w' insts : DescribeInstances c (mkDescribe EmptyString tags) w = (w', inl insts) ->
    Forall (fun i => exists vm, view w !! in_InstanceId i = Some vm /\ in_InstanceName i = ev_name vm) insts /\
    ((length (matching (view w) tags) <= PageSize)%nat ->
     forall id vm, view w !! id = Some vm -> ecs_matches tags vm -> id ∈ (in_InstanceId <$> insts));
  client_law c w : view (NewClientWithAccessKey c w).1 = view w }.

Section tags.
Variable range : strmap -> list (string * string).

Lemma search_tags_spec l : let '(c, r) := search_tags l in
  match c with
  | Some kv => kv ∈ l /\ contains kv.1 "kubernetes.io/cluster/" = true
  | None => forall kv, kv ∈ l -> contains kv.1 "kubernetes.io/cluster/" = false
  end /\
  match r with
  | Some kv => kv ∈ l /\ contains kv.1 "kubernetes.io/cluster/" = false /\ contains kv.1 "kubernetes.io/role/" = true
  | None => forall kv, kv ∈ l -> contains kv.1 "kubernetes.io/cluster/" = false -> contains kv.1 "kubernetes.io/role/" = false
  end.
Proof.
  unfold search_tags. induction l as [|kv l IH] using rev_ind.
  { split; [|intros kv H _; by apply elem_of_nil in H]. intros kv H. by apply elem_of_nil in H. }
  rewrite foldl_app. destruct (foldl _ _ l) as [c r]. destruct IH as [I1 I2]. cbn [foldl].
  destruct (contains kv.1 "kubernetes.io/cluster/") eqn:E1; [|destruct (contains kv.1 "kubernetes.io/role/") eqn:E2];
    destruct c as [c|], r as [r|]; repeat split; rewrite ?elem_of_app, ?list_elem_of_singleton; try tauto;
    intros k; rewrite elem_of_app, list_elem_of_singleton; intros [Hk| ->]; try congruence; auto.
Qed.

Lemma toInstanceTags_search tags : match toInstanceTags range tags with
  | Ok l => exists c r others, search_tags (range tags) = (Some c, Some r) /\ l = c :: r :: others
  | Err _ => True
  end.
Proof.
  unfold toInstanceTags, search_tags.
  assert (H : forall l, exists others, foldl (fun '(cluster, role, others) (kv : string * string) =>
      if contains kv.1 "kubernetes.io/cluster/" then (Some kv, role, others)
      else if contains kv.1 "kubernetes.io/role/" then (cluster, Some kv, others)
      else (cluster, role, others ++ [kv])) (None, None, []) l =
    (foldl (fun '(cluster, role) (kv : string * string) => if contains kv.1 "kubernetes.io/cluster/" then (Some kv, role)
      else if contains kv.1 "kubernetes.io/role/" then (cluster, Some kv) else (cluster, role)) (None, None) l, others)).
  { induction l as [|kv l [o IH]] using rev_ind; [by exists []|]. rewrite !foldl_app, IH. clear IH.
    match goal with |- context [foldl ?f (None, None) l] => destruct (foldl f (None, None) l) as [c r] end. cbn [foldl].
    destruct (contains kv.1 "kubernetes.io/cluster/"); [by exists o|].
    destruct (contains kv.1 "kubernetes.io/role/"); [by exists o|by exists (o ++ [kv])]. }
  destruct (H (range tags)) as [others ->]. destruct (foldl _ _ (range tags)) as [[c|] [r|]]; try done. by exists c, r, others.
Qed.
End tags.

(** The class has one tag of each sort. *)
Definition one_of_each (tags : strmap) (cluster role : string * string) : Prop :=
  forall kv, kv ∈ map_to_list tags ->
    (contains kv.1 "kubernetes.io/cluster/" = true -> kv = cluster) /\
    (contains kv.1 "kubernetes.io/cluster/" = false -> contains kv.1 "kubernetes.io/role/" = true -> kv = role).

Section laws.
Context {W : Type} `{!ECS W} (view : W -> gmap string ECSVM) `{!ECSLaws W view}.
Variable base64 : string -> string.
Variables range range' : strmap -> list (string * string).
Hypothesis range_ok : forall m, range m ≡ₚ map_to_list m.
Hypothesis range'_ok : forall m, range' m ≡ₚ map_to_list m.
Variables (spec : AlicloudMachineClassSpec) (CredentialsData CredentialsData' : strmap) (UserData UserData' MachineName name' : string).

Lemma search_unique rng cl ro : (forall m, rng m ≡ₚ map_to_list m) -> one_of_each (tags_of spec) cl ro ->
  match search_tags (rng (tags_of spec)) with
  | (Some c, Some r) => c = cl /\ r = ro
  | _ => True
  end.
Proof.
  intros Hr Hu. pose proof (search_tags_spec (rng (tags_of spec))) as Hs. destruct (search_tags _) as [[c|] [r|]]; try done.
  destruct Hs as [[H1 H2] (H3 & H4 & H5)]. rewrite (Hr _) in H1, H3. split; [by apply (Hu c H1)|by apply (Hu r H3)].
Qed.

Lemma getEcsClient_view creds w w' c : getEcsClient spec creds w = (w', Return c) -> view w' = view w.
Proof.
  unfold getEcsClient. destruct (_ && _ && _); [|done]. intros (w1 & [] & E%cget_return & [-> _]%cret_return)%cbind_return.
  match type of E with NewClientWithAccessKey ?cfg _ = _ => pose proof (client_law (view := view) cfg w) as Hs end. by rewrite E in Hs.
Qed.

(** The driver keeps track of its VMs if the class has one tag of each sort and while the VMs with these
    tags fit into one page of the answer. *)
#[export] Instance alicloud_tracks cl ro (Hv : alicloud_valid spec) (Hu : one_of_each (tags_of spec) cl ro) :
  TracksVMs (alicloud_driver base64 range spec CredentialsData UserData MachineName)
    (alicloud_driver base64 range' spec CredentialsData' UserData' name') MachineName
    (fun w => (length (matching (view w) [cl; ro]) <= PageSize)%nat).
Proof.
  constructor. intros w w' id node (w1 & client & _ & He)%cbind_return.
  pose proof (toInstanceTags_search range (tags_of spec)) as Ht. destruct (toInstanceTags _ _) as [tags|]; [|done].
  destruct Ht as (c & r & others & Hs & ->). pose proof (search_unique range cl ro range_ok Hu) as Hu1. rewrite Hs in Hu1. destruct Hu1 as [-> ->].
  apply cbind_return in He as (w2 & token & _ & He). apply cbind_return in He as (w3 & ids & E%cget_return & He).
  apply run_law in E as (iid & -> & _ & Hview). cbn [rr_Tag rr_InstanceName] in Hview.
  apply cbind_return in He as (w4 & i & [<- [= <-]]%cderef_return & [<- Hid]%cret_return). apply pair_equal_spec in Hid as [<- _].
  split; [unfold encodeMachineID; intros Hn; by destruct (ali_Region spec)|].
  intros w'' vms Hroom (w5 & x & E1 & [-> Hx]%cret_return)%cbind_return. unfold cattempt in E1.
  destruct (getVMDetails range' spec CredentialsData' EmptyString w3) as [w6 o] eqn:Eg. destruct o as [insts|err| |]; try done.
  2: { injection E1 as -> <-. done. }
  injection E1 as -> <-. apply pair_equal_spec in Hx as [<- _].
  apply cbind_return in Eg as (w7 & client' & Hc%getEcsClient_view & Eg). apply cbind_return in Eg as (w8 & req & E2 & E3%cget_return).
  change (negb (is_empty EmptyString)) with false in E2. pose proof (search_unique range' cl ro range'_ok Hu) as Hu2.
  destruct (search_tags (range' _)) as [[c'|] [r'|]]; try done. destruct Hu2 as [-> ->]. apply cret_return in E2 as [-> <-].
  apply describe_law in E3 as [HF Hall]. rewrite Hc in HF, Hall. rewrite Hview in Hroom, HF, Hall.
  rewrite Forall_forall in HF. split.
  2: { apply collect_none. intros v (i & Hi & _)%list_elem_of_fmap. apply pair_equal_spec in Hi as [Hi _].
       unfold encodeMachineID in Hi. by destruct (ali_Region spec). }
  apply collect_lookup.
  - specialize (Hall Hroom iid _ (lookup_insert_eq _ _ _)). assert (Hin : iid ∈ in_InstanceId <$> insts) by (apply Hall; by repeat constructor).
    apply list_elem_of_fmap in Hin as (i & -> & Hi). apply list_elem_of_fmap. exists i. split; [|done]. destruct (HF i Hi) as (vm & Hvm & Hn). rewrite lookup_insert_eq in Hvm.
    injection Hvm as <-. by rewrite Hn.
  - intros name (i & Hi & Hin)%list_elem_of_fmap. apply pair_equal_spec in Hi as [Hid ->].
    destruct (HF i Hin) as (vm & Hvm & ->). apply (f_equal decodeMachineID) in Hid. unfold decodeMachineID, encodeMachineID in Hid.
    change ("." +:+ iid) with (String "." iid) in Hid. change ("." +:+ in_InstanceId i) with (String "." (in_InstanceId i)) in Hid.
    rewrite !decode_encode in Hid.
    + rewrite Hid, lookup_insert_eq in Hvm. by injection Hvm as <-.
    + apply (ids_plain w3). rewrite Hview. eauto.
    + apply (ids_plain w3). rewrite Hview. rewrite lookup_insert_eq. eauto.
Qed.
End laws.

(** ** A simulated Alicloud, for which the laws hold *)

Definition plain_key (kv : string * ECSVM) : Prop := has_byte "." kv.1 = false.
Definition ecs_view (w : gmap string ECSVM) : gmap string ECSVM := filter plain_key w.
Definition ecs_instance (kv : string * ECSVM) : Instance := mkInstance kv.1 (ev_name kv.2) (ev_status kv.2).

#[export] Instance ecs_matches_dec tags vm : Decision (ecs_matches tags vm).
Proof. unfold ecs_matches. apply _. Defined.

#[export] Instance simulated_ecs : ECS (gmap string ECSVM) := {|
  NewClientWithAccessKey _ w := (w, inl tt);
  GetUUIDV4 w := (w, inl "token");
  RunInstances _ r w :=
    let id := fresh_id w in (<[id := mkECSVM (rr_InstanceName r) "Pending" (rr_Tag r)]> w, inl [id]);
  DeleteInstance _ id _ w := (delete id w, inl tt);
  DescribeInstances _ r w :=
    (w, inl (map ecs_instance (take PageSize (filter (fun kv => ecs_matches (dr_Tag r) kv.2 /\
      (dr_InstanceIds r = EmptyString \/ dr_InstanceIds r = "[" +:+ quoted kv.1 +:+ "]")) (map_to_list (ecs_view w)))))) |}.

Lemma unary_no_dot n : has_byte "." (unary n) = false.
Proof. by induction n. Qed.

Lemma elem_of_list_take_in {A} n (l : list A) x : x ∈ take n l -> x ∈ l.
Proof. rewrite <- (take_drop n l) at 2. intros H. apply elem_of_app. by left. Qed.

#[export] Instance simulated_ecs_laws : ECSLaws (gmap string ECSVM) ecs_view.
Proof.
  split.
  - intros w id [vm Hvm]. by apply map_lookup_filter_Some in Hvm as [_ ?].
  - intros c r w w' ids [= <- <-]. exists (fresh_id w). split; [done|]. split.
    + apply map_lookup_filter_None. left. apply fresh_id_fresh.
    + unfold ecs_view. rewrite map_filter_insert_True; [done|]. apply unary_no_dot.
  - intros c tags w w' insts [= <- <-]. cbn [dr_Tag dr_InstanceIds].
    set (l := filter _ (map_to_list (ecs_view w))).
    assert (Hl : forall kv, kv ∈ l <-> ecs_matches tags kv.2 /\ ecs_view w !! kv.1 = Some kv.2).
    { intros [k v]. unfold l. rewrite list_elem_of_filter, elem_of_map_to_list. cbn [fst snd]. tauto. }
    split.
    + apply Forall_forall. intros i (kv & -> & Hin)%list_elem_of_fmap. apply (elem_of_list_take_in PageSize) in Hin.
      apply Hl in Hin as [_ Hv]. by exists kv.2.
    + intros Hle id vm Hv Hm. assert (Heq : length l = length (matching (ecs_view w) tags)).
      { unfold l, matching. f_equal. apply list_filter_iff. intros kv. tauto. }
      rewrite take_ge by lia. rewrite <- list_fmap_compose. apply list_elem_of_fmap. exists (id, vm). split; [done|]. by apply Hl.
  - done.
Qed.

(** Of eleven VMs of a class the driver lists ten, so that one of them cannot be told from a VM that
    does not exist. *)
Definition eleven : gmap string ECSVM :=
  list_to_map (map (fun n => (unary n, mkECSVM (unary n) "Running" [("kubernetes.io/cluster/shoot", "1"); ("kubernetes.io/role/node", "1")])) (seq 1 11)).
Definition small_alicloud : AlicloudMachineClassSpec :=
  mkAlicloudSpec "image" "ecs.small" "eu" "eu-a" "sg" "vs" "" None [] "" "" None None "" ""
    (Some {[ "kubernetes.io/cluster/shoot" := "1"; "kubernetes.io/role/node" := "1" ]}) "key".

Example eleventh_vm_not_listed :
  match (GetVMs map_to_list small_alicloud {[ "accessKeyID" := "k"; "accessKeySecret" := "s" ]} EmptyString eleven).2 with
  | Return (vms, None) => size eleven = 11%nat /\ size vms = 10%nat
  | _ => False
  end.
Proof. vm_compute. split; reflexivity. Qed.
