(* ===== verification/CloudGCP.v ===== *)
(** * The driver for GCP (pkg/driver/driver_gcp.go) *)
From Stdlib Require Import ZArith Lia Ascii String.
From stdpp Require Import base gmap strings list.
From S2P Require Import Prelude GoLib Regexp ClassSpecs Types Prog Validation ClassValidation Driver Cloud.
Open Scope Z_scope.

(** ** The SDK *)

Definition gcePDDriverName := "pd.csi.storage.gke.io".
Definition GCPServiceAccountJSON := "serviceAccountJSON".
Definition GCPAlternativeServiceAccountJSON := "serviceaccount.json".

Record AttachedDisk := mkAttachedDisk {
  at_AutoDelete : bool; at_Boot : bool; at_Type : string; at_Interface : string; at_DiskType : string; at_DiskSizeGb : Z;
  at_Labels : strmap; at_SourceImage : string }.

(** The network, the subnetwork, and whether there is an access configuration. *)
Record NetworkInterface := mkGCPNic { nic_Network : string; nic_Subnetwork : string; nic_AccessConfig : bool }.

Record Instance := mkInstance {
  in_CanIpForward : bool; in_DeletionProtection : bool; in_Description : string; in_Labels : strmap; in_MachineType : string;
  in_Name : string; in_Scheduling : GCPScheduling; in_Tags : list string; in_Disks : list AttachedDisk;
  in_Metadata : list (string * option string); in_NetworkInterfaces : list NetworkInterface;
  in_ServiceAccounts : list GCPServiceAccount }.

(** An instance of a list; the tags are a pointer. *)
Record Server := mkServer { sv_Name : string; sv_Tags : option (list string) }.

(** The code of an error of the API, or another error. *)
Inductive gcp_error := GoogleapiError (code : Z) (msg : string) | OtherGCPError (msg : string).
Definition gcp_err (e : gcp_error) : error := Errorf (match e with GoogleapiError _ msg | OtherGCPError msg => msg end).

(** The compute service made from the JSON of a service account.  A list comes page by page and may break
    off with an error; an operation has a status and the errors it ended with. *)
Class Compute (W : Type) := {
  NewService : string -> sdk W error unit;
  Instances_Insert : string -> string -> Instance -> sdk W error string;
  Instances_Delete : string -> string -> string -> sdk W gcp_error string;
  Instances_List : string -> string -> W -> W * (list (list Server) * option error);
  ZoneOperations_Get : string -> string -> string -> sdk W error (string * option (list string)) }.

(** [strings.Split(s, sep)] for a separator of several bytes; [skip] bytes belong to a separator. *)
Fixpoint split_on (sep : string) (skip : nat) (s : string) : list string :=
  match s with
  | EmptyString => [EmptyString]
  | String c s' =>
      match skip with
      | S skip => split_on sep skip s'
      | O =>
          if has_prefix sep s then EmptyString :: split_on sep (pred (String.length sep)) s'
          else match split_on sep O s' with [] => [String c EmptyString] | h :: t => String c h :: t end
      end
  end.

(** ** The driver *)

(** [poll_rounds] checks fit into the five minutes of a wait. *)
Section driver.
Context {W : Type} `{!Compute W}.
Variable poll_rounds : nat.
(** The [project_id] of a JSON text. *)
Variable json_project : string -> result string.
Variables (spec : GCPMachineClassSpec) (CredentialsData : strmap) (UserData MachineName : string).

Definition serviceAccountJSON : string := ExtractCredentialsFromData CredentialsData [GCPServiceAccountJSON; GCPAlternativeServiceAccountJSON].
Definition createComputeService : cloud W unit := cget id (NewService serviceAccountJSON).
Definition extractProject : result string := json_project serviceAccountJSON.

Definition encodeMachineID (project zone name : string) : string := "gce:///" +:+ project +:+ "/" +:+ zone +:+ "/" +:+ name.

Definition decodeMachineID (id : string) : result (string * string * string) :=
  match split_on "gce:///" 0 id with
  | [_; rest] =>
      match split "/" rest with
      | [project; zone; name] => Ok (project, zone, name)
      | _ => Err (Errorf ("Invalid format of machine id: " +:+ id))
      end
  | _ => Err (Errorf ("Invalid format of machine id: " +:+ id))
  end.

Definition getUserData : string * option string :=
  (if has_prefix "#cloud-config" UserData then "user-data" else "startup-script", Some UserData).

Definition attached_disk (disk : GCPDisk) : AttachedDisk :=
  let zone := gcp_Zone spec in
  let autoDelete := default true (gd_AutoDelete disk) in
  if bool_decide (gd_Type disk = "SCRATCH") then
    mkAttachedDisk autoDelete false (gd_Type disk) (gd_Interface disk) ("zones/" +:+ zone +:+ "/diskTypes/local-ssd") 0 ∅ EmptyString
  else
    mkAttachedDisk autoDelete (gd_Boot disk) EmptyString EmptyString ("zones/" +:+ zone +:+ "/diskTypes/" +:+ gd_Type disk)
      (gd_SizeGb disk) (gd_Labels disk) (gd_Image disk).

Definition network_interface (project : string) (nic : GCPNetworkInterface) : NetworkInterface :=
  mkGCPNic
    (if is_empty (gn_Network nic) then EmptyString else "projects/" +:+ project +:+ "/global/networks/" +:+ gn_Network nic)
    (if is_empty (gn_Subnetwork nic) then EmptyString else "regions/" +:+ gcp_Region spec +:+ "/subnetworks/" +:+ gn_Subnetwork nic)
    (negb (gn_DisableExternalIP nic)).

(** A missing element of one of the lists is dereferenced. *)
Definition cmap {A B} (f : A -> B) (l : list (option A)) : cloud W (list B) :=
  cfold l [] (fun acc o => x ← cderef o; mret (acc ++ [f x])).

Definition waitUntilOperationCompleted (project zone operationName : string) : cloud W unit :=
  cpoll poll_rounds "timed out waiting for the condition" (
    op ← cget id (ZoneOperations_Get project zone operationName);
    if bool_decide (op.1 = "DONE") then
      match op.2 with
      | None => mret true
      | Some errs => cthrow (Errorf ("The following errors occurred: " +:+ join " " errs))
      end
    else mret false).

Definition Create : cloud W (string * string) :=
  _ ← createComputeService;
  match extractProject with
  | Err err => cthrow err
  | Ok project =>
      let zone := gcp_Zone spec in
      disks ← cmap attached_disk (gcp_Disks spec);
      metadata ← cmap (fun m => (gm_Key m, gm_Value m)) (gcp_Metadata spec);
      networkInterfaces ← cmap (network_interface project) (gcp_NetworkInterfaces spec);
      let instance := mkInstance (gcp_CanIpForward spec) (gcp_DeletionProtection spec) (default EmptyString (gcp_Description spec))
        (gcp_Labels spec) ("zones/" +:+ zone +:+ "/machineTypes/" +:+ gcp_MachineType spec) MachineName (gcp_Scheduling spec)
        (gcp_Tags spec) disks (getUserData :: metadata) networkInterfaces (gcp_ServiceAccounts spec) in
      operation ← cget id (Instances_Insert project zone instance);
      _ ← waitUntilOperationCompleted project zone operation;
      mret (encodeMachineID project zone MachineName, MachineName)
  end.

(** One page: a search for one ID ends with the page in which it is found. *)
Fixpoint list_page (project zone machineID : string) (search : string * string) (listOfVMs : strmap) (page : list Server) : cloud W strmap :=
  match page with
  | [] => mret listOfVMs
  | server :: page =>
      tags ← cderef (sv_Tags server);
      if bool_decide (cluster_and_role "kubernetes-io-cluster-" "kubernetes-io-role-" tags = search) then
        let instanceID := encodeMachineID project zone (sv_Name server) in
        if is_empty machineID then list_page project zone machineID search (<[instanceID := sv_Name server]> listOfVMs) page
        else if bool_decide (machineID = instanceID) then mret (<[instanceID := sv_Name server]> listOfVMs)
        else list_page project zone machineID search listOfVMs page
      else list_page project zone machineID search listOfVMs page
  end.

Definition GetVMs (machineID : string) : cloud W (strmap * option error) :=
  let search := cluster_and_role "kubernetes-io-cluster-" "kubernetes-io-role-" (gcp_Tags spec) in
  if is_empty search.1 || is_empty search.2 then mret (∅, None)
  else
    s ← cattempt createComputeService;
    match s, extractProject with
    | Err err, _ | Ok _, Err err => mret (∅, Some err)
    | Ok _, Ok project =>
        let zone := gcp_Zone spec in
        pages ← (fun w => let '(w, x) := Instances_List project zone w in (w, Return x));
        listOfVMs ← cfold pages.1 ∅ (list_page project zone machineID search);
        mret (listOfVMs, pages.2)
    end.

Definition Delete (machineID : string) : cloud W unit :=
  result ← GetVMs machineID;
  match result with
  | (_, Some err) => cthrow err
  | (vms, None) =>
      if bool_decide (vms = ∅) then mret tt
      else
        _ ← createComputeService;
        match decodeMachineID machineID with
        | Err err => cthrow err
        | Ok (project, zone, name) =>
            r ← ctry (Instances_Delete project zone name);
            match r with
            | inr err =>
                if match err with GoogleapiError code _ => bool_decide (code = 404) | OtherGCPError _ => false end
                then mret tt else cthrow (gcp_err err)
            | inl operation => waitUntilOperationCompleted project zone operation
            end
        end
  end.

Definition vol_name (v : PersistentVolumeSpec) : list string :=
  match pv_GCEPersistentDisk v with Some name => [name] | None => csi_name gcePDDriverName v end.
Definition GetVolNames (specs : list PersistentVolumeSpec) : list string * option error := (concat (map vol_name specs), None).

Definition gcp_driver : CloudDriver W := mkCloudDriver W Create Delete GetVMs GetVolNames.
End driver.

(** ** IDs *)

Fixpoint count_byte (c : ascii) (s : string) : nat :=
  match s with EmptyString => 0%nat | String b s' => ((if bool_decide (b = c) then 1 else 0) + count_byte c s')%nat end.

Lemma count_byte_app c a b : count_byte c (a +:+ b) = (count_byte c a + count_byte c b)%nat.
Proof. induction a as [|x a IH]; [done|]. change (String x a +:+ b) with (String x (a +:+ b)). cbn [count_byte]. rewrite IH. lia. Qed.

Lemma count_byte_prefix c p s : has_prefix p s = true -> (count_byte c p <= count_byte c s)%nat.
Proof.
  revert s. induction p as [|a p IH]; intros [|b s]; cbn [has_prefix count_byte]; [lia..|done|].
  rewrite andb_true_iff, bool_decide_eq_true. intros [-> Hp%IH]. lia.
Qed.

Lemma has_byte_count c s : has_byte c s = false <-> count_byte c s = 0%nat.
Proof.
  induction s as [|b s IH]; [done|]. cbn [has_byte count_byte]. rewrite orb_false_iff, bool_decide_eq_false, IH.
  case_bool_decide; split; intros; naive_solver lia.
Qed.

(** A text with fewer of some byte than the separator is not split. *)
Lemma split_on_none sep c s : (count_byte c s < count_byte c sep)%nat -> split_on sep 0 s = [s].
Proof.
  induction s as [|b s IH]; intros Hc; [done|]. cbn [split_on].
  destruct (has_prefix sep (String b s)) eqn:Hp; [apply (count_byte_prefix c) in Hp; lia|].
  rewrite IH; [done|]. cbn [count_byte] in Hc. lia.
Qed.

Lemma split_parts (a b c : string) : has_byte "/" a = false -> has_byte "/" b = false -> has_byte "/" c = false ->
  split "/" (a +:+ String "/" (b +:+ String "/" c)) = [a; b; c].
Proof.
  intros Ha Hb Hc. assert (Hs : forall p s, has_byte "/" p = false -> split "/" (p +:+ String "/" s) = p :: split "/" s).
  { induction p as [|x p IH]; intros s Hp; [cbn [split]|].
    - change (EmptyString +:+ String "/" s) with (String "/" s). cbn [split]. by rewrite bool_decide_true.
    - cbn [has_byte] in Hp. rewrite orb_false_iff, bool_decide_eq_false in Hp. destruct Hp as [Hx Hp].
      change (String x p +:+ String "/" s) with (String x (p +:+ String "/" s)). cbn [split]. rewrite IH by done.
      by rewrite bool_decide_false by congruence. }
  rewrite !Hs by done. by rewrite split_no_byte.
Qed.

(** C40: decoding the ID of a machine gives back project, zone and name when none of them has a slash. *)
Theorem gce_decode_encode project zone name :
  has_byte "/" project = false -> has_byte "/" zone = false -> has_byte "/" name = false ->
  decodeMachineID (encodeMachineID project zone name) = Ok (project, zone, name).
Proof.
  intros Hp Hz Hn. unfold decodeMachineID, encodeMachineID.
  set (rest := project +:+ "/" +:+ zone +:+ "/" +:+ name).
  assert (Hr : (count_byte "/" rest <= 2)%nat).
  { unfold rest. rewrite !count_byte_app. apply has_byte_count in Hp, Hz, Hn. rewrite Hp, Hz, Hn.
    assert (count_byte "/" "/" = 1%nat) as -> by done. lia. }
  assert (Hs : split_on "gce:///" 0 ("gce:///" +:+ rest) = EmptyString :: split_on "gce:///" 0 rest) by done.
  rewrite Hs, (split_on_none _ "/") by (change (count_byte "/" "gce:///") with 3%nat; lia). unfold rest.
  change (project +:+ "/" +:+ zone +:+ "/" +:+ name) with (project +:+ String "/" (zone +:+ String "/" name)).
  by rewrite split_parts.
Qed.

(** ** What is assumed of GCP *)

(** The tags of the instances by project, zone and name; a list without an error is the list of the
    instances of the zone. *)
Class ComputeLaws (W : Type) `{!Compute W} (view : W -> gmap (string * string * string) (list string)) : Prop := {
  insert_law p z i w w' op : Instances_Insert p z i w = (w', inl op) -> view w' = <[(p, z, in_Name i) := in_Tags i]> (view w);
  operation_law p z op w : view (ZoneOperations_Get p z op w).1 = view w;
  service_law json w : view (NewService json w).1 = view w;
  list_law p z w w' pages : Instances_List p z w = (w', (pages, None)) ->
    forall name tags, mkServer name (Some tags) ∈ concat pages <-> view w !! (p, z, name) = Some tags;
  list_tags p z w w' pages e : Instances_List p z w = (w', (pages, e)) -> forall s, s ∈ concat pages -> is_Some (sv_Tags s) }.

Section laws.
Context {W : Type} `{!Compute W} (view : W -> gmap (string * string * string) (list string)) `{!ComputeLaws W view}.
Variables poll_rounds poll_rounds' : nat.
Variable json_project : string -> result string.
Variables (spec : GCPMachineClassSpec) (CredentialsData CredentialsData' : strmap) (UserData UserData' MachineName name' : string).

Lemma encode_name project zone a b : encodeMachineID project zone a = encodeMachineID project zone b -> a = b.
Proof. unfold encodeMachineID. intros H. by do 5 apply app_inj_l in H. Qed.

(** A listing of everything, as one collection. *)
Definition found (search : string * string) (s : Server) : Prop :=
  cluster_and_role "kubernetes-io-cluster-" "kubernetes-io-role-" (default [] (sv_Tags s)) = search.

#[local] Instance found_dec search s : Decision (found search s).
Proof. unfold found. apply _. Defined.

Lemma gce_page_all project zone search p page (w : W) : (forall s, s ∈ page -> is_Some (sv_Tags s)) ->
  list_page project zone EmptyString search (collect p) page w =
    (w, Return (collect (p ++ map (fun s => (encodeMachineID project zone (sv_Name s), sv_Name s)) (filter (found search) page)))).
Proof.
  revert p. induction page as [|s page IH]; intros p Hs; [by rewrite app_nil_r|]. cbn [list_page].
  destruct (Hs s) as [tags Ht]; [left|]. unfold mbind, cloud_bind, cderef. rewrite Ht.
  assert (Hf : found search s <-> cluster_and_role "kubernetes-io-cluster-" "kubernetes-io-role-" tags = search) by (unfold found; by rewrite Ht).
  assert (Hs' : forall s, s ∈ page -> is_Some (sv_Tags s)) by (intros; apply Hs; by right).
  change (is_empty EmptyString) with true. cbv iota. case_bool_decide as Hc.
  - rewrite filter_cons_True by (by apply Hf). cbn [map].
    change ((encodeMachineID project zone (sv_Name s), sv_Name s) :: ?l) with ([(encodeMachineID project zone (sv_Name s), sv_Name s)] ++ l).
    rewrite app_assoc, <- IH by done. by rewrite collect_snoc.
  - rewrite filter_cons_False by (by rewrite Hf). by apply IH.
Qed.

Lemma gce_pages_all project zone search p pages (w : W) : (forall s, s ∈ concat pages -> is_Some (sv_Tags s)) ->
  cfold pages (collect p) (list_page project zone EmptyString search) w =
    (w, Return (collect (p ++ map (fun s => (encodeMachineID project zone (sv_Name s), sv_Name s)) (filter (found search) (concat pages))))).
Proof.
  revert p. induction pages as [|page pages IH]; intros p Hs; [by rewrite app_nil_r|]. cbn [cfold concat].
  unfold mbind, cloud_bind. rewrite gce_page_all by (intros; apply Hs; apply elem_of_app; by left).
  rewrite IH by (intros; apply Hs; apply elem_of_app; by right). by rewrite filter_app, map_app, app_assoc.
Qed.

Lemma same_view_NewService (w w' : W) creds : createComputeService creds w = (w', Return tt) -> view w' = view w.
Proof.
  intros E%cget_return. pose proof (service_law (view := view) (serviceAccountJSON creds) w) as Hs. by rewrite E in Hs.
Qed.

Lemma wait_view p z op (w w' : W) n : waitUntilOperationCompleted n p z op w = (w', Return tt) -> view w' = view w.
Proof.
  unfold waitUntilOperationCompleted. generalize "timed out waiting for the condition" as msg. intros msg.
  pose (R := fun w w' : W => view w' = view w). assert (HR : PreOrder R) by (split; [by intros ?|unfold R; by intros ??? -> ->]).
  intros E. assert (Hp : preserves R (cpoll n msg (op0 ← cget id (ZoneOperations_Get p z op);
    if bool_decide (op0.1 = "DONE") then match op0.2 with None => mret true
      | Some errs => cthrow (Errorf ("The following errors occurred: " +:+ join " " errs)) end else mret false))).
  { preserves_all. intros w0. apply operation_law. }
  specialize (Hp w). by rewrite E in Hp.
Qed.

(** What a successful creation leaves behind. *)
Lemma gce_created w w' id node : Create poll_rounds json_project spec CredentialsData UserData MachineName w = (w', Return (id, node)) ->
  exists project, extractProject json_project CredentialsData = Ok project /\ id = encodeMachineID project (gcp_Zone spec) MachineName /\
    view w' !! (project, gcp_Zone spec, MachineName) = Some (gcp_Tags spec).
Proof.
  intros (w1 & [] & _ & He)%cbind_return. destruct (extractProject json_project CredentialsData) as [project|]; [|done].
  exists project. split; [done|].
  apply cbind_return in He as (w2 & disks & _ & He). apply cbind_return in He as (w3 & md & _ & He).
  apply cbind_return in He as (w4 & nics & _ & He). apply cbind_return in He as (w5 & op & E%cget_return & He).
  apply insert_law in E. apply cbind_return in He as (w6 & [] & E2%wait_view & [<- Hid]%cret_return).
  apply pair_equal_spec in Hid as [<- _]. split; [done|]. rewrite E2, E. cbn [in_Name in_Tags]. apply lookup_insert_eq.
Qed.

(** The driver keeps track of its VMs when the class is valid and the credentials name the same project. *)
#[export] Instance gcp_tracks (Hv : gcp_valid spec)
    (Hp : extractProject json_project CredentialsData' = extractProject json_project CredentialsData) :
  TracksVMs (gcp_driver poll_rounds json_project spec CredentialsData UserData MachineName)
    (gcp_driver poll_rounds' json_project spec CredentialsData' UserData' name') MachineName (fun _ => True).
Proof.
  constructor. intros w w' id node (project & Hproj & -> & Hview)%gce_created. split; [done|].
  intros w'' vms _. cbn [drv_GetVMs gcp_driver]. unfold GetVMs.
  assert (Ht : tagged "kubernetes-io-cluster-" "kubernetes-io-role-" (gcp_Tags spec)) by apply Hv.
  apply tagged_found in Ht as (c & r & Hcr & Hc0 & Hr0 & _); [|done..]. rewrite Hcr. cbn [fst snd]. unfold is_empty.
  rewrite (bool_decide_false (c = _)), (bool_decide_false (r = _)) by done. cbn [orb].
  intros (w1 & s & E1 & He)%cbind_return. unfold cattempt in E1.
  destruct (createComputeService CredentialsData' w') as [w2 o] eqn:Es. destruct o as [[]|e| |]; try done; injection E1 as <- <-; [|done].
  apply same_view_NewService in Es. rewrite Hp, Hproj in He.
  apply cbind_return in He as (w3 & pages & E2 & He). destruct (Instances_List project (gcp_Zone spec) w2) as [w4 [pgs e]] eqn:El.
  injection E2 as <- <-. cbn [fst snd] in He. change (∅ : strmap) with (collect []) in He.
  apply cbind_return in He as (w5 & l & E3 & [_ Hl]%cret_return). apply pair_equal_spec in Hl as [-> ->].
  pose proof (list_tags _ _ _ _ _ _ El) as Htags. pose proof (list_law _ _ _ _ _ El) as Hlist.
  rewrite gce_pages_all in E3 by done. injection E3 as _ <-. cbn [app]. rewrite Es in Hlist. split.
  2: { apply collect_none. intros v (s & Hs & _)%list_elem_of_fmap. by apply pair_equal_spec in Hs as [Hs _]. }
  apply collect_lookup.
  - apply list_elem_of_fmap. exists (mkServer MachineName (Some (gcp_Tags spec))). split; [done|]. apply list_elem_of_filter.
    split; [by unfold found|]. by apply Hlist.
  - intros name (s & Hs & _)%list_elem_of_fmap. apply pair_equal_spec in Hs as [Hk ->]. by apply encode_name in Hk.
Qed.
End laws.

(** ** A simulated GCP, for which the laws hold *)

Definition gcp_cloud : Type := gmap (string * string * string) (list string).

#[export] Instance simulated_compute : Compute gcp_cloud := {|
  NewService _ w := (w, inl tt);
  Instances_Insert p z i w := (<[(p, z, in_Name i) := in_Tags i]> w, inl "operation");
  Instances_Delete p z n w := (delete (p, z, n) w, inl "operation");
  Instances_List p z w :=
    (w, ([map (fun kv => mkServer kv.1.2 (Some kv.2)) (filter (fun kv => kv.1.1 = (p, z)) (map_to_list w))], None));
  ZoneOperations_Get _ _ _ w := (w, inl ("DONE", None)) |}.

#[export] Instance simulated_compute_laws : ComputeLaws gcp_cloud (fun w => w).
Proof.
  split; try done.
  - intros p z i w w' op H. by injection H as <- _.
  - intros p z w w' pages H. injection H as <- <-. intros name tags. cbn [concat]. rewrite app_nil_r, list_elem_of_fmap. split.
    + intros ([[[p' z'] n] t] & Hs & [Hf Hin%elem_of_map_to_list]%list_elem_of_filter). cbn [fst snd] in *. by simplify_eq.
    + intros Hw. exists (p, z, name, tags). split; [done|]. apply list_elem_of_filter. split; [done|]. by apply elem_of_map_to_list.
  - intros p z w w' pages e H. injection H as <- <- _. intros s. cbn [concat]. rewrite app_nil_r.
    intros (kv & -> & _)%list_elem_of_fmap. by eexists.
Qed.

Lemma gce_decode_encode_witness : decodeMachineID "gce:///project/eu-west1-b/machine-abcde" = Ok ("project", "eu-west1-b", "machine-abcde").
Proof. apply (gce_decode_encode "project" "eu-west1-b" "machine-abcde"); reflexivity. Defined.
