(* ===== verification/CloudOpenStack.v ===== *)
(** * The driver for OpenStack (pkg/driver/driver_openstack.go) *)
From Stdlib Require Import ZArith Lia Ascii String.
From stdpp Require Import base gmap strings list.
From S2P Require Import Prelude GoLib Regexp ClassSpecs Types Prog Validation ClassValidation Driver Cloud.
Open Scope Z_scope.

(** ** The SDK *)

Definition cinderDriverName := "cinder.csi.openstack.org".
Definition OpenStackAuthURL := "authURL".
Definition OpenStackCACert := "caCert".
Definition OpenStackInsecure := "insecure".
Definition OpenStackDomainName := "domainName".
Definition OpenStackDomainID := "domainID".
Definition OpenStackTenantName := "tenantName".
Definition OpenStackTenantID := "tenantID".
Definition OpenStackUserDomainName := "userDomainName".
Definition OpenStackUserDomainID := "userDomainID".
Definition OpenStackUsername := "username".
Definition OpenStackPassword := "password".
Definition OpenStackClientCert := "clientCert".
Definition OpenStackClientKey := "clientKey".

Record AuthInfo := mkAuthInfo {
  au_AuthURL : string; au_Username : string; au_Password : string; au_DomainName : string; au_DomainID : string;
  au_ProjectName : string; au_ProjectID : string; au_UserDomainName : string; au_UserDomainID : string }.
Record TLSConfig := mkTLSConfig { tls_InsecureSkipVerify : bool; tls_RootCAs : option string; tls_Certificate : option (string * string) }.
Record ProviderClient := mkProvider { pr_Auth : AuthInfo; pr_TLS : TLSConfig }.
(** A client for the compute or the network service of a region. *)
Record ServiceClient := mkServiceClient { sc_Provider : ProviderClient; sc_Service : string; sc_Region : string }.

(** Errors of gophercloud by their types. *)
Inductive os_error := ErrDefault404 (msg : string) | Err404er (msg : string) | ErrResourceNotFound (msg : string) | OtherOSError (msg : string).
Definition os_err (e : os_error) : error :=
  Errorf (match e with ErrDefault404 msg | Err404er msg | ErrResourceNotFound msg | OtherOSError msg => msg end).
Definition isNotFoundError (e : os_error) : bool := match e with OtherOSError _ => false | _ => true end.

Inductive ports_error := AllPagesError (e : error) | ExtractError (e : error).

Record BlockDevice := mkBlockDevice {
  bd_UUID : string; bd_VolumeSize : Z; bd_BootIndex : Z; bd_DeleteOnTermination : bool; bd_SourceType : string; bd_DestinationType : string }.

(** A network, with a port or without. *)
Record Network := mkNetwork { nw_UUID : string; nw_Port : string }.

Record CreateOpts := mkCreateOpts {
  co_Name : string; co_FlavorName : string; co_ImageRef : string; co_Networks : list Network; co_SecurityGroups : list string;
  co_Metadata : strmap; co_UserData : string; co_AvailabilityZone : string; co_ConfigDrive : option bool; co_KeyName : string;
  co_ServerGroup : option string; co_BlockDevice : option (list BlockDevice) }.

Record PortCreateOpts := mkPortOpts {
  po_Name : string; po_NetworkID : string; po_SubnetID : string; po_AllowedAddress : string; po_SecurityGroups : list string }.

Record Port := mkPort { pt_ID : string; pt_NetworkID : string }.
Record OSServer := mkOSServer { se_ID : string; se_Name : string; se_Metadata : strmap }.

Class Gophercloud (W : Type) := {
  AuthOptions : AuthInfo -> sdk W error unit;
  NewClient : ProviderClient -> sdk W error unit;
  Authenticate : ProviderClient -> sdk W error unit;
  NewServiceClient : ServiceClient -> sdk W error unit;
  images_ListDetail : ServiceClient -> sdk W error (list (string * string));
  subnets_Get : ServiceClient -> string -> sdk W error unit;
  groups_IDFromName : ServiceClient -> string -> sdk W error string;
  networks_IDFromName : ServiceClient -> string -> sdk W error string;
  ports_Create : ServiceClient -> PortCreateOpts -> sdk W error Port;
  ports_List : ServiceClient -> string -> sdk W ports_error (list Port);
  ports_Update : ServiceClient -> string -> string -> sdk W error unit;
  ports_IDFromName : ServiceClient -> string -> sdk W os_error string;
  ports_Delete : ServiceClient -> string -> sdk W os_error unit;
  (* the second is bootfromvolume.Create; both return the ID of the server *)
  servers_Create : ServiceClient -> CreateOpts -> sdk W error string;
  bootfromvolume_Create : ServiceClient -> CreateOpts -> sdk W error string;
  (* the status and the fault *)
  servers_Get : ServiceClient -> string -> sdk W os_error (string * string);
  servers_Delete : ServiceClient -> string -> sdk W os_error unit;
  (* an error of the pager, or the pages with the error of taking each apart, and the error it broke off with *)
  servers_List : ServiceClient -> sdk W error (list (list OSServer * option error) * option error) }.

Definition strSliceContains (haystack : list string) (needle : string) : bool := bool_decide (needle ∈ haystack).

Definition resourceInstanceBlockDevicesV2 (rootDiskSize : Z) (imageID : string) : list BlockDevice :=
  [mkBlockDevice imageID rootDiskSize 0 true "image" "volume"].

(** ** The driver *)

(** [X509KeyPair] of the standard library; how many checks fit into a wait of some seconds; the order in
    which a range takes the entries of a map. *)
Section driver.
Context {W : Type} `{!Gophercloud W}.
Variable X509KeyPair : string -> string -> result unit.
Variable wait_rounds : Z -> nat.
Variable range : strmap -> list (string * string).
Variables (spec : OpenStackMachineClassSpec) (CredentialsData : strmap) (UserData MachineID MachineName : string).

Definition encodeMachineID (region machineID : string) : string := "openstack:///" +:+ region +:+ "/" +:+ machineID.

Definition credential (key : string) : string := mget CredentialsData key.
Definition given (key : string) : bool := bool_decide (is_Some (CredentialsData !! key)).
Definition missing {A} (what : string) : cloud W A := cthrow (Errorf ("missing " +:+ what +:+ " in secret")).

Definition clientCertificate : cloud W (option (string * string)) :=
  if given OpenStackClientCert then
    if given OpenStackClientKey then
      match X509KeyPair (credential OpenStackClientCert) (credential OpenStackClientKey) with
      | Err err => cthrow err
      | Ok _ => mret (Some (credential OpenStackClientCert, credential OpenStackClientKey))
      end
    else cthrow (Errorf (OpenStackClientKey +:+ " missing in secret"))
  else mret None.

Definition createOpenStackClient : cloud W ProviderClient :=
  if negb (given OpenStackAuthURL) then missing OpenStackAuthURL
  else if negb (given OpenStackUsername) then missing OpenStackUsername
  else if negb (given OpenStackPassword) then missing OpenStackPassword
  else if negb (given OpenStackDomainName) && negb (given OpenStackDomainID) then missing (OpenStackDomainName +:+ " or " +:+ OpenStackDomainID)
  else if negb (given OpenStackTenantName) && negb (given OpenStackTenantID) then missing (OpenStackTenantName +:+ " or " +:+ OpenStackTenantID)
  else
    let insecure := given OpenStackInsecure && bool_decide (TrimSpace (credential OpenStackInsecure) = "true") in
    cert ← clientCertificate;
    let config := mkTLSConfig insecure (CredentialsData !! OpenStackCACert) cert in
    let auth := mkAuthInfo (TrimSpace (credential OpenStackAuthURL)) (TrimSpace (credential OpenStackUsername))
      (TrimSpace (credential OpenStackPassword)) (TrimSpace (credential OpenStackDomainName)) (TrimSpace (credential OpenStackDomainID))
      (TrimSpace (credential OpenStackTenantName)) (TrimSpace (credential OpenStackTenantID))
      (TrimSpace (credential OpenStackUserDomainName)) (TrimSpace (credential OpenStackUserDomainID)) in
    _ ← cget (fun e => Errorf ("failed to create client auth options: " +:+ err_msg e)) (AuthOptions auth);
    let provider := mkProvider auth config in
    _ ← cget id (NewClient provider);
    _ ← cget id (Authenticate provider);
    mret provider.

Definition service_client (service : string) : cloud W ServiceClient :=
  provider ← createOpenStackClient;
  let client := mkServiceClient provider service (TrimSpace (os_Region spec)) in
  _ ← cget id (NewServiceClient client);
  mret client.
Definition createNovaClient : cloud W ServiceClient := service_client "compute".
Definition createNeutronClient : cloud W ServiceClient := service_client "network".

(** A server that is gone counts as deleted. *)
Definition check_status (c : ServiceClient) (id : string) (pending target : list string) : cloud W bool :=
  current ← ctry (servers_Get c id);
  match current with
  | inr err =>
      if match err with ErrDefault404 _ => true | _ => false end && strSliceContains target "DELETED" then mret true
      else cthrow (os_err err)
  | inl (status, fault) =>
      if strSliceContains target status then mret true
      else if bool_decide (pending = []) || strSliceContains pending status then mret false
      else
        let retErr := "unexpected status " +:+ quoted status +:+ ", wanted target " +:+ quoted (List.fold_left (fun acc s => if is_empty acc then s else acc +:+ ", " +:+ s) target EmptyString) in
        cthrow (Errorf (if bool_decide (status = "ERROR") then retErr +:+ ", fault: " +:+ fault else retErr))
  end.

Definition waitForStatus (c : ServiceClient) (id : string) (pending target : list string) (secs : Z) : cloud W unit :=
  cpoll (wait_rounds secs) "A timeout occurred" (check_status c id pending target).

Definition found_tags (metadata : strmap) : string * string :=
  cluster_and_role "kubernetes.io-cluster-" "kubernetes.io-role-" (range metadata).*1.

(** The servers of one page that are looked for; a search for one ID ends the page. *)
Fixpoint list_page (machineID : string) (search : string * string) (listOfVMs : strmap) (page : list OSServer) : strmap :=
  match page with
  | [] => listOfVMs
  | server :: page =>
      if bool_decide (found_tags (se_Metadata server) = search) then
        let instanceID := encodeMachineID (os_Region spec) (se_ID server) in
        if is_empty machineID then list_page machineID search (<[instanceID := se_Name server]> listOfVMs) page
        else if bool_decide (machineID = instanceID) then <[instanceID := se_Name server]> listOfVMs
        else list_page machineID search listOfVMs page
      else list_page machineID search listOfVMs page
  end.

(** [EachPage]: the servers of a page count even if it could not be taken apart completely. *)
Fixpoint list_pages (machineID : string) (search : string * string) (listOfVMs : strmap)
    (pages : list (list OSServer * option error)) (end_err : option error) : strmap * option error :=
  match pages with
  | [] => (listOfVMs, end_err)
  | (page, err) :: pages =>
      let listOfVMs := list_page machineID search listOfVMs page in
      match err with Some err => (listOfVMs, Some err) | None => list_pages machineID search listOfVMs pages end_err end
  end.

(** An error of the pager is logged, and the variable that is returned is that of the call before. *)
Definition GetVMs (machineID : string) : cloud W (strmap * option error) :=
  let search := found_tags (os_Tags spec) in
  if is_empty search.1 || is_empty search.2 then mret (∅, None)
  else
    c ← cattempt createNovaClient;
    match c with
    | Err err => mret (∅, Some err)
    | Ok client =>
        pager ← ctry (servers_List client);
        match pager with
        | inr _ => mret (∅, None)
        | inl (pages, err) => mret (list_pages machineID search ∅ pages err)
        end
    end.

(** The port with the name of the machine. *)
Definition deletePort : cloud W unit :=
  match os_SubnetID spec with
  | Some subnetID =>
      if is_empty subnetID then mret tt
      else
        nwClient ← createNeutronClient;
        p ← ctry (ports_IDFromName nwClient MachineName);
        match p with
        | inr err =>
            if isNotFoundError err then mret tt
            else cthrow (Errorf ("error deleting port with name " +:+ quoted MachineName +:+ ": " +:+ err_msg (os_err err)))
        | inl portID =>
            r ← ctry (ports_Delete nwClient portID);
            match r with
            | inr err => if isNotFoundError err then mret tt else cthrow (os_err err)
            | inl _ => mret tt
            end
        end
  | None => mret tt
  end.

(** The wait is for a server with the ID of the machine, not with that of the instance. *)
Definition delete_server (machineID : string) : cloud W unit :=
  client ← createNovaClient;
  r ← ctry (servers_Delete client (decodeMachineID machineID));
  _ ← (match r with
       | inr err => if isNotFoundError err then mret tt else cthrow (os_err err)
       | inl _ => mret tt
       end : cloud W unit);
  w ← cattempt (waitForStatus client machineID [] ["DELETED"; "SOFT_DELETED"] 300);
  match w with
  | Err err => cthrow (Errorf ("error waiting for the " +:+ quoted machineID +:+ " server to be deleted: " +:+ err_msg err))
  | Ok _ => mret tt
  end.

Definition Delete (machineID : string) : cloud W unit :=
  res ← GetVMs machineID;
  match res with
  | (_, Some err) => cthrow err
  | (vms, None) =>
      _ ← (if bool_decide (vms = ∅) then mret tt else delete_server machineID);
      deletePort
  end.

(** The VM that was created with an error, which the driver knows by its [MachineID]. *)
Definition deleteOnFail {A} (machineID : string) (err : error) : cloud W A :=
  d ← cattempt (Delete machineID);
  match d with
  | Err e => cthrow (Errorf ("Error deleting machine " +:+ machineID +:+ " (" +:+ err_msg e +:+
      ") after unsuccessful create attempt: " +:+ err_msg err))
  | Ok _ => cthrow err
  end.

Definition recentImageIDFromName (client : ServiceClient) (imageName : string) : cloud W string :=
  all ← cget id (images_ListDetail client);
  match list_find (fun f => f.2 = imageName) all with
  | Some (_, f) => mret f.1
  | None => cthrow (Errorf ("could not find an image id for image name " +:+ imageName))
  end.

Definition wrapped (msg : string) (e : error) : error := Errorf (msg +:+ ": " +:+ err_msg e).

(** A port in the given subnet of the given network. *)
Definition create_port (nwClient : ServiceClient) (networkID subnetID : string) : cloud W Network :=
  _ ← cget (wrapped ("failed to get subnet information for subnetID " +:+ subnetID)) (subnets_Get nwClient subnetID);
  securityGroupIDs ← cfold (os_SecurityGroups spec) [] (fun ids securityGroup =>
    securityGroupID ← cget (wrapped ("failed to get ID for security group " +:+ quoted securityGroup)) (groups_IDFromName nwClient securityGroup);
    mret (ids ++ [securityGroupID]));
  port ← cget (wrapped ("failed to create port in subnet with subnetID " +:+ subnetID))
    (ports_Create nwClient (mkPortOpts MachineName networkID subnetID (os_PodNetworkCidr spec) securityGroupIDs));
  mret (mkNetwork networkID (pt_ID port)).

(** The networks of the server, and those of the pods.  The ID of a network of the list is not used, but
    that of the class, which is empty here. *)
Definition server_networks (nwClient : ServiceClient) : cloud W (list Network * list string) :=
  let networkID := os_NetworkID spec in
  if negb (is_empty networkID) then
    network ← (match os_SubnetID spec with
      | Some subnetID => if is_empty subnetID then mret (mkNetwork networkID EmptyString) else create_port nwClient networkID subnetID
      | None => mret (mkNetwork networkID EmptyString)
      end);
    mret ([network], [networkID])
  else
    cfold (os_Networks spec) ([], []) (fun '(serverNetworks, podNetworkIds) network =>
      resolvedNetworkID ← (if negb (is_empty (osn_Id network)) then mret networkID
        else cget (wrapped ("failed to get uuid for network name " +:+ quoted (osn_Name network))) (networks_IDFromName nwClient (osn_Name network)));
      mret (serverNetworks ++ [mkNetwork resolvedNetworkID EmptyString],
            if osn_PodNetwork network then resolvedNetworkID :: podNetworkIds else podNetworkIds)).

(** The ports in the networks of the pods let their addresses through. *)
Definition update_ports (nwClient : ServiceClient) (podNetworkIds : list string) (allPorts : list Port) : cloud W (option (string * error)) :=
  cfold allPorts None (fun failed port =>
    match failed with
    | Some _ => mret failed
    | None =>
        if bool_decide (pt_NetworkID port ∈ podNetworkIds) then
          r ← ctry (ports_Update nwClient (pt_ID port) (os_PodNetworkCidr spec));
          mret (match r with inr err => Some (pt_ID port, err) | inl _ => None end)
        else mret None
    end).

(** After the server was created: any failure deletes it again. *)
Definition finish_create (client nwClient : ServiceClient) (podNetworkIds : list string) (serverID : string) : cloud W (string * string) :=
  let machineID := encodeMachineID (os_Region spec) serverID in
  w ← cattempt (waitForStatus client serverID ["BUILD"] ["ACTIVE"] 600);
  match w with
  | Err err => deleteOnFail machineID (wrapped ("error waiting for the " +:+ quoted serverID +:+ " server status") err)
  | Ok _ =>
      p ← ctry (ports_List nwClient serverID);
      match p with
      | inr (AllPagesError err) => deleteOnFail machineID (wrapped "failed to get ports" err)
      | inr (ExtractError err) => deleteOnFail machineID (wrapped "failed to extract ports" err)
      | inl [] => deleteOnFail machineID (Errorf ("got an empty port list for server ID " +:+ serverID))
      | inl allPorts =>
          u ← update_ports nwClient podNetworkIds allPorts;
          match u with
          | Some (port, err) => deleteOnFail machineID (wrapped ("failed to update allowed address pair for port ID " +:+ port) err)
          | None => mret (machineID, MachineName)
          end
      end
  end.

Definition create_opts (imageRef : string) (serverNetworks : list Network) : CreateOpts :=
  mkCreateOpts MachineName (os_FlavorName spec) imageRef serverNetworks (os_SecurityGroups spec) (os_Tags spec) UserData
    (os_AvailabilityZone spec) (os_UseConfigDrive spec) (os_KeyName spec) (os_ServerGroupID spec)
    (if 0 <? os_RootDiskSize spec then Some (resourceInstanceBlockDevicesV2 (os_RootDiskSize spec) imageRef) else None).

(** A failure to make the client for networks already calls for the deletion of a server. *)
Definition Create : cloud W (string * string) :=
  client ← createNovaClient;
  imageRef ← (if negb (is_empty (os_ImageID spec)) then mret (os_ImageID spec)
    else
      i ← cattempt (recentImageIDFromName client (os_ImageName spec));
      match i with
      | Err err => cthrow (wrapped ("failed to get image id for image name " +:+ os_ImageName spec) err)
      | Ok imageRef => mret imageRef
      end);
  n ← cattempt createNeutronClient;
  match n with
  | Err err => deleteOnFail MachineID err
  | Ok nwClient =>
      networks ← server_networks nwClient;
      let createOpts := create_opts imageRef networks.1 in
      serverID ← cget (wrapped "error creating the server")
        ((if 0 <? os_RootDiskSize spec then bootfromvolume_Create else servers_Create) client createOpts);
      finish_create client nwClient networks.2 serverID
  end.

Definition vol_name (v : PersistentVolumeSpec) : list string :=
  match pv_Cinder v with Some name => [name] | None => csi_name cinderDriverName v end.
Definition GetVolNames (specs : list PersistentVolumeSpec) : list string * option error := (concat (map vol_name specs), None).

Definition openstack_driver : CloudDriver W := mkCloudDriver W Create Delete GetVMs GetVolNames.
End driver.

(** ** What is assumed of OpenStack *)

Record OSVM := mkOSVM { ov_name : string; ov_metadata : strmap }.

(** Servers by ID, of which no ID has a slash.  Of the calls only those that create or delete a server
    change one; a list without an error has every server once. *)
Class OpenStackLaws (W : Type) `{!Gophercloud W} (view : W -> gmap string OSVM) : Prop := {
  ids_plain w id : is_Some (view w !! id) -> has_byte "/" id = false;
  create_law c o w w' id : servers_Create c o w = (w', inl id) -> view w' = <[id := mkOSVM (co_Name o) (co_Metadata o)]> (view w);
  boot_law c o w w' id : bootfromvolume_Create c o w = (w', inl id) -> view w' = <[id := mkOSVM (co_Name o) (co_Metadata o)]> (view w);
  list_law c w w' pages : servers_List c w = (w', inl (pages, None)) -> Forall (fun p => p.2 = None) pages ->
    forall s, s ∈ concat pages.*1 <-> view w !! se_ID s = Some (mkOSVM (se_Name s) (se_Metadata s));
  list_or_fail c w w' e : servers_List c w <> (w', inr e);
  auth_law a w : view (AuthOptions a w).1 = view w;
  client_law p w : view (NewClient p w).1 = view w;
  authenticate_law p w : view (Authenticate p w).1 = view w;
  service_law c w : view (NewServiceClient c w).1 = view w;
  get_law c id w : view (servers_Get c id w).1 = view w;
  ports_law c id w : view (ports_List c id w).1 = view w;
  update_law c id a w : view (ports_Update c id a w).1 = view w }.

Section laws.
Context {W : Type} `{!Gophercloud W} (view : W -> gmap string OSVM) `{!OpenStackLaws W view}.
Variable X509KeyPair : string -> string -> result unit.
Variables wait_rounds wait_rounds' : Z -> nat.
Variables range range' : strmap -> list (string * string).
Hypothesis range_ok : forall m, range m ≡ₚ map_to_list m.
Hypothesis range'_ok : forall m, range' m ≡ₚ map_to_list m.
Variables (spec : OpenStackMachineClassSpec) (CredentialsData CredentialsData' : strmap).
Variables (UserData UserData' MachineID MachineID' MachineName name' : string).

Definition same_view (w w' : W) : Prop := view w' = view w.
#[local] Instance same_view_preorder : PreOrder same_view.
Proof. split; [by intros w|]. unfold same_view. by intros w1 w2 w3 -> ->. Qed.

Lemma client_same creds service : preserves same_view (service_client X509KeyPair spec creds service).
Proof.
  unfold service_client, createOpenStackClient, missing, clientCertificate. preserves_all; intros w;
    first [apply auth_law|apply client_law|apply authenticate_law|apply service_law].
Qed.

Lemma wait_same c id pending target secs : preserves same_view (waitForStatus wait_rounds c id pending target secs).
Proof. unfold waitForStatus, check_status. preserves_all; intros w; apply get_law. Qed.

Lemma update_same c nets l : preserves same_view (update_ports spec c nets l).
Proof. unfold update_ports. preserves_all; intros w; apply update_law. Qed.

(** A failure is reported as one. *)
Lemma deleteOnFail_fails {A} id err w w' (a : A) :
  deleteOnFail X509KeyPair wait_rounds range spec CredentialsData MachineName id err w <> (w', Return a).
Proof. unfold deleteOnFail. intros (w1 & [] & _ & He)%cbind_return; done. Qed.

Lemma nova_finished client nwClient nets sid w w' id node :
  finish_create X509KeyPair wait_rounds range spec CredentialsData MachineName client nwClient nets sid w = (w', Return (id, node)) ->
  view w' = view w /\ id = encodeMachineID (os_Region spec) sid /\ node = MachineName.
Proof.
  unfold finish_create. intros (w1 & r & E1 & He)%cbind_return.
  pose proof (preserves_attempt same_view _ (wait_same client sid ["BUILD"] ["ACTIVE"] 600) w) as H1. rewrite E1 in H1. cbn in H1.
  destruct r as [[]|e]; [|by apply deleteOnFail_fails in He].
  apply cbind_return in He as (w2 & p & E2%ctry_return & He). pose proof (ports_law (view := view) nwClient sid w1) as H2. rewrite E2 in H2. cbn in H2.
  destruct p as [[|port l]|[e|e]]; try by apply deleteOnFail_fails in He.
  apply cbind_return in He as (w3 & u & E3 & He). pose proof (update_same nwClient nets (port :: l) w2) as H3. rewrite E3 in H3. cbn in H3.
  destruct u as [[? ?]|]; [by apply deleteOnFail_fails in He|]. apply cret_return in He as [<- Hid]. apply pair_equal_spec in Hid as [<- <-].
  unfold same_view in *. by rewrite H3, H2, H1.
Qed.

(** What a successful creation leaves behind. *)
Lemma nova_created w w' id node :
  Create X509KeyPair wait_rounds range spec CredentialsData UserData MachineID MachineName w = (w', Return (id, node)) ->
  exists sid, id = encodeMachineID (os_Region spec) sid /\ view w' !! sid = Some (mkOSVM MachineName (os_Tags spec)).
Proof.
  intros (w1 & client & _ & He)%cbind_return. apply cbind_return in He as (w2 & imageRef & _ & He).
  apply cbind_return in He as (w3 & n & _ & He). destruct n as [nwClient|e]; [|by apply deleteOnFail_fails in He].
  apply cbind_return in He as (w4 & networks & _ & He). apply cbind_return in He as (w5 & sid & E%cget_return & He).
  assert (Hview : view w5 = <[sid := mkOSVM MachineName (os_Tags spec)]> (view w4)).
  { destruct (0 <? os_RootDiskSize spec); [by apply boot_law in E|by apply create_law in E]. }
  apply nova_finished in He as (Hv & -> & _). exists sid. split; [done|]. by rewrite Hv, Hview, lookup_insert_eq.
Qed.

(** *** Listing *)

Definition wanted (rng : strmap -> list (string * string)) (search : string * string) (s : OSServer) : Prop :=
  found_tags rng (se_Metadata s) = search.
#[local] Instance wanted_dec rng search s : Decision (wanted rng search s).
Proof. unfold wanted. apply _. Defined.

Lemma nova_page_all rng search p page :
  list_page rng spec EmptyString search (collect p) page =
    collect (p ++ map (fun s => (encodeMachineID (os_Region spec) (se_ID s), se_Name s)) (filter (wanted rng search) page)).
Proof.
  revert p. induction page as [|s page IH]; intros p; [by rewrite app_nil_r|]. cbn [list_page].
  change (is_empty EmptyString) with true. cbv iota. case_bool_decide as Hc.
  - rewrite filter_cons_True by done. cbn [map].
    change ((encodeMachineID (os_Region spec) (se_ID s), se_Name s) :: ?l) with ([(encodeMachineID (os_Region spec) (se_ID s), se_Name s)] ++ l).
    rewrite app_assoc, <- IH. by rewrite collect_snoc.
  - rewrite filter_cons_False by done. apply IH.
Qed.

Lemma nova_pages_all rng search p pages end_err vms :
  list_pages rng spec EmptyString search (collect p) pages end_err = (vms, None) ->
  end_err = None /\ Forall (fun p => p.2 = None) pages /\
  vms = collect (p ++ map (fun s => (encodeMachineID (os_Region spec) (se_ID s), se_Name s)) (filter (wanted rng search) (concat pages.*1))).
Proof.
  revert p. induction pages as [|[page err] pages IH]; intros p; cbn [list_pages].
  - intros [= <- ->]. rewrite app_nil_r. done.
  - rewrite nova_page_all. destruct err as [err|]; [done|]. intros (He & HF & ->)%IH. split; [done|]. split; [by constructor|].
    cbn [fmap list_fmap concat]. by rewrite filter_app, map_app, app_assoc.
Qed.

Lemma nova_id_decodes region id : has_byte "/" id = false -> decodeMachineID (encodeMachineID region id) = id.
Proof.
  intros Hs. unfold encodeMachineID, decodeMachineID.
  change ("openstack:///" +:+ region +:+ "/" +:+ id) with ("openstack://" +:+ String "/" (region +:+ String "/" id)).
  by rewrite !last_part_app, last_part_plain.
Qed.

(** The driver keeps track of its VMs when the class is valid and has one tag of each sort. *)
#[export] Instance openstack_tracks c r (Hv : openstack_valid spec)
    (Hu : unique_tags "kubernetes.io-cluster-" "kubernetes.io-role-" (tag_keys (os_Tags spec)) c r) :
  TracksVMs (openstack_driver X509KeyPair wait_rounds range spec CredentialsData UserData MachineID MachineName)
    (openstack_driver X509KeyPair wait_rounds' range' spec CredentialsData' UserData' MachineID' name') MachineName (fun _ => True).
Proof.
  constructor. intros w w' id node (sid & -> & Hview)%nova_created. split; [done|].
  intros w'' vms _. cbn [drv_GetVMs openstack_driver]. unfold GetVMs.
  assert (Ht : tagged "kubernetes.io-cluster-" "kubernetes.io-role-" (tag_keys (os_Tags spec))) by apply Hv.
  assert (Hf : found_tags range' (os_Tags spec) = (c, r)).
  { apply unique_found; [done|done|eapply tagged_perm; [|exact Ht]|]; unfold tag_keys.
    - by rewrite (range'_ok (os_Tags spec)).
    - intros k Hk. apply Hu. unfold tag_keys. by rewrite <- (range'_ok (os_Tags spec)). }
  pose proof Ht as Ht'. apply tagged_found in Ht' as (c' & r' & Hcr & Hc0 & Hr0 & _); [|done..].
  rewrite (unique_found _ _ _ c r) in Hcr by done. injection Hcr as <- <-. rewrite Hf. cbn [fst snd]. unfold is_empty.
  rewrite (bool_decide_false (c = _)), (bool_decide_false (r = _)) by done. cbn [orb].
  intros (w1 & s & E1 & He)%cbind_return. pose proof (preserves_attempt same_view _ (client_same CredentialsData' "compute") w') as H1.
  unfold createNovaClient in E1. rewrite E1 in H1. cbn in H1. destruct s as [client|err]; [|by apply cret_return in He as [_ [= _ ?]]].
  apply cbind_return in He as (w2 & pager & E2%ctry_return & He). destruct pager as [[pages e]|e]; [|by apply list_or_fail in E2].
  apply cret_return in He as [-> He]. change (∅ : strmap) with (collect []) in He. apply nova_pages_all in He as (-> & HF & ->).
  pose proof (list_law _ _ _ _ E2 HF) as Hl. rewrite H1 in Hl. cbn [app]. split.
  2: { apply collect_none. intros v (s & Hs & _)%list_elem_of_fmap. by apply pair_equal_spec in Hs as [Hs _]. }
  apply collect_lookup.
  - apply list_elem_of_fmap. exists (mkOSServer sid MachineName (os_Tags spec)). split; [done|]. apply list_elem_of_filter.
    split; [done|]. by apply Hl.
  - intros name (s & Hs & [_ Hin]%list_elem_of_filter)%list_elem_of_fmap. apply pair_equal_spec in Hs as [Hk ->].
    apply Hl in Hin. apply (f_equal decodeMachineID) in Hk. rewrite !nova_id_decodes in Hk by (apply (ids_plain w'); eauto).
    rewrite <- Hk, Hview in Hin. by injection Hin as <-.
Qed.
End laws.

(** *** What the driver does not do *)

Section divergences.
Context {W : Type} `{!Gophercloud W}.
Variable X509KeyPair : string -> string -> result unit.
Variable wait_rounds : Z -> nat.
Variable range : strmap -> list (string * string).
Variables (spec : OpenStackMachineClassSpec) (CredentialsData : strmap) (UserData MachineName : string).

(** A network that the class gives by its ID is not used: the server is asked for with the empty ID. *)
Theorem network_ids_ignored nwClient w : os_NetworkID spec = EmptyString ->
  Forall (fun n => osn_Id n <> EmptyString) (os_Networks spec) ->
  exists pods, server_networks spec MachineName nwClient w =
    (w, Return (map (fun _ => mkNetwork EmptyString EmptyString) (os_Networks spec), pods)).
Proof.
  intros Hn HF. unfold server_networks. rewrite Hn. change (is_empty EmptyString) with true. cbn [negb].
  change (map (fun _ => mkNetwork EmptyString EmptyString) (os_Networks spec)) with
    ([] ++ map (fun _ => mkNetwork EmptyString EmptyString) (os_Networks spec)).
  generalize (@nil Network) at 1 3 as acc. generalize (@nil string) as pods.
  induction (os_Networks spec) as [|n l IH]; intros pods acc; [exists pods; by rewrite app_nil_r|].
  apply Forall_cons in HF as [Hi HF]. cbn [cfold map]. unfold is_empty. rewrite bool_decide_false by done. cbn [negb].
  unfold mbind, cloud_bind, mret, cloud_ret.
  destruct (IH HF (if osn_PodNetwork n then EmptyString :: pods else pods) (acc ++ [mkNetwork EmptyString EmptyString])) as (p & E).
  exists p. unfold is_empty, mbind, cloud_bind, mret, cloud_ret in E. rewrite E. by rewrite <- app_assoc.
Qed.

(** The deletion does not wait for the server: what is asked about is the ID of the machine, which is the
    ID of no server, and a server that is not found counts as deleted. *)
Theorem delete_does_not_wait sid client w w1 w2 :
  (forall c id w, has_byte "/" id = true -> exists msg, servers_Get c id w = (w, inr (ErrDefault404 msg))) ->
  (0 < wait_rounds 300)%nat ->
  createNovaClient X509KeyPair spec CredentialsData w = (w1, Return client) ->
  servers_Delete client (decodeMachineID (encodeMachineID (os_Region spec) sid)) w1 = (w2, inl tt) ->
  delete_server X509KeyPair wait_rounds spec CredentialsData (encodeMachineID (os_Region spec) sid) w = (w2, Return tt).
Proof.
  intros Hget Hn Hc Hd.
  assert (Hw : waitForStatus wait_rounds client (encodeMachineID (os_Region spec) sid) [] ["DELETED"; "SOFT_DELETED"] 300 w2 = (w2, Return tt)).
  { unfold waitForStatus. destruct (wait_rounds 300) as [|n]; [lia|]. cbn [cpoll]. unfold check_status, mbind, cloud_bind, ctry.
    destruct (Hget client (encodeMachineID (os_Region spec) sid) w2) as [msg E]; [done|]. by rewrite E. }
  unfold delete_server, mbind, cloud_bind. rewrite Hc. unfold ctry. rewrite Hd.
  unfold mret, cloud_ret, cattempt. by rewrite Hw.
Qed.
End divergences.

(** ** A simulated OpenStack, for which the laws hold *)

(** A server that was deleted lingers on until its shutdown is over. *)
Definition os_view (w : gmap string OSVM) : gmap string OSVM := filter (fun kv => plain_id kv.1) w.

Definition simulated_boot (_ : ServiceClient) (o : CreateOpts) : sdk (gmap string OSVM) error string := fun w =>
  (<[fresh_id w := mkOSVM (co_Name o) (co_Metadata o)]> w, inl (fresh_id w)).

#[export] Instance simulated_gophercloud : Gophercloud (gmap string OSVM) := {|
  AuthOptions _ w := (w, inl tt);
  NewClient _ w := (w, inl tt);
  Authenticate _ w := (w, inl tt);
  NewServiceClient _ w := (w, inl tt);
  images_ListDetail _ w := (w, inl [("image-id", "image")]);
  subnets_Get _ _ w := (w, inl tt);
  groups_IDFromName _ name w := (w, inl name);
  networks_IDFromName _ name w := (w, inl name);
  ports_Create _ o w := (w, inl (mkPort (po_Name o) (po_NetworkID o)));
  ports_List _ id w := (w, inl [mkPort id "network"]);
  ports_Update _ _ _ w := (w, inl tt);
  ports_IDFromName _ name w := (w, inl name);
  ports_Delete _ _ w := (w, inl tt);
  servers_Create := simulated_boot;
  bootfromvolume_Create := simulated_boot;
  servers_Get _ id w := (w, match os_view w !! id with Some _ => inl ("ACTIVE", EmptyString) | None => inr (ErrDefault404 "Resource not found") end);
  servers_Delete _ id w := (w, match os_view w !! id with Some _ => inl tt | None => inr (ErrDefault404 "Resource not found") end);
  servers_List _ w := (w, inl ([(map (fun kv => mkOSServer kv.1 (ov_name kv.2) (ov_metadata kv.2)) (map_to_list (os_view w)), None)], None)) |}.

#[export] Instance simulated_gophercloud_laws : OpenStackLaws (gmap string OSVM) os_view.
Proof.
  assert (Hb : forall c o w w' id, simulated_boot c o w = (w', inl id) ->
    os_view w' = <[id := mkOSVM (co_Name o) (co_Metadata o)]> (os_view w)).
  { intros c o w w' id [= <- <-]. unfold os_view. rewrite map_filter_insert_True; [done|]. apply fresh_id_plain. }
  split; try done.
  - intros w id [vm Hvm]. by apply map_lookup_filter_Some in Hvm as [_ [_ ?]].
  - intros c w w' pages H _ s. injection H as <- <-. cbn [fmap list_fmap concat fst]. rewrite app_nil_r, list_elem_of_fmap. split.
    + by intros ([id []] & -> & Hin%elem_of_map_to_list).
    + intros Hs. exists (se_ID s, mkOSVM (se_Name s) (se_Metadata s)). split; [by destruct s|]. by apply elem_of_map_to_list.
Qed.

Definition sample_os : OpenStackMachineClassSpec :=
  mkOpenStackSpec EmptyString "image" "eu" "zone" "small" "key" ["default"] {[ "kubernetes.io-cluster-a" := "1"; "kubernetes.io-role-n" := "1" ]}
    EmptyString [mkOpenStackNetwork "id-1" EmptyString true] None "10.0.0.0/8" 0 None None.
Definition sample_os_secret : strmap :=
  {[ OpenStackAuthURL := "https://auth"; OpenStackUsername := "u"; OpenStackPassword := "p"; OpenStackDomainName := "d"; OpenStackTenantName := "t" ]}.
Definition sample_client (service : string) : ServiceClient :=
  mkServiceClient (mkProvider (mkAuthInfo "https://auth" "u" "p" "d" EmptyString "t" EmptyString EmptyString EmptyString) (mkTLSConfig false None None)) service "eu".

Lemma network_ids_ignored_witness :
  exists pods, server_networks (W := gmap string OSVM) sample_os "m" (sample_client "network") ∅ =
    (∅, Return ([mkNetwork EmptyString EmptyString], pods)).
Proof. apply (network_ids_ignored sample_os "m" (sample_client "network") ∅); [done|]. by repeat constructor. Defined.

Lemma delete_does_not_wait_witness :
  let w : gmap string OSVM := {[ "i1" := mkOSVM "m" ∅ ]} in
  delete_server (fun _ _ => Ok tt) (fun _ => 1%nat) sample_os sample_os_secret "openstack:///eu/i1" w = (w, Return tt).
Proof.
  intros w. apply (delete_does_not_wait _ _ sample_os sample_os_secret "i1" (sample_client "compute") w w w).
  - intros c id w' Hs. exists "Resource not found". cbn [servers_Get simulated_gophercloud]. unfold os_view.
    destruct (filter _ w' !! id) eqn:E; [|done]. apply map_lookup_filter_Some in E as [_ [_ Hp]]. cbn in Hp. congruence.
  - cbn. lia.
  - reflexivity.
  - reflexivity.
Defined.
