(* ===== verification/CloudAzure.v ===== *)
(** * The driver for Azure (pkg/driver/driver_azure.go)

    A VM has a network interface and disks that are resources of their own; they are named after it.  A
    deletion removes all of them, in parallel, and then everything else whose name contains that of the VM. *)
From Stdlib Require Import ZArith Lia Ascii String.
From stdpp Require Import base gmap strings list.
From S2P Require Import Prelude GoLib Regexp ClassSpecs Types Prog Validation ClassValidation Driver Cloud Threads.
Open Scope Z_scope.

(** ** The SDK *)

Definition azureDiskDriverName := "disk.csi.azure.com".
Definition AzureClientID := "azureClientId".
Definition AzureClientSecret := "azureClientSecret".
Definition AzureSubscriptionID := "azureSubscriptionId".
Definition AzureTenantID := "azureTenantId".
Definition AzureAlternativeClientID := "clientID".
Definition AzureAlternativeClientSecret := "clientSecret".
Definition AzureAlternativeSubscriptionID := "subscriptionID".
Definition AzureAlternativeTenantID := "tenantID".
Definition CachingTypesNone := "None".
Definition DiskCreateOptionTypesEmpty := "Empty".

(** An error with its status, formatted as a text, and the status of its response if it has one; or another. *)
Inductive azure_error := DetailedError (StatusCode : string) (Response : option Z) (msg : string) | OtherAzureError (e : error).
Definition azure_err (e : azure_error) : error := match e with DetailedError _ _ msg => Errorf msg | OtherAzureError e => e end.

Definition notFound (e : azure_error) : bool :=
  match e with DetailedError _ (Some code) _ => bool_decide (code = 404) | _ => false end.
Definition isResourceNotFoundError (e : azure_error) : bool :=
  match e with DetailedError code _ _ => bool_decide (code = "404") | OtherAzureError _ => false end.

(** Subscription, tenant, ID and secret. *)
Record azureDriverClients := mkClients { ac_subscription : string; ac_tenant : string; ac_client : string; ac_secret : string }.

Record NICParameters := mkNICParams {
  np_Name : string; np_Location : string; np_Subnet : string; np_EnableIPForwarding : bool;
  np_EnableAcceleratedNetworking : option bool; np_Tags : strmap }.

Inductive ImageReference := ImageByID (id : string) | ImageByURN (publisher offer sku version : string).
Record Plan := mkPlan { pl_Name : option string; pl_Product : option string; pl_Publisher : option string }.

Record DataDisk := mkDataDiskParams {
  dp_Lun : Z; dp_Name : string; dp_Caching : string; dp_StorageAccountType : string; dp_DiskSizeGB : Z; dp_CreateOption : string }.

Record VMParameters := mkVMParams {
  vp_Name : string; vp_Plan : option Plan; vp_Location : string; vp_VMSize : string; vp_ImageReference : ImageReference;
  vp_OsDiskName : string; vp_OsDiskCaching : string; vp_OsDiskStorage : string; vp_OsDiskSizeGB : Z; vp_OsDiskCreateOption : string;
  vp_ComputerName : string; vp_AdminUsername : string; vp_CustomData : string; vp_DisablePasswordAuthentication : bool;
  vp_SSHPath : string; vp_SSHKeyData : string; vp_NIC : string; vp_DataDisks : option (list DataDisk); vp_Zones : option string;
  vp_AvailabilitySet : option string; vp_ScaleSet : option string; vp_Identity : option string; vp_Tags : strmap }.

(** What is fetched; pointers may be missing.  The data disks of a VM are behind two of them. *)
Record VirtualMachine := mkAzureVM { vm_Name : option string; vm_Tags : option strmap; vm_DataDisks : option (list string) }.
Record NetworkInterface := mkAzureNic {
  ni_ID : option string; ni_Name : option string; ni_Tags : option strmap; ni_VirtualMachine : option (option string) }.
Record Disk := mkAzureDisk { di_Name : option string; di_Tags : option strmap; di_OsType : string; di_ManagedBy : option string }.

(** A new VM, or one that was fetched, without its data disks. *)
Inductive VMRequest := NewVM (p : VMParameters) | Detached (vm : VirtualMachine).

(** The first page of a list, and the others with what comes instead of a page that fails. *)
Definition listing (A : Type) : Type := list A * list (list A + azure_error).

(** [F] is the type of futures. *)
Class Azure (W F : Type) := {
  NewOAuthConfig : string -> sdk W azure_error unit;
  NewServicePrincipalToken : string -> string -> string -> sdk W azure_error unit;
  groups_Get : azureDriverClients -> string -> sdk W azure_error unit;
  subnets_Get : azureDriverClients -> string -> string -> string -> sdk W azure_error string;
  WaitForCompletionRef : azureDriverClients -> F -> sdk W azure_error unit;
  nic_Get : azureDriverClients -> string -> string -> sdk W azure_error NetworkInterface;
  nic_CreateOrUpdate : azureDriverClients -> string -> string -> NICParameters -> sdk W azure_error F;
  nic_Result : azureDriverClients -> F -> sdk W azure_error NetworkInterface;
  nic_List : azureDriverClients -> string -> sdk W azure_error (listing NetworkInterface);
  nic_Delete : azureDriverClients -> string -> string -> sdk W azure_error F;
  images_Get : azureDriverClients -> string -> ImageReference -> sdk W azure_error (option Plan);
  (* publisher, product and name; whether the terms are accepted *)
  marketplace_Get : azureDriverClients -> string -> string -> string -> sdk W azure_error (option bool);
  marketplace_Create : azureDriverClients -> string -> string -> string -> bool -> sdk W azure_error unit;
  vm_Get : azureDriverClients -> string -> string -> sdk W azure_error VirtualMachine;
  vm_CreateOrUpdate : azureDriverClients -> string -> string -> VMRequest -> sdk W azure_error F;
  vm_Result : azureDriverClients -> F -> sdk W azure_error unit;
  vm_List : azureDriverClients -> string -> sdk W azure_error (listing VirtualMachine);
  vm_Delete : azureDriverClients -> string -> string -> sdk W azure_error F;
  disk_Get : azureDriverClients -> string -> string -> sdk W azure_error Disk;
  disk_List : azureDriverClients -> string -> sdk W azure_error (listing Disk);
  disk_Delete : azureDriverClients -> string -> string -> sdk W azure_error F }.

(** ** Names *)

Definition nicSuffix := "-nic".
Definition diskSuffix := "-os-disk".
Definition dataDiskSuffix := "-data-disk".

Definition encodeMachineID (location vmName : string) : string := "azure:///" +:+ location +:+ "/" +:+ vmName.
Definition dependencyNameFromVMName (vmName suffix : string) : string := vmName +:+ suffix.
Definition dependencyNameFromVMNameAndDependency (dependency vmName suffix : string) : string :=
  vmName +:+ "-" +:+ dependency +:+ suffix.

(** The name without the suffix, if it has it. *)
Fixpoint vmNameFromDependencyName (dependencyName suffix : string) : option string :=
  if bool_decide (dependencyName = suffix) then Some EmptyString
  else match dependencyName with
       | EmptyString => None
       | String c rest => String c <$> vmNameFromDependencyName rest suffix
       end.

Definition getAzureDataDiskPrefix (name : string) (lun : Z) : string :=
  if is_empty name then FormatInt lun else name +:+ "-" +:+ FormatInt lun.

(** The number of a disk without one is its place in the list. *)
Definition disk_lun (i : nat) (disk : AzureDataDisk) : Z := default (Z.of_nat i) (add_Lun disk).
Definition data_disk_name (vmName suffix : string) (i : nat) (disk : AzureDataDisk) : string :=
  dependencyNameFromVMNameAndDependency (getAzureDataDiskPrefix (add_Name disk) (disk_lun i disk)) vmName suffix.
Definition getAzureDataDiskNames (azureDataDisks : list AzureDataDisk) (vmname suffix : string) : list string :=
  imap (data_disk_name vmname suffix) azureDataDisks.

(** The tags of the class are looked for in the keys of the resource, not compared with them. *)
Definition verifyAzureTags (tags : option strmap) (clusterNameTag nodeRoleTag : string) : bool :=
  match tags with
  | None => false
  | Some tags => existsb (fun key => contains key clusterNameTag) (tag_keys tags) && existsb (fun key => contains key nodeRoleTag) (tag_keys tags)
  end.

(** All pages, or the error of the first that fails. *)
Definition all_items {A} (l : listing A) : list A + azure_error :=
  foldl (fun acc page =>
    match acc, page with
    | inl items, inl page => inl (items ++ page)
    | inr err, _ => inr err
    | _, inr err => inr err
    end) (inl l.1) l.2.

(** ** The driver *)

(** [base64]; how often an operation is tried again until its deadline; the order in which a range takes
    the entries of a map; which goroutine makes the next call, when the resources of a VM are deleted and
    when what is left over is looked for. *)
Section driver.
Context {W F : Type} `{!Azure W F}.
Variable base64 : string -> string.
Variable backoff_retries : nat.
Variable range : strmap -> list (string * string).
Variables (deleters_schedule orphans_schedule : list nat).
Variables (spec : AzureMachineClassSpec) (CredentialsData : strmap) (UserData MachineName : string).

Abbreviation goroutine := (thread W azure_error).

(** *** Goroutines *)

(** Tried until it succeeds; the error is that of the last try. *)
Fixpoint backoff_WaitUntil (retries : nat) (operation : goroutine unit) : goroutine unit :=
  r ← tattempt operation;
  match r, retries with
  | inl _, _ => mret tt
  | inr err, O => tthrow err
  | inr _, S retries => backoff_WaitUntil retries operation
  end.

Fixpoint retry (fn : goroutine unit) (retries : nat) : goroutine unit :=
  r ← tattempt fn;
  match r, retries with
  | inl _, _ => mret tt
  | inr err, S (S _ as retries) => retry fn retries
  | inr err, _ => tthrow (OtherAzureError (Errorf ("max amount of retries reached (" +:+ err_msg (azure_err err) +:+ ")")))
  end.

Definition checkNICStatus (c : azureDriverClients) (resourceGroupName nicName : string) (shouldExist : bool) : goroutine unit :=
  r ← ttry (nic_Get c resourceGroupName nicName);
  if shouldExist then
    match r with
    | inl nic => match ni_ID nic with Some _ => mret tt | None => tthrow (OtherAzureError (Errorf ("NIC " +:+ quoted nicName +:+ " not found"))) end
    | inr _ => tthrow (OtherAzureError (Errorf ("NIC " +:+ quoted nicName +:+ " not found")))
    end
  else
    match r with
    | inr err => if isResourceNotFoundError err then mret tt else tthrow (OtherAzureError (Errorf ("NIC " +:+ quoted nicName +:+ " found")))
    | inl _ => tthrow (OtherAzureError (Errorf ("NIC " +:+ quoted nicName +:+ " found")))
    end.

Definition deleteNIC (c : azureDriverClients) (resourceGroupName nicName : string) : goroutine unit :=
  future ← tget (nic_Delete c resourceGroupName nicName);
  _ ← tget (WaitForCompletionRef c future);
  backoff_WaitUntil backoff_retries (checkNICStatus c resourceGroupName nicName false).

Definition deleteDisk (c : azureDriverClients) (resourceGroupName diskName : string) : goroutine unit :=
  future ← tget (disk_Delete c resourceGroupName diskName);
  tget (WaitForCompletionRef c future).

Definition fetchAttachedVMfromNIC (c : azureDriverClients) (resourceGroupName nicName : string) : goroutine string :=
  nic ← tget (nic_Get c resourceGroupName nicName);
  match ni_VirtualMachine nic with None => mret EmptyString | Some id => tderef id end.

Definition fetchAttachedVMfromDisk (c : azureDriverClients) (resourceGroupName diskName : string) : goroutine string :=
  disk ← tget (disk_Get c resourceGroupName diskName);
  mret (default EmptyString (di_ManagedBy disk)).

(** What is attached to a VM is not deleted; what does not exist need not be. *)
Definition delete_detached (what name : string) (holder : goroutine string) (deletion : goroutine unit) : goroutine unit :=
  r ← tattempt holder;
  match r with
  | inr err => if notFound err then mret tt else tthrow err
  | inl vm =>
      if is_empty vm then deletion
      else tthrow (OtherAzureError (Errorf ("Cannot delete " +:+ what +:+ " " +:+ name +:+ " because it is attached to VM " +:+ vm)))
  end.

Definition nicDeleter (c : azureDriverClients) (resourceGroupName nicName : string) : goroutine unit :=
  delete_detached "NIC" nicName (fetchAttachedVMfromNIC c resourceGroupName nicName) (deleteNIC c resourceGroupName nicName).
Definition getDeleterForDisk (c : azureDriverClients) (resourceGroupName diskName : string) : goroutine unit :=
  delete_detached "disk" diskName (fetchAttachedVMfromDisk c resourceGroupName diskName) (deleteDisk c resourceGroupName diskName).

(** What has the name of the VM somewhere in its own, on the first page. *)
Definition delete_orphans (vmName : string) (names : list (option string)) (deletion : string -> goroutine unit) : goroutine unit :=
  tfor names tt (fun _ name =>
    match name with
    | None => mret tt
    | Some name =>
        if negb (contains name vmName) then mret tt
        else
          r ← tattempt (deletion name);
          match r with
          | inr err => if notFound err then mret tt else tthrow err
          | inl _ => mret tt
          end
    end).

Definition checkOrphanNics (c : azureDriverClients) (resourceGroupName vmName : string) : goroutine unit :=
  nicResults ← tget (nic_List c resourceGroupName);
  delete_orphans vmName (map ni_Name nicResults.1) (deleteNIC c resourceGroupName).
Definition checkOrphanDisks (c : azureDriverClients) (resourceGroupName vmName : string) : goroutine unit :=
  diskResults ← tget (disk_List c resourceGroupName);
  delete_orphans vmName (map di_Name diskResults.1) (deleteDisk c resourceGroupName).

(** The errors of all of them, in the order of the functions. *)
Definition runInParallel (schedule : list nat) (funcs : list (goroutine unit)) : cloud W unit := fun w =>
  match run_threads schedule funcs w with
  | (w, None) => (w, Panic)
  | (w, Some results) =>
      (w, match omap (fun r : unit + azure_error => match r with inr e => Some (err_msg (azure_err e)) | inl _ => None end) results with
          | [] => Return tt
          | messages => Raise (Errorf (join "010"%char messages))
          end)
  end.

(** *** Clients *)

Definition setup : cloud W azureDriverClients :=
  let subscriptionID := ExtractCredentialsFromData CredentialsData [AzureSubscriptionID; AzureAlternativeSubscriptionID] in
  let tenantID := ExtractCredentialsFromData CredentialsData [AzureTenantID; AzureAlternativeTenantID] in
  let clientID := ExtractCredentialsFromData CredentialsData [AzureClientID; AzureAlternativeClientID] in
  let clientSecret := ExtractCredentialsFromData CredentialsData [AzureClientSecret; AzureAlternativeClientSecret] in
  _ ← cget azure_err (NewOAuthConfig tenantID);
  _ ← cget azure_err (NewServicePrincipalToken tenantID clientID clientSecret);
  mret (mkClients subscriptionID tenantID clientID clientSecret).

(** *** Deletion *)

(** What becomes of the data disks is only logged. *)
Definition waitForDataDiskDetachment (c : azureDriverClients) (resourceGroupName : string) (vm : VirtualMachine) : cloud W unit :=
  name ← cderef (vm_Name vm);
  disks ← cderef (vm_DataDisks vm);
  if bool_decide (disks = []) then mret tt
  else
    future ← cget azure_err (vm_CreateOrUpdate c resourceGroupName name (Detached (mkAzureVM (vm_Name vm) (vm_Tags vm) (Some []))));
    cget azure_err (WaitForCompletionRef c future).

Definition deleteVM (c : azureDriverClients) (resourceGroupName vmName : string) : cloud W unit :=
  future ← cget azure_err (vm_Delete c resourceGroupName vmName);
  cget azure_err (WaitForCompletionRef c future).

(** The VM first. *)
Definition delete_vm_first (c : azureDriverClients) (resourceGroupName VMName : string) : cloud W unit :=
  v ← ctry (vm_Get c resourceGroupName VMName);
  match v with
  | inl vm =>
      _ ← cattempt (waitForDataDiskDetachment c resourceGroupName vm);
      _ ← deleteVM c resourceGroupName VMName;
      _ ← cderef (vm_Name vm);
      mret tt
  | inr vmErr => if notFound vmErr then mret tt else cthrow (azure_err vmErr)
  end.

Definition deleteVMNicDisks (c : azureDriverClients) (resourceGroupName VMName nicName diskName : string) (dataDiskNames : list string) : cloud W unit :=
  _ ← delete_vm_first c resourceGroupName VMName;
  runInParallel deleters_schedule
    (nicDeleter c resourceGroupName nicName :: map (getDeleterForDisk c resourceGroupName) (diskName :: dataDiskNames)).

Definition data_disk_names (vmName : string) : list string :=
  getAzureDataDiskNames (asp_DataDisks (azp_StorageProfile (az_Properties spec))) vmName dataDiskSuffix.

(** All resources that are named after the VM. *)
Definition delete_resources (c : azureDriverClients) (vmName : string) : cloud W unit :=
  deleteVMNicDisks c (az_ResourceGroup spec) vmName (dependencyNameFromVMName vmName nicSuffix)
    (dependencyNameFromVMName vmName diskSuffix) (data_disk_names vmName).

Definition Delete (machineID : string) : cloud W unit :=
  clients ← setup;
  let vmName := decodeMachineID machineID in
  let resourceGroupName := az_ResourceGroup spec in
  g ← ctry (groups_Get clients resourceGroupName);
  match g with
  | inr err => if notFound err then mret tt else cthrow (azure_err err)
  | inl _ =>
      _ ← delete_resources clients vmName;
      runInParallel orphans_schedule
        [retry (checkOrphanNics clients resourceGroupName vmName) 3; retry (checkOrphanDisks clients resourceGroupName vmName) 3]
  end.

(** *** Creation *)

Definition getNICParameters (vmName subnet : string) : NICParameters :=
  mkNICParams (dependencyNameFromVMName vmName nicSuffix) (az_Location spec) subnet true
    (anp_AcceleratedNetworking (azp_NetworkProfile (az_Properties spec))) (az_Tags spec).

(** The URN is dereferenced and its four parts are indexed. *)
Definition getImageReference : option ImageReference :=
  let imageRefClass := asp_ImageReference (azp_StorageProfile (az_Properties spec)) in
  if negb (is_empty (air_ID imageRefClass)) then Some (ImageByID (air_ID imageRefClass))
  else
    urn ← air_URN imageRefClass;
    match split ":" urn with
    | publisher :: offer :: sku :: version :: _ => Some (ImageByURN publisher offer sku version)
    | _ => None
    end.

Definition generateDataDisks (vmName : string) (azureDataDisks : list AzureDataDisk) : list DataDisk :=
  imap (fun i disk => mkDataDiskParams (disk_lun i disk) (data_disk_name vmName dataDiskSuffix i disk)
    (if is_empty (add_Caching disk) then CachingTypesNone else add_Caching disk) (add_StorageAccountType disk) (add_DiskSizeGB disk)
    DiskCreateOptionTypesEmpty) azureDataDisks.

(** A machine set of the kind takes the place of the availability set. *)
Definition availability_set : option string :=
  let p := az_Properties spec in
  match azp_MachineSet p with
  | Some ms => if bool_decide (ams_Kind ms = MachineSetKindAvailabilitySet) then Some (ams_ID ms) else asr_ID <$> azp_AvailabilitySet p
  | None => asr_ID <$> azp_AvailabilitySet p
  end.
Definition scale_set : option string :=
  match azp_MachineSet (az_Properties spec) with
  | Some ms => if bool_decide (ams_Kind ms = MachineSetKindVMO) then Some (ams_ID ms) else None
  | None => None
  end.

Definition getVMParameters (vmName : string) (plan : option Plan) (networkInterfaceReferenceID : string) : option VMParameters :=
  let p := az_Properties spec in
  let os := asp_OsDisk (azp_StorageProfile p) in
  let linux := aop_LinuxConfiguration (azp_OsProfile p) in
  imageReference ← getImageReference;
  Some (mkVMParams vmName plan (az_Location spec) (ahp_VMSize (azp_HardwareProfile p)) imageReference
    (dependencyNameFromVMName vmName diskSuffix) (aod_Caching os) (amd_StorageAccountType (aod_ManagedDisk os)) (aod_DiskSizeGB os)
    (aod_CreateOption os) vmName (aop_AdminUsername (azp_OsProfile p)) (base64 UserData) (alc_DisablePasswordAuthentication linux)
    (apk_Path (asc_PublicKeys (alc_SSH linux))) (apk_KeyData (asc_PublicKeys (alc_SSH linux))) networkInterfaceReferenceID
    (match asp_DataDisks (azp_StorageProfile p) with [] => None | disks => Some (generateDataDisks vmName disks) end)
    (FormatInt <$> azp_Zone p) availability_set scale_set
    (match azp_IdentityID p with Some id => if is_empty id then None else Some id | None => None end) (az_Tags spec)).

(** A failure after the subnet was found removes what there is of the VM before it is returned. *)
Definition cleaned_up {A} (c : azureDriverClients) (vmName : string) (p : sdk W azure_error A) : cloud W A :=
  r ← ctry p;
  match r with
  | inl a => mret a
  | inr err => _ ← cattempt (delete_resources c vmName); cthrow (azure_err err)
  end.

(** The network interface of the VM, which is made if there is none. *)
Definition find_or_create_nic (c : azureDriverClients) (vmName subnet : string) : cloud W NetworkInterface :=
  let nicName := dependencyNameFromVMName vmName nicSuffix in
  n ← ctry (nic_Get c (az_ResourceGroup spec) nicName);
  match n with
  | inl NIC => mret NIC
  | inr err =>
      if isResourceNotFoundError err then
        NICFuture ← cleaned_up c vmName (nic_CreateOrUpdate c (az_ResourceGroup spec) nicName (getNICParameters vmName subnet));
        _ ← cleaned_up c vmName (WaitForCompletionRef c NICFuture);
        cleaned_up c vmName (nic_Result c NICFuture)
      else
        _ ← cattempt (delete_resources c vmName);
        cthrow (azure_err err)
  end.

(** The plan of the image, whose terms are accepted if they are not yet. *)
Definition image_plan (c : azureDriverClients) (vmName : string) : cloud W (option Plan) :=
  if is_empty (air_ID (asp_ImageReference (azp_StorageProfile (az_Properties spec)))) then
    imageReference ← cderef getImageReference;
    plan ← cleaned_up c vmName (images_Get c (az_Location spec) imageReference);
    match plan with
    | None => mret None
    | Some plan =>
        publisher ← cderef (pl_Publisher plan);
        product ← cderef (pl_Product plan);
        name ← cderef (pl_Name plan);
        accepted ← cleaned_up c vmName (marketplace_Get c publisher product name);
        _ ← (if default false accepted then mret tt else cleaned_up c vmName (marketplace_Create c publisher product name true));
        mret (Some plan)
    end
  else mret None.

Definition createVMNicDisk : cloud W unit :=
  let vmName := ToLower MachineName in
  let resourceGroupName := az_ResourceGroup spec in
  let subnetInfo := az_SubnetInfo spec in
  clients ← setup;
  subnet ← cget azure_err (subnets_Get clients (default resourceGroupName (asi_VnetResourceGroup subnetInfo)) (asi_VnetName subnetInfo)
    (asi_SubnetName subnetInfo));
  NIC ← find_or_create_nic clients vmName subnet;
  plan ← image_plan clients vmName;
  id ← cderef (ni_ID NIC);
  VMParameters ← cderef (getVMParameters vmName plan id);
  VMFuture ← cleaned_up clients vmName (vm_CreateOrUpdate clients resourceGroupName vmName (NewVM VMParameters));
  _ ← cleaned_up clients vmName (WaitForCompletionRef clients VMFuture);
  cleaned_up clients vmName (vm_Result clients VMFuture).

Definition Create : cloud W (string * string) :=
  _ ← createVMNicDisk;
  mret (encodeMachineID (az_Location spec) (ToLower MachineName), ToLower MachineName).

(** *** Listing *)

(** The machines to which the resources belong; a search for one ID ends when it is found. *)
Fixpoint list_owners {A} (owner : A -> cloud W (option string)) (machineID : string) (listOfVMs : strmap) (items : list A) : cloud W strmap :=
  match items with
  | [] => mret listOfVMs
  | item :: items =>
      name ← owner item;
      match name with
      | None => list_owners owner machineID listOfVMs items
      | Some machineName =>
          let instanceID := encodeMachineID (az_Location spec) machineName in
          if is_empty machineID then list_owners owner machineID (<[instanceID := machineName]> listOfVMs) items
          else if bool_decide (machineID = instanceID) then mret (<[instanceID := machineName]> listOfVMs)
          else list_owners owner machineID listOfVMs items
      end
  end.

Section owners.
Variables searchClusterName searchNodeRole : string.
Abbreviation verified tags := (verifyAzureTags tags searchClusterName searchNodeRole).

Definition vm_owner (server : VirtualMachine) : cloud W (option string) :=
  name ← cderef (vm_Name server);
  mret (if verified (vm_Tags server) then Some name else None).
Definition nic_owner (nic : NetworkInterface) : cloud W (option string) :=
  name ← cderef (ni_Name nic);
  mret (if verified (ni_Tags nic) then vmNameFromDependencyName name nicSuffix else None).
Definition disk_owner (disk : Disk) : cloud W (option string) :=
  if is_empty (di_OsType disk) then mret None
  else
    name ← cderef (di_Name disk);
    mret (if verified (di_Tags disk) then vmNameFromDependencyName name diskSuffix else None).
End owners.

(** [getRelevantVMs], [getRelevantNICs] and [getRelevantDisks]. *)
Definition getRelevant {A} (list : sdk W azure_error (listing A)) (owner : string -> string -> A -> cloud W (option string)) (machineID : string) :
    cloud W strmap :=
  let '(searchClusterName, searchNodeRole) := cluster_and_role "kubernetes.io-cluster-" "kubernetes.io-role-" (range (az_Tags spec)).*1 in
  if is_empty searchClusterName || is_empty searchNodeRole || is_empty (az_ResourceGroup spec) then mret ∅
  else
    l ← cget azure_err list;
    match all_items l with
    | inr err => cthrow (azure_err err)
    | inl items => list_owners (owner searchClusterName searchNodeRole) machineID ∅ items
    end.
Definition getRelevantVMs (c : azureDriverClients) := getRelevant (vm_List c (az_ResourceGroup spec)) vm_owner.
Definition getRelevantNICs (c : azureDriverClients) := getRelevant (nic_List c (az_ResourceGroup spec)) nic_owner.
Definition getRelevantDisks (c : azureDriverClients) := getRelevant (disk_List c (az_ResourceGroup spec)) disk_owner.

(** The results so far go with an error. *)
Definition merge_in (result : strmap * option error) (source : cloud W strmap) : cloud W (strmap * option error) :=
  match result with
  | (_, Some _) => mret result
  | (vms, None) =>
      r ← cattempt source;
      mret (match r with Ok source => (source ∪ vms, None) | Err err => (vms, Some err) end)
  end.

Definition GetVMs (machineID : string) : cloud W (strmap * option error) :=
  s ← cattempt setup;
  match s with
  | Err err => mret (∅, Some err)
  | Ok clients =>
      r ← merge_in (∅, None) (getRelevantVMs clients machineID);
      r ← merge_in r (getRelevantNICs clients machineID);
      merge_in r (getRelevantDisks clients machineID)
  end.

Definition vol_name (v : PersistentVolumeSpec) : list string :=
  match pv_AzureDisk v with Some name => [name] | None => csi_name azureDiskDriverName v end.
Definition GetVolNames (specs : list PersistentVolumeSpec) : list string * option error := (concat (map vol_name specs), None).

Definition azure_driver : CloudDriver W := mkCloudDriver W Create Delete GetVMs GetVolNames.
End driver.

(** ** What is assumed of Azure *)

(** Resources by kind, resource group and name, with their tags. *)
Definition resource : Type := string * string * string.
Abbreviation resources := (gmap resource strmap).
Definition vm_key (rg name : string) : resource := ("virtualMachines", rg, name).
Definition nic_key (rg name : string) : resource := ("networkInterfaces", rg, name).
Definition disk_key (rg name : string) : resource := ("disks", rg, name).

(** Everything that exists but the VM itself stays as it is: making a VM may make disks. *)
Definition others_stay (key : resource) (v v' : resources) : Prop := forall k, k <> key -> is_Some (v !! k) -> v' !! k = v !! k.

(** Of what is [deletes], a future may be the deletion of a resource: a wait that succeeds leaves the
    resource gone, and no wait changes anything else.  A VM is there, with its tags, as soon as its
    creation was accepted.  Gets and lists show what there is, with names. *)
Class AzureLaws (W F : Type) `{!Azure W F} (view : W -> resources) (deletes : F -> option resource) : Prop := {
  vm_create_law c rg n p w w' f : vm_CreateOrUpdate c rg n p w = (w', inl f) ->
    deletes f = None /\ others_stay (vm_key rg n) (view w) (view w') /\
    match p with NewVM p => view w' !! vm_key rg n = Some (vp_Tags p) | Detached _ => True end;
  vm_create_fails c rg n p w w' e : vm_CreateOrUpdate c rg n p w = (w', inr e) -> others_stay (vm_key rg n) (view w) (view w');
  nic_create_law c rg n p w : others_stay (nic_key rg n) (view w) (view (nic_CreateOrUpdate c rg n p w).1) /\
    forall f, (nic_CreateOrUpdate c rg n p w).2 = inl f -> deletes f = None;
  wait_law c f w : view (WaitForCompletionRef c f w).1 = view w \/
    exists key, deletes f = Some key /\ view (WaitForCompletionRef c f w).1 = delete key (view w);
  wait_done c f w w' key : WaitForCompletionRef c f w = (w', inl tt) -> deletes f = Some key -> view w' !! key = None;
  vm_delete_law c rg n w : view (vm_Delete c rg n w).1 = view w /\ forall f, (vm_Delete c rg n w).2 = inl f -> deletes f = Some (vm_key rg n);
  nic_delete_law c rg n w : view (nic_Delete c rg n w).1 = view w /\ forall f, (nic_Delete c rg n w).2 = inl f -> deletes f = Some (nic_key rg n);
  disk_delete_law c rg n w : view (disk_Delete c rg n w).1 = view w /\ forall f, (disk_Delete c rg n w).2 = inl f -> deletes f = Some (disk_key rg n);
  vm_get_law c rg n w : view (vm_Get c rg n w).1 = view w /\
    match (vm_Get c rg n w).2 with inl vm => vm_Name vm = Some n | inr e => notFound e = true -> view w !! vm_key rg n = None end;
  nic_get_law c rg n w : view (nic_Get c rg n w).1 = view w /\
    forall e, (nic_Get c rg n w).2 = inr e -> notFound e = true -> view w !! nic_key rg n = None;
  disk_get_law c rg n w : view (disk_Get c rg n w).1 = view w /\
    forall e, (disk_Get c rg n w).2 = inr e -> notFound e = true -> view w !! disk_key rg n = None;
  group_law c rg w : view (groups_Get c rg w).1 = view w /\
    forall e, (groups_Get c rg w).2 = inr e -> notFound e = true -> forall kind n, view w !! (kind, rg, n) = None;
  vm_list_law c rg w : view (vm_List c rg w).1 = view w /\
    forall l items n tags, (vm_List c rg w).2 = inl l -> all_items l = inl items -> view w !! vm_key rg n = Some tags ->
      exists vm, vm ∈ items /\ vm_Name vm = Some n /\ vm_Tags vm = Some tags;
  nic_list_law c rg w : view (nic_List c rg w).1 = view w;
  disk_list_law c rg w : view (disk_List c rg w).1 = view w;
  oauth_law t w : view (NewOAuthConfig t w).1 = view w;
  token_law t i s w : view (NewServicePrincipalToken t i s w).1 = view w;
  subnet_law c rg n s w : view (subnets_Get c rg n s w).1 = view w;
  image_law c l i w : view (images_Get c l i w).1 = view w;
  marketplace_law c p o n w : view (marketplace_Get c p o n w).1 = view w;
  accept_law c p o n b w : view (marketplace_Create c p o n b w).1 = view w;
  nic_result_law c f w : view (nic_Result c f w).1 = view w;
  vm_result_law c f w : view (vm_Result c f w).1 = view w }.

Section laws.
Context {W F : Type} `{!Azure W F} (view : W -> resources) (deletes : F -> option resource) `{!AzureLaws W F view deletes}.
Variable base64 : string -> string.
Variables backoff_retries backoff_retries' : nat.
Variables range range' : strmap -> list (string * string).
Hypothesis range_ok : forall m, range m ≡ₚ map_to_list m.
Hypothesis range'_ok : forall m, range' m ≡ₚ map_to_list m.
Variables deleters_schedule deleters_schedule' orphans_schedule orphans_schedule' : list nat.
Variables (spec : AzureMachineClassSpec) (CredentialsData CredentialsData' : strmap) (UserData UserData' MachineName name' : string).

(** *** Calls that change nothing *)

Definition same_resources (w w' : W) : Prop := view w' = view w.
#[local] Instance same_resources_preorder : PreOrder same_resources.
Proof. split; [by intros w|]. unfold same_resources. by intros w1 w2 w3 -> ->. Qed.

Lemma setup_same creds : preserves same_resources (setup (W := W) creds).
Proof. unfold setup. preserves_all; intros w; first [apply oauth_law|apply token_law]. Qed.

Lemma list_owners_same {A} (owner : A -> cloud W (option string)) id m items :
  (forall x, preserves same_resources (owner x)) -> preserves same_resources (list_owners spec owner id m items).
Proof. intros Ho. revert m. induction items as [|x items IH]; intros m; cbn [list_owners]; preserves_all; auto. Qed.

Lemma getRelevant_same {A} (l : sdk W azure_error (listing A)) owner id : (forall w, view (l w).1 = view w) ->
  (forall c r x, preserves same_resources (owner c r x)) -> preserves same_resources (getRelevant range' spec l owner id).
Proof. intros Hl Ho. unfold getRelevant. preserves_all; auto. by apply list_owners_same. Qed.

Lemma merge_same r source : preserves same_resources source -> preserves same_resources (merge_in (W := W) r source).
Proof. intros Hs. unfold merge_in. preserves_all. exact Hs. Qed.

(** *** Listing *)

Lemma encode_inj location a b : encodeMachineID location a = encodeMachineID location b -> a = b.
Proof. unfold encodeMachineID. intros H. by do 3 apply app_inj_l in H. Qed.

(** Every machine is under its own ID. *)
Definition keyed (m : strmap) : Prop := forall k v, m !! k = Some v -> k = encodeMachineID (az_Location spec) v.
Abbreviation listed m n := (m !! encodeMachineID (az_Location spec) n = Some n).

Lemma keyed_insert m n : keyed m -> keyed (<[encodeMachineID (az_Location spec) n := n]> m).
Proof. intros Hm k v. rewrite lookup_insert_Some. intros [[<- <-]|[_ Hk]]; [done|by apply Hm]. Qed.
Lemma keyed_keeps m k v n : keyed m -> k = encodeMachineID (az_Location spec) v -> listed m n -> listed (<[k := v]> m) n.
Proof.
  intros Hm -> Hn. destruct (decide (v = n)) as [->|Hne]; [apply lookup_insert_eq|]. rewrite lookup_insert_ne; [done|].
  intros H%encode_inj. done.
Qed.
Lemma keyed_union m1 m2 : keyed m1 -> keyed m2 -> keyed (m1 ∪ m2).
Proof. intros H1 H2 k v. rewrite lookup_union_Some_raw. intros [?|[_ ?]]; auto. Qed.
Lemma keyed_union_keeps m1 m2 n : keyed m1 -> listed m2 n -> listed (m1 ∪ m2) n.
Proof.
  intros H1 H2. apply lookup_union_Some_raw. destruct (m1 !! encodeMachineID (az_Location spec) n) as [v|] eqn:E; [left|by right].
  apply H1, encode_inj in E as Hv. by rewrite Hv.
Qed.

Lemma list_owners_keyed {A} (owner : A -> cloud W (option string)) items m w w' m' :
  keyed m -> list_owners spec owner EmptyString m items w = (w', Return m') ->
  keyed m' /\ (forall n, listed m n -> listed m' n) /\
  (forall x n, x ∈ items -> (forall w, owner x w = (w, Return (Some n))) -> listed m' n).
Proof.
  revert m w. induction items as [|x items IH]; intros m w Hm He.
  - apply cret_return in He as [_ <-]. split_and!; [done..|]. by intros x n ?%not_elem_of_nil.
  - cbn [list_owners] in He. apply cbind_return in He as (w1 & o & E & He). change (is_empty EmptyString) with true in He. cbv iota in He.
    destruct o as [n0|].
    + apply IH in He as (H1 & H2 & H3); [|by apply keyed_insert]. split_and!; [done| |].
      * intros n Hn. apply H2. by apply keyed_keeps.
      * intros y n Hy Ho. apply elem_of_cons in Hy as [->|Hy]; [|by eapply H3].
        apply H2. rewrite Ho in E. injection E as _ <-. apply lookup_insert_eq.
    + apply IH in He as (H1 & H2 & H3); [|done]. split_and!; [done..|]. intros y n Hy Ho.
      apply elem_of_cons in Hy as [->|Hy]; [|by eapply H3]. by rewrite Ho in E.
Qed.

Lemma getRelevant_keyed {A} (l : sdk W azure_error (listing A)) owner w w' m :
  getRelevant range' spec l owner EmptyString w = (w', Return m) -> keyed m.
Proof.
  unfold getRelevant. destruct (cluster_and_role _ _ _) as [c r]. destruct (_ || _ || _).
  - intros [_ <-]%cret_return. by intros k v Hk.
  - intros (w1 & x & _ & He)%cbind_return. destruct (all_items x) as [items|e]; [|done]. by apply list_owners_keyed in He as [? _].
Qed.

Lemma getRelevantVMs_lists c w w' m n : azure_valid spec -> view w !! vm_key (az_ResourceGroup spec) n = Some (az_Tags spec) ->
  getRelevantVMs range' spec c EmptyString w = (w', Return m) -> listed m n.
Proof.
  intros (_ & Hrg & _ & _ & _ & Ht) Hview. unfold getRelevantVMs, getRelevant.
  apply (tagged_perm _ _ _ (range' (az_Tags spec)).*1) in Ht; [|unfold tag_keys; by rewrite (range'_ok (az_Tags spec))].
  apply tagged_found in Ht as (cl & ro & -> & Hc0 & Hr0 & Hc & _ & Hr & _); [|done..].
  unfold is_empty. rewrite !bool_decide_false by done. cbn [orb].
  intros (w1 & l & E%cget_return & He)%cbind_return.
  destruct (vm_list_law (view := view) c (az_ResourceGroup spec) w) as [_ Hl]. rewrite E in Hl.
  destruct (all_items l) as [items|e] eqn:Ei; [|done]. destruct (Hl l items n _ eq_refl Ei Hview) as (vm & Hin & Hn & Hts).
  apply list_owners_keyed in He as (_ & _ & H3); [|by intros k v Hk]. apply (H3 vm n Hin). intros w0. unfold vm_owner. rewrite Hn, Hts.
  assert (Hv : verifyAzureTags (Some (az_Tags spec)) cl ro = true); [|by unfold mbind, cloud_bind, cderef; rewrite Hv].
  assert (Hk : forall k, k ∈ (range' (az_Tags spec)).*1 -> existsb (fun key => contains key k) (tag_keys (az_Tags spec)) = true).
  { intros k Hk. apply existsb_exists. exists k. split; [|apply contains_refl]. apply list_elem_of_In. unfold tag_keys. by rewrite <- (range'_ok (az_Tags spec)). }
  cbn [verifyAzureTags]. by rewrite !Hk.
Qed.

Lemma merge_return r (source : cloud W strmap) w w' vms : merge_in r source w = (w', Return (vms, None)) ->
  exists vms0 s w1, r = (vms0, None) /\ source w = (w1, Return s) /\ vms = s ∪ vms0.
Proof.
  unfold merge_in. destruct r as [vms0 [e|]]; [intros [_ ?]%cret_return; done|].
  intros (w1 & x & E & [_ Hx]%cret_return)%cbind_return. unfold cattempt in E. destruct (source w) as [w2 [s|e| |]]; try done.
  - injection E as <- <-. injection Hx as <-. by exists vms0, s, w2.
  - injection E as <- <-. done.
Qed.

(** *** Creation *)

Lemma cleaned_up_return {A} c vmName (p : sdk W azure_error A) w w' a :
  cleaned_up backoff_retries deleters_schedule spec c vmName p w = (w', Return a) -> p w = (w', inl a).
Proof.
  intros (w1 & r & E%ctry_return & He)%cbind_return. destruct r as [x|e].
  - by apply cret_return in He as [<- <-].
  - by apply cbind_return in He as (? & ? & _ & ?).
Qed.

(** What a successful creation leaves behind. *)
Lemma azure_created w w' id node :
  Create base64 backoff_retries deleters_schedule spec CredentialsData UserData MachineName w = (w', Return (id, node)) ->
  id = encodeMachineID (az_Location spec) (ToLower MachineName) /\
  view w' !! vm_key (az_ResourceGroup spec) (ToLower MachineName) = Some (az_Tags spec).
Proof.
  intros (w1 & [] & He & [<- Hid]%cret_return)%cbind_return. apply pair_equal_spec in Hid as [<- _]. split; [done|].
  apply cbind_return in He as (w2 & clients & _ & He). apply cbind_return in He as (w3 & subnet & _ & He).
  apply cbind_return in He as (w4 & NIC & _ & He). apply cbind_return in He as (w5 & plan & _ & He).
  apply cbind_return in He as (w6 & nic & _ & He). apply cbind_return in He as (w7 & params & [<- Hp]%cderef_return & He).
  apply cbind_return in He as (w8 & future & E%cleaned_up_return & He). apply cbind_return in He as (w9 & [] & E2%cleaned_up_return & E3%cleaned_up_return).
  apply (vm_create_law (view := view) (deletes := deletes)) in E as (Hf & _ & Hview).
  assert (H2 : view w9 = view w8).
  { pose proof (wait_law (view := view) (deletes := deletes) clients future w8) as [H2|(key & H2 & _)]; [|congruence]. by rewrite E2 in H2. }
  pose proof (vm_result_law (view := view) (deletes := deletes) clients future w9) as H3. rewrite E3 in H3. cbn in H3.
  rewrite H3, H2, Hview. unfold getVMParameters in Hp. destruct (getImageReference spec); [|done]. by injection Hp as <-.
Qed.

(** The driver keeps track of its VMs when the class is valid and the name is in lower case, as all names of
    machines are. *)
#[export] Instance azure_tracks (Hv : azure_valid spec) (Hn : ToLower MachineName = MachineName) :
  TracksVMs (azure_driver base64 backoff_retries range deleters_schedule orphans_schedule spec CredentialsData UserData MachineName)
    (azure_driver base64 backoff_retries' range' deleters_schedule' orphans_schedule' spec CredentialsData' UserData' name') MachineName (fun _ => True).
Proof.
  constructor. intros w w' id node [-> Hview]%azure_created. rewrite Hn in *. split; [done|]. intros w'' vms _.
  cbn [drv_GetVMs azure_driver]. unfold GetVMs. intros (w1 & s & E1 & He)%cbind_return.
  pose proof (preserves_attempt same_resources _ (setup_same CredentialsData') w') as H1. rewrite E1 in H1. cbn in H1.
  destruct s as [clients|e]; [|by apply cret_return in He as [_ ?]].
  apply cbind_return in He as (w2 & r1 & E2 & He). apply cbind_return in He as (w3 & r2 & E3 & He).
  apply merge_return in He as (m2 & disks & w4 & -> & Ed & ->). apply merge_return in E3 as (m1 & nics & w5 & -> & En & ->).
  apply merge_return in E2 as (m0 & vms & w6 & Hm0 & Ev & ->). injection Hm0 as <-.
  assert (Hl : listed vms MachineName) by (apply (getRelevantVMs_lists clients w1 w6); [done|by rewrite H1|done]).
  apply getRelevant_keyed in Ed, En, Ev. rewrite (right_id_L ∅ (∪)).
  assert (Hk : keyed (disks ∪ (nics ∪ vms))) by (by repeat apply keyed_union).
  split; [by repeat apply keyed_union_keeps|]. apply eq_None_not_Some. by intros [v Hv'%Hk].
Qed.
End laws.

(** *** Deletion *)

Section deletion.
Context {W F : Type} `{!Azure W F} (view : W -> resources) (deletes : F -> option resource) `{!AzureLaws W F view deletes}.
Variable backoff_retries : nat.
Variables deleters_schedule orphans_schedule : list nat.
Variables (spec : AzureMachineClassSpec) (CredentialsData : strmap).
(** The resource group and the name of the VM. *)
Variables rg_name vmName : string.

Abbreviation goroutine := (thread W azure_error).
Abbreviation gone key w := (view w !! key = None).

(** What has the name of the VM in its own, in the resource group. *)
Definition belongs (k : resource) : Prop := k.1.2 = rg_name /\ contains k.2 vmName = true.

(** What exists and does not belong to the VM stays as it is. *)
Definition spares_others (w w' : W) : Prop := forall k, ~ belongs k -> is_Some (view w !! k) -> view w' !! k = view w !! k.
(** Nothing new comes into being either. *)
Definition only_deletes (w w' : W) : Prop := spares_others w w' /\ forall k, gone k w -> gone k w'.

#[local] Instance spares_others_preorder : PreOrder spares_others.
Proof. split; [by intros w k|]. intros w1 w2 w3 H1 H2 k Hb Hs. rewrite H2; [by apply H1|done|by rewrite H1]. Qed.
#[local] Instance only_deletes_preorder : PreOrder only_deletes.
Proof.
  split; [intros w; by split|]. intros w1 w2 w3 [H1 G1] [H2 G2]. split; [by etransitivity|]. intros k Hk. by apply G2, G1.
Qed.

Lemma same_only_deletes w w' : view w' = view w -> only_deletes w w'.
Proof. intros He. split; [intros k _ _|intros k]; by rewrite He. Qed.

Lemma delete_only_deletes key w w' : belongs key -> view w' = delete key (view w) -> only_deletes w w'.
Proof.
  intros Hb He. split; intros k; rewrite He.
  - intros Hk _. apply lookup_delete_ne. by intros ->.
  - intros Hk. destruct (decide (key = k)) as [->|Hne]; [apply lookup_delete_eq|by rewrite lookup_delete_ne].
Qed.

Lemma stable_success key : stable only_deletes (fun (r : unit + azure_error) w => r = inl tt -> gone key w).
Proof. intros r w w' Hg [_ HR] Hr. by apply HR, Hg. Qed.

(** A thread that is only known to keep to the rules. *)
Abbreviation well_behaved t := (forall w, rg only_deletes (fun _ _ => True) t w).

Lemma well_behaved_bind {A B} (t : goroutine A) (k : A -> goroutine B) :
  well_behaved t -> (forall a, well_behaved (k a)) -> well_behaved (mbind k t).
Proof. intros Ht Hk w. apply (rg_bind _ (fun _ _ => True)); auto. Qed.

Lemma well_behaved_attempt {A} (t : goroutine A) : well_behaved t -> well_behaved (tattempt t).
Proof. intros Ht w. eapply rg_mono; [|by apply rg_attempt, Ht]. done. Qed.

(** A wait for the deletion of what belongs to the VM. *)
Lemma wait_rg c f w : (forall key, deletes f = Some key -> belongs key) ->
  rg only_deletes (fun r w => r = inl tt -> forall key, deletes f = Some key -> gone key w) (tget (WaitForCompletionRef c f)) w.
Proof.
  intros Hb. apply rg_get. intros w' _. split.
  - destruct (wait_law (view := view) c f w') as [He|(key & Hk & He)]; [by apply same_only_deletes|].
    eapply delete_only_deletes; [by apply Hb|done].
  - intros Hr key Hk. eapply (wait_done (deletes := deletes)); [|exact Hk].
    rewrite (surjective_pairing (WaitForCompletionRef c f w')). by rewrite Hr.
Qed.

(** What holds all along holds after any number of tries. *)
Lemma backoff_rg n op (G : W -> Prop) w : G w -> (forall w, G w -> rg only_deletes (fun _ w => G w) op w) -> rg only_deletes (fun _ w => G w) (backoff_WaitUntil n op) w.
Proof.
  intros HG Hop. revert w HG. induction n as [|n IH]; intros w HG; cbn [backoff_WaitUntil].
  - apply (rg_bind _ (fun r w => match r with inl _ => G w | inr _ => False end)); [|intros r w1 Hw|done].
    + eapply rg_mono; [|by apply rg_attempt, Hop]. by intros [x|e].
    + by destruct r.
  - apply (rg_bind _ (fun r w => match r with inl _ => G w | inr _ => False end)); [|intros r w1 Hw|done].
    + eapply rg_mono; [|by apply rg_attempt, Hop]. by intros [x|e].
    + destruct r; [done|by apply IH].
Qed.

Lemma checkNICStatus_gone c n b key w : gone key w -> rg only_deletes (fun _ w => gone key w) (checkNICStatus (W := W) c rg_name n b) w.
Proof.
  intros Hg. apply (rg_bind _ (fun _ w => gone key w)); [|intros r w1 Hw|done].
  - eapply rg_mono; [|apply rg_try with (Q := fun _ w => gone key w)].
    + by intros [x|e].
    + intros w1 [_ HR]. destruct (nic_get_law (view := view) c rg_name n w1) as [He _]. split; [by apply same_only_deletes|].
      rewrite He. by apply HR.
  - destruct b, r as [nic|e]; try destruct (ni_ID nic); try destruct (isResourceNotFoundError e); done.
Qed.

Lemma deleteNIC_rg c n w : contains n vmName = true ->
  rg only_deletes (fun r w => r = inl tt -> gone (nic_key rg_name n) w) (deleteNIC backoff_retries c rg_name n) w.
Proof.
  intros Hb. apply (rg_bind _ (fun r _ => forall f, r = inl f -> deletes f = Some (nic_key rg_name n))); [|intros f w1 Hf|done].
  - apply rg_get. intros w1 _. destruct (nic_delete_law (view := view) (deletes := deletes) c rg_name n w1) as [H1 H2].
    split; [by apply same_only_deletes|exact H2].
  - specialize (Hf f eq_refl). apply (rg_bind _ (fun r w => r = inl tt -> gone (nic_key rg_name n) w)); [|intros [] w2 Hw|done].
    + eapply rg_mono; [|apply wait_rg]; [by intros r w2 Hr Hu; apply Hr|]. intros key Hk. rewrite Hf in Hk. by injection Hk as <-.
    + eapply rg_mono; [|apply (backoff_rg _ _ (fun w => gone (nic_key rg_name n) w))]; [by intros r w3 Hg _|by apply Hw|].
      intros w3 Hg. by apply checkNICStatus_gone.
Qed.

Lemma deleteDisk_rg c n w : contains n vmName = true ->
  rg only_deletes (fun r w => r = inl tt -> gone (disk_key rg_name n) w) (deleteDisk c rg_name n) w.
Proof.
  intros Hb. apply (rg_bind _ (fun r _ => forall f, r = inl f -> deletes f = Some (disk_key rg_name n))); [|intros f w1 Hf|done].
  - apply rg_get. intros w1 _. destruct (disk_delete_law (view := view) (deletes := deletes) c rg_name n w1) as [H1 H2].
    split; [by apply same_only_deletes|exact H2].
  - specialize (Hf f eq_refl). eapply rg_mono; [|apply wait_rg]; [by intros r w2 Hr Hu; apply Hr|].
    intros key Hk. rewrite Hf in Hk. by injection Hk as <-.
Qed.

(** A deleter that succeeds has seen that the resource is gone. *)
Lemma delete_detached_rg what name holder deletion key w :
  rg only_deletes (fun r w => forall e, r = inr e -> notFound e = true -> gone key w) holder w ->
  (forall w, rg only_deletes (fun r w => r = inl tt -> gone key w) deletion w) ->
  rg only_deletes (fun r w => r = inl tt -> gone key w) (delete_detached what name holder deletion) w.
Proof.
  intros Hh Hd. apply (rg_bind _ (fun r w => match r with inl x => forall e, x = inr e -> notFound e = true -> gone key w | inr _ => False end));
    [|intros r w1 Hw|done].
  - eapply rg_mono; [|by apply rg_attempt, Hh]. by intros [x|e].
  - destruct r as [vm|e].
    + destruct (is_empty vm); [apply Hd|done].
    + destruct (notFound e) eqn:He; [|done]. intros _. by apply (Hw e).
Qed.

Lemma nicDeleter_rg c n w : contains n vmName = true ->
  rg only_deletes (fun r w => r = inl tt -> gone (nic_key rg_name n) w) (nicDeleter backoff_retries c rg_name n) w.
Proof.
  intros Hb. apply delete_detached_rg; [|intros w1; by apply deleteNIC_rg].
  apply (rg_bind _ (fun r w => forall e, r = inr e -> notFound e = true -> gone (nic_key rg_name n) w)).
  - apply rg_get. intros w1 _. destruct (nic_get_law (view := view) c rg_name n w1) as [H1 H2]. split; [by apply same_only_deletes|].
    rewrite H1. exact H2.
  - intros nic w1 _. destruct (ni_VirtualMachine nic) as [[id|]|]; done.
  - intros e w1 Hw e' [= <-]. by apply Hw.
Qed.

Lemma diskDeleter_rg c n w : contains n vmName = true ->
  rg only_deletes (fun r w => r = inl tt -> gone (disk_key rg_name n) w) (getDeleterForDisk c rg_name n) w.
Proof.
  intros Hb. apply delete_detached_rg; [|intros w1; by apply deleteDisk_rg].
  apply (rg_bind _ (fun r w => forall e, r = inr e -> notFound e = true -> gone (disk_key rg_name n) w)).
  - apply rg_get. intros w1 _. destruct (disk_get_law (view := view) c rg_name n w1) as [H1 H2]. split; [by apply same_only_deletes|].
    rewrite H1. exact H2.
  - intros d w1 _. done.
  - intros e w1 Hw e' [= <-]. by apply Hw.
Qed.

Lemma deletion_well_behaved {A} (t : goroutine A) (Q : A + azure_error -> W -> Prop) : (forall w, rg only_deletes Q t w) -> well_behaved t.
Proof. intros Ht w. eapply rg_mono; [|by apply Ht]. done. Qed.

Lemma delete_orphans_rg names deletion : (forall n, contains n vmName = true -> well_behaved (deletion n)) ->
  well_behaved (delete_orphans vmName names deletion).
Proof.
  intros Hd. unfold delete_orphans. generalize tt at 1. induction names as [|name names IH]; intros u; [done|].
  apply well_behaved_bind; [|intros; apply IH]. destruct name as [n|]; [|done]. destruct (contains n vmName) eqn:E; [|done].
  apply well_behaved_bind; [by apply well_behaved_attempt, Hd|]. intros [x|e]; [done|]. by destruct (notFound e).
Qed.

Lemma retry_well_behaved fn n : well_behaved fn -> well_behaved (retry fn n).
Proof.
  intros Hf. induction n as [|n IH]; cbn [retry]; (apply well_behaved_bind; [by apply well_behaved_attempt|]); intros [x|e]; try done.
  destruct n; [done|apply IH].
Qed.

Lemma orphans_rg c w : rg_all only_deletes [fun _ _ => True; fun _ _ => True]
  [retry (checkOrphanNics backoff_retries c rg_name vmName) 3; retry (checkOrphanDisks c rg_name vmName) 3] w.
Proof.
  enough (H : well_behaved (checkOrphanNics backoff_retries c rg_name vmName) /\ well_behaved (checkOrphanDisks c rg_name vmName)).
  { destruct H. constructor; [by apply retry_well_behaved|]. constructor; [by apply retry_well_behaved|constructor]. }
  clear w.
  split; apply well_behaved_bind.
  - intros w. apply rg_get. intros w1 _. split; [|done]. apply same_only_deletes, nic_list_law.
  - intros l. apply delete_orphans_rg. intros n Hn. eapply deletion_well_behaved. intros w. by apply deleteNIC_rg.
  - intros w. apply rg_get. intros w1 _. split; [|done]. apply same_only_deletes, disk_list_law.
  - intros l. apply delete_orphans_rg. intros n Hn. eapply deletion_well_behaved. intros w. by apply deleteDisk_rg.
Qed.

(** All functions that run in parallel, whatever the schedule. *)
Lemma runInParallel_rg schedule Qs funcs w : Forall (stable only_deletes) Qs -> rg_all only_deletes Qs funcs w ->
  only_deletes w (runInParallel schedule funcs w).1 /\
  ((runInParallel schedule funcs w).2 = Return tt -> Forall (fun Q => Q (inl tt) (runInParallel schedule funcs w).1) Qs).
Proof.
  intros Hst Hts. destruct (rg_threads only_deletes Qs schedule funcs w Hst Hts) as [H1 H2]. unfold runInParallel.
  destruct (run_threads schedule funcs w) as [w' [rs|]]; cbn [fst snd] in *; [|done]. split; [done|]. specialize (H2 rs eq_refl).
  intros Hr. assert (He : Forall (fun r => r = inl tt) rs).
  { destruct (omap _ rs) eqn:Em; [|done]. clear -Em. induction rs as [|r rs IH]; [constructor|]. cbn in Em.
    destruct r as [[]|e]; [|done]. constructor; [done|]. by apply IH. }
  clear -H2 He. induction H2 as [|Q r Qs rs HQ _ IH]; [constructor|]. apply Forall_cons in He as [-> He]. constructor; [done|by apply IH].
Qed.

(** *** The VM itself *)

Lemma deleteVM_spec c w : contains vmName vmName = true ->
  spares_others w (deleteVM c rg_name vmName w).1 /\
  ((deleteVM c rg_name vmName w).2 = Return tt -> gone (vm_key rg_name vmName) (deleteVM c rg_name vmName w).1).
Proof.
  intros Hb. unfold deleteVM, cget, ctry, mbind, cloud_bind.
  destruct (vm_delete_law (view := view) (deletes := deletes) c rg_name vmName w) as [H1 H2].
  destruct (vm_Delete c rg_name vmName w) as [w1 [f|e]]; cbn [fst snd] in *.
  - specialize (H2 f eq_refl). cbn [mret cloud_ret]. pose proof (wait_done (view := view) (deletes := deletes) c f w1) as Hd.
    assert (Hw : forall k, k <> vm_key rg_name vmName -> view (WaitForCompletionRef c f w1).1 !! k = view w1 !! k).
    { intros k Hk. destruct (wait_law (view := view) (deletes := deletes) c f w1) as [He|(key & Hkey & He)]; [by rewrite He|].
      rewrite He. rewrite H2 in Hkey. injection Hkey as <-. by apply lookup_delete_ne. }
    destruct (WaitForCompletionRef c f w1) as [w2 r]; cbn [fst snd] in *.
    assert (Hs : forall o : outcome unit, spares_others w (w2, o).1).
    { intros o k Hk _. cbn [fst]. rewrite <- H1. apply Hw. intros ->. by apply Hk. }
    destruct r as [[]|e]; (split; [apply Hs|]); [|done]. intros _. by eapply Hd.
  - cbn [cthrow]. split; [|done]. intros k _ _. cbn [fst]. by rewrite H1.
Qed.

Lemma detachment_spares c vm : vm_Name vm = Some vmName -> contains vmName vmName = true ->
  preserves spares_others (waitForDataDiskDetachment c rg_name vm).
Proof.
  intros Hn Hb w. unfold waitForDataDiskDetachment, mbind, cloud_bind, cderef. rewrite Hn. destruct (vm_DataDisks vm) as [disks|]; [|reflexivity].
  case_bool_decide; [reflexivity|]. set (vm' := mkAzureVM _ _ _). unfold cget, ctry, mbind, cloud_bind.
  assert (Ho : forall w1, others_stay (vm_key rg_name vmName) (view w) (view w1) -> spares_others w w1).
  { intros w1 Hw k Hk Hs. apply Hw; [|done]. intros ->. by apply Hk. }
  pose proof (vm_create_law (view := view) (deletes := deletes) c rg_name vmName (Detached vm') w) as Hl.
  pose proof (vm_create_fails (view := view) (deletes := deletes) c rg_name vmName (Detached vm') w) as Hl'.
  destruct (vm_CreateOrUpdate c rg_name vmName (Detached vm') w) as [w1 [f|e]]; cbn [mret cloud_ret].
  - destruct (Hl w1 f eq_refl) as (Hf & Hs & _). apply Ho in Hs.
    destruct (wait_law (view := view) (deletes := deletes) c f w1) as [He|(key & Hk & _)]; [|congruence].
    assert (Hw : spares_others w (WaitForCompletionRef c f w1).1) by (intros k Hk Hk'; rewrite He; by apply Hs).
    destruct (WaitForCompletionRef c f w1) as [w2 [[]|e]]; exact Hw.
  - apply Ho. by eapply Hl'.
Qed.

Lemma delete_vm_first_spec c w : contains vmName vmName = true ->
  spares_others w (delete_vm_first c rg_name vmName w).1 /\
  ((delete_vm_first c rg_name vmName w).2 = Return tt -> gone (vm_key rg_name vmName) (delete_vm_first c rg_name vmName w).1).
Proof.
  intros Hb. destruct (delete_vm_first c rg_name vmName w) as [w' o'] eqn:He. cbn [fst snd]. revert He.
  unfold delete_vm_first, ctry, mbind at 1, cloud_bind at 1.
  destruct (vm_get_law (view := view) c rg_name vmName w) as [H1 H2]. destruct (vm_Get c rg_name vmName w) as [w1 [vm|e]]; cbn [fst snd] in *.
  - assert (Hs1 : spares_others w w1) by (intros k _ _; by rewrite H1).
    pose proof (preserves_attempt spares_others _ (detachment_spares c vm H2 Hb) w1) as Hs2.
    unfold mbind at 1, cloud_bind at 1. destruct (cattempt _ w1) as [w2 o]. cbn [fst] in Hs2.
    assert (Hs3 : spares_others w w2) by (by etransitivity).
    destruct o as [o|e| |]; try (by intros [= <- <-]). destruct (deleteVM_spec c w2 Hb) as [Hs4 Hg]. unfold mbind at 1, cloud_bind at 1.
    destruct (deleteVM c rg_name vmName w2) as [w3 o3]. cbn [fst snd] in *.
    assert (Hs5 : spares_others w w3) by (by etransitivity).
    destruct o3 as [[]|e| |]; try (by intros [= <- <-]). rewrite H2. intros [= <- <-]. split; [done|]. intros _. by apply Hg.
  - assert (Hs1 : spares_others w w1) by (intros k _ _; by rewrite H1).
    destruct (notFound e); intros [= <- <-]; (split; [done|]); [|done]. intros _. rewrite H1. by apply H2.
Qed.

(** *** All of it *)

(** The resources that are named after the VM. *)
Definition vm_resources : list resource :=
  vm_key rg_name vmName :: nic_key rg_name (dependencyNameFromVMName vmName nicSuffix) ::
  map (disk_key rg_name) (dependencyNameFromVMName vmName diskSuffix :: data_disk_names spec vmName).

Lemma disk_names_contain n : n ∈ dependencyNameFromVMName vmName diskSuffix :: data_disk_names spec vmName -> contains n vmName = true.
Proof.
  rewrite elem_of_cons. intros [->|Hn]; [apply contains_self|].
  unfold data_disk_names, getAzureDataDiskNames in Hn. apply elem_of_lookup_imap in Hn as (i & d & -> & _). apply contains_self.
Qed.

Lemma deleters_rg c w :
  rg_all only_deletes ((fun r w => r = inl tt -> gone (nic_key rg_name (dependencyNameFromVMName vmName nicSuffix)) w) ::
      map (fun n r w => r = inl tt -> gone (disk_key rg_name n) w) (dependencyNameFromVMName vmName diskSuffix :: data_disk_names spec vmName))
    (nicDeleter backoff_retries c rg_name (dependencyNameFromVMName vmName nicSuffix) ::
      map (getDeleterForDisk c rg_name) (dependencyNameFromVMName vmName diskSuffix :: data_disk_names spec vmName)) w.
Proof.
  constructor; [apply nicDeleter_rg, contains_self|]. apply Forall2_fmap_2, Forall2_same_length_lookup. split; [done|].
  intros i n n' H1 H2. rewrite H1 in H2. injection H2 as <-. apply diskDeleter_rg, disk_names_contain. by eapply list_elem_of_lookup_2.
Qed.

Lemma deleteVMNicDisks_spec c w :
  let d := deleteVMNicDisks backoff_retries deleters_schedule c rg_name vmName (dependencyNameFromVMName vmName nicSuffix)
    (dependencyNameFromVMName vmName diskSuffix) (data_disk_names spec vmName) w in
  spares_others w d.1 /\ (d.2 = Return tt -> Forall (fun key => gone key d.1) vm_resources).
Proof.
  intros d. unfold d, deleteVMNicDisks, mbind, cloud_bind. destruct (delete_vm_first_spec c w (contains_refl _)) as [Hs Hg].
  destruct (delete_vm_first c rg_name vmName w) as [w1 [[]|e| |]]; cbn [fst snd] in *; [|done..].
  pose proof (deleters_rg c w1) as Hrg. eapply runInParallel_rg in Hrg as [[Hs2 Hg2] Hall].
  2: { constructor; [apply stable_success|]. apply Forall_map, Forall_true. intros n. apply stable_success. }
  split; [by etransitivity|]. intros Hr. specialize (Hall Hr). apply Forall_cons in Hall as [Hnic Hdisks].
  constructor; [by apply Hg2, Hg|]. constructor; [by apply Hnic|]. rewrite Forall_map in Hdisks. apply Forall_map.
  eapply Forall_impl; [exact Hdisks|]. intros n Hn. by apply Hn.
Qed.

(** C20: whatever the schedules and however it ends, a deletion leaves alone what exists in other resource
    groups and what does not have the name of the VM in its own; and when it ends without an error, the VM,
    its network interface, its system disk and its data disks are gone. *)
Theorem azure_delete_complete machineID w : rg_name = az_ResourceGroup spec -> vmName = decodeMachineID machineID ->
  let d := Delete backoff_retries deleters_schedule orphans_schedule spec CredentialsData machineID w in
  spares_others w d.1 /\ (d.2 = Return tt -> Forall (fun key => gone key d.1) vm_resources).
Proof.
  intros Hrg Hvm d. destruct d as [w' o'] eqn:Hd. cbn [fst snd]. revert Hd. unfold d, Delete, mbind at 1, cloud_bind at 1. clear d.
  assert (Hs : spares_others w (setup CredentialsData w).1).
  { intros k _ _. pose proof (setup_same view deletes CredentialsData w) as Hsame. unfold same_resources in Hsame. by rewrite Hsame. }
  destruct (setup CredentialsData w) as [w1 o1]. cbn [fst] in Hs. destruct o1 as [clients|e| |]; try (by intros [= <- <-]).
  rewrite <- Hrg, <- Hvm. unfold ctry, mbind at 1, cloud_bind at 1.
  destruct (group_law (view := view) clients rg_name w1) as [H1 H2].
  destruct (groups_Get clients rg_name w1) as [w2 g]. cbn [fst snd] in *.
  assert (Hs2 : spares_others w w2) by (intros k Hk Hk'; rewrite H1; by apply Hs).
  destruct g as [u|e].
  - unfold mbind at 1, cloud_bind at 1, delete_resources. rewrite <- Hrg. destruct (deleteVMNicDisks_spec clients w2) as [Hs3 Hg].
    destruct (deleteVMNicDisks _ _ _ _ _ _ _ _ w2) as [w3 o3]. cbn [fst snd] in *.
    assert (Hs4 : spares_others w w3) by (by etransitivity).
    destruct o3 as [[]|e| |]; try (by intros [= <- <-]). specialize (Hg eq_refl).
    pose proof (orphans_rg clients w3) as Ho. eapply runInParallel_rg in Ho as [[Hs5 Hg5] _]; [|by repeat constructor].
    intros Hr. rewrite Hr in Hs5, Hg5. cbn [fst] in *. split; [by etransitivity|]. intros _.
    eapply Forall_impl; [exact Hg|]. intros k. apply Hg5.
  - destruct (notFound e) eqn:He; intros [= <- <-]; (split; [done|]); [|done]. intros _. rewrite <- H1 in H2.
    assert (Hall : forall kind n, gone (kind, rg_name, n) w2) by (intros kind n; by apply (H2 e)).
    constructor; [apply Hall|]. constructor; [apply Hall|]. apply Forall_map, Forall_true. intros n. apply Hall.
Qed.
End deletion.

(** ** A simulated Azure, for which the laws hold *)

Definition azure_missing : azure_error := DetailedError "404" (Some 404) "not found".
Definition named (kind rg : string) (w : resources) : list (string * strmap) :=
  map (fun kv => (kv.1.2, kv.2)) (filter (fun kv => kv.1.1 = (kind, rg)) (map_to_list w)).
Definition accept_deletion (key : resource) : sdk resources azure_error (option resource) := fun w =>
  (w, match w !! key with Some _ => inl (Some key) | None => inr azure_missing end).

#[export] Instance simulated_azure : Azure resources (option resource) := {|
  NewOAuthConfig _ w := (w, inl tt);
  NewServicePrincipalToken _ _ _ w := (w, inl tt);
  groups_Get _ _ w := (w, inl tt);
  subnets_Get _ _ _ name w := (w, inl name);
  WaitForCompletionRef _ f w := (match f with Some key => delete key w | None => w end, inl tt);
  nic_Get _ rg n w :=
    (w, match w !! nic_key rg n with Some tags => inl (mkAzureNic (Some n) (Some n) (Some tags) None) | None => inr azure_missing end);
  nic_CreateOrUpdate _ rg n p w := (<[nic_key rg n := np_Tags p]> w, inl None);
  nic_Result _ _ w := (w, inl (mkAzureNic (Some "nic") None None None));
  nic_List _ rg w := (w, inl (map (fun nt => mkAzureNic (Some nt.1) (Some nt.1) (Some nt.2) None) (named "networkInterfaces" rg w), []));
  nic_Delete _ rg n := accept_deletion (nic_key rg n);
  images_Get _ _ _ w := (w, inl None);
  marketplace_Get _ _ _ _ w := (w, inl None);
  marketplace_Create _ _ _ _ _ w := (w, inl tt);
  vm_Get _ rg n w :=
    (w, match w !! vm_key rg n with Some tags => inl (mkAzureVM (Some n) (Some tags) (Some [])) | None => inr azure_missing end);
  vm_CreateOrUpdate _ rg n p w :=
    match p with
    | NewVM p => (<[vm_key rg n := vp_Tags p]> (w ∪ {[ disk_key rg (vp_OsDiskName p) := vp_Tags p ]}), inl None)
    | Detached _ => (w, inl None)
    end;
  vm_Result _ _ w := (w, inl tt);
  vm_List _ rg w := (w, inl (map (fun nt => mkAzureVM (Some nt.1) (Some nt.2) (Some [])) (named "virtualMachines" rg w), []));
  vm_Delete _ rg n := accept_deletion (vm_key rg n);
  disk_Get _ rg n w :=
    (w, match w !! disk_key rg n with Some tags => inl (mkAzureDisk (Some n) (Some tags) "Linux" None) | None => inr azure_missing end);
  disk_List _ rg w := (w, inl (map (fun nt => mkAzureDisk (Some nt.1) (Some nt.2) "Linux" None) (named "disks" rg w), []));
  disk_Delete _ rg n := accept_deletion (disk_key rg n) |}.

Lemma accept_deletion_spec key w : (accept_deletion key w).1 = w /\ forall f, (accept_deletion key w).2 = inl f -> f = Some key.
Proof. split; [done|]. unfold accept_deletion. cbn [snd]. destruct (w !! key); congruence. Qed.

#[export] Instance simulated_azure_laws : AzureLaws resources (option resource) (fun w => w) (fun f => f).
Proof.
  split; try done; try (intros; apply accept_deletion_spec).
  - intros c rg n p w w' f H. destruct p as [p|vm]; injection H as <- <-; (split; [done|]).
    + split; [|apply lookup_insert_eq]. intros k Hk [v Hv]. rewrite lookup_insert_ne by done. rewrite Hv. by apply lookup_union_Some_l.
    + split; [|done]. by intros k _ _.
  - intros c rg n p w w' e H. by destruct p.
  - intros c rg n p w. split; [|by intros f [= <-]]. intros k Hk _. by apply lookup_insert_ne.
  - intros c [key|] w; [right; by exists key|by left].
  - intros c f w w' key H ->. injection H as <-. apply lookup_delete_eq.
  - intros c rg n w. split; [done|]. cbn. by destruct (w !! vm_key rg n).
  - intros c rg n w. split; [done|]. cbn. by destruct (w !! nic_key rg n).
  - intros c rg n w. split; [done|]. cbn. by destruct (w !! disk_key rg n).
  - intros c rg w. split; [done|]. intros l items n tags [= <-] [= <-] Hw. exists (mkAzureVM (Some n) (Some tags) (Some [])). split; [|done]. apply list_elem_of_fmap.
    exists (n, tags). split; [done|]. apply list_elem_of_fmap. exists (vm_key rg n, tags). split; [done|]. apply list_elem_of_filter.
    split; [done|]. by apply elem_of_map_to_list.
Qed.

(** *** What the driver takes for its own *)

(** The deletion of one machine takes the interface of another one whose name contains that of the first. *)
Example orphan_check_takes_others :
  let w : resources := {[ nic_key "rg" "m10-nic" := ∅ ]} in
  (trun (checkOrphanNics (W := resources) 0 (mkClients "" "" "" "") "rg" "m1") w).1 = ∅.
Proof. vm_compute. reflexivity. Qed.

(** The VMs of a cluster are taken for those of another one whose name is a part of its name. *)
Example tags_of_another_cluster :
  verifyAzureTags (Some {[ "kubernetes.io-cluster-shoot2" := "1"; "kubernetes.io-role-node" := "1" ]}) "kubernetes.io-cluster-shoot" "kubernetes.io-role-node" = true.
Proof. vm_compute. reflexivity. Qed.

(** ** Witnesses *)

Definition sample_azure : AzureMachineClassSpec :=
  mkAzureSpec "westeurope" {[ "kubernetes.io-cluster-shoot" := "1"; "kubernetes.io-role-node" := "1" ]}
    (mkAzureProperties (mkAzureHardware "Standard_D2")
      (mkAzureStorage (mkAzureImage EmptyString (Some "a:b:c:d")) (mkAzureOSDisk EmptyString EmptyString (mkAzureManagedDisk EmptyString EmptyString) 30 "FromImage")
        [mkAzureDataDisk "data" None EmptyString "Standard" 20])
      (mkAzureOSProfile EmptyString "core" EmptyString EmptyString (mkAzureLinux true (mkAzureSSH (mkAzureSSHPublicKey "path" "key"))))
      (mkAzureNetwork (mkAzureNIC EmptyString None) None) None None (Some 1) None)
    "rg" (mkAzureSubnet "vnet" None "subnet").

Abbreviation azure_before := ({[ vm_key "rg" "m1" := ∅; nic_key "rg" "m1-nic" := ∅; disk_key "rg" "m1-os-disk" := ∅; disk_key "rg" "m1-data-0-data-disk" := ∅;
  nic_key "rg" "m2-nic" := ∅ ]} : resources).
Abbreviation azure_after := (Delete 3 [1; 0; 1; 2; 0; 1]%nat [1; 0]%nat sample_azure ∅ "azure:///westeurope/m1" azure_before).

Lemma azure_delete_complete_witness : azure_after.2 = Return tt /\ azure_after.1 !! nic_key "rg" "m1-nic" = None /\
  azure_after.1 !! nic_key "rg" "m2-nic" = azure_before !! nic_key "rg" "m2-nic".
Proof.
  assert (Hr : azure_after.2 = Return tt) by (vm_compute; reflexivity). split; [exact Hr|].
  destruct (azure_delete_complete (fun w => w) (fun f => f) 3 [1; 0; 1; 2; 0; 1]%nat [1; 0]%nat sample_azure ∅ "rg" "m1" "azure:///westeurope/m1"
    azure_before eq_refl eq_refl) as [Hs Hg].
  split.
  - specialize (Hg Hr). rewrite Forall_forall in Hg. apply Hg. right. left.
  - apply Hs; [|by eexists]. intros [_ Hc]. discriminate Hc.
Defined.
