(* ===== verification/InTreeDrain.v ===== *)
(** * The drain of the in-tree machine controller (pkg/controller/drain.go)

    The older drain: a refused eviction is always tried again, a pod with volumes only waits for its volumes
    to be detached, and the node is looked at once more after it was cordoned, since the pods of a node that
    has not been ready for long are not worth evicting.  The rest is as in the provider's drain, of which
    the file is an earlier copy (DrainCore.v). *)
From Stdlib Require Import ZArith Lia Ascii String.
From stdpp Require Import base gmap strings list sorting.
From S2P Require Import Validation ClassValidation Cloud CloudAWS CloudPacket CloudAlicloud CloudGCP CloudOpenStack CloudAzure.
From S2P Require Import Prelude GoLib Types Labels Prog Samples NodeOps ClassSpecs Driver MachineUtil MachineDeletion InTreeMachine DrainCore.
Open Scope Z_scope.

(** ** Options *)

(** What both drains have -- here there is no timeout for attachments and no handler --, how long the node
    may have been not ready, and the driver. *)
Record InTreeOptions := mkInTree { common : Options; nodeNotReadyDuration : Z; option_Driver : InTreeDriver }.

Definition NewDrainOptions (timeout maxEvictRetries pvDetachTimeout : Z) (nodeName : string) (notReady gracePeriodSeconds : Z)
    (forceDeletePods ignorePodsWithoutControllers ignoreDaemonsets deleteLocalData : bool) (driver : InTreeDriver) : InTreeOptions :=
  mkInTree
    (mkOptions (mkDrainOptions timeout maxEvictRetries pvDetachTimeout 0 nodeName forceDeletePods) gracePeriodSeconds
      ignorePodsWithoutControllers ignoreDaemonsets deleteLocalData false)
    (if bool_decide (notReady = 0) then 5 * Minute else notReady) driver.

(** The drain that the machine controller asks for. *)
Definition machine_drain (options : InTreeDrainOptions) : InTreeOptions :=
  NewDrainOptions (io_Timeout options) (io_MaxEvictRetries options) (io_PvDetachTimeout options) (io_nodeName options) (5 * Minute) (-1)
    (io_ForceDeletePods options) true true true (io_Driver options).

(** The method of the driver: which one it is follows from the kind of the class.  [url_Parse]: scheme and path. *)
Definition driver_GetVolNames (url_Parse : string -> result (string * string)) (driver : InTreeDriver) : list PersistentVolumeSpec -> list string * option error :=
  let kind := dv_classKind driver in
  if bool_decide (kind = OpenStackMachineClassKind) then CloudOpenStack.GetVolNames
  else if bool_decide (kind = AWSMachineClassKind) then CloudAWS.GetVolNames url_Parse
  else if bool_decide (kind = AzureMachineClassKind) then CloudAzure.GetVolNames
  else if bool_decide (kind = GCPMachineClassKind) then CloudGCP.GetVolNames
  else if bool_decide (kind = AlicloudMachineClassKind) then CloudAlicloud.GetVolNames
  else if bool_decide (kind = PacketMachineClassKind) then CloudPacket.GetVolNames
  else fake_GetVolNames.

Section drain.
Variable o : InTreeOptions.
Variable url_Parse : string -> result (string * string).
Variable regexp_MatchString : string -> string -> bool.
Variable range_statuses : podStatuses -> list (string * list string).
Variable range_volumes : podStatuses -> list (string * list string).
Variable arrival : list (option error) -> list (option error).
Variable poll_checks : Z -> Z -> nat.
(** Fuel of the wait for volumes, which ends by the clock. *)
Variable fuel : nat.
Context `{!GoSort}.

Abbreviation options := (op_drain (common o)).
Abbreviation nodeName := (do_nodeName options).

(** ** Pods with volumes *)

Definition getPvs (pod : Pod) : prog (list string) := getPVList pod.

Definition getVolIDsFromDriver (pvNames : list string) : prog (list string * option error) :=
  let! pvSpecs := for_fold pvNames [] (fun pvSpecs pvName =>
    let! pv := get_retrying GetPvDetailsMaxRetries (call_try (ListerGetPersistentVolume pvName)) in
    Ret (pvSpecs ++ option_list pv)) in
  Ret (driver_GetVolNames url_Parse (option_Driver o) pvSpecs).

(** The volumes of pods whose volumes the driver has no names for are not waited for. *)
Definition doAccountingOfPvs (pods : list Pod) : prog (gmap string (list string)) :=
  let! pvMap := for_fold pods ∅ (fun pvMap pod =>
    let! podPVs := getPvs pod in
    Ret (<[getPodKey pod := podPVs]> pvMap)) in
  for_fold (range_volumes (filterSharedPVs range_volumes pvMap)) ∅ (fun volMap kv =>
    let! r := getVolIDsFromDriver kv.2 in
    match r.2 with
    | Some _ => Ret volMap
    | None => Ret (<[kv.1 := r.1]> volMap)
    end).

Definition waitForDetach (deadline : Z) (volumeIDs : list string) : prog (option error) :=
  if bool_decide (volumeIDs = []) || bool_decide (nodeName = EmptyString) then Ret None
  else detach_loop (common o) regexp_MatchString fuel deadline volumeIDs.

Definition evict_pod_with_pv (attemptEvict : bool) (mainContext : Z) (volMap : gmap string (list string)) (policyGroupVersion : string)
    (pod : Pod) : prog pv_outcome :=
  let! r := (if attemptEvict then evictPod (common o) pod policyGroupVersion else deletePod pod) in
  match r with
  | Err err =>
      if attemptEvict && IsTooManyRequests err then Ret TryAgain
      else if IsNotFound err then Ret (Reported None)
      else Ret TryAgain
  | Ok _ =>
      let! ctx := context_WithTimeout mainContext (getTerminationGracePeriod pod + do_PvDetachTimeout options) in
      let! err := waitForDetach ctx (default [] (volMap !! getPodKey pod)) in
      match err with
      | Some err => if IsNotFound err then Ret NodeGone else Ret (Reported (Some err))
      | None => Ret (Reported None)
      end
  end.

#[local] Instance in_tree_steps : DrainSteps (list string) := {|
  refusal := fun _ => Ret None; accounting := doAccountingOfPvs; evict_one := evict_pod_with_pv |}.

(** ** The drain *)

Definition evictPodsWithPv := DrainCore.evictPodsWithPv (common o).
Definition evictPodWithoutPVInternal := DrainCore.evictPodWithoutPVInternal (common o) poll_checks.
Definition deleteOrEvictPodsSimple := DrainCore.deleteOrEvictPodsSimple (common o) range_statuses arrival poll_checks.

(** Whether the node has not been ready for longer than is waited for. *)
Fixpoint not_ready_for_long (conditions : list NodeCondition) : prog bool :=
  match conditions with
  | [] => Ret false
  | condition :: conditions =>
      if bool_decide (nc_Type condition = NodeReady) && negb (bool_decide (nc_Status condition = ConditionTrue)) then
        let! t := now in
        if nodeNotReadyDuration o <? t - nc_LastTransitionTime condition then Ret true else not_ready_for_long conditions
      else not_ready_for_long conditions
  end.

Definition drain_ready (drainStartedOn : Z) : prog unit :=
  let! r := call_try (GetNode nodeName false) in
  match r with
  | Err err => if IsNotFound err then Ret tt else Throw err
  | Ok node =>
      let! skip := not_ready_for_long (n_Conditions node) in
      if (skip : bool) then Ret tt else deleteOrEvictPodsSimple drainStartedOn
  end.

Definition RunDrain : prog unit :=
  let! drainStartedOn := now in
  do! RunCordonOrUncordon (common o) true in
  drain_ready drainStartedOn.

(** ** What the core relies on *)

Lemma accounting_emits (P : event -> Prop) pods : (forall e, harmless e -> patient e -> P e) -> emits P (doAccountingOfPvs pods).
Proof.
  intros HP. assert (Hr : forall A n (get : prog (result A)), emits P get -> emits P (get_retrying n get)).
  { intros A n get Hg. induction n; cbn [get_retrying]; emits_all; try done. by apply HP. }
  unfold doAccountingOfPvs, getPvs, getPVList, getVolIDsFromDriver. emits_all; apply Hr; emits_all; by apply HP.
Qed.

Lemma accounting_silent pods : no_throw (doAccountingOfPvs pods).
Proof. unfold doAccountingOfPvs, getPvs, getPVList, getVolIDsFromDriver. no_throw_all; apply no_throw_retrying; no_throw_all. Qed.

Lemma one_silent attemptEvict mainContext volMap gv pod : no_throw (evict_pod_with_pv attemptEvict mainContext volMap gv pod).
Proof.
  unfold evict_pod_with_pv, waitForDetach, context_WithTimeout, evictPod, deletePod. no_throw_all; apply no_throw_detach.
Qed.

Lemma one_on_pods pods attemptEvict mainContext volMap gv pod : pod ∈ pods ->
  emits (on_pods pods) (evict_pod_with_pv attemptEvict mainContext volMap gv pod).
Proof.
  intros Hp. assert (Hd : forall n d l, emits (on_pods pods) (detach_loop (common o) regexp_MatchString n d l)).
  { induction n; intros; cbn [detach_loop]; unfold expired; emits_all; done. }
  unfold evict_pod_with_pv, waitForDetach, context_WithTimeout.
  emits_all; done || by apply on_pods_evict || by apply on_pods_delete || apply Hd.
Qed.

#[local] Instance in_tree_steps_laws : DrainStepsLaws (list string).
Proof.
  split; [intros; apply emits_ret|done|by intros pod h [_ ?]|intros; by apply accounting_emits|apply accounting_silent|apply one_on_pods|apply one_silent].
Qed.

(** ** Every pod reports *)

(** Every pod reports exactly one result, whatever happens to it. *)
Lemma in_tree_results_complete start attemptEvict pods gv h results :
  (attemptEvict = true -> do_ForceDeletePods options = false -> 0 < do_MaxEvictRetries options) ->
  exec (goroutines (common o) poll_checks start attemptEvict pods gv) h (Return results) ->
  length results = length pods /\ collect arrival (length pods) results = NewAggregate (omap id (arrival results)).
Proof. apply results_complete. Qed.

(** With no eviction to try, a pod with volumes reports nothing and the drain never returns. *)
Lemma in_tree_drain_hangs start pods gv h out : do_MaxEvictRetries options <= 0 -> do_ForceDeletePods options = false ->
  (filterPodsWithPv pods).1 <> [] -> exec (evictPods (common o) arrival poll_checks start true pods gv) h out ->
  match out with Return _ | Raise _ => False | _ => True end.
Proof. intros Hn Hf Hp He. apply (hangs_without_retries _ _ _ _ _ _ _ _ Hn Hf Hp He). Qed.

(** ** The drain ends *)

Abbreviation anything := (fun _ : history => True).

Lemma accounting_ends start pods : ends anything start (doAccountingOfPvs pods).
Proof.
  unfold doAccountingOfPvs, getPvs, getVolIDsFromDriver. ends_all; [by apply ends_getPVList|apply ends_retrying; [done|]; by ends_all].
Qed.

Lemma one_ends start attemptEvict volMap gv pod : (0 < fuel)%nat ->
  do_Timeout options <= VolumeDetachPollInterval * (Z.of_nat fuel - 1) ->
  ends anything start (evict_pod_with_pv attemptEvict (start + do_Timeout options) volMap gv pod).
Proof.
  intros Hf Ht. unfold evict_pod_with_pv, waitForDetach, evictPod, deletePod.
  ends_step; [ends_all|]. destruct a as [[]|err]; [|by ends_all]. apply ends_context; [apply _|]. intros ctx Hctx. ends_all. apply ends_detach; [done|lia].
Qed.

(** C26: the goroutine that takes the pods with volumes one after the other comes to its end: the wait for the
    volumes of any of them is cut off by the timeout of the whole drain, so that one check per interval within
    the timeout is all that is needed, however often the passes go over the pods and whatever the API server,
    the caches and the driver answer. *)
Theorem in_tree_pv_evictions_end start attemptEvict pods gv h out : (0 < fuel)%nat ->
  do_Timeout options <= VolumeDetachPollInterval * (Z.of_nat fuel - 1) -> honest_clock start h ->
  exec (evictPodsWithPv start attemptEvict pods gv) h out -> out <> OutOfFuel.
Proof.
  intros Hf Ht Hc He.
  refine (proj2 (with_pv_ends (common o) anything start (accounting_ends start) _ attemptEvict pods gv) start h out _ Hc I He); [|lia].
  intros. by apply one_ends.
Qed.

(** ** What is drained *)

(** What the clock said. *)
Definition reading (x : result Z) : Z := match x with Ok t => t | Err _ => 0 end.

(** A condition that says that the node is not ready. *)
Definition says_not_ready (condition : NodeCondition) : Prop := nc_Type condition = NodeReady /\ nc_Status condition <> ConditionTrue.

Definition is_now (e : event) : Prop := projT1 e = Now.

Lemma not_ready_spec conditions h out : exec (not_ready_for_long conditions) h out ->
  Forall is_now h /\ exists skip, out = Return skip /\
  if (skip : bool) then exists condition x, condition ∈ conditions /\ says_not_ready condition /\ ev Now x ∈ h /\
    nodeNotReadyDuration o < reading x - nc_LastTransitionTime condition
  else forall condition, condition ∈ conditions -> says_not_ready condition ->
    exists x, ev Now x ∈ h /\ reading x - nc_LastTransitionTime condition <= nodeNotReadyDuration o.
Proof.
  revert h out. induction conditions as [|c l IH]; intros h out He.
  { destruct He as [-> ->]. split; [done|]. exists false. split; [done|]. by intros ? ?%not_elem_of_nil. }
  cbn [not_ready_for_long] in He. destruct (bool_decide (nc_Type c = NodeReady) && negb (bool_decide (nc_Status c = ConditionTrue))) eqn:Ec.
  - apply andb_true_iff in Ec as [E1%bool_decide_eq_true E2%negb_true_iff%bool_decide_eq_false]. destruct He as (x & h' & -> & He).
    cbn [bind] in He. change (match x with Ok t => t | Err _ => 0 end) with (reading x) in He. destruct (Z.ltb_spec (nodeNotReadyDuration o) (reading x - nc_LastTransitionTime c)) as [Hl|Hl].
    + destruct He as [-> ->]. split; [by constructor|]. exists true. split; [done|]. exists c, x. split_and!; [left|done..|left|done].
    + apply IH in He as [Hn (skip & -> & Hs)]. split; [by constructor|]. exists skip. split; [done|]. destruct skip.
      * destruct Hs as (c' & y & H1 & H2 & H3 & H4). exists c', y. split_and!; [by right|done..|by right|done].
      * intros c' [->|Hc]%elem_of_cons Hsays; [exists x; split; [left|done]|]. destruct (Hs c' Hc Hsays) as (y & Hy & Hd).
        exists y. split; [by right|done].
  - apply IH in He as [Hn (skip & -> & Hs)]. split; [done|]. exists skip. split; [done|]. destruct skip.
    + destruct Hs as (c' & y & H1 & H2). exists c', y. split; [by right|done].
    + intros c' [->|Hc]%elem_of_cons Hsays; [|by apply Hs]. destruct Hsays as [H1 H2]. by rewrite (bool_decide_true _ H1), (bool_decide_false _ H2) in Ec.
Qed.

(** The node is looked at again: a node that is gone or has not been ready for long needs no drain. *)
Lemma drain_ready_spec start h out : exec (drain_ready start) h out -> exists x rest, h = ev (GetNode nodeName false) x :: rest /\
  match x with
  | Err err => rest = [] /\ out = if IsNotFound err then Return tt else Raise err
  | Ok node => exists h1 h2, rest = h1 ++ h2 /\ Forall is_now h1 /\
      ((h2 = [] /\ out = Return tt /\ exists condition y, condition ∈ n_Conditions node /\ says_not_ready condition /\ ev Now y ∈ h1 /\
          nodeNotReadyDuration o < reading y - nc_LastTransitionTime condition) \/
       (exec (deleteOrEvictPodsSimple start) h2 out /\ forall condition, condition ∈ n_Conditions node -> says_not_ready condition ->
          exists y, ev Now y ∈ h1 /\ reading y - nc_LastTransitionTime condition <= nodeNotReadyDuration o))
  end.
Proof.
  intros (x & rest & -> & He). exists x, rest. split; [done|]. cbn [bind call_try] in He. destruct x as [node|err].
  - apply exec_bind in He as [(h1 & skip & h2 & -> & E1 & E2)|(o' & E1 & Hf & ->)]; apply not_ready_spec in E1 as [Hn (b & Hb & Hs)];
      [|by subst]. injection Hb as ->. exists h1, h2. split_and!; [done..|]. destruct b; [left; by destruct E2 as [-> ->]|by right].
  - destruct (IsNotFound err); by destruct He as [-> ->].
Qed.

Lemma drain_ready_on_chosen start h out : exec (drain_ready start) h out -> forall e, e ∈ h -> on_chosen (common o) h e.
Proof.
  intros (x & rest & -> & Hx)%drain_ready_spec e [->|Hin]%elem_of_cons; [done|]. destruct x as [node|err]; [|destruct Hx as [-> _]; by apply not_elem_of_nil in Hin].
  destruct Hx as (h1 & h2 & -> & Hn & Hx). apply elem_of_app in Hin as [Hin|Hin].
  { rewrite Forall_forall in Hn. apply Hn in Hin. unfold is_now in Hin. unfold on_chosen. by rewrite Hin. }
  destruct Hx as [(-> & _)|[E _]]; [by apply not_elem_of_nil in Hin|].
  assert (Hc : on_chosen (common o) h2 e) by (eapply simple_on_chosen; [apply _|exact E|done]).
  unfold on_chosen in Hc |- *. destruct (projT1 e); try done; destruct Hc as (pods & pod & Hl & Hrest); exists pods, pod; (split; [|done]);
    right; apply elem_of_app; by right.
Qed.

Lemma drain_on_chosen h out : exec RunDrain h out -> forall e, e ∈ h -> on_chosen (common o) h e.
Proof. intros He. by destruct (cordon_first (common o) drain_ready h out drain_ready_on_chosen He) as (t & x & rest & _ & _ & Hc). Qed.

(** Something is evicted or deleted. *)
Definition removes (e : event) : Prop := is_evict e = true \/ is_delete e = true.

Lemma now_no_removal h e : Forall is_now h -> e ∈ h -> ~ removes e.
Proof. rewrite Forall_forall. intros Hn He%Hn. unfold is_now in He. unfold removes, is_evict, is_delete. rewrite He. by intros [|]. Qed.

(** C25: a drain removes only pods of the node that passed the filters; it cordons the node first; and it removes
    pods only of a node that it has then seen to be there, and none of whose conditions has denied for longer
    than the limit that the node is ready. *)
Theorem in_tree_drain_guarded h out : exec RunDrain h out ->
  (forall e, e ∈ h -> on_chosen (common o) h e) /\
  (exists t x rest, h = ev Now t :: ev (GetNode nodeName false) x :: rest /\
     forall node, x = Ok node -> ns_Unschedulable (n_Spec node) = false -> exists node' y rest', rest = ev (UpdateNode node') y :: rest' /\
       ns_Unschedulable (n_Spec node') = true /\ forall e, y = Err e -> rest' = [] /\ out = Raise e) /\
  (forall e, e ∈ h -> removes e -> exists h0 node rest, h = h0 ++ ev (GetNode nodeName false) (Ok node) :: rest /\ e ∈ rest /\
     forall condition, condition ∈ n_Conditions node -> says_not_ready condition ->
       exists x, ev Now x ∈ rest /\ reading x - nc_LastTransitionTime condition <= nodeNotReadyDuration o).
Proof.
  intros He. pose proof (cordon_first (common o) drain_ready h out drain_ready_on_chosen He) as (t & x & rest & Hh & Hu & Hc).
  split; [done|]. split; [by exists t, x, rest|]. clear t x rest Hh Hu Hc. intros e Hin Hr.
  destruct He as (t & h0 & -> & He). cbn [bind] in He. cbv zeta in He. apply elem_of_cons in Hin as [->|Hin]; [by destruct Hr|].
  assert (Hno : forall h r, exec (RunCordonOrUncordon (common o) true) h r -> e ∈ h -> False).
  { intros h' r (x & rest & -> & Hx)%cordon_spec [->|Hin']%elem_of_cons; [by destruct Hr|].
    destruct x as [node|]; [|destruct Hx as [-> _]; by apply not_elem_of_nil in Hin'].
    destruct (ns_Unschedulable _); [destruct Hx as [-> _]; by apply not_elem_of_nil in Hin'|].
    destruct Hx as (node' & y & -> & _). apply list_elem_of_singleton in Hin' as ->. by destruct Hr. }
  apply exec_bind in He as [(h1 & [] & h2 & -> & E1 & E2)|(o' & E1 & _)]; [|by destruct (Hno _ _ E1)].
  apply elem_of_app in Hin as [Hin|Hin]; [by destruct (Hno _ _ E1)|].
  apply drain_ready_spec in E2 as (y & rest & -> & Hy). apply elem_of_cons in Hin as [->|Hin]; [by destruct Hr|].
  destruct y as [node|err]; [|destruct Hy as [-> _]; by apply not_elem_of_nil in Hin].
  exists (ev Now t :: h1), node, rest. split_and!; [done..|]. destruct Hy as (h3 & h4 & -> & Hn & [(-> & _)|[_ Hready]]).
  - rewrite app_nil_r in Hin. by destruct (now_no_removal _ _ Hn Hin).
  - intros condition Hc Hs. destruct (Hready condition Hc Hs) as (z & Hz & Hd). exists z. split; [apply elem_of_app; by left|done].
Qed.
(** *** What a drain that succeeds has seen *)

(** There is no node of that name any more. *)
Definition node_gone (h : history) : Prop := exists err, ev (GetNode nodeName false) (Err err) ∈ h /\ IsNotFound err = true.

(** The node has not been ready for longer than is waited for. *)
Definition node_lost (h : history) : Prop := exists node condition y, ev (GetNode nodeName false) (Ok node) ∈ h /\
  condition ∈ n_Conditions node /\ says_not_ready condition /\ ev Now y ∈ h /\
  nodeNotReadyDuration o < reading y - nc_LastTransitionTime condition.

(** All pods without volumes that were to be removed were seen gone. *)
Definition pods_gone (h : history) : Prop := exists all, ev (ListPods nodeName) (Ok all) ∈ h /\
  forall pod, pod ∈ all -> pod_ok (common o) pod = true -> existsb volIsPvc (po_Volumes pod) = false -> exists e, e ∈ h /\ seen_gone pod e.

Lemma drain_success h : (forall l, arrival l ≡ₚ l) -> do_ForceDeletePods options = false -> exec RunDrain h (Return tt) ->
  node_gone h \/ node_lost h \/ pods_gone h.
Proof.
  intros Harr Hf (t & h0 & -> & He). cbn [bind] in He. cbv zeta in He. apply exec_bind_ret in He as (h1 & [] & h2 & -> & _ & E).
  apply drain_ready_spec in E as (x & rest & -> & Hx). destruct x as [node|err].
  - destruct Hx as (h3 & h4 & -> & _ & [(-> & _ & condition & y & Hc & Hs & Hy & Hd)|[E _]]).
    + right. left. exists node, condition, y. split_and!; [set_solver|done..|set_solver|done].
    + right. right. apply success_means_gone in E as (all & Hl & Hg); [|apply _|done..]. exists all. split; [set_solver|].
      intros pod H1 H2 H3. destruct (Hg pod H1 H2 H3) as (e & He & Hseen). exists e. split; [set_solver|done].
  - left. exists err. destruct Hx as [-> Hx]. split; [set_solver|]. by destruct (IsNotFound err).
Qed.
End drain.

(** ** A small node *)

(** A driver for AWS, and for the parameter [url_Parse] one that knows plain IDs. *)
Definition drain_driver : InTreeDriver :=
  mkInTreeDriver AWSMachineClassKind (sample_provider_class None) ∅ "" "aws:///eu/i-1" "machine".
Definition plain_id (s : string) : result (string * string) := Ok ("aws", s).

Definition small_in_tree (retries : Z) : InTreeOptions :=
  machine_drain (mkInTreeDrainOptions (10 * Minute) retries (2 * Minute) "n1" false drain_driver).

(** The node has been not ready for [since]. *)
Definition in_tree_world (refuse : bool) (since : Z) (r : req) (w : Z) : Z * result (answer r) :=
  match r return Z * result (answer r) with
  | GetNode _ _ => (w, Ok (mkNode (sample_meta "n1" "n1") (mkNodeSpec "" "" false []) [mkNodeCond NodeReady "False" 0 (w - since) "" ""]))
  | ListerGetPersistentVolume _ => (w, Ok (mkPVSpec None None None None None (Some (awsEBSDriverName, "vol-1"))))
  | r => node_world refuse r w
  end.

Abbreviation sample_pv_evictions := (evictPodsWithPv (small_in_tree 3) plain_id String.eqb map_to_list 121 0 true [pv_pod] "policy/v1beta1").

Lemma in_tree_pv_evictions_end_witness : (run (in_tree_world true Minute) sample_pv_evictions 0).2 <> OutOfFuel.
Proof.
  refine (in_tree_pv_evictions_end (small_in_tree 3) plain_id String.eqb map_to_list 121 0 true [pv_pod] "policy/v1beta1" _ _ _ _ _
    (run_exec (in_tree_world true Minute) sample_pv_evictions 0)); [lia|by vm_compute|vm_compute; repeat split; discriminate].
Defined.

Abbreviation sample_in_tree_drain since := (run (in_tree_world true since) (RunDrain (small_in_tree 3) plain_id String.eqb map_to_list map_to_list same_order ten_checks 121) (10 * Minute)).

Lemma in_tree_drain_guarded_witness : occurs is_delete (sample_in_tree_drain Minute).1.2 = 2%nat /\
  forall e, e ∈ (sample_in_tree_drain Minute).1.2 -> on_chosen (common (small_in_tree 3)) (sample_in_tree_drain Minute).1.2 e.
Proof.
  split; [vm_compute; reflexivity|].
  exact (proj1 (in_tree_drain_guarded (small_in_tree 3) plain_id String.eqb map_to_list map_to_list same_order ten_checks 121 _ _
    (run_exec (in_tree_world true Minute) (RunDrain (small_in_tree 3) plain_id String.eqb map_to_list map_to_list same_order ten_checks 121) (10 * Minute)))).
Defined.

(** A node that has been not ready for six minutes is cordoned and left. *)
Example not_ready_skipped : occurs is_evict (sample_in_tree_drain (6 * Minute)).1.2 = 0%nat /\ (sample_in_tree_drain (6 * Minute)).2 = Return tt.
Proof. by vm_compute. Qed.
