(* ===== verification/DrainFlow.v ===== *)
(** * A deletion with its drain

    The deletion flow of the in-tree machine controller (pkg/controller/machine.go) asks for a drain and the
    drain is a program of its own (pkg/controller/drain.go).  Here the request is replaced by the program, so
    that what is said of the two holds for the whole: the VM of a machine goes only after its pods. *)
From Stdlib Require Import ZArith Lia Ascii String.
From stdpp Require Import base gmap strings list.
From S2P Require Import Cloud InTreeDrain.
From S2P Require Import Prelude GoLib Types Labels Prog Samples NodeOps Driver NodeTemplate MachineClasses MachineUtil MachineDeletion MachineSetController.
From S2P Require Import InTreeMachine InTreeFlows DrainCore.
Open Scope Z_scope.

(** ** Programs that are called *)

Section inline.
(** The programs behind requests. *)
Variable handler : forall r : req, option (prog (result (answer r))).

Fixpoint inline {A} (p : prog A) : prog A :=
  match p with
  | Ret a => Ret a
  | Throw e => Throw e
  | Crash => Crash
  | Starve => Starve
  | Call r k =>
      match handler r with
      | None => Call r (fun x => inline (k x))
      | Some q => let! x := q in inline (k x)
      end
  end.

(** The history [h'] has runs of the programs where [h] has requests and answers. *)
Fixpoint expands (h h' : history) : Prop :=
  match h with
  | [] => h' = []
  | existT r x :: h =>
      match handler r with
      | None => exists h2, h' = ev r x :: h2 /\ expands h h2
      | Some q => exists hr h2, h' = hr ++ h2 /\ exec q hr (Return x) /\ expands h h2
      end
  end.

Definition finished {A} (out : outcome A) : Prop := match out with Return _ | Raise _ => True | _ => False end.

(** What the whole does the caller does too, when it gets from its requests what the programs return. *)
Lemma inline_exec {A} (p : prog A) h' out : (forall r q h e, handler r = Some q -> ~ exec q h (Raise e)) ->
  exec (inline p) h' out -> finished out -> exists h, exec p h out /\ expands h h'.
Proof.
  intros Hsilent. revert h'. induction p as [a|e| | |r k IH]; intros h' He Hfin;
    [destruct He as [-> ->]; by exists []|destruct He as [-> ->]; by exists []|by destruct He as [-> ->]|by destruct He as [-> ->]|].
  cbn [inline] in He. destruct (handler r) as [q|] eqn:Hr.
  - apply exec_bind in He as [(hr & x & h2 & -> & E1 & E2)|(o' & E1 & Hf & ->)].
    + destruct (IH x h2 E2 Hfin) as (h & E & Hx). exists (ev r x :: h). split; [by exists x, h|]. cbn [expands]. rewrite Hr. by exists hr, h2.
    + destruct o' as [|e| |]; try done. by apply Hsilent in E1.
  - destruct He as (x & h2 & -> & He). destruct (IH x h2 He Hfin) as (h & E & Hx). exists (ev r x :: h). split; [by exists x, h|].
    cbn [expands]. rewrite Hr. by exists h2.
Qed.

Lemma expands_app h1 h2 h' : expands (h1 ++ h2) h' -> exists h1' h2', h' = h1' ++ h2' /\ expands h1 h1' /\ expands h2 h2'.
Proof.
  revert h'. induction h1 as [|[r x] h1 IH]; intros h' He; [by exists [], h'|]. cbn [expands app] in He |- *. destruct (handler r) as [q|].
  - destruct He as (hr & h3 & -> & Hq & (h1' & h2' & -> & H1 & H2)%IH). exists (hr ++ h1'), h2'. rewrite app_assoc. split_and!; [done| |done].
    by exists hr, h1'.
  - destruct He as (h3 & -> & (h1' & h2' & -> & H1 & H2)%IH). exists (ev r x :: h1'), h2'. split_and!; [done| |done]. by exists h1'.
Qed.

(** A history without such requests is its own expansion. *)
Lemma expands_plain h h' : Forall (fun e => handler (projT1 e) = None) h -> expands h h' -> h' = h.
Proof.
  intros HF. revert h'. induction HF as [|[r x] h Hr _ IH]; intros h' He; [done|]. cbn [expands projT1] in He, Hr. rewrite Hr in He.
  destruct He as (h2 & -> & He). by rewrite (IH _ He).
Qed.

(** What neither the caller nor the programs do the whole does not. *)
Lemma expands_forall (P : event -> Prop) h h' : Forall P h -> (forall r q hr x, handler r = Some q -> exec q hr (Return x) -> Forall P hr) ->
  expands h h' -> Forall P h'.
Proof.
  intros HP Hq. revert h'. induction HP as [|[r x] h Hr _ IH]; intros h' He; [by rewrite He|]. cbn [expands] in He.
  destruct (handler r) as [q|] eqn:Eq.
  - destruct He as (hr & h2 & -> & Hx & He). apply Forall_app. split; [by eapply Hq|by apply IH].
  - destruct He as (h2 & -> & He). constructor; [done|by apply IH].
Qed.
End inline.

(** ** The deletion of a machine *)

Section deletion.
Context `{!GoSort} (c : controller).
Variable range : strmap -> list (string * string).
Variable url_Parse : string -> result (string * string).
Variable regexp_MatchString : string -> string -> bool.
Variable range_statuses : podStatuses -> list (string * list string).
Variable range_volumes : podStatuses -> list (string * list string).
Variable arrival : list (option error) -> list (option error).
Hypothesis arrival_ok : forall l, arrival l ≡ₚ l.
Variable poll_checks : Z -> Z -> nat.
Variable fuel : nat.

(** The drain that is asked for. *)
Definition drain (options : InTreeDrainOptions) : prog unit :=
  InTreeDrain.RunDrain (machine_drain options) url_Parse regexp_MatchString range_statuses range_volumes arrival poll_checks fuel.

Definition drain_handler (r : req) : option (prog (result (answer r))) :=
  match r with RunInTreeDrain options => Some (attempt (drain options)) | _ => None end.

Definition machineDelete_with_drain (rounds : nat) (machine : Machine) (driver : InTreeDriver) : prog unit :=
  inline drain_handler (machineDelete c range rounds machine driver).
Lemma drain_handler_spec r q : drain_handler r = Some q -> exists options (Hr : r = RunInTreeDrain options),
  eq_rect r (fun r => prog (result (answer r))) q _ Hr = attempt (drain options).
Proof. destruct r; try done. intros [= <-]. by exists o, eq_refl. Qed.

Lemma drain_is_silent r q h e : drain_handler r = Some q -> ~ exec q h (Raise e).
Proof.
  intros (options & -> & Hq)%drain_handler_spec He. cbn [eq_rect] in Hq. subst q.
  destruct (exec_attempt (drain options) _ _ He) as [(? & _ & ?)|[(? & _ & ?)|[[_ ?]|[_ ?]]]]; done.
Qed.

(** A drain does not touch the machine. *)
Lemma drain_holds_machine r q hr x : drain_handler r = Some q -> exec q hr (Return x) -> Forall (fun e => ~ lets_go e) hr.
Proof.
  intros (options & -> & Hq)%drain_handler_spec He. cbn [eq_rect] in Hq. subst q. apply (exec_attempt_ret (drain options)) in He. apply Forall_forall. intros e Hin.
  assert (Hc : on_chosen (common (machine_drain options)) hr e).
  { destruct x as [[]|err]; (eapply drain_on_chosen; [exact He|exact Hin]). }
  unfold on_chosen in Hc. unfold lets_go. intros Hl. destruct (projT1 e); try done; discriminate Hc.
Qed.

Lemma keeps_no_letting e : keeps e -> ~ lets_go e.
Proof. intros [_ Hh]. revert Hh. destruct e as [r x]; unfold holds_on, lets_go; simpl; destruct r; tauto. Qed.

(** What a drain leaves behind when it succeeds. *)
Definition drained (options : InTreeDrainOptions) (h : history) : Prop :=
  let o := machine_drain options in exec (drain options) h (Return tt) /\ (node_gone o h \/ node_lost o h \/ pods_gone o h).

(** Nothing asks for a drain before the machine is marked as terminating. *)
Definition no_drain (e : event) : Prop := drain_handler (projT1 e) = None.

Lemma no_drain_terminate rounds machine : emits no_drain (terminate rounds machine).
Proof.
  assert (Hs : forall n m lo cs, emits no_drain (updateMachineStatus n m lo cs)).
  { induction n as [|n IH]; intros m lo cs; simpl; [apply emits_starve|]. unfold isMachineStatusEqual, either_old. emits_all; try done. }
  unfold terminate, deleteBootstrapToken. emits_all; first [done|apply Hs].
Qed.

(** C17: take a machine whose VM and node are known.  It is let go, its finalizer taken off or the object
    deleted, only after its VM was deleted with success; and before the VM, the drain of its node ran, with the
    options that follow from the machine, from the deletion time of its version [m] that the flow has marked
    as terminating, and from the clock read next.  Only the force-deletion label or a drain timeout that is
    over forces the drain.  A drain that is not forced ran to its end with success: then the node was gone, or
    had not been ready for too long, or every pod without volumes, apart from mirror pods and those of daemon
    sets, was seen gone. *)
Theorem vm_deleted_after_pods rounds machine driver h out :
  exec (machineDelete_with_drain rounds machine driver) h out -> finished out -> (exists e, e ∈ h /\ lets_go e) ->
  GetExisting driver <> EmptyString -> st_Node (m_Status machine) <> EmptyString ->
  exists ht m ts t h1 hd h2,
    h = ht ++ ev Now t :: h1 ++ hd ++ ev (DriverDelete driver (GetExisting driver)) (Ok tt) :: h2 /\
    exec (terminate rounds machine) ht (Return (Some m)) /\ DeletionTimestamp (m_Meta m) = Some ts /\
    Forall (fun e => ~ lets_go e) (ht ++ h1 ++ hd) /\
    let force := forced c machine ts t in
    let options := drain_options c machine driver (st_Node (m_Status machine)) force in
    (exists r, exec (attempt (drain options)) hd (Return r)) /\ (force = false -> drained options hd).
Proof.
  intros He Hfin (e & Hin & Hlet) Hid Hnode. apply inline_exec in He as (ha & He & Hx); [|apply drain_is_silent|done].
  apply machineDelete_stages in He as [[Hno _]|(m & ts & t & ht & hv & hn & hf & -> & _ & Et & Hts & Hv & _)].
  { apply (expands_forall _ _ _ _ Hno drain_holds_machine) in Hx. rewrite Forall_forall in Hx. by apply Hx in Hin. }
  unfold vm_gone_by in Hv. cbn [io_nodeName drain_options] in Hv. rewrite !bool_decide_false in Hv by done.
  set (options := drain_options _ _ _ _ _) in Hv. destruct Hv as (hk & x & -> & Hk & Hok).
  assert (Hl : forall l l', Forall keeps l -> expands drain_handler l l' -> Forall (fun e => ~ lets_go e) l').
  { intros l l' Hl. apply expands_forall; [|exact drain_holds_machine]. eapply Forall_impl; [exact Hl|apply keeps_no_letting]. }
  apply expands_app in Hx as (h1 & h2 & -> & Hx0 & Hx). apply expands_plain in Hx0 as ->; [|by eapply no_drain_terminate].
  cbn [expands drain_handler] in Hx. destruct Hx as (h3 & -> & Hx). rewrite <- app_assoc in Hx.
  apply expands_app in Hx as (h4 & h5 & -> & Hx1 & Hx). cbn [app expands drain_handler] in Hx.
  destruct Hx as (hd & h6 & -> & Hdr & h7 & -> & Hx).
  exists ht, m, ts, t, h4, hd, h7. split_and!; [by rewrite <- ?app_assoc|done|done| |].
  - rewrite !Forall_app. split_and!; [|by eapply Hl|by eapply (drain_holds_machine (RunInTreeDrain options))].
    eapply Forall_impl; [by eapply keeps_terminate|apply keeps_no_letting].
  - cbv zeta. fold options. split; [by eexists|]. intros Hf. destruct Hok as [[[] ->]|Hf']; [|exact (False_ind _ (diff_false_true (eq_trans (eq_sym Hf) Hf')))].
    apply exec_attempt_ret in Hdr. split; [done|]. by eapply drain_success.
Qed.
End deletion.

(** ** A machine on a small node *)

(** The node, its pods and the clock, and the cloud. *)
Definition whole_world (m : Machine) (r : req) (w : Z) : Z * result (answer r) :=
  match r return Z * result (answer r) with
  | UpdateStatusNode n => (w, Ok n)
  | (Now | Sleep _ | Schedule | GetNode _ _ | UpdateNode _ | ListPods _ | GetPod _ _ | EvictPod _ _ _ _ | DeletePod _ _ _ | ServerGroups
    | ServerResources _ | ListerGetPVC _ _ | ListerGetPersistentVolume _ | GetNodeVolumesAttached _) as r => in_tree_world false Minute r w
  | r => (w, (cloud_world m r tt).2)
  end.

Definition leaving_machine : Machine := cloud_machine [DeleteFinalizerName] (Some (10 * Minute)) "aws:///eu/i-2" "n1" "Running".
Abbreviation whole_deletion :=
  (machineDelete_with_drain sample_controller map_to_list plain_id String.eqb map_to_list map_to_list same_order ten_checks 1450
    3 leaving_machine (cloud_driver "aws:///eu/i-2")).
Abbreviation whole_run := (run (whole_world leaving_machine) whole_deletion (10 * Minute)).

Lemma frees_in h : existsb frees h = true -> exists e, e ∈ h /\ lets_go e.
Proof.
  intros (e & He & Hf)%existsb_exists. exists e. split; [by apply list_elem_of_In|]. destruct e as [r x]. unfold frees in Hf. simpl in Hf.
  unfold lets_go. simpl. by destruct r.
Qed.

Abbreviation drained_with force hd := (drained plain_id String.eqb map_to_list map_to_list same_order ten_checks 1450
  (drain_options sample_controller leaving_machine (cloud_driver "aws:///eu/i-2") "n1" force) hd).

Lemma vm_deleted_after_pods_witness : whole_run.2 = Return tt /\ exists ht ts t rest hd,
  whole_run.1.2 = ht ++ ev Now t :: rest /\
  (forced sample_controller leaving_machine ts t = false -> drained_with (forced sample_controller leaving_machine ts t) hd).
Proof.
  assert (Ho : whole_run.2 = Return tt) by (vm_compute; reflexivity). split; [exact Ho|].
  destruct (vm_deleted_after_pods sample_controller map_to_list plain_id String.eqb map_to_list map_to_list same_order
    (fun l => reflexivity _) ten_checks 1450 3 leaving_machine (cloud_driver "aws:///eu/i-2") _ _
    (run_exec (whole_world leaving_machine) whole_deletion (10 * Minute))) as (ht & m & ts & t & h1 & hd & h2 & Hh & _ & _ & _ & _ & Hd).
  - rewrite Ho. exact I.
  - apply frees_in. vm_compute. reflexivity.
  - vm_compute. discriminate.
  - vm_compute. discriminate.
  - exists ht, ts, t, (h1 ++ hd ++ ev (DriverDelete (cloud_driver "aws:///eu/i-2") (GetExisting (cloud_driver "aws:///eu/i-2"))) (Ok tt) :: h2), hd.
    split; [exact Hh|exact Hd].
Defined.
