(* ===== verification/Clouds.v ===== *)
(** * The controllers on top of the drivers

    What the machine controller and the collector of orphan VMs make of a driver that keeps track of its
    VMs, for any such driver, and of one that does not. *)
From Stdlib Require Import ZArith Lia Ascii String.
From stdpp Require Import base gmap strings list.
From S2P Require Import Prelude GoLib Types Labels Prog Samples NodeOps Validation ClassSpecs ClassValidation Driver.
From S2P Require Import NodeTemplate MachineClasses MachineUtil MachineDeletion MachineController MachineSetController Freezing.
From S2P Require Import InTreeMachine InTreeFlows Cloud CloudAWS CloudPacket.
Open Scope Z_scope.

(** ** A VM that is kept track of *)

Section tracked.
Context {W : Type} (D D' : CloudDriver W) (name : string) (room : W -> Prop) `{!TracksVMs D D' name room}.
Context `{!Encoders} (c : controller).
Variable so : safety_options.
Variable range : strmap -> list (string * string).
Hypothesis range_ok : forall m, range m ≡ₚ map_to_list m.

(** The creation flow of the machine with the name of the VM makes no VM when the driver lists [vms]. *)
Definition no_second_vm (vms : strmap) : Prop :=
  forall rounds machine driver h o, m_Name machine = name ->
    exec (machineCreate c range rounds machine driver) h o ->
    (forall d x, ev (DriverGetVMs d EmptyString) x ∈ h -> x = Ok vms) -> Forall no_create h.

(** The collector leaves the VM alone when the cache has a machine of its name and ID. *)
Definition not_collected (id : string) : Prop :=
  forall dvr h o, exec (check_vm so range dvr (id, name)) h o ->
    (forall x, ev (ListerGetMachine (sa_namespace so) name) x ∈ h -> exists m, x = Ok m /\ sp_ProviderID (m_Spec m) = id) ->
    o = Return tt /\ Forall spares h.

(** A machine whose VM is listed gets no other one. *)
Lemma machineCreate_adopts rounds machine driver vms id h o :
  exec (machineCreate c range rounds machine driver) h o ->
  vms !! id = Some (m_Name machine) -> vms !! EmptyString = None ->
  (forall d x, ev (DriverGetVMs d EmptyString) x ∈ h -> x = Ok vms) -> Forall no_create h.
Proof.
  intros He Hid Hno Hans. unfold machineCreate in He.
  apply exec_bind in He as [(h1 & b & h2 & -> & E1 & E2)|(o' & E1 & _ & _)].
  2: { eapply (keeps_no_create _ (emits_attempt _ _ (keeps_bootstrap _ _ _))); exact E1. }
  apply Forall_app. split; [eapply (keeps_no_create _ (emits_attempt _ _ (keeps_bootstrap _ _ _))); exact E1|].
  destruct b as [d|err].
  - destruct E2 as (l & h3 & -> & E2). cbn [bind] in E2. assert (l = Ok vms) as ->.
    { apply (Hans d). apply elem_of_app. right. left. }
    constructor; [done|]. rewrite bool_decide_false in E2; [by eapply record_created_no_create|].
    intros Hl. pose proof (listed_vm_spec range range_ok (m_Name machine) vms (ex_intro _ id Hid)) as Hs. congruence.
  - eapply (keeps_no_create _); [|exact E2]. apply emits_bind; [apply keeps_report|intros; apply emits_throw].
Qed.

(** C18: a VM that a driver has created is safe with the controllers if the driver keeps track of it.  The
    machine controller, started over with the machine at any point, adopts the VM and does not ask for a
    second one; and the collector of orphans leaves the VM alone when its machine has the ID that the
    creation returned. *)
Theorem tracked_vm_safe w w' w'' id node vms : drv_Create D w = (w', Return (id, node)) ->
  room w' -> drv_GetVMs D' EmptyString w' = (w'', Return (vms, None)) ->
  no_second_vm vms /\ (id, name) ∈ range vms /\ not_collected id.
Proof.
  intros Hc Hr Hg. destruct (tracks_create w w' id node Hc) as [_ Ht]. destruct (Ht w'' vms Hr Hg) as [Hv Hno]. split_and!.
  - intros rounds machine driver h o Hn He. by apply (machineCreate_adopts _ _ _ _ id _ _ He); [rewrite Hn|].
  - by apply range_lookup.
  - intros dvr h o (x & h' & -> & He) Hl. destruct (Hl x) as (m & -> & Hid); [left|]. cbn [bind call_try] in He.
    rewrite bool_decide_true in He by done. destruct He as [-> ->]. split; [done|]. by repeat constructor.
Qed.
End tracked.

(** ** A VM on Packet *)

(** The machine runs and has the ID of its creation. *)
Definition healthy (id : string) (machine : Machine) : Prop :=
  sp_ProviderID (m_Spec machine) = id /\ m_Phase machine = MachineRunning.

Section packet.
Context {W : Type} `{!Packngo W} (view : W -> gmap string Device) `{!PacketLaws W view}.
Variable so : safety_options.
Variable range : strmap -> list (string * string).
Hypothesis range_ok : forall m, range m ≡ₚ map_to_list m.
Variables (spec : PacketMachineClassSpec) (CredentialsData : strmap) (UserData MachineName : string).

(** C21: the driver for Packet lists a VM under another ID than the one it returned when it created the VM.
    The collector of orphans therefore deletes the VM of a healthy machine: the machine has the ID of its
    creation, the caches and the API server answer with it, and the driver confirms that the VM exists. *)
Theorem packet_vm_collected w w' w2 w3 id node vms : packet_valid spec ->
  CloudPacket.Create spec CredentialsData UserData MachineName w = (w', Return (id, node)) ->
  CloudPacket.GetVMs spec CredentialsData EmptyString w' = (w2, Return (vms, None)) ->
  exists rid, (rid, MachineName) ∈ range vms /\
    forall vms' machine dvr x, CloudPacket.GetVMs spec CredentialsData rid w' = (w3, Return (vms', None)) ->
      healthy id machine ->
      exec (check_vm so range dvr (rid, MachineName))
        [ev (ListerGetMachine (sa_namespace so) MachineName) (Ok machine);
         ev (DriverGetVMs dvr rid) (Ok vms');
         ev (GetMachine (sa_namespace so) MachineName) (Ok machine);
         ev (DriverDelete (NewDriver rid (dv_CredentialsData dvr) (dv_classKind dvr) (dv_machineClass dvr) MachineName) rid) x]
        (Return tt).
Proof.
  intros Hv Hc Hg. destruct (Create_untracked view spec CredentialsData UserData MachineName w w' id node Hv Hc)
    as (rid & Hne & _ & _ & Hl & Hone). destruct (Hl _ _ Hg) as [_ Hr]. exists rid. split; [by apply range_lookup|].
  intros vms' machine dvr x ->%Hone [Hp Hph]. do 2 eexists. split; [done|]. cbn [bind call_try].
  rewrite (bool_decide_false (_ = rid)) by congruence. rewrite Hph. cbn [orb].
  do 2 eexists. split; [done|].
  assert (Hs : range {[rid := MachineName]} = [(rid, MachineName)]).
  { apply Permutation_singleton_r. rewrite range_ok. by rewrite map_to_list_singleton. }
  cbn [bind call_try]. rewrite Hs. cbn [for_each]. unfold recheck_machine. cbn [fst]. rewrite bool_decide_true by done.
  do 2 eexists. split; [done|]. cbn [bind call_try]. rewrite (bool_decide_false (_ = rid)) by congruence. cbn [orb negb].
  do 2 eexists. split; [done|]. done.
Qed.
End packet.

(** ** Witnesses *)

#[local] Existing Instance sample_Encoders.

Abbreviation ec2 := (gmap string EC2VM).
Definition no_url (_ : string) : result (string * string) := Err (Errorf "no URL").
Definition sample_ec2 (name : string) : CloudDriver ec2 :=
  aws_driver (fun s => s) no_url map_to_list sample_aws ∅ "" name.

#[export] Instance sample_ec2_tracks name name' : TracksVMs (sample_ec2 name) (sample_ec2 name') name (fun _ => True).
Proof. exact (aws_tracks ec2_view _ _ _ _ (fun m => reflexivity _) (fun m => reflexivity _) sample_aws ∅ ∅ "" "" name name' sample_aws_valid). Qed.

(** The second run finds the VM of the first. *)
Abbreviation first_creation := (drv_Create (sample_ec2 "machine-abcde") ∅).
Abbreviation listed := (drv_GetVMs (sample_ec2 "") EmptyString first_creation.1).

Lemma tracked_vm_safe_witness : exists id node vms,
  first_creation.2 = Return (id, node) /\ listed.2 = Return (vms, None) /\ (id, "machine-abcde") ∈ map_to_list vms.
Proof.
  assert (E1 : exists id node, first_creation.2 = Return (id, node)) by (vm_compute; eauto). destruct E1 as (id & node & E1).
  assert (E2 : exists vms, listed.2 = Return (vms, None)) by (vm_compute; eauto). destruct E2 as (vms & E2).
  exists id, node, vms. split; [exact E1|]. split; [exact E2|].
  refine (proj1 (proj2 (tracked_vm_safe (sample_ec2 "machine-abcde") (sample_ec2 "") "machine-abcde" (fun _ => True) sample_controller small_options map_to_list
    (fun m => reflexivity _) ∅ first_creation.1 listed.1 id node vms _ _ _))).
  - rewrite <- E1. by destruct first_creation.
  - done.
  - rewrite <- E2. by destruct listed.
Defined.

Definition sample_packet : PacketMachineClassSpec :=
  mkPacketSpec ["ams1"] "c1.small" "debian" "project" "hourly" ["kubernetes.io/cluster/a"; "kubernetes.io/role/n"] [] "".
Definition packet_secret : strmap := {[ PacketAPIKey := "token" ]}.

Lemma sample_packet_valid : packet_valid sample_packet.
Proof.
  unfold packet_valid. split_and!; [done..|]. split.
  - exists "kubernetes.io/cluster/a". split; [left|reflexivity].
  - exists "kubernetes.io/role/n". split; [right; left|split; reflexivity].
Qed.

Abbreviation packets := (gmap string Device).
Abbreviation packet_creation := (CloudPacket.Create (W := packets) sample_packet packet_secret "" "m1" ∅).
Abbreviation packet_listing := (CloudPacket.GetVMs (W := packets) sample_packet packet_secret EmptyString packet_creation.1).

Lemma packet_vm_collected_witness : exists id node vms rid,
  packet_creation.2 = Return (id, node) /\ packet_listing.2 = Return (vms, None) /\ (rid, "m1") ∈ map_to_list vms.
Proof.
  assert (E1 : exists id node, packet_creation.2 = Return (id, node)) by (vm_compute; eauto). destruct E1 as (id & node & E1).
  assert (E2 : exists vms, packet_listing.2 = Return (vms, None)) by (vm_compute; eauto). destruct E2 as (vms & E2).
  destruct (packet_vm_collected packet_view small_options map_to_list (fun m => reflexivity _) sample_packet packet_secret "" "m1" ∅
    packet_creation.1 packet_listing.1 packet_listing.1 id node vms sample_packet_valid) as (rid & Hin & _).
  - rewrite <- E1. by destruct packet_creation.
  - rewrite <- E2. by destruct packet_listing.
  - exists id, node, vms, rid. split; [exact E1|]. split; [exact E2|exact Hin].
Defined.
