(* ===== verification/Events.v ===== *)
(** * Which controllers hear of a change (pkg/controller/controller.go and
      pkg/util/provider/machinecontroller/controller.go)

    The constructors register the handlers of the controllers with the informers.  An informer tells every
    handler registered for a kind of object of each change, each handler in a goroutine of its own.  Only the
    registration is modelled here, the handlers are those of the controllers. *)
From Stdlib Require Import ZArith Lia Ascii String.
From stdpp Require Import base gmap strings list.
From S2P Require Import Prelude GoLib Types Labels Prog Samples Driver DeploymentController MachineSetController Freezing.
From S2P Require Import MachineClasses MachineController MachineSafety InTreeMachine InTreeClasses.
Open Scope Z_scope.

(** ** Informers *)

Inductive change (A : Type) := Added (obj : A) | Updated (old new : A) | Deleted (obj : A).
Arguments Added {A} obj.
Arguments Updated {A} old new.
Arguments Deleted {A} obj.

(** The object of a change as it is now, or was last. *)
Definition changed {A} (c : change A) : A := match c with Added x | Updated _ x | Deleted x => x end.

(** [cache.ResourceEventHandlerFuncs]: a missing function does nothing. *)
Record handlers (A : Type) := mkHandlers {
  AddFunc : option (A -> prog unit); UpdateFunc : option (A -> A -> prog unit); DeleteFunc : option (A -> prog unit) }.
Arguments mkHandlers {A}.
Arguments AddFunc {A}.
Arguments UpdateFunc {A}.
Arguments DeleteFunc {A}.

Definition deliver {A} (c : change A) (h : handlers A) : prog unit :=
  match c with
  | Added x => match AddFunc h with Some f => f x | None => Ret tt end
  | Updated x y => match UpdateFunc h with Some f => f x y | None => Ret tt end
  | Deleted x => match DeleteFunc h with Some f => f x | None => Ret tt end
  end.

Definition notify {A} (hs : list (handlers A)) (c : change A) : prog (list unit) := par_list (deliver c <$> hs).

(** All three functions, and only that for deletions. *)
Definition on_all {A} (add : A -> prog unit) (update : A -> A -> prog unit) (delete : A -> prog unit) : handlers A :=
  mkHandlers (Some add) (Some update) (Some delete).
Definition on_delete {A} (delete : A -> prog unit) : handlers A := mkHandlers None None (Some delete).

(** ** The machine controller manager *)

Definition class_kinds : list string :=
  [OpenStackMachineClassKind; AWSMachineClassKind; AzureMachineClassKind; GCPMachineClassKind; AlicloudMachineClassKind;
   PacketMachineClassKind].

Definition secret_handlers : list (handlers Secret) := [mkHandlers (Some secretAdd) None (Some secretDelete)].

Definition class_handlers (kind : string) : list (handlers ProviderClass) :=
  [on_all classToSecretAdd classToSecretUpdate classToSecretDelete;
   on_all (classAdd kind) (classUpdate kind) (classDelete kind)].

Definition machineDeployment_handlers : list (handlers MachineDeployment) :=
  ((fun kind => on_delete (machineDeploymentToMachineClassDelete kind)) <$> class_kinds) ++
  [on_all addMachineDeployment updateMachineDeployment deleteMachineDeployment].

Definition machineSet_handlers : list (handlers MachineSet) :=
  ((fun kind => on_delete (machineSetToMachineClassDelete kind)) <$> class_kinds) ++
  [on_all enqueueMachineSet machineSetUpdate enqueueMachineSet;
   on_all addMachineSetToDeployment updateMachineSetToDeployment deleteMachineSetToDeployment].

(** [deleteMachineDeployment] given a machine: the object is no deployment, and the handler returns. *)
Definition deleteMachineDeployment_of_machine (machine : Machine) : prog unit := Ret tt.

Definition machine_handlers : list (handlers Machine) :=
  ((fun kind => on_all (machineToClassAdd kind) (machineToClassUpdate kind) (machineToClassDelete kind)) <$> class_kinds) ++
  [on_all InTreeMachine.addMachine InTreeMachine.updateMachine InTreeMachine.deleteMachine;
   on_all addMachineToMachineSet updateMachineToMachineSet deleteMachineToMachineSet;
   on_delete deleteMachineDeployment_of_machine;
   mkHandlers (Some addMachineToSafety) None (Some Freezing.deleteMachineToSafety)].

Definition node_handlers : list (handlers Node) :=
  [on_all InTreeMachine.addNodeToMachine InTreeMachine.updateNodeToMachine
     (fun node => InTreeMachine.deleteNodeToMachine (KeyFunc (n_Meta node)))].

(** ** The machine controller of the provider library *)

Definition provider_secret_handlers : list (handlers Secret) := secret_handlers.

Definition provider_class_handlers : list (handlers MachineClass) :=
  [on_all machineClassToSecretAdd machineClassToSecretUpdate machineClassToSecretDelete;
   on_all machineClassAdd machineClassUpdate machineClassDelete].

Definition provider_node_handlers : list (handlers Node) :=
  [on_all MachineController.addNodeToMachine MachineController.updateNodeToMachine
     (fun node => MachineController.deleteNodeToMachine (KeyFunc (n_Meta node)))].

Definition provider_machine_handlers : list (handlers Machine) :=
  [on_all machineToMachineClassAdd machineToMachineClassUpdate machineToMachineClassDelete;
   on_all MachineController.addMachine MachineController.updateMachine MachineController.deleteMachine;
   on_delete MachineSafety.deleteMachineToSafety].

(** ** Who is told of a machine *)

(** What one of the handlers does is done. *)
Lemma notify_one {A} (hs : list (handlers A)) c h l i f : exec (notify hs c) h (Return l) -> hs !! i = Some f ->
  exists h1, exec (deliver c f) h1 (Return tt) /\ forall e, e ∈ h1 -> e ∈ h.
Proof.
  intros He Hi. apply exec_par_list in He as (hs' & pk & F & _ & Hh).
  destruct (Forall3_lookup_l _ _ _ _ i (deliver c f) F) as (h1 & [] & H1 & _ & E); [by rewrite list_lookup_fmap, Hi|].
  exists h1. split; [done|]. intros e Hin. rewrite Hh. apply elem_of_app. left. apply elem_of_concat.
  exists h1. split; [done|]. by eapply list_elem_of_lookup_2.
Qed.

Section told.
Context (m : Machine) (ref : OwnerReference) (ms : MachineSet).

(** The cache has the machine set that the machine names as its controller. *)
Definition set_cached (h : history) : Prop :=
  Forall (fun e : event => match e with
    | existT (ListerGetMS ns name) x => ns = Namespace (m_Meta m) -> name = or_Name ref -> x = Ok ms
    | _ => True end) h.

Hypothesis (Hkind : or_Kind ref = "MachineSet") (Huid : is_UID ms = or_UID ref).

Definition set_told (h : history) : Prop := exists x, ev (EnqueueMachineSet (KeyFunc (is_Meta ms))) x ∈ h.

Lemma set_told_app h1 h2 : set_told h2 -> set_told (h1 ++ h2).
Proof. intros [x Hx]. exists x. apply elem_of_app. by right. Qed.

(** The set is found, and what is done with it is done. *)
Lemma resolve_told {A} (k : option MachineSet -> prog A) h o :
  exec (bind (resolveMachineSetControllerRef (Namespace (m_Meta m)) ref) k) h o -> set_cached h ->
  exists h1 h2, h = h1 ++ h2 /\ exec (k (Some ms)) h2 o.
Proof.
  unfold resolveMachineSetControllerRef. rewrite bool_decide_false by (rewrite Hkind; naive_solver).
  intros (x & h' & -> & He) HF. apply Forall_cons in HF as [Hx _]. rewrite (Hx eq_refl eq_refl) in He. cbn [bind] in He.
  rewrite bool_decide_false in He by (rewrite Huid; naive_solver). eexists [_], h'. by split.
Qed.

Lemma enqueueMachineSet_told h : exec (enqueueMachineSet ms) h (Return tt) -> set_told h.
Proof. intros (x & h' & -> & _). exists x. by left. Qed.

Lemma owner_told h : exec (enqueue_set_owner (Namespace (m_Meta m)) ref) h (Return tt) -> set_cached h -> set_told h.
Proof.
  intros He Hc. destruct (resolve_told _ _ _ He Hc) as (h1 & h2 & -> & E). by apply set_told_app, enqueueMachineSet_told.
Qed.

Hypothesis (Href : GetControllerOf (m_Meta m) = Some ref).

Lemma deletion_told h : exec (deleteMachineToMachineSet m) h (Return tt) -> set_cached h -> set_told h.
Proof.
  unfold deleteMachineToMachineSet. rewrite Href. intros He Hc. destruct (resolve_told _ _ _ He Hc) as (h1 & h2 & -> & E).
  destruct E as (x & h3 & -> & E). apply set_told_app, (set_told_app [_]), enqueueMachineSet_told, E.
Qed.

Lemma addition_told h : exec (addMachineToMachineSet m) h (Return tt) -> set_cached h -> set_told h.
Proof.
  unfold addMachineToMachineSet. case_bool_decide; [by apply deletion_told|]. rewrite Href. intros He Hc.
  destruct (resolve_told _ _ _ He Hc) as (h1 & h2 & -> & E). destruct E as (x & h3 & -> & E).
  apply set_told_app, (set_told_app [_]), enqueueMachineSet_told, E.
Qed.

Lemma update_told old h : ResourceVersion (m_Meta m) <> ResourceVersion (m_Meta old) ->
  exec (updateMachineToMachineSet old m) h (Return tt) -> set_cached h -> set_told h.
Proof.
  intros Hrv. unfold updateMachineToMachineSet. rewrite bool_decide_false by done. cbv zeta. intros He Hc.
  case_bool_decide.
  - destruct (exec_bind_ret _ _ _ _ He) as (h1 & [] & h2 & -> & E1 & _). apply Forall_app in Hc as [Hc _].
    destruct (deletion_told _ E1 Hc) as [x Hx]. exists x. apply elem_of_app. by left.
  - destruct (exec_bind_ret _ _ _ _ He) as (h1 & [] & h2 & -> & _ & E2). rewrite Href in E2.
    apply Forall_app in Hc as [_ Hc]. by apply set_told_app, owner_told.
Qed.
End told.

Definition noticed (c : change Machine) : Prop :=
  match c with Updated old new => ResourceVersion (m_Meta new) <> ResourceVersion (m_Meta old) | _ => True end.

(** Of every change of a machine of a provider-specific class those hear who are concerned, however their
    handlers interleave: the machine controller, the controller of the machine's class, the machine set that
    controls the machine, if the cache has it, and the safety controllers. *)
Theorem machine_change_told c h l : exec (notify machine_handlers c) h (Return l) ->
  let m := changed c in
  cl_Kind (sp_Class (m_Spec m)) ∈ provider_kinds ->
  (exists x, ev (EnqueueMachine (KeyFunc (m_Meta m))) x ∈ h) /\
  (exists x, ev (QueueAdd (cl_Kind (sp_Class (m_Spec m))) (cl_Name (sp_Class (m_Spec m)))) x ∈ h) /\
  (forall ref ms, noticed c -> GetControllerOf (m_Meta m) = Some ref -> or_Kind ref = "MachineSet" ->
     is_UID ms = or_UID ref -> set_cached m ref ms h -> set_told ms h) /\
  match c with
  | Added _ => exists x, ev (EnqueueSafetyOvershooting 0) x ∈ h
  | Updated _ _ => True
  | Deleted _ => exists x, ev (EnqueueSafetyOrphanVMs 0) x ∈ h
  end.
Proof.
  intros He m Hk. pose proof (fun i f => notify_one machine_handlers c h l i f He) as Hone. split; [|split; [|split]].
  - destruct (Hone 6%nat _ eq_refl) as (h1 & E & Hsub).
    assert (E' : exec (InTreeMachine.enqueueMachine m) h1 (Return tt)) by (by destruct c).
    unfold InTreeMachine.enqueueMachine in E'. rewrite bool_decide_true in E' by done. destruct E' as (x & h' & -> & _).
    exists x. apply Hsub. by left.
  - assert (Hi : exists i, class_kinds !! i = Some (cl_Kind (sp_Class (m_Spec m)))).
    { apply list_elem_of_lookup. unfold provider_kinds, class_kinds in *. set_solver. }
    destruct Hi as [i Hi].
    destruct (Hone i (on_all (machineToClassAdd (cl_Kind (sp_Class (m_Spec m)))) (machineToClassUpdate (cl_Kind (sp_Class (m_Spec m))))
      (machineToClassDelete (cl_Kind (sp_Class (m_Spec m)))))) as (h1 & E & Hsub).
    { unfold machine_handlers. rewrite lookup_app_l; [by rewrite list_lookup_fmap, Hi|].
      apply lookup_lt_Some in Hi. by rewrite length_fmap. }
    assert (E' : exists h2, exec (enqueue_class (cl_Kind (sp_Class (m_Spec m))) (sp_Class (m_Spec m))) h2 (Return tt) /\
      forall e, e ∈ h2 -> e ∈ h1).
    { destruct c as [x|x y|x]; [by exists h1| |by exists h1]. simpl in E. unfold machineToClassUpdate in E.
      case_bool_decide; [by exists h1|]. destruct (exec_bind_ret _ _ _ _ E) as (h3 & [] & h4 & -> & _ & E4).
      exists h4. split; [done|]. intros e Hin. apply elem_of_app. by right. }
    destruct E' as (h2 & E2 & Hsub2). unfold enqueue_class in E2. rewrite bool_decide_true in E2 by done.
    destruct E2 as (x & h' & -> & _). exists x. apply Hsub, Hsub2. by left.
  - intros ref ms Hn Href Hkind Huid Hc. destruct (Hone 7%nat _ eq_refl) as (h1 & E & Hsub).
    assert (Hc1 : set_cached m ref ms h1) by (unfold set_cached in *; rewrite Forall_forall in *; intros e Hin; by apply Hc, Hsub).
    assert (T : set_told ms h1); [|destruct T as [x Hx]; exists x; by apply Hsub].
    destruct c as [x|x y|x]; simpl in E.
    + by apply (addition_told x ref).
    + by apply (update_told y ref ms Hkind Huid Href x).
    + by apply (deletion_told x ref).
  - destruct c as [x|x y|x]; [|done|]; destruct (Hone 9%nat _ eq_refl) as (h1 & (a & h' & -> & _) & Hsub);
      exists a; apply Hsub; by left.
Qed.

(** The queue of the deployments is left alone. *)
Definition no_deployment (e : event) : Prop :=
  match projT1 e with EnqueueMD _ | EnqueueMDAfter _ _ | EnqueueMDRateLimited _ => False | _ => True end.

(** No deployment hears of a change of a machine: the handler registered for it expects a deployment. *)
Theorem machine_change_not_told_to_deployments c : emits no_deployment (notify machine_handlers c).
Proof.
  apply emits_par_list; [done|]. apply Forall_fmap. unfold machine_handlers, class_kinds, on_all, on_delete. simpl.
  repeat (apply Forall_cons; split); [..|constructor]; destruct c; cbn [deliver AddFunc UpdateFunc DeleteFunc];
    unfold machineToClassUpdate, machineToClassDelete, machineToClassAdd, enqueue_class, InTreeMachine.addMachine,
      InTreeMachine.updateMachine, InTreeMachine.deleteMachine, InTreeMachine.enqueueMachine, addMachineToSafety,
      Freezing.deleteMachineToSafety, enqueueMachineSafetyOvershootingKey, Freezing.enqueueMachineSafetyOrphanVMsKey,
      deleteMachineDeployment_of_machine, addMachineToMachineSet, updateMachineToMachineSet, deleteMachineToMachineSet,
      enqueue_set_owner, enqueue_matching, resolveMachineSetControllerRef, getMachineMachineSets, enqueueMachineSet;
    simpl; emits_all; try done.
Qed.
